(* ===== verification/_CoqProject ===== *)
-Q . S2P
Prelude.v
Bitmap.v
Fifo.v
SeqNum.v
Bytes.v
BitExpr.v
RtcpTx.v
RtcpRx.v
Convert.v
Simd.v
Avx512.v
Avx512Vbmi.v
Avx2.v
SimdConvert.v
SimdDma.v
Fmt.v
FrameConvert.v
RxAudio.v
TxCommon.v
TxAudio.v
AudioTimeline.v
AudioDelivery.v
AudioSend.v
AudioEndToEnd.v
HandleGuard.v
Anc.v
RxAnc.v
AncAssembly.v
AncSlots.v
AncFilter.v
AncDelivery.v
AncRefine.v
TxAnc.v
AncSend.v
AncEndToEnd.v
PipelineTx20.v
RxRing.v
TxRing.v
PipelineRx30.v
PipelineRx40.v
PipelineTx30.v
PipelineTx40.v
PipelineTx22.v
PipelineRx20.v
PipelineRx22.v
Mcast.v
Sch.v
RxVideo.v
TxVideo.v
RxReassembly.v
RxSlices.v
TxRxVideo.v
