(* ===== verification/Prelude.v ===== *)
(** * Verification of the Media Transport Library

    The Media Transport Library (lib/ of the repository) sends and receives
    SMPTE ST 2110 media over IP from user space: video (ST 2110-20), audio (-30)
    and ancillary data (-40), in RTP packets paced by a scheduler. This library
    models the part of it that carries data between the application and the wire
    and proves what each part promises. The code is C; a definition here has the
    name of the C function or type it translates, and every function is executable.

    ** The program and the files

    - Integers, arrays, errors. This file: C integers are [Z], wrapped where the C
      code stores them ([u8] ... [u64], [i32]); an error return is the negated
      errno, a sum or an option; arrays are lists ([arr_get], [arr_set]).
    - [Bitmap], [Fifo], [SeqNum] (lib/src/mt_util.c, mt_util.h, mt_rtcp.c): the bit
      sets, the ring of 64-bit items and the wrap-around comparisons the other parts
      use; [Fifo] also has the context that tracks conversions given to a DMA engine.
      [Bytes] has reads and writes of big-endian fields in a byte list, where a read
      out of range is [None].
    - [RtcpTx], [RtcpRx] (lib/src/mt_rtcp.c): the two ends of retransmission. The
      receiver tracks the sequence numbers in a bitmap window and asks for missing
      ones in a NACK packet; the sender keeps its last packets in a ring and answers.
      The mbuf pool and the transmit queue of DPDK are the class [RtcpTx.DpdkTx], with
      the one law used ([DpdkTxLaws]: a burst takes at most what it is given).
    - [Fmt] (lib/src/st2110/st_fmt.c): the tables of pixel formats, frame rates and
      static padding, frame sizes and layouts, time stamp arithmetic, audio packets.
    - [BitExpr], [Convert], [FrameConvert] (lib/src/st2110/st_convert.c): the scalar
      pixel and audio sample conversions, written over the packed bit fields of the
      wire formats; the table of converters between frame formats, with padded lines,
      through the entries that choose a vector way (the build and the CPU are parameters),
      and the splitting and merging of fields. [BitExpr] is a small language of bit
      expressions with a normal form, by reflection, that decides their equality.
    - [Simd], [Avx512], [Avx512Vbmi], [Avx2] (st_avx512.c, st_avx512_vbmi.c, st_avx2.c): the
      vector intrinsics as functions on byte lists and the conversions built from them, with
      their tables and loops; [SimdConvert] the [_simd] entries of st_convert.c, which choose
      a routine by the level of the CPU, and [SimdDma] the variants that fetch the source
      through a cache filled by a DMA engine (a parameter).
    - [RxAudio], [AudioTimeline], [AudioDelivery] (st_rx_audio_session.c): the audio
      receiver, its redundancy filter, frames on a grid of timestamps, missing packets.
      [TxCommon], [TxAudio], [AudioSend] (st_tx_audio_session.c): the audio sender,
      its builder and transmit tasklets and the ring between them. [AudioEndToEnd]
      joins the two.
    - [RxAnc], [AncAssembly], [AncSlots], [AncFilter], [AncDelivery], [AncRefine]
      (st_rx_ancillary_session.c): the ancillary receiver: the filter of redundant
      packets, the frame slots, the parser of entries and the delivery. [TxAnc],
      [AncSend] (st_tx_ancillary_session.c): the ancillary sender. [AncEndToEnd]
      joins the two.
    - [HandleGuard] (lib/src/mt_handle_guard.h, the blocking get of st20_pipeline_rx.c): the
      reference count that lets a session be freed while other threads may be inside its
      API, asleep in a blocking get or running. Threads take atomic steps in any
      interleaving; the wrapper is freed at the end, and a step on it then is a fault.
    - [Anc] (lib/src/st2110/st_ancillary.c): the RFC 8331 packet codec, bit by bit.
    - [PipelineTx20] (lib/src/st2110/pipeline/st20_pipeline_tx.c): the frame slots
      shared by the application (get, put), the converter plugin and the transport
      (next_frame, frame_done), with late-frame dropping, external frames, blocking
      get and callbacks. A callback is a function the application supplies; where the
      code races with other threads, an arbitrary list of their actions is interposed.
    - [TxRing] (st30_pipeline_tx.c, st40_pipeline_tx.c): the transmit pipeline without a
      converter, generic in the frame (class [TxMedia]); [PipelineTx30] and [PipelineTx40]
      are its instances for audio and ancillary data. [PipelineTx22] (st22_pipeline_tx.c) is
      the one for compressed video, with an encoder plugin between application and transport.
    - [RxRing], [PipelineRx20], [PipelineRx30], [PipelineRx40], [PipelineRx22]
      (st20_pipeline_rx.c, st30_pipeline_rx.c, st40_pipeline_rx.c, st22_pipeline_rx.c): the
      receive pipelines. In [PipelineRx20] a put is the check, the give-back and the store of
      the status as separate steps; in the others it is one. [RxRing] has the scan, the claim and the blocking get they share,
      and the classes [RxPipeline], [RxPipelineLaws] and [RxCtx] the pipelines are instances of.
    - [Mcast] (lib/src/mt_mcast.c, the checksum of mt_util.c): the multicast groups and
      sources of a port with their counts, the MAC filter of the device, the IGMP reports
      and the answer to a query, with the filter of a device and a reader of reports as
      specification.
    - [Sch] (lib/src/mt_sch.c): the schedulers: which one a session gets, its quota and
      references, tasklets and the turns of the thread that runs them.
    - [RxVideo] (lib/src/st2110/st_rx_video_session.c): frame assembly of the video
      receiver: pool of frames, slots per RTP timestamp, the packet handler, slices,
      delivery, loss counters. [RxReassembly] and [RxSlices] hold its main theorems.
    - [TxVideo] (lib/src/st2110/st_tx_video_session.c): how the sender cuts a frame
      into packets and builds them; [TxRxVideo] joins it to the receiver.

    ** What is proved

    - Sender to receiver. The packets built from the sender's frame buffer, however they
      are reordered, repeated or split over the ports, put the same lines into the
      receiver's frame, whatever the padding of either side
      ([TxRxVideo.st20_end_to_end], for the packings BPM, GPM and single line).
    - Video receiver. The packets of a frame, in any order, repeated, and split over
      two ports, give the application that frame exactly once with the bytes sent
      ([RxReassembly.rv_frame_reassembled]); no packet from the wire writes outside the
      frame buffer of a session [rv_attach] accepts ([RxVideo.rv_copies_in_bounds]);
      a frame the application holds is never touched and no frame has two owners
      ([RxVideo.rv_held_frames_untouched]); the announced slices are exactly those
      received without a gap ([RxSlices.rv_slices_prefix]).
    - Transmit pipeline. Every behaviour of a session refines an abstract machine of
      slots whose only moves are those of the state diagram, with one notification for each
      hand-out ([st20p_tx_refines_slots]); the transport gets the oldest frame that is not
      late ([st20p_next_frame_oldest]), and the scan ends
      ([st20p_next_frame_terminates]). In the audio and ancillary pipelines every frame that
      was sent or dropped is reported once, and counted, even when its slot is taken again
      before the report ([PipelineTx30.st30p_tx_frames_accounted],
      [PipelineTx40.st40p_tx_frames_accounted]); the transport gets the oldest frame put
      ([TxRing.tp_next_frame_oldest]). The same account holds for compressed video
      ([PipelineTx22.st22p_tx_frames_accounted]).
    - Receive pipelines. For an application that puts its frames back in order a pipeline is
      a bounded queue ([PipelineRx20.st20p_rx_refines_queue] and the like), and every buffer
      of the transport is in one slot or was given back once, provided no two threads put
      the same frame ([PipelineRx20.st20p_rx_buffers_balance],
      [PipelineRx22.st22p_rx_buffers_balance]).
    - Multicast. After any sequence of joins, leaves, queries and resets the port has the
      groups and sources its sessions asked for, the device filters exactly their MAC
      addresses, and what is answered and sent is what the memberships say
      ([Mcast.mcast_refines_memberships]).
    - Schedulers. Every scheduler counts the references and the quota of the sessions on it,
      and shares no more than its limit ([Sch.sch_quota_accounted]); a turn of the thread
      calls every tasklet once and none that was unregistered ([Sch.sch_pass_spec]).
    - Audio. What the sender takes from the application arrives: the samples of the
      packets that came, in their place in the right frame, silence for those that did
      not ([AudioEndToEnd.st30_end_to_end]); the receiver refines a timeline of frames
      ([AudioDelivery.ra_refines_timeline]) and neither writes outside a frame nor
      touches one the application holds; the sender keeps the order, the content and
      the time of the stream ([AudioSend]).
    - Ancillary data. The entries of the frames taken by the sender are those of the
      frames notified by the receiver ([AncEndToEnd.st40_end_to_end]); the receiver
      refines an abstract one that collects the packets of a frame
      ([AncRefine.rn_refines_frames]), takes no packet twice ([AncFilter]), parses
      inside packet, buffer and table ([AncAssembly]) and moves slots only along their
      life cycle ([AncSlots]); the sender refines one that cuts frames into packets
      and keeps the order of the stream ([AncSend]).
    - Conversions. A conversion and its inverse give the original, line padding and
      all, on every build and processor that can run the vector way chosen; two routes between formats agree; splitting and merging fields are inverse
      ([Convert], [FrameConvert]). Whatever CPU level is asked for or found, an entry of the
      vector conversions gives what the scalar routine gives
      ([SimdConvert.simd_entries_scalar]), and so do the DMA variants, which never read a
      cache line the engine has not filled ([SimdDma.simd_dma_entries_scalar]).
    - Retransmission. The parser never reads outside the packet, a NACK cannot ask
      for more than the ring holds, what is sent is exactly the copies asked for, and
      the ring keeps a run of consecutive sequence numbers ([RtcpTx]); a NACK
      lists exactly the missing packets, and the sender hands its retransmission the list
      the receiver encoded ([RtcpRx]).
    - Codec. Decoding inverts encoding, single-bit errors in the words are found, the
      table is the even-parity code ([Anc]).
    - Shared parts. The ring refines a bounded queue over any sequence of operations,
      the conversion counters balance ([Fifo]); after the drain no caller is inside or gets
      in, there is one destroyer, sleepers are woken and the drain ends ([HandleGuard]; a
      caller that is late can still touch the freed wrapper, [handle_late_increment]); conversions between
      epochs and time, sizes and layouts, and name lookups agree ([Fmt]).

    Lemmas on concrete inputs record behaviour that differs from the documentation,
    for example [RtcpRx.rtcp_rx_cont_stuck_at_wrap] or [RxVideo.odd_field_overrun].

    ** Bounds and fuel

    - [RtcpRx.SEQ_FUEL] = 32769: the loops over sequence numbers run while the number
      is at most half of the 16-bit circle ahead, so they take fewer turns.
    - [PipelineTx20.next_frame_fuel] = 80 + the interposed actions + 1: the code caps
      late drops at 80 per call and a lost race uses up one action;
      [st20p_next_frame_terminates] shows the result does not depend on more.
    - [PipelineTx20.flush_wait], [t30_flush_wait], [t40_flush_wait] and [t22_flush_wait] get
      101, one more than the retries the code allows; [PipelineTx22.t22_next_fuel] is as
      [next_frame_fuel]; [TxRing.TX_PICK_FUEL] = 81, one more than the drops of a
      call ([tp_pick_loop_fuel]).
    - [SimdDma] is about an engine that reports the copies asked for, one for each 16384
      bytes of a plane; fewer would leave the code waiting.
    - [RxVideo.slice_merge] gets one pass per table entry and one more; every pass but
      the last frees an entry ([RxSlices.slice_merge_spec]).
    - The rings of the audio sender have a power of two as size, found by halving at
      most 11 times; the redundancy window of the ancillary receiver has 64 numbers,
      so [AncRefine] and [AncEndToEnd] are about frames of at most 64 packets.
    - [Mcast.mcast_refines_memberships] is about runs of fewer than 65535 operations, so that
      the 16-bit reference counts do not wrap, and reports of at most 381 sources, which
      fit into an mbuf.
    - [RxVideo.rv_copies_in_bounds] is for buffers below 4 GB and interlaced sessions
      of even height; [odd_field_overrun] shows the latter is needed.

    ** What is not modelled

    Floating point (pacing, frame time meta data, timing parser, PTP servo): where it
    decides control flow it is a parameter. Creation and destruction of sessions beyond
    the sizes computed, DPDK devices, queues, flows and threads; of the video receiver
    DMA copy, header split, RTP passthrough, ST 2110-22, auto detection and user frames;
    of the video sender the hand-over of frames, pacing and the queues; the RTP-level
    senders of audio and ancillary data and pacing by rate limit; of the vector conversions
    the alignment of stores; USDT probes, packet capture and logging.

    ** What is left

    The address and port-map helpers of mt_util.c; the table of lcores shared between
    processes in mt_sch.c; DMA lending, plugin registration; the packet-type counts of
    [TxVideo.tv_block_info].

    ** This file

    Machine-width integers over [Z], C error codes, functional update of record
    fields, the tactics of the component files, and the generic lemmas on modular
    arithmetic, lists and bounded loops they share. *)
From Stdlib Require Export ZArith Lia.
From stdpp Require Export base tactics decidable option numbers list.

#[global] Open Scope Z_scope.

Declare Scope mtl_scope.
Delimit Scope mtl_scope with mtl.

(** ** Machine-width integers

    A C unsigned integer of width [w] is a [Z] in [0, 2^w); every arithmetic
    result that the C code stores into such a variable goes through one of the
    wrapping functions below. *)

Definition u8 (x : Z) : Z := x mod 256.
Definition u16 (x : Z) : Z := x mod 65536.
Definition u32 (x : Z) : Z := x mod 4294967296.
Definition u64 (x : Z) : Z := x mod 18446744073709551616.

(** Conversion to a signed 32-bit [int], as two's complement machines do it. *)
Definition i32 (x : Z) : Z := (x + 2147483648) mod 4294967296 - 2147483648.

(** The same for [int16_t] and [int64_t]. *)
Definition i16 (x : Z) : Z := (x + 32768) mod 65536 - 32768.
Definition i64 (x : Z) : Z := (x + 9223372036854775808) mod 18446744073709551616 - 9223372036854775808.

Definition is_u8 (x : Z) : Prop := 0 <= x < 256.
Definition is_u16 (x : Z) : Prop := 0 <= x < 65536.
Definition is_u32 (x : Z) : Prop := 0 <= x < 4294967296.
Definition is_u64 (x : Z) : Prop := 0 <= x < 18446744073709551616.

Definition UINT16_MAX : Z := 65535.
Definition UINT32_MAX : Z := 4294967295.
Definition UINT64_MAX : Z := 18446744073709551615.
Definition NS_PER_S : Z := 1000000000.

(** Error numbers of [errno.h]; a function that fails returns the negation. *)
Definition EIO : Z := 5.
Definition EAGAIN : Z := 11.
Definition ENOMEM : Z := 12.
Definition EBUSY : Z := 16.
Definition EINVAL : Z := 22.
Definition ENOSPC : Z := 28.

(** A C condition on an integer: non-zero is true. *)
Definition c_true (x : Z) : bool := negb (x =? 0).

(** Flag test [flags & mask]. *)
Definition has_flag (flags mask : Z) : bool := c_true (Z.land flags mask).

(** Array access: C arrays are lists of cells. Reads out of range give the
    default cell and writes out of range change nothing; the components prove
    that neither happens. *)
Definition arr_get {A} (d : A) (l : list A) (i : Z) : A :=
  if i <? 0 then d else default d (l !! Z.to_nat i).
Definition arr_set {A} (l : list A) (i : Z) (x : A) : list A :=
  if i <? 0 then l else <[Z.to_nat i := x]> l.
Definition arr_len {A} (l : list A) : Z := Z.of_nat (length l).

(** [a[i]++] on a small array of [uint32_t]. *)
Definition arr_inc (i : Z) (a : list Z) : list Z := arr_set a i (u32 (arr_get 0 a i + 1)).
(** The same for an array of [int]. *)
Definition arr_inc_int (i : Z) (a : list Z) : list Z := arr_set a i (i32 (arr_get 0 a i + 1)).

(** [memcpy(data + off, bytes, len(bytes))] *)
Definition splice (off : Z) (bytes data : list Z) : list Z :=
  take (Z.to_nat off) data ++ bytes ++ drop (Z.to_nat off + length bytes) data.

(** The [i]-th of the pieces of [len] bytes that [data] is cut into. *)
Definition chunk (len i : Z) (data : list Z) : list Z :=
  take (Z.to_nat len) (drop (Z.to_nat (i * len)) data).

(** Constants several sessions share. *)
Definition ST_SESSION_REDUNDANT_ERROR_THRESHOLD : Z := 20.
Definition ST_PKT_MAX_ETHER_BYTES : Z := 1460 + 14 + 20.

(** What an application answers to [notify_frame_ready]: it keeps the frame until it
    puts it back, it has put it back before the callback returned, or the callback
    returns an error. *)
Inductive app_answer := AppKeeps | AppReturns | AppFails.

(** ** Functional update of one record field

    [Settable R] gives the eta-expansion of a record; from it the setter of any
    field is built by replacing that projection in the expansion. *)
Class Settable (R : Type) := eta_of : R -> R.
Class Setter {R T : Type} (field : R -> T) := modify_field : (T -> T) -> R -> R.

Ltac build_setter :=
  match goal with
  | |- @Setter ?R ?T ?field =>
      let inst := constr:(_ : Settable R) in
      let inst := eval hnf in inst in
      let f := fresh "f" in
      let r := fresh "r" in
      refine (fun (f : T -> T) (r : R) => _);
      let body := eval cbv beta in (inst r) in
      match eval pattern (field r) in body with
      | ?ctx _ =>
          let res := eval cbv beta in (ctx (f (field r))) in exact res
      end
  end.
#[export] Hint Extern 1 (Setter _) => build_setter : typeclass_instances.

Notation "r <| f := v |>" := (modify_field (field := f) (fun _ => v) r)
  (at level 12, f at next level, left associativity) : mtl_scope.
Notation "r <| f ::= g |>" := (modify_field (field := f) g r)
  (at level 12, f at next level, left associativity) : mtl_scope.
#[global] Open Scope mtl_scope.

(** ** Tactics *)

(** Split boolean comparisons and connectives of the context into linear facts. *)
Ltac zbool :=
  repeat match goal with
  | H : (_ && _) = true |- _ => apply andb_true_iff in H as [? ?]
  | H : (_ || _) = false |- _ => apply orb_false_iff in H as [? ?]
  | H : (_ || _) = true |- _ => apply orb_true_iff in H
  | H : (_ && _) = false |- _ => apply andb_false_iff in H
  | H : negb _ = true |- _ => apply negb_true_iff in H
  | H : negb _ = false |- _ => apply negb_false_iff in H
  | H : (_ <? _) = true |- _ => apply Z.ltb_lt in H
  | H : (_ <? _) = false |- _ => apply Z.ltb_ge in H
  | H : (_ <=? _) = true |- _ => apply Z.leb_le in H
  | H : (_ <=? _) = false |- _ => apply Z.leb_gt in H
  | H : (_ =? _) = true |- _ => apply Z.eqb_eq in H
  | H : (_ =? _) = false |- _ => apply Z.eqb_neq in H
  | H : (_ >? _) = _ |- _ => rewrite Z.gtb_ltb in H
  | H : (_ >=? _) = _ |- _ => rewrite Z.geb_leb in H
  end.

(** Case analysis on the scrutinee of an [if] of the goal. *)
Ltac case_if :=
  match goal with
  | |- context [if ?b then _ else _] =>
      let E := fresh "E" in destruct b eqn:E
  end.
Ltac case_if_in H :=
  match type of H with
  | context [if ?b then _ else _] =>
      let E := fresh "E" in destruct b eqn:E
  end.

(** Reduce the option monad and nothing else. *)
Ltac obind := cbn [mbind option_bind fmap option_fmap option_map negb].

(** Linear arithmetic with division and modulo by constants. *)
Ltac mlia :=
  unfold u8, u16, u32, u64, i16, i32, i64, is_u8, is_u16, is_u32, is_u64,
    UINT16_MAX, UINT32_MAX, UINT64_MAX in *;
  zbool; Z.to_euclidean_division_equations; lia.

(** ** Lemmas *)

Lemma u8_range x : is_u8 (u8 x).
Proof. apply Z.mod_pos_bound; lia. Qed.
Lemma u16_range x : is_u16 (u16 x).
Proof. apply Z.mod_pos_bound; lia. Qed.
Lemma u32_range x : is_u32 (u32 x).
Proof. apply Z.mod_pos_bound; lia. Qed.
Lemma u64_range x : is_u64 (u64 x).
Proof. apply Z.mod_pos_bound; lia. Qed.

Lemma u8_id x : is_u8 x -> u8 x = x.
Proof. apply Z.mod_small. Qed.
Lemma u16_id x : is_u16 x -> u16 x = x.
Proof. apply Z.mod_small. Qed.
Lemma u32_id x : is_u32 x -> u32 x = x.
Proof. apply Z.mod_small. Qed.
Lemma u64_id x : is_u64 x -> u64 x = x.
Proof. apply Z.mod_small. Qed.

Create HintDb mtl.
#[export] Hint Resolve u8_range u16_range u32_range u64_range : mtl.
#[export] Hint Rewrite u8_id u16_id u32_id u64_id using (first [assumption | lia]) : mtl.

Lemma arr_get_set_eq {A} (d : A) l i x :
  0 <= i < arr_len l -> arr_get d (arr_set l i x) i = x.
Proof.
  intros [H0 H1]. unfold arr_get, arr_set, arr_len in *.
  destruct (Z.ltb_spec i 0); [lia|]. rewrite list_lookup_insert_eq by lia. done.
Qed.

Lemma arr_get_set_ne {A} (d : A) l i j x :
  i <> j -> 0 <= i -> 0 <= j -> arr_get d (arr_set l i x) j = arr_get d l j.
Proof.
  intros Hij Hi Hj. unfold arr_get, arr_set.
  destruct (Z.ltb_spec j 0); [done|]. destruct (Z.ltb_spec i 0); [done|].
  rewrite list_lookup_insert_ne; [done|lia].
Qed.

Lemma arr_len_set {A} (l : list A) i x : arr_len (arr_set l i x) = arr_len l.
Proof. unfold arr_len, arr_set. case_if; [done|]. by rewrite length_insert. Qed.

Lemma arr_get_Forall {A} (P : A -> Prop) (d : A) l i :
  P d -> Forall P l -> P (arr_get d l i).
Proof.
  intros Hd HF. unfold arr_get. case_if; [done|].
  destruct (l !! Z.to_nat i) eqn:El; simpl; [|done].
  by eapply Forall_lookup_1.
Qed.

Lemma arr_set_Forall {A} (P : A -> Prop) l i (x : A) :
  P x -> Forall P l -> Forall P (arr_set l i x).
Proof. intros. unfold arr_set. case_if; [done|]. by apply Forall_insert. Qed.

#[export] Hint Rewrite @arr_len_set : mtl.

(** A power of two is a single set bit. *)
Lemma shiftl_1_testbit i j : 0 <= i -> Z.testbit (Z.shiftl 1 i) j = bool_decide (i = j).
Proof.
  intros Hi. rewrite Z.shiftl_1_l. case_bool_decide as E.
  - subst. by apply Z.pow2_bits_true.
  - by apply Z.pow2_bits_false.
Qed.

Lemma land_shiftl_1 x i : 0 <= i -> c_true (Z.land x (Z.shiftl 1 i)) = Z.testbit x i.
Proof.
  intros Hi. unfold c_true. destruct (Z.testbit x i) eqn:E.
  - apply negb_true_iff, Z.eqb_neq. intros H0.
    assert (Z.testbit (Z.land x (Z.shiftl 1 i)) i = false) as Hc by (rewrite H0; apply Z.bits_0).
    rewrite Z.land_spec, E, shiftl_1_testbit in Hc by lia.
    by rewrite bool_decide_eq_true_2 in Hc.
  - apply negb_false_iff, Z.eqb_eq. apply Z.bits_inj'. intros n Hn.
    rewrite Z.land_spec, Z.bits_0, shiftl_1_testbit by lia.
    case_bool_decide; subst; [by rewrite E|by rewrite andb_false_r].
Qed.

(** A byte has no bit at or above position 8, and conversely. *)
Lemma bits_above x w i : 0 <= w -> 0 <= x < 2 ^ w -> w <= i -> Z.testbit x i = false.
Proof.
  intros Hw Hx Hi. rewrite <- (Z.mod_small x (2 ^ w)) by done.
  by apply Z.mod_pow2_bits_high.
Qed.

Lemma bits_below_range x w :
  0 <= w -> 0 <= x -> (forall i, w <= i -> Z.testbit x i = false) -> x < 2 ^ w.
Proof.
  intros Hw Hx Hb. destruct (decide (x = 0)) as [->|Hne].
  { apply Z.pow_pos_nonneg; lia. }
  destruct (Z.lt_ge_cases x (2 ^ w)) as [|Hge]; [done|].
  assert (w <= Z.log2 x) by (apply Z.log2_le_pow2; lia).
  pose proof (Z.bit_log2 x ltac:(lia)) as Ht. rewrite Hb in Ht by done. done.
Qed.

(** ** Bounded loops

    [loop_while n c b s] runs [while (c s) s = b s] for at most [n] turns. *)
Fixpoint loop_while {A} (n : nat) (c : A -> bool) (b : A -> A) (s : A) : A :=
  match n with
  | O => s
  | S n' => if c s then loop_while n' c b (b s) else s
  end.

Section LoopWhile.
Context {A : Type} (c : A -> bool) (b : A -> A).

Lemma loop_while_inv (P : A -> Prop) n s :
  (forall s, P s -> c s = true -> P (b s)) -> P s -> P (loop_while n c b s).
Proof.
  intros Hb. revert s. induction n as [|n IH]; intros s Hs; simpl; [done|].
  case_if; [|done]. apply IH. by apply Hb.
Qed.

(** Enough fuel for a measure that every turn decreases makes the loop exit. *)
Lemma loop_while_exits (m : A -> nat) n s :
  (forall s, c s = true -> (m (b s) < m s)%nat) ->
  (m s <= n)%nat -> c (loop_while n c b s) = false.
Proof.
  intros Hm. revert s. induction n as [|n IH]; intros s Hs; simpl.
  - destruct (c s) eqn:E; [|done]. apply Hm in E. lia.
  - case_if; [|done]. apply IH. apply Hm in E. lia.
Qed.

Lemma loop_while_inv_exits (P : A -> Prop) (m : A -> nat) n s :
  (forall s, P s -> c s = true -> P (b s) /\ (m (b s) < m s)%nat) ->
  P s -> (m s <= n)%nat ->
  P (loop_while n c b s) /\ c (loop_while n c b s) = false.
Proof.
  intros Hb. revert s. induction n as [|n IH]; intros s Hs Hn; simpl.
  - destruct (c s) eqn:E; [|done]. destruct (Hb _ Hs E). lia.
  - case_if; [|done]. destruct (Hb _ Hs E). apply IH; [done|lia].
Qed.
End LoopWhile.

(** [for_from i n f s] runs [for (k = i; k < i + n; k++) s = f k s]. *)
Fixpoint for_from {A} (i : Z) (n : nat) (f : Z -> A -> A) (s : A) : A :=
  match n with
  | O => s
  | S n' => for_from (i + 1) n' f (f i s)
  end.

Lemma for_from_inv {A} (P : Z -> A -> Prop) (f : Z -> A -> A) n i s :
  P i s ->
  (forall k s, i <= k < i + Z.of_nat n -> P k s -> P (k + 1) (f k s)) ->
  P (i + Z.of_nat n) (for_from i n f s).
Proof.
  revert i s. induction n as [|n IH]; intros i s HP Hf; simpl.
  - by replace (i + Z.of_nat 0) with i by lia.
  - replace (i + Z.of_nat (S n)) with (i + 1 + Z.of_nat n) by lia.
    apply IH; [apply Hf; [lia|done]|]. intros k s' Hk. apply Hf. lia.
Qed.

Lemma for_upto_inv {A} (P : Z -> A -> Prop) (f : Z -> A -> A) n s :
  0 <= n -> P 0 s ->
  (forall k s, 0 <= k < n -> P k s -> P (k + 1) (f k s)) ->
  P n (for_from 0 (Z.to_nat n) f s).
Proof.
  intros Hn H0 Hf. pose proof (for_from_inv P f (Z.to_nat n) 0 s H0) as H.
  replace (0 + Z.of_nat (Z.to_nat n)) with n in H by lia. by apply H.
Qed.

(** Elements of an array as a total function. *)
Lemma arr_get_lookup {A} (d : A) l i x :
  0 <= i -> l !! Z.to_nat i = Some x -> arr_get d l i = x.
Proof. intros Hi Hl. unfold arr_get. destruct (Z.ltb_spec i 0); [lia|]. by rewrite Hl. Qed.

Lemma arr_get_out {A} (d : A) l i : arr_len l <= i -> arr_get d l i = d.
Proof.
  intros Hi. unfold arr_get, arr_len in *. destruct (Z.ltb_spec i 0); [lia|].
  by rewrite lookup_ge_None_2 by lia.
Qed.

Lemma seqZ_snoc m n : 0 <= n -> seqZ m (n + 1) = seqZ m n ++ [m + n].
Proof. intros Hn. rewrite seqZ_app by lia. done. Qed.

Lemma fmap_seqZ_ext {A} (f g : Z -> A) m n :
  (forall i, m <= i < m + n -> f i = g i) -> f <$> seqZ m n = g <$> seqZ m n.
Proof. intros H. apply list_fmap_ext. intros i x Hx. apply lookup_seqZ in Hx. apply H. lia. Qed.

Lemma for_from_ext {A} (f g : Z -> A -> A) n i s :
  (forall k s, i <= k < i + Z.of_nat n -> f k s = g k s) -> for_from i n f s = for_from i n g s.
Proof.
  revert i s. induction n as [|n IH]; intros i s H; [done|]. simpl. rewrite H by lia.
  apply IH. intros k s' Hk. apply H. lia.
Qed.

(** Updating an element in a way a projection does not see. *)
Lemma fmap_alter_same {A B} (f : A -> B) (g : A -> A) (i : nat) (l : list A) :
  (forall x, f (g x) = f x) -> f <$> alter g i l = f <$> l.
Proof.
  intros Hg. apply list_eq. intros j. rewrite !list_lookup_fmap.
  destruct (decide (i = j)) as [<-|Hne].
  - rewrite list_lookup_alter_eq. destruct (l !! i); cbn; [by rewrite Hg|done].
  - by rewrite list_lookup_alter_ne.
Qed.

Lemma lookup_fmap_eq {A B} (f : A -> B) (l l' : list A) (d : A) (i : nat) :
  f <$> l' = f <$> l -> f (default d (l' !! i)) = f (default d (l !! i)).
Proof.
  intros H. apply (f_equal (fun l => l !! i)) in H. rewrite !list_lookup_fmap in H.
  destruct (l' !! i), (l !! i); cbn in *; congruence.
Qed.

(** A copy into an array changes exactly the bytes it covers. *)
Lemma splice_length off bytes d :
  0 <= off -> off + arr_len bytes <= arr_len d -> length (splice off bytes d) = length d.
Proof. intros H0 H1. unfold splice, arr_len in *. rewrite !length_app, length_take, length_drop. lia. Qed.

Lemma splice_lookup off bytes d j :
  0 <= off -> off + arr_len bytes <= arr_len d ->
  splice off bytes d !! j =
    if decide (Z.to_nat off <= j < Z.to_nat off + length bytes)%nat
    then bytes !! (j - Z.to_nat off)%nat else d !! j.
Proof.
  intros H0 H1. unfold splice, arr_len in *. rewrite !lookup_app, length_take.
  replace (Z.to_nat off `min` length d)%nat with (Z.to_nat off) by lia.
  destruct (decide _) as [Hin|Hout].
  - rewrite (proj2 (lookup_ge_None _ _)) by (rewrite length_take; lia).
    destruct (bytes !! (j - Z.to_nat off)%nat) eqn:E; [done|]. apply lookup_ge_None in E. lia.
  - destruct (decide (j < Z.to_nat off)%nat).
    + rewrite lookup_take_lt by lia. destruct (d !! j) eqn:E; [done|]. apply lookup_ge_None in E. lia.
    + rewrite (proj2 (lookup_ge_None (take _ _) _)) by (rewrite length_take; lia).
      rewrite (proj2 (lookup_ge_None bytes _)) by lia. rewrite lookup_drop. f_equal. lia.
Qed.

Lemma chunk_splice len i j bytes d :
  0 <= i -> 0 <= j -> arr_len bytes = len -> (i + 1) * len <= arr_len d -> (j + 1) * len <= arr_len d ->
  chunk len j (splice (i * len) bytes d) = if i =? j then bytes else chunk len j d.
Proof.
  intros Hi Hj Hb Hid Hjd. unfold chunk, arr_len in *. apply list_eq. intros k.
  destruct (decide (k < Z.to_nat len)%nat) as [Hk|Hk]; cycle 1.
  { rewrite lookup_take_ge by lia. case_if; [|by rewrite lookup_take_ge by lia].
    symmetry. apply lookup_ge_None_2. lia. }
  rewrite lookup_take_lt, lookup_drop, splice_lookup by (unfold arr_len; nia).
  assert (0 <= i * len /\ 0 <= j * len) by nia.
  destruct (Z.eqb_spec i j) as [->|Hne].
  - rewrite decide_True by lia. f_equal. lia.
  - rewrite lookup_take_lt, lookup_drop by lia.
    rewrite decide_False; [done|].
    assert (j * len + len <= i * len \/ i * len + len <= j * len) by nia. lia.
Qed.

Lemma chunk_length len i d : 0 <= i -> 0 <= len -> (i + 1) * len <= arr_len d -> arr_len (chunk len i d) = len.
Proof. intros. unfold chunk, arr_len in *. rewrite length_take, length_drop. nia. Qed.

Lemma concat_chunks len n d :
  0 <= n -> 0 <= len -> arr_len d = n * len ->
  d = concat ((fun i => chunk len i d) <$> seqZ 0 n).
Proof.
  intros Hn Hl. revert d. pattern n. apply natlike_ind; [| |done].
  - intros d Hd. destruct d; [done|]. unfold arr_len in Hd. simpl in Hd. lia.
  - clear n Hn. intros n Hn IH d Hd. unfold arr_len in Hd.
    rewrite seqZ_cons by lia. rewrite Z.pred_succ. cbn [fmap list_fmap concat].
    rewrite <- (take_drop (Z.to_nat len) d) at 1. f_equal.
    rewrite (IH (drop (Z.to_nat len) d)) at 1 by (unfold arr_len; rewrite length_drop; nia).
    f_equal. replace (Z.succ 0) with (1 + 0) by lia. rewrite <- fmap_add_seqZ, <- list_fmap_compose.
    apply fmap_seqZ_ext. intros i Hi. cbn. unfold chunk. rewrite drop_drop. do 2 f_equal. nia.
Qed.

Lemma concat_length_eq len (ls : list (list Z)) :
  Forall (fun x => arr_len x = len) ls -> arr_len (concat ls) = Z.of_nat (length ls) * len.
Proof.
  induction 1 as [|x ls Hx _ IH]; [done|]. cbn [concat length]. unfold arr_len in *. rewrite length_app. lia.
Qed.

Lemma chunk_concat len (ls : list (list Z)) (i : nat) x :
  0 <= len -> Forall (fun x => arr_len x = len) ls -> ls !! i = Some x -> chunk len (Z.of_nat i) (concat ls) = x.
Proof.
  intros Hlen HF. revert i. induction HF as [|y ls Hy _ IH]; intros i Hi; [done|]. cbn [concat].
  unfold chunk, arr_len in *. destruct i as [|i].
  - injection Hi as ->. change (Z.to_nat (Z.of_nat 0 * len)) with 0%nat. rewrite drop_0, take_app_le by lia.
    apply take_ge. lia.
  - rewrite drop_app_ge by lia. rewrite <- (IH i Hi). do 2 f_equal. lia.
Qed.

(** One occurrence of an element goes. *)
Definition remove_one `{EqDecision A} (x : A) (l : list A) : list A :=
  match list_find (eq x) l with Some (i, _) => delete i l | None => l end.

Lemma remove_one_perm `{EqDecision A} (x : A) (l : list A) : x ∈ l -> l ≡ₚ x :: remove_one x l.
Proof.
  intros Hx. unfold remove_one. destruct (list_find (eq x) l) as [[i y]|] eqn:Ef.
  - apply list_find_Some in Ef as (Hi & <- & _). by apply delete_Permutation.
  - apply list_find_None in Ef. rewrite Forall_forall in Ef. by destruct (Ef x Hx).
Qed.

Lemma arr_len_app {A} (l1 l2 : list A) : arr_len (l1 ++ l2) = arr_len l1 + arr_len l2.
Proof. unfold arr_len. rewrite length_app. lia. Qed.
