(* ===== verification/Bitmap.v ===== *)
(** The packet bitmap of lib/src/mt_util.c: [mt_bitmap_test],
    [mt_bitmap_test_and_set] and [mt_bitmap_test_and_unset], on a byte array
    that may be NULL, and the abstract set of bit indices they implement. *)
From S2P Require Import Prelude.

(** ** The code *)

(** A [uint8_t*] that may be NULL, with the bytes it points to. *)
Definition bitmap_ptr : Type := option (list Z).

Definition bitmap_idx_valid (bitmap : bitmap_ptr) (size idx : Z) : bool :=
  match bitmap with
  | None => false
  | Some _ => negb ((idx <? 0) || (size <=? idx / 8))
  end.

Definition bitmap_byte (bitmap : bitmap_ptr) (pos : Z) : Z :=
  match bitmap with
  | None => 0
  | Some l => arr_get 0 l pos
  end.

Definition mt_bitmap_test (bitmap : bitmap_ptr) (size idx : Z) : bool :=
  if negb (bitmap_idx_valid bitmap size idx) then false
  else
    let pos := idx / 8 in
    let off := idx mod 8 in
    let bits := bitmap_byte bitmap pos in
    c_true (Z.land bits (Z.shiftl 1 off)).

(** Returns the boolean result and the bitmap after the call. *)
Definition mt_bitmap_test_and_set (bitmap : bitmap_ptr) (size idx : Z) : bool * bitmap_ptr :=
  if negb (bitmap_idx_valid bitmap size idx) then (true, bitmap)
  else
    let pos := idx / 8 in
    let off := idx mod 8 in
    let bits := bitmap_byte bitmap pos in
    if c_true (Z.land bits (Z.shiftl 1 off)) then (true, bitmap)
    else (false, (fun l => arr_set l pos (u8 (Z.lor bits (Z.shiftl 1 off)))) <$> bitmap).

Definition mt_bitmap_test_and_unset (bitmap : bitmap_ptr) (size idx : Z) : bool * bitmap_ptr :=
  if negb (bitmap_idx_valid bitmap size idx) then (true, bitmap)
  else
    let pos := idx / 8 in
    let off := idx mod 8 in
    let bits := bitmap_byte bitmap pos in
    if negb (c_true (Z.land bits (Z.shiftl 1 off))) then (true, bitmap)
    else
      (false,
       (fun l => arr_set l pos (u8 (Z.land bits (Z.lxor 255 (Z.shiftl 1 off))))) <$> bitmap).

(** ** The abstract set

    [bm_mem l i]: index [i] is a member of the set the bytes [l] represent. *)
Definition bm_mem (l : list Z) (i : Z) : bool :=
  (0 <=? i) && (i <? 8 * arr_len l) && Z.testbit (arr_get 0 l (i / 8)) (i mod 8).

(** Well-formed bytes. *)
Definition bm_wf (l : list Z) : Prop := Forall is_u8 l.

(** The bytes [memset(bitmap, 0, size)] leaves. *)
Definition bm_zero (size : Z) : list Z := replicate (Z.to_nat size) 0.

(** ** Facts *)

Lemma bm_zero_mem size i : bm_mem (bm_zero size) i = false.
Proof.
  unfold bm_mem, bm_zero, arr_get. destruct (Z.ltb_spec (i / 8) 0).
  { by rewrite Z.bits_0, andb_false_r. }
  destruct (replicate _ _ !! _) as [x|] eqn:E; simpl.
  - apply lookup_replicate in E as [-> _]. by rewrite Z.bits_0, andb_false_r.
  - by rewrite Z.bits_0, andb_false_r.
Qed.

Lemma bm_zero_len size : 0 <= size -> arr_len (bm_zero size) = size.
Proof. intros. unfold arr_len, bm_zero. rewrite length_replicate. lia. Qed.

Lemma bm_zero_wf size : bm_wf (bm_zero size).
Proof. apply Forall_replicate. unfold is_u8. lia. Qed.

Lemma bitmap_idx_valid_Some l size idx :
  bitmap_idx_valid (Some l) size idx = (0 <=? idx) && (idx <? 8 * size).
Proof.
  unfold bitmap_idx_valid.
  destruct (Z.ltb_spec idx 0), (Z.leb_spec size (idx / 8)),
    (Z.leb_spec 0 idx), (Z.ltb_spec idx (8 * size)); simpl; try done; mlia.
Qed.

(** Setting or clearing one bit of one byte. *)
Lemma byte_set_bit b off j :
  is_u8 b -> 0 <= off < 8 -> 0 <= j < 8 ->
  Z.testbit (u8 (Z.lor b (Z.shiftl 1 off))) j = Z.testbit b j || bool_decide (off = j).
Proof.
  intros Hb Ho Hj. unfold u8. change 256 with (2 ^ 8).
  rewrite Z.mod_pow2_bits_low, Z.lor_spec, shiftl_1_testbit by lia. done.
Qed.

Lemma byte_unset_bit b off j :
  is_u8 b -> 0 <= off < 8 -> 0 <= j < 8 ->
  Z.testbit (u8 (Z.land b (Z.lxor 255 (Z.shiftl 1 off)))) j
  = Z.testbit b j && negb (bool_decide (off = j)).
Proof.
  intros Hb Ho Hj. unfold u8. change 256 with (2 ^ 8).
  rewrite Z.mod_pow2_bits_low, Z.land_spec, Z.lxor_spec, shiftl_1_testbit by lia.
  change 255 with (Z.ones 8). rewrite Z.ones_spec_low by lia. done.
Qed.

(** Writing one byte changes only the bits of that byte. *)
Lemma bm_mem_arr_set l pos v i :
  0 <= pos < arr_len l ->
  bm_mem (arr_set l pos v) i =
    if i / 8 =? pos then (0 <=? i) && (i <? 8 * arr_len l) && Z.testbit v (i mod 8)
    else bm_mem l i.
Proof.
  intros Hp. unfold bm_mem. rewrite arr_len_set.
  destruct (Z.eqb_spec (i / 8) pos) as [E|E].
  - rewrite E, arr_get_set_eq by done. done.
  - destruct (Z.leb_spec 0 i); [|done].
    rewrite arr_get_set_ne by (try lia; apply Z.div_pos; lia). done.
Qed.

Section Spec.
Context (l : list Z) (size idx : Z).
Hypothesis Hwf : bm_wf l.
Hypothesis Hlen : arr_len l = size.

Lemma bm_byte_range : is_u8 (arr_get 0 l (idx / 8)).
Proof. apply arr_get_Forall; [unfold is_u8; lia|exact Hwf]. Qed.

Lemma bitmap_test_mem : mt_bitmap_test (Some l) size idx = bm_mem l idx.
Proof using Hlen.
  unfold mt_bitmap_test, bm_mem, bitmap_byte. rewrite bitmap_idx_valid_Some, Hlen.
  destruct (Z.leb_spec 0 idx); simpl; [|done].
  destruct (Z.ltb_spec idx (8 * size)); simpl; [|done].
  rewrite land_shiftl_1; [done|mlia].
Qed.

(** [mt_bitmap_test_and_set] reports membership and adds the index. *)
Lemma bitmap_set_spec :
  0 <= idx < 8 * size ->
  exists l', mt_bitmap_test_and_set (Some l) size idx = (bm_mem l idx, Some l') /\
    bm_wf l' /\ arr_len l' = size /\
    forall i, bm_mem l' i = bm_mem l i || bool_decide (i = idx).
Proof using Hlen Hwf.
  intros Hi. unfold mt_bitmap_test_and_set, bitmap_byte.
  rewrite bitmap_idx_valid_Some, land_shiftl_1 by mlia.
  assert (Hv : (0 <=? idx) && (idx <? 8 * size) = true) by lia. rewrite Hv. simpl.
  assert (Hm : bm_mem l idx = Z.testbit (arr_get 0 l (idx / 8)) (idx mod 8)).
  { unfold bm_mem. by rewrite Hlen, Hv. }
  rewrite <- Hm. destruct (bm_mem l idx) eqn:E.
  - exists l. repeat split; try done. intros i.
    case_bool_decide; subst; [by rewrite E|by rewrite orb_false_r].
  - eexists. split; [done|]. split; [|split].
    + apply arr_set_Forall; [apply u8_range|exact Hwf].
    + by rewrite arr_len_set.
    + intros i. rewrite bm_mem_arr_set by mlia.
      destruct (Z.eqb_spec (i / 8) (idx / 8)) as [Ed|Ed].
      * rewrite byte_set_bit by (try apply bm_byte_range; mlia).
        unfold bm_mem. rewrite Ed.
        destruct (Z.leb_spec 0 i); simpl; [|case_bool_decide; [lia|done]].
        destruct (Z.ltb_spec i (8 * arr_len l)); simpl; [|case_bool_decide; [lia|done]].
        f_equal. apply bool_decide_ext. mlia.
      * case_bool_decide as Ei; [by subst|by rewrite orb_false_r].
Qed.

(** [mt_bitmap_test_and_unset] reports absence and removes the index. *)
Lemma bitmap_unset_spec :
  0 <= idx < 8 * size ->
  exists l', mt_bitmap_test_and_unset (Some l) size idx = (negb (bm_mem l idx), Some l') /\
    bm_wf l' /\ arr_len l' = size /\
    forall i, bm_mem l' i = bm_mem l i && negb (bool_decide (i = idx)).
Proof using Hlen Hwf.
  intros Hi. unfold mt_bitmap_test_and_unset, bitmap_byte.
  rewrite bitmap_idx_valid_Some, land_shiftl_1 by mlia.
  assert (Hv : (0 <=? idx) && (idx <? 8 * size) = true) by lia. rewrite Hv. simpl.
  assert (Hm : bm_mem l idx = Z.testbit (arr_get 0 l (idx / 8)) (idx mod 8)).
  { unfold bm_mem. by rewrite Hlen, Hv. }
  rewrite <- Hm. destruct (bm_mem l idx) eqn:E; simpl.
  - eexists. split; [done|]. split; [|split].
    + apply arr_set_Forall; [apply u8_range|exact Hwf].
    + by rewrite arr_len_set.
    + intros i. rewrite bm_mem_arr_set by mlia.
      destruct (Z.eqb_spec (i / 8) (idx / 8)) as [Ed|Ed].
      * rewrite byte_unset_bit by (try apply bm_byte_range; mlia).
        unfold bm_mem. rewrite Ed. rewrite andb_assoc. f_equal. f_equal.
        apply bool_decide_ext. mlia.
      * case_bool_decide as Ei; [by subst|by rewrite andb_true_r].
  - exists l. repeat split; try done. intros i.
    case_bool_decide; subst; [by rewrite E|by rewrite andb_true_r].
Qed.

(** Out of the bitmap nothing is written, and both report "nothing to do". *)
Lemma bitmap_out_of_range :
  ~ (0 <= idx < 8 * size) ->
  mt_bitmap_test (Some l) size idx = false /\
  mt_bitmap_test_and_set (Some l) size idx = (true, Some l) /\
  mt_bitmap_test_and_unset (Some l) size idx = (true, Some l).
Proof using.
  clear Hlen Hwf. intros Hi. unfold mt_bitmap_test, mt_bitmap_test_and_set, mt_bitmap_test_and_unset.
  rewrite bitmap_idx_valid_Some. replace ((0 <=? idx) && (idx <? 8 * size)) with false by lia.
  done.
Qed.
End Spec.
