(* ===== verification/Fifo.v ===== *)
(** The ring of 64-bit items of lib/src/mt_util.c and mt_util.h
    ([struct mt_u64_fifo]) and the conversion context [mt_cvt_dma_ctx] built on
    it. The ring is shown to implement a bounded first-in first-out queue. *)
From S2P Require Import Prelude.

(** ** The code *)

Record mt_u64_fifo := mk_fifo {
  fifo_data : list Z;
  write_idx : Z;
  read_idx : Z;
  fifo_size : Z;
  fifo_used : Z;
}.
#[export] Instance eta_fifo : Settable mt_u64_fifo :=
  fun f => mk_fifo (fifo_data f) (write_idx f) (read_idx f) (fifo_size f) (fifo_used f).

(** [mt_rte_zmalloc_socket] either fails or gives zeroed memory: the two
    booleans say which of the two allocations succeed. *)
Definition mt_u64_fifo_init (ok_fifo ok_data : bool) (size : Z) : option mt_u64_fifo :=
  if negb ok_fifo then None
  else if negb ok_data then None
  else Some (mk_fifo (replicate (Z.to_nat size) 0) 0 0 size 0).

(** Both blocks are freed when the result is 0. *)
Definition mt_u64_fifo_uinit (f : mt_u64_fifo) : Z :=
  if fifo_used f >? 0 then - EIO else 0.

(** [data[write_idx] = item; write_idx++; if (write_idx >= size) write_idx = 0;] *)
Definition fifo_push_cell (item : Z) (f : mt_u64_fifo) : mt_u64_fifo :=
  let f := f <| fifo_data := arr_set (fifo_data f) (write_idx f) item |> in
  let f := f <| write_idx ::= Z.succ |> in
  if write_idx f >=? fifo_size f then f <| write_idx := 0 |> else f.

(** [read_idx++; if (read_idx >= size) read_idx = 0;] *)
Definition fifo_next_read (f : mt_u64_fifo) : mt_u64_fifo :=
  let f := f <| read_idx ::= Z.succ |> in
  if read_idx f >=? fifo_size f then f <| read_idx := 0 |> else f.

Definition mt_u64_fifo_put (f : mt_u64_fifo) (item : Z) : Z * mt_u64_fifo :=
  if fifo_used f >=? fifo_size f then (- EIO, f)
  else (0, fifo_push_cell item f <| fifo_used ::= Z.succ |>).

(** [None] is the failing call, which leaves the output item alone. *)
Definition mt_u64_fifo_get (f : mt_u64_fifo) : option Z * mt_u64_fifo :=
  if fifo_used f <=? 0 then (None, f)
  else
    let item := arr_get 0 (fifo_data f) (read_idx f) in
    (Some item, fifo_next_read f <| fifo_used ::= Z.pred |>).

(** The operands of the full test are converted to [uint32_t]. *)
Definition mt_u64_fifo_put_bulk (f : mt_u64_fifo) (items : list Z) (n : Z) : Z * mt_u64_fifo :=
  if u32 (fifo_used f + n) >? u32 (fifo_size f) then (- EIO, f)
  else
    let f := for_from 0 (Z.to_nat n) (fun i f => fifo_push_cell (arr_get 0 items i) f) f in
    (0, f <| fifo_used ::= fun used => used + n |>).

Definition mt_u64_fifo_get_bulk (f : mt_u64_fifo) (n : Z) : option (list Z) * mt_u64_fifo :=
  if u32 (fifo_used f) <? n then (None, f)
  else
    let '(items, f) :=
      for_from 0 (Z.to_nat n)
        (fun _ '(items, f) =>
           (items ++ [arr_get 0 (fifo_data f) (read_idx f)], fifo_next_read f)) ([], f) in
    (Some items, f <| fifo_used ::= fun used => used - n |>).

Definition mt_u64_fifo_read_back (f : mt_u64_fifo) : option Z :=
  if fifo_used f <=? 0 then None
  else
    let idx := write_idx f - 1 in
    let idx := if idx <? 0 then fifo_size f - 1 else idx in
    Some (arr_get 0 (fifo_data f) idx).

Definition mt_u64_fifo_read_front (f : mt_u64_fifo) : option Z :=
  if fifo_used f <=? 0 then None else Some (arr_get 0 (fifo_data f) (read_idx f)).

Definition mt_u64_fifo_read_any (f : mt_u64_fifo) (skip : Z) : option Z :=
  if fifo_used f <=? 0 then None
  else if (skip <? 0) || (skip >=? fifo_used f) then None
  else
    let r := read_idx f + skip in
    let r := if r >=? fifo_size f then r - fifo_size f else r in
    Some (arr_get 0 (fifo_data f) r).

Definition mt_u64_fifo_read_any_bulk (f : mt_u64_fifo) (n skip : Z) : option (list Z) :=
  if u32 (fifo_used f) <? n then None
  else if (skip <? 0) || (u32 (skip + n) >? u32 (fifo_used f)) then None
  else
    let r := read_idx f + skip in
    let r := if r >=? fifo_size f then r - fifo_size f else r in
    let '(items, _) :=
      for_from 0 (Z.to_nat n)
        (fun _ '(items, r) =>
           let items := items ++ [arr_get 0 (fifo_data f) r] in
           let r := r + 1 in
           (items, if r >=? fifo_size f then 0 else r)) ([], r) in
    Some items.

Definition mt_u64_fifo_full (f : mt_u64_fifo) : bool := fifo_used f =? fifo_size f.
Definition mt_u64_fifo_count (f : mt_u64_fifo) : Z := fifo_used f.
Definition mt_u64_fifo_free_count (f : mt_u64_fifo) : Z := fifo_size f - fifo_used f.

(** [while (count > 0) { get; rte_pktmbuf_free }]: the freed mbufs in order. *)
Definition mt_fifo_mbuf_clean (f : mt_u64_fifo) : list Z * mt_u64_fifo :=
  loop_while (Z.to_nat (mt_u64_fifo_count f))
    (fun '(_, f) => mt_u64_fifo_count f >? 0)
    (fun '(freed, f) =>
       match mt_u64_fifo_get f with
       | (Some mbuf, f) => (freed ++ [mbuf], f)
       | (None, f) => (freed, f)
       end) ([], f).

(** ** The conversion context *)

Record mt_cvt_dma_ctx := mk_cvt_ctx {
  ctx_fifo : mt_u64_fifo;
  ctx_tran : list Z;
  ctx_done : list Z;
}.
#[export] Instance eta_cvt_ctx : Settable mt_cvt_dma_ctx :=
  fun c => mk_cvt_ctx (ctx_fifo c) (ctx_tran c) (ctx_done c).

(** The booleans are the outcomes of the five allocations, in the code's order. *)
Definition mt_cvt_dma_ctx_init (ok_ctx ok_fifo ok_data ok_tran ok_done : bool)
    (size type_num : Z) : option mt_cvt_dma_ctx :=
  if negb ok_ctx then None
  else
    match mt_u64_fifo_init ok_fifo ok_data size with
    | None => None
    | Some fifo =>
        if negb ok_tran then None
        else if negb ok_done then None
        else Some (mk_cvt_ctx fifo (replicate (Z.to_nat type_num) 0)
                     (replicate (Z.to_nat type_num) 0))
    end.

Definition mt_cvt_dma_ctx_push (c : mt_cvt_dma_ctx) (type : Z) : Z * mt_cvt_dma_ctx :=
  let '(ret, fifo) := mt_u64_fifo_put (ctx_fifo c) (u64 type) in
  let c := c <| ctx_fifo := fifo |> in
  if ret <? 0 then (ret, c)
  else (0, c <| ctx_tran ::= fun t => arr_set t type (arr_get 0 t type + 1) |>).

Definition mt_cvt_dma_ctx_pop (c : mt_cvt_dma_ctx) : Z * mt_cvt_dma_ctx :=
  match mt_u64_fifo_get (ctx_fifo c) with
  | (None, fifo) => (- EIO, c <| ctx_fifo := fifo |>)
  | (Some type, fifo) =>
      let c := c <| ctx_fifo := fifo |> in
      (0, c <| ctx_done ::= fun d => arr_set d type (arr_get 0 d type + 1) |>)
  end.

Definition mt_cvt_dma_ctx_get_done (c : mt_cvt_dma_ctx) (type : Z) : Z :=
  arr_get 0 (ctx_done c) type.
Definition mt_cvt_dma_ctx_get_tran (c : mt_cvt_dma_ctx) (type : Z) : Z :=
  arr_get 0 (ctx_tran c) type.

(** ** Invariant and abstract queue *)

Record fifo_wf (f : mt_u64_fifo) : Prop := {
  wf_size : 0 < fifo_size f < 2147483648;
  wf_data : arr_len (fifo_data f) = fifo_size f;
  wf_read : 0 <= read_idx f < fifo_size f;
  wf_used : 0 <= fifo_used f <= fifo_size f;
  wf_write : write_idx f = (read_idx f + fifo_used f) mod fifo_size f;
}.

(** The [k]-th item from the front, and the whole queue. *)
Definition fifo_nth (f : mt_u64_fifo) (k : Z) : Z :=
  arr_get 0 (fifo_data f) ((read_idx f + k) mod fifo_size f).
Definition fifo_view (f : mt_u64_fifo) : list Z :=
  fifo_nth f <$> seqZ 0 (fifo_used f).

(** ** Facts *)

Lemma fifo_view_length f : 0 <= fifo_used f -> arr_len (fifo_view f) = fifo_used f.
Proof. intros. unfold arr_len, fifo_view. rewrite length_fmap, length_seqZ. lia. Qed.

Lemma fifo_view_lookup f k :
  0 <= k < fifo_used f -> fifo_view f !! Z.to_nat k = Some (fifo_nth f k).
Proof.
  intros Hk. unfold fifo_view. rewrite list_lookup_fmap.
  rewrite lookup_seqZ_lt by lia. simpl. f_equal. f_equal. lia.
Qed.

(** Conditional reset of an index that ran off the end is reduction modulo the size. *)
Lemma wrap_index i n : 0 <= i < 2 * n -> (if i >=? n then i - n else i) = i mod n.
Proof.
  intros Hi. rewrite Z.geb_leb. destruct (Z.leb_spec n i).
  - rewrite <- (Z.mod_small (i - n) n) by lia. rewrite <- (Z.mod_add (i - n) 1 n) by lia. f_equal. lia.
  - symmetry. apply Z.mod_small. lia.
Qed.

Lemma succ_mod i n : 0 <= i < n -> (if i + 1 >=? n then 0 else i + 1) = (i + 1) mod n.
Proof.
  intros Hi. rewrite Z.geb_leb. destruct (Z.leb_spec n (i + 1)).
  - replace (i + 1) with n by lia. by rewrite Z.mod_same by lia.
  - symmetry. apply Z.mod_small. lia.
Qed.

Lemma add_mod_l a b n : n <> 0 -> (a mod n + b) mod n = (a + b) mod n.
Proof. intros. by rewrite Zplus_mod_idemp_l. Qed.

Lemma mod_shift_inj r i j n :
  0 < n -> 0 <= i < n -> 0 <= j < n -> (r + i) mod n = (r + j) mod n -> i = j.
Proof.
  intros Hn Hi Hj E. assert ((i - j) mod n = 0) as E0.
  { replace (i - j) with ((r + i) - (r + j)) by lia.
    rewrite Zminus_mod, E, Z.sub_diag. by apply Z.mod_0_l; lia. }
  apply Z.mod_divide in E0 as [q Hq]; [|lia]. assert (q = 0) by nia. lia.
Qed.

Lemma push_cell_fields item f :
  0 <= write_idx f < fifo_size f ->
  fifo_push_cell item f =
    mk_fifo (arr_set (fifo_data f) (write_idx f) item)
      ((write_idx f + 1) mod fifo_size f) (read_idx f) (fifo_size f) (fifo_used f).
Proof.
  intros Hw. unfold fifo_push_cell. cbn. rewrite <- (succ_mod (write_idx f)) by done.
  unfold Z.succ. destruct (write_idx f + 1 >=? fifo_size f); done.
Qed.

Lemma next_read_fields f :
  0 <= read_idx f < fifo_size f ->
  fifo_next_read f =
    mk_fifo (fifo_data f) (write_idx f)
      ((read_idx f + 1) mod fifo_size f) (fifo_size f) (fifo_used f).
Proof.
  intros Hr. unfold fifo_next_read. cbn. rewrite <- (succ_mod (read_idx f)) by done.
  unfold Z.succ. destruct (read_idx f + 1 >=? fifo_size f); done.
Qed.

(** Storing [item] behind the last element of a ring that is not full. *)
Lemma push_cell_nth item f k :
  fifo_wf f -> fifo_used f < fifo_size f -> 0 <= k <= fifo_used f ->
  fifo_nth (fifo_push_cell item f) k = if k =? fifo_used f then item else fifo_nth f k.
Proof.
  intros [Hs Hd Hr Hu Hw] Hlt Hk.
  assert (0 <= write_idx f < fifo_size f) by (rewrite Hw; apply Z.mod_pos_bound; lia).
  rewrite push_cell_fields by done. unfold fifo_nth. cbn. rewrite Hw.
  destruct (Z.eqb_spec k (fifo_used f)) as [->|Hne].
  - apply arr_get_set_eq. rewrite Hd. apply Z.mod_pos_bound; lia.
  - apply arr_get_set_ne; try (apply Z.mod_pos_bound; lia).
    intros E. symmetry in E. apply mod_shift_inj in E; lia.
Qed.

Definition fifo_pushed (item : Z) (f : mt_u64_fifo) : mt_u64_fifo :=
  fifo_push_cell item f <| fifo_used ::= Z.succ |>.
Definition fifo_popped (f : mt_u64_fifo) : mt_u64_fifo :=
  fifo_next_read f <| fifo_used ::= Z.pred |>.

Lemma fifo_pushed_spec item f :
  fifo_wf f -> fifo_used f < fifo_size f ->
  fifo_wf (fifo_pushed item f) /\
  fifo_view (fifo_pushed item f) = fifo_view f ++ [item].
Proof.
  intros Hwf Hlt. pose proof Hwf as [Hs Hd Hr Hu Hw].
  assert (Hwr : 0 <= write_idx f < fifo_size f) by (rewrite Hw; apply Z.mod_pos_bound; lia).
  assert (Hf : fifo_pushed item f =
    mk_fifo (arr_set (fifo_data f) (write_idx f) item)
      ((write_idx f + 1) mod fifo_size f) (read_idx f) (fifo_size f) (fifo_used f + 1)).
  { unfold fifo_pushed. rewrite push_cell_fields by done. reflexivity. }
  split.
  - rewrite Hf. split; cbn; try done; try lia.
    + by rewrite arr_len_set.
    + rewrite Hw, add_mod_l by lia. f_equal. lia.
  - unfold fifo_view at 1. replace (fifo_used (fifo_pushed item f)) with (fifo_used f + 1) by (rewrite Hf; done).
    rewrite seqZ_snoc by lia. rewrite fmap_app. f_equal.
    + apply fmap_seqZ_ext. intros i Hi.
      transitivity (fifo_nth (fifo_push_cell item f) i); [done|].
      rewrite push_cell_nth by (try done; lia). destruct (Z.eqb_spec i (fifo_used f)); [lia|done].
    + simpl. f_equal. transitivity (fifo_nth (fifo_push_cell item f) (fifo_used f)); [done|].
      rewrite push_cell_nth by (try done; lia). by rewrite Z.eqb_refl.
Qed.

Lemma fifo_popped_spec f :
  fifo_wf f -> 0 < fifo_used f ->
  fifo_wf (fifo_popped f) /\
  fifo_view f = arr_get 0 (fifo_data f) (read_idx f) :: fifo_view (fifo_popped f).
Proof.
  intros Hwf Hlt. pose proof Hwf as [Hs Hd Hr Hu Hw].
  assert (Hf : fifo_popped f =
    mk_fifo (fifo_data f) (write_idx f)
      ((read_idx f + 1) mod fifo_size f) (fifo_size f) (fifo_used f - 1)).
  { unfold fifo_popped. rewrite next_read_fields by done. reflexivity. }
  split.
  - rewrite Hf. split; cbn; try done; try lia.
    + apply Z.mod_pos_bound; lia.
    + rewrite Hw, add_mod_l by lia. f_equal. lia.
  - unfold fifo_view. replace (fifo_used (fifo_popped f)) with (fifo_used f - 1) by (rewrite Hf; done).
    rewrite (seqZ_cons 0) by lia. rewrite fmap_cons. f_equal.
    + unfold fifo_nth. rewrite Z.add_0_r, Z.mod_small by lia. done.
    + change (Z.succ 0) with (1 + 0). change (Z.pred (fifo_used f)) with (fifo_used f - 1).
      rewrite <- (fmap_add_seqZ 1 0), <- list_fmap_compose.
      apply fmap_seqZ_ext. intros i Hi. rewrite Hf. unfold fifo_nth. simpl.
      rewrite add_mod_l by lia. by rewrite Z.add_assoc.
Qed.

(** The ring whose item count is overridden: the bulk loops move the indices
    first and adjust [used] once at the end. *)
Abbreviation with_used f u := (f <| fifo_used := u |>).

Lemma push_cell_with_used item f u :
  with_used (fifo_push_cell item f) (u + 1) = fifo_pushed item (with_used f u).
Proof. unfold fifo_pushed, fifo_push_cell. cbn. by case_if. Qed.

Lemma next_read_with_used f u :
  with_used (fifo_next_read f) (u - 1) = fifo_popped (with_used f u).
Proof. unfold fifo_popped, fifo_next_read. cbn. by case_if. Qed.

Lemma push_cell_used item f : fifo_used (fifo_push_cell item f) = fifo_used f.
Proof. unfold fifo_push_cell. cbn. by case_if. Qed.
Lemma next_read_used f : fifo_used (fifo_next_read f) = fifo_used f.
Proof. unfold fifo_next_read. cbn. by case_if. Qed.
Lemma push_cell_size item f : fifo_size (fifo_push_cell item f) = fifo_size f.
Proof. unfold fifo_push_cell. cbn. by case_if. Qed.
Lemma next_read_size f : fifo_size (fifo_next_read f) = fifo_size f.
Proof. unfold fifo_next_read. cbn. by case_if. Qed.

Lemma with_used_id f : with_used f (fifo_used f) = f.
Proof. by destruct f. Qed.

Lemma take_S_arr (items : list Z) k :
  0 <= k < arr_len items ->
  take (Z.to_nat (k + 1)) items = take (Z.to_nat k) items ++ [arr_get 0 items k].
Proof.
  intros Hk. unfold arr_len in Hk. replace (Z.to_nat (k + 1)) with (S (Z.to_nat k)) by lia.
  destruct (lookup_lt_is_Some_2 items (Z.to_nat k)) as [x Hx]; [lia|].
  rewrite (take_S_r _ _ x) by done. by rewrite (arr_get_lookup 0 items k x) by (try done; lia).
Qed.

Lemma fifo_put_spec f item :
  fifo_wf f ->
  let '(ret, f') := mt_u64_fifo_put f item in
  if fifo_used f <? fifo_size f
  then ret = 0 /\ fifo_wf f' /\ fifo_view f' = fifo_view f ++ [item]
  else ret = - EIO /\ f' = f.
Proof.
  intros Hwf. unfold mt_u64_fifo_put. rewrite Z.geb_leb, Z.leb_antisym.
  destruct (Z.ltb_spec (fifo_used f) (fifo_size f)) as [Hlt|]; simpl; [|done].
  split; [done|]. by apply fifo_pushed_spec.
Qed.

Lemma fifo_get_spec f :
  fifo_wf f ->
  match mt_u64_fifo_get f with
  | (Some x, f') => fifo_wf f' /\ fifo_view f = x :: fifo_view f'
  | (None, f') => f' = f /\ fifo_view f = []
  end.
Proof.
  intros Hwf. unfold mt_u64_fifo_get. destruct (Z.leb_spec (fifo_used f) 0) as [Hle|Hgt].
  - destruct Hwf. split; [done|]. unfold fifo_view. by replace (fifo_used f) with 0 by lia.
  - by apply fifo_popped_spec.
Qed.

Lemma fifo_put_bulk_spec f items n :
  fifo_wf f -> 0 <= n <= arr_len items -> fifo_used f + n < 4294967296 ->
  let '(ret, f') := mt_u64_fifo_put_bulk f items n in
  if fifo_used f + n <=? fifo_size f
  then ret = 0 /\ fifo_wf f' /\ fifo_size f' = fifo_size f /\
       fifo_view f' = fifo_view f ++ take (Z.to_nat n) items
  else ret = - EIO /\ f' = f.
Proof.
  intros Hwf Hn Hov. pose proof Hwf as [Hs _ _ Hu _]. unfold mt_u64_fifo_put_bulk.
  rewrite !u32_id by (unfold is_u32; lia). rewrite Z.gtb_ltb, Z.ltb_antisym.
  destruct (Z.leb_spec (fifo_used f + n) (fifo_size f)) as [Hle|]; simpl; [|done].
  set (g := for_from _ _ _ _).
  assert (fifo_used g = fifo_used f /\ fifo_size g = fifo_size f /\
          fifo_wf (with_used g (fifo_used f + n)) /\
          fifo_view (with_used g (fifo_used f + n)) = fifo_view f ++ take (Z.to_nat n) items)
    as (Eu & Es & Hg & Hv).
  { apply (for_upto_inv (fun k g =>
      fifo_used g = fifo_used f /\ fifo_size g = fifo_size f /\
      fifo_wf (with_used g (fifo_used f + k)) /\
      fifo_view (with_used g (fifo_used f + k)) = fifo_view f ++ take (Z.to_nat k) items)).
    - lia.
    - rewrite Z.add_0_r, with_used_id, take_0, app_nil_r. done.
    - intros k h Hk (E1 & E2 & Hh & Hvh). rewrite push_cell_used, push_cell_size, Z.add_assoc,
        push_cell_with_used, take_S_arr by lia.
      destruct (fifo_pushed_spec (arr_get 0 items k) _ Hh) as [W V]; [cbn; lia|].
      rewrite V, Hvh, app_assoc. done. }
  assert (g <| fifo_used ::= fun used => used + n |> = with_used g (fifo_used f + n)) as ->
    by (rewrite <- Eu; done).
  done.
Qed.

Lemma fifo_get_bulk_spec f n :
  fifo_wf f -> 0 <= n ->
  match mt_u64_fifo_get_bulk f n with
  | (Some items, f') =>
      fifo_wf f' /\ fifo_size f' = fifo_size f /\ arr_len items = n /\
      fifo_view f = items ++ fifo_view f'
  | (None, f') => f' = f /\ fifo_used f < n
  end.
Proof.
  intros Hwf Hn. pose proof Hwf as [Hs _ _ Hu _]. unfold mt_u64_fifo_get_bulk.
  rewrite u32_id by (unfold is_u32; lia).
  destruct (Z.ltb_spec (fifo_used f) n) as [|Hle]; [done|].
  set (p := for_from _ _ _ _).
  assert (let '(items, g) := p in
          fifo_used g = fifo_used f /\ fifo_size g = fifo_size f /\ arr_len items = n /\
          fifo_wf (with_used g (fifo_used f - n)) /\
          fifo_view f = items ++ fifo_view (with_used g (fifo_used f - n))) as Hp.
  { apply (for_upto_inv (fun k '(items, g) =>
      fifo_used g = fifo_used f /\ fifo_size g = fifo_size f /\ arr_len items = k /\
      fifo_wf (with_used g (fifo_used f - k)) /\
      fifo_view f = items ++ fifo_view (with_used g (fifo_used f - k)))).
    - lia.
    - rewrite Z.sub_0_r, with_used_id. done.
    - intros k [items h] Hk (E1 & E2 & El & Hh & Hv).
      rewrite next_read_used, next_read_size. replace (fifo_used f - (k + 1)) with (fifo_used f - k - 1) by lia.
      rewrite next_read_with_used.
      destruct (fifo_popped_spec _ Hh) as [W V]; [cbn; lia|].
      repeat (split; [done|]). split; [unfold arr_len in *; rewrite length_app; simpl; lia|].
      split; [done|]. rewrite <- app_assoc, Hv, V. done. }
  destruct p as [items g]. destruct Hp as (Eu & Es & El & Hg & Hv).
  assert (g <| fifo_used ::= fun used => used - n |> = with_used g (fifo_used f - n)) as ->
    by (rewrite <- Eu; done).
  done.
Qed.

Lemma fifo_read_front_spec f :
  fifo_wf f -> mt_u64_fifo_read_front f = head (fifo_view f).
Proof.
  intros Hwf. pose proof (fifo_get_spec f Hwf) as H.
  unfold mt_u64_fifo_get, mt_u64_fifo_read_front in *.
  destruct (fifo_used f <=? 0); [by destruct H as [_ ->]|by destruct H as [_ ->]].
Qed.

Lemma fifo_read_any_spec f skip :
  fifo_wf f ->
  mt_u64_fifo_read_any f skip = if skip <? 0 then None else fifo_view f !! Z.to_nat skip.
Proof.
  intros [Hs Hd Hr Hu Hw]. unfold mt_u64_fifo_read_any.
  destruct (Z.ltb_spec skip 0); simpl; [by case_if|].
  destruct (Z.leb_spec (fifo_used f) 0).
  { symmetry. apply lookup_ge_None. unfold fifo_view. rewrite length_fmap, length_seqZ. lia. }
  rewrite Z.geb_leb. destruct (Z.leb_spec (fifo_used f) skip).
  { symmetry. apply lookup_ge_None. unfold fifo_view. rewrite length_fmap, length_seqZ. lia. }
  rewrite fifo_view_lookup by lia. by rewrite wrap_index by lia.
Qed.

Lemma fifo_read_back_spec f :
  fifo_wf f -> mt_u64_fifo_read_back f = last (fifo_view f).
Proof.
  intros Hwf. pose proof Hwf as [Hs Hd Hr Hu Hw]. unfold mt_u64_fifo_read_back.
  destruct (Z.leb_spec (fifo_used f) 0).
  { unfold fifo_view. by replace (fifo_used f) with 0 by lia. }
  unfold fifo_view. replace (fifo_used f) with (fifo_used f - 1 + 1) by lia.
  rewrite seqZ_snoc by lia. rewrite fmap_app. cbn [fmap list_fmap]. rewrite last_snoc. f_equal. unfold fifo_nth. f_equal.
  assert (E : (read_idx f + (0 + (fifo_used f - 1))) mod fifo_size f =
              (write_idx f - 1) mod fifo_size f).
  { rewrite Hw, Zminus_mod_idemp_l. f_equal. lia. }
  rewrite E. assert (0 <= write_idx f < fifo_size f) by (rewrite Hw; apply Z.mod_pos_bound; lia).
  destruct (Z.ltb_spec (write_idx f - 1) 0).
  - replace (write_idx f) with 0 by lia. rewrite <- (Z.mod_add _ 1) by lia. rewrite Z.mod_small; lia.
  - symmetry. apply Z.mod_small. lia.
Qed.

(** The bulk read at an offset is a slice of the queue. *)
Lemma fifo_read_any_bulk_spec f n skip :
  fifo_wf f -> 0 <= n -> 0 <= skip -> skip + n < 4294967296 ->
  mt_u64_fifo_read_any_bulk f n skip =
    if skip + n <=? fifo_used f
    then Some (take (Z.to_nat n) (drop (Z.to_nat skip) (fifo_view f))) else None.
Proof.
  intros Hwf Hn Hk Hov. pose proof Hwf as [Hs Hd Hr Hu Hw]. unfold mt_u64_fifo_read_any_bulk.
  rewrite !u32_id by (unfold is_u32; lia).
  destruct (Z.leb_spec (skip + n) (fifo_used f)) as [Hle|Hgt].
  2:{ destruct (fifo_used f <? n); [done|]. rewrite Z.gtb_ltb.
      replace (fifo_used f <? skip + n) with true by lia. by rewrite orb_true_r. }
  destruct (Z.ltb_spec (fifo_used f) n); [lia|].
  replace ((skip <? 0) || (skip + n >? fifo_used f)) with false by lia.
  set (slice := drop (Z.to_nat skip) (fifo_view f)).
  assert (Hsl : arr_len slice = fifo_used f - skip).
  { unfold slice. pose proof (fifo_view_length f ltac:(lia)). unfold arr_len in *.
    rewrite length_drop. lia. }
  set (p := for_from _ _ _ _).
  assert (p = (take (Z.to_nat n) slice, (read_idx f + skip + n) mod fifo_size f)) as ->; [|done].
  apply (for_upto_inv (fun k p =>
    p = (take (Z.to_nat k) slice, (read_idx f + skip + k) mod fifo_size f))).
  - lia.
  - rewrite wrap_index, Z.add_0_r by lia. done.
  - intros k ? Hb ->. rewrite succ_mod by (apply Z.mod_pos_bound; lia).
    rewrite add_mod_l, take_S_arr by lia. f_equal; [|f_equal; lia]. f_equal. f_equal.
    symmetry. apply arr_get_lookup; [lia|]. unfold slice. rewrite lookup_drop.
    replace (Z.to_nat skip + Z.to_nat k)%nat with (Z.to_nat (skip + k)) by lia.
    rewrite fifo_view_lookup by lia. unfold fifo_nth. by rewrite Z.add_assoc.
Qed.

(** ** Refinement of a bounded queue *)

Inductive fifo_op :=
| OpPut (item : Z) | OpGet | OpPutBulk (items : list Z) | OpGetBulk (n : Z)
| OpReadFront | OpReadBack | OpReadAny (skip : Z) | OpReadAnyBulk (n skip : Z)
| OpCount | OpFree | OpFull.

Inductive fifo_res :=
| ResCode (ret : Z) | ResItem (item : option Z) | ResItems (items : option (list Z)) | ResBool (b : bool).

Definition fifo_step (f : mt_u64_fifo) (op : fifo_op) : fifo_res * mt_u64_fifo :=
  match op with
  | OpPut item => let '(ret, f) := mt_u64_fifo_put f item in (ResCode ret, f)
  | OpGet => let '(item, f) := mt_u64_fifo_get f in (ResItem item, f)
  | OpPutBulk items =>
      let '(ret, f) := mt_u64_fifo_put_bulk f items (arr_len items) in (ResCode ret, f)
  | OpGetBulk n => let '(items, f) := mt_u64_fifo_get_bulk f n in (ResItems items, f)
  | OpReadFront => (ResItem (mt_u64_fifo_read_front f), f)
  | OpReadBack => (ResItem (mt_u64_fifo_read_back f), f)
  | OpReadAny skip => (ResItem (mt_u64_fifo_read_any f skip), f)
  | OpReadAnyBulk n skip => (ResItems (mt_u64_fifo_read_any_bulk f n skip), f)
  | OpCount => (ResCode (mt_u64_fifo_count f), f)
  | OpFree => (ResCode (mt_u64_fifo_free_count f), f)
  | OpFull => (ResBool (mt_u64_fifo_full f), f)
  end.

(** The abstract queue: a list of at most [cap] items, oldest first. *)
Definition queue_step (cap : Z) (q : list Z) (op : fifo_op) : fifo_res * list Z :=
  match op with
  | OpPut item => if arr_len q <? cap then (ResCode 0, q ++ [item]) else (ResCode (- EIO), q)
  | OpGet => match q with [] => (ResItem None, []) | x :: q => (ResItem (Some x), q) end
  | OpPutBulk items =>
      if arr_len q + arr_len items <=? cap then (ResCode 0, q ++ items) else (ResCode (- EIO), q)
  | OpGetBulk n =>
      if n <=? arr_len q then (ResItems (Some (take (Z.to_nat n) q)), drop (Z.to_nat n) q)
      else (ResItems None, q)
  | OpReadFront => (ResItem (head q), q)
  | OpReadBack => (ResItem (last q), q)
  | OpReadAny skip => (ResItem (if skip <? 0 then None else q !! Z.to_nat skip), q)
  | OpReadAnyBulk n skip =>
      (ResItems (if skip + n <=? arr_len q
                 then Some (take (Z.to_nat n) (drop (Z.to_nat skip) q)) else None), q)
  | OpCount => (ResCode (arr_len q), q)
  | OpFree => (ResCode (cap - arr_len q), q)
  | OpFull => (ResBool (arr_len q =? cap), q)
  end.

(** Counts a caller can pass without wrapping the 32-bit tests. *)
Definition op_ok (op : fifo_op) : Prop :=
  match op with
  | OpPutBulk items => arr_len items < 2147483648
  | OpGetBulk n => 0 <= n < 2147483648
  | OpReadAnyBulk n skip => 0 <= n < 2147483648 /\ 0 <= skip < 2147483648
  | _ => True
  end.

Fixpoint run_ops {S} (step : S -> fifo_op -> fifo_res * S) (s : S) (ops : list fifo_op) : list fifo_res :=
  match ops with
  | [] => []
  | op :: ops => let '(r, s) := step s op in r :: run_ops step s ops
  end.

Lemma put_size f item : fifo_size (snd (mt_u64_fifo_put f item)) = fifo_size f.
Proof. unfold mt_u64_fifo_put. case_if; [done|]. apply push_cell_size. Qed.
Lemma get_size f : fifo_size (snd (mt_u64_fifo_get f)) = fifo_size f.
Proof. unfold mt_u64_fifo_get. case_if; [done|]. apply next_read_size. Qed.

Lemma fifo_step_simulates f op :
  fifo_wf f -> op_ok op ->
  let '(r, f') := fifo_step f op in
  fifo_wf f' /\ fifo_size f' = fifo_size f /\
  queue_step (fifo_size f) (fifo_view f) op = (r, fifo_view f').
Proof.
  intros Hwf Hok. pose proof Hwf as [Hs _ _ Hu _].
  pose proof (fifo_view_length f ltac:(lia)) as Hlen.
  destruct op as [item| |items|n| | |skip|n skip| | |]; cbn [fifo_step queue_step op_ok] in *; rewrite ?Hlen.
  - pose proof (fifo_put_spec f item Hwf) as H. pose proof (put_size f item) as Hsz.
    destruct (mt_u64_fifo_put f item) as [ret f']. cbn in Hsz. destruct (fifo_used f <? fifo_size f).
    + by destruct H as (-> & Hw & ->).
    + by destruct H as [-> ->].
  - pose proof (fifo_get_spec f Hwf) as H. pose proof (get_size f) as Hsz.
    destruct (mt_u64_fifo_get f) as [[x|] f']; cbn in Hsz.
    + by destruct H as (Hw & ->).
    + by destruct H as [-> ->].
  - pose proof (fifo_put_bulk_spec f items (arr_len items) Hwf ltac:(unfold arr_len; lia) ltac:(lia)) as H.
    destruct (mt_u64_fifo_put_bulk f items (arr_len items)) as [ret f']. case_if.
    + destruct H as (-> & Hw & Hsz & ->). unfold arr_len. by rewrite take_ge by lia.
    + by destruct H as [-> ->].
  - pose proof (fifo_get_bulk_spec f n Hwf ltac:(lia)) as H.
    destruct (mt_u64_fifo_get_bulk f n) as [[items|] f'].
    + destruct H as (Hw & Hsz & Hn & Hv). rewrite Hv in Hlen |- *. unfold arr_len in *. rewrite length_app in Hlen.
      replace (n <=? fifo_used f) with true by lia. replace (Z.to_nat n) with (length items) by lia.
      by rewrite take_app_length, drop_app_length.
    + destruct H as [-> Hn]. by replace (n <=? fifo_used f) with false by lia.
  - by rewrite fifo_read_front_spec.
  - by rewrite fifo_read_back_spec.
  - by rewrite fifo_read_any_spec.
  - by rewrite fifo_read_any_bulk_spec by (done || lia).
  - done.
  - done.
  - done.
Qed.

(** C35: the ring implements a bounded first-in first-out queue. Any sequence of
    operations on a well-formed ring (single and bulk, put, get and read) gives
    the results a plain list of at most [fifo_size] items gives: nothing is
    lost, duplicated or reordered, and every refusal is a genuine overflow or
    underflow. *)
Theorem fifo_refines_queue f ops :
  fifo_wf f -> Forall op_ok ops ->
  run_ops fifo_step f ops = run_ops (queue_step (fifo_size f)) (fifo_view f) ops.
Proof.
  revert f. induction ops as [|op ops IH]; intros f Hwf HF; [done|]. apply Forall_cons in HF as [Hop HF].
  cbn. pose proof (fifo_step_simulates f op Hwf Hop) as H. destruct (fifo_step f op) as [r f'].
  destruct H as (Hwf' & Hsz & ->). f_equal. rewrite <- Hsz. by apply IH.
Qed.

Lemma fifo_init_wf size f :
  mt_u64_fifo_init true true size = Some f -> 0 < size < 2147483648 -> fifo_wf f /\ fifo_view f = [].
Proof.
  intros [= <-] Hs. split; [|done]. split; cbn; try done; try lia.
  - unfold arr_len. rewrite length_replicate. lia.
Qed.

Lemma fifo_refines_queue_witness :
  let f := mk_fifo [0; 0; 0] 0 0 3 0 in
  run_ops fifo_step f [OpPutBulk [7; 8]; OpGet; OpPut 9; OpPut 10; OpPut 11; OpReadAnyBulk 2 1; OpGetBulk 3]
  = [ResCode 0; ResItem (Some 7); ResCode 0; ResCode 0; ResCode (- EIO);
     ResItems (Some [9; 10]); ResItems (Some [8; 9; 10])].
Proof.
  intros f. rewrite (fifo_refines_queue f); [vm_compute; reflexivity| |].
  - by split; vm_compute.
  - by repeat constructor; vm_compute.
Defined.

(** ** The conversion context *)

(** Items of type [t] still queued. *)
Definition queued (t : Z) (q : list Z) : Z := arr_len (base.filter (fun x => x = t) q).

Lemma queued_snoc t q x : queued t (q ++ [x]) = queued t q + (if decide (x = t) then 1 else 0).
Proof.
  unfold queued, arr_len. rewrite filter_app, length_app. case_decide.
  - rewrite filter_cons_True by done. rewrite filter_nil. simpl. lia.
  - rewrite filter_cons_False by done. rewrite filter_nil. simpl. lia.
Qed.

Lemma queued_cons t q x : queued t (x :: q) = queued t q + (if decide (x = t) then 1 else 0).
Proof.
  unfold queued, arr_len. case_decide.
  - rewrite filter_cons_True by done. simpl. lia.
  - rewrite filter_cons_False by done. lia.
Qed.

(** The invariant: for each of the [n] types, what was submitted and is not done
    is in the queue. *)
Record cvt_inv (n : Z) (c : mt_cvt_dma_ctx) : Prop := {
  cv_wf : fifo_wf (ctx_fifo c);
  cv_len : arr_len (ctx_tran c) = n /\ arr_len (ctx_done c) = n;
  cv_types : Forall (fun t => 0 <= t < n) (fifo_view (ctx_fifo c));
  cv_balance : forall t, 0 <= t < n ->
    mt_cvt_dma_ctx_get_tran c t - mt_cvt_dma_ctx_get_done c t = queued t (fifo_view (ctx_fifo c));
}.

Inductive cvt_op := CvtPush (type : Z) | CvtPop.
Definition cvt_step (c : mt_cvt_dma_ctx) (op : cvt_op) : mt_cvt_dma_ctx :=
  match op with
  | CvtPush type => snd (mt_cvt_dma_ctx_push c type)
  | CvtPop => snd (mt_cvt_dma_ctx_pop c)
  end.

Lemma cvt_push_inv n c t :
  n < 2147483648 -> 0 <= t < n -> cvt_inv n c -> cvt_inv n (cvt_step c (CvtPush t)).
Proof.
  intros Hn Ht [Hwf [Hl1 Hl2] Hty Hb]. cbn. unfold mt_cvt_dma_ctx_push. rewrite u64_id by (unfold is_u64; lia).
  pose proof (fifo_put_spec (ctx_fifo c) t Hwf) as H.
  destruct (mt_u64_fifo_put (ctx_fifo c) t) as [ret f']. destruct (_ <? fifo_size _).
  - destruct H as (-> & Hw & Hv). cbn [snd Z.ltb Z.compare]. split; cbn; try done.
    + split; [by rewrite arr_len_set|done].
    + rewrite Hv. apply Forall_app. split; [done|]. by apply Forall_singleton.
    + intros t' Ht'. unfold mt_cvt_dma_ctx_get_tran, mt_cvt_dma_ctx_get_done in *. cbn.
      rewrite Hv, queued_snoc, <- Hb by done. case_decide.
      * subst t'. rewrite arr_get_set_eq by lia. lia.
      * rewrite arr_get_set_ne by lia. lia.
  - destruct H as [-> ->]. cbn. split; cbn; try done.
Qed.

Lemma cvt_pop_inv n c : cvt_inv n c -> cvt_inv n (cvt_step c CvtPop).
Proof.
  intros [Hwf [Hl1 Hl2] Hty Hb]. cbn. unfold mt_cvt_dma_ctx_pop.
  pose proof (fifo_get_spec (ctx_fifo c) Hwf) as H.
  destruct (mt_u64_fifo_get (ctx_fifo c)) as [[t|] f'].
  - destruct H as (Hw & Hv). rewrite Hv in Hty. apply Forall_cons in Hty as [Ht Hty].
    cbn [snd]. split; cbn; try done.
    + split; [done|by rewrite arr_len_set].
    + intros t' Ht'. unfold mt_cvt_dma_ctx_get_tran, mt_cvt_dma_ctx_get_done in *. cbn.
      specialize (Hb t' Ht'). rewrite Hv, queued_cons in Hb. case_decide.
      * subst t'. rewrite arr_get_set_eq by lia. lia.
      * rewrite arr_get_set_ne by lia. lia.
  - destruct H as [-> _]. cbn. split; cbn; try done.
Qed.

(** the conversion context counts correctly. After any sequence of submissions
    and completions, for each type the submitted minus the completed transfers
    are exactly the transfers of that type still queued, so a converter that
    waits for [done] to reach its own count waits for its own transfers, and
    [done] never overtakes [tran]. *)
Theorem cvt_ctx_balance n c ops :
  0 < n < 2147483648 -> cvt_inv n c ->
  Forall (fun op => match op with CvtPush t => 0 <= t < n | CvtPop => True end) ops ->
  forall t, 0 <= t < n ->
    let c' := foldl cvt_step c ops in
    mt_cvt_dma_ctx_get_tran c' t - mt_cvt_dma_ctx_get_done c' t = queued t (fifo_view (ctx_fifo c')) /\
    mt_cvt_dma_ctx_get_done c' t <= mt_cvt_dma_ctx_get_tran c' t.
Proof.
  intros Hn. revert c. induction ops as [|op ops IH]; intros c Hinv HF t Ht.
  - cbn. pose proof (cv_balance _ _ Hinv t Ht) as Hb. split; [done|].
    unfold queued, arr_len in Hb. lia.
  - apply Forall_cons in HF as [Hop HF]. cbn [foldl]. apply IH; try done.
    destruct op; [apply cvt_push_inv; (done || lia)|by apply cvt_pop_inv].
Qed.

Definition demo_ctx : mt_cvt_dma_ctx := mk_cvt_ctx (mk_fifo [0; 0] 0 0 2 0) [0; 0; 0] [0; 0; 0].

Lemma cvt_ctx_balance_witness :
  let c := foldl cvt_step demo_ctx [CvtPush 0; CvtPush 2; CvtPush 1; CvtPop] in
  mt_cvt_dma_ctx_get_tran c 2 - mt_cvt_dma_ctx_get_done c 2 = queued 2 (fifo_view (ctx_fifo c)) /\
  mt_cvt_dma_ctx_get_done c 2 <= mt_cvt_dma_ctx_get_tran c 2.
Proof.
  apply (cvt_ctx_balance 3 demo_ctx).
  - done.
  - split; [by split; vm_compute|done|constructor|].
    intros t Ht. assert (t = 0 \/ t = 1 \/ t = 2) as [-> | [-> | ->]] by lia; vm_compute; reflexivity.
  - by repeat constructor.
  - done.
Defined.
