(* ===== verification/SeqNum.v ===== *)
(** Sequence-number arithmetic: the wrap-around comparisons of
    lib/src/mt_util.h and [rtp_seq_num_cmp] of lib/src/mt_rtcp.c, related to
    the modular distance between two numbers. *)
From S2P Require Import Prelude.

(** ** The code *)

Definition UINT16_MAX_HALF : Z := Z.shiftl 1 15.

Definition rtp_seq_num_cmp (seq0 seq1 : Z) : Z :=
  if seq0 =? seq1 then 0
  else if ((seq0 <? seq1) && (seq1 - seq0 <? UINT16_MAX_HALF))
          || ((seq0 >? seq1) && (seq0 - seq1 >? UINT16_MAX_HALF)) then -1
  else 1.

Definition mt_seq16_greater (a b : Z) : bool :=
  let diff := u16 (a - b) in
  (Z.land diff 0x8000 =? 0) && negb (diff =? 0).

Definition mt_seq32_greater (a b : Z) : bool :=
  let diff := u32 (a - b) in
  (Z.land diff 0x80000000 =? 0) && negb (diff =? 0).

(** ** Facts *)

(** How far [b] is ahead of [a] on the 16-bit circle. *)
Definition ahead16 (a b : Z) : Z := u16 (b - a).

(** Testing the top bit of a [w]-bit number is a comparison with half the range. *)
Lemma top_bit_clear x w :
  0 < w -> 0 <= x < 2 ^ w -> (Z.land x (2 ^ (w - 1)) =? 0) = (x <? 2 ^ (w - 1)).
Proof.
  intros Hw Hx. rewrite <- Z.shiftl_1_l.
  pose proof (land_shiftl_1 x (w - 1) ltac:(lia)) as H. unfold c_true in H.
  apply (f_equal negb) in H. rewrite negb_involutive in H. rewrite H. clear H.
  rewrite Z.shiftl_1_l. assert (Hp : 2 ^ w = 2 * 2 ^ (w - 1)).
  { rewrite <- Z.pow_succ_r by lia. f_equal. lia. }
  destruct (Z.ltb_spec x (2 ^ (w - 1))) as [Hlt|Hge].
  - rewrite (bits_above x (w - 1)) by lia. done.
  - assert (Z.testbit x (w - 1) = true) as ->; [|done].
    replace x with ((x - 2 ^ (w - 1)) + 1 * 2 ^ (w - 1)) by lia.
    rewrite Z.testbit_true by lia.
    rewrite Z.div_add, Z.div_small by lia. done.
Qed.

Lemma seq16_greater_spec a b :
  mt_seq16_greater a b = (0 <? u16 (a - b)) && (u16 (a - b) <? 32768).
Proof.
  unfold mt_seq16_greater. pose proof (u16_range (a - b)) as H. unfold is_u16 in H.
  change 0x8000 with (2 ^ (16 - 1)). rewrite top_bit_clear by (change (2 ^ 16) with 65536; lia).
  change (2 ^ (16 - 1)) with 32768. lia.
Qed.

Lemma seq32_greater_spec a b :
  mt_seq32_greater a b = (0 <? u32 (a - b)) && (u32 (a - b) <? 2147483648).
Proof.
  unfold mt_seq32_greater. pose proof (u32_range (a - b)) as H. unfold is_u32 in H.
  change 0x80000000 with (2 ^ (32 - 1)).
  rewrite top_bit_clear by (change (2 ^ 32) with 4294967296; lia).
  change (2 ^ (32 - 1)) with 2147483648. lia.
Qed.

(** The comparison is decided by the distance ahead; exactly half the circle
    counts as "newer" in both directions. *)
Lemma seq_num_cmp_ahead a b :
  is_u16 a -> is_u16 b ->
  rtp_seq_num_cmp a b =
    if ahead16 a b =? 0 then 0 else if ahead16 a b <? 32768 then -1 else 1.
Proof.
  unfold is_u16, rtp_seq_num_cmp, ahead16. change UINT16_MAX_HALF with 32768. intros Ha Hb.
  repeat case_if; mlia.
Qed.

Lemma seq_num_cmp_lt a b :
  is_u16 a -> is_u16 b -> (rtp_seq_num_cmp a b <? 0) = (0 <? ahead16 a b) && (ahead16 a b <? 32768).
Proof.
  intros Ha Hb. rewrite seq_num_cmp_ahead by done. pose proof (u16_range (b - a)) as H.
  unfold ahead16, is_u16 in *. repeat case_if; lia.
Qed.

Lemma seq_num_cmp_le a b :
  is_u16 a -> is_u16 b -> (rtp_seq_num_cmp a b <=? 0) = (ahead16 a b <? 32768).
Proof.
  intros Ha Hb. rewrite seq_num_cmp_ahead by done. pose proof (u16_range (b - a)) as H.
  unfold ahead16, is_u16 in *. repeat case_if; lia.
Qed.

Lemma ahead16_range a b : 0 <= ahead16 a b < 65536.
Proof. apply u16_range. Qed.

Lemma ahead16_succ a b : 0 < ahead16 a b -> ahead16 (u16 (a + 1)) b = ahead16 a b - 1.
Proof. unfold ahead16. mlia. Qed.

Lemma ahead16_add a k : 0 <= k < 65536 -> ahead16 a (u16 (a + k)) = k.
Proof. unfold ahead16. mlia. Qed.

Lemma ahead16_inv a b : is_u16 b -> b = u16 (a + ahead16 a b).
Proof. unfold ahead16. mlia. Qed.

(** Moving [j] steps towards [b] brings it [j] closer. *)
Lemma ahead16_shift a b j :
  0 <= j <= ahead16 a b -> ahead16 (u16 (a + j)) b = ahead16 a b - j.
Proof. unfold ahead16. mlia. Qed.

(** Compared with a later number [n], the greater one is the one closer to it. *)
Lemma seq32_greater_age n a b :
  u32 (n - a) < 2147483648 -> u32 (n - b) < 2147483648 ->
  mt_seq32_greater a b = (u32 (n - a) <? u32 (n - b)).
Proof. intros Ha Hb. rewrite seq32_greater_spec. mlia. Qed.
