(* ===== verification/Bytes.v ===== *)
(** Byte buffers: big-endian fields of packets held as lists of bytes, with
    reads that fail outside the buffer. *)
From S2P Require Import Prelude.

Abbreviation bytes := (list Z).

(** A read of one byte of received data; [None] is a read past its end. *)
Definition rd8 (buf : bytes) (off : Z) : option Z :=
  if off <? 0 then None else buf !! Z.to_nat off.

(** [ntohs] and [ntohl] of a field at [off]. *)
Definition rd_be16 (buf : bytes) (off : Z) : option Z :=
  hi ← rd8 buf off; lo ← rd8 buf (off + 1); Some (hi * 256 + lo).
Definition rd_be32 (buf : bytes) (off : Z) : option Z :=
  hi ← rd_be16 buf off; lo ← rd_be16 buf (off + 2); Some (hi * 65536 + lo).

(** [htons] and [htonl]: the bytes in memory order. *)
Definition be16 (v : Z) : bytes := [u8 (v / 256); u8 v].
Definition be32 (v : Z) : bytes := be16 (v / 65536) ++ be16 v.

(** [memcmp(buf + off, pat, len) == 0]. *)
Fixpoint rd_eq (buf : bytes) (off : Z) (pat : bytes) : option bool :=
  match pat with
  | [] => Some true
  | c :: pat' =>
      b ← rd8 buf off;
      if b =? c then rd_eq buf (off + 1) pat' else Some false
  end.

Definition is_bytes (buf : bytes) : Prop := Forall is_u8 buf.

Lemma rd8_in buf off : 0 <= off < arr_len buf -> exists x, rd8 buf off = Some x.
Proof.
  unfold rd8, arr_len. intros H. destruct (Z.ltb_spec off 0); [lia|].
  destruct (lookup_lt_is_Some_2 buf (Z.to_nat off)) as [x ->]; [lia|]. eauto.
Qed.

Lemma rd8_range buf off x : is_bytes buf -> rd8 buf off = Some x -> is_u8 x.
Proof.
  unfold rd8. intros HF. case_if; [done|]. intros Hl. by eapply Forall_lookup_1 in HF.
Qed.

Lemma rd_be16_in buf off : 0 <= off -> off + 2 <= arr_len buf -> exists x, rd_be16 buf off = Some x.
Proof.
  intros. unfold rd_be16. destruct (rd8_in buf off) as [? ->]; [lia|].
  destruct (rd8_in buf (off + 1)) as [? ->]; [lia|]. simpl. eauto.
Qed.

Lemma rd_be16_range buf off x : is_bytes buf -> rd_be16 buf off = Some x -> is_u16 x.
Proof.
  unfold rd_be16. intros HF. destruct (rd8 buf off) eqn:E1; simpl; [|done].
  destruct (rd8 buf (off + 1)) eqn:E2; simpl; [|done]. intros [= <-].
  apply (rd8_range _ _ _ HF) in E1. apply (rd8_range _ _ _ HF) in E2.
  unfold is_u8, is_u16 in *. lia.
Qed.

Lemma rd_eq_in pat buf off :
  0 <= off -> off + arr_len pat <= arr_len buf -> exists b, rd_eq buf off pat = Some b.
Proof.
  unfold arr_len. revert off. induction pat as [|c pat IH]; intros off H0 H; simpl in *; [eauto|].
  destruct (rd8_in buf off) as [x ->]; [unfold arr_len; lia|]. simpl.
  case_if; [|eauto]. apply IH; lia.
Qed.

(** Reading inside the second part of a concatenation. *)
Lemma rd8_app_r a b off : 0 <= off -> rd8 (a ++ b) (arr_len a + off) = rd8 b off.
Proof.
  intros H. unfold rd8, arr_len. destruct (Z.ltb_spec (Z.of_nat (length a) + off) 0); [lia|].
  destruct (Z.ltb_spec off 0); [lia|]. rewrite lookup_app_r by lia. f_equal. lia.
Qed.

Lemma rd8_app_l a b off : off < arr_len a -> rd8 (a ++ b) off = rd8 a off.
Proof.
  intros H. unfold rd8, arr_len in *. destruct (Z.ltb_spec off 0); [done|].
  rewrite lookup_app_l by lia. done.
Qed.

Lemma rd_be16_app_r a b off : 0 <= off -> rd_be16 (a ++ b) (arr_len a + off) = rd_be16 b off.
Proof.
  intros H. unfold rd_be16. rewrite rd8_app_r by lia.
  replace (arr_len a + off + 1) with (arr_len a + (off + 1)) by lia. by rewrite rd8_app_r by lia.
Qed.

Lemma rd_be16_be16 v rest : is_u16 v -> rd_be16 (be16 v ++ rest) 0 = Some v.
Proof. intros H. unfold rd_be16, be16, rd8. simpl. f_equal. mlia. Qed.

Lemma be16_len v : arr_len (be16 v) = 2.
Proof. done. Qed.
Lemma be32_len v : arr_len (be32 v) = 4.
Proof. done. Qed.

Lemma be16_bytes v : is_bytes (be16 v).
Proof. repeat constructor; apply u8_range. Qed.
