(* ===== verification/BitExpr.v ===== *)
(** A decision procedure for bit rearrangement.

    The pixel conversions only move bits: every output byte is built from input bytes by
    shifts, masks, truncation to a field, union, and sums of parts that do not overlap.
    [bexp] is the syntax of such expressions over variables of known width; [sym]
    computes for each bit of the value the variable bits it is the union of, and
    [bexp_same_sound] turns equality of the results into equality of the values. The
    tactic [bit_solve] proves an equation between lists of such expressions. *)
From S2P Require Import Prelude.

(** Storing into an [n]-bit unsigned field keeps the low [n] bits. *)
Definition bf (n x : Z) : Z := Z.land x (Z.ones n).

Lemma tb_bf n a k : 0 <= n -> 0 <= k -> Z.testbit (bf n a) k = (k <? n) && Z.testbit a k.
Proof.
  intros Hn Hk. unfold bf. rewrite Z.land_spec. destruct (Z.ltb_spec k n).
  - rewrite Z.ones_spec_low by lia. by rewrite andb_true_r.
  - rewrite Z.ones_spec_high by lia. by rewrite andb_false_r.
Qed.

Lemma bf_range n x : 0 <= n -> 0 <= bf n x < 2 ^ n.
Proof. intros. unfold bf. rewrite Z.land_ones by lia. apply Z.mod_pos_bound. lia. Qed.

Lemma bf_id n x : 0 <= n -> 0 <= x < 2 ^ n -> bf n x = x.
Proof. intros. unfold bf. rewrite Z.land_ones by lia. by apply Z.mod_small. Qed.

(** ** Expressions and their values *)

Inductive bexp :=
  | EVar (i : nat)
  | EShl (e : bexp) (n : Z)
  | EShr (e : bexp) (n : Z)
  | EOr (a b : bexp)
  | EMask (e : bexp) (m : Z)
  | EField (n : Z) (e : bexp)
  | EAdd (a b : bexp).

Fixpoint bval (env : list Z) (e : bexp) : Z :=
  match e with
  | EVar i => default 0 (env !! i)
  | EShl e n => Z.shiftl (bval env e) n
  | EShr e n => Z.shiftr (bval env e) n
  | EOr a b => Z.lor (bval env a) (bval env b)
  | EMask e m => Z.land (bval env e) m
  | EField n e => bf n (bval env e)
  | EAdd a b => bval env a + bval env b
  end.

(** ** Symbolic bits: bit [j] of variable [i] is [(i, j)], a bit is a union of those *)

Definition sbit := list (nat * nat).

Fixpoint join (l m : list sbit) : list sbit :=
  match l, m with
  | x :: l', y :: m' => (x ++ y) :: join l' m'
  | [], _ => m
  | _, [] => l
  end.

Fixpoint apart (l m : list sbit) : bool :=
  match l, m with
  | [] :: l', _ :: m' | _ :: l', [] :: m' => apart l' m'
  | _ :: _, _ :: _ => false
  | _, _ => true
  end.

Fixpoint mask_bits (k : Z) (m : Z) (l : list sbit) : list sbit :=
  match l with
  | [] => []
  | x :: l' => (if Z.testbit m k then x else []) :: mask_bits (k + 1) m l'
  end.

Fixpoint sym (ws : list nat) (e : bexp) : option (list sbit) :=
  match e with
  | EVar i => w ← ws !! i; Some ((fun j => [(i, j)]) <$> seq 0 w)
  | EShl e n => l ← sym ws e; if n <? 0 then None else Some (replicate (Z.to_nat n) [] ++ l)
  | EShr e n => l ← sym ws e; if n <? 0 then None else Some (drop (Z.to_nat n) l)
  | EOr a b => l ← sym ws a; m ← sym ws b; Some (join l m)
  | EMask e m => l ← sym ws e; Some (mask_bits 0 m l)
  | EField n e => l ← sym ws e; if n <? 0 then None else Some (take (Z.to_nat n) l)
  | EAdd a b => l ← sym ws a; m ← sym ws b; if apart l m then Some (join l m) else None
  end.

(** Equality of two symbolic values, where a missing bit is an empty one. *)
Fixpoint same_bits (l m : list sbit) : bool :=
  match l, m with
  | x :: l', y :: m' => bool_decide (x = y) && same_bits l' m'
  | [], m => forallb (fun y => bool_decide (y = [])) m
  | l, [] => forallb (fun x => bool_decide (x = [])) l
  end.

Definition bexp_same (ws : list nat) (e e' : bexp) : bool :=
  match sym ws e, sym ws e' with
  | Some l, Some m => same_bits l m
  | _, _ => false
  end.

(** ** Soundness *)

Definition var_bit (env : list Z) (p : nat * nat) : bool :=
  Z.testbit (default 0 (env !! p.1)) (Z.of_nat p.2).
Definition sval (env : list Z) (b : sbit) : bool := existsb (var_bit env) b.
Definition bit_at (l : list sbit) (k : nat) : sbit := default [] (l !! k).

Lemma bit_at_join l m k : bit_at (join l m) k = bit_at l k ++ bit_at m k.
Proof.
  unfold bit_at. revert m k. induction l as [|x l IH]; intros m k.
  { destruct m; cbn [join]; by rewrite ?lookup_nil. }
  destruct m as [|y m]; cbn [join]; [rewrite lookup_nil; by rewrite app_nil_r|].
  destruct k; [done|]. exact (IH m k).
Qed.

Lemma bit_at_apart l m k : apart l m = true -> bit_at l k = [] \/ bit_at m k = [].
Proof.
  unfold bit_at. revert m k. induction l as [|x l IH]; intros m k; [rewrite lookup_nil; by left|].
  destruct m as [|y m]; [rewrite lookup_nil; by right|].
  destruct x as [|p x], y as [|q y]; cbn [apart]; try done; destruct k; cbn; auto.
Qed.

Lemma bit_at_mask l m k j :
  bit_at (mask_bits k m l) j = if Z.testbit m (k + Z.of_nat j) then bit_at l j else [].
Proof.
  unfold bit_at. revert k j. induction l as [|x l IH]; intros k j; cbn [mask_bits].
  - rewrite lookup_nil. cbn. by case_if.
  - destruct j; cbn [lookup list_lookup].
    + rewrite Z.add_0_r. cbn. by case_if.
    + change ((mask_bits (k + 1) m l) !! j) with (mask_bits (k + 1) m l !! j).
      rewrite IH. by replace (k + 1 + Z.of_nat j) with (k + Z.of_nat (S j)) by lia.
Qed.

Lemma bit_at_app_replicate n l k :
  bit_at (replicate n [] ++ l) k = if (k <? n)%nat then [] else bit_at l (k - n).
Proof.
  unfold bit_at. destruct (Nat.ltb_spec k n).
  - by rewrite lookup_app_l, lookup_replicate_2 by (rewrite ?length_replicate; lia).
  - by rewrite lookup_app_r, length_replicate by (rewrite length_replicate; lia).
Qed.

Section Sound.
Context (ws : list nat) (env : list Z).
Hypothesis env_ok : Forall2 (fun w v => 0 <= v < 2 ^ Z.of_nat w) ws env.

Lemma sval_var i w k : ws !! i = Some w ->
  Z.testbit (default 0 (env !! i)) (Z.of_nat k) = sval env (bit_at ((fun j => [(i, j)]) <$> seq 0 w) k).
Proof.
  intros Hw. destruct (Forall2_lookup_l _ _ _ _ _ env_ok Hw) as (v & Hv & Hr).
  unfold bit_at. rewrite list_lookup_fmap. destruct (decide (k < w)%nat).
  - rewrite lookup_seq_lt by done. cbn. by rewrite orb_false_r.
  - rewrite lookup_seq_ge by lia. rewrite Hv. cbn. apply (bits_above v (Z.of_nat w)); lia.
Qed.

Lemma sym_sound e l k : sym ws e = Some l ->
  Z.testbit (bval env e) (Z.of_nat k) = sval env (bit_at l k).
Proof.
  revert l k. induction e as [i|e IH n|e IH n|a IHa b IHb|e IH m|n e IH|a IHa b IHb]; intros l k; cbn [sym bval].
  - destruct (ws !! i) as [w|] eqn:Hw; obind; [|done]. intros [= <-]. by apply sval_var.
  - destruct (sym ws e) as [l'|]; obind; [|done]. case_if; [done|]. intros [= <-]. zbool.
    rewrite bit_at_app_replicate. destruct (Nat.ltb_spec k (Z.to_nat n)).
    + by rewrite Z.shiftl_spec_low by lia.
    + rewrite Z.shiftl_spec_high by lia. rewrite <- (IH l') by done. f_equal. lia.
  - destruct (sym ws e) as [l'|]; obind; [|done]. case_if; [done|]. intros [= <-]. zbool.
    rewrite Z.shiftr_spec by lia. replace (bit_at (drop (Z.to_nat n) l') k) with (bit_at l' (Z.to_nat n + k)) by
      (unfold bit_at; by rewrite lookup_drop).
    rewrite <- (IH l') by done. f_equal. lia.
  - destruct (sym ws a), (sym ws b); obind; try done. intros [= <-].
    rewrite Z.lor_spec, bit_at_join. unfold sval. rewrite existsb_app. f_equal; [by apply IHa|by apply IHb].
  - destruct (sym ws e) as [l'|]; obind; [|done]. intros [= <-].
    rewrite Z.land_spec, bit_at_mask, (IH l'), Z.add_0_l by done.
    destruct (Z.testbit m (Z.of_nat k)); [apply andb_true_r|apply andb_false_r].
  - destruct (sym ws e) as [l'|]; obind; [|done]. case_if; [done|]. intros [= <-]. zbool.
    rewrite tb_bf, (IH l') by (done || lia). unfold bit_at. destruct (Z.ltb_spec (Z.of_nat k) n).
    + by rewrite lookup_take_lt by lia.
    + by rewrite lookup_take_ge by lia.
  - destruct (sym ws a) as [la|], (sym ws b) as [lb|]; obind; try done. case_if; [|done]. intros [= <-].
    rewrite Z.add_nocarry_lxor, Z.lxor_spec, bit_at_join, (IHa la), (IHb lb) by
      (done || (apply Z.bits_inj'; intros j Hj; rewrite Z.land_spec, Z.bits_0;
       rewrite <- (Z2Nat.id j), (IHa la), (IHb lb) by done;
       destruct (bit_at_apart la lb (Z.to_nat j) E) as [-> | ->]; [done|apply andb_false_r])).
    unfold sval. rewrite existsb_app.
    destruct (bit_at_apart la lb k E) as [-> | ->]; cbn; [by destruct (existsb _ _)|].
    rewrite orb_false_r. by destruct (existsb _ _).
Qed.

Lemma same_bits_spec l m k : same_bits l m = true -> bit_at l k = bit_at m k.
Proof.
  assert (Hnil : forall l k, forallb (fun x : sbit => bool_decide (x = [])) l = true -> bit_at l k = []).
  { intros l0 k0 H. unfold bit_at. destruct (l0 !! k0) as [x|] eqn:E; [|done]. cbn.
    apply Is_true_true, forallb_True in H. pose proof (Forall_lookup_1 _ _ _ _ H E) as Hx.
    by apply bool_decide_unpack in Hx. }
  revert m k. induction l as [|x l IH]; intros [|y m] k; cbn [same_bits]; intros H.
  - done.
  - by rewrite (Hnil (y :: m)).
  - by rewrite (Hnil (x :: l)).
  - apply andb_true_iff in H as [Hx H]. apply bool_decide_eq_true in Hx as ->.
    destruct k; [done|]. exact (IH m k H).
Qed.

Lemma bexp_same_sound e e' : bexp_same ws e e' = true -> bval env e = bval env e'.
Proof.
  unfold bexp_same. destruct (sym ws e) as [l|] eqn:E1; [|done].
  destruct (sym ws e') as [m|] eqn:E2; [|done]. intros H. apply Z.bits_inj'. intros k Hk.
  rewrite <- (Z2Nat.id k) by done. rewrite (sym_sound e l), (sym_sound e' m) by done.
  by rewrite (same_bits_spec l m).
Qed.

Lemma bexps_same_sound es es' : forallb (fun p => bexp_same ws p.1 p.2) (zip es es') = true ->
  length es = length es' -> bval env <$> es = bval env <$> es'.
Proof.
  revert es'. induction es as [|e es IH]; intros [|e' es'] H Hlen; try done.
  cbn in H. apply andb_true_iff in H as [H1 H2]. rewrite !fmap_cons. f_equal.
  - by apply bexp_same_sound.
  - apply IH; [done|]. by injection Hlen.
Qed.
End Sound.

(** ** The tactic *)

Ltac var_index x env :=
  lazymatch env with
  | x :: _ => constr:(O)
  | _ :: ?env' => let n := var_index x env' in constr:(S n)
  end.

Ltac reify env t :=
  lazymatch t with
  | Z.shiftl ?a ?n => let e := reify env a in constr:(EShl e n)
  | Z.shiftr ?a ?n => let e := reify env a in constr:(EShr e n)
  | Z.lor ?a ?b => let e := reify env a in let e' := reify env b in constr:(EOr e e')
  | Z.land ?a ?m => let e := reify env a in constr:(EMask e m)
  | bf ?n ?a => let e := reify env a in constr:(EField n e)
  | ?a + ?b => let e := reify env a in let e' := reify env b in constr:(EAdd e e')
  | ?x => let i := var_index x env in constr:(EVar i)
  end.

Ltac reify_list env l :=
  lazymatch l with
  | ?x :: ?l' => let e := reify env x in let es := reify_list env l' in constr:(e :: es)
  | [] => constr:(@nil bexp)
  end.

(** [bit_solve ws env] proves [l = m], two lists of expressions over the variables
    [env] of widths [ws] whose bounds are in the context. *)
Ltac bit_solve ws env :=
  lazymatch goal with
  | |- ?l = ?m =>
      let es := reify_list env l in
      let es' := reify_list env m in
      change (bval env <$> es = bval env <$> es');
      apply (bexps_same_sound ws env);
      [repeat (apply Forall2_cons_2; [first [assumption | cbn; lia]|]); apply Forall2_nil_2
      | vm_compute; reflexivity
      | reflexivity]
  end.
