(* ===== verification/RtcpTx.v ===== *)
(** The sender side of the RTCP retransmission protocol, lib/src/mt_rtcp.c:
    buffering of sent RTP packets, parsing of received NACK packets and the
    chunked retransmission, with the statistics of every branch. *)
From S2P Require Import Prelude Bytes Fifo SeqNum.

(** ** Constants of mt_rtcp.h *)

Definition MT_RTCP_PTYPE_NACK : Z := 204.
Definition MT_RTCP_MAX_FCIS : Z := 256.
Definition MT_RTCP_RETRANSMIT_BULK : Z := 32.
Definition MT_RTCP_DROP_SAMPLE : Z := 100.
(** [sizeof(struct mt_rtcp_hdr)] and [sizeof(struct mt_rtcp_fci)], both packed. *)
Definition SIZEOF_RTCP_HDR : Z := 12.
Definition SIZEOF_RTCP_FCI : Z := 4.
Definition ST20_RETRANSMIT : Z := Z.shiftl 1 14.

Inductive mt_rtcp_drop_reason :=
| MT_RTCP_DROP_SHORT | MT_RTCP_DROP_FLAGS | MT_RTCP_DROP_NAME | MT_RTCP_DROP_LEN.
Definition drop_reason_idx (r : mt_rtcp_drop_reason) : Z :=
  match r with
  | MT_RTCP_DROP_SHORT => 0 | MT_RTCP_DROP_FLAGS => 1
  | MT_RTCP_DROP_NAME => 2 | MT_RTCP_DROP_LEN => 3
  end.
Definition MT_RTCP_DROP_MAX : Z := 4.

Inductive mt_rtp_payload_format :=
| MT_RTP_PAYLOAD_FORMAT_RAW | MT_RTP_PAYLOAD_FORMAT_RFC4175 | MT_RTP_PAYLOAD_FORMAT_RFC9134.
#[export] Instance payload_format_eq : EqDecision mt_rtp_payload_format.
Proof. solve_decision. Defined.

(** ** State *)

Record mt_rtcp_tx := mk_rtcp_tx {
  mbuf_ring : mt_u64_fifo;
  tx_ssrc : Z;
  tx_active : bool;
  payload_format : mt_rtp_payload_format;
  last_seq_num : Z;
  stat_rtp_sent : Z;
  stat_rtp_retransmit_succ : Z;
  stat_rtp_retransmit_fail : Z;
  stat_rtp_retransmit_fail_nobuf : Z;
  stat_rtp_retransmit_fail_read : Z;
  stat_rtp_retransmit_fail_obsolete : Z;
  stat_rtp_retransmit_fail_burst : Z;
  stat_nack_received : Z;
  stat_nack_drop_invalid : Z;
  stat_nack_drop_reason : list Z;
  nack_drop_seen : list Z;
  nack_drop_sampled : bool;
}.
#[export] Instance eta_rtcp_tx : Settable mt_rtcp_tx := fun t =>
  mk_rtcp_tx (mbuf_ring t) (tx_ssrc t) (tx_active t) (payload_format t) (last_seq_num t)
    (stat_rtp_sent t) (stat_rtp_retransmit_succ t) (stat_rtp_retransmit_fail t)
    (stat_rtp_retransmit_fail_nobuf t) (stat_rtp_retransmit_fail_read t)
    (stat_rtp_retransmit_fail_obsolete t) (stat_rtp_retransmit_fail_burst t)
    (stat_nack_received t) (stat_nack_drop_invalid t) (stat_nack_drop_reason t)
    (nack_drop_seen t) (nack_drop_sampled t).

(** A deep copy of a buffered packet: the mbuf it was made from and the
    [row_length] its RFC 4175 header carries. *)
Record mbuf_copy := mk_copy { copy_of : Z; copy_row_length : Z }.

(** Calls into DPDK that the caller observes: references taken and released. *)
Inductive mbuf_ev := EvRefInc (mbuf : Z) | EvFree (mbuf : Z).

(** The environment: the outcome of [rte_pktmbuf_copy] (false when the pool is
    empty) and of [mt_txq_burst] (how many of the packets it accepts). *)
Class DpdkTx (E : Type) := {
  pktmbuf_copy : E -> Z -> bool * E;
  txq_burst : E -> list mbuf_copy -> Z * E;
}.
(** The documented contract of a burst: it accepts a prefix of what it gets. *)
Class DpdkTxLaws (E : Type) `{DpdkTx E} :=
  txq_burst_bound e l : 0 <= fst (txq_burst e l) <= arr_len l.

Section Tx.
Context {E : Type} `{!DpdkTx E}.
(** Header fields, in host order, of the RTP packet an mbuf holds, and the
    length of its segment chain seen by [mt_mbuf_refcnt_inc_bulk]. *)
Context (mbuf_seq mbuf_row_length : Z -> Z) (mbuf_segs : Z -> list Z).

(** [mt_mbuf_refcnt_inc_bulk]: one more reference on every segment. *)
Definition mt_mbuf_refcnt_inc_bulk (mbufs : list Z) : list mbuf_ev :=
  mbufs ≫= fun m => EvRefInc <$> mbuf_segs m.

(** Room for [bulk] packets: when the ring has less, the [bulk] oldest are freed. *)
Definition rtcp_tx_make_room (tx : mt_rtcp_tx) (bulk : Z) : bool * mt_rtcp_tx * list mbuf_ev :=
  if u32 (mt_u64_fifo_free_count (mbuf_ring tx)) <? bulk then
    match mt_u64_fifo_get_bulk (mbuf_ring tx) bulk with
    | (None, ring) => (false, tx <| mbuf_ring := ring |>, [])
    | (Some clean, ring) => (true, tx <| mbuf_ring := ring |>, EvFree <$> clean)
    end
  else (true, tx, []).

Definition mt_rtcp_tx_buffer_rtp_packets (tx : mt_rtcp_tx) (mbufs : list Z)
    : Z * mt_rtcp_tx * list mbuf_ev :=
  let bulk := arr_len mbufs in
  if negb (tx_active tx) then (0, tx, [])
  else
    let '(ok, tx, evs) := rtcp_tx_make_room tx bulk in
    if negb ok then (- EIO, tx, evs)
    else
      let seq := mbuf_seq (arr_get 0 mbufs 0) in
      let diff := u16 (seq - last_seq_num tx) in
      if negb (diff =? 1) && negb (mt_u64_fifo_count (mbuf_ring tx) =? 0) then (- EIO, tx, evs)
      else
        let '(ret, ring) := mt_u64_fifo_put_bulk (mbuf_ring tx) mbufs bulk in
        let tx := tx <| mbuf_ring := ring |> in
        if ret <? 0 then (- EIO, tx, evs)
        else
          let tx := tx <| last_seq_num := mbuf_seq (arr_get 0 mbufs (bulk - 1)) |> in
          let tx := tx <| stat_rtp_sent ::= fun s => u32 (s + bulk) |> in
          (0, tx, evs ++ mt_mbuf_refcnt_inc_bulk mbufs).

(** The inner copy loop of one chunk: it stops at the first failed copy. *)
Fixpoint copy_chunk (fmt : mt_rtp_payload_format) (e : E) (mbufs : list Z)
    : list mbuf_copy * E :=
  match mbufs with
  | [] => ([], e)
  | m :: mbufs' =>
      let '(ok, e) := pktmbuf_copy e m in
      if negb ok then ([], e)
      else
        let line1_length := mbuf_row_length m in
        let row_length :=
          if decide (fmt = MT_RTP_PAYLOAD_FORMAT_RFC4175)
          then Z.lor line1_length ST20_RETRANSMIT else line1_length in
        let '(rest, e) := copy_chunk fmt e mbufs' in
        (mk_copy m row_length :: rest, e)
  end.

(** Loop state of the chunked retransmission: packets done and sent so far, the
    session, the environment, what the queue accepted, and whether a [break]
    was taken. *)
Record rt_state := mk_rt {
  rt_done : Z; rt_send : Z; rt_tx : mt_rtcp_tx; rt_env : E;
  rt_wire : list mbuf_copy; rt_break : bool;
}.

Definition rtcp_tx_retransmit_chunk (bulk diff : Z) (st : rt_state) : rt_state :=
  let '(mk_rt done send tx e wire _) := st in
  let nb := Z.min (bulk - done) MT_RTCP_RETRANSMIT_BULK in
  match mt_u64_fifo_read_any_bulk (mbuf_ring tx) nb (diff + done) with
  | None =>
      let tx := tx <| stat_rtp_retransmit_fail_read ::= fun s => u32 (s + (bulk - done)) |> in
      mk_rt done send tx e wire true
  | Some mbufs =>
      let '(copies, e) := copy_chunk (payload_format tx) e mbufs in
      let nb_rt := arr_len copies in
      let tx :=
        if nb_rt <? nb then
          tx <| stat_rtp_retransmit_fail_nobuf ::= fun s => u32 (s + (bulk - done - nb_rt)) |>
        else tx in
      let '(sent, e) := txq_burst e copies in
      let send := u16 (send + sent) in
      let wire := wire ++ take (Z.to_nat sent) copies in
      if sent <? nb_rt then
        let tx := tx <| stat_rtp_retransmit_fail_burst ::= fun s => u32 (s + (nb_rt - sent)) |> in
        let tx :=
          if nb_rt =? nb then
            tx <| stat_rtp_retransmit_fail_burst ::= fun s => u32 (s + (bulk - done - nb)) |>
          else tx in
        mk_rt done send tx e wire true
      else if nb_rt <? nb then mk_rt done send tx e wire true
      else mk_rt (u16 (done + nb)) send tx e wire false
  end.

(** The common exit [rt_exit]. *)
Definition rtcp_tx_rt_exit (bulk ret send : Z) (tx : mt_rtcp_tx) (e : E) (wire : list mbuf_copy)
    : Z * mt_rtcp_tx * E * list mbuf_copy :=
  let tx := tx <| stat_rtp_retransmit_succ ::= fun s => u32 (s + send) |> in
  let tx := tx <| stat_rtp_retransmit_fail ::= fun s => u32 (s + (bulk - send)) |> in
  (ret, tx, e, wire).

(** Returns the result, the session, the environment and the packets the queue
    accepted, in order. *)
Definition rtcp_tx_retransmit_rtp_packets (tx : mt_rtcp_tx) (e : E) (seq bulk : Z)
    : Z * mt_rtcp_tx * E * list mbuf_copy :=
  if bulk =? 0 then
    (- EIO, tx <| stat_rtp_retransmit_fail ::= fun s => u32 (s + 1) |>, e, [])
  else
    match mt_u64_fifo_read_front (mbuf_ring tx) with
    | None => rtcp_tx_rt_exit bulk (- EIO) 0 tx e []
    | Some head_mbuf =>
        if head_mbuf =? 0 then rtcp_tx_rt_exit bulk (- EIO) 0 tx e []
        else
          let ring_head_seq := mbuf_seq head_mbuf in
          let cmp_result := rtp_seq_num_cmp ring_head_seq seq in
          if cmp_result >? 0 then
            let tx := tx <| stat_rtp_retransmit_fail_obsolete ::= fun s => u32 (s + bulk) |> in
            rtcp_tx_rt_exit bulk (- EIO) 0 tx e []
          else
            let diff := u16 (seq - ring_head_seq) in
            if u32 (diff + bulk) >? u32 (mt_u64_fifo_count (mbuf_ring tx)) then
              let tx := tx <| stat_rtp_retransmit_fail_read ::= fun s => u32 (s + bulk) |> in
              rtcp_tx_rt_exit bulk (- EIO) 0 tx e []
            else
              let st :=
                loop_while (Z.to_nat bulk)
                  (fun st => negb (rt_break st) && (rt_done st <? bulk))
                  (rtcp_tx_retransmit_chunk bulk diff) (mk_rt 0 0 tx e [] false) in
              rtcp_tx_rt_exit bulk (rt_send st) (rt_send st) (rt_tx st) (rt_env st) (rt_wire st)
    end.

(** What is logged of a sampled packet: its first bytes and, when the header is there, its
    fields. [None] is a read outside [buf]. *)
Definition rtcp_tx_log_invalid (buf : bytes) (len : Z) : option (bytes * option (Z * Z * Z * bytes)) :=
  hex ← mapM (rd8 buf) (seqZ 0 (Z.min len 16));
  if len >=? SIZEOF_RTCP_HDR then
    flags ← rd8 buf 0; ptype ← rd8 buf 1; rtcp_len ← rd_be16 buf 2; name ← mapM (rd8 buf) (seqZ 8 4);
    Some (hex, Some (flags, ptype, rtcp_len, name))
  else Some (hex, None).

Definition rtcp_tx_drop_invalid (tx : mt_rtcp_tx) (reason : mt_rtcp_drop_reason) (buf : bytes) (len : Z) : option mt_rtcp_tx :=
  let r := drop_reason_idx reason in
  let tx := tx <| stat_nack_drop_invalid ::= fun s => u32 (s + 1) |> in
  let tx := tx <| stat_nack_drop_reason ::= fun l => arr_set l r (u32 (arr_get 0 l r + 1)) |> in
  let tx := tx <| nack_drop_seen ::= fun l => arr_set l r (u32 (arr_get 0 l r + 1)) |> in
  let seen := arr_get 0 (nack_drop_seen tx) r in
  if negb (seen mod MT_RTCP_DROP_SAMPLE =? 1) then Some tx
  else
    _ ← rtcp_tx_log_invalid buf len;
    Some (tx <| nack_drop_sampled := true |>).

(** One turn of the loop over the feedback items of a NACK. *)
Definition rtcp_tx_handle_fci (start follow : Z) (budget : Z) (tx : mt_rtcp_tx) (e : E)
    : Z * mt_rtcp_tx * E * list mbuf_copy :=
  let bulk := u32 (follow + 1) in
  if bulk >? budget then
    (budget, tx <| stat_rtp_retransmit_fail ::= fun s => u32 (s + bulk) |>, e, [])
  else
    let budget := u32 (budget - bulk) in
    let '(_, tx, e, wire) := rtcp_tx_retransmit_rtp_packets tx e start (u16 bulk) in
    (budget, tx, e, wire).

(** [for (i = 0; i < num_fcis; i++, fci++)], reading each item from the buffer:
    [None] is a read outside the received bytes. *)
Fixpoint rtcp_tx_handle_fcis (buf : bytes) (off : Z) (n : nat) (budget : Z)
    (tx : mt_rtcp_tx) (e : E) (wire : list mbuf_copy)
    : option (mt_rtcp_tx * E * list mbuf_copy) :=
  match n with
  | O => Some (tx, e, wire)
  | S n' =>
      start ← rd_be16 buf off;
      follow ← rd_be16 buf (off + 2);
      let '(budget, tx, e, w) := rtcp_tx_handle_fci start follow budget tx e in
      rtcp_tx_handle_fcis buf (off + SIZEOF_RTCP_FCI) n' budget tx e (wire ++ w)
  end.

(** "IMTL" *)
Definition IMTL_NAME : bytes := [73; 77; 84; 76].

(** [buf] is the memory the packet pointer gives access to, [len] the number of
    bytes received. *)
Definition mt_rtcp_tx_parse_rtcp_packet (tx : mt_rtcp_tx) (e : E) (buf : bytes) (len : Z)
    : option (Z * mt_rtcp_tx * E * list mbuf_copy) :=
  if negb (tx_active tx) then Some (0, tx, e, [])
  else
    let tx := tx <| nack_drop_sampled := false |> in
    if len <? SIZEOF_RTCP_HDR then
      tx ← rtcp_tx_drop_invalid tx MT_RTCP_DROP_SHORT buf len; Some (- EIO, tx, e, [])
    else
      flags ← rd8 buf 0;
      if negb (flags =? 0x80) then
        tx ← rtcp_tx_drop_invalid tx MT_RTCP_DROP_FLAGS buf len; Some (- EIO, tx, e, [])
      else
        ptype ← rd8 buf 1;
        if ptype =? MT_RTCP_PTYPE_NACK then
          name_ok ← rd_eq buf 8 IMTL_NAME;
          if negb name_ok then
            tx ← rtcp_tx_drop_invalid tx MT_RTCP_DROP_NAME buf len; Some (- EIO, tx, e, [])
          else
            let tx := tx <| stat_nack_received ::= fun s => u32 (s + 1) |> in
            rtcp_len ← rd_be16 buf 2;
            let rtcp_bytes := (rtcp_len + 1) * 4 in
            if (rtcp_bytes <? SIZEOF_RTCP_HDR) || (rtcp_bytes >? len) then
              tx ← rtcp_tx_drop_invalid tx MT_RTCP_DROP_LEN buf len; Some (- EIO, tx, e, [])
            else
              let num_fcis := u16 ((rtcp_bytes - SIZEOF_RTCP_HDR) / SIZEOF_RTCP_FCI) in
              let num_fcis :=
                if num_fcis >? MT_RTCP_MAX_FCIS then MT_RTCP_MAX_FCIS else num_fcis in
              let budget := u32 (mt_u64_fifo_count (mbuf_ring tx)) in
              '(tx, e, wire) ←
                rtcp_tx_handle_fcis buf SIZEOF_RTCP_HDR (Z.to_nat num_fcis) budget tx e [];
              Some (0, tx, e, wire)
        else Some (0, tx, e, []).
End Tx.

(** [rtcp_tx_stat] reports and clears the counters. *)
Definition rtcp_tx_stat (tx : mt_rtcp_tx) : mt_rtcp_tx :=
  let tx := tx <| stat_rtp_sent := 0 |> <| stat_nack_received := 0 |>
               <| stat_rtp_retransmit_succ := 0 |> in
  let tx :=
    if c_true (stat_nack_drop_invalid tx) then
      tx <| stat_nack_drop_invalid := 0 |>
         <| stat_nack_drop_reason ::= fun l => replicate (length l) 0 |>
    else tx in
  if c_true (stat_rtp_retransmit_fail tx) then
    tx <| stat_rtp_retransmit_fail_nobuf := 0 |> <| stat_rtp_retransmit_fail_read := 0 |>
       <| stat_rtp_retransmit_fail_obsolete := 0 |> <| stat_rtp_retransmit_fail_burst := 0 |>
       <| stat_rtp_retransmit_fail := 0 |>
  else tx.

(** ** Specification

    The mbufs a retransmit request of [bulk] packets from ring position [diff]
    names, and the copy that goes on the wire for one of them. *)
Definition rt_request (tx : mt_rtcp_tx) (diff bulk : Z) : list Z :=
  take (Z.to_nat bulk) (drop (Z.to_nat diff) (fifo_view (mbuf_ring tx))).

Definition rt_copy (mbuf_row_length : Z -> Z) (fmt : mt_rtp_payload_format) (m : Z) : mbuf_copy :=
  mk_copy m (if decide (fmt = MT_RTP_PAYLOAD_FORMAT_RFC4175)
             then Z.lor (mbuf_row_length m) ST20_RETRANSMIT else mbuf_row_length m).

(** The reasons a packet was not retransmitted, counted one by one. *)
Definition rt_fail_reasons (tx : mt_rtcp_tx) : Z :=
  stat_rtp_retransmit_fail_nobuf tx + stat_rtp_retransmit_fail_read tx
  + stat_rtp_retransmit_fail_obsolete tx + stat_rtp_retransmit_fail_burst tx.

(** The feedback items of a NACK, as a reader that knows only the format sees
    them, and how many packets they ask for. *)
Fixpoint rd_fcis (buf : bytes) (off : Z) (n : nat) : option (list (Z * Z)) :=
  match n with
  | O => Some []
  | S n' =>
      start ← rd_be16 buf off;
      follow ← rd_be16 buf (off + 2);
      rest ← rd_fcis buf (off + SIZEOF_RTCP_FCI) n';
      Some ((start, follow) :: rest)
  end.
Definition fcis_requested (fcis : list (Z * Z)) : Z :=
  foldr (fun fci acc => snd fci + 1 + acc) 0 fcis.

(** A list of mbufs whose RTP sequence numbers count up from [base]. *)
Definition seq_run (mbuf_seq : Z -> Z) (base : Z) (l : list Z) : Prop :=
  forall k m, l !! k = Some m -> mbuf_seq m = u16 (base + Z.of_nat k).

(** The ring invariant: a well-formed ring of at most 65535 non-NULL mbufs
    whose RTP sequence numbers are consecutive from [base]. *)
Record ring_inv (mbuf_seq : Z -> Z) (base : Z) (ring : mt_u64_fifo) : Prop := {
  ri_wf : fifo_wf ring;
  ri_size : fifo_size ring <= 65535;
  ri_seq : seq_run mbuf_seq base (fifo_view ring);
  ri_nonnull : Forall (fun m => m <> 0) (fifo_view ring);
}.

(** ** Facts *)

Section TxFacts.
Context {E : Type} `{!DpdkTx E} `{!DpdkTxLaws E}.
Context (mbuf_row_length : Z -> Z).
Implicit Types (tx : mt_rtcp_tx) (e : E).

Lemma copy_chunk_prefix fmt e ms copies e' :
  copy_chunk mbuf_row_length fmt e ms = (copies, e') ->
  (length copies <= length ms)%nat /\
  copies = rt_copy mbuf_row_length fmt <$> take (length copies) ms.
Proof.
  revert e copies e'. induction ms as [|m ms IH]; intros e copies e'; simpl.
  { intros [= <- <-]. done. }
  destruct (pktmbuf_copy e m) as [[] e1]; simpl; [|intros [= <- <-]; simpl; split; [lia|done]].
  destruct (copy_chunk _ _ _ ms) as [rest e2] eqn:Ec. intros [= <- <-].
  destruct (IH _ _ _ Ec) as [Hl Hr]. simpl. split; [lia|]. f_equal. exact Hr.
Qed.

Lemma take_slice {A} (v : list A) (f d b s : nat) :
  (d + s <= b)%nat -> take s (drop (f + d) v) = take s (drop d (take b (drop f v))).
Proof.
  intros H. rewrite <- drop_drop. generalize (drop f v). intros L.
  rewrite !take_drop_commute, take_take. do 2 f_equal. lia.
Qed.

(** Invariant of the chunk loop. *)
Record chunk_inv (tx0 : mt_rtcp_tx) (diff bulk : Z) (st : rt_state (E := E)) : Prop := {
  ci_ring : mbuf_ring (rt_tx st) = mbuf_ring tx0;
  ci_fmt : payload_format (rt_tx st) = payload_format tx0;
  ci_succ : stat_rtp_retransmit_succ (rt_tx st) = stat_rtp_retransmit_succ tx0;
  ci_fail : stat_rtp_retransmit_fail (rt_tx st) = stat_rtp_retransmit_fail tx0;
  ci_done : 0 <= rt_done st <= bulk;
  ci_send : 0 <= rt_send st <= bulk;
  ci_exact : rt_break st = false -> rt_send st = rt_done st;
  ci_wire : rt_wire st =
    rt_copy mbuf_row_length (payload_format tx0) <$>
      take (Z.to_nat (rt_send st)) (rt_request tx0 diff bulk);
  ci_reasons : u32 (rt_fail_reasons (rt_tx st)) =
    u32 (rt_fail_reasons tx0 + if rt_break st then bulk - rt_send st else 0);
}.

Lemma u32_add_l a b : u32 (u32 a + b) = u32 (a + b).
Proof. apply Zplus_mod_idemp_l. Qed.
Lemma u32_add_r a b : u32 (a + u32 b) = u32 (a + b).
Proof. apply Zplus_mod_idemp_r. Qed.

Lemma u32_eq_add a b c : u32 a = u32 b -> u32 (a + c) = u32 (b + c).
Proof. intros H. by rewrite <- (u32_add_l a), H, u32_add_l. Qed.

Section Chunk.
Context (tx0 : mt_rtcp_tx) (diff bulk : Z).
Hypothesis Hwf : fifo_wf (mbuf_ring tx0).
Hypothesis Hdiff : 0 <= diff.
Hypothesis Hbulk : 0 < bulk <= 65535.
Hypothesis Hfit : diff + bulk <= fifo_used (mbuf_ring tx0).

Lemma rt_request_length : length (rt_request tx0 diff bulk) = Z.to_nat bulk.
Proof.
  unfold rt_request. rewrite length_take, length_drop.
  pose proof (fifo_view_length (mbuf_ring tx0) ltac:(destruct Hwf; lia)) as H.
  unfold arr_len in H. lia.
Qed.

Lemma chunk_read_request nb done :
  0 <= done -> 0 <= nb -> done + nb <= bulk ->
  mt_u64_fifo_read_any_bulk (mbuf_ring tx0) nb (diff + done) =
    Some (take (Z.to_nat nb) (drop (Z.to_nat done) (rt_request tx0 diff bulk))).
Proof.
  intros Hd Hn Hb. pose proof Hwf as [Hs _ _ Hu _].
  rewrite fifo_read_any_bulk_spec by (try done; lia).
  destruct (Z.leb_spec (diff + done + nb) (fifo_used (mbuf_ring tx0))); [|lia]. f_equal.
  unfold rt_request. replace (Z.to_nat (diff + done)) with (Z.to_nat diff + Z.to_nat done)%nat by lia.
  apply take_slice. lia.
Qed.

Lemma chunk_step st :
  chunk_inv tx0 diff bulk st -> rt_break st = false -> rt_done st < bulk ->
  let st' := rtcp_tx_retransmit_chunk mbuf_row_length bulk diff st in
  chunk_inv tx0 diff bulk st' /\ (rt_break st' = false -> rt_done st < rt_done st').
Proof.
  intros [Hring Hfmt Hsucc Hfail Hd Hs Hex Hw Hr] Hbrk Hlt. destruct st as [done send tx e wire brk].
  cbn in *. subst brk. specialize (Hex eq_refl). subst send. cbn.
  set (nb := Z.min (bulk - done) MT_RTCP_RETRANSMIT_BULK).
  assert (Hnb : 0 < nb <= bulk - done /\ nb <= 32) by (unfold nb, MT_RTCP_RETRANSMIT_BULK; lia).
  rewrite Hring, chunk_read_request by lia. rewrite Hfmt.
  destruct (copy_chunk _ _ _ _) as [copies e1] eqn:Ec.
  apply copy_chunk_prefix in Ec as [Hlen Hcp].
  rewrite length_take, length_drop, rt_request_length in Hlen.
  pose proof (txq_burst_bound e1 copies) as Hb.
  destruct (txq_burst e1 copies) as [sent e2]. cbn in Hb.
  set (nb_rt := arr_len copies) in *.
  assert (Hrt : nb_rt <= nb) by (unfold nb_rt, arr_len; lia).
  assert (Hwire : wire ++ take (Z.to_nat sent) copies =
    rt_copy mbuf_row_length (payload_format tx0) <$>
      take (Z.to_nat (done + sent)) (rt_request tx0 diff bulk)).
  { rewrite Hw, Hcp, <- fmap_take, <- fmap_app. f_equal. rewrite !take_take.
    replace (Z.to_nat (done + sent)) with (Z.to_nat done + Z.to_nat sent)%nat by lia.
    rewrite <- take_take_drop. f_equal. f_equal. unfold nb_rt, arr_len in *. lia. }
  rewrite (u16_id (done + sent)) by (unfold is_u16; lia).
  unfold rt_fail_reasons in Hr.
  destruct (Z.ltb_spec sent nb_rt), (Z.ltb_spec nb_rt nb), (Z.eqb_spec nb_rt nb); try lia;
    (split; [split; cbn; try done; try lia|cbn; try done]);
    unfold rt_fail_reasons in *; cbn in *; rewrite ?u16_id by (unfold is_u16; lia);
    try done; try lia; mlia.
Qed.

Lemma chunk_loop e :
  let st := loop_while (Z.to_nat bulk)
      (fun st => negb (rt_break st) && (rt_done st <? bulk))
      (rtcp_tx_retransmit_chunk mbuf_row_length bulk diff) (mk_rt 0 0 tx0 e [] false) in
  chunk_inv tx0 diff bulk st /\
  u32 (rt_fail_reasons (rt_tx st)) = u32 (rt_fail_reasons tx0 + (bulk - rt_send st)).
Proof.
  intros st.
  destruct (loop_while_inv_exits (fun st => negb (rt_break st) && (rt_done st <? bulk))
    (rtcp_tx_retransmit_chunk mbuf_row_length bulk diff) (chunk_inv tx0 diff bulk)
    (fun st => if rt_break st then O else Z.to_nat (bulk - rt_done st))
    (Z.to_nat bulk) (mk_rt 0 0 tx0 e [] false)) as [Hinv Hexit].
  - intros s Hs Hc. zbool. destruct (chunk_step s Hs) as [Hi Hm]; [done|done|].
    split; [done|]. rewrite H. destruct (rt_break (rtcp_tx_retransmit_chunk _ _ _ s)) eqn:Eb; [lia|].
    specialize (Hm eq_refl). destruct Hi. lia.
  - split; cbn; try done; try lia. by rewrite Z.add_0_r.
  - cbn. lia.
  - fold st in Hinv, Hexit. split; [done|]. destruct Hinv. rewrite ci_reasons0.
    destruct (rt_break st) eqn:Eb; [done|]. cbn in Hexit. apply Z.ltb_ge in Hexit.
    specialize (ci_exact0 eq_refl). do 2 f_equal. lia.
Qed.
End Chunk.
End TxFacts.

Section TxTheorems.
Context {E : Type} `{!DpdkTx E} `{!DpdkTxLaws E}.
Context (mbuf_seq mbuf_row_length : Z -> Z).
Implicit Types (tx : mt_rtcp_tx) (e : E).

Lemma seq_run_app base l1 l2 :
  seq_run mbuf_seq base (l1 ++ l2) <->
  seq_run mbuf_seq base l1 /\ seq_run mbuf_seq (base + arr_len l1) l2.
Proof.
  unfold seq_run, arr_len. split.
  - intros H. split; intros k m Hk.
    + apply H. by apply lookup_app_l_Some.
    + rewrite (H (length l1 + k)%nat m) by (by rewrite lookup_app_r, Nat.add_comm, Nat.add_sub by lia).
      f_equal. lia.
  - intros [H1 H2] k m Hk. apply lookup_app_Some in Hk as [Hk|[Hle Hk]]; [by apply H1|].
    rewrite (H2 _ _ Hk). f_equal. lia.
Qed.

Lemma seq_run_u16 base l : seq_run mbuf_seq (u16 base) l <-> seq_run mbuf_seq base l.
Proof.
  unfold seq_run. split; intros H k m Hk; rewrite (H k m Hk); unfold u16.
  - apply Zplus_mod_idemp_l.
  - symmetry. apply Zplus_mod_idemp_l.
Qed.

Lemma seq_run_take base n l : seq_run mbuf_seq base l -> seq_run mbuf_seq base (take n l).
Proof. intros H k m Hk. apply lookup_take_Some in Hk as [Hk _]. by apply H. Qed.

Lemma seq_run_drop base n l :
  (n <= length l)%nat ->
  seq_run mbuf_seq base l -> seq_run mbuf_seq (base + Z.of_nat n) (drop n l).
Proof.
  intros Hn H. rewrite <- (take_drop n l) in H. apply seq_run_app in H as [_ H].
  unfold arr_len in H. rewrite length_take in H. by replace (n `min` length l)%nat with n in H by lia.
Qed.

Lemma seq_run_fmap base l :
  seq_run mbuf_seq base l -> mbuf_seq <$> l = (fun k => u16 (base + k)) <$> seqZ 0 (arr_len l).
Proof.
  intros H. apply list_eq. intros i. rewrite !list_lookup_fmap. unfold arr_len.
  destruct (l !! i) as [m|] eqn:El; simpl.
  - pose proof (lookup_lt_Some _ _ _ El). rewrite lookup_seqZ_lt by lia. simpl.
    rewrite (H i m El). f_equal.
  - apply lookup_ge_None in El. rewrite lookup_seqZ_ge by lia. done.
Qed.

(** The head of a ring that satisfies the invariant is a real mbuf. *)
Lemma ring_front base ring :
  ring_inv mbuf_seq base ring -> is_u16 base ->
  match mt_u64_fifo_read_front ring with
  | Some m => 0 < fifo_used ring /\ m <> 0 /\ mbuf_seq m = base
  | None => fifo_used ring = 0
  end.
Proof.
  intros [Hwf _ Hseq Hnn] Hb. pose proof Hwf as [Hs _ Hr Hu _].
  rewrite fifo_read_front_spec by done.
  pose proof (fifo_view_length ring ltac:(lia)) as Hl. unfold arr_len in Hl.
  destruct (fifo_view ring) as [|m l] eqn:Ev; simpl in *; [lia|].
  apply Forall_inv in Hnn. split; [lia|]. split; [done|].
  rewrite (Hseq O m eq_refl), Z.add_0_r. by apply u16_id.
Qed.

(** Complete behaviour of one retransmit request, on every branch. *)
Lemma retransmit_spec base tx e seq bulk :
  ring_inv mbuf_seq base (mbuf_ring tx) -> is_u16 base -> is_u16 seq -> 0 < bulk <= 65535 ->
  let diff := ahead16 base seq in
  let '(ret, tx', e', wire) := rtcp_tx_retransmit_rtp_packets mbuf_seq mbuf_row_length tx e seq bulk in
  mbuf_ring tx' = mbuf_ring tx /\ payload_format tx' = payload_format tx /\
  (if (diff <? 32768) && (diff + bulk <=? fifo_used (mbuf_ring tx))
   then ret = arr_len wire
   else ret = - EIO /\ wire = []) /\
  arr_len wire <= bulk /\
  wire = rt_copy mbuf_row_length (payload_format tx) <$>
           take (length wire) (rt_request tx diff bulk) /\
  stat_rtp_retransmit_succ tx' = u32 (stat_rtp_retransmit_succ tx + arr_len wire) /\
  stat_rtp_retransmit_fail tx' = u32 (stat_rtp_retransmit_fail tx + (bulk - arr_len wire)) /\
  (0 < fifo_used (mbuf_ring tx) ->
   u32 (rt_fail_reasons tx') = u32 (rt_fail_reasons tx + (bulk - arr_len wire))).
Proof.
  intros Hri Hb Hs Hbulk diff. pose proof Hri as [Hwf Hsz _ _]. pose proof Hwf as [Hsize _ _ Hu _].
  pose proof (ring_front base _ Hri Hb) as Hfront. pose proof (ahead16_range base seq) as Hah.
  unfold rtcp_tx_retransmit_rtp_packets. destruct (Z.eqb_spec bulk 0); [lia|].
  destruct (mt_u64_fifo_read_front (mbuf_ring tx)) as [m|].
  2:{ subst diff. replace (fifo_used (mbuf_ring tx)) with 0 by lia.
      replace ((ahead16 base seq <? 32768) && (ahead16 base seq + bulk <=? 0)) with false by lia.
      unfold arr_len. cbn. repeat split; try done; lia. }
  destruct Hfront as (Hpos & Hm0 & Hms).
  destruct (Z.eqb_spec m 0) as [|_]; [done|].
  cbv zeta. rewrite Hms, Z.gtb_ltb, Z.ltb_antisym, seq_num_cmp_le by done.
  change (u16 (seq - base)) with diff. fold diff.
  destruct (Z.ltb_spec diff 32768) as [Hlt|Hge]; simpl negb; cbn [andb].
  2:{ unfold rt_fail_reasons, arr_len. cbn. repeat split; try done; try lia. intros _. mlia. }
  rewrite !u32_id by (unfold is_u32, mt_u64_fifo_count; lia). unfold mt_u64_fifo_count.
  rewrite Z.gtb_ltb, Z.ltb_antisym.
  destruct (Z.leb_spec (diff + bulk) (fifo_used (mbuf_ring tx))) as [Hle|Hgt]; simpl negb; cbn [andb].
  2:{ unfold rt_fail_reasons, arr_len. cbn. repeat split; try done; try lia. intros _. mlia. }
  destruct (chunk_loop mbuf_row_length tx diff bulk Hwf ltac:(lia) Hbulk Hle e)
    as [[Hri' Hfmt Hsucc Hfail Hd Hsend Hex Hw Hr] Hreas].
  set (st := loop_while _ _ _ _) in *. set (req := rt_request tx diff bulk) in *.
  assert (Hlen : length (rt_wire st) = Z.to_nat (rt_send st)).
  { rewrite Hw, length_fmap, length_take. unfold req. rewrite rt_request_length by (done || lia). lia. }
  unfold rtcp_tx_rt_exit, arr_len. cbn. rewrite Hlen, Hsucc, Hfail, Z2Nat.id by lia.
  repeat split; try done; lia.
Qed.
(** What one feedback item does to the budget, the ring and the counters. *)
(** What a request puts on the wire carries consecutive sequence numbers. *)
Lemma retransmit_seqs base tx e seq bulk ret tx' e' wire :
  ring_inv mbuf_seq base (mbuf_ring tx) -> is_u16 base -> is_u16 seq -> 0 < bulk <= 65535 ->
  rtcp_tx_retransmit_rtp_packets mbuf_seq mbuf_row_length tx e seq bulk = (ret, tx', e', wire) ->
  mbuf_seq ∘ copy_of <$> wire = (fun k => u16 (seq + k)) <$> seqZ 0 (arr_len wire).
Proof.
  intros Hri Hb Hs Hbulk Heq. pose proof (retransmit_spec base tx e seq bulk Hri Hb Hs Hbulk) as H.
  cbv zeta in H. rewrite Heq in H. destruct H as (H1 & H2 & H3 & H4 & H5 & H6 & H7 & _).
  pose proof Hri as [Hwf Hsz Hrun _]. pose proof Hwf as [Hsize _ _ Hu _].
  pose proof (ahead16_range base seq) as Hah.
  pose proof (fifo_view_length (mbuf_ring tx) ltac:(lia)) as Hvl.
  rewrite list_fmap_compose. replace (copy_of <$> wire) with
    (take (length wire) (rt_request tx (ahead16 base seq) bulk)).
  2:{ rewrite H5 at 2. rewrite <- list_fmap_compose. symmetry. etransitivity; [|apply list_fmap_id].
      apply list_fmap_ext. done. }
  set (req := take _ _).
  assert (Hl : arr_len req = arr_len wire).
  { apply (f_equal length) in H5. rewrite length_fmap in H5. unfold arr_len, req. lia. }
  rewrite <- Hl. apply seq_run_fmap. unfold req.
  destruct (decide (length wire = 0%nat)) as [->|Hne]; [rewrite take_0; intros k m Hk; done|].
  assert (ahead16 base seq + bulk <= fifo_used (mbuf_ring tx)) as Hfit.
  { destruct ((_ <? _) && _) eqn:Ec; zbool; [lia|]. destruct H3 as [_ ->]. done. }
  apply seq_run_take. unfold rt_request. apply seq_run_take.
  apply (seq_run_drop _ (Z.to_nat (ahead16 base seq))) in Hrun; [|unfold arr_len in Hvl; lia].
  rewrite <- seq_run_u16 in Hrun. replace (u16 _) with seq in Hrun; [done|].
  rewrite Z2Nat.id by lia. by apply ahead16_inv.
Qed.

Lemma handle_fci_spec base tx e start follow budget :
  ring_inv mbuf_seq base (mbuf_ring tx) -> is_u16 base -> is_u16 start -> is_u16 follow ->
  0 <= budget <= fifo_used (mbuf_ring tx) ->
  let '(budget', tx', e', wire) :=
    rtcp_tx_handle_fci mbuf_seq mbuf_row_length start follow budget tx e in
  mbuf_ring tx' = mbuf_ring tx /\ payload_format tx' = payload_format tx /\
  0 <= budget' /\ arr_len wire + budget' <= budget /\
  Forall (fun c => copy_of c ∈ fifo_view (mbuf_ring tx)) wire /\
  u32 (stat_rtp_retransmit_succ tx' + stat_rtp_retransmit_fail tx') =
    u32 (stat_rtp_retransmit_succ tx + stat_rtp_retransmit_fail tx + (follow + 1)).
Proof.
  intros Hri Hb Hs Hf Hbud. pose proof Hri as [Hwf Hsz _ _]. pose proof Hwf as [Hsize _ _ Hu _].
  unfold rtcp_tx_handle_fci. rewrite u32_id by (unfold is_u32, is_u16 in *; lia).
  rewrite Z.gtb_ltb. destruct (Z.ltb_spec budget (follow + 1)) as [Hlt|Hge].
  { unfold arr_len. cbn. repeat split; try done; try lia. mlia. }
  rewrite (u16_id (follow + 1)), u32_id by (unfold is_u32, is_u16 in *; lia).
  pose proof (retransmit_spec base tx e start (follow + 1) Hri Hb Hs
    ltac:(unfold is_u16 in *; lia)) as H. cbv zeta in H.
  destruct (rtcp_tx_retransmit_rtp_packets _ _ _ _ _ _) as [[[ret tx'] e'] wire].
  destruct H as (H1 & H2 & _ & H4 & H5 & H6 & H7 & _).
  repeat split; try done; try (unfold is_u16, arr_len in *; lia).
  - rewrite H5. apply Forall_fmap, Forall_take. unfold rt_request.
    apply Forall_take, Forall_drop, Forall_forall. intros m Hm. exact Hm.
  - rewrite H6, H7. mlia.
Qed.

Lemma handle_fcis_spec base buf n off budget tx e wire0 :
  ring_inv mbuf_seq base (mbuf_ring tx) -> is_u16 base -> is_bytes buf ->
  0 <= off -> off + 4 * Z.of_nat n <= arr_len buf ->
  0 <= budget <= fifo_used (mbuf_ring tx) ->
  exists tx' e' wire fcis,
    rtcp_tx_handle_fcis mbuf_seq mbuf_row_length buf off n budget tx e wire0
      = Some (tx', e', wire0 ++ wire) /\
    rd_fcis buf off n = Some fcis /\
    mbuf_ring tx' = mbuf_ring tx /\ arr_len wire <= budget /\
    Forall (fun c => copy_of c ∈ fifo_view (mbuf_ring tx)) wire /\
    u32 (stat_rtp_retransmit_succ tx' + stat_rtp_retransmit_fail tx') =
      u32 (stat_rtp_retransmit_succ tx + stat_rtp_retransmit_fail tx + fcis_requested fcis).
Proof.
  intros Hri Hb Hbuf. revert off budget tx e wire0 Hri.
  induction n as [|n IH]; intros off budget tx e wire0 Hri Ho Hlen Hbud.
  { exists tx, e, [], []. simpl. rewrite app_nil_r, Z.add_0_r. unfold arr_len. simpl. done || (repeat split; try done; lia). }
  simpl. unfold SIZEOF_RTCP_FCI.
  destruct (rd_be16_in buf off) as [start Es]; [lia|lia|].
  destruct (rd_be16_in buf (off + 2)) as [follow Ef]; [lia|lia|].
  rewrite Es, Ef. simpl.
  pose proof (rd_be16_range _ _ _ Hbuf Es) as Rs. pose proof (rd_be16_range _ _ _ Hbuf Ef) as Rf.
  pose proof (handle_fci_spec base tx e start follow budget Hri Hb Rs Rf Hbud) as H.
  destruct (rtcp_tx_handle_fci _ _ _ _ _ _ _) as [[[budget1 tx1] e1] w1].
  destruct H as (H1 & H2 & H3 & H4 & H5 & H6).
  destruct (IH (off + 4) budget1 tx1 e1 (wire0 ++ w1)) as (tx' & e' & wire & fcis & I1 & I2 & I3 & I4 & I5 & I6).
  { by rewrite H1. } { lia. } { lia. } { rewrite H1. unfold arr_len in *. lia. }
  exists tx', e', (w1 ++ wire), ((start, follow) :: fcis). rewrite I1, I2. simpl.
  rewrite app_assoc. repeat split; try done.
  - congruence.
  - unfold arr_len in *. rewrite length_app. lia.
  - apply Forall_app. rewrite H1 in I5. done.
  - rewrite I6. rewrite <- u32_add_l, H6, u32_add_l. f_equal. lia.
Qed.

(** Logging stays inside the received bytes, so a packet can be dropped. *)
Lemma mapM_rd8_in buf off n : 0 <= off -> off + n <= arr_len buf -> is_Some (mapM (rd8 buf) (seqZ off n)).
Proof.
  intros H0 H. apply mapM_is_Some, Forall_forall. intros i Hi%elem_of_seqZ. destruct (rd8_in buf i) as [x Hx]; [lia|]. by exists x.
Qed.
Lemma drop_invalid_in tx reason buf len : len <= arr_len buf -> is_Some (rtcp_tx_drop_invalid tx reason buf len).
Proof.
  intros Hlen. unfold rtcp_tx_drop_invalid. case_if; [done|]. unfold rtcp_tx_log_invalid.
  destruct (mapM_rd8_in buf 0 (Z.min len 16)) as [hex ->]; [lia|lia|]. obind. rewrite Z.geb_leb. destruct (Z.leb_spec SIZEOF_RTCP_HDR len) as [Hl|]; [|done].
  unfold SIZEOF_RTCP_HDR in *. destruct (rd8_in buf 0) as [? ->]; [lia|]. destruct (rd8_in buf 1) as [? ->]; [lia|].
  destruct (rd_be16_in buf 2) as [? ->]; [lia|lia|]. by destruct (mapM_rd8_in buf 8 4) as [? ->]; [lia|lia|].
Qed.

(** C37: whatever a peer sends, parsing an RTCP packet reads only bytes that were
    received: with [len] received bytes, and no other memory that can be read, the
    parser returns; it never takes the out-of-bounds branch that [None] stands for. The
    reads are those of the header, of the feedback items and of the log of a rejected
    packet, runts included. *)
Theorem rtcp_parse_in_bounds tx e buf len :
  is_bytes buf -> len <= arr_len buf ->
  exists ret tx' e' wire,
    mt_rtcp_tx_parse_rtcp_packet mbuf_seq mbuf_row_length tx e buf len = Some (ret, tx', e', wire).
Proof.
  intros Hbuf Hl. unfold mt_rtcp_tx_parse_rtcp_packet.
  assert (forall tx reason, exists ret tx' e' wire, (tx ← rtcp_tx_drop_invalid tx reason buf len; Some (- EIO, tx, e, []))
    = Some (ret, tx', e', wire : list mbuf_copy)) as Hdrop.
  { intros tx0 reason. destruct (drop_invalid_in tx0 reason buf len Hl) as [tx1 ->]. obind. eauto 6. }
  destruct (tx_active tx); obind; [|eauto 6].
  destruct (Z.ltb_spec len SIZEOF_RTCP_HDR) as [|Hh]; [apply Hdrop|]. unfold SIZEOF_RTCP_HDR in *.
  destruct (rd8_in buf 0) as [flags ->]; [lia|]. obind. destruct (flags =? 128); obind; [|apply Hdrop].
  destruct (rd8_in buf 1) as [ptype ->]; [lia|]. obind. destruct (ptype =? _); [|eauto 6].
  destruct (rd_eq_in IMTL_NAME buf 8) as [nm ->]; [lia|unfold arr_len; simpl; unfold arr_len in *; lia|].
  obind. destruct nm; obind; [|apply Hdrop].
  destruct (rd_be16_in buf 2) as [rl Erl]; [lia|lia|]. rewrite Erl. obind.
  apply (rd_be16_range _ _ _ Hbuf) in Erl.
  destruct ((_ <? _) || _) eqn:El; [apply Hdrop|]. rewrite Z.gtb_ltb in El. zbool.
  assert (Hn : forall n off budget tx e w, 0 <= off -> off + 4 * Z.of_nat n <= arr_len buf ->
    exists r, rtcp_tx_handle_fcis mbuf_seq mbuf_row_length buf off n budget tx e w = Some r).
  { clear. induction n as [|n IH]; intros off budget tx e w H0 H1; simpl; [eauto|].
    destruct (rd_be16_in buf off) as [? ->]; [lia|lia|].
    destruct (rd_be16_in buf (off + 2)) as [? ->]; [lia|lia|]. simpl.
    destruct (rtcp_tx_handle_fci _ _ _ _ _ _ _) as [[[? ?] ?] ?]. apply IH; unfold SIZEOF_RTCP_FCI; lia. }
  edestruct Hn as [[[tx' e'] wire] ->]; [| |simpl; eauto 6].
  all: unfold is_u16, SIZEOF_RTCP_FCI, MT_RTCP_MAX_FCIS in *; try lia.
  rewrite Z.gtb_ltb. case_if; mlia.
Qed.

(** One NACK retransmits at most the ring once. For every received packet the
    copies put on the wire are copies of buffered packets, at most as many as
    the ring holds, the ring itself is untouched, and on the accepting path the
    success and failure counters together grow by exactly the number of packets
    the feedback items ask for (modulo the counter width). *)
Theorem rtcp_nack_budget base tx e buf len ret tx' e' wire :
  ring_inv mbuf_seq base (mbuf_ring tx) -> is_u16 base -> is_bytes buf -> len <= arr_len buf ->
  mt_rtcp_tx_parse_rtcp_packet mbuf_seq mbuf_row_length tx e buf len = Some (ret, tx', e', wire) ->
  mbuf_ring tx' = mbuf_ring tx /\
  arr_len wire <= fifo_used (mbuf_ring tx) /\
  Forall (fun c => copy_of c ∈ fifo_view (mbuf_ring tx)) wire /\
  (stat_nack_received tx' <> stat_nack_received tx -> ret = 0 ->
   exists n fcis, (n <= 256)%nat /\ rd_fcis buf SIZEOF_RTCP_HDR n = Some fcis /\
     u32 (stat_rtp_retransmit_succ tx' + stat_rtp_retransmit_fail tx') =
     u32 (stat_rtp_retransmit_succ tx + stat_rtp_retransmit_fail tx + fcis_requested fcis)).
Proof.
  intros Hri Hb Hbuf Hlen. unfold mt_rtcp_tx_parse_rtcp_packet.
  pose proof Hri as [Hwf Hsz _ _]. pose proof Hwf as [Hsize _ _ Hu _].
  assert (Hquit : forall ret1 tx1 e1, mbuf_ring tx1 = mbuf_ring tx ->
    (ret1 = 0 -> stat_nack_received tx1 = stat_nack_received tx) ->
    Some (ret1, tx1, e1, []) = Some (ret, tx', e', wire) ->
    mbuf_ring tx' = mbuf_ring tx /\ arr_len wire <= fifo_used (mbuf_ring tx) /\
    Forall (fun c => copy_of c ∈ fifo_view (mbuf_ring tx)) wire /\
    (stat_nack_received tx' <> stat_nack_received tx -> ret = 0 ->
     exists n fcis, (n <= 256)%nat /\ rd_fcis buf SIZEOF_RTCP_HDR n = Some fcis /\
     u32 (stat_rtp_retransmit_succ tx' + stat_rtp_retransmit_fail tx') =
     u32 (stat_rtp_retransmit_succ tx + stat_rtp_retransmit_fail tx + fcis_requested fcis))).
  { intros ret1 tx1 e1 Hr1 Hn1 [= <- <- <- <-]. unfold arr_len. simpl.
    repeat split; try done; try lia; intros Hne H0; by specialize (Hn1 H0). }
  assert (Hdrop : forall tx0 r, mbuf_ring tx0 = mbuf_ring tx ->
    (tx1 ← rtcp_tx_drop_invalid tx0 r buf len; Some (- EIO, tx1, e, [])) = Some (ret, tx', e', wire) ->
    mbuf_ring tx' = mbuf_ring tx /\ arr_len wire <= fifo_used (mbuf_ring tx) /\
    Forall (fun c => copy_of c ∈ fifo_view (mbuf_ring tx)) wire /\
    (stat_nack_received tx' <> stat_nack_received tx -> ret = 0 ->
     exists n fcis, (n <= 256)%nat /\ rd_fcis buf SIZEOF_RTCP_HDR n = Some fcis /\
     u32 (stat_rtp_retransmit_succ tx' + stat_rtp_retransmit_fail tx') =
     u32 (stat_rtp_retransmit_succ tx + stat_rtp_retransmit_fail tx + fcis_requested fcis))).
  { intros tx0 r Hr0. destruct (rtcp_tx_drop_invalid tx0 r buf len) as [tx1|] eqn:Ed; [|done]. obind. apply Hquit; [|done].
    rewrite <- Hr0. unfold rtcp_tx_drop_invalid in Ed. case_if_in Ed; [by injection Ed as <-|].
    destruct (rtcp_tx_log_invalid buf len); [|done]. by injection Ed as <-. }
  destruct (tx_active tx); obind; [|apply Hquit; done].
  destruct (Z.ltb_spec len SIZEOF_RTCP_HDR) as [|Hh]; [by apply Hdrop|].
  unfold SIZEOF_RTCP_HDR in *. destruct (rd8 buf 0) as [flags|]; obind; [|done].
  destruct (flags =? 128); obind; [|by apply Hdrop].
  destruct (rd8 buf 1) as [ptype|]; obind; [|done].
  destruct (ptype =? _); [|apply Hquit; done].
  destruct (rd_eq buf 8 IMTL_NAME) as [[]|]; obind; [|by apply Hdrop|done].
  destruct (rd_be16 buf 2) as [rl|] eqn:Erl; obind; [|done].
  destruct ((_ <? _) || _) eqn:El; [by apply Hdrop|].
  rewrite Z.gtb_ltb in El. zbool. rewrite u32_id by (unfold is_u32, mt_u64_fifo_count; cbn; lia).
  set (num := if _ >? MT_RTCP_MAX_FCIS then _ else _).
  set (tx1 := _ <| stat_nack_received ::= _ |>).
  apply (rd_be16_range _ _ _ Hbuf) in Erl.
  assert (Hnum : 0 <= num <= 256 /\ 12 + 4 * num <= arr_len buf).
  { unfold num, SIZEOF_RTCP_FCI, MT_RTCP_MAX_FCIS, is_u16 in *. rewrite Z.gtb_ltb. case_if; mlia. }
  destruct (handle_fcis_spec base buf (Z.to_nat num) 12 (mt_u64_fifo_count (mbuf_ring tx1)) tx1 e [])
    as (tx2 & e2 & w & fcis & -> & Hf & Hr & Hw & HF & Hacc); try done; try lia.
  { unfold mt_u64_fifo_count. cbn. lia. }
  obind. intros [= <- <- <- <-]. repeat split; try done.
  intros _ _. exists (Z.to_nat num), fcis. split; [lia|]. done.
Qed.

(** C12: a retransmit request for [bulk] packets from [seq] is served from the ring
    by sequence number. It is refused exactly when the first packet is older
    than the ring head or the range is not completely buffered; otherwise the
    packets accepted by the queue carry the sequence numbers [seq], [seq + 1],
    ... in order without gaps, each RFC 4175 copy has its retransmit bit set,
    and success plus failure account for every requested packet. *)
Theorem rtcp_retransmit_exact base tx e seq bulk ret tx' e' wire :
  ring_inv mbuf_seq base (mbuf_ring tx) -> is_u16 base -> is_u16 seq -> 0 < bulk <= 65535 ->
  rtcp_tx_retransmit_rtp_packets mbuf_seq mbuf_row_length tx e seq bulk = (ret, tx', e', wire) ->
  (ret = - EIO <-> ~ (ahead16 base seq < 32768 /\
                      ahead16 base seq + bulk <= fifo_used (mbuf_ring tx))) /\
  arr_len wire = Z.max 0 ret /\ arr_len wire <= bulk /\
  mbuf_seq ∘ copy_of <$> wire = (fun k => u16 (seq + k)) <$> seqZ 0 (arr_len wire) /\
  (payload_format tx = MT_RTP_PAYLOAD_FORMAT_RFC4175 ->
   Forall (fun c => Z.testbit (copy_row_length c) 14 = true) wire) /\
  u32 (stat_rtp_retransmit_succ tx' + stat_rtp_retransmit_fail tx') =
    u32 (stat_rtp_retransmit_succ tx + stat_rtp_retransmit_fail tx + bulk).
Proof.
  intros Hri Hb Hs Hbulk Heq. pose proof (retransmit_spec base tx e seq bulk Hri Hb Hs Hbulk) as H.
  cbv zeta in H. rewrite Heq in H. destruct H as (H1 & H2 & H3 & H4 & H5 & H6 & H7 & _).
  pose proof Hri as [Hwf Hsz Hrun _]. pose proof Hwf as [Hsize _ _ Hu _].
  pose proof (ahead16_range base seq) as Hah.
  pose proof (fifo_view_length (mbuf_ring tx) ltac:(lia)) as Hvl.
  split; [|split; [|split; [done|split; [|split]]]].
  - destruct ((_ <? _) && _) eqn:Ec; zbool.
    + rewrite H3. unfold EIO, arr_len. split; [lia|]. intros Hn. exfalso. apply Hn. lia.
    + destruct H3 as [-> _]. split; [|done]. intros _. lia.
  - destruct ((_ <? _) && _); [rewrite H3; unfold arr_len; lia|].
    destruct H3 as [-> ->]. done.
  - by eapply retransmit_seqs.
  - intros Hfmt. rewrite H5. apply Forall_fmap. apply Forall_forall. intros m _.
    cbv [compose]. unfold rt_copy. rewrite decide_True by done. cbn [copy_row_length].
    rewrite Z.lor_spec. apply orb_true_r.
  - rewrite H6, H7. mlia.
Qed.

End TxTheorems.

Section TxBuffer.
Context (mbuf_seq : Z -> Z).
Implicit Types (tx : mt_rtcp_tx).

(** The sender's invariant: the ring is a run from [base] and [last_seq_num]
    is the number of the packet buffered last. *)
Record rtcp_tx_inv (base : Z) (tx : mt_rtcp_tx) : Prop := {
  ti_base : is_u16 base;
  ti_ring : ring_inv mbuf_seq base (mbuf_ring tx);
  ti_last : 0 < fifo_used (mbuf_ring tx) ->
    last_seq_num tx = u16 (base + fifo_used (mbuf_ring tx) - 1);
}.

(** Dropping the oldest packets of the ring keeps the invariant, from a later base. *)
Lemma tx_inv_drop base tx ring items :
  rtcp_tx_inv base tx -> fifo_wf ring -> fifo_size ring = fifo_size (mbuf_ring tx) ->
  fifo_view (mbuf_ring tx) = items ++ fifo_view ring ->
  rtcp_tx_inv (u16 (base + arr_len items)) (tx <| mbuf_ring := ring |>).
Proof.
  intros [Hb [Hwf Hsz Hrun Hnn] Hlast] Hwf' Hsz' Hv.
  pose proof (fifo_view_length (mbuf_ring tx) ltac:(destruct Hwf; lia)) as L1.
  pose proof (fifo_view_length ring ltac:(destruct Hwf'; lia)) as L2.
  rewrite Hv in L1, Hrun, Hnn. unfold arr_len in L1, L2. rewrite length_app in L1.
  apply seq_run_app in Hrun as [_ Hrun]. apply Forall_app in Hnn as [_ Hnn].
  split; cbn; [apply u16_range| |].
  - split; [done|lia|by apply seq_run_u16|done].
  - intros Hu. rewrite Hlast by lia. unfold arr_len in *. mlia.
Qed.

Lemma make_room_spec base tx bulk :
  rtcp_tx_inv base tx -> 0 <= bulk ->
  exists ok tx1 dropped base1,
    rtcp_tx_make_room tx bulk = (ok, tx1, EvFree <$> dropped) /\
    rtcp_tx_inv base1 tx1 /\
    fifo_view (mbuf_ring tx) = dropped ++ fifo_view (mbuf_ring tx1) /\
    (bulk <= mt_u64_fifo_free_count (mbuf_ring tx) -> dropped = []).
Proof.
  intros Hinv Hbulk. pose proof Hinv as [Hb [Hwf Hsz _ _] _]. pose proof Hwf as [Hsize _ _ Hu _].
  unfold rtcp_tx_make_room. rewrite u32_id by (unfold is_u32, mt_u64_fifo_free_count; lia).
  destruct (Z.ltb_spec (mt_u64_fifo_free_count (mbuf_ring tx)) bulk).
  2:{ exists true, tx, [], base. done. }
  pose proof (fifo_get_bulk_spec _ bulk Hwf Hbulk) as Hg.
  destruct (mt_u64_fifo_get_bulk _ _) as [[items|] ring].
  - destruct Hg as (Hw & Hs & _ & Hv). do 4 eexists. split; [done|].
    split; [by eapply tx_inv_drop|]. split; [done|lia].
  - destruct Hg as [-> _]. exists false, (tx <| mbuf_ring := mbuf_ring tx |>), [], (u16 (base + 0)).
    split; [done|]. split; [by apply (tx_inv_drop base tx _ [])|]. done.
Qed.

(** The burst is numbered right after what the ring holds, or the ring is empty. *)
Lemma tx_inv_append base tx ring mbufs first sent :
  rtcp_tx_inv base tx -> mbufs <> [] ->
  seq_run mbuf_seq first mbufs -> Forall (fun m => m <> 0) mbufs ->
  (u16 (mbuf_seq (arr_get 0 mbufs 0) - last_seq_num tx) = 1 \/ fifo_used (mbuf_ring tx) = 0) ->
  fifo_wf ring -> fifo_size ring = fifo_size (mbuf_ring tx) ->
  fifo_view ring = fifo_view (mbuf_ring tx) ++ mbufs ->
  exists base', rtcp_tx_inv base' (tx <| mbuf_ring := ring |>
    <| last_seq_num := mbuf_seq (arr_get 0 mbufs (arr_len mbufs - 1)) |> <| stat_rtp_sent ::= sent |>).
Proof.
  intros [Hb [Hwf Hsz Hrun Hnn] Hlast] Hne Hrun2 Hnn2 Hgap Hwf' Hsz' Hv.
  pose proof (fifo_view_length (mbuf_ring tx) ltac:(destruct Hwf; lia)) as L1.
  pose proof (fifo_view_length ring ltac:(destruct Hwf'; lia)) as L2.
  rewrite Hv in L2. unfold arr_len in L1, L2. rewrite length_app in L2.
  assert (Hpos : (0 < length mbufs)%nat) by (destruct mbufs; simpl; [done|lia]).
  assert (Hnth : forall k, 0 <= k < arr_len mbufs -> mbuf_seq (arr_get 0 mbufs k) = u16 (first + k)).
  { intros k Hk. destruct (lookup_lt_is_Some_2 mbufs (Z.to_nat k)) as [m Em]; [unfold arr_len in Hk; lia|].
    rewrite (arr_get_lookup 0 mbufs k m) by (done || lia). rewrite (Hrun2 _ _ Em). f_equal. lia. }
  rewrite Hnth in Hgap by (unfold arr_len; lia).
  set (base' := if fifo_used (mbuf_ring tx) =? 0 then u16 first else base).
  assert (Hrel : u16 (base' + fifo_used (mbuf_ring tx)) = u16 first).
  { unfold base'. destruct (Z.eqb_spec (fifo_used (mbuf_ring tx)) 0) as [->|Hn]; [mlia|].
    destruct Hgap as [Hg|]; [|done]. rewrite Hlast in Hg by (destruct Hwf; lia). mlia. }
  exists base'. split; cbn.
  - unfold base'. case_if; [apply u16_range|done].
  - split; [done|lia| |].
    + rewrite Hv. apply seq_run_app. split.
      * unfold base'. destruct (Z.eqb_spec (fifo_used (mbuf_ring tx)) 0) as [E0|]; [|done].
        destruct (fifo_view (mbuf_ring tx)); [intros k m Hk; done|simpl in L1; lia].
      * apply seq_run_u16. unfold arr_len. rewrite L1, Hrel. by apply seq_run_u16.
    + rewrite Hv. by apply Forall_app.
  - intros _. rewrite Hnth by (unfold arr_len; lia). unfold arr_len. mlia.
Qed.

(** Buffering a burst of consecutively numbered packets keeps the ring a gapless
    run of sequence numbers ending in [last_seq_num], whatever the outcome.
    On success the ring is its old content, less a prefix of the oldest packets
    removed only when the free space is too small, followed by the burst; every
    removed packet is freed and every segment of the burst is referenced once.
    On failure nothing is added, and what was removed was freed. *)
Theorem rtcp_buffer_keeps_run (mbuf_segs : Z -> list Z) base tx first mbufs ret tx' evs :
  rtcp_tx_inv base tx -> tx_active tx = true ->
  mbufs <> [] -> arr_len mbufs <= 65535 ->
  seq_run mbuf_seq first mbufs -> Forall (fun m => m <> 0) mbufs ->
  mt_rtcp_tx_buffer_rtp_packets mbuf_seq mbuf_segs tx mbufs = (ret, tx', evs) ->
  (exists base', rtcp_tx_inv base' tx') /\
  (ret = 0 \/ ret = - EIO) /\
  exists dropped kept,
    fifo_view (mbuf_ring tx) = dropped ++ kept /\
    (arr_len mbufs <= mt_u64_fifo_free_count (mbuf_ring tx) -> dropped = []) /\
    (ret = 0 -> fifo_view (mbuf_ring tx') = kept ++ mbufs /\
                evs = (EvFree <$> dropped) ++ mt_mbuf_refcnt_inc_bulk mbuf_segs mbufs) /\
    (ret <> 0 -> fifo_view (mbuf_ring tx') = kept /\ evs = EvFree <$> dropped).
Proof.
  intros Hinv Hact Hne Hlen Hrun Hnn. unfold mt_rtcp_tx_buffer_rtp_packets. rewrite Hact. cbn [negb].
  destruct (make_room_spec base tx (arr_len mbufs) Hinv) as (ok & tx1 & dropped & base1 & -> & Hinv1 & Hv & Hfree).
  { unfold arr_len. lia. }
  set (goal := (exists base', _) /\ _).
  assert (Hfail : (- EIO, tx1, EvFree <$> dropped) = (ret, tx', evs) -> goal).
  { intros [= <- <- <-]. split; [by eexists|]. split; [by right|].
    exists dropped, (fifo_view (mbuf_ring tx1)). done. }
  destruct ok; cbn [negb]; [|exact Hfail].
  pose proof Hinv1 as [_ [Hwf1 _ _ _] _]. pose proof Hwf1 as [Hsize1 _ _ Hu1 _].
  destruct (negb _ && negb _) eqn:Egap; [exact Hfail|].
  pose proof (fifo_put_bulk_spec (mbuf_ring tx1) mbufs (arr_len mbufs) Hwf1 ltac:(unfold arr_len; lia) ltac:(lia)) as Hp.
  destruct (mt_u64_fifo_put_bulk _ _ _) as [r ring].
  destruct (Z.leb_spec (fifo_used (mbuf_ring tx1) + arr_len mbufs) (fifo_size (mbuf_ring tx1))).
  2:{ destruct Hp as [-> ->]. simpl. intros H0. apply Hfail. rewrite <- H0. destruct tx1. done. }
  destruct Hp as (-> & Hwf2 & Hs2 & Hv2). rewrite take_ge in Hv2 by (unfold arr_len; lia).
  cbn [Z.ltb Z.compare]. intros [= <- <- <-]. split.
  - eapply tx_inv_append; try done. unfold mt_u64_fifo_count in Egap. zbool. destruct Egap; zbool; tauto.
  - split; [by left|]. exists dropped, (fifo_view (mbuf_ring tx1)). cbn. done.
Qed.
End TxBuffer.

(** ** A concrete environment

    A pool that never runs empty and a queue with [credit] free descriptors. *)
#[export] Instance credit_tx : DpdkTx Z := {|
  pktmbuf_copy credit _ := (true, credit);
  txq_burst credit l :=
    let n := Z.max 0 (Z.min credit (arr_len l)) in (n, credit - n);
|}.
#[export] Instance credit_tx_laws : DpdkTxLaws Z.
Proof. intros e l. cbn. unfold arr_len. lia. Qed.

Definition demo_ring : mt_u64_fifo := snd (mt_u64_fifo_put_bulk (mk_fifo [0; 0; 0; 0] 0 0 4 0) [65534; 65535; 65536] 3).
Definition demo_tx : mt_rtcp_tx :=
  mk_rtcp_tx demo_ring 7 true MT_RTP_PAYLOAD_FORMAT_RFC4175 0 3 0 0 0 0 0 0 0 0 [0; 0; 0; 0] [0; 0; 0; 0] false.
(** Packet [m] of the example is numbered [m mod 2^16]. *)
Definition demo_seq (m : Z) : Z := u16 m.

Lemma demo_inv : rtcp_tx_inv demo_seq 65534 demo_tx.
Proof.
  split; [by vm_compute| |by vm_compute].
  split; [by split; vm_compute|by vm_compute| |by repeat constructor; vm_compute].
  change (fifo_view (mbuf_ring demo_tx)) with [65534; 65535; 65536].
  intros [|[|[|k]]] m Hk; simplify_eq/=; by vm_compute.
Qed.

(** A NACK asking for packet 65535 and the one that follows it, number 0. *)
Definition demo_nack : bytes := [128; 204; 0; 3; 0; 0; 0; 7; 73; 77; 84; 76; 255; 255; 0; 1].

Lemma demo_nack_bytes : is_bytes demo_nack.
Proof. by repeat constructor; vm_compute. Qed.

Lemma rtcp_parse_in_bounds_witness :
  is_bytes demo_nack /\ 16 <= arr_len demo_nack /\
  exists ret tx' e' wire,
    mt_rtcp_tx_parse_rtcp_packet demo_seq id demo_tx 10 demo_nack 16 = Some (ret, tx', e', wire).
Proof.
  split; [apply demo_nack_bytes|]. split; [vm_compute; done|].
  apply rtcp_parse_in_bounds; [apply demo_nack_bytes|vm_compute; done].
Defined.

Lemma rtcp_nack_budget_witness :
  exists tx', mt_rtcp_tx_parse_rtcp_packet demo_seq id demo_tx 10 demo_nack 16
    = Some (0, tx', 8, [mk_copy 65535 65535; mk_copy 65536 81920]) /\
  mbuf_ring tx' = mbuf_ring demo_tx /\ 2 <= fifo_used (mbuf_ring demo_tx).
Proof.
  eexists. split; [vm_compute; reflexivity|].
  edestruct (rtcp_nack_budget demo_seq id 65534 demo_tx 10 demo_nack 16) as (H1 & H2 & _).
  - apply (ti_ring _ _ _ demo_inv).
  - by vm_compute.
  - apply demo_nack_bytes.
  - by vm_compute.
  - vm_compute. reflexivity.
  - split; [exact H1|exact H2].
Defined.

Lemma rtcp_retransmit_exact_witness :
  exists tx', rtcp_tx_retransmit_rtp_packets demo_seq id demo_tx 1 65535 2
    = (1, tx', 0, [mk_copy 65535 65535]) /\
  (1 = - EIO <-> ~ (ahead16 65534 65535 < 32768 /\
                    ahead16 65534 65535 + 2 <= fifo_used (mbuf_ring demo_tx))).
Proof.
  eexists. split; [vm_compute; reflexivity|].
  edestruct (rtcp_retransmit_exact demo_seq id 65534 demo_tx 1 65535 2) as (H1 & _).
  - apply (ti_ring _ _ _ demo_inv).
  - by vm_compute.
  - by vm_compute.
  - by vm_compute.
  - vm_compute. reflexivity.
  - exact H1.
Defined.

Lemma rtcp_buffer_keeps_run_witness :
  exists tx' evs base',
    mt_rtcp_tx_buffer_rtp_packets demo_seq (fun m => [m]) demo_tx [65537; 65538] = (0, tx', evs) /\
    evs = [EvFree 65534; EvFree 65535; EvRefInc 65537; EvRefInc 65538] /\
    rtcp_tx_inv demo_seq base' tx'.
Proof.
  edestruct (rtcp_buffer_keeps_run demo_seq (fun m => [m]) 65534 demo_tx 1 [65537; 65538])
    as ([base' Hb] & _).
  - apply demo_inv.
  - done.
  - done.
  - by vm_compute.
  - intros [|[|k]] m Hk; simplify_eq/=; by vm_compute.
  - by repeat constructor.
  - vm_compute. reflexivity.
  - do 3 eexists. split; [vm_compute; reflexivity|]. split; [reflexivity|]. exact Hb.
Defined.
