(* ===== verification/RtcpRx.v ===== *)
(** The receiver side of the RTCP retransmission protocol, lib/src/mt_rtcp.c:
    the window of received RTP sequence numbers and the NACK packets that ask
    for the missing ones. The window is shown to be a shift register over the
    received packets, the NACK to list exactly the missing numbers, and its
    bytes to be read back by the sender side as the same list. *)
From S2P Require Import Prelude Bitmap Bytes Fifo SeqNum RtcpTx.

(** ** The code *)

Record mt_rtcp_rx := mk_rtcp_rx {
  nacks_send_interval : Z;
  rx_ssrc : Z;
  rx_active : bool;
  nacks_send_time : Z;
  last_seq : Z;
  last_cont : Z;
  seq_bitmap : bitmap_ptr;
  seq_bitmap_size : Z;
  seq_window_size : Z;
  seq_skip_window : Z;
  stat_rtp_received : Z;
  stat_rtp_lost_detected : Z;
  stat_nack_sent : Z;
  stat_nack_drop_exceed : Z;
}.
#[export] Instance eta_rtcp_rx : Settable mt_rtcp_rx := fun r =>
  mk_rtcp_rx (nacks_send_interval r) (rx_ssrc r) (rx_active r) (nacks_send_time r) (last_seq r)
    (last_cont r) (seq_bitmap r) (seq_bitmap_size r) (seq_window_size r) (seq_skip_window r)
    (stat_rtp_received r) (stat_rtp_lost_detected r) (stat_nack_sent r) (stat_nack_drop_exceed r).

(** The bit of a sequence number, tested, set and cleared. *)
Definition rx_test (rx : mt_rtcp_rx) (seq : Z) : bool :=
  mt_bitmap_test (seq_bitmap rx) (seq_bitmap_size rx) (seq mod seq_window_size rx).
Definition rx_test_and_set (rx : mt_rtcp_rx) (seq : Z) : bool * mt_rtcp_rx :=
  let '(b, bm) := mt_bitmap_test_and_set (seq_bitmap rx) (seq_bitmap_size rx) (seq mod seq_window_size rx) in
  (b, rx <| seq_bitmap := bm |>).
Definition rx_test_and_unset (rx : mt_rtcp_rx) (seq : Z) : bool * mt_rtcp_rx :=
  let '(b, bm) := mt_bitmap_test_and_unset (seq_bitmap rx) (seq_bitmap_size rx) (seq mod seq_window_size rx) in
  (b, rx <| seq_bitmap := bm |>).

(** Loops over sequence numbers run at most once round half of the circle. *)
Definition SEQ_FUEL : nat := Z.to_nat 32769.

(** The loop state is the counter, the session, and whether [break] was taken. *)
Definition rtcp_rx_update_last_cont (rx : mt_rtcp_rx) : mt_rtcp_rx :=
  let last_seq := last_seq rx in
  let '(_, rx, _) :=
    loop_while SEQ_FUEL
      (fun '(i, _, brk) => negb brk && (rtp_seq_num_cmp i last_seq <=? 0))
      (fun '(i, rx, _) =>
         if negb (rx_test rx i) then (i, rx, true)
         else (u16 (i + 1), rx <| last_cont := i |>, false))
      (u16 (last_cont rx + 1), rx, false) in
  rx.

(** The loop that forgets the packets between the last and the new number. *)
Definition rtcp_rx_clean_missing (rx : mt_rtcp_rx) (seq : Z) : mt_rtcp_rx :=
  let '(_, rx) :=
    loop_while SEQ_FUEL
      (fun '(i, _) => rtp_seq_num_cmp i seq <? 0)
      (fun '(i, rx) => (u16 (i + 1), snd (rx_test_and_unset rx i)))
      (u16 (last_seq rx + 1), rx) in
  rx.

(** Where a packet that is not the first one moves [last_seq] and [last_cont]. In
    the old-packet branch [last_cont + 1] is an [int] and does not wrap. *)
Definition rtcp_rx_track (rx : mt_rtcp_rx) (seq : Z) : mt_rtcp_rx :=
  let cmp_result := rtp_seq_num_cmp seq (last_seq rx) in
  if cmp_result >? 0 then
    let rx := rtcp_rx_clean_missing rx seq in
    let rx := rx <| last_seq := seq |> in
    let last_cont_diff := u16 (seq - last_cont rx) in
    if last_cont_diff >? seq_window_size rx then
      rtcp_rx_update_last_cont (rx <| last_cont := u16 (seq - seq_window_size rx) |>)
    else if last_cont_diff =? 1 then rx <| last_cont := seq |>
    else rx
  else if cmp_result <? 0 then
    if seq =? last_cont rx + 1 then
      rtcp_rx_update_last_cont (rx <| last_cont := seq |>)
    else rx
  else rx.

(** [seq] and [ssrc] are the header fields in host order. *)
Definition mt_rtcp_rx_parse_rtp_packet (rx : mt_rtcp_rx) (seq ssrc : Z) : Z * mt_rtcp_rx :=
  if negb (rx_active rx) then (0, rx)
  else if rx_ssrc rx =? 0 then
    let rx := rx <| rx_ssrc := ssrc |> <| last_cont := seq |> <| last_seq := seq |> in
    let rx := snd (rx_test_and_set rx seq) in
    (0, rx <| stat_rtp_received ::= fun s => u32 (s + 1) |>)
  else
    let rx := rtcp_rx_track rx seq in
    let rx := snd (rx_test_and_set rx seq) in
    (0, rx <| stat_rtp_received ::= fun s => u32 (s + 1) |>).

(** State of the loop that collects the missing numbers. *)
Record nack_st := mk_nack {
  nk_seq : Z; nk_start : Z; nk_miss : Z; nk_fcis : list (Z * Z); nk_rx : mt_rtcp_rx;
  nk_exceed : bool;
}.

(** One turn; the early return of a full packet leaves the loop with [nk_exceed]. *)
Definition rtcp_rx_nack_step (st : nack_st) : nack_st :=
  let '(mk_nack seq start miss fcis rx _) := st in
  if negb (rx_test rx seq) then mk_nack (u16 (seq + 1)) start (u16 (miss + 1)) fcis rx false
  else
    if negb (miss =? 0) then
      let fcis := fcis ++ [(start, u16 (miss - 1))] in
      let num_fci := arr_len fcis in
      if num_fci >=? MT_RTCP_MAX_FCIS then
        mk_nack seq start miss fcis (rx <| stat_nack_drop_exceed ::= fun s => u32 (s + num_fci) |>) true
      else
        let rx := rx <| stat_rtp_lost_detected ::= fun s => u32 (s + miss) |> in
        mk_nack (u16 (seq + 1)) (u16 (seq + 1)) 0 fcis rx false
    else mk_nack (u16 (seq + 1)) (u16 (seq + 1)) 0 fcis rx false.

(** The feedback items in memory. *)
Definition rtcp_fcis_bytes (fcis : list (Z * Z)) : bytes :=
  fcis ≫= fun '(start, follow) => be16 start ++ be16 follow.

(** The UDP payload: [struct mt_rtcp_hdr] followed by the feedback items. *)
Definition rtcp_nack_bytes (ssrc : Z) (fcis : list (Z * Z)) : bytes :=
  [0x80; MT_RTCP_PTYPE_NACK] ++ be16 (u16 (SIZEOF_RTCP_HDR / 4 - 1 + arr_len fcis))
    ++ be32 ssrc ++ IMTL_NAME ++ rtcp_fcis_bytes fcis.

(** [sizeof(struct mt_udp_hdr)]: Ethernet, IPv4 and UDP; and the first two. *)
Definition SIZEOF_UDP_HDR : Z := 42.
Definition SIZEOF_ETHER_HDR : Z := 14.
Definition SIZEOF_IPV4_HDR : Z := 20.

(** What goes to the system queue. *)
Record nack_pkt := mk_nack_pkt {
  pkt_len : Z; ipv4_total_length : Z; udp_dgram_len : Z; pkt_payload : bytes;
}.

Definition rtcp_rx_build_nack (ssrc : Z) (fcis : list (Z * Z)) : nack_pkt :=
  let data_len := u16 (SIZEOF_UDP_HDR + (SIZEOF_RTCP_HDR + arr_len fcis * SIZEOF_RTCP_FCI)) in
  mk_nack_pkt data_len (u16 (data_len - SIZEOF_ETHER_HDR))
    (u16 (data_len - SIZEOF_ETHER_HDR - SIZEOF_IPV4_HDR)) (rtcp_nack_bytes ssrc fcis).

(** [now] is the time stamp counter, [alloc_ok] the outcome of the allocation,
    [send] what the system queue accepts of the one packet offered to it. The
    result carries the packet handed to the queue, if any. *)
Definition mt_rtcp_rx_send_nack_packet (now : Z) (alloc_ok : bool) (send : nack_pkt -> Z)
    (rx : mt_rtcp_rx) : Z * mt_rtcp_rx * option nack_pkt :=
  if negb (rx_active rx) then (0, rx, None)
  else if now <? nacks_send_time rx then (0, rx, None)
  else
    let rx := rx <| nacks_send_time := u64 (now + nacks_send_interval rx) |> in
    if negb alloc_ok then (- ENOMEM, rx, None)
    else
      let seq := u16 (last_cont rx + 1) in
      let end_ := u16 (last_seq rx - seq_skip_window rx) in
      let '(end_state, rx) := rx_test_and_set rx end_ in
      let st :=
        loop_while SEQ_FUEL
          (fun st => negb (nk_exceed st) && (rtp_seq_num_cmp (nk_seq st) end_ <=? 0))
          rtcp_rx_nack_step (mk_nack seq seq 0 [] rx false) in
      let rx := nk_rx st in
      let rx := if negb end_state then snd (rx_test_and_unset rx end_) else rx in
      if nk_exceed st then (- EINVAL, rx, None)
      else if arr_len (nk_fcis st) =? 0 then (0, rx, None)
      else
        let pkt := rtcp_rx_build_nack (rx_ssrc rx) (nk_fcis st) in
        if negb (send pkt =? 1) then (- EIO, rx, Some pkt)
        else (0, rx <| stat_nack_sent ::= fun s => u32 (s + 1) |>, Some pkt).

(** Reports and clears the counters. *)
Definition rtcp_rx_stat (rx : mt_rtcp_rx) : mt_rtcp_rx :=
  let rx := rx <| stat_rtp_received := 0 |> <| stat_rtp_lost_detected := 0 |>
               <| stat_nack_sent := 0 |> in
  if c_true (stat_nack_drop_exceed rx) then rx <| stat_nack_drop_exceed := 0 |> else rx.

(** The options of a session. *)
Record mt_rtcp_rx_ops := mk_rtcp_rx_ops {
  ops_nacks_send_interval : Z; ops_seq_bitmap_size : Z; ops_seq_skip_window : Z;
}.

(** The booleans are the outcomes of the two allocations, whose memory is
    zeroed; a failure of the second one frees the first. *)
Definition mt_rtcp_rx_create (ok_rx ok_bitmap : bool) (tsc : Z) (ops : mt_rtcp_rx_ops) : option mt_rtcp_rx :=
  if negb ok_rx then None
  else if negb ok_bitmap then None
  else Some (mk_rtcp_rx (ops_nacks_send_interval ops) 0 true tsc 0 0
               (Some (bm_zero (ops_seq_bitmap_size ops))) (ops_seq_bitmap_size ops)
               (u16 (ops_seq_bitmap_size ops * 8)) 0 0 0 0 0).

(** ** Specification *)

(** The invariant of an active receiver with a window of [W] numbers. *)
Record rx_wf (W : Z) (rx : mt_rtcp_rx) : Prop := {
  rw_bitmap : exists l, seq_bitmap rx = Some l /\ bm_wf l /\ arr_len l = seq_bitmap_size rx;
  rw_window : seq_window_size rx = W;
  rw_size : W = 8 * seq_bitmap_size rx;
  rw_range : 0 < W < 32768;
  rw_div : (W | 65536);
  rw_skip : 0 <= seq_skip_window rx < 32768;
  rw_seq : is_u16 (last_seq rx);
  rw_cont : is_u16 (last_cont rx);
  rw_near : ahead16 (last_cont rx) (last_seq rx) <= W;
}.

(** The window as a shift register: entry [d] says whether the packet [d]
    before the newest one was received. *)
Definition rx_window (W : Z) (rx : mt_rtcp_rx) : list bool :=
  (fun d => rx_test rx (u16 (last_seq rx - d))) <$> seqZ 0 W.

(** [n] consecutive sequence numbers from [s]. *)
Definition seq_range (s n : Z) : list Z := (fun k => u16 (s + k)) <$> seqZ 0 n.

(** The sequence numbers a list of feedback items asks for. *)
Definition fcis_expand (fcis : list (Z * Z)) : list Z :=
  fcis ≫= fun '(start, follow) => seq_range start (follow + 1).
#[global] Arguments fcis_expand : simpl never.

(** The numbers not received among the [n] from [s]. *)
Definition rx_missing (rx : mt_rtcp_rx) (s n : Z) : list Z :=
  base.filter (fun q => rx_test rx q = false) (seq_range s n).

(** ** Facts *)

Lemma u16_mod_div W x : (W | 65536) -> u16 x mod W = x mod W.
Proof.
  intros H. by apply Z.mod_mod_divide.
Qed.

Lemma mod_eq_near W a b : 0 < W -> a mod W = b mod W -> - W < a - b < W -> a = b.
Proof.
  intros HW He Hn. pose proof (Z.div_mod a W ltac:(lia)). pose proof (Z.div_mod b W ltac:(lia)).
  assert (a / W = b / W) by nia. congruence.
Qed.

Lemma seq_range_snoc s n : 0 <= n -> seq_range s (n + 1) = seq_range s n ++ [u16 (s + n)].
Proof. intros Hn. unfold seq_range. rewrite seqZ_snoc, fmap_app by lia. done. Qed.

Lemma seq_range_length s n : 0 <= n -> arr_len (seq_range s n) = n.
Proof. intros. unfold arr_len, seq_range. rewrite length_fmap, length_seqZ. lia. Qed.

Lemma fcis_expand_snoc fcis start follow :
  fcis_expand (fcis ++ [(start, follow)]) = fcis_expand fcis ++ seq_range start (follow + 1).
Proof. unfold fcis_expand. rewrite bind_app. simpl. by rewrite app_nil_r. Qed.

Lemma rx_missing_snoc rx s n : 0 <= n ->
  rx_missing rx s (n + 1) =
    rx_missing rx s n ++ (if rx_test rx (u16 (s + n)) then [] else [u16 (s + n)]).
Proof.
  intros Hn. unfold rx_missing. rewrite seq_range_snoc, filter_app by lia. f_equal.
  destruct (rx_test rx (u16 (s + n))) eqn:Et.
  - rewrite filter_cons_False by congruence. apply filter_nil.
  - rewrite filter_cons_True by done. by rewrite filter_nil.
Qed.

Section Bits.
Context (W : Z) (rx : mt_rtcp_rx) (Hrx : rx_wf W rx).

Lemma rx_idx_range s : 0 <= s mod seq_window_size rx < 8 * seq_bitmap_size rx.
Proof. destruct Hrx. rewrite rw_window0, <- rw_size0. apply Z.mod_pos_bound. lia. Qed.

Lemma rx_test_mod a b : a mod W = b mod W -> rx_test rx a = rx_test rx b.
Proof. intros H. unfold rx_test. destruct Hrx. by rewrite rw_window0, H. Qed.

Lemma rx_set_spec a :
  exists bm, rx_test_and_set rx a = (rx_test rx a, rx <| seq_bitmap := bm |>) /\
    rx_wf W (rx <| seq_bitmap := bm |>) /\
    forall s, rx_test (rx <| seq_bitmap := bm |>) s = rx_test rx s || bool_decide (s mod W = a mod W).
Proof.
  pose proof (rx_idx_range a) as Hr. pose proof Hrx as [(l & El & Hl & Hs) HW Hsz Hrg Hdiv Hsk Hq Hc Hn].
  unfold rx_test_and_set. rewrite El.
  destruct (bitmap_set_spec l (seq_bitmap_size rx) (a mod seq_window_size rx) Hl Hs Hr)
    as (l' & -> & Hl' & Hs' & Hm).
  exists (Some l'). unfold rx_test at 1. rewrite El, bitmap_test_mem by done. split; [done|]. split.
  - split; cbn; try done. by exists l'.
  - intros s. unfold rx_test. cbn. rewrite El, !bitmap_test_mem, Hm, HW by done. done.
Qed.

Lemma rx_unset_spec a :
  exists bm, snd (rx_test_and_unset rx a) = rx <| seq_bitmap := bm |> /\
    rx_wf W (rx <| seq_bitmap := bm |>) /\
    forall s, rx_test (rx <| seq_bitmap := bm |>) s = rx_test rx s && negb (bool_decide (s mod W = a mod W)).
Proof.
  pose proof (rx_idx_range a) as Hr. pose proof Hrx as [(l & El & Hl & Hs) HW Hsz Hrg Hdiv Hsk Hq Hc Hn].
  unfold rx_test_and_unset. rewrite El.
  destruct (bitmap_unset_spec l (seq_bitmap_size rx) (a mod seq_window_size rx) Hl Hs Hr)
    as (l' & -> & Hl' & Hs' & Hm).
  exists (Some l'). split; [done|]. split.
  - split; cbn; try done. by exists l'.
  - intros s. unfold rx_test. cbn. rewrite El, !bitmap_test_mem, Hm, HW by done. done.
Qed.
End Bits.

(** Replacing the bitmap twice is replacing it once. *)
Lemma clean_missing_spec W rx seq g :
  rx_wf W rx -> is_u16 seq -> ahead16 (last_seq rx) seq = g -> 1 <= g <= 32768 ->
  exists bm, rtcp_rx_clean_missing rx seq = rx <| seq_bitmap := bm |> /\
    rx_wf W (rx <| seq_bitmap := bm |>) /\
    forall s, rx_test (rx <| seq_bitmap := bm |>) s = true <->
      rx_test rx s = true /\ forall k, 1 <= k < g -> s mod W <> (last_seq rx + k) mod W.
Proof.
  intros Hwf Hs Hg Hr. pose proof Hwf as [_ _ _ _ Hdiv _ HL _ _]. unfold rtcp_rx_clean_missing.
  set (P := fun '(i, rx') => exists j bm, 0 <= j < g /\ i = u16 (last_seq rx + 1 + j) /\
    rx' = rx <| seq_bitmap := bm |> /\ rx_wf W rx' /\
    forall s, rx_test rx' s = true <->
      rx_test rx s = true /\ forall k, 1 <= k <= j -> s mod W <> (last_seq rx + k) mod W).
  assert (Hah : forall j, 0 <= j < g -> ahead16 (u16 (last_seq rx + 1 + j)) seq = g - 1 - j).
  { intros j Hj. rewrite <- Z.add_assoc, ahead16_shift by lia. lia. }
  destruct (loop_while_inv_exits (fun '(i, _) => rtp_seq_num_cmp i seq <? 0)
    (fun '(i, rx) => (u16 (i + 1), snd (rx_test_and_unset rx i))) P
    (fun '(i, _) => Z.to_nat (ahead16 i seq)) SEQ_FUEL (u16 (last_seq rx + 1), rx)) as [HP Hexit].
  - intros [i rx'] (j & bm & Hj & -> & Hrx' & Hwf' & Ht) Hc.
    rewrite seq_num_cmp_lt in Hc by (done || apply u16_range). rewrite Hah in Hc by done. zbool.
    destruct (rx_unset_spec W rx' Hwf' (u16 (last_seq rx + 1 + j))) as (bm' & -> & Hwf2 & Ht2).
    assert (Hnext : u16 (u16 (last_seq rx + 1 + j) + 1) = u16 (last_seq rx + 1 + (j + 1))) by mlia.
    rewrite Hnext. split; [|rewrite !Hah by lia; lia].
    exists (j + 1), bm'. split; [lia|]. split; [done|]. split; [by rewrite Hrx'|]. split; [done|].
    intros s. rewrite Ht2, andb_true_iff, Ht, negb_true_iff, bool_decide_eq_false, u16_mod_div by done.
    split.
    + intros [[H1 H2] H3]. split; [done|]. intros k Hk. destruct (decide (k = j + 1)) as [->|]; [|apply H2; lia].
      by replace (last_seq rx + (j + 1)) with (last_seq rx + 1 + j) by lia.
    + intros [H1 H2]. split; [split; [done|]|].
      * intros k Hk. apply H2. lia.
      * replace (last_seq rx + 1 + j) with (last_seq rx + (j + 1)) by lia. apply H2. lia.
  - exists 0, (seq_bitmap rx). rewrite Z.add_0_r. split; [lia|]. split; [done|].
    split; [by destruct rx|]. split; [done|]. intros s. split; [|tauto]. intros. split; [done|]. lia.
  - pose proof (ahead16_range (u16 (last_seq rx + 1)) seq). specialize (Hah 0). rewrite Z.add_0_r in Hah.
    rewrite Hah by lia. unfold SEQ_FUEL. lia.
  - destruct (loop_while _ _ _ _) as [i rx'].
    destruct HP as (j & bm & Hj & -> & -> & Hwf' & Ht). exists bm. split; [done|]. split; [done|].
    rewrite seq_num_cmp_lt in Hexit by (done || apply u16_range). rewrite Hah in Hexit by done.
    intros s. rewrite Ht. assert (j = g - 1) as -> by (zbool; destruct Hexit; zbool; lia).
    split; intros [H1 H2]; (split; [done|]); intros k Hk; apply H2; lia.
Qed.

(** The longest run of received numbers after [last_cont], up to [last_seq]. *)
Lemma update_last_cont_spec W rx a :
  rx_wf W rx -> ahead16 (last_cont rx) (last_seq rx) = a ->
  exists m, 0 <= m <= a /\
    rtcp_rx_update_last_cont rx = rx <| last_cont := u16 (last_cont rx + m) |> /\
    (forall k, 1 <= k <= m -> rx_test rx (u16 (last_cont rx + k)) = true) /\
    (m < a -> rx_test rx (u16 (last_cont rx + m + 1)) = false).
Proof.
  intros Hwf Ha. pose proof Hwf as [_ _ _ HW _ _ HL HC Hn]. unfold rtcp_rx_update_last_cont.
  pose proof (ahead16_range (last_cont rx) (last_seq rx)) as Hrg.
  set (L := last_seq rx) in *. set (c := last_cont rx) in *.
  set (P := fun '(i, rx', brk) => exists j, 0 <= j <= a /\ i = u16 (c + j + 1) /\
    rx' = rx <| last_cont := u16 (c + j) |> /\
    (forall k, 1 <= k <= j -> rx_test rx (u16 (c + k)) = true) /\
    (brk = true -> rx_test rx i = false)).
  assert (Hah : forall j, 0 <= j <= a -> ahead16 (u16 (c + j)) L = a - j).
  { intros j Hj. rewrite ahead16_shift by lia. lia. }
  assert (Hcmp : forall j, 0 <= j <= a -> (rtp_seq_num_cmp (u16 (c + j + 1)) L <=? 0) = (j <? a)).
  { intros j Hj. rewrite seq_num_cmp_le by (done || apply u16_range). unfold ahead16 in *.
    destruct (Z.ltb_spec j a); apply Z.ltb_lt || apply Z.ltb_ge; mlia. }
  destruct (loop_while_inv_exits
    (fun '(i, _, brk) => negb brk && (rtp_seq_num_cmp i L <=? 0))
    (fun '(i, rx, _) => if negb (rx_test rx i) then (i, rx, true)
       else (u16 (i + 1), rx <| last_cont := i |>, false)) P
    (fun '(_, rx, brk) => if brk then O else Z.to_nat (ahead16 (last_cont rx) L))
    SEQ_FUEL (u16 (c + 1), rx, false)) as [HP Hexit].
  - intros [[i rx'] brk] (j & Hj & -> & -> & Hk & Hb) Hc. rewrite Hcmp in Hc by done. zbool. subst brk.
    assert (Hsame : rx_test (rx <| last_cont := u16 (c + j) |>) (u16 (c + j + 1)) = rx_test rx (u16 (c + j + 1)))
      by done. rewrite Hsame.
    destruct (rx_test rx (u16 (c + j + 1))) eqn:Et; cbn [negb].
    + split; [|cbn; rewrite <- Z.add_assoc, !Hah by lia; lia].
      exists (j + 1). split; [lia|]. split; [mlia|]. split; [by rewrite Z.add_assoc|]. split; [|done].
      intros k Hk'. destruct (decide (k = j + 1)) as [->|]; [by rewrite Z.add_assoc|]. apply Hk. lia.
    + split; [|cbn; rewrite Hah by lia; lia]. exists j. done.
  - exists 0. rewrite Z.add_0_r. split; [lia|]. split; [done|]. rewrite u16_id by done.
    split; [by destruct rx|]. split; [lia|done].
  - cbn. fold c. rewrite Ha. unfold SEQ_FUEL. lia.
  - destruct (loop_while _ _ _ _) as [[i rx'] brk].
    destruct HP as (j & Hj & -> & -> & Hk & Hb). exists j. split; [done|]. split; [done|]. split; [done|].
    intros Hlt. apply Hb. rewrite Hcmp in Hexit by done. destruct brk; [done|]. simpl in Hexit. lia.
Qed.

(** A number is newer when it is at most half the circle ahead. *)
Definition rx_newer (rx : mt_rtcp_rx) (seq : Z) : bool :=
  (0 <? ahead16 (last_seq rx) seq) && (ahead16 (last_seq rx) seq <=? 32768).

Lemma rx_newer_cmp rx seq :
  is_u16 (last_seq rx) -> is_u16 seq -> (rtp_seq_num_cmp seq (last_seq rx) >? 0) = rx_newer rx seq.
Proof.
  intros HL Hs. rewrite seq_num_cmp_ahead by done. unfold rx_newer, ahead16. repeat case_if; mlia.
Qed.

(** What tracking a packet may change: the bitmap and the two positions;
    [last_cont] moves forward only over numbers that are received, are [seq]
    itself, or have left the window. *)
Record rx_tracked (W : Z) (rx : mt_rtcp_rx) (seq : Z) (rx1 : mt_rtcp_rx) : Prop := {
  tk_wf : rx_wf W rx1;
  tk_frame : exists bm L c, rx1 = rx <| seq_bitmap := bm |> <| last_seq := L |> <| last_cont := c |>;
  tk_seq : last_seq rx1 = if rx_newer rx seq then seq else last_seq rx;
  tk_test : forall s, rx_test rx1 s = true <->
    rx_test rx s = true /\
    (rx_newer rx seq = true -> forall k, 1 <= k < ahead16 (last_seq rx) seq ->
       s mod W <> (last_seq rx + k) mod W);
  tk_cont : forall k, 1 <= k <= ahead16 (last_cont rx) (last_cont rx1) ->
    W <= ahead16 (u16 (last_cont rx + k)) (last_seq rx1) \/
    u16 (last_cont rx + k) = seq \/ rx_test rx1 (u16 (last_cont rx + k)) = true;
}.

Lemma track_new W rx seq :
  rx_wf W rx -> is_u16 seq -> rx_newer rx seq = true -> rx_tracked W rx seq (rtcp_rx_track rx seq).
Proof.
  intros Hwf Hs Hnew. pose proof Hwf as [Hbm HWs Hsz HW Hdiv Hsk HL HC Hn].
  unfold rtcp_rx_track. rewrite rx_newer_cmp, Hnew by done.
  assert (Hg : 1 <= ahead16 (last_seq rx) seq <= 32768) by (unfold rx_newer in Hnew; zbool; lia).
  destruct (clean_missing_spec W rx seq _ Hwf Hs eq_refl Hg) as (bm & -> & Hwf1 & Ht).
  cbn [seq_window_size last_cont modify_field]. rewrite HWs.
  pose proof Hwf1 as [Hbm1 _ _ _ _ _ _ _ _].
  set (c := last_cont rx) in *. change (u16 (seq - c)) with (ahead16 c seq).
  pose proof (ahead16_range c seq) as Hr.
  destruct (Z.ltb_spec W (ahead16 c seq)) as [Hgt|Hle]; rewrite Z.gtb_ltb.
  - set (rx1 := rx <| seq_bitmap := bm |> <| last_seq := seq |> <| last_cont := u16 (seq - W) |>).
    replace (W <? ahead16 c seq) with true by lia.
    assert (HaW : ahead16 (u16 (seq - W)) seq = W) by (unfold ahead16; mlia).
    assert (Hwf2 : rx_wf W rx1).
    { split; cbn; try done; try lia; apply u16_range. }
    destruct (update_last_cont_spec W rx1 W Hwf2 HaW) as (m & Hm & -> & Hk & _).
    cbn [last_cont rx1 modify_field] in Hk |- *.
    replace (u16 (u16 (seq - W) + m)) with (u16 (seq - W + m)) by mlia.
    split; cbn.
    + split; cbn; try done; try lia; [apply u16_range|unfold ahead16; mlia].
    + by exists bm, seq, (u16 (seq - W + m)).
    + by rewrite Hnew.
    + intros s. etransitivity; [apply (Ht s)|]. tauto.
    + fold c. intros k Hk1.
      assert (Hcc : ahead16 c (u16 (seq - W + m)) = ahead16 c seq - (W - m)) by (unfold ahead16 in *; mlia).
      rewrite Hcc in Hk1. rewrite ahead16_shift by lia.
      destruct (Z.le_gt_cases W (ahead16 c seq - k)); [by left|]. right; right.
      specialize (Hk (k - (ahead16 c seq - W)) ltac:(lia)).
      replace (u16 (c + k)) with (u16 (u16 (seq - W) + (k - (ahead16 c seq - W)))) by (unfold ahead16; mlia).
      exact Hk.
  - replace (W <? ahead16 c seq) with false by lia.
    set (c' := if ahead16 c seq =? 1 then seq else c).
    assert (Hc' : (if ahead16 c seq =? 1 then rx <| seq_bitmap := bm |> <| last_seq := seq |> <| last_cont := seq |>
                   else rx <| seq_bitmap := bm |> <| last_seq := seq |>) =
                  rx <| seq_bitmap := bm |> <| last_seq := seq |> <| last_cont := c' |>).
    { unfold c'. case_if; [done|]. by destruct rx. }
    rewrite Hc'. split; cbn.
    + unfold c'. split; cbn; try done; destruct (_ =? 1); try done. unfold ahead16. mlia.
    + by exists bm, seq, c'.
    + by rewrite Hnew.
    + intros s. etransitivity; [apply (Ht s)|]. tauto.
    + fold c. intros k Hk. right; left. unfold c' in Hk.
      destruct (Z.eqb_spec (ahead16 c seq) 1); unfold ahead16 in *; mlia.
Qed.

Lemma track_old W rx seq :
  rx_wf W rx -> is_u16 seq -> rx_newer rx seq = false -> rx_tracked W rx seq (rtcp_rx_track rx seq).
Proof.
  intros Hwf Hs Hnew. pose proof Hwf as [Hbm HWs Hsz HW Hdiv Hsk HL HC Hn].
  unfold rtcp_rx_track. rewrite rx_newer_cmp, Hnew by done.
  assert (Hid : rx_tracked W rx seq rx).
  { split; [done| |by rewrite Hnew| |].
    - exists (seq_bitmap rx), (last_seq rx), (last_cont rx). by destruct rx.
    - intros s. rewrite Hnew. split; [by intros H'|by intros [H' _]].
    - unfold ahead16. rewrite Z.sub_diag. unfold u16. rewrite Z.mod_0_l by lia. lia. }
  destruct (rtp_seq_num_cmp seq (last_seq rx) <? 0) eqn:Eold; [|done].
  destruct (Z.eqb_spec seq (last_cont rx + 1)) as [Hseq|]; [|done].
  rewrite seq_num_cmp_lt in Eold by done. zbool.
  set (c := last_cont rx) in *. assert (HaS : ahead16 c (last_seq rx) = ahead16 seq (last_seq rx) + 1).
  { unfold ahead16 in *. mlia. }
  set (rx1 := rx <| last_cont := seq |>).
  assert (Hwf1 : rx_wf W rx1) by (split; cbn; try done; lia).
  destruct (update_last_cont_spec W rx1 _ Hwf1 eq_refl) as (m & Hm & -> & Hk & _).
  cbn [last_cont last_seq rx1 modify_field] in Hm, Hk |- *.
  assert (Hm' : ahead16 (u16 (seq + m)) (last_seq rx) = ahead16 seq (last_seq rx) - m)
    by (by apply ahead16_shift).
  split; cbn.
  - split; cbn; try done; [apply u16_range|lia].
  - exists (seq_bitmap rx), (last_seq rx), (u16 (seq + m)). by destruct rx.
  - by rewrite Hnew.
  - intros s. rewrite Hnew. split; [by intros H'|by intros [H' _]].
  - fold c. intros k Hk1.
    assert (Hcc : ahead16 c (u16 (seq + m)) = m + 1) by (unfold ahead16 in *; mlia).
    rewrite Hcc in Hk1. right. destruct (decide (k = 1)) as [->|]; [left; rewrite <- Hseq; by apply u16_id|].
    right. specialize (Hk (k - 1) ltac:(lia)). replace (u16 (c + k)) with (u16 (seq + (k - 1))); [exact Hk|].
    f_equal. lia.
Qed.

Lemma track_spec W rx seq :
  rx_wf W rx -> is_u16 seq -> rx_tracked W rx seq (rtcp_rx_track rx seq).
Proof. intros. destruct (rx_newer rx seq) eqn:E; [by apply track_new|by apply track_old]. Qed.

(** Tracking followed by setting the bit of the packet itself. *)
Lemma parse_spec W rx seq ssrc :
  rx_wf W rx -> is_u16 seq -> rx_active rx = true -> rx_ssrc rx <> 0 ->
  exists rx1 rx',
    mt_rtcp_rx_parse_rtp_packet rx seq ssrc = (0, rx') /\
    rx_tracked W rx seq rx1 /\ rx_wf W rx' /\
    last_seq rx' = last_seq rx1 /\ last_cont rx' = last_cont rx1 /\
    rx_active rx' = true /\ rx_ssrc rx' = rx_ssrc rx /\
    forall s, rx_test rx' s = rx_test rx1 s || bool_decide (s mod W = seq mod W).
Proof.
  intros Hwf Hs Hact Hssrc. unfold mt_rtcp_rx_parse_rtp_packet. rewrite Hact. cbn [negb].
  destruct (Z.eqb_spec (rx_ssrc rx) 0) as [|_]; [done|].
  pose proof (track_spec W rx seq Hwf Hs) as Htk.
  destruct (rx_set_spec W _ (tk_wf _ _ _ _ Htk) seq) as (bm & -> & Hwf2 & Ht).
  do 2 eexists. split; [reflexivity|]. split; [exact Htk|]. destruct Htk as [_ (b & L & c & Heq) _ _ _].
  rewrite Heq in *. repeat (split; [try done|]).
  - destruct Hwf2. by split.
  - exact Ht.
Qed.

Lemma rx_window_lookup W rx d : 0 <= d < W ->
  rx_window W rx !! Z.to_nat d = Some (rx_test rx (u16 (last_seq rx - d))).
Proof.
  intros Hd. unfold rx_window. rewrite list_lookup_fmap, lookup_seqZ_lt by lia. simpl. do 4 f_equal. lia.
Qed.

Lemma rx_window_length W rx : length (rx_window W rx) = Z.to_nat W.
Proof. unfold rx_window. by rewrite length_fmap, length_seqZ. Qed.

(** Two windows of the same length are equal when they agree entry by entry. *)
Lemma rx_window_eq W rx (l : list bool) :
  length l = Z.to_nat W ->
  (forall d, 0 <= d < W -> l !! Z.to_nat d = Some (rx_test rx (u16 (last_seq rx - d)))) ->
  rx_window W rx = l.
Proof.
  intros Hl H. apply list_eq. intros i. destruct (decide (i < Z.to_nat W)%nat).
  - rewrite <- (Nat2Z.id i). rewrite rx_window_lookup, H by lia. done.
  - rewrite !lookup_ge_None_2; [done|lia|rewrite rx_window_length; lia].
Qed.

Lemma lookup_shift_in {A} (x y : A) n l d : 0 <= n -> 0 <= d ->
  (x :: replicate (Z.to_nat n) y ++ l) !! Z.to_nat d =
    if d =? 0 then Some x else if d <=? n then Some y else l !! Z.to_nat (d - n - 1).
Proof.
  intros Hn Hd. destruct (Z.eqb_spec d 0) as [->|]; [done|].
  replace (Z.to_nat d) with (S (Z.to_nat (d - 1))) by lia. simpl.
  destruct (Z.leb_spec d n).
  - rewrite lookup_app_l by (rewrite length_replicate; lia). apply lookup_replicate_2. lia.
  - rewrite lookup_app_r, length_replicate by (rewrite length_replicate; lia). f_equal. lia.
Qed.

(** The bit of the number [d] before [a], as a residue. *)
Lemma back_mod W a d : (W | 65536) -> u16 (a - d) mod W = (a - d) mod W.
Proof. apply u16_mod_div. Qed.

Section WindowShift.
Context (W : Z) (rx rx1 rx2 : mt_rtcp_rx) (seq : Z).
Hypothesis Hwf : rx_wf W rx.
Hypothesis Hs : is_u16 seq.
Hypothesis Htk : rx_tracked W rx seq rx1.
Hypothesis HL : last_seq rx2 = last_seq rx1.
Hypothesis Ht : forall s, rx_test rx2 s = rx_test rx1 s || bool_decide (s mod W = seq mod W).

Lemma window_shift_new : rx_newer rx seq = true ->
  rx_window W rx2 = take (Z.to_nat W)
    (true :: replicate (Z.to_nat (ahead16 (last_seq rx) seq - 1)) false ++ rx_window W rx).
Proof.
  intros Hnew. destruct Htk as [_ _ Hseq Ht1 _]. pose proof Hwf as [_ _ _ HW Hdiv _ HLr _ _].
  rewrite Hnew in Hseq. rewrite Hseq in HL.
  assert (Hg : 1 <= ahead16 (last_seq rx) seq <= 32768) by (unfold rx_newer in Hnew; zbool; lia).
  set (g := ahead16 (last_seq rx) seq) in *.
  apply rx_window_eq.
  { rewrite length_take. cbn [length]. rewrite length_app, rx_window_length. lia. }
  intros d Hd. rewrite lookup_take_lt, lookup_shift_in by lia. rewrite HL, Ht, back_mod by done.
  assert (Hsg : seq = u16 (last_seq rx + g)) by (by apply ahead16_inv).
  assert (Hsm : (seq - d) mod W = (last_seq rx + (g - d)) mod W).
  { rewrite Hsg, Zminus_mod, u16_mod_div, <- Zminus_mod by done. f_equal. lia. }
  destruct (Z.eqb_spec d 0) as [->|].
  { rewrite Z.sub_0_r, bool_decide_eq_true_2 by done. by rewrite orb_true_r. }
  rewrite bool_decide_eq_false_2, orb_false_r.
  2:{ intros Heq. apply (mod_eq_near W) in Heq; lia. }
  destruct (Z.leb_spec d (g - 1)).
  + f_equal. destruct (rx_test rx1 (u16 (seq - d))) eqn:E; [|done].
    apply Ht1 in E as [_ E]. destruct (E Hnew (g - d) ltac:(lia)).
    by rewrite back_mod.
  + rewrite rx_window_lookup by lia. f_equal.
    assert (u16 (seq - d) = u16 (last_seq rx - (d - (g - 1) - 1))) as -> by (rewrite Hsg; mlia).
    apply eq_bool_prop_intro. rewrite !Is_true_true. rewrite Ht1. split; [|tauto].
    intros E. split; [done|]. intros _ k Hk Heq. rewrite back_mod in Heq by done.
    apply (mod_eq_near W) in Heq; lia.
Qed.

Lemma window_shift_old : rx_newer rx seq = false ->
  rx_window W rx2 = <[Z.to_nat (ahead16 seq (last_seq rx) mod W) := true]> (rx_window W rx).
Proof.
  intros Hnew. destruct Htk as [_ _ Hseq Ht1 _]. pose proof Hwf as [_ _ _ HW Hdiv _ HLr _ _].
  rewrite Hnew in Hseq. rewrite Hseq in HL.
  assert (Htest : forall s, rx_test rx1 s = rx_test rx s).
  { intros s. apply eq_bool_prop_intro. rewrite !Is_true_true, Ht1. split; [tauto|]. rewrite Hnew. by intros H. }
  apply rx_window_eq; [by rewrite length_insert, rx_window_length|].
  intros d Hd. rewrite HL, Ht, Htest, back_mod by done.
  assert (Hb : 0 <= ahead16 seq (last_seq rx) mod W < W) by (apply Z.mod_pos_bound; lia).
  assert (Hiff : (last_seq rx - d) mod W = seq mod W <-> d = ahead16 seq (last_seq rx) mod W).
  { unfold ahead16. rewrite u16_mod_div by done. split.
    - intros Heq. rewrite <- (Z.mod_small d W) at 1 by done.
      replace d with (last_seq rx - (last_seq rx - d)) at 1 by lia.
      by rewrite Zminus_mod, Heq, <- Zminus_mod.
    - intros ->. rewrite Zminus_mod_idemp_r. f_equal. lia. }
  destruct (decide (d = ahead16 seq (last_seq rx) mod W)) as [Heq|Hne].
  + rewrite <- Heq, list_lookup_insert_eq by (rewrite rx_window_length; lia).
    rewrite bool_decide_eq_true_2 by tauto. by rewrite orb_true_r.
  + rewrite list_lookup_insert_ne by lia. rewrite rx_window_lookup by done.
    rewrite bool_decide_eq_false_2 by tauto. by rewrite orb_false_r.
Qed.
End WindowShift.

(** The window of received packets is a shift register. A packet newer than the
    last one shifts the register by its distance, marking the packets in
    between as not received and itself as received; any other packet marks its
    own entry, the one at its distance modulo the window size. *)
Theorem rtcp_rx_window_shift W rx seq ssrc ret rx' :
  rx_wf W rx -> is_u16 seq -> rx_active rx = true -> rx_ssrc rx <> 0 ->
  mt_rtcp_rx_parse_rtp_packet rx seq ssrc = (ret, rx') ->
  ret = 0 /\
  rx_window W rx' =
    if rx_newer rx seq
    then take (Z.to_nat W)
           (true :: replicate (Z.to_nat (ahead16 (last_seq rx) seq - 1)) false ++ rx_window W rx)
    else <[Z.to_nat (ahead16 seq (last_seq rx) mod W) := true]> (rx_window W rx).
Proof.
  intros Hwf Hs Hact Hssrc Hp.
  destruct (parse_spec W rx seq ssrc Hwf Hs Hact Hssrc) as (rx1 & rx2 & Hp' & Htk & _ & HL & _ & _ & _ & Ht).
  rewrite Hp in Hp'. injection Hp' as -> ->. split; [done|].
  destruct (rx_newer rx seq) eqn:Hnew; [by eapply window_shift_new|by eapply window_shift_old].
Qed.

(** Tracking is sound. Every packet keeps the receiver's invariant, in
    particular [last_cont] stays within one window of the newest packet, and
    [last_cont] only ever moves past numbers that have been received or that
    have left the window: no missing packet inside the window is skipped. *)
Theorem rtcp_rx_cont_sound W rx seq ssrc ret rx' :
  rx_wf W rx -> is_u16 seq -> rx_active rx = true -> rx_ssrc rx <> 0 ->
  mt_rtcp_rx_parse_rtp_packet rx seq ssrc = (ret, rx') ->
  rx_wf W rx' /\
  forall k, 1 <= k <= ahead16 (last_cont rx) (last_cont rx') ->
    W <= ahead16 (u16 (last_cont rx + k)) (last_seq rx') \/
    rx_test rx' (u16 (last_cont rx + k)) = true.
Proof.
  intros Hwf Hs Hact Hssrc Hp.
  destruct (parse_spec W rx seq ssrc Hwf Hs Hact Hssrc)
    as (rx1 & rx2 & Hp' & Htk & Hwf2 & HL & HC & _ & _ & Ht).
  rewrite Hp in Hp'. injection Hp' as -> ->. split; [done|].
  intros k Hk. rewrite HC in Hk. rewrite HL, Ht.
  destruct (tk_cont _ _ _ _ Htk k Hk) as [H|[H|H]]; [by left| |]; right.
  - rewrite H, bool_decide_eq_true_2 by done. apply orb_true_r.
  - by rewrite H.
Qed.

(** All packets of a stream, in the order of arrival. *)
Definition rx_feed (rx : mt_rtcp_rx) (pkts : list (Z * Z)) : mt_rtcp_rx :=
  foldl (fun rx '(seq, ssrc) => snd (mt_rtcp_rx_parse_rtp_packet rx seq ssrc)) rx pkts.

Lemma rx_feed_inv W pkts rx :
  rx_wf W rx -> rx_active rx = true -> rx_ssrc rx <> 0 ->
  Forall (fun p => is_u16 (fst p)) pkts -> rx_wf W (rx_feed rx pkts).
Proof.
  revert rx. induction pkts as [|[seq ssrc] pkts IH]; intros rx Hwf Ha Hs HF; [done|].
  apply Forall_cons in HF as [Hq HF]. cbn.
  destruct (parse_spec W rx seq ssrc Hwf Hq Ha Hs) as (rx1 & rx2 & -> & _ & Hwf2 & _ & _ & Ha2 & Hs2 & _).
  cbn. apply IH; try done. congruence.
Qed.

(** The first packet fixes the SSRC and both positions. *)
Lemma parse_first W rx seq ssrc :
  rx_wf W rx -> rx_active rx = true -> rx_ssrc rx = 0 -> is_u16 seq ->
  let rx' := snd (mt_rtcp_rx_parse_rtp_packet rx seq ssrc) in
  rx_wf W rx' /\ rx_active rx' = true /\ rx_ssrc rx' = ssrc /\
  last_seq rx' = seq /\ last_cont rx' = seq.
Proof.
  intros Hwf Ha Hz Hs. unfold mt_rtcp_rx_parse_rtp_packet. rewrite Ha, Hz. cbn [negb Z.eqb].
  set (rx0 := rx <| rx_ssrc := ssrc |> <| last_cont := seq |> <| last_seq := seq |>).
  assert (Hwf0 : rx_wf W rx0).
  { destruct Hwf. split; cbn; try done. unfold ahead16. rewrite Z.sub_diag. change (u16 0) with 0. lia. }
  destruct (rx_set_spec W rx0 Hwf0 seq) as (bm & -> & Hwf1 & _).
  split; [|done]. destruct Hwf1. by split.
Qed.

(** from creation on, after any non-empty sequence of packets of a stream (an
    SSRC that is not 0), the receiver satisfies its invariant, provided the
    configured bitmap gives a window that divides the sequence space. *)
Theorem rtcp_rx_reachable_wf ops tsc rx seq ssrc pkts :
  (8 * ops_seq_bitmap_size ops | 65536) -> 0 < ops_seq_bitmap_size ops < 4096 ->
  mt_rtcp_rx_create true true tsc ops = Some rx ->
  is_u16 seq -> ssrc <> 0 -> Forall (fun p => is_u16 (fst p)) pkts ->
  rx_wf (8 * ops_seq_bitmap_size ops) (rx_feed rx ((seq, ssrc) :: pkts)).
Proof.
  intros Hdiv Hsz Hc Hs Hssrc HF. change (rx_feed rx ((seq, ssrc) :: pkts))
    with (rx_feed (snd (mt_rtcp_rx_parse_rtp_packet rx seq ssrc)) pkts).
  assert (Hwf : rx_wf (8 * ops_seq_bitmap_size ops) rx /\ rx_active rx = true /\ rx_ssrc rx = 0).
  { injection Hc as <-. split; [|done]. split; cbn; try done; try lia.
    - eexists. split; [done|]. split; [apply bm_zero_wf|apply bm_zero_len; lia].
    - rewrite u16_id by (unfold is_u16; lia). lia.
    - change (ahead16 0 0) with 0. lia. }
  destruct Hwf as (Hwf & Ha & Hz).
  destruct (parse_first _ rx seq ssrc Hwf Ha Hz Hs) as (Hwf1 & Ha1 & Hs1 & _).
  apply rx_feed_inv; try done. congruence.
Qed.

(** *** The NACK loop *)

Definition fci_ok (fci : Z * Z) : Prop := is_u16 (fst fci) /\ is_u16 (snd fci).

Lemma fcis_expand_length fcis : Forall fci_ok fcis -> arr_len fcis <= arr_len (fcis_expand fcis).
Proof.
  unfold arr_len. induction 1 as [|[s f] fcis [_ Hf] _ IH]; [done|]. cbn in Hf.
  unfold fcis_expand in *. cbn [mbind list_bind length]. rewrite length_app.
  pose proof (seq_range_length s (f + 1)) as Hl. unfold arr_len, is_u16 in *. lia.
Qed.

(** State of the loop after the [k] numbers from [s] have been looked at. *)
Record nack_inv (rx0 : mt_rtcp_rx) (s k : Z) (st : nack_st) : Prop := {
  ni_frame : exists lost exc,
    nk_rx st = rx0 <| stat_rtp_lost_detected := lost |> <| stat_nack_drop_exceed := exc |>;
  ni_seq : nk_seq st = u16 (s + k);
  ni_start : is_u16 (nk_start st);
  ni_end : u16 (nk_start st + nk_miss st) = nk_seq st;
  ni_miss : 0 <= nk_miss st <= k;
  ni_fcis : Forall fci_ok (nk_fcis st);
  ni_room : arr_len (nk_fcis st) < 256;
  ni_lost : stat_rtp_lost_detected (nk_rx st) =
    u32 (stat_rtp_lost_detected rx0 + arr_len (fcis_expand (nk_fcis st)));
  ni_list : fcis_expand (nk_fcis st) ++ seq_range (nk_start st) (nk_miss st) = rx_missing rx0 s k;
  ni_last : 0 < k -> rx_test rx0 (u16 (s + (k - 1))) = true -> nk_miss st = 0;
  ni_go : nk_exceed st = false;
}.

(** What is left behind when the packet is full. *)
Record nack_full (rx0 : mt_rtcp_rx) (s k : Z) (st : nack_st) : Prop := {
  nf_frame : exists lost exc,
    nk_rx st = rx0 <| stat_rtp_lost_detected := lost |> <| stat_nack_drop_exceed := exc |>;
  nf_count : 256 <= arr_len (rx_missing rx0 s k);
  nf_stop : nk_exceed st = true;
}.

Lemma nack_step_inv rx0 s k st :
  is_u16 s -> 0 <= k < 32768 -> nack_inv rx0 s k st ->
  is_u32 (stat_rtp_lost_detected rx0) ->
  nack_inv rx0 s (k + 1) (rtcp_rx_nack_step st) \/ nack_full rx0 s k (rtcp_rx_nack_step st).
Proof.
  intros Hs Hk [(lost & exc & Hfr) Hseq Hst Hend Hm Hf Hroom Hlost Hlist Hlast _] Hl0.
  destruct st as [seq start miss fcis rx ex]. cbn in *. subst seq rx. cbn in Hlost. subst lost.
  change (rx_test (rx0 <| stat_rtp_lost_detected := _ |> <| stat_nack_drop_exceed := exc |>) (u16 (s + k)))
    with (rx_test rx0 (u16 (s + k))).
  assert (Hnext : u16 (u16 (s + k) + 1) = u16 (s + (k + 1))) by mlia.
  rewrite Hnext. pose proof (rx_missing_snoc rx0 s k ltac:(lia)) as Hsn.
  assert (Hprev : s + (k + 1 - 1) = s + k) by lia.
  assert (Hmu : u16 (miss + 1) = miss + 1 /\ u16 (miss - 1 + 1) = miss) by mlia.
  destruct (rx_test rx0 (u16 (s + k))) eqn:Et; cbn [negb]; rewrite ?Et in Hsn.
  2:{ left. destruct Hmu as [-> _]. split; cbn; try done; try lia.
      - by eexists _, _.
      - rewrite <- Hnext, <- Hend. mlia.
      - rewrite Hsn, <- Hlist, seq_range_snoc, app_assoc, Hend by lia. done.
      - intros _. rewrite Hprev, Et. done. }
  rewrite app_nil_r in Hsn.
  destruct (Z.eqb_spec miss 0) as [->|Hne]; cbn [negb].
  { left. split; cbn; try done; try lia; [by eexists _, _|apply u16_range|rewrite Z.add_0_r; mlia|by rewrite Hsn]. }
  assert (Hpos : 0 < miss <= 32768) by lia.
  assert (Hexp : fcis_expand (fcis ++ [(start, u16 (miss - 1))]) = rx_missing rx0 s k).
  { rewrite fcis_expand_snoc, <- Hlist, u16_id by (unfold is_u16; lia). do 2 f_equal. lia. }
  assert (Hok : Forall fci_ok (fcis ++ [(start, u16 (miss - 1))])).
  { apply Forall_app. split; [done|]. apply Forall_singleton. split; [done|apply u16_range]. }
  assert (Hlen : arr_len (fcis ++ [(start, u16 (miss - 1))]) = arr_len fcis + 1)
    by (unfold arr_len; rewrite length_app; simpl; lia).
  rewrite Z.geb_leb. destruct (Z.leb_spec MT_RTCP_MAX_FCIS (arr_len (fcis ++ [(start, u16 (miss - 1))]))).
  - right. split; cbn; [by eexists _, _| |done].
    rewrite <- Hexp. etransitivity; [|by apply fcis_expand_length]. unfold MT_RTCP_MAX_FCIS in *. lia.
  - unfold MT_RTCP_MAX_FCIS in *. left. split; cbn; try done; try lia.
    + by eexists _, _.
    + apply u16_range.
    + rewrite Z.add_0_r. mlia.
    + rewrite Hexp, <- Hlist. unfold arr_len. rewrite length_app.
      pose proof (seq_range_length start miss ltac:(lia)) as Hsl. unfold arr_len in Hsl.
      rewrite u32_add_l. f_equal. lia.
    + rewrite Hexp, Hsn. apply app_nil_r.
Qed.

Lemma rx_missing_mono rx s k n : 0 <= k <= n -> arr_len (rx_missing rx s k) <= arr_len (rx_missing rx s n).
Proof.
  intros Hk. replace n with (k + Z.of_nat (Z.to_nat (n - k))) by lia.
  induction (Z.to_nat (n - k)) as [|m IH]; [by rewrite Z.add_0_r|].
  replace (k + Z.of_nat (S m)) with (k + Z.of_nat m + 1) by lia.
  rewrite rx_missing_snoc by lia. unfold arr_len in *. rewrite length_app. lia.
Qed.

(** Running the loop over all numbers from [s] to [e]. *)
Lemma nack_loop rx0 s e :
  is_u16 s -> is_u16 e -> ahead16 s e < 32768 -> rx_test rx0 e = true ->
  is_u32 (stat_rtp_lost_detected rx0) ->
  let st := loop_while SEQ_FUEL
      (fun st => negb (nk_exceed st) && (rtp_seq_num_cmp (nk_seq st) e <=? 0))
      rtcp_rx_nack_step (mk_nack s s 0 [] rx0 false) in
  (nack_inv rx0 s (ahead16 s e + 1) st /\ nk_miss st = 0) \/ nack_full rx0 s (ahead16 s e + 1) st.
Proof.
  intros Hs He Hn Hte Hl0 st. set (n := ahead16 s e) in *. pose proof (ahead16_range s e) as Hn0. fold n in Hn0.
  assert (Hah : forall k, 0 <= k <= n -> ahead16 (u16 (s + k)) e = n - k).
  { intros k Hk. unfold n in *. by rewrite ahead16_shift. }
  assert (Hcmp : forall k, 0 <= k <= n + 1 -> (rtp_seq_num_cmp (u16 (s + k)) e <=? 0) = (k <=? n)).
  { intros k Hk. rewrite seq_num_cmp_le by (done || apply u16_range).
    destruct (Z.leb_spec k n); [rewrite Hah by lia; lia|].
    assert (k = n + 1) as -> by lia. apply Z.ltb_ge. unfold n, ahead16 in *. mlia. }
  destruct (loop_while_inv_exits
    (fun st => negb (nk_exceed st) && (rtp_seq_num_cmp (nk_seq st) e <=? 0)) rtcp_rx_nack_step
    (fun st => (exists k, 0 <= k <= n + 1 /\ nack_inv rx0 s k st) \/ nack_full rx0 s (n + 1) st)
    (fun st => if nk_exceed st then O else Z.to_nat (u16 (e + 1 - nk_seq st)))
    SEQ_FUEL (mk_nack s s 0 [] rx0 false)) as [Hinv Hexit].
  - intros st1 [(k & Hk & Hi)|[_ _ Hf]] Hc; [|by rewrite Hf in Hc].
    pose proof (ni_seq _ _ _ _ Hi) as Hq. pose proof (ni_go _ _ _ _ Hi) as Hgo.
    rewrite Hq, Hcmp in Hc by done. zbool. rewrite Hgo, Hq.
    assert (Hmk : forall k, 0 <= k <= n + 1 -> u16 (e + 1 - u16 (s + k)) = n + 1 - k).
    { intros k' Hk'. unfold n, ahead16 in *. mlia. }
    rewrite Hmk by lia.
    destruct (nack_step_inv rx0 s k st1 Hs ltac:(lia) Hi Hl0) as [Hi'|[Hfr Hcnt Hstop]].
    + split; [left; exists (k + 1); split; [lia|done]|].
      rewrite (ni_go _ _ _ _ Hi'), (ni_seq _ _ _ _ Hi'), Hmk by lia. lia.
    + rewrite Hstop. split; [right; split; try done|lia].
      etransitivity; [exact Hcnt|]. apply rx_missing_mono. lia.
  - left. exists 0. split; [lia|]. split; cbn; try done; try lia.
    + exists (stat_rtp_lost_detected rx0), (stat_nack_drop_exceed rx0). by destruct rx0.
    + rewrite Z.add_0_r. symmetry. by apply u16_id.
    + rewrite Z.add_0_r. by apply u16_id.
    + unfold arr_len. cbn. rewrite Z.add_0_r. symmetry. by apply u32_id.
  - cbn. assert (u16 (e + 1 - s) = n + 1) as -> by (unfold n, ahead16 in *; mlia). unfold SEQ_FUEL. lia.
  - fold st in Hinv, Hexit. destruct Hinv as [(k & Hk & Hi)|Hf]; [left|by right].
    rewrite (ni_go _ _ _ _ Hi), (ni_seq _ _ _ _ Hi), Hcmp in Hexit by done. simpl in Hexit.
    assert (k = n + 1) as -> by lia. split; [done|]. apply (ni_last _ _ _ _ Hi); [lia|].
    replace (n + 1 - 1) with n by lia. unfold n. by rewrite <- ahead16_inv.
Qed.

Lemma rx_missing_ext rx1 rx2 s n :
  0 <= n -> (forall k, 0 <= k < n -> rx_test rx1 (u16 (s + k)) = rx_test rx2 (u16 (s + k))) ->
  rx_missing rx1 s n = rx_missing rx2 s n.
Proof.
  intros Hn. rewrite <- (Z2Nat.id n) by lia. clear Hn.
  induction (Z.to_nat n) as [|m IH]; intros H; [done|].
  rewrite Nat2Z.inj_succ in *. unfold Z.succ in *. rewrite !rx_missing_snoc by lia.
  rewrite IH by (intros; apply H; lia). by rewrite H by lia.
Qed.

(** The newest number a NACK looks at and how many numbers lie between
    [last_cont] and it. *)
Definition nack_end (rx : mt_rtcp_rx) : Z := u16 (last_seq rx - seq_skip_window rx).
Definition nack_span (rx : mt_rtcp_rx) : Z :=
  let n := ahead16 (u16 (last_cont rx + 1)) (nack_end rx) in if n <? 32768 then n else 0.
Definition nack_missing (rx : mt_rtcp_rx) : list Z :=
  rx_missing rx (u16 (last_cont rx + 1)) (nack_span rx).

Lemma nack_span_bound W rx :
  rx_wf W rx -> ahead16 (u16 (last_cont rx + 1)) (nack_end rx) < 32768 ->
  ahead16 (u16 (last_cont rx + 1)) (nack_end rx) < W.
Proof.
  intros [_ _ _ HW _ Hsk HL HC Hn]. unfold nack_end.
  assert (ahead16 (u16 (last_cont rx + 1)) (u16 (last_seq rx - seq_skip_window rx)) =
          u16 (ahead16 (last_cont rx) (last_seq rx) - 1 - seq_skip_window rx)) as ->
    by (unfold ahead16; clear; mlia).
  pose proof (ahead16_range (last_cont rx) (last_seq rx)). clear HL HC. mlia.
Qed.

(** What the loop finds in the window is what is missing from it, also after
    the bit of the end was set for the loop. *)
Lemma nack_missing_set W rx rx2 :
  rx_wf W rx -> ahead16 (u16 (last_cont rx + 1)) (nack_end rx) < 32768 ->
  (forall s, rx_test rx2 s = rx_test rx s || bool_decide (s mod W = nack_end rx mod W)) ->
  rx_missing rx2 (u16 (last_cont rx + 1)) (ahead16 (u16 (last_cont rx + 1)) (nack_end rx) + 1)
    = nack_missing rx.
Proof.
  intros Hwf Hn Ht. pose proof (nack_span_bound W rx Hwf Hn) as Hb. pose proof Hwf as [_ _ _ HW Hdiv _ _ _ _].
  unfold nack_missing, nack_span. set (s := u16 (last_cont rx + 1)) in *. set (e := nack_end rx) in *.
  pose proof (ahead16_range s e) as Hr. assert (He : e = u16 (s + ahead16 s e)) by apply ahead16_inv, u16_range.
  replace (ahead16 s e <? 32768) with true by lia. rewrite rx_missing_snoc, <- He, Ht by lia.
  rewrite bool_decide_eq_true_2, orb_true_r, app_nil_r by done.
  apply rx_missing_ext; [lia|]. intros k Hk. rewrite Ht, bool_decide_eq_false_2; [by rewrite orb_false_r|].
  intros Heq. rewrite He, !u16_mod_div in Heq by done. apply mod_eq_near in Heq; lia.
Qed.

(** Undoing the bit of the end restores every test. *)
Lemma nack_restore W rx rx2 rx3 e :
  rx_wf W rx -> rx_wf W rx3 ->
  (forall s, rx_test rx2 s = rx_test rx s || bool_decide (s mod W = e mod W)) ->
  (forall s, rx_test rx3 s = rx_test rx2 s) ->
  let rx4 := if negb (rx_test rx e) then snd (rx_test_and_unset rx3 e) else rx3 in
  exists bm, rx4 = rx3 <| seq_bitmap := bm |> /\ rx_wf W rx4 /\ forall s, rx_test rx4 s = rx_test rx s.
Proof.
  intros Hwf Hwf3 H2 H3. destruct (rx_test rx e) eqn:Ee; cbn [negb].
  - exists (seq_bitmap rx3). split; [by destruct rx3|]. split; [done|]. intros s. rewrite H3, H2.
    case_bool_decide as Hm; [|by rewrite orb_false_r]. by rewrite (rx_test_mod W rx Hwf _ _ Hm), Ee.
  - destruct (rx_unset_spec W rx3 Hwf3 e) as (bm & -> & Hwf4 & H4). exists bm. split; [done|].
    split; [done|]. intros s. rewrite H4, H3, H2. case_bool_decide as Hm; simpl.
    + by rewrite andb_false_r, (rx_test_mod W rx Hwf _ _ Hm), Ee.
    + by rewrite andb_true_r, orb_false_r.
Qed.

(** The loop of a call, from the state with the bit of the end set. *)
Lemma nack_collect W rx rx2 :
  rx_wf W rx -> is_u32 (stat_rtp_lost_detected rx2) ->
  (forall s, rx_test rx2 s = rx_test rx s || bool_decide (s mod W = nack_end rx mod W)) ->
  let s := u16 (last_cont rx + 1) in
  let st := loop_while SEQ_FUEL
      (fun st => negb (nk_exceed st) && (rtp_seq_num_cmp (nk_seq st) (nack_end rx) <=? 0))
      rtcp_rx_nack_step (mk_nack s s 0 [] rx2 false) in
  (exists lost exc, nk_rx st = rx2 <| stat_rtp_lost_detected := lost |> <| stat_nack_drop_exceed := exc |>) /\
  if nk_exceed st then 256 <= arr_len (nack_missing rx)
  else arr_len (nk_fcis st) < 256 /\ Forall fci_ok (nk_fcis st) /\
    fcis_expand (nk_fcis st) = nack_missing rx /\
    stat_rtp_lost_detected (nk_rx st) =
      u32 (stat_rtp_lost_detected rx2 + arr_len (nack_missing rx)).
Proof.
  intros Hwf Hl Ht s st.
  destruct (Z.lt_ge_cases (ahead16 s (nack_end rx)) 32768) as [Hlt|Hge].
  - pose proof (nack_missing_set W rx rx2 Hwf Hlt Ht) as Hmiss. fold s in Hmiss.
    assert (He : rx_test rx2 (nack_end rx) = true).
    { rewrite Ht, bool_decide_eq_true_2 by done. apply orb_true_r. }
    destruct (nack_loop rx2 s (nack_end rx) (u16_range _) (u16_range _) Hlt He Hl) as [[Hi Hm0]|Hf];
      fold st in Hm0 || idtac.
    + destruct Hi as [Hfr _ _ _ _ Hf Hroom Hlost Hlist _ Hgo]. fold st in Hfr, Hf, Hroom, Hlost, Hlist, Hgo.
      rewrite Hmiss, Hm0, app_nil_r in Hlist. split; [done|]. rewrite Hgo, Hlost, Hlist. done.
    + destruct Hf as [Hfr Hc Hs]. fold st in Hfr, Hs. rewrite Hmiss in Hc. split; [done|]. by rewrite Hs.
  - assert (Hst : st = mk_nack s s 0 [] rx2 false).
    { unfold st. destruct SEQ_FUEL; [done|]. cbn [loop_while nk_exceed nk_seq negb andb].
      rewrite seq_num_cmp_le by apply u16_range. by replace (ahead16 s (nack_end rx) <? 32768) with false by lia. }
    rewrite Hst. cbn. split.
    + exists (stat_rtp_lost_detected rx2), (stat_nack_drop_exceed rx2). by destruct rx2.
    + unfold nack_missing, nack_span. fold s. replace (ahead16 s (nack_end rx) <? 32768) with false by lia.
      repeat split; try done. change (arr_len (rx_missing rx s 0)) with 0. rewrite Z.add_0_r. symmetry. by apply u32_id.
Qed.

(** C11: a NACK asks for exactly what is missing. When the interval has passed and a
    packet buffer is available, the bitmap, the SSRC and both positions are as
    before; then either nothing between [last_cont] and the end is missing and
    no packet is made, or the packet carries a list of at most 255 feedback
    items that expands, in order, to the missing
    numbers, which are also counted as lost, or there are at least 256 missing
    numbers and the call fails. The window of the bitmap is one that divides the 65536
    sequence numbers and is below half of them ([rx_wf]). *)
Theorem rtcp_nack_exact W now send rx ret rx' pkt :
  rx_wf W rx -> is_u32 (stat_rtp_lost_detected rx) ->
  rx_active rx = true -> nacks_send_time rx <= now ->
  mt_rtcp_rx_send_nack_packet now true send rx = (ret, rx', pkt) ->
  rx_wf W rx' /\ (forall s, rx_test rx' s = rx_test rx s) /\
  last_seq rx' = last_seq rx /\ last_cont rx' = last_cont rx /\ rx_ssrc rx' = rx_ssrc rx /\
  ((ret = - EINVAL /\ pkt = None /\ 256 <= arr_len (nack_missing rx)) \/
   (ret = 0 /\ pkt = None /\ nack_missing rx = []) \/
   (exists fcis p, pkt = Some p /\ p = rtcp_rx_build_nack (rx_ssrc rx) fcis /\
      ret = (if send p =? 1 then 0 else - EIO) /\
      0 < arr_len fcis < 256 /\ Forall fci_ok fcis /\ fcis_expand fcis = nack_missing rx /\
      stat_rtp_lost_detected rx' = u32 (stat_rtp_lost_detected rx + arr_len (nack_missing rx)))).
Proof.
  intros Hwf Hl Ha Hnow. unfold mt_rtcp_rx_send_nack_packet. rewrite Ha. cbn [negb].
  replace (now <? nacks_send_time rx) with false by lia.
  set (rx1 := rx <| nacks_send_time := _ |>). fold (nack_end rx1).
  assert (Hwf1 : rx_wf W rx1) by (destruct Hwf; by split).
  destruct (rx_set_spec W rx1 Hwf1 (nack_end rx1)) as (bm & -> & Hwf2 & Ht2).
  set (rx2 := rx1 <| seq_bitmap := bm |>) in *.
  pose proof (nack_collect W rx1 rx2 Hwf1 Hl Ht2) as [(lost & exc & Hfr) Hcol]. cbv zeta in Hfr, Hcol.
  set (st := loop_while _ _ _ _) in *.
  assert (Hwf3 : rx_wf W (nk_rx st)) by (rewrite Hfr; destruct Hwf2; by split).
  assert (Ht3 : forall s, rx_test (nk_rx st) s = rx_test rx2 s) by (intros s; by rewrite Hfr).
  destruct (nack_restore W rx1 rx2 (nk_rx st) (nack_end rx1) Hwf1 Hwf3 Ht2 Ht3) as (bm' & Heq & Hwf4 & Ht4).
  cbv zeta in Heq, Hwf4, Ht4. rewrite Heq, Hfr in *. clear Heq.
  change (nack_missing rx1) with (nack_missing rx) in Hcol.
  destruct (nk_exceed st).
  { intros [= <- <- <-]. repeat (split; [done|]). by left. }
  destruct Hcol as (Hroom & Hok & Hexp & Hlost). cbn in Hlost.
  destruct (Z.eqb_spec (arr_len (nk_fcis st)) 0) as [E0|Hne].
  { intros [= <- <- <-]. repeat (split; [done|]). right; left. repeat split; try done.
    destruct (nk_fcis st); [by rewrite <- Hexp|unfold arr_len in E0; simpl in E0; lia]. }
  assert (Hpos : 0 < arr_len (nk_fcis st)) by (unfold arr_len in *; lia).
  set (p := rtcp_rx_build_nack _ _). destruct (send p =? 1) eqn:Es; cbn [negb];
    intros [= <- <- <-]; (split; [try (destruct Hwf4; by split); done|]); repeat (split; [done|]);
    right; right; exists (nk_fcis st), p; rewrite Es; repeat (split; [done|]); done.
Qed.

(** *** From the receiver to the sender *)

Lemma rd_fcis_encoded fcis : forall pre,
  Forall fci_ok fcis ->
  rd_fcis (pre ++ rtcp_fcis_bytes fcis) (arr_len pre) (length fcis)
    = Some fcis.
Proof.
  induction fcis as [|[s f] fcis IH]; intros pre HF; [done|].
  apply Forall_cons in HF as [[Hs Hf] HF]. cbn in Hs, Hf.
  unfold rtcp_fcis_bytes in *. cbn [mbind list_bind length rd_fcis]. rewrite <- !app_assoc.
  pose proof (rd_be16_app_r pre) as Hr.
  rewrite (Hr _ 2) by lia. rewrite <- (Z.add_0_r (arr_len pre)) at 1. rewrite (Hr _ 0) by lia.
  rewrite rd_be16_be16 by done. cbn [mbind option_bind]. change 2 with (arr_len (be16 s) + 0).
  rewrite rd_be16_app_r, rd_be16_be16 by (done || lia). cbn [mbind option_bind].
  specialize (IH (pre ++ be16 s ++ be16 f) HF). rewrite <- !app_assoc in IH.
  replace (arr_len pre + SIZEOF_RTCP_FCI) with (arr_len (pre ++ be16 s ++ be16 f)).
  - by rewrite IH.
  - unfold arr_len, SIZEOF_RTCP_FCI. rewrite !length_app. simpl. lia.
Qed.

Lemma fcis_requested_expand fcis :
  Forall fci_ok fcis -> fcis_requested fcis = arr_len (fcis_expand fcis).
Proof.
  induction 1 as [|[s f] fcis [_ Hf] _ IH]; [done|]. cbn in Hf. cbn [fcis_requested foldr snd].
  unfold fcis_requested in IH. rewrite IH. unfold fcis_expand. cbn [mbind list_bind].
  unfold arr_len. rewrite length_app. pose proof (seq_range_length s (f + 1)) as Hl.
  unfold arr_len, is_u16 in *. lia.
Qed.

Lemma fcis_bytes_len fcis : arr_len (rtcp_fcis_bytes fcis) = 4 * arr_len fcis.
Proof.
  unfold arr_len. induction fcis as [|[s f] fcis IH]; [done|].
  change (rtcp_fcis_bytes ((s, f) :: fcis)) with ((be16 s ++ be16 f) ++ rtcp_fcis_bytes fcis).
  rewrite length_app. cbn [length app be16]. lia.
Qed.

Lemma nack_bytes_len ssrc fcis : arr_len (rtcp_nack_bytes ssrc fcis) = 12 + 4 * arr_len fcis.
Proof.
  pose proof (fcis_bytes_len fcis) as H. unfold rtcp_nack_bytes, arr_len in *. rewrite !length_app.
  change (length (be32 ssrc)) with 4%nat. change (length IMTL_NAME) with 4%nat. cbn [length be16]. lia.
Qed.

Lemma nack_bytes_ok ssrc fcis : is_bytes (rtcp_nack_bytes ssrc fcis).
Proof.
  unfold rtcp_nack_bytes, is_bytes. repeat (apply Forall_app; split); try apply be16_bytes.
  - by repeat constructor.
  - by repeat constructor.
  - induction fcis as [|[s f] fcis IH]; [constructor|].
    change (rtcp_fcis_bytes ((s, f) :: fcis)) with ((be16 s ++ be16 f) ++ rtcp_fcis_bytes fcis).
    repeat (apply Forall_app; split); try apply be16_bytes. exact IH.
Qed.

(** How a sender serves a list of feedback items: one after the other, each that fits the
    rest of the budget by a retransmission of the numbers it names; the packets put on the
    wire for each. *)
Fixpoint nack_served {E : Type} `{!DpdkTx E} (mbuf_seq mbuf_row_length : Z -> Z) (budget : Z) (fcis : list (Z * Z))
    (tx : mt_rtcp_tx) (e : E) : mt_rtcp_tx * E * list (list mbuf_copy) :=
  match fcis with
  | [] => (tx, e, [])
  | (start, follow) :: fcis =>
      if follow + 1 <=? budget then
        let '(_, tx, e, w) := rtcp_tx_retransmit_rtp_packets mbuf_seq mbuf_row_length tx e start (follow + 1) in
        let '(tx, e, ws) := nack_served mbuf_seq mbuf_row_length (budget - (follow + 1)) fcis tx e in
        (tx, e, w :: ws)
      else
        let tx := tx <| stat_rtp_retransmit_fail ::= fun s => u32 (s + (follow + 1)) |> in
        let '(tx, e, ws) := nack_served mbuf_seq mbuf_row_length budget fcis tx e in
        (tx, e, [] :: ws)
  end.

Section Served.
Context {E : Type} `{!DpdkTx E} `{!DpdkTxLaws E} (mbuf_seq mbuf_row_length : Z -> Z).

(** The loop of the parser serves the items in the buffer. *)
Lemma handle_fcis_served base buf n : forall off budget tx e wire0 fcis,
  ring_inv mbuf_seq base (mbuf_ring tx) -> is_u16 base -> is_bytes buf -> 0 <= budget <= fifo_used (mbuf_ring tx) ->
  rd_fcis buf off n = Some fcis ->
  rtcp_tx_handle_fcis mbuf_seq mbuf_row_length buf off n budget tx e wire0
    = let '(tx', e', ws) := nack_served mbuf_seq mbuf_row_length budget fcis tx e in Some (tx', e', wire0 ++ mjoin ws).
Proof.
  induction n as [|n IH]; intros off budget tx e wire0 fcis Hri Hb Hbuf Hbud Hrd; cbn [rd_fcis rtcp_tx_handle_fcis] in *.
  { injection Hrd as <-. cbn. by rewrite app_nil_r. }
  destruct (rd_be16 buf off) as [start|] eqn:Es; [|done]. destruct (rd_be16 buf (off + 2)) as [follow|] eqn:Ef; [|done].
  cbn in Hrd. destruct (rd_fcis buf (off + SIZEOF_RTCP_FCI) n) as [rest|] eqn:Er; [|done]. injection Hrd as <-.
  pose proof (rd_be16_range _ _ _ Hbuf Es) as Rs. pose proof (rd_be16_range _ _ _ Hbuf Ef) as Rf.
  pose proof (handle_fci_spec mbuf_seq mbuf_row_length base tx e start follow budget Hri Hb Rs Rf Hbud) as H.
  pose proof Hri as [[_ _ _ Hu _] Hsz _ _]. cbn [mbind option_bind nack_served]. unfold rtcp_tx_handle_fci in *.
  unfold is_u16 in Rs, Rf. rewrite u32_id in * by (unfold is_u32; lia). rewrite Z.gtb_ltb, Z.leb_antisym in *.
  destruct (budget <? follow + 1) eqn:El; cbn [negb] in *; zbool.
  - destruct H as (H1 & _). rewrite (IH _ _ _ _ _ rest); [|by rewrite H1|done|done|by rewrite H1|done].
    rewrite app_nil_r. by destruct (nack_served _ _ _ _ _ _) as [[tx1 e1] ws].
  - rewrite u16_id, u32_id in * by (unfold is_u16, is_u32; lia).
    destruct (rtcp_tx_retransmit_rtp_packets _ _ _ _ _ _) as [[[ret tx1] e1] w]. destruct H as (H1 & _ & H3 & H4 & _).
    rewrite (IH _ _ _ _ _ rest); [|by rewrite H1|done|done|rewrite H1; unfold arr_len in *; lia|done].
    destruct (nack_served _ _ _ _ _ _) as [[tx2 e2] ws]. cbn. by rewrite app_assoc.
Qed.

(** What is sent for an item are the packets it names, from the first on. *)
Lemma nack_served_seqs base : forall fcis budget tx e,
  ring_inv mbuf_seq base (mbuf_ring tx) -> is_u16 base -> Forall fci_ok fcis -> 0 <= budget <= fifo_used (mbuf_ring tx) ->
  Forall2 (fun fci w => mbuf_seq ∘ copy_of <$> w `prefix_of` seq_range fci.1 (fci.2 + 1))
    fcis (nack_served mbuf_seq mbuf_row_length budget fcis tx e).2.
Proof.
  induction fcis as [|[start follow] fcis IH]; intros budget tx e Hri Hb Hok Hbud; [constructor|].
  apply Forall_cons in Hok as [Hf Hok]. cbn [nack_served]. pose proof Hri as [[_ _ _ Hu _] Hsz _ _].
  destruct (Z.leb_spec (follow + 1) budget) as [Hl|Hl].
  - destruct (rtcp_tx_retransmit_rtp_packets mbuf_seq mbuf_row_length tx e start (follow + 1)) as [[[ret tx1] e1] w] eqn:Eq.
    destruct Hf as [Rs Rf]. cbn in Rs, Rf. assert (0 < follow + 1 <= 65535) as Rb by (unfold is_u16 in Rf; lia).
    pose proof (retransmit_seqs mbuf_seq mbuf_row_length base tx e start (follow + 1) ret tx1 e1 w Hri Hb Rs Rb Eq) as Hw.
    pose proof (retransmit_spec mbuf_seq mbuf_row_length base tx e start (follow + 1) Hri Hb Rs Rb) as Hs. cbv zeta in Hs.
    rewrite Eq in Hs. destruct Hs as (H1 & _ & _ & H4 & _).
    specialize (IH (budget - (follow + 1)) tx1 e1). rewrite H1 in IH. specialize (IH Hri Hb Hok ltac:(lia)).
    destruct (nack_served _ _ _ fcis tx1 e1) as [[tx2 e2] ws]. constructor; [|exact IH]. cbn [fst snd]. rewrite Hw. unfold seq_range.
    exists ((fun k => u16 (start + k)) <$> seqZ (0 + arr_len w) (follow + 1 - arr_len w)). rewrite <- fmap_app, <- seqZ_app by (unfold arr_len in *; lia).
    do 2 f_equal. lia.
  - match goal with |- context [nack_served _ _ ?b fcis ?t e] =>
      specialize (IH b t e Hri Hb Hok Hbud); destruct (nack_served mbuf_seq mbuf_row_length b fcis t e) as [[tx2 e2] ws] end.
    constructor; [apply prefix_nil|exact IH].
Qed.
End Served.

(** C34: a NACK made by the receiver is understood by the sender. The packet built from a
    list of at most 255 feedback items has consistent IP, UDP and RTCP lengths; the sender's
    parser accepts its payload and serves exactly the items of the list, in order: for each
    that fits the rest of the budget (the packets in the ring) it calls the retransmission
    with the first number and the count of the item. What goes on the wire for an item are
    the packets with the numbers it names, from the first on, as far as the queue takes
    them; sent and failed together are as many as the list expands to. The sender is active,
    its ring holds consecutive sequence numbers. *)
Theorem rtcp_nack_roundtrip {E : Type} `{!DpdkTx E} `{!DpdkTxLaws E} (mbuf_seq mbuf_row_length : Z -> Z)
    base (tx : mt_rtcp_tx) (e : E) ssrc fcis :
  ring_inv mbuf_seq base (mbuf_ring tx) -> is_u16 base -> tx_active tx = true ->
  Forall fci_ok fcis -> arr_len fcis < 256 ->
  let p := rtcp_rx_build_nack ssrc fcis in
  let len := arr_len (pkt_payload p) in
  let tx0 := tx <| nack_drop_sampled := false |> <| stat_nack_received ::= fun n => u32 (n + 1) |> in
  pkt_len p = 42 + len /\ ipv4_total_length p = 28 + len /\ udp_dgram_len p = 8 + len /\
  exists tx' e' ws,
    nack_served mbuf_seq mbuf_row_length (fifo_used (mbuf_ring tx)) fcis tx0 e = (tx', e', ws) /\
    mt_rtcp_tx_parse_rtcp_packet mbuf_seq mbuf_row_length tx e (pkt_payload p) len = Some (0, tx', e', mjoin ws) /\
    Forall2 (fun fci w => mbuf_seq ∘ copy_of <$> w `prefix_of` seq_range fci.1 (fci.2 + 1)) fcis ws /\
    u32 (stat_rtp_retransmit_succ tx' + stat_rtp_retransmit_fail tx') =
      u32 (stat_rtp_retransmit_succ tx + stat_rtp_retransmit_fail tx + arr_len (fcis_expand fcis)).
Proof.
  intros Hri Hb Hact Hok Hroom p len tx0. assert (Hlen : len = 12 + 4 * arr_len fcis) by apply nack_bytes_len.
  assert (Hn0 : 0 <= arr_len fcis) by (unfold arr_len; lia).
  assert (Hpl : pkt_len p = 42 + len).
  { cbn. unfold SIZEOF_UDP_HDR, SIZEOF_RTCP_HDR, SIZEOF_RTCP_FCI. rewrite Hlen. mlia. }
  split; [done|]. split; [change (u16 (pkt_len p - 14) = 28 + len); mlia|].
  split; [change (u16 (pkt_len p - 14 - 20) = 8 + len); mlia|].
  set (hdr := [0x80; MT_RTCP_PTYPE_NACK] ++ be16 (u16 (SIZEOF_RTCP_HDR / 4 - 1 + arr_len fcis))
    ++ be32 ssrc ++ IMTL_NAME).
  assert (Hpay : pkt_payload p = hdr ++ rtcp_fcis_bytes fcis).
  { unfold hdr. rewrite <- !app_assoc. done. }
  assert (Hrd : rd_fcis (pkt_payload p) SIZEOF_RTCP_HDR (length fcis) = Some fcis).
  { rewrite Hpay. by apply rd_fcis_encoded. }
  unfold mt_rtcp_tx_parse_rtcp_packet. rewrite Hact. cbn [negb].
  replace (len <? SIZEOF_RTCP_HDR) with false by (unfold SIZEOF_RTCP_HDR; lia).
  change (rd8 (pkt_payload p) 0) with (Some 128). change (rd8 (pkt_payload p) 1) with (Some 204).
  change (rd_eq (pkt_payload p) 8 IMTL_NAME) with (Some true). cbn [mbind option_bind Z.eqb Pos.eqb negb].
  assert (Hrl : rd_be16 (pkt_payload p) 2 = Some (2 + arr_len fcis)).
  { change (pkt_payload p) with (([0x80; MT_RTCP_PTYPE_NACK] : bytes) ++ be16 (u16 (SIZEOF_RTCP_HDR / 4 - 1 + arr_len fcis))
      ++ (be32 ssrc ++ IMTL_NAME ++ rtcp_fcis_bytes fcis)).
    change 2 with (arr_len ([0x80; MT_RTCP_PTYPE_NACK] : bytes) + 0) at 1.
    rewrite rd_be16_app_r, rd_be16_be16 by (lia || apply u16_range). f_equal.
    unfold SIZEOF_RTCP_HDR. rewrite u16_id by (unfold is_u16; change (12 / 4 - 1) with 2; lia). done. }
  rewrite Hrl. cbn [mbind option_bind]. rewrite Z.gtb_ltb.
  replace (((2 + arr_len fcis + 1) * 4 <? SIZEOF_RTCP_HDR) || (len <? (2 + arr_len fcis + 1) * 4))
    with false by (unfold SIZEOF_RTCP_HDR; lia).
  assert (Hnum : u16 (((2 + arr_len fcis + 1) * 4 - SIZEOF_RTCP_HDR) / SIZEOF_RTCP_FCI) = arr_len fcis)
    by (unfold SIZEOF_RTCP_HDR, SIZEOF_RTCP_FCI; mlia).
  rewrite Hnum. replace (arr_len fcis >? MT_RTCP_MAX_FCIS) with false by (unfold MT_RTCP_MAX_FCIS; lia).
  pose proof Hri as [Hwf Hsz _ _]. pose proof Hwf as [Hsize _ _ Hu _].
  rewrite u32_id by (unfold is_u32, mt_u64_fifo_count; cbn; lia). fold tx0. change (mt_u64_fifo_count (mbuf_ring tx0)) with (fifo_used (mbuf_ring tx)).
  replace (Z.to_nat (arr_len fcis)) with (length fcis) by (unfold arr_len; lia).
  pose proof (nack_bytes_ok ssrc fcis) as Hby. change (is_bytes (pkt_payload p)) in Hby.
  pose proof (nack_served_seqs mbuf_seq mbuf_row_length base fcis (fifo_used (mbuf_ring tx)) tx0 e Hri Hb Hok ltac:(cbn; lia)) as Hseqs.
  pose proof (handle_fcis_served mbuf_seq mbuf_row_length base (pkt_payload p) (length fcis) SIZEOF_RTCP_HDR
    (fifo_used (mbuf_ring tx)) tx0 e [] fcis Hri Hb Hby ltac:(cbn; lia) Hrd) as Hserved.
  destruct (handle_fcis_spec mbuf_seq mbuf_row_length base (pkt_payload p) (length fcis) SIZEOF_RTCP_HDR
    (fifo_used (mbuf_ring tx)) tx0 e []) as (tx2 & e2 & w & fcis' & Hrun & Hf & _ & _ & _ & Hacc);
    try done; try (unfold SIZEOF_RTCP_HDR; cbn; lia).
  { fold len. unfold SIZEOF_RTCP_HDR. unfold arr_len in Hlen. lia. }
  rewrite Hrd in Hf. injection Hf as <-. rewrite fcis_requested_expand in Hacc by done.
  destruct (nack_served _ _ _ fcis tx0 e) as [[tx' e'] ws] eqn:En. rewrite Hrun in Hserved. injection Hserved as <- <- ->.
  rewrite Hrun. exists tx2, e2, ws. by split_and!.
Qed.

(** ** Boundary behaviour *)

(** The configured skip window never reaches the session: detection always runs
    up to the newest packet. *)
Lemma rtcp_rx_create_no_skip tsc ops rx :
  mt_rtcp_rx_create true true tsc ops = Some rx -> seq_skip_window rx = 0 /\ nack_end rx = last_seq rx.
Proof. by intros [= <-]. Qed.

(** A receiver with a window of 16 numbers that got packets 65535 and 2. *)
Definition demo_rx : mt_rtcp_rx :=
  rx_feed (default (mk_rtcp_rx 0 0 false 0 0 0 None 0 0 0 0 0 0 0)
             (mt_rtcp_rx_create true true 100 (mk_rtcp_rx_ops 50 2 0))) [(65535, 9); (2, 9)].

Lemma demo_rx_wf : rx_wf 16 demo_rx.
Proof.
  split; try by vm_compute.
  - eexists. split; [vm_compute; reflexivity|]. split; [by repeat constructor; vm_compute|by vm_compute].
  - exists 4096. done.
Qed.

(** When the gap right after [last_cont] = 65535 is filled by packet 0, the
    position does not move; the same history away from the wrap-around moves
    it. The test [seq == last_cont + 1] is made on [int]. *)
Lemma rtcp_rx_cont_stuck_at_wrap :
  last_cont (rx_feed demo_rx [(0, 9); (1, 9)]) = 65535 /\
  last_cont (rx_feed (snd (mt_rtcp_rx_parse_rtp_packet (demo_rx <| last_cont := 99 |> <| last_seq := 102 |>) 100 9))
               [(101, 9)]) = 101.
Proof. vm_compute. done. Qed.

Lemma rtcp_rx_window_shift_witness :
  exists rx', mt_rtcp_rx_parse_rtp_packet demo_rx 4 9 = (0, rx') /\
    rx_window 16 rx' = [true; false; true; false; false; true; false; false; false; false; false;
                        false; false; false; false; false].
Proof.
  eexists. split; [vm_compute; reflexivity|].
  edestruct (rtcp_rx_window_shift 16 demo_rx 4 9) as [_ H].
  - apply demo_rx_wf.
  - by vm_compute.
  - by vm_compute.
  - by vm_compute.
  - vm_compute. reflexivity.
  - rewrite H. vm_compute. reflexivity.
Defined.

Lemma rtcp_rx_cont_sound_witness :
  exists rx', mt_rtcp_rx_parse_rtp_packet demo_rx 40 9 = (0, rx') /\ rx_wf 16 rx' /\ last_cont rx' = 24.
Proof.
  eexists. split; [vm_compute; reflexivity|]. split; [|vm_compute; reflexivity].
  edestruct (rtcp_rx_cont_sound 16 demo_rx 40 9) as [H _].
  - apply demo_rx_wf.
  - by vm_compute.
  - by vm_compute.
  - by vm_compute.
  - vm_compute. reflexivity.
  - exact H.
Defined.

Lemma rtcp_rx_reachable_wf_witness :
  exists rx, mt_rtcp_rx_create true true 100 (mk_rtcp_rx_ops 50 2 0) = Some rx /\
    rx_wf 16 (rx_feed rx [(65535, 9); (2, 9); (0, 9)]).
Proof.
  eexists. split; [reflexivity|].
  apply (rtcp_rx_reachable_wf (mk_rtcp_rx_ops 50 2 0) 100 _ 65535 9 [(2, 9); (0, 9)]).
  - exists 4096. done.
  - done.
  - reflexivity.
  - by vm_compute.
  - done.
  - by repeat constructor; vm_compute.
Defined.

Lemma rtcp_nack_exact_witness :
  exists rx', mt_rtcp_rx_send_nack_packet 200 true (fun _ => 1) demo_rx
    = (0, rx', Some (rtcp_rx_build_nack 9 [(0, 1)])) /\
    nack_missing demo_rx = [0; 1] /\ forall s, rx_test rx' s = rx_test demo_rx s.
Proof.
  eexists. split; [vm_compute; reflexivity|]. split; [vm_compute; reflexivity|].
  edestruct (rtcp_nack_exact 16 200 (fun _ => 1) demo_rx) as (_ & H & _).
  - apply demo_rx_wf.
  - by vm_compute.
  - by vm_compute.
  - by vm_compute.
  - vm_compute. reflexivity.
  - exact H.
Defined.

Lemma rtcp_nack_roundtrip_witness :
  exists tx' e' ws,
    mt_rtcp_tx_parse_rtcp_packet demo_seq id demo_tx 10 (pkt_payload (rtcp_rx_build_nack 9 [(65535, 1)])) 16
      = Some (0, tx', e', mjoin ws) /\
    Forall2 (fun fci w => demo_seq ∘ copy_of <$> w `prefix_of` seq_range fci.1 (fci.2 + 1)) [(65535, 1)] ws.
Proof.
  destruct (rtcp_nack_roundtrip demo_seq id 65534 demo_tx 10 9 [(65535, 1)]) as (_ & _ & _ & tx' & e' & ws & _ & H1 & H2 & _).
  - apply (ti_ring _ _ _ demo_inv).
  - by vm_compute.
  - done.
  - by repeat constructor; vm_compute.
  - by vm_compute.
  - exists tx', e', ws. split; [exact H1|exact H2].
Defined.
