(* ===== verification/Convert.v ===== *)
(** Pixel format conversion: the scalar routines of lib/src/st2110/st_convert.c.

    A buffer is its list of planes, a plane its list of bytes. The packed pixel groups
    of include/st20_api.h are records with the fields of the C structures, in the
    little-endian layout ([MTL_LITTLE_ENDIAN]); [get_*] and [put_*] are their bytes.
    A conversion is a loop over pixel groups: it reads the samples of one group, shifts
    them into the fields of the other format and moves both pointers on. Reading or
    writing outside a buffer gives [None]. These are the routines of a build
    without the vector code; [SimdConvert] has the [_simd] entries that choose between them
    and the vector routines.

    Conversions only move bits, so what one group becomes is settled by [bit_solve] of
    [BitExpr]; the loops are handled once ([group_loop_lossless], [group_loop_via]). *)
From S2P Require Import Prelude Bytes BitExpr.

(** ** Fields of machine words *)

(** The bit-field of [n] bits at position [pos] of a byte. *)
Definition field (pos n b : Z) : Z := bf n (Z.shiftr b pos).
Definition cell (c : bytes) (i : nat) : Z := default 0 (c !! i).
(** Storing into bytes. *)
Definition store (c : bytes) : bytes := bf 8 <$> c.
(** A [uint16_t] in little-endian memory. *)
Definition ld16 (c : bytes) (i : nat) : Z := Z.lor (cell c i) (Z.shiftl (cell c (S i)) 8).
Definition st16 (v : Z) : bytes := store [v; Z.shiftr v 8].

(** ** Samples of one pixel group *)

Record samples422 := mk_s422 { s_cb : Z; s_y0 : Z; s_cr : Z; s_y1 : Z }.
Record samples444x2 := mk_s444x2 {
  s2_cb_r0 : Z; s2_y_g0 : Z; s2_cr_b0 : Z; s2_cb_r1 : Z; s2_y_g1 : Z; s2_cr_b1 : Z }.
Record samples444x4 := mk_s444x4 {
  s4_cb_r0 : Z; s4_y_g0 : Z; s4_cr_b0 : Z; s4_cb_r1 : Z; s4_y_g1 : Z; s4_cr_b1 : Z;
  s4_cb_r2 : Z; s4_y_g2 : Z; s4_cr_b2 : Z; s4_cb_r3 : Z; s4_y_g3 : Z; s4_cr_b3 : Z }.

(** ** Packed pixel groups *)

Record st20_rfc4175_422_10_pg2_be := mk_be10 {
  be10_Cb00 : Z; be10_Y00 : Z; be10_Cb00_ : Z; be10_Cr00 : Z; be10_Y00_ : Z;
  be10_Y01 : Z; be10_Cr00_ : Z; be10_Y01_ : Z
}.

Definition get_be10 (c : bytes) : st20_rfc4175_422_10_pg2_be :=
  mk_be10
    (cell c 0) (field 0 6 (cell c 1)) (field 6 2 (cell c 1)) (field 0 4 (cell c 2))
    (field 4 4 (cell c 2)) (field 0 2 (cell c 3)) (field 2 6 (cell c 3)) (cell c 4).

Definition put_be10 (g : st20_rfc4175_422_10_pg2_be) : bytes :=
  store
   [be10_Cb00 g; Z.lor (be10_Y00 g) (Z.shiftl (be10_Cb00_ g) 6);
    Z.lor (be10_Cr00 g) (Z.shiftl (be10_Y00_ g) 4);
    Z.lor (be10_Y01 g) (Z.shiftl (be10_Cr00_ g) 2); be10_Y01_ g].

Record st20_rfc4175_422_10_pg2_le := mk_le10 {
  le10_Cb00 : Z; le10_Cb00_ : Z; le10_Y00 : Z; le10_Y00_ : Z; le10_Cr00 : Z;
  le10_Cr00_ : Z; le10_Y01 : Z; le10_Y01_ : Z
}.

Definition get_le10 (c : bytes) : st20_rfc4175_422_10_pg2_le :=
  mk_le10
    (cell c 0) (field 0 2 (cell c 1)) (field 2 6 (cell c 1)) (field 0 4 (cell c 2))
    (field 4 4 (cell c 2)) (field 0 6 (cell c 3)) (field 6 2 (cell c 3)) (cell c 4).

Definition put_le10 (g : st20_rfc4175_422_10_pg2_le) : bytes :=
  store
   [le10_Cb00 g; Z.lor (le10_Cb00_ g) (Z.shiftl (le10_Y00 g) 2);
    Z.lor (le10_Y00_ g) (Z.shiftl (le10_Cr00 g) 4);
    Z.lor (le10_Cr00_ g) (Z.shiftl (le10_Y01 g) 6); le10_Y01_ g].

Record st20_rfc4175_422_12_pg2_be := mk_be12 {
  be12_Cb00 : Z; be12_Y00 : Z; be12_Cb00_ : Z; be12_Y00_ : Z; be12_Cr00 : Z;
  be12_Y01 : Z; be12_Cr00_ : Z; be12_Y01_ : Z
}.

Definition get_be12 (c : bytes) : st20_rfc4175_422_12_pg2_be :=
  mk_be12
    (cell c 0) (field 0 4 (cell c 1)) (field 4 4 (cell c 1)) (cell c 2) (cell c 3)
    (field 0 4 (cell c 4)) (field 4 4 (cell c 4)) (cell c 5).

Definition put_be12 (g : st20_rfc4175_422_12_pg2_be) : bytes :=
  store
   [be12_Cb00 g; Z.lor (be12_Y00 g) (Z.shiftl (be12_Cb00_ g) 4); be12_Y00_ g;
    be12_Cr00 g; Z.lor (be12_Y01 g) (Z.shiftl (be12_Cr00_ g) 4); be12_Y01_ g].

Record st20_rfc4175_422_12_pg2_le := mk_le12 {
  le12_Cb00 : Z; le12_Cb00_ : Z; le12_Y00 : Z; le12_Y00_ : Z; le12_Cr00 : Z;
  le12_Cr00_ : Z; le12_Y01 : Z; le12_Y01_ : Z
}.

Definition get_le12 (c : bytes) : st20_rfc4175_422_12_pg2_le :=
  mk_le12
    (cell c 0) (field 0 4 (cell c 1)) (field 4 4 (cell c 1)) (cell c 2) (cell c 3)
    (field 0 4 (cell c 4)) (field 4 4 (cell c 4)) (cell c 5).

Definition put_le12 (g : st20_rfc4175_422_12_pg2_le) : bytes :=
  store
   [le12_Cb00 g; Z.lor (le12_Cb00_ g) (Z.shiftl (le12_Y00 g) 4); le12_Y00_ g;
    le12_Cr00 g; Z.lor (le12_Cr00_ g) (Z.shiftl (le12_Y01 g) 4); le12_Y01_ g].

Record st20_rfc4175_444_10_pg4_be := mk_rgb_be10 {
  rgb_be10_Cb_R00 : Z; rgb_be10_Y_G00 : Z; rgb_be10_Cb_R00_ : Z; rgb_be10_Cr_B00 : Z;
  rgb_be10_Y_G00_ : Z; rgb_be10_Cb_R01 : Z; rgb_be10_Cr_B00_ : Z; rgb_be10_Cb_R01_ : Z;
  rgb_be10_Y_G01 : Z; rgb_be10_Cr_B01 : Z; rgb_be10_Y_G01_ : Z; rgb_be10_Cb_R02 : Z;
  rgb_be10_Cr_B01_ : Z; rgb_be10_Y_G02 : Z; rgb_be10_Cb_R02_ : Z; rgb_be10_Y_G02_ : Z;
  rgb_be10_Cr_B02 : Z; rgb_be10_Cb_R03 : Z; rgb_be10_Cr_B02_ : Z; rgb_be10_Y_G03 : Z;
  rgb_be10_Cb_R03_ : Z; rgb_be10_Cr_B03 : Z; rgb_be10_Y_G03_ : Z; rgb_be10_Cr_B03_ : Z
}.

Definition get_rgb_be10 (c : bytes) : st20_rfc4175_444_10_pg4_be :=
  mk_rgb_be10
    (cell c 0) (field 0 6 (cell c 1)) (field 6 2 (cell c 1)) (field 0 4 (cell c 2))
    (field 4 4 (cell c 2)) (field 0 2 (cell c 3)) (field 2 6 (cell c 3)) (cell c 4)
    (cell c 5) (field 0 6 (cell c 6)) (field 6 2 (cell c 6)) (field 0 4 (cell c 7))
    (field 4 4 (cell c 7)) (field 0 2 (cell c 8)) (field 2 6 (cell c 8)) (cell c 9)
    (cell c 10) (field 0 6 (cell c 11)) (field 6 2 (cell c 11)) (field 0 4 (cell c 12))
    (field 4 4 (cell c 12)) (field 0 2 (cell c 13)) (field 2 6 (cell c 13)) (cell c 14).

Definition put_rgb_be10 (g : st20_rfc4175_444_10_pg4_be) : bytes :=
  store
   [rgb_be10_Cb_R00 g; Z.lor (rgb_be10_Y_G00 g) (Z.shiftl (rgb_be10_Cb_R00_ g) 6);
    Z.lor (rgb_be10_Cr_B00 g) (Z.shiftl (rgb_be10_Y_G00_ g) 4);
    Z.lor (rgb_be10_Cb_R01 g) (Z.shiftl (rgb_be10_Cr_B00_ g) 2); rgb_be10_Cb_R01_ g;
    rgb_be10_Y_G01 g; Z.lor (rgb_be10_Cr_B01 g) (Z.shiftl (rgb_be10_Y_G01_ g) 6);
    Z.lor (rgb_be10_Cb_R02 g) (Z.shiftl (rgb_be10_Cr_B01_ g) 4);
    Z.lor (rgb_be10_Y_G02 g) (Z.shiftl (rgb_be10_Cb_R02_ g) 2); rgb_be10_Y_G02_ g;
    rgb_be10_Cr_B02 g; Z.lor (rgb_be10_Cb_R03 g) (Z.shiftl (rgb_be10_Cr_B02_ g) 6);
    Z.lor (rgb_be10_Y_G03 g) (Z.shiftl (rgb_be10_Cb_R03_ g) 4);
    Z.lor (rgb_be10_Cr_B03 g) (Z.shiftl (rgb_be10_Y_G03_ g) 2); rgb_be10_Cr_B03_ g].

Record st20_rfc4175_444_10_pg4_le := mk_rgb_le10 {
  rgb_le10_Cb_R00 : Z; rgb_le10_Cb_R00_ : Z; rgb_le10_Y_G00 : Z; rgb_le10_Y_G00_ : Z;
  rgb_le10_Cr_B00 : Z; rgb_le10_Cr_B00_ : Z; rgb_le10_Cb_R01 : Z; rgb_le10_Cb_R01_ : Z;
  rgb_le10_Y_G01 : Z; rgb_le10_Y_G01_ : Z; rgb_le10_Cr_B01 : Z; rgb_le10_Cr_B01_ : Z;
  rgb_le10_Cb_R02 : Z; rgb_le10_Cb_R02_ : Z; rgb_le10_Y_G02 : Z; rgb_le10_Y_G02_ : Z;
  rgb_le10_Cr_B02 : Z; rgb_le10_Cr_B02_ : Z; rgb_le10_Cb_R03 : Z; rgb_le10_Cb_R03_ : Z;
  rgb_le10_Y_G03 : Z; rgb_le10_Y_G03_ : Z; rgb_le10_Cr_B03 : Z; rgb_le10_Cr_B03_ : Z
}.

Definition get_rgb_le10 (c : bytes) : st20_rfc4175_444_10_pg4_le :=
  mk_rgb_le10
    (cell c 0) (field 0 2 (cell c 1)) (field 2 6 (cell c 1)) (field 0 4 (cell c 2))
    (field 4 4 (cell c 2)) (field 0 6 (cell c 3)) (field 6 2 (cell c 3)) (cell c 4)
    (cell c 5) (field 0 2 (cell c 6)) (field 2 6 (cell c 6)) (field 0 4 (cell c 7))
    (field 4 4 (cell c 7)) (field 0 6 (cell c 8)) (field 6 2 (cell c 8)) (cell c 9)
    (cell c 10) (field 0 2 (cell c 11)) (field 2 6 (cell c 11)) (field 0 4 (cell c 12))
    (field 4 4 (cell c 12)) (field 0 6 (cell c 13)) (field 6 2 (cell c 13)) (cell c 14).

Definition put_rgb_le10 (g : st20_rfc4175_444_10_pg4_le) : bytes :=
  store
   [rgb_le10_Cb_R00 g; Z.lor (rgb_le10_Cb_R00_ g) (Z.shiftl (rgb_le10_Y_G00 g) 2);
    Z.lor (rgb_le10_Y_G00_ g) (Z.shiftl (rgb_le10_Cr_B00 g) 4);
    Z.lor (rgb_le10_Cr_B00_ g) (Z.shiftl (rgb_le10_Cb_R01 g) 6); rgb_le10_Cb_R01_ g;
    rgb_le10_Y_G01 g; Z.lor (rgb_le10_Y_G01_ g) (Z.shiftl (rgb_le10_Cr_B01 g) 2);
    Z.lor (rgb_le10_Cr_B01_ g) (Z.shiftl (rgb_le10_Cb_R02 g) 4);
    Z.lor (rgb_le10_Cb_R02_ g) (Z.shiftl (rgb_le10_Y_G02 g) 6); rgb_le10_Y_G02_ g;
    rgb_le10_Cr_B02 g; Z.lor (rgb_le10_Cr_B02_ g) (Z.shiftl (rgb_le10_Cb_R03 g) 2);
    Z.lor (rgb_le10_Cb_R03_ g) (Z.shiftl (rgb_le10_Y_G03 g) 4);
    Z.lor (rgb_le10_Y_G03_ g) (Z.shiftl (rgb_le10_Cr_B03 g) 6); rgb_le10_Cr_B03_ g].

Record st20_rfc4175_444_12_pg2_be := mk_rgb_be12 {
  rgb_be12_Cb_R00 : Z; rgb_be12_Y_G00 : Z; rgb_be12_Cb_R00_ : Z; rgb_be12_Y_G00_ : Z;
  rgb_be12_Cr_B00 : Z; rgb_be12_Cb_R01 : Z; rgb_be12_Cr_B00_ : Z; rgb_be12_Cb_R01_ : Z;
  rgb_be12_Y_G01 : Z; rgb_be12_Cr_B01 : Z; rgb_be12_Y_G01_ : Z; rgb_be12_Cr_B01_ : Z
}.

Definition get_rgb_be12 (c : bytes) : st20_rfc4175_444_12_pg2_be :=
  mk_rgb_be12
    (cell c 0) (field 0 4 (cell c 1)) (field 4 4 (cell c 1)) (cell c 2) (cell c 3)
    (field 0 4 (cell c 4)) (field 4 4 (cell c 4)) (cell c 5) (cell c 6)
    (field 0 4 (cell c 7)) (field 4 4 (cell c 7)) (cell c 8).

Definition put_rgb_be12 (g : st20_rfc4175_444_12_pg2_be) : bytes :=
  store
   [rgb_be12_Cb_R00 g; Z.lor (rgb_be12_Y_G00 g) (Z.shiftl (rgb_be12_Cb_R00_ g) 4);
    rgb_be12_Y_G00_ g; rgb_be12_Cr_B00 g;
    Z.lor (rgb_be12_Cb_R01 g) (Z.shiftl (rgb_be12_Cr_B00_ g) 4); rgb_be12_Cb_R01_ g;
    rgb_be12_Y_G01 g; Z.lor (rgb_be12_Cr_B01 g) (Z.shiftl (rgb_be12_Y_G01_ g) 4);
    rgb_be12_Cr_B01_ g].

Record st20_rfc4175_444_12_pg2_le := mk_rgb_le12 {
  rgb_le12_Cb_R00 : Z; rgb_le12_Cb_R00_ : Z; rgb_le12_Y_G00 : Z; rgb_le12_Y_G00_ : Z;
  rgb_le12_Cr_B00 : Z; rgb_le12_Cr_B00_ : Z; rgb_le12_Cb_R01 : Z; rgb_le12_Cb_R01_ : Z;
  rgb_le12_Y_G01 : Z; rgb_le12_Y_G01_ : Z; rgb_le12_Cr_B01 : Z; rgb_le12_Cr_B01_ : Z
}.

Definition get_rgb_le12 (c : bytes) : st20_rfc4175_444_12_pg2_le :=
  mk_rgb_le12
    (cell c 0) (field 0 4 (cell c 1)) (field 4 4 (cell c 1)) (cell c 2) (cell c 3)
    (field 0 4 (cell c 4)) (field 4 4 (cell c 4)) (cell c 5) (cell c 6)
    (field 0 4 (cell c 7)) (field 4 4 (cell c 7)) (cell c 8).

Definition put_rgb_le12 (g : st20_rfc4175_444_12_pg2_le) : bytes :=
  store
   [rgb_le12_Cb_R00 g; Z.lor (rgb_le12_Cb_R00_ g) (Z.shiftl (rgb_le12_Y_G00 g) 4);
    rgb_le12_Y_G00_ g; rgb_le12_Cr_B00 g;
    Z.lor (rgb_le12_Cr_B00_ g) (Z.shiftl (rgb_le12_Cb_R01 g) 4); rgb_le12_Cb_R01_ g;
    rgb_le12_Y_G01 g; Z.lor (rgb_le12_Y_G01_ g) (Z.shiftl (rgb_le12_Cr_B01 g) 4);
    rgb_le12_Cr_B01_ g].

Definition unpack_be10 (g : st20_rfc4175_422_10_pg2_be) : samples422 :=
  let cb := bf 16 (Z.shiftl (be10_Cb00 g) 2 + be10_Cb00_ g) in
  let y0 := bf 16 (Z.shiftl (be10_Y00 g) 4 + be10_Y00_ g) in
  let cr := bf 16 (Z.shiftl (be10_Cr00 g) 6 + be10_Cr00_ g) in
  let y1 := bf 16 (Z.shiftl (be10_Y01 g) 8 + be10_Y01_ g) in
  mk_s422 cb y0 cr y1.

Definition pack_be10 (s : samples422) : st20_rfc4175_422_10_pg2_be :=
  let cb := s_cb s in let y0 := s_y0 s in let cr := s_cr s in let y1 := s_y1 s in
  mk_be10
    (bf 8 (Z.shiftr cb 2)) (bf 6 (Z.shiftr y0 4)) (bf 2 cb) (bf 4 (Z.shiftr cr 6))
    (bf 4 y0) (bf 2 (Z.shiftr y1 8)) (bf 6 cr) (bf 8 y1).

Definition unpack_le10 (g : st20_rfc4175_422_10_pg2_le) : samples422 :=
  let cb := bf 16 (le10_Cb00 g + Z.shiftl (le10_Cb00_ g) 8) in
  let y0 := bf 16 (le10_Y00 g + Z.shiftl (le10_Y00_ g) 6) in
  let cr := bf 16 (le10_Cr00 g + Z.shiftl (le10_Cr00_ g) 4) in
  let y1 := bf 16 (le10_Y01 g + Z.shiftl (le10_Y01_ g) 2) in
  mk_s422 cb y0 cr y1.

Definition pack_le10 (s : samples422) : st20_rfc4175_422_10_pg2_le :=
  let cb := s_cb s in let y0 := s_y0 s in let cr := s_cr s in let y1 := s_y1 s in
  mk_le10
    (bf 8 cb) (bf 2 (Z.shiftr cb 8)) (bf 6 y0) (bf 4 (Z.shiftr y0 6)) (bf 4 cr)
    (bf 6 (Z.shiftr cr 4)) (bf 2 y1) (bf 8 (Z.shiftr y1 2)).

Definition unpack_be12 (g : st20_rfc4175_422_12_pg2_be) : samples422 :=
  let cb := bf 16 (Z.shiftl (be12_Cb00 g) 4 + be12_Cb00_ g) in
  let y0 := bf 16 (Z.shiftl (be12_Y00 g) 8 + be12_Y00_ g) in
  let cr := bf 16 (Z.shiftl (be12_Cr00 g) 4 + be12_Cr00_ g) in
  let y1 := bf 16 (Z.shiftl (be12_Y01 g) 8 + be12_Y01_ g) in
  mk_s422 cb y0 cr y1.

Definition pack_be12 (s : samples422) : st20_rfc4175_422_12_pg2_be :=
  let cb := s_cb s in let y0 := s_y0 s in let cr := s_cr s in let y1 := s_y1 s in
  mk_be12
    (bf 8 (Z.shiftr cb 4)) (bf 4 (Z.shiftr y0 8)) (bf 4 cb) (bf 8 y0)
    (bf 8 (Z.shiftr cr 4)) (bf 4 (Z.shiftr y1 8)) (bf 4 cr) (bf 8 y1).

Definition unpack_le12 (g : st20_rfc4175_422_12_pg2_le) : samples422 :=
  let cb := bf 16 (le12_Cb00 g + Z.shiftl (le12_Cb00_ g) 8) in
  let y0 := bf 16 (le12_Y00 g + Z.shiftl (le12_Y00_ g) 4) in
  let cr := bf 16 (le12_Cr00 g + Z.shiftl (le12_Cr00_ g) 8) in
  let y1 := bf 16 (le12_Y01 g + Z.shiftl (le12_Y01_ g) 4) in
  mk_s422 cb y0 cr y1.

Definition pack_le12 (s : samples422) : st20_rfc4175_422_12_pg2_le :=
  let cb := s_cb s in let y0 := s_y0 s in let cr := s_cr s in let y1 := s_y1 s in
  mk_le12
    (bf 8 cb) (bf 4 (Z.shiftr cb 8)) (bf 4 y0) (bf 8 (Z.shiftr y0 4)) (bf 8 cr)
    (bf 4 (Z.shiftr cr 8)) (bf 4 y1) (bf 8 (Z.shiftr y1 4)).

Definition unpack_rgb_be10 (g : st20_rfc4175_444_10_pg4_be) : samples444x4 :=
  let cb_r0 := bf 16 (Z.shiftl (rgb_be10_Cb_R00 g) 2 + rgb_be10_Cb_R00_ g) in
  let y_g0 := bf 16 (Z.shiftl (rgb_be10_Y_G00 g) 4 + rgb_be10_Y_G00_ g) in
  let cr_b0 := bf 16 (Z.shiftl (rgb_be10_Cr_B00 g) 6 + rgb_be10_Cr_B00_ g) in
  let cb_r1 := bf 16 (Z.shiftl (rgb_be10_Cb_R01 g) 8 + rgb_be10_Cb_R01_ g) in
  let y_g1 := bf 16 (Z.shiftl (rgb_be10_Y_G01 g) 2 + rgb_be10_Y_G01_ g) in
  let cr_b1 := bf 16 (Z.shiftl (rgb_be10_Cr_B01 g) 4 + rgb_be10_Cr_B01_ g) in
  let cb_r2 := bf 16 (Z.shiftl (rgb_be10_Cb_R02 g) 6 + rgb_be10_Cb_R02_ g) in
  let y_g2 := bf 16 (Z.shiftl (rgb_be10_Y_G02 g) 8 + rgb_be10_Y_G02_ g) in
  let cr_b2 := bf 16 (Z.shiftl (rgb_be10_Cr_B02 g) 2 + rgb_be10_Cr_B02_ g) in
  let cb_r3 := bf 16 (Z.shiftl (rgb_be10_Cb_R03 g) 4 + rgb_be10_Cb_R03_ g) in
  let y_g3 := bf 16 (Z.shiftl (rgb_be10_Y_G03 g) 6 + rgb_be10_Y_G03_ g) in
  let cr_b3 := bf 16 (Z.shiftl (rgb_be10_Cr_B03 g) 8 + rgb_be10_Cr_B03_ g) in
  mk_s444x4 cb_r0 y_g0 cr_b0 cb_r1 y_g1 cr_b1 cb_r2 y_g2 cr_b2 cb_r3 y_g3 cr_b3.

Definition pack_rgb_be10 (s : samples444x4) : st20_rfc4175_444_10_pg4_be :=
  let cb_r0 := s4_cb_r0 s in let y_g0 := s4_y_g0 s in let cr_b0 := s4_cr_b0 s in
  let cb_r1 := s4_cb_r1 s in let y_g1 := s4_y_g1 s in let cr_b1 := s4_cr_b1 s in
  let cb_r2 := s4_cb_r2 s in let y_g2 := s4_y_g2 s in let cr_b2 := s4_cr_b2 s in
  let cb_r3 := s4_cb_r3 s in let y_g3 := s4_y_g3 s in let cr_b3 := s4_cr_b3 s in
  mk_rgb_be10
    (bf 8 (Z.shiftr cb_r0 2)) (bf 6 (Z.shiftr y_g0 4)) (bf 2 cb_r0)
    (bf 4 (Z.shiftr cr_b0 6)) (bf 4 y_g0) (bf 2 (Z.shiftr cb_r1 8)) (bf 6 cr_b0)
    (bf 8 cb_r1) (bf 8 (Z.shiftr y_g1 2)) (bf 6 (Z.shiftr cr_b1 4)) (bf 2 y_g1)
    (bf 4 (Z.shiftr cb_r2 6)) (bf 4 cr_b1) (bf 2 (Z.shiftr y_g2 8)) (bf 6 cb_r2)
    (bf 8 y_g2) (bf 8 (Z.shiftr cr_b2 2)) (bf 6 (Z.shiftr cb_r3 4)) (bf 2 cr_b2)
    (bf 4 (Z.shiftr y_g3 6)) (bf 4 cb_r3) (bf 2 (Z.shiftr cr_b3 8)) (bf 6 y_g3)
    (bf 8 cr_b3).

Definition unpack_rgb_le10 (g : st20_rfc4175_444_10_pg4_le) : samples444x4 :=
  let cb_r0 := bf 16 (rgb_le10_Cb_R00 g + Z.shiftl (rgb_le10_Cb_R00_ g) 8) in
  let y_g0 := bf 16 (rgb_le10_Y_G00 g + Z.shiftl (rgb_le10_Y_G00_ g) 6) in
  let cr_b0 := bf 16 (rgb_le10_Cr_B00 g + Z.shiftl (rgb_le10_Cr_B00_ g) 4) in
  let cb_r1 := bf 16 (rgb_le10_Cb_R01 g + Z.shiftl (rgb_le10_Cb_R01_ g) 2) in
  let y_g1 := bf 16 (rgb_le10_Y_G01 g + Z.shiftl (rgb_le10_Y_G01_ g) 8) in
  let cr_b1 := bf 16 (rgb_le10_Cr_B01 g + Z.shiftl (rgb_le10_Cr_B01_ g) 6) in
  let cb_r2 := bf 16 (rgb_le10_Cb_R02 g + Z.shiftl (rgb_le10_Cb_R02_ g) 4) in
  let y_g2 := bf 16 (rgb_le10_Y_G02 g + Z.shiftl (rgb_le10_Y_G02_ g) 2) in
  let cr_b2 := bf 16 (rgb_le10_Cr_B02 g + Z.shiftl (rgb_le10_Cr_B02_ g) 8) in
  let cb_r3 := bf 16 (rgb_le10_Cb_R03 g + Z.shiftl (rgb_le10_Cb_R03_ g) 6) in
  let y_g3 := bf 16 (rgb_le10_Y_G03 g + Z.shiftl (rgb_le10_Y_G03_ g) 4) in
  let cr_b3 := bf 16 (rgb_le10_Cr_B03 g + Z.shiftl (rgb_le10_Cr_B03_ g) 2) in
  mk_s444x4 cb_r0 y_g0 cr_b0 cb_r1 y_g1 cr_b1 cb_r2 y_g2 cr_b2 cb_r3 y_g3 cr_b3.

Definition pack_rgb_le10 (s : samples444x4) : st20_rfc4175_444_10_pg4_le :=
  let cb_r0 := s4_cb_r0 s in let y_g0 := s4_y_g0 s in let cr_b0 := s4_cr_b0 s in
  let cb_r1 := s4_cb_r1 s in let y_g1 := s4_y_g1 s in let cr_b1 := s4_cr_b1 s in
  let cb_r2 := s4_cb_r2 s in let y_g2 := s4_y_g2 s in let cr_b2 := s4_cr_b2 s in
  let cb_r3 := s4_cb_r3 s in let y_g3 := s4_y_g3 s in let cr_b3 := s4_cr_b3 s in
  mk_rgb_le10
    (bf 8 cb_r0) (bf 2 (Z.shiftr cb_r0 8)) (bf 6 y_g0) (bf 4 (Z.shiftr y_g0 6))
    (bf 4 cr_b0) (bf 6 (Z.shiftr cr_b0 4)) (bf 2 cb_r1) (bf 8 (Z.shiftr cb_r1 2))
    (bf 8 y_g1) (bf 2 (Z.shiftr y_g1 8)) (bf 6 cr_b1) (bf 4 (Z.shiftr cr_b1 6))
    (bf 4 cb_r2) (bf 6 (Z.shiftr cb_r2 4)) (bf 2 y_g2) (bf 8 (Z.shiftr y_g2 2))
    (bf 8 cr_b2) (bf 2 (Z.shiftr cr_b2 8)) (bf 6 cb_r3) (bf 4 (Z.shiftr cb_r3 6))
    (bf 4 y_g3) (bf 6 (Z.shiftr y_g3 4)) (bf 2 cr_b3) (bf 8 (Z.shiftr cr_b3 2)).

Definition unpack_rgb_be12 (g : st20_rfc4175_444_12_pg2_be) : samples444x2 :=
  let cb_r0 := bf 16 (Z.shiftl (rgb_be12_Cb_R00 g) 4 + rgb_be12_Cb_R00_ g) in
  let y_g0 := bf 16 (Z.shiftl (rgb_be12_Y_G00 g) 8 + rgb_be12_Y_G00_ g) in
  let cr_b0 := bf 16 (Z.shiftl (rgb_be12_Cr_B00 g) 4 + rgb_be12_Cr_B00_ g) in
  let cb_r1 := bf 16 (Z.shiftl (rgb_be12_Cb_R01 g) 8 + rgb_be12_Cb_R01_ g) in
  let y_g1 := bf 16 (Z.shiftl (rgb_be12_Y_G01 g) 4 + rgb_be12_Y_G01_ g) in
  let cr_b1 := bf 16 (Z.shiftl (rgb_be12_Cr_B01 g) 8 + rgb_be12_Cr_B01_ g) in
  mk_s444x2 cb_r0 y_g0 cr_b0 cb_r1 y_g1 cr_b1.

Definition pack_rgb_be12 (s : samples444x2) : st20_rfc4175_444_12_pg2_be :=
  let cb_r0 := s2_cb_r0 s in let y_g0 := s2_y_g0 s in let cr_b0 := s2_cr_b0 s in
  let cb_r1 := s2_cb_r1 s in let y_g1 := s2_y_g1 s in let cr_b1 := s2_cr_b1 s in
  mk_rgb_be12
    (bf 8 (Z.shiftr cb_r0 4)) (bf 4 (Z.shiftr y_g0 8)) (bf 4 cb_r0) (bf 8 y_g0)
    (bf 8 (Z.shiftr cr_b0 4)) (bf 4 (Z.shiftr cb_r1 8)) (bf 4 cr_b0) (bf 8 cb_r1)
    (bf 8 (Z.shiftr y_g1 4)) (bf 4 (Z.shiftr cr_b1 8)) (bf 4 y_g1) (bf 8 cr_b1).

Definition unpack_rgb_le12 (g : st20_rfc4175_444_12_pg2_le) : samples444x2 :=
  let cb_r0 := bf 16 (rgb_le12_Cb_R00 g + Z.shiftl (rgb_le12_Cb_R00_ g) 8) in
  let y_g0 := bf 16 (rgb_le12_Y_G00 g + Z.shiftl (rgb_le12_Y_G00_ g) 4) in
  let cr_b0 := bf 16 (rgb_le12_Cr_B00 g + Z.shiftl (rgb_le12_Cr_B00_ g) 8) in
  let cb_r1 := bf 16 (rgb_le12_Cb_R01 g + Z.shiftl (rgb_le12_Cb_R01_ g) 4) in
  let y_g1 := bf 16 (rgb_le12_Y_G01 g + Z.shiftl (rgb_le12_Y_G01_ g) 8) in
  let cr_b1 := bf 16 (rgb_le12_Cr_B01 g + Z.shiftl (rgb_le12_Cr_B01_ g) 4) in
  mk_s444x2 cb_r0 y_g0 cr_b0 cb_r1 y_g1 cr_b1.

Definition pack_rgb_le12 (s : samples444x2) : st20_rfc4175_444_12_pg2_le :=
  let cb_r0 := s2_cb_r0 s in let y_g0 := s2_y_g0 s in let cr_b0 := s2_cr_b0 s in
  let cb_r1 := s2_cb_r1 s in let y_g1 := s2_y_g1 s in let cr_b1 := s2_cr_b1 s in
  mk_rgb_le12
    (bf 8 cb_r0) (bf 4 (Z.shiftr cb_r0 8)) (bf 4 y_g0) (bf 8 (Z.shiftr y_g0 4))
    (bf 8 cr_b0) (bf 4 (Z.shiftr cr_b0 8)) (bf 4 cb_r1) (bf 8 (Z.shiftr cb_r1 4))
    (bf 8 y_g1) (bf 4 (Z.shiftr y_g1 8)) (bf 4 cr_b1) (bf 8 (Z.shiftr cr_b1 4)).

(** *** V210 *)

Definition le10_to_v210 (c : bytes) : bytes :=
  store
   [cell c 0;
    cell c 1;
    cell c 2;
    Z.land (cell c 3) 0x3F;
    Z.lor (Z.shiftr (cell c 3) 6) (Z.shiftl (cell c 4) 2);
    Z.lor (Z.shiftr (cell c 4) 6) (Z.shiftl (cell c 5) 2);
    Z.lor (Z.shiftr (cell c 5) 6) (Z.shiftl (cell c 6) 2);
    Z.land (Z.lor (Z.shiftr (cell c 6) 6) (Z.shiftl (cell c 7) 2)) 0x3F;
    Z.lor (Z.shiftr (cell c 7) 4) (Z.shiftl (cell c 8) 4);
    Z.lor (Z.shiftr (cell c 8) 4) (Z.shiftl (cell c 9) 4);
    Z.lor (Z.shiftr (cell c 9) 4) (Z.shiftl (cell c 10) 4);
    Z.land (Z.lor (Z.shiftr (cell c 10) 4) (Z.shiftl (cell c 11) 4)) 0x3F;
    Z.lor (Z.shiftr (cell c 11) 2) (Z.shiftl (cell c 12) 6);
    Z.lor (Z.shiftr (cell c 12) 2) (Z.shiftl (cell c 13) 6);
    Z.lor (Z.shiftr (cell c 13) 2) (Z.shiftl (cell c 14) 6);
    Z.shiftr (cell c 14) 2].

Definition be10_to_v210 (c : bytes) : bytes :=
  store
   [Z.lor (Z.shiftl (cell c 0) 2) (Z.shiftr (cell c 1) 6);
    Z.lor (Z.lor (Z.shiftr (cell c 0) 6) (Z.shiftl (cell c 1) 6)) (Z.land (Z.shiftr (cell c 2) 2) 0x3C);
    Z.lor (Z.land (Z.shiftr (cell c 1) 2) 0x0F) (Z.land (Z.shiftl (cell c 3) 2) 0xF0);
    Z.land (Z.lor (Z.shiftl (cell c 2) 2) (Z.shiftr (cell c 3) 6)) 0x3F;
    cell c 4;
    Z.lor (Z.lor (Z.shiftl (cell c 5) 4) (Z.land (Z.shiftr (cell c 6) 4) 0x0C)) (Z.land (cell c 3) 0x03);
    Z.lor (Z.shiftr (cell c 5) 4) (Z.land (cell c 7) 0xF0);
    Z.land (cell c 6) 0x3F;
    Z.lor (Z.shiftl (cell c 7) 6) (Z.shiftr (cell c 8) 2);
    Z.lor (Z.land (Z.shiftr (cell c 7) 2) 0x03) (Z.shiftl (cell c 9) 2);
    Z.lor (Z.lor (Z.lor (Z.land (Z.shiftl (cell c 8) 2) 0x0C) (Z.shiftr (cell c 9) 6)) (Z.shiftl (cell c 10) 6)) (Z.land (Z.shiftr (cell c 11) 2) 0x30);
    Z.shiftr (cell c 10) 2;
    Z.lor (Z.shiftr (cell c 12) 4) (Z.shiftl (cell c 11) 4);
    Z.lor (Z.land (Z.shiftr (cell c 11) 4) 0x03) (Z.land (cell c 13) 0xFC);
    Z.lor (Z.land (cell c 12) 0x0F) (Z.shiftl (cell c 14) 4);
    Z.land (Z.lor (Z.shiftr (cell c 14) 4) (Z.shiftl (cell c 13) 4)) 0x3F].

Definition v210_to_be10 (c : bytes) : bytes :=
  store
   [Z.lor (Z.shiftl (cell c 1) 6) (Z.shiftr (cell c 0) 2);
    Z.lor (Z.lor (Z.shiftl (cell c 0) 6) (Z.land (Z.shiftl (cell c 2) 2) 0x3C)) (Z.shiftr (cell c 1) 6);
    Z.lor (Z.land (Z.shiftl (cell c 1) 2) 0xF0) (Z.land (Z.shiftr (cell c 3) 2) 0x0F);
    Z.lor (Z.lor (Z.land (cell c 5) 0x03) (Z.land (Z.shiftr (cell c 2) 2) 0x3C)) (Z.shiftl (cell c 3) 6);
    cell c 4;
    Z.lor (Z.shiftl (cell c 6) 4) (Z.shiftr (cell c 5) 4);
    Z.lor (Z.land (Z.shiftl (cell c 5) 4) 0xC0) (Z.land (cell c 7) 0x3F);
    Z.lor (Z.lor (Z.land (cell c 6) 0xF0) (Z.land (Z.shiftl (cell c 9) 2) 0x0C)) (Z.shiftr (cell c 8) 6);
    Z.lor (Z.shiftl (cell c 8) 2) (Z.land (Z.shiftr (cell c 10) 2) 0x3);
    Z.lor (Z.shiftl (cell c 10) 6) (Z.shiftr (cell c 9) 2);
    Z.lor (Z.shiftl (cell c 11) 2) (Z.shiftr (cell c 10) 6);
    Z.lor (Z.lor (Z.land (Z.shiftl (cell c 10) 2) 0xC0) (Z.land (Z.shiftl (cell c 13) 4) 0x30)) (Z.shiftr (cell c 12) 4);
    Z.lor (Z.shiftl (cell c 12) 4) (Z.land (cell c 14) 0x0F);
    Z.lor (Z.land (cell c 13) 0xFC) (Z.land (Z.shiftr (cell c 15) 4) 0x03);
    Z.lor (Z.shiftl (cell c 15) 4) (Z.shiftr (cell c 14) 4)].

(** *** Groups that are not structures of their own *)

(** [st20_unpack_pg2be_422le16]: ten bits in the upper part of sixteen. *)
Definition st20_unpack_pg2be_422le16 (g : st20_rfc4175_422_10_pg2_be) : samples422 :=
  let cb := bf 16 (Z.shiftl (be10_Cb00 g) 8 + Z.shiftl (be10_Cb00_ g) 6) in
  let y0 := bf 16 (Z.shiftl (be10_Y00 g) 10 + Z.shiftl (be10_Y00_ g) 6) in
  let cr := bf 16 (Z.shiftl (be10_Cr00 g) 12 + Z.shiftl (be10_Cr00_ g) 6) in
  let y1 := bf 16 (Z.shiftl (be10_Y01 g) 14 + Z.shiftl (be10_Y01_ g) 6) in
  mk_s422 cb y0 cr y1.

Definition pack16_be10 (s : samples422) : st20_rfc4175_422_10_pg2_be :=
  let cb := s_cb s in let y0 := s_y0 s in let cr := s_cr s in let y1 := s_y1 s in
  mk_be10
    (bf 8 (Z.shiftr cb 8)) (bf 6 (Z.shiftr y0 10)) (bf 2 (Z.shiftr cb 6)) (bf 4 (Z.shiftr cr 12))
    (bf 4 (Z.shiftr y0 6)) (bf 2 (Z.shiftr y1 14)) (bf 6 (Z.shiftr cr 6)) (bf 8 (Z.shiftr y1 6)).

(** The Y210 group: Y0 Cb Y1 Cr as [uint16_t]. *)
Definition put_y210 (g : st20_rfc4175_422_10_pg2_be) : bytes :=
  st16 (Z.shiftl (be10_Y00 g) 10 + Z.shiftl (be10_Y00_ g) 6) ++
  st16 (Z.shiftl (be10_Cb00 g) 8 + Z.shiftl (be10_Cb00_ g) 6) ++
  st16 (Z.shiftl (be10_Y01 g) 14 + Z.shiftl (be10_Y01_ g) 6) ++
  st16 (Z.shiftl (be10_Cr00 g) 12 + Z.shiftl (be10_Cr00_ g) 6).

Definition get_y210 (c : bytes) : st20_rfc4175_422_10_pg2_be :=
  let y0 := ld16 c 0 in let cb := ld16 c 2 in let y1 := ld16 c 4 in let cr := ld16 c 6 in
  mk_be10
    (bf 8 (Z.shiftr cb 8)) (bf 6 (Z.shiftr y0 10)) (bf 2 (Z.land (Z.shiftr cb 6) 0x3))
    (bf 4 (Z.shiftr cr 12)) (bf 4 (Z.land (Z.shiftr y0 6) 0xF)) (bf 2 (Z.shiftr y1 14))
    (bf 6 (Z.land (Z.shiftr cr 6) 0x3F)) (bf 8 (Z.land (Z.shiftr y1 6) 0xFF)).

(** The 8-bit group [st20_rfc4175_422_8_pg2_le]: the upper eight bits of each sample. *)
Definition put_422le8 (g : st20_rfc4175_422_10_pg2_be) : bytes :=
  store
   [be10_Cb00 g; Z.shiftl (be10_Y00 g) 2 + Z.shiftr (be10_Y00_ g) 2;
    Z.shiftl (be10_Cr00 g) 4 + Z.shiftr (be10_Cr00_ g) 2;
    Z.shiftl (be10_Y01 g) 6 + Z.shiftr (be10_Y01_ g) 2].

(** *** Planes: Y (or G) first, then Cb (R), then Cr (B) *)

Definition plane (c : list bytes) (i : nat) : bytes := default [] (c !! i).

Definition put_p422 (s : samples422) : list bytes :=
  [st16 (s_y0 s) ++ st16 (s_y1 s); st16 (s_cb s); st16 (s_cr s)].
Definition get_p422 (c : list bytes) : samples422 :=
  mk_s422 (ld16 (plane c 1) 0) (ld16 (plane c 0) 0) (ld16 (plane c 2) 0) (ld16 (plane c 0) 2).

Definition put_p444x2 (s : samples444x2) : list bytes :=
  [st16 (s2_y_g0 s) ++ st16 (s2_y_g1 s); st16 (s2_cb_r0 s) ++ st16 (s2_cb_r1 s);
   st16 (s2_cr_b0 s) ++ st16 (s2_cr_b1 s)].
Definition get_p444x2 (c : list bytes) : samples444x2 :=
  let y_g := plane c 0 in let b_r := plane c 1 in let r_b := plane c 2 in
  mk_s444x2 (ld16 b_r 0) (ld16 y_g 0) (ld16 r_b 0) (ld16 b_r 2) (ld16 y_g 2) (ld16 r_b 2).

Definition put_p444x4 (s : samples444x4) : list bytes :=
  [st16 (s4_y_g0 s) ++ st16 (s4_y_g1 s) ++ st16 (s4_y_g2 s) ++ st16 (s4_y_g3 s);
   st16 (s4_cb_r0 s) ++ st16 (s4_cb_r1 s) ++ st16 (s4_cb_r2 s) ++ st16 (s4_cb_r3 s);
   st16 (s4_cr_b0 s) ++ st16 (s4_cr_b1 s) ++ st16 (s4_cr_b2 s) ++ st16 (s4_cr_b3 s)].
Definition get_p444x4 (c : list bytes) : samples444x4 :=
  let y_g := plane c 0 in let b_r := plane c 1 in let r_b := plane c 2 in
  mk_s444x4 (ld16 b_r 0) (ld16 y_g 0) (ld16 r_b 0) (ld16 b_r 2) (ld16 y_g 2) (ld16 r_b 2)
    (ld16 b_r 4) (ld16 y_g 4) (ld16 r_b 4) (ld16 b_r 6) (ld16 y_g 6) (ld16 r_b 6).

Definition p8_y0 (g : st20_rfc4175_422_10_pg2_be) : Z := Z.lor (Z.shiftl (be10_Y00 g) 2) (Z.shiftr (be10_Y00_ g) 2).
Definition p8_y1 (g : st20_rfc4175_422_10_pg2_be) : Z := Z.lor (Z.shiftl (be10_Y01 g) 6) (Z.shiftr (be10_Y01_ g) 2).
Definition p8_cr (g : st20_rfc4175_422_10_pg2_be) : Z := Z.lor (Z.shiftl (be10_Cr00 g) 4) (Z.shiftr (be10_Cr00_ g) 2).

Definition put_p8 (g : st20_rfc4175_422_10_pg2_be) : list bytes :=
  [store [p8_y0 g; p8_y1 g]; store [be10_Cb00 g]; store [p8_cr g]].

(** ** The loop over pixel groups

    [si] and [so] are the bytes a group has in each plane of the source and of the
    destination; [f] is the body of the loop on the bytes of one group. *)

Definition split_groups (sizes : list nat) (bs : list bytes) : option (list bytes * list bytes) :=
  if bool_decide (Forall2 (fun s b => (s <= length b)%nat) sizes bs)
  then Some (zip_with take sizes bs, zip_with drop sizes bs) else None.

Fixpoint group_loop (si so : list nat) (f : list bytes -> list bytes) (cnt : nat)
    (src dst : list bytes) : option (list bytes) :=
  match cnt with
  | O => Some dst
  | S n =>
      match split_groups si src, split_groups so dst with
      | Some (c, src'), Some (_, dst') => zip_with app (f c) <$> group_loop si so f n src' dst'
      | _, _ => None
      end
  end.

(** A conversion: width and height, the source and the destination; the return value
    and the destination afterwards. *)
Definition conv := Z -> Z -> list bytes -> list bytes -> option (Z * list bytes).

Definition group_conv (pixels : Z) (si so : list nat) (f : list bytes -> list bytes) : conv :=
  fun w h src dst =>
    (fun d => (0, d)) <$> group_loop si so f (Z.to_nat (u32 (w * h) / pixels)) src dst.

(** The V210 routines work on three groups of two pixels at a time and refuse a rest. *)
Definition v210_conv (si so : list nat) (f : list bytes -> list bytes) : conv :=
  fun w h src dst =>
    let pg_count := u32 (w * h) / 2 in
    if negb (pg_count mod 3 =? 0) then Some (- EINVAL, dst)
    else
      let batch := pg_count / 3 in
      (fun d => (0, d)) <$> group_loop si so f (Z.to_nat batch) src dst.

(** ** The routines *)

Definition st20_rfc4175_422be10_to_yuv422p16le_scalar : conv :=
  group_conv 2 [5]%nat [4; 2; 2]%nat (fun c => put_p422 (st20_unpack_pg2be_422le16 (get_be10 (plane c 0)))).
Definition st20_yuv422p16le_to_rfc4175_422be10_scalar : conv :=
  group_conv 2 [4; 2; 2]%nat [5]%nat (fun c => [put_be10 (pack16_be10 (get_p422 c))]).
Definition st20_yuv422p10le_to_rfc4175_422be10_scalar : conv :=
  group_conv 2 [4; 2; 2]%nat [5]%nat (fun c => [put_be10 (pack_be10 (get_p422 c))]).
Definition st20_rfc4175_422be10_to_yuv422p10le_scalar : conv :=
  group_conv 2 [5]%nat [4; 2; 2]%nat (fun c => put_p422 (unpack_be10 (get_be10 (plane c 0)))).
Definition st20_yuv422p10le_to_rfc4175_422le10 : conv :=
  group_conv 2 [4; 2; 2]%nat [5]%nat (fun c => [put_le10 (pack_le10 (get_p422 c))]).
Definition st20_rfc4175_422le10_to_yuv422p10le : conv :=
  group_conv 2 [5]%nat [4; 2; 2]%nat (fun c => put_p422 (unpack_le10 (get_le10 (plane c 0)))).
Definition st20_rfc4175_422be10_to_422le10_scalar : conv :=
  group_conv 2 [5]%nat [5]%nat (fun c => [put_le10 (pack_le10 (unpack_be10 (get_be10 (plane c 0))))]).
Definition st20_rfc4175_422le10_to_422be10_scalar : conv :=
  group_conv 2 [5]%nat [5]%nat (fun c => [put_be10 (pack_be10 (unpack_le10 (get_le10 (plane c 0))))]).
Definition st20_rfc4175_422be10_to_422le8_scalar : conv :=
  group_conv 2 [5]%nat [4]%nat (fun c => [put_422le8 (get_be10 (plane c 0))]).
Definition st20_rfc4175_422be10_to_yuv422p8_scalar : conv :=
  group_conv 2 [5]%nat [2; 1; 1]%nat (fun c => put_p8 (get_be10 (plane c 0))).

(** One turn converts two lines; the chroma of the second line is dropped. *)
Definition yuv420p8_lines (line_pg_cnt : nat) (c : list bytes) : list bytes :=
  let pg j := get_be10 (take 5 (drop (5 * j) (plane c 0))) in
  [concat ((fun j => store [p8_y0 (pg j); p8_y1 (pg j)]) <$> seq 0 (2 * line_pg_cnt));
   concat ((fun j => store [be10_Cb00 (pg j)]) <$> seq 0 line_pg_cnt);
   concat ((fun j => store [p8_cr (pg j)]) <$> seq 0 line_pg_cnt)].
Definition st20_rfc4175_422be10_to_yuv420p8_scalar : conv := fun w h src dst =>
  let line_pg_cnt := Z.to_nat (w / 2) in
  (fun d => (0, d)) <$>
    group_loop [2 * (line_pg_cnt * 5)]%nat [2 * (line_pg_cnt * 2); line_pg_cnt; line_pg_cnt]%nat
      (yuv420p8_lines line_pg_cnt) (Z.to_nat (h / 2)) src dst.

Definition st20_rfc4175_422le10_to_v210_scalar : conv :=
  v210_conv [15]%nat [16]%nat (fun c => [le10_to_v210 (plane c 0)]).
Definition st20_rfc4175_422be10_to_v210_scalar : conv :=
  v210_conv [15]%nat [16]%nat (fun c => [be10_to_v210 (plane c 0)]).
Definition st20_v210_to_rfc4175_422be10_scalar : conv :=
  v210_conv [16]%nat [15]%nat (fun c => [v210_to_be10 (plane c 0)]).
Definition st20_rfc4175_422be10_to_y210_scalar : conv :=
  group_conv 2 [5]%nat [8]%nat (fun c => [put_y210 (get_be10 (plane c 0))]).
Definition st20_y210_to_rfc4175_422be10_scalar : conv :=
  group_conv 2 [8]%nat [5]%nat (fun c => [put_be10 (get_y210 (plane c 0))]).

Definition st20_yuv422p12le_to_rfc4175_422be12_scalar : conv :=
  group_conv 2 [4; 2; 2]%nat [6]%nat (fun c => [put_be12 (pack_be12 (get_p422 c))]).
Definition st20_rfc4175_422be12_to_yuv422p12le_scalar : conv :=
  group_conv 2 [6]%nat [4; 2; 2]%nat (fun c => put_p422 (unpack_be12 (get_be12 (plane c 0)))).
Definition st20_yuv422p12le_to_rfc4175_422le12 : conv :=
  group_conv 2 [4; 2; 2]%nat [6]%nat (fun c => [put_le12 (pack_le12 (get_p422 c))]).
Definition st20_rfc4175_422le12_to_yuv422p12le : conv :=
  group_conv 2 [6]%nat [4; 2; 2]%nat (fun c => put_p422 (unpack_le12 (get_le12 (plane c 0)))).
Definition st20_rfc4175_422be12_to_422le12_scalar : conv :=
  group_conv 2 [6]%nat [6]%nat (fun c => [put_le12 (pack_le12 (unpack_be12 (get_be12 (plane c 0))))]).
Definition st20_rfc4175_422le12_to_422be12_scalar : conv :=
  group_conv 2 [6]%nat [6]%nat (fun c => [put_be12 (pack_be12 (unpack_le12 (get_le12 (plane c 0))))]).

Definition st20_444p10le_to_rfc4175_444be10_scalar : conv :=
  group_conv 4 [8; 8; 8]%nat [15]%nat (fun c => [put_rgb_be10 (pack_rgb_be10 (get_p444x4 c))]).
Definition st20_rfc4175_444be10_to_444p10le_scalar : conv :=
  group_conv 4 [15]%nat [8; 8; 8]%nat (fun c => put_p444x4 (unpack_rgb_be10 (get_rgb_be10 (plane c 0)))).
Definition st20_444p10le_to_rfc4175_444le10 : conv :=
  group_conv 4 [8; 8; 8]%nat [15]%nat (fun c => [put_rgb_le10 (pack_rgb_le10 (get_p444x4 c))]).
Definition st20_rfc4175_444le10_to_444p10le : conv :=
  group_conv 4 [15]%nat [8; 8; 8]%nat (fun c => put_p444x4 (unpack_rgb_le10 (get_rgb_le10 (plane c 0)))).
Definition st20_rfc4175_444be10_to_444le10_scalar : conv :=
  group_conv 4 [15]%nat [15]%nat
    (fun c => [put_rgb_le10 (pack_rgb_le10 (unpack_rgb_be10 (get_rgb_be10 (plane c 0))))]).
Definition st20_rfc4175_444le10_to_444be10_scalar : conv :=
  group_conv 4 [15]%nat [15]%nat
    (fun c => [put_rgb_be10 (pack_rgb_be10 (unpack_rgb_le10 (get_rgb_le10 (plane c 0))))]).
Definition st20_444p12le_to_rfc4175_444be12_scalar : conv :=
  group_conv 2 [4; 4; 4]%nat [9]%nat (fun c => [put_rgb_be12 (pack_rgb_be12 (get_p444x2 c))]).
Definition st20_rfc4175_444be12_to_444p12le_scalar : conv :=
  group_conv 2 [9]%nat [4; 4; 4]%nat (fun c => put_p444x2 (unpack_rgb_be12 (get_rgb_be12 (plane c 0)))).
Definition st20_444p12le_to_rfc4175_444le12 : conv :=
  group_conv 2 [4; 4; 4]%nat [9]%nat (fun c => [put_rgb_le12 (pack_rgb_le12 (get_p444x2 c))]).
Definition st20_rfc4175_444le12_to_444p12le : conv :=
  group_conv 2 [9]%nat [4; 4; 4]%nat (fun c => put_p444x2 (unpack_rgb_le12 (get_rgb_le12 (plane c 0)))).
Definition st20_rfc4175_444be12_to_444le12_scalar : conv :=
  group_conv 2 [9]%nat [9]%nat
    (fun c => [put_rgb_le12 (pack_rgb_le12 (unpack_rgb_be12 (get_rgb_be12 (plane c 0))))]).
Definition st20_rfc4175_444le12_to_444be12_scalar : conv :=
  group_conv 2 [9]%nat [9]%nat
    (fun c => [put_rgb_be12 (pack_rgb_be12 (unpack_rgb_le12 (get_rgb_le12 (plane c 0))))]).

(** ** AES3 and AM824 audio *)

Record st31_am824 := mk_am824 {
  am_v : Z; am_u : Z; am_c : Z; am_p : Z; am_f : Z; am_b : Z; am_unused : Z;
  am_data0 : Z; am_data1 : Z; am_data2 : Z
}.
Definition get_am824 (c : bytes) : st31_am824 :=
  mk_am824 (field 0 1 (cell c 0)) (field 1 1 (cell c 0)) (field 2 1 (cell c 0)) (field 3 1 (cell c 0))
    (field 4 1 (cell c 0)) (field 5 1 (cell c 0)) (field 6 2 (cell c 0))
    (cell c 1) (cell c 2) (cell c 3).
Definition put_am824 (g : st31_am824) : bytes :=
  store
   [Z.lor (am_v g) (Z.lor (Z.shiftl (am_u g) 1) (Z.lor (Z.shiftl (am_c g) 2) (Z.lor (Z.shiftl (am_p g) 3)
      (Z.lor (Z.shiftl (am_f g) 4) (Z.lor (Z.shiftl (am_b g) 5) (Z.shiftl (am_unused g) 6))))));
    am_data0 g; am_data1 g; am_data2 g].

Record st31_aes3 := mk_aes3 {
  ae_preamble : Z; ae_data_0 : Z; ae_data_1 : Z; ae_data_2 : Z; ae_v : Z; ae_u : Z; ae_c : Z; ae_p : Z
}.
Definition get_aes3 (c : bytes) : st31_aes3 :=
  mk_aes3 (field 0 4 (cell c 0)) (field 4 4 (cell c 0)) (ld16 c 1) (field 0 4 (cell c 3))
    (field 4 1 (cell c 3)) (field 5 1 (cell c 3)) (field 6 1 (cell c 3)) (field 7 1 (cell c 3)).
Definition put_aes3 (g : st31_aes3) : bytes :=
  store [Z.lor (ae_preamble g) (Z.shiftl (ae_data_0 g) 4)] ++ st16 (ae_data_1 g) ++
  store [Z.lor (ae_data_2 g) (Z.lor (Z.shiftl (ae_v g) 4) (Z.lor (Z.shiftl (ae_u g) 5)
           (Z.lor (Z.shiftl (ae_c g) 6) (Z.shiftl (ae_p g) 7))))].

Definition am824_to_aes3 (a : st31_am824) : st31_aes3 :=
  let preamble := if c_true (am_b a) then 0x2 else if c_true (am_f a) then 0x0 else 0x1 in
  mk_aes3 preamble (bf 4 (am_data0 a))
    (bf 16 (Z.lor (Z.lor (Z.shiftr (am_data0 a) 4) (Z.shiftl (am_data1 a) 4)) (Z.shiftl (am_data2 a) 12)))
    (bf 4 (Z.shiftr (am_data2 a) 4)) (am_v a) (am_u a) (am_c a) (am_p a).
Definition aes3_to_am824 (e : st31_aes3) : st31_am824 :=
  let '(b, f) := if ae_preamble e =? 0x2 then (1, 1) else if ae_preamble e =? 0x0 then (0, 1) else (0, 0) in
  mk_am824 (ae_v e) (ae_u e) (ae_c e) (ae_p e) f b 0
    (bf 8 (Z.lor (ae_data_0 e) (Z.shiftl (ae_data_1 e) 4))) (bf 8 (Z.shiftr (ae_data_1 e) 4))
    (bf 8 (Z.lor (Z.shiftl (ae_data_2 e) 4) (Z.shiftr (ae_data_1 e) 12))).

Definition st31_am824_to_aes3 (subframes : Z) (src dst : list bytes) : option (Z * list bytes) :=
  (fun d => (0, d)) <$>
    group_loop [4]%nat [4]%nat (fun c => [put_aes3 (am824_to_aes3 (get_am824 (plane c 0)))]) (Z.to_nat subframes) src dst.
Definition st31_aes3_to_am824 (subframes : Z) (src dst : list bytes) : option (Z * list bytes) :=
  (fun d => (0, d)) <$>
    group_loop [4]%nat [4]%nat (fun c => [put_am824 (aes3_to_am824 (get_aes3 (plane c 0)))]) (Z.to_nat subframes) src dst.

(** ** Buffers of whole groups *)

(** Every plane has exactly the bytes of [n] groups. *)
Definition holds (sizes : list nat) (n : nat) (bs : list bytes) : Prop :=
  Forall2 (fun s b => length b = (n * s)%nat) sizes bs.

(** What the loop writes, as a function of what it reads. *)
Fixpoint group_map (si so : list nat) (f : list bytes -> list bytes) (n : nat) (src : list bytes) : list bytes :=
  match n with
  | O => replicate (length so) []
  | S n => zip_with app (f (zip_with take si src)) (group_map si so f n (zip_with drop si src))
  end.

Lemma holds_split sizes n bs : holds sizes (S n) bs ->
  split_groups sizes bs = Some (zip_with take sizes bs, zip_with drop sizes bs) /\
  holds sizes 1 (zip_with take sizes bs) /\ holds sizes n (zip_with drop sizes bs).
Proof.
  intros H. split.
  - unfold split_groups. rewrite bool_decide_eq_true_2; [done|].
    eapply Forall2_impl; [exact H|]. cbn. lia.
  - split; induction H as [|s b sizes' bs' Hb _ IH]; constructor; try exact IH.
    + rewrite length_take. lia.
    + rewrite length_drop. lia.
Qed.

Lemma holds_app sizes n c r : holds sizes 1 c -> holds sizes n r ->
  holds sizes (S n) (zip_with app c r) /\
  zip_with take sizes (zip_with app c r) = c /\ zip_with drop sizes (zip_with app c r) = r.
Proof.
  intros Hc. revert r. induction Hc as [|s b sizes' bs' Hb _ IH]; intros r Hr.
  { inversion Hr; subst. by repeat split; constructor. }
  inversion Hr as [|? b' ? r' Hb' Hr']; subst. destruct (IH r' Hr') as (H1 & H2 & H3).
  cbn [zip_with]. rewrite Nat.mul_1_l in Hb. split.
  - constructor; [|exact H1]. rewrite length_app. lia.
  - cbn [zip_with]. rewrite H2, H3, <- Hb, take_app_length, drop_app_length. done.
Qed.

Lemma holds_join sizes n bs : holds sizes n bs ->
  zip_with app (zip_with take sizes bs) (zip_with drop sizes bs) = bs.
Proof. induction 1 as [|s b sizes' bs' _ _ IH]; cbn; [done|]. by rewrite take_drop, IH. Qed.

Lemma holds_nil sizes bs : holds sizes 0 bs <-> bs = replicate (length sizes) [].
Proof.
  split.
  - induction 1 as [|s b ? ? Hb _ IH]; cbn; [done|]. rewrite IH. by apply nil_length_inv in Hb as ->.
  - intros ->. induction sizes; constructor; done.
Qed.

(** A property of planes that the groups of a plane inherit. *)
Definition splits_along (P : bytes -> Prop) (sizes : list nat) : Prop :=
  Forall (fun s => forall b, P b -> P (take s b) /\ P (drop s b)) sizes.

Lemma bytes_split sizes : splits_along is_bytes sizes.
Proof. apply Forall_true. intros s b Hb. split; [by apply Forall_take|by apply Forall_drop]. Qed.

Section GroupMap.
Context (si so : list nat) (f : list bytes -> list bytes).
Hypothesis f_len : forall c, holds si 1 c -> holds so 1 (f c).

Lemma group_map_holds n src : holds si n src -> holds so n (group_map si so f n src).
Proof.
  revert src. induction n as [|n IH]; intros src H; cbn [group_map]; [by apply holds_nil|].
  destruct (holds_split _ _ _ H) as (_ & H1 & H2).
  by apply holds_app; [apply f_len|apply IH].
Qed.

(** The loop writes exactly that, whatever was in the destination. *)
Lemma group_loop_map n src dst : holds si n src -> holds so n dst ->
  group_loop si so f n src dst = Some (group_map si so f n src).
Proof.
  revert src dst. induction n as [|n IH]; intros src dst Hs Hd; cbn [group_loop group_map].
  { by apply holds_nil in Hd as ->. }
  destruct (holds_split _ _ _ Hs) as (-> & _ & H2). destruct (holds_split _ _ _ Hd) as (-> & _ & H4).
  by rewrite (IH _ _ H2 H4).
Qed.

(** Bodies that agree on the groups of a buffer with the property [P]. *)
Lemma group_map_ext (P : bytes -> Prop) g n src : splits_along P si ->
  holds si n src -> Forall P src ->
  (forall c, holds si 1 c -> Forall P c -> f c = g c) ->
  group_map si so f n src = group_map si so g n src.
Proof.
  intros HP Hs Hb Hfg. revert src Hs Hb. induction n as [|n IH]; intros src Hs Hb; cbn [group_map]; [done|].
  destruct (holds_split _ _ _ Hs) as (_ & H1 & H2).
  assert (Forall P (zip_with take si src) /\ Forall P (zip_with drop si src)) as [Hb1 Hb2].
  { clear -Hs Hb HP. induction Hs as [|s b si' src' _ _ IHs]; [done|].
    apply Forall_cons in HP as [Hp HP]. apply Forall_cons in Hb as [Hb0 Hb].
    destruct (IHs HP Hb). destruct (Hp b Hb0). cbn. split; by constructor. }
  f_equal; [by apply Hfg|by apply IH].
Qed.

(** Two loops in a row are one. *)
Lemma group_map_comp su g n src : holds si n src ->
  group_map so su g n (group_map si so f n src) = group_map si su (fun c => g (f c)) n src.
Proof.
  revert src. induction n as [|n IH]; intros src H; cbn [group_map]; [done|].
  destruct (holds_split _ _ _ H) as (_ & H1 & H2).
  destruct (holds_app so n (f (zip_with take si src)) (group_map si so f n (zip_with drop si src)))
    as (_ & -> & ->); [by apply f_len|by apply group_map_holds|]. by rewrite IH.
Qed.
End GroupMap.

Lemma group_map_id si n src : holds si n src -> group_map si si (fun c => c) n src = src.
Proof.
  revert src. induction n as [|n IH]; intros src H; cbn [group_map].
  { by apply holds_nil in H as ->. }
  destruct (holds_split _ _ _ H) as (_ & H1 & H2). rewrite IH by done. by eapply holds_join.
Qed.

(** A loop and one that undoes its body give back the buffer. *)
Lemma group_loop_lossless (P : bytes -> Prop) si so f g n src dst back : splits_along P si ->
  (forall c, holds si 1 c -> holds so 1 (f c)) -> (forall c, holds so 1 c -> holds si 1 (g c)) ->
  (forall c, holds si 1 c -> Forall P c -> g (f c) = c) ->
  holds si n src -> holds so n dst -> holds si n back -> Forall P src ->
  exists d, group_loop si so f n src dst = Some d /\ holds so n d /\
            group_loop so si g n d back = Some src.
Proof.
  intros HP Hf Hg Hgf Hs Hd Hk Hb. exists (group_map si so f n src).
  pose proof (group_map_holds _ _ _ Hf n src Hs) as Hm.
  split; [by apply group_loop_map|]. split; [done|]. rewrite group_loop_map by done.
  rewrite group_map_comp by done. f_equal.
  rewrite (group_map_ext si si _ P (fun c => c)) by done. by apply group_map_id.
Qed.

(** Planes of little-endian [uint16_t] samples of at most [bits] bits. *)
Definition is_bits (w : nat) (b : Z) : Prop := 0 <= b < 2 ^ Z.of_nat w.
Fixpoint is_samples (bits : nat) (p : bytes) : Prop :=
  match p with
  | [] => True
  | [_] => False
  | lo :: hi :: p' => is_u8 lo /\ is_bits (bits - 8) hi /\ is_samples bits p'
  end.

Lemma samples_split bits sizes : Forall (fun s => exists k, s = (2 * k)%nat) sizes ->
  splits_along (is_samples bits) sizes.
Proof.
  intros H. eapply Forall_impl; [exact H|]. cbv beta. intros s [k ->]. induction k as [|k IH]; intros b Hb; [done|].
  replace (2 * S k)%nat with (S (S (2 * k))) by lia.
  destruct b as [|lo [|hi b]]; [done|done|]. destruct Hb as (H1 & H2 & H3). 
  destruct (IH b H3) as [Ht Hdr]. split; [exact (conj H1 (conj H2 Ht))|exact Hdr].
Qed.

(** ** One group: lengths and round trips *)

Lemma planes1 (x x' : bytes) : x = x' -> [x] = [x'].
Proof. by intros ->. Qed.
Lemma planes3 (x y z x' y' z' : bytes) : x = x' -> y = y' -> z = z' -> [x; y; z] = [x'; y'; z'].
Proof. by intros -> -> ->. Qed.

(** Name the bytes of the planes of one group, with their ranges. *)
Ltac name_bytes :=
  repeat match goal with
  | H : holds _ 1 _ |- _ => unfold holds in H
  | H : Forall2 _ (_ :: _) ?c |- _ =>
      let b := fresh "p" in let c' := fresh "c" in
      let Hb := fresh "Hlen" in
      apply Forall2_cons_inv_l in H as (b & c' & Hb & H & ->)
  | H : Forall2 _ [] ?c |- _ => apply Forall2_nil_inv_l in H as ->
  | H : length ?l = (1 * ?n)%nat |- _ => cbn in H
  | H : length ?l = S _ |- _ =>
      let x := fresh "b" in destruct l as [|x l]; [discriminate H|]; cbn [length] in H; apply eq_add_S in H
  | H : length ?l = O |- _ => apply nil_length_inv in H; subst l
  | H : Forall is_bytes (_ :: _) |- _ => apply Forall_cons in H as [? H]
  | H : Forall (is_samples _) (_ :: _) |- _ => apply Forall_cons in H as [? H]
  | H : Forall _ [] |- _ => clear H
  | H : is_samples ?n (_ :: _ :: _) |- _ => destruct H as (? & ? & H)
  | H : is_samples _ [] |- _ => clear H
  | H : is_bytes _ |- _ => unfold is_bytes in H
  | H : Forall is_u8 (_ :: _) |- _ => apply Forall_cons in H as [? H]
  | H : is_u8 ?b |- _ => change (is_bits 8 b) in H
  | H : is_bits (_ - _) _ |- _ => cbn in H
  end.

(** The bytes of the context and their widths, for [bit_solve]. *)
Ltac with_bytes ws env k :=
  match goal with
  | H : is_bits ?w ?b |- _ =>
      lazymatch env with
      | context [b] => fail
      | _ => with_bytes (w :: ws) (b :: env) k
      end
  | _ => k ws env
  end.

(** Equations between the planes of one group. *)
Ltac group_solve :=
  intros; name_bytes;
  cbv -[Z.lor Z.land Z.shiftl Z.shiftr Z.add bf is_bits];
  first [apply planes1 | apply planes3];
  with_bytes (@nil nat) (@nil Z) bit_solve.

(** The body of a loop writes one group. *)
Ltac group_len := lazymatch goal with |- forall _, _ -> holds _ _ _ => intros; name_bytes; once (repeat constructor) end.

(** ** Conversions that lose nothing *)

(** Wire format, memory format and back: the two routines, the bytes of a group in the
    planes of each side, the pixels of a group. *)
Inductive wire_pair : conv -> conv -> list nat -> list nat -> Z -> Prop :=
  | wp_422be10_le10 : wire_pair st20_rfc4175_422be10_to_422le10_scalar
      st20_rfc4175_422le10_to_422be10_scalar [5]%nat [5]%nat 2
  | wp_422le10_be10 : wire_pair st20_rfc4175_422le10_to_422be10_scalar
      st20_rfc4175_422be10_to_422le10_scalar [5]%nat [5]%nat 2
  | wp_422be10_p10 : wire_pair st20_rfc4175_422be10_to_yuv422p10le_scalar
      st20_yuv422p10le_to_rfc4175_422be10_scalar [5]%nat [4; 2; 2]%nat 2
  | wp_422le10_p10 : wire_pair st20_rfc4175_422le10_to_yuv422p10le
      st20_yuv422p10le_to_rfc4175_422le10 [5]%nat [4; 2; 2]%nat 2
  | wp_422be10_p16 : wire_pair st20_rfc4175_422be10_to_yuv422p16le_scalar
      st20_yuv422p16le_to_rfc4175_422be10_scalar [5]%nat [4; 2; 2]%nat 2
  | wp_422be10_y210 : wire_pair st20_rfc4175_422be10_to_y210_scalar
      st20_y210_to_rfc4175_422be10_scalar [5]%nat [8]%nat 2
  | wp_422be10_v210 : wire_pair st20_rfc4175_422be10_to_v210_scalar
      st20_v210_to_rfc4175_422be10_scalar [15]%nat [16]%nat 6
  | wp_422be12_le12 : wire_pair st20_rfc4175_422be12_to_422le12_scalar
      st20_rfc4175_422le12_to_422be12_scalar [6]%nat [6]%nat 2
  | wp_422le12_be12 : wire_pair st20_rfc4175_422le12_to_422be12_scalar
      st20_rfc4175_422be12_to_422le12_scalar [6]%nat [6]%nat 2
  | wp_422be12_p12 : wire_pair st20_rfc4175_422be12_to_yuv422p12le_scalar
      st20_yuv422p12le_to_rfc4175_422be12_scalar [6]%nat [4; 2; 2]%nat 2
  | wp_422le12_p12 : wire_pair st20_rfc4175_422le12_to_yuv422p12le
      st20_yuv422p12le_to_rfc4175_422le12 [6]%nat [4; 2; 2]%nat 2
  | wp_444be10_le10 : wire_pair st20_rfc4175_444be10_to_444le10_scalar
      st20_rfc4175_444le10_to_444be10_scalar [15]%nat [15]%nat 4
  | wp_444le10_be10 : wire_pair st20_rfc4175_444le10_to_444be10_scalar
      st20_rfc4175_444be10_to_444le10_scalar [15]%nat [15]%nat 4
  | wp_444be10_p10 : wire_pair st20_rfc4175_444be10_to_444p10le_scalar
      st20_444p10le_to_rfc4175_444be10_scalar [15]%nat [8; 8; 8]%nat 4
  | wp_444le10_p10 : wire_pair st20_rfc4175_444le10_to_444p10le
      st20_444p10le_to_rfc4175_444le10 [15]%nat [8; 8; 8]%nat 4
  | wp_444be12_le12 : wire_pair st20_rfc4175_444be12_to_444le12_scalar
      st20_rfc4175_444le12_to_444be12_scalar [9]%nat [9]%nat 2
  | wp_444le12_be12 : wire_pair st20_rfc4175_444le12_to_444be12_scalar
      st20_rfc4175_444be12_to_444le12_scalar [9]%nat [9]%nat 2
  | wp_444be12_p12 : wire_pair st20_rfc4175_444be12_to_444p12le_scalar
      st20_444p12le_to_rfc4175_444be12_scalar [9]%nat [4; 4; 4]%nat 2
  | wp_444le12_p12 : wire_pair st20_rfc4175_444le12_to_444p12le
      st20_444p12le_to_rfc4175_444le12 [9]%nat [4; 4; 4]%nat 2.

(** The same for planes of 10 or 12 significant bits and back. *)
Inductive planar_pair : conv -> conv -> list nat -> list nat -> Z -> nat -> Prop :=
  | pp_p10_422be10 : planar_pair st20_yuv422p10le_to_rfc4175_422be10_scalar
      st20_rfc4175_422be10_to_yuv422p10le_scalar [4; 2; 2]%nat [5]%nat 2 10
  | pp_p10_422le10 : planar_pair st20_yuv422p10le_to_rfc4175_422le10
      st20_rfc4175_422le10_to_yuv422p10le [4; 2; 2]%nat [5]%nat 2 10
  | pp_p12_422be12 : planar_pair st20_yuv422p12le_to_rfc4175_422be12_scalar
      st20_rfc4175_422be12_to_yuv422p12le_scalar [4; 2; 2]%nat [6]%nat 2 12
  | pp_p12_422le12 : planar_pair st20_yuv422p12le_to_rfc4175_422le12
      st20_rfc4175_422le12_to_yuv422p12le [4; 2; 2]%nat [6]%nat 2 12
  | pp_p10_444be10 : planar_pair st20_444p10le_to_rfc4175_444be10_scalar
      st20_rfc4175_444be10_to_444p10le_scalar [8; 8; 8]%nat [15]%nat 4 10
  | pp_p10_444le10 : planar_pair st20_444p10le_to_rfc4175_444le10
      st20_rfc4175_444le10_to_444p10le [8; 8; 8]%nat [15]%nat 4 10
  | pp_p12_444be12 : planar_pair st20_444p12le_to_rfc4175_444be12_scalar
      st20_rfc4175_444be12_to_444p12le_scalar [4; 4; 4]%nat [9]%nat 2 12
  | pp_p12_444le12 : planar_pair st20_444p12le_to_rfc4175_444le12
      st20_rfc4175_444le12_to_444p12le [4; 4; 4]%nat [9]%nat 2 12.

(** What a pair promises for buffers of [n] groups. *)
Definition undoes (P : bytes -> Prop) (fwd bwd : conv) (si so : list nat) (pixels : Z) : Prop :=
  forall w h n src dst back,
    is_u32 (w * h) -> w * h = pixels * Z.of_nat n ->
    holds si n src -> holds so n dst -> holds si n back -> Forall P src ->
    exists d, fwd w h src dst = Some (0, d) /\ holds so n d /\ bwd w h d back = Some (0, src).

Lemma group_conv_undoes P pixels si so f g : 0 < pixels -> splits_along P si ->
  (forall c, holds si 1 c -> holds so 1 (f c)) -> (forall c, holds so 1 c -> holds si 1 (g c)) ->
  (forall c, holds si 1 c -> Forall P c -> g (f c) = c) ->
  undoes P (group_conv pixels si so f) (group_conv pixels so si g) si so pixels.
Proof.
  intros Hp HP Hf Hg Hgf w h n src dst back Hwh Hn Hs Hd Hk HF. unfold group_conv.
  rewrite u32_id, Hn, Z.mul_comm, Z.div_mul, Nat2Z.id by (done || lia).
  destruct (group_loop_lossless P si so f g n src dst back) as (d & E1 & H & E2); try done.
  exists d. by rewrite E1, E2.
Qed.

Lemma v210_conv_undoes P si so f g : splits_along P si ->
  (forall c, holds si 1 c -> holds so 1 (f c)) -> (forall c, holds so 1 c -> holds si 1 (g c)) ->
  (forall c, holds si 1 c -> Forall P c -> g (f c) = c) ->
  undoes P (v210_conv si so f) (v210_conv so si g) si so 6.
Proof.
  intros HP Hf Hg Hgf w h n src dst back Hwh Hn Hs Hd Hk HF. unfold v210_conv.
  rewrite u32_id, Hn by done. replace (6 * Z.of_nat n / 2) with (Z.of_nat n * 3) by mlia.
  rewrite Z.mod_mul, Z.div_mul, Nat2Z.id by lia. cbn [negb Z.eqb].
  destruct (group_loop_lossless P si so f g n src dst back) as (d & E1 & H & E2); try done.
  exists d. by rewrite E1, E2.
Qed.

Lemma wire_pair_undoes fwd bwd si so pixels :
  wire_pair fwd bwd si so pixels -> undoes is_bytes fwd bwd si so pixels.
Proof.
  destruct 1; (apply group_conv_undoes || apply v210_conv_undoes);
    first [lia | apply bytes_split | group_len | group_solve].
Qed.

Lemma planar_pair_undoes fwd bwd si so pixels bits :
  planar_pair fwd bwd si so pixels bits -> undoes (is_samples bits) fwd bwd si so pixels.
Proof.
  destruct 1; apply group_conv_undoes;
    first [lia | apply samples_split; repeat constructor; (by exists 1%nat) || (by exists 2%nat) || (by exists 4%nat) | group_len | group_solve].
Qed.

(** ** Conversions that agree *)

Definition agrees_via (first second direct : conv) (si sm so : list nat) (pixels : Z) : Prop :=
  forall w h n src mid dst,
    is_u32 (w * h) -> w * h = pixels * Z.of_nat n ->
    holds si n src -> holds sm n mid -> holds so n dst -> Forall is_bytes src ->
    exists m d, first w h src mid = Some (0, m) /\ second w h m dst = Some (0, d) /\
      direct w h src dst = Some (0, d).

Lemma group_conv_via pixels si sm so f g k : 0 < pixels ->
  (forall c, holds si 1 c -> holds sm 1 (f c)) -> (forall c, holds sm 1 c -> holds so 1 (g c)) ->
  (forall c, holds si 1 c -> holds so 1 (k c)) ->
  (forall c, holds si 1 c -> Forall is_bytes c -> g (f c) = k c) ->
  agrees_via (group_conv pixels si sm f) (group_conv pixels sm so g) (group_conv pixels si so k) si sm so pixels.
Proof.
  intros Hp Hf Hg Hk Heq w h n src mid dst Hwh Hn Hs Hm Hd HF. unfold group_conv.
  rewrite u32_id, Hn, Z.mul_comm, Z.div_mul, Nat2Z.id by (done || lia).
  exists (group_map si sm f n src), (group_map si so k n src).
  pose proof (group_map_holds _ _ _ Hf n src Hs) as Hmap.
  rewrite !group_loop_map by done. split_and!; [done| |done]. cbn. do 2 f_equal.
  rewrite group_map_comp by done. by apply (group_map_ext _ _ _ is_bytes); [apply bytes_split|..].
Qed.

(** Three groups of a packed format as one of three times the size. *)
Definition thrice (s : nat) (f : list bytes -> list bytes) (c : list bytes) : list bytes :=
  let p := plane c 0 in
  [plane (f [take s p]) 0 ++ plane (f [take s (drop s p)]) 0 ++ plane (f [drop (s + s) p]) 0].

Lemma holds1 s n bs : holds [s] n bs <-> exists p, bs = [p] /\ length p = (n * s)%nat.
Proof.
  unfold holds. split.
  - intros H. apply Forall2_cons_inv_l in H as (p & c & Hp & H & ->). apply Forall2_nil_inv_l in H as ->. by exists p.
  - intros (p & -> & Hp). by repeat constructor.
Qed.

Lemma group_map_thrice s t f n src :
  (forall c, holds [s] 1 c -> holds [t] 1 (f c)) -> holds [s] (3 * n) src ->
  group_map [s] [t] f (3 * n) src = group_map [3 * s]%nat [3 * t]%nat (thrice s f) n src.
Proof.
  intros Hf. assert (Hone : forall q, length q = s -> exists r, f [q] = [r] /\ length r = t).
  { intros q Hq. destruct (proj1 (holds1 t 1 _) (Hf [q] (proj2 (holds1 s 1 _) (ex_intro _ q (conj eq_refl
      (eq_trans Hq (eq_sym (Nat.mul_1_l s)))))))) as (r & Hr & Hl). exists r. split; [done|lia]. }
  revert src. induction n as [|n IH]; intros src Hs; [done|].
  apply holds1 in Hs as (p & -> & Hp). replace (3 * S n)%nat with (S (S (S (3 * n)))) in * by lia.
  cbn [group_map zip_with]. rewrite !drop_drop. replace (s + s + s)%nat with (3 * s)%nat by lia.
  rewrite IH by (apply holds1; eexists; split; [done|]; rewrite length_drop; lia).
  assert (Hth : forall c, holds [3 * s]%nat 1 c -> holds [3 * t]%nat 1 (thrice s f c)).
  { intros c Hc. apply holds1 in Hc as (q & -> & Hq). unfold thrice. change (plane [q] 0) with q.
    destruct (Hone (take s q)) as (r1 & -> & ?); [rewrite length_take; lia|].
    destruct (Hone (take s (drop s q))) as (r2 & -> & ?); [rewrite length_take, length_drop; lia|].
    destruct (Hone (drop (s + s) q)) as (r3 & -> & ?); [rewrite length_drop; lia|].
    apply holds1. eexists. split; [done|]. cbn. rewrite !length_app. lia. }
  destruct (proj1 (holds1 (3 * t) n (group_map [3 * s]%nat [3 * t]%nat (thrice s f) n [drop (3 * s) p]))) as (r & -> & _).
  { apply group_map_holds; [done|]. apply holds1. eexists. split; [done|]. rewrite length_drop. lia. }
  unfold thrice. change (plane [take (3 * s) p] 0) with (take (3 * s) p).
  replace (take s (take (3 * s) p)) with (take s p) by (rewrite take_take; f_equal; lia).
  replace (take s (drop s (take (3 * s) p))) with (take s (drop s p))
    by (rewrite !take_drop_commute, take_take; do 2 f_equal; lia).
  replace (drop (s + s) (take (3 * s) p)) with (take s (drop (s + s) p))
    by (rewrite take_drop_commute; do 2 f_equal; lia).
  destruct (Hone (take s p)) as (r1 & -> & _); [rewrite length_take; lia|].
  destruct (Hone (take s (drop s p))) as (r2 & -> & _); [rewrite length_take, length_drop; lia|].
  destruct (Hone (take s (drop (s + s) p))) as (r3 & -> & _); [rewrite length_take, length_drop; lia|].
  cbn. by rewrite !app_assoc.
Qed.

(** What the 8-bit formats keep of 10-bit planes: the upper eight bits of each sample. *)
Definition top8_planes (c : list bytes) : list bytes :=
  let s := get_p422 c in
  [store [Z.shiftr (s_y0 s) 2; Z.shiftr (s_y1 s) 2]; store [Z.shiftr (s_cb s) 2]; store [Z.shiftr (s_cr s) 2]].
Definition top8_packed (c : list bytes) : list bytes :=
  let s := get_p422 c in
  [store [Z.shiftr (s_cb s) 2; Z.shiftr (s_y0 s) 2; Z.shiftr (s_cr s) 2; Z.shiftr (s_y1 s) 2]].

(** Two routes between the same formats. *)
Inductive via : conv -> conv -> conv -> list nat -> list nat -> list nat -> Z -> Prop :=
  | via_be10_le10_p10 : via st20_rfc4175_422be10_to_422le10_scalar st20_rfc4175_422le10_to_yuv422p10le
      st20_rfc4175_422be10_to_yuv422p10le_scalar [5]%nat [5]%nat [4; 2; 2]%nat 2
  | via_le10_be10_p10 : via st20_rfc4175_422le10_to_422be10_scalar st20_rfc4175_422be10_to_yuv422p10le_scalar
      st20_rfc4175_422le10_to_yuv422p10le [5]%nat [5]%nat [4; 2; 2]%nat 2
  | via_p10_be10_le10 : via st20_yuv422p10le_to_rfc4175_422be10_scalar st20_rfc4175_422be10_to_422le10_scalar
      st20_yuv422p10le_to_rfc4175_422le10 [4; 2; 2]%nat [5]%nat [5]%nat 2
  | via_be12_le12_p12 : via st20_rfc4175_422be12_to_422le12_scalar st20_rfc4175_422le12_to_yuv422p12le
      st20_rfc4175_422be12_to_yuv422p12le_scalar [6]%nat [6]%nat [4; 2; 2]%nat 2
  | via_p12_be12_le12 : via st20_yuv422p12le_to_rfc4175_422be12_scalar st20_rfc4175_422be12_to_422le12_scalar
      st20_yuv422p12le_to_rfc4175_422le12 [4; 2; 2]%nat [6]%nat [6]%nat 2
  | via_444be10_le10_p10 : via st20_rfc4175_444be10_to_444le10_scalar st20_rfc4175_444le10_to_444p10le
      st20_rfc4175_444be10_to_444p10le_scalar [15]%nat [15]%nat [8; 8; 8]%nat 4
  | via_444p10_be10_le10 : via st20_444p10le_to_rfc4175_444be10_scalar st20_rfc4175_444be10_to_444le10_scalar
      st20_444p10le_to_rfc4175_444le10 [8; 8; 8]%nat [15]%nat [15]%nat 4
  | via_444be12_le12_p12 : via st20_rfc4175_444be12_to_444le12_scalar st20_rfc4175_444le12_to_444p12le
      st20_rfc4175_444be12_to_444p12le_scalar [9]%nat [9]%nat [4; 4; 4]%nat 2
  | via_444p12_be12_le12 : via st20_444p12le_to_rfc4175_444be12_scalar st20_rfc4175_444be12_to_444le12_scalar
      st20_444p12le_to_rfc4175_444le12 [4; 4; 4]%nat [9]%nat [9]%nat 2
  | via_be10_p10_p8 : via st20_rfc4175_422be10_to_yuv422p10le_scalar
      (group_conv 2 [4; 2; 2]%nat [2; 1; 1]%nat top8_planes)
      st20_rfc4175_422be10_to_yuv422p8_scalar [5]%nat [4; 2; 2]%nat [2; 1; 1]%nat 2
  | via_be10_p10_le8 : via st20_rfc4175_422be10_to_yuv422p10le_scalar
      (group_conv 2 [4; 2; 2]%nat [4]%nat top8_packed)
      st20_rfc4175_422be10_to_422le8_scalar [5]%nat [4; 2; 2]%nat [4]%nat 2.

Lemma via_agrees first second direct si sm so pixels :
  via first second direct si sm so pixels -> agrees_via first second direct si sm so pixels.
Proof. destruct 1; apply group_conv_via; first [lia | group_len | group_solve]. Qed.

(** V210 is reached directly or through the little-endian packed format. *)
Lemma v210_via_le10 w h n src mid dst :
  is_u32 (w * h) -> w * h = 6 * Z.of_nat n ->
  holds [15]%nat n src -> holds [15]%nat n mid -> holds [16]%nat n dst -> Forall is_bytes src ->
  exists m d, st20_rfc4175_422be10_to_422le10_scalar w h src mid = Some (0, m) /\
    st20_rfc4175_422le10_to_v210_scalar w h m dst = Some (0, d) /\
    st20_rfc4175_422be10_to_v210_scalar w h src dst = Some (0, d).
Proof.
  intros Hwh Hn Hs Hm Hd HF.
  set (f := fun c => [put_le10 (pack_le10 (unpack_be10 (get_be10 (plane c 0))))]).
  assert (Hf : forall c, holds [5]%nat 1 c -> holds [5]%nat 1 (f c)) by group_len.
  assert (H5 : forall bs, holds [15]%nat n bs -> holds [5]%nat (3 * n) bs).
  { intros bs (p & -> & Hp)%holds1. apply holds1. exists p. split; [done|lia]. }
  assert (Hft : forall c, holds [15]%nat 1 c -> holds [15]%nat 1 (thrice 5 f c)) by group_len.
  exists (group_map [15]%nat [15]%nat (thrice 5 f) n src),
    (group_map [15]%nat [16]%nat (fun c => [be10_to_v210 (plane c 0)]) n src).
  unfold st20_rfc4175_422be10_to_422le10_scalar, st20_rfc4175_422le10_to_v210_scalar,
    st20_rfc4175_422be10_to_v210_scalar, group_conv, v210_conv. rewrite u32_id, Hn by done.
  replace (6 * Z.of_nat n / 2) with (Z.of_nat n * 3) by mlia.
  rewrite Z.mod_mul, Z.div_mul, Nat2Z.id by lia. cbn [negb Z.eqb].
  replace (Z.to_nat (Z.of_nat n * 3)) with (3 * n)%nat by lia. fold f.
  rewrite (group_loop_map [5]%nat [5]%nat f) by auto. rewrite (group_map_thrice 5 5 f) by auto.
  rewrite !group_loop_map by (done || group_len || by apply group_map_holds).
  split; [done|]. split; [|done]. cbn. do 2 f_equal. rewrite group_map_comp by done.
  apply (group_map_ext _ _ _ is_bytes); [apply bytes_split|done|done|group_solve].
Qed.

(** ** Audio subframes *)

(** Fields within their widths survive the bytes of the structure. *)
Lemma get_put_aes3 e :
  is_bits 4 (ae_preamble e) -> is_bits 4 (ae_data_0 e) -> is_bits 16 (ae_data_1 e) -> is_bits 4 (ae_data_2 e) ->
  is_bits 1 (ae_v e) -> is_bits 1 (ae_u e) -> is_bits 1 (ae_c e) -> is_bits 1 (ae_p e) ->
  get_aes3 (put_aes3 e) = e.
Proof.
  destruct e as [pr d0 d1 d2 v u c p]. cbn [ae_preamble ae_data_0 ae_data_1 ae_data_2 ae_v ae_u ae_c ae_p]. intros.
  assert (Heq : forall a b c d e f g h a' b' c' d' e' f' g' h',
    [a; b; c; d; e; f; g; h] = [a'; b'; c'; d'; e'; f'; g'; h'] -> mk_aes3 a b c d e f g h = mk_aes3 a' b' c' d' e' f' g' h')
    by (intros; congruence).
  cbv -[Z.lor Z.land Z.shiftl Z.shiftr Z.add bf is_bits]. apply Heq. with_bytes (@nil nat) (@nil Z) bit_solve.
Qed.

Lemma put_get_am824 c : holds [4]%nat 1 c -> Forall is_bytes c -> [put_am824 (get_am824 (plane c 0))] = c.
Proof. group_solve. Qed.

(** The flag byte of a subframe: the unused bits are zero, a block start is a frame start. *)
Definition am824_flags_ok (a : st31_am824) : Prop := am_unused a = 0 /\ (am_b a = 1 -> am_f a = 1).

Lemma bits1_cases x : is_bits 1 x -> x = 0 \/ x = 1.
Proof. unfold is_bits. cbn. lia. Qed.

Lemma field_bits n pos b : (0 <= n)%nat -> is_bits n (field pos (Z.of_nat n) b).
Proof. intros. unfold is_bits, field. apply bf_range. lia. Qed.

Definition is_am824 (p : bytes) : Prop :=
  is_bytes p /\ forall k x, p !! (4 * k)%nat = Some x -> am824_flags_ok (get_am824 [x]).

Lemma am824_split : splits_along is_am824 [4]%nat.
Proof.
  apply Forall_singleton. intros b [Hb Hk]. split.
  - split; [by apply Forall_take|]. intros k x Hx. apply lookup_take_Some in Hx as [Hx _]. by apply (Hk k).
  - split; [by apply Forall_drop|]. intros k x Hx. rewrite lookup_drop in Hx. apply (Hk (S k)).
    by replace (4 * S k)%nat with (4 + 4 * k)%nat by lia.
Qed.

Lemma am824_aes3_fields a : is_bits 1 (am_f a) -> is_bits 1 (am_b a) -> am824_flags_ok a ->
  is_u8 (am_data0 a) -> is_u8 (am_data1 a) -> is_u8 (am_data2 a) ->
  aes3_to_am824 (am824_to_aes3 a) = a.
Proof.
  destruct a as [v u c p f b un d0 d1 d2]. unfold am824_flags_ok.
  cbn [am_f am_b am_unused am_data0 am_data1 am_data2]. intros Hf Hb [-> Hbf] H0 H1 H2.
  assert (Hd : forall x y z x' y' z', [x; y; z] = [x'; y'; z'] -> mk_am824 v u c p f b 0 x y z = mk_am824 v u c p f b 0 x' y' z')
    by (intros; congruence).
  change (is_bits 8 d0) in H0. change (is_bits 8 d1) in H1. change (is_bits 8 d2) in H2.
  apply bits1_cases in Hf as [-> | ->], Hb as [-> | ->]; try (specialize (Hbf eq_refl); discriminate);
    cbv -[Z.lor Z.land Z.shiftl Z.shiftr Z.add bf is_bits]; apply Hd; with_bytes (@nil nat) (@nil Z) bit_solve.
Qed.

Lemma am824_group c : holds [4]%nat 1 c -> Forall is_am824 c ->
  [put_am824 (aes3_to_am824 (get_aes3 (plane [put_aes3 (am824_to_aes3 (get_am824 (plane c 0)))] 0)))] = c.
Proof.
  intros (p & -> & Hp)%holds1 [[Hb Hk] _]%Forall_cons. change (plane [p] 0) with p.
  change (plane [?x] 0) with x.
  assert (H0 : exists x q, p = x :: q) by (destruct p; [done|eauto]). destruct H0 as (x & q & ->).
  specialize (Hk 0%nat x eq_refl).
  assert (Hcell : forall i, is_u8 (cell (x :: q) i)).
  { intros i. unfold cell. destruct ((x :: q) !! i) eqn:E; cbn; [by eapply Forall_lookup_1 in Hb|by unfold is_u8]. }
  pose proof (field_bits 1) as Hf1. pose proof (field_bits 4) as Hf4.
  rewrite get_put_aes3.
  - rewrite am824_aes3_fields; [|apply (Hf1 4); lia|apply (Hf1 5); lia|done|apply Hcell..].
    apply (put_get_am824 [x :: q]); [apply holds1; eauto|by constructor].
  - cbn. repeat case_if; unfold is_bits; cbn; lia.
  - apply (Hf4 0 _ ltac:(lia)).
  - apply (bf_range 16). lia.
  - apply (Hf4 4 _ ltac:(lia)).
  - apply (Hf1 0). lia.
  - apply (Hf1 1). lia.
  - apply (Hf1 2). lia.
  - apply (Hf1 3). lia.
Qed.

(** ** Main theorems *)

(** Converting a buffer of pixel groups and converting back gives the same bytes, for
    every pair of routines between a wire format and a memory format that both exist:
    from any packed buffer to the other packed order, to planes of 10, 12 or 16 bits, to
    Y210 and to V210, and from any planes whose samples have at most the 10 or 12 bits
    of the format. Both conversions return 0, fit the buffers, and do not depend on what
    the destination held. *)
Lemma convert_lossless fwd bwd si so pixels P w h n src dst back :
  (wire_pair fwd bwd si so pixels /\ P = is_bytes) \/
  (exists bits, planar_pair fwd bwd si so pixels bits /\ P = is_samples bits) ->
  is_u32 (w * h) -> w * h = pixels * Z.of_nat n ->
  holds si n src -> holds so n dst -> holds si n back -> Forall P src ->
  exists d, fwd w h src dst = Some (0, d) /\ holds so n d /\ bwd w h d back = Some (0, src).
Proof.
  intros [[Hp ->]|(bits & Hp & ->)].
  - apply (wire_pair_undoes _ _ _ _ _ Hp).
  - apply (planar_pair_undoes _ _ _ _ _ _ Hp).
Qed.

Lemma convert_lossless_demo :
  exists d, st20_rfc4175_422be10_to_v210_scalar 6 1 [[1; 20; 255; 128; 7; 1; 2; 3; 4; 5; 9; 8; 7; 6; 5]]
      [replicate 16 0] = Some (0, d) /\ holds [16]%nat 1 d /\
    st20_v210_to_rfc4175_422be10_scalar 6 1 d [replicate 15 9] =
      Some (0, [[1; 20; 255; 128; 7; 1; 2; 3; 4; 5; 9; 8; 7; 6; 5]]).
Proof.
  apply (convert_lossless _ _ [15]%nat [16]%nat 6 is_bytes 6 1 1);
    [left; split; [constructor|done]|unfold is_u32; lia|lia|by repeat constructor..|].
  repeat constructor; unfold is_u8; lia.
Qed.

(** The routines agree with each other. Going from one format to another through a
    third gives the same bytes as the direct routine: planar and packed formats through
    either byte order of the wire format, V210 through the little-endian order, and the
    8-bit formats are the upper eight bits of the 10-bit planes. *)
Theorem convert_routes_agree first second direct si sm so pixels w h n src mid dst :
  via first second direct si sm so pixels \/
  (first, second, direct, si, sm, so, pixels) =
    (st20_rfc4175_422be10_to_422le10_scalar, st20_rfc4175_422le10_to_v210_scalar,
     st20_rfc4175_422be10_to_v210_scalar, [15]%nat, [15]%nat, [16]%nat, 6) ->
  is_u32 (w * h) -> w * h = pixels * Z.of_nat n ->
  holds si n src -> holds sm n mid -> holds so n dst -> Forall is_bytes src ->
  exists m d, first w h src mid = Some (0, m) /\ second w h m dst = Some (0, d) /\
    direct w h src dst = Some (0, d).
Proof.
  intros [Hv|[= -> -> -> -> -> -> ->]].
  - apply (via_agrees _ _ _ _ _ _ _ Hv).
  - apply v210_via_le10.
Qed.

Lemma convert_routes_agree_witness :
  exists m d, st20_rfc4175_422be10_to_yuv422p10le_scalar 2 1 [[255; 1; 2; 3; 4]] [[0; 0; 0; 0]; [0; 0]; [0; 0]] = Some (0, m) /\
    group_conv 2 [4; 2; 2]%nat [2; 1; 1]%nat top8_planes 2 1 m [[0; 0]; [0]; [0]] = Some (0, d) /\
    st20_rfc4175_422be10_to_yuv422p8_scalar 2 1 [[255; 1; 2; 3; 4]] [[0; 0]; [0]; [0]] = Some (0, d).
Proof.
  apply (convert_routes_agree _ _ _ [5]%nat [4; 2; 2]%nat [2; 1; 1]%nat 2 2 1 1);
    [left; constructor|unfold is_u32; lia|lia|by repeat constructor..|].
  repeat constructor; unfold is_u8; lia.
Defined.

(** AM824 audio subframes whose unused bits are zero and whose block starts are frame
    starts survive the conversion to AES3 and back: sample, validity, user, channel
    status and parity bits, and the preamble. *)
Theorem am824_aes3_lossless subframes src dst back :
  0 <= subframes < 65536 ->
  length src = Z.to_nat (4 * subframes) -> length dst = length src -> length back = length src ->
  is_am824 src ->
  exists d, st31_am824_to_aes3 subframes [src] [dst] = Some (0, [d]) /\ length d = length src /\
    st31_aes3_to_am824 subframes [d] [back] = Some (0, [src]).
Proof.
  intros Hn Hs Hd Hk Ham. unfold st31_am824_to_aes3, st31_aes3_to_am824.
  assert (Hh : forall l, length l = length src -> holds [4]%nat (Z.to_nat subframes) [l]).
  { intros l Hl. apply holds1. exists l. split; [done|lia]. }
  destruct (group_loop_lossless is_am824 [4]%nat [4]%nat
    (fun c => [put_aes3 (am824_to_aes3 (get_am824 (plane c 0)))])
    (fun c => [put_am824 (aes3_to_am824 (get_aes3 (plane c 0)))])
    (Z.to_nat subframes) [src] [dst] [back]) as (m & E1 & H & E2); auto.
  - apply am824_split.
  - group_len.
  - group_len.
  - apply am824_group.
  - apply holds1 in H as (d & -> & Hl). exists d. rewrite E1, E2. split_and!; [done|lia|done].
Qed.

Lemma am824_aes3_lossless_witness :
  exists d, st31_am824_to_aes3 1 [[0x35; 1; 2; 3]] [[0; 0; 0; 0]] = Some (0, [d]) /\ length d = 4%nat /\
    st31_aes3_to_am824 1 [d] [[0; 0; 0; 0]] = Some (0, [[0x35; 1; 2; 3]]).
Proof.
  apply (am824_aes3_lossless 1 [0x35; 1; 2; 3] [0; 0; 0; 0] [0; 0; 0; 0]); [lia|done..|].
  split; [repeat constructor; unfold is_u8; lia|]. intros [|k] x Hx; [injection Hx as <-; by vm_compute|].
  rewrite lookup_ge_None_2 in Hx; [done|cbn; lia].
Defined.
