(* ===== verification/Simd.v ===== *)
(** Vector instructions, as the vector variants of the conversions use them
    (lib/src/st2110/st_avx2.c, st_avx512.c, st_avx512_vbmi.c).

    A register is the list of its bits, the least significant first, and an intrinsic does
    to it what its documentation says, lane by lane. Tables that control an instruction
    (shuffles, shift counts, masks) are constants of the code. A load names its place in
    memory and is [None] outside of it; a store gives the bytes written.

    Every intrinsic here moves data bits or unites them, whatever a bit is: the
    definitions are over a [BitAlg]. With [bool] they compute; with the symbolic bits of
    [BitExpr] one run shows what the code does for every input. [simd_table] says the two
    runs agree; the rest of the file makes loops of such code comparable with the loops
    over pixel groups of [Convert]. *)
From S2P Require Import Prelude Bytes BitExpr Convert.

(** ** Bits *)

Class BitAlg (B : Type) := { b_zero : B; b_or : B -> B -> B }.
#[export] Instance bool_bits : BitAlg bool := {| b_zero := false; b_or := orb |}.
#[export] Instance sym_bits : BitAlg sbit := {| b_zero := []; b_or := app |}.

(** The [w] low bits of a number, and the number of a list of bits. *)
Definition bits (w : nat) (z : Z) : list bool := (fun j => Z.testbit z (Z.of_nat j)) <$> seq 0 w.
Fixpoint num (l : list bool) : Z :=
  match l with [] => 0 | b :: l => Z.b2z b + 2 * num l end.

(** Constant registers: the tables of [uint8_t], [uint16_t] and [uint32_t]. *)
Definition tbl8 (l : list Z) : list bool := concat (bits 8 <$> l).
Definition tbl16 (l : list Z) : list bool := concat (bits 16 <$> l).
Definition tbl32 (l : list Z) : list bool := concat (bits 32 <$> l).

(** ** Registers *)

(** The first [k] lanes of [w] bits. *)
Fixpoint lanes {A} (k w : nat) (r : list A) : list (list A) :=
  match k with O => [] | S k => take w r :: lanes k w (drop w r) end.

Section Intrinsics.
Context {B : Type} `{!BitAlg B}.

Abbreviation reg := (list B).
Abbreviation memory := (list (list B)).

Definition zeros (w : nat) : reg := replicate w b_zero.
Definition lane_at (w : nat) (ls : list reg) (i : nat) : reg := default (zeros w) (ls !! i).
Definition keep (m : bool) (x : B) : B := if m then x else b_zero.

(** Bytes moved within the 128-bit lanes; a control byte above 127 clears. *)
Definition shuffle_bytes (k : nat) (a : reg) (b : list bool) : reg :=
  let bytes_a := lanes k 8 a in
  concat (imap (fun i c => if Z.testbit (num c) 7 then zeros 8
                           else lane_at 8 bytes_a (16 * (i / 16) + Z.to_nat (num c mod 16)))
            (lanes k 8 b)).
Definition mm_shuffle_epi8 (a : reg) (b : list bool) : reg := shuffle_bytes 16 a b.
Definition mm512_shuffle_epi8 (a : reg) (b : list bool) : reg := shuffle_bytes 64 a b.
(** Lanes of [w] bits moved anywhere. *)
Definition permute (k w : nat) (idx : list bool) (a : reg) : reg :=
  let ls := lanes k w a in
  concat ((fun c => lane_at w ls (Z.to_nat (num c mod Z.of_nat k))) <$> lanes k w idx).
Definition mm512_permutexvar_epi8 (idx : list bool) (a : reg) : reg := permute 64 8 idx a.
Definition mm512_permutexvar_epi32 (idx : list bool) (a : reg) : reg := permute 16 32 idx a.
(** Four 128-bit lanes, two of [a] and two of [b]. *)
Definition mm512_shuffle_i32x4 (a b : reg) (imm : Z) : reg :=
  let sel r pos := lane_at 128 (lanes 4 128 r) (Z.to_nat (Z.shiftr imm pos mod 4)) in
  sel a 0 ++ sel a 2 ++ sel b 4 ++ sel b 6.
Definition mm512_extracti32x4_epi32 (a : reg) (i : nat) : reg := lane_at 128 (lanes 4 128 a) i.
Definition mm512_inserti64x2 (a b : reg) (i : nat) : reg := concat (<[i := b]> (lanes 4 128 a)).

(** Lanes taken in turn from the low or high halves of two registers. *)
Definition interleave (la lb : list reg) : reg := concat (zip_with app la lb).
Definition mm_unpacklo (w : nat) (a b : reg) : reg := interleave (lanes (64 / w) w a) (lanes (64 / w) w b).
Definition mm_unpackhi (w : nat) (a b : reg) : reg :=
  interleave (lanes (64 / w) w (drop 64 a)) (lanes (64 / w) w (drop 64 b)).

(** Shifts and rotations of each lane of [w] bits. *)
Definition lane_shl (w n : nat) (l : reg) : reg := take w (zeros n ++ l).
Definition lane_shr (w n : nat) (l : reg) : reg := take w (drop n l ++ zeros (n `min` w)).
Definition lane_rol (w n : nat) (l : reg) : reg := drop (w - n) l ++ take (w - n) l.
Definition each_lane (k w : nat) (f : reg -> reg) (a : reg) : reg := concat (f <$> lanes k w a).
Definition shift_lanes (sh : nat -> nat -> reg -> reg) (k w : nat) (a : reg) (count : list bool) : reg :=
  concat (zip_with (fun c l => sh w (Z.to_nat (Z.min (num c) (Z.of_nat w))) l) (lanes k w count) (lanes k w a)).
Definition mm_sllv_epi16 : reg -> list bool -> reg := shift_lanes lane_shl 8 16.
Definition mm_srlv_epi16 : reg -> list bool -> reg := shift_lanes lane_shr 8 16.
Definition mm_sllv_epi32 : reg -> list bool -> reg := shift_lanes lane_shl 4 32.
Definition mm_srlv_epi32 : reg -> list bool -> reg := shift_lanes lane_shr 4 32.
Definition mm512_sllv_epi16 : reg -> list bool -> reg := shift_lanes lane_shl 32 16.
Definition mm512_srlv_epi16 : reg -> list bool -> reg := shift_lanes lane_shr 32 16.
Definition mm_slli_epi32 (a : reg) (n : nat) : reg := each_lane 4 32 (lane_shl 32 n) a.
Definition mm_srli_epi32 (a : reg) (n : nat) : reg := each_lane 4 32 (lane_shr 32 n) a.
Definition mm_rol_epi32 (a : reg) (n : nat) : reg := each_lane 4 32 (lane_rol 32 n) a.
Definition mm_ror_epi32 (a : reg) (n : nat) : reg := each_lane 4 32 (lane_rol 32 (32 - n)) a.
Definition mm512_rol_epi32 (a : reg) (n : nat) : reg := each_lane 16 32 (lane_rol 32 n) a.
Definition mm512_ror_epi32 (a : reg) (n : nat) : reg := each_lane 16 32 (lane_rol 32 (32 - n)) a.
(** Every byte is the eight bits of its 64-bit lane from a position on, going round. *)
Definition multishift_lane (l : reg) (ctl : list (list bool)) : reg :=
  concat ((fun c => take 8 (drop (Z.to_nat (num c mod 64)) (l ++ l))) <$> ctl).
Definition mm512_multishift_epi64_epi8 (b : list bool) (a : reg) : reg :=
  concat (zip_with (fun ctl l => multishift_lane l (lanes 8 8 ctl)) (lanes 8 64 b) (lanes 8 64 a)).

(** Bitwise operations; the second operand of [and] is a constant. *)
Definition and_bits (a : reg) (m : list bool) : reg := zip_with keep m a.
Definition or_bits (a b : reg) : reg := zip_with b_or a b.
Definition mm_and_si128 : reg -> list bool -> reg := and_bits.
Definition mm512_and_si512 : reg -> list bool -> reg := and_bits.
Definition mm512_andnot_si512 (m : list bool) (a : reg) : reg := zip_with (fun m => keep (negb m)) m a.
Definition mm_or_si128 : reg -> reg -> reg := or_bits.
Definition mm512_or_si512 : reg -> reg -> reg := or_bits.
(** A byte whose mask bit is clear becomes zero. *)
Definition maskz_bytes (k : Z) (a : reg) : reg :=
  concat (imap (fun i l => if Z.testbit k (Z.of_nat i) then l else zeros 8) (lanes 16 8 a)).
Definition mm_maskz_mov_epi8 (k : Z) (a : reg) : reg := maskz_bytes k a.
Definition mm_maskz_shuffle_epi8 (k : Z) (a : reg) (b : list bool) : reg := maskz_bytes k (mm_shuffle_epi8 a b).
Definition mm512_setzero_si512 : reg := zeros 512.

(** ** Memory *)

Definition load (n : nat) (m : memory) (off : nat) : option reg :=
  if (off + n <=? length m)%nat then Some (concat (take n (drop off m))) else None.
(** A masked load does not touch the lanes whose bit is clear; they are zero. *)
Definition maskz_load (k : nat) (w : nat) (mask : Z) (m : memory) (off : nat) : option reg :=
  @concat B <$> mapM (fun i => if Z.testbit mask (Z.of_nat i) then load w m (off + i * w) else Some (zeros (8 * w))) (seq 0 k).
Definition mm_loadu_si128 : memory -> nat -> option reg := load 16.
Definition mm512_loadu_si512 : memory -> nat -> option reg := load 64.
Definition mm_maskz_loadu_epi8 : Z -> memory -> nat -> option reg := maskz_load 16 1.
Definition mm512_maskz_loadu_epi8 : Z -> memory -> nat -> option reg := maskz_load 64 1.
Definition mm512_maskz_loadu_epi32 : Z -> memory -> nat -> option reg := maskz_load 16 4.

Definition mm_storeu_si128 (a : reg) : memory := lanes 16 8 a.
Definition mm_store_si128 (a : reg) : memory := lanes 16 8 a.
Definition mm_storel_epi64 (a : reg) : memory := lanes 8 8 a.
Definition mm512_storeu_si512 (a : reg) : memory := lanes 64 8 a.
Definition mask_count (k : nat) (mask : Z) : nat :=
  length (filter (fun i => Is_true (Z.testbit mask (Z.of_nat i))) (seq 0 k)).
(** The masks of the code select the first lanes; nothing is said about others. *)
Definition mask_store (k w : nat) (mask : Z) (a : reg) : option memory :=
  let n := mask_count k mask in
  if mask =? 2 ^ Z.of_nat n - 1 then Some (lanes (n * w) 8 a) else None.
Definition mm_mask_storeu_epi8 (k : Z) (a : reg) : option memory := mask_store 16 1 k a.
Definition mm512_mask_storeu_epi8 (k : Z) (a : reg) : option memory := mask_store 64 1 k a.
Definition mm512_mask_storeu_epi32 (k : Z) (a : reg) : option memory := mask_store 16 4 k a.
(** The selected lanes, one after the other. *)
Definition compress (k w : nat) (mask : Z) (a : reg) : memory :=
  concat (imap (fun i l => if Z.testbit mask (Z.of_nat i) then lanes w 8 l else []) (lanes k (8 * w) a)).
Definition mm512_mask_compressstoreu_epi8 (k : Z) (a : reg) : memory := compress 64 1 k a.
Definition mm512_mask_compressstoreu_epi16 (k : Z) (a : reg) : memory := compress 32 2 k a.

(** An array of registers. *)
Definition reg_at (l : list reg) (i : nat) : reg := default [] (l !! i).
End Intrinsics.

(** ** One run for all inputs *)

Lemma num_bits w z : 0 <= z < 2 ^ Z.of_nat w -> num (bits w z) = z.
Proof.
  unfold bits. revert z. induction w as [|w IH]; intros z Hz; [cbn in *; lia|].
  rewrite Nat2Z.inj_succ, Z.pow_succ_r in Hz by lia. rewrite <- cons_seq, fmap_cons. cbn [num].
  rewrite <- fmap_S_seq, <- list_fmap_compose.
  rewrite (list_fmap_ext _ (fun j => Z.testbit (Z.div2 z) (Z.of_nat j))).
  - rewrite IH by (rewrite Z.div2_div; split; [apply Z.div_pos; lia|apply Z.div_lt_upper_bound; lia]).
    change (Z.of_nat 0) with 0. rewrite Z.bit0_mod, Z.div2_div. pose proof (Z.div_mod z 2). lia.
  - intros i x _. cbn. rewrite Z.div2_spec, Z.shiftr_spec by lia. f_equal. lia.
Qed.

Lemma num_testbit l k : Z.testbit (num l) (Z.of_nat k) = default false (l !! k).
Proof.
  revert k. induction l as [|b l IH]; intros k; cbn [num]; [by rewrite Z.bits_0|].
  destruct k as [|k]; [apply Z.add_b2z_double_bit0|].
  rewrite Nat2Z.inj_succ, Z.add_comm, Z.testbit_succ_r by lia. apply IH.
Qed.

Lemma lanes_fmap {A C} (h : A -> C) k w (r : list A) : lanes k w (fmap (M:=list) h r) = fmap (M:=list) (fmap (M:=list) h) (lanes k w r).
Proof. revert r. induction k as [|k IH]; intros r; cbn [lanes]; [done|]. by rewrite <- fmap_take, <- fmap_drop, IH. Qed.
Lemma concat_fmap {A C} (h : A -> C) (ls : list (list A)) : concat (fmap (M:=list) (fmap (M:=list) h) ls) = fmap (M:=list) h (concat ls).
Proof. symmetry. apply concat_map. Qed.
Lemma mapM_fmap {A C D} (g : C -> D) (f : A -> option C) (f' : A -> option D) l :
  (forall x, f' x = g <$> f x) -> mapM f' l = fmap g <$> mapM f l.
Proof.
  intros H. induction l as [|x l IH]; [done|]. cbn. rewrite H. destruct (f x); [|done]. cbn.
  rewrite IH. by destruct (mapM f l).
Qed.


(** The value of symbolic bits in an environment. *)
Section Hom.
Context (env : list Z).
Let h : sbit -> bool := sval env.
Abbreviation hr := (@fmap list list_fmap sbit bool h) (only parsing).
Abbreviation hm := (@fmap list list_fmap (list sbit) (list bool) (@fmap list list_fmap sbit bool h)) (only parsing).

Lemma h_or x y : h (b_or x y) = b_or (h x) (h y).
Proof. apply existsb_app. Qed.
Lemma hom_zeros w : zeros w = hr (zeros w).
Proof. unfold zeros. by rewrite fmap_replicate. Qed.
Lemma hom_lane_at w ls i : lane_at w (hm ls) i = hr (lane_at w ls i).
Proof. unfold lane_at. rewrite list_lookup_fmap. destruct (ls !! i); [done|]. apply hom_zeros. Qed.
Lemma hom_reg_at ls i : reg_at (hm ls) i = hr (reg_at ls i).
Proof. unfold reg_at. rewrite list_lookup_fmap. by destruct (ls !! i). Qed.

Lemma hom_shuffle k a b : shuffle_bytes k (hr a) b = hr (shuffle_bytes k a b).
Proof.
  unfold shuffle_bytes. rewrite lanes_fmap, <- concat_fmap. f_equal. rewrite fmap_imap. apply imap_ext. intros i c _. unfold compose.
  case_if; [apply hom_zeros|apply hom_lane_at].
Qed.
Lemma hom_permute k w idx a : permute k w idx (hr a) = hr (permute k w idx a).
Proof.
  unfold permute. rewrite lanes_fmap, <- concat_fmap. f_equal. rewrite <- list_fmap_compose. apply list_fmap_ext.
  intros i c _. apply hom_lane_at.
Qed.
Lemma hom_shuffle_i32x4 a b imm : mm512_shuffle_i32x4 (hr a) (hr b) imm = hr (mm512_shuffle_i32x4 a b imm).
Proof. unfold mm512_shuffle_i32x4. by rewrite !lanes_fmap, !hom_lane_at, !fmap_app. Qed.
Lemma hom_extract a i : mm512_extracti32x4_epi32 (hr a) i = hr (mm512_extracti32x4_epi32 a i).
Proof. unfold mm512_extracti32x4_epi32. by rewrite lanes_fmap, hom_lane_at. Qed.
Lemma hom_insert a b i : mm512_inserti64x2 (hr a) (hr b) i = hr (mm512_inserti64x2 a b i).
Proof. unfold mm512_inserti64x2. by rewrite lanes_fmap, <- list_fmap_insert, concat_fmap. Qed.
Lemma hom_interleave la lb : interleave (hm la) (hm lb) = hr (interleave la lb).
Proof.
  unfold interleave. rewrite <- concat_fmap. f_equal. revert lb. induction la as [|x la IH]; intros [|y lb]; [done..|].
  cbn. by rewrite fmap_app, IH.
Qed.
Lemma hom_unpacklo w a b : mm_unpacklo w (hr a) (hr b) = hr (mm_unpacklo w a b).
Proof. unfold mm_unpacklo. by rewrite !lanes_fmap, hom_interleave. Qed.
Lemma hom_unpackhi w a b : mm_unpackhi w (hr a) (hr b) = hr (mm_unpackhi w a b).
Proof. unfold mm_unpackhi. by rewrite <- !fmap_drop, !lanes_fmap, hom_interleave. Qed.

Lemma hom_shl w n l : lane_shl w n (hr l) = hr (lane_shl w n l).
Proof. unfold lane_shl. by rewrite hom_zeros, <- fmap_app, fmap_take. Qed.
Lemma hom_shr w n l : lane_shr w n (hr l) = hr (lane_shr w n l).
Proof. unfold lane_shr. by rewrite hom_zeros, <- fmap_drop, <- fmap_app, fmap_take. Qed.
Lemma hom_rol w n l : lane_rol w n (hr l) = hr (lane_rol w n l).
Proof. unfold lane_rol. by rewrite <- fmap_drop, <- fmap_take, fmap_app. Qed.
Lemma hom_each k w (f : list bool -> list bool) (f' : list sbit -> list sbit) a :
  (forall l, f (hr l) = hr (f' l)) -> each_lane k w f (hr a) = hr (each_lane k w f' a).
Proof.
  intros H. unfold each_lane. rewrite lanes_fmap, <- concat_fmap, <- !list_fmap_compose. f_equal. apply list_fmap_ext.
  intros i l _. apply H.
Qed.
Lemma hom_shift (sh : nat -> nat -> list bool -> list bool) (sh' : nat -> nat -> list sbit -> list sbit) k w a c :
  (forall n l, sh w n (hr l) = hr (sh' w n l)) -> shift_lanes sh k w (hr a) c = hr (shift_lanes sh' k w a c).
Proof.
  intros H. unfold shift_lanes. rewrite lanes_fmap, <- concat_fmap. f_equal. generalize (lanes k w c), (lanes k w a).
  intros lc. induction lc as [|x lc IH]; intros [|y la]; [done..|]. cbn. by rewrite H, IH.
Qed.
Lemma hom_multishift b a : mm512_multishift_epi64_epi8 b (hr a) = hr (mm512_multishift_epi64_epi8 b a).
Proof.
  unfold mm512_multishift_epi64_epi8. rewrite lanes_fmap, <- concat_fmap. f_equal. generalize (lanes 8 64 b), (lanes 8 64 a).
  intros lc. induction lc as [|x lc IH]; intros [|y la]; [done..|]. cbn [zip_with fmap list_fmap]. rewrite IH. f_equal.
  unfold multishift_lane. rewrite <- concat_fmap, <- list_fmap_compose. f_equal. apply list_fmap_ext.
  intros i c _. cbn. by rewrite <- fmap_app, <- fmap_drop, <- fmap_take.
Qed.
Lemma hom_keep m x : keep m (h x) = h (keep m x).
Proof. by destruct m. Qed.
Lemma hom_zip_keep (k : bool -> bool) m a :
  zip_with (fun m => keep (k m)) m (hr a) = hr (zip_with (fun m => keep (k m)) m a).
Proof. revert a. induction m as [|x m IH]; intros [|y a]; [done..|]. cbn. by rewrite hom_keep, IH. Qed.
Lemma hom_and a m : and_bits (hr a) m = hr (and_bits a m).
Proof. apply (hom_zip_keep (fun x => x)). Qed.
Lemma hom_andnot m a : mm512_andnot_si512 m (hr a) = hr (mm512_andnot_si512 m a).
Proof. apply (hom_zip_keep negb). Qed.
Lemma hom_or a b : or_bits (hr a) (hr b) = hr (or_bits a b).
Proof. unfold or_bits. revert b. induction a as [|x a IH]; intros [|y b]; [done..|]. cbn [zip_with fmap list_fmap]. by rewrite h_or, IH. Qed.
Lemma hom_maskz k a : maskz_bytes k (hr a) = hr (maskz_bytes k a).
Proof.
  unfold maskz_bytes. rewrite lanes_fmap, <- concat_fmap. f_equal. rewrite imap_fmap, fmap_imap. apply imap_ext. intros i c _. unfold compose.
  case_if; [done|apply hom_zeros].
Qed.

Lemma hom_load n m off : load n (hm m) off = hr <$> load n m off.
Proof. unfold load. rewrite length_fmap. case_if; [|done]. cbn. by rewrite <- fmap_drop, <- fmap_take, concat_fmap. Qed.
Lemma hom_maskz_load k w mask m off : maskz_load k w mask (hm m) off = hr <$> maskz_load k w mask m off.
Proof.
  unfold maskz_load. erewrite (mapM_fmap hr _ _ (seq 0 k)).
  2: { intros i. instantiate (1 := fun i => if Z.testbit mask (Z.of_nat i) then load w m (off + i * w) else Some (zeros (8 * w))).
       cbv beta. case_if; [apply hom_load|]. by rewrite (hom_zeros (8 * w)). }
  destruct (mapM _ _); [|done]. cbn. by rewrite concat_fmap.
Qed.
Lemma hom_lanes k w r : lanes k w (hr r) = hm (lanes k w r).
Proof. apply lanes_fmap. Qed.
Lemma hom_mask_store k w mask a : mask_store k w mask (hr a) = hm <$> mask_store k w mask a.
Proof. unfold mask_store. case_if; [|done]. cbn. by rewrite lanes_fmap. Qed.
Lemma hom_compress k w mask a : compress k w mask (hr a) = hm (compress k w mask a).
Proof.
  unfold compress. rewrite lanes_fmap, <- concat_fmap, imap_fmap, fmap_imap. f_equal. apply imap_ext. intros i l _. unfold compose.
  case_if; [apply lanes_fmap|done].
Qed.

Lemma hom_bind {A C D E} (g : A -> C) (F : D -> E) (x : option A) (x' : option C) (k : A -> option D) (k' : C -> option E) :
  x' = g <$> x -> (forall v, k' (g v) = F <$> k v) -> (x' ≫= k') = F <$> (x ≫= k).
Proof. intros -> H. by destruct x; cbn. Qed.
End Hom.

(** ** Loop bodies *)

(** The body of a loop: from the bytes of the source planes it may read to the bytes it
    writes to each destination plane. *)
Definition simd_body := forall B : Type, BitAlg B -> list (list (list B)) -> option (list (list (list B))).

Definition plane_at {B} (src : list (list (list B))) (i : nat) : list (list B) := default [] (src !! i).
(** [for (int j = 0; j < n; j++) a[j] = ...] *)
Definition for_regs {B} (n : nat) (f : nat -> option (list B)) : option (list (list B)) := mapM f (seq 0 n).

(** Maps over the bits of registers, memory and planes. *)
Abbreviation fmap1 f := (fmap (M:=list) f) (only parsing).
Abbreviation fmap2 f := (fmap (M:=list) (fmap (M:=list) f)) (only parsing).
Abbreviation fmap3 f := (fmap (M:=list) (fmap (M:=list) (fmap (M:=list) f))) (only parsing).

(** The body on memory as it is. *)
Definition simd_run (f : simd_body) (src : list bytes) : option (list bytes) :=
  fmap2 num <$> f bool bool_bits (fmap2 (bits 8) src).

(** The body does the same whatever a bit is. *)
Definition uniform (f : simd_body) : Prop := forall env src,
  f bool bool_bits (fmap3 (sval env) src) = fmap3 (sval env) <$> f sbit sym_bits src.

Lemma hom_plane env (src : list (list (list sbit))) i :
  plane_at (fmap3 (sval env) src) i = fmap2 (sval env) (plane_at src i).
Proof. unfold plane_at. rewrite list_lookup_fmap. by destruct (src !! i). Qed.
Lemma hom_for env n (f : nat -> option (list sbit)) f' :
  (forall j, f' j = fmap1 (sval env) <$> f j) -> for_regs n f' = fmap2 (sval env) <$> for_regs n f.
Proof. apply mapM_fmap. Qed.
Lemma hom_some {A C} (F : A -> C) x x' : x' = F x -> Some x' = F <$> Some x.
Proof. by intros ->. Qed.

Create HintDb simd.
#[export] Hint Rewrite hom_reg_at hom_shuffle hom_permute hom_shuffle_i32x4 hom_extract hom_insert hom_unpacklo hom_unpackhi
  hom_multishift hom_and hom_andnot hom_or hom_maskz hom_lanes hom_compress hom_plane @concat_fmap : simd.
#[export] Hint Rewrite <- @fmap_take @fmap_drop @fmap_app : simd.

Ltac simd_unfold := unfold
  mm_maskz_shuffle_epi8, mm_shuffle_epi8, mm512_shuffle_epi8, mm512_permutexvar_epi8, mm512_permutexvar_epi32, mm_sllv_epi16, mm_srlv_epi16,
  mm_sllv_epi32, mm_srlv_epi32, mm512_sllv_epi16, mm512_srlv_epi16, mm_slli_epi32, mm_srli_epi32, mm_rol_epi32,
  mm_and_si128, mm512_and_si512, mm_or_si128, mm512_or_si512, mm512_setzero_si512, mm_ror_epi32, mm512_rol_epi32, mm512_ror_epi32, mm_maskz_mov_epi8,
  mm_loadu_si128, mm512_loadu_si512, mm_maskz_loadu_epi8, mm512_maskz_loadu_epi8, mm512_maskz_loadu_epi32,
  mm_storeu_si128, mm_store_si128, mm_storel_epi64, mm512_storeu_si512, mm_mask_storeu_epi8, mm512_mask_storeu_epi8,
  mm512_mask_storeu_epi32, mm512_mask_compressstoreu_epi8, mm512_mask_compressstoreu_epi16.

(** Rewriting, with the rules that have a premise. *)
Ltac hom_rewrite env :=
  try rewrite (hom_zeros env 512);
  repeat first
    [ progress autorewrite with simd
    | rewrite (hom_shift env lane_shr lane_shr) by (intros; apply hom_shr)
    | rewrite (hom_shift env lane_shl lane_shl) by (intros; apply hom_shl)
    | rewrite (hom_each env _ _ (lane_shr _ _) (lane_shr _ _)) by (intros; apply hom_shr)
    | rewrite (hom_each env _ _ (lane_shl _ _) (lane_shl _ _)) by (intros; apply hom_shl)
    | rewrite (hom_each env _ _ (lane_rol _ _) (lane_rol _ _)) by (intros; apply hom_rol) ].

Ltac hom_value env := hom_rewrite env; reflexivity.

Ltac hom_steps env :=
  lazymatch goal with
  | |- ((_ ≫= _) ≫= _) = _ => apply (hom_bind (fmap1 (sval env))); [hom_steps env | intros; hom_steps env]
  | |- (for_regs _ _ ≫= _) = _ =>
      apply (hom_bind (fmap2 (sval env))); [apply hom_for; intros; hom_steps env | intros; hom_steps env]
  | |- (mask_store _ _ _ _ ≫= _) = _ =>
      apply (hom_bind (fmap2 (sval env))); [hom_rewrite env; apply hom_mask_store | intros; hom_steps env]
  | |- (load _ _ _ ≫= _) = _ =>
      apply (hom_bind (fmap1 (sval env))); [rewrite hom_plane; apply hom_load | intros; hom_steps env]
  | |- (maskz_load _ _ _ _ _ ≫= _) = _ =>
      apply (hom_bind (fmap1 (sval env))); [rewrite hom_plane; apply hom_maskz_load | intros; hom_steps env]
  | |- Some _ = _ => apply hom_some; rewrite ?fmap_cons, ?fmap_nil; hom_value env
  end.

(** Proves [uniform f] for a body written with these operations. *)
Ltac uniform_solve f :=
  let env := fresh "env" in let src := fresh "src" in
  intros env src; unfold f; autounfold with simd; cbv zeta; simd_unfold; hom_steps env.

(** ** Tables *)

(** Symbolic memory: bit [j] of byte [i] is [(i, j)]. The bits outside the mask of a byte
    are zero. *)
Definition sym_byte (i : nat) (m : Z) : list sbit := (fun j => if Z.testbit m (Z.of_nat j) then [(i, j)] else []) <$> seq 0 8.
Fixpoint sym_planes (base : nat) (ws : list (list Z)) : list (list (list sbit)) :=
  match ws with
  | [] => []
  | p :: ws => imap (fun i => sym_byte (base + i)) p :: sym_planes (base + length p) ws
  end.

(** A table gives for every bit of the output the input bits it is the union of. *)
Definition row_value (env : list Z) (row : list sbit) : Z := num (fmap1 (sval env) row).
Definition table_eval (T : list (list (list sbit))) (env : list Z) : list bytes := fmap2 (row_value env) T.

Definition masked (m b : Z) : Prop := is_u8 b /\ Z.land b m = b.
Definition of_masks (ws : list (list Z)) (src : list bytes) : Prop := Forall2 (Forall2 masked) ws src.

Lemma sym_byte_value env i m b : env !! i = Some b -> masked m b -> fmap1 (sval env) (sym_byte i m) = bits 8 b.
Proof.
  intros Hi [_ Hb]. unfold sym_byte, bits. rewrite <- list_fmap_compose. apply list_fmap_ext. intros j k Hk.
  unfold compose. destruct (Z.testbit m (Z.of_nat k)) eqn:E; cbn; [unfold var_bit; cbn; by rewrite Hi, orb_false_r|].
  by rewrite <- Hb, Z.land_spec, E, andb_false_r.
Qed.

Lemma sym_planes_value ws src pre : of_masks ws src ->
  fmap3 (sval (pre ++ concat src)) (sym_planes (length pre) ws) = fmap2 (bits 8) src.
Proof.
  intros H. revert pre. induction H as [|p b ws src Hp H IH]; intros pre; [done|]. cbn [sym_planes concat]. rewrite !fmap_cons. f_equal.
  - rewrite fmap_imap. apply list_eq. intros i. rewrite list_lookup_imap, list_lookup_fmap. cbn.
    destruct (p !! i) as [w|] eqn:Ew; cbn.
    + destruct (Forall2_lookup_l _ _ _ _ _ Hp Ew) as (x & Hx & Hw). rewrite Hx. cbn. f_equal.
      apply sym_byte_value; [|done]. rewrite lookup_app_r by lia. replace (length pre + i - length pre)%nat with i by lia.
      by apply lookup_app_l_Some.
    + rewrite lookup_ge_None_2; [done|]. rewrite <- (Forall2_length _ _ _ Hp). by apply lookup_ge_None_1.
  - rewrite app_assoc, (Forall2_length _ _ _ Hp), <- length_app. apply IH.
Qed.

(** One symbolic run decides what a body does. *)
Lemma simd_table f ws T src : uniform f -> f sbit sym_bits (sym_planes 0 ws) = Some T -> of_masks ws src ->
  simd_run f src = Some (table_eval T (concat src)).
Proof.
  intros Hu HT Hw. unfold simd_run. rewrite <- (sym_planes_value ws src []) by done. rewrite Hu. cbn [app length]. rewrite HT. cbn.
  f_equal. unfold table_eval. rewrite <- list_fmap_compose. apply list_fmap_ext. intros i p _. cbn. by rewrite <- list_fmap_compose.
Qed.

(** A table against expressions of [BitExpr]. *)
Definition row_is (ws : list nat) (e : bexp) (row : list sbit) : bool :=
  match sym ws e with Some l => same_bits l row | None => false end.

Lemma row_is_value ws env e row : Forall2 (fun w v => 0 <= v < 2 ^ Z.of_nat w) ws env ->
  row_is ws e row = true -> bval env e = row_value env row.
Proof.
  intros He. unfold row_is. destruct (sym ws e) as [l|] eqn:E; [|done]. intros H. apply Z.bits_inj'. intros k Hk.
  rewrite <- (Z2Nat.id k) by done. unfold row_value. rewrite (sym_sound ws env He e l), num_testbit, (same_bits_spec _ _ _ H) by done.
  unfold bit_at. rewrite list_lookup_fmap. by destruct (row !! Z.to_nat k).
Qed.

Lemma rows_value ws env es rows : Forall2 (fun w v => 0 <= v < 2 ^ Z.of_nat w) ws env ->
  forallb (fun p => row_is ws p.1 p.2) (zip es rows) = true -> length es = length rows ->
  fmap1 (bval env) es = fmap1 (row_value env) rows.
Proof.
  intros He. revert rows. induction es as [|e es IH]; intros [|r rows] H Hlen; try done.
  cbn in H. apply andb_true_iff in H as [H1 H2]. rewrite !fmap_cons. f_equal; [by eapply row_is_value|]. apply IH; [done|]. by injection Hlen.
Qed.

(** The groups of a batch. *)
Fixpoint renumber (si : list nat) (n k v : nat) : nat :=
  match si with
  | [] => v
  | s :: si => if (v <? s)%nat then (k * s + v)%nat else (n * s + renumber si n k (v - s))%nat
  end.
Definition renumber_row (si : list nat) (n k : nat) : list sbit -> list sbit :=
  fmap1 (fmap1 (fun p : nat * nat => (renumber si n k p.1, p.2))).
(** The table of [n] groups, from that of one. *)
Definition table_groups (si : list nat) (n : nat) (T : list (list (list sbit))) : list (list (list sbit)) :=
  (fun p => concat ((fun k => fmap1 (renumber_row si n k) p) <$> seq 0 n)) <$> T.

(** The [k]-th group of a buffer. *)
Definition group_at (si : list nat) (k : nat) (src : list bytes) : list bytes :=
  zip_with (fun s b => take s (drop (k * s) b)) si src.

Lemma group_at_lookup si n k src v : holds si n src -> (k < n)%nat ->
  concat (group_at si k src) !! v = concat src !! renumber si n k v.
Proof.
  intros H Hk. revert v. induction H as [|s b si src Hb H IH]; intros v; [done|]. cbn [group_at zip_with concat renumber].
  assert (length (take s (drop (k * s) b)) = s) as Hl by (rewrite length_take, length_drop; nia).
  destruct (Nat.ltb_spec v s).
  - rewrite !lookup_app_l by nia. by rewrite lookup_take_lt, lookup_drop by lia.
  - rewrite lookup_app_r by lia. rewrite lookup_app_r by nia. rewrite Hl, IH. f_equal. lia.
Qed.

Lemma renumber_value si n k src row : holds si n src -> (k < n)%nat ->
  row_value (concat src) (renumber_row si n k row) = row_value (concat (group_at si k src)) row.
Proof.
  intros H Hk. unfold row_value, renumber_row. f_equal. rewrite <- list_fmap_compose. apply list_fmap_ext. intros j b _. unfold compose, sval.
  induction b as [|p b IH]; [done|]. cbn. f_equal; [|exact IH]. unfold var_bit. cbn. by rewrite (group_at_lookup _ n) by done.
Qed.

(** The output of a loop over groups, plane by plane. *)
Lemma group_map_planes si so f n src : (forall c, length (f c) = length so) -> length si = length src ->
  group_map si so f n src = (fun p => concat ((fun k => plane (f (group_at si k src)) p) <$> seq 0 n)) <$> seq 0 (length so).
Proof.
  intros Hf. revert src. induction n as [|n IH]; intros src Hl; cbn [group_map].
  - apply list_eq. intros i. rewrite list_lookup_fmap. destruct (decide (i < length so)%nat).
    + rewrite lookup_seq_lt by done. by rewrite lookup_replicate_2.
    + rewrite lookup_seq_ge by lia. by apply lookup_replicate_None; lia.
  - rewrite IH by (rewrite length_zip_with; lia). apply list_eq. intros i.
    rewrite lookup_zip_with, !list_lookup_fmap. destruct (decide (i < length so)%nat) as [Hi|].
    + rewrite lookup_seq_lt by done. cbn [fmap option_fmap option_map mbind option_bind].
      destruct (lookup_lt_is_Some_2 (f (zip_with take si src)) i) as [x Hx]; [by rewrite Hf|]. rewrite Hx. cbn.
      assert (group_at si 0 src = zip_with take si src) as E0.
      { unfold group_at. f_equal. }
      unfold plane at 2. rewrite E0, Hx. cbn. do 2 f_equal. rewrite <- fmap_S_seq, <- list_fmap_compose. f_equal.
      apply list_fmap_ext. intros j k _. cbn. do 2 f_equal. unfold group_at. clear. revert si. induction src as [|b src IH]; intros [|s si]; [done..|].
      cbn. by rewrite IH, drop_drop.
    + rewrite lookup_seq_ge by lia. cbn. by destruct (f _ !! i).
Qed.

(** ** Sizes of planes *)

Definition times (n : nat) (sizes : list nat) : list nat := Nat.mul n <$> sizes.
(** Planes of given lengths. *)
Definition sized (sizes : list nat) (bs : list bytes) : Prop := Forall2 (fun s b => length b = s) sizes bs.

Lemma sized_holds n sizes bs : sized (times n sizes) bs <-> holds sizes n bs.
Proof. unfold sized, times, holds. by rewrite Forall2_fmap_l. Qed.

Lemma zip_with_app_assoc (x y z : list bytes) :
  zip_with app (zip_with app x y) z = zip_with app x (zip_with app y z).
Proof. revert y z. induction x as [|a x IH]; intros [|b y] [|c z]; [done..|]. cbn. by rewrite IH, app_assoc. Qed.
Lemma zip_with_app_nil n (x : list bytes) : length x = n -> zip_with app (replicate n []) x = x.
Proof. intros <-. induction x as [|a x IH]; [done|]. cbn. by rewrite IH. Qed.
Lemma drop_times n si (src : list bytes) :
  zip_with drop (times n si) (zip_with drop si src) = zip_with drop (times (S n) si) src.
Proof.
  unfold times. revert src. induction si as [|s si IH]; intros [|b src]; [done..|]. cbn. rewrite IH, drop_drop. done.
Qed.
Lemma drop_times_0 si (src : list bytes) : length si = length src -> zip_with drop (times 0 si) src = src.
Proof. unfold times. revert src. induction si as [|s si IH]; intros [|b src] H; [done..|]. cbn in *. rewrite IH by lia. done. Qed.

Section GroupMapParts.
Context (si so : list nat) (f : list bytes -> list bytes).
Hypothesis f_planes : forall c, length (f c) = length so.

Lemma group_map_length n src : length (group_map si so f n src) = length so.
Proof.
  revert src. induction n as [|n IH]; intros src; cbn [group_map]; [apply length_replicate|].
  rewrite length_zip_with, IH, f_planes. lia.
Qed.
Lemma group_map_app a b src : length si = length src ->
  group_map si so f (a + b) src = zip_with app (group_map si so f a src) (group_map si so f b (zip_with drop (times a si) src)).
Proof.
  revert src. induction a as [|a IH]; intros src Hl.
  - cbn [group_map plus]. rewrite zip_with_app_nil by apply group_map_length. by rewrite drop_times_0.
  - cbn [group_map plus]. rewrite IH by (rewrite length_zip_with; lia). by rewrite zip_with_app_assoc, drop_times.
Qed.
Lemma group_map_prefix n src : length si = length src ->
  group_map si so f n (zip_with take (times n si) src) = group_map si so f n src.
Proof.
  revert src. induction n as [|n IH]; intros src Hl; cbn [group_map]; [done|]. f_equal.
  - f_equal. unfold times. clear -Hl. revert src Hl. induction si as [|s si' IH]; intros [|b src] H; [done..|]. cbn in *.
    rewrite IH by lia. rewrite take_take. do 2 f_equal. lia.
  - rewrite <- (IH (zip_with drop si src)) by (rewrite length_zip_with; lia). f_equal. unfold times. clear -Hl.
    revert src Hl. induction si as [|s si' IH]; intros [|b src] H; [done..|]. cbn in *. rewrite IH by lia.
    rewrite <- take_drop_commute. done.
Qed.
End GroupMapParts.

(** The masks of the bytes at even and odd places: planes of bytes have [(255, 255)], planes
    of 10-bit samples in 16 bits [(255, 3)]. *)
Abbreviation masks := (Z * Z)%type.
Definition byte_mask (q : masks) (i : nat) : Z := if Nat.even i then q.1 else q.2.
Definition fits (q : masks) (p : bytes) : Prop := forall i b, p !! i = Some b -> masked (byte_mask q i) b.
Definition plane_masks (q : masks) (s : nat) : list Z := byte_mask q <$> seq 0 s.
Definition any_bytes : masks := (255, 255).
Definition samples (bits : nat) : masks := (255, 2 ^ Z.of_nat (bits - 8) - 1).

Lemma masked_ones n b : (n <= 8)%nat -> is_bits n b -> masked (2 ^ Z.of_nat n - 1) b.
Proof.
  unfold is_bits, masked, is_u8. intros Hn Hb. assert (2 ^ Z.of_nat n <= 2 ^ 8) by (apply Z.pow_le_mono_r; lia).
  split; [lia|]. replace (2 ^ Z.of_nat n - 1) with (Z.ones (Z.of_nat n)) by (rewrite Z.ones_equiv; lia).
  rewrite Z.land_ones by lia. by apply Z.mod_small.
Qed.
Lemma masked_range m b : 0 <= m -> masked m b -> 0 <= b <= m.
Proof.
  intros Hm [_ H]. apply Z.ldiff_le; [done|]. rewrite <- H. apply Z.bits_inj'. intros k _.
  rewrite Z.ldiff_spec, Z.land_spec, Z.bits_0. by destruct (Z.testbit b k), (Z.testbit m k).
Qed.

Lemma fits_bytes p : is_bytes p -> fits any_bytes p.
Proof.
  unfold is_bytes, fits, byte_mask. rewrite Forall_lookup. intros H i b Hi. specialize (H i b Hi).
  replace (if Nat.even i then _ else _) with (2 ^ Z.of_nat 8 - 1) by (by case_if). by apply masked_ones.
Qed.
Lemma fits_samples bits p : (8 <= bits <= 16)%nat -> is_samples bits p -> fits (samples bits) p.
Proof.
  intros Hb H i b Hi. revert i b Hi. revert p H.
  fix IH 1. intros [|lo [|hi p]] H i b Hi; [done|done|]. destruct H as (H1 & H2 & H3). destruct i as [|[|i]].
  - injection Hi as <-. by apply (masked_ones 8).
  - injection Hi as <-. by apply (masked_ones (bits - 8)); [lia|].
  - apply (IH p H3 i b Hi).
Qed.

Lemma fits_take q n p : fits q p -> fits q (take n p).
Proof. intros H i b Hi. apply lookup_take_Some in Hi as [Hi _]. by apply H. Qed.
Lemma fits_drop q n p : q.1 = q.2 \/ Nat.even n = true -> fits q p -> fits q (drop n p).
Proof.
  intros Hn H i b Hi. rewrite lookup_drop in Hi. specialize (H _ _ Hi). unfold byte_mask in *.
  destruct Hn as [Hn|Hn]; [rewrite Hn in *; by case_if; case_if_in H|]. by rewrite Nat.even_add, Hn in H; destruct (Nat.even i).
Qed.

Lemma fits_of_masks q sizes c : sized sizes c -> Forall (fits q) c -> of_masks (plane_masks q <$> sizes) c.
Proof.
  intros Hs. induction Hs as [|s b sizes c Hb _ IH]; intros HF; [constructor|]. apply Forall_cons in HF as [H HF].
  rewrite fmap_cons. constructor; [|by apply IH]. apply Forall2_same_length_lookup_2.
  - unfold plane_masks. by rewrite length_fmap, length_seq.
  - intros i w x Hw Hx. unfold plane_masks in Hw. apply list_lookup_fmap_Some in Hw as (j & -> & Hj).
    apply lookup_seq in Hj as [-> Hj]. by apply H.
Qed.

(** ** Loops over batches of groups *)

(** One loop of a routine: [sg_groups] pixel groups a turn; the turn may touch [sg_win]
    bytes of each source plane. *)
Record stage := mk_stage { sg_groups : nat; sg_win : list nat; sg_body : list bytes -> option (list bytes) }.

(** What was written so far, and the source and the destination from here on. *)
Definition cursor : Type := list bytes * list bytes * list bytes.

(** A turn. A store may reach beyond the groups of the turn, but not beyond the buffer. *)
Definition stage_step (si so : list nat) (sg : stage) (st : cursor) : option cursor :=
  let '(out, src, dst) := st in
  c ← fst <$> split_groups (sg_win sg) src;
  d ← sg_body sg c;
  if bool_decide (Forall2 (fun d b => (length d <= length b)%nat) d dst) then
    let dst := zip_with (fun d b => d ++ drop (length d) b) d dst in
    Some (zip_with app out (zip_with take (times (sg_groups sg) so) dst), zip_with drop (times (sg_groups sg) si) src,
          zip_with drop (times (sg_groups sg) so) dst)
  else None.

Fixpoint stage_loop (si so : list nat) (sg : stage) (turns : nat) (st : cursor) : option cursor :=
  match turns with O => Some st | S turns => st ← stage_step si so sg st; stage_loop si so sg turns st end.

(** Loops in a row, each with its number of turns. *)
Fixpoint run_plan (si so : list nat) (plan : list (nat * stage)) (st : cursor) : option cursor :=
  match plan with
  | [] => Some st
  | (turns, sg) :: plan => st ← stage_loop si so sg turns st; run_plan si so plan st
  end.
(** [while (pg_cnt >= n) { ...; pg_cnt -= n; }] for each loop in turn. *)
Fixpoint batches (stages : list stage) (pg_cnt : nat) : list (nat * stage) :=
  match stages with
  | [] => []
  | sg :: stages => (pg_cnt / sg_groups sg, sg)%nat :: batches stages (pg_cnt mod sg_groups sg)
  end.
Definition plan_conv (si so : list nat) (plan : list (nat * stage)) (src dst : list bytes) : option (Z * list bytes) :=
  '(out, _, dst) ← run_plan si so plan (replicate (length so) [], src, dst);
  Some (0, zip_with app out dst).
Definition simd_conv (si so : list nat) (stages : list stage) : conv := fun w h =>
  plan_conv si so (batches stages (Z.to_nat (u32 (w * h) / 2))).
(** The V210 routines: [k] groups of two pixels a turn, and no rest. *)
Definition v210_simd_conv (si so : list nat) (k : Z) (sg : stage) : conv := fun w h src dst =>
  let pg_cnt := u32 (w * h) / 2 in
  if negb (pg_cnt mod k =? 0) then Some (- EINVAL, dst) else plan_conv si so [(Z.to_nat (pg_cnt / k), sg)] src dst.
(** The loop over the groups that are left. *)
Definition scalar_stage (si : list nat) (f : list bytes -> list bytes) : stage := mk_stage 1 si (fun c => Some (f c)).
Definition simd_stage (n : nat) (win : list nat) (f : simd_body) : stage := mk_stage n win (simd_run f).

(** Planes with room for [n] groups. *)
Definition has_room (sizes : list nat) (n : nat) (bs : list bytes) : Prop :=
  Forall2 (fun s b => (n * s <= length b)%nat) sizes bs.
Definition same_lengths : list bytes -> list bytes -> Prop := Forall2 (fun a b => length a = length b).

Lemma holds_room sizes n bs : holds sizes n bs -> has_room sizes n bs.
Proof. intros H. eapply Forall2_impl; [exact H|]. cbn. lia. Qed.
Lemma room_drop sizes a m bs : has_room sizes (a + m) bs -> has_room sizes m (zip_with drop (times a sizes) bs).
Proof.
  unfold has_room, times. intros H. induction H as [|s b sizes' bs' Hb _ IH]; cbn; constructor; [|exact IH].
  rewrite length_drop. nia.
Qed.
Lemma room_weaken sizes m n bs : (m <= n)%nat -> has_room sizes n bs -> has_room sizes m bs.
Proof. intros Hn H. eapply Forall2_impl; [exact H|]. cbn. intros. nia. Qed.
Lemma room_same sizes m a b : same_lengths a b -> has_room sizes m b -> has_room sizes m a.
Proof.
  intros H. revert sizes. induction H as [|x y a' b' Hxy _ IH]; intros sizes H.
  - apply Forall2_nil_inv_r in H as ->. constructor.
  - apply Forall2_cons_inv_r in H as (s & sizes' & Hs & H & ->). constructor; [lia|by apply IH].
Qed.
Lemma same_drop sizes a b : same_lengths a b -> same_lengths (zip_with drop sizes a) (zip_with drop sizes b).
Proof. intros H. revert sizes. induction H as [|x y a' b' Hx _ IH]; intros [|s sizes]; cbn; constructor; [rewrite !length_drop; lia|exact (IH sizes)]. Qed.
Lemma same_trans a b c : same_lengths a b -> same_lengths b c -> same_lengths a c.
Proof.
  intros H. revert c. induction H as [|x y a' b' Hx _ IH]; intros c H2.
  - exact H2.
  - apply Forall2_cons_inv_l in H2 as (z & c' & Hz & H2 & ->). constructor; [congruence|exact (IH _ H2)].
Qed.
Lemma same_refl a : same_lengths a a.
Proof. apply Forall_Forall2_diag, Forall_true. done. Qed.

(** Loads and stores stay inside when there is room for what they touch. *)
Lemma room_window (sizes win : list nat) n m bs : Forall2 (fun s w => (n * s <= w <= (n + m) * s)%nat) sizes win ->
  has_room sizes (n + m) bs -> Forall2 (fun w b => (w <= length b)%nat) win bs.
Proof.
  intros H. revert bs. induction H as [|s w sizes' win' Hw _ IH]; intros bs Hb.
  - apply Forall2_nil_inv_l in Hb as ->. constructor.
  - apply Forall2_cons_inv_l in Hb as (b & bs' & Hb & Hbs & ->). constructor; [lia|by apply IH].
Qed.
Lemma window_sized win bs : Forall2 (fun w b => (w <= length b)%nat) win bs -> sized win (zip_with take win bs).
Proof. intros H. induction H; cbn; constructor; [rewrite length_take; lia|done]. Qed.
Lemma window_groups (sizes win : list nat) n m (bs : list bytes) : Forall2 (fun s w => (n * s <= w <= (n + m) * s)%nat) sizes win ->
  zip_with take (times n sizes) (zip_with take win bs) = zip_with take (times n sizes) bs.
Proof.
  intros H. unfold times. revert bs. induction H as [|s w sizes' win' Hw _ IH]; intros [|b bs]; [done..|].
  cbn. rewrite IH, take_take. do 2 f_equal. lia.
Qed.
(** Storing [d] over the beginning of [dst]. *)
Lemma store_over (d dst : list bytes) : Forall2 (fun d b => (length d <= length b)%nat) d dst ->
  same_lengths (zip_with (fun d b => d ++ drop (length d) b) d dst) dst.
Proof. intros H. induction H; cbn; constructor; [rewrite length_app, length_drop; lia|done]. Qed.
Lemma store_take n so (d dst : list bytes) : Forall2 (fun s b => (n * s <= length b)%nat) so d -> length d = length dst ->
  zip_with take (times n so) (zip_with (fun d b => d ++ drop (length d) b) d dst) = zip_with take (times n so) d.
Proof.
  intros H. unfold times. revert dst. induction H as [|s b so' d' Hs _ IH]; intros [|x dst] Hl; try done.
  cbn. rewrite IH by (cbn in Hl; lia). by rewrite take_app_le by lia.
Qed.

Lemma zip_with_app_nil_r n (x : list bytes) : length x = n -> zip_with app x (replicate n []) = x.
Proof. intros <-. induction x as [|a x IH]; [done|]. cbn. by rewrite IH, app_nil_r. Qed.
Lemma drop_times_add a b si (src : list bytes) :
  zip_with drop (times b si) (zip_with drop (times a si) src) = zip_with drop (times (a + b) si) src.
Proof.
  unfold times. revert src. induction si as [|s si IH]; intros [|x src]; [done..|]. cbn. rewrite IH, drop_drop. do 2 f_equal. lia.
Qed.
Lemma Forall_fits_take q sizes src : Forall (fits q) src -> Forall (fits q) (zip_with take sizes src).
Proof. intros H. revert sizes. induction H as [|b src Hb _ IH]; intros [|s sizes]; cbn; constructor; [by apply fits_take|apply IH]. Qed.
Lemma Forall_fits_drop q n si src : q.1 = q.2 \/ Forall (fun s => Nat.even s = true) si ->
  Forall (fits q) src -> Forall (fits q) (zip_with drop (times n si) src).
Proof.
  intros Hsi H. unfold times. revert si Hsi. induction H as [|b src Hb _ IH]; intros [|s si] Hsi; cbn; constructor.
  - apply fits_drop; [|done]. destruct Hsi as [Hq|Hsi]; [by left|]. right. apply Forall_cons in Hsi as [Hs _].
    by rewrite Nat.even_mul, Hs, orb_true_r.
  - apply IH. destruct Hsi as [Hq|Hsi]; [by left|]. right. by apply Forall_cons in Hsi as [_ ?].
Qed.

(** Nothing is left of a destination that took all its groups. *)
Lemma all_written so n dst d : holds so n dst -> same_lengths d (zip_with drop (times n so) dst) -> d = replicate (length so) [].
Proof.
  intros Hd H. apply holds_nil. unfold times in H. revert d H. induction Hd as [|s b so' dst Hb _ IH]; intros d H.
  - apply Forall2_nil_inv_r in H as ->. constructor.
  - cbn in H. apply Forall2_cons_inv_r in H as (x & d' & Hx & H & ->). constructor; [|by apply IH]. rewrite length_drop in Hx. lia.
Qed.

(** Planes and what follows them. *)
Lemma window_app (win : list nat) (bs rs : list bytes) : length rs = length bs -> Forall2 (fun w b => (w <= length b)%nat) win bs ->
  Forall2 (fun w b => (w <= length b)%nat) win (zip_with app bs rs).
Proof.
  intros Hl H. revert rs Hl. induction H as [|w b win bs Hw _ IH]; intros [|r rs] Hl; try done. constructor; [rewrite length_app; lia|].
  apply IH. by injection Hl.
Qed.
Lemma take_zip_app (win : list nat) (bs rs : list bytes) : length rs = length bs -> Forall2 (fun w b => (w <= length b)%nat) win bs ->
  zip_with take win (zip_with app bs rs) = zip_with take win bs.
Proof.
  intros Hl H. revert rs Hl. induction H as [|w b win bs Hw _ IH]; intros [|r rs] Hl; try done. cbn. rewrite take_app_le by done.
  rewrite IH; [done|]. by injection Hl.
Qed.
Lemma drop_zip_app (win : list nat) (bs rs : list bytes) : length rs = length bs -> Forall2 (fun w b => (w <= length b)%nat) win bs ->
  zip_with drop win (zip_with app bs rs) = zip_with app (zip_with drop win bs) rs.
Proof.
  intros Hl H. revert rs Hl. induction H as [|w b win bs Hw _ IH]; intros [|r rs] Hl; try done. cbn. rewrite drop_app_le by done.
  rewrite IH; [done|]. by injection Hl.
Qed.
Lemma store_app (d dst rd : list bytes) : length rd = length dst -> Forall2 (fun d b => (length d <= length b)%nat) d dst ->
  zip_with (fun d b => d ++ drop (length d) b) d (zip_with app dst rd) = zip_with app (zip_with (fun d b => d ++ drop (length d) b) d dst) rd.
Proof.
  intros Hl H. revert rd Hl. induction H as [|w b win bs Hw _ IH]; intros [|r rs] Hl; try done. cbn. rewrite drop_app_le, app_assoc by done.
  rewrite IH; [done|]. by injection Hl.
Qed.
Lemma zip_take_drop (sizes : list nat) (bs : list bytes) : length sizes = length bs ->
  zip_with app (zip_with take sizes bs) (zip_with drop sizes bs) = bs.
Proof.
  revert bs. induction sizes as [|s sizes IH]; intros [|b bs] Hl; try done. cbn. rewrite take_drop, IH; [done|]. by injection Hl.
Qed.
Lemma room_prefix sizes n bs : has_room sizes n bs -> holds sizes n (zip_with take (times n sizes) bs).
Proof. unfold times. intros H. induction H; cbn; constructor; [rewrite length_take; lia|done]. Qed.
Lemma room_split sizes n bs : has_room sizes (S n) bs ->
  split_groups sizes bs = Some (zip_with take sizes bs, zip_with drop sizes bs) /\ has_room sizes n (zip_with drop sizes bs).
Proof.
  intros H. split.
  - unfold split_groups. rewrite bool_decide_eq_true_2; [done|]. eapply Forall2_impl; [exact H|]. cbn. lia.
  - induction H; cbn; constructor; [rewrite length_drop; lia|done].
Qed.
Lemma take_times_S n sizes (bs : list bytes) : zip_with take sizes bs = zip_with take sizes (zip_with take (times (S n) sizes) bs).
Proof.
  unfold times. revert bs. induction sizes as [|s sizes IH]; intros [|b bs]; try done. cbn. rewrite <- IH, take_take. do 2 f_equal. lia.
Qed.
Lemma drop_take_times n sizes (bs : list bytes) :
  zip_with drop sizes (zip_with take (times (S n) sizes) bs) = zip_with take (times n sizes) (zip_with drop sizes bs).
Proof.
  unfold times. revert bs. induction sizes as [|s sizes IH]; intros [|b bs]; try done. cbn. rewrite IH, take_drop_commute. done.
Qed.

Section Loops.
Context (q : masks) (si so : list nat) (f : list bytes -> list bytes).
Hypothesis si_ok : q.1 = q.2 \/ Forall (fun s => Nat.even s = true) si.
Hypothesis f_planes : forall c, length (f c) = length so.
Hypothesis f_len : forall c, holds si 1 c -> holds so 1 (f c).

(** A loop does the groups it takes as the scalar body does, with [e] groups of room after them. *)
Definition stage_ok (e : nat) (sg : stage) : Prop :=
  (0 < sg_groups sg)%nat /\
  Forall2 (fun s w => (sg_groups sg * s <= w <= (sg_groups sg + e) * s)%nat) si (sg_win sg) /\
  forall c, sized (sg_win sg) c -> Forall (fits q) c ->
    exists d, sg_body sg c = Some d /\
      Forall2 (fun s b => (sg_groups sg * s <= length b <= (sg_groups sg + e) * s)%nat) so d /\
      zip_with take (times (sg_groups sg) so) d = group_map si so f (sg_groups sg) c.

Lemma scalar_stage_ok : stage_ok 0 (scalar_stage si f).
Proof.
  split_and!; cbn [scalar_stage sg_groups sg_win sg_body]; [lia|apply Forall_Forall2_diag, Forall_true; lia|].
  intros c Hc _. exists (f c). assert (holds si 1 c) as H1 by (eapply Forall2_impl; [exact Hc|cbn; lia]).
  pose proof (f_len c H1) as H2. split_and!; [done|eapply Forall2_impl; [exact H2|cbn; lia]|].
  cbn [group_map]. assert (zip_with take si c = c) as ->.
  { clear -Hc. induction Hc as [|s b si' c' Hb _ IH]; [done|]. cbn. by rewrite IH, take_ge by lia. }
  rewrite zip_with_app_nil_r by apply f_planes. clear -H2. unfold times.
  induction H2 as [|s b so' d Hb _ IH]; [done|]. cbn in *. by rewrite IH, take_ge by lia.
Qed.

Lemma stage_step_spec e sg m out src dst : stage_ok e sg ->
  has_room si (sg_groups sg + m) src -> Forall (fits q) src -> has_room so (sg_groups sg + m) dst -> (e <= m)%nat ->
  exists dst', same_lengths dst' (zip_with drop (times (sg_groups sg) so) dst) /\
    stage_step si so sg (out, src, dst) =
      Some (zip_with app out (group_map si so f (sg_groups sg) src), zip_with drop (times (sg_groups sg) si) src, dst').
Proof.
  intros (Hn & Hw & Hb) Hs HF Hd He. unfold stage_step, split_groups. set (n := sg_groups sg) in *.
  assert (n + e <= n + m)%nat as Hem by lia.
  pose proof (room_window _ _ _ _ _ Hw (room_weaken _ _ _ _ Hem Hs)) as Hwin.
  rewrite bool_decide_eq_true_2 by done. cbn [fmap option_fmap option_map fst mbind option_bind].
  destruct (Hb (zip_with take (sg_win sg) src) (window_sized _ _ Hwin) (Forall_fits_take _ _ _ HF)) as (d & -> & Hl & Ht).
  assert (Forall2 (fun d b => (length d <= length b)%nat) d dst) as Hdd.
  { apply (Forall2_fmap_l length (fun w b => (w <= length b)%nat)). apply (room_window so _ n e);
      [by apply Forall2_fmap_r|exact (room_weaken _ _ _ _ Hem Hd)]. }
  cbn [mbind option_bind]. rewrite bool_decide_eq_true_2 by done. eexists. split.
  { apply same_drop, store_over, Hdd. }
  rewrite store_take by (by eapply Forall2_length || (eapply Forall2_impl; [exact Hl|cbn; lia])). do 3 f_equal. rewrite Ht.
  rewrite <- (group_map_prefix si so f n src) by (by eapply Forall2_length).
  rewrite <- (group_map_prefix si so f n (zip_with take _ src)). 2: { rewrite length_zip_with, (Forall2_length _ _ _ Hs), (Forall2_length _ _ _ Hwin). lia. }
  by rewrite (window_groups si _ n e).
Qed.

Lemma stage_loop_spec e sg k m out src dst : stage_ok e sg -> length out = length so ->
  has_room si (sg_groups sg * k + m) src -> Forall (fits q) src -> has_room so (sg_groups sg * k + m) dst -> k = 0%nat \/ (e <= m)%nat ->
  exists dst', same_lengths dst' (zip_with drop (times (sg_groups sg * k) so) dst) /\
    stage_loop si so sg k (out, src, dst) =
      Some (zip_with app out (group_map si so f (sg_groups sg * k) src), zip_with drop (times (sg_groups sg * k) si) src, dst').
Proof.
  intros Hok. set (n := sg_groups sg). revert out src dst. induction k as [|k IH]; intros out src dst Ho Hs HF Hd He; cbn [stage_loop].
  - rewrite !Nat.mul_0_r in *. exists dst. rewrite !drop_times_0 by (by eapply Forall2_length). split; [apply same_refl|].
    cbn [group_map]. by rewrite zip_with_app_nil_r.
  - destruct He as [? |He]; [done|]. replace (n * S k + m)%nat with (n + (n * k + m))%nat in * by lia.
    destruct (stage_step_spec e sg (n * k + m) out src dst) as (dst1 & Hd1 & ->); try done; [lia|].
    cbn [mbind option_bind]. fold n in Hd1 |- *.
    destruct (IH (zip_with app out (group_map si so f n src)) (zip_with drop (times n si) src) dst1) as (dst2 & Hd2 & ->); try done.
    + rewrite length_zip_with, group_map_length by done. lia.
    + by apply room_drop.
    + by apply Forall_fits_drop.
    + eapply room_same; [exact Hd1|]. by apply room_drop.
    + by right.
    + exists dst2. replace (n * S k)%nat with (n + n * k)%nat by lia. rewrite <- !drop_times_add. split.
      * eapply same_trans; [exact Hd2|]. by apply same_drop.
      * rewrite group_map_app by (done || by eapply Forall2_length). by rewrite zip_with_app_assoc.
Qed.

(** Loops that together take [m] groups. *)
Inductive plan_ok : list (nat * stage) -> nat -> Prop :=
  | plan_nil : plan_ok [] 0
  | plan_cons k sg e plan m : stage_ok e sg -> k = 0%nat \/ (e <= m)%nat -> plan_ok plan m ->
      plan_ok ((k, sg) :: plan) (sg_groups sg * k + m).

Lemma run_plan_spec plan m out src dst : plan_ok plan m -> length out = length so ->
  has_room si m src -> Forall (fits q) src -> has_room so m dst ->
  exists dst', same_lengths dst' (zip_with drop (times m so) dst) /\
    run_plan si so plan (out, src, dst) = Some (zip_with app out (group_map si so f m src), zip_with drop (times m si) src, dst').
Proof.
  intros Hp. revert out src dst. induction Hp as [|k sg e plan m Hok He Hp IH]; intros out src dst Ho Hs HF Hd; cbn [run_plan].
  - exists dst. rewrite !drop_times_0 by (by eapply Forall2_length). split; [apply same_refl|]. cbn [group_map].
    by rewrite zip_with_app_nil_r.
  - destruct (stage_loop_spec e sg k m out src dst) as (dst1 & Hd1 & ->); try done. cbn [mbind option_bind].
    edestruct IH as (dst2 & Hd2 & ->).
    + rewrite length_zip_with, group_map_length by done. lia.
    + by apply room_drop.
    + by apply Forall_fits_drop.
    + eapply room_same; [exact Hd1|]. by apply room_drop.
    + exists dst2. rewrite <- !drop_times_add. split.
      * eapply same_trans; [exact Hd2|]. by apply same_drop.
      * rewrite group_map_app by (done || by eapply Forall2_length). by rewrite zip_with_app_assoc.
Qed.

Lemma batches_ok stages sg m : Forall (stage_ok 0) stages -> stage_ok 0 sg -> sg_groups sg = 1%nat ->
  plan_ok (batches (stages ++ [sg]) m) m.
Proof.
  intros HF Hsg H1. revert m. induction HF as [|s stages Hs _ IH]; intros m; cbn [app batches].
  - rewrite H1, Nat.div_1_r. pose proof (plan_cons m sg 0 [] 0 Hsg (or_intror (le_n 0)) plan_nil) as H. rewrite H1 in H.
    by replace (1 * m + 0)%nat with m in H by lia.
  - pose proof (plan_cons (m / sg_groups s)%nat s 0 _ _ Hs (or_intror (Nat.le_0_l _)) (IH (m mod sg_groups s)%nat)) as H.
    rewrite <- Nat.div_mod_eq in H. exact H.
Qed.

Lemma plan_conv_spec plan n src dst : plan_ok plan n -> holds si n src -> Forall (fits q) src -> holds so n dst ->
  plan_conv si so plan src dst = Some (0, group_map si so f n src).
Proof.
  intros Hp Hs HF Hd. unfold plan_conv.
  destruct (run_plan_spec plan n (replicate (length so) []) src dst) as (dst' & Hd' & ->); try done;
    [apply length_replicate|by apply holds_room..|].
  cbn [mbind option_bind]. do 2 f_equal. rewrite zip_with_app_nil by (by apply group_map_length).
  rewrite (all_written so n dst dst') by done. by apply zip_with_app_nil_r, group_map_length.
Qed.

(** Buffers longer than the groups: the bytes behind them are neither read nor written. *)
Lemma stage_step_app sg out src dst out' src' dst' rs rd :
  Forall2 (fun s w => (sg_groups sg * s <= w)%nat) si (sg_win sg) ->
  has_room so (sg_groups sg) dst -> length rs = length src -> length rd = length dst ->
  stage_step si so sg (out, src, dst) = Some (out', src', dst') ->
  same_lengths dst' (zip_with drop (times (sg_groups sg) so) dst) /\
  src' = zip_with drop (times (sg_groups sg) si) src /\
  stage_step si so sg (out, zip_with app src rs, zip_with app dst rd) = Some (out', zip_with app src' rs, zip_with app dst' rd).
Proof.
  intros Hw Hd Hrs Hrd. unfold stage_step, split_groups. case_bool_decide as Hwin; [|done].
  cbn [fmap option_fmap option_map fst mbind option_bind]. rewrite bool_decide_eq_true_2 by (by apply window_app).
  rewrite take_zip_app by done. cbn [fmap option_fmap option_map fst mbind option_bind].
  destruct (sg_body sg _) as [d|]; cbn [mbind option_bind]; [|done]. case_bool_decide as Hdd; [|done]. intros [= <- <- <-].
  rewrite bool_decide_eq_true_2 by (apply (Forall2_fmap_l length (fun w b => (w <= length b)%nat)), window_app;
    [done|by apply (Forall2_fmap_l length (fun w b => (w <= length b)%nat))]).
  pose proof (store_over d dst Hdd) as Hso. pose proof (Forall2_length _ _ _ Hso) as Hlen.
  assert (Forall2 (fun w b => (w <= length b)%nat) (times (sg_groups sg) so) (zip_with (fun d b => d ++ drop (length d) b) d dst)) as Hr.
  { apply Forall2_fmap_l. exact (room_same _ _ _ _ Hso Hd). }
  assert (Forall2 (fun w b => (w <= length b)%nat) (times (sg_groups sg) si) src) as Hs.
  { apply Forall2_fmap_l. clear -Hw Hwin. revert src Hwin. induction Hw as [|s w si' win' Hsw _ IH]; intros src H.
    - apply Forall2_nil_inv_l in H as ->. constructor.
    - apply Forall2_cons_inv_l in H as (b & src' & Hb & H & ->). constructor; [cbn; lia|by apply IH]. }
  split; [by apply same_drop|]. split; [done|].
  rewrite store_app by done. rewrite take_zip_app, !drop_zip_app by (done || congruence). done.
Qed.

Lemma stage_loop_app sg k out src dst out' src' dst' rs rd :
  Forall2 (fun s w => (sg_groups sg * s <= w)%nat) si (sg_win sg) ->
  has_room so (sg_groups sg * k) dst -> length si = length src -> length rs = length src -> length rd = length dst ->
  stage_loop si so sg k (out, src, dst) = Some (out', src', dst') ->
  same_lengths dst' (zip_with drop (times (sg_groups sg * k) so) dst) /\ length src' = length src /\
  stage_loop si so sg k (out, zip_with app src rs, zip_with app dst rd) = Some (out', zip_with app src' rs, zip_with app dst' rd).
Proof.
  intros Hw. revert out src dst. induction k as [|k IH]; intros out src dst Hd Hsi Hrs Hrd; cbn [stage_loop].
  - intros [= <- <- <-]. rewrite Nat.mul_0_r, drop_times_0 by (by eapply Forall2_length). split; [apply same_refl|done].
  - destruct (stage_step si so sg (out, src, dst)) as [[[o1 s1] d1]|] eqn:E; [|done]. cbn [mbind option_bind].
    replace (sg_groups sg * S k)%nat with (sg_groups sg + sg_groups sg * k)%nat in * by lia.
    destruct (stage_step_app sg out src dst o1 s1 d1 rs rd Hw) as (Hd1 & -> & ->); try done; [by apply (room_weaken _ _ _ _ (Nat.le_add_r _ _) Hd)|].
    cbn [mbind option_bind]. intros Hl. pose proof (room_same _ _ _ _ Hd1 (room_drop _ _ _ _ Hd)) as Hr1.
    pose proof (Forall2_length _ _ _ Hd) as L1. pose proof (Forall2_length _ _ _ Hr1) as L2.
    assert (length (zip_with drop (times (sg_groups sg) si) src) = length src) as L3
      by (unfold times; rewrite length_zip_with, length_fmap; lia).
    destruct (IH o1 (zip_with drop (times (sg_groups sg) si) src) d1 Hr1 ltac:(congruence) ltac:(congruence) ltac:(congruence) Hl) as (Hd2 & Hs2 & ->). split_and!; [|congruence|done].
    rewrite <- drop_times_add. eapply same_trans; [exact Hd2|]. by apply same_drop.
Qed.

Lemma run_plan_app plan m out src dst out' src' dst' rs rd : plan_ok plan m ->
  has_room so m dst -> length si = length src -> length rs = length src -> length rd = length dst ->
  run_plan si so plan (out, src, dst) = Some (out', src', dst') ->
  run_plan si so plan (out, zip_with app src rs, zip_with app dst rd) = Some (out', zip_with app src' rs, zip_with app dst' rd).
Proof.
  intros Hp. revert out src dst. induction Hp as [|k sg e plan m Hok He Hp IH]; intros out src dst Hd Hsi Hrs Hrd; cbn [run_plan].
  - by intros [= <- <- <-].
  - destruct (stage_loop si so sg k (out, src, dst)) as [[[o1 s1] d1]|] eqn:E; [|done]. cbn [mbind option_bind]. intros Hr.
    destruct (stage_loop_app sg k out src dst o1 s1 d1 rs rd) as (Hd1 & Hs1 & ->); try done.
    + eapply Forall2_impl; [apply Hok|]. cbn. lia.
    + by apply (room_weaken _ _ _ _ (Nat.le_add_r _ _) Hd).
    + cbn [mbind option_bind]. pose proof (room_same _ _ _ _ Hd1 (room_drop _ _ _ _ Hd)) as Hr1.
      pose proof (Forall2_length _ _ _ Hd). pose proof (Forall2_length _ _ _ Hr1). apply IH; (done || lia).
Qed.

(** What a routine writes to buffers with room for [n] groups. *)
Definition groups_written (n : nat) (src dst : list bytes) : list bytes :=
  zip_with app (group_map si so f n (zip_with take (times n si) src)) (zip_with drop (times n so) dst).

Lemma plan_conv_room plan n src dst : plan_ok plan n -> has_room si n src ->
  Forall (fits q) (zip_with take (times n si) src) -> has_room so n dst ->
  plan_conv si so plan src dst = Some (0, groups_written n src dst).
Proof.
  intros Hp Hs HF Hd. unfold plan_conv.
  pose proof (room_prefix _ _ _ Hs) as Hs'. pose proof (room_prefix _ _ _ Hd) as Hd'.
  destruct (run_plan_spec plan n (replicate (length so) []) (zip_with take (times n si) src) (zip_with take (times n so) dst))
    as (d' & Hl & E); try done; [apply length_replicate|by apply holds_room..|].
  pose proof (Forall2_length _ _ _ Hs). pose proof (Forall2_length _ _ _ Hd).
  apply (run_plan_app _ n _ _ _ _ _ _ (zip_with drop (times n si) src) (zip_with drop (times n so) dst)) in E; try done.
  - rewrite !zip_take_drop in E by (unfold times; rewrite length_fmap; lia). rewrite E. cbn [mbind option_bind].
    unfold groups_written. do 2 f_equal. rewrite (all_written so n _ d' Hd' Hl).
    rewrite zip_with_app_nil by (by apply group_map_length).
    by rewrite zip_with_app_nil by (unfold times; rewrite length_zip_with, length_fmap; lia).
  - by apply holds_room.
  - unfold times. rewrite length_zip_with, length_fmap. lia.
  - unfold times. rewrite !length_zip_with, length_fmap. lia.
  - unfold times. rewrite !length_zip_with, length_fmap. lia.
Qed.

Lemma group_loop_room n src dst : has_room si n src -> has_room so n dst ->
  group_loop si so f n src dst = Some (groups_written n src dst).
Proof.
  unfold groups_written. revert src dst. induction n as [|n IH]; intros src dst Hs Hd; cbn [group_loop group_map].
  - f_equal. rewrite drop_times_0 by (by eapply Forall2_length). rewrite zip_with_app_nil; [done|]. symmetry. by eapply Forall2_length.
  - pose proof (Forall2_length _ _ _ Hs) as Ls. pose proof (Forall2_length _ _ _ Hd) as Ld.
    pose proof (room_split _ _ _ Hs) as (-> & Hs'). pose proof (room_split _ _ _ Hd) as (-> & Hd').
    rewrite (IH _ _ Hs' Hd'). cbn [fmap option_fmap option_map]. f_equal.
    by rewrite zip_with_app_assoc, drop_times, drop_take_times, <- take_times_S.
Qed.

(** A routine made of such loops is the scalar one. *)
Lemma simd_conv_scalar stages w h n src dst : Forall (stage_ok 0) stages ->
  is_u32 (w * h) -> w * h / 2 = Z.of_nat n -> has_room si n src ->
  Forall (fits q) (zip_with take (times n si) src) -> has_room so n dst ->
  simd_conv si so (stages ++ [scalar_stage si f]) w h src dst = group_conv 2 si so f w h src dst.
Proof.
  intros HF Hwh Hn Hs Hq Hd. unfold simd_conv, group_conv. rewrite u32_id, Hn by done. rewrite Nat2Z.id.
  rewrite (plan_conv_room _ n); [|apply batches_ok; [done|by apply scalar_stage_ok|done]|done..]. by rewrite group_loop_room.
Qed.

(** One that does [j] groups of V210 a turn gives the same or refuses. *)
Lemma v210_simd_scalar j sg w h n src dst : stage_ok 0 sg -> sg_groups sg = j ->
  is_u32 (w * h) -> w * h / 2 / 3 = Z.of_nat n -> has_room si n src ->
  Forall (fits q) (zip_with take (times n si) src) -> has_room so n dst ->
  v210_simd_conv si so (3 * Z.of_nat j) sg w h src dst = v210_conv si so f w h src dst \/
  v210_simd_conv si so (3 * Z.of_nat j) sg w h src dst = Some (- EINVAL, dst).
Proof.
  intros Hok Hj Hwh Hn Hs Hq Hd. assert (0 < j)%nat by (destruct Hok; lia). unfold v210_simd_conv, v210_conv. rewrite u32_id by done. cbv zeta.
  case_if; [by right|]. left. zbool. assert (Hm : w * h / 2 = 3 * Z.of_nat j * (w * h / 2 / (3 * Z.of_nat j))) by (rewrite (Z.div_mod (w * h / 2) (3 * Z.of_nat j)) at 1; lia).
  set (t := w * h / 2 / (3 * Z.of_nat j)) in *. assert (0 <= t) by (unfold t; apply Z.div_pos; [apply Z.div_pos|]; unfold is_u32 in *; lia).
  rewrite Hm in Hn |- *. replace (3 * Z.of_nat j * t) with (Z.of_nat j * t * 3) in Hn |- * by lia. rewrite Z.mod_mul, Z.div_mul in * by lia. cbn [negb Z.eqb].
  rewrite (plan_conv_room _ n); [|replace n with (sg_groups sg * Z.to_nat t + 0)%nat by nia; eapply plan_cons; [done|right; lia|constructor]|done..].
  rewrite Hn, Nat2Z.id. by rewrite group_loop_room.
Qed.
End Loops.

(** ** Batches from tables *)

Fixpoint all2 {A C} (f : A -> C -> bool) (l : list A) (m : list C) : bool :=
  match l, m with [], [] => true | x :: l, y :: m => f x y && all2 f l m | _, _ => false end.
Lemma all2_Forall2 {A C} (f : A -> C -> bool) l m : all2 f l m = true -> Forall2 (fun x y => f x y = true) l m.
Proof.
  revert m. induction l as [|x l IH]; intros [|y m] H; try done. cbn in H. apply andb_true_iff in H as [H1 H2]. constructor; auto.
Qed.

(** The table of a body, from its values on single bits. *)
Definition unit_planes (sizes : list nat) (v : nat * nat) : list bytes :=
  let flat := (fun i => if (i =? v.1)%nat then 2 ^ Z.of_nat v.2 else 0) <$> seq 0 (list_sum sizes) in
  (fix go sizes flat := match sizes with [] => [] | s :: sizes => take s flat :: go sizes (drop s flat) end) sizes flat.
Definition group_table (q : masks) (si : list nat) (f : list bytes -> list bytes) : list (list (list sbit)) :=
  let vars := concat (imap (fun i m => (fun j => (i, j)) <$> filter (fun j => Is_true (Z.testbit m (Z.of_nat j))) (seq 0 8)) (concat (plane_masks q <$> si))) in
  let values := (fun v => (v, f (unit_planes si v))) <$> vars in
  imap (fun p pl => imap (fun b _ => (fun k =>
      fst <$> filter (fun u => Is_true (Z.testbit (cell (plane u.2 p) b) (Z.of_nat k))) values) <$> seq 0 8) pl)
    (f ((fun s => replicate s 0) <$> si)).

(** [T] is what [f] does to one group. *)
Definition tabulated (q : masks) (si : list nat) (f : list bytes -> list bytes) (T : list (list (list sbit))) : Prop :=
  forall c, of_masks (plane_masks q <$> si) c -> f c = table_eval T (concat c).

Lemma table_value ws env ess T : Forall2 (fun w v => 0 <= v < 2 ^ Z.of_nat w) ws env ->
  all2 (all2 (row_is ws)) ess T = true -> fmap2 (bval env) ess = table_eval T env.
Proof.
  intros He H. apply all2_Forall2 in H. unfold table_eval. induction H as [|es rows ess' T' H _ IH]; [done|].
  rewrite !fmap_cons, IH. f_equal. apply all2_Forall2 in H. induction H as [|e row es' rows' H _ IH2]; [done|].
  rewrite !fmap_cons, IH2. f_equal. by eapply row_is_value.
Qed.

(** *** A batch does its groups *)

Lemma fmap_zip_with_take {A C} (g : A -> C) sizes (T : list (list A)) :
  zip_with take sizes (fmap2 g T) = fmap2 g (zip_with take sizes T).
Proof. revert T. induction sizes as [|s sizes IH]; intros [|p T]; [done..|]. cbn. by rewrite IH, fmap_take. Qed.

Section Batch.
Context (q : masks) (si so : list nat) (f : list bytes -> list bytes) (T : list (list (list sbit))).
Hypothesis si_ok : q.1 = q.2 \/ Forall (fun s => Nat.even s = true) si.
Hypothesis f_planes : forall c, length (f c) = length so.
Hypothesis T_planes : length T = length so.
Hypothesis f_table : tabulated q si f T.

Lemma group_at_width n k src : holds si n src -> Forall (fits q) src -> (k < n)%nat -> of_masks (plane_masks q <$> si) (group_at si k src).
Proof.
  intros Hs HF Hk. apply fits_of_masks.
  - clear -Hs Hk. unfold group_at. induction Hs as [|s b si' src' Hb _ IH]; cbn; constructor; [|exact IH].
    rewrite length_take, length_drop. nia.
  - clear -si_ok HF. unfold group_at. revert si_ok. generalize si. clear si. induction HF as [|b src Hb _ IH]; intros [|s si] Hsi; cbn; constructor.
    + apply fits_take, fits_drop; [|done]. destruct Hsi as [Hq|Hsi]; [by left|]. right. apply Forall_cons in Hsi as [Hs _].
      by rewrite Nat.even_mul, Hs, orb_true_r.
    + apply IH. destruct Hsi as [Hq|Hsi]; [by left|]. right. by apply Forall_cons in Hsi as [_ ?].
Qed.

Lemma table_groups_map n src : holds si n src -> Forall (fits q) src ->
  table_eval (table_groups si n T) (concat src) = group_map si so f n src.
Proof.
  intros Hs HF. rewrite group_map_planes by (done || by eapply Forall2_length). unfold table_eval, table_groups. apply list_eq. intros i.
  rewrite <- T_planes, !list_lookup_fmap. destruct (T !! i) as [p|] eqn:Ep.
  - rewrite lookup_seq_lt by (by eapply lookup_lt_Some). cbn. f_equal. rewrite <- concat_fmap, <- list_fmap_compose. f_equal.
    apply list_fmap_ext. intros j k Hk. apply lookup_seq in Hk as [-> Hk]. cbn.
    rewrite (f_table _ (group_at_width n j src Hs HF Hk)). unfold plane, table_eval. rewrite list_lookup_fmap, Ep. cbn.
    rewrite <- list_fmap_compose. apply list_fmap_ext. intros l row _. cbn. by apply renumber_value.
  - rewrite lookup_seq_ge by (by apply lookup_ge_None_1). done.
Qed.

Definition row_below (m : nat) (row : list sbit) : bool := forallb (forallb (fun v : nat * nat => (v.1 <? m)%nat)) row.

Lemma row_below_value m env row : row_below m row = true -> row_value (take m env) row = row_value env row.
Proof.
  intros H. unfold row_value. f_equal. apply list_fmap_ext. intros j b Hb. unfold row_below in H. rewrite forallb_forall in H.
  specialize (H b). rewrite forallb_forall in H. unfold sval. assert (In b row) as Hin by (apply list_elem_of_In; by eapply list_elem_of_lookup_2).
  specialize (H Hin). clear -H. induction b as [|v b IH]; [done|]. cbn. f_equal.
  - unfold var_bit. rewrite lookup_take_lt; [done|]. specialize (H v (or_introl eq_refl)). by apply Nat.ltb_lt in H.
  - apply IH. intros x Hx. apply H. by right.
Qed.

(** What is computed to compare a batch of [n] groups with the table of one: the bytes it
    may touch and writes, and that the bytes of its groups are those of the table. A
    single source plane may be read beyond the groups, if that does not matter. *)
Definition batch_check (n e : nat) (win : list nat) (b : simd_body) : bool :=
  match b sbit sym_bits (sym_planes 0 (plane_masks q <$> win)) with
  | Some Tn =>
      all2 (fun s w => (n * s <=? w)%nat && (w <=? (n + e) * s)%nat) si win
      && all2 (fun s p => (n * s <=? length p)%nat && (length p <=? (n + e) * s)%nat) so Tn
      && bool_decide (zip_with take (times n so) Tn = table_groups si n T)
      && (bool_decide (win = times n si)
          || (length si =? 1)%nat && forallb (forallb (row_below (list_sum (times n si)))) (table_groups si n T))
  | None => false
  end.

Lemma simd_stage_ok n e win b : (0 < n)%nat -> uniform b -> batch_check n e win b = true ->
  stage_ok q si so f e (simd_stage n win b).
Proof.
  intros Hn Hu. unfold batch_check. destruct (b sbit _ _) as [Tn|] eqn:E; [|done]. rewrite !andb_true_iff. intros (((H1 & H2) & H3) & H4).
  apply all2_Forall2 in H1, H2. apply bool_decide_eq_true in H3.
  assert (Forall2 (fun s w => (n * s <= w <= (n + e) * s)%nat) si win) as Hw.
  { eapply Forall2_impl; [exact H1|]. cbn. intros s w H. apply andb_true_iff in H as [?%Nat.leb_le ?%Nat.leb_le]. lia. }
  split_and!; cbn [simd_stage sg_groups sg_win sg_body]; [done|done|]. intros c Hc HF.
  rewrite (simd_table b (plane_masks q <$> win) Tn) by (done || by apply fits_of_masks). eexists. split; [done|]. split.
  - unfold table_eval. apply Forall2_fmap_r. eapply Forall2_impl; [exact H2|]. cbn. intros s p H. rewrite length_fmap.
    apply andb_true_iff in H as [?%Nat.leb_le ?%Nat.leb_le]. lia.
  - assert (length si = length c) as Hl by (etrans; [by eapply Forall2_length|by eapply Forall2_length]).
    assert (holds si n (zip_with take (times n si) c)) as Hs.
    { clear -Hw Hc. unfold times. revert c Hc. induction Hw as [|s w si' win' Hsw _ IH]; intros c Hc.
      - constructor.
      - apply Forall2_cons_inv_l in Hc as (x & c' & Hx & Hc & ->). cbn. constructor; [rewrite length_take; nia|by apply IH]. }
    rewrite <- (group_map_prefix si so f n c) by done. rewrite <- table_groups_map by (done || by apply Forall_fits_take).
    rewrite <- H3. unfold table_eval. rewrite fmap_zip_with_take.
    rewrite H3. apply orb_true_iff in H4 as [H4|H4].
    + apply bool_decide_eq_true in H4 as ->. replace (zip_with take (times n si) c) with c; [done|].
      clear -Hc. unfold sized, times in *. revert c Hc. induction si as [|s si' IH]; intros c Hc.
      * by apply Forall2_nil_inv_l in Hc as ->.
      * apply Forall2_cons_inv_l in Hc as (x & c' & Hx & Hc & ->). cbn. rewrite <- IH, take_ge by (done || lia). done.
    + apply andb_true_iff in H4 as [H4%Nat.eqb_eq H5]. destruct si as [|s [|? ?]]; try done. destruct c as [|x [|? ?]]; try done.
      cbn in H5 |- *. rewrite !app_nil_r in *. apply list_fmap_ext. intros i p Hp. apply list_fmap_ext. intros j row Hrow.
      rewrite Nat.add_0_r in H5. symmetry. apply row_below_value. rewrite forallb_forall in H5.
      specialize (H5 p). rewrite forallb_forall in H5. apply H5; apply list_elem_of_In; by eapply list_elem_of_lookup_2.
Qed.
End Batch.

(** *** What a body writes *)

Lemma num_bound l : 0 <= num l < 2 ^ Z.of_nat (length l).
Proof.
  induction l as [|b l IH]; cbn [num length]; [done|]. rewrite Nat2Z.inj_succ, Z.pow_succ_r by lia.
  pose proof (Z.b2z_bit0 b). destruct b; cbn [Z.b2z]; lia.
Qed.

(** Bits outside the mask are bits of no variable. *)
Definition row_masked (m : Z) (row : list sbit) : bool :=
  (length row =? 8)%nat
  && forallb (fun k => Z.testbit m (Z.of_nat k) || bool_decide (row !! k = Some [])) (seq 0 8).
Lemma row_masked_value m env row : row_masked m row = true -> masked m (row_value env row).
Proof.
  unfold row_masked. rewrite andb_true_iff, Nat.eqb_eq, forallb_forall. intros [Hl H]. split.
  - unfold is_u8, row_value. pose proof (num_bound (fmap1 (sval env) row)) as Hn. rewrite length_fmap, Hl in Hn. lia.
  - apply Z.bits_inj'. intros k Hk. rewrite Z.land_spec, <- (Z2Nat.id k) by done. unfold row_value.
    rewrite num_testbit, list_lookup_fmap. destruct (row !! Z.to_nat k) as [b|] eqn:E; [|done].
    assert (Z.to_nat k < 8)%nat as Hk8 by (apply lookup_lt_Some in E; lia).
    specialize (H (Z.to_nat k) ltac:(apply in_seq; lia)).
    apply orb_true_iff in H as [->|H]; [by rewrite andb_true_r|].
    apply bool_decide_eq_true in H. assert (Some b = Some []) as [= ->] by (rewrite <- E; exact H). done.
Qed.
Definition table_masked (q : masks) (T : list (list (list sbit))) : bool :=
  forallb (fun p => forallb (fun b : bool => b) (imap (fun i row => row_masked (byte_mask q i) row) p)) T.
Lemma table_fits q T env : table_masked q T = true -> Forall (fits q) (table_eval T env).
Proof.
  unfold table_masked, table_eval. rewrite forallb_forall. intros H. apply Forall_fmap, Forall_forall. intros p Hp i b Hb.
  cbn in Hb. rewrite list_lookup_fmap in Hb. destruct (p !! i) as [row|] eqn:E; [|done]. injection Hb as <-.
  apply list_elem_of_In, H in Hp. rewrite forallb_forall in Hp. apply row_masked_value, (Hp _).
  apply list_elem_of_In, list_elem_of_lookup. exists i. by rewrite list_lookup_imap, E.
Qed.

(** *** Tables of scalar bodies *)

Ltac reify_planes env l :=
  lazymatch l with
  | ?x :: ?l' => let e := reify_list env x in let es := reify_planes env l' in constr:(e :: es)
  | [] => constr:(@nil (list bexp))
  end.

(** Proves [tabulated q si f (group_table q si f)] for a body that moves bits. *)
Ltac tab_solve :=
  let c := fresh "c" in let H := fresh "H" in
  intros c H;
  lazymatch type of H with
  | of_masks ?ws _ =>
      let ws := eval vm_compute in ws in
      let flat := eval vm_compute in ((fun m => Z.to_nat (Z.log2 m + 1)) <$> concat ws) in
      change (Forall2 (Forall2 masked) ws c) in H;
      repeat match goal with
      | H : Forall2 _ (_ :: _) ?d |- _ =>
          let b := fresh "b" in let d' := fresh "d" in let Hb := fresh "Hb" in
          apply Forall2_cons_inv_l in H as (b & d' & Hb & H & ->)
      | H : Forall2 _ [] ?d |- _ => apply Forall2_nil_inv_l in H as ->
      | H : masked _ _ |- _ => apply masked_range in H; [|lia]
      end;
      lazymatch goal with
      | |- ?l = table_eval ?T ?e =>
          let l := eval cbv -[Z.lor Z.land Z.shiftl Z.shiftr Z.add bf] in l in
          let env := eval cbv in e in
          let ess := reify_planes env l in
          change (fmap (M:=list) (fmap (M:=list) (bval env)) ess = table_eval T env);
          apply (table_value flat);
          [repeat (apply Forall2_cons_2; [cbn; lia|]); apply Forall2_nil_2 | vm_compute; reflexivity]
      end
  end.

(** ** The bodies of the scalar loops *)

Definition pg_be10_to_p10 (c : list bytes) : list bytes := put_p422 (unpack_be10 (get_be10 (plane c 0))).
Definition pg_be12_to_p12 (c : list bytes) : list bytes := put_p422 (unpack_be12 (get_be12 (plane c 0))).
Definition pg_be10_to_p16 (c : list bytes) : list bytes := put_p422 (st20_unpack_pg2be_422le16 (get_be10 (plane c 0))).
Definition pg_p10_to_be10 (c : list bytes) : list bytes := [put_be10 (pack_be10 (get_p422 c))].
Definition pg_p16_to_be10 (c : list bytes) : list bytes := [put_be10 (pack16_be10 (get_p422 c))].
Definition pg_be10_to_le10 (c : list bytes) : list bytes := [put_le10 (pack_le10 (unpack_be10 (get_be10 (plane c 0))))].
Definition pg_le10_to_be10 (c : list bytes) : list bytes := [put_be10 (pack_be10 (unpack_le10 (get_le10 (plane c 0))))].
Definition pg_be10_to_le8 (c : list bytes) : list bytes := [put_422le8 (get_be10 (plane c 0))].
Definition pg_be10_to_p8 (c : list bytes) : list bytes := put_p8 (get_be10 (plane c 0)).
(** The second line of a pair of YUV 4:2:0. *)
Definition pg_be10_to_y8 (c : list bytes) : list bytes :=
  let g := get_be10 (plane c 0) in [store [p8_y0 g; p8_y1 g]; []; []].
Definition pg_be10_to_y210 (c : list bytes) : list bytes := [put_y210 (get_be10 (plane c 0))].
Definition pg_y210_to_be10 (c : list bytes) : list bytes := [put_be10 (get_y210 (plane c 0))].
Definition pg_be12_to_le12 (c : list bytes) : list bytes := [put_le12 (pack_le12 (unpack_be12 (get_be12 (plane c 0))))].
Definition pg3_le10_to_v210 (c : list bytes) : list bytes := [le10_to_v210 (plane c 0)].
Definition pg3_be10_to_v210 (c : list bytes) : list bytes := [be10_to_v210 (plane c 0)].
Definition pg3_v210_to_be10 (c : list bytes) : list bytes := [v210_to_be10 (plane c 0)].
(** Every second group of a line. *)
Definition pg2_downsample (c : list bytes) : list bytes := [(fun i => cell (plane c 0) i) <$> seq 0 5].

(** Y210 samples: ten bits in the upper part of sixteen. *)
Definition y210_samples : masks := (0xC0, 255).

(** What is asked of the body of a scalar loop: [q] says which buffers it is for. *)
Class GroupBody (q : masks) (si so : list nat) (f : list bytes -> list bytes) : Prop := {
  gb_even : q.1 = q.2 \/ Forall (fun s => Nat.even s = true) si;
  gb_planes : forall c, length (f c) = length so;
  gb_len : forall c, holds si 1 c -> holds so 1 (f c);
  gb_rows : length (group_table q si f) = length so;
  gb_table : tabulated q si f (group_table q si f)
}.

Ltac group_body :=
  constructor;
  [first [left; reflexivity | right; repeat constructor]
  | reflexivity
  | group_len
  | vm_compute; reflexivity
  | tab_solve].

#[export] Instance body_be10_p10 : GroupBody any_bytes [5]%nat [4; 2; 2]%nat pg_be10_to_p10.
Proof. group_body. Qed.
#[export] Instance body_be12_p12 : GroupBody any_bytes [6]%nat [4; 2; 2]%nat pg_be12_to_p12.
Proof. group_body. Qed.
#[export] Instance body_be10_p16 : GroupBody any_bytes [5]%nat [4; 2; 2]%nat pg_be10_to_p16.
Proof. group_body. Qed.
#[export] Instance body_p10_be10 : GroupBody (samples 10) [4; 2; 2]%nat [5]%nat pg_p10_to_be10.
Proof. group_body. Qed.
#[export] Instance body_p16_be10 : GroupBody any_bytes [4; 2; 2]%nat [5]%nat pg_p16_to_be10.
Proof. group_body. Qed.
#[export] Instance body_be10_le10 : GroupBody any_bytes [5]%nat [5]%nat pg_be10_to_le10.
Proof. group_body. Qed.
#[export] Instance body_le10_be10 : GroupBody any_bytes [5]%nat [5]%nat pg_le10_to_be10.
Proof. group_body. Qed.
#[export] Instance body_be10_le8 : GroupBody any_bytes [5]%nat [4]%nat pg_be10_to_le8.
Proof. group_body. Qed.
#[export] Instance body_be10_p8 : GroupBody any_bytes [5]%nat [2; 1; 1]%nat pg_be10_to_p8.
Proof. group_body. Qed.
#[export] Instance body_be10_y8 : GroupBody any_bytes [5]%nat [2; 0; 0]%nat pg_be10_to_y8.
Proof. group_body. Qed.
#[export] Instance body_be10_y210 : GroupBody any_bytes [5]%nat [8]%nat pg_be10_to_y210.
Proof. group_body. Qed.
#[export] Instance body_y210_be10 : GroupBody y210_samples [8]%nat [5]%nat pg_y210_to_be10.
Proof. group_body. Qed.
#[export] Instance body_be12_le12 : GroupBody any_bytes [6]%nat [6]%nat pg_be12_to_le12.
Proof. group_body. Qed.
#[export] Instance body_le10_v210 : GroupBody any_bytes [15]%nat [16]%nat pg3_le10_to_v210.
Proof. group_body. Qed.
#[export] Instance body_be10_v210 : GroupBody any_bytes [15]%nat [16]%nat pg3_be10_to_v210.
Proof. group_body. Qed.
#[export] Instance body_v210_be10 : GroupBody any_bytes [16]%nat [15]%nat pg3_v210_to_be10.
Proof. group_body. Qed.
#[export] Instance body_downsample : GroupBody any_bytes [10]%nat [5]%nat pg2_downsample.
Proof. group_body. Qed.

Lemma batch_stage_ok `{!GroupBody q si so f} n e win b : (0 < n)%nat -> uniform b ->
  batch_check q si so (group_table q si f) n e win b = true -> stage_ok q si so f e (simd_stage n win b).
Proof. apply simd_stage_ok; [apply gb_even|apply gb_planes|apply gb_rows|apply gb_table]. Qed.

(** The masks of what a body writes, from its table. *)
Lemma body_fits `{!GroupBody q si so f} q' c : table_masked q' (group_table q si f) = true ->
  holds si 1 c -> Forall (fits q) c -> Forall (fits q') (f c).
Proof.
  intros Ht Hc HF. rewrite (gb_table c); [by apply table_fits|]. apply fits_of_masks; [|done].
  eapply Forall2_impl; [exact Hc|]. cbn. intros. lia.
Qed.

(** Buffers of exactly the pixels of the picture; [k] groups of two pixels make one group
    of the buffers. *)
Definition whole_groups (q : masks) (si so : list nat) (k w h : Z) (src dst : list bytes) : Prop :=
  is_u32 (w * h) /\ exists n, w * h / 2 / k = Z.of_nat n /\ holds si n src /\ Forall (fits q) src /\ holds so n dst.

(** Buffers with room for the pixels of the picture: a line of a plane has the rest of the
    plane behind it. *)
Definition roomy_groups (q : masks) (si so : list nat) (k w h : Z) (src dst : list bytes) : Prop :=
  is_u32 (w * h) /\ exists n, w * h / 2 / k = Z.of_nat n /\ has_room si n src /\
    Forall (fits q) (zip_with take (times n si) src) /\ has_room so n dst.
Lemma whole_roomy q si so k w h src dst : whole_groups q si so k w h src dst -> roomy_groups q si so k w h src dst.
Proof.
  intros (Hu & n & Hn & Hs & Hq & Hd). split; [done|]. exists n. split_and!; [done|by apply holds_room|by apply Forall_fits_take|by apply holds_room].
Qed.

(** A vector routine against the scalar one, on the buffers of [pre]: the same result, or it
    refuses. *)
Definition agrees (pre : Z -> Z -> list bytes -> list bytes -> Prop) (r scalar : conv) : Prop :=
  forall w h src dst, pre w h src dst ->
    r w h src dst = scalar w h src dst \/ r w h src dst = Some (- EINVAL, dst).

Lemma simd_conv_agrees `{!GroupBody q si so f} stages : Forall (stage_ok q si so f 0) stages ->
  agrees (roomy_groups q si so 1) (simd_conv si so (stages ++ [scalar_stage si f])) (group_conv 2 si so f).
Proof.
  intros HF w h src dst (Hwh & n & Hn & Hs & Hq & Hd). left. rewrite Z.div_1_r in Hn.
  by apply (simd_conv_scalar q si so f gb_even gb_planes gb_len) with (n := n).
Qed.
Lemma v210_simd_agrees `{!GroupBody q si so f} j sg : stage_ok q si so f 0 sg -> sg_groups sg = j ->
  agrees (roomy_groups q si so 3) (v210_simd_conv si so (3 * Z.of_nat j) sg) (v210_conv si so f).
Proof.
  intros Hok Hj w h src dst (Hwh & n & Hn & Hs & Hq & Hd).
  by eapply v210_simd_scalar; eauto using gb_even, gb_planes, gb_len.
Qed.

(** A batch is compared with the scalar body by computing its table. *)
Ltac batch_ok f := apply batch_stage_ok; [lia | uniform_solve f | vm_compute; reflexivity].
