(* ===== verification/Avx512.v ===== *)
(** The vector routines of lib/src/st2110/st_avx512.c.

    Every routine has the body of each of its loops as a definition over [BitAlg] (see
    [Simd]), with the tables of the code, and is the plan of its loops: the batches of
    pixel groups one after the other, the rest group by group. The variants that copy
    the source through a DMA engine are in [SimdDma]. *)
From S2P Require Import Prelude Bytes BitExpr Convert Simd.

(** ** Tables *)

Definition be10_to_ple_shuffle_tbl_128 : list Z :=
  [0x01; 0x00; 0x06; 0x05; 0x03; 0x02; 0x08; 0x07; 0x02; 0x01; 0x04; 0x03; 0x07; 0x06; 0x09; 0x08].
Definition be10_to_ple_srlv_tbl_128 : list Z :=
  [0x0006; 0x0006; 0x0002; 0x0002; 0x0004; 0x0000; 0x0004; 0x0000].
Definition be10_to_ple_and_mask_tbl_128 : list Z :=
  [0x03ff; 0x03ff; 0x03ff; 0x03ff; 0x03ff; 0x03ff; 0x03ff; 0x03ff].
Definition be10_to_ple_permute_tbl_512 : list Z :=
  [0; 4; 8; 12; 1; 5; 9; 13; 2; 3; 6; 7; 10; 11; 14; 15].
Definition be10_to_le_shuffle_l0_tbl_128 : list Z :=
  [1; 0; 3; 2; 6; 5; 8; 7; 11; 10; 13; 12; 0; 5; 10; 0x80].
Definition be10_to_and_l0_tbl_128 : list Z :=
  [0x00; 0xFF; 0xF0; 0x3F; 0x00; 0xFF; 0xF0; 0x3F; 0x00; 0xFF; 0xF0; 0x3F; 0x00; 0x03; 0x03; 0x03].
Definition be10_to_le_shuffle_r0_tbl_128 : list Z :=
  [2; 1; 4; 3; 7; 6; 9; 8; 12; 11; 14; 13; 0x80; 4; 9; 14].
Definition be10_to_le_and_r0_tbl_128 : list Z :=
  [0xFC; 0x0F; 0xFF; 0x00; 0xFC; 0x0F; 0xFF; 0x00; 0xFC; 0x0F; 0xFF; 0x00; 0xC0; 0xC0; 0xC0; 0x00].
Definition be10_to_le_shuffle_l1_tbl_128 : list Z :=
  [1; 13; 2; 3; 0x80; 5; 14; 6; 7; 0x80; 9; 15; 10; 11; 0x80; 0x80].
Definition be10_to_le_shuffle_r1_tbl_128 : list Z :=
  [0x80; 0; 1; 12; 2; 0x80; 4; 5; 13; 6; 0x80; 8; 9; 14; 10; 0x80].
Definition be10_to_le8_shuffle0_tbl_128 : list Z :=
  [1; 0; 2; 1; 3; 2; 4; 3; 1 + 5; 0 + 5; 2 + 5; 1 + 5; 3 + 5; 2 + 5; 4 + 5; 3 + 5].
Definition be10_to_le8_sllv_tbl_128 : list Z :=
  [0; 2; 4; 6; 0; 2; 4; 6].
Definition be10_to_le8_shuffle1_tbl_128 : list Z :=
  [1; 3; 5; 7; 9; 11; 13; 15; 0x80; 0x80; 0x80; 0x80; 0x80; 0x80; 0x80; 0x80].
Definition p8_uyvy2uvyy_mask : list Z :=
  [0; 4; 8; 12; 2; 6; 10; 14; 1; 3; 5; 7; 9; 11; 13; 15].
Definition le10_to_v210_shuffle_r_tbl_128 : list Z :=
  [0; 1; 2; 3; 3; 4; 5; 6; 7; 8; 9; 10; 11; 12; 13; 14].
Definition le10_to_v210_srlv_tbl_128 : list Z :=
  [0; 6; 4; 2].
Definition le10_to_v210_sllv_tbl_128 : list Z :=
  [0; 2; 4; 0].
Definition le10_to_v210_and_tbl_128 : list Z :=
  [0xFF; 0xFF; 0xFF; 0x3F; 0xFF; 0xFF; 0xFF; 0x3F; 0xFF; 0xFF; 0xFF; 0x3F; 0xFF; 0xFF; 0xFF; 0x3F].
Definition be10_to_v210_shuffle0_tbl_128 : list Z :=
  [1; 0; 3; 2; 4; 3; 7; 6; 8; 7; 11; 10; 12; 11; 14; 13].
Definition be10_to_v210_sllv0_tbl_128 : list Z :=
  [0; 2; 0; 0; 0; 0; 0; 4].
Definition be10_to_v210_srlv0_tbl_128 : list Z :=
  [6; 0; 0; 0; 2; 2; 4; 0].
Definition be10_to_v210_and0_tbl_128 : list Z :=
  [0xFF; 0x03; 0xF0; 0x3F; 0xFF; 0x03; 0xF0; 0x3F; 0xFF; 0x03; 0xF0; 0x3F; 0xFF; 0x03; 0xF0; 0x3F].
Definition be10_to_v210_shuffle1_tbl_128 : list Z :=
  [0x80; 2; 1; 0x80; 0x80; 6; 5; 0x80; 0x80; 0x80; 9; 8; 0x80; 13; 12; 0x80].
Definition be10_to_v210_srlv1_tbl_128 : list Z :=
  [2; 4; 6; 0].
Definition be10_to_v210_and1_tbl_128 : list Z :=
  [0x00; 0xFC; 0x0F; 0x00; 0x00; 0xFC; 0x0F; 0x00; 0x00; 0xFC; 0x0F; 0x00; 0x00; 0xFC; 0x0F; 0x00].
Definition ple_to_be10_sllv_tbl_128 : list Z :=
  [0x0006; 0x0002; 0x0004; 0x0000; 0x0006; 0x0002; 0x0004; 0x0000].
Definition ple_to_be10_shuffle_hi_tbl_128 : list Z :=
  [1; 0; 4; 2; 6; 9; 8; 12; 10; 14; 0x80; 0x80; 0x80; 0x80; 0x80; 0x80].
Definition ple_to_be10_shuffle_lo_tbl_128 : list Z :=
  [0x80; 5; 3; 7; 0x80; 0x80; 13; 11; 15; 0x80; 0x80; 0x80; 0x80; 0x80; 0x80; 0x80].
Definition le10_to_be_shuffle_l0_tbl_128 : list Z :=
  [0x01; 0x02; 0x03; 0x04; 0x06; 0x07; 0x08; 0x09; 0x0B; 0x0C; 0x0D; 0x0E; 0x04; 0x09; 0x0E; 0x80].
Definition le10_to_be_and_l0_tbl_128 : list Z :=
  [0xF0; 0x3F; 0x00; 0xFF; 0xF0; 0x3F; 0x00; 0xFF; 0xF0; 0x3F; 0x00; 0xFF; 0x00; 0x03; 0x03; 0x03].
Definition le10_to_be_shuffle_l1_tbl_128 : list Z :=
  [0x80; 0x01; 0x00; 0x0D; 0x03; 0x80; 0x05; 0x04; 0x0E; 0x07; 0x80; 0x09; 0x08; 0x0F; 0x0B; 0x80].
Definition le10_to_be_shuffle_r0_tbl_128 : list Z :=
  [0x00; 0x01; 0x02; 0x03; 0x05; 0x06; 0x07; 0x08; 0x0A; 0x0B; 0x0C; 0x0D; 0x80; 0x00; 0x05; 0x0A].
Definition le10_to_be_and_r0_tbl_128 : list Z :=
  [0xFF; 0x00; 0xFC; 0x0F; 0xFF; 0x00; 0xFC; 0x0F; 0xFF; 0x00; 0xFC; 0x0F; 0xC0; 0xC0; 0xC0; 0x00].
Definition le10_to_be_shuffle_r1_tbl_128 : list Z :=
  [0x00; 0x0C; 0x03; 0x02; 0x80; 0x04; 0x0D; 0x07; 0x06; 0x80; 0x08; 0x0E; 0x0B; 0x0A; 0x80; 0x80].
Definition v210_to_be10_shuffle_l0_tbl_128 : list Z :=
  [0; 1; 1; 2; 5; 6; 8; 9; 5; 9; 10; 11; 12; 13; 13; 15].
Definition v210_to_be10_sllv_tbl_128 : list Z :=
  [6; 2; 4; 2; 0; 2; 4; 0].
Definition v210_to_be10_shuffle_l1_tbl_128 : list Z :=
  [1; 0; 2; 8; 4; 5; 4; 7; 6; 9; 11; 10; 12; 14; 14; 15].
Definition v210_to_be10_and_l_tbl_128 : list Z :=
  [0xFF; 0xC0; 0xF0; 0x03; 0x00; 0xFF; 0xC0; 0x0F; 0xFC; 0x00; 0xFF; 0xC0; 0xF0; 0xFC; 0x00; 0x00].
Definition v210_to_be10_shuffle_r0_tbl_128 : list Z :=
  [1; 2; 2; 3; 4; 5; 7; 6; 9; 10; 12; 13; 14; 13; 14; 15].
Definition v210_to_be10_srlv_tbl_128 : list Z :=
  [6; 2; 0; 0; 2; 4; 0; 4].
Definition v210_to_be10_shuffle_r1_tbl_128 : list Z :=
  [0; 0; 3; 2; 4; 5; 6; 7; 9; 8; 10; 10; 12; 15; 14; 15].
Definition v210_to_be10_and_r_tbl_128 : list Z :=
  [0x00; 0x3F; 0x0F; 0xFC; 0xFF; 0x00; 0x3F; 0xF0; 0x03; 0xFF; 0x00; 0x3F; 0x0F; 0x03; 0xFF; 0x00].
Definition be10_to_y210_shuffle_tbl_128 : list Z :=
  [2; 1; 1; 0; 4; 3; 3; 2; 2 + 5; 1 + 5; 1 + 5; 0 + 5; 4 + 5; 3 + 5; 3 + 5; 2 + 5].
Definition be10_to_y210_sllv_tbl_128 : list Z :=
  [2; 0; 6; 4; 2; 0; 6; 4].
Definition be10_to_y210_and_tbl_128 : list Z :=
  [0xFFC0; 0xFFC0; 0xFFC0; 0xFFC0; 0xFFC0; 0xFFC0; 0xFFC0; 0xFFC0].
Definition y210_to_be10_shuffle0_tbl_128 : list Z :=
  [3; 2; 7; 6; 0; 3 + 8; 2 + 8; 7 + 8; 6 + 8; 0; 0; 0; 0; 0; 0; 0].
Definition y210_to_be10_shuffle1_tbl_128 : list Z :=
  [0; 1; 0; 5; 4; 0; 1 + 8; 0 + 8; 5 + 8; 4 + 8; 0; 0; 0; 0; 0; 0].
Definition be12_to_le12_shuffle0_tbl_128 : list Z :=
  [1; 0; 2; 1; 4; 3; 5; 4; 1 + 6; 0 + 6; 2 + 6; 1 + 6; 4 + 6; 3 + 6; 5 + 6; 4 + 6].
Definition be12_to_le12_shuffle1_tbl_128 : list Z :=
  [0; 1; 2; 4; 5; 6; 0 + 8; 1 + 8; 2 + 8; 4 + 8; 5 + 8; 6 + 8; 0x80; 0x80; 0x80; 0x80].
Definition be12_to_ple_shuffle_tbl_128 : list Z :=
  [1; 0; 1 + 6; 0 + 6; 4; 3; 4 + 6; 3 + 6; 2; 1; 5; 4; 2 + 6; 1 + 6; 5 + 6; 4 + 6].
Definition be12_to_ple_srlv_tbl_128 : list Z :=
  [4; 4; 4; 4; 0; 0; 0; 0].
Definition be12_to_ple_and_mask_tbl_128 : list Z :=
  [0x0fff; 0x0fff; 0x0fff; 0x0fff; 0x0fff; 0x0fff; 0x0fff; 0x0fff].
Definition be10_to_p16le_sllv_tbl_128 : list Z :=
  [0x0000; 0x0000; 0x0004; 0x0004; 0x0002; 0x0006; 0x0002; 0x0006].
Definition p16le_to_be10_srlv_tbl_128 : list Z :=
  [0x0000; 0x0004; 0x0002; 0x0006; 0x0000; 0x0004; 0x0002; 0x0006].

(** ** Loop bodies *)

Section Bodies.
Context {B : Type} `{!BitAlg B}.

(** *** Planes of 16-bit samples *)

(** Two pixel groups to {B, R, Y, Y}. *)
Definition be10_to_ple_128 (pg : list (list B)) (off : nat) : option (list B) :=
  input ← mm_maskz_loadu_epi8 0x3FF pg off;
  let shuffle_le_result := mm_shuffle_epi8 input (tbl8 be10_to_ple_shuffle_tbl_128) in
  let srlv_le_result := mm_srlv_epi16 shuffle_le_result (tbl16 be10_to_ple_srlv_tbl_128) in
  Some (mm_and_si128 srlv_le_result (tbl16 be10_to_ple_and_mask_tbl_128)).
Definition be12_to_ple_128 (pg : list (list B)) (off : nat) : option (list B) :=
  input ← mm_maskz_loadu_epi8 0xFFF pg off;
  let shuffle_le_result := mm_shuffle_epi8 input (tbl8 be12_to_ple_shuffle_tbl_128) in
  let srlv_le_result := mm_srlv_epi16 shuffle_le_result (tbl16 be12_to_ple_srlv_tbl_128) in
  Some (mm_and_si128 srlv_le_result (tbl16 be12_to_ple_and_mask_tbl_128)).
Definition be10_to_p16le_128 (pg : list (list B)) (off : nat) : option (list B) :=
  input ← mm_maskz_loadu_epi8 0x3FF pg off;
  let shuffle_le_result := mm_shuffle_epi8 input (tbl8 be10_to_ple_shuffle_tbl_128) in
  let sllv_le_result := mm_sllv_epi16 shuffle_le_result (tbl16 be10_to_p16le_sllv_tbl_128) in
  Some (mm_and_si128 sllv_le_result (tbl16 (replicate 8 0xffc0))).

(** The loop over 32 groups: 16 registers of two groups, sorted into planes. [size] is the
    bytes of two groups. *)
Definition planes_batch32 (half : list (list B) -> nat -> option (list B)) (size : nat) (src : list (list (list B)))
    : option (list (list (list B))) :=
  stage_m128i ← for_regs 16 (fun j => half (plane_at src 0) (size * j)%nat);
  stage_m512i ← for_regs 4 (fun j =>
    let input_m512i := concat (take 4 (drop (j * 4)%nat stage_m128i)) in
    Some (mm512_permutexvar_epi32 (tbl32 be10_to_ple_permute_tbl_512) input_m512i));
  let result_0 := mm512_shuffle_i32x4 (reg_at stage_m512i 0) (reg_at stage_m512i 1) 0x44 in
  let result_1 := mm512_shuffle_i32x4 (reg_at stage_m512i 0) (reg_at stage_m512i 1) 0xEE in
  let result_2 := mm512_shuffle_i32x4 (reg_at stage_m512i 2) (reg_at stage_m512i 3) 0x44 in
  let result_3 := mm512_shuffle_i32x4 (reg_at stage_m512i 2) (reg_at stage_m512i 3) 0xEE in
  let b_result := mm512_shuffle_i32x4 result_0 result_2 0x88 in
  let r_result := mm512_shuffle_i32x4 result_0 result_2 0xDD in
  Some [mm512_storeu_si512 result_1 ++ mm512_storeu_si512 result_3; mm512_storeu_si512 b_result; mm512_storeu_si512 r_result].

(** The loop over 8 groups. *)
Definition planes_batch8 (half : list (list B) -> nat -> option (list B)) (size : nat) (src : list (list (list B)))
    : option (list (list (list B))) :=
  stage_m128i ← for_regs 4 (fun j => half (plane_at src 0) (size * j)%nat);
  let permute := mm512_permutexvar_epi32 (tbl32 be10_to_ple_permute_tbl_512) (concat stage_m128i) in
  let result_B := mm512_extracti32x4_epi32 permute 0 in
  let result_R := mm512_extracti32x4_epi32 permute 1 in
  let result_Y0 := mm512_extracti32x4_epi32 permute 2 in
  let result_Y1 := mm512_extracti32x4_epi32 permute 3 in
  Some [mm_storeu_si128 result_Y0 ++ mm_storeu_si128 result_Y1; mm_storeu_si128 result_B; mm_storeu_si128 result_R].

Definition be10_to_ple_batch32 : list (list (list B)) -> option (list (list (list B))) := planes_batch32 be10_to_ple_128 10.
Definition be10_to_ple_batch8 : list (list (list B)) -> option (list (list (list B))) := planes_batch8 be10_to_ple_128 10.
Definition be12_to_ple_batch32 : list (list (list B)) -> option (list (list (list B))) := planes_batch32 be12_to_ple_128 12.
Definition be12_to_ple_batch8 : list (list (list B)) -> option (list (list (list B))) := planes_batch8 be12_to_ple_128 12.
Definition be10_to_p16le_batch32 : list (list (list B)) -> option (list (list (list B))) := planes_batch32 be10_to_p16le_128 10.
Definition be10_to_p16le_batch8 : list (list (list B)) -> option (list (list (list B))) := planes_batch8 be10_to_p16le_128 10.

(** From planes: 8 groups, interleaved and then packed two at a time. *)
Definition planes_to_pg (shift : list B -> list B) (y0 y8 b r : list B) : option (list (list (list B))) :=
  let src_br_lo := mm_unpacklo 16 b r in
  let src_br_hi := mm_unpackhi 16 b r in
  let pg src :=
    let srlv_le_result := shift src in
    let shuffle_hi_result := mm_shuffle_epi8 srlv_le_result (tbl8 ple_to_be10_shuffle_hi_tbl_128) in
    let shuffle_lo_result := mm_shuffle_epi8 srlv_le_result (tbl8 ple_to_be10_shuffle_lo_tbl_128) in
    mm_mask_storeu_epi8 0x3FF (mm_or_si128 shuffle_hi_result shuffle_lo_result) in
  pg0 ← pg (mm_unpacklo 32 src_br_lo y0);
  pg1 ← pg (mm_unpackhi 32 src_br_lo y0);
  pg2 ← pg (mm_unpacklo 32 src_br_hi y8);
  pg3 ← pg (mm_unpackhi 32 src_br_hi y8);
  Some [pg0 ++ pg1 ++ pg2 ++ pg3].
Definition ple_to_be10_batch8 (src : list (list (list B))) : option (list (list (list B))) :=
  src_y0 ← mm_loadu_si128 (plane_at src 0) 0;
  src_y8 ← mm_loadu_si128 (plane_at src 0) 16;
  src_b ← mm_loadu_si128 (plane_at src 1) 0;
  src_r ← mm_loadu_si128 (plane_at src 2) 0;
  planes_to_pg (fun a => mm_sllv_epi16 a (tbl16 ple_to_be10_sllv_tbl_128)) src_y0 src_y8 src_b src_r.
Definition p16le_to_be10_batch8 (src : list (list (list B))) : option (list (list (list B))) :=
  let and_mask := tbl16 (replicate 8 0xffc0) in
  src_y0 ← mm_loadu_si128 (plane_at src 0) 0;
  src_y8 ← mm_loadu_si128 (plane_at src 0) 16;
  src_b ← mm_loadu_si128 (plane_at src 1) 0;
  src_r ← mm_loadu_si128 (plane_at src 2) 0;
  planes_to_pg (fun a => mm_srlv_epi16 a (tbl16 p16le_to_be10_srlv_tbl_128))
    (mm_and_si128 src_y0 and_mask) (mm_and_si128 src_y8 and_mask) (mm_and_si128 src_b and_mask) (mm_and_si128 src_r and_mask).

(** *** Packed formats *)

Definition be10_to_le_batch3 (src : list (list (list B))) : option (list (list (list B))) :=
  input ← mm_maskz_loadu_epi8 0x7FFF (plane_at src 0) 0;
  let shuffle_l0_result := mm_shuffle_epi8 input (tbl8 be10_to_le_shuffle_l0_tbl_128) in
  let shuffle_r0_result := mm_shuffle_epi8 input (tbl8 be10_to_le_shuffle_r0_tbl_128) in
  let rl_result := mm_and_si128 (mm_rol_epi32 shuffle_l0_result 2) (tbl8 be10_to_and_l0_tbl_128) in
  let rr_result := mm_and_si128 (mm_ror_epi32 shuffle_r0_result 2) (tbl8 be10_to_le_and_r0_tbl_128) in
  let rl_result_shuffle := mm_shuffle_epi8 rl_result (tbl8 be10_to_le_shuffle_l1_tbl_128) in
  let rr_result_shuffle := mm_shuffle_epi8 rr_result (tbl8 be10_to_le_shuffle_r1_tbl_128) in
  out ← mm_mask_storeu_epi8 0x7FFF (mm_or_si128 rl_result_shuffle rr_result_shuffle);
  Some [out].

Definition le10_to_be_batch3 (src : list (list (list B))) : option (list (list (list B))) :=
  input ← mm_maskz_loadu_epi8 0x7FFF (plane_at src 0) 0;
  let shuffle_l0_result := mm_shuffle_epi8 input (tbl8 le10_to_be_shuffle_l0_tbl_128) in
  let shuffle_r0_result := mm_shuffle_epi8 input (tbl8 le10_to_be_shuffle_r0_tbl_128) in
  let rl_result := mm_and_si128 (mm_rol_epi32 shuffle_l0_result 2) (tbl8 le10_to_be_and_l0_tbl_128) in
  let rr_result := mm_and_si128 (mm_ror_epi32 shuffle_r0_result 2) (tbl8 le10_to_be_and_r0_tbl_128) in
  let rl_result_shuffle := mm_shuffle_epi8 rl_result (tbl8 le10_to_be_shuffle_l1_tbl_128) in
  let rr_result_shuffle := mm_shuffle_epi8 rr_result (tbl8 le10_to_be_shuffle_r1_tbl_128) in
  out ← mm_mask_storeu_epi8 0x7FFF (mm_or_si128 rl_result_shuffle rr_result_shuffle);
  Some [out].

(** Two groups to {Cb, Y, Cr, Y} of eight bits each. *)
Definition be10_to_uyvy (pg : list (list B)) (off : nat) : option (list B) :=
  input ← mm_maskz_loadu_epi8 0x3FF pg off;
  let shuffle_result := mm_shuffle_epi8 input (tbl8 be10_to_le8_shuffle0_tbl_128) in
  let sllv_result := mm_sllv_epi16 shuffle_result (tbl16 be10_to_le8_sllv_tbl_128) in
  Some (mm_shuffle_epi8 sllv_result (tbl8 be10_to_le8_shuffle1_tbl_128)).
Definition be10_to_le8_batch2 (src : list (list (list B))) : option (list (list (list B))) :=
  result ← be10_to_uyvy (plane_at src 0) 0;
  Some [mm_storel_epi64 result].
(** 16 groups, four at a time sorted into {U, V, Y, Y}. *)
Definition be10_to_uvyy (pg : list (list B)) (step : nat) : option (list B) :=
  uyvy_t1 ← be10_to_uyvy pg (20 * step)%nat;
  uyvy_t2 ← be10_to_uyvy pg (20 * step + 10)%nat;
  let uyvy := mm_unpacklo 64 uyvy_t1 uyvy_t2 in
  Some (mm_shuffle_epi8 uyvy (tbl8 p8_uyvy2uvyy_mask)).
Definition be10_to_p8_batch16 (src : list (list (list B))) : option (list (list (list B))) :=
  uvyy ← for_regs 4 (be10_to_uvyy (plane_at src 0));
  let y0y1y2y3 := mm_unpackhi 64 (reg_at uvyy 0) (reg_at uvyy 1) in
  let y4y5y6y7 := mm_unpackhi 64 (reg_at uvyy 2) (reg_at uvyy 3) in
  let u0v0u1v1 := mm_unpacklo 64 (reg_at uvyy 0) (reg_at uvyy 1) in
  let u2v2u3v3 := mm_unpacklo 64 (reg_at uvyy 2) (reg_at uvyy 3) in
  let u0u2v0v2 := mm_unpacklo 32 u0v0u1v1 u2v2u3v3 in
  let u1u3v1v3 := mm_unpackhi 32 u0v0u1v1 u2v2u3v3 in
  let u0u1u2u3 := mm_unpacklo 32 u0u2v0v2 u1u3v1v3 in
  let v0v1v2v3 := mm_unpackhi 32 u0u2v0v2 u1u3v1v3 in
  Some [mm_storeu_si128 y0y1y2y3 ++ mm_storeu_si128 y4y5y6y7; mm_storeu_si128 u0u1u2u3; mm_storeu_si128 v0v1v2v3].
(** The second line of a pair keeps the luma only. *)
Definition be10_to_y8_batch16 (src : list (list (list B))) : option (list (list (list B))) :=
  uvyy ← for_regs 4 (be10_to_uvyy (plane_at src 0));
  let y0y1y2y3 := mm_unpackhi 64 (reg_at uvyy 0) (reg_at uvyy 1) in
  let y4y5y6y7 := mm_unpackhi 64 (reg_at uvyy 2) (reg_at uvyy 3) in
  Some [mm_storeu_si128 y0y1y2y3 ++ mm_storeu_si128 y4y5y6y7; []; []].

Definition le10_to_v210_batch3 (src : list (list (list B))) : option (list (list (list B))) :=
  input ← mm_maskz_loadu_epi8 0x7FFF (plane_at src 0) 0;
  let shuffle_l_result := mm_maskz_mov_epi8 0x0880 input in
  let shuffle_r_result := mm_shuffle_epi8 input (tbl8 le10_to_v210_shuffle_r_tbl_128) in
  let sllv_result := mm_sllv_epi32 shuffle_l_result (tbl32 le10_to_v210_sllv_tbl_128) in
  let srlv_result := mm_srlv_epi32 shuffle_r_result (tbl32 le10_to_v210_srlv_tbl_128) in
  Some [mm_store_si128 (mm_and_si128 (mm_or_si128 sllv_result srlv_result) (tbl8 le10_to_v210_and_tbl_128))].

Definition be10_to_v210_batch3 (src : list (list (list B))) : option (list (list (list B))) :=
  input ← mm_maskz_loadu_epi8 0x7FFF (plane_at src 0) 0;
  let shuffle0_result := mm_shuffle_epi8 input (tbl8 be10_to_v210_shuffle0_tbl_128) in
  let sllv0_result := mm_sllv_epi16 shuffle0_result (tbl16 be10_to_v210_sllv0_tbl_128) in
  let srlv0_result := mm_srlv_epi16 sllv0_result (tbl16 be10_to_v210_srlv0_tbl_128) in
  let and0_result := mm_and_si128 srlv0_result (tbl8 be10_to_v210_and0_tbl_128) in
  let shuffle1_result := mm_shuffle_epi8 input (tbl8 be10_to_v210_shuffle1_tbl_128) in
  let srlv1_result := mm_srlv_epi32 shuffle1_result (tbl32 be10_to_v210_srlv1_tbl_128) in
  let and1_result := mm_and_si128 srlv1_result (tbl8 be10_to_v210_and1_tbl_128) in
  Some [mm_store_si128 (mm_or_si128 and0_result and1_result)].

Definition v210_to_be10_batch3 (src : list (list (list B))) : option (list (list (list B))) :=
  input ← mm_loadu_si128 (plane_at src 0) 0;
  let shuffle_l0_result := mm_shuffle_epi8 input (tbl8 v210_to_be10_shuffle_l0_tbl_128) in
  let sllv_result := mm_sllv_epi16 shuffle_l0_result (tbl16 v210_to_be10_sllv_tbl_128) in
  let shuffle_l1_result := mm_shuffle_epi8 sllv_result (tbl8 v210_to_be10_shuffle_l1_tbl_128) in
  let and_l_result := mm_and_si128 shuffle_l1_result (tbl8 v210_to_be10_and_l_tbl_128) in
  let shuffle_r0_result := mm_shuffle_epi8 input (tbl8 v210_to_be10_shuffle_r0_tbl_128) in
  let srlv_result := mm_srlv_epi16 shuffle_r0_result (tbl16 v210_to_be10_srlv_tbl_128) in
  let shuffle_r1_result := mm_shuffle_epi8 srlv_result (tbl8 v210_to_be10_shuffle_r1_tbl_128) in
  let and_r_result := mm_and_si128 shuffle_r1_result (tbl8 v210_to_be10_and_r_tbl_128) in
  out ← mm_mask_storeu_epi8 0x7FFF (mm_or_si128 and_l_result and_r_result);
  Some [out].

Definition be10_to_y210_batch2 (src : list (list (list B))) : option (list (list (list B))) :=
  input ← mm_maskz_loadu_epi8 0x3FF (plane_at src 0) 0;
  let shuffle_result := mm_shuffle_epi8 input (tbl8 be10_to_y210_shuffle_tbl_128) in
  let sllv_result := mm_sllv_epi16 shuffle_result (tbl16 be10_to_y210_sllv_tbl_128) in
  Some [mm_storeu_si128 (mm_and_si128 sllv_result (tbl16 be10_to_y210_and_tbl_128))].
Definition y210_to_be10_batch2 (src : list (list (list B))) : option (list (list (list B))) :=
  input ← mm_loadu_si128 (plane_at src 0) 0;
  let srlv_result := mm_srlv_epi16 input (tbl16 be10_to_y210_sllv_tbl_128) in
  let shuffle0_result := mm_maskz_shuffle_epi8 0x1EF srlv_result (tbl8 y210_to_be10_shuffle0_tbl_128) in
  let shuffle1_result := mm_maskz_shuffle_epi8 0x3DE srlv_result (tbl8 y210_to_be10_shuffle1_tbl_128) in
  out ← mm_mask_storeu_epi8 0x3FF (mm_or_si128 shuffle0_result shuffle1_result);
  Some [out].

Definition be12_to_le12_batch2 (src : list (list (list B))) : option (list (list (list B))) :=
  input ← mm_maskz_loadu_epi8 0xFFF (plane_at src 0) 0;
  let shuffle0_result := mm_shuffle_epi8 input (tbl8 be12_to_le12_shuffle0_tbl_128) in
  let sr_result := mm_srli_epi32 shuffle0_result 4 in
  let result := mm_shuffle_epi8 sr_result (tbl8 be12_to_le12_shuffle1_tbl_128) in
  out ← mm_mask_storeu_epi8 0xFFF result;
  Some [out].
End Bodies.

#[export] Hint Unfold be10_to_ple_128 be12_to_ple_128 be10_to_p16le_128 planes_batch32 planes_batch8 planes_to_pg
  be10_to_uyvy be10_to_uvyy : simd.

(** ** Routines *)

Definition st20_rfc4175_422be10_to_yuv422p10le_avx512 : conv :=
  simd_conv [5]%nat [4; 2; 2]%nat
    [simd_stage 32 [160]%nat (@be10_to_ple_batch32); simd_stage 8 [40]%nat (@be10_to_ple_batch8); scalar_stage [5]%nat pg_be10_to_p10].
Definition st20_rfc4175_422be10_to_422le10_avx512 : conv :=
  simd_conv [5]%nat [5]%nat [simd_stage 3 [15]%nat (@be10_to_le_batch3); scalar_stage [5]%nat pg_be10_to_le10].
Definition st20_rfc4175_422be10_to_422le8_avx512 : conv :=
  simd_conv [5]%nat [4]%nat [simd_stage 2 [10]%nat (@be10_to_le8_batch2); scalar_stage [5]%nat pg_be10_to_le8].
Definition st20_rfc4175_422be10_to_yuv422p8_avx512 : conv :=
  simd_conv [5]%nat [2; 1; 1]%nat [simd_stage 16 [80]%nat (@be10_to_p8_batch16); scalar_stage [5]%nat pg_be10_to_p8].

(** Two lines a turn: the first with its chroma, the second without. *)
Definition yuv420p8_pair_avx512 (line_pg_cnt : nat) (st : cursor) : option cursor :=
  st ← run_plan [5]%nat [2; 1; 1]%nat
         (batches [simd_stage 16 [80]%nat (@be10_to_p8_batch16); scalar_stage [5]%nat pg_be10_to_p8] line_pg_cnt) st;
  run_plan [5]%nat [2; 0; 0]%nat
    (batches [simd_stage 16 [80]%nat (@be10_to_y8_batch16); scalar_stage [5]%nat pg_be10_to_y8] line_pg_cnt) st.
Fixpoint yuv420p8_loop_avx512 (line_pg_cnt pairs : nat) (st : cursor) : option cursor :=
  match pairs with O => Some st | S pairs => st ← yuv420p8_pair_avx512 line_pg_cnt st; yuv420p8_loop_avx512 line_pg_cnt pairs st end.
Definition st20_rfc4175_422be10_to_yuv420p8_avx512 : conv := fun w h src dst =>
  let line_pg_cnt := Z.to_nat (w / 2) in
  '(out, _, dst) ← yuv420p8_loop_avx512 line_pg_cnt (Z.to_nat (h / 2)) ([[]; []; []], src, dst);
  Some (0, zip_with app out dst).

Definition st20_rfc4175_422le10_to_v210_avx512 : conv :=
  v210_simd_conv [15]%nat [16]%nat 3 (simd_stage 1 [15]%nat (@le10_to_v210_batch3)).
Definition st20_rfc4175_422be10_to_v210_avx512 : conv :=
  v210_simd_conv [15]%nat [16]%nat 3 (simd_stage 1 [15]%nat (@be10_to_v210_batch3)).
Definition st20_yuv422p10le_to_rfc4175_422be10_avx512 : conv :=
  simd_conv [4; 2; 2]%nat [5]%nat [simd_stage 8 [32; 16; 16]%nat (@ple_to_be10_batch8); scalar_stage [4; 2; 2]%nat pg_p10_to_be10].
Definition st20_rfc4175_422le10_to_422be10_avx512 : conv :=
  simd_conv [5]%nat [5]%nat [simd_stage 3 [15]%nat (@le10_to_be_batch3); scalar_stage [5]%nat pg_le10_to_be10].
Definition st20_v210_to_rfc4175_422be10_avx512 : conv :=
  v210_simd_conv [16]%nat [15]%nat 3 (simd_stage 1 [16]%nat (@v210_to_be10_batch3)).
Definition st20_rfc4175_422be10_to_y210_avx512 : conv :=
  simd_conv [5]%nat [8]%nat [simd_stage 2 [10]%nat (@be10_to_y210_batch2); scalar_stage [5]%nat pg_be10_to_y210].
Definition st20_y210_to_rfc4175_422be10_avx512 : conv :=
  simd_conv [8]%nat [5]%nat [simd_stage 2 [16]%nat (@y210_to_be10_batch2); scalar_stage [8]%nat pg_y210_to_be10].
Definition st20_rfc4175_422be12_to_422le12_avx512 : conv :=
  simd_conv [6]%nat [6]%nat [simd_stage 2 [12]%nat (@be12_to_le12_batch2); scalar_stage [6]%nat pg_be12_to_le12].
Definition st20_rfc4175_422be12_to_yuv422p12le_avx512 : conv :=
  simd_conv [6]%nat [4; 2; 2]%nat
    [simd_stage 32 [192]%nat (@be12_to_ple_batch32); simd_stage 8 [48]%nat (@be12_to_ple_batch8); scalar_stage [6]%nat pg_be12_to_p12].
Definition st20_rfc4175_422be10_to_yuv422p16le_avx512 : conv :=
  simd_conv [5]%nat [4; 2; 2]%nat
    [simd_stage 32 [160]%nat (@be10_to_p16le_batch32); simd_stage 8 [40]%nat (@be10_to_p16le_batch8); scalar_stage [5]%nat pg_be10_to_p16].
Definition st20_yuv422p16le_to_rfc4175_422be10_avx512 : conv :=
  simd_conv [4; 2; 2]%nat [5]%nat [simd_stage 8 [32; 16; 16]%nat (@p16le_to_be10_batch8); scalar_stage [4; 2; 2]%nat pg_p16_to_be10].

(** ** Every batch does its groups as the scalar body does *)

Lemma be10_to_ple_batch32_ok : stage_ok any_bytes [5]%nat [4; 2; 2]%nat pg_be10_to_p10 0 (simd_stage 32 [160]%nat (@be10_to_ple_batch32)).
Proof. batch_ok @be10_to_ple_batch32. Qed.
Lemma be10_to_ple_batch8_ok : stage_ok any_bytes [5]%nat [4; 2; 2]%nat pg_be10_to_p10 0 (simd_stage 8 [40]%nat (@be10_to_ple_batch8)).
Proof. batch_ok @be10_to_ple_batch8. Qed.
Lemma be12_to_ple_batch32_ok : stage_ok any_bytes [6]%nat [4; 2; 2]%nat pg_be12_to_p12 0 (simd_stage 32 [192]%nat (@be12_to_ple_batch32)).
Proof. batch_ok @be12_to_ple_batch32. Qed.
Lemma be12_to_ple_batch8_ok : stage_ok any_bytes [6]%nat [4; 2; 2]%nat pg_be12_to_p12 0 (simd_stage 8 [48]%nat (@be12_to_ple_batch8)).
Proof. batch_ok @be12_to_ple_batch8. Qed.
Lemma be10_to_p16le_batch32_ok : stage_ok any_bytes [5]%nat [4; 2; 2]%nat pg_be10_to_p16 0 (simd_stage 32 [160]%nat (@be10_to_p16le_batch32)).
Proof. batch_ok @be10_to_p16le_batch32. Qed.
Lemma be10_to_p16le_batch8_ok : stage_ok any_bytes [5]%nat [4; 2; 2]%nat pg_be10_to_p16 0 (simd_stage 8 [40]%nat (@be10_to_p16le_batch8)).
Proof. batch_ok @be10_to_p16le_batch8. Qed.
Lemma ple_to_be10_batch8_ok : stage_ok (samples 10) [4; 2; 2]%nat [5]%nat pg_p10_to_be10 0 (simd_stage 8 [32; 16; 16]%nat (@ple_to_be10_batch8)).
Proof. batch_ok @ple_to_be10_batch8. Qed.
Lemma p16le_to_be10_batch8_ok : stage_ok any_bytes [4; 2; 2]%nat [5]%nat pg_p16_to_be10 0 (simd_stage 8 [32; 16; 16]%nat (@p16le_to_be10_batch8)).
Proof. batch_ok @p16le_to_be10_batch8. Qed.
Lemma be10_to_le_batch3_ok : stage_ok any_bytes [5]%nat [5]%nat pg_be10_to_le10 0 (simd_stage 3 [15]%nat (@be10_to_le_batch3)).
Proof. batch_ok @be10_to_le_batch3. Qed.
Lemma le10_to_be_batch3_ok : stage_ok any_bytes [5]%nat [5]%nat pg_le10_to_be10 0 (simd_stage 3 [15]%nat (@le10_to_be_batch3)).
Proof. batch_ok @le10_to_be_batch3. Qed.
Lemma be10_to_le8_batch2_ok : stage_ok any_bytes [5]%nat [4]%nat pg_be10_to_le8 0 (simd_stage 2 [10]%nat (@be10_to_le8_batch2)).
Proof. batch_ok @be10_to_le8_batch2. Qed.
Lemma be10_to_p8_batch16_ok : stage_ok any_bytes [5]%nat [2; 1; 1]%nat pg_be10_to_p8 0 (simd_stage 16 [80]%nat (@be10_to_p8_batch16)).
Proof. batch_ok @be10_to_p8_batch16. Qed.
Lemma be10_to_y8_batch16_ok : stage_ok any_bytes [5]%nat [2; 0; 0]%nat pg_be10_to_y8 0 (simd_stage 16 [80]%nat (@be10_to_y8_batch16)).
Proof. batch_ok @be10_to_y8_batch16. Qed.
Lemma le10_to_v210_batch3_ok : stage_ok any_bytes [15]%nat [16]%nat pg3_le10_to_v210 0 (simd_stage 1 [15]%nat (@le10_to_v210_batch3)).
Proof. batch_ok @le10_to_v210_batch3. Qed.
Lemma be10_to_v210_batch3_ok : stage_ok any_bytes [15]%nat [16]%nat pg3_be10_to_v210 0 (simd_stage 1 [15]%nat (@be10_to_v210_batch3)).
Proof. batch_ok @be10_to_v210_batch3. Qed.
Lemma v210_to_be10_batch3_ok : stage_ok any_bytes [16]%nat [15]%nat pg3_v210_to_be10 0 (simd_stage 1 [16]%nat (@v210_to_be10_batch3)).
Proof. batch_ok @v210_to_be10_batch3. Qed.
Lemma be10_to_y210_batch2_ok : stage_ok any_bytes [5]%nat [8]%nat pg_be10_to_y210 0 (simd_stage 2 [10]%nat (@be10_to_y210_batch2)).
Proof. batch_ok @be10_to_y210_batch2. Qed.
Lemma y210_to_be10_batch2_ok : stage_ok y210_samples [8]%nat [5]%nat pg_y210_to_be10 0 (simd_stage 2 [16]%nat (@y210_to_be10_batch2)).
Proof. batch_ok @y210_to_be10_batch2. Qed.
Lemma be12_to_le12_batch2_ok : stage_ok any_bytes [6]%nat [6]%nat pg_be12_to_le12 0 (simd_stage 2 [12]%nat (@be12_to_le12_batch2)).
Proof. batch_ok @be12_to_le12_batch2. Qed.
