(* ===== verification/Avx512Vbmi.v ===== *)
(** The vector routines of lib/src/st2110/st_avx512_vbmi.c, as those of [Avx512]: they
    permute the bytes of whole 512-bit registers. *)
From S2P Require Import Prelude Bytes BitExpr Convert Simd.

(** ** Tables *)

Definition be10_to_ple_permute_tbl_512 : list Z :=
  [1; 0; 6; 5; 1 + 10; 0 + 10; 6 + 10; 5 + 10; 1 + 20; 0 + 20; 6 + 20; 5 + 20; 1 + 30; 0 + 30; 6 + 30; 5 + 30; 3;
   2; 8; 7; 3 + 10; 2 + 10; 8 + 10; 7 + 10; 3 + 20; 2 + 20; 8 + 20; 7 + 20; 3 + 30; 2 + 30; 8 + 30; 7 + 30; 2; 1;
   4; 3; 7; 6; 9; 8; 2 + 10; 1 + 10; 4 + 10; 3 + 10; 7 + 10; 6 + 10; 9 + 10; 8 + 10; 2 + 20; 1 + 20; 4 + 20;
   3 + 20; 7 + 20; 6 + 20; 9 + 20; 8 + 20; 2 + 30; 1 + 30; 4 + 30; 3 + 30; 7 + 30; 6 + 30; 9 + 30; 8 + 30].
Definition be10_to_ple_srlv_tbl_512 : list Z :=
  [6; 6; 6; 6; 6; 6; 6; 6; 2; 2; 2; 2; 2; 2; 2; 2; 4; 0; 4; 0; 4; 0; 4; 0; 4; 0; 4; 0; 4; 0; 4; 0].
Definition be10_to_ple_and_tbl_512 : list Z :=
  [0x03ff; 0x03ff; 0x03ff; 0x03ff; 0x03ff; 0x03ff; 0x03ff; 0x03ff; 0x03ff; 0x03ff; 0x03ff; 0x03ff; 0x03ff; 0x03ff;
   0x03ff; 0x03ff; 0x03ff; 0x03ff; 0x03ff; 0x03ff; 0x03ff; 0x03ff; 0x03ff; 0x03ff; 0x03ff; 0x03ff; 0x03ff; 0x03ff;
   0x03ff; 0x03ff; 0x03ff; 0x03ff].
Definition be10_to_le_permute_l0_tbl_512 : list Z :=
  [1; 0; 3; 2; 6; 5; 8; 7; 11; 10; 13; 12; 0; 5; 10; 63; 1 + 15; 0 + 15; 3 + 15; 2 + 15; 6 + 15; 5 + 15; 8 + 15;
   7 + 15; 11 + 15; 10 + 15; 13 + 15; 12 + 15; 0 + 15; 5 + 15; 10 + 15; 63; 1 + 30; 0 + 30; 3 + 30; 2 + 30;
   6 + 30; 5 + 30; 8 + 30; 7 + 30; 11 + 30; 10 + 30; 13 + 30; 12 + 30; 0 + 30; 5 + 30; 10 + 30; 63; 1 + 45;
   0 + 45; 3 + 45; 2 + 45; 6 + 45; 5 + 45; 8 + 45; 7 + 45; 11 + 45; 10 + 45; 13 + 45; 12 + 45; 0 + 45; 5 + 45;
   10 + 45; 63].
Definition be10_to_le_and_l0_tbl_512 : list Z :=
  [0x00; 0xFF; 0xF0; 0x3F; 0x00; 0xFF; 0xF0; 0x3F; 0x00; 0xFF; 0xF0; 0x3F; 0x00; 0x03; 0x03; 0x03; 0x00; 0xFF;
   0xF0; 0x3F; 0x00; 0xFF; 0xF0; 0x3F; 0x00; 0xFF; 0xF0; 0x3F; 0x00; 0x03; 0x03; 0x03; 0x00; 0xFF; 0xF0; 0x3F;
   0x00; 0xFF; 0xF0; 0x3F; 0x00; 0xFF; 0xF0; 0x3F; 0x00; 0x03; 0x03; 0x03; 0x00; 0xFF; 0xF0; 0x3F; 0x00; 0xFF;
   0xF0; 0x3F; 0x00; 0xFF; 0xF0; 0x3F; 0x00; 0x03; 0x03; 0x03].
Definition be10_to_le_permute_r0_tbl_512 : list Z :=
  [2; 1; 4; 3; 7; 6; 9; 8; 12; 11; 14; 13; 63; 4; 9; 14; 2 + 15; 1 + 15; 4 + 15; 3 + 15; 7 + 15; 6 + 15; 9 + 15;
   8 + 15; 12 + 15; 11 + 15; 14 + 15; 13 + 15; 63; 4 + 15; 9 + 15; 14 + 15; 2 + 30; 1 + 30; 4 + 30; 3 + 30;
   7 + 30; 6 + 30; 9 + 30; 8 + 30; 12 + 30; 11 + 30; 14 + 30; 13 + 30; 63; 4 + 30; 9 + 30; 14 + 30; 2 + 45;
   1 + 45; 4 + 45; 3 + 45; 7 + 45; 6 + 45; 9 + 45; 8 + 45; 12 + 45; 11 + 45; 14 + 45; 13 + 45; 63; 4 + 45; 9 + 45;
   14 + 45].
Definition be10_to_le_and_r0_tbl_512 : list Z :=
  [0xFC; 0x0F; 0xFF; 0x00; 0xFC; 0x0F; 0xFF; 0x00; 0xFC; 0x0F; 0xFF; 0x00; 0xC0; 0xC0; 0xC0; 0x00; 0xFC; 0x0F;
   0xFF; 0x00; 0xFC; 0x0F; 0xFF; 0x00; 0xFC; 0x0F; 0xFF; 0x00; 0xC0; 0xC0; 0xC0; 0x00; 0xFC; 0x0F; 0xFF; 0x00;
   0xFC; 0x0F; 0xFF; 0x00; 0xFC; 0x0F; 0xFF; 0x00; 0xC0; 0xC0; 0xC0; 0x00; 0xFC; 0x0F; 0xFF; 0x00; 0xFC; 0x0F;
   0xFF; 0x00; 0xFC; 0x0F; 0xFF; 0x00; 0xC0; 0xC0; 0xC0; 0x00].
Definition be10_to_le_permute_l1_tbl_512 : list Z :=
  [1; 13; 2; 3; 0; 5; 14; 6; 7; 4; 9; 15; 10; 11; 8; 1 + 16; 13 + 16; 2 + 16; 3 + 16; 0 + 16; 5 + 16; 14 + 16;
   6 + 16; 7 + 16; 4 + 16; 9 + 16; 15 + 16; 10 + 16; 11 + 16; 8 + 16; 1 + 32; 13 + 32; 2 + 32; 3 + 32; 0 + 32;
   5 + 32; 14 + 32; 6 + 32; 7 + 32; 4 + 32; 9 + 32; 15 + 32; 10 + 32; 11 + 32; 8 + 32; 1 + 48; 13 + 48; 2 + 48;
   3 + 48; 0 + 48; 5 + 48; 14 + 48; 6 + 48; 7 + 48; 4 + 48; 9 + 48; 15 + 48; 10 + 48; 11 + 48; 8 + 48; 60; 60; 60;
   60].
Definition be10_to_le_permute_r1_tbl_512 : list Z :=
  [3; 0; 1; 12; 2; 7; 4; 5; 13; 6; 11; 8; 9; 14; 10; 3 + 16; 0 + 16; 1 + 16; 12 + 16; 2 + 16; 7 + 16; 4 + 16;
   5 + 16; 13 + 16; 6 + 16; 11 + 16; 8 + 16; 9 + 16; 14 + 16; 10 + 16; 3 + 32; 0 + 32; 1 + 32; 12 + 32; 2 + 32;
   7 + 32; 4 + 32; 5 + 32; 13 + 32; 6 + 32; 11 + 32; 8 + 32; 9 + 32; 14 + 32; 10 + 32; 3 + 48; 0 + 48; 1 + 48;
   12 + 48; 2 + 48; 7 + 48; 4 + 48; 5 + 48; 13 + 48; 6 + 48; 11 + 48; 8 + 48; 9 + 48; 14 + 48; 10 + 48; 63; 63;
   63; 63].
Definition be10_to_le8_permute_tbl_512 : list Z :=
  [0; 4; 3; 2; 1; 0 + 5; 2 + 5; 1 + 5; 4 + 5; 3 + 5; 2 + 5; 0 + 10; 4 + 10; 3 + 10; 2 + 10; 1 + 10; 0 + 15;
   4 + 15; 3 + 15; 2 + 15; 1 + 15; 0 + 20; 2 + 20; 1 + 20; 4 + 20; 3 + 20; 2 + 20; 0 + 25; 4 + 25; 3 + 25; 2 + 25;
   1 + 25; 0 + 30; 4 + 30; 3 + 30; 2 + 30; 1 + 30; 0 + 35; 2 + 35; 1 + 35; 4 + 35; 3 + 35; 2 + 35; 0 + 40; 4 + 40;
   3 + 40; 2 + 40; 1 + 40; 0 + 45; 4 + 45; 3 + 45; 2 + 45; 1 + 45; 0 + 50; 2 + 50; 1 + 50; 4 + 50; 3 + 50; 2 + 50;
   0 + 55; 4 + 55; 3 + 55; 2 + 55; 1 + 55].
Definition be10_to_le8_multishift_tbl_512 : list Z :=
  [0; 30; 20; 10; 0; 0; 40; 54; 12; 2; 0; 0; 24; 54; 44; 34; 0; 30; 20; 10; 0; 0; 40; 54; 12; 2; 0; 0; 24; 54; 44;
   34; 0; 30; 20; 10; 0; 0; 40; 54; 12; 2; 0; 0; 24; 54; 44; 34; 0; 30; 20; 10; 0; 0; 40; 54; 12; 2; 0; 0; 24; 54;
   44; 34].
Definition le10_to_v210_permute_tbl_512 : list Z :=
  [0; 1; 2; 3; 4; 5; 6; 7; 7; 8; 9; 10; 11; 12; 13; 14; 0 + 15; 1 + 15; 2 + 15; 3 + 15; 4 + 15; 5 + 15; 6 + 15;
   7 + 15; 7 + 15; 8 + 15; 9 + 15; 10 + 15; 11 + 15; 12 + 15; 13 + 15; 14 + 15; 0 + 30; 1 + 30; 2 + 30; 3 + 30;
   4 + 30; 5 + 30; 6 + 30; 7 + 30; 7 + 30; 8 + 30; 9 + 30; 10 + 30; 11 + 30; 12 + 30; 13 + 30; 14 + 30; 0 + 45;
   1 + 45; 2 + 45; 3 + 45; 4 + 45; 5 + 45; 6 + 45; 7 + 45; 7 + 45; 8 + 45; 9 + 45; 10 + 45; 11 + 45; 12 + 45;
   13 + 45; 14 + 45].
Definition le10_to_v210_multishift_tbl_512 : list Z :=
  [0; 8; 16; 24; 30; 38; 46; 54; 4; 12; 20; 28; 34; 42; 50; 58; 0; 8; 16; 24; 30; 38; 46; 54; 4; 12; 20; 28; 34;
   42; 50; 58; 0; 8; 16; 24; 30; 38; 46; 54; 4; 12; 20; 28; 34; 42; 50; 58; 0; 8; 16; 24; 30; 38; 46; 54; 4; 12;
   20; 28; 34; 42; 50; 58].
Definition le10_to_v210_and_tbl_512 : list Z :=
  [0xFF; 0xFF; 0xFF; 0x3F; 0xFF; 0xFF; 0xFF; 0x3F; 0xFF; 0xFF; 0xFF; 0x3F; 0xFF; 0xFF; 0xFF; 0x3F; 0xFF; 0xFF;
   0xFF; 0x3F; 0xFF; 0xFF; 0xFF; 0x3F; 0xFF; 0xFF; 0xFF; 0x3F; 0xFF; 0xFF; 0xFF; 0x3F; 0xFF; 0xFF; 0xFF; 0x3F;
   0xFF; 0xFF; 0xFF; 0x3F; 0xFF; 0xFF; 0xFF; 0x3F; 0xFF; 0xFF; 0xFF; 0x3F; 0xFF; 0xFF; 0xFF; 0x3F; 0xFF; 0xFF;
   0xFF; 0x3F; 0xFF; 0xFF; 0xFF; 0x3F; 0xFF; 0xFF; 0xFF; 0x3F].
Definition be10_to_v210_permute0_tbl_512 : list Z :=
  [1; 0; 3; 2; 4; 3; 7; 6; 8; 7; 11; 10; 12; 11; 14; 13; 1 + 15; 0 + 15; 3 + 15; 2 + 15; 4 + 15; 3 + 15; 7 + 15;
   6 + 15; 8 + 15; 7 + 15; 11 + 15; 10 + 15; 12 + 15; 11 + 15; 14 + 15; 13 + 15; 1 + 30; 0 + 30; 3 + 30; 2 + 30;
   4 + 30; 3 + 30; 7 + 30; 6 + 30; 8 + 30; 7 + 30; 11 + 30; 10 + 30; 12 + 30; 11 + 30; 14 + 30; 13 + 30; 1 + 45;
   0 + 45; 3 + 45; 2 + 45; 4 + 45; 3 + 45; 7 + 45; 6 + 45; 8 + 45; 7 + 45; 11 + 45; 10 + 45; 12 + 45; 11 + 45;
   14 + 45; 13 + 45].
Definition be10_to_v210_multishift0_tbl_512 : list Z :=
  [6; 14; 14; 22; 32; 40; 48; 56; 2; 10; 18; 26; 36; 44; 44; 52; 6; 14; 14; 22; 32; 40; 48; 56; 2; 10; 18; 26; 36;
   44; 44; 52; 6; 14; 14; 22; 32; 40; 48; 56; 2; 10; 18; 26; 36; 44; 44; 52; 6; 14; 14; 22; 32; 40; 48; 56; 2; 10;
   18; 26; 36; 44; 44; 52].
Definition be10_to_v210_and0_tbl_512 : list Z :=
  [0xFF; 0x03; 0xF0; 0x3F; 0xFF; 0x03; 0xF0; 0x3F; 0xFF; 0x03; 0xF0; 0x3F; 0xFF; 0x03; 0xF0; 0x3F; 0xFF; 0x03;
   0xF0; 0x3F; 0xFF; 0x03; 0xF0; 0x3F; 0xFF; 0x03; 0xF0; 0x3F; 0xFF; 0x03; 0xF0; 0x3F; 0xFF; 0x03; 0xF0; 0x3F;
   0xFF; 0x03; 0xF0; 0x3F; 0xFF; 0x03; 0xF0; 0x3F; 0xFF; 0x03; 0xF0; 0x3F; 0xFF; 0x03; 0xF0; 0x3F; 0xFF; 0x03;
   0xF0; 0x3F; 0xFF; 0x03; 0xF0; 0x3F; 0xFF; 0x03; 0xF0; 0x3F].
Definition be10_to_v210_permute1_tbl_512 : list Z :=
  [63; 2; 1; 63; 63; 6; 5; 63; 63; 9; 8; 63; 63; 13; 12; 63; 63; 2 + 15; 1 + 15; 63; 63; 6 + 15; 5 + 15; 63; 63;
   9 + 15; 8 + 15; 63; 63; 13 + 15; 12 + 15; 63; 63; 2 + 30; 1 + 30; 63; 63; 6 + 30; 5 + 30; 63; 63; 9 + 30;
   8 + 30; 63; 63; 13 + 30; 12 + 30; 63; 63; 2 + 45; 1 + 45; 63; 63; 6 + 45; 5 + 45; 63; 63; 9 + 45; 8 + 45; 63;
   63; 13 + 45; 12 + 45; 63].
Definition be10_to_v210_multishift1_tbl_512 : list Z :=
  [0; 10; 18; 0; 0; 44; 52; 0; 0; 6; 14; 0; 0; 40; 48; 0; 0; 10; 18; 0; 0; 44; 52; 0; 0; 6; 14; 0; 0; 40; 48; 0;
   0; 10; 18; 0; 0; 44; 52; 0; 0; 6; 14; 0; 0; 40; 48; 0; 0; 10; 18; 0; 0; 44; 52; 0; 0; 6; 14; 0; 0; 40; 48; 0].
Definition be10_to_v210_and1_tbl_512 : list Z :=
  [0x00; 0xFC; 0x0F; 0x00; 0x00; 0xFC; 0x0F; 0x00; 0x00; 0xFC; 0x0F; 0x00; 0x00; 0xFC; 0x0F; 0x00; 0x00; 0xFC;
   0x0F; 0x00; 0x00; 0xFC; 0x0F; 0x00; 0x00; 0xFC; 0x0F; 0x00; 0x00; 0xFC; 0x0F; 0x00; 0x00; 0xFC; 0x0F; 0x00;
   0x00; 0xFC; 0x0F; 0x00; 0x00; 0xFC; 0x0F; 0x00; 0x00; 0xFC; 0x0F; 0x00; 0x00; 0xFC; 0x0F; 0x00; 0x00; 0xFC;
   0x0F; 0x00; 0x00; 0xFC; 0x0F; 0x00; 0x00; 0xFC; 0x0F; 0x00].
Definition ple_to_be10_sllv_tbl_512 : list Z :=
  [6; 6; 6; 6; 6; 6; 6; 6; 4; 0; 4; 0; 4; 0; 4; 0; 2; 2; 2; 2; 2; 2; 2; 2; 4; 0; 4; 0; 4; 0; 4; 0].
Definition ple_to_be10_permute_hi_tbl_512 : list Z :=
  [1 + (2 * 0); 0 + (2 * 0); 16 + (4 * 0); 32 + (2 * 0); 18 + (4 * 0); 1 + (2 * 1); 0 + (2 * 1); 16 + (4 * 1);
   32 + (2 * 1); 18 + (4 * 1); 1 + (2 * 2); 0 + (2 * 2); 16 + (4 * 2); 32 + (2 * 2); 18 + (4 * 2); 1 + (2 * 3);
   0 + (2 * 3); 16 + (4 * 3); 32 + (2 * 3); 18 + (4 * 3); 1 + (2 * 4); 0 + (2 * 4); 48 + (4 * 0); 32 + (2 * 4);
   50 + (4 * 0); 1 + (2 * 5); 0 + (2 * 5); 48 + (4 * 1); 32 + (2 * 5); 50 + (4 * 1); 1 + (2 * 6); 0 + (2 * 6);
   48 + (4 * 2); 32 + (2 * 6); 50 + (4 * 2); 1 + (2 * 7); 0 + (2 * 7); 48 + (4 * 3); 32 + (2 * 7); 50 + (4 * 3);
   0; 0; 0; 0; 0; 0; 0; 0; 0; 0; 0; 0; 0; 0; 0; 0; 0; 0;
   0; 0; 0; 0; 0; 0].
Definition ple_to_be10_permute_lo_tbl_512 : list Z :=
  [0; 17 + (4 * 0); 33 + (2 * 0); 19 + (4 * 0); 0; 0; 17 + (4 * 1); 33 + (2 * 1); 19 + (4 * 1); 0; 0;
   17 + (4 * 2); 33 + (2 * 2); 19 + (4 * 2); 0; 0; 17 + (4 * 3); 33 + (2 * 3); 19 + (4 * 3); 0; 0; 49 + (4 * 0);
   33 + (2 * 4); 51 + (4 * 0); 0; 0; 49 + (4 * 1); 33 + (2 * 5); 51 + (4 * 1); 0; 0; 49 + (4 * 2); 33 + (2 * 6);
   51 + (4 * 2); 0; 0; 49 + (4 * 3); 33 + (2 * 7); 51 + (4 * 3); 0; 0; 0; 0; 0; 0; 0; 0;
   0; 0; 0; 0; 0; 0; 0; 0; 0; 0; 0; 0; 0; 0; 0; 0; 0].
Definition ple_to_be10_and_lo_tbl_512 : list Z :=
  [0; 0xFF; 0xFF; 0xFF; 0; 0; 0xFF; 0xFF; 0xFF; 0; 0; 0xFF; 0xFF; 0xFF; 0; 0; 0xFF; 0xFF;
   0xFF; 0; 0; 0xFF; 0xFF; 0xFF; 0; 0; 0xFF; 0xFF; 0xFF; 0; 0; 0xFF; 0xFF; 0xFF; 0; 0;
   0xFF; 0xFF; 0xFF; 0; 0; 0; 0; 0; 0; 0; 0; 0; 0; 0; 0; 0; 0; 0;
   0; 0; 0; 0; 0; 0; 0; 0; 0; 0].
Definition le10_to_be_permute_l0_tbl_512 : list Z :=
  [0x01; 0x02; 0x03; 0x04; 0x06; 0x07; 0x08; 0x09; 0x0B; 0x0C; 0x0D; 0x0E; 0x04; 0x09; 0x0E; 0x3F; 0x01 + 15;
   0x02 + 15; 0x03 + 15; 0x04 + 15; 0x06 + 15; 0x07 + 15; 0x08 + 15; 0x09 + 15; 0x0B + 15; 0x0C + 15; 0x0D + 15;
   0x0E + 15; 0x04 + 15; 0x09 + 15; 0x0E + 15; 0x3F; 0x01 + 30; 0x02 + 30; 0x03 + 30; 0x04 + 30; 0x06 + 30;
   0x07 + 30; 0x08 + 30; 0x09 + 30; 0x0B + 30; 0x0C + 30; 0x0D + 30; 0x0E + 30; 0x04 + 30; 0x09 + 30; 0x0E + 30;
   0x3F; 0x01 + 45; 0x02 + 45; 0x03 + 45; 0x04 + 45; 0x06 + 45; 0x07 + 45; 0x08 + 45; 0x09 + 45; 0x0B + 45;
   0x0C + 45; 0x0D + 45; 0x0E + 45; 0x04 + 45; 0x09 + 45; 0x0E + 45; 0x3F].
Definition le10_to_be_and_l0_tbl_512 : list Z :=
  [0xF0; 0x3F; 0x00; 0xFF; 0xF0; 0x3F; 0x00; 0xFF; 0xF0; 0x3F; 0x00; 0xFF; 0x00; 0x03; 0x03; 0x03; 0xF0; 0x3F;
   0x00; 0xFF; 0xF0; 0x3F; 0x00; 0xFF; 0xF0; 0x3F; 0x00; 0xFF; 0x00; 0x03; 0x03; 0x03; 0xF0; 0x3F; 0x00; 0xFF;
   0xF0; 0x3F; 0x00; 0xFF; 0xF0; 0x3F; 0x00; 0xFF; 0x00; 0x03; 0x03; 0x03; 0xF0; 0x3F; 0x00; 0xFF; 0xF0; 0x3F;
   0x00; 0xFF; 0xF0; 0x3F; 0x00; 0xFF; 0x00; 0x03; 0x03; 0x03].
Definition le10_to_be_permute_l1_tbl_512 : list Z :=
  [0x02; 0x01; 0x00; 0x0D; 0x03; 0x02; 0x05; 0x04; 0x0E; 0x07; 0x02; 0x09; 0x08; 0x0F; 0x0B; 0x02; 0x01 + 16;
   0x00 + 16; 0x0D + 16; 0x03 + 16; 0x02; 0x05 + 16; 0x04 + 16; 0x0E + 16; 0x07 + 16; 0x02; 0x09 + 16; 0x08 + 16;
   0x0F + 16; 0x0B + 16; 0x02; 0x01 + 32; 0x00 + 32; 0x0D + 32; 0x03 + 32; 0x02; 0x05 + 32; 0x04 + 32; 0x0E + 32;
   0x07 + 32; 0x02; 0x09 + 32; 0x08 + 32; 0x0F + 32; 0x0B + 32; 0x02; 0x01 + 48; 0x00 + 48; 0x0D + 48; 0x03 + 48;
   0x02; 0x05 + 48; 0x04 + 48; 0x0E + 48; 0x07 + 48; 0x02; 0x09 + 48; 0x08 + 48; 0x0F + 48; 0x0B + 48; 0x02; 0x02;
   0x02; 0x02].
Definition le10_to_be_permute_r0_tbl_512 : list Z :=
  [0x00; 0x01; 0x02; 0x03; 0x05; 0x06; 0x07; 0x08; 0x0A; 0x0B; 0x0C; 0x0D; 0x3F; 0x00; 0x05; 0x0A; 0x00 + 15;
   0x01 + 15; 0x02 + 15; 0x03 + 15; 0x05 + 15; 0x06 + 15; 0x07 + 15; 0x08 + 15; 0x0A + 15; 0x0B + 15; 0x0C + 15;
   0x0D + 15; 0x3F; 0x00 + 15; 0x05 + 15; 0x0A + 15; 0x00 + 30; 0x01 + 30; 0x02 + 30; 0x03 + 30; 0x05 + 30;
   0x06 + 30; 0x07 + 30; 0x08 + 30; 0x0A + 30; 0x0B + 30; 0x0C + 30; 0x0D + 30; 0x3F; 0x00 + 30; 0x05 + 30;
   0x0A + 30; 0x00 + 45; 0x01 + 45; 0x02 + 45; 0x03 + 45; 0x05 + 45; 0x06 + 45; 0x07 + 45; 0x08 + 45; 0x0A + 45;
   0x0B + 45; 0x0C + 45; 0x0D + 45; 0x3F; 0x00 + 45; 0x05 + 45; 0x0A + 45].
Definition le10_to_be_and_r0_tbl_512 : list Z :=
  [0xFF; 0x00; 0xFC; 0x0F; 0xFF; 0x00; 0xFC; 0x0F; 0xFF; 0x00; 0xFC; 0x0F; 0xC0; 0xC0; 0xC0; 0x00; 0xFF; 0x00;
   0xFC; 0x0F; 0xFF; 0x00; 0xFC; 0x0F; 0xFF; 0x00; 0xFC; 0x0F; 0xC0; 0xC0; 0xC0; 0x00; 0xFF; 0x00; 0xFC; 0x0F;
   0xFF; 0x00; 0xFC; 0x0F; 0xFF; 0x00; 0xFC; 0x0F; 0xC0; 0xC0; 0xC0; 0x00; 0xFF; 0x00; 0xFC; 0x0F; 0xFF; 0x00;
   0xFC; 0x0F; 0xFF; 0x00; 0xFC; 0x0F; 0xC0; 0xC0; 0xC0; 0x00].
Definition le10_to_be_permute_r1_tbl_512 : list Z :=
  [0x00; 0x0C; 0x03; 0x02; 0x3F; 0x04; 0x0D; 0x07; 0x06; 0x3F; 0x08; 0x0E; 0x0B; 0x0A; 0x3F; 0x00 + 16; 0x0C + 16;
   0x03 + 16; 0x02 + 16; 0x3F; 0x04 + 16; 0x0D + 16; 0x07 + 16; 0x06 + 16; 0x3F; 0x08 + 16; 0x0E + 16; 0x0B + 16;
   0x0A + 16; 0x3F; 0x00 + 32; 0x0C + 32; 0x03 + 32; 0x02 + 32; 0x3F; 0x04 + 32; 0x0D + 32; 0x07 + 32; 0x06 + 32;
   0x3F; 0x08 + 32; 0x0E + 32; 0x0B + 32; 0x0A + 32; 0x3F; 0x00 + 48; 0x0C + 48; 0x03 + 48; 0x02 + 48; 0x3F;
   0x04 + 48; 0x0D + 48; 0x07 + 48; 0x06 + 48; 0x3F; 0x08 + 48; 0x0E + 48; 0x0B + 48; 0x0A + 48; 0x3F; 0x3F; 0x3F;
   0x3F; 0x3F].
Definition v210_to_be10_multishift0_tbl_512 : list Z :=
  [2; 14; 6; 40; 32; 44; 56; 48; 18; 10; 22; 36; 48; 60; 52; 0; 2; 14; 6; 40; 32; 44; 56; 48; 18; 10; 22; 36; 48;
   60; 52; 0; 2; 14; 6; 40; 32; 44; 56; 48; 18; 10; 22; 36; 48; 60; 52; 0; 2; 14; 6; 40; 32; 44; 56; 48; 18; 10;
   22; 36; 48; 60; 52; 0].
Definition v210_to_be10_shuffle_tbl_512 : list Z :=
  [1; 2; 3; 0; 4; 5; 8; 9; 9; 10; 11; 8; 12; 13; 14; 15; 1; 2; 3; 0; 4; 5; 8; 9; 9; 10; 11; 8; 12; 13; 14; 15; 1;
   2; 3; 0; 4; 5; 8; 9; 9; 10; 11; 8; 12; 13; 14; 15; 1; 2; 3; 0; 4; 5; 8; 9; 9; 10; 11; 8; 12; 13; 14; 15].
Definition v210_to_be10_multishift1_tbl_512 : list Z :=
  [0; 18; 18; 10; 0; 0; 36; 54; 22; 0; 0; 6; 28; 40; 0; 0; 0; 18; 18; 10; 0; 0; 36; 54; 22; 0; 0; 6; 28; 40; 0; 0;
   0; 18; 18; 10; 0; 0; 36; 54; 22; 0; 0; 6; 28; 40; 0; 0; 0; 18; 18; 10; 0; 0; 36; 54; 22; 0; 0; 6; 28; 40; 0; 0].
Definition v210_to_be10_and_tbl_512 : list Z :=
  [0xFF; 0x3F; 0xF0; 0x03; 0xFF; 0xFF; 0x3F; 0xF0; 0x03; 0xFF; 0xFF; 0x3F; 0x0F; 0x03; 0xFF; 0x00; 0xFF; 0x3F;
   0xF0; 0x03; 0xFF; 0xFF; 0x3F; 0xF0; 0x03; 0xFF; 0xFF; 0x3F; 0x0F; 0x03; 0xFF; 0x00; 0xFF; 0x3F; 0xF0; 0x03;
   0xFF; 0xFF; 0x3F; 0xF0; 0x03; 0xFF; 0xFF; 0x3F; 0x0F; 0x03; 0xFF; 0x00; 0xFF; 0x3F; 0xF0; 0x03; 0xFF; 0xFF;
   0x3F; 0xF0; 0x03; 0xFF; 0xFF; 0x3F; 0x0F; 0x03; 0xFF; 0x00].
Definition be12_to_ple_permute_tbl_512 : list Z :=
  [1; 0; 1 + 6; 0 + 6; 1 + 12; 0 + 12; 1 + 18; 0 + 18; 1 + 24; 0 + 24; 1 + 30; 0 + 30; 1 + 36; 0 + 36; 1 + 42;
   0 + 42; 4; 3; 4 + 6; 3 + 6; 4 + 12; 3 + 12; 4 + 18; 3 + 18; 4 + 24; 3 + 24; 4 + 30; 3 + 30; 4 + 36; 3 + 36;
   4 + 42; 3 + 42; 2; 1; 5; 4; 2 + 6; 1 + 6; 5 + 6; 4 + 6; 2 + 12; 1 + 12; 5 + 12; 4 + 12; 2 + 18; 1 + 18; 5 + 18;
   4 + 18; 2 + 24; 1 + 24; 5 + 24; 4 + 24; 2 + 30; 1 + 30; 5 + 30; 4 + 30; 2 + 36; 1 + 36; 5 + 36; 4 + 36; 2 + 42;
   1 + 42; 5 + 42; 4 + 42].
Definition be12_to_ple_srlv_tbl_512 : list Z :=
  [4; 4; 4; 4; 4; 4; 4; 4; 4; 4; 4; 4; 4; 4; 4; 4; 0; 0; 0; 0; 0; 0; 0; 0; 0; 0; 0; 0; 0; 0; 0; 0].
Definition be12_to_ple_and_tbl_512 : list Z :=
  [0x0fff; 0x0fff; 0x0fff; 0x0fff; 0x0fff; 0x0fff; 0x0fff; 0x0fff; 0x0fff; 0x0fff; 0x0fff; 0x0fff; 0x0fff; 0x0fff;
   0x0fff; 0x0fff; 0x0fff; 0x0fff; 0x0fff; 0x0fff; 0x0fff; 0x0fff; 0x0fff; 0x0fff; 0x0fff; 0x0fff; 0x0fff; 0x0fff;
   0x0fff; 0x0fff; 0x0fff; 0x0fff].

(** ** Loop bodies *)

Section Bodies.
Context {B : Type} `{!BitAlg B}.

(** Eight groups to the planes: {B, R, Y, Y} of one register. *)
Definition planes_of_512 (stage_m512i : list B) : list (list (list B)) :=
  let result_B := mm512_extracti32x4_epi32 stage_m512i 0 in
  let result_R := mm512_extracti32x4_epi32 stage_m512i 1 in
  let result_Y0 := mm512_extracti32x4_epi32 stage_m512i 2 in
  let result_Y1 := mm512_extracti32x4_epi32 stage_m512i 3 in
  [mm_storeu_si128 result_Y0 ++ mm_storeu_si128 result_Y1; mm_storeu_si128 result_B; mm_storeu_si128 result_R].
Definition be10_to_ple_vbmi_batch8 (src : list (list (list B))) : option (list (list (list B))) :=
  input ← mm512_maskz_loadu_epi8 0xFFFFFFFFFF (plane_at src 0) 0;
  let permute_le_result := mm512_permutexvar_epi8 (tbl8 be10_to_ple_permute_tbl_512) input in
  let srlv_le_result := mm512_srlv_epi16 permute_le_result (tbl16 be10_to_ple_srlv_tbl_512) in
  Some (planes_of_512 (mm512_and_si512 srlv_le_result (tbl16 be10_to_ple_and_tbl_512))).
Definition be12_to_ple_vbmi_batch8 (src : list (list (list B))) : option (list (list (list B))) :=
  input ← mm512_maskz_loadu_epi8 0xFFFFFFFFFFFF (plane_at src 0) 0;
  let permute_le_result := mm512_permutexvar_epi8 (tbl8 be12_to_ple_permute_tbl_512) input in
  let srlv_le_result := mm512_srlv_epi16 permute_le_result (tbl16 be12_to_ple_srlv_tbl_512) in
  Some (planes_of_512 (mm512_and_si512 srlv_le_result (tbl16 be12_to_ple_and_tbl_512))).
Definition ple_to_be10_vbmi_batch8 (src : list (list (list B))) : option (list (list (list B))) :=
  src_128i_0 ← mm_loadu_si128 (plane_at src 1) 0;
  src_128i_1 ← mm_loadu_si128 (plane_at src 0) 0;
  src_128i_2 ← mm_loadu_si128 (plane_at src 2) 0;
  src_128i_3 ← mm_loadu_si128 (plane_at src 0) 16;
  let src := mm512_inserti64x2 mm512_setzero_si512 src_128i_0 0 in
  let src := mm512_inserti64x2 src src_128i_1 1 in
  let src := mm512_inserti64x2 src src_128i_2 2 in
  let src := mm512_inserti64x2 src src_128i_3 3 in
  let srlv_le_result := mm512_sllv_epi16 src (tbl16 ple_to_be10_sllv_tbl_512) in
  let permute_hi_result := mm512_permutexvar_epi8 (tbl8 ple_to_be10_permute_hi_tbl_512) srlv_le_result in
  let permute_lo_result := mm512_permutexvar_epi8 (tbl8 ple_to_be10_permute_lo_tbl_512) srlv_le_result in
  let permute_lo_result := mm512_and_si512 permute_lo_result (tbl8 ple_to_be10_and_lo_tbl_512) in
  out ← mm512_mask_storeu_epi8 0xFFFFFFFFFF (mm512_or_si512 permute_hi_result permute_lo_result);
  Some [out].

(** Twelve groups, 60 bytes. *)
Definition be10_to_le_vbmi_batch12 (src : list (list (list B))) : option (list (list (list B))) :=
  input ← mm512_maskz_loadu_epi32 0x7FFF (plane_at src 0) 0;
  let permute_l0_result := mm512_permutexvar_epi8 (tbl8 be10_to_le_permute_l0_tbl_512) input in
  let permute_r0_result := mm512_permutexvar_epi8 (tbl8 be10_to_le_permute_r0_tbl_512) input in
  let rl_result := mm512_and_si512 (mm512_rol_epi32 permute_l0_result 2) (tbl8 be10_to_le_and_l0_tbl_512) in
  let rr_result := mm512_and_si512 (mm512_ror_epi32 permute_r0_result 2) (tbl8 be10_to_le_and_r0_tbl_512) in
  let rl_result_shuffle := mm512_permutexvar_epi8 (tbl8 be10_to_le_permute_l1_tbl_512) rl_result in
  let rr_result_shuffle := mm512_permutexvar_epi8 (tbl8 be10_to_le_permute_r1_tbl_512) rr_result in
  out ← mm512_mask_storeu_epi32 0x7FFF (mm512_or_si512 rl_result_shuffle rr_result_shuffle);
  Some [out].
Definition le10_to_be_vbmi_batch12 (src : list (list (list B))) : option (list (list (list B))) :=
  input ← mm512_maskz_loadu_epi32 0x7FFF (plane_at src 0) 0;
  let permute_l0_result := mm512_permutexvar_epi8 (tbl8 le10_to_be_permute_l0_tbl_512) input in
  let permute_r0_result := mm512_permutexvar_epi8 (tbl8 le10_to_be_permute_r0_tbl_512) input in
  let rl_result := mm512_and_si512 (mm512_rol_epi32 permute_l0_result 2) (tbl8 le10_to_be_and_l0_tbl_512) in
  let rr_result := mm512_and_si512 (mm512_ror_epi32 permute_r0_result 2) (tbl8 le10_to_be_and_r0_tbl_512) in
  let rl_result_shuffle := mm512_permutexvar_epi8 (tbl8 le10_to_be_permute_l1_tbl_512) rl_result in
  let rr_result_shuffle := mm512_permutexvar_epi8 (tbl8 le10_to_be_permute_r1_tbl_512) rr_result in
  out ← mm512_mask_storeu_epi32 0x7FFF (mm512_or_si512 rl_result_shuffle rr_result_shuffle);
  Some [out].
Definition be10_to_le8_vbmi_batch12 (src : list (list (list B))) : option (list (list (list B))) :=
  input ← mm512_maskz_loadu_epi32 0x7FFF (plane_at src 0) 0;
  let permute_result := mm512_permutexvar_epi8 (tbl8 be10_to_le8_permute_tbl_512) input in
  let multishift_result := mm512_multishift_epi64_epi8 (tbl8 be10_to_le8_multishift_tbl_512) permute_result in
  Some [mm512_mask_compressstoreu_epi16 0xDBDBDBDB multishift_result].
Definition le10_to_v210_vbmi_batch12 (src : list (list (list B))) : option (list (list (list B))) :=
  input ← mm512_maskz_loadu_epi32 0x7FFF (plane_at src 0) 0;
  let permute_result := mm512_permutexvar_epi8 (tbl8 le10_to_v210_permute_tbl_512) input in
  let multishift_result := mm512_multishift_epi64_epi8 (tbl8 le10_to_v210_multishift_tbl_512) permute_result in
  Some [mm512_storeu_si512 (mm512_and_si512 multishift_result (tbl8 le10_to_v210_and_tbl_512))].
Definition be10_to_v210_vbmi_batch12 (src : list (list (list B))) : option (list (list (list B))) :=
  input ← mm512_maskz_loadu_epi32 0x7FFF (plane_at src 0) 0;
  let permute0_result := mm512_permutexvar_epi8 (tbl8 be10_to_v210_permute0_tbl_512) input in
  let multishift0_result := mm512_multishift_epi64_epi8 (tbl8 be10_to_v210_multishift0_tbl_512) permute0_result in
  let and0_result := mm512_and_si512 multishift0_result (tbl8 be10_to_v210_and0_tbl_512) in
  let permute1_result := mm512_permutexvar_epi8 (tbl8 be10_to_v210_permute1_tbl_512) input in
  let multishift1_result := mm512_multishift_epi64_epi8 (tbl8 be10_to_v210_multishift1_tbl_512) permute1_result in
  let and1_result := mm512_and_si512 multishift1_result (tbl8 be10_to_v210_and1_tbl_512) in
  Some [mm512_storeu_si512 (mm512_or_si512 and0_result and1_result)].
Definition v210_to_be10_vbmi_batch12 (src : list (list (list B))) : option (list (list (list B))) :=
  input ← mm512_loadu_si512 (plane_at src 0) 0;
  let multishift0_result := mm512_multishift_epi64_epi8 (tbl8 v210_to_be10_multishift0_tbl_512) input in
  let shuffle_result := mm512_shuffle_epi8 input (tbl8 v210_to_be10_shuffle_tbl_512) in
  let multishift1_result := mm512_multishift_epi64_epi8 (tbl8 v210_to_be10_multishift1_tbl_512) shuffle_result in
  let and0_result := mm512_and_si512 multishift0_result (tbl8 v210_to_be10_and_tbl_512) in
  let and1_result := mm512_andnot_si512 (tbl8 v210_to_be10_and_tbl_512) multishift1_result in
  let result := mm512_or_si512 and0_result and1_result in
  Some [mm512_mask_compressstoreu_epi8 0x7FFF7FFF7FFF7FFF result].
(** Six of twelve groups of a line, every second one. *)
Definition downsample_vbmi_batch6 (src : list (list (list B))) : option (list (list (list B))) :=
  input ← mm512_loadu_si512 (plane_at src 0) 0;
  Some [mm512_mask_compressstoreu_epi8 0x7c1f07c1f07c1f input].
End Bodies.

#[export] Hint Unfold planes_of_512 : simd.

(** ** Routines *)

Definition st20_rfc4175_422be10_to_yuv422p10le_avx512_vbmi : conv :=
  simd_conv [5]%nat [4; 2; 2]%nat [simd_stage 8 [40]%nat (@be10_to_ple_vbmi_batch8); scalar_stage [5]%nat pg_be10_to_p10].
Definition st20_rfc4175_422be10_to_422le10_avx512_vbmi : conv :=
  simd_conv [5]%nat [5]%nat [simd_stage 12 [60]%nat (@be10_to_le_vbmi_batch12); scalar_stage [5]%nat pg_be10_to_le10].
Definition st20_rfc4175_422be10_to_422le8_avx512_vbmi : conv :=
  simd_conv [5]%nat [4]%nat [simd_stage 12 [60]%nat (@be10_to_le8_vbmi_batch12); scalar_stage [5]%nat pg_be10_to_le8].
Definition st20_rfc4175_422le10_to_v210_avx512_vbmi : conv :=
  v210_simd_conv [15]%nat [16]%nat 12 (simd_stage 4 [60]%nat (@le10_to_v210_vbmi_batch12)).
Definition st20_rfc4175_422be10_to_v210_avx512_vbmi : conv :=
  v210_simd_conv [15]%nat [16]%nat 12 (simd_stage 4 [60]%nat (@be10_to_v210_vbmi_batch12)).
Definition st20_yuv422p10le_to_rfc4175_422be10_vbmi : conv :=
  simd_conv [4; 2; 2]%nat [5]%nat [simd_stage 8 [32; 16; 16]%nat (@ple_to_be10_vbmi_batch8); scalar_stage [4; 2; 2]%nat pg_p10_to_be10].
Definition st20_rfc4175_422le10_to_422be10_vbmi : conv :=
  simd_conv [5]%nat [5]%nat [simd_stage 12 [60]%nat (@le10_to_be_vbmi_batch12); scalar_stage [5]%nat pg_le10_to_be10].
Definition st20_v210_to_rfc4175_422be10_avx512_vbmi : conv :=
  v210_simd_conv [16]%nat [15]%nat 12 (simd_stage 4 [64]%nat (@v210_to_be10_vbmi_batch12)).
Definition st20_rfc4175_422be12_to_yuv422p12le_avx512_vbmi : conv :=
  simd_conv [6]%nat [4; 2; 2]%nat [simd_stage 8 [48]%nat (@be12_to_ple_vbmi_batch8); scalar_stage [6]%nat pg_be12_to_p12].

(** ** Every batch does its groups as the scalar body does *)

Lemma be10_to_ple_vbmi_batch8_ok : stage_ok any_bytes [5]%nat [4; 2; 2]%nat pg_be10_to_p10 0 (simd_stage 8 [40]%nat (@be10_to_ple_vbmi_batch8)).
Proof. batch_ok @be10_to_ple_vbmi_batch8. Qed.
Lemma be12_to_ple_vbmi_batch8_ok : stage_ok any_bytes [6]%nat [4; 2; 2]%nat pg_be12_to_p12 0 (simd_stage 8 [48]%nat (@be12_to_ple_vbmi_batch8)).
Proof. batch_ok @be12_to_ple_vbmi_batch8. Qed.
Lemma ple_to_be10_vbmi_batch8_ok : stage_ok (samples 10) [4; 2; 2]%nat [5]%nat pg_p10_to_be10 0 (simd_stage 8 [32; 16; 16]%nat (@ple_to_be10_vbmi_batch8)).
Proof. batch_ok @ple_to_be10_vbmi_batch8. Qed.
Lemma be10_to_le_vbmi_batch12_ok : stage_ok any_bytes [5]%nat [5]%nat pg_be10_to_le10 0 (simd_stage 12 [60]%nat (@be10_to_le_vbmi_batch12)).
Proof. batch_ok @be10_to_le_vbmi_batch12. Qed.
Lemma le10_to_be_vbmi_batch12_ok : stage_ok any_bytes [5]%nat [5]%nat pg_le10_to_be10 0 (simd_stage 12 [60]%nat (@le10_to_be_vbmi_batch12)).
Proof. batch_ok @le10_to_be_vbmi_batch12. Qed.
Lemma be10_to_le8_vbmi_batch12_ok : stage_ok any_bytes [5]%nat [4]%nat pg_be10_to_le8 0 (simd_stage 12 [60]%nat (@be10_to_le8_vbmi_batch12)).
Proof. batch_ok @be10_to_le8_vbmi_batch12. Qed.
Lemma le10_to_v210_vbmi_batch12_ok : stage_ok any_bytes [15]%nat [16]%nat pg3_le10_to_v210 0 (simd_stage 4 [60]%nat (@le10_to_v210_vbmi_batch12)).
Proof. batch_ok @le10_to_v210_vbmi_batch12. Qed.
Lemma be10_to_v210_vbmi_batch12_ok : stage_ok any_bytes [15]%nat [16]%nat pg3_be10_to_v210 0 (simd_stage 4 [60]%nat (@be10_to_v210_vbmi_batch12)).
Proof. batch_ok @be10_to_v210_vbmi_batch12. Qed.
Lemma v210_to_be10_vbmi_batch12_ok : stage_ok any_bytes [16]%nat [15]%nat pg3_v210_to_be10 0 (simd_stage 4 [64]%nat (@v210_to_be10_vbmi_batch12)).
Proof. batch_ok @v210_to_be10_vbmi_batch12. Qed.
Lemma downsample_vbmi_batch6_ok : stage_ok any_bytes [10]%nat [5]%nat pg2_downsample 1 (simd_stage 6 [64]%nat (fun B _ => @downsample_vbmi_batch6 B)).
Proof. batch_ok @downsample_vbmi_batch6. Qed.
