(* ===== verification/Avx2.v ===== *)
(** The vector routines of lib/src/st2110/st_avx2.c. A turn works on three groups, 15 bytes,
    but loads and stores 16; the last batch is left to the scalar loop. *)
From S2P Require Import Prelude Bytes BitExpr Convert Simd.

(** ** Tables *)

Definition rfc4175_b2l_shuffle_l0_tbl : list Z :=
  [1; 0; 3; 2; 6; 5; 8; 7; 11; 10; 13; 12; 0; 5; 10; 0x80].
Definition rfc4175_b2l_and_l0_tbl : list Z :=
  [0x00; 0xFF; 0xF0; 0x3F; 0x00; 0xFF; 0xF0; 0x3F; 0x00; 0xFF; 0xF0; 0x3F; 0x00; 0x03; 0x03; 0x03].
Definition rfc4175_b2l_shuffle_r0_tbl : list Z :=
  [2; 1; 4; 3; 7; 6; 9; 8; 12; 11; 14; 13; 0x80; 4; 9; 14].
Definition rfc4175_b2l_and_r0_tbl : list Z :=
  [0xFC; 0x0F; 0xFF; 0x00; 0xFC; 0x0F; 0xFF; 0x00; 0xFC; 0x0F; 0xFF; 0x00; 0xC0; 0xC0; 0xC0; 0x00].
Definition rfc4175_b2l_shuffle_l1_tbl : list Z :=
  [1; 13; 2; 3; 0x80; 5; 14; 6; 7; 0x80; 9; 15; 10; 11; 0x80; 0x80].
Definition rfc4175_b2l_shuffle_r1_tbl : list Z :=
  [0x80; 0; 1; 12; 2; 0x80; 4; 5; 13; 6; 0x80; 8; 9; 14; 10; 0x80].
Definition rfc4175_l2b_shuffle_l0_tbl : list Z :=
  [0x01; 0x02; 0x03; 0x04; 0x06; 0x07; 0x08; 0x09; 0x0B; 0x0C; 0x0D; 0x0E; 0x04; 0x09; 0x0E; 0x80].
Definition rfc4175_l2b_and_l0_tbl : list Z :=
  [0xF0; 0x3F; 0x00; 0xFF; 0xF0; 0x3F; 0x00; 0xFF; 0xF0; 0x3F; 0x00; 0xFF; 0x00; 0x03; 0x03; 0x03].
Definition rfc4175_l2b_shuffle_l1_tbl : list Z :=
  [0x80; 0x01; 0x00; 0x0D; 0x03; 0x80; 0x05; 0x04; 0x0E; 0x07; 0x80; 0x09; 0x08; 0x0F; 0x0B; 0x80].
Definition rfc4175_l2b_shuffle_r0_tbl : list Z :=
  [0x00; 0x01; 0x02; 0x03; 0x05; 0x06; 0x07; 0x08; 0x0A; 0x0B; 0x0C; 0x0D; 0x80; 0x00; 0x05; 0x0A].
Definition rfc4175_l2b_and_r0_tbl : list Z :=
  [0xFF; 0x00; 0xFC; 0x0F; 0xFF; 0x00; 0xFC; 0x0F; 0xFF; 0x00; 0xFC; 0x0F; 0xC0; 0xC0; 0xC0; 0x00].
Definition rfc4175_l2b_shuffle_r1_tbl : list Z :=
  [0x00; 0x0C; 0x03; 0x02; 0x80; 0x04; 0x0D; 0x07; 0x06; 0x80; 0x08; 0x0E; 0x0B; 0x0A; 0x80; 0x80].

(** ** Loop bodies *)

Section Bodies.
Context {B : Type} `{!BitAlg B}.

Definition be10_to_le_avx2_batch3 (src : list (list (list B))) : option (list (list (list B))) :=
  input ← mm_loadu_si128 (plane_at src 0) 0;
  let shuffle_l0_result := mm_shuffle_epi8 input (tbl8 rfc4175_b2l_shuffle_l0_tbl) in
  let shuffle_r0_result := mm_shuffle_epi8 input (tbl8 rfc4175_b2l_shuffle_r0_tbl) in
  let sl_result := mm_and_si128 (mm_slli_epi32 shuffle_l0_result 2) (tbl8 rfc4175_b2l_and_l0_tbl) in
  let sr_result := mm_and_si128 (mm_srli_epi32 shuffle_r0_result 2) (tbl8 rfc4175_b2l_and_r0_tbl) in
  let sl_result_shuffle := mm_shuffle_epi8 sl_result (tbl8 rfc4175_b2l_shuffle_l1_tbl) in
  let sr_result_shuffle := mm_shuffle_epi8 sr_result (tbl8 rfc4175_b2l_shuffle_r1_tbl) in
  Some [mm_storeu_si128 (mm_or_si128 sl_result_shuffle sr_result_shuffle)].
Definition le10_to_be_avx2_batch3 (src : list (list (list B))) : option (list (list (list B))) :=
  input ← mm_loadu_si128 (plane_at src 0) 0;
  let shuffle_l0_result := mm_shuffle_epi8 input (tbl8 rfc4175_l2b_shuffle_l0_tbl) in
  let shuffle_r0_result := mm_shuffle_epi8 input (tbl8 rfc4175_l2b_shuffle_r0_tbl) in
  let sl_result := mm_and_si128 (mm_slli_epi32 shuffle_l0_result 2) (tbl8 rfc4175_l2b_and_l0_tbl) in
  let sr_result := mm_and_si128 (mm_srli_epi32 shuffle_r0_result 2) (tbl8 rfc4175_l2b_and_r0_tbl) in
  let sl_result_shuffle := mm_shuffle_epi8 sl_result (tbl8 rfc4175_l2b_shuffle_l1_tbl) in
  let sr_result_shuffle := mm_shuffle_epi8 sr_result (tbl8 rfc4175_l2b_shuffle_r1_tbl) in
  Some [mm_storeu_si128 (mm_or_si128 sl_result_shuffle sr_result_shuffle)].
End Bodies.

(** ** Routines *)

(** The last batch is left to the scalar loop: the vector one would touch a byte beyond it. *)
Definition avx2_plan (pg_cnt : nat) (body : simd_body) (f : list bytes -> list bytes) : list (nat * stage) :=
  let batch := (pg_cnt / 3)%nat in
  let left := (pg_cnt mod 3)%nat in
  let '(batch, rest) := if negb (batch =? 0)%nat && (left =? 0)%nat then ((batch - 1)%nat, 3%nat) else (batch, left) in
  [(batch, simd_stage 3 [16]%nat body); (rest, scalar_stage [5]%nat f)].
Definition avx2_conv (body : simd_body) (f : list bytes -> list bytes) : conv := fun w h =>
  plan_conv [5]%nat [5]%nat (avx2_plan (Z.to_nat (u32 (w * h) / 2)) body f).
Definition st20_rfc4175_422be10_to_422le10_avx2 : conv := avx2_conv (@be10_to_le_avx2_batch3) pg_be10_to_le10.
Definition st20_rfc4175_422le10_to_422be10_avx2 : conv := avx2_conv (@le10_to_be_avx2_batch3) pg_le10_to_be10.

(** ** The routines are the scalar ones *)

Lemma be10_to_le_avx2_batch3_ok : stage_ok any_bytes [5]%nat [5]%nat pg_be10_to_le10 1 (simd_stage 3 [16]%nat (@be10_to_le_avx2_batch3)).
Proof. batch_ok @be10_to_le_avx2_batch3. Qed.
Lemma le10_to_be_avx2_batch3_ok : stage_ok any_bytes [5]%nat [5]%nat pg_le10_to_be10 1 (simd_stage 3 [16]%nat (@le10_to_be_avx2_batch3)).
Proof. batch_ok @le10_to_be_avx2_batch3. Qed.

Lemma avx2_plan_ok n body f `{!GroupBody any_bytes [5]%nat [5]%nat f} :
  stage_ok any_bytes [5]%nat [5]%nat f 1 (simd_stage 3 [16]%nat body) -> plan_ok any_bytes [5]%nat [5]%nat f (avx2_plan n body f) n.
Proof.
  intros Hb. pose proof (scalar_stage_ok any_bytes [5]%nat [5]%nat f gb_planes gb_len) as Hs.
  assert (forall b l, b = 0%nat \/ (1 <= l)%nat ->
    plan_ok any_bytes [5]%nat [5]%nat f [(b, simd_stage 3 [16]%nat body); (l, scalar_stage [5]%nat f)] (3 * b + (1 * l + 0))) as H.
  { intros b l Hbl. eapply plan_cons; [exact Hb| |eapply plan_cons; [exact Hs|right; lia|constructor]]. cbn. lia. }
  pose proof (Nat.div_mod_eq n 3) as Hn. unfold avx2_plan. destruct (negb (n / 3 =? 0)%nat && (n mod 3 =? 0)%nat) eqn:E.
  - apply andb_true_iff in E as [E1 E2]. apply negb_true_iff, Nat.eqb_neq in E1. apply Nat.eqb_eq in E2.
    replace n with (3 * (n / 3 - 1) + (1 * 3 + 0))%nat at 2 by lia. apply H. lia.
  - replace n with (3 * (n / 3) + (1 * (n mod 3) + 0))%nat at 3 by lia. apply H. apply andb_false_iff in E as [E|E].
    + apply negb_false_iff, Nat.eqb_eq in E. by left.
    + apply Nat.eqb_neq in E. right. lia.
Qed.

Lemma avx2_conv_agrees body f `{!GroupBody any_bytes [5]%nat [5]%nat f} :
  stage_ok any_bytes [5]%nat [5]%nat f 1 (simd_stage 3 [16]%nat body) ->
  agrees (roomy_groups any_bytes [5]%nat [5]%nat 1) (avx2_conv body f) (group_conv 2 [5]%nat [5]%nat f).
Proof.
  intros Hb w h src dst (Hwh & n & Hn & Hs & Hq & Hd). left. rewrite Z.div_1_r in Hn. unfold avx2_conv, group_conv. rewrite u32_id, Hn, Nat2Z.id by done.
  rewrite (plan_conv_room any_bytes [5]%nat [5]%nat f gb_even gb_planes _ n) by (done || by apply avx2_plan_ok).
  by rewrite group_loop_room.
Qed.
