(* ===== verification/SimdConvert.v ===== *)
(** The choice between the vector routines and the scalar ones: the [_simd] entries of
    lib/src/st2110/st_convert.c.

    An entry tries the ways of its format pair, the widest instructions first; a way is
    taken when it is in the build, when the caller's level allows it and when the processor
    has the instructions, and a way that refuses leaves the next one to try. Running a way
    on a processor without its instructions is an illegal instruction: [None]. The main
    result is that the choice does not show: every entry is its scalar routine. *)
From S2P Require Import Prelude Bytes BitExpr Convert Simd Avx512 Avx512Vbmi Avx2.

(** ** Levels *)

Inductive mtl_simd_level :=
  | MTL_SIMD_LEVEL_NONE | MTL_SIMD_LEVEL_AVX2 | MTL_SIMD_LEVEL_AVX512 | MTL_SIMD_LEVEL_AVX512_VBMI2 | MTL_SIMD_LEVEL_MAX.
Definition level_num (l : mtl_simd_level) : Z :=
  match l with
  | MTL_SIMD_LEVEL_NONE => 0 | MTL_SIMD_LEVEL_AVX2 => 1 | MTL_SIMD_LEVEL_AVX512 => 2
  | MTL_SIMD_LEVEL_AVX512_VBMI2 => 3 | MTL_SIMD_LEVEL_MAX => 4
  end.
Definition level_ge (a b : mtl_simd_level) : bool := level_num b <=? level_num a.

(** What [rte_cpu_get_flag_enabled] says of the processor. *)
Record cpu_flags := mk_cpu { arch_x86 : bool; flag_avx512vbmi2 : bool; flag_avx512vl : bool; flag_avx2 : bool }.
Definition mtl_get_simd_level (f : cpu_flags) : mtl_simd_level :=
  if negb (arch_x86 f) then MTL_SIMD_LEVEL_NONE
  else if flag_avx512vbmi2 f then MTL_SIMD_LEVEL_AVX512_VBMI2
  else if flag_avx512vl f then MTL_SIMD_LEVEL_AVX512
  else if flag_avx2 f then MTL_SIMD_LEVEL_AVX2
  else MTL_SIMD_LEVEL_NONE.

(** ** The ways of an entry *)

(** The vector routines the build has. *)
Record simd_build := mk_build { MTL_HAS_AVX2 : bool; MTL_HAS_AVX512 : bool; MTL_HAS_AVX512_VBMI2 : bool }.
Definition built (bd : simd_build) (l : mtl_simd_level) : bool :=
  match l with
  | MTL_SIMD_LEVEL_AVX2 => MTL_HAS_AVX2 bd
  | MTL_SIMD_LEVEL_AVX512 => MTL_HAS_AVX512 bd
  | MTL_SIMD_LEVEL_AVX512_VBMI2 => MTL_HAS_AVX512_VBMI2 bd
  | _ => false
  end.

(** A way: its level, whether the entry asks for the level of the processor, the routine. *)
Record simd_way := mk_way { way_level : mtl_simd_level; way_asks_cpu : bool; way_run : conv }.
Definition way_taken (bd : simd_build) (cpu_level level : mtl_simd_level) (wy : simd_way) : bool :=
  built bd (way_level wy) && level_ge level (way_level wy)
  && (negb (way_asks_cpu wy) || level_ge cpu_level (way_level wy)).

Fixpoint simd_ways (bd : simd_build) (cpu_level level : mtl_simd_level) (ways : list simd_way) (scalar : conv) : conv :=
  fun w h src dst =>
    match ways with
    | [] => scalar w h src dst
    | wy :: ways =>
        if way_taken bd cpu_level level wy then
          if level_ge cpu_level (way_level wy) then
            '(ret, dst) ← way_run wy w h src dst;
            if ret =? 0 then Some (0, dst) else simd_ways bd cpu_level level ways scalar w h src dst
          else None
        else simd_ways bd cpu_level level ways scalar w h src dst
    end.

Abbreviation vbmi2_way := (mk_way MTL_SIMD_LEVEL_AVX512_VBMI2 true).
Abbreviation avx512_way := (mk_way MTL_SIMD_LEVEL_AVX512 true).
Abbreviation avx2_way := (mk_way MTL_SIMD_LEVEL_AVX2 true).
(** Two entries have the question for the processor commented out. *)
Abbreviation avx512_way_unasked := (mk_way MTL_SIMD_LEVEL_AVX512 false).

(** *** The entries *)

Definition simd_entry := simd_build -> mtl_simd_level -> mtl_simd_level -> conv.

Definition st20_rfc4175_422be10_to_yuv422p16le_simd : simd_entry := fun bd cpu_level level =>
  simd_ways bd cpu_level level [avx512_way_unasked st20_rfc4175_422be10_to_yuv422p16le_avx512]
    st20_rfc4175_422be10_to_yuv422p16le_scalar.
Definition st20_yuv422p16le_to_rfc4175_422be10_simd : simd_entry := fun bd cpu_level level =>
  simd_ways bd cpu_level level [avx512_way_unasked st20_yuv422p16le_to_rfc4175_422be10_avx512]
    st20_yuv422p16le_to_rfc4175_422be10_scalar.
Definition st20_yuv422p10le_to_rfc4175_422be10_simd : simd_entry := fun bd cpu_level level =>
  simd_ways bd cpu_level level [avx512_way st20_yuv422p10le_to_rfc4175_422be10_avx512]
    st20_yuv422p10le_to_rfc4175_422be10_scalar.
Definition st20_rfc4175_422be10_to_yuv422p10le_simd : simd_entry := fun bd cpu_level level =>
  simd_ways bd cpu_level level
    [vbmi2_way st20_rfc4175_422be10_to_yuv422p10le_avx512_vbmi; avx512_way st20_rfc4175_422be10_to_yuv422p10le_avx512]
    st20_rfc4175_422be10_to_yuv422p10le_scalar.
Definition st20_rfc4175_422be10_to_422le10_simd : simd_entry := fun bd cpu_level level =>
  simd_ways bd cpu_level level
    [vbmi2_way st20_rfc4175_422be10_to_422le10_avx512_vbmi; avx512_way st20_rfc4175_422be10_to_422le10_avx512;
     avx2_way st20_rfc4175_422be10_to_422le10_avx2]
    st20_rfc4175_422be10_to_422le10_scalar.
Definition st20_rfc4175_422le10_to_422be10_simd : simd_entry := fun bd cpu_level level =>
  simd_ways bd cpu_level level
    [vbmi2_way st20_rfc4175_422le10_to_422be10_vbmi; avx512_way st20_rfc4175_422le10_to_422be10_avx512;
     avx2_way st20_rfc4175_422le10_to_422be10_avx2]
    st20_rfc4175_422le10_to_422be10_scalar.
Definition st20_rfc4175_422be10_to_422le8_simd : simd_entry := fun bd cpu_level level =>
  simd_ways bd cpu_level level
    [vbmi2_way st20_rfc4175_422be10_to_422le8_avx512_vbmi; avx512_way st20_rfc4175_422be10_to_422le8_avx512]
    st20_rfc4175_422be10_to_422le8_scalar.
Definition st20_rfc4175_422be10_to_yuv422p8_simd : simd_entry := fun bd cpu_level level =>
  simd_ways bd cpu_level level [avx512_way st20_rfc4175_422be10_to_yuv422p8_avx512] st20_rfc4175_422be10_to_yuv422p8_scalar.
Definition st20_rfc4175_422be10_to_yuv420p8_simd : simd_entry := fun bd cpu_level level =>
  simd_ways bd cpu_level level [avx512_way st20_rfc4175_422be10_to_yuv420p8_avx512] st20_rfc4175_422be10_to_yuv420p8_scalar.
Definition st20_rfc4175_422le10_to_v210_simd : simd_entry := fun bd cpu_level level =>
  simd_ways bd cpu_level level
    [vbmi2_way st20_rfc4175_422le10_to_v210_avx512_vbmi; avx512_way st20_rfc4175_422le10_to_v210_avx512]
    st20_rfc4175_422le10_to_v210_scalar.
Definition st20_rfc4175_422be10_to_v210_simd : simd_entry := fun bd cpu_level level =>
  simd_ways bd cpu_level level
    [vbmi2_way st20_rfc4175_422be10_to_v210_avx512_vbmi; avx512_way st20_rfc4175_422be10_to_v210_avx512]
    st20_rfc4175_422be10_to_v210_scalar.
Definition st20_v210_to_rfc4175_422be10_simd : simd_entry := fun bd cpu_level level =>
  simd_ways bd cpu_level level
    [vbmi2_way st20_v210_to_rfc4175_422be10_avx512_vbmi; avx512_way st20_v210_to_rfc4175_422be10_avx512]
    st20_v210_to_rfc4175_422be10_scalar.
Definition st20_rfc4175_422be10_to_y210_simd : simd_entry := fun bd cpu_level level =>
  simd_ways bd cpu_level level [avx512_way st20_rfc4175_422be10_to_y210_avx512] st20_rfc4175_422be10_to_y210_scalar.
Definition st20_y210_to_rfc4175_422be10_simd : simd_entry := fun bd cpu_level level =>
  simd_ways bd cpu_level level [avx512_way st20_y210_to_rfc4175_422be10_avx512] st20_y210_to_rfc4175_422be10_scalar.
Definition st20_rfc4175_422be12_to_yuv422p12le_simd : simd_entry := fun bd cpu_level level =>
  simd_ways bd cpu_level level
    [vbmi2_way st20_rfc4175_422be12_to_yuv422p12le_avx512_vbmi; avx512_way st20_rfc4175_422be12_to_yuv422p12le_avx512]
    st20_rfc4175_422be12_to_yuv422p12le_scalar.
Definition st20_rfc4175_422be12_to_422le12_simd : simd_entry := fun bd cpu_level level =>
  simd_ways bd cpu_level level [avx512_way st20_rfc4175_422be12_to_422le12_avx512] st20_rfc4175_422be12_to_422le12_scalar.

(** ** Every way does what the scalar routine does *)

Section Yuv420.
(** The group number [j] of a buffer. *)
Let pg (s : bytes) (j : nat) := get_be10 (take 5 (drop (5 * j) s)).

Lemma pg_shift s j : pg s (S j) = pg (drop 5 s) j.
Proof. unfold pg. rewrite drop_drop. do 3 f_equal. lia. Qed.

Lemma concat_groups {A} (g : st20_rfc4175_422_10_pg2_be -> list A) s n :
  concat ((fun j => g (pg s j)) <$> seq 0 (S n)) = g (pg s 0) ++ concat ((fun j => g (pg (drop 5 s) j)) <$> seq 0 n).
Proof.
  cbn [seq fmap list_fmap concat]. f_equal. f_equal. rewrite <- fmap_S_seq, <- list_fmap_compose.
  apply list_fmap_ext. intros i j _. unfold compose. by rewrite pg_shift.
Qed.

Lemma p8_groups n s : group_map [5]%nat [2; 1; 1]%nat pg_be10_to_p8 n [s] =
  [concat ((fun j => store [p8_y0 (pg s j); p8_y1 (pg s j)]) <$> seq 0 n);
   concat ((fun j => store [be10_Cb00 (pg s j)]) <$> seq 0 n); concat ((fun j => store [p8_cr (pg s j)]) <$> seq 0 n)].
Proof.
  revert s. induction n as [|n IH]; intros s; [done|].
  rewrite (concat_groups (fun g => store [p8_y0 g; p8_y1 g])), (concat_groups (fun g => store [be10_Cb00 g])), (concat_groups (fun g => store [p8_cr g])).
  cbn [group_map zip_with]. rewrite IH. reflexivity.
Qed.

Lemma y8_groups n s : group_map [5]%nat [2; 0; 0]%nat pg_be10_to_y8 n [s] =
  [concat ((fun j => store [p8_y0 (pg s j); p8_y1 (pg s j)]) <$> seq 0 n); []; []].
Proof.
  revert s. induction n as [|n IH]; intros s; [done|]. rewrite (concat_groups (fun g => store [p8_y0 g; p8_y1 g])).
  cbn [group_map zip_with]. rewrite IH. reflexivity.
Qed.

Lemma pg_take s j N : (5 * j + 5 <= N)%nat -> pg (take N s) j = pg s j.
Proof. intros H. unfold pg. by rewrite skipn_firstn_comm, take_take, Nat.min_l by lia. Qed.

Lemma lines_groups m s : yuv420p8_lines m [s] =
  [concat ((fun j => store [p8_y0 (pg s j); p8_y1 (pg s j)]) <$> seq 0 (2 * m));
   concat ((fun j => store [be10_Cb00 (pg s j)]) <$> seq 0 m); concat ((fun j => store [p8_cr (pg s j)]) <$> seq 0 m)].
Proof. reflexivity. Qed.

(** The two lines of a pair, one after the other. *)
Lemma lines_split m s :
  zip_with app (group_map [5]%nat [2; 1; 1]%nat pg_be10_to_p8 m [s]) (group_map [5]%nat [2; 0; 0]%nat pg_be10_to_y8 m [drop (m * 5) s]) =
  yuv420p8_lines m [take (2 * (m * 5)) s].
Proof.
  rewrite p8_groups, y8_groups, lines_groups. cbn [zip_with]. rewrite !app_nil_r. f_equal.
  - replace (seq 0 (2 * m)) with (seq 0 m ++ seq (m + 0) m) by (rewrite Nat.add_comm, <- (seq_app m m 0); f_equal; lia).
    rewrite fmap_app, concat_app. f_equal; f_equal.
    + apply list_fmap_ext. intros i j [-> ?]%lookup_seq. by rewrite pg_take by lia.
    + rewrite <- fmap_add_seq, <- list_fmap_compose. apply list_fmap_ext.
      intros i j [-> ?]%lookup_seq. unfold compose. rewrite pg_take by lia. unfold pg. rewrite drop_drop.
      by replace (5 * (m + (0 + i)))%nat with (m * 5 + 5 * (0 + i))%nat by lia.
  - f_equal; [|f_equal]; f_equal; apply list_fmap_ext; intros i j [-> ?]%lookup_seq; by rewrite pg_take by lia.
Qed.
End Yuv420.

Lemma p8_batches m : plan_ok any_bytes [5]%nat [2; 1; 1]%nat pg_be10_to_p8
  (batches [simd_stage 16 [80]%nat (@be10_to_p8_batch16); scalar_stage [5]%nat pg_be10_to_p8] m) m.
Proof.
  apply (batches_ok any_bytes _ _ _ [simd_stage 16 [80]%nat (@be10_to_p8_batch16)]);
    [by repeat constructor; apply be10_to_p8_batch16_ok|apply scalar_stage_ok; [apply gb_planes|apply gb_len]|done].
Qed.
Lemma y8_batches m : plan_ok any_bytes [5]%nat [2; 0; 0]%nat pg_be10_to_y8
  (batches [simd_stage 16 [80]%nat (@be10_to_y8_batch16); scalar_stage [5]%nat pg_be10_to_y8] m) m.
Proof.
  apply (batches_ok any_bytes _ _ _ [simd_stage 16 [80]%nat (@be10_to_y8_batch16)]);
    [by repeat constructor; apply be10_to_y8_batch16_ok|apply scalar_stage_ok; [apply gb_planes|apply gb_len]|done].
Qed.

(** The source and destination of [n] pairs of lines of [m] groups. *)
Abbreviation pair_in m := [2 * (m * 5)]%nat.
Abbreviation pair_out m := [2 * (m * 2); m; m]%nat.

Lemma yuv420p8_pair_spec m n out src dst : length out = 3%nat ->
  has_room (pair_in m) (S n) src -> Forall (fits any_bytes) src -> has_room (pair_out m) (S n) dst ->
  exists dst', same_lengths dst' (zip_with drop (pair_out m) dst) /\
    yuv420p8_pair_avx512 m (out, src, dst) =
      Some (zip_with app out (yuv420p8_lines m (zip_with take (pair_in m) src)), zip_with drop (pair_in m) src, dst').
Proof.
  intros Ho Hs HF Hd. unfold yuv420p8_pair_avx512.
  destruct src as [|s [|? ?]]; [by apply Forall2_length in Hs| |by apply Forall2_length in Hs].
  apply Forall2_cons in Hs as [Hs _].
  destruct (run_plan_spec any_bytes [5]%nat [2; 1; 1]%nat pg_be10_to_p8 gb_even gb_planes _ m out [s] dst (p8_batches m))
    as (d1 & Hd1 & ->); try done.
  { constructor; [|constructor]. nia. }
  { repeat (apply Forall2_cons_inv_l in Hd as (? & ? & ? & Hd & ->)). apply Forall2_nil_inv_l in Hd as ->. repeat constructor; nia. }
  cbn [mbind option_bind].
  destruct (run_plan_spec any_bytes [5]%nat [2; 0; 0]%nat pg_be10_to_y8 gb_even gb_planes _ m
    (zip_with app out (group_map [5]%nat [2; 1; 1]%nat pg_be10_to_p8 m [s])) (zip_with drop (times m [5%nat]) [s]) d1 (y8_batches m))
    as (d2 & Hd2 & ->).
  { rewrite length_zip_with, group_map_length by done. cbn. lia. }
  { constructor; [|constructor]. rewrite length_drop. nia. }
  { apply (Forall_fits_drop any_bytes m [5]%nat); [by left|done]. }
  { repeat (apply Forall2_cons_inv_l in Hd as (? & ? & ? & Hd & ->)). apply Forall2_nil_inv_l in Hd as ->. cbn in Hd1.
    repeat (apply Forall2_cons_inv_r in Hd1 as (? & ? & ?Hl & Hd1 & ->)). apply Forall2_nil_inv_r in Hd1 as ->.
    rewrite !length_drop in *. repeat constructor; nia. }
  exists d2. split.
  - eapply same_trans; [exact Hd2|]. eapply same_trans; [apply same_drop, Hd1|].
    repeat (apply Forall2_cons_inv_l in Hd as (? & ? & ? & Hd & ->)). apply Forall2_nil_inv_l in Hd as ->.
    repeat constructor; cbn; rewrite !length_drop; lia.
  - do 2 f_equal. f_equal.
    + rewrite zip_with_app_assoc. f_equal. apply lines_split.
    + cbn. f_equal. rewrite drop_drop. f_equal. lia.
Qed.

Lemma times_1 sizes : times 1 sizes = sizes.
Proof. unfold times. induction sizes as [|s sizes IH]; [done|]. cbn in *. by rewrite IH, Nat.add_0_r. Qed.

Lemma room_next sizes n bs : has_room sizes (S n) bs -> has_room sizes n (zip_with drop sizes bs).
Proof. intros H. apply (room_drop _ 1) in H. by rewrite times_1 in H. Qed.
Lemma fits_next q sizes src : q.1 = q.2 -> Forall (fits q) src -> Forall (fits q) (zip_with drop sizes src).
Proof. intros Hq H. rewrite <- (times_1 sizes). apply Forall_fits_drop; [by left|done]. Qed.

Lemma yuv420p8_loop_spec m n out src dst : length out = 3%nat ->
  has_room (pair_in m) n src -> Forall (fits any_bytes) src -> has_room (pair_out m) n dst ->
  exists src' dst', same_lengths dst' (zip_with drop (times n (pair_out m)) dst) /\
    yuv420p8_loop_avx512 m n (out, src, dst) =
      Some (zip_with app out (group_map (pair_in m) (pair_out m) (yuv420p8_lines m) n src), src', dst').
Proof.
  revert out src dst. induction n as [|n IH]; intros out src dst Ho Hs HF Hd; cbn [yuv420p8_loop_avx512 group_map].
  - exists src, dst. rewrite drop_times_0 by exact (Forall2_length _ _ _ Hd). split; [apply same_refl|]. by rewrite (zip_with_app_nil_r 3).
  - destruct (yuv420p8_pair_spec m n out src dst) as (d1 & Hd1 & ->); try done. cbn [mbind option_bind].
    destruct (IH (zip_with app out (yuv420p8_lines m (zip_with take (pair_in m) src))) (zip_with drop (pair_in m) src) d1) as (s2 & d2 & Hd2 & ->).
    + rewrite length_zip_with, Ho. reflexivity.
    + by apply room_next.
    + by apply fits_next.
    + eapply room_same; [exact Hd1|]. by apply room_next.
    + exists s2, d2. split.
      * eapply same_trans; [exact Hd2|]. eapply same_trans; [apply same_drop, Hd1|].
        repeat (apply Forall2_cons_inv_l in Hd as (? & ? & ? & Hd & ->)). apply Forall2_nil_inv_l in Hd as ->.
        repeat constructor; cbn; rewrite !length_drop; lia.
      * by rewrite zip_with_app_assoc.
Qed.

(** Buffers of whole pairs of lines. *)
Definition whole_line_pairs (w h : Z) (src dst : list bytes) : Prop :=
  exists m n, w / 2 = Z.of_nat m /\ h / 2 = Z.of_nat n /\
    holds (pair_in m) n src /\ Forall (fits any_bytes) src /\ holds (pair_out m) n dst.

Lemma yuv420p8_agrees :
  agrees whole_line_pairs st20_rfc4175_422be10_to_yuv420p8_avx512 st20_rfc4175_422be10_to_yuv420p8_scalar.
Proof.
  intros w h src dst (m & n & Hw & Hh & Hs & HF & Hd). left.
  unfold st20_rfc4175_422be10_to_yuv420p8_avx512, st20_rfc4175_422be10_to_yuv420p8_scalar. rewrite Hw, Hh, !Nat2Z.id.
  rewrite group_loop_map by done. cbn [fmap option_fmap option_map].
  destruct (yuv420p8_loop_spec m n [[]; []; []] src dst) as (s' & d' & Hd' & ->); [done|by apply holds_room|done|by apply holds_room|].
  cbn [mbind option_bind]. do 2 f_equal.
  rewrite (zip_with_app_nil 3) by (by apply group_map_length). replace d' with (replicate 3 (@nil Z)); [by apply zip_with_app_nil_r, group_map_length|].
  symmetry. repeat (apply Forall2_cons_inv_l in Hd as (? & ? & ? & Hd & ->)). apply Forall2_nil_inv_l in Hd as ->.
  repeat (apply Forall2_cons_inv_r in Hd' as (? & ? & ?Hl & Hd' & ->)). apply Forall2_nil_inv_r in Hd' as ->.
  rewrite !length_drop in *. repeat match goal with H : length ?x = (_ - _)%nat |- _ => assert (x = []) as -> by (apply nil_length_inv; lia); clear H end.
  done.
Qed.

(** *** The other routines *)

Ltac ways_ok := repeat apply Forall_cons_2; try apply Forall_nil_2.

Lemma st20_rfc4175_422be10_to_yuv422p10le_avx512_agrees : agrees (roomy_groups any_bytes [5]%nat [4; 2; 2]%nat 1) st20_rfc4175_422be10_to_yuv422p10le_avx512 st20_rfc4175_422be10_to_yuv422p10le_scalar.
Proof. apply (simd_conv_agrees [simd_stage 32 [160]%nat (@be10_to_ple_batch32); simd_stage 8 [40]%nat (@be10_to_ple_batch8)]). ways_ok; [apply be10_to_ple_batch32_ok|apply be10_to_ple_batch8_ok]. Qed.
Lemma st20_rfc4175_422be10_to_yuv422p10le_avx512_vbmi_agrees : agrees (roomy_groups any_bytes [5]%nat [4; 2; 2]%nat 1) st20_rfc4175_422be10_to_yuv422p10le_avx512_vbmi st20_rfc4175_422be10_to_yuv422p10le_scalar.
Proof. apply (simd_conv_agrees [simd_stage 8 [40]%nat (@be10_to_ple_vbmi_batch8)]). ways_ok; [apply be10_to_ple_vbmi_batch8_ok]. Qed.
Lemma st20_rfc4175_422be10_to_422le10_avx512_agrees : agrees (roomy_groups any_bytes [5]%nat [5]%nat 1) st20_rfc4175_422be10_to_422le10_avx512 st20_rfc4175_422be10_to_422le10_scalar.
Proof. apply (simd_conv_agrees [simd_stage 3 [15]%nat (@be10_to_le_batch3)]). ways_ok; [apply be10_to_le_batch3_ok]. Qed.
Lemma st20_rfc4175_422be10_to_422le10_avx512_vbmi_agrees : agrees (roomy_groups any_bytes [5]%nat [5]%nat 1) st20_rfc4175_422be10_to_422le10_avx512_vbmi st20_rfc4175_422be10_to_422le10_scalar.
Proof. apply (simd_conv_agrees [simd_stage 12 [60]%nat (@be10_to_le_vbmi_batch12)]). ways_ok; [apply be10_to_le_vbmi_batch12_ok]. Qed.
Lemma st20_rfc4175_422le10_to_422be10_avx512_agrees : agrees (roomy_groups any_bytes [5]%nat [5]%nat 1) st20_rfc4175_422le10_to_422be10_avx512 st20_rfc4175_422le10_to_422be10_scalar.
Proof. apply (simd_conv_agrees [simd_stage 3 [15]%nat (@le10_to_be_batch3)]). ways_ok; [apply le10_to_be_batch3_ok]. Qed.
Lemma st20_rfc4175_422le10_to_422be10_vbmi_agrees : agrees (roomy_groups any_bytes [5]%nat [5]%nat 1) st20_rfc4175_422le10_to_422be10_vbmi st20_rfc4175_422le10_to_422be10_scalar.
Proof. apply (simd_conv_agrees [simd_stage 12 [60]%nat (@le10_to_be_vbmi_batch12)]). ways_ok; [apply le10_to_be_vbmi_batch12_ok]. Qed.
Lemma st20_rfc4175_422be10_to_422le8_avx512_agrees : agrees (roomy_groups any_bytes [5]%nat [4]%nat 1) st20_rfc4175_422be10_to_422le8_avx512 st20_rfc4175_422be10_to_422le8_scalar.
Proof. apply (simd_conv_agrees [simd_stage 2 [10]%nat (@be10_to_le8_batch2)]). ways_ok; [apply be10_to_le8_batch2_ok]. Qed.
Lemma st20_rfc4175_422be10_to_422le8_avx512_vbmi_agrees : agrees (roomy_groups any_bytes [5]%nat [4]%nat 1) st20_rfc4175_422be10_to_422le8_avx512_vbmi st20_rfc4175_422be10_to_422le8_scalar.
Proof. apply (simd_conv_agrees [simd_stage 12 [60]%nat (@be10_to_le8_vbmi_batch12)]). ways_ok; [apply be10_to_le8_vbmi_batch12_ok]. Qed.
Lemma st20_rfc4175_422be10_to_yuv422p8_avx512_agrees : agrees (roomy_groups any_bytes [5]%nat [2; 1; 1]%nat 1) st20_rfc4175_422be10_to_yuv422p8_avx512 st20_rfc4175_422be10_to_yuv422p8_scalar.
Proof. apply (simd_conv_agrees [simd_stage 16 [80]%nat (@be10_to_p8_batch16)]). ways_ok; [apply be10_to_p8_batch16_ok]. Qed.
Lemma st20_yuv422p10le_to_rfc4175_422be10_avx512_agrees : agrees (roomy_groups (samples 10) [4; 2; 2]%nat [5]%nat 1) st20_yuv422p10le_to_rfc4175_422be10_avx512 st20_yuv422p10le_to_rfc4175_422be10_scalar.
Proof. apply (simd_conv_agrees [simd_stage 8 [32; 16; 16]%nat (@ple_to_be10_batch8)]). ways_ok; [apply ple_to_be10_batch8_ok]. Qed.
Lemma st20_yuv422p10le_to_rfc4175_422be10_vbmi_agrees : agrees (roomy_groups (samples 10) [4; 2; 2]%nat [5]%nat 1) st20_yuv422p10le_to_rfc4175_422be10_vbmi st20_yuv422p10le_to_rfc4175_422be10_scalar.
Proof. apply (simd_conv_agrees [simd_stage 8 [32; 16; 16]%nat (@ple_to_be10_vbmi_batch8)]). ways_ok; [apply ple_to_be10_vbmi_batch8_ok]. Qed.
Lemma st20_rfc4175_422be10_to_y210_avx512_agrees : agrees (roomy_groups any_bytes [5]%nat [8]%nat 1) st20_rfc4175_422be10_to_y210_avx512 st20_rfc4175_422be10_to_y210_scalar.
Proof. apply (simd_conv_agrees [simd_stage 2 [10]%nat (@be10_to_y210_batch2)]). ways_ok; [apply be10_to_y210_batch2_ok]. Qed.
Lemma st20_y210_to_rfc4175_422be10_avx512_agrees : agrees (roomy_groups y210_samples [8]%nat [5]%nat 1) st20_y210_to_rfc4175_422be10_avx512 st20_y210_to_rfc4175_422be10_scalar.
Proof. apply (simd_conv_agrees [simd_stage 2 [16]%nat (@y210_to_be10_batch2)]). ways_ok; [apply y210_to_be10_batch2_ok]. Qed.
Lemma st20_rfc4175_422be12_to_422le12_avx512_agrees : agrees (roomy_groups any_bytes [6]%nat [6]%nat 1) st20_rfc4175_422be12_to_422le12_avx512 st20_rfc4175_422be12_to_422le12_scalar.
Proof. apply (simd_conv_agrees [simd_stage 2 [12]%nat (@be12_to_le12_batch2)]). ways_ok; [apply be12_to_le12_batch2_ok]. Qed.
Lemma st20_rfc4175_422be12_to_yuv422p12le_avx512_agrees : agrees (roomy_groups any_bytes [6]%nat [4; 2; 2]%nat 1) st20_rfc4175_422be12_to_yuv422p12le_avx512 st20_rfc4175_422be12_to_yuv422p12le_scalar.
Proof. apply (simd_conv_agrees [simd_stage 32 [192]%nat (@be12_to_ple_batch32); simd_stage 8 [48]%nat (@be12_to_ple_batch8)]). ways_ok; [apply be12_to_ple_batch32_ok|apply be12_to_ple_batch8_ok]. Qed.
Lemma st20_rfc4175_422be12_to_yuv422p12le_avx512_vbmi_agrees : agrees (roomy_groups any_bytes [6]%nat [4; 2; 2]%nat 1) st20_rfc4175_422be12_to_yuv422p12le_avx512_vbmi st20_rfc4175_422be12_to_yuv422p12le_scalar.
Proof. apply (simd_conv_agrees [simd_stage 8 [48]%nat (@be12_to_ple_vbmi_batch8)]). ways_ok; [apply be12_to_ple_vbmi_batch8_ok]. Qed.
Lemma st20_rfc4175_422be10_to_yuv422p16le_avx512_agrees : agrees (roomy_groups any_bytes [5]%nat [4; 2; 2]%nat 1) st20_rfc4175_422be10_to_yuv422p16le_avx512 st20_rfc4175_422be10_to_yuv422p16le_scalar.
Proof. apply (simd_conv_agrees [simd_stage 32 [160]%nat (@be10_to_p16le_batch32); simd_stage 8 [40]%nat (@be10_to_p16le_batch8)]). ways_ok; [apply be10_to_p16le_batch32_ok|apply be10_to_p16le_batch8_ok]. Qed.
Lemma st20_yuv422p16le_to_rfc4175_422be10_avx512_agrees : agrees (roomy_groups any_bytes [4; 2; 2]%nat [5]%nat 1) st20_yuv422p16le_to_rfc4175_422be10_avx512 st20_yuv422p16le_to_rfc4175_422be10_scalar.
Proof. apply (simd_conv_agrees [simd_stage 8 [32; 16; 16]%nat (@p16le_to_be10_batch8)]). ways_ok; [apply p16le_to_be10_batch8_ok]. Qed.
Lemma st20_rfc4175_422le10_to_v210_avx512_agrees : agrees (roomy_groups any_bytes [15]%nat [16]%nat 3) st20_rfc4175_422le10_to_v210_avx512 st20_rfc4175_422le10_to_v210_scalar.
Proof. apply (v210_simd_agrees 1); [apply le10_to_v210_batch3_ok|done]. Qed.
Lemma st20_rfc4175_422le10_to_v210_avx512_vbmi_agrees : agrees (roomy_groups any_bytes [15]%nat [16]%nat 3) st20_rfc4175_422le10_to_v210_avx512_vbmi st20_rfc4175_422le10_to_v210_scalar.
Proof. apply (v210_simd_agrees 4); [apply le10_to_v210_vbmi_batch12_ok|done]. Qed.
Lemma st20_rfc4175_422be10_to_v210_avx512_agrees : agrees (roomy_groups any_bytes [15]%nat [16]%nat 3) st20_rfc4175_422be10_to_v210_avx512 st20_rfc4175_422be10_to_v210_scalar.
Proof. apply (v210_simd_agrees 1); [apply be10_to_v210_batch3_ok|done]. Qed.
Lemma st20_rfc4175_422be10_to_v210_avx512_vbmi_agrees : agrees (roomy_groups any_bytes [15]%nat [16]%nat 3) st20_rfc4175_422be10_to_v210_avx512_vbmi st20_rfc4175_422be10_to_v210_scalar.
Proof. apply (v210_simd_agrees 4); [apply be10_to_v210_vbmi_batch12_ok|done]. Qed.
Lemma st20_v210_to_rfc4175_422be10_avx512_agrees : agrees (roomy_groups any_bytes [16]%nat [15]%nat 3) st20_v210_to_rfc4175_422be10_avx512 st20_v210_to_rfc4175_422be10_scalar.
Proof. apply (v210_simd_agrees 1); [apply v210_to_be10_batch3_ok|done]. Qed.
Lemma st20_v210_to_rfc4175_422be10_avx512_vbmi_agrees : agrees (roomy_groups any_bytes [16]%nat [15]%nat 3) st20_v210_to_rfc4175_422be10_avx512_vbmi st20_v210_to_rfc4175_422be10_scalar.
Proof. apply (v210_simd_agrees 4); [apply v210_to_be10_vbmi_batch12_ok|done]. Qed.
Lemma st20_rfc4175_422be10_to_422le10_avx2_agrees : agrees (roomy_groups any_bytes [5]%nat [5]%nat 1) st20_rfc4175_422be10_to_422le10_avx2 st20_rfc4175_422be10_to_422le10_scalar.
Proof. apply avx2_conv_agrees; [apply _|apply be10_to_le_avx2_batch3_ok]. Qed.
Lemma st20_rfc4175_422le10_to_422be10_avx2_agrees : agrees (roomy_groups any_bytes [5]%nat [5]%nat 1) st20_rfc4175_422le10_to_422be10_avx2 st20_rfc4175_422le10_to_422be10_scalar.
Proof. apply avx2_conv_agrees; [apply _|apply le10_to_be_avx2_batch3_ok]. Qed.

(** ** The choice does not show *)

(** A routine that fails has not touched the destination. *)
Definition fails_clean (r : conv) : Prop := forall w h src dst ret d, r w h src dst = Some (ret, d) -> ret = 0 \/ d = dst.
Lemma group_conv_clean k si so f : fails_clean (group_conv k si so f).
Proof. intros w h src dst ret d. unfold group_conv. destruct (group_loop _ _ _ _ _ _); cbn; intros H; by simplify_eq; left. Qed.
Lemma v210_conv_clean si so f : fails_clean (v210_conv si so f).
Proof.
  intros w h src dst ret d. unfold v210_conv. case_if; [intros H; simplify_eq; by right|].
  destruct (group_loop _ _ _ _ _ _); cbn; intros H; by simplify_eq; left.
Qed.
Lemma yuv420p8_clean : fails_clean st20_rfc4175_422be10_to_yuv420p8_scalar.
Proof.
  intros w h src dst ret d. unfold st20_rfc4175_422be10_to_yuv420p8_scalar.
  destruct (group_loop _ _ _ _ _ _); cbn; intros H; by simplify_eq; left.
Qed.

(** A way is run only where the processor can. *)
Definition way_legal (cpu_level level : mtl_simd_level) (wy : simd_way) : Prop :=
  way_asks_cpu wy = true \/ (level_ge level (way_level wy) = true -> level_ge cpu_level (way_level wy) = true).

Lemma simd_ways_scalar pre scalar bd cpu_level level ways w h src dst : fails_clean scalar ->
  Forall (fun wy => agrees pre (way_run wy) scalar /\ way_legal cpu_level level wy) ways -> pre w h src dst ->
  simd_ways bd cpu_level level ways scalar w h src dst = scalar w h src dst.
Proof.
  intros Hc HF Hpre. induction HF as [|wy ways [Ha Hl] _ IH]; [done|]. cbn [simd_ways].
  destruct (way_taken bd cpu_level level wy) eqn:Ht; [|exact IH].
  assert (level_ge cpu_level (way_level wy) = true) as ->.
  { unfold way_taken in Ht. rewrite !andb_true_iff in Ht. destruct Ht as [[_ Hlv] Hcpu].
    destruct Hl as [Hl|Hl]; [|by apply Hl]. by rewrite Hl in Hcpu. }
  destruct (Ha w h src dst Hpre) as [->| ->]; [|exact IH].
  destruct (scalar w h src dst) as [[ret d]|] eqn:Es; cbn [mbind option_bind]; [|done].
  destruct (ret =? 0) eqn:Er; [apply Z.eqb_eq in Er; by subst|]. destruct (Hc _ _ _ _ _ _ Es) as [->| ->]; [done|exact IH].
Qed.

(** The entries: the buffers they are for, whether they ask for the processor's level. *)
Record entry := mk_entry {
  en_pre : Z -> Z -> list bytes -> list bytes -> Prop; en_asks_cpu : bool; en_simd : simd_entry; en_scalar : conv }.
Definition simd_entries : list entry :=
  [mk_entry (whole_groups any_bytes [5]%nat [4; 2; 2]%nat 1) true
     st20_rfc4175_422be10_to_yuv422p10le_simd st20_rfc4175_422be10_to_yuv422p10le_scalar;
   mk_entry (whole_groups (samples 10) [4; 2; 2]%nat [5]%nat 1) true
     st20_yuv422p10le_to_rfc4175_422be10_simd st20_yuv422p10le_to_rfc4175_422be10_scalar;
   mk_entry (whole_groups any_bytes [5]%nat [5]%nat 1) true
     st20_rfc4175_422be10_to_422le10_simd st20_rfc4175_422be10_to_422le10_scalar;
   mk_entry (whole_groups any_bytes [5]%nat [5]%nat 1) true
     st20_rfc4175_422le10_to_422be10_simd st20_rfc4175_422le10_to_422be10_scalar;
   mk_entry (whole_groups any_bytes [5]%nat [4]%nat 1) true
     st20_rfc4175_422be10_to_422le8_simd st20_rfc4175_422be10_to_422le8_scalar;
   mk_entry (whole_groups any_bytes [5]%nat [2; 1; 1]%nat 1) true
     st20_rfc4175_422be10_to_yuv422p8_simd st20_rfc4175_422be10_to_yuv422p8_scalar;
   mk_entry whole_line_pairs true st20_rfc4175_422be10_to_yuv420p8_simd st20_rfc4175_422be10_to_yuv420p8_scalar;
   mk_entry (whole_groups any_bytes [15]%nat [16]%nat 3) true
     st20_rfc4175_422le10_to_v210_simd st20_rfc4175_422le10_to_v210_scalar;
   mk_entry (whole_groups any_bytes [15]%nat [16]%nat 3) true
     st20_rfc4175_422be10_to_v210_simd st20_rfc4175_422be10_to_v210_scalar;
   mk_entry (whole_groups any_bytes [16]%nat [15]%nat 3) true
     st20_v210_to_rfc4175_422be10_simd st20_v210_to_rfc4175_422be10_scalar;
   mk_entry (whole_groups any_bytes [5]%nat [8]%nat 1) true
     st20_rfc4175_422be10_to_y210_simd st20_rfc4175_422be10_to_y210_scalar;
   mk_entry (whole_groups y210_samples [8]%nat [5]%nat 1) true
     st20_y210_to_rfc4175_422be10_simd st20_y210_to_rfc4175_422be10_scalar;
   mk_entry (whole_groups any_bytes [6]%nat [4; 2; 2]%nat 1) true
     st20_rfc4175_422be12_to_yuv422p12le_simd st20_rfc4175_422be12_to_yuv422p12le_scalar;
   mk_entry (whole_groups any_bytes [6]%nat [6]%nat 1) true
     st20_rfc4175_422be12_to_422le12_simd st20_rfc4175_422be12_to_422le12_scalar;
   mk_entry (whole_groups any_bytes [5]%nat [4; 2; 2]%nat 1) false
     st20_rfc4175_422be10_to_yuv422p16le_simd st20_rfc4175_422be10_to_yuv422p16le_scalar;
   mk_entry (whole_groups any_bytes [4; 2; 2]%nat [5]%nat 1) false
     st20_yuv422p16le_to_rfc4175_422be10_simd st20_yuv422p16le_to_rfc4175_422be10_scalar].

(** *** The entries one by one *)

Lemma st20_rfc4175_422be10_to_yuv422p10le_any_way bd cpu_level level w h src dst : roomy_groups any_bytes [5]%nat [4; 2; 2]%nat 1 w h src dst ->
  st20_rfc4175_422be10_to_yuv422p10le_simd bd cpu_level level w h src dst = st20_rfc4175_422be10_to_yuv422p10le_scalar w h src dst.
Proof. intros Hpre. apply (simd_ways_scalar (roomy_groups any_bytes [5]%nat [4; 2; 2]%nat 1)); [apply group_conv_clean|ways_ok; [split; [apply st20_rfc4175_422be10_to_yuv422p10le_avx512_vbmi_agrees|by left]|split; [apply st20_rfc4175_422be10_to_yuv422p10le_avx512_agrees|by left]]|exact Hpre]. Qed.
Lemma st20_yuv422p10le_to_rfc4175_422be10_any_way bd cpu_level level w h src dst : roomy_groups (samples 10) [4; 2; 2]%nat [5]%nat 1 w h src dst ->
  st20_yuv422p10le_to_rfc4175_422be10_simd bd cpu_level level w h src dst = st20_yuv422p10le_to_rfc4175_422be10_scalar w h src dst.
Proof. intros Hpre. apply (simd_ways_scalar (roomy_groups (samples 10) [4; 2; 2]%nat [5]%nat 1)); [apply group_conv_clean|ways_ok; [split; [apply st20_yuv422p10le_to_rfc4175_422be10_avx512_agrees|by left]]|exact Hpre]. Qed.
Lemma st20_rfc4175_422be10_to_422le10_any_way bd cpu_level level w h src dst : roomy_groups any_bytes [5]%nat [5]%nat 1 w h src dst ->
  st20_rfc4175_422be10_to_422le10_simd bd cpu_level level w h src dst = st20_rfc4175_422be10_to_422le10_scalar w h src dst.
Proof. intros Hpre. apply (simd_ways_scalar (roomy_groups any_bytes [5]%nat [5]%nat 1)); [apply group_conv_clean|ways_ok; [split; [apply st20_rfc4175_422be10_to_422le10_avx512_vbmi_agrees|by left]|split; [apply st20_rfc4175_422be10_to_422le10_avx512_agrees|by left]|split; [apply st20_rfc4175_422be10_to_422le10_avx2_agrees|by left]]|exact Hpre]. Qed.
Lemma st20_rfc4175_422le10_to_422be10_any_way bd cpu_level level w h src dst : roomy_groups any_bytes [5]%nat [5]%nat 1 w h src dst ->
  st20_rfc4175_422le10_to_422be10_simd bd cpu_level level w h src dst = st20_rfc4175_422le10_to_422be10_scalar w h src dst.
Proof. intros Hpre. apply (simd_ways_scalar (roomy_groups any_bytes [5]%nat [5]%nat 1)); [apply group_conv_clean|ways_ok; [split; [apply st20_rfc4175_422le10_to_422be10_vbmi_agrees|by left]|split; [apply st20_rfc4175_422le10_to_422be10_avx512_agrees|by left]|split; [apply st20_rfc4175_422le10_to_422be10_avx2_agrees|by left]]|exact Hpre]. Qed.
Lemma st20_rfc4175_422be10_to_422le8_any_way bd cpu_level level w h src dst : roomy_groups any_bytes [5]%nat [4]%nat 1 w h src dst ->
  st20_rfc4175_422be10_to_422le8_simd bd cpu_level level w h src dst = st20_rfc4175_422be10_to_422le8_scalar w h src dst.
Proof. intros Hpre. apply (simd_ways_scalar (roomy_groups any_bytes [5]%nat [4]%nat 1)); [apply group_conv_clean|ways_ok; [split; [apply st20_rfc4175_422be10_to_422le8_avx512_vbmi_agrees|by left]|split; [apply st20_rfc4175_422be10_to_422le8_avx512_agrees|by left]]|exact Hpre]. Qed.
Lemma st20_rfc4175_422be10_to_yuv422p8_any_way bd cpu_level level w h src dst : roomy_groups any_bytes [5]%nat [2; 1; 1]%nat 1 w h src dst ->
  st20_rfc4175_422be10_to_yuv422p8_simd bd cpu_level level w h src dst = st20_rfc4175_422be10_to_yuv422p8_scalar w h src dst.
Proof. intros Hpre. apply (simd_ways_scalar (roomy_groups any_bytes [5]%nat [2; 1; 1]%nat 1)); [apply group_conv_clean|ways_ok; [split; [apply st20_rfc4175_422be10_to_yuv422p8_avx512_agrees|by left]]|exact Hpre]. Qed.
Lemma st20_rfc4175_422be10_to_yuv420p8_any_way bd cpu_level level w h src dst : whole_line_pairs w h src dst ->
  st20_rfc4175_422be10_to_yuv420p8_simd bd cpu_level level w h src dst = st20_rfc4175_422be10_to_yuv420p8_scalar w h src dst.
Proof. intros Hpre. apply (simd_ways_scalar whole_line_pairs); [apply yuv420p8_clean|ways_ok; [split; [apply yuv420p8_agrees|by left]]|exact Hpre]. Qed.
Lemma st20_rfc4175_422le10_to_v210_any_way bd cpu_level level w h src dst : roomy_groups any_bytes [15]%nat [16]%nat 3 w h src dst ->
  st20_rfc4175_422le10_to_v210_simd bd cpu_level level w h src dst = st20_rfc4175_422le10_to_v210_scalar w h src dst.
Proof. intros Hpre. apply (simd_ways_scalar (roomy_groups any_bytes [15]%nat [16]%nat 3)); [apply v210_conv_clean|ways_ok; [split; [apply st20_rfc4175_422le10_to_v210_avx512_vbmi_agrees|by left]|split; [apply st20_rfc4175_422le10_to_v210_avx512_agrees|by left]]|exact Hpre]. Qed.
Lemma st20_rfc4175_422be10_to_v210_any_way bd cpu_level level w h src dst : roomy_groups any_bytes [15]%nat [16]%nat 3 w h src dst ->
  st20_rfc4175_422be10_to_v210_simd bd cpu_level level w h src dst = st20_rfc4175_422be10_to_v210_scalar w h src dst.
Proof. intros Hpre. apply (simd_ways_scalar (roomy_groups any_bytes [15]%nat [16]%nat 3)); [apply v210_conv_clean|ways_ok; [split; [apply st20_rfc4175_422be10_to_v210_avx512_vbmi_agrees|by left]|split; [apply st20_rfc4175_422be10_to_v210_avx512_agrees|by left]]|exact Hpre]. Qed.
Lemma st20_v210_to_rfc4175_422be10_any_way bd cpu_level level w h src dst : roomy_groups any_bytes [16]%nat [15]%nat 3 w h src dst ->
  st20_v210_to_rfc4175_422be10_simd bd cpu_level level w h src dst = st20_v210_to_rfc4175_422be10_scalar w h src dst.
Proof. intros Hpre. apply (simd_ways_scalar (roomy_groups any_bytes [16]%nat [15]%nat 3)); [apply v210_conv_clean|ways_ok; [split; [apply st20_v210_to_rfc4175_422be10_avx512_vbmi_agrees|by left]|split; [apply st20_v210_to_rfc4175_422be10_avx512_agrees|by left]]|exact Hpre]. Qed.
Lemma st20_rfc4175_422be10_to_y210_any_way bd cpu_level level w h src dst : roomy_groups any_bytes [5]%nat [8]%nat 1 w h src dst ->
  st20_rfc4175_422be10_to_y210_simd bd cpu_level level w h src dst = st20_rfc4175_422be10_to_y210_scalar w h src dst.
Proof. intros Hpre. apply (simd_ways_scalar (roomy_groups any_bytes [5]%nat [8]%nat 1)); [apply group_conv_clean|ways_ok; [split; [apply st20_rfc4175_422be10_to_y210_avx512_agrees|by left]]|exact Hpre]. Qed.
Lemma st20_y210_to_rfc4175_422be10_any_way bd cpu_level level w h src dst : roomy_groups y210_samples [8]%nat [5]%nat 1 w h src dst ->
  st20_y210_to_rfc4175_422be10_simd bd cpu_level level w h src dst = st20_y210_to_rfc4175_422be10_scalar w h src dst.
Proof. intros Hpre. apply (simd_ways_scalar (roomy_groups y210_samples [8]%nat [5]%nat 1)); [apply group_conv_clean|ways_ok; [split; [apply st20_y210_to_rfc4175_422be10_avx512_agrees|by left]]|exact Hpre]. Qed.
Lemma st20_rfc4175_422be12_to_yuv422p12le_any_way bd cpu_level level w h src dst : roomy_groups any_bytes [6]%nat [4; 2; 2]%nat 1 w h src dst ->
  st20_rfc4175_422be12_to_yuv422p12le_simd bd cpu_level level w h src dst = st20_rfc4175_422be12_to_yuv422p12le_scalar w h src dst.
Proof. intros Hpre. apply (simd_ways_scalar (roomy_groups any_bytes [6]%nat [4; 2; 2]%nat 1)); [apply group_conv_clean|ways_ok; [split; [apply st20_rfc4175_422be12_to_yuv422p12le_avx512_vbmi_agrees|by left]|split; [apply st20_rfc4175_422be12_to_yuv422p12le_avx512_agrees|by left]]|exact Hpre]. Qed.
Lemma st20_rfc4175_422be12_to_422le12_any_way bd cpu_level level w h src dst : roomy_groups any_bytes [6]%nat [6]%nat 1 w h src dst ->
  st20_rfc4175_422be12_to_422le12_simd bd cpu_level level w h src dst = st20_rfc4175_422be12_to_422le12_scalar w h src dst.
Proof. intros Hpre. apply (simd_ways_scalar (roomy_groups any_bytes [6]%nat [6]%nat 1)); [apply group_conv_clean|ways_ok; [split; [apply st20_rfc4175_422be12_to_422le12_avx512_agrees|by left]]|exact Hpre]. Qed.
Lemma st20_rfc4175_422be10_to_yuv422p16le_any_way bd cpu_level level w h src dst : roomy_groups any_bytes [5]%nat [4; 2; 2]%nat 1 w h src dst ->
  (level_ge level MTL_SIMD_LEVEL_AVX512 = true -> level_ge cpu_level MTL_SIMD_LEVEL_AVX512 = true) ->
  st20_rfc4175_422be10_to_yuv422p16le_simd bd cpu_level level w h src dst = st20_rfc4175_422be10_to_yuv422p16le_scalar w h src dst.
Proof. intros Hpre Hcpu. apply (simd_ways_scalar (roomy_groups any_bytes [5]%nat [4; 2; 2]%nat 1)); [apply group_conv_clean|ways_ok; [split; [apply st20_rfc4175_422be10_to_yuv422p16le_avx512_agrees|by right]]|exact Hpre]. Qed.
Lemma st20_yuv422p16le_to_rfc4175_422be10_any_way bd cpu_level level w h src dst : roomy_groups any_bytes [4; 2; 2]%nat [5]%nat 1 w h src dst ->
  (level_ge level MTL_SIMD_LEVEL_AVX512 = true -> level_ge cpu_level MTL_SIMD_LEVEL_AVX512 = true) ->
  st20_yuv422p16le_to_rfc4175_422be10_simd bd cpu_level level w h src dst = st20_yuv422p16le_to_rfc4175_422be10_scalar w h src dst.
Proof. intros Hpre Hcpu. apply (simd_ways_scalar (roomy_groups any_bytes [4; 2; 2]%nat [5]%nat 1)); [apply group_conv_clean|ways_ok; [split; [apply st20_yuv422p16le_to_rfc4175_422be10_avx512_agrees|by right]]|exact Hpre]. Qed.

(** C17: whatever the build, the processor and the level the caller allows, an entry converts
    exactly as its scalar routine: every vector routine gives the same bytes on buffers of
    whole groups, or refuses and leaves the work to the next way. The buffers hold samples of
    their width; the two entries that do not ask for the processor's level need one that
    has AVX-512. *)
Theorem simd_entries_scalar : forall e bd cpu_level level w h src dst,
  e ∈ simd_entries -> en_pre e w h src dst ->
  (en_asks_cpu e = false -> level_ge level MTL_SIMD_LEVEL_AVX512 = true -> level_ge cpu_level MTL_SIMD_LEVEL_AVX512 = true) ->
  en_simd e bd cpu_level level w h src dst = en_scalar e w h src dst.
Proof.
  intros e bd cpu_level level w h src dst He Hpre Hcpu. unfold simd_entries in He. rewrite !elem_of_cons, elem_of_nil in He.
  destruct_or?; try contradiction; subst e; cbn [en_pre en_asks_cpu en_simd en_scalar] in *.
  - exact (st20_rfc4175_422be10_to_yuv422p10le_any_way _ _ _ _ _ _ _ (whole_roomy _ _ _ _ _ _ _ _ Hpre)).
  - exact (st20_yuv422p10le_to_rfc4175_422be10_any_way _ _ _ _ _ _ _ (whole_roomy _ _ _ _ _ _ _ _ Hpre)).
  - exact (st20_rfc4175_422be10_to_422le10_any_way _ _ _ _ _ _ _ (whole_roomy _ _ _ _ _ _ _ _ Hpre)).
  - exact (st20_rfc4175_422le10_to_422be10_any_way _ _ _ _ _ _ _ (whole_roomy _ _ _ _ _ _ _ _ Hpre)).
  - exact (st20_rfc4175_422be10_to_422le8_any_way _ _ _ _ _ _ _ (whole_roomy _ _ _ _ _ _ _ _ Hpre)).
  - exact (st20_rfc4175_422be10_to_yuv422p8_any_way _ _ _ _ _ _ _ (whole_roomy _ _ _ _ _ _ _ _ Hpre)).
  - exact (st20_rfc4175_422be10_to_yuv420p8_any_way _ _ _ _ _ _ _ Hpre).
  - exact (st20_rfc4175_422le10_to_v210_any_way _ _ _ _ _ _ _ (whole_roomy _ _ _ _ _ _ _ _ Hpre)).
  - exact (st20_rfc4175_422be10_to_v210_any_way _ _ _ _ _ _ _ (whole_roomy _ _ _ _ _ _ _ _ Hpre)).
  - exact (st20_v210_to_rfc4175_422be10_any_way _ _ _ _ _ _ _ (whole_roomy _ _ _ _ _ _ _ _ Hpre)).
  - exact (st20_rfc4175_422be10_to_y210_any_way _ _ _ _ _ _ _ (whole_roomy _ _ _ _ _ _ _ _ Hpre)).
  - exact (st20_y210_to_rfc4175_422be10_any_way _ _ _ _ _ _ _ (whole_roomy _ _ _ _ _ _ _ _ Hpre)).
  - exact (st20_rfc4175_422be12_to_yuv422p12le_any_way _ _ _ _ _ _ _ (whole_roomy _ _ _ _ _ _ _ _ Hpre)).
  - exact (st20_rfc4175_422be12_to_422le12_any_way _ _ _ _ _ _ _ (whole_roomy _ _ _ _ _ _ _ _ Hpre)).
  - exact (st20_rfc4175_422be10_to_yuv422p16le_any_way _ _ _ _ _ _ _ (whole_roomy _ _ _ _ _ _ _ _ Hpre) (Hcpu eq_refl)).
  - exact (st20_yuv422p16le_to_rfc4175_422be10_any_way _ _ _ _ _ _ _ (whole_roomy _ _ _ _ _ _ _ _ Hpre) (Hcpu eq_refl)).
Qed.

Definition demo_be10 : list bytes := [(fun i => Z.of_nat i * 7 mod 256) <$> seq 0 165].
Definition demo_p10 : list bytes := [replicate 132 0; replicate 66 0; replicate 66 0].
Definition demo_entry : entry :=
  mk_entry (whole_groups any_bytes [5]%nat [4; 2; 2]%nat 1) true
    st20_rfc4175_422be10_to_yuv422p10le_simd st20_rfc4175_422be10_to_yuv422p10le_scalar.
Lemma simd_entries_scalar_witness :
  en_simd demo_entry (mk_build true true true) MTL_SIMD_LEVEL_AVX512 MTL_SIMD_LEVEL_MAX 66 1 demo_be10 demo_p10 =
  en_scalar demo_entry 66 1 demo_be10 demo_p10.
Proof.
  apply (simd_entries_scalar demo_entry).
  - left.
  - split; [unfold is_u32; lia|]. exists 33%nat. split; [done|]. split_and!; [by repeat constructor| |by repeat constructor].
    apply Forall_singleton, fits_bytes. apply Forall_fmap, Forall_forall. intros i _. unfold compose, is_u8. apply Z.mod_pos_bound. lia.
  - done.
Defined.

(** ** Where the choice does show *)

Definition cpu_none := MTL_SIMD_LEVEL_NONE.
Definition full_build := mk_build true true true.

(** Without the question for the processor's level the two 16-bit entries run AVX-512 on a
    processor that has none, at the level all callers pass. *)
Lemma p16_entries_ask_no_cpu w h src dst :
  st20_rfc4175_422be10_to_yuv422p16le_simd full_build cpu_none MTL_SIMD_LEVEL_MAX w h src dst = None /\
  st20_yuv422p16le_to_rfc4175_422be10_simd full_build cpu_none MTL_SIMD_LEVEL_MAX w h src dst = None.
Proof. done. Qed.

(** A sample of more than ten bits: the scalar routine drops the bits above, the vector
    ones let them into the sample next to it. *)
Definition wide_p10 : list bytes := [concat (replicate 16 [0; 4]); concat (replicate 8 [0; 0]); concat (replicate 8 [0; 0])].
Lemma p10_vector_keeps_high_bits :
  st20_yuv422p10le_to_rfc4175_422be10_scalar 16 1 wide_p10 [replicate 40 0] = Some (0, [replicate 40 0]) /\
  st20_yuv422p10le_to_rfc4175_422be10_avx512 16 1 wide_p10 [replicate 40 0] <> Some (0, [replicate 40 0]).
Proof. split; [vm_compute; reflexivity|vm_compute; discriminate]. Qed.

(** The low six bits of a Y210 sample are not part of it; the vector routine lets them in. *)
Lemma y210_vector_keeps_low_bits :
  st20_y210_to_rfc4175_422be10_scalar 4 1 [concat (replicate 8 [0x3F; 0])] [replicate 10 0] = Some (0, [replicate 10 0]) /\
  st20_y210_to_rfc4175_422be10_avx512 4 1 [concat (replicate 8 [0x3F; 0])] [replicate 10 0] <> Some (0, [replicate 10 0]).
Proof. split; [vm_compute; reflexivity|vm_compute; discriminate]. Qed.

(** ** Every second group of a line *)

(** [mt_memcpy(dst, src, 5); src += 2 * 5; dst += 5;] *)
Definition copy_stage : stage := mk_stage 1 [5]%nat (fun c => Some c).
Definition downsample_plan (new_pg_per_line : nat) : list (nat * stage) :=
  [((new_pg_per_line / 6)%nat, simd_stage 6 [64]%nat (fun B _ => @downsample_vbmi_batch6 B)); ((new_pg_per_line mod 6)%nat, copy_stage)].
Definition downsample_line_vbmi (new_pg_per_line : nat) (src dst : bytes) : option bytes :=
  '(out, _, dst) ← run_plan [10]%nat [5]%nat (downsample_plan new_pg_per_line) ([[]], [src], [dst]);
  Some (plane (zip_with app out dst) 0).
Fixpoint downsample_lines_vbmi (w : Z) (lines : list Z) (linesize_old linesize_new : Z) (pg_old pg_new : bytes) : option bytes :=
  match lines with
  | [] => Some pg_new
  | line :: lines =>
      let src := drop (Z.to_nat (u32 (linesize_old * line * 2))) pg_old in
      let off := Z.to_nat (u32 (linesize_new * line)) in
      dst ← downsample_line_vbmi (Z.to_nat (w / 2)) src (drop off pg_new);
      downsample_lines_vbmi w lines linesize_old linesize_new pg_old (take off pg_new ++ dst)
  end.
Definition st20_downsample_rfc4175_422be10_wh_half_avx512_vbmi (pg_old pg_new : bytes) (w h linesize_old linesize_new : Z)
    : option (Z * bytes) :=
  pg_new ← downsample_lines_vbmi w (seqZ 0 h) linesize_old linesize_new pg_old pg_new;
  Some (0, pg_new).

(** Every second group, from the first on. *)
Definition every_second (n : nat) (src : bytes) : bytes := concat ((fun j => take 5 (drop (10 * j) src)) <$> seq 0 n).

Lemma every_second_S n src : every_second (S n) src = take 5 src ++ every_second n (drop 10 src).
Proof.
  unfold every_second. cbn [seq fmap list_fmap concat]. rewrite Nat.mul_0_r, drop_0. f_equal. f_equal. rewrite <- fmap_S_seq, <- list_fmap_compose.
  apply list_fmap_ext. intros i j _. unfold compose. rewrite drop_drop. do 2 f_equal. lia.
Qed.
Lemma downsample_groups n src : (10 * n <= length src)%nat -> group_map [10]%nat [5]%nat pg2_downsample n [src] = [every_second n src].
Proof.
  revert src. induction n as [|n IH]; intros src H; [done|]. cbn [group_map zip_with]. rewrite IH by (rewrite length_drop; lia).
  rewrite every_second_S. cbn [zip_with pg2_downsample]. f_equal. f_equal. do 10 (destruct src as [|? src]; [cbn in H; lia|]). done.
Qed.
Lemma copy_loop n out src dst : n = 0%nat \/ (10 * n <= length src + 5)%nat -> (5 * n <= length dst)%nat ->
  stage_loop [10]%nat [5]%nat copy_stage n ([out], [src], [dst]) =
    Some ([out ++ every_second n src], [drop (10 * n) src], [drop (5 * n) dst]).
Proof.
  revert out src dst. induction n as [|n IH]; intros out src dst Hs Hd.
  - cbn [stage_loop every_second]. by rewrite !Nat.mul_0_r, !drop_0, app_nil_r.
  - cbn [stage_loop]. unfold stage_step, split_groups, copy_stage. cbn [sg_win sg_body sg_groups].
    rewrite bool_decide_eq_true_2 by (repeat constructor; lia). cbn [fmap option_fmap option_map fst mbind option_bind zip_with].
    rewrite bool_decide_eq_true_2 by (repeat constructor; rewrite length_take; lia).
    unfold times. cbn [fmap list_fmap zip_with Nat.mul Nat.add]. cbn [mbind option_bind].
    rewrite length_take, Nat.min_l by lia. rewrite take_app_length', drop_app_length' by (rewrite length_take; lia).
    fold copy_stage. rewrite IH by (rewrite length_drop; lia). rewrite every_second_S, <- app_assoc, !drop_drop. do 3 f_equal.
    all: do 2 f_equal; lia.
Qed.

Lemma every_second_length n src : (10 * n <= length src)%nat -> length (every_second n src) = (5 * n)%nat.
Proof.
  revert src. induction n as [|n IH]; intros src H; [done|]. rewrite every_second_S, length_app, length_take, IH by (rewrite length_drop; lia). lia.
Qed.
Lemma every_second_add a b src : every_second (a + b) src = every_second a src ++ every_second b (drop (10 * a) src).
Proof.
  revert src. induction a as [|a IH]; intros src; [by rewrite Nat.mul_0_r, drop_0|]. cbn [Nat.add]. rewrite !every_second_S, IH, drop_drop, app_assoc.
  do 3 f_equal. lia.
Qed.

(** A line that is not the last of its buffers, or that does not end with a batch, is sampled
    as the scalar loop does it. *)
Lemma downsample_line_vbmi_ok n src dst : is_bytes src -> (10 * n <= length src)%nat -> (5 * n <= length dst)%nat ->
  (n mod 6 <> 0 \/ 10 * S n <= length src /\ 5 * S n <= length dst)%nat ->
  exists d, downsample_line_vbmi n src dst = Some d /\ take (5 * n) d = every_second n src /\ length d = length dst.
Proof.
  intros Hb Hs Hd Hroom. unfold downsample_line_vbmi, downsample_plan. cbn [run_plan]. pose proof (Nat.div_mod_eq n 6) as Hn.
  set (k := (n / 6)%nat) in *. set (r := (n mod 6)%nat) in *.
  destruct (stage_loop_spec any_bytes [10]%nat [5]%nat pg2_downsample gb_even gb_planes 1
    (simd_stage 6 [64]%nat (fun B _ => @downsample_vbmi_batch6 B)) k 1 [[]] [src] [dst]) as (d1 & Hd1 & ->).
  - exact downsample_vbmi_batch6_ok.
  - done.
  - cbn [sg_groups simd_stage]. constructor; [lia|constructor].
  - by apply Forall_singleton, fits_bytes.
  - cbn [sg_groups simd_stage]. constructor; [lia|constructor].
  - right. lia.
  - cbn [sg_groups simd_stage mbind option_bind]. rewrite downsample_groups by lia. unfold times in *. cbn [zip_with fmap list_fmap] in *.
    cbn [sg_groups simd_stage] in Hd1. destruct d1 as [|d [|? ?]]; [by apply Forall2_length in Hd1| |by apply Forall2_length in Hd1].
    apply Forall2_cons in Hd1 as [Hl _]. rewrite length_drop in Hl.
    rewrite copy_loop by (rewrite ?length_drop; lia). cbn [mbind option_bind zip_with]. eexists. split; [reflexivity|].
    unfold plane. cbn [lookup list_lookup default from_option app].
    assert (every_second (6 * k) src ++ every_second r (drop (6 * k * 10) src) = every_second n src) as E.
    { replace (every_second n src) with (every_second (6 * k + r) src) by (f_equal; lia). rewrite every_second_add. do 3 f_equal. lia. }
    rewrite E. assert (length (every_second n src) = 5 * n)%nat as Hlen by (by apply every_second_length).
    split; [by apply take_app_length'|]. etrans; [exact (length_app _ _)|]. rewrite length_drop, Hlen. lia.
Qed.

(** The last line of a picture of whole batches is read four bytes beyond its end. *)
Lemma downsample_vbmi_reads_on :
  st20_downsample_rfc4175_422be10_wh_half_avx512_vbmi (replicate 60 0) (replicate 30 0) 12 1 60 30 = None.
Proof. vm_compute. reflexivity. Qed.
