(* ===== verification/SimdDma.v ===== *)
(** The vector routines that have a DMA engine copy the source ahead of them: the [_dma]
    variants of lib/src/st2110/st_avx512.c and st_avx512_vbmi.c, and their [_simd_dma]
    entries in st_convert.c.

    The source goes through four caches: a turn converts one cache while the engine fills
    the others. The engine finishes its copies in the order they were submitted and says so
    when it is asked; what it answers to each question is a parameter ([de_polls]). A cache
    the engine may still be writing has no contents: reading it gives [None], and so does
    freeing the caches with a copy under way. The result, then, is that neither happens and
    that the conversion is the scalar one. *)
From S2P Require Import Prelude Bytes BitExpr Fifo Convert Simd Avx512 Avx512Vbmi Avx2 SimdConvert.

(** ** The engine and the caches *)

Definition caches_num : nat := 4.

(** A copy under way: to which plane of which cache, and the bytes. *)
Definition dma_job : Type := nat * nat * bytes.
Record dma_io := mk_io {
  io_ctx : mt_cvt_dma_ctx;
  io_caches : list (list (option bytes));
  io_jobs : list dma_job;
  io_src : list bytes
}.

(** What a call has from outside: whether the allocations of the caches and of the context
    succeed, and the engine's answers, one for each call of [mt_dma_completed]. *)
Record dma_env := mk_env { de_caches : bool; de_ctx : bool * bool * bool * bool * bool; de_polls : list bool }.

Section Dma.
Context (si so : list nat) (K : nat) (sg : stage).

Definition last_type : Z := Z.of_nat (length si) - 1.

(** One plane of a transfer: [mt_dma_copy_busy], the source moved on, [mt_cvt_dma_ctx_push]. *)
Definition push_plane (slot k : nat) (io : dma_io) : option dma_io :=
  s ← si !! k;
  p ← io_src io !! k;
  if (K * s <=? length p)%nat then
    Some (mk_io (snd (mt_cvt_dma_ctx_push (io_ctx io) (Z.of_nat k)))
            (alter (fun c => <[k := None]> c) slot (io_caches io))
            (io_jobs io ++ [(slot, k, take (K * s) p)])
            (<[k := drop (K * s) p]> (io_src io)))
  else None.
Fixpoint push_planes (slot : nat) (ks : list nat) (io : dma_io) : option dma_io :=
  match ks with [] => Some io | k :: ks => io ← push_plane slot k io; push_planes slot ks io end.

(** [while (cur_tran < max_tran)]; [turns] bounds it. *)
Fixpoint push_loop (turns : nat) (max_tran : Z) (io : dma_io) : option dma_io :=
  let cur_tran := mt_cvt_dma_ctx_get_tran (io_ctx io) last_type in
  if cur_tran <? max_tran then
    match turns with
    | O => None
    | S turns =>
        io ← push_planes (Z.to_nat (cur_tran mod Z.of_nat caches_num)) (seq 0 (length si)) io;
        push_loop turns max_tran io
    end
  else Some io.

(** [nb_dq = mt_dma_completed(dma, 1, ..); if (nb_dq) mt_cvt_dma_ctx_pop(ctx);] *)
Definition dma_poll (answer : bool) (io : dma_io) : dma_io :=
  match answer, io_jobs io with
  | true, (slot, k, data) :: jobs =>
      mk_io (snd (mt_cvt_dma_ctx_pop (io_ctx io))) (alter (fun c => <[k := Some data]> c) slot (io_caches io)) jobs (io_src io)
  | _, _ => io
  end.
(** [while (mt_cvt_dma_ctx_get_done(ctx, ..) < (i + 1))] *)
Fixpoint dma_wait (i : Z) (polls : list bool) (io : dma_io) : option (list bool * dma_io) :=
  if mt_cvt_dma_ctx_get_done (io_ctx io) last_type <? i + 1 then
    match polls with [] => None | b :: polls => dma_wait i polls (dma_poll b io) end
  else Some (polls, io).

Definition cache_read (slot : nat) (io : dma_io) : option (list bytes) :=
  c ← io_caches io !! slot; mapM (fun p => p) c.

(** What was written and the destination from here on. *)
Definition dma_state : Type := list bool * dma_io * list bytes * list bytes.

(** One turn of the loop over the caches; [B] is [cache_batch]. *)
Definition dma_turn (B i : nat) (st : dma_state) : option dma_state :=
  let '(polls, io, out, dst) := st in
  let max_tran := Z.min (Z.of_nat i + Z.of_nat caches_num) (Z.of_nat B) in
  io ← push_loop caches_num max_tran io;
  '(polls, io) ← dma_wait (Z.of_nat i) polls io;
  c ← cache_read (i mod caches_num) io;
  '(out, _, dst) ← stage_loop si so sg (K / sg_groups sg) (out, c, dst);
  Some (polls, io, out, dst).
Fixpoint dma_turns (B i n : nat) (st : dma_state) : option dma_state :=
  match n with O => Some st | S n => st ← dma_turn B i st; dma_turns B (S i) n st end.

Definition empty_caches : list (list (option bytes)) :=
  replicate caches_num ((fun s => Some (replicate (K * s) 0)) <$> si).

(** The loop over the caches, their release, and the groups that are left. *)
Definition dma_run (ctx : mt_cvt_dma_ctx) (polls : list bool) (rest : nat -> list (nat * stage)) (n : nat)
    (src dst : list bytes) : option (Z * list bytes) :=
  let cache_batch := (n / K)%nat in
  '(_, io, out, dst) ← dma_turns cache_batch 0 cache_batch (polls, mk_io ctx empty_caches [] src, replicate (length so) [], dst);
  match io_jobs io with
  | [] =>
      '(out, _, dst) ← run_plan si so (rest (n mod K)%nat) (out, io_src io, dst);
      Some (0, zip_with app out dst)
  | _ => None
  end.
End Dma.

Definition env_ctx (env : dma_env) (size types : Z) : option mt_cvt_dma_ctx :=
  let '(ok_ctx, ok_fifo, ok_data, ok_tran, ok_done) := de_ctx env in
  mt_cvt_dma_ctx_init ok_ctx ok_fifo ok_data ok_tran ok_done size types.

(** The whole routine: without the caches or the context the routine without DMA does it.
    [K] is [cache_pg_cnt], [planes] the planes the engine copies. *)
Definition dma_conv (si so : list nat) (K : nat) (types : Z) (sg : stage) (stages : list stage) (plain : conv)
    (env : dma_env) : conv := fun w h src dst =>
  match env_ctx env (types * Z.of_nat caches_num) types with
  | Some ctx =>
      if de_caches env then
        dma_run si so K sg ctx (de_polls env) (batches stages) (Z.to_nat (u32 (w * h) / 2)) src dst
      else plain w h src dst
  | None => plain w h src dst
  end.
(** The V210 ones count three groups as one; they take [k] groups a turn and refuse a rest. *)
Definition v210_dma_conv (si so : list nat) (k : Z) (K : nat) (sg : stage) (plain : conv) (env : dma_env) : conv := fun w h src dst =>
  let pg_cnt := u32 (w * h) / 2 in
  if negb (pg_cnt mod k =? 0) then Some (- EINVAL, dst)
  else
    match env_ctx env (2 * Z.of_nat caches_num) 2 with
    | Some ctx =>
        if de_caches env then
          dma_run si so K sg ctx (de_polls env) (fun n => [((n / sg_groups sg)%nat, sg)]) (Z.to_nat (pg_cnt / 3)) src dst
        else plain w h src dst
    | None => plain w h src dst
    end.

(** [cache_pg_cnt]: the groups of [size] bytes in 256 KiB, rounded down to turns of all caches. *)
Definition cache_pg_cnt (size simd : nat) : nat :=
  let align := (caches_num * simd)%nat in (Z.to_nat (256 * 1024 / Z.of_nat size) / align * align)%nat.

(** ** Copies in the order of submission

    Copy number [g] is of plane [g mod T] in transfer [g / T]. *)

Lemma div_step T P : (0 < T)%nat -> (S P / T = P / T + if decide (P mod T = T - 1) then 1 else 0)%nat.
Proof.
  intros HT. pose proof (Nat.div_mod_eq P T) as H. pose proof (Nat.mod_upper_bound P T ltac:(lia)) as Hr. set (p := (P / T)%nat) in *.
  set (r := (P mod T)%nat) in *. case_decide; symmetry; [apply (Nat.div_unique _ _ _ 0); nia|apply (Nat.div_unique _ _ _ (S r)); nia].
Qed.
Lemma mod_step T P : (0 < T)%nat -> (S P mod T = if decide (P mod T = T - 1) then 0 else S (P mod T))%nat.
Proof.
  intros HT. pose proof (Nat.div_mod_eq P T) as H. pose proof (Nat.mod_upper_bound P T ltac:(lia)) as Hr. set (p := (P / T)%nat) in *.
  set (r := (P mod T)%nat) in *. case_decide; symmetry; [apply (Nat.mod_unique _ _ (S p)); nia|apply (Nat.mod_unique _ _ p); nia].
Qed.
Lemma div_at T i k : (k < T)%nat -> ((i * T + k) / T = i)%nat.
Proof. intros. symmetry. apply (Nat.div_unique _ _ _ k); lia. Qed.
Lemma mod_at T i k : (k < T)%nat -> ((i * T + k) mod T = k)%nat.
Proof. intros. symmetry. apply (Nat.mod_unique _ _ i); lia. Qed.
Lemma div_full T i : (0 < T)%nat -> (i * T / T = i)%nat.
Proof. intros. rewrite Nat.div_mul; lia. Qed.

(** The caches of copies that are under way together are different. *)
Lemma cells_differ T g g' : (0 < T)%nat -> (g < g' < g + caches_num * T)%nat ->
  (g / T mod caches_num = g' / T mod caches_num)%nat -> (g mod T = g' mod T)%nat -> False.
Proof.
  unfold caches_num. intros HT Hg H1 H2. pose proof (Nat.div_mod_eq g T) as E1. pose proof (Nat.div_mod_eq g' T) as E2.
  rewrite H2 in E1. pose proof (Nat.div_mod_eq (g / T) 4) as E3. pose proof (Nat.div_mod_eq (g' / T) 4) as E4. rewrite H1 in E3.
  assert (g / T < g' / T < g / T + 4)%nat as H by nia. lia.
Qed.

(** ** The context as a queue of types and two counters of the last one *)

Section Proof.
Context (si so : list nat) (K : nat) (sg : stage) (types : Z).
Context (q : masks) (f : list bytes -> list bytes).
Context (Hgb : GroupBody q si so f).
Hypothesis Kpos : (0 < K)%nat.
Hypothesis sg_ok : stage_ok q si so f 0 sg.
Hypothesis sg_K : (sg_groups sg * (K / sg_groups sg) = K)%nat.
Hypothesis planes : (0 < length si)%nat.
Hypothesis types_ok : Z.of_nat (length si) <= types < 100.

Abbreviation T := (length si).
Let lastT : Z := last_type si.

Record ctx_is (P D : nat) (c : mt_cvt_dma_ctx) : Prop := {
  ci_wf : fifo_wf (ctx_fifo c);
  ci_size : fifo_size (ctx_fifo c) = types * Z.of_nat caches_num;
  ci_view : fifo_view (ctx_fifo c) = (fun g => Z.of_nat (g mod T)) <$> seq D (P - D);
  ci_len : arr_len (ctx_tran c) = types /\ arr_len (ctx_done c) = types;
  ci_tran : mt_cvt_dma_ctx_get_tran c lastT = Z.of_nat (P / T);
  ci_done : mt_cvt_dma_ctx_get_done c lastT = Z.of_nat (D / T)
}.

Lemma ctx_push P D c : (D <= P < D + caches_num * T)%nat -> ctx_is P D c ->
  ctx_is (S P) D (snd (mt_cvt_dma_ctx_push c (Z.of_nat (P mod T)))).
Proof.
  intros HP [Hwf Hs Hv [Hl1 Hl2] Ht Hd]. unfold mt_cvt_dma_ctx_push. pose proof (Nat.mod_upper_bound P T ltac:(lia)) as Hm.
  rewrite u64_id by (unfold is_u64; lia). pose proof (fifo_put_spec (ctx_fifo c) (Z.of_nat (P mod T)) Hwf) as H.
  pose proof (put_size (ctx_fifo c) (Z.of_nat (P mod T))) as Hsz.
  destruct (mt_u64_fifo_put (ctx_fifo c) _) as [ret f']. cbn [snd] in Hsz.
  assert (fifo_used (ctx_fifo c) = Z.of_nat (P - D)) as Hu.
  { rewrite <- fifo_view_length by (destruct Hwf; lia). rewrite Hv. unfold arr_len. by rewrite length_fmap, length_seq. }
  replace (fifo_used (ctx_fifo c) <? fifo_size (ctx_fifo c)) with true in H
    by (symmetry; apply Z.ltb_lt; rewrite Hs, Hu; unfold caches_num in *; nia).
  destruct H as (-> & Hw & Hv'). cbn [snd Z.ltb Z.compare]. split; cbn; try done.
  - congruence.
  - rewrite Hv', Hv. replace (S P - D)%nat with (S (P - D)) by lia. rewrite seq_S, fmap_app. cbn. do 3 f_equal. f_equal. lia.
  - split; [by rewrite arr_len_set|done].
  - unfold mt_cvt_dma_ctx_get_tran in *. cbn. rewrite div_step by lia. unfold lastT, last_type in *. case_decide as E.
    + rewrite E in *. replace (Z.of_nat (T - 1)) with (Z.of_nat T - 1) by lia. rewrite arr_get_set_eq by lia. lia.
    + rewrite arr_get_set_ne by lia. lia.
Qed.

Lemma ctx_pop P D c : (D < P)%nat -> ctx_is P D c -> ctx_is P (S D) (snd (mt_cvt_dma_ctx_pop c)).
Proof.
  intros HP [Hwf Hs Hv [Hl1 Hl2] Ht Hd]. unfold mt_cvt_dma_ctx_pop. pose proof (Nat.mod_upper_bound D T ltac:(lia)) as Hm.
  pose proof (fifo_get_spec (ctx_fifo c) Hwf) as H. pose proof (get_size (ctx_fifo c)) as Hsz.
  replace (P - D)%nat with (S (P - S D)) in Hv by lia. cbn [seq fmap list_fmap] in Hv.
  destruct (mt_u64_fifo_get (ctx_fifo c)) as [[t|] f'].
  - destruct H as (Hw & Hv'). rewrite Hv in Hv'. injection Hv' as <- Hv'. cbn [snd] in *. split; cbn; try done.
    + congruence.
    + split; [done|by rewrite arr_len_set].
    + unfold mt_cvt_dma_ctx_get_done in *. cbn. rewrite div_step by lia. unfold lastT, last_type in *. case_decide as E.
      * rewrite E in *. replace (Z.of_nat (T - 1)) with (Z.of_nat T - 1) by lia. rewrite arr_get_set_eq by lia. lia.
      * rewrite arr_get_set_ne by lia. lia.
  - destruct H as [_ H]. by rewrite Hv in H.
Qed.

(** ** The caches *)

Section Source.
Context (src : list bytes) (B : nat).
Hypothesis src_room : has_room si (B * K) src.

(** The bytes of a group in plane [k]. *)
Definition psize (k : nat) : nat := default 0%nat (si !! k).
(** The bytes of plane [k] in transfer [t], and copy number [g]. *)
Definition piece (t k : nat) : bytes := take (K * psize k) (drop (K * psize k * t) (plane src k)).
Definition job (g : nat) : dma_job := ((g / T) mod caches_num, g mod T, piece (g / T) (g mod T))%nat.
(** The pieces of plane [k] submitted when [P] copies are. *)
Definition sent (P k : nat) : nat := (P / T + if (k <? P mod T)%nat then 1 else 0)%nat.

Record io_is (P D : nat) (io : dma_io) : Prop := {
  ii_ctx : ctx_is P D (io_ctx io);
  ii_jobs : io_jobs io = job <$> seq D (P - D);
  ii_src : io_src io = (fun k => drop (K * psize k * sent P k) (plane src k)) <$> seq 0 T;
  ii_caches : length (io_caches io) = caches_num /\ Forall (fun c => length c = T) (io_caches io);
  ii_cells : forall g, (g < D)%nat -> (P <= g + caches_num * T)%nat ->
    (io_caches io !! (job g).1.1 ≫= fun c => c !! (job g).1.2) = Some (Some (job g).2)
}.

Lemma alter_cells (caches : list (list (option bytes))) slot k x :
  length caches = caches_num /\ Forall (fun c => length c = T) caches ->
  length (alter (fun c => <[k := x]> c) slot caches) = caches_num /\
  Forall (fun c => length c = T) (alter (fun c => <[k := x]> c) slot caches).
Proof.
  intros [H1 H2]. split; [by rewrite length_alter|]. apply Forall_alter; [exact H2|]. intros c _ Hc. by rewrite length_insert.
Qed.

Lemma alter_cell_ne (caches : list (list (option bytes))) slot k x slot' k' : (slot, k) <> (slot', k') ->
  (alter (fun c => <[k := x]> c) slot caches !! slot' ≫= fun c => c !! k') = (caches !! slot' ≫= fun c => c !! k').
Proof.
  intros H. destruct (decide (slot = slot')) as [->|Hs].
  - rewrite list_lookup_alter_eq. destruct (caches !! slot') as [c|]; [|done]. cbn. by rewrite list_lookup_insert_ne by congruence.
  - by rewrite list_lookup_alter_ne.
Qed.

Lemma alter_cell_eq (caches : list (list (option bytes))) slot k x :
  length caches = caches_num /\ Forall (fun c => length c = T) caches -> (slot < caches_num)%nat -> (k < T)%nat ->
  (alter (fun c => <[k := x]> c) slot caches !! slot ≫= fun c => c !! k) = Some x.
Proof.
  intros [H1 H2] Hs Hk. rewrite list_lookup_alter_eq. destruct (lookup_lt_is_Some_2 caches slot) as [c Hc]; [lia|].
  rewrite Hc. cbn. apply list_lookup_insert_eq. rewrite Forall_lookup in H2. rewrite (H2 _ _ Hc). done.
Qed.

Lemma sent_step P k : (k < T)%nat -> sent (S P) k = (sent P k + if decide (k = P mod T) then 1 else 0)%nat.
Proof.
  intros Hk. unfold sent. rewrite div_step, mod_step by lia. pose proof (Nat.mod_upper_bound P T ltac:(lia)).
  repeat case_decide; destruct (Nat.ltb_spec k (P mod T)); try destruct (Nat.ltb_spec k 0); try destruct (Nat.ltb_spec k (S (P mod T))); lia.
Qed.

Lemma plane_room k : (k < T)%nat -> (B * K * psize k <= length (plane src k))%nat.
Proof.
  intros Hk. destruct (lookup_lt_is_Some_2 si k Hk) as [s Hs]. destruct (Forall2_lookup_l _ _ _ _ _ src_room Hs) as (x & Hx & Hl).
  unfold plane, psize. by rewrite Hs, Hx.
Qed.

Lemma push_plane_spec P D io : (D <= P < D + caches_num * T)%nat -> (P / T < B)%nat -> io_is P D io ->
  exists io', push_plane si K ((P / T) mod caches_num) (P mod T) io = Some io' /\ io_is (S P) D io'.
Proof.
  intros HP HB [Hc Hj Hsrc Hca Hce]. pose proof (Nat.mod_upper_bound P T ltac:(lia)) as Hm. unfold push_plane.
  destruct (lookup_lt_is_Some_2 si (P mod T) Hm) as [s Hs]. rewrite Hs. cbn [mbind option_bind].
  rewrite Hsrc, list_lookup_fmap, lookup_seq_lt by done. cbn [fmap option_fmap option_map mbind option_bind]. rewrite Nat.add_0_l.
  assert (psize (P mod T) = s) as Hps by (unfold psize; by rewrite Hs). rewrite Hps.
  assert (sent P (P mod T) = P / T)%nat as Hsent by (unfold sent; rewrite Nat.ltb_irrefl; lia). rewrite Hsent.
  pose proof (plane_room _ Hm) as Hr. rewrite Hps in Hr.
  rewrite (proj2 (Nat.leb_le _ _)) by (rewrite length_drop; nia). eexists. split; [done|]. split; cbn [io_ctx io_jobs io_src io_caches].
  - by apply ctx_push.
  - rewrite Hj. replace (S P - D)%nat with (S (P - D)) by lia. rewrite seq_S, fmap_app. cbn. do 2 f_equal.
    replace (D + (P - D))%nat with P by lia. unfold job, piece. by rewrite Hps.
  - apply list_eq. intros k. destruct (decide (k < T)%nat) as [Hk|Hk].
    + destruct (decide (k = (P mod T)%nat)) as [->|Hne].
      * rewrite list_lookup_insert_eq by (by rewrite length_fmap, length_seq). rewrite list_lookup_fmap, lookup_seq_lt by done.
        cbn. rewrite Hps, sent_step, decide_True, Hsent, drop_drop by done. do 2 f_equal. lia.
      * rewrite list_lookup_insert_ne by done. rewrite !list_lookup_fmap, lookup_seq_lt by done. cbn.
        by rewrite sent_step, decide_False, Nat.add_0_r by done.
    + rewrite !lookup_ge_None_2; [done|..]; rewrite ?length_insert, ?length_fmap, ?length_seq; lia.
  - by apply alter_cells.
  - intros g Hg Hle. rewrite <- Hce by lia. apply alter_cell_ne. intros E. injection E as E1 E2. cbn in E1, E2.
    apply (cells_differ T g P); [lia|lia|done|done].
Qed.

Lemma dma_poll_spec P D io : (D < P <= D + caches_num * T)%nat -> io_is P D io -> io_is P (S D) (dma_poll true io).
Proof.
  intros HP [Hc Hj Hsrc Hca Hce]. pose proof (Nat.mod_upper_bound D T ltac:(lia)) as Hm. unfold dma_poll. rewrite Hj.
  replace (P - D)%nat with (S (P - S D)) by lia. cbn [seq fmap list_fmap]. unfold job at 1.
  split; cbn [io_ctx io_jobs io_src io_caches]; [apply ctx_pop; [lia|done]|done|done|by apply alter_cells|].
  intros g Hg Hle. destruct (decide (g = D)) as [->|Hne].
  - cbn [job fst snd]. apply alter_cell_eq; [done|by apply Nat.mod_upper_bound|done].
  - rewrite <- Hce by lia. apply alter_cell_ne. intros E. injection E as E1 E2. cbn in E1, E2.
    apply (cells_differ T g D); [lia|lia|done|done].
Qed.

(** ** The loops *)

Lemma push_planes_spec p k n D io : (k + n = T)%nat -> (D <= p * T)%nat -> (S p * T <= D + caches_num * T)%nat -> (p < B)%nat ->
  io_is (p * T + k) D io ->
  exists io', push_planes si K (p mod caches_num) (seq k n) io = Some io' /\ io_is (S p * T) D io'.
Proof.
  revert k io. induction n as [|n IH]; intros k io Hk HD HP HB Hio; cbn [seq push_planes].
  - exists io. split; [done|]. by replace (S p * T)%nat with (p * T + k)%nat by lia.
  - destruct (push_plane_spec (p * T + k) D io) as (io1 & E & H1); [lia|rewrite div_at; lia|done|].
    rewrite div_at, mod_at in E by lia. rewrite E. cbn [mbind option_bind]. apply IH; [lia..|].
    by replace (p * T + S k)%nat with (S (p * T + k)) by lia.
Qed.

Lemma push_loop_spec m p turns D io : (m <= turns)%nat -> (D <= p * T)%nat -> ((p + m) * T <= D + caches_num * T)%nat -> (p + m <= B)%nat ->
  io_is (p * T) D io ->
  exists io', push_loop si K turns (Z.of_nat (p + m)) io = Some io' /\ io_is ((p + m) * T) D io'.
Proof.
  revert p turns io. induction m as [|m IH]; intros p turns io Ht HD HP HB Hio.
  - exists io. rewrite Nat.add_0_r. split; [|done]. pose proof (ci_tran _ _ _ (ii_ctx _ _ _ Hio)) as E. fold lastT.
    destruct turns; cbn [push_loop]; fold lastT; rewrite E, div_full by lia; by rewrite Z.ltb_irrefl.
  - destruct turns as [|turns]; [lia|]. cbn [push_loop]. pose proof (ci_tran _ _ _ (ii_ctx _ _ _ Hio)) as E. fold lastT.
    rewrite E, div_full by lia. rewrite (proj2 (Z.ltb_lt _ _)) by lia.
    rewrite <- Nat2Z.inj_mod, Nat2Z.id.
    destruct (push_planes_spec p 0 T D io) as (io1 & -> & H1); [lia|lia|nia|lia|by rewrite Nat.add_0_r|]. cbn [mbind option_bind].
    destruct (IH (S p) turns io1) as (io2 & E2 & H2); [lia|nia|nia|lia|done|].
    replace (p + S m)%nat with (S p + m)%nat by lia. eauto.
Qed.

(** How often the engine reports a copy. *)
Definition reports (polls : list bool) : nat := length (filter (fun b => b = true) polls).

Lemma dma_wait_spec i P D polls io : (D <= (i + 1) * T)%nat -> ((i + 1) * T <= P)%nat -> (P <= i * T + caches_num * T)%nat -> (i * T <= D)%nat ->
  ((i + 1) * T - D <= reports polls)%nat -> io_is P D io ->
  exists polls' io', dma_wait si (Z.of_nat i) polls io = Some (polls', io') /\
    (reports polls' + ((i + 1) * T - D) = reports polls)%nat /\ io_is P ((i + 1) * T) io'.
Proof.
  revert D io. induction polls as [|b polls IH]; intros D io HD HP HP' Hi Hr Hio;
    cbn [dma_wait]; fold lastT; rewrite (ci_done _ _ _ (ii_ctx _ _ _ Hio)).
  - cbn in Hr. assert (D = (i + 1) * T)%nat as -> by lia. rewrite div_full by lia.
    rewrite (proj2 (Z.ltb_ge _ _)) by lia. eexists _, _. split; [done|]. split; [cbn; lia|done].
  - destruct (decide (D = (i + 1) * T)%nat) as [->|Hne].
    { rewrite div_full by lia. rewrite (proj2 (Z.ltb_ge _ _)) by lia. eexists _, _. split; [done|]. split; [lia|done]. }
    assert (D / T < i + 1)%nat as Hlt by (apply Nat.div_lt_upper_bound; lia). rewrite (proj2 (Z.ltb_lt _ _)) by lia.
    destruct b.
    + assert (reports (true :: polls) = S (reports polls)) as Er by reflexivity. rewrite Er in *.
      destruct (IH (S D) (dma_poll true io)) as (polls' & io' & -> & E & H'); [lia..|apply dma_poll_spec; [unfold caches_num in *; lia|done]|].
      eexists _, _. split; [done|]. split; [lia|done].
    + assert (reports (false :: polls) = reports polls) as Er by reflexivity. rewrite Er in *.
      destruct (IH D io) as (polls' & io' & E1 & E & H'); [lia..|done|]. eexists _, _. split; [exact E1|]. split; [lia|done].
Qed.

Lemma cache_read_spec i P io : (P <= i * T + caches_num * T)%nat -> io_is P ((i + 1) * T) io ->
  cache_read (i mod caches_num) io = Some (piece i <$> seq 0 T).
Proof.
  intros HP [_ _ _ [Hl1 Hl2] Hce]. unfold cache_read.
  destruct (lookup_lt_is_Some_2 (io_caches io) (i mod caches_num)) as [c Hc]; [rewrite Hl1; by apply Nat.mod_upper_bound|].
  rewrite Hc. cbn [mbind option_bind]. assert (length c = T) as Hlen by (rewrite Forall_lookup in Hl2; by eapply Hl2).
  replace c with (Some <$> (piece i <$> seq 0 T)); [apply mapM_fmap_Some; done|]. apply list_eq. intros k.
  destruct (decide (k < T)%nat) as [Hk|Hk].
  - specialize (Hce (i * T + k)%nat ltac:(lia) ltac:(lia)). unfold job in Hce. rewrite div_at, mod_at in Hce by done. cbn [fst snd] in Hce.
    rewrite Hc in Hce. cbn in Hce. rewrite Hce. rewrite !list_lookup_fmap, lookup_seq_lt by done. done.
  - rewrite !lookup_ge_None_2; [done|lia|]. rewrite !length_fmap, length_seq. lia.
Qed.

Lemma seq_planes (g : nat -> bytes -> bytes) : length src = T ->
  (fun k => g (psize k) (plane src k)) <$> seq 0 T = zip_with g si src.
Proof.
  intros Hl. apply list_eq. intros k. rewrite list_lookup_fmap, lookup_zip_with. destruct (decide (k < T)%nat) as [Hk|Hk].
  - rewrite lookup_seq_lt by done. unfold psize, plane. cbn. destruct (lookup_lt_is_Some_2 si k Hk) as [s ->].
    destruct (lookup_lt_is_Some_2 src k) as [x ->]; [lia|]. done.
  - by rewrite (lookup_ge_None_2 (seq 0 T)), (lookup_ge_None_2 si) by (rewrite ?length_seq; lia).
Qed.
Lemma pieces_slice i : length src = T ->
  piece i <$> seq 0 T = zip_with take (times K si) (zip_with drop (times (i * K) si) src).
Proof.
  intros Hl. unfold piece. rewrite (seq_planes (fun s x => take (K * s) (drop (K * s * i) x))) by done.
  clear -Hl. unfold times. revert src Hl. induction si as [|s si' IH]; intros [|x src'] Hl; [done..|]. cbn in *. f_equal; [|apply IH; lia].
  do 2 f_equal. lia.
Qed.
Lemma src_after p io D : length src = T -> io_is (p * T) D io -> io_src io = zip_with drop (times (p * K) si) src.
Proof.
  intros Hl H. rewrite (ii_src _ _ _ H). unfold sent. rewrite div_full by lia. rewrite Nat.Div0.mod_mul. cbn [Nat.ltb Nat.leb].
  rewrite Nat.add_0_r. rewrite (seq_planes (fun s x => drop (K * s * p) x)) by done.
  clear -Hl. unfold times. revert src Hl. induction si as [|s si' IH]; intros [|x src'] Hl; [done..|]. cbn in *. f_equal; [|apply IH; lia].
  f_equal. lia.
Qed.

(** The transfers submitted before turn [i]. *)
Definition pushed (i : nat) : nat := if (i =? 0)%nat then 0%nat else Nat.min (i + 3) B.

Lemma dma_turn_spec i polls io out dst m : (i < B)%nat -> length out = length so -> Forall (fits q) src ->
  (T <= reports polls)%nat -> io_is (pushed i * T) (i * T) io -> has_room so (K + m) dst ->
  exists polls' io' dst', same_lengths dst' (zip_with drop (times K so) dst) /\
    (reports polls' + T = reports polls)%nat /\ io_is (pushed (S i) * T) (S i * T) io' /\
    dma_turn si so K sg B i (polls, io, out, dst) =
      Some (polls', io', zip_with app out (group_map si so f K (zip_with drop (times (i * K) si) src)), dst').
Proof.
  intros Hi Ho HF Hr Hio Hd. unfold dma_turn. assert (length src = T) as Hl by (symmetry; by eapply Forall2_length).
  assert (pushed (S i) = Nat.min (i + 4) B) as HpS by (unfold pushed; destruct (Nat.eqb_spec (S i) 0); lia).
  assert (pushed i <= pushed (S i) <= pushed i + 4)%nat as Hp by (rewrite HpS; unfold pushed; destruct (Nat.eqb_spec i 0); lia).
  assert (i <= pushed i)%nat as Hip by (unfold pushed; destruct (Nat.eqb_spec i 0); lia).
  replace (Z.min _ _) with (Z.of_nat (pushed i + (pushed (S i) - pushed i))) by (rewrite HpS; unfold caches_num; lia).
  destruct (push_loop_spec (pushed (S i) - pushed i) (pushed i) caches_num (i * T) io) as (io1 & -> & H1);
    [unfold caches_num; lia|nia|unfold caches_num; nia|lia|done|]. cbn [mbind option_bind].
  replace (pushed i + (pushed (S i) - pushed i))%nat with (pushed (S i)) in H1 by lia.
  destruct (dma_wait_spec i (pushed (S i) * T) (i * T) polls io1) as (polls' & io2 & -> & E2 & H2);
    [lia|nia|unfold caches_num; nia|lia|lia|done|]. cbn [mbind option_bind].
  rewrite (cache_read_spec i (pushed (S i) * T)) by (done || unfold caches_num; nia). cbn [mbind option_bind]. rewrite pieces_slice by done.
  set (s := zip_with drop (times (i * K) si) src).
  assert (has_room si K s) as Hs. { apply (room_weaken _ _ (B * K - i * K)); [nia|]. apply room_drop. by replace (i * K + (B * K - i * K))%nat with (B * K)%nat by nia. }
  assert (Forall (fits q) s) as HFs by (apply Forall_fits_drop; [apply gb_even|done]).
  assert (has_room si (K + 0) (zip_with take (times K si) s)) as Hc.
  { clear -Hs. rewrite Nat.add_0_r. unfold has_room, times in *. induction Hs as [|n x l l' Hx _ IH]; constructor; [rewrite length_take; lia|exact IH]. }
  destruct (stage_loop_spec q si so f gb_even gb_planes 0 sg (K / sg_groups sg) 0 out (zip_with take (times K si) s) dst) as (dst' & Hd' & Es);
    rewrite ?sg_K in *; [done|done|done|by apply Forall_fits_take|apply (room_weaken _ _ (K + m)); [lia|done]|by right|].
  rewrite Es. cbn [mbind option_bind]. exists polls', io2, dst'. split; [done|]. split; [lia|].
  replace (S i * T)%nat with ((i + 1) * T)%nat by lia. split; [done|]. by rewrite group_map_prefix by (by eapply Forall2_length).
Qed.

Lemma dma_turns_spec n i polls io out dst m : (i + n = B)%nat -> length out = length so -> Forall (fits q) src ->
  (n * T <= reports polls)%nat -> io_is (pushed i * T) (i * T) io -> has_room so (n * K + m) dst ->
  exists polls' io' dst', same_lengths dst' (zip_with drop (times (n * K) so) dst) /\ io_is (pushed B * T) (B * T) io' /\
    dma_turns si so K sg B i n (polls, io, out, dst) =
      Some (polls', io', zip_with app out (group_map si so f (n * K) (zip_with drop (times (i * K) si) src)), dst').
Proof.
  assert (length src = T) as Hl by (symmetry; by eapply Forall2_length).
  revert i polls io out dst. induction n as [|n IH]; intros i polls io out dst Hi Ho HF Hr Hio Hd; cbn [dma_turns].
  - exists polls, io, dst. rewrite Nat.mul_0_l, drop_times_0 by (by eapply Forall2_length). split; [apply same_refl|].
    rewrite Nat.add_0_r in Hi. subst i. split; [done|]. cbn [group_map]. by rewrite zip_with_app_nil_r.
  - destruct (dma_turn_spec i polls io out dst (n * K + m)) as (p1 & io1 & d1 & Hd1 & Hp1 & H1 & ->); [lia|done..|nia|done| |].
    { by replace (K + (n * K + m))%nat with (S n * K + m)%nat by lia. }
    cbn [mbind option_bind].
    destruct (IH (S i) p1 io1 (zip_with app out (group_map si so f K (zip_with drop (times (i * K) si) src))) d1) as (p2 & io2 & d2 & Hd2 & H2 & ->).
    + lia.
    + rewrite length_zip_with, group_map_length by apply gb_planes. lia.
    + done.
    + nia.
    + done.
    + eapply room_same; [exact Hd1|]. apply room_drop. by replace (K + (n * K + m))%nat with (S n * K + m)%nat by lia.
    + exists p2, io2, d2. replace (S n * K)%nat with (K + n * K)%nat by lia. rewrite <- drop_times_add. split.
      * eapply same_trans; [exact Hd2|]. by apply same_drop.
      * split; [done|]. rewrite group_map_app by (rewrite ?length_zip_with; unfold times; rewrite ?length_fmap; apply gb_planes || lia).
        rewrite zip_with_app_assoc. do 6 f_equal. rewrite drop_times_add. do 2 f_equal. lia.
Qed.
End Source.

Lemma arr_get_zeros n i : arr_get 0 (replicate n 0) i = 0.
Proof.
  unfold arr_get. destruct (replicate n 0 !! Z.to_nat i) as [x|] eqn:E; [apply lookup_replicate in E as [-> _]|]; by repeat case_if.
Qed.
Lemma env_ctx_is env ctx : env_ctx env (types * Z.of_nat caches_num) types = Some ctx -> ctx_is 0 0 ctx.
Proof.
  unfold env_ctx, mt_cvt_dma_ctx_init, mt_u64_fifo_init. destruct (de_ctx env) as [[[[[] []] []] []] []]; intros H; simplify_eq/=.
  split; cbn [ctx_fifo ctx_tran ctx_done].
  - split; cbn; unfold arr_len; rewrite ?length_replicate; unfold caches_num; try lia. by rewrite Z.mod_0_l by lia.
  - done.
  - done.
  - unfold arr_len. rewrite length_replicate. lia.
  - by rewrite Nat.Div0.div_0_l; apply arr_get_zeros.
  - by rewrite Nat.Div0.div_0_l; apply arr_get_zeros.
Qed.

(** The caches, the engine and the rest together convert every group as the scalar body. *)
Lemma dma_run_spec env ctx rest n src dst : env_ctx env (types * Z.of_nat caches_num) types = Some ctx ->
  plan_ok q si so f (rest (n mod K)%nat) (n mod K) -> holds si n src -> Forall (fits q) src -> holds so n dst ->
  (n / K * T <= reports (de_polls env))%nat ->
  dma_run si so K sg ctx (de_polls env) rest n src dst = Some (0, group_map si so f n src).
Proof.
  intros Hctx Hrest Hs HF Hd Hr. unfold dma_run. set (B := (n / K)%nat) in *. pose proof (Nat.div_mod_eq n K) as Hn. fold B in Hn.
  assert (length src = T) as Hl by (symmetry; by eapply Forall2_length).
  assert (has_room si (B * K) src) as Hroom by (apply (room_weaken _ _ n); [lia|by apply holds_room]).
  destruct (dma_turns_spec src B Hroom B 0 (de_polls env) (mk_io ctx (empty_caches si K) [] src) (replicate (length so) []) dst (n mod K))
    as (p1 & io1 & d1 & Hd1 & H1 & E).
  - done.
  - apply length_replicate.
  - done.
  - done.
  - split; cbn [io_ctx io_jobs io_src io_caches].
    + by apply (env_ctx_is env).
    + done.
    + unfold sent. rewrite Nat.mul_0_l, Nat.Div0.div_0_l, Nat.Div0.mod_0_l. cbn [Nat.ltb Nat.leb Nat.add].
      rewrite (seq_planes src (fun s x => drop (K * s * 0) x)) by done. symmetry. clear -Hl. revert src Hl.
      induction si as [|s si' IH]; intros [|x src'] Hl; [done..|]. cbn in *. rewrite Nat.mul_0_r, drop_0. f_equal. apply IH. lia.
    + unfold empty_caches. split; [apply length_replicate|]. apply Forall_replicate. by rewrite length_fmap.
    + intros g Hg. lia.
  - apply (room_weaken _ _ n); [lia|by apply holds_room].
  - rewrite E. cbn [mbind option_bind]. rewrite (ii_jobs _ _ _ _ H1). replace (pushed B B) with B by (unfold pushed; destruct (Nat.eqb_spec B 0); lia).
    rewrite Nat.sub_diag. cbn [seq fmap list_fmap]. replace (pushed B B) with B in H1 by (unfold pushed; destruct (Nat.eqb_spec B 0); lia).
    rewrite (src_after src B io1 (B * T) Hl H1). rewrite Nat.mul_0_l, drop_times_0 by done. rewrite zip_with_app_nil by (apply group_map_length, gb_planes).
    destruct (run_plan_spec q si so f gb_even gb_planes _ (n mod K) (group_map si so f (B * K) src) (zip_with drop (times (B * K) si) src) d1 Hrest)
      as (d2 & Hd2 & ->).
    + apply group_map_length, gb_planes.
    + apply room_drop. replace (B * K + n mod K)%nat with n by lia. by apply holds_room.
    + apply Forall_fits_drop; [apply gb_even|done].
    + eapply room_same; [exact Hd1|]. apply room_drop. replace (B * K + n mod K)%nat with n by lia. by apply holds_room.
    + cbn [mbind option_bind]. do 2 f_equal. rewrite <- group_map_app by (apply gb_planes || by eapply Forall2_length).
      replace (B * K + n mod K)%nat with n by lia.
      pose proof (same_trans _ _ _ Hd2 (same_drop _ _ _ Hd1)) as H. rewrite drop_times_add in H. replace (B * K + n mod K)%nat with n in H by lia.
      rewrite (all_written so n dst d2) by done. apply zip_with_app_nil_r, group_map_length, gb_planes.
Qed.
End Proof.

(** ** The routines *)

Definition st20_rfc4175_422be10_to_yuv422p10le_avx512_dma : dma_env -> conv :=
  dma_conv [5]%nat [4; 2; 2]%nat (cache_pg_cnt 5 32) 2 (simd_stage 32 [160]%nat (@be10_to_ple_batch32))
    [simd_stage 32 [160]%nat (@be10_to_ple_batch32); simd_stage 8 [40]%nat (@be10_to_ple_batch8); scalar_stage [5]%nat pg_be10_to_p10]
    st20_rfc4175_422be10_to_yuv422p10le_avx512.
Definition st20_rfc4175_422be10_to_422le10_avx512_dma : dma_env -> conv :=
  dma_conv [5]%nat [5]%nat (cache_pg_cnt 5 3) 2 (simd_stage 3 [15]%nat (@be10_to_le_batch3))
    [simd_stage 3 [15]%nat (@be10_to_le_batch3); scalar_stage [5]%nat pg_be10_to_le10]
    st20_rfc4175_422be10_to_422le10_avx512.
Definition st20_rfc4175_422be10_to_422le8_avx512_dma : dma_env -> conv :=
  dma_conv [5]%nat [4]%nat (cache_pg_cnt 5 2) 2 (simd_stage 2 [10]%nat (@be10_to_le8_batch2))
    [simd_stage 2 [10]%nat (@be10_to_le8_batch2); scalar_stage [5]%nat pg_be10_to_le8]
    st20_rfc4175_422be10_to_422le8_avx512.
Definition st20_yuv422p10le_to_rfc4175_422be10_avx512_dma : dma_env -> conv :=
  dma_conv [4; 2; 2]%nat [5]%nat (cache_pg_cnt 8 8) 3 (simd_stage 8 [32; 16; 16]%nat (@ple_to_be10_batch8))
    [simd_stage 8 [32; 16; 16]%nat (@ple_to_be10_batch8); scalar_stage [4; 2; 2]%nat pg_p10_to_be10]
    st20_yuv422p10le_to_rfc4175_422be10_avx512.
Definition st20_rfc4175_422le10_to_422be10_avx512_dma : dma_env -> conv :=
  dma_conv [5]%nat [5]%nat (cache_pg_cnt 5 3) 2 (simd_stage 3 [15]%nat (@le10_to_be_batch3))
    [simd_stage 3 [15]%nat (@le10_to_be_batch3); scalar_stage [5]%nat pg_le10_to_be10]
    st20_rfc4175_422le10_to_422be10_avx512.
Definition st20_rfc4175_422be10_to_y210_avx512_dma : dma_env -> conv :=
  dma_conv [5]%nat [8]%nat (cache_pg_cnt 5 2) 2 (simd_stage 2 [10]%nat (@be10_to_y210_batch2))
    [simd_stage 2 [10]%nat (@be10_to_y210_batch2); scalar_stage [5]%nat pg_be10_to_y210]
    st20_rfc4175_422be10_to_y210_avx512.
Definition st20_y210_to_rfc4175_422be10_avx512_dma : dma_env -> conv :=
  dma_conv [8]%nat [5]%nat (cache_pg_cnt 8 2) 2 (simd_stage 2 [16]%nat (@y210_to_be10_batch2))
    [simd_stage 2 [16]%nat (@y210_to_be10_batch2); scalar_stage [8]%nat pg_y210_to_be10]
    st20_y210_to_rfc4175_422be10_avx512.
Definition st20_rfc4175_422be12_to_422le12_avx512_dma : dma_env -> conv :=
  dma_conv [6]%nat [6]%nat (cache_pg_cnt 6 2) 2 (simd_stage 2 [12]%nat (@be12_to_le12_batch2))
    [simd_stage 2 [12]%nat (@be12_to_le12_batch2); scalar_stage [6]%nat pg_be12_to_le12]
    st20_rfc4175_422be12_to_422le12_avx512.
Definition st20_rfc4175_422be12_to_yuv422p12le_avx512_dma : dma_env -> conv :=
  dma_conv [6]%nat [4; 2; 2]%nat (cache_pg_cnt 6 32) 2 (simd_stage 32 [192]%nat (@be12_to_ple_batch32))
    [simd_stage 32 [192]%nat (@be12_to_ple_batch32); simd_stage 8 [48]%nat (@be12_to_ple_batch8); scalar_stage [6]%nat pg_be12_to_p12]
    st20_rfc4175_422be12_to_yuv422p12le_avx512.
Definition st20_rfc4175_422be10_to_yuv422p10le_avx512_vbmi_dma : dma_env -> conv :=
  dma_conv [5]%nat [4; 2; 2]%nat (cache_pg_cnt 5 8) 2 (simd_stage 8 [40]%nat (@be10_to_ple_vbmi_batch8))
    [simd_stage 8 [40]%nat (@be10_to_ple_vbmi_batch8); scalar_stage [5]%nat pg_be10_to_p10]
    st20_rfc4175_422be10_to_yuv422p10le_avx512_vbmi.
Definition st20_rfc4175_422be10_to_422le10_avx512_vbmi_dma : dma_env -> conv :=
  dma_conv [5]%nat [5]%nat (cache_pg_cnt 5 12) 2 (simd_stage 12 [60]%nat (@be10_to_le_vbmi_batch12))
    [simd_stage 12 [60]%nat (@be10_to_le_vbmi_batch12); scalar_stage [5]%nat pg_be10_to_le10]
    st20_rfc4175_422be10_to_422le10_avx512_vbmi.
Definition st20_rfc4175_422be10_to_422le8_avx512_vbmi_dma : dma_env -> conv :=
  dma_conv [5]%nat [4]%nat (cache_pg_cnt 5 12) 2 (simd_stage 12 [60]%nat (@be10_to_le8_vbmi_batch12))
    [simd_stage 12 [60]%nat (@be10_to_le8_vbmi_batch12); scalar_stage [5]%nat pg_be10_to_le8]
    st20_rfc4175_422be10_to_422le8_avx512_vbmi.
(** Without its caches this one converts the other way: the destination is read and the source
    written over. *)
Definition le10_to_be10_vbmi_no_cache : conv := fun w h pg_le pg_be =>
  '(ret, pg_le) ← st20_rfc4175_422be10_to_422le10_avx512_vbmi w h pg_be pg_le;
  Some (ret, pg_be).
Definition st20_rfc4175_422le10_to_422be10_avx512_vbmi_dma : dma_env -> conv :=
  dma_conv [5]%nat [5]%nat (cache_pg_cnt 5 12) 2 (simd_stage 12 [60]%nat (@le10_to_be_vbmi_batch12))
    [simd_stage 12 [60]%nat (@le10_to_be_vbmi_batch12); scalar_stage [5]%nat pg_le10_to_be10]
    le10_to_be10_vbmi_no_cache.
Definition st20_rfc4175_422be12_to_yuv422p12le_avx512_vbmi_dma : dma_env -> conv :=
  dma_conv [6]%nat [4; 2; 2]%nat (cache_pg_cnt 6 8) 2 (simd_stage 8 [48]%nat (@be12_to_ple_vbmi_batch8))
    [simd_stage 8 [48]%nat (@be12_to_ple_vbmi_batch8); scalar_stage [6]%nat pg_be12_to_p12]
    st20_rfc4175_422be12_to_yuv422p12le_avx512_vbmi.
(** Three pixel groups are 16 bytes of V210. *)
Definition cache_v210_pg_cnt : nat :=
  let align := (caches_num * 3)%nat in (Z.to_nat (256 * 1024 / 16 * 3) / align * align)%nat.
Definition st20_rfc4175_422be10_to_v210_avx512_dma : dma_env -> conv :=
  v210_dma_conv [15]%nat [16]%nat 3 (cache_pg_cnt 5 3 / 3)%nat (simd_stage 1 [15]%nat (@be10_to_v210_batch3))
    st20_rfc4175_422be10_to_v210_avx512.
Definition st20_v210_to_rfc4175_422be10_avx512_dma : dma_env -> conv :=
  v210_dma_conv [16]%nat [15]%nat 3 (cache_v210_pg_cnt / 3)%nat (simd_stage 1 [16]%nat (@v210_to_be10_batch3))
    st20_v210_to_rfc4175_422be10_avx512.
Definition st20_rfc4175_422be10_to_v210_avx512_vbmi_dma : dma_env -> conv :=
  v210_dma_conv [15]%nat [16]%nat 12 (cache_pg_cnt 5 12 / 3)%nat (simd_stage 4 [60]%nat (@be10_to_v210_vbmi_batch12))
    st20_rfc4175_422be10_to_v210_avx512_vbmi.
Definition st20_v210_to_rfc4175_422be10_avx512_vbmi_dma : dma_env -> conv :=
  v210_dma_conv [16]%nat [15]%nat 12 (cache_pg_cnt 16 4) (simd_stage 4 [64]%nat (@v210_to_be10_vbmi_batch12))
    st20_v210_to_rfc4175_422be10_avx512_vbmi.

(** ** The routines are the scalar ones *)

(** Every cache has at least this many groups. *)
Definition cache_min : nat := Z.to_nat 16384.
(** Buffers of whole groups, and an engine that reports the copies the caches take. *)
Definition dma_groups (env : dma_env) (q : masks) (si so : list nat) (k w h : Z) (src dst : list bytes) : Prop :=
  is_u32 (w * h) /\ exists n, w * h / 2 / k = Z.of_nat n /\ holds si n src /\ Forall (fits q) src /\ holds so n dst /\
    (n / cache_min * length si <= reports (de_polls env))%nat.
(** The allocations succeed. *)
Definition has_caches (env : dma_env) : Prop := de_caches env = true /\ de_ctx env = (true, true, true, true, true).

Lemma dma_groups_whole env q si so k w h src dst : dma_groups env q si so k w h src dst -> roomy_groups q si so k w h src dst.
Proof. intros (? & n & ? & ? & ? & ? & _). apply whole_roomy. split; [done|]. by exists n. Qed.

Lemma cache_copies n K T r : (cache_min <= K)%nat -> (n / cache_min * T <= r)%nat -> (n / K * T <= r)%nat.
Proof.
  intros HK H. etrans; [|exact H]. apply Nat.mul_le_mono_r, Nat.div_le_compat_l. unfold cache_min in *. lia.
Qed.

Lemma dma_conv_agrees `{!GroupBody q si so f} env K types sg stages plain :
  Forall (stage_ok q si so f 0) (sg :: stages) -> (cache_min <= K)%nat -> (sg_groups sg * (K / sg_groups sg) = K)%nat ->
  (0 < length si)%nat -> Z.of_nat (length si) <= types < 100 ->
  agrees (roomy_groups q si so 1) plain (group_conv 2 si so f) \/ has_caches env ->
  agrees (dma_groups env q si so 1) (dma_conv si so K types sg ((sg :: stages) ++ [scalar_stage si f]) plain env) (group_conv 2 si so f).
Proof.
  intros HF HK Hsg Hsi Hty Hplain w h src dst Hpre. pose proof (dma_groups_whole _ _ _ _ _ _ _ _ _ Hpre) as Hw. unfold dma_conv.
  assert (has_caches env \/ plain w h src dst = group_conv 2 si so f w h src dst \/ plain w h src dst = Some (- EINVAL, dst)) as Hp
    by (destruct Hplain as [Hplain|]; [right; by apply Hplain|by left]).
  destruct (env_ctx env _ _) as [ctx|] eqn:Ec; [destruct (de_caches env) eqn:Ed|].
  - destruct Hpre as (Hwh & n & Hn & Hs & Hq & Hd & Hr). left. rewrite Z.div_1_r in Hn. unfold group_conv. rewrite u32_id, Hn, Nat2Z.id by done.
    rewrite group_loop_map by done. apply Forall_cons in HF as HF'. destruct HF' as [Hok _].
    assert (0 < K)%nat as HK0 by (unfold cache_min in HK; lia).
    apply (dma_run_spec si so K sg types q f _ HK0 Hok Hsg Hsi Hty env ctx); try done.
    + apply batches_ok; [done|apply scalar_stage_ok; [apply gb_planes|apply gb_len]|done].
    + by eapply cache_copies.
  - destruct Hp as [[Hp _]|Hp]; [congruence|exact Hp].
  - destruct Hp as [[_ Hp]|Hp]; [|exact Hp]. unfold env_ctx in Ec. by rewrite Hp in Ec.
Qed.

Lemma v210_dma_conv_agrees `{!GroupBody q si so f} env j K sg plain :
  stage_ok q si so f 0 sg -> sg_groups sg = j -> (cache_min <= K)%nat -> (j * (K / j) = K)%nat -> length si = 1%nat ->
  agrees (roomy_groups q si so 3) plain (v210_conv si so f) ->
  agrees (dma_groups env q si so 3) (v210_dma_conv si so (3 * Z.of_nat j) K sg plain env) (v210_conv si so f).
Proof.
  intros Hok Hj HK Hsg Hsi Hplain w h src dst Hpre. pose proof (dma_groups_whole _ _ _ _ _ _ _ _ _ Hpre) as Hw. unfold v210_dma_conv. cbv zeta.
  destruct (negb _) eqn:Em; [by right|]. destruct (env_ctx env _ _) as [ctx|] eqn:Ec; [destruct (de_caches env) eqn:Ed|]; [|by apply Hplain..].
  destruct Hpre as (Hwh & n & Hn & Hs & Hq & Hd & Hr). left. unfold v210_conv. rewrite u32_id in * by done. cbv zeta.
  apply negb_false_iff, Z.eqb_eq in Em. assert (0 < j)%nat as Hj0 by (destruct Hok; lia).
  assert (w * h / 2 mod 3 = 0) as E3.
  { apply Z.mod_divide; [lia|]. apply Z.mod_divide in Em; [|lia]. etrans; [|exact Em]. by exists (Z.of_nat j); lia. }
  rewrite E3. cbn [Z.eqb negb]. rewrite Hn, Nat2Z.id, group_loop_map by done.
  assert (n mod j = 0)%nat as En.
  { apply Nat.Lcm0.mod_divide. apply Z.mod_divide in Em as [c Hc]; [|lia]. exists (Z.to_nat c).
    rewrite Hc in Hn. replace (c * (3 * Z.of_nat j)) with (c * Z.of_nat j * 3) in Hn by lia. rewrite Z.div_mul in Hn by lia.
    assert (0 <= c) by nia. nia. }
  assert (0 < K)%nat as HK0 by (unfold cache_min in HK; lia).
  apply (dma_run_spec si so K sg 2 q f _ HK0 Hok); try done; [congruence|lia|lia| |by eapply cache_copies].
  rewrite Hj. assert ((n mod K) mod j = 0)%nat as Er.
  { apply Nat.Lcm0.mod_divide in En. apply Nat.Lcm0.mod_divide. rewrite Nat.Div0.mod_eq. apply Nat.divide_sub_r; [done|].
    rewrite <- Hsg, <- Nat.mul_assoc. apply Nat.divide_factor_l. }
  pose proof (Nat.div_mod_eq (n mod K) j) as H. rewrite Er, Nat.add_0_r in H. rewrite H at 2. rewrite <- Hj at 2. rewrite <- (Nat.add_0_r (_ * _)).
  eapply plan_cons; [done|right; lia|constructor].
Qed.

Lemma cache_pg_cnt_div size simd : (0 < simd)%nat -> (simd * (cache_pg_cnt size simd / simd) = cache_pg_cnt size simd)%nat.
Proof.
  intros H. unfold cache_pg_cnt. set (c := (_ / (caches_num * simd))%nat). replace (c * (caches_num * simd))%nat with (c * caches_num * simd)%nat by lia.
  rewrite Nat.div_mul by lia. lia.
Qed.
Lemma cache_pg_cnt_Z size simd :
  Z.of_nat (cache_pg_cnt size simd) = 262144 / Z.of_nat size / (4 * Z.of_nat simd) * (4 * Z.of_nat simd).
Proof.
  unfold cache_pg_cnt, caches_num. cbv zeta. rewrite Nat2Z.inj_mul, Nat2Z.inj_div, Z2Nat.id, Nat2Z.inj_mul by (apply Z_div_nonneg_nonneg; lia). done.
Qed.
Lemma cache_v210_Z : Z.of_nat cache_v210_pg_cnt = 49152.
Proof. unfold cache_v210_pg_cnt, caches_num. cbv zeta. rewrite Nat2Z.inj_mul, Nat2Z.inj_div, Z2Nat.id by done. reflexivity. Qed.

Ltac cache_big := unfold cache_min; apply Nat2Z.inj_le; rewrite ?Nat2Z.inj_div, ?cache_pg_cnt_Z, ?cache_v210_Z, Z2Nat.id by done; vm_compute; discriminate.

Lemma st20_rfc4175_422be10_to_yuv422p10le_avx512_dma_agrees env : agrees (dma_groups env any_bytes [5]%nat [4; 2; 2]%nat 1) (st20_rfc4175_422be10_to_yuv422p10le_avx512_dma env) st20_rfc4175_422be10_to_yuv422p10le_scalar.
Proof.
  apply (dma_conv_agrees env _ 2 (simd_stage 32 [160]%nat (@be10_to_ple_batch32)) [simd_stage 8 [40]%nat (@be10_to_ple_batch8)]); [ways_ok; [apply be10_to_ple_batch32_ok|apply be10_to_ple_batch8_ok]|cache_big|cbn [sg_groups simd_stage]; apply cache_pg_cnt_div; lia|cbn; lia|cbn; lia|left; apply st20_rfc4175_422be10_to_yuv422p10le_avx512_agrees].
Qed.
Lemma st20_rfc4175_422be10_to_422le10_avx512_dma_agrees env : agrees (dma_groups env any_bytes [5]%nat [5]%nat 1) (st20_rfc4175_422be10_to_422le10_avx512_dma env) st20_rfc4175_422be10_to_422le10_scalar.
Proof.
  apply (dma_conv_agrees env _ 2 (simd_stage 3 [15]%nat (@be10_to_le_batch3)) []); [ways_ok; [apply be10_to_le_batch3_ok]|cache_big|cbn [sg_groups simd_stage]; apply cache_pg_cnt_div; lia|cbn; lia|cbn; lia|left; apply st20_rfc4175_422be10_to_422le10_avx512_agrees].
Qed.
Lemma st20_rfc4175_422be10_to_422le8_avx512_dma_agrees env : agrees (dma_groups env any_bytes [5]%nat [4]%nat 1) (st20_rfc4175_422be10_to_422le8_avx512_dma env) st20_rfc4175_422be10_to_422le8_scalar.
Proof.
  apply (dma_conv_agrees env _ 2 (simd_stage 2 [10]%nat (@be10_to_le8_batch2)) []); [ways_ok; [apply be10_to_le8_batch2_ok]|cache_big|cbn [sg_groups simd_stage]; apply cache_pg_cnt_div; lia|cbn; lia|cbn; lia|left; apply st20_rfc4175_422be10_to_422le8_avx512_agrees].
Qed.
Lemma st20_yuv422p10le_to_rfc4175_422be10_avx512_dma_agrees env : agrees (dma_groups env (samples 10) [4; 2; 2]%nat [5]%nat 1) (st20_yuv422p10le_to_rfc4175_422be10_avx512_dma env) st20_yuv422p10le_to_rfc4175_422be10_scalar.
Proof.
  apply (dma_conv_agrees env _ 3 (simd_stage 8 [32; 16; 16]%nat (@ple_to_be10_batch8)) []); [ways_ok; [apply ple_to_be10_batch8_ok]|cache_big|cbn [sg_groups simd_stage]; apply cache_pg_cnt_div; lia|cbn; lia|cbn; lia|left; apply st20_yuv422p10le_to_rfc4175_422be10_avx512_agrees].
Qed.
Lemma st20_rfc4175_422le10_to_422be10_avx512_dma_agrees env : agrees (dma_groups env any_bytes [5]%nat [5]%nat 1) (st20_rfc4175_422le10_to_422be10_avx512_dma env) st20_rfc4175_422le10_to_422be10_scalar.
Proof.
  apply (dma_conv_agrees env _ 2 (simd_stage 3 [15]%nat (@le10_to_be_batch3)) []); [ways_ok; [apply le10_to_be_batch3_ok]|cache_big|cbn [sg_groups simd_stage]; apply cache_pg_cnt_div; lia|cbn; lia|cbn; lia|left; apply st20_rfc4175_422le10_to_422be10_avx512_agrees].
Qed.
Lemma st20_rfc4175_422be10_to_y210_avx512_dma_agrees env : agrees (dma_groups env any_bytes [5]%nat [8]%nat 1) (st20_rfc4175_422be10_to_y210_avx512_dma env) st20_rfc4175_422be10_to_y210_scalar.
Proof.
  apply (dma_conv_agrees env _ 2 (simd_stage 2 [10]%nat (@be10_to_y210_batch2)) []); [ways_ok; [apply be10_to_y210_batch2_ok]|cache_big|cbn [sg_groups simd_stage]; apply cache_pg_cnt_div; lia|cbn; lia|cbn; lia|left; apply st20_rfc4175_422be10_to_y210_avx512_agrees].
Qed.
Lemma st20_y210_to_rfc4175_422be10_avx512_dma_agrees env : agrees (dma_groups env y210_samples [8]%nat [5]%nat 1) (st20_y210_to_rfc4175_422be10_avx512_dma env) st20_y210_to_rfc4175_422be10_scalar.
Proof.
  apply (dma_conv_agrees env _ 2 (simd_stage 2 [16]%nat (@y210_to_be10_batch2)) []); [ways_ok; [apply y210_to_be10_batch2_ok]|cache_big|cbn [sg_groups simd_stage]; apply cache_pg_cnt_div; lia|cbn; lia|cbn; lia|left; apply st20_y210_to_rfc4175_422be10_avx512_agrees].
Qed.
Lemma st20_rfc4175_422be12_to_422le12_avx512_dma_agrees env : agrees (dma_groups env any_bytes [6]%nat [6]%nat 1) (st20_rfc4175_422be12_to_422le12_avx512_dma env) st20_rfc4175_422be12_to_422le12_scalar.
Proof.
  apply (dma_conv_agrees env _ 2 (simd_stage 2 [12]%nat (@be12_to_le12_batch2)) []); [ways_ok; [apply be12_to_le12_batch2_ok]|cache_big|cbn [sg_groups simd_stage]; apply cache_pg_cnt_div; lia|cbn; lia|cbn; lia|left; apply st20_rfc4175_422be12_to_422le12_avx512_agrees].
Qed.
Lemma st20_rfc4175_422be12_to_yuv422p12le_avx512_dma_agrees env : agrees (dma_groups env any_bytes [6]%nat [4; 2; 2]%nat 1) (st20_rfc4175_422be12_to_yuv422p12le_avx512_dma env) st20_rfc4175_422be12_to_yuv422p12le_scalar.
Proof.
  apply (dma_conv_agrees env _ 2 (simd_stage 32 [192]%nat (@be12_to_ple_batch32)) [simd_stage 8 [48]%nat (@be12_to_ple_batch8)]); [ways_ok; [apply be12_to_ple_batch32_ok|apply be12_to_ple_batch8_ok]|cache_big|cbn [sg_groups simd_stage]; apply cache_pg_cnt_div; lia|cbn; lia|cbn; lia|left; apply st20_rfc4175_422be12_to_yuv422p12le_avx512_agrees].
Qed.
Lemma st20_rfc4175_422be10_to_yuv422p10le_avx512_vbmi_dma_agrees env : agrees (dma_groups env any_bytes [5]%nat [4; 2; 2]%nat 1) (st20_rfc4175_422be10_to_yuv422p10le_avx512_vbmi_dma env) st20_rfc4175_422be10_to_yuv422p10le_scalar.
Proof.
  apply (dma_conv_agrees env _ 2 (simd_stage 8 [40]%nat (@be10_to_ple_vbmi_batch8)) []); [ways_ok; [apply be10_to_ple_vbmi_batch8_ok]|cache_big|cbn [sg_groups simd_stage]; apply cache_pg_cnt_div; lia|cbn; lia|cbn; lia|left; apply st20_rfc4175_422be10_to_yuv422p10le_avx512_vbmi_agrees].
Qed.
Lemma st20_rfc4175_422be10_to_422le10_avx512_vbmi_dma_agrees env : agrees (dma_groups env any_bytes [5]%nat [5]%nat 1) (st20_rfc4175_422be10_to_422le10_avx512_vbmi_dma env) st20_rfc4175_422be10_to_422le10_scalar.
Proof.
  apply (dma_conv_agrees env _ 2 (simd_stage 12 [60]%nat (@be10_to_le_vbmi_batch12)) []); [ways_ok; [apply be10_to_le_vbmi_batch12_ok]|cache_big|cbn [sg_groups simd_stage]; apply cache_pg_cnt_div; lia|cbn; lia|cbn; lia|left; apply st20_rfc4175_422be10_to_422le10_avx512_vbmi_agrees].
Qed.
Lemma st20_rfc4175_422be10_to_422le8_avx512_vbmi_dma_agrees env : agrees (dma_groups env any_bytes [5]%nat [4]%nat 1) (st20_rfc4175_422be10_to_422le8_avx512_vbmi_dma env) st20_rfc4175_422be10_to_422le8_scalar.
Proof.
  apply (dma_conv_agrees env _ 2 (simd_stage 12 [60]%nat (@be10_to_le8_vbmi_batch12)) []); [ways_ok; [apply be10_to_le8_vbmi_batch12_ok]|cache_big|cbn [sg_groups simd_stage]; apply cache_pg_cnt_div; lia|cbn; lia|cbn; lia|left; apply st20_rfc4175_422be10_to_422le8_avx512_vbmi_agrees].
Qed.
Lemma st20_rfc4175_422le10_to_422be10_avx512_vbmi_dma_agrees env : has_caches env -> agrees (dma_groups env any_bytes [5]%nat [5]%nat 1) (st20_rfc4175_422le10_to_422be10_avx512_vbmi_dma env) st20_rfc4175_422le10_to_422be10_scalar.
Proof.
  intros. apply (dma_conv_agrees env _ 2 (simd_stage 12 [60]%nat (@le10_to_be_vbmi_batch12)) []); [ways_ok; [apply le10_to_be_vbmi_batch12_ok]|cache_big|cbn [sg_groups simd_stage]; apply cache_pg_cnt_div; lia|cbn; lia|cbn; lia|by right].
Qed.
Lemma st20_rfc4175_422be12_to_yuv422p12le_avx512_vbmi_dma_agrees env : agrees (dma_groups env any_bytes [6]%nat [4; 2; 2]%nat 1) (st20_rfc4175_422be12_to_yuv422p12le_avx512_vbmi_dma env) st20_rfc4175_422be12_to_yuv422p12le_scalar.
Proof.
  apply (dma_conv_agrees env _ 2 (simd_stage 8 [48]%nat (@be12_to_ple_vbmi_batch8)) []); [ways_ok; [apply be12_to_ple_vbmi_batch8_ok]|cache_big|cbn [sg_groups simd_stage]; apply cache_pg_cnt_div; lia|cbn; lia|cbn; lia|left; apply st20_rfc4175_422be12_to_yuv422p12le_avx512_vbmi_agrees].
Qed.
Lemma cache_v210_div : (4 * (cache_pg_cnt 5 12 / 3 / 4) = cache_pg_cnt 5 12 / 3)%nat.
Proof.
  apply Nat2Z.inj. rewrite Nat2Z.inj_mul, !Nat2Z.inj_div, cache_pg_cnt_Z. reflexivity.
Qed.
Lemma st20_rfc4175_422be10_to_v210_avx512_dma_agrees env : agrees (dma_groups env any_bytes [15]%nat [16]%nat 3) (st20_rfc4175_422be10_to_v210_avx512_dma env) st20_rfc4175_422be10_to_v210_scalar.
Proof. apply (v210_dma_conv_agrees env 1); [apply be10_to_v210_batch3_ok|done|cache_big|by rewrite Nat.div_1_r, Nat.mul_1_l|done|apply st20_rfc4175_422be10_to_v210_avx512_agrees]. Qed.
Lemma st20_v210_to_rfc4175_422be10_avx512_dma_agrees env : agrees (dma_groups env any_bytes [16]%nat [15]%nat 3) (st20_v210_to_rfc4175_422be10_avx512_dma env) st20_v210_to_rfc4175_422be10_scalar.
Proof. apply (v210_dma_conv_agrees env 1); [apply v210_to_be10_batch3_ok|done|cache_big|by rewrite Nat.div_1_r, Nat.mul_1_l|done|apply st20_v210_to_rfc4175_422be10_avx512_agrees]. Qed.
Lemma st20_rfc4175_422be10_to_v210_avx512_vbmi_dma_agrees env : agrees (dma_groups env any_bytes [15]%nat [16]%nat 3) (st20_rfc4175_422be10_to_v210_avx512_vbmi_dma env) st20_rfc4175_422be10_to_v210_scalar.
Proof. apply (v210_dma_conv_agrees env 4); [apply be10_to_v210_vbmi_batch12_ok|done|cache_big|apply cache_v210_div|done|apply st20_rfc4175_422be10_to_v210_avx512_vbmi_agrees]. Qed.
Lemma st20_v210_to_rfc4175_422be10_avx512_vbmi_dma_agrees env : agrees (dma_groups env any_bytes [16]%nat [15]%nat 3) (st20_v210_to_rfc4175_422be10_avx512_vbmi_dma env) st20_v210_to_rfc4175_422be10_scalar.
Proof. apply (v210_dma_conv_agrees env 4); [apply v210_to_be10_vbmi_batch12_ok|done|cache_big|cbn [sg_groups simd_stage]; apply cache_pg_cnt_div; lia|done|apply st20_v210_to_rfc4175_422be10_avx512_vbmi_agrees]. Qed.

(** ** The entries *)

Definition simd_dma_entry := dma_env -> simd_entry.

Definition st20_yuv422p10le_to_rfc4175_422be10_simd_dma : simd_dma_entry := fun env bd cpu_level level =>
  simd_ways bd cpu_level level
    [avx512_way (st20_yuv422p10le_to_rfc4175_422be10_avx512_dma env)]
    st20_yuv422p10le_to_rfc4175_422be10_scalar.
Definition st20_rfc4175_422be10_to_yuv422p10le_simd_dma : simd_dma_entry := fun env bd cpu_level level =>
  simd_ways bd cpu_level level
    [vbmi2_way (st20_rfc4175_422be10_to_yuv422p10le_avx512_vbmi_dma env); avx512_way (st20_rfc4175_422be10_to_yuv422p10le_avx512_dma env)]
    st20_rfc4175_422be10_to_yuv422p10le_scalar.
Definition st20_rfc4175_422be10_to_422le10_simd_dma : simd_dma_entry := fun env bd cpu_level level =>
  simd_ways bd cpu_level level
    [vbmi2_way (st20_rfc4175_422be10_to_422le10_avx512_vbmi_dma env); avx512_way (st20_rfc4175_422be10_to_422le10_avx512_dma env)]
    st20_rfc4175_422be10_to_422le10_scalar.
Definition st20_rfc4175_422le10_to_422be10_simd_dma : simd_dma_entry := fun env bd cpu_level level =>
  simd_ways bd cpu_level level
    [vbmi2_way (st20_rfc4175_422le10_to_422be10_avx512_vbmi_dma env); avx512_way (st20_rfc4175_422le10_to_422be10_avx512_dma env)]
    st20_rfc4175_422le10_to_422be10_scalar.
Definition st20_rfc4175_422be10_to_422le8_simd_dma : simd_dma_entry := fun env bd cpu_level level =>
  simd_ways bd cpu_level level
    [vbmi2_way (st20_rfc4175_422be10_to_422le8_avx512_vbmi_dma env); avx512_way (st20_rfc4175_422be10_to_422le8_avx512_dma env)]
    st20_rfc4175_422be10_to_422le8_scalar.
Definition st20_rfc4175_422be10_to_v210_simd_dma : simd_dma_entry := fun env bd cpu_level level =>
  simd_ways bd cpu_level level
    [vbmi2_way (st20_rfc4175_422be10_to_v210_avx512_vbmi_dma env); avx512_way (st20_rfc4175_422be10_to_v210_avx512_dma env)]
    st20_rfc4175_422be10_to_v210_scalar.
Definition st20_v210_to_rfc4175_422be10_simd_dma : simd_dma_entry := fun env bd cpu_level level =>
  simd_ways bd cpu_level level
    [vbmi2_way (st20_v210_to_rfc4175_422be10_avx512_vbmi_dma env); avx512_way (st20_v210_to_rfc4175_422be10_avx512_dma env)]
    st20_v210_to_rfc4175_422be10_scalar.
Definition st20_rfc4175_422be10_to_y210_simd_dma : simd_dma_entry := fun env bd cpu_level level =>
  simd_ways bd cpu_level level
    [avx512_way (st20_rfc4175_422be10_to_y210_avx512_dma env)]
    st20_rfc4175_422be10_to_y210_scalar.
Definition st20_y210_to_rfc4175_422be10_simd_dma : simd_dma_entry := fun env bd cpu_level level =>
  simd_ways bd cpu_level level
    [avx512_way (st20_y210_to_rfc4175_422be10_avx512_dma env)]
    st20_y210_to_rfc4175_422be10_scalar.
Definition st20_rfc4175_422be12_to_yuv422p12le_simd_dma : simd_dma_entry := fun env bd cpu_level level =>
  simd_ways bd cpu_level level
    [avx512_way (st20_rfc4175_422be12_to_yuv422p12le_avx512_dma env)]
    st20_rfc4175_422be12_to_yuv422p12le_scalar.
Definition st20_rfc4175_422be12_to_422le12_simd_dma : simd_dma_entry := fun env bd cpu_level level =>
  simd_ways bd cpu_level level
    [avx512_way (st20_rfc4175_422be12_to_422le12_avx512_dma env)]
    st20_rfc4175_422be12_to_422le12_scalar.

Lemma st20_yuv422p10le_to_rfc4175_422be10_dma_any_way env bd cpu_level level w h src dst : dma_groups env (samples 10) [4; 2; 2]%nat [5]%nat 1 w h src dst ->
  st20_yuv422p10le_to_rfc4175_422be10_simd_dma env bd cpu_level level w h src dst = st20_yuv422p10le_to_rfc4175_422be10_scalar w h src dst.
Proof.
  intros Hpre. apply (simd_ways_scalar (dma_groups env (samples 10) [4; 2; 2]%nat [5]%nat 1)); [apply group_conv_clean| |exact Hpre].
  ways_ok; [split; [apply st20_yuv422p10le_to_rfc4175_422be10_avx512_dma_agrees|by left]].
Qed.
Lemma st20_rfc4175_422be10_to_yuv422p10le_dma_any_way env bd cpu_level level w h src dst : dma_groups env any_bytes [5]%nat [4; 2; 2]%nat 1 w h src dst ->
  st20_rfc4175_422be10_to_yuv422p10le_simd_dma env bd cpu_level level w h src dst = st20_rfc4175_422be10_to_yuv422p10le_scalar w h src dst.
Proof.
  intros Hpre. apply (simd_ways_scalar (dma_groups env any_bytes [5]%nat [4; 2; 2]%nat 1)); [apply group_conv_clean| |exact Hpre].
  ways_ok; [split; [apply st20_rfc4175_422be10_to_yuv422p10le_avx512_vbmi_dma_agrees|by left]|split; [apply st20_rfc4175_422be10_to_yuv422p10le_avx512_dma_agrees|by left]].
Qed.
Lemma st20_rfc4175_422be10_to_422le10_dma_any_way env bd cpu_level level w h src dst : dma_groups env any_bytes [5]%nat [5]%nat 1 w h src dst ->
  st20_rfc4175_422be10_to_422le10_simd_dma env bd cpu_level level w h src dst = st20_rfc4175_422be10_to_422le10_scalar w h src dst.
Proof.
  intros Hpre. apply (simd_ways_scalar (dma_groups env any_bytes [5]%nat [5]%nat 1)); [apply group_conv_clean| |exact Hpre].
  ways_ok; [split; [apply st20_rfc4175_422be10_to_422le10_avx512_vbmi_dma_agrees|by left]|split; [apply st20_rfc4175_422be10_to_422le10_avx512_dma_agrees|by left]].
Qed.
Lemma st20_rfc4175_422le10_to_422be10_dma_any_way env bd cpu_level level w h src dst : has_caches env -> dma_groups env any_bytes [5]%nat [5]%nat 1 w h src dst ->
  st20_rfc4175_422le10_to_422be10_simd_dma env bd cpu_level level w h src dst = st20_rfc4175_422le10_to_422be10_scalar w h src dst.
Proof.
  intros Hc Hpre. apply (simd_ways_scalar (dma_groups env any_bytes [5]%nat [5]%nat 1)); [apply group_conv_clean| |exact Hpre].
  ways_ok; [split; [apply st20_rfc4175_422le10_to_422be10_avx512_vbmi_dma_agrees; exact Hc|by left]|split; [apply st20_rfc4175_422le10_to_422be10_avx512_dma_agrees|by left]].
Qed.
Lemma st20_rfc4175_422be10_to_422le8_dma_any_way env bd cpu_level level w h src dst : dma_groups env any_bytes [5]%nat [4]%nat 1 w h src dst ->
  st20_rfc4175_422be10_to_422le8_simd_dma env bd cpu_level level w h src dst = st20_rfc4175_422be10_to_422le8_scalar w h src dst.
Proof.
  intros Hpre. apply (simd_ways_scalar (dma_groups env any_bytes [5]%nat [4]%nat 1)); [apply group_conv_clean| |exact Hpre].
  ways_ok; [split; [apply st20_rfc4175_422be10_to_422le8_avx512_vbmi_dma_agrees|by left]|split; [apply st20_rfc4175_422be10_to_422le8_avx512_dma_agrees|by left]].
Qed.
Lemma st20_rfc4175_422be10_to_v210_dma_any_way env bd cpu_level level w h src dst : dma_groups env any_bytes [15]%nat [16]%nat 3 w h src dst ->
  st20_rfc4175_422be10_to_v210_simd_dma env bd cpu_level level w h src dst = st20_rfc4175_422be10_to_v210_scalar w h src dst.
Proof.
  intros Hpre. apply (simd_ways_scalar (dma_groups env any_bytes [15]%nat [16]%nat 3)); [apply v210_conv_clean| |exact Hpre].
  ways_ok; [split; [apply st20_rfc4175_422be10_to_v210_avx512_vbmi_dma_agrees|by left]|split; [apply st20_rfc4175_422be10_to_v210_avx512_dma_agrees|by left]].
Qed.
Lemma st20_v210_to_rfc4175_422be10_dma_any_way env bd cpu_level level w h src dst : dma_groups env any_bytes [16]%nat [15]%nat 3 w h src dst ->
  st20_v210_to_rfc4175_422be10_simd_dma env bd cpu_level level w h src dst = st20_v210_to_rfc4175_422be10_scalar w h src dst.
Proof.
  intros Hpre. apply (simd_ways_scalar (dma_groups env any_bytes [16]%nat [15]%nat 3)); [apply v210_conv_clean| |exact Hpre].
  ways_ok; [split; [apply st20_v210_to_rfc4175_422be10_avx512_vbmi_dma_agrees|by left]|split; [apply st20_v210_to_rfc4175_422be10_avx512_dma_agrees|by left]].
Qed.
Lemma st20_rfc4175_422be10_to_y210_dma_any_way env bd cpu_level level w h src dst : dma_groups env any_bytes [5]%nat [8]%nat 1 w h src dst ->
  st20_rfc4175_422be10_to_y210_simd_dma env bd cpu_level level w h src dst = st20_rfc4175_422be10_to_y210_scalar w h src dst.
Proof.
  intros Hpre. apply (simd_ways_scalar (dma_groups env any_bytes [5]%nat [8]%nat 1)); [apply group_conv_clean| |exact Hpre].
  ways_ok; [split; [apply st20_rfc4175_422be10_to_y210_avx512_dma_agrees|by left]].
Qed.
Lemma st20_y210_to_rfc4175_422be10_dma_any_way env bd cpu_level level w h src dst : dma_groups env y210_samples [8]%nat [5]%nat 1 w h src dst ->
  st20_y210_to_rfc4175_422be10_simd_dma env bd cpu_level level w h src dst = st20_y210_to_rfc4175_422be10_scalar w h src dst.
Proof.
  intros Hpre. apply (simd_ways_scalar (dma_groups env y210_samples [8]%nat [5]%nat 1)); [apply group_conv_clean| |exact Hpre].
  ways_ok; [split; [apply st20_y210_to_rfc4175_422be10_avx512_dma_agrees|by left]].
Qed.
Lemma st20_rfc4175_422be12_to_yuv422p12le_dma_any_way env bd cpu_level level w h src dst : dma_groups env any_bytes [6]%nat [4; 2; 2]%nat 1 w h src dst ->
  st20_rfc4175_422be12_to_yuv422p12le_simd_dma env bd cpu_level level w h src dst = st20_rfc4175_422be12_to_yuv422p12le_scalar w h src dst.
Proof.
  intros Hpre. apply (simd_ways_scalar (dma_groups env any_bytes [6]%nat [4; 2; 2]%nat 1)); [apply group_conv_clean| |exact Hpre].
  ways_ok; [split; [apply st20_rfc4175_422be12_to_yuv422p12le_avx512_dma_agrees|by left]].
Qed.
Lemma st20_rfc4175_422be12_to_422le12_dma_any_way env bd cpu_level level w h src dst : dma_groups env any_bytes [6]%nat [6]%nat 1 w h src dst ->
  st20_rfc4175_422be12_to_422le12_simd_dma env bd cpu_level level w h src dst = st20_rfc4175_422be12_to_422le12_scalar w h src dst.
Proof.
  intros Hpre. apply (simd_ways_scalar (dma_groups env any_bytes [6]%nat [6]%nat 1)); [apply group_conv_clean| |exact Hpre].
  ways_ok; [split; [apply st20_rfc4175_422be12_to_422le12_avx512_dma_agrees|by left]].
Qed.

(** The entries: the buffers they are for, and whether they need their caches. *)
Record dma_entry := mk_dma_entry {
  den_pre : dma_env -> Z -> Z -> list bytes -> list bytes -> Prop; den_needs_caches : bool;
  den_simd : simd_dma_entry; den_scalar : conv }.
Definition simd_dma_entries : list dma_entry :=
  [mk_dma_entry (fun env => dma_groups env (samples 10) [4; 2; 2]%nat [5]%nat 1) false
     st20_yuv422p10le_to_rfc4175_422be10_simd_dma st20_yuv422p10le_to_rfc4175_422be10_scalar;
   mk_dma_entry (fun env => dma_groups env any_bytes [5]%nat [4; 2; 2]%nat 1) false
     st20_rfc4175_422be10_to_yuv422p10le_simd_dma st20_rfc4175_422be10_to_yuv422p10le_scalar;
   mk_dma_entry (fun env => dma_groups env any_bytes [5]%nat [5]%nat 1) false
     st20_rfc4175_422be10_to_422le10_simd_dma st20_rfc4175_422be10_to_422le10_scalar;
   mk_dma_entry (fun env => dma_groups env any_bytes [5]%nat [5]%nat 1) true
     st20_rfc4175_422le10_to_422be10_simd_dma st20_rfc4175_422le10_to_422be10_scalar;
   mk_dma_entry (fun env => dma_groups env any_bytes [5]%nat [4]%nat 1) false
     st20_rfc4175_422be10_to_422le8_simd_dma st20_rfc4175_422be10_to_422le8_scalar;
   mk_dma_entry (fun env => dma_groups env any_bytes [15]%nat [16]%nat 3) false
     st20_rfc4175_422be10_to_v210_simd_dma st20_rfc4175_422be10_to_v210_scalar;
   mk_dma_entry (fun env => dma_groups env any_bytes [16]%nat [15]%nat 3) false
     st20_v210_to_rfc4175_422be10_simd_dma st20_v210_to_rfc4175_422be10_scalar;
   mk_dma_entry (fun env => dma_groups env any_bytes [5]%nat [8]%nat 1) false
     st20_rfc4175_422be10_to_y210_simd_dma st20_rfc4175_422be10_to_y210_scalar;
   mk_dma_entry (fun env => dma_groups env y210_samples [8]%nat [5]%nat 1) false
     st20_y210_to_rfc4175_422be10_simd_dma st20_y210_to_rfc4175_422be10_scalar;
   mk_dma_entry (fun env => dma_groups env any_bytes [6]%nat [4; 2; 2]%nat 1) false
     st20_rfc4175_422be12_to_yuv422p12le_simd_dma st20_rfc4175_422be12_to_yuv422p12le_scalar;
   mk_dma_entry (fun env => dma_groups env any_bytes [6]%nat [6]%nat 1) false
     st20_rfc4175_422be12_to_422le12_simd_dma st20_rfc4175_422be12_to_422le12_scalar].

(** C18: copying the source through DMA does not show. Whatever the engine's timing, a turn never
    reads a cache that may still be written, no copy is under way when the caches are freed,
    the wait for a copy ends, and the bytes are those of the scalar routine; when the caches
    cannot be had the routine without DMA does it. (One routine takes the wrong one then, so
    it is for calls that get their caches.) *)
Theorem simd_dma_entries_scalar : forall e env bd cpu_level level w h src dst,
  e ∈ simd_dma_entries -> den_pre e env w h src dst -> (den_needs_caches e = true -> has_caches env) ->
  den_simd e env bd cpu_level level w h src dst = den_scalar e w h src dst.
Proof.
  intros e env bd cpu_level level w h src dst He Hpre Hc. unfold simd_dma_entries in He. rewrite !elem_of_cons, elem_of_nil in He.
  destruct_or?; try contradiction; subst e; cbn [den_pre den_needs_caches den_simd den_scalar] in *.
  - exact (st20_yuv422p10le_to_rfc4175_422be10_dma_any_way _ _ _ _ _ _ _ _ Hpre).
  - exact (st20_rfc4175_422be10_to_yuv422p10le_dma_any_way _ _ _ _ _ _ _ _ Hpre).
  - exact (st20_rfc4175_422be10_to_422le10_dma_any_way _ _ _ _ _ _ _ _ Hpre).
  - exact (st20_rfc4175_422le10_to_422be10_dma_any_way _ _ _ _ _ _ _ _ (Hc eq_refl) Hpre).
  - exact (st20_rfc4175_422be10_to_422le8_dma_any_way _ _ _ _ _ _ _ _ Hpre).
  - exact (st20_rfc4175_422be10_to_v210_dma_any_way _ _ _ _ _ _ _ _ Hpre).
  - exact (st20_v210_to_rfc4175_422be10_dma_any_way _ _ _ _ _ _ _ _ Hpre).
  - exact (st20_rfc4175_422be10_to_y210_dma_any_way _ _ _ _ _ _ _ _ Hpre).
  - exact (st20_y210_to_rfc4175_422be10_dma_any_way _ _ _ _ _ _ _ _ Hpre).
  - exact (st20_rfc4175_422be12_to_yuv422p12le_dma_any_way _ _ _ _ _ _ _ _ Hpre).
  - exact (st20_rfc4175_422be12_to_422le12_dma_any_way _ _ _ _ _ _ _ _ Hpre).
Qed.

(** Seven caches of groups and a rest. *)
Definition demo_groups : nat := Z.to_nat 120000.
Definition demo_src : list bytes := [replicate (demo_groups * 5) 0].
Definition demo_dst : list bytes := [replicate (demo_groups * 5) 0].
Definition demo_env : dma_env := mk_env true (true, true, true, true, true) [false; true; true; true; false; true; true; true; true].
Definition demo_dma_entry : dma_entry :=
  mk_dma_entry (fun env => dma_groups env any_bytes [5]%nat [5]%nat 1) false
     st20_rfc4175_422be10_to_422le10_simd_dma st20_rfc4175_422be10_to_422le10_scalar.
Lemma simd_dma_entries_scalar_witness :
  den_simd demo_dma_entry demo_env (mk_build true true true) MTL_SIMD_LEVEL_AVX512 MTL_SIMD_LEVEL_MAX 1000 240 demo_src demo_dst =
  den_scalar demo_dma_entry 1000 240 demo_src demo_dst.
Proof.
  apply (simd_dma_entries_scalar demo_dma_entry).
  - do 2 right. left.
  - split; [unfold is_u32; lia|]. exists demo_groups. unfold demo_src, demo_dst. split_and!.
    + unfold demo_groups. by rewrite Z2Nat.id.
    + apply Forall2_cons_2; [apply length_replicate|apply Forall2_nil_2].
    + apply Forall_singleton, fits_bytes, Forall_replicate. by unfold is_u8.
    + apply Forall2_cons_2; [apply length_replicate|apply Forall2_nil_2].
    + apply Nat2Z.inj_le. unfold demo_groups, cache_min. rewrite Nat2Z.inj_mul, Nat2Z.inj_div, !Z2Nat.id by done. by vm_compute.
  - done.
Defined.

(** Without its caches the little-to-big-endian routine reports success and leaves the
    destination as it was. *)
Lemma le10_dma_no_cache_converts_nothing :
  let env := mk_env false (true, true, true, true, true) [] in
  st20_rfc4175_422le10_to_422be10_avx512_vbmi_dma env 2 1 [[1; 2; 3; 4; 5]] [[9; 9; 9; 9; 9]] = Some (0, [[9; 9; 9; 9; 9]]) /\
  st20_rfc4175_422le10_to_422be10_scalar 2 1 [[1; 2; 3; 4; 5]] [[9; 9; 9; 9; 9]] <> Some (0, [[9; 9; 9; 9; 9]]).
Proof. split; [vm_compute; reflexivity|vm_compute; discriminate]. Qed.
