(* ===== verification/Fmt.v ===== *)
(** Media formats and clocks, lib/src/st2110/st_fmt.c: the tables of pixel groups,
    frame rates and frame formats, frame and line sizes, the layout of a frame
    made of one allocation, the integer conversions between TAI time, frame
    epochs and media clock ticks, and the audio packet sizes. Functions that
    compute with [double] ([st_frame_rate], [st_frame_rate_to_st_fps], the
    bandwidth estimates, [st30_calculate_framebuff_size] and
    [st10_media_clk_to_tai]) are not modelled. *)
From Stdlib Require Import String.
From S2P Require Import Prelude.

Local Open Scope string_scope.
Local Open Scope list_scope.
Local Open Scope Z_scope.

(** ** Enumerations

    [.._MAX] also stands for every integer outside the enumeration. *)

Inductive st20_fmt :=
| ST20_FMT_YUV_422_10BIT | ST20_FMT_YUV_422_8BIT | ST20_FMT_YUV_422_12BIT
| ST20_FMT_YUV_422_16BIT | ST20_FMT_YUV_420_8BIT | ST20_FMT_YUV_420_10BIT
| ST20_FMT_YUV_420_12BIT | ST20_FMT_YUV_420_16BIT | ST20_FMT_RGB_8BIT | ST20_FMT_RGB_10BIT
| ST20_FMT_RGB_12BIT | ST20_FMT_RGB_16BIT | ST20_FMT_YUV_444_8BIT | ST20_FMT_YUV_444_10BIT
| ST20_FMT_YUV_444_12BIT | ST20_FMT_YUV_444_16BIT | ST20_FMT_YUV_422_PLANAR10LE | ST20_FMT_V210
| ST20_FMT_MAX.
#[export] Instance st20_fmt_eq : EqDecision st20_fmt.
Proof. solve_decision. Defined.

Inductive st_fps :=
| ST_FPS_P59_94 | ST_FPS_P50 | ST_FPS_P29_97 | ST_FPS_P25 | ST_FPS_P119_88 | ST_FPS_P120
| ST_FPS_P100 | ST_FPS_P60 | ST_FPS_P30 | ST_FPS_P24 | ST_FPS_P23_98 | ST_FPS_MAX.
#[export] Instance st_fps_eq : EqDecision st_fps.
Proof. solve_decision. Defined.

Inductive st_frame_fmt :=
| ST_FRAME_FMT_YUV422PLANAR10LE | ST_FRAME_FMT_V210 | ST_FRAME_FMT_Y210
| ST_FRAME_FMT_YUV422PLANAR8 | ST_FRAME_FMT_UYVY | ST_FRAME_FMT_YUV422RFC4175PG2BE10
| ST_FRAME_FMT_YUV422PLANAR12LE | ST_FRAME_FMT_YUV422RFC4175PG2BE12
| ST_FRAME_FMT_YUV444PLANAR10LE | ST_FRAME_FMT_YUV444RFC4175PG4BE10
| ST_FRAME_FMT_YUV444PLANAR12LE | ST_FRAME_FMT_YUV444RFC4175PG2BE12
| ST_FRAME_FMT_YUV420CUSTOM8 | ST_FRAME_FMT_YUV422CUSTOM8 | ST_FRAME_FMT_YUV420PLANAR8
| ST_FRAME_FMT_YUV422PLANAR16LE | ST_FRAME_FMT_ARGB | ST_FRAME_FMT_BGRA | ST_FRAME_FMT_RGB8
| ST_FRAME_FMT_GBRPLANAR10LE | ST_FRAME_FMT_RGBRFC4175PG4BE10 | ST_FRAME_FMT_GBRPLANAR12LE
| ST_FRAME_FMT_RGBRFC4175PG2BE12 | ST_FRAME_FMT_JPEGXS_CODESTREAM
| ST_FRAME_FMT_H264_CBR_CODESTREAM | ST_FRAME_FMT_H264_CODESTREAM
| ST_FRAME_FMT_H265_CBR_CODESTREAM | ST_FRAME_FMT_H265_CODESTREAM | ST_FRAME_FMT_MAX.
#[export] Instance st_frame_fmt_eq : EqDecision st_frame_fmt.
Proof. solve_decision. Defined.

Inductive st_frame_sampling :=
| ST_FRAME_SAMPLING_422 | ST_FRAME_SAMPLING_444 | ST_FRAME_SAMPLING_420 | ST_FRAME_SAMPLING_MAX.
#[export] Instance st_frame_sampling_eq : EqDecision st_frame_sampling.
Proof. solve_decision. Defined.

Inductive st22_codec :=
| ST22_CODEC_JPEGXS | ST22_CODEC_H264_CBR | ST22_CODEC_H264 | ST22_CODEC_H265_CBR
| ST22_CODEC_H265 | ST22_CODEC_MAX.
#[export] Instance st22_codec_eq : EqDecision st22_codec.
Proof. solve_decision. Defined.

Inductive st20_packing :=
| ST20_PACKING_BPM | ST20_PACKING_GPM | ST20_PACKING_GPM_SL | ST20_PACKING_MAX.
#[export] Instance st20_packing_eq : EqDecision st20_packing.
Proof. solve_decision. Defined.

Inductive st30_fmt :=
| ST30_FMT_PCM8 | ST30_FMT_PCM16 | ST30_FMT_PCM24 | ST31_FMT_AM824 | ST30_FMT_MAX.
#[export] Instance st30_fmt_eq : EqDecision st30_fmt.
Proof. solve_decision. Defined.

Inductive st30_sampling :=
| ST30_SAMPLING_48K | ST30_SAMPLING_96K | ST31_SAMPLING_44K | ST30_SAMPLING_MAX.
#[export] Instance st30_sampling_eq : EqDecision st30_sampling.
Proof. solve_decision. Defined.

Inductive st30_ptime :=
| ST30_PTIME_1MS | ST30_PTIME_125US | ST30_PTIME_250US | ST30_PTIME_333US | ST30_PTIME_4MS
| ST31_PTIME_80US | ST31_PTIME_1_09MS | ST31_PTIME_0_14MS | ST31_PTIME_0_09MS | ST30_PTIME_MAX.
#[export] Instance st30_ptime_eq : EqDecision st30_ptime.
Proof. solve_decision. Defined.

(** ** Tables *)

Record st20_pgroup := mk_pgroup {
  pg_fmt : st20_fmt; pg_size : Z; pg_coverage : Z; pg_name : string;
}.
(** The decimal columns, used only by the floating point search, are left out. *)
Record st_fps_timing := mk_fps_timing {
  tm_fps : st_fps; tm_name : string; sampling_clock_rate : Z; tm_mul : Z; tm_den : Z;
}.
Record st_frame_fmt_desc := mk_fmt_desc {
  desc_fmt : st_frame_fmt; desc_name : string; desc_planes : Z; desc_sampling : st_frame_sampling;
}.
Record cvl_pad_table := mk_cvl_pad {
  pad_fmt : st20_fmt; pad_width : Z; pad_height : Z; pad_fps : st_fps;
  pad_packing : st20_packing; pad_interlaced : bool; pad_interval : Z;
}.

Definition st20_pgroups : list st20_pgroup := [
  mk_pgroup ST20_FMT_YUV_422_10BIT 5 2 "ST20_FMT_YUV_422_10BIT";
  mk_pgroup ST20_FMT_YUV_422_8BIT 4 2 "ST20_FMT_YUV_422_8BIT";
  mk_pgroup ST20_FMT_YUV_422_12BIT 6 2 "ST20_FMT_YUV_422_12BIT";
  mk_pgroup ST20_FMT_YUV_422_16BIT 8 2 "ST20_FMT_YUV_422_16BIT";
  mk_pgroup ST20_FMT_YUV_420_8BIT 6 4 "ST20_FMT_YUV_420_8BIT";
  mk_pgroup ST20_FMT_YUV_420_10BIT 15 8 "ST20_FMT_YUV_420_10BIT";
  mk_pgroup ST20_FMT_YUV_420_12BIT 9 4 "ST20_FMT_YUV_420_12BIT";
  mk_pgroup ST20_FMT_YUV_420_16BIT 12 4 "ST20_FMT_YUV_420_16BIT";
  mk_pgroup ST20_FMT_RGB_8BIT 3 1 "ST20_FMT_RGB_8BIT";
  mk_pgroup ST20_FMT_RGB_10BIT 15 4 "ST20_FMT_RGB_10BIT";
  mk_pgroup ST20_FMT_RGB_12BIT 9 2 "ST20_FMT_RGB_12BIT";
  mk_pgroup ST20_FMT_RGB_16BIT 6 1 "ST20_FMT_RGB_16BIT";
  mk_pgroup ST20_FMT_YUV_444_8BIT 3 1 "ST20_FMT_YUV_444_8BIT";
  mk_pgroup ST20_FMT_YUV_444_10BIT 15 4 "ST20_FMT_YUV_444_10BIT";
  mk_pgroup ST20_FMT_YUV_444_12BIT 9 2 "ST20_FMT_YUV_444_12BIT";
  mk_pgroup ST20_FMT_YUV_444_16BIT 6 1 "ST20_FMT_YUV_444_16BIT";
  mk_pgroup ST20_FMT_YUV_422_PLANAR10LE 4 1 "ST20_FMT_YUV_422_PLANAR10LE";
  mk_pgroup ST20_FMT_V210 8 3 "ST20_FMT_V210"
].

Definition st_fps_timings : list st_fps_timing := [
  mk_fps_timing ST_FPS_P120 "120" (90 * 1000) (120) 1;
  mk_fps_timing ST_FPS_P119_88 "119.88" (90 * 1000) (60000 * 2) 1001;
  mk_fps_timing ST_FPS_P100 "100" (90 * 1000) (100) 1;
  mk_fps_timing ST_FPS_P60 "60" (90 * 1000) (60) 1;
  mk_fps_timing ST_FPS_P59_94 "59.94" (90 * 1000) (60000) 1001;
  mk_fps_timing ST_FPS_P50 "50" (90 * 1000) (50) 1;
  mk_fps_timing ST_FPS_P30 "30" (90 * 1000) (30) 1;
  mk_fps_timing ST_FPS_P29_97 "29.97" (90 * 1000) (30000) 1001;
  mk_fps_timing ST_FPS_P25 "25" (90 * 1000) (25) 1;
  mk_fps_timing ST_FPS_P24 "24" (90 * 1000) (24) 1;
  mk_fps_timing ST_FPS_P23_98 "23.98" (90 * 1000) (24000) 1001
].

Definition st_frame_fmt_descs : list st_frame_fmt_desc := [
  mk_fmt_desc ST_FRAME_FMT_YUV422PLANAR10LE "YUV422PLANAR10LE" 3 ST_FRAME_SAMPLING_422;
  mk_fmt_desc ST_FRAME_FMT_V210 "V210" 1 ST_FRAME_SAMPLING_422;
  mk_fmt_desc ST_FRAME_FMT_Y210 "Y210" 1 ST_FRAME_SAMPLING_422;
  mk_fmt_desc ST_FRAME_FMT_YUV422PLANAR8 "YUV422PLANAR8" 3 ST_FRAME_SAMPLING_422;
  mk_fmt_desc ST_FRAME_FMT_UYVY "UYVY" 1 ST_FRAME_SAMPLING_422;
  mk_fmt_desc ST_FRAME_FMT_YUV422PLANAR12LE "YUV422PLANAR12LE" 3 ST_FRAME_SAMPLING_422;
  mk_fmt_desc ST_FRAME_FMT_YUV444PLANAR10LE "YUV444PLANAR10LE" 3 ST_FRAME_SAMPLING_444;
  mk_fmt_desc ST_FRAME_FMT_YUV444PLANAR12LE "YUV444PLANAR12LE" 3 ST_FRAME_SAMPLING_444;
  mk_fmt_desc ST_FRAME_FMT_GBRPLANAR10LE "GBRPLANAR10LE" 3 ST_FRAME_SAMPLING_444;
  mk_fmt_desc ST_FRAME_FMT_GBRPLANAR12LE "GBRPLANAR12LE" 3 ST_FRAME_SAMPLING_444;
  mk_fmt_desc ST_FRAME_FMT_YUV422RFC4175PG2BE10 "YUV422RFC4175PG2BE10" 1 ST_FRAME_SAMPLING_422;
  mk_fmt_desc ST_FRAME_FMT_YUV422RFC4175PG2BE12 "YUV422RFC4175PG2BE12" 1 ST_FRAME_SAMPLING_422;
  mk_fmt_desc ST_FRAME_FMT_YUV444RFC4175PG4BE10 "YUV444RFC4175PG4BE10" 1 ST_FRAME_SAMPLING_444;
  mk_fmt_desc ST_FRAME_FMT_YUV444RFC4175PG2BE12 "YUV444RFC4175PG2BE12" 1 ST_FRAME_SAMPLING_444;
  mk_fmt_desc ST_FRAME_FMT_YUV420CUSTOM8 "YUV420CUSTOM8" 1 ST_FRAME_SAMPLING_420;
  mk_fmt_desc ST_FRAME_FMT_YUV422CUSTOM8 "YUV422CUSTOM8" 1 ST_FRAME_SAMPLING_422;
  mk_fmt_desc ST_FRAME_FMT_YUV420PLANAR8 "YUV420PLANAR8" 3 ST_FRAME_SAMPLING_420;
  mk_fmt_desc ST_FRAME_FMT_RGBRFC4175PG4BE10 "RGBRFC4175PG4BE10" 1 ST_FRAME_SAMPLING_444;
  mk_fmt_desc ST_FRAME_FMT_RGBRFC4175PG2BE12 "RGBRFC4175PG2BE12" 1 ST_FRAME_SAMPLING_444;
  mk_fmt_desc ST_FRAME_FMT_ARGB "ARGB" 1 ST_FRAME_SAMPLING_444;
  mk_fmt_desc ST_FRAME_FMT_BGRA "BGRA" 1 ST_FRAME_SAMPLING_444;
  mk_fmt_desc ST_FRAME_FMT_RGB8 "RGB8" 1 ST_FRAME_SAMPLING_444;
  mk_fmt_desc ST_FRAME_FMT_JPEGXS_CODESTREAM "JPEGXS_CODESTREAM" 1 ST_FRAME_SAMPLING_MAX;
  mk_fmt_desc ST_FRAME_FMT_H264_CBR_CODESTREAM "H264_CBR_CODESTREAM" 1 ST_FRAME_SAMPLING_MAX;
  mk_fmt_desc ST_FRAME_FMT_H264_CODESTREAM "H264_CODESTREAM" 1 ST_FRAME_SAMPLING_MAX;
  mk_fmt_desc ST_FRAME_FMT_H265_CBR_CODESTREAM "H265_CBR_CODESTREAM" 1 ST_FRAME_SAMPLING_MAX;
  mk_fmt_desc ST_FRAME_FMT_H265_CODESTREAM "H265_CODESTREAM" 1 ST_FRAME_SAMPLING_MAX;
  mk_fmt_desc ST_FRAME_FMT_YUV422PLANAR16LE "YUV422PLANAR16LE" 3 ST_FRAME_SAMPLING_422
].

Definition g_cvl_static_pad_tables : list cvl_pad_table := [
  mk_cvl_pad ST20_FMT_YUV_422_10BIT (1920) (1080) ST_FPS_P50 ST20_PACKING_GPM true 155;
  mk_cvl_pad ST20_FMT_YUV_422_10BIT (1920) (1080) ST_FPS_P50 ST20_PACKING_BPM true 268;
  mk_cvl_pad ST20_FMT_YUV_422_10BIT (1920) (1080) ST_FPS_P50 ST20_PACKING_GPM false 156;
  mk_cvl_pad ST20_FMT_YUV_422_10BIT (1920) (1080) ST_FPS_P50 ST20_PACKING_BPM false 254;
  mk_cvl_pad ST20_FMT_YUV_422_10BIT (1920) (1080) ST_FPS_P59_94 ST20_PACKING_GPM false 160;
  mk_cvl_pad ST20_FMT_YUV_422_10BIT (1920) (1080) ST_FPS_P59_94 ST20_PACKING_BPM false 262;
  mk_cvl_pad ST20_FMT_YUV_422_10BIT (1920 * 2) (1080 * 2) ST_FPS_P50 ST20_PACKING_GPM false 144;
  mk_cvl_pad ST20_FMT_YUV_422_10BIT (1920 * 2) (1080 * 2) ST_FPS_P59_94 ST20_PACKING_BPM false 215;
  mk_cvl_pad ST20_FMT_YUV_422_10BIT (1920 * 2) (1080 * 2) ST_FPS_P59_94 ST20_PACKING_GPM false 145;
  mk_cvl_pad ST20_FMT_YUV_422_10BIT (1920 * 2) (1080 * 2) ST_FPS_P59_94 ST20_PACKING_BPM false 217
].
(** The first row a linear search finds. *)
Fixpoint table_find {A} (p : A -> bool) (l : list A) : option A :=
  match l with
  | [] => None
  | r :: l' => if p r then Some r else table_find p l'
  end.

(** ** Lookups *)

Definition st20_get_pgroup (fmt : st20_fmt) : Z + st20_pgroup :=
  match table_find (fun r => bool_decide (fmt = pg_fmt r)) st20_pgroups with
  | Some pg => inr pg
  | None => inl (- EINVAL)
  end.

(** [size_t] arithmetic. *)
Definition st20_frame_size (fmt : st20_fmt) (width height : Z) : Z :=
  match st20_get_pgroup fmt with
  | inl _ => 0
  | inr pg =>
      let size := u64 (width * height) in
      if negb (size mod pg_coverage pg =? 0) then 0
      else u64 (size * pg_size pg) / pg_coverage pg
  end.

Definition st20_fmt_name (fmt : st20_fmt) : string :=
  match st20_get_pgroup fmt with inl _ => "unknown" | inr pg => pg_name pg end.

Definition st20_name_to_fmt (name : string) : st20_fmt :=
  match table_find (fun r => String.eqb name (pg_name r)) st20_pgroups with
  | Some pg => pg_fmt pg
  | None => ST20_FMT_MAX
  end.

Definition st_get_fps_timing (fps : st_fps) : Z + st_fps_timing :=
  match table_find (fun r => bool_decide (fps = tm_fps r)) st_fps_timings with
  | Some tm => inr tm
  | None => inl (- EINVAL)
  end.

Definition st_frame_period_ns (fps : st_fps) : Z + Z :=
  match st_get_fps_timing fps with
  | inl ret => inl ret
  | inr tm =>
      if (tm_mul tm <=? 0) || (tm_den tm <=? 0) then inl (- EINVAL)
      else inr (u64 (NS_PER_S * tm_den tm) / tm_mul tm)
  end.

Definition st_name_to_fps (name : string) : st_fps :=
  match table_find (fun r => String.eqb name (tm_name r)) st_fps_timings with
  | Some tm => tm_fps tm
  | None => ST_FPS_MAX
  end.

Definition st_frame_fmt_name (fmt : st_frame_fmt) : string :=
  match table_find (fun r => bool_decide (fmt = desc_fmt r)) st_frame_fmt_descs with
  | Some d => desc_name d
  | None => "unknown"
  end.

Definition st_frame_name_to_fmt (name : string) : st_frame_fmt :=
  match table_find (fun r => String.eqb name (desc_name r)) st_frame_fmt_descs with
  | Some d => desc_fmt d
  | None => ST_FRAME_FMT_MAX
  end.

Definition st_name_to_codec (name : string) : st22_codec :=
  if String.eqb name "jpegxs" then ST22_CODEC_JPEGXS
  else if String.eqb name "h264_cbr" then ST22_CODEC_H264_CBR
  else if String.eqb name "h264" then ST22_CODEC_H264
  else if String.eqb name "h265_cbr" then ST22_CODEC_H265_CBR
  else if String.eqb name "h265" then ST22_CODEC_H265
  else ST22_CODEC_MAX.

Definition st_codec_codestream_fmt (codec : st22_codec) : st_frame_fmt :=
  match codec with
  | ST22_CODEC_JPEGXS => ST_FRAME_FMT_JPEGXS_CODESTREAM
  | ST22_CODEC_H264_CBR => ST_FRAME_FMT_H264_CBR_CODESTREAM
  | ST22_CODEC_H264 => ST_FRAME_FMT_H264_CODESTREAM
  | ST22_CODEC_H265_CBR => ST_FRAME_FMT_H265_CBR_CODESTREAM
  | ST22_CODEC_H265 => ST_FRAME_FMT_H265_CODESTREAM
  | ST22_CODEC_MAX => ST_FRAME_FMT_MAX
  end.

Definition st_frame_fmt_planes (fmt : st_frame_fmt) : Z :=
  match table_find (fun r => bool_decide (fmt = desc_fmt r)) st_frame_fmt_descs with
  | Some d => desc_planes d
  | None => 0
  end.

Definition st_frame_fmt_get_sampling (fmt : st_frame_fmt) : st_frame_sampling :=
  match table_find (fun r => bool_decide (fmt = desc_fmt r)) st_frame_fmt_descs with
  | Some d => desc_sampling d
  | None => ST_FRAME_SAMPLING_MAX
  end.

(** ** Sizes *)

Definition st_frame_size (fmt : st_frame_fmt) (width height : Z) (interlaced : bool) : Z :=
  let pixels := u64 (width * height) in
  let size :=
    match fmt with
    | ST_FRAME_FMT_YUV422PLANAR10LE | ST_FRAME_FMT_YUV422PLANAR12LE | ST_FRAME_FMT_Y210 =>
        u64 (pixels * 2 * 2)
    | ST_FRAME_FMT_V210 => if negb (pixels mod 3 =? 0) then 0 else u64 (pixels * 8) / 3
    | ST_FRAME_FMT_YUV422PLANAR8 | ST_FRAME_FMT_YUV422CUSTOM8 | ST_FRAME_FMT_UYVY =>
        u64 (pixels * 2)
    | ST_FRAME_FMT_YUV444PLANAR10LE | ST_FRAME_FMT_YUV444PLANAR12LE
    | ST_FRAME_FMT_GBRPLANAR10LE | ST_FRAME_FMT_GBRPLANAR12LE => u64 (pixels * 2 * 3)
    | ST_FRAME_FMT_YUV422RFC4175PG2BE10 => st20_frame_size ST20_FMT_YUV_422_10BIT width height
    | ST_FRAME_FMT_YUV422RFC4175PG2BE12 => st20_frame_size ST20_FMT_YUV_422_12BIT width height
    | ST_FRAME_FMT_YUV444RFC4175PG4BE10 | ST_FRAME_FMT_RGBRFC4175PG4BE10 =>
        st20_frame_size ST20_FMT_YUV_444_10BIT width height
    | ST_FRAME_FMT_YUV444RFC4175PG2BE12 | ST_FRAME_FMT_RGBRFC4175PG2BE12 =>
        st20_frame_size ST20_FMT_YUV_444_12BIT width height
    | ST_FRAME_FMT_ARGB | ST_FRAME_FMT_BGRA => u64 (pixels * 4)
    | ST_FRAME_FMT_RGB8 => u64 (pixels * 3)
    | ST_FRAME_FMT_YUV420CUSTOM8 | ST_FRAME_FMT_YUV420PLANAR8 =>
        st20_frame_size ST20_FMT_YUV_420_8BIT width height
    | ST_FRAME_FMT_YUV422PLANAR16LE => st20_frame_size ST20_FMT_YUV_422_16BIT width height
    | _ => 0
    end in
  if interlaced then size / 2 else size.

Definition st_frame_least_linesize (fmt : st_frame_fmt) (width plane : Z) : Z :=
  let line := st_frame_size fmt width 1 false in
  if st_frame_fmt_planes fmt =? 1 then
    if plane >? 0 then 0 else line
  else
    match st_frame_fmt_get_sampling fmt with
    | ST_FRAME_SAMPLING_422 =>
        if plane =? 0 then line / 2
        else if (plane =? 1) || (plane =? 2) then line / 4 else 0
    | ST_FRAME_SAMPLING_444 =>
        if (plane =? 0) || (plane =? 1) || (plane =? 2) then line / 3 else 0
    | ST_FRAME_SAMPLING_420 =>
        if plane =? 0 then u64 (line * 4) / 6
        else if (plane =? 1) || (plane =? 2) then line / 6 else 0
    | ST_FRAME_SAMPLING_MAX => 0
    end.

Definition st_frame_fmt_to_transport (fmt : st_frame_fmt) : st20_fmt :=
  match fmt with
  | ST_FRAME_FMT_YUV422RFC4175PG2BE10 => ST20_FMT_YUV_422_10BIT
  | ST_FRAME_FMT_UYVY | ST_FRAME_FMT_YUV422CUSTOM8 => ST20_FMT_YUV_422_8BIT
  | ST_FRAME_FMT_YUV422RFC4175PG2BE12 => ST20_FMT_YUV_422_12BIT
  | ST_FRAME_FMT_YUV444RFC4175PG4BE10 => ST20_FMT_YUV_444_10BIT
  | ST_FRAME_FMT_YUV444RFC4175PG2BE12 => ST20_FMT_YUV_444_12BIT
  | ST_FRAME_FMT_YUV420CUSTOM8 => ST20_FMT_YUV_420_8BIT
  | ST_FRAME_FMT_RGBRFC4175PG4BE10 => ST20_FMT_RGB_10BIT
  | ST_FRAME_FMT_RGBRFC4175PG2BE12 => ST20_FMT_RGB_12BIT
  | ST_FRAME_FMT_RGB8 => ST20_FMT_RGB_8BIT
  | _ => ST20_FMT_MAX
  end.

Definition st_frame_fmt_from_transport (tfmt : st20_fmt) : st_frame_fmt :=
  match tfmt with
  | ST20_FMT_YUV_422_10BIT => ST_FRAME_FMT_YUV422RFC4175PG2BE10
  | ST20_FMT_YUV_422_8BIT => ST_FRAME_FMT_UYVY
  | ST20_FMT_YUV_422_12BIT => ST_FRAME_FMT_YUV422RFC4175PG2BE12
  | ST20_FMT_YUV_444_10BIT => ST_FRAME_FMT_YUV444RFC4175PG4BE10
  | ST20_FMT_YUV_444_12BIT => ST_FRAME_FMT_YUV444RFC4175PG2BE12
  | ST20_FMT_YUV_420_8BIT => ST_FRAME_FMT_YUV420CUSTOM8
  | ST20_FMT_RGB_10BIT => ST_FRAME_FMT_RGBRFC4175PG4BE10
  | ST20_FMT_RGB_12BIT => ST_FRAME_FMT_RGBRFC4175PG2BE12
  | ST20_FMT_RGB_8BIT => ST_FRAME_FMT_RGB8
  | ST20_FMT_YUV_422_PLANAR10LE => ST_FRAME_FMT_YUV422PLANAR10LE
  | ST20_FMT_V210 => ST_FRAME_FMT_V210
  | _ => ST_FRAME_FMT_MAX
  end.

Definition st_frame_fmt_equal_transport (fmt : st_frame_fmt) (tfmt : st20_fmt) : bool :=
  if bool_decide (fmt = ST_FRAME_FMT_YUV422CUSTOM8) || bool_decide (fmt = ST_FRAME_FMT_YUV420CUSTOM8)
  then true
  else
    let to_fmt := st_frame_fmt_from_transport tfmt in
    if bool_decide (to_fmt = ST_FRAME_FMT_MAX) then false else bool_decide (fmt = to_fmt).

(** ** Frames of one allocation *)

Record st_frame := mk_frame {
  fr_addr : list Z; fr_iova : list Z; fr_linesize : list Z;
  fr_fmt : st_frame_fmt; fr_interlaced : bool; fr_buffer_size : Z; fr_data_size : Z;
  fr_width : Z; fr_height : Z; fr_flags : Z;
}.
#[export] Instance eta_st_frame : Settable st_frame := fun f =>
  mk_frame (fr_addr f) (fr_iova f) (fr_linesize f) (fr_fmt f) (fr_interlaced f)
    (fr_buffer_size f) (fr_data_size f) (fr_width f) (fr_height f) (fr_flags f).

Definition ST_MAX_PLANES : Z := 4.
Definition ST_FRAME_FLAG_SINGLE_MALLOC : Z := Z.shiftl 1 1.
Definition ST_FRAME_FLAG_RTE_MALLOC : Z := Z.shiftl 1 2.

Definition st_frame_data_height (f : st_frame) : Z :=
  if fr_interlaced f then fr_height f / 2 else fr_height f.

Definition st_frame_init_plane_single_src (f : st_frame) (addr iova : Z) : st_frame :=
  for_from 0 (Z.to_nat (st_frame_fmt_planes (fr_fmt f)))
    (fun plane f =>
       let f := f <| fr_linesize ::= fun l =>
                  arr_set l plane (st_frame_least_linesize (fr_fmt f) (fr_width f) plane) |> in
       if plane =? 0 then
         f <| fr_addr ::= fun l => arr_set l plane addr |>
           <| fr_iova ::= fun l => arr_set l plane iova |>
       else
         let step := u64 (arr_get 0 (fr_linesize f) (plane - 1) * st_frame_data_height f) in
         let f := f <| fr_addr ::= fun l => arr_set l plane (u64 (arr_get 0 l (plane - 1) + step)) |> in
         f <| fr_iova ::= fun l => arr_set l plane (u64 (arr_get 0 l (plane - 1) + step)) |>) f.

(** The zeroed structure the creating functions start from. *)
Definition st_frame_blank (fmt : st_frame_fmt) (w h : Z) (interlaced : bool) (flags : Z) : st_frame :=
  mk_frame [0; 0; 0; 0] [0; 0; 0; 0] [0; 0; 0; 0] fmt interlaced 0 0 w h flags.

(** [alloc_data size] is the address the second allocation gives, 0 when it
    fails; [virt2iova] the IOVA of an address. *)
Definition st_frame_create (ok_frame : bool) (alloc_data : Z -> Z) (virt2iova : Z -> Z)
    (fmt : st_frame_fmt) (w h : Z) (interlaced : bool) : option st_frame :=
  if negb ok_frame then None
  else
    let f := st_frame_blank fmt w h interlaced (Z.lor ST_FRAME_FLAG_SINGLE_MALLOC ST_FRAME_FLAG_RTE_MALLOC) in
    let data_sz := st_frame_size fmt w h interlaced in
    let data := alloc_data data_sz in
    if data =? 0 then None
    else
      let f := f <| fr_buffer_size := data_sz |> <| fr_data_size := data_sz |> in
      Some (st_frame_init_plane_single_src f data (virt2iova data)).

Definition st_frame_create_by_malloc (ok_frame : bool) (alloc_data : Z -> Z)
    (fmt : st_frame_fmt) (w h : Z) (interlaced : bool) : option st_frame :=
  if negb ok_frame then None
  else
    let f := st_frame_blank fmt w h interlaced ST_FRAME_FLAG_SINGLE_MALLOC in
    let data_sz := st_frame_size fmt w h interlaced in
    let data := if c_true data_sz then alloc_data data_sz else 0 in
    if data =? 0 then None
    else
      let f := f <| fr_addr ::= fun l => arr_set l 0 data |>
                 <| fr_buffer_size := data_sz |> <| fr_data_size := data_sz |> in
      Some (st_frame_init_plane_single_src f data 0).

(** The allocator that owns a block. *)
Inductive frame_heap := HeapRte | HeapMalloc.

(** The result and the blocks given back: data first, then the structure. *)
Definition st_frame_free (f : st_frame) : Z * list (frame_heap * option Z) :=
  if negb (has_flag (fr_flags f) ST_FRAME_FLAG_SINGLE_MALLOC) then (- EINVAL, [])
  else
    let heap := if has_flag (fr_flags f) ST_FRAME_FLAG_RTE_MALLOC then HeapRte else HeapMalloc in
    let data := arr_get 0 (fr_addr f) 0 in
    (0, (if c_true data then [(heap, Some data)] else []) ++ [(heap, None)]).

Definition st_frame_plane_ok (f : st_frame) (plane : Z) : bool :=
  negb (arr_get 0 (fr_addr f) plane =? 0) &&
  negb (arr_get 0 (fr_linesize f) plane <? st_frame_least_linesize (fr_fmt f) (fr_width f) plane) &&
  negb (fr_data_size f >? fr_buffer_size f) &&
  negb (fr_data_size f <? st_frame_size (fr_fmt f) (fr_width f) (fr_height f) (fr_interlaced f)).

Definition st_frame_sanity_check (f : st_frame) : Z :=
  let planes := st_frame_fmt_planes (fr_fmt f) in
  if planes =? 0 then - EINVAL
  else if forallb (st_frame_plane_ok f) (seqZ 0 planes) then 0 else - EINVAL.

(** The copies [st_draw_logo] makes, as (destination, source, length) in bytes
    from the start of the two frames; the offsets are [uint32_t] arithmetic. *)
Definition st_draw_logo (frame logo : st_frame) (x y : Z) : Z * list (Z * Z * Z) :=
  if negb (bool_decide (fr_fmt frame = fr_fmt logo)) then (- EINVAL, [])
  else if negb (bool_decide (fr_fmt frame = ST_FRAME_FMT_YUV422RFC4175PG2BE10)) then (- EINVAL, [])
  else if u32 (x + fr_width logo) >? fr_width frame then (- EINVAL, [])
  else if u32 (y + fr_height logo) >? fr_height frame then (- EINVAL, [])
  else
    let logo_col_size := u32 (fr_width logo / 2 * 5) in
    (0, (fun col =>
           (u32 (u32 (u32 (col + y) * fr_width frame + x) / 2 * 5),
            u32 (u32 (col * fr_width logo) / 2 * 5), logo_col_size))
          <$> seqZ 0 (fr_height logo)).

(** ** Clocks

    [__uint128_t] intermediate results are exact here: the operands are 64 and
    32 bits wide and no product exceeds 128 bits. *)

Definition st_muldiv_u64_round_closest (value multiplier divisor : Z) : Z :=
  let product := value * multiplier in
  let quotient := product / divisor in
  let remainder := product - quotient * divisor in
  let half := divisor / 2 in
  let quotient := if remainder >? half then quotient + 1 else quotient in
  u64 quotient.

Definition st_epoch_to_tai (epoch mul den : Z) : Z :=
  let tai := epoch * NS_PER_S * den / mul in
  if tai >=? UINT64_MAX then UINT64_MAX else u64 tai.

Definition st_tai_to_epoch (tai_ns mul den : Z) : Z :=
  u64 (((tai_ns + 1) * mul - 1) / (NS_PER_S * den)).

Definition st_tai_to_nearest_epoch (tai_ns mul den : Z) : Z :=
  let period_num := NS_PER_S * den in
  u64 ((2 * tai_ns * mul + period_num) / (2 * period_num)).

Definition st_tai_round_to_media_clk_ns (tai_ns sampling_rate : Z) : Z :=
  if sampling_rate =? 0 then tai_ns
  else
    let tick := st_muldiv_u64_round_closest tai_ns sampling_rate NS_PER_S in
    if tick * NS_PER_S / sampling_rate >=? UINT64_MAX then UINT64_MAX
    else st_muldiv_u64_round_closest tick NS_PER_S sampling_rate.

Definition st10_tai_to_media_clk (tai_ns sampling_rate : Z) : Z :=
  if sampling_rate =? 0 then 0
  else u32 (st_muldiv_u64_round_closest tai_ns sampling_rate NS_PER_S).

Definition st10_media_clk_to_ns (media_ts sampling_rate : Z) : Z :=
  if sampling_rate =? 0 then 0
  else st_muldiv_u64_round_closest media_ts NS_PER_S sampling_rate.

(** ** Audio *)

(** The packet time as the exact quotient (numerator, denominator) of
    nanoseconds the code evaluates in [double]. *)
Definition st30_get_packet_time (ptime : st30_ptime) : option (Z * Z) :=
  match ptime with
  | ST30_PTIME_1MS => Some (1000000000 * 1, 1000)
  | ST30_PTIME_125US => Some (1000000000 * 1, 8000)
  | ST30_PTIME_250US => Some (1000000000 * 1, 4000)
  | ST30_PTIME_333US => Some (1000000000 * 1, 3000)
  | ST30_PTIME_4MS => Some (1000000000 * 4, 1000)
  | ST31_PTIME_80US => Some (1000000000 * 4, 48000)
  | ST31_PTIME_1_09MS => Some (1000000000 * 48, 44100)
  | ST31_PTIME_0_14MS => Some (1000000000 * 6, 44100)
  | ST31_PTIME_0_09MS => Some (1000000000 * 4, 44100)
  | ST30_PTIME_MAX => None
  end.

Definition st30_get_sample_size (fmt : st30_fmt) : Z :=
  match fmt with
  | ST30_FMT_PCM16 => 2
  | ST30_FMT_PCM24 => 3
  | ST30_FMT_PCM8 => 1
  | ST31_FMT_AM824 => 4
  | ST30_FMT_MAX => - EINVAL
  end.

Definition st30_get_sample_num (ptime : st30_ptime) (sampling : st30_sampling) : Z :=
  match sampling with
  | ST30_SAMPLING_48K =>
      match ptime with
      | ST30_PTIME_1MS => 48
      | ST30_PTIME_125US => 6
      | ST30_PTIME_250US => 12
      | ST30_PTIME_333US => 16
      | ST30_PTIME_4MS => 192
      | ST31_PTIME_80US => 4
      | _ => - EINVAL
      end
  | ST30_SAMPLING_96K =>
      match ptime with
      | ST30_PTIME_1MS => 96
      | ST30_PTIME_125US => 12
      | ST30_PTIME_250US => 24
      | ST30_PTIME_333US => 32
      | ST30_PTIME_4MS => 384
      | ST31_PTIME_80US => 8
      | _ => - EINVAL
      end
  | ST31_SAMPLING_44K =>
      match ptime with
      | ST31_PTIME_1_09MS => 48
      | ST31_PTIME_0_14MS => 6
      | ST31_PTIME_0_09MS => 4
      | _ => - EINVAL
      end
  | ST30_SAMPLING_MAX => - EINVAL
  end.

Definition st30_get_sample_rate (sampling : st30_sampling) : Z :=
  match sampling with
  | ST30_SAMPLING_48K => 48000
  | ST30_SAMPLING_96K => 96000
  | ST31_SAMPLING_44K => 44100
  | ST30_SAMPLING_MAX => - EINVAL
  end.

Definition st30_get_packet_size (fmt : st30_fmt) (ptime : st30_ptime) (sampling : st30_sampling)
    (channel : Z) : Z :=
  let sample_size := st30_get_sample_size fmt in
  if sample_size <? 0 then sample_size
  else
    let sample_num := st30_get_sample_num ptime sampling in
    if sample_num <? 0 then sample_num
    else if channel =? 0 then - EINVAL
    else i32 (sample_size * sample_num * channel).

(** ** Static pacing pads *)

Definition st20_pacing_static_profiling (is_st22 : bool) (fmt : st20_fmt) (width height : Z)
    (fps : st_fps) (packing : st20_packing) (interlaced : bool) : Z :=
  if is_st22 then 0
  else
    match table_find (fun r =>
        bool_decide (fmt = pad_fmt r) && (width =? pad_width r) && (height =? pad_height r) &&
        bool_decide (fps = pad_fps r) && bool_decide (packing = pad_packing r) &&
        bool_decide (interlaced = pad_interlaced r)) g_cvl_static_pad_tables with
    | Some refer => pad_interval refer
    | None => 0
    end.

(** ** Facts about clocks *)

(** The result is the integer nearest to [value * multiplier / divisor], the
    smaller one of two equally near. *)
Definition nearest_down (num d q : Z) : Prop := - d < 2 * num - 2 * (q * d) <= d.

Lemma nearest_down_unique num d q q' :
  0 < d -> nearest_down num d q -> nearest_down num d q' -> q = q'.
Proof. unfold nearest_down. intros. nia. Qed.

Lemma muldiv_nearest v m d :
  0 <= v -> 0 <= m -> 0 < d -> v * m / d + 1 < 18446744073709551616 ->
  nearest_down (v * m) d (st_muldiv_u64_round_closest v m d) /\
  0 <= st_muldiv_u64_round_closest v m d.
Proof.
  intros Hv Hm Hd Hfit. unfold st_muldiv_u64_round_closest, nearest_down.
  pose proof (Z.div_mod (v * m) d ltac:(lia)) as Hdm. pose proof (Z.mod_pos_bound (v * m) d Hd) as Hr.
  pose proof (Z.div_pos (v * m) d ltac:(nia) Hd) as Hq.
  set (q := v * m / d) in *. set (r := (v * m) mod d) in *.
  replace (v * m - q * d) with r by lia. rewrite Z.gtb_ltb.
  assert (Hhalf : 2 * (d / 2) <= d < 2 * (d / 2) + 2) by (Z.to_euclidean_division_equations; lia).
  destruct (Z.ltb_spec (d / 2) r); rewrite u64_id by (unfold is_u64; lia); nia.
Qed.

Section Epoch.
Context (mul den : Z).
Hypothesis Hmul : 0 < mul.
Hypothesis Hden : 0 < den.
(** A period is at least a nanosecond long. *)
Hypothesis Hper : mul <= NS_PER_S * den.

Lemma tai_to_epoch_nowrap t :
  is_u64 t -> st_tai_to_epoch t mul den = ((t + 1) * mul - 1) / (NS_PER_S * den).
Proof.
  intros Ht. unfold st_tai_to_epoch. apply u64_id. unfold is_u64, NS_PER_S in *. split.
  - apply Z.div_pos; nia.
  - apply Z.div_lt_upper_bound; nia.
Qed.

Lemma epoch_start_le k t : 0 <= k -> 
  (k * NS_PER_S * den / mul <= t <-> k <= ((t + 1) * mul - 1) / (NS_PER_S * den)).
Proof.
  intros Hk. unfold NS_PER_S in *.
  pose proof (Z.div_mod (k * 1000000000 * den) mul ltac:(lia)) as H1.
  pose proof (Z.mod_pos_bound (k * 1000000000 * den) mul ltac:(lia)) as H2.
  split.
  - intros H. apply Z.div_le_lower_bound; [lia|]. nia.
  - intros H.
    pose proof (Z.mul_div_le ((t + 1) * mul - 1) (1000000000 * den) ltac:(lia)) as H3.
    assert (k * (1000000000 * den) <= (t + 1) * mul - 1) by nia.
    apply Z.lt_succ_r. apply Z.div_lt_upper_bound; nia.
Qed.

(** [st_tai_to_epoch] and [st_epoch_to_tai] form a Galois connection: for every
    time below the saturation value, epoch [k] has started by [t] exactly when
    [k] is at most the epoch computed for [t]. Hence the computed epoch is the
    one that contains [t], and asking for the epoch of an epoch's start gives
    the epoch back. *)
Theorem st_epoch_galois k t :
  0 <= k -> 0 <= t < UINT64_MAX ->
  (st_epoch_to_tai k mul den <= t <-> k <= st_tai_to_epoch t mul den) /\
  (st_epoch_to_tai k mul den < UINT64_MAX ->
   st_tai_to_epoch (st_epoch_to_tai k mul den) mul den = k).
Proof.
  intros Hk Ht. unfold UINT64_MAX in *.
  assert (Hpos : 0 <= k * NS_PER_S * den / mul) by (apply Z.div_pos; unfold NS_PER_S; nia).
  split.
  - rewrite tai_to_epoch_nowrap by (unfold is_u64; lia). rewrite <- epoch_start_le by done.
    unfold st_epoch_to_tai, UINT64_MAX. rewrite Z.geb_leb.
    destruct (Z.leb_spec 18446744073709551615 (k * NS_PER_S * den / mul)); [lia|].
    rewrite u64_id by (unfold is_u64; lia). done.
  - unfold st_epoch_to_tai at 1 2, UINT64_MAX. rewrite Z.geb_leb.
    destruct (Z.leb_spec 18446744073709551615 (k * NS_PER_S * den / mul)); [lia|]. intros _.
    rewrite u64_id by (unfold is_u64; lia).
    rewrite tai_to_epoch_nowrap by (unfold is_u64; lia).
    apply Z.le_antisymm; [|by apply epoch_start_le].
    destruct (Z.le_gt_cases (((k * NS_PER_S * den / mul + 1) * mul - 1) / (NS_PER_S * den)) k) as [|Hgt]; [done|].
    assert (Hk1 : k + 1 <= ((k * NS_PER_S * den / mul + 1) * mul - 1) / (NS_PER_S * den)) by lia.
    apply epoch_start_le in Hk1; [|lia].
    assert (k * NS_PER_S * den / mul + 1 <= (k + 1) * NS_PER_S * den / mul); [|lia].
    rewrite <- Z.div_add by lia. apply Z.div_le_mono; unfold NS_PER_S in *; nia.
Qed.
End Epoch.

Lemma st_epoch_galois_witness :
  (st_epoch_to_tai 3 60000 1001 <= 50050000 <-> 3 <= st_tai_to_epoch 50050000 60000 1001) /\
  st_epoch_to_tai 3 60000 1001 = 50050000 /\ st_tai_to_epoch 50050000 60000 1001 = 3.
Proof.
  split; [|vm_compute; done].
  apply (st_epoch_galois 60000 1001); vm_compute; done.
Defined.

Section Snap.
Context (rate : Z).
Hypothesis Hr : 0 < rate < NS_PER_S.

(** The tick nearest to a time. *)
Lemma tick_nearest t :
  0 <= t < UINT64_MAX ->
  nearest_down (t * rate) NS_PER_S (st_muldiv_u64_round_closest t rate NS_PER_S) /\
  0 <= st_muldiv_u64_round_closest t rate NS_PER_S.
Proof.
  intros Ht. unfold NS_PER_S, UINT64_MAX in *. apply muldiv_nearest; try lia.
  assert (t * rate / 1000000000 <= t); [|lia]. apply Z.div_le_upper_bound; nia.
Qed.

Lemma tick_time k :
  0 <= k -> k * NS_PER_S / rate + 1 < 18446744073709551615 ->
  nearest_down (k * NS_PER_S) rate (st_muldiv_u64_round_closest k NS_PER_S rate) /\
  0 <= st_muldiv_u64_round_closest k NS_PER_S rate <= k * NS_PER_S / rate + 1.
Proof.
  intros Hk Hfit. unfold NS_PER_S in *.
  destruct (muldiv_nearest k 1000000000 rate) as [Hn H0]; try lia. split; [done|]. split; [done|].
  unfold nearest_down in Hn. set (q := st_muldiv_u64_round_closest _ _ _) in *.
  assert (q - 1 <= k * 1000000000 / rate); [|lia]. apply Z.div_le_lower_bound; nia.
Qed.

(** The time of a tick has that tick as its nearest one. *)
Lemma tick_of_time k :
  0 <= k -> k * NS_PER_S / rate + 1 < 18446744073709551615 ->
  st_muldiv_u64_round_closest (st_muldiv_u64_round_closest k NS_PER_S rate) rate NS_PER_S = k.
Proof.
  intros Hk Hfit. destruct (tick_time k Hk Hfit) as [Hn [H0 H1]].
  set (t := st_muldiv_u64_round_closest k NS_PER_S rate) in *.
  destruct (tick_nearest t) as [Hn' _]; [unfold UINT64_MAX; lia|].
  eapply nearest_down_unique; [|exact Hn'|]; [unfold NS_PER_S; lia|].
  unfold nearest_down in *. lia.
Qed.
End Snap.

(** snapping a time to the media clock gives a fixed point of snapping that has
    the same RTP timestamp as the original time and differs from it by at most
    half a tick and half a nanosecond, for every sampling rate below 1 GHz and
    every time that is not within a tick of the end of the 64-bit range. *)
Theorem st_media_clk_snap tai rate :
  0 < rate < NS_PER_S -> 0 <= tai -> tai + NS_PER_S < UINT64_MAX ->
  let snapped := st_tai_round_to_media_clk_ns tai rate in
  st_tai_round_to_media_clk_ns snapped rate = snapped /\
  st10_tai_to_media_clk snapped rate = st10_tai_to_media_clk tai rate /\
  2 * rate * Z.abs (snapped - tai) <= NS_PER_S + rate.
Proof.
  intros Hr Ht Hmax snapped.
  destruct (tick_nearest rate Hr tai) as [Hk Hk0]; [unfold NS_PER_S in *; lia|].
  set (k := st_muldiv_u64_round_closest tai rate NS_PER_S) in *.
  assert (Hfit : k * NS_PER_S / rate + 1 < UINT64_MAX).
  { assert (k * NS_PER_S / rate <= tai + 500000000).
    { apply Z.div_le_upper_bound; [lia|]. unfold nearest_down, NS_PER_S in *.
      nia. }
    unfold NS_PER_S, UINT64_MAX in *. lia. }
  destruct (tick_time rate Hr k Hk0 Hfit) as [Hn [H0 H1]].
  pose proof (tick_of_time rate Hr k Hk0 Hfit) as Hback.
  assert (Hsnap : forall t, st_muldiv_u64_round_closest t rate NS_PER_S = k ->
    st_tai_round_to_media_clk_ns t rate = st_muldiv_u64_round_closest k NS_PER_S rate).
  { intros t Hkt. unfold st_tai_round_to_media_clk_ns. rewrite Hkt.
    replace (rate =? 0) with false by lia.
    by replace (k * NS_PER_S / rate >=? UINT64_MAX) with false by lia. }
  assert (Hs : snapped = st_muldiv_u64_round_closest k NS_PER_S rate) by (by apply Hsnap).
  split; [by rewrite Hs, Hsnap|]. split.
  - unfold st10_tai_to_media_clk. replace (rate =? 0) with false by lia. by rewrite Hs, Hback.
  - rewrite Hs. set (t := st_muldiv_u64_round_closest k NS_PER_S rate) in *.
    unfold nearest_down in Hk, Hn. nia.
Qed.

Lemma st_media_clk_snap_witness :
  st_tai_round_to_media_clk_ns 1000000 90000 = 1000000 /\
  (let s := st_tai_round_to_media_clk_ns 1234567 48000 in st_tai_round_to_media_clk_ns s 48000 = s).
Proof.
  split; [vm_compute; done|]. apply (st_media_clk_snap 1234567 48000); vm_compute; done.
Defined.

(** ** Facts about formats *)

(** names and values of the transport formats, the frame rates and the frame
    formats are in one-to-one correspondence: looking a value up by the name of
    a valid value gives that value back, every valid value is in its table, and
    every codec name maps to a codestream format. *)
Theorem fmt_names_roundtrip :
  (forall fmt, fmt <> ST20_FMT_MAX -> st20_name_to_fmt (st20_fmt_name fmt) = fmt) /\
  (forall fps, fps <> ST_FPS_MAX -> exists tm, st_get_fps_timing fps = inr tm /\
     tm_fps tm = fps /\ st_name_to_fps (tm_name tm) = fps) /\
  (forall fmt, fmt <> ST_FRAME_FMT_MAX ->
     st_frame_name_to_fmt (st_frame_fmt_name fmt) = fmt /\ 1 <= st_frame_fmt_planes fmt <= ST_MAX_PLANES) /\
  st20_get_pgroup ST20_FMT_MAX = inl (- EINVAL) /\ st_get_fps_timing ST_FPS_MAX = inl (- EINVAL) /\
  st_frame_fmt_planes ST_FRAME_FMT_MAX = 0.
Proof.
  repeat split.
  - intros [] H; done.
  - intros [] H; try done; eexists; done.
  - by destruct fmt.
  - by destruct fmt.
  - by destruct fmt.
Qed.

(** the frame period of a rate is its exact length in nanoseconds, rounded
    down: the product of period and [mul] misses [NS_PER_S * den] by less than
    [mul], for all eleven rates; an unknown rate is refused. *)
Theorem st_frame_period_exact fps :
  match st_frame_period_ns fps with
  | inl ret => fps = ST_FPS_MAX /\ ret = - EINVAL
  | inr period => exists tm, st_get_fps_timing fps = inr tm /\ 0 < period /\
      period * tm_mul tm <= NS_PER_S * tm_den tm < (period + 1) * tm_mul tm
  end.
Proof. destruct fps; (split || (eexists; split; [vm_compute; reflexivity|])); vm_compute; done. Qed.

(** A size of [s] bytes for every [c] pixels, 0 when the pixels do not fill groups. *)
Definition group_size (s c px : Z) : Z := if px mod c =? 0 then px * s / c else 0.

(** Frame sides for which no size computation wraps. *)
Definition side_ok (x : Z) : Prop := 0 <= x < 268435456.

Lemma st20_frame_size_group fmt w h :
  side_ok w -> side_ok h ->
  st20_frame_size fmt w h =
    match st20_get_pgroup fmt with
    | inl _ => 0
    | inr pg => group_size (pg_size pg) (pg_coverage pg) (w * h)
    end.
Proof.
  unfold side_ok, st20_frame_size, group_size. intros Hw Hh. assert (0 <= w * h < 72057594037927936) by nia.
  rewrite (u64_id (w * h)) by (unfold is_u64; lia).
  assert (Hpg : match st20_get_pgroup fmt with inl _ => True | inr pg => 0 <= pg_size pg <= 15 end)
    by (by destruct fmt; vm_compute).
  destruct (st20_get_pgroup fmt) as [|pg]; [done|]. rewrite u64_id by (unfold is_u64; nia).
  by destruct (_ =? 0).
Qed.

Lemma group_size_1 s px : group_size s 1 px = px * s.
Proof. unfold group_size. by rewrite Z.mod_1_r, Z.div_1_r. Qed.

(** Bytes and pixels of the group each frame format is made of. *)
Definition fmt_group (fmt : st_frame_fmt) : Z * Z :=
  match fmt with
  | ST_FRAME_FMT_YUV422PLANAR10LE | ST_FRAME_FMT_YUV422PLANAR12LE | ST_FRAME_FMT_Y210 => (4, 1)
  | ST_FRAME_FMT_V210 => (8, 3)
  | ST_FRAME_FMT_YUV422PLANAR8 | ST_FRAME_FMT_YUV422CUSTOM8 | ST_FRAME_FMT_UYVY => (2, 1)
  | ST_FRAME_FMT_YUV444PLANAR10LE | ST_FRAME_FMT_YUV444PLANAR12LE
  | ST_FRAME_FMT_GBRPLANAR10LE | ST_FRAME_FMT_GBRPLANAR12LE => (6, 1)
  | ST_FRAME_FMT_YUV422RFC4175PG2BE10 => (5, 2)
  | ST_FRAME_FMT_YUV422RFC4175PG2BE12 => (6, 2)
  | ST_FRAME_FMT_YUV444RFC4175PG4BE10 | ST_FRAME_FMT_RGBRFC4175PG4BE10 => (15, 4)
  | ST_FRAME_FMT_YUV444RFC4175PG2BE12 | ST_FRAME_FMT_RGBRFC4175PG2BE12 => (9, 2)
  | ST_FRAME_FMT_ARGB | ST_FRAME_FMT_BGRA => (4, 1)
  | ST_FRAME_FMT_RGB8 => (3, 1)
  | ST_FRAME_FMT_YUV420CUSTOM8 | ST_FRAME_FMT_YUV420PLANAR8 => (6, 4)
  | ST_FRAME_FMT_YUV422PLANAR16LE => (8, 2)
  | _ => (0, 1)
  end.

Lemma st_frame_size_group fmt w h il :
  side_ok w -> side_ok h ->
  st_frame_size fmt w h il =
    let size := group_size (fst (fmt_group fmt)) (snd (fmt_group fmt)) (w * h) in
    if il then size / 2 else size.
Proof.
  intros Hw Hh. assert (Hpx : 0 <= w * h < 72057594037927936) by (unfold side_ok in *; nia).
  unfold st_frame_size. rewrite (u64_id (w * h)) by (unfold is_u64; lia). cbv zeta.
  destruct fmt; cbn [fmt_group fst snd]; rewrite ?st20_frame_size_group by done;
    rewrite ?group_size_1, ?Z.mul_0_r; rewrite ?u64_id by (unfold is_u64; lia); try done;
    try (rewrite <- (Z.mul_assoc (w * h)); done).
  unfold group_size. by destruct ((w * h) mod 3 =? 0).
Qed.

(** Lines put below each other fit a frame. *)
Lemma group_size_lines s c w h : 0 <= s -> 0 < c -> 0 <= w -> 0 <= h ->
  group_size s c w * h <= group_size s c (w * h).
Proof.
  intros Hs Hc Hw Hh. unfold group_size.
  destruct (Z.eqb_spec (w mod c) 0) as [E|E].
  - apply Z.mod_divide in E as [k ->]; [|lia].
    replace (k * c * h) with (k * h * c) by ring. rewrite Z.mod_mul by lia. simpl.
    replace (k * c * s) with (k * s * c) by ring. replace (k * h * c * s) with (k * h * s * c) by ring.
    rewrite !Z.div_mul by lia. nia.
  - rewrite Z.mul_0_l. case_if; [|done]. apply Z.div_pos; nia.
Qed.

Lemma fmt_group_pos fmt : 0 <= fst (fmt_group fmt) <= 15 /\ 0 < snd (fmt_group fmt).
Proof. by destruct fmt. Qed.

(** The data lines of a frame fit its size. *)
Lemma frame_lines_fit fmt w h (il : bool) :
  side_ok w -> side_ok h ->
  0 <= st_frame_size fmt w 1 false /\
  st_frame_size fmt w 1 false * (if il then h / 2 else h) <= st_frame_size fmt w h il.
Proof.
  intros Hw Hh. rewrite !st_frame_size_group by (done || (unfold side_ok in *; lia)). cbv zeta. rewrite Z.mul_1_r.
  destruct (fmt_group_pos fmt) as [Hs Hc]. unfold side_ok in *.
  set (s := fst (fmt_group fmt)) in *. set (c := snd (fmt_group fmt)) in *.
  pose proof (group_size_lines s c w h ltac:(lia) Hc ltac:(lia) ltac:(lia)) as Hl.
  assert (Hp : 0 <= group_size s c w) by (unfold group_size; case_if; [apply Z.div_pos; nia|lia]).
  split; [done|]. destruct il; [|done].
  apply Z.div_le_lower_bound; [lia|]. pose proof (Z.mul_div_le h 2 ltac:(lia)). nia.
Qed.

(** The planes of a line share its bytes. *)
Lemma plane_lines_fit fmt w :
  side_ok w ->
  let l := st_frame_least_linesize fmt w in
  0 <= l 0 /\ 0 <= l 1 /\ 0 <= l 2 /\ l 0 + l 1 + l 2 <= st_frame_size fmt w 1 false.
Proof.
  intros Hw l. destruct (frame_lines_fit fmt w 1 false Hw ltac:(unfold side_ok; lia)) as [Hp _].
  subst l. unfold st_frame_least_linesize.
  assert (Hb : st_frame_size fmt w 1 false < 18446744073709551616 / 4).
  { rewrite st_frame_size_group by (done || (unfold side_ok in *; lia)). cbv zeta. rewrite Z.mul_1_r.
    destruct (fmt_group_pos fmt) as [Hs Hc]. unfold group_size, side_ok in *.
    change (18446744073709551616 / 4) with 4611686018427387904. case_if; [|lia].
    apply Z.div_lt_upper_bound; nia. }
  change (18446744073709551616 / 4) with 4611686018427387904 in Hb.
  generalize dependent (st_frame_size fmt w 1 false). intros line Hp Hb.
  destruct (st_frame_fmt_planes fmt =? 1); [cbn; lia|].
  destruct (st_frame_fmt_get_sampling fmt); cbn [Z.eqb Pos.eqb orb]; rewrite ?u64_id by (unfold is_u64; lia);
    Z.to_euclidean_division_equations; lia.
Qed.

Lemma planes_cases fmt : fmt <> ST_FRAME_FMT_MAX -> st_frame_fmt_planes fmt = 1 \/ st_frame_fmt_planes fmt = 3.
Proof. destruct fmt; intros H; vm_compute; auto; done. Qed.

(** The planes of a frame of one allocation, written out. *)
Definition plane_addrs (planes a step0 step1 : Z) : list Z :=
  if planes =? 1 then [a; 0; 0; 0] else [a; u64 (a + step0); u64 (u64 (a + step0) + step1); 0].

Lemma init_plane_eq fmt w h (il : bool) flags size a iova :
  st_frame_fmt_planes fmt = 1 \/ st_frame_fmt_planes fmt = 3 ->
  let l := st_frame_least_linesize fmt w in
  let dh := if il then h / 2 else h in
  st_frame_init_plane_single_src
    (st_frame_blank fmt w h il flags <| fr_buffer_size := size |> <| fr_data_size := size |>) a iova =
  mk_frame (plane_addrs (st_frame_fmt_planes fmt) a (u64 (l 0 * dh)) (u64 (l 1 * dh)))
           (plane_addrs (st_frame_fmt_planes fmt) iova (u64 (l 0 * dh)) (u64 (l 1 * dh)))
           (if st_frame_fmt_planes fmt =? 1 then [l 0; 0; 0; 0] else [l 0; l 1; l 2; 0])
           fmt il size size w h flags.
Proof.
  intros Hp l dh. unfold st_frame_init_plane_single_src, plane_addrs.
  change (fr_fmt (st_frame_blank fmt w h il flags <| fr_buffer_size := size |> <| fr_data_size := size |>)) with fmt.
  destruct Hp as [-> | ->].
  - reflexivity.
  - reflexivity.
Qed.

Lemma frame_free_rte f a :
  fr_flags f = Z.lor ST_FRAME_FLAG_SINGLE_MALLOC ST_FRAME_FLAG_RTE_MALLOC ->
  arr_get 0 (fr_addr f) 0 = a -> 0 < a -> st_frame_free f = (0, [(HeapRte, Some a); (HeapRte, None)]).
Proof.
  intros Hf Ha Hpos. unfold st_frame_free. rewrite Hf, Ha. change (has_flag _ _) with true at 1 2.
  unfold c_true. by replace (a =? 0) with false by lia.
Qed.

(** A frame made by [st_frame_create] is laid out inside its one allocation. The
    planes follow each other without overlap and the last one ends at or before
    the end of the buffer, for every format, interlaced or not; the frame passes
    [st_frame_sanity_check]; and [st_frame_free] gives back exactly the two
    blocks to the allocator they came from. *)
Theorem st_frame_create_layout alloc virt2iova fmt w h il f :
  fmt <> ST_FRAME_FMT_MAX -> side_ok w -> side_ok h ->
  let size := st_frame_size fmt w h il in
  let a := alloc size in
  0 < a -> a + size < 18446744073709551616 ->
  st_frame_create true alloc virt2iova fmt w h il = Some f ->
  st_frame_sanity_check f = 0 /\ fr_buffer_size f = size /\
  (forall p, 0 <= p < st_frame_fmt_planes fmt ->
     a <= arr_get 0 (fr_addr f) p /\
     arr_get 0 (fr_addr f) p + arr_get 0 (fr_linesize f) p * st_frame_data_height f <= a + size /\
     (0 < p -> arr_get 0 (fr_addr f) p =
        arr_get 0 (fr_addr f) (p - 1) + arr_get 0 (fr_linesize f) (p - 1) * st_frame_data_height f)) /\
  st_frame_free f = (0, [(HeapRte, Some a); (HeapRte, None)]).
Proof.
  intros Hfmt Hw Hh size a Ha Hmax. unfold st_frame_create. cbn [negb]. fold size. fold a.
  replace (a =? 0) with false by lia.
  destruct (frame_lines_fit fmt w h il Hw Hh) as [Hl0 Hfit]. fold size in Hfit.
  destruct (plane_lines_fit fmt w Hw) as (P0 & P1 & P2 & Psum).
  set (dh := if il then h / 2 else h) in *.
  assert (Hdh : 0 <= dh) by (unfold dh, side_ok in *; destruct il; [apply Z.div_pos; lia|lia]).
  pose proof (planes_cases fmt Hfmt) as Hpl. rewrite init_plane_eq by done. fold dh.
  set (l0 := st_frame_least_linesize fmt w 0) in *. set (l1 := st_frame_least_linesize fmt w 1) in *.
  set (l2 := st_frame_least_linesize fmt w 2) in *.
  assert (Hsteps : 0 <= l0 * dh /\ 0 <= l1 * dh /\ 0 <= l2 * dh /\ l0 * dh + l1 * dh + l2 * dh <= size) by nia.
  unfold plane_addrs. destruct Hpl as [Hpl|Hpl]; rewrite Hpl; cbn [Z.eqb Pos.eqb];
    rewrite ?u64_id by (unfold is_u64; rewrite ?u64_id by (unfold is_u64; lia); lia);
    intros [= <-]; unfold st_frame_sanity_check, st_frame_plane_ok, st_frame_data_height;
    cbn [fr_fmt fr_addr fr_linesize fr_width fr_height fr_interlaced fr_data_size fr_buffer_size];
    rewrite Hpl; fold dh size.
  - change (seqZ 0 1) with [0]. cbn [forallb]. change (arr_get 0 [a; 0; 0; 0] 0) with a.
    change (arr_get 0 [l0; 0; 0; 0] 0) with l0. fold l0.
    split; [cbn [Z.eqb]; case_if; [done|lia]|]. split; [done|]. split.
    + intros p Hp. assert (p = 0) as -> by lia.
      change (arr_get 0 [a; 0; 0; 0] 0) with a. change (arr_get 0 [l0; 0; 0; 0] 0) with l0. lia.
    + by apply frame_free_rte.
  - change (seqZ 0 3) with [0; 1; 2]. set (addrs := [a; a + l0 * dh; a + l0 * dh + l1 * dh; 0]).
    change (arr_get 0 addrs 0) with a. change (arr_get 0 [l0; l1; l2; 0] 0) with l0.
    cbn [forallb]. change (arr_get 0 addrs 1) with (a + l0 * dh). change (arr_get 0 addrs 2) with (a + l0 * dh + l1 * dh).
    change (arr_get 0 addrs 0) with a. change (arr_get 0 [l0; l1; l2; 0] 0) with l0.
    change (arr_get 0 [l0; l1; l2; 0] 1) with l1. change (arr_get 0 [l0; l1; l2; 0] 2) with l2. fold l0 l1 l2.
    split; [cbn [Z.eqb]; case_if; [done|lia]|]. split; [done|]. split.
    + intros p Hp. assert (p = 0 \/ p = 1 \/ p = 2) as [-> | [-> | ->]] by lia;
        change (1 - 1) with 0; change (2 - 1) with 1;
        change (arr_get 0 addrs 0) with a; change (arr_get 0 addrs 1) with (a + l0 * dh);
        change (arr_get 0 addrs 2) with (a + l0 * dh + l1 * dh);
        change (arr_get 0 [l0; l1; l2; 0] 0) with l0; change (arr_get 0 [l0; l1; l2; 0] 1) with l1;
        change (arr_get 0 [l0; l1; l2; 0] 2) with l2; lia.
    + by apply frame_free_rte.
Qed.

Lemma st_frame_create_layout_witness :
  exists f, st_frame_create true (fun _ => 4096) id ST_FRAME_FMT_YUV422PLANAR10LE 1920 1080 true = Some f /\
    st_frame_sanity_check f = 0 /\ fr_addr f = [4096; 2077696; 3114496; 0].
Proof.
  eexists. split; [vm_compute; reflexivity|]. split; [|vm_compute; reflexivity].
  eapply (st_frame_create_layout (fun _ => 4096) id ST_FRAME_FMT_YUV422PLANAR10LE 1920 1080 true).
  - done.
  - by vm_compute.
  - by vm_compute.
  - by vm_compute.
  - by vm_compute.
  - vm_compute. reflexivity.
Defined.

(** Frame formats and transport formats agree. A frame format with a transport
    format has the same size in both views whenever the frame fills whole pixel
    groups; mapping it to the transport and back gives it again, with the
    customised 8-bit 4:2:2 format as the only exception (it comes back as UYVY);
    and [st_frame_fmt_equal_transport] holds between the two. *)
Theorem st_frame_fmt_transport_agree fmt w h :
  st_frame_fmt_to_transport fmt <> ST20_FMT_MAX -> side_ok w -> side_ok h ->
  let tfmt := st_frame_fmt_to_transport fmt in
  (st20_frame_size tfmt w h <> 0 -> st_frame_size fmt w h false = st20_frame_size tfmt w h) /\
  st_frame_fmt_from_transport tfmt =
    (if decide (fmt = ST_FRAME_FMT_YUV422CUSTOM8) then ST_FRAME_FMT_UYVY else fmt) /\
  st_frame_fmt_equal_transport fmt tfmt = true.
Proof.
  intros Ht Hw Hh tfmt. split; [|by destruct fmt].
  rewrite st_frame_size_group, st20_frame_size_group by done. subst tfmt. cbv zeta.
  assert (Hhalf : group_size 4 2 (w * h) <> 0 -> group_size 2 1 (w * h) = group_size 4 2 (w * h)).
  { rewrite group_size_1. unfold group_size. case_if; [|done]. intros _. zbool.
    Z.to_euclidean_division_equations. lia. }
  destruct fmt; done.
Qed.

Lemma st_frame_fmt_transport_agree_witness :
  st_frame_size ST_FRAME_FMT_RGBRFC4175PG4BE10 1280 720 false = st20_frame_size ST20_FMT_RGB_10BIT 1280 720.
Proof.
  apply (st_frame_fmt_transport_agree ST_FRAME_FMT_RGBRFC4175PG4BE10 1280 720); vm_compute; done.
Defined.

(** the audio packet tables are consistent. For every packet time and sampling
    rate that the tables accept, the number of samples is exactly the rate times
    the packet time; a refused combination is refused by the packet size too;
    and an accepted packet of [channel] channels has that many samples of that
    size for each channel, without overflow. *)
Theorem st30_packet_consistent fmt ptime sampling channel :
  0 <= channel <= UINT16_MAX ->
  let n := st30_get_sample_num ptime sampling in
  (0 <= n -> exists num den, st30_get_packet_time ptime = Some (num, den) /\
     n * den * NS_PER_S = st30_get_sample_rate sampling * num) /\
  st30_get_packet_size fmt ptime sampling channel =
    (if (st30_get_sample_size fmt <? 0) || (n <? 0) || (channel =? 0) then - EINVAL
     else st30_get_sample_size fmt * n * channel).
Proof.
  intros Hc n. split.
  - subst n. destruct sampling, ptime; vm_compute; intros H; try done; by do 2 eexists.
  - subst n. unfold st30_get_packet_size, UINT16_MAX in *.
    assert (Hs : 0 < st30_get_sample_size fmt <= 4 \/ st30_get_sample_size fmt = - EINVAL)
      by (destruct fmt; vm_compute; auto; by left).
    assert (Hn : 0 < st30_get_sample_num ptime sampling <= 384 \/ st30_get_sample_num ptime sampling = - EINVAL)
      by (destruct sampling, ptime; vm_compute; auto; by left).
    generalize dependent (st30_get_sample_num ptime sampling).
    generalize dependent (st30_get_sample_size fmt). unfold EINVAL. intros s Hs m Hm.
    destruct (Z.ltb_spec s 0), (Z.ltb_spec m 0), (Z.eqb_spec channel 0); simpl; try lia.
    assert (0 <= s * m <= 1536) by nia. assert (0 <= s * m * channel <= 1536 * 65535) by nia. mlia.
Qed.

Lemma st30_packet_consistent_witness :
  st30_get_packet_size ST30_FMT_PCM24 ST30_PTIME_1MS ST30_SAMPLING_48K 2 = 288 /\
  exists num den, st30_get_packet_time ST30_PTIME_1MS = Some (num, den) /\
     48 * den * NS_PER_S = st30_get_sample_rate ST30_SAMPLING_48K * num.
Proof.
  split; [reflexivity|].
  apply (st30_packet_consistent ST30_FMT_PCM24 ST30_PTIME_1MS ST30_SAMPLING_48K 2); vm_compute; done.
Defined.

(** The row meant for 4k at 50 frames per second in block packing mode carries
    the rate 59.94: the search finds it for 59.94, before the row that was
    measured for 59.94, and finds nothing for 50. *)
Lemma pad_table_4kp50_bpm :
  st20_pacing_static_profiling false ST20_FMT_YUV_422_10BIT 3840 2160 ST_FPS_P50 ST20_PACKING_BPM false = 0 /\
  st20_pacing_static_profiling false ST20_FMT_YUV_422_10BIT 3840 2160 ST_FPS_P59_94 ST20_PACKING_BPM false = 215 /\
  pad_interval <$> g_cvl_static_pad_tables !! 9%nat = Some 217.
Proof. vm_compute. done. Qed.

Lemma group_size_pg2 px : px mod 2 = 0 -> group_size 5 2 px = px / 2 * 5.
Proof. intros H. unfold group_size. rewrite H. simpl. Z.to_euclidean_division_equations. lia. Qed.

(** Every copy of [st_draw_logo] stays inside both frames. When the logo lies
    within the frame (the test the code makes, here without wrap-around) and
    both frames hold at least their format's size, each line is read from the
    logo and written to the frame within bounds. *)
Theorem st_draw_logo_in_bounds frame logo x y ret copies :
  0 <= x -> 0 <= y -> 0 < fr_width logo -> 0 <= fr_height logo ->
  x + fr_width logo < 16384 -> y + fr_height logo < 16384 ->
  fr_width frame < 16384 -> fr_height frame < 16384 ->
  fr_width frame mod 2 = 0 -> fr_width logo mod 2 = 0 ->
  st_draw_logo frame logo x y = (ret, copies) ->
  (ret = 0 <-> fr_fmt frame = fr_fmt logo /\ fr_fmt frame = ST_FRAME_FMT_YUV422RFC4175PG2BE10 /\
               x + fr_width logo <= fr_width frame /\ y + fr_height logo <= fr_height frame) /\
  forall dst src len, (dst, src, len) ∈ copies ->
    0 <= dst /\ dst + len <= st_frame_size (fr_fmt frame) (fr_width frame) (fr_height frame) false /\
    0 <= src /\ src + len <= st_frame_size (fr_fmt logo) (fr_width logo) (fr_height logo) false.
Proof.
  intros Hx Hy Hlw Hlh Hxw Hyh Hfw Hfh Hev Hel. unfold st_draw_logo.
  destruct (decide (fr_fmt frame = fr_fmt logo)) as [Ef|Ef].
  2:{ rewrite bool_decide_eq_false_2 by done. intros [= <- <-]. split; [|by intros ? ? ? []%not_elem_of_nil].
      split; [done|]. by intros (? & _). }
  rewrite bool_decide_eq_true_2 by done. cbn [negb].
  destruct (decide (fr_fmt frame = ST_FRAME_FMT_YUV422RFC4175PG2BE10)) as [Eb|Eb].
  2:{ rewrite bool_decide_eq_false_2 by done. intros [= <- <-]. split; [|by intros ? ? ? []%not_elem_of_nil].
      split; [done|]. by intros (_ & ? & _). }
  rewrite bool_decide_eq_true_2 by done. cbn [negb]. rewrite !Z.gtb_ltb.
  rewrite !(u32_id (x + _)), !(u32_id (y + _)) by (unfold is_u32; lia).
  destruct (Z.ltb_spec (fr_width frame) (x + fr_width logo)) as [|Hw].
  { intros [= <- <-]. split; [|by intros ? ? ? []%not_elem_of_nil]. split; [done|lia]. }
  destruct (Z.ltb_spec (fr_height frame) (y + fr_height logo)) as [|Hh].
  { intros [= <- <-]. split; [|by intros ? ? ? []%not_elem_of_nil]. split; [done|lia]. }
  intros [= <- <-]. split; [done|]. intros dst src len Hin.
  apply list_elem_of_fmap in Hin as (col & [= -> -> ->] & Hcol). apply elem_of_seqZ in Hcol.
  rewrite !st_frame_size_group by (unfold side_ok; lia). rewrite <- Ef, Eb. cbn [fmt_group fst snd].
  rewrite !group_size_pg2 by (rewrite Z.mul_mod_idemp_l || idtac; rewrite Z.mul_mod, ?Hev, ?Hel by lia; done).
  assert (Hrow : (col + y) * fr_width frame + fr_width frame <= fr_width frame * fr_height frame) by nia.
  assert (Hsrow : col * fr_width logo + fr_width logo <= fr_width logo * fr_height logo) by nia.
  assert (0 <= (col + y) * fr_width frame) by nia. assert (0 <= col * fr_width logo) by nia.
  assert (fr_width frame * fr_height frame < 268435456) by nia.
  assert (fr_width logo * fr_height logo < 268435456) by nia.
  rewrite (u32_id (col + y)) by (unfold is_u32; lia).
  generalize dependent ((col + y) * fr_width frame). generalize dependent (col * fr_width logo).
  generalize dependent (fr_width frame * fr_height frame). generalize dependent (fr_width logo * fr_height logo).
  clear Ef Eb. intros. mlia.
Qed.

Definition demo_frame (w h : Z) : st_frame :=
  st_frame_blank ST_FRAME_FMT_YUV422RFC4175PG2BE10 w h false 0.

Lemma st_draw_logo_in_bounds_witness :
  exists copies, st_draw_logo (demo_frame 64 32) (demo_frame 16 2) 8 30 = (0, copies) /\
    copies = [(4820, 0, 40); (4980, 40, 40)] /\ (0 = 0 <-> 8 + 16 <= 64 /\ 30 + 2 <= 32).
Proof.
  eexists. split; [vm_compute; reflexivity|]. split; [reflexivity|].
  destruct (st_draw_logo_in_bounds (demo_frame 64 32) (demo_frame 16 2) 8 30 _ _
    ltac:(by vm_compute) ltac:(by vm_compute) ltac:(by vm_compute) ltac:(by vm_compute)
    ltac:(by vm_compute) ltac:(by vm_compute) ltac:(by vm_compute) ltac:(by vm_compute)
    ltac:(by vm_compute) ltac:(by vm_compute) eq_refl) as [H _].
  cbn in H. tauto.
Defined.

(** Without that hypothesis the test can be passed by wrapping around: the logo
    is 16 pixels wide and starts 8 pixels before 2^32. *)
Lemma st_draw_logo_wraps :
  fst (st_draw_logo (demo_frame 64 32) (demo_frame 16 2) 4294967288 0) = 0 /\
  head (snd (st_draw_logo (demo_frame 64 32) (demo_frame 16 2) 4294967288 0)) = Some (2147483628, 0, 40).
Proof. vm_compute. done. Qed.
