(* ===== verification/FrameConvert.v ===== *)
(** Conversion of whole frames: the second half of lib/src/st2110/st_convert.c.

    An [image] is a [st_frame] with the memory of its planes: the bytes at [addr[p]] are
    the [p]-th list, so [addr[p] + linesize[p] * line] is that list without its first
    [linesize[p] * line] bytes. Different planes and frames do not overlap. A frame
    whose lines have no padding is converted in one call, any other line by line; the
    theorems show that both give every line the same content. The routine called is the
    entry of [SimdConvert] at the highest level, so every conversion depends on what the
    build has ([bd]) and on the processor ([cpu]). Also here: the table of converters,
    merging and splitting of fields, and the half-size sampling. *)
From S2P Require Import Prelude Bytes BitExpr Convert Simd SimdConvert Fmt.

Record image := mk_image { im_frame : st_frame; im_second_field : bool; im_planes : list bytes }.
#[export] Instance eta_image : Settable image := fun i =>
  mk_image (im_frame i) (im_second_field i) (im_planes i).

Definition has_lines_padding (src dst : st_frame) : bool :=
  existsb (fun plane => arr_get 0 (fr_linesize src) plane >?
             st_frame_least_linesize (fr_fmt src) (fr_width src) plane)
    (seqZ 0 (st_frame_fmt_planes (fr_fmt src)))
  || existsb (fun plane => arr_get 0 (fr_linesize dst) plane >?
             st_frame_least_linesize (fr_fmt dst) (fr_width dst) plane)
    (seqZ 0 (st_frame_fmt_planes (fr_fmt dst))).

(** ** One frame *)

(** The planes from the start of [line] on, and their update. *)
Definition from_line (ls : list Z) (line : Z) (ps : list bytes) : list bytes :=
  zip_with (fun l p => drop (Z.to_nat (l * line)) p) ls ps.
Definition set_from_line (ls : list Z) (line : Z) (ps d : list bytes) : list bytes :=
  zip_with (fun lp t => take (Z.to_nat (lp.1 * line)) lp.2 ++ t) (zip ls ps) d.

Fixpoint convert_lines (cv : conv) (w : Z) (lss lsd : list Z) (src : list bytes)
    (n : nat) (line ret : Z) (dst : list bytes) : option (Z * list bytes) :=
  match n with
  | O => Some (ret, dst)
  | S n =>
      match cv w 1 (from_line lss line src) (from_line lsd line dst) with
      | Some (ret, d) => convert_lines cv w lss lsd src n (line + 1) ret (set_from_line lsd line dst d)
      | None => None
      end
  end.

(** The common body of the [convert_*] functions. *)
Definition convert_frame (cv : conv) (src dst : image) : option (Z * image) :=
  let w := fr_width (im_frame dst) in
  let h := st_frame_data_height (im_frame dst) in
  let r :=
    if negb (has_lines_padding (im_frame src) (im_frame dst)) then
      cv w h (im_planes src) (im_planes dst)
    else
      convert_lines cv w (fr_linesize (im_frame src)) (fr_linesize (im_frame dst)) (im_planes src)
        (Z.to_nat h) 0 0 (im_planes dst) in
  (fun x => (x.1, dst <| im_planes := x.2 |>)) <$> r.

(** Planar RGB frames have the planes in the order G, B, R; the routines take G, R, B. *)
Definition swap_br (ps : list bytes) : list bytes :=
  match ps with [g; b; r] => [g; r; b] | _ => ps end.
Definition to_gbr (cv : conv) : conv := fun w h src dst =>
  (fun x => (x.1, swap_br x.2)) <$> cv w h src (swap_br dst).
Definition from_gbr (cv : conv) : conv := fun w h src dst => cv w h (swap_br src) dst.

(** Entries with the scalar routine as the only option. *)
Definition st20_yuv422p12le_to_rfc4175_422be12_simd : simd_entry := fun bd cpu_level level =>
  st20_yuv422p12le_to_rfc4175_422be12_scalar.
Definition st20_444p10le_to_rfc4175_444be10_simd : simd_entry := fun bd cpu_level level =>
  st20_444p10le_to_rfc4175_444be10_scalar.
Definition st20_444p12le_to_rfc4175_444be12_simd : simd_entry := fun bd cpu_level level =>
  st20_444p12le_to_rfc4175_444be12_scalar.
Definition st20_rfc4175_444be10_to_444p10le_simd : simd_entry := fun bd cpu_level level =>
  st20_rfc4175_444be10_to_444p10le_scalar.
Definition st20_rfc4175_444be12_to_444p12le_simd : simd_entry := fun bd cpu_level level =>
  st20_rfc4175_444be12_to_444p12le_scalar.

Section Machine.
Context (bd : simd_build) (cpu : cpu_flags).

(** The routines of st_convert_api.h: the entries at the highest level. *)
Definition at_max (e : simd_entry) : conv := e bd (mtl_get_simd_level cpu) MTL_SIMD_LEVEL_MAX.

Definition st20_rfc4175_422be10_to_yuv422p10le : conv := at_max st20_rfc4175_422be10_to_yuv422p10le_simd.
Definition st20_rfc4175_422be10_to_422le8 : conv := at_max st20_rfc4175_422be10_to_422le8_simd.
Definition st20_rfc4175_422be10_to_yuv422p8 : conv := at_max st20_rfc4175_422be10_to_yuv422p8_simd.
Definition st20_rfc4175_422be10_to_yuv420p8 : conv := at_max st20_rfc4175_422be10_to_yuv420p8_simd.
Definition st20_rfc4175_422be10_to_v210 : conv := at_max st20_rfc4175_422be10_to_v210_simd.
Definition st20_rfc4175_422be10_to_y210 : conv := at_max st20_rfc4175_422be10_to_y210_simd.
Definition st20_rfc4175_422be12_to_yuv422p12le : conv := at_max st20_rfc4175_422be12_to_yuv422p12le_simd.
Definition st20_rfc4175_444be10_to_yuv444p10le : conv := at_max st20_rfc4175_444be10_to_444p10le_simd.
Definition st20_rfc4175_444be10_to_gbrp10le : conv := to_gbr (at_max st20_rfc4175_444be10_to_444p10le_simd).
Definition st20_rfc4175_444be12_to_yuv444p12le : conv := at_max st20_rfc4175_444be12_to_444p12le_simd.
Definition st20_rfc4175_444be12_to_gbrp12le : conv := to_gbr (at_max st20_rfc4175_444be12_to_444p12le_simd).
Definition st20_yuv422p10le_to_rfc4175_422be10 : conv := at_max st20_yuv422p10le_to_rfc4175_422be10_simd.
Definition st20_v210_to_rfc4175_422be10 : conv := at_max st20_v210_to_rfc4175_422be10_simd.
Definition st20_y210_to_rfc4175_422be10 : conv := at_max st20_y210_to_rfc4175_422be10_simd.
Definition st20_yuv422p12le_to_rfc4175_422be12 : conv := at_max st20_yuv422p12le_to_rfc4175_422be12_simd.
Definition st20_yuv444p10le_to_rfc4175_444be10 : conv := at_max st20_444p10le_to_rfc4175_444be10_simd.
Definition st20_gbrp10le_to_rfc4175_444be10 : conv := from_gbr (at_max st20_444p10le_to_rfc4175_444be10_simd).
Definition st20_yuv444p12le_to_rfc4175_444be12 : conv := at_max st20_444p12le_to_rfc4175_444be12_simd.
Definition st20_gbrp12le_to_rfc4175_444be12 : conv := from_gbr (at_max st20_444p12le_to_rfc4175_444be12_simd).
Definition st20_rfc4175_422be10_to_yuv422p16le : conv := at_max st20_rfc4175_422be10_to_yuv422p16le_simd.
Definition st20_yuv422p16le_to_rfc4175_422be10 : conv := at_max st20_yuv422p16le_to_rfc4175_422be10_simd.

Definition convert_rfc4175_422be10_to_yuv422p10le := convert_frame st20_rfc4175_422be10_to_yuv422p10le.
Definition convert_rfc4175_422be10_to_422le8 := convert_frame st20_rfc4175_422be10_to_422le8.
Definition convert_rfc4175_422be10_to_yuv422p8 := convert_frame st20_rfc4175_422be10_to_yuv422p8.
Definition convert_rfc4175_422be10_to_yuv420p8 := convert_frame st20_rfc4175_422be10_to_yuv420p8.
Definition convert_rfc4175_422be10_to_v210 := convert_frame st20_rfc4175_422be10_to_v210.
Definition convert_rfc4175_422be10_to_y210 := convert_frame st20_rfc4175_422be10_to_y210.
Definition convert_rfc4175_422be12_to_yuv422p12le := convert_frame st20_rfc4175_422be12_to_yuv422p12le.
Definition convert_rfc4175_444be10_to_yuv444p10le := convert_frame st20_rfc4175_444be10_to_yuv444p10le.
Definition convert_rfc4175_444be10_to_gbrp10le := convert_frame st20_rfc4175_444be10_to_gbrp10le.
Definition convert_rfc4175_444be12_to_yuv444p12le := convert_frame st20_rfc4175_444be12_to_yuv444p12le.
Definition convert_rfc4175_444be12_to_gbrp12le := convert_frame st20_rfc4175_444be12_to_gbrp12le.
Definition convert_yuv422p10le_to_rfc4175_422be10 := convert_frame st20_yuv422p10le_to_rfc4175_422be10.
Definition convert_v210_to_rfc4175_422be10 := convert_frame st20_v210_to_rfc4175_422be10.
Definition convert_y210_to_rfc4175_422be10 := convert_frame st20_y210_to_rfc4175_422be10.
Definition convert_yuv422p12le_to_rfc4175_422be12 := convert_frame st20_yuv422p12le_to_rfc4175_422be12.
Definition convert_yuv444p10le_to_rfc4175_444be10 := convert_frame st20_yuv444p10le_to_rfc4175_444be10.
Definition convert_gbrp10le_to_rfc4175_444be10 := convert_frame st20_gbrp10le_to_rfc4175_444be10.
Definition convert_yuv444p12le_to_rfc4175_444be12 := convert_frame st20_yuv444p12le_to_rfc4175_444be12.
Definition convert_gbrp12le_to_rfc4175_444be12 := convert_frame st20_gbrp12le_to_rfc4175_444be12.
Definition convert_rfc4175_422be10_to_yuv422p16le := convert_frame st20_rfc4175_422be10_to_yuv422p16le.
Definition convert_yuv422p16le_to_rfc4175_422be10 := convert_frame st20_yuv422p16le_to_rfc4175_422be10.

(** ** The table of converters *)

Record st_frame_converter := mk_converter {
  cv_src_fmt : st_frame_fmt; cv_dst_fmt : st_frame_fmt;
  convert_func : image -> image -> option (Z * image)
}.

Definition converters : list st_frame_converter := [
  mk_converter ST_FRAME_FMT_YUV422RFC4175PG2BE10 ST_FRAME_FMT_YUV422PLANAR10LE convert_rfc4175_422be10_to_yuv422p10le;
  mk_converter ST_FRAME_FMT_YUV422RFC4175PG2BE10 ST_FRAME_FMT_UYVY convert_rfc4175_422be10_to_422le8;
  mk_converter ST_FRAME_FMT_YUV422RFC4175PG2BE10 ST_FRAME_FMT_YUV422PLANAR8 convert_rfc4175_422be10_to_yuv422p8;
  mk_converter ST_FRAME_FMT_YUV422RFC4175PG2BE10 ST_FRAME_FMT_YUV420PLANAR8 convert_rfc4175_422be10_to_yuv420p8;
  mk_converter ST_FRAME_FMT_YUV422RFC4175PG2BE10 ST_FRAME_FMT_V210 convert_rfc4175_422be10_to_v210;
  mk_converter ST_FRAME_FMT_YUV422RFC4175PG2BE10 ST_FRAME_FMT_Y210 convert_rfc4175_422be10_to_y210;
  mk_converter ST_FRAME_FMT_YUV422RFC4175PG2BE12 ST_FRAME_FMT_YUV422PLANAR12LE convert_rfc4175_422be12_to_yuv422p12le;
  mk_converter ST_FRAME_FMT_YUV444RFC4175PG4BE10 ST_FRAME_FMT_YUV444PLANAR10LE convert_rfc4175_444be10_to_yuv444p10le;
  mk_converter ST_FRAME_FMT_YUV444RFC4175PG2BE12 ST_FRAME_FMT_YUV444PLANAR12LE convert_rfc4175_444be12_to_yuv444p12le;
  mk_converter ST_FRAME_FMT_RGBRFC4175PG4BE10 ST_FRAME_FMT_GBRPLANAR10LE convert_rfc4175_444be10_to_gbrp10le;
  mk_converter ST_FRAME_FMT_RGBRFC4175PG2BE12 ST_FRAME_FMT_GBRPLANAR12LE convert_rfc4175_444be12_to_gbrp12le;
  mk_converter ST_FRAME_FMT_YUV422PLANAR10LE ST_FRAME_FMT_YUV422RFC4175PG2BE10 convert_yuv422p10le_to_rfc4175_422be10;
  mk_converter ST_FRAME_FMT_V210 ST_FRAME_FMT_YUV422RFC4175PG2BE10 convert_v210_to_rfc4175_422be10;
  mk_converter ST_FRAME_FMT_Y210 ST_FRAME_FMT_YUV422RFC4175PG2BE10 convert_y210_to_rfc4175_422be10;
  mk_converter ST_FRAME_FMT_YUV422PLANAR12LE ST_FRAME_FMT_YUV422RFC4175PG2BE12 convert_yuv422p12le_to_rfc4175_422be12;
  mk_converter ST_FRAME_FMT_YUV444PLANAR10LE ST_FRAME_FMT_YUV444RFC4175PG4BE10 convert_yuv444p10le_to_rfc4175_444be10;
  mk_converter ST_FRAME_FMT_YUV444PLANAR12LE ST_FRAME_FMT_YUV444RFC4175PG2BE12 convert_yuv444p12le_to_rfc4175_444be12;
  mk_converter ST_FRAME_FMT_GBRPLANAR10LE ST_FRAME_FMT_RGBRFC4175PG4BE10 convert_gbrp10le_to_rfc4175_444be10;
  mk_converter ST_FRAME_FMT_GBRPLANAR12LE ST_FRAME_FMT_RGBRFC4175PG2BE12 convert_gbrp12le_to_rfc4175_444be12;
  mk_converter ST_FRAME_FMT_YUV422RFC4175PG2BE10 ST_FRAME_FMT_YUV422PLANAR16LE convert_rfc4175_422be10_to_yuv422p16le;
  mk_converter ST_FRAME_FMT_YUV422PLANAR16LE ST_FRAME_FMT_YUV422RFC4175PG2BE10 convert_yuv422p16le_to_rfc4175_422be10
].

Definition st_frame_get_converter (src_fmt dst_fmt : st_frame_fmt) : Z + st_frame_converter :=
  match table_find (fun c => bool_decide (src_fmt = cv_src_fmt c) && bool_decide (dst_fmt = cv_dst_fmt c)) converters with
  | Some c => inr c
  | None => inl (- EINVAL)
  end.

Definition st_frame_convert (src dst : image) : option (Z * image) :=
  let s := im_frame src in let d := im_frame dst in
  if negb (fr_width s =? fr_width d) || negb (fr_height s =? fr_height d) then Some (- EINVAL, dst)
  else
    match st_frame_get_converter (fr_fmt s) (fr_fmt d) with
    | inl _ => Some (- EINVAL, dst)
    | inr c => convert_func c src dst
    end.
End Machine.

(** ** Fields *)

Definition field_frame_check (field frame : st_frame) : Z :=
  if negb (fr_interlaced field) then - EINVAL
  else if negb (fr_width field =? fr_width frame) || negb (fr_height field =? fr_height frame) then - EINVAL
  else if negb (bool_decide (fr_fmt field = fr_fmt frame)) then - EINVAL
  else 0.

Definition fields_frame_match (first second frame : image) : Z :=
  if field_frame_check (im_frame first) (im_frame frame) <? 0 then - EINVAL
  else if im_second_field first then - EINVAL
  else if field_frame_check (im_frame second) (im_frame frame) <? 0 then - EINVAL
  else if negb (im_second_field second) then - EINVAL
  else 0.

(** [mt_memcpy] of a line between planes; [None] outside either of them. *)
Definition copy_line (from : bytes) (foff : Z) (to : bytes) (toff len : Z) : option bytes :=
  if (foff + len <=? arr_len from) && (toff + len <=? arr_len to) then
    Some (splice toff (take (Z.to_nat len) (drop (Z.to_nat foff) from)) to)
  else None.

Definition linesize_of (i : image) (plane : Z) : Z := arr_get 0 (fr_linesize (im_frame i)) plane.
Definition plane_of (i : image) (plane : Z) : bytes := arr_get [] (im_planes i) plane.
Definition set_plane (plane : Z) (p : bytes) (i : image) : image :=
  i <| im_planes ::= fun ps => arr_set ps plane p |>.

(** [for (i = 0; i < n; i++)] with a body that can fail. *)
Fixpoint for_opt {A} (i : Z) (n : nat) (f : Z -> A -> option A) (s : A) : option A :=
  match n with
  | O => Some s
  | S n => s ← f i s; for_opt (i + 1) n f s
  end.

(** The turn of one field line and plane. *)
Definition merge_plane (first second : image) (field_line plane : Z) (frame : image) : option image :=
  let f := im_frame frame in
  let linesize := st_frame_least_linesize (fr_fmt f) (fr_width f) plane in
  let line := 2 * field_line in
  p ← copy_line (plane_of first plane) (linesize_of first plane * field_line)
        (plane_of frame plane) (linesize_of frame plane * line) linesize;
  p ← copy_line (plane_of second plane) (linesize_of second plane * field_line)
        p (linesize_of frame plane * (line + 1)) linesize;
  Some (set_plane plane p frame).

(** Turns of the loop over lines: [line] is 0, 2, ... below the height. *)
Definition field_lines (frame : image) : nat := Z.to_nat ((fr_height (im_frame frame) + 1) / 2).
Definition plane_count (frame : image) : nat := Z.to_nat (st_frame_fmt_planes (fr_fmt (im_frame frame))).

Definition st_field_merge (first second frame : image) : option (Z * image) :=
  let ret := fields_frame_match first second frame in
  if ret <? 0 then Some (ret, frame)
  else
    (fun f => (0, f)) <$>
      for_opt 0 (field_lines frame)
        (fun field_line => for_opt 0 (plane_count frame) (merge_plane first second field_line)) frame.

Definition split_plane (frame : image) (field_line plane : Z) (fs : image * image) : option (image * image) :=
  let '(first, second) := fs in
  let f := im_frame frame in
  let linesize := st_frame_least_linesize (fr_fmt f) (fr_width f) plane in
  let line := 2 * field_line in
  p ← copy_line (plane_of frame plane) (linesize_of frame plane * line)
        (plane_of first plane) (linesize_of first plane * field_line) linesize;
  q ← copy_line (plane_of frame plane) (linesize_of frame plane * (line + 1))
        (plane_of second plane) (linesize_of second plane * field_line) linesize;
  Some (set_plane plane p first, set_plane plane q second).

Definition st_field_split (frame first second : image) : option (Z * (image * image)) :=
  let ret := fields_frame_match first second frame in
  if ret <? 0 then Some (ret, (first, second))
  else
    (fun fs => (0, fs)) <$>
      for_opt 0 (field_lines frame)
        (fun field_line => for_opt 0 (plane_count frame) (split_plane frame field_line)) (first, second).

(** ** Sampling at half size *)

Definition downsample_pg (size src_off dst_off : Z) (src : bytes) (pg : Z) (dst : bytes) : option bytes :=
  copy_line src (src_off + pg * (2 * size)) dst (dst_off + pg * size) size.

(** The caller has checked that the format is a transport format. *)
Definition downsample_rfc4175_wh_half (old_frame new_frame : image) (idx : Z) : option (Z * image) :=
  match st20_get_pgroup (st_frame_fmt_to_transport (fr_fmt (im_frame new_frame))) with
  | inl _ => Some (- EINVAL, new_frame)
  | inr pg =>
      let width := fr_width (im_frame new_frame) in
      let height := st_frame_data_height (im_frame new_frame) in
      let src_linesize := u32 (linesize_of old_frame 0) in
      let dst_linesize := u32 (linesize_of new_frame 0) in
      let start :=
        if idx =? 0 then Some 0
        else if idx =? 1 then Some (pg_size pg)
        else if idx =? 2 then Some src_linesize
        else if idx =? 3 then Some (src_linesize + pg_size pg)
        else None in
      match start with
      | None => Some (- EINVAL, new_frame)
      | Some src_start =>
          (fun p => (0, set_plane 0 p new_frame)) <$>
            for_opt 0 (Z.to_nat height)
              (fun line => for_opt 0 (Z.to_nat (width / pg_coverage pg))
                 (downsample_pg (pg_size pg) (src_start + u32 (src_linesize * line * 2)) (u32 (dst_linesize * line))
                    (plane_of old_frame 0)))
              (plane_of new_frame 0)
      end
  end.

Definition st_frame_downsample (src dst : image) (idx : Z) : option (Z * image) :=
  let s := im_frame src in let d := im_frame dst in
  if bool_decide (fr_fmt s = fr_fmt d)
     && negb (bool_decide (st_frame_fmt_to_transport (fr_fmt s) = ST20_FMT_MAX))
     && (fr_width s =? u32 (fr_width d * 2)) && (fr_height s =? u32 (fr_height d * 2))
  then downsample_rfc4175_wh_half src dst idx
  else Some (- EINVAL, dst).

(** ** Runs of groups *)

Lemma times_app k sizes (c r : list bytes) : holds sizes 1 c -> length r = length sizes ->
  zip_with take (times (S k) sizes) (zip_with app c r) = zip_with app c (zip_with take (times k sizes) r) /\
  zip_with drop (times (S k) sizes) (zip_with app c r) = zip_with drop (times k sizes) r.
Proof.
  intros Hc. revert r. induction Hc as [|s b sizes' c' Hb Hc IH]; intros [|q r] Hl; try done.
  injection Hl as Hl. destruct (IH r Hl) as [H1 H2]. unfold times in *. cbn [fmap list_fmap zip_with].
  rewrite H1, H2, take_app, drop_app. replace (S k * s - length b)%nat with (k * s)%nat by lia.
  rewrite take_ge, drop_ge by lia. done.
Qed.

Lemma times_zero sizes (bs : list bytes) : length bs = length sizes ->
  zip_with take (times 0 sizes) bs = replicate (length sizes) [] /\ zip_with drop (times 0 sizes) bs = bs.
Proof.
  revert bs. induction sizes as [|s sizes IH]; intros [|b bs] Hl; try done.
  injection Hl as Hl. destruct (IH bs Hl) as [H1 H2]. unfold times in *. cbn [fmap list_fmap zip_with replicate length].
  by rewrite H1, H2.
Qed.

Section Runs.
Context (si so : list nat) (f : list bytes -> list bytes).
Hypothesis f_len : forall c, holds si 1 c -> holds so 1 (f c).
Abbreviation gm := (group_map si so f).

Lemma group_map_drop i n src : holds si (i + n) src ->
  zip_with drop (times i so) (gm (i + n) src) = gm n (zip_with drop (times i si) src).
Proof.
  revert src. induction i as [|i IH]; intros src H.
  - rewrite (proj2 (times_zero si src ltac:(symmetry; exact (Forall2_length _ _ _ H)))).
    apply (times_zero so). symmetry. exact (Forall2_length _ _ _ (group_map_holds _ _ _ f_len n src H)).
  - rewrite Nat.add_succ_l in *. cbn [group_map]. destruct (holds_split _ _ _ H) as (_ & H1 & H2).
    pose proof (group_map_holds _ _ _ f_len _ _ H2) as H3.
    rewrite (proj2 (times_app i so _ _ (f_len _ H1) ltac:(symmetry; exact (Forall2_length _ _ _ H3)))).
    rewrite (IH _ H2). by rewrite drop_times.
Qed.

Lemma group_map_take k n src : holds si (k + n) src ->
  zip_with take (times k so) (gm (k + n) src) = gm k (zip_with take (times k si) src).
Proof.
  revert src. induction k as [|k IH]; intros src H.
  - apply (times_zero so). symmetry. exact (Forall2_length _ _ _ (group_map_holds _ _ _ f_len n src H)).
  - rewrite Nat.add_succ_l in *. cbn [group_map]. destruct (holds_split _ _ _ H) as (_ & H1 & H2).
    pose proof (group_map_holds _ _ _ f_len _ _ H2) as H3.
    rewrite (proj1 (times_app k so _ _ (f_len _ H1) ltac:(symmetry; exact (Forall2_length _ _ _ H3)))).
    rewrite (IH _ H2). by rewrite drop_take_times, <- take_times_S.
Qed.
End Runs.

(** ** The interface of a routine to the conversion of frames *)

(** What [convert_frame] uses of a routine: it converts the groups of the picture by [body]
    and nothing else, when the planes of the source have the property [Q] there. *)
Class LineConv (cv : conv) (pixels : Z) (si so : list nat) (body : list bytes -> list bytes) (Q : bytes -> Prop) : Prop := {
  lc_pixels : 0 < pixels;
  lc_run : forall w h n src dst, is_u32 (w * h) -> w * h = pixels * Z.of_nat n ->
    has_room si n src -> Forall Q (zip_with take (times n si) src) -> has_room so n dst ->
    cv w h src dst = Some (0, groups_written si so body n src dst);
  lc_len : forall c, holds si 1 c -> holds so 1 (body c)
}.

(** A property of planes that follows from their groups. *)
Definition joins_along (Q : bytes -> Prop) (sizes : list nat) : Prop :=
  Forall (fun s => Q [] /\ forall n a b, length a = (n * s)%nat -> Q a -> Q b -> Q (a ++ b)) sizes.

Lemma fits_join q sizes : q.1 = q.2 \/ Forall (fun s => Nat.even s = true) sizes -> joins_along (fits q) sizes.
Proof.
  intros Hq. apply Forall_forall. intros s Hs. split; [done|]. intros n a b Hl Ha Hb i x Hi.
  apply lookup_app_Some in Hi as [Hi|[Hge Hi]]; [by apply Ha|]. specialize (Hb _ _ Hi).
  assert (byte_mask q (i - length a) = byte_mask q i) as <-; [|done]. unfold byte_mask. destruct Hq as [->|Hq]; [by case_if; case_if|].
  rewrite Forall_forall in Hq. rewrite Nat.even_sub, Hl, Nat.even_mul, (Hq s Hs), orb_true_r by lia. by destruct (Nat.even i).
Qed.

(** [m] lines of [k] groups. *)
Lemma plane_join (Q : bytes -> Prop) s k m b :
  Q [] -> (forall n a b, length a = (n * s)%nat -> Q a -> Q b -> Q (a ++ b)) -> (m * k * s <= length b)%nat ->
  (forall i, (i < m)%nat -> Q (take (k * s) (drop (i * k * s) b))) -> Q (take (m * k * s) b).
Proof.
  intros H0 Hj Hl. induction m as [|m IH]; intros Hm; [done|].
  replace (S m * k * s)%nat with (m * k * s + k * s)%nat in * by lia. rewrite <- take_take_drop. apply (Hj (m * k)%nat).
  - rewrite length_take. lia.
  - apply IH; [lia|]. intros i Hi. apply Hm. lia.
  - apply Hm. lia.
Qed.

Lemma group_map_joined (P Q : bytes -> Prop) si so f n src : splits_along P si -> joins_along Q so ->
  (forall c, holds si 1 c -> holds so 1 (f c)) -> (forall c, holds si 1 c -> Forall P c -> Forall Q (f c)) ->
  holds si n src -> Forall P src -> Forall Q (group_map si so f n src).
Proof.
  intros HP HQ Hlen Hf. revert src. induction n as [|n IH]; intros src Hs HF; cbn [group_map].
  { clear -HQ. induction HQ as [|s so' [H0 _] _ IH]; cbn; constructor; done. }
  destruct (holds_split _ _ _ Hs) as (_ & H1 & H2).
  assert (Forall P (zip_with take si src) /\ Forall P (zip_with drop si src)) as [F1 F2].
  { clear -HP HF Hs. revert HF. induction Hs as [|s b si' src' _ _ IHs]; intros HF; [done|].
    apply Forall_cons in HP as [Hp HP], HF as [Hb HF]. destruct (IHs HP HF), (Hp b Hb). cbn. split; constructor; done. }
  pose proof (Hlen _ H1) as Hl. specialize (Hf _ H1 F1). specialize (IH _ H2 F2).
  revert Hf IH Hl. generalize (f (zip_with take si src)) as x. generalize (group_map si so f n (zip_with drop si src)) as y.
  clear -HQ. induction HQ as [|s so' [_ Hj] _ IHq]; intros y x Hx Hy Hl.
  - apply Forall2_nil_inv_l in Hl as ->. constructor.
  - apply Forall2_cons_inv_l in Hl as (a & x' & Ha & Hl & ->). apply Forall_cons in Hx as [Qa Hx].
    destruct y as [|b y]; [constructor|]. apply Forall_cons in Hy as [Qb Hy]. cbn. constructor; [by apply (Hj 1%nat)|by apply IHq].
Qed.

(** A format whose lines are [k] groups of [sizes] bytes per plane when it is [pixels * k] wide. *)
Definition fmt_groups (fmt : st_frame_fmt) (pixels : Z) (sizes : list nat) : Prop :=
  st_frame_fmt_planes fmt = Z.of_nat (length sizes) /\
  forall k p s, side_ok (pixels * Z.of_nat k) -> sizes !! p = Some s ->
    st_frame_least_linesize fmt (pixels * Z.of_nat k) (Z.of_nat p) = Z.of_nat (k * s).

(** Planes of [h] lines of at least [k] groups. *)
Record shaped (sizes : list nat) (k : nat) (h : Z) (ls : list Z) (ps : list bytes) : Prop := {
  sh_planes : length ps = length sizes;
  sh_line : forall p s, sizes !! p = Some s -> exists l b,
    ls !! p = Some l /\ ps !! p = Some b /\ Z.of_nat (k * s) <= l /\ l * h <= arr_len b
}.

(** The [k] groups of one line. *)
Definition line_of (sizes : list nat) (k : nat) (ls : list Z) (line : Z) (ps : list bytes) : list bytes :=
  zip_with take (times k sizes) (from_line ls line ps).

Lemma from_line_lookup ls line ps p l b : ls !! p = Some l -> ps !! p = Some b ->
  from_line ls line ps !! p = Some (drop (Z.to_nat (l * line)) b).
Proof. intros Hl Hb. unfold from_line. by rewrite lookup_zip_with, Hl, Hb. Qed.

Lemma line_of_lookup sizes k ls line ps p s l b :
  sizes !! p = Some s -> ls !! p = Some l -> ps !! p = Some b ->
  line_of sizes k ls line ps !! p = Some (take (k * s) (drop (Z.to_nat (l * line)) b)).
Proof.
  intros Hs Hl Hb. unfold line_of. rewrite lookup_zip_with. unfold times.
  by rewrite list_lookup_fmap, Hs, (from_line_lookup _ _ _ _ _ _ Hl Hb).
Qed.

Section Shaped.
Context (sizes : list nat) (k : nat) (h : Z) (ls : list Z) (ps : list bytes).
Hypothesis Hsh : shaped sizes k h ls ps.

Lemma shaped_from_line_length line : length (from_line ls line ps) = length sizes.
Proof.
  unfold from_line. rewrite length_zip_with, (sh_planes _ _ _ _ _ Hsh).
  assert (length sizes <= length ls)%nat; [|lia]. destruct (decide (length sizes <= length ls)%nat); [done|].
  destruct (lookup_lt_is_Some_2 sizes (length ls)) as [s Hs]; [lia|].
  destruct (sh_line _ _ _ _ _ Hsh _ _ Hs) as (l & b & Hl & _). apply lookup_lt_Some in Hl. lia.
Qed.

Lemma shaped_line line : 0 <= line < h -> has_room sizes k (from_line ls line ps).
Proof.
  intros Hline. apply Forall2_same_length_lookup. split; [by rewrite shaped_from_line_length|].
  intros p s q Hs Hq. destruct (sh_line _ _ _ _ _ Hsh p s Hs) as (l & b & Hl & Hb & Hk & Hlen).
  rewrite (from_line_lookup _ _ _ _ _ _ Hl Hb) in Hq. injection Hq as <-.
  rewrite length_drop. unfold arr_len in *. nia.
Qed.

Lemma line_of_holds line : 0 <= line < h -> holds sizes k (line_of sizes k ls line ps).
Proof. intros Hline. by apply room_prefix, shaped_line. Qed.
End Shaped.

(** ** Every line is converted *)

Section Lines.
Context (cv : conv) (pixels : Z) (si so : list nat) (body : list bytes -> list bytes) (Q : bytes -> Prop).
Context `{!LineConv cv pixels si so body Q}.
Context (k : nat) (h : Z) (lss lsd : list Z) (src : list bytes).
Hypothesis Hsrc : shaped si k h lss src.
Hypothesis HQ : forall i, 0 <= i < h -> Forall Q (line_of si k lss i src).
Hypothesis Hw : is_u32 (pixels * Z.of_nat k).

Definition out_line (line : Z) : list bytes := group_map si so body k (line_of si k lss line src).

Lemma out_line_holds line : 0 <= line < h -> holds so k (out_line line).
Proof. intros. apply group_map_holds; [apply lc_len|]. by eapply line_of_holds. Qed.

(** The planes [dst'] are [dst] with the lines [lo] to [hi] converted. *)
Definition converted (lo hi : Z) (dst dst' : list bytes) : Prop :=
  length dst' = length dst /\
  forall p s l b, so !! p = Some s -> lsd !! p = Some l -> dst !! p = Some b ->
    exists b', dst' !! p = Some b' /\ length b' = length b /\
      (forall i j, lo <= i < hi -> 0 <= j < Z.of_nat (k * s) ->
         b' !! Z.to_nat (l * i + j) = plane (out_line i) p !! Z.to_nat j) /\
      (forall x, (forall i, lo <= i < hi -> ~ (l * i <= Z.of_nat x < l * i + Z.of_nat (k * s))) ->
         b' !! x = b !! x).

Lemma plane_lookup (ps : list bytes) p b : ps !! p = Some b -> plane ps p = b.
Proof. intros H. unfold plane. by rewrite H. Qed.

(** One call of the line-by-line loop copies the converted line into each plane. *)
Lemma convert_one_line line dst : 0 <= line < h -> shaped so k h lsd dst ->
  exists d, cv (pixels * Z.of_nat k) 1 (from_line lss line src) (from_line lsd line dst) = Some (0, d) /\
    length (set_from_line lsd line dst d) = length dst /\
    forall p s l b, so !! p = Some s -> lsd !! p = Some l -> dst !! p = Some b ->
      set_from_line lsd line dst d !! p = Some (splice (l * line) (plane (out_line line) p) b).
Proof.
  intros Hline Hd. rewrite (lc_run (cv := cv) (pixels := pixels) (si := si) (so := so) (body := body) (Q := Q) _ 1 k)
    by (rewrite ?Z.mul_1_r; done || (by eapply shaped_line) || exact (HQ line Hline)).
  unfold groups_written. eexists. split; [done|]. fold (line_of si k lss line src). fold (out_line line).
  pose proof (out_line_holds line Hline) as Ho. pose proof (shaped_from_line_length _ _ _ _ _ Hd line) as Hfl.
  set (d := zip_with app _ _).
  assert (Hdl : length d = length so).
  { unfold d, times. rewrite length_zip_with, length_zip_with, length_fmap, Hfl.
    apply Forall2_length in Ho. lia. }
  split.
  - unfold set_from_line. rewrite length_zip_with, length_zip_with. unfold from_line in Hfl.
    rewrite length_zip_with in Hfl. rewrite (sh_planes _ _ _ _ _ Hd) in *. lia.
  - intros p s l b Hs Hl Hb. unfold set_from_line. rewrite lookup_zip_with, lookup_zip_with, Hl, Hb. cbn.
    destruct (Forall2_lookup_l _ _ _ _ _ Ho Hs) as (g & Hg & Hlen).
    unfold d. rewrite lookup_zip_with, Hg. cbn. rewrite lookup_zip_with. unfold times.
    rewrite list_lookup_fmap, Hs. cbn. rewrite (from_line_lookup _ _ _ _ _ _ Hl Hb). cbn.
    rewrite (plane_lookup _ _ _ Hg). unfold splice. rewrite Hlen, drop_drop. done.
Qed.

Lemma shaped_set dst dst' : shaped so k h lsd dst -> length dst' = length dst ->
  (forall p s l b, so !! p = Some s -> lsd !! p = Some l -> dst !! p = Some b ->
     exists b', dst' !! p = Some b' /\ length b' = length b) -> shaped so k h lsd dst'.
Proof.
  intros Hd Hlen Hp. split; [by rewrite Hlen, (sh_planes _ _ _ _ _ Hd)|].
  intros p s Hs. destruct (sh_line _ _ _ _ _ Hd p s Hs) as (l & b & Hl & Hb & Hk & Hh).
  destruct (Hp p s l b Hs Hl Hb) as (b' & Hb' & Hl'). exists l, b'. unfold arr_len in *. rewrite Hl'. done.
Qed.

Lemma convert_lines_spec n line ret dst :
  0 <= line -> line + Z.of_nat n = h -> shaped so k h lsd dst ->
  exists dst', convert_lines cv (pixels * Z.of_nat k) lss lsd src n line ret dst
      = Some (if (n =? 0)%nat then ret else 0, dst') /\ converted line h dst dst'.
Proof.
  revert line ret dst. induction n as [|n IH]; intros line ret dst H0 Hn Hd; cbn [convert_lines].
  { exists dst. split; [done|]. split; [done|]. intros p s l b Hs Hl Hb. exists b.
    split_and!; [done|done|lia|done]. }
  destruct (convert_one_line line dst ltac:(lia) Hd) as (d & -> & Hlen & Hset).
  set (dst1 := set_from_line lsd line dst d) in *.
  assert (Hsp : forall p s l b, so !! p = Some s -> lsd !! p = Some l -> dst !! p = Some b ->
    Z.of_nat (k * s) <= l /\ l * h <= arr_len b /\ arr_len (plane (out_line line) p) = Z.of_nat (k * s)).
  { intros p s l b Hs Hl Hb. destruct (sh_line _ _ _ _ _ Hd p s Hs) as (l' & b0 & Hl' & Hb0 & Hk & Hh).
    assert (l' = l) as -> by congruence. assert (b0 = b) as -> by congruence.
    destruct (Forall2_lookup_l _ _ _ _ _ (out_line_holds line ltac:(lia)) Hs) as (g & Hg & Hg').
    rewrite (plane_lookup _ _ _ Hg). unfold arr_len in *. split_and!; [done|done|lia]. }
  assert (Hd1 : shaped so k h lsd dst1).
  { eapply shaped_set; [exact Hd|done|]. intros p s l b Hs Hl Hb. eexists. split; [by eapply Hset|].
    destruct (Hsp p s l b Hs Hl Hb) as (? & ? & ?). apply splice_length; nia. }
  destruct (IH (line + 1) 0 dst1 ltac:(lia) ltac:(lia) Hd1) as (dst' & -> & Hl' & Hc).
  exists dst'. split; [f_equal; f_equal; by destruct (n =? 0)%nat|]. split; [congruence|].
  intros p s l b Hs Hl Hb. destruct (Hsp p s l b Hs Hl Hb) as (Hk & Hh & Hg).
  destruct (Hc p s l _ Hs Hl (Hset p s l b Hs Hl Hb)) as (b' & Hb' & Hlb & Hin & Hout).
  exists b'. rewrite splice_length in Hlb by nia. split_and!; [done|done| |].
  - intros i j Hi Hj. destruct (decide (i = line)) as [->|]; [|apply Hin; lia].
    rewrite Hout by (intros i' Hi'; rewrite Z2Nat.id by nia; nia).
    rewrite splice_lookup by nia. rewrite decide_True by (unfold arr_len in Hg; nia). f_equal. nia.
  - intros x Hx. rewrite Hout by (intros i Hi; apply Hx; lia).
    rewrite splice_lookup by nia. rewrite decide_False; [done|]. intros Hc'.
    apply (Hx line ltac:(lia)). unfold arr_len in Hg. assert (0 <= l * line) by nia. lia.
Qed.

(** Lines without padding make up the plane. *)
Lemma whole_joined : joins_along Q si -> 0 <= h ->
  (forall p s, si !! p = Some s -> lss !! p = Some (Z.of_nat (k * s))) ->
  has_room si (Z.to_nat h * k) src -> Forall Q (zip_with take (times (Z.to_nat h * k) si) src).
Proof.
  intros Hj Hh Hls Hr. apply Forall_lookup. intros p x Hx. rewrite lookup_zip_with in Hx. unfold times in Hx.
  rewrite list_lookup_fmap in Hx. destruct (si !! p) as [s|] eqn:Hs; [|done]. cbn -[Nat.mul] in Hx.
  destruct (src !! p) as [b|] eqn:Hb; [|done]. cbn -[Nat.mul] in Hx. injection Hx as <-.
  destruct (proj1 (Forall_lookup _ _) Hj p s Hs) as [H0 Hjn].
  destruct (Forall2_lookup_l _ _ _ _ _ Hr Hs) as (b' & Hb' & Hlen). simplify_eq. apply plane_join; [done|done|lia|].
  intros i Hi. specialize (HQ (Z.of_nat i) ltac:(lia)). rewrite Forall_lookup in HQ. eapply HQ.
  rewrite (line_of_lookup _ _ _ _ _ _ _ _ _ Hs (Hls p s Hs) Hb). do 3 f_equal. lia.
Qed.

(** One call for the whole frame, when the lines of both frames have no padding. *)
Lemma convert_whole_spec dst : joins_along Q si -> 0 <= h -> is_u32 (pixels * Z.of_nat k * h) ->
  shaped so k h lsd dst ->
  (forall p s, si !! p = Some s -> lss !! p = Some (Z.of_nat (k * s))) ->
  (forall p s, so !! p = Some s -> lsd !! p = Some (Z.of_nat (k * s))) ->
  exists dst', cv (pixels * Z.of_nat k) h src dst = Some (0, dst') /\ converted 0 h dst dst'.
Proof.
  intros Hjn Hh Hu Hd Hls Hld. set (n := (Z.to_nat h * k)%nat).
  assert (Hal : forall sizes ls ps, shaped sizes k h ls ps ->
    (forall p s, sizes !! p = Some s -> ls !! p = Some (Z.of_nat (k * s))) -> has_room sizes n ps).
  { intros sizes ls ps Hp Hl. apply Forall2_same_length_lookup. split; [symmetry; apply (sh_planes _ _ _ _ _ Hp)|].
    intros p s b Hs Hb. destruct (sh_line _ _ _ _ _ Hp p s Hs) as (l & b' & Hl' & Hb' & _ & Hlen).
    rewrite (Hl p s Hs) in Hl'. simplify_eq. unfold n, arr_len in *. nia. }
  pose proof (Hal _ _ _ Hsrc Hls) as Has. pose proof (Hal _ _ _ Hd Hld) as Had.
  rewrite (lc_run (cv := cv) (pixels := pixels) (si := si) (so := so) (body := body) (Q := Q) _ _ n)
    by (done || (by apply whole_joined) || (unfold n; rewrite Nat2Z.inj_mul, Z2Nat.id by done; ring)).
  unfold groups_written. eexists. split; [done|].
  set (S := zip_with take (times n si) src). set (G := group_map si so body n S).
  pose proof (room_prefix _ _ _ Has) as HS. fold S in HS.
  pose proof (group_map_holds _ _ _ lc_len n S HS) as HG. fold G in HG.
  split.
  { rewrite length_zip_with, length_zip_with. unfold times. rewrite length_fmap.
    apply Forall2_length in HG, Had. lia. }
  intros p s l b Hs Hl Hb. rewrite (Hld p s Hs) in Hl. injection Hl as <-.
  destruct (Forall2_lookup_l _ _ _ _ _ HG Hs) as (g & Hg & Hglen).
  destruct (Forall2_lookup_l _ _ _ _ _ Had Hs) as (b0 & Hb0 & Hblen). simplify_eq.
  exists (g ++ drop (n * s) b). split_and!.
  - rewrite lookup_zip_with, Hg. cbn. rewrite lookup_zip_with. unfold times. by rewrite list_lookup_fmap, Hs, Hb.
  - rewrite length_app, length_drop. lia.
  - intros i j Hi Hj. rewrite lookup_app_l by (rewrite Hglen; unfold n; nia).
    assert (Hline : out_line i = zip_with take (times k so) (zip_with drop (times (Z.to_nat i * k) so) G)).
    { unfold G. replace n with (Z.to_nat i * k + (k + (n - Z.to_nat i * k - k)))%nat in * by (unfold n; nia).
      rewrite group_map_drop by (apply lc_len || done).
      rewrite group_map_take.
      3:{ apply Forall2_same_length_lookup. split.
          { rewrite length_zip_with. unfold times. rewrite length_fmap. apply Forall2_length in HS. lia. }
          intros q t c Ht Hc. rewrite lookup_zip_with in Hc. unfold times in Hc. rewrite list_lookup_fmap, Ht in Hc. cbn in Hc.
          destruct (Forall2_lookup_l _ _ _ _ _ HS Ht) as (c' & Hc' & Hlen'). rewrite Hc' in Hc. cbn in Hc. injection Hc as <-.
          rewrite length_drop. lia. }
      2:{ apply lc_len. }
      unfold out_line. f_equal. apply list_eq. intros q. unfold line_of, from_line, S, times.
      rewrite !lookup_zip_with, !list_lookup_fmap. destruct (si !! q) as [t|] eqn:Ht; cbn -[Z.of_nat Nat.mul]; [|done].
      rewrite (Hls q t Ht). cbn -[Z.of_nat Nat.mul]. destruct (src !! q) as [c|]; cbn -[Z.of_nat Nat.mul]; [|done].
      f_equal. rewrite skipn_firstn_comm, take_take. f_equal; [nia|]. f_equal. nia. }
    rewrite Hline. unfold plane. rewrite !lookup_zip_with. unfold times. rewrite !list_lookup_fmap, Hs, Hg.
    cbn -[Z.of_nat Nat.mul]. rewrite lookup_take_lt by lia. rewrite lookup_drop. f_equal. nia.
  - intros x Hx. destruct (decide (x < n * s)%nat) as [Hlt|Hge].
    + exfalso. assert (Hs0 : (0 < k * s)%nat) by (unfold n in Hlt; nia).
      apply (Hx (Z.of_nat x / Z.of_nat (k * s))).
      * split; [apply Z.div_pos; lia|]. apply Z.div_lt_upper_bound; [lia|]. unfold n in Hlt. nia.
      * pose proof (Z.div_mod (Z.of_nat x) (Z.of_nat (k * s)) ltac:(lia)).
        pose proof (Z.mod_pos_bound (Z.of_nat x) (Z.of_nat (k * s)) ltac:(lia)). lia.
    + rewrite lookup_app_r by lia. rewrite lookup_drop. f_equal. lia.
Qed.
End Lines.

(** ** Frames *)

(** A frame of [h] lines of [k] groups in memory. *)
Definition frame_fits (sizes : list nat) (k : nat) (h : Z) (i : image) : Prop :=
  shaped sizes k h (fr_linesize (im_frame i)) (im_planes i).

Lemma not_padded fmt pixels sizes k h i :
  fmt_groups fmt pixels sizes -> fr_fmt (im_frame i) = fmt -> fr_width (im_frame i) = pixels * Z.of_nat k ->
  side_ok (pixels * Z.of_nat k) -> frame_fits sizes k h i ->
  existsb (fun plane => arr_get 0 (fr_linesize (im_frame i)) plane >?
             st_frame_least_linesize (fr_fmt (im_frame i)) (fr_width (im_frame i)) plane)
    (seqZ 0 (st_frame_fmt_planes (fr_fmt (im_frame i)))) = false ->
  forall p s, sizes !! p = Some s -> fr_linesize (im_frame i) !! p = Some (Z.of_nat (k * s)).
Proof.
  intros [Hpl Hll] <- Hw Hok Hfit Hpad p s Hs.
  destruct (sh_line _ _ _ _ _ Hfit p s Hs) as (l & b & Hl & _ & Hk & _). rewrite Hl. f_equal.
  rewrite Hw in Hpad. pose proof (lookup_lt_Some _ _ _ Hs) as Hlt.
  assert (Hin : In (Z.of_nat p) (seqZ 0 (st_frame_fmt_planes (fr_fmt (im_frame i))))).
  { apply list_elem_of_In, elem_of_seqZ. rewrite Hpl. lia. }
  destruct (arr_get 0 (fr_linesize (im_frame i)) (Z.of_nat p) >?
     st_frame_least_linesize (fr_fmt (im_frame i)) (pixels * Z.of_nat k) (Z.of_nat p)) eqn:E.
  - rewrite (proj2 (existsb_exists _ _)) in Hpad by (exists (Z.of_nat p); split; [exact Hin|exact E]). done.
  - rewrite (Hll k p s Hok Hs), (arr_get_lookup 0 _ _ l) in E by (rewrite ?Nat2Z.id; done || lia). zbool. lia.
Qed.

(** Every line of the destination is the converted line of the source, and nothing else
    of the destination changes, whether or not lines have padding. *)
Lemma convert_frame_spec cv pixels si so body Q `{!LineConv cv pixels si so body Q} k src dst :
  let h := st_frame_data_height (im_frame dst) in
  joins_along Q si ->
  (forall i, 0 <= i < h -> Forall Q (line_of si k (fr_linesize (im_frame src)) i (im_planes src))) ->
  fmt_groups (fr_fmt (im_frame src)) pixels si -> fmt_groups (fr_fmt (im_frame dst)) pixels so ->
  fr_width (im_frame src) = pixels * Z.of_nat k -> fr_width (im_frame dst) = pixels * Z.of_nat k ->
  side_ok (pixels * Z.of_nat k) -> 0 <= h -> is_u32 (pixels * Z.of_nat k * h) ->
  frame_fits si k h src -> frame_fits so k h dst ->
  exists d, convert_frame cv src dst = Some (0, dst <| im_planes := d |>) /\
    converted si so body k (fr_linesize (im_frame src)) (fr_linesize (im_frame dst)) (im_planes src)
      0 h (im_planes dst) d.
Proof.
  intros h Hj HQ Hfs Hfd Hws Hwd Hok Hh Hu Hs Hd. unfold convert_frame. rewrite Hwd. fold h.
  assert (Hk32 : is_u32 (pixels * Z.of_nat k)) by (unfold side_ok, is_u32 in *; lia).
  destruct (has_lines_padding (im_frame src) (im_frame dst)) eqn:Hpad; cbn [negb].
  - destruct (convert_lines_spec cv pixels si so body Q k h (fr_linesize (im_frame src)) (fr_linesize (im_frame dst))
      (im_planes src) Hs HQ Hk32 (Z.to_nat h) 0 0 (im_planes dst)) as (d & -> & Hc); [lia|lia|exact Hd|].
    exists d. split; [|done]. cbn. by destruct (Z.to_nat h =? 0)%nat.
  - apply orb_false_iff in Hpad as [Hp1 Hp2].
    destruct (convert_whole_spec cv pixels si so body Q k h (fr_linesize (im_frame src)) (fr_linesize (im_frame dst))
      (im_planes src) Hs HQ (im_planes dst)) as (d & -> & Hc); [done|done|done|exact Hd| | |by exists d].
    + by eapply not_padded.
    + by eapply not_padded.
Qed.

Lemma converted_shaped si so body k h lss lsd src dst d :
  converted si so body k lss lsd src 0 h dst d -> shaped so k h lsd dst -> shaped so k h lsd d.
Proof.
  intros [Hlen Hc] Hd. split; [by rewrite Hlen, (sh_planes _ _ _ _ _ Hd)|]. intros p s Hp.
  destruct (sh_line _ _ _ _ _ Hd p s Hp) as (l & b & Hl & Hb & Hk & Hh).
  destruct (Hc p s l b Hp Hl Hb) as (b' & Hb' & Hlb & _). exists l, b'. unfold arr_len in *. by rewrite Hlb.
Qed.

(** A converted line read back from the destination. *)
Lemma converted_line si so body k h lss lsd src dst d i :
  converted si so body k lss lsd src 0 h dst d -> shaped so k h lsd dst -> 0 <= i < h ->
  (forall c, holds si 1 c -> holds so 1 (body c)) -> shaped si k h lss src ->
  shaped so k h lsd d /\ line_of so k lsd i d = group_map si so body k (line_of si k lss i src).
Proof.
  intros Hcv Hd Hi Hbody Hs. pose proof (converted_shaped _ _ _ _ _ _ _ _ _ _ Hcv Hd) as Hd'. destruct Hcv as [Hlen Hc].
  split; [done|].
  pose proof (group_map_holds _ _ _ Hbody k _ (line_of_holds _ _ _ _ _ Hs i Hi)) as Hg.
  pose proof (line_of_holds _ _ _ _ _ Hd' i Hi) as Hl'.
  apply list_eq_same_length with (n := length so); [|by apply Forall2_length in Hl'|].
  { by apply Forall2_length in Hg. }
  intros p x y Hp Hx Hy. destruct (lookup_lt_is_Some_2 so p Hp) as [s Hs'].
  destruct (sh_line _ _ _ _ _ Hd p s Hs') as (l & b & Hl & Hb & Hk & Hh).
  destruct (Hc p s l b Hs' Hl Hb) as (b' & Hb' & Hlb & Hin & _).
  rewrite (line_of_lookup _ _ _ _ _ _ _ _ _ Hs' Hl Hb') in Hx. injection Hx as <-.
  destruct (Forall2_lookup_l _ _ _ _ _ Hg Hs') as (y' & Hy' & Hylen). rewrite Hy in Hy'. injection Hy' as <-.
  unfold arr_len in Hh. apply list_eq_same_length with (n := (k * s)%nat); [done| |].
  { rewrite length_take, length_drop. nia. }
  intros j u v Hj Hu Hv. rewrite lookup_take_lt, lookup_drop in Hu by done.
  specialize (Hin i (Z.of_nat j) Hi ltac:(lia)). rewrite Nat2Z.id in Hin.
  replace (Z.to_nat (l * i + Z.of_nat j)) with (Z.to_nat (l * i) + j)%nat in Hin by nia.
  rewrite Hu in Hin. unfold out_line in Hin. rewrite (plane_lookup _ _ _ Hy), Hv in Hin. congruence.
Qed.

(** ** The routines of the table *)

(** A routine that converts any planes. *)
Definition any_plane (b : bytes) : Prop := True.
Lemma any_join sizes : joins_along any_plane sizes.
Proof. by apply Forall_true. Qed.

Lemma group_conv_line pixels si so f : 0 < pixels -> (forall c, holds si 1 c -> holds so 1 (f c)) ->
  LineConv (group_conv pixels si so f) pixels si so f any_plane.
Proof.
  intros Hp Hf. split; [done| |done]. intros w h n src dst Hu Hn Hs _ Hd. unfold group_conv.
  rewrite u32_id, Hn, Z.mul_comm, Z.div_mul, Nat2Z.id by (done || lia). by rewrite group_loop_room.
Qed.

(** An entry that does as its scalar routine on planes of the masks [q]. *)
Lemma entry_line q si so f cv : (forall c, holds si 1 c -> holds so 1 (f c)) ->
  (forall w h src dst, roomy_groups q si so 1 w h src dst -> cv w h src dst = group_conv 2 si so f w h src dst) ->
  LineConv cv 2 si so f (fits q).
Proof.
  intros Hf Hcv. pose proof (group_conv_line 2 si so f ltac:(lia) Hf) as Hl. split; [lia| |done].
  intros w h n src dst Hu Hn Hs HF Hd. rewrite Hcv; [|split; [done|]; exists n; split_and!; [mlia|done..]].
  apply lc_run; try done. apply Forall_true. done.
Qed.
Lemma v210_entry_line q si so f cv : (forall c, holds si 1 c -> holds so 1 (f c)) ->
  (forall w h src dst, roomy_groups q si so 3 w h src dst -> cv w h src dst = v210_conv si so f w h src dst) ->
  LineConv cv 6 si so f (fits q).
Proof.
  intros Hf Hcv. split; [lia| |done]. intros w h n src dst Hu Hn Hs HF Hd.
  assert (w * h / 2 = Z.of_nat n * 3) as Hw by mlia.
  rewrite Hcv by (split; [done|]; exists n; split_and!; [by rewrite Hw, Z.div_mul by lia|done..]).
  unfold v210_conv. rewrite u32_id, Hw, Z.mod_mul, Z.div_mul, Nat2Z.id by (done || lia). cbn [negb Z.eqb]. by rewrite group_loop_room.
Qed.

Lemma swap_br_swap ps : swap_br (swap_br ps) = ps.
Proof. by destruct ps as [|? [|? [|? [|? ?]]]]. Qed.

Lemma swap_br_holds s n ps : holds [s; s; s] n ps -> holds [s; s; s] n (swap_br ps).
Proof.
  intros H. apply Forall2_cons_inv_l in H as (a & ? & Ha & H & ->). apply Forall2_cons_inv_l in H as (b & ? & Hb & H & ->).
  apply Forall2_cons_inv_l in H as (c & ? & Hc & H & ->). apply Forall2_nil_inv_l in H as ->. by repeat constructor.
Qed.

(** Groups of equal planes: taking them apart commutes with exchanging planes. *)
Lemma swap_br_split s ps :
  split_groups [s; s; s] (swap_br ps) = prod_map swap_br swap_br <$> split_groups [s; s; s] ps.
Proof.
  unfold split_groups. destruct ps as [|a [|b [|c [|d ps]]]]; cbn [swap_br].
  1,2,3,5: rewrite bool_decide_eq_false_2; [done|];
    intros H; apply Forall2_length in H; cbn in H; lia.
  assert (Hiff : Forall2 (fun s0 q => (s0 <= length q)%nat) [s; s; s] [a; c; b] <->
                 Forall2 (fun s0 q => (s0 <= length q)%nat) [s; s; s] [a; b; c]).
  { rewrite !Forall2_cons. tauto. }
  destruct (decide (Forall2 (fun s0 q => (s0 <= length q)%nat) [s; s; s] [a; b; c])) as [H|H].
  - rewrite !bool_decide_eq_true_2 by (done || by apply Hiff). done.
  - rewrite !bool_decide_eq_false_2 by (done || (intros Hc; by apply Hiff in Hc)). done.
Qed.

Lemma split_groups_some sizes bs c r : split_groups sizes bs = Some (c, r) ->
  holds sizes 1 c /\ length r = length sizes.
Proof.
  unfold split_groups. case_bool_decide as H; [|done]. intros [= <- <-]. split.
  - induction H; constructor; [|done]. rewrite length_take. lia.
  - rewrite length_zip_with. apply Forall2_length in H. lia.
Qed.

Lemma group_loop_length si so f n src dst r :
  (forall c, holds si 1 c -> holds so 1 (f c)) -> length dst = length so ->
  group_loop si so f n src dst = Some r -> length r = length so.
Proof.
  intros Hf. revert src dst r. induction n as [|n IH]; intros src dst r Hd; cbn [group_loop]; [by intros [= <-]|].
  destruct (split_groups si src) as [[c src']|] eqn:E1; [|done].
  destruct (split_groups so dst) as [[c' dst']|] eqn:E2; [|done].
  destruct (group_loop si so f n src' dst') as [q|] eqn:E3; cbn; [|done]. intros [= <-].
  destruct (split_groups_some _ _ _ _ E1) as [Hc _]. destruct (split_groups_some _ _ _ _ E2) as [_ Hl].
  pose proof (IH _ _ _ Hl E3) as Hq. pose proof (Forall2_length _ _ _ (Hf c Hc)). rewrite length_zip_with. lia.
Qed.

Lemma zip_app_swap (x y : list bytes) : length x = 3%nat -> length y = 3%nat ->
  zip_with app (swap_br x) (swap_br y) = swap_br (zip_with app x y).
Proof. destruct x as [|? [|? [|? [|? ?]]]], y as [|? [|? [|? [|? ?]]]]; done. Qed.

Lemma group_loop_swap_out si s f n src dst : (forall c, holds si 1 c -> holds [s; s; s] 1 (f c)) ->
  group_loop si [s; s; s] (fun c => swap_br (f c)) n src dst =
    swap_br <$> group_loop si [s; s; s] f n src (swap_br dst).
Proof.
  intros Hf. revert src dst. induction n as [|n IH]; intros src dst; cbn [group_loop].
  { cbn. by rewrite swap_br_swap. }
  destruct (split_groups si src) as [[c src']|] eqn:E1; [|done].
  rewrite swap_br_split. destruct (split_groups [s; s; s] dst) as [[c' dst']|] eqn:E2; [|done].
  cbn [fmap option_fmap option_map prod_map fst snd]. rewrite IH.
  destruct (group_loop si [s; s; s] f n src' (swap_br dst')) as [q|] eqn:E3; cbn; [|done]. f_equal.
  destruct (split_groups_some _ _ _ _ E1) as [Hc _]. destruct (split_groups_some _ _ _ _ E2) as [_ Hl].
  apply zip_app_swap; [by rewrite <- (Forall2_length _ _ _ (Hf c Hc))|].
  change 3%nat with (length [s; s; s]). eapply group_loop_length; [exact Hf| |exact E3]. by destruct dst' as [|? [|? [|? [|? ?]]]].
Qed.

Lemma group_loop_swap_in s so f n src dst :
  group_loop [s; s; s] so (fun c => f (swap_br c)) n src dst = group_loop [s; s; s] so f n (swap_br src) dst.
Proof.
  revert src dst. induction n as [|n IH]; intros src dst; cbn [group_loop]; [done|]. rewrite swap_br_split.
  destruct (split_groups [s; s; s] src) as [[c src']|]; [|done]. cbn [fmap option_fmap option_map prod_map fst snd].
  destruct (split_groups so dst) as [[c' dst']|]; [|done]. by rewrite IH.
Qed.

Lemma swap_br_room s n ps : has_room [s; s; s] n ps -> has_room [s; s; s] n (swap_br ps).
Proof.
  intros H. apply Forall2_cons_inv_l in H as (a & ? & Ha & H & ->). apply Forall2_cons_inv_l in H as (b & ? & Hb & H & ->).
  apply Forall2_cons_inv_l in H as (c & ? & Hc & H & ->). apply Forall2_nil_inv_l in H as ->. by repeat constructor.
Qed.

Lemma to_gbr_line cv pixels si s f : LineConv cv pixels si [s; s; s] f any_plane ->
  LineConv (to_gbr cv) pixels si [s; s; s] (fun c => swap_br (f c)) any_plane.
Proof.
  intros [Hp Hl Hf]. split; [done| |intros c Hc; by apply swap_br_holds, Hf].
  intros w h n src dst Hu Hn Hs HQ Hd. pose proof (swap_br_room _ _ _ Hd) as Hd'. unfold to_gbr.
  rewrite (Hl w h n) by done. cbn. do 2 f_equal.
  pose proof (group_loop_swap_out si s f n src dst Hf) as E. rewrite !group_loop_room in E by done. by injection E.
Qed.

Lemma from_gbr_line cv pixels s so f : LineConv cv pixels [s; s; s] so f any_plane ->
  LineConv (from_gbr cv) pixels [s; s; s] so (fun c => f (swap_br c)) any_plane.
Proof.
  intros [Hp Hl Hf]. split; [done| |intros c Hc; by apply Hf, swap_br_holds].
  intros w h n src dst Hu Hn Hs HQ Hd. pose proof (swap_br_room _ _ _ Hs) as Hs'. unfold from_gbr.
  rewrite (Hl w h n) by (done || by apply Forall_true). f_equal. f_equal.
  pose proof (group_loop_swap_in s so f n src dst) as E. rewrite !group_loop_room in E by done. by injection E.
Qed.

(** The bodies of the scalar loops that have no vector routine. *)
Definition pg_p12_to_be12 (c : list bytes) : list bytes := [put_be12 (pack_be12 (get_p422 c))].
Definition pg_444be10_to_p10 (c : list bytes) : list bytes := put_p444x4 (unpack_rgb_be10 (get_rgb_be10 (plane c 0))).
Definition pg_p10_to_444be10 (c : list bytes) : list bytes := [put_rgb_be10 (pack_rgb_be10 (get_p444x4 c))].
Definition pg_444be12_to_p12 (c : list bytes) : list bytes := put_p444x2 (unpack_rgb_be12 (get_rgb_be12 (plane c 0))).
Definition pg_p12_to_444be12 (c : list bytes) : list bytes := [put_rgb_be12 (pack_rgb_be12 (get_p444x2 c))].
#[export] Instance body_p12_be12 : GroupBody (samples 12) [4; 2; 2]%nat [6]%nat pg_p12_to_be12.
Proof. group_body. Qed.

(** *** The routines at the highest level *)

Section AtMax.
Context (bd : simd_build) (cpu : cpu_flags).

#[export] Instance rfc4175_422be10_to_yuv422p10le_line : LineConv (st20_rfc4175_422be10_to_yuv422p10le bd cpu) 2 [5]%nat [4; 2; 2]%nat pg_be10_to_p10 (fits any_bytes).
Proof. apply entry_line; [group_len|]. intros. by apply st20_rfc4175_422be10_to_yuv422p10le_any_way. Qed.
#[export] Instance yuv422p10le_to_rfc4175_422be10_line : LineConv (st20_yuv422p10le_to_rfc4175_422be10 bd cpu) 2 [4; 2; 2]%nat [5]%nat pg_p10_to_be10 (fits (samples 10)).
Proof. apply entry_line; [group_len|]. intros. by apply st20_yuv422p10le_to_rfc4175_422be10_any_way. Qed.
#[export] Instance rfc4175_422be10_to_y210_line : LineConv (st20_rfc4175_422be10_to_y210 bd cpu) 2 [5]%nat [8]%nat pg_be10_to_y210 (fits any_bytes).
Proof. apply entry_line; [group_len|]. intros. by apply st20_rfc4175_422be10_to_y210_any_way. Qed.
#[export] Instance y210_to_rfc4175_422be10_line : LineConv (st20_y210_to_rfc4175_422be10 bd cpu) 2 [8]%nat [5]%nat pg_y210_to_be10 (fits y210_samples).
Proof. apply entry_line; [group_len|]. intros. by apply st20_y210_to_rfc4175_422be10_any_way. Qed.
#[export] Instance rfc4175_422be12_to_yuv422p12le_line : LineConv (st20_rfc4175_422be12_to_yuv422p12le bd cpu) 2 [6]%nat [4; 2; 2]%nat pg_be12_to_p12 (fits any_bytes).
Proof. apply entry_line; [group_len|]. intros. by apply st20_rfc4175_422be12_to_yuv422p12le_any_way. Qed.
#[export] Instance rfc4175_422be10_to_v210_line : LineConv (st20_rfc4175_422be10_to_v210 bd cpu) 6 [15]%nat [16]%nat pg3_be10_to_v210 (fits any_bytes).
Proof. apply v210_entry_line; [group_len|]. intros. by apply st20_rfc4175_422be10_to_v210_any_way. Qed.
#[export] Instance v210_to_rfc4175_422be10_line : LineConv (st20_v210_to_rfc4175_422be10 bd cpu) 6 [16]%nat [15]%nat pg3_v210_to_be10 (fits any_bytes).
Proof. apply v210_entry_line; [group_len|]. intros. by apply st20_v210_to_rfc4175_422be10_any_way. Qed.

(** The entries of the 16-bit planar format do not ask for the processor's level. *)
Definition p16_can_run : Prop := MTL_HAS_AVX512 bd = true -> level_ge (mtl_get_simd_level cpu) MTL_SIMD_LEVEL_AVX512 = true.
Lemma rfc4175_422be10_to_yuv422p16le_line : p16_can_run ->
  LineConv (st20_rfc4175_422be10_to_yuv422p16le bd cpu) 2 [5]%nat [4; 2; 2]%nat pg_be10_to_p16 (fits any_bytes).
Proof.
  intros Hr. apply entry_line; [group_len|]. intros. destruct (MTL_HAS_AVX512 bd) eqn:E.
  - apply st20_rfc4175_422be10_to_yuv422p16le_any_way; [done|]. intros _. by apply Hr.
  - unfold st20_rfc4175_422be10_to_yuv422p16le, at_max, st20_rfc4175_422be10_to_yuv422p16le_simd. cbn [simd_ways].
    unfold way_taken, built. cbn [way_level]. by rewrite E.
Qed.
Lemma yuv422p16le_to_rfc4175_422be10_line : p16_can_run ->
  LineConv (st20_yuv422p16le_to_rfc4175_422be10 bd cpu) 2 [4; 2; 2]%nat [5]%nat pg_p16_to_be10 (fits any_bytes).
Proof.
  intros Hr. apply entry_line; [group_len|]. intros. destruct (MTL_HAS_AVX512 bd) eqn:E.
  - apply st20_yuv422p16le_to_rfc4175_422be10_any_way; [done|]. intros _. by apply Hr.
  - unfold st20_yuv422p16le_to_rfc4175_422be10, at_max, st20_yuv422p16le_to_rfc4175_422be10_simd. cbn [simd_ways].
    unfold way_taken, built. cbn [way_level]. by rewrite E.
Qed.

#[export] Instance yuv422p12le_to_rfc4175_422be12_line : LineConv (st20_yuv422p12le_to_rfc4175_422be12 bd cpu) 2 [4; 2; 2]%nat [6]%nat pg_p12_to_be12 any_plane.
Proof. apply group_conv_line; [lia|group_len]. Qed.
#[export] Instance rfc4175_444be10_to_yuv444p10le_line : LineConv (st20_rfc4175_444be10_to_yuv444p10le bd cpu) 4 [15]%nat [8; 8; 8]%nat pg_444be10_to_p10 any_plane.
Proof. apply group_conv_line; [lia|group_len]. Qed.
#[export] Instance yuv444p10le_to_rfc4175_444be10_line : LineConv (st20_yuv444p10le_to_rfc4175_444be10 bd cpu) 4 [8; 8; 8]%nat [15]%nat pg_p10_to_444be10 any_plane.
Proof. apply group_conv_line; [lia|group_len]. Qed.
#[export] Instance rfc4175_444be12_to_yuv444p12le_line : LineConv (st20_rfc4175_444be12_to_yuv444p12le bd cpu) 2 [9]%nat [4; 4; 4]%nat pg_444be12_to_p12 any_plane.
Proof. apply group_conv_line; [lia|group_len]. Qed.
#[export] Instance yuv444p12le_to_rfc4175_444be12_line : LineConv (st20_yuv444p12le_to_rfc4175_444be12 bd cpu) 2 [4; 4; 4]%nat [9]%nat pg_p12_to_444be12 any_plane.
Proof. apply group_conv_line; [lia|group_len]. Qed.
#[export] Instance rfc4175_444be10_to_gbrp10le_line : LineConv (st20_rfc4175_444be10_to_gbrp10le bd cpu) 4 [15]%nat [8; 8; 8]%nat (fun c => swap_br (pg_444be10_to_p10 c)) any_plane.
Proof. apply to_gbr_line, rfc4175_444be10_to_yuv444p10le_line. Qed.
#[export] Instance gbrp10le_to_rfc4175_444be10_line : LineConv (st20_gbrp10le_to_rfc4175_444be10 bd cpu) 4 [8; 8; 8]%nat [15]%nat (fun c => pg_p10_to_444be10 (swap_br c)) any_plane.
Proof. apply from_gbr_line, yuv444p10le_to_rfc4175_444be10_line. Qed.
#[export] Instance rfc4175_444be12_to_gbrp12le_line : LineConv (st20_rfc4175_444be12_to_gbrp12le bd cpu) 2 [9]%nat [4; 4; 4]%nat (fun c => swap_br (pg_444be12_to_p12 c)) any_plane.
Proof. apply to_gbr_line, rfc4175_444be12_to_yuv444p12le_line. Qed.
#[export] Instance gbrp12le_to_rfc4175_444be12_line : LineConv (st20_gbrp12le_to_rfc4175_444be12 bd cpu) 2 [4; 4; 4]%nat [9]%nat (fun c => pg_p12_to_444be12 (swap_br c)) any_plane.
Proof. apply from_gbr_line, yuv444p12le_to_rfc4175_444be12_line. Qed.
End AtMax.

(** ** Conversions of the table that lose nothing *)

(** The formats, their groups, and what the bytes of a line are. *)
Inductive frame_route : st_frame_fmt -> st_frame_fmt -> list nat -> list nat -> Z -> (bytes -> Prop) -> Prop :=
  | fr_be10_p10 : frame_route ST_FRAME_FMT_YUV422RFC4175PG2BE10 ST_FRAME_FMT_YUV422PLANAR10LE [5]%nat [4; 2; 2]%nat 2 is_bytes
  | fr_be10_v210 : frame_route ST_FRAME_FMT_YUV422RFC4175PG2BE10 ST_FRAME_FMT_V210 [15]%nat [16]%nat 6 is_bytes
  | fr_be10_y210 : frame_route ST_FRAME_FMT_YUV422RFC4175PG2BE10 ST_FRAME_FMT_Y210 [5]%nat [8]%nat 2 is_bytes
  | fr_be10_p16 : frame_route ST_FRAME_FMT_YUV422RFC4175PG2BE10 ST_FRAME_FMT_YUV422PLANAR16LE [5]%nat [4; 2; 2]%nat 2 is_bytes
  | fr_be12_p12 : frame_route ST_FRAME_FMT_YUV422RFC4175PG2BE12 ST_FRAME_FMT_YUV422PLANAR12LE [6]%nat [4; 2; 2]%nat 2 is_bytes
  | fr_444be10_p10 : frame_route ST_FRAME_FMT_YUV444RFC4175PG4BE10 ST_FRAME_FMT_YUV444PLANAR10LE [15]%nat [8; 8; 8]%nat 4 is_bytes
  | fr_444be12_p12 : frame_route ST_FRAME_FMT_YUV444RFC4175PG2BE12 ST_FRAME_FMT_YUV444PLANAR12LE [9]%nat [4; 4; 4]%nat 2 is_bytes
  | fr_rgbbe10_gbr10 : frame_route ST_FRAME_FMT_RGBRFC4175PG4BE10 ST_FRAME_FMT_GBRPLANAR10LE [15]%nat [8; 8; 8]%nat 4 is_bytes
  | fr_rgbbe12_gbr12 : frame_route ST_FRAME_FMT_RGBRFC4175PG2BE12 ST_FRAME_FMT_GBRPLANAR12LE [9]%nat [4; 4; 4]%nat 2 is_bytes
  | fr_p10_be10 : frame_route ST_FRAME_FMT_YUV422PLANAR10LE ST_FRAME_FMT_YUV422RFC4175PG2BE10 [4; 2; 2]%nat [5]%nat 2 (is_samples 10)
  | fr_p12_be12 : frame_route ST_FRAME_FMT_YUV422PLANAR12LE ST_FRAME_FMT_YUV422RFC4175PG2BE12 [4; 2; 2]%nat [6]%nat 2 (is_samples 12)
  | fr_p10_444be10 : frame_route ST_FRAME_FMT_YUV444PLANAR10LE ST_FRAME_FMT_YUV444RFC4175PG4BE10 [8; 8; 8]%nat [15]%nat 4 (is_samples 10)
  | fr_p12_444be12 : frame_route ST_FRAME_FMT_YUV444PLANAR12LE ST_FRAME_FMT_YUV444RFC4175PG2BE12 [4; 4; 4]%nat [9]%nat 2 (is_samples 12)
  | fr_gbr10_rgbbe10 : frame_route ST_FRAME_FMT_GBRPLANAR10LE ST_FRAME_FMT_RGBRFC4175PG4BE10 [8; 8; 8]%nat [15]%nat 4 (is_samples 10)
  | fr_gbr12_rgbbe12 : frame_route ST_FRAME_FMT_GBRPLANAR12LE ST_FRAME_FMT_RGBRFC4175PG2BE12 [4; 4; 4]%nat [9]%nat 2 (is_samples 12).

(** Both routines of a route convert groups, they undo each other, what the first writes is
    what the second is for, and they are what the table has for the two formats. *)
Record route_ok (bd : simd_build) (cpu : cpu_flags) (fa fb : st_frame_fmt) (si so : list nat) (pixels : Z) (P : bytes -> Prop)
    (fwd bwd : conv) (f g : list bytes -> list bytes) (Qf Qg : bytes -> Prop) : Prop := {
  ro_fwd : st_frame_get_converter bd cpu fa fb = inr (mk_converter fa fb (convert_frame fwd));
  ro_bwd : st_frame_get_converter bd cpu fb fa = inr (mk_converter fb fa (convert_frame bwd));
  ro_fwd_line : LineConv fwd pixels si so f Qf;
  ro_bwd_line : LineConv bwd pixels so si g Qg;
  ro_undo : forall c, holds si 1 c -> Forall P c -> g (f c) = c;
  ro_src : forall b, P b -> Qf b;
  ro_mid : forall c, holds si 1 c -> Forall P c -> Forall Qg (f c);
  ro_join_src : joins_along Qf si;
  ro_join_mid : joins_along Qg so;
  ro_split : splits_along P si;
  ro_fa : fmt_groups fa pixels si;
  ro_fb : fmt_groups fb pixels so
}.

Ltac even_sizes :=
  repeat (apply Forall_cons_2; [first [by exists 1%nat | by exists 2%nat | by exists 4%nat]|]); apply Forall_nil_2.

(** Sizes of a line for the formats of the table. *)
Ltac fmt_groups_solve :=
  split; [reflexivity|];
  intros k p s Hok Hs;
  unfold st_frame_least_linesize; rewrite st_frame_size_group by (done || unfold side_ok; lia);
  cbn [fmt_group fst snd]; cbv zeta; unfold group_size; rewrite Z.mul_1_r;
  unfold side_ok in Hok;
  repeat (destruct p as [|p]; [injection Hs as <-|]); try discriminate Hs;
  match goal with |- (if ?b =? 1 then _ else _) = _ => let v := eval vm_compute in b in change b with v end;
  match goal with
  | |- context [st_frame_fmt_get_sampling ?f] =>
      let v := eval vm_compute in (st_frame_fmt_get_sampling f) in change (st_frame_fmt_get_sampling f) with v
  end;
  match goal with |- context [if ?m =? 0 then ?x else 0] => replace (if m =? 0 then x else 0) with x by (case_if; mlia) end;
  change (Z.of_nat 0) with 0; change (Z.of_nat 1) with 1; change (Z.of_nat 2) with 2;
  cbn [Z.eqb Pos.eqb orb Z.gtb Z.compare]; mlia.

Create HintDb line_conv.
#[export] Hint Resolve rfc4175_422be10_to_yuv422p16le_line yuv422p16le_to_rfc4175_422be10_line : line_conv.

Ltac joins_solve := first [apply any_join | apply fits_join; first [left; reflexivity | right; repeat constructor]].
Ltac src_fits := let b := fresh in let H := fresh in intros b H; first [done | exact (fits_bytes b H) | apply fits_samples; [lia|exact H]].
Ltac mid_fits :=
  intros c Hc HP;
  first [by apply Forall_true
        | eapply body_fits; [vm_compute; reflexivity|done|eapply Forall_impl; [exact HP|src_fits]]].
Ltac route_solve :=
  do 6 eexists; split;
  [ reflexivity | reflexivity | solve [eauto with typeclass_instances line_conv] | solve [eauto with typeclass_instances line_conv]
  | group_solve | src_fits | mid_fits | joins_solve | joins_solve
  | first [apply bytes_split | apply samples_split; even_sizes] | fmt_groups_solve | fmt_groups_solve ].

(** The pairs with the 16-bit planar format, whose routines may be AVX-512 on any processor. *)
Definition uses_p16 (fa fb : st_frame_fmt) : Prop := fa = ST_FRAME_FMT_YUV422PLANAR16LE \/ fb = ST_FRAME_FMT_YUV422PLANAR16LE.

Lemma frame_route_ok bd cpu fa fb si so pixels P : (uses_p16 fa fb -> p16_can_run bd cpu) ->
  frame_route fa fb si so pixels P -> exists fwd bwd f g Qf Qg, route_ok bd cpu fa fb si so pixels P fwd bwd f g Qf Qg.
Proof.
  intros Hr. destruct 1; try specialize (Hr (or_intror eq_refl)); route_solve.
Qed.

(** ** Main theorems *)

(** The frame is of format [fmt], [k] groups wide, [ht] lines high. *)
Definition picture (fmt : st_frame_fmt) (pixels : Z) (k : nat) (ht : Z) (il : bool) (i : image) : Prop :=
  fr_fmt (im_frame i) = fmt /\ fr_width (im_frame i) = pixels * Z.of_nat k /\
  fr_height (im_frame i) = ht /\ fr_interlaced (im_frame i) = il.

(** Lines of a frame, and of a field of an interlaced one. *)
Definition data_lines (ht : Z) (il : bool) : Z := if il then ht / 2 else ht.

Lemma picture_lines fmt pixels k ht il i :
  picture fmt pixels k ht il i -> st_frame_data_height (im_frame i) = data_lines ht il.
Proof. intros (_ & _ & Hh & Hi). unfold st_frame_data_height, data_lines. by rewrite Hh, Hi. Qed.

Lemma st_frame_convert_route bd cpu fa fb fwd pixels k ht il src dst :
  picture fa pixels k ht il src -> picture fb pixels k ht il dst ->
  st_frame_get_converter bd cpu fa fb = inr (mk_converter fa fb (convert_frame fwd)) ->
  st_frame_convert bd cpu src dst = convert_frame fwd src dst.
Proof.
  intros (Hf & Hw & Hh & _) (Hf' & Hw' & Hh' & _) Hc. unfold st_frame_convert.
  by rewrite Hw, Hw', Hh, Hh', !Z.eqb_refl, Hf, Hf', Hc.
Qed.

(** C16: Converting a frame with st_frame_convert and converting the result back gives
    every line of the picture unchanged, for every pair of formats of the converter
    table that can represent each other (9 wire formats to memory formats, and the
    planar 10 and 12 bit formats to the wire), whatever padding the lines of the three
    frames have, progressive or one field of an interlaced frame, and whichever of the
    vector routines the build and the processor let the library take. Both calls return 0.
    The picture is a whole number of pixel groups wide and of at most 2^32 - 1 pixels, and
    samples of planar sources have no bits above their width. For the 16-bit planar format
    a build with AVX-512 is assumed to run on a processor that has it: its two routines do
    not ask. *)
Theorem frame_convert_lossless bd cpu fa fb si so pixels P k ht il src mid back :
  frame_route fa fb si so pixels P -> (uses_p16 fa fb -> p16_can_run bd cpu) ->
  picture fa pixels k ht il src -> picture fb pixels k ht il mid -> picture fa pixels k ht il back ->
  let h := data_lines ht il in
  side_ok (pixels * Z.of_nat k) -> 0 <= h -> is_u32 (pixels * Z.of_nat k * h) ->
  frame_fits si k h src -> frame_fits so k h mid -> frame_fits si k h back ->
  (forall i, 0 <= i < h -> Forall P (line_of si k (fr_linesize (im_frame src)) i (im_planes src))) ->
  exists m b,
    st_frame_convert bd cpu src mid = Some (0, mid <| im_planes := m |>) /\
    st_frame_convert bd cpu (mid <| im_planes := m |>) back = Some (0, back <| im_planes := b |>) /\
    forall i, 0 <= i < h -> line_of si k (fr_linesize (im_frame back)) i b =
                            line_of si k (fr_linesize (im_frame src)) i (im_planes src).
Proof.
  intros Hr Hcpu Hps Hpm Hpb h Hok Hh Hu Hs Hm Hb HP.
  destruct (frame_route_ok _ _ _ _ _ _ _ _ Hcpu Hr) as (fwd & bwd & f & g & Qf & Qg & [Hf Hg Lf Lg Hgf HQf HQg Hjs Hjm Hsp Hfa Hfb]).
  pose proof (picture_lines _ _ _ _ _ _ Hpm) as Hhm. pose proof (picture_lines _ _ _ _ _ _ Hpb) as Hhb.
  rewrite (st_frame_convert_route _ _ _ _ _ _ _ _ _ _ _ Hps Hpm Hf).
  destruct Hps as (Es & Ws & _). pose proof Hpm as (Em & Wm & _). pose proof Hpb as (Eb & Wb & _).
  destruct (convert_frame_spec fwd pixels si so f Qf k src mid) as (m & Hcm & Hm');
    rewrite ?Hhm, ?Es, ?Em; try done.
  { intros i Hi. eapply Forall_impl; [by apply HP|done]. }
  rewrite Hhm in Hm'. fold h in Hm'.
  assert (Hlines : forall i, 0 <= i < h -> line_of so k (fr_linesize (im_frame mid)) i m =
      group_map si so f k (line_of si k (fr_linesize (im_frame src)) i (im_planes src))).
  { intros i Hi. apply (converted_line _ _ _ _ _ _ _ _ _ _ i Hm' Hm Hi lc_len Hs). }
  pose proof (converted_shaped _ _ _ _ _ _ _ _ _ _ Hm' Hm) as Hmf.
  exists m. rewrite (st_frame_convert_route bd cpu fb fa bwd pixels k ht il (mid <| im_planes := m |>) back) by done.
  destruct (convert_frame_spec bwd pixels so si g Qg k (mid <| im_planes := m |>) back) as (b & Hcb & Hb');
    cbn [im_frame im_planes modify_field]; rewrite ?Hhb, ?Em, ?Eb; try done.
  { intros i Hi. rewrite (Hlines i Hi). eapply group_map_joined; [exact Hsp|done|apply lc_len|done|by eapply line_of_holds|by apply HP]. }
  rewrite Hhb in Hb'. fold h in Hb'.
  exists b. split; [done|]. split; [done|]. intros i Hi.
  destruct (converted_line _ _ _ _ _ _ _ _ _ _ i Hb' Hb Hi lc_len Hmf) as [_ Hl2].
  rewrite Hl2. cbn [im_frame im_planes modify_field]. rewrite (Hlines i Hi).
  pose proof (line_of_holds _ _ _ _ _ Hs i Hi) as Hlh. rewrite group_map_comp by (apply lc_len || done).
  rewrite (group_map_ext si si _ P (fun c => c)) by auto. by apply group_map_id.
Qed.

(** ** Fields: merging and splitting *)

Lemma for_opt_inv {A} (P : Z -> A -> Prop) (f : Z -> A -> option A) n i s :
  P i s ->
  (forall k s, i <= k < i + Z.of_nat n -> P k s -> exists s', f k s = Some s' /\ P (k + 1) s') ->
  exists s', for_opt i n f s = Some s' /\ P (i + Z.of_nat n) s'.
Proof.
  revert i s. induction n as [|n IH]; intros i s HP Hf; cbn [for_opt].
  - exists s. by rewrite Z.add_0_r.
  - destruct (Hf i s ltac:(lia) HP) as (s1 & -> & H1). cbn [mbind option_bind].
    destruct (IH (i + 1) s1 H1) as (s2 & -> & H2); [intros; apply Hf; [lia|done]|].
    exists s2. split; [done|]. by replace (i + Z.of_nat (S n)) with (i + 1 + Z.of_nat n) by lia.
Qed.

Definition slice (b : bytes) (off len : Z) : bytes := take (Z.to_nat len) (drop (Z.to_nat off) b).

(** A line copied into a plane is there afterwards, and other lines are as before. *)
Lemma copy_line_spec from foff to toff len :
  0 <= foff -> 0 <= toff -> 0 <= len -> foff + len <= arr_len from -> toff + len <= arr_len to ->
  exists to', copy_line from foff to toff len = Some to' /\ length to' = length to /\
    slice to' toff len = slice from foff len /\
    forall o, 0 <= o -> o + len <= toff \/ toff + len <= o -> slice to' o len = slice to o len.
Proof.
  intros Hf Ht Hl Hfl Htl. unfold copy_line.
  rewrite (proj2 (Z.leb_le _ _) Hfl), (proj2 (Z.leb_le _ _) Htl). cbn [andb]. eexists. split; [done|].
  unfold arr_len in *. fold (slice from foff len). assert (Hsl : length (slice from foff len) = Z.to_nat len).
  { unfold slice. rewrite length_take, length_drop. lia. }
  assert (Hb : toff + arr_len (slice from foff len) <= arr_len to) by (unfold arr_len; lia).
  split; [by apply splice_length|]. split.
  - apply list_eq. intros i. unfold slice at 1. destruct (decide (i < Z.to_nat len)%nat).
    + rewrite lookup_take_lt, lookup_drop, splice_lookup, decide_True by (done || lia). f_equal. lia.
    + rewrite lookup_take_ge by lia. symmetry. apply lookup_ge_None_2. lia.
  - intros o Ho Hdis. apply list_eq. intros i. unfold slice. destruct (decide (i < Z.to_nat len)%nat).
    + rewrite !lookup_take_lt, !lookup_drop by lia. fold (slice from foff len).
      by rewrite splice_lookup, decide_False by (done || lia).
    + by rewrite !lookup_take_ge by lia.
Qed.

Section Fields.
Context (fmt : st_frame_fmt) (w np n : Z).
Abbreviation len := (st_frame_least_linesize fmt w).

(** An image of [lines] lines in [np] planes. *)
Record lines_fit (lines : Z) (i : image) : Prop := {
  lf_planes : arr_len (im_planes i) = np;
  lf_line : forall p, 0 <= p < np -> 0 <= len p <= linesize_of i p /\
    linesize_of i p * lines <= arr_len (plane_of i p)
}.

Definition line_bytes (i : image) (p line : Z) : bytes := slice (plane_of i p) (linesize_of i p * line) (len p).

Lemma plane_of_set i p q b : 0 <= p < arr_len (im_planes i) -> 0 <= q ->
  plane_of (set_plane p b i) q = if q =? p then b else plane_of i q.
Proof.
  intros Hp Hq. unfold plane_of, set_plane. cbn [im_planes modify_field]. destruct (Z.eqb_spec q p) as [->|].
  - by apply arr_get_set_eq.
  - apply arr_get_set_ne; lia.
Qed.

Lemma set_plane_set p b b' i : 0 <= p -> set_plane p b' (set_plane p b i) = set_plane p b' i.
Proof.
  intros Hp. destruct i as [fr sf ps].
  change (mk_image fr sf (arr_set (arr_set ps p b) p b') = mk_image fr sf (arr_set ps p b')). f_equal.
  unfold arr_set. destruct (Z.ltb_spec p 0); [lia|]. apply list_insert_insert_eq.
Qed.

(** Writing one line of a plane of an image. *)
Lemma write_line_spec lines i p line from foff :
  lines_fit lines i -> 0 <= p < np -> 0 <= line < lines ->
  0 <= foff -> foff + len p <= arr_len from ->
  exists b, copy_line from foff (plane_of i p) (linesize_of i p * line) (len p) = Some b /\
    lines_fit lines (set_plane p b i) /\ im_frame (set_plane p b i) = im_frame i /\
    line_bytes (set_plane p b i) p line = slice from foff (len p) /\
    forall q l, 0 <= q < np -> 0 <= l < lines -> q <> p \/ l <> line ->
      line_bytes (set_plane p b i) q l = line_bytes i q l.
Proof.
  intros Hfit Hp Hline Hf Hfl. destruct (lf_line _ _ Hfit p Hp) as [Hl Hb].
  destruct (copy_line_spec from foff (plane_of i p) (linesize_of i p * line) (len p))
    as (b & Hc & Hlen & Hin & Hout); try (done || lia || nia). exists b. split; [done|].
  assert (Hpl : 0 <= p < arr_len (im_planes i)) by (rewrite (lf_planes _ _ Hfit); lia).
  split; [|split; [done|split]].
  - split; [unfold set_plane; cbn [im_planes modify_field]; by rewrite arr_len_set, (lf_planes _ _ Hfit)|].
    intros q Hq. change (linesize_of (set_plane p b i) q) with (linesize_of i q). rewrite plane_of_set by lia.
    destruct (lf_line _ _ Hfit q Hq). destruct (Z.eqb_spec q p) as [->|]; [|done]. unfold arr_len in *. by rewrite Hlen.
  - unfold line_bytes. change (linesize_of (set_plane p b i) p) with (linesize_of i p).
    by rewrite plane_of_set, Z.eqb_refl by lia.
  - intros q l Hq Hl' Hne. unfold line_bytes. change (linesize_of (set_plane p b i) q) with (linesize_of i q).
    rewrite plane_of_set by lia. destruct (Z.eqb_spec q p) as [->|]; [|done].
    apply Hout; [nia|]. destruct Hne; [done|]. nia.
Qed.

Lemma line_off lines i p line : lines_fit lines i -> 0 <= p < np -> 0 <= line < lines ->
  0 <= linesize_of i p * line /\ linesize_of i p * line + len p <= arr_len (plane_of i p).
Proof. intros Hf Hp Hl. destruct (lf_line _ _ Hf p Hp). nia. Qed.

(** Lines done before turn [(fl, p)] of the two nested loops. *)
Definition before (fl p l q : Z) : Prop := l < fl \/ (l = fl /\ q < p).

Section Merge.
Context (first second : image).
Hypothesis Hfirst : lines_fit n first.
Hypothesis Hsecond : lines_fit n second.

Definition merged (fl p : Z) (frame0 frame : image) : Prop :=
  im_frame frame = im_frame frame0 /\ im_second_field frame = im_second_field frame0 /\ lines_fit (2 * n) frame /\
  forall l q, 0 <= l < n -> 0 <= q < np -> before fl p l q ->
    line_bytes frame q (2 * l) = line_bytes first q l /\ line_bytes frame q (2 * l + 1) = line_bytes second q l.

Lemma merge_plane_step frame0 frame fl p :
  fr_fmt (im_frame frame0) = fmt -> fr_width (im_frame frame0) = w ->
  0 <= fl < n -> 0 <= p < np -> merged fl p frame0 frame ->
  exists frame', merge_plane first second fl p frame = Some frame' /\ merged fl (p + 1) frame0 frame'.
Proof.
  intros Hfm Hw Hfl Hp (Hi & Hsf & Hfit & Hdone). unfold merge_plane. rewrite Hi, Hfm, Hw.
  destruct (line_off _ _ p fl Hfirst Hp Hfl) as [H1 H2]. destruct (line_off _ _ p fl Hsecond Hp Hfl) as [H3 H4].
  destruct (write_line_spec (2 * n) frame p (2 * fl) _ _ Hfit Hp ltac:(lia) H1 H2) as (b & -> & Hfit1 & _ & Hin1 & Hout1).
  cbn [mbind option_bind]. set (fr1 := set_plane p b frame) in *.
  assert (Hp1 : plane_of fr1 p = b).
  { unfold fr1. rewrite plane_of_set, Z.eqb_refl by (rewrite ?(lf_planes _ _ Hfit); lia). done. }
  destruct (write_line_spec (2 * n) fr1 p (2 * fl + 1) _ _ Hfit1 Hp ltac:(lia) H3 H4) as (b' & Hc & Hfit2 & _ & Hin2 & Hout2).
  rewrite Hp1 in Hc. change (linesize_of fr1 p) with (linesize_of frame p) in Hc. rewrite Hc. cbn [mbind option_bind].
  assert (Hset : set_plane p b' fr1 = set_plane p b' frame).
  { unfold fr1. apply set_plane_set. lia. }
  exists (set_plane p b' frame). split; [done|]. rewrite Hset in *. split; [done|]. split; [done|]. split; [done|].
  intros l q Hl Hq Hb. destruct (decide (l = fl /\ q = p)) as [[-> ->]|Hne].
  - split; [|done]. rewrite Hout2 by lia. done.
  - rewrite !Hout2, !Hout1 by lia. apply Hdone; [done|done|]. unfold before in *. lia.
Qed.

Lemma merge_loops frame0 : 0 <= n -> 0 <= np ->
  fr_fmt (im_frame frame0) = fmt -> fr_width (im_frame frame0) = w -> lines_fit (2 * n) frame0 ->
  exists frame, for_opt 0 (Z.to_nat n) (fun fl => for_opt 0 (Z.to_nat np) (merge_plane first second fl)) frame0 = Some frame /\
    merged n 0 frame0 frame.
Proof.
  intros Hn Hnp Hfm Hw Hfit.
  destruct (for_opt_inv (fun fl frame => merged fl 0 frame0 frame)
    (fun fl => for_opt 0 (Z.to_nat np) (merge_plane first second fl)) (Z.to_nat n) 0 frame0) as (frame & E & H).
  - split_and!; try done. unfold before. intros; lia.
  - intros fl frame Hfl Hm.
    destruct (for_opt_inv (fun p frame => merged fl p frame0 frame) (merge_plane first second fl) (Z.to_nat np) 0 frame Hm)
      as (frame' & E & Hm').
    + intros p fr Hp Hmp. apply merge_plane_step; (done || lia).
    + exists frame'. split; [done|]. destruct Hm' as (A & B & C & D). split_and!; try done.
      intros l q Hl Hq Hb. apply D; [done|done|]. unfold before in *. lia.
  - exists frame. split; [done|]. by replace (0 + Z.of_nat (Z.to_nat n)) with n in H by lia.
Qed.
End Merge.

Section Split.
Context (frame : image).
Hypothesis Hframe : lines_fit (2 * n) frame.
Hypothesis Hfmt : fr_fmt (im_frame frame) = fmt.
Hypothesis Hwidth : fr_width (im_frame frame) = w.

Definition split_done (fl p : Z) (fs0 fs : image * image) : Prop :=
  im_frame fs.1 = im_frame fs0.1 /\ im_frame fs.2 = im_frame fs0.2 /\
  im_second_field fs.1 = im_second_field fs0.1 /\ im_second_field fs.2 = im_second_field fs0.2 /\
  lines_fit n fs.1 /\ lines_fit n fs.2 /\
  forall l q, 0 <= l < n -> 0 <= q < np -> before fl p l q ->
    line_bytes fs.1 q l = line_bytes frame q (2 * l) /\ line_bytes fs.2 q l = line_bytes frame q (2 * l + 1).

Lemma split_plane_step fs0 fs fl p : 0 <= fl < n -> 0 <= p < np -> split_done fl p fs0 fs ->
  exists fs', split_plane frame fl p fs = Some fs' /\ split_done fl (p + 1) fs0 fs'.
Proof.
  intros Hfl Hp (H1 & H2 & H3 & H4 & Hf1 & Hf2 & Hdone). unfold split_plane. rewrite Hfmt, Hwidth.
  destruct fs as [first second]. cbn [fst snd] in *.
  destruct (line_off _ _ p (2 * fl) Hframe Hp ltac:(lia)) as [A1 A2].
  destruct (line_off _ _ p (2 * fl + 1) Hframe Hp ltac:(lia)) as [A3 A4].
  destruct (write_line_spec n first p fl _ _ Hf1 Hp Hfl A1 A2) as (b & -> & F1 & _ & I1 & O1).
  destruct (write_line_spec n second p fl _ _ Hf2 Hp Hfl A3 A4) as (c & -> & F2 & _ & I2 & O2).
  cbn [mbind option_bind]. eexists. split; [done|]. split_and!; try done. cbn [fst snd].
  intros l q Hl Hq Hb. destruct (decide (l = fl /\ q = p)) as [[-> ->]|Hne]; [done|].
  rewrite O1, O2 by lia. apply Hdone; [done|done|]. unfold before in *. lia.
Qed.

Lemma split_loops fs0 : 0 <= n -> 0 <= np -> lines_fit n fs0.1 -> lines_fit n fs0.2 ->
  exists fs, for_opt 0 (Z.to_nat n) (fun fl => for_opt 0 (Z.to_nat np) (split_plane frame fl)) fs0 = Some fs /\
    split_done n 0 fs0 fs.
Proof.
  intros Hn Hnp Hf1 Hf2.
  destruct (for_opt_inv (fun fl fs => split_done fl 0 fs0 fs)
    (fun fl => for_opt 0 (Z.to_nat np) (split_plane frame fl)) (Z.to_nat n) 0 fs0) as (fs & E & H).
  - split_and!; try done. unfold before. intros; lia.
  - intros fl fs Hfl Hm.
    destruct (for_opt_inv (fun p fs => split_done fl p fs0 fs) (split_plane frame fl) (Z.to_nat np) 0 fs Hm)
      as (fs' & E & Hm').
    + intros p fr Hp Hmp. apply split_plane_step; (done || lia).
    + exists fs'. split; [done|]. destruct Hm' as (A & B & C & D & F & G & I). split_and!; try done.
      intros l q Hl Hq Hb. apply I; [done|done|]. unfold before in *. lia.
  - exists fs. split; [done|]. by replace (0 + Z.of_nat (Z.to_nat n)) with n in H by lia.
Qed.
End Split.
End Fields.

(** An interlaced frame of even height that is split into its two fields and merged
    again has the same lines, in every plane and whatever the padding of the four
    buffers; both calls return 0, and the fields are the even and the odd lines. *)
Theorem field_split_merge fmt w n frame first second back :
  let np := st_frame_fmt_planes fmt in
  fr_fmt (im_frame frame) = fmt -> fr_width (im_frame frame) = w -> fr_height (im_frame frame) = 2 * n ->
  fr_fmt (im_frame back) = fmt -> fr_width (im_frame back) = w -> fr_height (im_frame back) = 2 * n ->
  0 <= n -> 0 <= np ->
  fields_frame_match first second frame = 0 ->
  lines_fit fmt w np (2 * n) frame -> lines_fit fmt w np n first -> lines_fit fmt w np n second ->
  lines_fit fmt w np (2 * n) back ->
  exists f s b,
    st_field_split frame first second = Some (0, (f, s)) /\ st_field_merge f s back = Some (0, b) /\
    forall p, 0 <= p < np ->
      (forall l, 0 <= l < n -> line_bytes fmt w f p l = line_bytes fmt w frame p (2 * l) /\
                               line_bytes fmt w s p l = line_bytes fmt w frame p (2 * l + 1)) /\
      (forall l, 0 <= l < 2 * n -> line_bytes fmt w b p l = line_bytes fmt w frame p l).
Proof.
  intros np Ff Fw Fh Bf Bw Bh Hn Hnp Hm Hframe Hfirst Hsecond Hback.
  assert (Hlines : (2 * n + 1) / 2 = n) by mlia.
  unfold st_field_split. rewrite Hm. cbn [Z.ltb Z.compare]. unfold field_lines, plane_count. rewrite Fh, Ff, Hlines. fold np.
  destruct (split_loops fmt w np n frame Hframe Ff Fw (first, second)) as ([f s] & -> & Hs); [done..|].
  destruct Hs as (F1 & F2 & S1 & S2 & L1 & L2 & Hlines1). cbn [fst snd] in *.
  assert (Hm' : fields_frame_match f s back = 0).
  { revert Hm. unfold fields_frame_match, field_frame_check. by rewrite F1, F2, S1, S2, Ff, Fw, Fh, Bf, Bw, Bh. }
  destruct (merge_loops fmt w np n f s L1 L2 back) as (b & Hb & Hbm); try done.
  exists f, s, b. split; [done|]. split.
  - unfold st_field_merge. rewrite Hm'. cbn [Z.ltb Z.compare]. unfold field_lines, plane_count. rewrite Bh, Bf, Hlines. fold np.
    by rewrite Hb.
  - intros p Hp. split; [intros l Hl; apply Hlines1; [done|done|unfold before; lia]|].
    intros l Hl. destruct Hbm as (_ & _ & _ & Hmg).
    destruct (Hmg (l / 2) p) as [M1 M2]; [mlia|done|unfold before; mlia|].
    destruct (Hlines1 (l / 2) p) as [N1 N2]; [mlia|done|unfold before; mlia|].
    destruct (decide (l mod 2 = 0)).
    + replace (2 * (l / 2)) with l in * by mlia. congruence.
    + replace (2 * (l / 2) + 1) with l in * by mlia. congruence.
Qed.

(** ** Examples *)

Definition demo_frame (fmt : st_frame_fmt) (ls : list Z) (h : Z) (il : bool) : st_frame :=
  mk_frame [0; 0; 0; 0] [0; 0; 0; 0] ls fmt il 0 0 2 h 0.

(** A build with every vector routine, on a processor that has them. *)
Definition demo_build : simd_build := mk_build true true true.
Definition demo_cpu : cpu_flags := mk_cpu true true true true.

(** A picture of 2x2 with padded lines in the wire format. *)
Definition demo_be10 : image :=
  mk_image (demo_frame ST_FRAME_FMT_YUV422RFC4175PG2BE10 [7; 0; 0; 0] 2 false) false
    [[1; 2; 3; 4; 5; 0; 0; 250; 251; 252; 253; 254; 0; 0]].
Definition demo_p10 : image :=
  mk_image (demo_frame ST_FRAME_FMT_YUV422PLANAR10LE [4; 2; 2; 0] 2 false) false
    [replicate 8 0; replicate 4 0; replicate 4 0].
Definition demo_back : image :=
  mk_image (demo_frame ST_FRAME_FMT_YUV422RFC4175PG2BE10 [5; 0; 0; 0] 2 false) false [replicate 10 7].

Ltac fits_demo := split; [done|]; intros [|[|[|p]]] s Hs; cbn in Hs; simplify_eq; (do 2 eexists; split_and!; [done|done|vm_compute; congruence|vm_compute; congruence]).

Lemma frame_convert_lossless_witness : exists m b,
  st_frame_convert demo_build demo_cpu demo_be10 demo_p10 = Some (0, demo_p10 <| im_planes := m |>) /\
  st_frame_convert demo_build demo_cpu (demo_p10 <| im_planes := m |>) demo_back = Some (0, demo_back <| im_planes := b |>) /\
  forall i, 0 <= i < 2 -> line_of [5]%nat 1 [5; 0; 0; 0] i b = line_of [5]%nat 1 [7; 0; 0; 0] i (im_planes demo_be10).
Proof.
  apply (frame_convert_lossless demo_build demo_cpu _ _ _ _ _ _ 1 2 false demo_be10 demo_p10 demo_back fr_be10_p10);
    [done|done|done|done|unfold side_ok; lia|unfold data_lines; lia|unfold data_lines, is_u32; lia| | | |].
  - fits_demo.
  - fits_demo.
  - fits_demo.
  - intros i Hi. assert (i = 0 \/ i = 1) as [-> | ->] by (unfold data_lines in Hi; lia);
      repeat constructor; unfold is_u8; lia.
Defined.

Definition demo_field (second : bool) : image :=
  mk_image (demo_frame ST_FRAME_FMT_UYVY [6; 0; 0; 0] 4 true) second [replicate 12 0].
Definition demo_full (ls : Z) (b : bytes) : image :=
  mk_image (demo_frame ST_FRAME_FMT_UYVY [ls; 0; 0; 0] 4 true) false [b].
Definition demo_lines : bytes := [1; 1; 1; 1; 2; 2; 2; 2; 3; 3; 3; 3; 4; 4; 4; 4].

Ltac lines_demo := split; [done|]; intros p Hp; change (st_frame_fmt_planes ST_FRAME_FMT_UYVY) with 1 in Hp;
  assert (p = 0) as -> by lia; vm_compute; repeat split; congruence.

Lemma field_split_merge_witness : exists f s b,
  st_field_split (demo_full 4 demo_lines) (demo_field false) (demo_field true) = Some (0, (f, s)) /\
  st_field_merge f s (demo_full 5 (replicate 20 9)) = Some (0, b) /\
  forall p, 0 <= p < st_frame_fmt_planes ST_FRAME_FMT_UYVY ->
    (forall l, 0 <= l < 2 ->
       line_bytes ST_FRAME_FMT_UYVY 2 f p l = line_bytes ST_FRAME_FMT_UYVY 2 (demo_full 4 demo_lines) p (2 * l) /\
       line_bytes ST_FRAME_FMT_UYVY 2 s p l = line_bytes ST_FRAME_FMT_UYVY 2 (demo_full 4 demo_lines) p (2 * l + 1)) /\
    (forall l, 0 <= l < 2 * 2 ->
       line_bytes ST_FRAME_FMT_UYVY 2 b p l = line_bytes ST_FRAME_FMT_UYVY 2 (demo_full 4 demo_lines) p l).
Proof.
  apply (field_split_merge ST_FRAME_FMT_UYVY 2 2); [done|done|done|done|done|done|done|done|done|lines_demo..].
Defined.

(** A frame converted to planar 4:2:0 is left as it was when a line of either frame has
    padding: the lines are converted one at a time, and the routine works on pairs. *)
Definition demo_420_src (ls : Z) (b : bytes) : image :=
  mk_image (demo_frame ST_FRAME_FMT_YUV422RFC4175PG2BE10 [ls; 0; 0; 0] 2 false <| fr_width := 4 |>) false [b].
Definition demo_420_dst (ps : list bytes) : image :=
  mk_image (demo_frame ST_FRAME_FMT_YUV420PLANAR8 [4; 1; 1; 0] 2 false <| fr_width := 4 |>) false ps.

Lemma yuv420p8_padded_not_converted :
  st_frame_convert demo_build demo_cpu (demo_420_src 11 (replicate 22 255)) (demo_420_dst [replicate 8 9; [9; 9]; [9; 9]]) =
  Some (0, demo_420_dst [replicate 8 9; [9; 9]; [9; 9]]).
Proof. by vm_compute. Qed.

(** A build with AVX-512 cannot convert to or from the 16-bit planar format on a processor
    without it. *)
Lemma p16_convert_faults w h src dst : st20_rfc4175_422be10_to_yuv422p16le demo_build (mk_cpu true false false true) w h src dst = None /\
  st20_yuv422p16le_to_rfc4175_422be10 demo_build (mk_cpu true false false true) w h src dst = None.
Proof. done. Qed.

(** The same picture without padding is converted. *)
Lemma yuv420p8_converted :
  st_frame_convert demo_build demo_cpu (demo_420_src 10 (replicate 20 255)) (demo_420_dst [replicate 8 9; [9; 9]; [9; 9]]) =
  Some (0, demo_420_dst [replicate 8 255; [255; 255]; [255; 255]]).
Proof. by vm_compute. Qed.

(** With an odd height the last turn of the merge is outside the fields and the frame. *)
Lemma odd_field_merge_outside :
  st_field_merge (mk_image (demo_frame ST_FRAME_FMT_UYVY [4; 0; 0; 0] 3 true) false [replicate 4 0])
    (mk_image (demo_frame ST_FRAME_FMT_UYVY [4; 0; 0; 0] 3 true) true [replicate 4 0])
    (mk_image (demo_frame ST_FRAME_FMT_UYVY [4; 0; 0; 0] 3 false) false [replicate 12 0]) = None.
Proof. by vm_compute. Qed.
