(* ===== verification/RxAudio.v ===== *)
(** The ST 2110-30 receiver, lib/src/st2110/st_rx_audio_session.c: the pool of
    frames, the packet filter over two ports, assembly of the open frame by the
    RTP timestamps of its packets, delivery, and the RTP-level session that hands
    packets to the application through a ring.

    An audio frame is a fixed number of packets of equal length; the frames lie on
    a grid of RTP timestamps, one frame is open at a time, and a bitmap says which
    of its packets have come. The packet dump, the timing parser and the trace
    probes only observe and are left out. *)
From S2P Require Import Prelude SeqNum Bitmap Fmt.

Definition MTL_SESSION_PORT_MAX : Z := 2.
Definition SIZEOF_RFC3550_AUDIO_HDR : Z := 54.

(** ** State *)

(** The counters of [struct st30_rx_user_stats] the code below moves. *)
Inductive ra_counter :=
| RA_PKTS_WRONG_PT | RA_PKTS_WRONG_SSRC | RA_PKTS_LEN_MISMATCH | RA_LOST_PACKETS
| RA_PKTS_REDUNDANT | RA_PKTS_UNRECOVERED | RA_PKTS_RECEIVED | RA_SLOT_GET_FRAME_FAIL
| RA_FRAMES_INCOMPLETE | RA_PORT_LOST (s_port : Z) | RA_PORT_DUPLICATES (s_port : Z)
| RA_PORT_REORDERED (s_port : Z) | RA_PORT_PACKETS (s_port : Z) | RA_PORT_BYTES (s_port : Z)
| RA_PORT_FRAMES (s_port : Z) | RA_PORT_ERR (s_port : Z).
#[export] Instance ra_counter_eq : EqDecision ra_counter.
Proof. solve_decision. Defined.

(** [struct st_frame_trans], the part the audio receiver uses. *)
Record ra_frame := mk_ra_frame { rf_refcnt : Z; rf_data : list Z }.
#[export] Instance eta_ra_frame : Settable ra_frame := fun f => mk_ra_frame (rf_refcnt f) (rf_data f).

(** A received packet: the RTP fields in host order, the lengths of the mbuf, the
    bytes behind the header, and its receive time. *)
Record ra_pkt := mk_ra_pkt {
  ap_seq : Z;
  ap_tmstamp : Z;
  ap_payload_type : Z;
  ap_ssrc : Z;
  ap_data_len : Z;
  ap_pkt_len : Z;
  ap_payload : list Z;
  ap_ptp : Z;
}.

(** [struct st30_rx_frame_meta]; [am_complete] is the status COMPLETE, its
    negation CORRUPTED. *)
Record ra_meta := mk_ra_meta {
  am_timestamp : Z;
  am_timestamp_first_pkt : Z;
  am_fmt : st30_fmt;
  am_sampling : st30_sampling;
  am_channel : Z;
  am_recv_size : Z;
  am_complete : bool;
}.
(** A call of [notify_frame_ready]: the frame, its meta and its contents. *)
Record ra_event := mk_ra_event { ev_frame : nat; ev_meta : ra_meta; ev_data : list Z }.

(** The ops and what [rx_audio_session_attach] computes from them. *)
Record ra_config := mk_ra_config {
  ra_num_port : Z;
  ra_payload_type : Z;
  ra_ssrc : Z;
  ra_receive_incomplete : bool;
  ra_fmt : st30_fmt;
  ra_sampling : st30_sampling;
  ra_channel : Z;
  ra_frames_cnt : Z;
  pkt_len : Z;
  st30_total_pkts : Z;
  st30_frame_size : Z;
  rtp_ticks_per_frame : Z;
  samples_per_pkt : Z;
  frame_bitmap_size : Z;
}.

(** [struct st_rx_audio_session_impl]; [st30_cur_frame] is the index of the open
    frame, [ra_rtps_ring] the packets in the ring, oldest first. *)
Record ra_session := mk_ra_session {
  st30_frames : list ra_frame;
  st30_cur_frame : option nat;
  session_seq_id : Z;
  latest_seq_id : list Z;
  ra_redundant_error_cnt : list Z;
  first_pkt_rtp_ts : Z;
  first_pkt_ptp_ts : Z;
  ra_tmstamp : Z;
  frame_recv_size : Z;
  frame_bitmap : bitmap_ptr;
  stat_frames_received : Z;
  burst_loss_cnt : Z;
  ra_counters : ra_counter -> Z;
  ra_rtps_ring : list ra_pkt;
  ra_notified : list ra_event;
  ra_rtp_notified : Z;
}.
#[export] Instance eta_ra_session : Settable ra_session := fun s =>
  mk_ra_session (st30_frames s) (st30_cur_frame s) (session_seq_id s) (latest_seq_id s)
    (ra_redundant_error_cnt s) (first_pkt_rtp_ts s) (first_pkt_ptp_ts s) (ra_tmstamp s)
    (frame_recv_size s) (frame_bitmap s) (stat_frames_received s) (burst_loss_cnt s)
    (ra_counters s) (ra_rtps_ring s) (ra_notified s) (ra_rtp_notified s).

Definition ra_frame_at (s : ra_session) (i : nat) : ra_frame :=
  default (mk_ra_frame 0 []) (st30_frames s !! i).
Definition ra_frame_upd (i : nat) (g : ra_frame -> ra_frame) (s : ra_session) : ra_session :=
  s <| st30_frames ::= alter g i |>.
Definition ra_count (k : ra_counter) (n : Z) (s : ra_session) : ra_session :=
  s <| ra_counters ::= fun f j => if decide (j = k) then u64 (f j + n) else f j |>.

(** ** The frame pool *)

Definition rx_audio_session_get_frame (s : ra_session) : option nat * ra_session :=
  match list_find (fun f => rf_refcnt f = 0) (st30_frames s) with
  | Some (i, _) => (Some i, ra_frame_upd i (fun f => f <| rf_refcnt ::= fun n => i32 (n + 1) |>) s)
  | None => (None, s)
  end.

Definition rx_audio_session_put_frame (i : nat) (s : ra_session) : Z * ra_session :=
  (- EIO, ra_frame_upd i (fun f => f <| rf_refcnt ::= fun n => i32 (n - 1) |>) s).

(** The frame is found by its address: [Some i] when it is one of the session's. *)
Definition st30_rx_put_framebuff (framebuff : option nat) (s : ra_session) : Z * ra_session :=
  match framebuff with
  | Some i =>
      if bool_decide (i < length (st30_frames s))%nat then rx_audio_session_put_frame i s else (- EIO, s)
  | None => (- EIO, s)
  end.

(** [rx_audio_session_reset]; the pool is not touched. *)
Definition rx_audio_session_reset (s : ra_session) : ra_session :=
  mk_ra_session (st30_frames s) None (-1) [-1; -1] [0; 0] 0 (first_pkt_ptp_ts s) (-1) 0
    (frame_bitmap s) 0 0 (fun _ => 0) (ra_rtps_ring s) (ra_notified s) (ra_rtp_notified s).

Section Receiver.
Context (cfg : ra_config).
(** The answer to the [n]-th notification. *)
Context (app : nat -> app_answer).

(** ** Sequence numbers and redundancy *)

(** The bookkeeping per port at the head of both packet handlers. *)
Definition ra_first_packet (p : ra_pkt) (s_port : Z) (s : ra_session) : ra_session :=
  let s := if arr_get 0 (latest_seq_id s) s_port =? -1
           then s <| latest_seq_id ::= fun l => arr_set l s_port (ap_seq p - 1) |> else s in
  let s := if session_seq_id s =? -1 then s <| session_seq_id := ap_seq p - 1 |> else s in
  if ra_tmstamp s =? -1 then s <| ra_tmstamp := u32 (ap_tmstamp p - 1) |> else s.

Definition ra_port_seq (p : ra_pkt) (s_port : Z) (s : ra_session) : ra_session :=
  let seq_id := ap_seq p in
  let latest := arr_get 0 (latest_seq_id s) s_port in
  let s :=
    if negb (seq_id =? u16 (latest + 1)) && mt_seq16_greater seq_id (u16 latest) then
      let gap := u16 (seq_id - latest - 1) in
      ra_count RA_LOST_PACKETS gap (ra_count (RA_PORT_LOST s_port) gap s)
    else if seq_id =? u16 latest then ra_count (RA_PORT_DUPLICATES s_port) 1 s
    else if negb (mt_seq16_greater seq_id (u16 latest)) then ra_count (RA_PORT_REORDERED s_port) 1 s
    else s in
  let s := if mt_seq16_greater seq_id (u16 latest)
           then s <| latest_seq_id ::= fun l => arr_set l s_port seq_id |> else s in
  ra_count (RA_PORT_BYTES s_port) (ap_pkt_len p) (ra_count (RA_PORT_PACKETS s_port) 1 s).

(** Every port has seen the threshold of old packets in a row. *)
Definition ra_threshold_reached (errs : list Z) : bool :=
  forallb (fun i => ST_SESSION_REDUNDANT_ERROR_THRESHOLD <=? arr_get 0 errs i) (seqZ 0 (ra_num_port cfg)).

(** A packet that is not ahead of [ra_tmstamp] is dropped, unless all ports see
    nothing else: [true] is the drop. *)
Definition ra_redundant_filter (tmstamp s_port : Z) (s : ra_session) : bool * ra_session :=
  if negb (mt_seq32_greater tmstamp (u32 (ra_tmstamp s))) then
    let s := s <| ra_redundant_error_cnt ::= arr_inc_int s_port |> in
    let s := ra_count RA_PKTS_REDUNDANT 1 s in
    if ra_threshold_reached (ra_redundant_error_cnt s) then
      let s := ra_count RA_PKTS_REDUNDANT (-1) s in
      (false, s <| ra_redundant_error_cnt ::= fun l => arr_set l s_port 0 |>)
    else (true, s)
  else (false, s <| ra_redundant_error_cnt ::= fun l => arr_set l s_port 0 |>).

(** The sequence numbers that go into the session. *)
Definition ra_session_seq (seq_id : Z) (s : ra_session) : ra_session :=
  let last := session_seq_id s in
  let s :=
    if negb (seq_id =? u16 (last + 1)) && mt_seq16_greater seq_id (u16 last)
    then ra_count RA_PKTS_UNRECOVERED (u16 (seq_id - last - 1)) s else s in
  if mt_seq16_greater seq_id (u16 last) then s <| session_seq_id := seq_id |> else s.

(** The payload type and the SSRC the session expects; [Some] is the drop. *)
Definition ra_wrong_stream (p : ra_pkt) : option ra_counter :=
  if c_true (ra_payload_type cfg) && negb (ap_payload_type p =? ra_payload_type cfg) then Some RA_PKTS_WRONG_PT
  else if c_true (ra_ssrc cfg) && negb (ap_ssrc p =? ra_ssrc cfg) then Some RA_PKTS_WRONG_SSRC
  else None.

(** ** The open frame *)

Definition ra_ticks : Z := if c_true (rtp_ticks_per_frame cfg) then rtp_ticks_per_frame cfg else 1.

(** The start of the frame [tmstamp] falls in, on the grid through [grid_base]. *)
Definition ra_frame_base (grid_base tmstamp : Z) : Z :=
  let delta := i32 (tmstamp - grid_base) in
  let frames := Z.quot delta ra_ticks - (if Z.rem delta ra_ticks <? 0 then 1 else 0) in
  u32 (grid_base + u32 (frames * ra_ticks)).

(** The new frame is in [st30_cur_frame], [None] when the pool is empty. *)
Definition rx_audio_session_open_frame (s_port tmstamp ptp_ts : Z) (s : ra_session) : ra_session :=
  let '(f, s) := rx_audio_session_get_frame s in
  let s := s <| st30_cur_frame := f |> in
  match f with
  | None => ra_count RA_SLOT_GET_FRAME_FAIL 1 s
  | Some _ =>
      let base := ra_frame_base (u32 (ra_tmstamp s + 1)) tmstamp in
      let s := s
        <| frame_bitmap ::= fmap (fun _ => bm_zero (frame_bitmap_size cfg)) |>
        <| frame_recv_size := 0 |>
        <| first_pkt_rtp_ts := base |>
        <| first_pkt_ptp_ts := ptp_ts |>
        <| ra_tmstamp := u32 (base - 1) |> in
      ra_count (RA_PORT_FRAMES s_port) 1 s
  end.

(** The packets that have not come are silence. *)
Definition rx_audio_session_zero_frame_gaps (bitmap : bitmap_ptr) (data : list Z) : list Z :=
  for_from 0 (Z.to_nat (st30_total_pkts cfg)) (fun i d =>
    if mt_bitmap_test bitmap (frame_bitmap_size cfg) i then d
    else splice (i * pkt_len cfg) (replicate (Z.to_nat (pkt_len cfg)) 0) d) data.

Definition ra_frame_meta (s : ra_session) : ra_meta :=
  mk_ra_meta (first_pkt_rtp_ts s) (first_pkt_ptp_ts s) (ra_fmt cfg) (ra_sampling cfg) (ra_channel cfg)
    (frame_recv_size s) (negb (frame_recv_size s <? st30_frame_size cfg)).

(** The open frame is [f]. *)
Definition rx_audio_session_frame_notify (f : nat) (s : ra_session) : ra_session :=
  let meta := ra_frame_meta s in
  let s :=
    if am_complete meta then s
    else ra_frame_upd f (fun fr => fr <| rf_data ::= rx_audio_session_zero_frame_gaps (frame_bitmap s) |>)
           (ra_count RA_FRAMES_INCOMPLETE 1 s) in
  let s :=
    if negb (am_complete meta || ra_receive_incomplete cfg) then snd (rx_audio_session_put_frame f s)
    else
      let s := if am_complete meta then s <| stat_frames_received ::= fun n => i32 (n + 1) |> else s in
      let answer := app (length (ra_notified s)) in
      let s := s <| ra_notified ::= fun l => l ++ [mk_ra_event f meta (rf_data (ra_frame_at s f))] |> in
      match answer with
      | AppKeeps => s
      | AppReturns => snd (st30_rx_put_framebuff (Some f) s)
      | AppFails => snd (rx_audio_session_put_frame f s)
      end in
  s <| ra_tmstamp := u32 (first_pkt_rtp_ts s + rtp_ticks_per_frame cfg - 1) |> <| st30_cur_frame := None |>.

(** ** The packet handlers *)

(** The index of a packet in the open frame. *)
Definition ra_pkt_idx (tmstamp : Z) (s : ra_session) : Z :=
  u32 (tmstamp - first_pkt_rtp_ts s) / (if c_true (samples_per_pkt cfg) then samples_per_pkt cfg else 1).

(** Mark the packet and copy it into the open frame [f]. *)
Definition ra_store (p : ra_pkt) (f : nat) (idx : Z) (s : ra_session) : ra_session :=
  let '(seen, bitmap) := mt_bitmap_test_and_set (frame_bitmap s) (frame_bitmap_size cfg) (i32 idx) in
  let s := s <| frame_bitmap := bitmap |> in
  if seen then ra_count RA_PKTS_REDUNDANT 1 s
  else
    let s := ra_frame_upd f (fun fr => fr <| rf_data ::=
               splice (idx * pkt_len cfg) (take (Z.to_nat (pkt_len cfg)) (ap_payload p)) |>) s in
    let s := s <| frame_recv_size ::= fun n => u64 (n + pkt_len cfg) |> in
    let s := ra_count RA_PKTS_RECEIVED 1 s in
    if frame_recv_size s <? st30_frame_size cfg then s else rx_audio_session_frame_notify f s.

(** A packet outside the open frame closes it and opens the next one. *)
Definition ra_turn (p : ra_pkt) (s_port : Z) (s : ra_session) : ra_session :=
  let tmstamp := ap_tmstamp p in
  let open := rx_audio_session_open_frame s_port tmstamp (ap_ptp p) in
  let s := match st30_cur_frame s with Some _ => s | None => open s end in
  match st30_cur_frame s with
  | Some f =>
      if ra_pkt_idx tmstamp s <? u32 (st30_total_pkts cfg) then s
      else open (rx_audio_session_frame_notify f s)
  | None => s
  end.

Definition ra_assemble (p : ra_pkt) (s_port : Z) (s : ra_session) : Z * ra_session :=
  let s := ra_turn p s_port s in
  match st30_cur_frame s with
  | Some f => (0, ra_store p f (ra_pkt_idx (ap_tmstamp p) s) s)
  | None => (- EIO, s)
  end.

(** The checks and the bookkeeping before a packet may enter a frame: a negative
    result is the return value of the handler. *)
Definition ra_admit (p : ra_pkt) (s_port : Z) (s : ra_session) : Z * ra_session :=
  match ra_wrong_stream p with
  | Some k => (- EINVAL, ra_count k 1 s)
  | None =>
      if negb (u32 (ap_data_len p - SIZEOF_RFC3550_AUDIO_HDR) =? pkt_len cfg)
      then (- EINVAL, ra_count RA_PKTS_LEN_MISMATCH 1 s)
      else
        let s := ra_port_seq p s_port (ra_first_packet p s_port s) in
        let '(drop, s) := ra_redundant_filter (ap_tmstamp p) s_port s in
        if drop then (- EAGAIN, s) else (0, ra_session_seq (ap_seq p) s)
  end.

Definition rx_audio_session_handle_frame_pkt (p : ra_pkt) (s_port : Z) (s : ra_session) : Z * ra_session :=
  let '(rc, s) := ra_admit p s_port s in
  if rc <? 0 then (rc, s) else ra_assemble p s_port s.

(** The ring between the tasklet and the application is DPDK's; [ring_room] says
    whether an enqueue succeeds. *)
Context (ring_room : list ra_pkt -> bool).

Definition rx_audio_session_handle_rtp_pkt (p : ra_pkt) (s_port : Z) (s : ra_session) : Z * ra_session :=
  match ra_wrong_stream p with
  | Some k => (- EINVAL, ra_count k 1 s)
  | None =>
      let s := ra_port_seq p s_port (ra_first_packet p s_port s) in
      let '(drop, s) := ra_redundant_filter (ap_tmstamp p) s_port s in
      if drop then (- EAGAIN, s)
      else
        let s := ra_session_seq (ap_seq p) (s <| ra_tmstamp := ap_tmstamp p |>) in
        if ring_room (ra_rtps_ring s) then
          let s := s <| ra_rtps_ring ::= fun l => l ++ [p] |> <| ra_rtp_notified ::= Z.succ |> in
          (0, ra_count RA_PKTS_RECEIVED 1 s)
        else (- EIO, ra_count RA_SLOT_GET_FRAME_FAIL 1 s)
  end.

(** [st30_rx_get_mbuf]: the oldest packet of the ring and the length of its RTP part. *)
Definition st30_rx_get_mbuf (s : ra_session) : option (ra_pkt * Z) * ra_session :=
  match ra_rtps_ring s with
  | [] => (None, s)
  | p :: l => (Some (p, u16 (ap_data_len p - 42)), s <| ra_rtps_ring := l |>)
  end.

(** [ra_simulate_pkt_loss]: [draw] is the comparison of the random number with the
    rate, [burst] the length drawn. *)
Definition ra_simulate_pkt_loss (draw : bool) (burst : Z) (s : ra_session) : bool * ra_session :=
  if burst_loss_cnt s =? 0 then
    if draw then (true, s <| burst_loss_cnt := u16 (u16 (burst + 1) - 1) |>) else (false, s)
  else (true, s <| burst_loss_cnt ::= fun n => u16 (n - 1) |>).

(** A packet of a burst, with the numbers drawn for it, which only count under
    ST30_RX_FLAG_SIMULATE_PKT_LOSS ([simulate]). *)
Definition ra_handle_one (frame_level simulate : bool) (s_port : Z) (s : ra_session)
    (pd : ra_pkt * (bool * Z)) : ra_session :=
  let '(p, (draw, burst)) := pd in
  let '(lost, s) := if simulate then ra_simulate_pkt_loss draw burst s else (false, s) in
  if lost then s
  else
    let '(rc, s) := if frame_level then rx_audio_session_handle_frame_pkt p s_port s
                    else rx_audio_session_handle_rtp_pkt p s_port s in
    if (rc <? 0) && negb (rc =? - EAGAIN) then ra_count (RA_PORT_ERR s_port) 1 s else s.

(** A burst of one port. *)
Definition rx_audio_session_handle_mbuf (attached frame_level simulate : bool) (s_port : Z)
    (mbuf : list (ra_pkt * (bool * Z))) (s : ra_session) : Z * ra_session :=
  if negb attached then (- EIO, s)
  else (0, fold_left (ra_handle_one frame_level simulate s_port) mbuf s).

End Receiver.

(** ** Attaching a session *)

Record st30_rx_ops := mk_st30_rx_ops {
  ao_num_port : Z;
  ao_payload_type : Z;
  ao_ssrc : Z;
  ao_receive_incomplete : bool;
  ao_fmt : st30_fmt;
  ao_ptime : st30_ptime;
  ao_sampling : st30_sampling;
  ao_channel : Z;
  ao_framebuff_cnt : Z;
  ao_framebuff_size : Z;
}.

(** The sizes [rx_audio_session_attach] computes, and the bitmap of
    [rx_audio_session_alloc_frames]. *)
Definition rx_audio_session_attach (ops : st30_rx_ops) : Z + ra_config :=
  let ret := st30_get_packet_size (ao_fmt ops) (ao_ptime ops) (ao_sampling ops) (ao_channel ops) in
  if ret <? 0 then inl ret
  else if ret >? ST_PKT_MAX_ETHER_BYTES - SIZEOF_RFC3550_AUDIO_HDR then inl (- EIO)
  else if c_true (ao_framebuff_size ops mod ret) then inl (- EIO)
  else
    let total := i32 (ao_framebuff_size ops / ret) in
    let per_frame_div := u32 (st30_get_sample_size (ao_fmt ops) * ao_channel ops) in
    inr (mk_ra_config (ao_num_port ops) (ao_payload_type ops) (ao_ssrc ops) (ao_receive_incomplete ops)
           (ao_fmt ops) (ao_sampling ops) (ao_channel ops) (ao_framebuff_cnt ops) ret total
           (ao_framebuff_size ops)
           (if c_true per_frame_div then u32 (ao_framebuff_size ops / per_frame_div) else 0)
           (if c_true per_frame_div then ret / per_frame_div else 0)
           ((total + 7) / 8)).

(** A session after attach: the frames and the bitmap are allocated zeroed. *)
Definition rx_audio_session_alloc_frames (cfg : ra_config) : ra_session :=
  mk_ra_session (replicate (Z.to_nat (ra_frames_cnt cfg)) (mk_ra_frame 0 (replicate (Z.to_nat (st30_frame_size cfg)) 0)))
    None (-1) [-1; -1] [0; 0] 0 0 (-1) 0 (Some (bm_zero (frame_bitmap_size cfg))) 0 0 (fun _ => 0) [] [] 0.

(** ** Sizes *)

Record ra_geometry (cfg : ra_config) : Prop := {
  geo_pkt : 0 < pkt_len cfg <= ST_PKT_MAX_ETHER_BYTES - SIZEOF_RFC3550_AUDIO_HDR;
  geo_total : 0 < st30_total_pkts cfg < 2147483648;
  geo_size : st30_frame_size cfg = st30_total_pkts cfg * pkt_len cfg;
  geo_size_max : st30_frame_size cfg < 4294967296;
  geo_spp : 0 < samples_per_pkt cfg;
  geo_ticks : rtp_ticks_per_frame cfg = st30_total_pkts cfg * samples_per_pkt cfg;
  geo_ticks_max : rtp_ticks_per_frame cfg < 4294967296;
  geo_bitmap : frame_bitmap_size cfg = (st30_total_pkts cfg + 7) / 8;
}.

(** A frame-level session as [rx_audio_ops_check] lets it pass. *)
Record ra_ops_sane (ops : st30_rx_ops) : Prop := {
  sane_channel : is_u16 (ao_channel ops);
  sane_cnt : 0 < ao_framebuff_cnt ops < 65536;
  sane_size : 0 < ao_framebuff_size ops < 4294967296;
}.

Lemma sample_size_range fmt : 0 < st30_get_sample_size fmt <= 4 \/ st30_get_sample_size fmt = - EINVAL.
Proof. destruct fmt; vm_compute; intuition congruence. Qed.
Lemma sample_num_range ptime sampling :
  3 < st30_get_sample_num ptime sampling <= 384 \/ st30_get_sample_num ptime sampling = - EINVAL.
Proof. destruct ptime, sampling; vm_compute; intuition congruence. Qed.

Lemma attach_audio_geometry ops cfg :
  ra_ops_sane ops -> rx_audio_session_attach ops = inr cfg -> ra_geometry cfg.
Proof.
  intros [Hc _ Hf] H. unfold rx_audio_session_attach, st30_get_packet_size in H.
  destruct (sample_size_range (ao_fmt ops)) as [Ha|Ha]; [|rewrite Ha in H; done].
  destruct (sample_num_range (ao_ptime ops) (ao_sampling ops)) as [Hn|Hn]; cycle 1.
  { rewrite Hn in H. destruct (Z.ltb_spec (st30_get_sample_size (ao_fmt ops)) 0); [lia|done]. }
  set (a := st30_get_sample_size _) in *. set (n := st30_get_sample_num _ _) in *.
  set (c := ao_channel ops) in *. set (fb := ao_framebuff_size ops) in *.
  rewrite (proj2 (Z.ltb_ge a 0)), (proj2 (Z.ltb_ge n 0)) in H by lia.
  destruct (Z.eqb_spec c 0) as [|Hc0]; [done|]. unfold is_u16 in Hc.
  assert (0 < c /\ 3 < a * n <= 1536) as [? ?] by nia.
  assert (0 < a * n * c < 2147483648 /\ 3 < a * n * c /\ 0 < a * c < 4294967296) as (? & ? & ?) by nia.
  replace (i32 (a * n * c)) with (a * n * c) in H by mlia.
  rewrite (proj2 (Z.ltb_ge (a * n * c) 0)) in H by lia.
  replace (u32 (a * c)) with (a * c) in H by mlia.
  case_if_in H; [done|]. case_if_in H; [done|]. unfold c_true in *. zbool.
  rewrite (proj2 (Z.eqb_neq (a * c) 0)) in H by lia. cbn [negb] in H.
  assert (fb = a * n * c * (fb / (a * n * c))) as Hfb by (apply Z_div_exact_full_2; lia).
  set (T := fb / (a * n * c)) in *.
  assert (0 < T < 1073741824) by nia.
  assert (fb / (a * c) = T * n) as Hdiv by (rewrite Hfb; symmetry; apply Z.div_unique_exact; nia).
  assert (a * n * c / (a * c) = n) as Hspp by (symmetry; apply Z.div_unique_exact; nia).
  assert (T * n < 4294967296) by nia.
  rewrite Hdiv, Hspp in H. replace (i32 T) with T in H by mlia. rewrite (u32_id (T * n)) in H by (unfold is_u32; nia).
  injection H as <-. split; cbn; try lia.
Qed.

Lemma attach_audio_frames ops cfg : rx_audio_session_attach ops = inr cfg -> ra_frames_cnt cfg = ao_framebuff_cnt ops.
Proof. unfold rx_audio_session_attach. intros H. repeat (case_if_in H; [done|]). by injection H as <-. Qed.
