(* ===== verification/TxCommon.v ===== *)
(** What the audio and the ancillary sender and the pipelines share: the return values of
    tasklets, the reasons they stop for, the formats of time stamps, the status of frames. *)
From S2P Require Import Prelude.

Definition MTL_TASKLET_ALL_DONE : Z := 0.
Definition MTL_TASKLET_HAS_PENDING : Z := 1.

Inductive st10_timestamp_fmt := ST10_TIMESTAMP_FMT_TAI | ST10_TIMESTAMP_FMT_MEDIA_CLK.
#[export] Instance st10_timestamp_fmt_eq : EqDecision st10_timestamp_fmt.
Proof. solve_decision. Defined.

Inductive st_frame_status :=
| ST_FRAME_STATUS_COMPLETE | ST_FRAME_STATUS_RECONSTRUCTED
| ST_FRAME_STATUS_CORRUPTED | ST_FRAME_STATUS_DROPPED.
#[export] Instance st_frame_status_eq : EqDecision st_frame_status.
Proof. solve_decision. Defined.

(** Why a tasklet stopped: the values of [stat_build_ret_code] and
    [stat_transmit_ret_code] used here; [STI_ERRNO] is an error number in their place. *)
Inductive sti_code :=
| STI_FRAME_RING_FULL | STI_FRAME_INFLIGHT_ENQUEUE_FAIL | STI_FRAME_INFLIGHT_R_ENQUEUE_FAIL
| STI_FRAME_APP_GET_FRAME_BUSY | STI_FRAME_APP_ERR_TX_FRAME | STI_FRAME_PKT_ALLOC_FAIL
| STI_FRAME_PKT_ENQUEUE_FAIL | STI_FRAME_PKT_R_ENQUEUE_FAIL | STI_FRAME_ANC_TOO_LARGE
| STI_TSCTRS_TARGET_TSC_NOT_REACH | STI_TSCTRS_INFLIGHT_TSC_NOT_REACH | STI_TSCTRS_BURST_INFLIGHT_FAIL
| STI_TSCTRS_PKT_DEQUEUE_FAIL | STI_TSCTRS_BURST_FAIL | STI_TSCTRS_INFLIGHT_ENQUEUE_FAIL
| STI_TSCTRS_PKT_ENQUEUE_FAIL | STI_ERRNO (errno : Z).

(** [struct st_ext_frame]: a buffer of the application for the planes of a frame. *)
Record st_ext_frame := mk_ext_frame {
  ext_addr : list Z; ext_iova : list Z; ext_linesize : list Z; ext_size : Z; ext_opaque : Z;
}.
Definition ST_FRAME_FLAG_EXT_BUF : Z := Z.shiftl 1 0.
