(* ===== verification/TxAudio.v ===== *)
(** The ST 2110-30 sender, lib/src/st2110/st_tx_audio_session.c: frame-level sessions
    from the application's frames to the wire. [tx_audio_session_tasklet_frame] takes
    a frame, paces it, builds a packet per call and puts it into a ring per port;
    [tx_audio_session_tasklet_transmit] sends the packets of a ring when their time
    has come.

    The rings are those of [Fifo]; they hold the addresses of the packets, which are
    positions in [ta_mbufs] here. Time is in integers: [long double] holds the 64-bit
    times of the code exactly, and the two places that compute with fractions of a
    nanosecond are parameters. The statistics of late frames and the trace probes are
    left out, and with them the advance of [tsc_time_cursor] after a packet, which
    nothing else reads before it is computed anew. *)
From S2P Require Import Prelude Fifo Fmt TxCommon.

(** ** State *)

Inductive st30_tx_frame_status := ST30_TX_STAT_WAIT_FRAME | ST30_TX_STAT_SENDING_PKTS.

Inductive ta_counter :=
| TA_ERROR_USER_TIMESTAMP | TA_EPOCH_LATE | TA_EPOCH_MISMATCH | TA_EPOCH_DROP | TA_EPOCH_ONWARD
| TA_PORT_PACKETS (s_port : Z) | TA_PORT_BYTES (s_port : Z) | TA_PORT_FRAMES (s_port : Z)
| TA_INFLIGHT (s_port : Z).
#[export] Instance ta_counter_eq : EqDecision ta_counter.
Proof. solve_decision. Defined.

(** The part of [struct st_frame_trans] the audio sender uses, with its [ta_meta]. *)
Record ta_frame := mk_ta_frame {
  tf_refcnt : Z;
  tf_data : list Z;
  tf_tfmt : st10_timestamp_fmt;
  tf_timestamp : Z;
  tf_rtp_timestamp : Z;
}.
#[export] Instance eta_ta_frame : Settable ta_frame := fun f =>
  mk_ta_frame (tf_refcnt f) (tf_data f) (tf_tfmt f) (tf_timestamp f) (tf_rtp_timestamp f).

(** A packet: the port whose headers it carries, the RTP fields, the index and the
    send time of [struct mt_muf_priv_data], the payload and the length. *)
Record ta_mbuf := mk_ta_mbuf {
  mb_port : Z;
  mb_seq : Z;
  mb_tmstamp : Z;
  mb_idx : Z;
  mb_tsc : Z;
  mb_payload : list Z;
  mb_pkt_len : Z;
}.

(** What the session does that others see: it takes a frame (with the bytes it then
    has), builds a packet for each port, gives a frame back, sends a packet. *)
Inductive ta_event :=
| TaTake (frame : nat) (data : list Z)
| TaBuild (pkt : ta_mbuf) (pkt_r : option ta_mbuf)
| TaDone (frame : nat) (rtp_timestamp : Z)
| TaSend (s_port : Z) (pkt : ta_mbuf).

Record ta_config := mk_ta_config {
  ta_num_port : Z;
  ta_pkt_len : Z;
  ta_total_pkts : Z;
  ta_sample_num : Z;
  ta_sample_rate : Z;
  ta_max_onward_epochs : Z;
  ta_max_late_epochs : Z;
  ta_user_pacing : bool;
  ta_user_timestamp : bool;
  ta_rtp_timestamp_delta_us : Z;
  ta_no_chain : bool;
  ta_pacing_in_build : bool;
  ta_ring_thresh : Z;
}.

(** What a session has per port: the ring to the transmitter, the packet that found
    it full, and the packet taken out before its time. *)
Record ta_port := mk_ta_port {
  trans_ring : mt_u64_fifo;
  inflight : option Z;
  trans_ring_inflight : option Z;
}.
#[export] Instance eta_ta_port : Settable ta_port := fun p =>
  mk_ta_port (trans_ring p) (inflight p) (trans_ring_inflight p).

(** [struct st_tx_audio_session_impl]. *)
Record ta_session := mk_ta_session {
  ta_frames : list ta_frame;
  st30_frame_idx : nat;
  st30_frame_stat : st30_tx_frame_status;
  st30_pkt_idx : Z;
  st30_seq_id : Z;
  cur_epochs : Z;
  rtp_time_stamp : Z;
  ptp_time_cursor : Z;
  tsc_time_cursor : Z;
  calculate_time_cursor : bool;
  ta_mbufs : list ta_mbuf;
  ta_port_p : ta_port;
  ta_port_r : ta_port;
  stat_build_ret_code : option sti_code;
  stat_transmit_ret_code : option sti_code;
  ta_counters : ta_counter -> Z;
  ta_trace : list ta_event;
}.
#[export] Instance eta_ta_session : Settable ta_session := fun s =>
  mk_ta_session (ta_frames s) (st30_frame_idx s) (st30_frame_stat s) (st30_pkt_idx s) (st30_seq_id s)
    (cur_epochs s) (rtp_time_stamp s) (ptp_time_cursor s) (tsc_time_cursor s) (calculate_time_cursor s)
    (ta_mbufs s) (ta_port_p s) (ta_port_r s) (stat_build_ret_code s) (stat_transmit_ret_code s) (ta_counters s) (ta_trace s).

Definition ta_frame_at (s : ta_session) (i : nat) : ta_frame :=
  default (mk_ta_frame 0 [] ST10_TIMESTAMP_FMT_TAI 0 0) (ta_frames s !! i).
Definition ta_frame_upd (i : nat) (g : ta_frame -> ta_frame) (s : ta_session) : ta_session :=
  s <| ta_frames ::= alter g i |>.
(** Port 0 is MTL_SESSION_PORT_P. *)
Definition ta_port_at (s_port : Z) (s : ta_session) : ta_port := if s_port =? 0 then ta_port_p s else ta_port_r s.
Definition ta_port_upd (s_port : Z) (g : ta_port -> ta_port) (s : ta_session) : ta_session :=
  if s_port =? 0 then s <| ta_port_p ::= g |> else s <| ta_port_r ::= g |>.
Definition ta_count (k : ta_counter) (n : Z) (s : ta_session) : ta_session :=
  s <| ta_counters ::= fun f j => if decide (j = k) then u64 (f j + n) else f j |>.
Definition ta_emit (e : ta_event) (s : ta_session) : ta_session := s <| ta_trace ::= fun l => l ++ [e] |>.
Definition mb_at (s : ta_session) (h : Z) : ta_mbuf :=
  arr_get (mk_ta_mbuf 0 0 0 0 0 [] 0) (ta_mbufs s) h.

(** What a call of the build tasklet meets: the PTP time and the TSC, what
    [get_next_frame] answers (a frame and the time stamp in its meta), which
    allocations succeed, and [mt_sch_schedule_ns]. *)
Record ta_env := mk_ta_env {
  env_ptp_time : Z;
  env_tsc_sync : Z;
  env_tsc_build : Z;
  env_next_frame : option (nat * st10_timestamp_fmt * Z);
  env_alloc_p : bool;
  env_alloc_chain : bool;
  env_alloc_r : bool;
  env_schedule_ns : Z;
}.

Section Sender.
Context (cfg : ta_config).
(** [(uint64_t)(required_tai + pkt_time)] in [long double]. *)
Context (tai_of_next : Z -> Z).
(** [st10_media_clk_to_tai], which unwraps a media clock in [long double]. *)
Context (media_clk_to_tai : Z -> Z -> Z -> Z).

Definition send_r : bool := ta_num_port cfg >? 1.

(** ** Pacing *)

Definition tx_audio_pacing_time (epochs : Z) : Z :=
  st_epoch_to_tai epochs (ta_sample_rate cfg) (ta_sample_num cfg).

Definition tx_audio_pacing_required_tai (tfmt : st10_timestamp_fmt) (timestamp : Z) (s : ta_session)
    : Z * ta_session :=
  if negb (ta_user_pacing cfg) then (0, s)
  else if timestamp =? 0 then (0, s)
  else
    match tfmt with
    | ST10_TIMESTAMP_FMT_MEDIA_CLK => (0, ta_count TA_ERROR_USER_TIMESTAMP 1 s)
    | ST10_TIMESTAMP_FMT_TAI => (timestamp, s)
    end.

(** The epoch of the next packet from the epoch [epochs] of the clock; [true] when the
    clock runs a little late. *)
Definition tx_audio_choose_epoch (cur epochs : Z) : Z * bool :=
  let next_epochs := u64 (cur + 1) in
  if epochs <=? cur then
    (if u64 (cur - epochs) <? ta_max_onward_epochs cfg then next_epochs else epochs, false)
  else if epochs >? next_epochs then
    if u64 (epochs - next_epochs) <? ta_max_late_epochs cfg then (next_epochs, true) else (epochs, false)
  else (epochs, false).

(** [tx_audio_session_sync_pacing] without the wait at its end. The RTP time stamp it
    leaves is replaced by [tx_audio_pacing_update_rtp_time_stamp]. *)
Definition tx_audio_session_sync_pacing (env : ta_env) (required_tai : Z) (s : ta_session) : ta_session :=
  let ptp_time := env_ptp_time env in
  let next_epochs := u64 (cur_epochs s + 1) in
  let ptp_epochs := st_tai_to_epoch ptp_time (ta_sample_rate cfg) (ta_sample_num cfg) in
  let '(epochs, s) :=
    if c_true required_tai then
      let epochs := st_tai_to_nearest_epoch required_tai (ta_sample_rate cfg) (ta_sample_num cfg) in
      (epochs, if epochs <? ptp_epochs then ta_count TA_ERROR_USER_TIMESTAMP 1 s else s)
    else (ptp_epochs, s) in
  let '(epochs, late) := tx_audio_choose_epoch (cur_epochs s) epochs in
  let s := if late then ta_count TA_EPOCH_LATE 1 s else s in
  let '(to_epoch, s) :=
    if c_true required_tai then
      let to_epoch := i64 (i64 required_tai - i64 ptp_time) in
      if to_epoch >? NS_PER_S then (NS_PER_S, ta_count TA_ERROR_USER_TIMESTAMP 1 s) else (to_epoch, s)
    else (i64 (i64 (tx_audio_pacing_time epochs) - i64 ptp_time), s) in
  let '(to_epoch, s) := if to_epoch <? 0 then (0, ta_count TA_EPOCH_MISMATCH 1 s) else (to_epoch, s) in
  let s := if (epochs >? next_epochs) && negb (c_true required_tai)
           then ta_count TA_EPOCH_DROP (epochs - next_epochs) s else s in
  let s := if epochs <? next_epochs then ta_count TA_EPOCH_ONWARD (next_epochs - epochs) s else s in
  s <| cur_epochs := epochs |>
    <| ptp_time_cursor := if c_true required_tai then tai_of_next required_tai else tx_audio_pacing_time epochs |>
    <| tsc_time_cursor := env_tsc_sync env + to_epoch |>.

Definition tx_audio_pacing_update_rtp_time_stamp (tfmt : st10_timestamp_fmt) (timestamp required_tai : Z)
    (s : ta_session) : Z * ta_session :=
  let delta_ns := u64 (u64 (ta_rtp_timestamp_delta_us cfg) * 1000) in
  let tai_base :=
    if ta_user_timestamp cfg then
      match tfmt with
      | ST10_TIMESTAMP_FMT_MEDIA_CLK =>
          media_clk_to_tai (ptp_time_cursor s) (u32 timestamp) (ta_sample_rate cfg)
      | ST10_TIMESTAMP_FMT_TAI => timestamp
      end
    else if c_true required_tai then required_tai else ptp_time_cursor s in
  let tai_for_rtp_ts := u64 (tai_base + delta_ns) in
  (tai_for_rtp_ts, s <| rtp_time_stamp := st10_tai_to_media_clk tai_for_rtp_ts (ta_sample_rate cfg) |>).

(** The time of the packet to build, in the block under [calculate_time_cursor]. *)
Definition ta_packet_time (env : ta_env) (s : ta_session) : ta_session :=
  if negb (calculate_time_cursor s) then s
  else
    let f := st30_frame_idx s in
    let '(tfmt, timestamp) :=
      if st30_pkt_idx s =? 0 then (tf_tfmt (ta_frame_at s f), tf_timestamp (ta_frame_at s f))
      else (ST10_TIMESTAMP_FMT_TAI, u64 (ptp_time_cursor s)) in
    let '(required_tai, s) := tx_audio_pacing_required_tai tfmt timestamp s in
    let s := tx_audio_session_sync_pacing env required_tai s in
    let '(tai, s) := tx_audio_pacing_update_rtp_time_stamp tfmt timestamp required_tai s in
    ta_frame_upd f (fun fr => fr <| tf_tfmt := ST10_TIMESTAMP_FMT_TAI |> <| tf_timestamp := tai |>
                                 <| tf_rtp_timestamp := rtp_time_stamp s |>) s
      <| calculate_time_cursor := false |>.

(** ** The build tasklet *)

Definition ta_stop (code : sti_code) (s : ta_session) : ta_session := s <| stat_build_ret_code := Some code |>.

(** A packet that found its ring full waits in [inflight]; [false] when it still does. *)
Definition ta_flush_inflight (s_port : Z) (code : sti_code) (s : ta_session) : bool * ta_session :=
  match inflight (ta_port_at s_port s) with
  | None => (true, s)
  | Some h =>
      let '(ret, ring) := mt_u64_fifo_put (trans_ring (ta_port_at s_port s)) h in
      if ret =? 0 then (true, ta_port_upd s_port (fun p => p <| trans_ring := ring |> <| inflight := None |>) s)
      else (false, ta_stop code s)
  end.

(** Between frames the application is asked for one; [false] when there is none. *)
Definition ta_next_frame (env : ta_env) (s : ta_session) : bool * ta_session :=
  if negb (st30_pkt_idx s =? 0) then (true, s)
  else
    match st30_frame_stat s with
    | ST30_TX_STAT_SENDING_PKTS => (true, s)
    | ST30_TX_STAT_WAIT_FRAME =>
        match env_next_frame env with
        | None => (false, ta_stop STI_FRAME_APP_GET_FRAME_BUSY s)
        | Some (f, tfmt, timestamp) =>
            if c_true (tf_refcnt (ta_frame_at s f)) then (false, ta_stop STI_FRAME_APP_ERR_TX_FRAME s)
            else
              let s := ta_frame_upd f (fun fr => fr <| tf_refcnt ::= fun n => i32 (n + 1) |>
                         <| tf_tfmt := tfmt |> <| tf_timestamp := timestamp |> <| tf_rtp_timestamp := 0 |>) s in
              let s := s <| st30_frame_idx := f |> <| st30_frame_stat := ST30_TX_STAT_SENDING_PKTS |> in
              (true, ta_emit (TaTake f (tf_data (ta_frame_at s f))) s)
        end
    end.

(** With [pacing_in_build] the packet is built when its time has come; [Some] is the
    return value of the tasklet. *)
Definition ta_build_wait (env : ta_env) (s : ta_session) : option Z :=
  if ta_pacing_in_build cfg && (env_tsc_build env <? tsc_time_cursor s)
     && (tsc_time_cursor s - env_tsc_build env <? NS_PER_S)
  then Some (if tsc_time_cursor s - env_tsc_build env <? env_schedule_ns env
             then MTL_TASKLET_HAS_PENDING else MTL_TASKLET_ALL_DONE)
  else None.

(** [tx_audio_session_build_packet], or [tx_audio_session_build_rtp_packet] with
    [tx_audio_session_build_packet_chain]: the packet of the primary port. *)
Definition tx_audio_session_build_packet (s : ta_session) : ta_mbuf * ta_session :=
  let offset := u32 (st30_pkt_idx s * ta_pkt_len cfg) in
  let data := tf_data (ta_frame_at s (st30_frame_idx s)) in
  let payload := take (Z.to_nat (ta_pkt_len cfg)) (drop (Z.to_nat offset) data) in
  (mk_ta_mbuf 0 (st30_seq_id s) (rtp_time_stamp s) (st30_pkt_idx s) (tsc_time_cursor s) payload
     (54 + ta_pkt_len cfg),
   s <| st30_seq_id ::= fun n => u16 (n + 1) |>).

(** [tx_audio_session_update_redundant], or the chain for the second port: other
    headers, the same RTP packet. *)
Definition tx_audio_session_update_redundant (pkt : ta_mbuf) : ta_mbuf :=
  mk_ta_mbuf 1 (mb_seq pkt) (mb_tmstamp pkt) (mb_idx pkt) (mb_tsc pkt) (mb_payload pkt) (mb_pkt_len pkt).

(** [None] when an allocation fails; a packet built by then is freed. *)
Definition ta_build (env : ta_env) (s : ta_session) : option (ta_mbuf * option ta_mbuf) * ta_session :=
  if negb (env_alloc_p env) then (None, s)
  else if negb (ta_no_chain cfg) && negb (env_alloc_chain env) then (None, s)
  else
    let '(pkt, s) := tx_audio_session_build_packet s in
    if negb send_r then (Some (pkt, None), s)
    else if negb (env_alloc_r env) then (None, s)
    else (Some (pkt, Some (tx_audio_session_update_redundant pkt)), s).

Definition ta_account (s_port : Z) (pkt : ta_mbuf) (s : ta_session) : ta_session :=
  ta_count (TA_PORT_BYTES s_port) (mb_pkt_len pkt) (ta_count (TA_PORT_PACKETS s_port) 1 s).

(** The address of a new packet. *)
Definition ta_new_mbuf (pkt : ta_mbuf) (s : ta_session) : Z * ta_session :=
  (arr_len (ta_mbufs s), s <| ta_mbufs ::= fun l => l ++ [pkt] |>).

(** [true] when the ring was full and the packet waits. *)
Definition ta_enqueue (s_port : Z) (code : sti_code) (h : Z) (s : ta_session) : bool * ta_session :=
  let '(ret, ring) := mt_u64_fifo_put (trans_ring (ta_port_at s_port s)) h in
  if ret =? 0 then (false, ta_port_upd s_port (fun p => p <| trans_ring := ring |>) s)
  else (true, ta_stop code (ta_count (TA_INFLIGHT s_port) 1 (ta_port_upd s_port (fun p => p <| inflight := Some h |>) s))).

(** After the last packet the frame goes back to the application. *)
Definition ta_frame_end (s : ta_session) : ta_session :=
  if st30_pkt_idx s <? ta_total_pkts cfg then s
  else
    let f := st30_frame_idx s in
    let s := ta_emit (TaDone f (tf_rtp_timestamp (ta_frame_at s f))) s in
    let s := ta_frame_upd f (fun fr => fr <| tf_refcnt ::= fun n => i32 (n - 1) |>) s in
    let s := s <| st30_frame_stat := ST30_TX_STAT_WAIT_FRAME |> <| st30_pkt_idx := 0 |> in
    let s := ta_count (TA_PORT_FRAMES 0) 1 s in
    if send_r then ta_count (TA_PORT_FRAMES 1) 1 s else s.

(** The packets with their index and time, and the counters: the addresses of both. *)
Definition ta_store_pkts (pkt : ta_mbuf) (pkt_r : option ta_mbuf) (s : ta_session) : Z * Z * ta_session :=
  let '(h, s) := ta_new_mbuf pkt (ta_account 0 pkt s) in
  let '(h_r, s) :=
    match pkt_r with
    | None => (0, s)
    | Some p => ta_new_mbuf p (ta_account 1 p s)
    end in
  (h, h_r, ta_emit (TaBuild pkt pkt_r) s).

(** Both packets go to their rings. *)
Definition ta_post (pkt : ta_mbuf) (pkt_r : option ta_mbuf) (s : ta_session) : Z * ta_session :=
  let '(h, h_r, s) := ta_store_pkts pkt pkt_r s in
  let s := s <| st30_pkt_idx ::= Z.succ |> <| calculate_time_cursor := true |> in
  let '(done, s) := ta_enqueue 0 STI_FRAME_PKT_ENQUEUE_FAIL h s in
  let '(done_r, s) :=
    match pkt_r with
    | None => (false, s)
    | Some _ => ta_enqueue 1 STI_FRAME_PKT_R_ENQUEUE_FAIL h_r s
    end in
  (if done || done_r then MTL_TASKLET_ALL_DONE else MTL_TASKLET_HAS_PENDING, ta_frame_end s).

Definition tx_audio_session_tasklet_frame (env : ta_env) (s : ta_session) : Z * ta_session :=
  let ring_p := trans_ring (ta_port_p s) in
  if mt_u64_fifo_full ring_p then (MTL_TASKLET_ALL_DONE, ta_stop STI_FRAME_RING_FULL s)
  else if mt_u64_fifo_count ring_p >=? ta_ring_thresh cfg
  then (MTL_TASKLET_ALL_DONE, ta_stop STI_FRAME_RING_FULL s)
  else
    let '(ok, s) := ta_flush_inflight 0 STI_FRAME_INFLIGHT_ENQUEUE_FAIL s in
    if negb ok then (MTL_TASKLET_ALL_DONE, s)
    else
      let '(ok, s) := if send_r then ta_flush_inflight 1 STI_FRAME_INFLIGHT_R_ENQUEUE_FAIL s else (true, s) in
      if negb ok then (MTL_TASKLET_ALL_DONE, s)
      else
        let '(ok, s) := ta_next_frame env s in
        if negb ok then (MTL_TASKLET_ALL_DONE, s)
        else
          let s := ta_packet_time env s in
          match ta_build_wait env s with
          | Some ret => (ret, ta_stop STI_TSCTRS_TARGET_TSC_NOT_REACH s)
          | None =>
              match ta_build env s with
              | (None, s) => (MTL_TASKLET_ALL_DONE, ta_stop STI_FRAME_PKT_ALLOC_FAIL s)
              | (Some (pkt, pkt_r), s) => ta_post pkt pkt_r s
              end
          end.

(** ** The transmit tasklet *)

(** Whether the session has a queue of its own ([s->queue]) or shares the ring of the
    manager, the TSC at the two places it is read, and whether the packet is taken there. *)
Record ta_tx_env := mk_ta_tx_env {
  tx_queue : bool;
  tx_tsc_inflight : Z;
  tx_ok_inflight : bool;
  tx_tsc : Z;
  tx_ok : bool;
  tx_schedule_ns : Z;
}.

Definition ta_tx_stop (code : sti_code) (s : ta_session) : ta_session := s <| stat_transmit_ret_code := Some code |>.

(** The packet kept from an earlier call. *)
Definition ta_tx_pending (env : ta_tx_env) (s_port : Z) (s : ta_session) : bool * ta_session :=
  match trans_ring_inflight (ta_port_at s_port s) with
  | None => (true, s)
  | Some h =>
      if tx_tsc_inflight env <? mb_tsc (mb_at s h) then (false, ta_tx_stop STI_TSCTRS_INFLIGHT_TSC_NOT_REACH s)
      else if negb (tx_ok_inflight env) then 
        (false, ta_tx_stop (if tx_queue env then STI_TSCTRS_BURST_INFLIGHT_FAIL else STI_TSCTRS_INFLIGHT_ENQUEUE_FAIL) s)
      else (true, ta_emit (TaSend s_port (mb_at s h))
                    (ta_port_upd s_port (fun p => p <| trans_ring_inflight := None |>) s))
  end.

Definition tx_audio_session_tasklet_transmit (env : ta_tx_env) (s_port : Z) (s : ta_session) : Z * ta_session :=
  let '(ok, s) := ta_tx_pending env s_port s in
  if negb ok then (MTL_TASKLET_ALL_DONE, s)
  else
    match mt_u64_fifo_get (trans_ring (ta_port_at s_port s)) with
    | (None, _) => (MTL_TASKLET_ALL_DONE, ta_tx_stop STI_TSCTRS_PKT_DEQUEUE_FAIL s)
    | (Some h, ring) =>
        let taken := ta_port_upd s_port (fun p => p <| trans_ring := ring |>) s in
        let kept := ta_port_upd s_port (fun p => p <| trans_ring := ring |> <| trans_ring_inflight := Some h |>) s in
        let delta := mb_tsc (mb_at s h) - tx_tsc env in
        if (0 <? delta) && (delta <? NS_PER_S) then
          (if delta <? tx_schedule_ns env then MTL_TASKLET_HAS_PENDING else MTL_TASKLET_ALL_DONE,
           ta_tx_stop STI_TSCTRS_TARGET_TSC_NOT_REACH kept)
        else if negb (tx_ok env) then
          (MTL_TASKLET_ALL_DONE, ta_tx_stop (if tx_queue env then STI_TSCTRS_BURST_FAIL else STI_TSCTRS_PKT_ENQUEUE_FAIL) kept)
        else (MTL_TASKLET_ALL_DONE, ta_emit (TaSend s_port (mb_at s h)) taken)
    end.

End Sender.

(** ** Attaching a session *)

Definition ST_TX_AUDIO_SESSIONS_RING_SIZE : Z := 1024.

(** [tx_audio_session_init_trans_ring]: the ring is halved until it is not longer than
    the packets the sender may run ahead. *)
Fixpoint tx_audio_ring_count (fuel : nat) (max_onward count : Z) : Z :=
  match fuel with
  | O => count
  | S fuel => if count >? max_onward then tx_audio_ring_count fuel max_onward (count / 2) else count
  end.

Record st30_tx_ops := mk_st30_tx_ops {
  to_num_port : Z;
  to_fmt : st30_fmt;
  to_ptime : st30_ptime;
  to_sampling : st30_sampling;
  to_channel : Z;
  to_framebuff_cnt : Z;
  to_framebuff_size : Z;
  to_user_pacing : bool;
  to_user_timestamp : bool;
  to_rtp_timestamp_delta_us : Z;
  to_build_pacing : bool;
}.

(** The sizes [tx_audio_session_attach] computes. The two limits of
    [tx_audio_session_init_pacing], the threshold of the ring and whether packets can be
    chained come from floating point and from the devices. *)
Definition tx_audio_session_attach (ops : st30_tx_ops) (max_onward max_late thresh : Z) (no_chain : bool)
    : Z + ta_config :=
  let sample_size := st30_get_sample_size (to_fmt ops) in
  let sample_num := st30_get_sample_num (to_ptime ops) (to_sampling ops) in
  let ret := st30_get_packet_size (to_fmt ops) (to_ptime ops) (to_sampling ops) (to_channel ops) in
  if sample_size <? 0 then inl sample_size
  else if sample_num <? 0 then inl sample_num
  else if ret <? 0 then inl ret
  else if ret >? ST_PKT_MAX_ETHER_BYTES - 54 then inl (- EIO)
  else if c_true (to_framebuff_size ops mod ret) then inl (- EIO)
  else
    inr (mk_ta_config (to_num_port ops) ret (i32 (to_framebuff_size ops / ret)) (u16 sample_num)
           (st30_get_sample_rate (to_sampling ops)) max_onward max_late (to_user_pacing ops)
           (to_user_timestamp ops) (to_rtp_timestamp_delta_us ops) no_chain (to_build_pacing ops) thresh).

(** A session after attach at PTP time [ptp_time], with [cnt] zeroed frames. *)
Definition ta_fresh (cfg : ta_config) (cnt : nat) (ring : mt_u64_fifo) (ptp_time : Z) : ta_session :=
  let frame := mk_ta_frame 0 (replicate (Z.to_nat (ta_total_pkts cfg * ta_pkt_len cfg)) 0) ST10_TIMESTAMP_FMT_TAI 0 0 in
  mk_ta_session (replicate cnt frame) 0 ST30_TX_STAT_WAIT_FRAME 0 0
    (st_tai_to_epoch ptp_time (ta_sample_rate cfg) (ta_sample_num cfg)) 0 0 0 true []
    (mk_ta_port ring None None) (mk_ta_port ring None None) None None (fun _ => 0) [].

(** The loop ends within eleven halvings: the ring has the largest power of two of
    slots that is at most 1024 and at most the packets the sender may run ahead. *)
Lemma ring_count_spec max_onward :
  0 < max_onward ->
  exists k, 0 <= k <= 10 /\ tx_audio_ring_count 11 max_onward ST_TX_AUDIO_SESSIONS_RING_SIZE = 2 ^ k
    /\ 2 ^ k <= max_onward /\ (k = 10 \/ max_onward < 2 ^ (k + 1)).
Proof.
  intros H. unfold ST_TX_AUDIO_SESSIONS_RING_SIZE.
  assert (forall n j, 0 <= j <= 10 -> j < Z.of_nat n -> (j = 10 \/ max_onward < 2 ^ (j + 1)) ->
    exists k, 0 <= k <= 10 /\ tx_audio_ring_count n max_onward (2 ^ j) = 2 ^ k
      /\ 2 ^ k <= max_onward /\ (k = 10 \/ max_onward < 2 ^ (k + 1))) as Hloop.
  { induction n as [|n IH]; intros j Hj Hn Hup; [lia|]. cbn [tx_audio_ring_count].
    destruct (Z.gtb_spec (2 ^ j) max_onward) as [Hgt|Hle]; [|exists j; repeat split; lia].
    assert (0 < j) by (destruct (Z.eq_dec j 0) as [->|]; [cbn in Hgt; lia|lia]).
    replace (2 ^ j / 2) with (2 ^ (j - 1)); [apply IH; [lia..|]|].
    - right. replace (j - 1 + 1) with j by lia. lia.
    - replace j with (Z.succ (j - 1)) at 2 by lia. rewrite Z.pow_succ_r by lia.
      symmetry. rewrite Z.mul_comm. apply Z.div_mul. lia. }
  apply (Hloop 11%nat 10); lia.
Qed.
