(* ===== verification/AudioTimeline.v ===== *)
(** What the ST 2110-30 receiver of [RxAudio] promises, as a reader of a timeline
    ([aud_pkt]), and the proof that the session implements it: the writes stay
    inside the frame, the frames of the application are not touched, the packets of
    a frame in any order give its bytes, and missing packets are silence. *)
From S2P Require Import Prelude SeqNum Bitmap Fmt RxAudio.

(** ** The receiver as a reader of a timeline

    What the session promises, without buffers, bitmaps, byte counts, offsets and
    reference counts: time is cut into frames of [ra_ticks], the open frame is a list
    of slots that are empty or hold a payload, and closing it logs what the
    application is given. [au_held] are the frames in the application's hands. *)

Record aud := mk_aud {
  au_next : Z;
  au_open : option (nat * Z * Z * list (option (list Z)));
  au_held : list nat;
  au_errs : list Z;
  au_log : list ra_event;
}.
#[export] Instance eta_aud : Settable aud := fun a =>
  mk_aud (au_next a) (au_open a) (au_held a) (au_errs a) (au_log a).

Definition slot_full (o : option (list Z)) : bool := match o with Some _ => true | None => false end.
Definition slots_count (sl : list (option (list Z))) : Z := Z.of_nat (length (filter (fun o => slot_full o = true) sl)).

Section Timeline.
Context (cfg : ra_config) (app : nat -> app_answer).

Definition aud_init : aud := mk_aud (-1) None [] [0; 0] [].

Definition slots_bytes (sl : list (option (list Z))) : list Z :=
  concat (default (replicate (Z.to_nat (pkt_len cfg)) 0) <$> sl).

Definition aud_event (f : nat) (b ptp : Z) (sl : list (option (list Z))) : ra_event :=
  mk_ra_event f
    (mk_ra_meta b ptp (ra_fmt cfg) (ra_sampling cfg) (ra_channel cfg) (pkt_len cfg * slots_count sl)
       (forallb slot_full sl))
    (slots_bytes sl).

Definition aud_close (a : aud) : aud :=
  match au_open a with
  | None => a
  | Some (f, b, ptp, sl) =>
      let a := a <| au_open := None |> <| au_next := u32 (b + rtp_ticks_per_frame cfg - 1) |> in
      if forallb slot_full sl || ra_receive_incomplete cfg then
        a <| au_held := match app (length (au_log a)) with AppKeeps => f :: au_held a | _ => au_held a end |>
          <| au_log ::= fun l => l ++ [aud_event f b ptp sl] |>
      else a
  end.

(** The first frame that nobody has. *)
Definition aud_free (a : aud) : option nat :=
  fst <$> list_find (fun i => i ∉ au_held a) (seq 0 (Z.to_nat (ra_frames_cnt cfg))).

Definition aud_base (next ts : Z) : Z :=
  let g := u32 (next + 1) in
  u32 (g + rtp_ticks_per_frame cfg * (i32 (ts - g) / rtp_ticks_per_frame cfg)).

Definition aud_start (ts ptp : Z) (a : aud) : aud :=
  match aud_free a with
  | None => a
  | Some f =>
      let b := aud_base (au_next a) ts in
      a <| au_open := Some (f, b, ptp, replicate (Z.to_nat (st30_total_pkts cfg)) None) |>
        <| au_next := u32 (b - 1) |>
  end.

Definition aud_slot (ts b : Z) : nat := Z.to_nat (u32 (ts - b) / samples_per_pkt cfg).

(** A payload goes into its slot; the last one closes the frame. *)
Definition aud_fill (ts : Z) (payload : list Z) (a : aud) : aud :=
  match au_open a with
  | None => a
  | Some (f, b, ptp, sl) =>
      match sl !! aud_slot ts b with
      | Some None =>
          let sl := <[aud_slot ts b := Some payload]> sl in
          let a := a <| au_open := Some (f, b, ptp, sl) |> in
          if forallb slot_full sl then aud_close a else a
      | _ => a
      end
  end.

(** A time stamp outside the open frame closes it and opens its own. *)
Definition aud_turn (ts ptp : Z) (a : aud) : aud :=
  match au_open a with
  | None => aud_start ts ptp a
  | Some (_, b, _, _) =>
      if u32 (ts - b) <? rtp_ticks_per_frame cfg then a else aud_start ts ptp (aud_close a)
  end.

Definition aud_wanted (p : ra_pkt) : bool :=
  match ra_wrong_stream cfg p with
  | Some _ => false
  | None => ap_data_len p =? SIZEOF_RFC3550_AUDIO_HDR + pkt_len cfg
  end.

(** The first packet sets the time; late packets are dropped until every port has
    seen the threshold of them. *)
Definition aud_first (ts : Z) (a : aud) : aud :=
  if au_next a =? -1 then a <| au_next := u32 (ts - 1) |> else a.

Definition aud_admit (p : ra_pkt) (s_port : Z) (a : aud) : bool * aud :=
  if negb (aud_wanted p) then (false, a)
  else
    let ts := ap_tmstamp p in
    let a := aud_first ts a in
    let late := negb (mt_seq32_greater ts (au_next a)) in
    let errs := if late then arr_inc_int s_port (au_errs a) else au_errs a in
    let drop := late && negb (ra_threshold_reached cfg errs) in
    (negb drop, a <| au_errs := if drop then errs else arr_set errs s_port 0 |>).

Definition aud_pkt (p : ra_pkt) (s_port : Z) (a : aud) : aud :=
  let '(ok, a) := aud_admit p s_port a in
  if ok then aud_fill (ap_tmstamp p) (take (Z.to_nat (pkt_len cfg)) (ap_payload p))
               (aud_turn (ap_tmstamp p) (ap_ptp p) a)
  else a.

Definition aud_put (f : nat) (a : aud) : aud := a <| au_held ::= filter (fun g => g <> f) |>.

End Timeline.

(** ** Time *)

Lemma floor_quot d t : 0 < t -> Z.quot d t - (if Z.rem d t <? 0 then 1 else 0) = d / t.
Proof.
  intros Ht. pose proof (Z.quot_rem' d t). pose proof (Z.rem_bound_abs d t).
  destruct (Z.ltb_spec (Z.rem d t) 0).
  - apply (Z.div_unique _ _ _ (Z.rem d t + t)); lia.
  - apply (Z.div_unique _ _ _ (Z.rem d t)); lia.
Qed.

Section Time.
Context (cfg : ra_config) (Hgeo : ra_geometry cfg).
Abbreviation T := (rtp_ticks_per_frame cfg).

Lemma ticks_pos : 0 < T.
Proof using Hgeo. destruct Hgeo. nia. Qed.

Lemma frame_base_aud next ts : ra_frame_base cfg (u32 (next + 1)) ts = aud_base cfg next ts.
Proof using Hgeo.
  pose proof ticks_pos. unfold ra_frame_base, aud_base, ra_ticks, c_true.
  rewrite (proj2 (Z.eqb_neq T 0)) by lia. cbn [negb]. rewrite floor_quot, Z.mul_comm by lia.
  generalize (T * (i32 (ts - u32 (next + 1)) / T)). intros m. mlia.
Qed.

(** The place of a time stamp in the frame that is opened for it. *)
Lemma aud_base_offset next ts :
  u32 (ts - aud_base cfg next ts) = i32 (ts - u32 (next + 1)) mod T.
Proof using Hgeo.
  pose proof ticks_pos. pose proof (geo_ticks_max _ Hgeo). unfold aud_base.
  set (g := u32 (next + 1)). set (D := i32 (ts - g)).
  pose proof (Z.div_mod D T). pose proof (Z.mod_pos_bound D T).
  set (m := T * (D / T)) in *. set (r := D mod T) in *.
  assert (D = i32 (ts - g)) as HD by done. clearbody D g m r. mlia.
Qed.

Lemma aud_slot_lt ts b :
  u32 (ts - b) / samples_per_pkt cfg < st30_total_pkts cfg <-> u32 (ts - b) < T.
Proof using Hgeo.
  pose proof (geo_spp _ Hgeo). pose proof (u32_range (ts - b)). unfold is_u32 in *. rewrite (geo_ticks _ Hgeo).
  split; intros ?.
  - pose proof (Z.div_mod (u32 (ts - b)) (samples_per_pkt cfg)). pose proof (Z.mod_pos_bound (u32 (ts - b)) (samples_per_pkt cfg)).
    nia.
  - apply Z.div_lt_upper_bound; nia.
Qed.

End Time.

(** ** Slots, bitmap and bytes *)

Lemma slots_count_cons o sl : slots_count (o :: sl) = (if slot_full o then 1 else 0) + slots_count sl.
Proof. unfold slots_count. rewrite filter_cons. destruct o; cbn [slot_full]; case_decide; cbn; done || lia. Qed.

Lemma slots_count_insert i pl sl :
  sl !! i = Some None -> slots_count (<[i := Some pl]> sl) = slots_count sl + 1.
Proof.
  revert i. induction sl as [|o sl IH]; intros [|i] H; try done; cbn in H |- *; rewrite !slots_count_cons.
  - injection H as ->. cbn. lia.
  - rewrite IH by done. lia.
Qed.

Lemma slots_count_full sl :
  0 <= slots_count sl <= Z.of_nat (length sl) /\
  (forallb slot_full sl = true <-> slots_count sl = Z.of_nat (length sl)).
Proof.
  induction sl as [|o sl [IH1 IH2]]; [done|]. rewrite slots_count_cons. cbn [forallb length].
  destruct (slot_full o) eqn:E; cbn [andb]; rewrite ?IH2; lia || (split; [lia|]; split; lia || done).
Qed.

Lemma slots_count_none n : slots_count (replicate n None) = 0.
Proof. induction n as [|n IH]; [done|]. cbn [replicate]. by rewrite slots_count_cons, IH. Qed.

Section Slots.
Context (cfg : ra_config) (Hgeo : ra_geometry cfg).

(** Bitmap and buffer of the open frame hold exactly the slots [sl]. *)
Record frame_holds (l data : list Z) (sl : list (option (list Z))) : Prop := {
  fh_len : length sl = Z.to_nat (st30_total_pkts cfg);
  fh_wf : bm_wf l;
  fh_size : arr_len l = frame_bitmap_size cfg;
  fh_mem : forall i o, sl !! i = Some o -> bm_mem l (Z.of_nat i) = slot_full o;
  fh_data : arr_len data = st30_frame_size cfg;
  fh_chunk : forall i pl, sl !! i = Some (Some pl) ->
    arr_len pl = pkt_len cfg /\ chunk (pkt_len cfg) (Z.of_nat i) data = pl;
}.

Lemma slot_in_frame l data sl i o :
  frame_holds l data sl -> sl !! i = Some o ->
  0 <= Z.of_nat i < 8 * frame_bitmap_size cfg /\
  (Z.of_nat i + 1) * pkt_len cfg <= st30_frame_size cfg /\ Z.of_nat i < st30_total_pkts cfg.
Proof using Hgeo.
  intros Hf Hi. apply lookup_lt_Some in Hi. rewrite (fh_len _ _ _ Hf) in Hi.
  destruct Hgeo. rewrite geo_bitmap, geo_size. split; [mlia|nia].
Qed.

Lemma holds_empty data :
  arr_len data = st30_frame_size cfg ->
  frame_holds (bm_zero (frame_bitmap_size cfg)) data (replicate (Z.to_nat (st30_total_pkts cfg)) None).
Proof using Hgeo.
  intros Hd. destruct Hgeo. split.
  - by rewrite length_replicate.
  - apply bm_zero_wf.
  - apply bm_zero_len. rewrite geo_bitmap. mlia.
  - intros i o [-> _]%lookup_replicate_1. apply bm_zero_mem.
  - done.
  - intros i pl [? _]%lookup_replicate_1. done.
Qed.

Lemma holds_fill l data sl i pl :
  frame_holds l data sl -> sl !! i = Some None -> arr_len pl = pkt_len cfg ->
  exists l', mt_bitmap_test_and_set (Some l) (frame_bitmap_size cfg) (Z.of_nat i) = (false, Some l') /\
    frame_holds l' (splice (Z.of_nat i * pkt_len cfg) pl data) (<[i := Some pl]> sl).
Proof using Hgeo.
  intros Hf Hi Hpl. destruct (slot_in_frame _ _ _ _ _ Hf Hi) as (Hbi & Hsz & _).
  destruct (bitmap_set_spec l _ _ (fh_wf _ _ _ Hf) (fh_size _ _ _ Hf) Hbi) as (l' & E & Hwf & Hlen & Hmem).
  rewrite (fh_mem _ _ _ Hf _ _ Hi) in E. exists l'. split; [done|].
  assert (arr_len (splice (Z.of_nat i * pkt_len cfg) pl data) = st30_frame_size cfg) as Hlen2.
  { pose proof (geo_pkt _ Hgeo). pose proof (fh_data _ _ _ Hf) as Hd. unfold arr_len in *.
    rewrite splice_length; unfold arr_len; nia. }
  split; [by rewrite length_insert, (fh_len _ _ _ Hf)|done|done| |done|].
  - intros j o. rewrite Hmem. destruct (decide (i = j)) as [->|Hne].
    + rewrite list_lookup_insert_eq by (by eapply lookup_lt_Some). intros [= <-].
      by rewrite bool_decide_eq_true_2, orb_true_r.
    + rewrite list_lookup_insert_ne by done. intros Hj. rewrite (fh_mem _ _ _ Hf _ _ Hj).
      by rewrite bool_decide_eq_false_2, orb_false_r by lia.
  - intros j q. pose proof (fh_data _ _ _ Hf) as Hd. destruct (decide (i = j)) as [->|Hne].
    + rewrite list_lookup_insert_eq by (by eapply lookup_lt_Some). intros [= <-]. split; [done|].
      rewrite chunk_splice by lia. by rewrite Z.eqb_refl.
    + rewrite list_lookup_insert_ne by done. intros Hj. destruct (fh_chunk _ _ _ Hf _ _ Hj) as [? Hc].
      split; [done|]. destruct (slot_in_frame _ _ _ _ _ Hf Hj) as (_ & ? & _).
      rewrite chunk_splice by lia. by rewrite (proj2 (Z.eqb_neq _ _)) by lia.
Qed.

Lemma holds_repeat l data sl i pl :
  frame_holds l data sl -> sl !! i = Some (Some pl) ->
  exists l', mt_bitmap_test_and_set (Some l) (frame_bitmap_size cfg) (Z.of_nat i) = (true, Some l') /\
    frame_holds l' data sl.
Proof using Hgeo.
  intros Hf Hi. destruct (slot_in_frame _ _ _ _ _ Hf Hi) as (Hbi & _).
  destruct (bitmap_set_spec l _ _ (fh_wf _ _ _ Hf) (fh_size _ _ _ Hf) Hbi) as (l' & E & Hwf & Hlen & Hmem).
  rewrite (fh_mem _ _ _ Hf _ _ Hi) in E. exists l'. split; [done|].
  destruct Hf as [H1 H2 H3 H4 H5 H6]. split; try done.
  intros j o Hj. rewrite Hmem, (H4 _ _ Hj). case_bool_decide as Ej; [|by rewrite orb_false_r].
  apply Nat2Z.inj in Ej as ->. rewrite Hi in Hj. by injection Hj as <-.
Qed.

(** A buffer is determined by its pieces. *)
Lemma bytes_of_chunks data sl :
  length sl = Z.to_nat (st30_total_pkts cfg) -> arr_len data = st30_frame_size cfg ->
  (forall i o, sl !! i = Some o ->
     chunk (pkt_len cfg) (Z.of_nat i) data = default (replicate (Z.to_nat (pkt_len cfg)) 0) o) ->
  data = slots_bytes cfg sl.
Proof using Hgeo.
  intros Hl Hd Hc. destruct Hgeo.
  rewrite (concat_chunks (pkt_len cfg) (st30_total_pkts cfg) data) by lia. unfold slots_bytes. f_equal.
  apply list_eq. intros i. rewrite !list_lookup_fmap.
  destruct (sl !! i) as [o|] eqn:E.
  - rewrite lookup_seqZ_lt by (apply lookup_lt_Some in E; lia). cbn [fmap option_fmap option_map]. by rewrite Z.add_0_l, (Hc i o E).
  - apply lookup_ge_None in E. rewrite lookup_seqZ_ge by lia. done.
Qed.

Lemma zero_gaps_bytes l data sl :
  frame_holds l data sl ->
  rx_audio_session_zero_frame_gaps cfg (Some l) data = slots_bytes cfg sl /\
  arr_len (slots_bytes cfg sl) = st30_frame_size cfg.
Proof using Hgeo.
  intros Hf. unfold rx_audio_session_zero_frame_gaps.
  set (f := fun i d => _).
  enough (arr_len (for_from 0 (Z.to_nat (st30_total_pkts cfg)) f data) = st30_frame_size cfg /\
    forall i o, sl !! i = Some o -> (Z.of_nat i < st30_total_pkts cfg \/ slot_full o = true) ->
      chunk (pkt_len cfg) (Z.of_nat i) (for_from 0 (Z.to_nat (st30_total_pkts cfg)) f data)
      = default (replicate (Z.to_nat (pkt_len cfg)) 0) o) as [H1 H2].
  { enough (for_from 0 (Z.to_nat (st30_total_pkts cfg)) f data = slots_bytes cfg sl) as E
      by (rewrite <- E; done).
    apply bytes_of_chunks; [apply Hf|done|]. intros i o Hi. apply H2; [done|].
    left. by destruct (slot_in_frame _ _ _ _ _ Hf Hi) as (_ & _ & ?). }
  pose proof (geo_total _ Hgeo). pose proof (geo_pkt _ Hgeo) as Hpk.
  apply (for_upto_inv (fun k d => arr_len d = st30_frame_size cfg /\
    forall i o, sl !! i = Some o -> (Z.of_nat i < k \/ slot_full o = true) ->
      chunk (pkt_len cfg) (Z.of_nat i) d = default (replicate (Z.to_nat (pkt_len cfg)) 0) o)); [lia| |].
  { split; [apply Hf|]. intros i [pl|] Hi [?|?]; try lia; try done; by apply (fh_chunk _ _ _ Hf). }
  intros k d Hk [Hd Hc]. unfold f. rewrite (bitmap_test_mem l _ k (fh_size _ _ _ Hf)).
  destruct (lookup_lt_is_Some_2 sl (Z.to_nat k)) as [o Ho]; [rewrite (fh_len _ _ _ Hf); lia|].
  pose proof (fh_mem _ _ _ Hf _ _ Ho) as Hm. rewrite Z2Nat.id in Hm by lia. rewrite Hm.
  destruct (slot_in_frame _ _ _ _ _ Hf Ho) as (_ & Hsz & _). rewrite Z2Nat.id in Hsz by lia.
  destruct o as [pl|]; cbn [slot_full].
  - split; [done|]. intros i o Hi Hor. apply Hc; [done|].
    destruct (decide (Z.of_nat i < k)) as [|]; [by left|]. right.
    destruct Hor; [|done]. assert (i = Z.to_nat k) as -> by lia. rewrite Ho in Hi. by injection Hi as <-.
  - assert (arr_len (replicate (Z.to_nat (pkt_len cfg)) 0) = pkt_len cfg) as Hz
      by (unfold arr_len; rewrite length_replicate; lia).
    split.
    { unfold arr_len in *. rewrite splice_length; unfold arr_len; nia. }
    intros i o Hi Hor. destruct (slot_in_frame _ _ _ _ _ Hf Hi) as (_ & ? & _).
    rewrite chunk_splice by lia. destruct (Z.eqb_spec k (Z.of_nat i)) as [->|Hne].
    + rewrite Nat2Z.id in Ho. rewrite Ho in Hi. by injection Hi as <-.
    + apply Hc; [done|]. destruct Hor; [left; lia|by right].
Qed.

Lemma full_bytes l data sl :
  frame_holds l data sl -> forallb slot_full sl = true -> data = slots_bytes cfg sl.
Proof using Hgeo.
  intros Hf Hfull. apply bytes_of_chunks; [apply Hf|apply Hf|]. intros i o Hi.
  rewrite forallb_forall in Hfull. specialize (Hfull o). destruct o as [pl|].
  - by apply (fh_chunk _ _ _ Hf).
  - exfalso. assert (slot_full None = true) as Hx; [|done].
    apply Hfull, list_elem_of_In. by eapply list_elem_of_lookup_2.
Qed.

End Slots.

(** ** The session implements the timeline *)

Definition owned (a : aud) : list nat :=
  match au_open a with Some (f, _, _, _) => f :: au_held a | None => au_held a end.

(** The part of the session the timeline sees. *)
Definition ra_core (s : ra_session) :=
  (st30_frames s, st30_cur_frame s, ra_redundant_error_cnt s,
   (first_pkt_rtp_ts s, first_pkt_ptp_ts s, ra_tmstamp s, frame_recv_size s, frame_bitmap s, ra_notified s)).

Lemma core_count k n s : ra_core (ra_count k n s) = ra_core s.
Proof. done. Qed.
Lemma core_port_seq p s_port s : ra_core (ra_port_seq p s_port s) = ra_core s.
Proof. unfold ra_port_seq. rewrite !core_count. repeat case_if; done. Qed.
Lemma core_session_seq seq_id s : ra_core (ra_session_seq seq_id s) = ra_core s.
Proof. unfold ra_session_seq. repeat case_if; done. Qed.

(** The first element with a property, found through its index. *)
Lemma list_find_seq {A} (P : A -> Prop) `{!forall x, Decision (P x)} (Q : nat -> Prop)
    `{!forall i, Decision (Q i)} (l : list A) k :
  (forall i x, l !! i = Some x -> P x <-> Q (k + i)%nat) ->
  fst <$> list_find P l = fst <$> list_find Q (seq k (length l)).
Proof.
  revert k. induction l as [|x l IH]; intros k Hl; [done|]. cbn [length seq list_find].
  pose proof (Hl 0%nat x eq_refl) as Hx. rewrite Nat.add_0_r in Hx.
  destruct (decide (P x)), (decide (Q k)); try tauto.
  specialize (IH (S k)).
  assert (fst <$> list_find P l = fst <$> list_find Q (seq (S k) (length l))) as IH'.
  { apply IH. intros i y Hi. replace (S k + i)%nat with (k + S i)%nat by lia. by apply Hl. }
  clear IH. revert IH'. destruct (list_find P l) as [[]|], (list_find Q (seq (S k) (length l))) as [[]|]; cbn; congruence.
Qed.

Section Refinement.
Context (cfg : ra_config) (Hgeo : ra_geometry cfg).
Abbreviation cnt := (Z.to_nat (ra_frames_cnt cfg)).

Definition sim_open (a : aud) (s : ra_session) : Prop :=
  match au_open a with
  | None => st30_cur_frame s = None
  | Some (f, b, ptp, sl) =>
      st30_cur_frame s = Some f /\ first_pkt_rtp_ts s = b /\ first_pkt_ptp_ts s = ptp /\
      is_u32 b /\ au_next a = u32 (b - 1) /\
      frame_recv_size s = pkt_len cfg * slots_count sl /\
      exists l, frame_bitmap s = Some l /\ frame_holds cfg l (rf_data (ra_frame_at s f)) sl
  end.

Record aud_sim (a : aud) (s : ra_session) : Prop := {
  sim_next : ra_tmstamp s = au_next a;
  sim_range : au_next a = -1 \/ is_u32 (au_next a);
  sim_errs : ra_redundant_error_cnt s = au_errs a;
  sim_log : ra_notified s = au_log a;
  sim_cnt : length (st30_frames s) = cnt;
  sim_data : Forall (fun fr => arr_len (rf_data fr) = st30_frame_size cfg) (st30_frames s);
  sim_ref : forall i fr, st30_frames s !! i = Some fr ->
    rf_refcnt fr = if decide (i ∈ owned a) then 1 else 0;
  sim_owned : Forall (fun i => (i < cnt)%nat) (owned a) /\ NoDup (owned a);
  sim_bitmap : exists l, frame_bitmap s = Some l;
  sim_slots : sim_open a s;
}.

Lemma sim_same_core a s s' : ra_core s' = ra_core s -> aud_sim a s -> aud_sim a s'.
Proof.
  unfold ra_core. intros [= E1 E2 E3 E4 E5 E6 E7 E8 E9] [].
  split; unfold sim_open, ra_frame_at in *; rewrite ?E1, ?E2, ?E3, ?E4, ?E5, ?E6, ?E7, ?E8, ?E9; done.
Qed.

Lemma sim_init : 0 <= ra_frames_cnt cfg -> aud_sim aud_init (rx_audio_session_alloc_frames cfg).
Proof using Hgeo.
  intros Hc. split; try done; cbn.
  - by left.
  - by rewrite length_replicate.
  - apply Forall_replicate. unfold arr_len. cbn [rf_data]. rewrite length_replicate. destruct Hgeo. nia.
  - intros i fr [-> _]%lookup_replicate_1. done.
  - split; constructor.
  - by eexists.
Qed.

(** *** Before assembly *)

Lemma aud_first_range ts a s : aud_sim a s -> is_u32 (au_next (aud_first ts a)).
Proof.
  intros Hs. unfold aud_first. destruct (Z.eqb_spec (au_next a) (-1)); cbn; [apply u32_range|].
  by destruct (sim_range _ _ Hs).
Qed.

Lemma sim_first p s_port a s :
  aud_sim a s -> aud_sim (aud_first (ap_tmstamp p) a) (ra_first_packet p s_port s).
Proof.
  intros Hs. unfold ra_first_packet.
  set (s1 := if arr_get 0 _ _ =? -1 then _ else s). set (s2 := if session_seq_id s1 =? -1 then _ else s1).
  assert (aud_sim a s2) as Hs2.
  { apply (sim_same_core a s); [|done]. unfold s2, s1. repeat case_if; done. }
  clearbody s2. clear s1 Hs s. unfold aud_first. rewrite (sim_next _ _ Hs2).
  destruct (Z.eqb_spec (au_next a) (-1)) as [E|E]; [|done]. destruct Hs2 as [].
  split; try done; cbn; [right; apply u32_range|].
  unfold sim_open, owned in *. cbn. destruct (au_open a) as [[[[f b] ptp] sl]|]; [|done].
  destruct sim_slots0 as (_ & _ & _ & _ & E' & _). pose proof (u32_range (b - 1)). unfold is_u32 in *. lia.
Qed.

Lemma sim_set_errs errs a s :
  aud_sim a s -> aud_sim (a <| au_errs := errs |>) (s <| ra_redundant_error_cnt := errs |>).
Proof. intros []. split; done. Qed.

Lemma sim_filter ts s_port a s :
  is_u32 (au_next a) -> aud_sim a s ->
  let late := negb (mt_seq32_greater ts (au_next a)) in
  let errs := if late then arr_inc_int s_port (au_errs a) else au_errs a in
  let drop := late && negb (ra_threshold_reached cfg errs) in
  let '(drop', s') := ra_redundant_filter cfg ts s_port s in
  drop' = drop /\ aud_sim (a <| au_errs := if drop then errs else arr_set errs s_port 0 |>) s'.
Proof.
  intros Hr Hs late errs drop. unfold ra_redundant_filter.
  rewrite (sim_next _ _ Hs), u32_id by done. fold late. pose proof (sim_errs _ _ Hs) as He.
  assert (forall e s', ra_core s' = ra_core (s <| ra_redundant_error_cnt := e |>) ->
    aud_sim (a <| au_errs := e |>) s') as Hcore.
  { intros e s' Hc. apply (sim_same_core _ _ _ Hc). by apply sim_set_errs. }
  unfold drop, errs. destruct late; cbn [andb].
  - cbn [ra_count ra_redundant_error_cnt]. change (ra_redundant_error_cnt (ra_count _ _ ?x)) with (ra_redundant_error_cnt x).
    cbn. rewrite He. destruct (ra_threshold_reached cfg (arr_inc_int s_port (au_errs a))); cbn [negb].
    + split; [done|]. apply Hcore. unfold ra_core. cbn. by rewrite He.
    + split; [done|]. apply Hcore. unfold ra_core. cbn. by rewrite He.
  - split; [done|]. apply Hcore. unfold ra_core. cbn. by rewrite He.
Qed.

(** *** Opening and closing *)

Lemma frame_at_lookup s i : (i < length (st30_frames s))%nat -> st30_frames s !! i = Some (ra_frame_at s i).
Proof. intros H. unfold ra_frame_at. by destruct (lookup_lt_is_Some_2 _ _ H) as [fr ->]. Qed.

Lemma get_frame_free a s :
  aud_sim a s -> au_open a = None ->
  rx_audio_session_get_frame s =
    match aud_free cfg a with
    | Some f => (Some f, ra_frame_upd f (fun fr => fr <| rf_refcnt ::= fun n => i32 (n + 1) |>) s)
    | None => (None, s)
    end /\
  forall f, aud_free cfg a = Some f -> (f < cnt)%nat /\ f ∉ au_held a.
Proof using cfg.
  intros Hs Ho. unfold aud_free. rewrite <- (sim_cnt _ _ Hs).
  assert (owned a = au_held a) as How by (unfold owned; by rewrite Ho).
  assert (forall i x, st30_frames s !! i = Some x -> rf_refcnt x = 0 <-> (0 + i)%nat ∉ au_held a) as Heq.
  { intros i x Hi. rewrite (sim_ref _ _ Hs i x Hi), How. cbn. case_decide; split; done || lia. }
  pose proof (list_find_seq (fun f => rf_refcnt f = 0) (fun i => i ∉ au_held a) (st30_frames s) 0 Heq) as HF.
  unfold rx_audio_session_get_frame. split.
  - rewrite <- HF. by destruct (list_find _ (st30_frames s)) as [[i x]|].
  - intros f. rewrite <- HF. destruct (list_find _ (st30_frames s)) as [[i x]|] eqn:E; [|done]. intros [= <-].
    apply list_find_Some in E as (Hi & Hx & _). split; [by eapply lookup_lt_Some|by apply (Heq _ _ Hi)].
Qed.

(** Changing the count of one frame follows a change of its owner. *)
Lemma refs_after (L : list nat) f n s :
  (forall i fr, st30_frames s !! i = Some fr -> i <> f ->
     rf_refcnt fr = if decide (i ∈ L) then 1 else 0) ->
  (forall fr, st30_frames s !! f = Some fr -> i32 (rf_refcnt fr + n) = if decide (f ∈ L) then 1 else 0) ->
  forall i fr, alter (fun fr => fr <| rf_refcnt ::= fun m => i32 (m + n) |>) f (st30_frames s) !! i = Some fr ->
    rf_refcnt fr = if decide (i ∈ L) then 1 else 0.
Proof.
  intros Ho Hf i fr. destruct (decide (i = f)) as [->|Hne].
  - rewrite list_lookup_alter_eq. destruct (st30_frames s !! f) eqn:E; [|done]. intros [= <-]. cbn. by apply Hf.
  - rewrite list_lookup_alter_ne by done. intros Hi. by apply Ho.
Qed.

Lemma data_after f g s P :
  (forall fr, P (rf_data fr) -> P (rf_data (g fr))) ->
  Forall (fun fr => P (rf_data fr)) (st30_frames s) ->
  Forall (fun fr => P (rf_data fr)) (alter g f (st30_frames s)).
Proof. intros Hg HF. apply Forall_alter; [done|]. intros fr _. apply Hg. Qed.

Lemma sim_start ts ptp s_port a s :
  aud_sim a s -> au_open a = None ->
  aud_sim (aud_start cfg ts ptp a) (rx_audio_session_open_frame cfg s_port ts ptp s).
Proof using Hgeo.
  intros Hs Ho. destruct (get_frame_free a s Hs Ho) as [Hget Hfree].
  unfold rx_audio_session_open_frame, aud_start. rewrite Hget.
  destruct (aud_free cfg a) as [f|]; cycle 1.
  { apply (sim_same_core a s); [|done]. pose proof (sim_slots _ _ Hs) as Hsl. unfold sim_open in Hsl. rewrite Ho in Hsl.
    unfold ra_core. cbn. by rewrite Hsl. }
  destruct (Hfree f eq_refl) as [Hf Hnh].
  pose proof (sim_cnt _ _ Hs) as Hcnt. assert (st30_frames s !! f = Some (ra_frame_at s f)) as Hfl
    by (apply frame_at_lookup; lia).
  assert (owned a = au_held a) as How by (unfold owned; by rewrite Ho).
  destruct (sim_bitmap _ _ Hs) as [l Hl]. pose proof (sim_owned _ _ Hs) as [Hlt Hnd]. rewrite How in Hlt, Hnd.
  split; cbn.
  - rewrite (sim_next _ _ Hs), (frame_base_aud cfg Hgeo). done.
  - right. apply u32_range.
  - apply Hs.
  - apply Hs.
  - rewrite length_alter. done.
  - apply (data_after f _ s (fun d => arr_len d = st30_frame_size cfg)); [done|apply Hs].
  - apply refs_after.
    + intros i fr Hi Hne. rewrite (sim_ref _ _ Hs i fr Hi), How. apply decide_ext. rewrite elem_of_cons. tauto.
    + intros fr E. rewrite Hfl in E. injection E as <-. rewrite (sim_ref _ _ Hs f _ Hfl), How.
      rewrite decide_False, decide_True by (rewrite ?elem_of_cons; tauto). done.
  - split; by constructor.
  - by rewrite Hl; eexists.
  - unfold sim_open. cbn. rewrite (sim_next _ _ Hs), (frame_base_aud cfg Hgeo).
    repeat (split; [done|]). split; [apply u32_range|]. split; [done|].
    split; [by rewrite slots_count_none, Z.mul_0_r|].
    rewrite Hl. eexists. split; [done|]. unfold ra_frame_at. cbn. rewrite list_lookup_alter_eq, Hfl. cbn.
    apply holds_empty; [done|]. pose proof (sim_data _ _ Hs) as HF. rewrite Forall_lookup in HF. by apply (HF f).
Qed.

(** The meta data and the contents of the open frame. *)
Lemma sim_meta a s f b ptp sl :
  aud_sim a s -> au_open a = Some (f, b, ptp, sl) ->
  ra_frame_meta cfg s = ev_meta (aud_event cfg f b ptp sl) /\
  am_complete (ra_frame_meta cfg s) = forallb slot_full sl.
Proof using Hgeo.
  intros Hs Ho. pose proof (sim_slots _ _ Hs) as Hsl. unfold sim_open in Hsl. rewrite Ho in Hsl.
  destruct Hsl as (_ & Hb & Hp & _ & _ & Hrecv & l & _ & Hh).
  assert (negb (frame_recv_size s <? st30_frame_size cfg) = forallb slot_full sl) as Hc.
  { destruct (slots_count_full sl) as [Hr Hfull]. pose proof (fh_len _ _ _ _ Hh) as Hlen. destruct Hgeo.
    rewrite Hrecv, geo_size. destruct (forallb slot_full sl).
    - apply negb_true_iff, Z.ltb_ge. rewrite (proj1 Hfull) by done. rewrite Hlen. nia.
    - apply negb_false_iff, Z.ltb_lt.
      assert (slots_count sl <> Z.of_nat (length sl)) by (intros E; apply Hfull in E; done). nia. }
  split; [|done]. unfold ra_frame_meta, aud_event. cbn. by rewrite Hb, Hp, Hrecv, <- Hc, Hrecv.
Qed.

(** The frame goes back to the pool, or to the application. *)
Lemma sim_closed a s f b ptp sl (held : list nat) (log : list ra_event) s' :
  aud_sim a s -> au_open a = Some (f, b, ptp, sl) ->
  held = au_held a \/ held = f :: au_held a ->
  st30_cur_frame s' = None -> ra_tmstamp s' = u32 (b + rtp_ticks_per_frame cfg - 1) ->
  ra_redundant_error_cnt s' = ra_redundant_error_cnt s -> frame_bitmap s' = frame_bitmap s ->
  ra_notified s' = log -> rf_refcnt <$> st30_frames s' =
    rf_refcnt <$> (if decide (held = au_held a)
      then alter (fun fr => fr <| rf_refcnt ::= fun n => i32 (n - 1) |>) f (st30_frames s) else st30_frames s) ->
  Forall (fun fr => arr_len (rf_data fr) = st30_frame_size cfg) (st30_frames s') ->
  aud_sim (mk_aud (u32 (b + rtp_ticks_per_frame cfg - 1)) None held (au_errs a) log) s'.
Proof.
  intros Hs Ho Hheld Hcur Hts Herr Hbm Hlog Href Hdata. pose proof (sim_owned _ _ Hs) as [Hlt Hnd].
  assert (owned a = f :: au_held a) as How by (unfold owned; by rewrite Ho). rewrite How in Hlt, Hnd.
  apply Forall_cons in Hlt as [Hf Hlt]. apply NoDup_cons in Hnd as [Hnf Hnd].
  assert (length (st30_frames s') = cnt) as Hlen.
  { apply (f_equal length) in Href. rewrite !length_fmap in Href. rewrite Href.
    case_decide; rewrite ?length_alter; apply Hs. }
  split; cbn; try done.
  - right. apply u32_range.
  - rewrite Herr. apply Hs.
  - intros i fr Hi. unfold owned. cbn.
    assert (exists fr0, (if decide (held = au_held a)
      then alter (fun fr => fr <| rf_refcnt ::= fun n => i32 (n - 1) |>) f (st30_frames s) else st30_frames s) !! i = Some fr0
      /\ rf_refcnt fr0 = rf_refcnt fr) as (fr0 & Hi0 & <-).
    { apply (f_equal (fun l => l !! i)) in Href. rewrite !list_lookup_fmap, Hi in Href. cbn in Href.
      destruct (_ !! i) as [fr0|] eqn:E in Href; [|done]. exists fr0. split; [done|]. cbn in Href. congruence. }
    case_decide as E.
    + revert i fr0 Hi0 Hi. subst held. intros i fr0 Hi0 _. revert i fr0 Hi0. apply (refs_after _ f (-1)).
      * intros i fr1 Hi Hne. rewrite (sim_ref _ _ Hs i fr1 Hi), How. apply decide_ext. rewrite elem_of_cons. tauto.
      * intros fr1 Hf1. rewrite (sim_ref _ _ Hs f fr1 Hf1), How. rewrite decide_True, decide_False by (rewrite ?elem_of_cons; tauto). done.
    + destruct Hheld as [|E2]; [done|]. rewrite E2. rewrite (sim_ref _ _ Hs i fr0 Hi0), How. done.
  - unfold owned. cbn. destruct Hheld as [->| ->]; split; try done; by constructor.
  - rewrite Hbm. apply Hs.
Qed.

Context (app : nat -> app_answer).

(** Missing packets are zeroed before the frame is given away. *)
Lemma sim_silence a s f b ptp sl :
  aud_sim a s -> au_open a = Some (f, b, ptp, sl) ->
  exists s1, s1 = (if am_complete (ra_frame_meta cfg s) then s
    else ra_frame_upd f (fun fr => fr <| rf_data ::= rx_audio_session_zero_frame_gaps cfg (frame_bitmap s) |>)
           (ra_count RA_FRAMES_INCOMPLETE 1 s)) /\
  rf_refcnt <$> st30_frames s1 = rf_refcnt <$> st30_frames s /\
  Forall (fun fr => arr_len (rf_data fr) = st30_frame_size cfg) (st30_frames s1) /\
  rf_data (ra_frame_at s1 f) = slots_bytes cfg sl /\
  ra_redundant_error_cnt s1 = ra_redundant_error_cnt s /\ frame_bitmap s1 = frame_bitmap s /\
  ra_notified s1 = ra_notified s /\ first_pkt_rtp_ts s1 = first_pkt_rtp_ts s.
Proof using Hgeo.
  intros Hs Ho. eexists. split; [done|]. destruct (sim_meta _ _ _ _ _ _ Hs Ho) as [_ ->].
  pose proof (sim_slots _ _ Hs) as Hsl. unfold sim_open in Hsl. rewrite Ho in Hsl.
  destruct Hsl as (_ & _ & _ & _ & _ & _ & l & Hl & Hh).
  pose proof (sim_owned _ _ Hs) as [Hlt _]. unfold owned in Hlt. rewrite Ho in Hlt. apply Forall_cons in Hlt as [Hf _].
  assert (st30_frames s !! f = Some (ra_frame_at s f)) as Hfl by (apply frame_at_lookup; rewrite (sim_cnt _ _ Hs); done).
  destruct (forallb slot_full sl) eqn:Efull.
  { repeat split; [apply Hs|]. by eapply full_bytes. }
  destruct (zero_gaps_bytes cfg Hgeo _ _ _ Hh) as [Hz Hlen].
  repeat split; try done; cbn.
  - by apply fmap_alter_same.
  - apply Forall_lookup. intros i fr. destruct (decide (i = f)) as [->|Hne].
    + rewrite list_lookup_alter_eq, Hfl. intros [= <-]. cbn. by rewrite Hl, Hz.
    + rewrite list_lookup_alter_ne by done. intros Hi. pose proof (sim_data _ _ Hs) as HF. rewrite Forall_lookup in HF. by apply (HF i).
  - unfold ra_frame_at at 1. cbn. rewrite list_lookup_alter_eq, Hfl. cbn. by rewrite Hl, Hz.
Qed.

Lemma aud_close_eq a f b ptp sl :
  au_open a = Some (f, b, ptp, sl) ->
  aud_close cfg app a = mk_aud (u32 (b + rtp_ticks_per_frame cfg - 1)) None
    (if forallb slot_full sl || ra_receive_incomplete cfg then
       match app (length (au_log a)) with AppKeeps => f :: au_held a | _ => au_held a end else au_held a)
    (au_errs a)
    (if forallb slot_full sl || ra_receive_incomplete cfg then au_log a ++ [aud_event cfg f b ptp sl] else au_log a).
Proof. intros Ho. unfold aud_close. rewrite Ho. by case_if. Qed.

Lemma sim_close a s f b ptp sl :
  aud_sim a s -> au_open a = Some (f, b, ptp, sl) ->
  aud_sim (aud_close cfg app a) (rx_audio_session_frame_notify cfg app f s).
Proof using Hgeo.
  intros Hs Ho. unfold rx_audio_session_frame_notify. rewrite (aud_close_eq _ _ _ _ _ Ho).
  destruct (sim_silence _ _ _ _ _ _ Hs Ho) as (s1 & <- & Href & Hdata & Hbytes & Herr & Hbm & Hlog & Hfst).
  destruct (sim_meta _ _ _ _ _ _ Hs Ho) as [Hmeta Hcomp]. rewrite Hcomp.
  pose proof (sim_slots _ _ Hs) as Hsl. unfold sim_open in Hsl. rewrite Ho in Hsl.
  destruct Hsl as (_ & Hb & _). rewrite Hb in Hfst.
  assert (f ∉ au_held a) as Hnf.
  { pose proof (sim_owned _ _ Hs) as [_ Hnd]. unfold owned in Hnd. rewrite Ho in Hnd. by apply NoDup_cons in Hnd as [? _]. }
  assert (au_held a <> f :: au_held a) as Hneq by (intros E; apply Hnf; rewrite E; left).
  assert (f < length (st30_frames s1))%nat as Hf.
  { rewrite <- (length_fmap rf_refcnt), Href, length_fmap, (sim_cnt _ _ Hs).
    pose proof (sim_owned _ _ Hs) as [Hlt _]. unfold owned in Hlt. rewrite Ho in Hlt. by apply Forall_cons in Hlt as [? _]. }
  assert (forall s2, st30_frames s2 = st30_frames s1 ->
    rf_refcnt <$> st30_frames (snd (rx_audio_session_put_frame f s2)) =
    rf_refcnt <$> alter (fun fr => fr <| rf_refcnt ::= fun n => i32 (n - 1) |>) f (st30_frames s)) as Hput.
  { intros s2 E2. cbn. rewrite E2.
    rewrite !(list_fmap_alter rf_refcnt _ (fun n => i32 (n - 1))) by (by apply Forall_true).
    by rewrite Href. }
  assert (forall s2, st30_frames s2 = st30_frames s1 -> Forall (fun fr => arr_len (rf_data fr) = st30_frame_size cfg)
    (st30_frames (snd (rx_audio_session_put_frame f s2)))) as Hputd.
  { intros s2 E2. cbn. rewrite E2. apply (data_after f _ s1 (fun d => arr_len d = st30_frame_size cfg)); done. }
  clear Hcomp. rewrite Hmeta. rewrite <- (sim_log _ _ Hs), <- Hlog.
  set (s2 := if forallb slot_full sl then s1 <| stat_frames_received ::= _ |> else s1).
  assert (st30_frames s2 = st30_frames s1 /\ ra_redundant_error_cnt s2 = ra_redundant_error_cnt s1 /\
    frame_bitmap s2 = frame_bitmap s1 /\ ra_notified s2 = ra_notified s1 /\ first_pkt_rtp_ts s2 = first_pkt_rtp_ts s1)
    as (Efr & Eerr & Ebm & Elog & Efst) by (unfold s2; case_if; done).
  clearbody s2.
  destruct (forallb slot_full sl || ra_receive_incomplete cfg) eqn:Edel; cbn [negb].
  - rewrite Elog.
    set (s3 := s2 <| ra_notified ::= _ |>).
    assert (st30_frames s3 = st30_frames s1) as E3 by done.
    assert (ra_notified s3 = ra_notified s1 ++ [aud_event cfg f b ptp sl]) as El3.
    { cbn. rewrite Elog. unfold ra_frame_at. rewrite Efr. fold (ra_frame_at s1 f). by rewrite Hbytes. }
    assert (ra_redundant_error_cnt s3 = ra_redundant_error_cnt s /\ frame_bitmap s3 = frame_bitmap s /\
      first_pkt_rtp_ts s3 = b) as (Ee3 & Eb3 & Ef3) by (cbn; rewrite Eerr, Ebm, Efst, Herr, Hbm; done).
    clearbody s3. unfold st30_rx_put_framebuff. rewrite E3, bool_decide_eq_true_2 by done.
    cbn. rewrite Hlog in El3 |- *. destruct (app (length (ra_notified s))); cbn.
    + apply (sim_closed a s f b ptp sl); cbn; rewrite ?Ef3; try done; [by right| |].
      * rewrite decide_False by done. by rewrite E3.
      * by rewrite E3.
    + apply (sim_closed a s f b ptp sl); cbn; rewrite ?Ef3; try done; [by left| |].
      * rewrite decide_True by done. by apply (Hput s3).
      * by apply (Hputd s3).
    + apply (sim_closed a s f b ptp sl); cbn; rewrite ?Ef3; try done; [by left| |].
      * rewrite decide_True by done. by apply (Hput s3).
      * by apply (Hputd s3).
  - apply (sim_closed a s f b ptp sl); try done.
    + by left.
    + cbn. by rewrite Hfst.
    + rewrite decide_True by done. by apply Hput.
    + by apply Hputd.
Qed.

(** *** Packets *)

Lemma pkt_idx_slot ts s b :
  first_pkt_rtp_ts s = b -> ra_pkt_idx cfg ts s = Z.of_nat (aud_slot cfg ts b).
Proof using Hgeo.
  intros <-. unfold ra_pkt_idx, aud_slot, c_true. pose proof (geo_spp _ Hgeo). pose proof (u32_range (ts - first_pkt_rtp_ts s)) as Hr.
  rewrite (proj2 (Z.eqb_neq _ 0)) by lia. cbn [negb]. rewrite Z2Nat.id; [done|]. unfold is_u32 in Hr. apply Z.div_pos; lia.
Qed.

Lemma sim_bytes_in a s f b ptp sl ts pl :
  aud_sim a s -> au_open a = Some (f, b, ptp, sl) -> sl !! aud_slot cfg ts b = Some None ->
  arr_len pl = pkt_len cfg ->
  let s' := ra_frame_upd f (fun fr => fr <| rf_data ::= splice (Z.of_nat (aud_slot cfg ts b) * pkt_len cfg) pl |>) s in
  exists l', mt_bitmap_test_and_set (frame_bitmap s) (frame_bitmap_size cfg) (Z.of_nat (aud_slot cfg ts b)) = (false, Some l') /\
  forall s2, ra_core s2 = ra_core (s' <| frame_bitmap := Some l' |> <| frame_recv_size := frame_recv_size s + pkt_len cfg |>) ->
    aud_sim (a <| au_open := Some (f, b, ptp, <[aud_slot cfg ts b := Some pl]> sl) |>) s2.
Proof using Hgeo.
  intros Hs Ho Hi Hpl s'. pose proof (sim_slots _ _ Hs) as Hsl. unfold sim_open in Hsl. rewrite Ho in Hsl.
  destruct Hsl as (Hc & Hb & Hp & Hub & Hn & Hrecv & l & Hl & Hh).
  destruct (holds_fill cfg Hgeo _ _ _ _ _ Hh Hi Hpl) as (l' & Et & Hh'). exists l'. rewrite Hl. split; [done|].
  intros s2 Hcore. eapply sim_same_core; [exact Hcore|]. clear s2 Hcore.
  pose proof (sim_owned _ _ Hs) as Hown. assert (owned a = f :: au_held a) as How by (unfold owned; by rewrite Ho).
  assert (f < length (st30_frames s))%nat as Hf.
  { rewrite (sim_cnt _ _ Hs). destruct Hown as [Hlt _]. rewrite How in Hlt. by apply Forall_cons in Hlt as [? _]. }
  pose proof (frame_at_lookup s f Hf) as Hfl.
  assert (forall i fr, st30_frames s' !! i = Some fr -> exists fr0, st30_frames s !! i = Some fr0 /\
    rf_refcnt fr = rf_refcnt fr0 /\ arr_len (rf_data fr) = st30_frame_size cfg) as Hlook.
  { intros i fr. cbn. destruct (decide (i = f)) as [->|Hne].
    - rewrite list_lookup_alter_eq, Hfl. intros [= <-]. eexists. split; [done|]. split; [done|]. apply Hh'.
    - rewrite list_lookup_alter_ne by done. intros Hi'. exists fr. split; [done|]. split; [done|].
      pose proof (sim_data _ _ Hs) as HF. rewrite Forall_lookup in HF. by apply (HF i). }
  split; try apply Hs.
  - cbn. rewrite length_alter. apply Hs.
  - apply Forall_lookup. intros i fr Hlk. by destruct (Hlook i fr Hlk) as (? & _ & _ & ?).
  - intros i fr Hlk. destruct (Hlook i fr Hlk) as (fr0 & H0 & -> & _). rewrite (sim_ref _ _ Hs _ _ H0), How. done.
  - by rewrite How in Hown.
  - by eexists.
  - unfold sim_open. cbn. repeat (split; [done|]). split.
    + rewrite slots_count_insert, Hrecv by done. lia.
    + exists l'. split; [done|]. unfold ra_frame_at. cbn. rewrite list_lookup_alter_eq, Hfl. done.
Qed.

Lemma sim_fill a s p f b ptp sl :
  aud_sim a s -> au_open a = Some (f, b, ptp, sl) ->
  u32 (ap_tmstamp p - b) < rtp_ticks_per_frame cfg ->
  pkt_len cfg <= arr_len (ap_payload p) ->
  aud_sim (aud_fill cfg app (ap_tmstamp p) (take (Z.to_nat (pkt_len cfg)) (ap_payload p)) a)
    (ra_store cfg app p f (ra_pkt_idx cfg (ap_tmstamp p) s) s).
Proof using Hgeo.
  intros Hs Ho Hin Hlen. pose proof (sim_slots _ _ Hs) as Hsl. unfold sim_open in Hsl. rewrite Ho in Hsl.
  destruct Hsl as (Hc & Hb & Hp & Hub & Hn & Hrecv & l & Hl & Hh).
  rewrite (pkt_idx_slot _ _ _ Hb). unfold aud_fill, ra_store. rewrite Ho.
  set (i := aud_slot cfg (ap_tmstamp p) b). set (pl := take _ (ap_payload p)).
  pose proof (geo_total _ Hgeo) as Htot. pose proof (geo_pkt _ Hgeo) as Hpk.
  assert (Z.of_nat i < st30_total_pkts cfg) as Hi.
  { unfold i, aud_slot. pose proof (proj2 (aud_slot_lt cfg Hgeo (ap_tmstamp p) b) Hin). lia. }
  assert (arr_len pl = pkt_len cfg) as Hpl by (unfold pl, arr_len in *; rewrite length_take; lia).
  replace (i32 (Z.of_nat i)) with (Z.of_nat i) by mlia.
  destruct (lookup_lt_is_Some_2 sl i) as [o Hlk]; [rewrite (fh_len _ _ _ _ Hh); lia|]. rewrite Hlk.
  destruct o as [q|].
  { rewrite Hl. destruct (holds_repeat cfg Hgeo _ _ _ _ _ Hh Hlk) as (l' & -> & Hh').
    eapply sim_same_core; [apply core_count|]. destruct Hs. split; try done; [by eexists|].
    unfold sim_open in *. cbn. rewrite Ho. repeat (split; [done|]). by exists l'. }
  destruct (sim_bytes_in _ _ _ _ _ _ _ _ Hs Ho Hlk Hpl) as (l' & Et & Hsim). fold i in Et, Hsim. rewrite Et.
  set (a' := a <| au_open := Some (f, b, ptp, <[i := Some pl]> sl) |>) in *.
  pose proof (geo_size_max _ Hgeo) as Hmax. destruct (slots_count_full sl) as [Hcnt _]. pose proof (fh_len _ _ _ _ Hh) as Hll.
  assert (u64 (frame_recv_size s + pkt_len cfg) = frame_recv_size s + pkt_len cfg) as Hu.
  { apply u64_id. rewrite Hrecv. pose proof (geo_size _ Hgeo). unfold is_u64. nia. }
  set (s1 := ra_count RA_PKTS_RECEIVED 1 _).
  assert (aud_sim a' s1) as Hs1.
  { apply Hsim. unfold s1. rewrite core_count. unfold ra_core. cbn. by rewrite Hu. }
  assert (au_open a' = Some (f, b, ptp, <[i := Some pl]> sl)) as Ho' by done.
  destruct (sim_meta _ _ _ _ _ _ Hs1 Ho') as [_ Hcomp]. unfold ra_frame_meta in Hcomp. cbn [am_complete] in Hcomp.
  rewrite <- Hcomp. clearbody s1. destruct (frame_recv_size s1 <? st30_frame_size cfg); cbn [negb]; [done|].
  by eapply sim_close.
Qed.

Lemma aud_start_in ts ptp a f b ptp' sl :
  au_open a = None -> au_open (aud_start cfg ts ptp a) = Some (f, b, ptp', sl) ->
  u32 (ts - b) < rtp_ticks_per_frame cfg.
Proof using Hgeo.
  intros Ho. unfold aud_start. destruct (aud_free cfg a); [|by rewrite Ho]. cbn. intros [= _ <- _ _].
  rewrite (aud_base_offset cfg Hgeo). apply Z.mod_pos_bound. by apply ticks_pos.
Qed.

Lemma aud_close_open a : au_open (aud_close cfg app a) = None.
Proof.
  destruct (au_open a) as [[[[f b] ptp] sl]|] eqn:Ho; [by rewrite (aud_close_eq _ _ _ _ _ Ho)|].
  unfold aud_close. by rewrite Ho.
Qed.

Lemma aud_turn_in ts ptp a f b ptp' sl :
  au_open (aud_turn cfg app ts ptp a) = Some (f, b, ptp', sl) -> u32 (ts - b) < rtp_ticks_per_frame cfg.
Proof using Hgeo.
  unfold aud_turn. destruct (au_open a) as [[[[f0 b0] ptp0] sl0]|] eqn:Ho; cycle 1.
  { by apply aud_start_in. }
  destruct (Z.ltb_spec (u32 (ts - b0)) (rtp_ticks_per_frame cfg)).
  - rewrite Ho. by intros [= _ <- _ _].
  - apply aud_start_in, aud_close_open.
Qed.

(** The test of the code is the test of the timeline. *)
Lemma pkt_idx_in ts s b :
  first_pkt_rtp_ts s = b ->
  (ra_pkt_idx cfg ts s <? u32 (st30_total_pkts cfg)) = (u32 (ts - b) <? rtp_ticks_per_frame cfg).
Proof using Hgeo.
  intros Hb. pose proof (geo_total _ Hgeo). rewrite u32_id by (unfold is_u32; lia).
  rewrite (pkt_idx_slot _ _ _ Hb). apply eq_true_iff_eq. rewrite !Z.ltb_lt, <- (aud_slot_lt cfg Hgeo).
  unfold aud_slot. pose proof (u32_range (ts - b)) as Hr. unfold is_u32 in Hr. pose proof (geo_spp _ Hgeo).
  rewrite Z2Nat.id by (apply Z.div_pos; lia). done.
Qed.

Lemma sim_open_cases a s :
  aud_sim a s ->
  match st30_cur_frame s with
  | None => au_open a = None
  | Some f => exists b ptp sl, au_open a = Some (f, b, ptp, sl) /\ first_pkt_rtp_ts s = b
  end.
Proof.
  intros Hs. pose proof (sim_slots _ _ Hs) as Hsl. unfold sim_open in Hsl.
  destruct (au_open a) as [[[[f b] ptp] sl]|].
  - destruct Hsl as (-> & ? & _). by exists b, ptp, sl.
  - by rewrite Hsl.
Qed.

Lemma sim_turn a s p s_port :
  aud_sim a s ->
  aud_sim (aud_turn cfg app (ap_tmstamp p) (ap_ptp p) a) (ra_turn cfg app p s_port s).
Proof using Hgeo.
  intros Hs. unfold aud_turn, ra_turn. pose proof (sim_open_cases _ _ Hs) as Hc.
  destruct (st30_cur_frame s) as [f|] eqn:Ecur.
  - rewrite Ecur. destruct Hc as (b & ptp & sl & Ho & Hb). rewrite Ho, (pkt_idx_in _ _ _ Hb).
    case_if; [done|]. apply sim_start; [by eapply sim_close|apply aud_close_open].
  - rewrite Hc. pose proof (sim_start (ap_tmstamp p) (ap_ptp p) s_port a s Hs Hc) as Hs1.
    pose proof (sim_open_cases _ _ Hs1) as Hc1. destruct (st30_cur_frame (rx_audio_session_open_frame _ _ _ _ _)) as [f|]; [|done].
    destruct Hc1 as (b & ptp & sl & Ho1 & Hb1). rewrite (pkt_idx_in _ _ _ Hb1).
    by rewrite (proj2 (Z.ltb_lt _ _) (aud_start_in _ _ _ _ _ _ _ Hc Ho1)).
Qed.

Lemma sim_assemble a s p s_port :
  aud_sim a s -> pkt_len cfg <= arr_len (ap_payload p) ->
  aud_sim (aud_fill cfg app (ap_tmstamp p) (take (Z.to_nat (pkt_len cfg)) (ap_payload p))
             (aud_turn cfg app (ap_tmstamp p) (ap_ptp p) a))
    (snd (ra_assemble cfg app p s_port s)).
Proof using Hgeo.
  intros Hs Hlen. unfold ra_assemble. pose proof (sim_turn a s p s_port Hs) as Hs1.
  pose proof (sim_open_cases _ _ Hs1) as Hc. destruct (st30_cur_frame _) as [f|].
  - destruct Hc as (b & ptp & sl & Ho & _). cbn. eapply sim_fill; [done..| |done]. by eapply aud_turn_in.
  - cbn. unfold aud_fill. by rewrite Hc.
Qed.

(** What the network gives: a length of 16 bits that covers the payload. *)
Record ra_wire (p : ra_pkt) : Prop := {
  wire_len : 0 <= ap_data_len p < 65536;
  wire_payload : ap_data_len p <= SIZEOF_RFC3550_AUDIO_HDR + arr_len (ap_payload p);
}.

Lemma sim_admit a s p s_port :
  aud_sim a s -> ra_wire p ->
  let '(rc, s') := ra_admit cfg p s_port s in
  let '(ok, a') := aud_admit cfg p s_port a in
  aud_sim a' s' /\ ok = negb (rc <? 0) /\ (ok = true -> pkt_len cfg <= arr_len (ap_payload p)).
Proof using Hgeo.
  intros Hs [Hw1 Hw2]. unfold aud_admit, ra_admit, aud_wanted.
  destruct (ra_wrong_stream cfg p) as [k|]; cbn [negb].
  { split; [by apply (sim_same_core a s)|done]. }
  pose proof (geo_pkt _ Hgeo) as Hpk. unfold ST_PKT_MAX_ETHER_BYTES, SIZEOF_RFC3550_AUDIO_HDR in *.
  assert ((u32 (ap_data_len p - 54) =? pkt_len cfg) = (ap_data_len p =? 54 + pkt_len cfg)) as ->.
  { apply eq_true_iff_eq. rewrite !Z.eqb_eq. mlia. }
  destruct (Z.eqb_spec (ap_data_len p) (54 + pkt_len cfg)) as [Hlen|Hlen]; cbn [negb]; cycle 1.
  { split; [by apply (sim_same_core a s)|done]. }
  pose proof (sim_first p s_port a s Hs) as Hs1. pose proof (aud_first_range (ap_tmstamp p) a s Hs) as Hr.
  apply (sim_same_core _ _ (ra_port_seq p s_port (ra_first_packet p s_port s)) (core_port_seq _ _ _)) in Hs1.
  pose proof (sim_filter (ap_tmstamp p) s_port _ _ Hr Hs1) as Hf. cbv zeta in Hf.
  destruct (ra_redundant_filter _ _ _ _) as [drop s2]. destruct Hf as [-> Hs2].
  destruct (_ && _); [done|]. split; [|split; [done|lia]].
  by apply (sim_same_core _ s2); [apply core_session_seq|].
Qed.

Lemma sim_pkt a s p s_port :
  aud_sim a s -> ra_wire p ->
  aud_sim (aud_pkt cfg app p s_port a) (snd (rx_audio_session_handle_frame_pkt cfg app p s_port s)).
Proof using Hgeo.
  intros Hs Hw. unfold aud_pkt, rx_audio_session_handle_frame_pkt.
  pose proof (sim_admit a s p s_port Hs Hw) as H. destruct (ra_admit _ _ _ _) as [rc s1], (aud_admit _ _ _ _) as [ok a1].
  destruct H as (Hs1 & -> & Hlen). destruct (rc <? 0); cbn [negb]; [done|]. by apply sim_assemble, Hlen.
Qed.

Lemma sim_put a s f :
  aud_sim a s -> f ∈ au_held a ->
  aud_sim (aud_put f a) (snd (st30_rx_put_framebuff (Some f) s)).
Proof.
  intros Hs Hf. pose proof (sim_owned _ _ Hs) as [Hlt Hnd].
  assert (f ∈ owned a) as Hfo by (unfold owned; destruct (au_open a) as [[[[]]]|]; [by right|done]).
  rewrite Forall_forall in Hlt. pose proof (Hlt f Hfo) as Hfc.
  assert (owned (aud_put f a) = filter (fun g => g <> f) (owned a)) as How.
  { unfold owned in *. cbn. destruct (au_open a) as [[[[g]]]|]; [|done].
    rewrite filter_cons, decide_True; [done|]. intros ->. apply NoDup_cons in Hnd as [? _]. done. }
  unfold st30_rx_put_framebuff. rewrite bool_decide_eq_true_2 by (rewrite (sim_cnt _ _ Hs); done). cbn.
  split; try apply Hs; cbn.
  - rewrite length_alter. apply Hs.
  - apply (data_after f _ s (fun d => arr_len d = st30_frame_size cfg)); [done|apply Hs].
  - rewrite How. apply (refs_after _ f (-1)).
    + intros i fr Hi Hne. rewrite (sim_ref _ _ Hs i fr Hi). apply decide_ext. rewrite list_elem_of_filter. tauto.
    + intros fr Hi. rewrite (sim_ref _ _ Hs f fr Hi). rewrite decide_True, decide_False; [done| |done].
      rewrite list_elem_of_filter. tauto.
  - rewrite How. split; [|by apply NoDup_filter]. apply Forall_forall. intros i. rewrite list_elem_of_filter. intros [_ ?]. by apply Hlt.
  - pose proof (sim_slots _ _ Hs) as Hsl. unfold sim_open in *. cbn.
    destruct (au_open a) as [[[[g b] ptp] sl]|] eqn:Ho; [|done].
    destruct Hsl as (? & ? & ? & ? & ? & ? & l & ? & Hh). repeat (split; [done|]). exists l. split; [done|].
    unfold ra_frame_at in *. cbn. rewrite list_lookup_alter_ne; [done|]. intros ->.
    unfold owned in Hnd. rewrite Ho in Hnd. by apply NoDup_cons in Hnd as [? _].
Qed.

End Refinement.
