(* ===== verification/AudioDelivery.v ===== *)
(** Theorems on whole histories of an ST 2110-30 receive session ([RxAudio]): packets
    of both ports and the frames the application puts back, in any order. They
    follow from the timeline of [AudioTimeline]. *)
From S2P Require Import Prelude SeqNum Bitmap Fmt RxAudio AudioTimeline.

(** ** Histories *)

Inductive ra_op := RaPkt (p : ra_pkt) (s_port : Z) | RaPut (f : nat).

Section Histories.
Context (cfg : ra_config) (app : nat -> app_answer).

Definition ra_step (s : ra_session) (op : ra_op) : ra_session :=
  match op with
  | RaPkt p s_port => snd (rx_audio_session_handle_frame_pkt cfg app p s_port s)
  | RaPut f => snd (st30_rx_put_framebuff (Some f) s)
  end.
Definition ra_run (l : list ra_op) : ra_session := fold_left ra_step l (rx_audio_session_alloc_frames cfg).

Definition aud_step (a : aud) (op : ra_op) : aud :=
  match op with RaPkt p s_port => aud_pkt cfg app p s_port a | RaPut f => aud_put f a end.
Definition aud_run (l : list ra_op) : aud := fold_left aud_step l aud_init.

(** The application puts back only frames it holds. *)
Fixpoint ra_legal (l : list ra_op) (a : aud) : Prop :=
  match l with
  | [] => True
  | op :: l =>
      match op with RaPkt p _ => ra_wire p | RaPut f => f ∈ au_held a end /\ ra_legal l (aud_step a op)
  end.

Context (Hgeo : ra_geometry cfg).

Lemma run_sim l a s : aud_sim cfg a s -> ra_legal l a -> aud_sim cfg (fold_left aud_step l a) (fold_left ra_step l s).
Proof using Hgeo.
  revert a s. induction l as [|[p s_port|f] l IH]; intros a s Hs Hl; cbn in *; [done|..]; destruct Hl as [Hop Hl].
  - apply IH; [|done]. by apply sim_pkt.
  - apply IH; [|done]. by apply sim_put.
Qed.

Lemma history_sim l : 0 <= ra_frames_cnt cfg -> ra_legal l aud_init -> aud_sim cfg (aud_run l) (ra_run l).
Proof using Hgeo. intros Hc Hl. apply run_sim; [|done]. by apply sim_init. Qed.

(** ** Frames in other hands *)

Lemma frame_at_alter_ne i j g s : i <> j -> ra_frame_at (ra_frame_upd i g s) j = ra_frame_at s j.
Proof. intros H. unfold ra_frame_at, ra_frame_upd. cbn. by rewrite list_lookup_alter_ne. Qed.

Lemma frame_at_frames s s' j : st30_frames s' = st30_frames s -> ra_frame_at s' j = ra_frame_at s j.
Proof. unfold ra_frame_at. by intros ->. Qed.

Lemma notify_others f j s :
  f <> j -> ra_frame_at (rx_audio_session_frame_notify cfg app f s) j = ra_frame_at s j.
Proof.
  intros Hne. unfold rx_audio_session_frame_notify.
  set (s1 := if am_complete _ then s else _).
  assert (ra_frame_at s1 j = ra_frame_at s j) as <-.
  { unfold s1. case_if; [done|]. by rewrite frame_at_alter_ne. }
  clearbody s1.
  set (s2 := if am_complete _ then s1 <| stat_frames_received ::= _ |> else s1).
  assert (ra_frame_at s2 j = ra_frame_at s1 j) as E2 by (unfold s2; by case_if). clearbody s2.
  set (s3 := if negb _ then _ else _).
  transitivity (ra_frame_at s3 j); [done|]. unfold s3. case_if.
  { cbn. by rewrite frame_at_alter_ne. }
  rewrite <- E2. destruct (app _); [done| |].
  - unfold st30_rx_put_framebuff. case_if; [|done]. cbn [snd rx_audio_session_put_frame]. by rewrite frame_at_alter_ne.
  - cbn [snd rx_audio_session_put_frame]. by rewrite frame_at_alter_ne.
Qed.

Lemma store_others p f j idx s :
  f <> j -> ra_frame_at (ra_store cfg app p f idx s) j = ra_frame_at s j.
Proof.
  intros Hne. unfold ra_store. destruct (mt_bitmap_test_and_set _ _ _) as [seen bm]. case_if; [done|].
  set (s1 := ra_count RA_PKTS_RECEIVED 1 _).
  assert (ra_frame_at s1 j = ra_frame_at s j) as <-.
  { unfold s1. transitivity (ra_frame_at (ra_frame_upd f (fun fr => fr <| rf_data ::=
      splice (idx * pkt_len cfg) (take (Z.to_nat (pkt_len cfg)) (ap_payload p)) |>) s) j); [done|].
    by rewrite frame_at_alter_ne. }
  clearbody s1. case_if; [done|]. by apply notify_others.
Qed.

Lemma open_others a s s_port ts ptp j :
  aud_sim cfg a s -> au_open a = None -> j ∈ au_held a ->
  ra_frame_at (rx_audio_session_open_frame cfg s_port ts ptp s) j = ra_frame_at s j.
Proof.
  intros Hs Ho Hj. unfold rx_audio_session_open_frame.
  destruct (get_frame_free cfg a s Hs Ho) as [-> Hfree]. destruct (aud_free cfg a) as [f|]; [|done].
  destruct (Hfree f eq_refl) as [_ Hf].
  transitivity (ra_frame_at (ra_frame_upd f (fun fr => fr <| rf_refcnt ::= fun n => i32 (n + 1) |>) s) j); [done|].
  apply frame_at_alter_ne. by intros ->.
Qed.

Lemma open_not_held a s f b ptp sl : aud_sim cfg a s -> au_open a = Some (f, b, ptp, sl) -> f ∉ au_held a.
Proof.
  intros Hs Ho. pose proof (sim_owned _ _ _ Hs) as [_ Hnd]. unfold owned in Hnd. rewrite Ho in Hnd.
  by apply NoDup_cons in Hnd as [? _].
Qed.

Lemma close_held a j : j ∈ au_held a -> j ∈ au_held (aud_close cfg app a).
Proof.
  intros Hj. destruct (au_open a) as [[[[f b] ptp] sl]|] eqn:Ho.
  - rewrite (aud_close_eq _ _ _ _ _ _ _ Ho). cbn. case_if; [|done]. destruct (app _); [by right|done..].
  - unfold aud_close. by rewrite Ho.
Qed.

Lemma start_held ts ptp a : au_held (aud_start cfg ts ptp a) = au_held a.
Proof. unfold aud_start. by destruct (aud_free cfg a). Qed.

Lemma turn_others a s p s_port j :
  aud_sim cfg a s -> j ∈ au_held a ->
  ra_frame_at (ra_turn cfg app p s_port s) j = ra_frame_at s j /\
  j ∈ au_held (aud_turn cfg app (ap_tmstamp p) (ap_ptp p) a).
Proof using Hgeo.
  intros Hs Hj. unfold ra_turn, aud_turn. pose proof (sim_open_cases _ _ _ Hs) as Hc.
  destruct (st30_cur_frame s) as [f|] eqn:Ecur.
  - rewrite Ecur. destruct Hc as (b & ptp & sl & Ho & Hb). rewrite Ho, (pkt_idx_in _ Hgeo _ _ _ Hb).
    case_if; [done|]. pose proof (sim_close _ Hgeo app _ _ _ _ _ _ Hs Ho) as Hs'.
    split; [|by rewrite start_held; apply close_held].
    rewrite (open_others _ _ _ _ _ _ Hs' (aud_close_open _ _ _) (close_held _ _ Hj)). apply notify_others.
    intros ->. by apply (open_not_held _ _ _ _ _ _ Hs Ho).
  - rewrite Hc, start_held. split; [|done].
    pose proof (sim_start _ Hgeo (ap_tmstamp p) (ap_ptp p) s_port a s Hs Hc) as Hs1.
    pose proof (open_others _ _ s_port (ap_tmstamp p) (ap_ptp p) _ Hs Hc Hj) as Hopen.
    pose proof (sim_open_cases _ _ _ Hs1) as Hc1.
    destruct (st30_cur_frame (rx_audio_session_open_frame _ _ _ _ _)) as [f|]; [|done].
    destruct Hc1 as (b & ptp & sl & Ho1 & Hb1). rewrite (pkt_idx_in _ Hgeo _ _ _ Hb1).
    by rewrite (proj2 (Z.ltb_lt _ _) (aud_start_in _ Hgeo _ _ _ _ _ _ _ Hc Ho1)).
Qed.

Lemma admit_frames p s_port s : st30_frames (snd (ra_admit cfg p s_port s)) = st30_frames s.
Proof.
  unfold ra_admit. destruct (ra_wrong_stream cfg p); [done|]. case_if; [done|].
  assert (st30_frames (ra_port_seq p s_port (ra_first_packet p s_port s)) = st30_frames s) as <-.
  { transitivity (st30_frames (ra_first_packet p s_port s)).
    - pose proof (core_port_seq p s_port (ra_first_packet p s_port s)) as H. by injection H.
    - unfold ra_first_packet. repeat case_if; done. }
  set (s1 := ra_port_seq _ _ _). clearbody s1.
  unfold ra_redundant_filter. repeat case_if; cbn [snd]; try done;
    unfold ra_session_seq; repeat case_if; done.
Qed.

Lemma admit_held p s_port a : au_held (snd (aud_admit cfg p s_port a)) = au_held a.
Proof. unfold aud_admit, aud_first. repeat case_if; done. Qed.

Lemma handle_others a s p s_port j :
  aud_sim cfg a s -> ra_wire p -> j ∈ au_held a ->
  ra_frame_at (snd (rx_audio_session_handle_frame_pkt cfg app p s_port s)) j = ra_frame_at s j.
Proof using Hgeo.
  intros Hs Hw Hj. unfold rx_audio_session_handle_frame_pkt.
  pose proof (admit_frames p s_port s) as Hfr. pose proof (admit_held p s_port a) as Hheld.
  pose proof (sim_admit cfg Hgeo a s p s_port Hs Hw) as H.
  destruct (ra_admit _ _ _ _) as [rc s1], (aud_admit _ _ _ _) as [ok a1]. destruct H as (Hs1 & _). cbn [snd] in *.
  rewrite <- (frame_at_frames _ _ j Hfr). rewrite <- Hheld in Hj.
  destruct (rc <? 0); [done|]. unfold ra_assemble.
  destruct (turn_others _ _ p s_port _ Hs1 Hj) as [<- Hj2].
  pose proof (sim_turn cfg Hgeo app a1 s1 p s_port Hs1) as Hs2. pose proof (sim_open_cases _ _ _ Hs2) as Hc.
  destruct (st30_cur_frame _) as [f|]; [|done]. destruct Hc as (b & ptp & sl & Ho & _). cbn [snd].
  apply store_others. intros ->. by apply (open_not_held _ _ _ _ _ _ Hs2 Ho).
Qed.

End Histories.

(** ** Filling a frame *)

Section Filling.
Context (cfg : ra_config) (Hgeo : ra_geometry cfg).
(** The frame starts at [B] and its bytes are [data]. *)
Context (B : Z) (data : list Z) (Hdata : arr_len data = st30_frame_size cfg).
Abbreviation T := (rtp_ticks_per_frame cfg).
Abbreviation total := (Z.to_nat (st30_total_pkts cfg)).

(** The packet of slot [i], whatever its sequence number and receive time. *)
Record frame_pkt (p : ra_pkt) (i : nat) : Prop := {
  fp_idx : (i < total)%nat;
  fp_ts : ap_tmstamp p = u32 (B + Z.of_nat i * samples_per_pkt cfg);
  fp_wanted : aud_wanted cfg p = true;
  fp_payload : take (Z.to_nat (pkt_len cfg)) (ap_payload p) = chunk (pkt_len cfg) (Z.of_nat i) data;
}.

Definition slots_of (seen : list nat) : list (option (list Z)) :=
  (fun i => if decide (i ∈ seen) then Some (chunk (pkt_len cfg) (Z.of_nat i) data) else None) <$> seq 0 total.

Definition covered (seen : list nat) : Prop := forall i, (i < total)%nat -> i ∈ seen.

Lemma slots_of_lookup seen i :
  (i < total)%nat ->
  slots_of seen !! i = Some (if decide (i ∈ seen) then Some (chunk (pkt_len cfg) (Z.of_nat i) data) else None).
Proof. intros Hi. unfold slots_of. by rewrite list_lookup_fmap, lookup_seq_lt by done. Qed.

Lemma slots_of_length seen : length (slots_of seen) = total.
Proof. unfold slots_of. by rewrite length_fmap, length_seq. Qed.

Lemma slots_of_insert seen i :
  (i < total)%nat -> <[i := Some (chunk (pkt_len cfg) (Z.of_nat i) data)]> (slots_of seen) = slots_of (i :: seen).
Proof.
  intros Hi. apply list_eq. intros j. destruct (decide (j < total)%nat) as [Hj|Hj]; cycle 1.
  { rewrite !lookup_ge_None_2; [done|rewrite slots_of_length; lia|rewrite length_insert, slots_of_length; lia]. }
  rewrite (slots_of_lookup (i :: seen)) by done. destruct (decide (i = j)) as [->|Hne].
  - rewrite list_lookup_insert_eq by (by rewrite slots_of_length). by rewrite decide_True by left.
  - rewrite list_lookup_insert_ne, slots_of_lookup by done. f_equal.
    destruct (decide (j ∈ seen)) as [Hs|Hs]; [by rewrite decide_True by (by right)|].
    rewrite decide_False; [done|]. rewrite elem_of_cons. intros [->|?]; done.
Qed.

Lemma slots_of_full seen : forallb slot_full (slots_of seen) = true <-> covered seen.
Proof.
  rewrite forallb_forall. split.
  - intros H i Hi. specialize (H (if decide (i ∈ seen) then Some (chunk (pkt_len cfg) (Z.of_nat i) data) else None)).
    destruct (decide (i ∈ seen)) as [|Hn]; [done|].
    assert (slot_full None = true) as Hx; [|done]. apply H, list_elem_of_In, list_elem_of_lookup_2 with i.
    rewrite slots_of_lookup by done. by rewrite decide_False.
  - intros H o Ho. apply list_elem_of_In, list_elem_of_lookup in Ho as [i Hi].
    assert (i < total)%nat as Hlt by (rewrite <- (slots_of_length seen); by eapply lookup_lt_Some).
    rewrite slots_of_lookup, decide_True in Hi by (try apply H; done). by injection Hi as <-.
Qed.

(** What the application reads from a frame of which only [seen] arrived. *)
Lemma slots_of_bytes seen :
  arr_len (slots_bytes cfg (slots_of seen)) = st30_frame_size cfg /\
  forall i, (i < total)%nat -> chunk (pkt_len cfg) (Z.of_nat i) (slots_bytes cfg (slots_of seen)) =
    if decide (i ∈ seen) then chunk (pkt_len cfg) (Z.of_nat i) data else replicate (Z.to_nat (pkt_len cfg)) 0.
Proof using Hgeo Hdata.
  pose proof (geo_pkt _ Hgeo) as Hpk. pose proof (geo_total _ Hgeo) as Htot. pose proof (geo_size _ Hgeo) as Hsz.
  assert (Forall (fun x => arr_len x = pkt_len cfg) (default (replicate (Z.to_nat (pkt_len cfg)) 0) <$> slots_of seen)) as HF.
  { apply Forall_lookup. intros i x. rewrite list_lookup_fmap.
    destruct (slots_of seen !! i) as [o|] eqn:Eo; [|done]. intros [= <-].
    assert (i < total)%nat as Hi by (rewrite <- (slots_of_length seen); by eapply lookup_lt_Some).
    rewrite slots_of_lookup in Eo by done. injection Eo as <-. destruct (decide (i ∈ seen)); cbn.
    - apply chunk_length; [lia..|]. rewrite Hdata, Hsz. nia.
    - unfold arr_len. rewrite length_replicate. lia. }
  split.
  - unfold slots_bytes. rewrite (concat_length_eq _ _ HF), length_fmap, slots_of_length. lia.
  - intros i Hi. apply chunk_concat; [lia|done|]. rewrite list_lookup_fmap, slots_of_lookup by done. cbn.
    by destruct (decide (i ∈ seen)).
Qed.

Lemma slots_of_bytes_full seen : covered seen -> slots_bytes cfg (slots_of seen) = data.
Proof using Hgeo Hdata.
  intros Hc. symmetry. apply bytes_of_chunks; [done|apply slots_of_length|done|]. intros i o Hi.
  assert (i < total)%nat as Hlt by (rewrite <- (slots_of_length seen); by eapply lookup_lt_Some).
  rewrite slots_of_lookup, decide_True in Hi by (try apply Hc; done). by injection Hi as <-.
Qed.

(** The frame is open and has received exactly [seen]. *)
Definition filling (f : nat) (ptp : Z) (seen : list nat) (a : aud) : Prop :=
  au_open a = Some (f, B, ptp, slots_of seen) /\ au_next a = u32 (B - 1) /\ ~ covered seen.

(** Half the circle of time stamps is ahead, so a frame must be shorter. *)
Context (HT : T < 2147483648).

Lemma slot_time i : (i < total)%nat -> 0 <= Z.of_nat i * samples_per_pkt cfg < T.
Proof using Hgeo. clear HT. intros Hi. pose proof (geo_spp _ Hgeo). rewrite (geo_ticks _ Hgeo). nia. Qed.

Lemma slot_of_pkt p i : frame_pkt p i -> aud_slot cfg (ap_tmstamp p) B = i /\ u32 (ap_tmstamp p - B) < T.
Proof using Hgeo HT.
  intros [Hi Hts _ _]. pose proof (slot_time i Hi). unfold aud_slot. rewrite Hts.
  assert (u32 (u32 (B + Z.of_nat i * samples_per_pkt cfg) - B) = Z.of_nat i * samples_per_pkt cfg) as ->.
  { generalize dependent (Z.of_nat i * samples_per_pkt cfg). intros z Hz. mlia. }
  rewrite Z.div_mul by (pose proof (geo_spp _ Hgeo); lia). lia.
Qed.

(** A packet ahead of the floor is admitted and changes nothing else. *)
Lemma admit_ahead p s_port a :
  aud_wanted cfg p = true -> au_next a <> -1 -> mt_seq32_greater (ap_tmstamp p) (au_next a) = true ->
  exists errs, aud_admit cfg p s_port a = (true, a <| au_errs := errs |>).
Proof.
  intros Hw Hn Hg. unfold aud_admit, aud_first. rewrite Hw, (proj2 (Z.eqb_neq _ _) Hn). cbn [negb].
  rewrite Hg. cbn. by eexists.
Qed.

Context (app : nat -> app_answer).

(** The next packet of the frame: one slot more, or the frame is delivered. *)
Lemma fill_step f ptp seen p i errs a :
  filling f ptp seen a -> frame_pkt p i ->
  let a' := aud_fill cfg app (ap_tmstamp p) (take (Z.to_nat (pkt_len cfg)) (ap_payload p)) (a <| au_errs := errs |>) in
  (~ covered (i :: seen) -> filling f ptp (i :: seen) a' /\ au_log a' = au_log a) /\
  (covered (i :: seen) -> a' = aud_close cfg app (a <| au_errs := errs |> <| au_open := Some (f, B, ptp, slots_of (i :: seen)) |>)).
Proof using Hgeo HT.
  intros (Ho & Hn & Hnc) Hp a'. destruct (slot_of_pkt p i Hp) as [Hslot _]. pose proof (fp_idx _ _ Hp) as Hi.
  unfold a', aud_fill. cbn [au_open]. change (au_open (a <| au_errs := errs |>)) with (au_open a).
  rewrite Ho, Hslot, slots_of_lookup by done. destruct (decide (i ∈ seen)) as [Hin|Hin].
  - assert (slots_of (i :: seen) = slots_of seen) as Heq.
    { rewrite <- slots_of_insert by done. apply list_insert_id. rewrite slots_of_lookup by done. by rewrite decide_True. }
    split.
    + intros Hnc'. split; [|done]. split; [cbn; by rewrite Ho, Heq|]. by split.
    + intros Hc. exfalso. apply Hnc. intros j Hj. apply Hc in Hj. rewrite elem_of_cons in Hj.
      destruct Hj as [->|]; done.
  - rewrite (fp_payload _ _ Hp), slots_of_insert by done.
    destruct (forallb slot_full (slots_of (i :: seen))) eqn:Ef.
    + apply slots_of_full in Ef. split; [done|]. done.
    + assert (~ covered (i :: seen)) as Hnc' by (rewrite <- slots_of_full; congruence).
      split; [|done]. intros _. split; [|done]. by split.
Qed.

Lemma pkt_in_frame f ptp seen p s_port i a :
  filling f ptp seen a -> frame_pkt p i ->
  exists errs, aud_pkt cfg app p s_port a =
    aud_fill cfg app (ap_tmstamp p) (take (Z.to_nat (pkt_len cfg)) (ap_payload p)) (a <| au_errs := errs |>).
Proof using Hgeo HT.
  intros (Ho & Hn & _) Hp. destruct (slot_of_pkt p i Hp) as [_ Hin]. pose proof (slot_time i (fp_idx _ _ Hp)) as Htime.
  destruct (admit_ahead p s_port a (fp_wanted _ _ Hp)) as [errs He].
  - rewrite Hn. pose proof (u32_range (B - 1)) as Hr. unfold is_u32 in Hr. lia.
  - rewrite Hn, seq32_greater_spec, (fp_ts _ _ Hp). generalize dependent (Z.of_nat i * samples_per_pkt cfg). intros z Hz. mlia.
  - exists errs. unfold aud_pkt. rewrite He. unfold aud_turn. cbn [au_open].
    change (au_open (a <| au_errs := errs |>)) with (au_open a). rewrite Ho.
    by rewrite (proj2 (Z.ltb_lt _ _) Hin).
Qed.

Abbreviation pkts_ok := (Forall (fun '(p, _, i) => frame_pkt p i)).
Definition pkt_slots (l : list (ra_pkt * Z * nat)) : list nat := (fun '(_, _, i) => i) <$> l.
Definition feed (l : list (ra_pkt * Z * nat)) (a : aud) : aud :=
  fold_left (fun a '(p, s_port, _) => aud_pkt cfg app p s_port a) l a.

Lemma fill_run f ptp seen l a :
  filling f ptp seen a -> pkts_ok l -> ~ covered (reverse (pkt_slots l) ++ seen) ->
  filling f ptp (reverse (pkt_slots l) ++ seen) (feed l a) /\ au_log (feed l a) = au_log a.
Proof using Hgeo HT.
  revert seen a. induction l as [|[[p s_port] i] l IH]; intros seen a Hf Hl Hnc; [done|].
  apply Forall_cons in Hl as [Hp Hl]. cbn [pkt_slots fmap list_fmap] in *. cbn [feed fold_left].
  rewrite reverse_cons, <- app_assoc in Hnc |- *. cbn [Datatypes.app] in Hnc |- *.
  destruct (pkt_in_frame _ _ _ p s_port i a Hf Hp) as [errs Hpkt].
  destruct (fill_step _ _ _ p i errs a Hf Hp) as [Hstep _]. rewrite <- Hpkt in Hstep.
  destruct Hstep as [Hf' Hlog].
  { intros Hc. apply Hnc. intros j Hj. apply elem_of_app. right. by apply Hc. }
  destruct (IH (i :: seen) _ Hf' Hl Hnc) as [Hf'' Hlog']. split; [done|]. by rewrite <- Hlog.
Qed.

(** The first packet of the frame opens it. *)
Lemma open_on_grid p s_port i k f a :
  au_open a = None -> is_u32 (au_next a) -> aud_free cfg a = Some f ->
  0 <= k -> (k + 1) * T < 2147483648 -> B = u32 (au_next a + 1 + k * T) -> frame_pkt p i ->
  exists a0 errs, aud_pkt cfg app p s_port a =
    aud_fill cfg app (ap_tmstamp p) (take (Z.to_nat (pkt_len cfg)) (ap_payload p)) (a0 <| au_errs := errs |>) /\
    filling f (ap_ptp p) [] a0 /\ au_log a0 = au_log a.
Proof using Hgeo HT.
  intros Ho Hn Hfree Hk Hkt HB Hp. pose proof (slot_time i (fp_idx _ _ Hp)) as Htime. pose proof (ticks_pos cfg Hgeo) as HTp.
  set (z := Z.of_nat i * samples_per_pkt cfg) in *. assert (0 <= k * T) as Hkn by nia.
  assert (k * T + T < 2147483648) as Hlim by lia.
  destruct (admit_ahead p s_port a (fp_wanted _ _ Hp)) as [errs He].
  - unfold is_u32 in Hn. lia.
  - rewrite seq32_greater_spec, (fp_ts _ _ Hp), HB. fold z. generalize dependent (k * T). intros m. intros. mlia.
  - assert (aud_base cfg (au_next a) (ap_tmstamp p) = B) as Hbase.
    { unfold aud_base. rewrite (fp_ts _ _ Hp). fold z.
      assert (i32 (u32 (B + z) - u32 (au_next a + 1)) = k * T + z) as ->.
      { rewrite HB. generalize dependent (k * T). intros m. intros. mlia. }
      assert ((k * T + z) / T = k) as -> by (symmetry; apply (Z.div_unique _ _ _ z); lia).
      rewrite HB, (Z.mul_comm T k).
      generalize dependent (k * T). intros m. intros. mlia. }
    exists (aud_start cfg (ap_tmstamp p) (ap_ptp p) (a <| au_errs := errs |>)), errs.
    unfold aud_pkt. rewrite He. unfold aud_turn. change (au_open (a <| au_errs := errs |>)) with (au_open a). rewrite Ho.
    unfold aud_start. change (aud_free cfg (a <| au_errs := errs |>)) with (aud_free cfg a). rewrite Hfree.
    split; [done|]. split; [|done]. cbn. unfold filling. cbn. rewrite Hbase. split; [|split; [done|]].
    + do 2 f_equal. apply list_eq. intros j. destruct (decide (j < total)%nat).
      * rewrite slots_of_lookup by done. rewrite decide_False by (apply not_elem_of_nil). by apply lookup_replicate_2.
      * rewrite !lookup_ge_None_2; rewrite ?slots_of_length, ?length_replicate; lia || done.
    + intros Hc. pose proof (geo_total _ Hgeo). apply (not_elem_of_nil 0%nat), Hc. lia.
Qed.

(** The packets [l] of a frame that are not all of it, in any order. *)
Lemma frame_partial l k f a :
  au_open a = None -> is_u32 (au_next a) -> aud_free cfg a = Some f ->
  0 <= k -> (k + 1) * T < 2147483648 -> B = u32 (au_next a + 1 + k * T) ->
  pkts_ok l -> ~ covered (pkt_slots l) -> l <> [] ->
  exists ptp seen, filling f ptp seen (feed l a) /\ au_log (feed l a) = au_log a /\
    (forall i, i ∈ seen <-> i ∈ pkt_slots l) /\ Some ptp = (fun '(p, _, _) => ap_ptp p) <$> head l.
Proof using Hgeo HT.
  intros Ho Hn Hfree Hk Hkt HB Hl Hnc Hne. destruct l as [|[[p s_port] i] l]; [done|].
  apply Forall_cons in Hl as [Hp Hl].
  destruct (open_on_grid p s_port i k f a Ho Hn Hfree Hk Hkt HB Hp) as (a0 & errs & Hpkt & Hf0 & Hlog0).
  destruct (fill_step _ _ _ p i errs a0 Hf0 Hp) as [Hstep _]. rewrite <- Hpkt in Hstep.
  assert (forall j, j ∈ reverse (pkt_slots l) ++ [i] <-> j ∈ pkt_slots ((p, s_port, i) :: l)) as Heq.
  { intros j. cbn. rewrite elem_of_app, elem_of_reverse, list_elem_of_singleton, elem_of_cons. tauto. }
  destruct Hstep as [Hf1 Hlog1].
  { intros Hc. apply Hnc. intros j Hj. apply Heq, elem_of_app. right. by apply Hc. }
  destruct (fill_run _ _ _ l _ Hf1 Hl) as [Hf2 Hlog2].
  { intros Hc. apply Hnc. intros j Hj. apply Heq. by apply Hc. }
  exists (ap_ptp p), (reverse (pkt_slots l) ++ [i]). split; [done|]. split; [|done].
  etransitivity; [exact Hlog2|]. by rewrite Hlog1.
Qed.

(** The packet that completes the frame. *)
Lemma frame_complete l k f a p s_port i :
  au_open a = None -> is_u32 (au_next a) -> aud_free cfg a = Some f ->
  0 <= k -> (k + 1) * T < 2147483648 -> B = u32 (au_next a + 1 + k * T) ->
  pkts_ok (l ++ [(p, s_port, i)]) -> covered (pkt_slots (l ++ [(p, s_port, i)])) -> i ∉ pkt_slots l ->
  exists ptp, au_log (feed (l ++ [(p, s_port, i)]) a) =
    au_log a ++ [mk_ra_event f (mk_ra_meta B ptp (ra_fmt cfg) (ra_sampling cfg) (ra_channel cfg)
                   (st30_frame_size cfg) true) data] /\
    Some ptp = (fun '(p, _, _) => ap_ptp p) <$> head (l ++ [(p, s_port, i)]).
Proof using Hgeo HT Hdata.
  intros Ho Hn Hfree Hk Hkt HB Hl Hc Hnew. apply Forall_app in Hl as [Hl Hp]. apply Forall_cons in Hp as [Hp _].
  assert (exists ptp seen errs a0, filling f ptp seen a0 /\ au_log a0 = au_log a /\ (forall j, j ∈ seen <-> j ∈ pkt_slots l) /\
    Some ptp = (fun '(p, _, _) => ap_ptp p) <$> head (l ++ [(p, s_port, i)]) /\
    aud_pkt cfg app p s_port (feed l a) =
      aud_fill cfg app (ap_tmstamp p) (take (Z.to_nat (pkt_len cfg)) (ap_payload p)) (a0 <| au_errs := errs |>))
    as (ptp & seen & errs & a0 & Hf & Hlog & Hseen & Hptp & Hpkt).
  { destruct (decide (l = [])) as [->|Hne].
    - destruct (open_on_grid p s_port i k f a Ho Hn Hfree Hk Hkt HB Hp) as (a0 & errs & Hpkt & Hf0 & Hlog0).
      by exists (ap_ptp p), [], errs, a0.
    - destruct (frame_partial l k f a Ho Hn Hfree Hk Hkt HB Hl) as (ptp & seen & Hf & Hlog & Hseen & Hptp); [|done|].
      { intros Hcov. apply Hnew, Hcov, (fp_idx _ _ Hp). }
      destruct (pkt_in_frame _ _ _ p s_port i _ Hf Hp) as [errs Hpkt].
      exists ptp, seen, errs, (feed l a). repeat (split; [done|]). split; [|done]. rewrite Hptp. by destruct l. }
  assert (covered (i :: seen)) as Hcov.
  { intros j Hj. apply Hc in Hj. unfold pkt_slots in Hj. rewrite fmap_app, elem_of_app in Hj. cbn in Hj.
    rewrite list_elem_of_singleton in Hj. rewrite elem_of_cons, Hseen. tauto. }
  destruct (fill_step _ _ _ p i errs a0 Hf Hp) as [_ Hstep]. specialize (Hstep Hcov).
  exists ptp. split; [|done]. unfold feed in *. rewrite fold_left_app. cbn. rewrite Hpkt, Hstep.
  unfold aud_close. cbn. rewrite (proj2 (slots_of_full _) Hcov). cbn. rewrite Hlog. do 2 f_equal. unfold aud_event.
  f_equal; [|by apply slots_of_bytes_full].
  rewrite (proj2 (slots_of_full _) Hcov). f_equal.
  destruct (slots_count_full (slots_of (i :: seen))) as [_ Hcnt]. rewrite (proj1 Hcnt) by (by apply slots_of_full).
  rewrite slots_of_length, (geo_size _ Hgeo). pose proof (geo_total _ Hgeo). lia.
Qed.

End Filling.

(** ** Main theorems *)

Definition pkt_ops (l : list (ra_pkt * Z * nat)) : list ra_op := (fun '(p, s_port, _) => RaPkt p s_port) <$> l.

Lemma legal_app cfg app l1 l2 a :
  ra_legal cfg app (l1 ++ l2) a <-> ra_legal cfg app l1 a /\ ra_legal cfg app l2 (fold_left (aud_step cfg app) l1 a).
Proof. revert a. induction l1 as [|op l1 IH]; intros a; cbn; [tauto|]. rewrite IH. tauto. Qed.

Lemma legal_pkts cfg app l a : Forall (fun '(p, _, _) => ra_wire p) l -> ra_legal cfg app (pkt_ops l) a.
Proof.
  intros H. revert a. induction H as [|[[p s_port] i] l Hp _ IH]; intros a; [done|]. cbn. split; [done|]. apply IH.
Qed.

Lemma feed_run cfg app h l : aud_run cfg app (h ++ pkt_ops l) = feed cfg app l (aud_run cfg app h).
Proof.
  unfold aud_run, feed. rewrite fold_left_app. generalize (fold_left (aud_step cfg app) h aud_init).
  induction l as [|[[p s_port] i] l IH]; intros a; [done|]. apply IH.
Qed.

(** Between two frames, with a frame in the pool. *)
Record ra_ready (cfg : ra_config) (s : ra_session) (f : nat) : Prop := {
  ready_closed : st30_cur_frame s = None;
  ready_time : ra_tmstamp s <> -1;
  ready_pool : fst (rx_audio_session_get_frame s) = Some f;
}.

Lemma ready_aud cfg a s f :
  aud_sim cfg a s -> ra_ready cfg s f ->
  au_open a = None /\ is_u32 (au_next a) /\ aud_free cfg a = Some f /\ au_next a = ra_tmstamp s.
Proof.
  intros Hs [Hc Ht Hf]. pose proof (sim_open_cases _ _ _ Hs) as Ho. rewrite Hc in Ho.
  destruct (get_frame_free cfg a s Hs Ho) as [Hg _]. rewrite Hg in Hf. pose proof (sim_next _ _ _ Hs).
  split; [done|]. split; [|split; [|done]].
  - destruct (sim_range _ _ _ Hs); [congruence|done].
  - by destruct (aud_free cfg a).
Qed.

Lemma attached_sim ops cfg app h :
  ra_ops_sane ops -> rx_audio_session_attach ops = inr cfg -> ra_legal cfg app h aud_init ->
  ra_geometry cfg /\ aud_sim cfg (aud_run cfg app h) (ra_run cfg app h).
Proof.
  intros Hsane Hatt Hl. pose proof (attach_audio_geometry _ _ Hsane Hatt) as Hgeo. split; [done|].
  apply history_sim; [done| |done]. rewrite (attach_audio_frames _ _ Hatt). pose proof (sane_cnt _ Hsane). lia.
Qed.

(** The log only grows. *)
Lemma fill_log cfg app ts pl a : exists rest, au_log (aud_fill cfg app ts pl a) = au_log a ++ rest.
Proof.
  unfold aud_fill. destruct (au_open a) as [[[[f b] ptp] sl]|]; [|exists []; by rewrite app_nil_r].
  destruct (sl !! _) as [[|]|]; try (exists []; by rewrite app_nil_r). case_if; [|exists []; by rewrite app_nil_r].
  unfold aud_close. cbn. case_if; cbn; [by eexists|exists []; by rewrite app_nil_r].
Qed.

Lemma start_log cfg ts ptp a : au_log (aud_start cfg ts ptp a) = au_log a.
Proof. unfold aud_start. by destruct (aud_free cfg a). Qed.

(** A packet from beyond the open frame closes it. *)
Lemma closed_by_later cfg app B data f ptp seen q q_port a :
  ra_geometry cfg -> filling cfg B data f ptp seen a -> aud_wanted cfg q = true ->
  rtp_ticks_per_frame cfg <= u32 (ap_tmstamp q - B) < 2147483647 ->
  exists rest, au_log (aud_pkt cfg app q q_port a) =
    au_log a ++ (if ra_receive_incomplete cfg then [aud_event cfg f B ptp (slots_of cfg data seen)] else []) ++ rest.
Proof.
  intros Hgeo (Ho & Hn & Hnc) Hw Ht. pose proof (u32_range (B - 1)) as Hr. unfold is_u32 in Hr.
  destruct (admit_ahead cfg q q_port a Hw) as [errs He]; [lia| |].
  { rewrite Hn, seq32_greater_spec. mlia. }
  unfold aud_pkt. rewrite He. unfold aud_turn. change (au_open (a <| au_errs := errs |>)) with (au_open a). rewrite Ho.
  rewrite (proj2 (Z.ltb_ge _ _)) by lia.
  destruct (fill_log cfg app (ap_tmstamp q) (take (Z.to_nat (pkt_len cfg)) (ap_payload q))
    (aud_start cfg (ap_tmstamp q) (ap_ptp q) (aud_close cfg app (a <| au_errs := errs |>)))) as [rest ->].
  exists rest. rewrite start_log, app_assoc. apply (f_equal (fun x => x ++ rest)).
  rewrite (aud_close_eq cfg app _ f B ptp (slots_of cfg data seen)) by done. cbn. destruct (forallb slot_full (slots_of cfg data seen)) eqn:Ef; [by apply slots_of_full in Ef|]. cbn.
  by destruct (ra_receive_incomplete cfg); rewrite ?app_nil_r.
Qed.

(** A packet of a burst goes to the timeline, unless the simulated loss takes it. *)
Lemma one_sim cfg app room simulate s_port pd a s :
  ra_geometry cfg -> aud_sim cfg a s -> ra_wire (fst pd) ->
  exists kept, (kept = [fst pd] \/ simulate = true /\ kept = [])
    /\ aud_sim cfg (fold_left (fun a p => aud_pkt cfg app p s_port a) kept a)
         (ra_handle_one cfg app room true simulate s_port s pd).
Proof.
  intros Hgeo Hs Hp. destruct pd as [p [draw burst]]. cbn in Hp.
  assert (forall s', ra_core s' = ra_core s -> aud_sim cfg (aud_pkt cfg app p s_port a)
    (ra_handle_one cfg app room true false s_port s' (p, (draw, burst)))) as Hkeep.
  { intros s' Hcore. apply (sim_same_core cfg a) in Hcore; [|done].
    assert (Hq := sim_pkt cfg Hgeo app a s' p s_port Hcore Hp). cbn.
    destruct (rx_audio_session_handle_frame_pkt cfg app p s_port s') as [rc s2].
    case_match; [|done]. apply (sim_same_core cfg _ s2); [apply core_count|done]. }
  destruct simulate; [|exists [p]; split; [by left|by apply Hkeep]].
  unfold ra_handle_one, ra_simulate_pkt_loss.
  destruct (burst_loss_cnt s =? 0); [destruct draw|]; [|exists [p]; split; [by left|by apply Hkeep]|].
  all: exists []; split; [by right|]; by apply (sim_same_core cfg a s).
Qed.

(** A burst of a port is its packets in order, less those the simulated loss takes. *)
Lemma burst_sim cfg app room simulate s_port mbuf a s :
  ra_geometry cfg -> aud_sim cfg a s -> Forall (fun pd => ra_wire (fst pd)) mbuf ->
  exists kept, kept `sublist_of` mbuf.*1 /\ (simulate = false -> kept = mbuf.*1)
    /\ aud_sim cfg (fold_left (fun a p => aud_pkt cfg app p s_port a) kept a)
         (snd (rx_audio_session_handle_mbuf cfg app room true true simulate s_port mbuf s)).
Proof.
  intros Hgeo. unfold rx_audio_session_handle_mbuf. cbn [negb snd].
  revert a s. induction mbuf as [|pd mbuf IH]; intros a s Hs Hw; [by exists []|].
  apply Forall_cons in Hw as [Hp Hw].
  destruct (one_sim cfg app room simulate s_port pd a s Hgeo Hs Hp) as (k1 & Hk1 & Hs1).
  destruct (IH _ _ Hs1 Hw) as (kept & H1 & H2 & H3). cbn [fold_left fmap list_fmap].
  exists (k1 ++ kept). rewrite fold_left_app. split_and!; [| |exact H3].
  - destruct Hk1 as [-> |[_ ->]]; by constructor.
  - intros E. rewrite (H2 E). by destruct Hk1 as [-> |[? _]]; [|congruence].
Qed.

(** C5: For every history of packets from the wire and frames put back, the session delivers
    exactly the frames of the timeline: the same frames, time stamps, sizes, status and bytes,
    where the bytes of a packet that never came are zero; and the reference count of a frame is
    1 when the receiver or the application has it, else 0. *)
Theorem ra_refines_timeline ops cfg app h :
  ra_ops_sane ops -> rx_audio_session_attach ops = inr cfg ->
  ra_legal cfg app h aud_init ->
  let a := aud_run cfg app h in
  let s := ra_run cfg app h in
  ra_notified s = au_log a /\
  forall f, (f < Z.to_nat (ra_frames_cnt cfg))%nat ->
    rf_refcnt (ra_frame_at s f) = if decide (f ∈ owned a) then 1 else 0.
Proof.
  intros Hsane Hatt Hl a s. destruct (attached_sim _ _ _ _ Hsane Hatt Hl) as [Hgeo Hs].
  split; [apply Hs|]. intros f Hf. apply (sim_ref _ _ _ Hs). apply frame_at_lookup.
  unfold s. by rewrite (sim_cnt _ _ _ Hs).
Qed.

(** C15: No packet from the wire makes the receiver write outside the open frame: in every
    state a session can reach, a packet that gets into a frame has an index inside the bitmap
    and its copy lies inside the buffer, and the packet is as long as the copy. *)
Theorem ra_copies_in_bounds ops cfg app h p s_port rc s1 f :
  ra_ops_sane ops -> rx_audio_session_attach ops = inr cfg -> ra_legal cfg app h aud_init -> ra_wire p ->
  ra_admit cfg p s_port (ra_run cfg app h) = (rc, s1) -> 0 <= rc ->
  let s2 := ra_turn cfg app p s_port s1 in
  let idx := ra_pkt_idx cfg (ap_tmstamp p) s2 in
  st30_cur_frame s2 = Some f ->
  (f < length (st30_frames s2))%nat /\ 0 <= idx < 8 * frame_bitmap_size cfg /\
  (idx + 1) * pkt_len cfg <= arr_len (rf_data (ra_frame_at s2 f)) /\ pkt_len cfg <= arr_len (ap_payload p).
Proof.
  intros Hsane Hatt Hl Hw Had Hrc s2 idx Hcur. destruct (attached_sim _ _ _ _ Hsane Hatt Hl) as [Hgeo Hs].
  pose proof (sim_admit cfg Hgeo _ _ p s_port Hs Hw) as H. rewrite Had in H.
  destruct (aud_admit _ _ _ _) as [ok a1]. destruct H as (Hs1 & -> & Hlen).
  pose proof (sim_turn cfg Hgeo app a1 s1 p s_port Hs1) as Hs2. fold s2 in Hs2.
  pose proof (sim_open_cases _ _ _ Hs2) as Hc. rewrite Hcur in Hc. destruct Hc as (b & ptp & sl & Ho & Hb).
  pose proof (sim_slots _ _ _ Hs2) as Hsl. unfold sim_open in Hsl. rewrite Ho in Hsl.
  destruct Hsl as (_ & _ & _ & _ & _ & _ & l & _ & Hh).
  assert (aud_slot cfg (ap_tmstamp p) b < Z.to_nat (st30_total_pkts cfg))%nat as Hi.
  { unfold aud_slot. pose proof (proj2 (aud_slot_lt cfg Hgeo (ap_tmstamp p) b) (aud_turn_in _ Hgeo _ _ _ _ _ _ _ _ Ho)).
    pose proof (geo_total _ Hgeo). lia. }
  destruct (lookup_lt_is_Some_2 sl (aud_slot cfg (ap_tmstamp p) b)) as [o Hlk]; [by rewrite (fh_len _ _ _ _ Hh)|].
  destruct (slot_in_frame cfg Hgeo _ _ _ _ _ Hh Hlk) as (Hin1 & Hin2 & _).
  unfold idx. rewrite (pkt_idx_slot cfg Hgeo _ _ _ Hb), (fh_data _ _ _ _ Hh).
  split; [|split; [done|split; [done|apply Hlen; lia]]].
  rewrite (sim_cnt _ _ _ Hs2). pose proof (sim_owned _ _ _ Hs2) as [Hlt _]. unfold owned in Hlt. rewrite Ho in Hlt.
  by apply Forall_cons in Hlt as [? _].
Qed.

(** C20: While the application has a frame, no packet changes its bytes or its reference count. *)
Theorem ra_held_frames_untouched ops cfg app h p s_port f :
  ra_ops_sane ops -> rx_audio_session_attach ops = inr cfg -> ra_legal cfg app h aud_init -> ra_wire p ->
  f ∈ au_held (aud_run cfg app h) ->
  ra_frame_at (ra_run cfg app (h ++ [RaPkt p s_port])) f = ra_frame_at (ra_run cfg app h) f.
Proof.
  intros Hsane Hatt Hl Hw Hf. destruct (attached_sim _ _ _ _ Hsane Hatt Hl) as [Hgeo Hs].
  unfold ra_run. rewrite fold_left_app. by apply (handle_others cfg app Hgeo _ _ _ _ _ Hs).
Qed.

(** The packets of a frame reach a session that is ready for it. *)
Lemma frame_delivered cfg app h f B k data l p s_port i :
  ra_geometry cfg -> 0 <= ra_frames_cnt cfg -> ra_legal cfg app h aud_init ->
  let s := ra_run cfg app h in
  let pkts := l ++ [(p, s_port, i)] in
  ra_ready cfg s f -> 0 <= k -> (k + 1) * rtp_ticks_per_frame cfg < 2147483648 ->
  B = u32 (ra_tmstamp s + 1 + k * rtp_ticks_per_frame cfg) ->
  arr_len data = st30_frame_size cfg ->
  Forall (fun '(p, _, i) => ra_wire p /\ frame_pkt cfg B data p i) pkts ->
  covered cfg (pkt_slots pkts) -> i ∉ pkt_slots l ->
  exists ptp, ra_notified (ra_run cfg app (h ++ pkt_ops pkts)) =
    ra_notified s ++ [mk_ra_event f (mk_ra_meta B ptp (ra_fmt cfg) (ra_sampling cfg) (ra_channel cfg)
                        (st30_frame_size cfg) true) data].
Proof.
  intros Hgeo Hcnt Hl s pkts Hready Hk Hkt HB Hdata Hp Hcov Hnew.
  pose proof (history_sim cfg app Hgeo h Hcnt Hl) as Hs.
  destruct (ready_aud _ _ _ _ Hs Hready) as (Ho & Hn & Hfree & Hts).
  unfold s in HB |- *. rewrite <- Hts in HB.
  assert (Forall (fun '(p, _, i) => frame_pkt cfg B data p i) pkts) as Hp1
    by (eapply Forall_impl; [exact Hp|]; by intros [[]] [_ ?]).
  assert (Forall (fun '(p, _, i) => ra_wire p) pkts) as Hp2 by (eapply Forall_impl; [exact Hp|]; by intros [[]] [? _]).
  assert (rtp_ticks_per_frame cfg < 2147483648) as HT by (pose proof (ticks_pos cfg Hgeo); nia).
  destruct (frame_complete cfg Hgeo B data Hdata HT app l k f _ p s_port i Ho Hn Hfree Hk Hkt HB Hp1 Hcov Hnew)
    as (ptp & Hlog & _). exists ptp.
  assert (ra_legal cfg app (h ++ pkt_ops pkts) aud_init) as Hl2 by (apply legal_app; split; [done|by apply legal_pkts]).
  pose proof (history_sim cfg app Hgeo _ Hcnt Hl2) as Hs2.
  rewrite (sim_log _ _ _ Hs2), (sim_log _ _ _ Hs), feed_run. done.
Qed.

(** C8: Between two frames, with a frame free, the packets of a frame on the grid, in any order,
    repeated and over both ports, give the application that frame exactly once, COMPLETE, with
    its time stamp and the bytes that were sent; the frame may be a number of frames ahead. *)
Theorem ra_frame_reassembled ops cfg app h f B k data l p s_port i :
  ra_ops_sane ops -> rx_audio_session_attach ops = inr cfg -> ra_legal cfg app h aud_init ->
  let s := ra_run cfg app h in
  let pkts := l ++ [(p, s_port, i)] in
  ra_ready cfg s f -> 0 <= k -> (k + 1) * rtp_ticks_per_frame cfg < 2147483648 ->
  B = u32 (ra_tmstamp s + 1 + k * rtp_ticks_per_frame cfg) ->
  arr_len data = st30_frame_size cfg ->
  Forall (fun '(p, _, i) => ra_wire p /\ frame_pkt cfg B data p i) pkts ->
  covered cfg (pkt_slots pkts) -> i ∉ pkt_slots l ->
  exists ptp, ra_notified (ra_run cfg app (h ++ pkt_ops pkts)) =
    ra_notified s ++ [mk_ra_event f (mk_ra_meta B ptp (ra_fmt cfg) (ra_sampling cfg) (ra_channel cfg)
                        (st30_frame_size cfg) true) data].
Proof.
  intros Hsane Hatt Hl. destruct (attached_sim _ _ _ _ Hsane Hatt Hl) as [Hgeo _]. apply frame_delivered; try done.
  rewrite (attach_audio_frames _ _ Hatt). pose proof (sane_cnt _ Hsane). lia.
Qed.

(** When the application asked for incomplete frames, a frame of which some packets never
    came is delivered, once a packet from beyond it arrives, as CORRUPTED, with the bytes of
    the packets that came and silence in place of the others. *)
Lemma ra_missing_is_silence ops cfg app h f B k data l q q_port :
  ra_ops_sane ops -> rx_audio_session_attach ops = inr cfg -> ra_legal cfg app h aud_init ->
  let s := ra_run cfg app h in
  ra_receive_incomplete cfg = true ->
  ra_ready cfg s f -> 0 <= k -> (k + 1) * rtp_ticks_per_frame cfg < 2147483648 ->
  B = u32 (ra_tmstamp s + 1 + k * rtp_ticks_per_frame cfg) ->
  arr_len data = st30_frame_size cfg ->
  Forall (fun '(p, _, i) => ra_wire p /\ frame_pkt cfg B data p i) l ->
  ~ covered cfg (pkt_slots l) -> l <> [] ->
  ra_wire q -> aud_wanted cfg q = true ->
  rtp_ticks_per_frame cfg <= u32 (ap_tmstamp q - B) < 2147483647 ->
  exists e rest, ra_notified (ra_run cfg app (h ++ pkt_ops l ++ [RaPkt q q_port])) = ra_notified s ++ e :: rest /\
    ev_frame e = f /\ am_timestamp (ev_meta e) = B /\ am_complete (ev_meta e) = false /\
    arr_len (ev_data e) = st30_frame_size cfg /\
    forall i, (i < Z.to_nat (st30_total_pkts cfg))%nat -> chunk (pkt_len cfg) (Z.of_nat i) (ev_data e) =
      if decide (i ∈ pkt_slots l) then chunk (pkt_len cfg) (Z.of_nat i) data
      else replicate (Z.to_nat (pkt_len cfg)) 0.
Proof.
  intros Hsane Hatt Hl s Hinc Hready Hk Hkt HB Hdata Hp Hcov Hne Hwq Hq Hqt.
  destruct (attached_sim _ _ _ _ Hsane Hatt Hl) as [Hgeo Hs].
  destruct (ready_aud _ _ _ _ Hs Hready) as (Ho & Hn & Hfree & Hts).
  unfold s in HB |- *. rewrite <- Hts in HB.
  assert (Forall (fun '(p, _, i) => frame_pkt cfg B data p i) l) as Hp1
    by (eapply Forall_impl; [exact Hp|]; by intros [[]] [_ ?]).
  assert (Forall (fun '(p, _, i) => ra_wire p) l) as Hp2 by (eapply Forall_impl; [exact Hp|]; by intros [[]] [? _]).
  assert (rtp_ticks_per_frame cfg < 2147483648) as HT by (pose proof (ticks_pos cfg Hgeo); nia).
  destruct (frame_partial cfg Hgeo B data HT app l k f _ Ho Hn Hfree Hk Hkt HB Hp1 Hcov Hne)
    as (ptp & seen & Hf & Hlog & Hseen & _).
  destruct (closed_by_later cfg app _ _ _ _ _ q q_port _ Hgeo Hf Hq Hqt) as [rest Hr]. rewrite Hinc in Hr.
  rewrite app_assoc.
  assert (ra_legal cfg app ((h ++ pkt_ops l) ++ [RaPkt q q_port]) aud_init) as Hl2.
  { apply legal_app. split; [apply legal_app; split; [done|by apply legal_pkts]|]. by split. }
  destruct (attached_sim _ _ _ _ Hsane Hatt Hl2) as [_ Hs2].
  eexists _, rest. split.
  { rewrite (sim_log _ _ _ Hs2), (sim_log _ _ _ Hs), <- Hlog. unfold aud_run. rewrite fold_left_app.
    fold (aud_run cfg app (h ++ pkt_ops l)). rewrite feed_run. exact Hr. }
  destruct Hf as (_ & _ & Hnc). destruct (slots_of_bytes cfg Hgeo data Hdata seen) as [Hlen Hch].
  split; [done|]. split; [done|]. split; [|split; [done|]].
  - cbn. destruct (forallb _ _) eqn:Ef; [|done]. by apply slots_of_full in Ef.
  - intros i Hi. cbn. rewrite (Hch i Hi). destruct (decide (i ∈ seen)) as [Hin|Hin].
    + by rewrite decide_True by (by apply Hseen).
    + by rewrite decide_False by (by rewrite <- Hseen).
Qed.

(** ** Examples: frames of two packets of four samples *)

Definition ex_audio_ops : st30_rx_ops :=
  mk_st30_rx_ops 2 111 0 true ST30_FMT_PCM8 ST31_PTIME_80US ST30_SAMPLING_48K 1 3 8.
Definition ex_audio_cfg : ra_config :=
  mk_ra_config 2 111 0 true ST30_FMT_PCM8 ST30_SAMPLING_48K 1 3 4 2 8 8 4 1.
Definition ex_audio_pkt (seq ts : Z) (payload : list Z) : ra_pkt := mk_ra_pkt seq ts 111 7 58 58 payload seq.
(** The first frame has been delivered and is kept. *)
Definition ex_audio_history : list ra_op :=
  [RaPkt (ex_audio_pkt 0 100 [1; 2; 3; 4]) 0; RaPkt (ex_audio_pkt 1 104 [5; 6; 7; 8]) 0].
Definition ex_keeps (n : nat) : app_answer := AppKeeps.
(** The second packet of the next frame, twice, then its first. *)
Definition ex_audio_l : list (ra_pkt * Z * nat) :=
  [(ex_audio_pkt 3 112 [13; 14; 15; 16], 1, 1%nat); (ex_audio_pkt 3 112 [13; 14; 15; 16], 0, 1%nat)].
Definition ex_audio_data : list Z := [9; 10; 11; 12; 13; 14; 15; 16].

Lemma ex_audio_attached : ra_ops_sane ex_audio_ops /\ rx_audio_session_attach ex_audio_ops = inr ex_audio_cfg.
Proof. split; [by repeat split|reflexivity]. Qed.

Lemma ex_audio_legal : ra_legal ex_audio_cfg ex_keeps ex_audio_history aud_init.
Proof. by repeat split. Qed.

Lemma ex_audio_ready : ra_ready ex_audio_cfg (ra_run ex_audio_cfg ex_keeps ex_audio_history) 1.
Proof. by split; vm_compute. Qed.

Lemma ex_audio_l_ok :
  Forall (fun '(p, _, i) => ra_wire p /\ frame_pkt ex_audio_cfg 108 ex_audio_data p i) ex_audio_l.
Proof. repeat constructor; vm_compute; (lia || congruence). Qed.

Lemma ra_refines_timeline_witness :
  ra_notified (ra_run ex_audio_cfg ex_keeps ex_audio_history) =
    au_log (aud_run ex_audio_cfg ex_keeps ex_audio_history).
Proof.
  destruct ex_audio_attached as [H1 H2].
  exact (proj1 (ra_refines_timeline ex_audio_ops ex_audio_cfg ex_keeps ex_audio_history H1 H2 ex_audio_legal)).
Defined.

Definition ex_audio_next : ra_pkt := ex_audio_pkt 2 108 [9; 10; 11; 12].
Lemma ra_copies_in_bounds_witness :
  let s1 := snd (ra_admit ex_audio_cfg ex_audio_next 0 (ra_run ex_audio_cfg ex_keeps ex_audio_history)) in
  let s2 := ra_turn ex_audio_cfg ex_keeps ex_audio_next 0 s1 in
  (ra_pkt_idx ex_audio_cfg 108 s2 + 1) * 4 <= arr_len (rf_data (ra_frame_at s2 1)).
Proof.
  destruct ex_audio_attached as [H1 H2]. cbv zeta.
  eapply (ra_copies_in_bounds ex_audio_ops ex_audio_cfg ex_keeps ex_audio_history
    ex_audio_next 0 _ _ 1 H1 H2 ex_audio_legal); [by split; vm_compute|apply surjective_pairing|by vm_compute..].
Defined.

Lemma ra_held_frames_untouched_witness :
  ra_frame_at (ra_run ex_audio_cfg ex_keeps (ex_audio_history ++ [RaPkt (ex_audio_pkt 2 108 [9; 10; 11; 12]) 0])) 0 =
  ra_frame_at (ra_run ex_audio_cfg ex_keeps ex_audio_history) 0.
Proof.
  destruct ex_audio_attached as [H1 H2].
  apply (ra_held_frames_untouched ex_audio_ops ex_audio_cfg ex_keeps ex_audio_history _ _ _ H1 H2 ex_audio_legal).
  - by split; vm_compute.
  - vm_compute. left.
Defined.

Lemma ra_frame_reassembled_witness :
  exists ptp, ra_notified (ra_run ex_audio_cfg ex_keeps
      (ex_audio_history ++ pkt_ops (ex_audio_l ++ [(ex_audio_pkt 2 108 [9; 10; 11; 12], 0, 0%nat)]))) =
    ra_notified (ra_run ex_audio_cfg ex_keeps ex_audio_history) ++
      [mk_ra_event 1 (mk_ra_meta 108 ptp ST30_FMT_PCM8 ST30_SAMPLING_48K 1 8 true) ex_audio_data].
Proof.
  destruct ex_audio_attached as [H1 H2].
  apply (ra_frame_reassembled ex_audio_ops ex_audio_cfg ex_keeps ex_audio_history 1 108 0 ex_audio_data
           ex_audio_l _ _ _ H1 H2 ex_audio_legal ex_audio_ready); try (vm_compute; congruence).
  - repeat constructor; vm_compute; (lia || congruence).
  - intros i Hi. destruct i as [|[|i]]; [by right; right; left|by left|vm_compute in Hi; lia].
  - apply (bool_decide_unpack _). by vm_compute.
Defined.

Lemma ra_missing_is_silence_witness :
  exists e rest, ra_notified (ra_run ex_audio_cfg ex_keeps
      (ex_audio_history ++ pkt_ops ex_audio_l ++ [RaPkt (ex_audio_pkt 4 116 [17; 18; 19; 20]) 0])) =
    ra_notified (ra_run ex_audio_cfg ex_keeps ex_audio_history) ++ e :: rest /\
    am_complete (ev_meta e) = false /\ chunk 4 0 (ev_data e) = [0; 0; 0; 0].
Proof.
  destruct ex_audio_attached as [H1 H2].
  assert (~ covered ex_audio_cfg (pkt_slots ex_audio_l)) as Hnc.
  { intros H. specialize (H 0%nat ltac:(vm_compute; lia)). revert H. apply (bool_decide_unpack _). by vm_compute. }
  destruct (ra_missing_is_silence ex_audio_ops ex_audio_cfg ex_keeps ex_audio_history 1 108 0 ex_audio_data
           ex_audio_l (ex_audio_pkt 4 116 [17; 18; 19; 20]) 0 H1 H2 ex_audio_legal eq_refl ex_audio_ready
           ltac:(lia) ltac:(by vm_compute) ltac:(by vm_compute) eq_refl ex_audio_l_ok Hnc ltac:(done)
           ltac:(by split; vm_compute) eq_refl ltac:(by vm_compute))
    as (e & rest & Hn & _ & _ & Hc & _ & Hch).
  exists e, rest. split; [exact Hn|]. split; [exact Hc|]. exact (Hch 0%nat ltac:(vm_compute; lia)).
Defined.

(** [st30_rx_put_framebuff] reports an error also when it has put the frame back. *)
Lemma put_framebuff_never_succeeds framebuff s : fst (st30_rx_put_framebuff framebuff s) = - EIO.
Proof. unfold st30_rx_put_framebuff. destruct framebuff; [|done]. by case_if. Qed.

(** With every buffer in the application's hands a packet of a new frame is refused. *)
Lemma pool_empty_example :
  let h := ex_audio_history ++ pkt_ops (ex_audio_l ++ [(ex_audio_pkt 2 108 [9; 10; 11; 12], 0, 0%nat)])
    ++ [RaPkt (ex_audio_pkt 4 116 [1; 1; 1; 1]) 0; RaPkt (ex_audio_pkt 5 120 [1; 1; 1; 1]) 0] in
  fst (rx_audio_session_handle_frame_pkt ex_audio_cfg ex_keeps (ex_audio_pkt 6 124 [1; 1; 1; 1]) 0
         (ra_run ex_audio_cfg ex_keeps h)) = - EIO /\
  length (ra_notified (ra_run ex_audio_cfg ex_keeps h)) = 3%nat.
Proof. split; vm_compute; reflexivity. Qed.
