(* ===== verification/AudioSend.v ===== *)
(** Theorems on the ST 2110-30 sender of [TxAudio]: every packet built reaches the wire
    of its port once and in order, the packets of a stream carry the application's
    frames piece by piece with consecutive sequence numbers, and with a clock that is on
    time their time stamps are evenly spaced; and the way from the sender to the
    application of the receiver ([AudioDelivery]). *)
From S2P Require Import Prelude Fifo Fmt TxCommon TxAudio.

(** ** Histories *)

Inductive ta_op :=
| TaBuildCall (env : ta_env)
| TaTransmitCall (env : ta_tx_env) (s_port : Z)
| TaWrite (f : nat) (data : list Z).

(** The primary packets built, the packets built for a port, those sent on it, and the
    contents of the frames taken. *)
Definition built (s_port : Z) (tr : list ta_event) : list ta_mbuf :=
  omap (fun e => match e with
    | TaBuild p p_r => if s_port =? 0 then Some p else p_r
    | _ => None end) tr.
Definition sent (s_port : Z) (tr : list ta_event) : list ta_mbuf :=
  omap (fun e => match e with TaSend q p => if q =? s_port then Some p else None | _ => None end) tr.
Definition taken (tr : list ta_event) : list (list Z) :=
  omap (fun e => match e with TaTake _ d => Some d | _ => None end) tr.

Lemma built_snoc s_port tr e : built s_port (tr ++ [e]) = built s_port tr ++ built s_port [e].
Proof. apply omap_app. Qed.
Lemma sent_snoc s_port tr e : sent s_port (tr ++ [e]) = sent s_port tr ++ sent s_port [e].
Proof. apply omap_app. Qed.
Lemma taken_snoc tr e : taken (tr ++ [e]) = taken tr ++ taken [e].
Proof. apply omap_app. Qed.

Definition opt_list (o : option Z) : list Z := match o with Some h => [h] | None => [] end.

Definition opt_mbuf (o : option ta_mbuf) : list ta_mbuf := match o with Some p => [p] | None => [] end.

(** The packets on their way to the wire of a port, first to leave first. *)
Definition ta_queue (s_port : Z) (s : ta_session) : list Z :=
  let p := ta_port_at s_port s in
  opt_list (trans_ring_inflight p) ++ fifo_view (trans_ring p) ++ opt_list (inflight p).

(** What was sent on a port, what is in its queue and the packets [pend] that are about
    to enter it are what was built for it, in this order. *)
Record ta_order_but (pend : list Z) (s_port : Z) (s : ta_session) : Prop := {
  ord_wf : fifo_wf (trans_ring (ta_port_at s_port s));
  ord_valid : Forall (fun h => 0 <= h < arr_len (ta_mbufs s)) (ta_queue s_port s ++ pend);
  ord_stream : sent s_port (ta_trace s) ++ (mb_at s <$> ta_queue s_port s ++ pend) = built s_port (ta_trace s);
}.
Abbreviation ta_order := (ta_order_but []).

(** ** Order *)

Lemma order_same pend s_port s s' :
  ta_mbufs s' = ta_mbufs s -> ta_port_at s_port s' = ta_port_at s_port s ->
  built s_port (ta_trace s') = built s_port (ta_trace s) ->
  sent s_port (ta_trace s') = sent s_port (ta_trace s) ->
  ta_order_but pend s_port s -> ta_order_but pend s_port s'.
Proof.
  intros Hm Hp Hb Hs [Hwf Hv Hst]. split; unfold ta_queue, mb_at in *; by rewrite ?Hm, ?Hp, ?Hb, ?Hs.
Qed.

Lemma order_emit pend s_port e s :
  built s_port [e] = [] -> sent s_port [e] = [] -> ta_order_but pend s_port s -> ta_order_but pend s_port (ta_emit e s).
Proof.
  intros Hb Hs. apply order_same; [done..| |]; change (ta_trace (ta_emit e s)) with (ta_trace s ++ [e]).
  - rewrite built_snoc, Hb. apply app_nil_r.
  - rewrite sent_snoc, Hs. apply app_nil_r.
Qed.

Section Order.
Context (cfg : ta_config) (tai_of_next : Z -> Z) (media_clk_to_tai : Z -> Z -> Z -> Z).

Lemma fifo_put_cases f h :
  fifo_wf f ->
  (exists f', mt_u64_fifo_put f h = (0, f') /\ fifo_wf f' /\ fifo_view f' = fifo_view f ++ [h]) \/
  mt_u64_fifo_put f h = (- EIO, f).
Proof.
  intros Hwf. pose proof (fifo_put_spec f h Hwf) as H. destruct (mt_u64_fifo_put f h) as [ret f'].
  case_if_in H; [left|right].
  - destruct H as (-> & ? & ?). by exists f'.
  - by destruct H as [-> ->].
Qed.

Lemma port_upd_eq s_port g s : ta_port_at s_port (ta_port_upd s_port g s) = g (ta_port_at s_port s).
Proof. unfold ta_port_at, ta_port_upd. by destruct (s_port =? 0). Qed.
Lemma port_upd_ne q s_port g s : (q =? 0) <> (s_port =? 0) -> ta_port_at q (ta_port_upd s_port g s) = ta_port_at q s.
Proof. unfold ta_port_at, ta_port_upd. by destruct (s_port =? 0), (q =? 0). Qed.
Lemma port_upd_rest s_port g s :
  ta_mbufs (ta_port_upd s_port g s) = ta_mbufs s /\ ta_trace (ta_port_upd s_port g s) = ta_trace s /\
  ta_frames (ta_port_upd s_port g s) = ta_frames s.
Proof. unfold ta_port_upd. by destruct (s_port =? 0). Qed.

(** A port is one of two. *)
Definition ta_is_port (s_port : Z) : Prop := s_port = 0 \/ s_port = 1.
Lemma is_port_ne q s_port : ta_is_port q -> ta_is_port s_port -> q <> s_port -> (q =? 0) <> (s_port =? 0).
Proof. intros [-> | ->] [-> | ->]; done. Qed.

(** A change of the ports: of [s_port] the queue is rearranged, of the other nothing changes. *)
Lemma order_upd pend pend' q s_port g s :
  ta_is_port q -> ta_is_port s_port ->
  (q <> s_port -> pend' = pend) ->
  (q = s_port -> fifo_wf (trans_ring (g (ta_port_at s_port s))) /\
    ta_queue s_port (ta_port_upd s_port g s) ++ pend' = ta_queue s_port s ++ pend) ->
  ta_order_but pend q s -> ta_order_but pend' q (ta_port_upd s_port g s).
Proof.
  intros Hq Hp Hne Heq Ho. destruct (port_upd_rest s_port g s) as (Em & Et & _).
  destruct (decide (q = s_port)) as [->|Hqp].
  - destruct (Heq eq_refl) as [Hwf Hqu]. destruct Ho as [_ Hv Hst].
    split; [by rewrite port_upd_eq|by rewrite Em, Hqu|]. rewrite Et, Hqu. unfold mb_at in *. by rewrite Em.
  - rewrite (Hne Hqp). apply (order_same pend q s); rewrite ?Em, ?Et; try done.
    by apply port_upd_ne, is_port_ne.
Qed.

Lemma flush_order q s_port code s :
  ta_is_port q -> ta_is_port s_port -> ta_order s_port s -> ta_order q s ->
  ta_order q (snd (ta_flush_inflight s_port code s)) /\
  (fst (ta_flush_inflight s_port code s) = true -> inflight (ta_port_at s_port (snd (ta_flush_inflight s_port code s))) = None /\
   (inflight (ta_port_at q s) = None -> inflight (ta_port_at q (snd (ta_flush_inflight s_port code s))) = None)).
Proof.
  intros Hq Hp Hs Ho. unfold ta_flush_inflight. destruct (inflight (ta_port_at s_port s)) as [h|] eqn:Ei; [|done].
  destruct (fifo_put_cases _ h (ord_wf _ _ _ Hs)) as [(f' & -> & Hwf & Hv)| ->]; cbn [Z.eqb fst snd].
  - split.
    + apply (order_upd [] []); try done. intros _. split; [done|]. f_equal.
      unfold ta_queue. rewrite port_upd_eq. cbn. rewrite Hv, Ei. by rewrite app_nil_r.
    + intros _. rewrite port_upd_eq. split; [done|]. intros Hi.
      destruct (decide (q = s_port)) as [->|Hqp]; [by rewrite port_upd_eq|].
      by rewrite port_upd_ne by (by apply is_port_ne).
  - split; [|done]. by apply (order_same [] q s).
Qed.

Lemma enqueue_order pend q s_port code h s :
  ta_is_port q -> ta_is_port s_port -> fifo_wf (trans_ring (ta_port_at s_port s)) ->
  inflight (ta_port_at s_port s) = None -> ta_order_but (if decide (q = s_port) then h :: pend else pend) q s ->
  let s' := snd (ta_enqueue s_port code h s) in
  ta_order_but pend q s' /\ (q <> s_port -> ta_port_at q s' = ta_port_at q s).
Proof.
  intros Hq Hp Hwf Hi Ho. unfold ta_enqueue.
  assert (forall g, ta_port_at q (ta_port_upd s_port g s) = ta_port_at q s \/ q = s_port) as Hother.
  { intros g. destruct (decide (q = s_port)); [by right|left]. by apply port_upd_ne, is_port_ne. }
  destruct (fifo_put_cases _ h Hwf) as [(f' & -> & Hwf' & Hv)| ->]; cbn [Z.eqb snd].
  - split; [|intros Hne; by destruct (Hother (fun p => p <| trans_ring := f' |>))].
    eapply order_upd; [done|done| | |exact Ho]; intros E; [by rewrite decide_False|].
    rewrite decide_True by done. split; [done|]. unfold ta_queue. rewrite port_upd_eq. cbn. rewrite Hv, Hi. cbn.
    by rewrite !app_nil_r, <- !app_assoc.
  - change (- EIO =? 0) with false. cbn [snd].
    split; [|intros Hne; by destruct (Hother (fun p => p <| inflight := Some h |>))].
    apply (order_same pend q (ta_port_upd s_port (fun p => p <| inflight := Some h |>) s)); [done..|].
    eapply order_upd; [done|done| | |exact Ho]; intros E; [by rewrite decide_False|].
    rewrite decide_True by done. split; [done|]. unfold ta_queue. rewrite port_upd_eq. cbn. rewrite Hi. cbn.
    by rewrite app_nil_r, <- !app_assoc.
Qed.

Lemma next_frame_order pend s_port env s :
  ta_order_but pend s_port s -> ta_order_but pend s_port (snd (ta_next_frame env s)) /\
  ta_port_at s_port (snd (ta_next_frame env s)) = ta_port_at s_port s.
Proof.
  intros Ho. unfold ta_next_frame. case_if; [done|]. destruct (st30_frame_stat s); [|done].
  destruct (env_next_frame env) as [[[f tfmt] ts]|]; [|split; [by apply (order_same pend s_port s)|done]].
  case_if; [split; [by apply (order_same pend s_port s)|done]|]. cbn [snd]. split; [|done].
  apply order_emit; [done..|]. by apply (order_same pend s_port s).
Qed.

(** Pacing changes neither ports nor packets. *)
Lemma packet_time_rest env s :
  let s' := ta_packet_time cfg tai_of_next media_clk_to_tai env s in
  ta_mbufs s' = ta_mbufs s /\ ta_port_p s' = ta_port_p s /\ ta_port_r s' = ta_port_r s /\ ta_trace s' = ta_trace s.
Proof.
  cbv zeta. unfold ta_packet_time. case_if; [done|]. destruct (if st30_pkt_idx s =? 0 then _ else _) as [tfmt ts].
  assert (let s1 := snd (tx_audio_pacing_required_tai cfg tfmt ts s) in
    ta_mbufs s1 = ta_mbufs s /\ ta_port_p s1 = ta_port_p s /\ ta_port_r s1 = ta_port_r s /\ ta_trace s1 = ta_trace s)
    as (<- & <- & <- & <-).
  { unfold tx_audio_pacing_required_tai. repeat case_match; done. }
  destruct (tx_audio_pacing_required_tai cfg tfmt ts s) as [req s1]. cbn [snd].
  assert (let s2 := tx_audio_session_sync_pacing cfg tai_of_next env req s1 in
    ta_mbufs s2 = ta_mbufs s1 /\ ta_port_p s2 = ta_port_p s1 /\ ta_port_r s2 = ta_port_r s1 /\ ta_trace s2 = ta_trace s1)
    as (<- & <- & <- & <-); [|done].
  unfold tx_audio_session_sync_pacing, tx_audio_choose_epoch. cbv zeta. repeat (case_if; cbv beta iota); done.
Qed.

Lemma packet_time_order pend s_port env s :
  let s' := ta_packet_time cfg tai_of_next media_clk_to_tai env s in
  ta_port_at s_port s' = ta_port_at s_port s /\
  (ta_order_but pend s_port s -> ta_order_but pend s_port s').
Proof.
  destruct (packet_time_rest env s) as (Em & Ep & Er & Et). cbv zeta.
  assert (ta_port_at s_port (ta_packet_time cfg tai_of_next media_clk_to_tai env s) = ta_port_at s_port s) as E
    by (unfold ta_port_at; by rewrite Ep, Er).
  split; [done|]. apply order_same; by rewrite ?Et.
Qed.

Lemma frame_end_order pend s_port s : ta_order_but pend s_port s -> ta_order_but pend s_port (ta_frame_end cfg s).
Proof.
  intros Ho. unfold ta_frame_end. case_if; [done|].
  set (s1 := ta_emit _ s). assert (ta_order_but pend s_port s1) as H1 by (by apply order_emit).
  clearbody s1. case_if; by apply (order_same pend s_port s1).
Qed.

(** A new packet has a new address. *)
Lemma order_new_mbuf pend s_port p s :
  ta_order_but pend s_port s -> ta_order_but pend s_port (snd (ta_new_mbuf p s)).
Proof.
  intros [Hwf Hv Hst]. split; [done|..].
  - eapply Forall_impl; [exact Hv|]. cbn. intros k Hk. unfold arr_len in *. rewrite length_app. lia.
  - change (ta_trace (snd (ta_new_mbuf p s))) with (ta_trace s). rewrite <- Hst. f_equal. apply list_fmap_ext. intros i k Hk.
    rewrite Forall_lookup in Hv. specialize (Hv _ _ Hk). cbn in Hv.
    unfold mb_at, arr_get, arr_len in *. cbn. case_if; [done|]. by rewrite lookup_app_l by lia.
Qed.

Lemma mb_at_new s l1 p l2 : ta_mbufs s = l1 ++ p :: l2 -> mb_at s (arr_len l1) = p /\ 0 <= arr_len l1 < arr_len (ta_mbufs s).
Proof.
  intros E. unfold mb_at, arr_get, arr_len. rewrite E, length_app. cbn. split; [|lia]. case_if; [zbool; lia|].
  by rewrite Nat2Z.id, list_lookup_middle.
Qed.

(** The packet that is logged as built is the next to enter the queue. *)
Lemma order_build q pkt pkt_r h s :
  0 <= h < arr_len (ta_mbufs s) -> (if q =? 0 then Some pkt else pkt_r) = Some (mb_at s h) -> ta_order q s ->
  ta_order_but [h] q (ta_emit (TaBuild pkt pkt_r) s).
Proof.
  intros Hh Hp [Hwf Hv Hst]. rewrite app_nil_r in Hv, Hst.
  assert (built q [TaBuild pkt pkt_r] = [mb_at s h]) as Hb by (cbn; by rewrite Hp).
  split; [done|apply Forall_app; split; [done|by constructor]|].
  change (ta_trace (ta_emit (TaBuild pkt pkt_r) s)) with (ta_trace s ++ [TaBuild pkt pkt_r]).
  rewrite built_snoc, Hb, sent_snoc, fmap_app, <- Hst. cbn [sent]. rewrite app_nil_r, app_assoc. done.
Qed.

(** Both packets are stored and are about to enter the queues. *)
Lemma store_order q pkt pkt_r s :
  ta_is_port q -> ta_order q s ->
  let '(h, h_r, s') := ta_store_pkts pkt pkt_r s in
  ta_order_but (if q =? 0 then [h] else match pkt_r with Some _ => [h_r] | None => [] end) q s' /\
  ta_port_p s' = ta_port_p s /\ ta_port_r s' = ta_port_r s.
Proof.
  intros Hq Ho. unfold ta_store_pkts. set (s1 := snd (ta_new_mbuf pkt (ta_account 0 pkt s))).
  change (ta_new_mbuf pkt (ta_account 0 pkt s)) with (arr_len (ta_mbufs s), s1). cbv beta iota.
  assert (ta_order q s1) as Hs1 by (apply order_new_mbuf; by apply (order_same [] q s)).
  assert (ta_mbufs s1 = ta_mbufs s ++ [pkt] /\ ta_port_p s1 = ta_port_p s /\ ta_port_r s1 = ta_port_r s)
    as (Hm1 & Hp1 & Hr1) by done.
  clearbody s1. destruct pkt_r as [p|].
  - set (s2 := snd (ta_new_mbuf p (ta_account 1 p s1))).
    change (ta_new_mbuf p (ta_account 1 p s1)) with (arr_len (ta_mbufs s1), s2). cbv beta iota.
    assert (ta_order q s2) as Hs2 by (apply order_new_mbuf; by apply (order_same [] q s1)).
    assert (ta_mbufs s2 = ta_mbufs s1 ++ [p]) as Hm2 by done.
    split; [|by rewrite <- Hp1, <- Hr1]. clearbody s2. destruct Hq as [-> | ->]; cbn [Z.eqb].
    + destruct (mb_at_new s2 (ta_mbufs s) pkt [p]) as [Ha Hb]; [by rewrite Hm2, Hm1, <- app_assoc|].
      apply order_build; [done|by rewrite Ha|done].
    + destruct (mb_at_new s2 (ta_mbufs s1) p []) as [Ha Hb]; [done|]. apply order_build; [done|by rewrite Ha|done].
  - split; [|by rewrite <- Hp1, <- Hr1]. destruct Hq as [-> | ->]; cbn [Z.eqb].
    + destruct (mb_at_new s1 (ta_mbufs s) pkt []) as [Ha Hb]; [done|]. apply order_build; [done|by rewrite Ha|done].
    + by apply order_emit.
Qed.

Lemma post_order q pkt pkt_r s :
  ta_is_port q -> ta_order 0 s -> ta_order 1 s -> inflight (ta_port_p s) = None ->
  (pkt_r <> None -> inflight (ta_port_r s) = None) ->
  ta_order q (snd (ta_post cfg pkt pkt_r s)).
Proof.
  intros Hq H0 H1 Hi0 Hi1. assert (ta_order q s) as Ho by (by destruct Hq as [-> | ->]).
  unfold ta_post. pose proof (store_order q pkt pkt_r s Hq Ho) as Hs1.
  destruct (ta_store_pkts pkt pkt_r s) as [[h h_r] s1]. destruct Hs1 as (Hs1 & Hp1 & Hr1).
  set (s2 := s1 <| st30_pkt_idx ::= Z.succ |> <| calculate_time_cursor := true |>).
  apply (order_same _ q s1 s2) in Hs1; [|done..].
  assert (ta_port_p s2 = ta_port_p s /\ ta_port_r s2 = ta_port_r s) as [Hp2 Hr2] by done. clearbody s2.
  assert (forall k, ta_port_at k s2 = ta_port_at k s) as Hport by (intros k; unfold ta_port_at; by rewrite Hp2, Hr2).
  destruct (enqueue_order (if q =? 0 then [] else match pkt_r with Some _ => [h_r] | None => [] end)
    q 0 STI_FRAME_PKT_ENQUEUE_FAIL h s2) as [Hs3 Hp3]; [done|by left|rewrite Hport; apply H0|by rewrite Hport| |].
  { destruct Hq as [-> | ->]; exact Hs1. }
  assert (ta_port_at 1 (snd (ta_enqueue 0 STI_FRAME_PKT_ENQUEUE_FAIL h s2)) = ta_port_at 1 s2) as Hp31.
  { unfold ta_enqueue. destruct (mt_u64_fifo_put _ _) as [ret f]. case_if; done. }
  destruct (ta_enqueue 0 STI_FRAME_PKT_ENQUEUE_FAIL h s2) as [done3 s3]. cbn [snd] in Hs3, Hp31.
  destruct pkt_r as [p|].
  - destruct (enqueue_order [] q 1 STI_FRAME_PKT_R_ENQUEUE_FAIL h_r s3) as [Hs4 _];
      [done|by right|rewrite Hp31, Hport; apply H1|rewrite Hp31, Hport; by apply Hi1| |].
    { destruct Hq as [-> | ->]; exact Hs3. }
    destruct (ta_enqueue 1 STI_FRAME_PKT_R_ENQUEUE_FAIL h_r s3) as [done4 s4]. cbn [snd] in *. by apply frame_end_order.
  - cbn [snd]. apply frame_end_order. by destruct Hq as [-> | ->].
Qed.

Lemma build_rest env s :
  let s' := snd (ta_build cfg env s) in
  ta_mbufs s' = ta_mbufs s /\ ta_port_p s' = ta_port_p s /\ ta_port_r s' = ta_port_r s /\ ta_trace s' = ta_trace s /\
  forall pkt pkt_r, fst (ta_build cfg env s) = Some (pkt, pkt_r) -> send_r cfg = false -> pkt_r = None.
Proof.
  unfold ta_build, tx_audio_session_build_packet. repeat case_if; cbn; try done.
  - repeat (split; [done|]). by intros ? ? [= _ <-].
  - repeat (split; [done|]). intros. by rewrite H0 in E1.
Qed.

Definition ta_ordered (s : ta_session) : Prop := ta_order 0 s /\ ta_order 1 s.
Lemma ordered_intro s : (forall q, ta_is_port q -> ta_order q s) -> ta_ordered s.
Proof. intros H. split; apply H; [by left|by right]. Qed.
Lemma ordered_at q s : ta_is_port q -> ta_ordered s -> ta_order q s.
Proof. intros [-> | ->] []; done. Qed.

Lemma flush_ordered s_port code s :
  ta_is_port s_port -> ta_ordered s ->
  let '(ok, s') := ta_flush_inflight s_port code s in
  ta_ordered s' /\ (ok = true -> inflight (ta_port_at s_port s') = None) /\
  (s_port = 1 -> inflight (ta_port_p s) = None -> inflight (ta_port_p s') = None).
Proof.
  intros Hp Ho. assert (forall q, ta_is_port q -> ta_order q (snd (ta_flush_inflight s_port code s))) as Hall.
  { intros q Hq. by destruct (flush_order q s_port code s Hq Hp (ordered_at _ _ Hp Ho) (ordered_at _ _ Hq Ho)). }
  destruct (flush_order s_port s_port code s Hp Hp (ordered_at _ _ Hp Ho) (ordered_at _ _ Hp Ho)) as [_ Hi].
  assert (s_port = 1 -> ta_port_p (snd (ta_flush_inflight s_port code s)) = ta_port_p s) as Hpp.
  { intros ->. unfold ta_flush_inflight. destruct (inflight (ta_port_at 1 s)); [|done].
    destruct (mt_u64_fifo_put _ _). case_if; done. }
  destruct (ta_flush_inflight s_port code s) as [ok s']. cbn [fst snd] in *.
  split; [by apply ordered_intro|]. split; [by intros E; destruct (Hi E)|]. intros E. by rewrite (Hpp E).
Qed.

Lemma tasklet_frame_ordered env s :
  ta_ordered s -> ta_ordered (snd (tx_audio_session_tasklet_frame cfg tai_of_next media_clk_to_tai env s)).
Proof.
  intros Ho. assert (forall s' code, ta_ordered s' -> ta_ordered (ta_stop code s')) as Hstop.
  { intros s' code [? ?]. split; by apply (order_same [] _ s'). }
  unfold tx_audio_session_tasklet_frame. do 2 (case_if; [by apply Hstop|]).
  pose proof (flush_ordered 0 STI_FRAME_INFLIGHT_ENQUEUE_FAIL s ltac:(by left) Ho) as H1.
  destruct (ta_flush_inflight 0 _ s) as [ok1 s1]. destruct H1 as (Ho1 & Hi1 & _).
  destruct ok1; cbn [negb]; [|done]. specialize (Hi1 eq_refl). change (ta_port_at 0 s1) with (ta_port_p s1) in Hi1.
  assert (let '(ok2, s2) := if send_r cfg then ta_flush_inflight 1 STI_FRAME_INFLIGHT_R_ENQUEUE_FAIL s1 else (true, s1) in
    ta_ordered s2 /\ (ok2 = true -> send_r cfg = true -> inflight (ta_port_r s2) = None) /\ inflight (ta_port_p s2) = None) as H2.
  { destruct (send_r cfg); [|done]. pose proof (flush_ordered 1 STI_FRAME_INFLIGHT_R_ENQUEUE_FAIL s1 ltac:(by right) Ho1) as H2.
    destruct (ta_flush_inflight 1 _ s1) as [ok2 s2]. destruct H2 as (Ho2 & Hi2 & Hi2'). split; [done|]. split; [intros Hok _; by apply Hi2|]. by apply Hi2'. }
  destruct (if send_r cfg then _ else _) as [ok2 s2]. destruct H2 as (Ho2 & Hir & Hip).
  destruct ok2; cbn [negb]; [|done]. specialize (Hir eq_refl).
  pose proof (next_frame_order [] 0 env s2 (proj1 Ho2)) as [Ho30 Hp30].
  pose proof (next_frame_order [] 1 env s2 (proj2 Ho2)) as [Ho31 Hp31].
  destruct (ta_next_frame env s2) as [ok3 s3]. cbn [snd] in *. destruct ok3; cbn [negb]; [|by split].
  destruct (packet_time_order [] 0 env s3) as [Hp40 Ho40]. destruct (packet_time_order [] 1 env s3) as [Hp41 Ho41].
  set (s4 := ta_packet_time _ _ _ env s3) in *. specialize (Ho40 Ho30). specialize (Ho41 Ho31).
  destruct (ta_build_wait cfg env s4); [apply Hstop; by split|].
  destruct (build_rest env s4) as (Em & Ep & Er & Et & Hpkt). destruct (ta_build cfg env s4) as [[[pkt pkt_r]|] s5]; cbn [fst snd] in *.
  2:{ apply Hstop. split; [apply (order_same [] 0 s4)|apply (order_same [] 1 s4)]; unfold ta_port_at; cbn; rewrite ?Et; done. }
  apply ordered_intro. intros q Hq. apply post_order; [done|..].
  - apply (order_same [] 0 s4); unfold ta_port_at; cbn; rewrite ?Et; done.
  - apply (order_same [] 1 s4); unfold ta_port_at; cbn; rewrite ?Et; done.
  - rewrite Ep. change (ta_port_p s4) with (ta_port_at 0 s4). rewrite Hp40, Hp30. done.
  - intros Hr. rewrite Er. change (ta_port_r s4) with (ta_port_at 1 s4). rewrite Hp41, Hp31. apply Hir.
    destruct (send_r cfg) eqn:Esr; [done|]. exfalso. by apply Hr, (Hpkt pkt pkt_r).
Qed.

(** ** The transmit tasklet *)

Lemma sent_send q s_port m : sent q [TaSend s_port m] = if s_port =? q then [m] else [].
Proof. cbn. by destruct (s_port =? q). Qed.

(** The head of the queue leaves. *)
Lemma order_send q s_port g h s :
  ta_is_port q -> ta_is_port s_port -> fifo_wf (trans_ring (g (ta_port_at s_port s))) ->
  ta_queue s_port s = h :: ta_queue s_port (ta_port_upd s_port g s) ->
  ta_order q s -> ta_order q (ta_emit (TaSend s_port (mb_at s h)) (ta_port_upd s_port g s)).
Proof.
  intros Hq Hp Hwf Hhead [Hw Hv Hst]. destruct (port_upd_rest s_port g s) as (Em & Et & _).
  destruct (decide (q = s_port)) as [->|Hne].
  - rewrite app_nil_r in Hv, Hst. rewrite Hhead in Hv, Hst. apply Forall_cons in Hv as [_ Hv].
    split; [by rewrite <- (port_upd_eq s_port g s) in Hwf|cbn; rewrite app_nil_r, Em; done|].
    change (ta_trace (ta_emit ?e ?s)) with (ta_trace s ++ [e]). rewrite Et, built_snoc, sent_snoc, sent_send, Z.eqb_refl.
    cbn [built omap]. rewrite !app_nil_r, <- Hst, fmap_cons, <- app_assoc. cbn. do 2 f_equal. unfold mb_at. cbn. by rewrite Em.
  - apply order_emit; [done|rewrite sent_send; by rewrite (proj2 (Z.eqb_neq _ _)) by congruence|].
    apply (order_same [] q s); rewrite ?Em, ?Et; try done. by apply port_upd_ne, is_port_ne.
Qed.

Lemma transmit_ordered env s_port s :
  ta_is_port s_port -> ta_ordered s -> ta_ordered (snd (tx_audio_session_tasklet_transmit env s_port s)).
Proof.
  intros Hp Ho. assert (forall s' code, ta_ordered s' -> ta_ordered (ta_tx_stop code s')) as Hstop.
  { intros s' code [? ?]. split; by apply (order_same [] _ s'). }
  unfold tx_audio_session_tasklet_transmit.
  assert (ta_ordered (snd (ta_tx_pending env s_port s)) /\
    (fst (ta_tx_pending env s_port s) = true -> trans_ring_inflight (ta_port_at s_port (snd (ta_tx_pending env s_port s))) = None))
    as [Ho1 Hh1].
  { unfold ta_tx_pending. destruct (trans_ring_inflight (ta_port_at s_port s)) as [h|] eqn:Eh; [|done].
    case_if; [split; [by apply Hstop|done]|]. case_if; [split; [by apply Hstop|done]|]. cbn [fst snd].
    split; [|intros _; change (ta_port_at s_port (ta_emit ?e ?s)) with (ta_port_at s_port s); by rewrite port_upd_eq].
    apply ordered_intro. intros q Hq. apply order_send; try done; [apply (ordered_at _ _ Hp Ho)| |by apply ordered_at].
    unfold ta_queue. rewrite port_upd_eq, Eh. done. }
  destruct (ta_tx_pending env s_port s) as [ok s1]. cbn [fst snd] in *. destruct ok; cbn [negb]; [|done].
  specialize (Hh1 eq_refl). pose proof (fifo_get_spec _ (ord_wf _ _ _ (ordered_at _ _ Hp Ho1))) as Hget.
  destruct (mt_u64_fifo_get _) as [[h|] ring]; [|by apply Hstop]. destruct Hget as [Hwf Hview].
  assert (ta_ordered (ta_port_upd s_port (fun p => p <| trans_ring := ring |> <| trans_ring_inflight := Some h |>) s1)) as Hkept.
  { apply ordered_intro. intros q Hq. apply (order_upd [] []); try done; [|by apply ordered_at]. intros _. split; [done|]. f_equal.
    unfold ta_queue. rewrite port_upd_eq, Hh1, Hview. done. }
  case_if; [by apply Hstop|]. case_if; [by apply Hstop|]. cbn [snd].
  apply ordered_intro. intros q Hq. apply order_send; try done; [|by apply ordered_at].
  unfold ta_queue. rewrite port_upd_eq, Hview. cbn. by rewrite !Hh1.
Qed.
End Order.

(** ** What the stream carries *)

(** What the content of the stream depends on. *)
Definition ta_gen (s : ta_session) :=
  (ta_frames s, st30_frame_idx s, st30_frame_stat s, st30_pkt_idx s, st30_seq_id s,
   (cur_epochs s, rtp_time_stamp s, ptp_time_cursor s, calculate_time_cursor s), ta_trace s).

Lemma gen_port_upd s_port g s : ta_gen (ta_port_upd s_port g s) = ta_gen s.
Proof. unfold ta_port_upd. by case_if. Qed.
Lemma gen_flush s_port code s : ta_gen (snd (ta_flush_inflight s_port code s)) = ta_gen s.
Proof.
  unfold ta_flush_inflight. destruct (inflight (ta_port_at s_port s)); [|done].
  destruct (mt_u64_fifo_put _ _). case_if; [apply gen_port_upd|done].
Qed.
Lemma gen_enqueue s_port code h s : ta_gen (snd (ta_enqueue s_port code h s)) = ta_gen s.
Proof.
  unfold ta_enqueue. destruct (mt_u64_fifo_put _ _). case_if; [apply gen_port_upd|].
  transitivity (ta_gen (ta_port_upd s_port (fun p => p <| inflight := Some h |>) s)); [done|apply gen_port_upd].
Qed.

(** The stream after a packet: it is logged, the index moves on, the frame may end. *)
Definition ta_advance (cfg : ta_config) (pkt : ta_mbuf) (pkt_r : option ta_mbuf) (s : ta_session) : ta_session :=
  ta_frame_end cfg (ta_emit (TaBuild pkt pkt_r) s <| st30_pkt_idx ::= Z.succ |> <| calculate_time_cursor := true |>).

Lemma gen_frame_end cfg s s' : ta_gen s' = ta_gen s -> ta_gen (ta_frame_end cfg s') = ta_gen (ta_frame_end cfg s).
Proof.
  intros [= E1 E2 E3 E4 E5 E6 E7 E8 E9 E10]. unfold ta_frame_end, ta_frame_at. rewrite E4, E2, E1. case_if; [|by repeat case_if; unfold ta_gen; cbn; rewrite E1, E2, E5, E6, E7, E8, E9, E10].
  unfold ta_gen. by rewrite E1, E2, E3, E4, E5, E6, E7, E8, E9, E10.
Qed.

Lemma gen_post cfg pkt pkt_r s : ta_gen (snd (ta_post cfg pkt pkt_r s)) = ta_gen (ta_advance cfg pkt pkt_r s).
Proof.
  unfold ta_post, ta_advance.
  assert (ta_gen (snd (ta_store_pkts pkt pkt_r s)) = ta_gen (ta_emit (TaBuild pkt pkt_r) s)) as H1 by (by destruct pkt_r).
  destruct (ta_store_pkts pkt pkt_r s) as [[h h_r] s1]. cbn [snd] in H1.
  set (s2 := s1 <| st30_pkt_idx ::= Z.succ |> <| calculate_time_cursor := true |>).
  assert (ta_gen s2 = ta_gen (ta_emit (TaBuild pkt pkt_r) s <| st30_pkt_idx ::= Z.succ |> <| calculate_time_cursor := true |>)) as H2.
  { unfold ta_gen in *. injection H1 as E1 E2 E3 E4 E5 E6 E7 E8 E9 E10. unfold s2. cbn. by rewrite E1, E2, E3, E4, E5, E6, E7, E8, E10. }
  clearbody s2. pose proof (gen_enqueue 0 STI_FRAME_PKT_ENQUEUE_FAIL h s2) as H3.
  destruct (ta_enqueue 0 _ h s2) as [d3 s3]. cbn [snd] in H3. destruct pkt_r as [p|].
  - pose proof (gen_enqueue 1 STI_FRAME_PKT_R_ENQUEUE_FAIL h_r s3) as H4.
    destruct (ta_enqueue 1 _ h_r s3) as [d4 s4]. cbn [snd] in *. apply gen_frame_end. congruence.
  - cbn [snd]. apply gen_frame_end. congruence.
Qed.

Section Stream.
Context (cfg : ta_config) (tai_of_next : Z -> Z) (media_clk_to_tai : Z -> Z -> Z -> Z).
Abbreviation packet_time := (ta_packet_time cfg tai_of_next media_clk_to_tai).
Abbreviation tasklet_frame := (tx_audio_session_tasklet_frame cfg tai_of_next media_clk_to_tai).

(** A property [P] of the stream that follows from [P0] holds after a call of the build
    tasklet in a state with [P0], when each step keeps it; [P2] holds while a packet is
    ready to be built. *)
Lemma tasklet_frame_inv (P0 P P2 : ta_session -> Prop) env s :
  (forall s s', ta_gen s' = ta_gen s -> P0 s -> P0 s') ->
  (forall s s', ta_gen s' = ta_gen s -> P s -> P s') ->
  (forall s, P0 s -> P s) ->
  (forall s, P0 s -> P (snd (ta_next_frame env s))) ->
  (forall s, P0 s -> fst (ta_next_frame env s) = true -> P2 (packet_time env (snd (ta_next_frame env s)))) ->
  (forall s, P2 s -> P s) ->
  (forall s, P2 s -> send_r cfg = true -> env_alloc_r env = false -> P (snd (tx_audio_session_build_packet cfg s))) ->
  (forall s pkt pkt_r, P2 s -> pkt = fst (tx_audio_session_build_packet cfg s) ->
     pkt_r = (if send_r cfg then Some (tx_audio_session_update_redundant pkt) else None) ->
     P (ta_advance cfg pkt pkt_r (snd (tx_audio_session_build_packet cfg s)))) ->
  P0 s -> P (snd (tasklet_frame env s)).
Proof.
  intros HP0 HP Hpre Hnext Htime Hweak Hfail Hadv Hs.
  assert (forall code s, P s -> P (ta_stop code s)) as Hstop by (intros code s0; by apply HP).
  unfold tx_audio_session_tasklet_frame. do 2 (case_if; [by apply Hstop, Hpre|]).
  pose proof (gen_flush 0 STI_FRAME_INFLIGHT_ENQUEUE_FAIL s) as G1.
  destruct (ta_flush_inflight 0 _ s) as [ok1 s1]. cbn [snd] in G1. apply (HP0 _ _ G1) in Hs.
  destruct ok1; cbn [negb]; [|by apply Hpre].
  assert (ta_gen (snd (if send_r cfg then ta_flush_inflight 1 STI_FRAME_INFLIGHT_R_ENQUEUE_FAIL s1 else (true, s1))) = ta_gen s1) as G2
    by (case_if; [apply gen_flush|done]).
  destruct (if send_r cfg then _ else _) as [ok2 s2]. cbn [snd] in G2. apply (HP0 _ _ G2) in Hs.
  destruct ok2; cbn [negb]; [|by apply Hpre].
  pose proof (Hnext s2 Hs) as Hs3. pose proof (Htime s2 Hs) as Hs4.
  destruct (ta_next_frame env s2) as [ok3 s3]. cbn [fst snd] in *. destruct ok3; cbn [negb]; [|done].
  specialize (Hs4 eq_refl). set (s4 := packet_time env s3) in *. clearbody s4.
  destruct (ta_build_wait cfg env s4); [by apply Hstop, Hweak|].
  unfold ta_build. case_if; [by apply Hstop, Hweak|]. case_if; [by apply Hstop, Hweak|].
  pose proof (Hadv s4 (fst (tx_audio_session_build_packet cfg s4))) as Ha.
  destruct (tx_audio_session_build_packet cfg s4) as [pkt s5] eqn:Eb. cbn [fst snd] in *.
  case_if.
  { eapply HP; [apply gen_post|]. apply Ha; try done. by apply negb_true_iff in E3 as ->. }
  case_if.
  { apply Hstop. apply negb_false_iff in E3. apply negb_true_iff in E4. pose proof (Hfail s4 Hs4 E3 E4) as Hf. by rewrite Eb in Hf. }
  eapply HP; [apply gen_post|]. apply Ha; try done. by apply negb_false_iff in E3 as ->.
Qed.

(** Pacing changes the times and the meta data of the frame only. *)
Lemma packet_time_content env s :
  let s' := packet_time env s in
  st30_frame_idx s' = st30_frame_idx s /\ st30_frame_stat s' = st30_frame_stat s /\ st30_pkt_idx s' = st30_pkt_idx s /\
  st30_seq_id s' = st30_seq_id s /\ ta_trace s' = ta_trace s /\
  tf_refcnt <$> ta_frames s' = tf_refcnt <$> ta_frames s /\ tf_data <$> ta_frames s' = tf_data <$> ta_frames s.
Proof.
  cbv zeta. unfold ta_packet_time. case_if; [done|]. destruct (if st30_pkt_idx s =? 0 then _ else _) as [tfmt ts].
  assert (let s1 := snd (tx_audio_pacing_required_tai cfg tfmt ts s) in
    st30_frame_idx s1 = st30_frame_idx s /\ st30_frame_stat s1 = st30_frame_stat s /\ st30_pkt_idx s1 = st30_pkt_idx s /\
    st30_seq_id s1 = st30_seq_id s /\ ta_trace s1 = ta_trace s /\ ta_frames s1 = ta_frames s)
    as (<- & <- & <- & <- & <- & <-).
  { unfold tx_audio_pacing_required_tai. repeat case_match; done. }
  destruct (tx_audio_pacing_required_tai cfg tfmt ts s) as [req s1]. cbn [snd].
  assert (let s2 := tx_audio_session_sync_pacing cfg tai_of_next env req s1 in
    st30_frame_idx s2 = st30_frame_idx s1 /\ st30_frame_stat s2 = st30_frame_stat s1 /\ st30_pkt_idx s2 = st30_pkt_idx s1 /\
    st30_seq_id s2 = st30_seq_id s1 /\ ta_trace s2 = ta_trace s1 /\ ta_frames s2 = ta_frames s1)
    as (<- & <- & <- & <- & <- & <-).
  { unfold tx_audio_session_sync_pacing, tx_audio_choose_epoch. cbv zeta. repeat (case_if; cbv beta iota); done. }
  repeat (split; [done|]). split; by apply fmap_alter_same.
Qed.

Context (Hsize : 0 < ta_pkt_len cfg /\ 0 < ta_total_pkts cfg /\ ta_total_pkts cfg * ta_pkt_len cfg < 4294967296).
Abbreviation frame_size := (ta_total_pkts cfg * ta_pkt_len cfg).
Abbreviation builds := (fun s => built 0 (ta_trace s)).
Abbreviation takes := (fun s => taken (ta_trace s)).

Definition ta_sending (s : ta_session) : bool :=
  match st30_frame_stat s with ST30_TX_STAT_SENDING_PKTS => true | ST30_TX_STAT_WAIT_FRAME => false end.

(** The packet number [k] of the stream. *)
Definition pkt_content (frames : list (list Z)) (k : nat) (b : ta_mbuf) : Prop :=
  exists d, frames !! Z.to_nat (Z.of_nat k / ta_total_pkts cfg) = Some d /\
    mb_idx b = Z.of_nat k mod ta_total_pkts cfg /\
    mb_payload b = chunk (ta_pkt_len cfg) (Z.of_nat k mod ta_total_pkts cfg) d /\
    mb_pkt_len b = 54 + ta_pkt_len cfg.

Record ta_content (s : ta_session) : Prop := {
  con_len : Forall (fun d => arr_len d = frame_size) (tf_data <$> ta_frames s);
  con_takes : Forall (fun d => arr_len d = frame_size) (takes s);
  con_idx : 0 <= st30_pkt_idx s < ta_total_pkts cfg;
  con_ref : forall f n, (tf_refcnt <$> ta_frames s) !! f = Some n ->
    n = if ta_sending s && bool_decide (f = st30_frame_idx s) then 1 else 0;
  con_count : arr_len (builds s) =
    if ta_sending s then (arr_len (takes s) - 1) * ta_total_pkts cfg + st30_pkt_idx s
    else arr_len (takes s) * ta_total_pkts cfg;
  con_wait : ta_sending s = false -> st30_pkt_idx s = 0;
  con_frame : ta_sending s = true -> exists d pre,
    (tf_data <$> ta_frames s) !! st30_frame_idx s = Some d /\ takes s = pre ++ [d];
  con_pkts : forall k b, builds s !! k = Some b -> pkt_content (takes s) k b;
}.

Lemma content_gen s s' : ta_gen s' = ta_gen s -> ta_content s -> ta_content s'.
Proof.
  intros [= E1 E2 E3 E4 E5 E6 E7 E8 E9 E10] []. split; unfold ta_sending in *; rewrite ?E1, ?E2, ?E3, ?E4, ?E10; done.
Qed.

(** The same up to the meta data of the frames. *)
Lemma content_meta s s' :
  st30_frame_idx s' = st30_frame_idx s -> st30_frame_stat s' = st30_frame_stat s -> st30_pkt_idx s' = st30_pkt_idx s ->
  built 0 (ta_trace s') = builds s -> taken (ta_trace s') = takes s ->
  tf_refcnt <$> ta_frames s' = tf_refcnt <$> ta_frames s ->
  tf_data <$> ta_frames s' = tf_data <$> ta_frames s -> ta_content s -> ta_content s'.
Proof.
  intros E1 E2 E3 E4 E4' E5 E6 []. split; unfold ta_sending in *; rewrite ?E1, ?E2, ?E3, ?E4, ?E4', ?E5, ?E6; done.
Qed.

Lemma content_packet_time env s : ta_content s -> ta_content (packet_time env s).
Proof.
  destruct (packet_time_content env s) as (E1 & E2 & E3 & _ & E5 & E6 & E7).
  apply content_meta; by rewrite ?E5.
Qed.

Lemma pkt_content_app frames l k b : pkt_content frames k b -> pkt_content (frames ++ l) k b.
Proof. intros (d & Hd & ?). exists d. split; [|done]. by apply lookup_app_l_Some. Qed.

(** The application names one of its frames. *)
Definition env_ok (env : ta_env) (s : ta_session) : Prop :=
  match env_next_frame env with Some (f, _, _) => (f < length (ta_frames s))%nat | None => True end.

(** Taking a frame that nobody uses. *)
Lemma content_emit_take s f g fr :
  ta_content s -> ta_sending s = false -> ta_frames s !! f = Some fr ->
  tf_data <$> alter g f (ta_frames s) = tf_data <$> ta_frames s -> st30_pkt_idx s = 0 ->
  (forall n, (tf_refcnt <$> ta_frames s) !! f = Some n -> tf_refcnt (g fr) = 1) ->
  ta_content (ta_emit (TaTake f (tf_data fr))
    (ta_frame_upd f g s <| st30_frame_idx := f |> <| st30_frame_stat := ST30_TX_STAT_SENDING_PKTS |>)).
Proof using Hsize.
  intros Hc Hns Hfr Hdata Hi Hg. set (s' := ta_emit _ _).
  assert (taken (ta_trace s') = takes s ++ [tf_data fr]) as Ht by apply taken_snoc.
  assert (built 0 (ta_trace s') = builds s) as Hb by (etransitivity; [apply built_snoc|apply app_nil_r]).
  assert (ta_frames s' = alter g f (ta_frames s)) as Hf by done.
  assert (st30_pkt_idx s' = st30_pkt_idx s /\ st30_frame_idx s' = f /\ ta_sending s' = true) as (Hpi & Hfi & Hsd) by done.
  clearbody s'. destruct Hc as [c1 c0 c2 c3 c4 c5 c6 c7]. rewrite Hns in c3, c4. cbn [andb] in c3.
  split; rewrite ?Ht, ?Hb, ?Hf, ?Hpi, ?Hfi, ?Hsd, ?Hdata; try done.
  - apply Forall_app. split; [done|]. constructor; [|done]. rewrite Forall_lookup in c1.
    apply (c1 f). by rewrite list_lookup_fmap, Hfr.
  - intros j n Hj. cbn [andb]. rewrite list_lookup_fmap in Hj. case_bool_decide as E.
    + subst j. rewrite list_lookup_alter_eq, Hfr in Hj. injection Hj as <-.
      apply (Hg (tf_refcnt fr)). by rewrite list_lookup_fmap, Hfr.
    + rewrite list_lookup_alter_ne in Hj by done. apply (c3 j). by rewrite list_lookup_fmap.
  - rewrite c4, Hi. unfold arr_len. rewrite length_app. cbn. lia.
  - intros _. exists (tf_data fr), (takes s). split; [|done]. by rewrite list_lookup_fmap, Hfr.
  - intros k b Hk. by apply pkt_content_app, c7.
Qed.

Lemma content_next_frame env s :
  env_ok env s -> ta_content s -> ta_content (snd (ta_next_frame env s)) /\
  (fst (ta_next_frame env s) = true -> ta_sending (snd (ta_next_frame env s)) = true).
Proof.
  intros Henv Hc. unfold ta_next_frame.
  destruct (Z.eqb_spec (st30_pkt_idx s) 0) as [Hi|Hi]; cbn [negb]; cycle 1.
  { split; [done|]. intros _. cbn. destruct (ta_sending s) eqn:E; [done|]. by rewrite (con_wait _ Hc E) in Hi. }
  destruct (st30_frame_stat s) eqn:Est; [|split; [done|]; intros _; unfold ta_sending; cbn; by rewrite Est].
  unfold env_ok in Henv. destruct (env_next_frame env) as [[[f tfmt] ts]|]; [|split; [by apply (content_gen s)|done]].
  assert (ta_sending s = false) as Hns by (unfold ta_sending; by rewrite Est).
  case_if; [split; [by apply (content_gen s)|done]|]. cbn [fst snd]. split; [|done].
  set (g := fun fr : ta_frame => _). destruct (lookup_lt_is_Some_2 _ _ Henv) as [fr Hfr].
  assert (tf_data (ta_frame_at (ta_frame_upd f g s <| st30_frame_idx := f |> <| st30_frame_stat := ST30_TX_STAT_SENDING_PKTS |>) f) = tf_data fr)
    as -> by (unfold ta_frame_at; cbn; by rewrite list_lookup_alter_eq, Hfr).
  assert (tf_data <$> alter g f (ta_frames s) = tf_data <$> ta_frames s) as Hdata by (by apply fmap_alter_same).
  pose proof (con_ref _ Hc) as Hr. rewrite Hns in Hr. cbn [andb] in Hr.
  pose proof (con_count _ Hc) as Hcnt. rewrite Hns in Hcnt.
  apply (content_emit_take s f g fr); try done.
  intros n Hn. rewrite list_lookup_fmap, Hfr in Hn. injection Hn as <-. cbn.
  rewrite (Hr f (tf_refcnt fr)) by (by rewrite list_lookup_fmap, Hfr). done.
Qed.

(** The last packet of a frame ends it. *)
Lemma content_frame_end s :
  ta_sending s = true -> 0 < st30_pkt_idx s <= ta_total_pkts cfg ->
  arr_len (builds s) = (arr_len (takes s) - 1) * ta_total_pkts cfg + st30_pkt_idx s ->
  Forall (fun d => arr_len d = frame_size) (tf_data <$> ta_frames s) ->
  Forall (fun d => arr_len d = frame_size) (takes s) ->
  (forall f n, (tf_refcnt <$> ta_frames s) !! f = Some n ->
     n = if bool_decide (f = st30_frame_idx s) then 1 else 0) ->
  (exists d pre, (tf_data <$> ta_frames s) !! st30_frame_idx s = Some d /\ takes s = pre ++ [d]) ->
  (forall k b, builds s !! k = Some b -> pkt_content (takes s) k b) ->
  ta_content (ta_frame_end cfg s).
Proof using Hsize.
  intros Hsd Hi Hcnt Hlen Htk Href Hfr Hp. pose proof Hsize as (Hz1 & Hz2 & Hz3). unfold ta_frame_end. case_if; zbool.
  { split; rewrite ?Hsd; try done; lia. }
  set (f := st30_frame_idx s) in *. set (g := fun fr : ta_frame => fr <| tf_refcnt ::= fun n => i32 (n - 1) |>).
  set (s1 := ta_frame_upd f g (ta_emit _ s) <| st30_frame_stat := ST30_TX_STAT_WAIT_FRAME |> <| st30_pkt_idx := 0 |>).
  assert (ta_content s1) as H1; [|case_if; by apply (content_gen s1)].
  assert (taken (ta_trace s1) = takes s) as Ht by (etransitivity; [apply taken_snoc|apply app_nil_r]).
  assert (built 0 (ta_trace s1) = builds s) as Hb by (etransitivity; [apply built_snoc|apply app_nil_r]).
  assert (ta_frames s1 = alter g f (ta_frames s) /\ st30_pkt_idx s1 = 0 /\ st30_frame_idx s1 = f /\ ta_sending s1 = false)
    as (Hf & Hpi & Hfi & Hsd1) by done.
  clearbody s1. assert (tf_data <$> alter g f (ta_frames s) = tf_data <$> ta_frames s) as Hdata by (by apply fmap_alter_same).
  split; rewrite ?Ht, ?Hb, ?Hf, ?Hpi, ?Hfi, ?Hsd1, ?Hdata; try done; [|cbv beta in *; lia].
  intros j n Hj. cbn [andb]. rewrite list_lookup_fmap in Hj. destruct (decide (j = f)) as [->|Hne].
  - rewrite list_lookup_alter_eq in Hj. destruct (ta_frames s !! f) as [fr|] eqn:Efr; [|done]. injection Hj as <-. cbn.
    rewrite (Href f (tf_refcnt fr)) by (by rewrite list_lookup_fmap, Efr). by rewrite bool_decide_eq_true_2.
  - rewrite list_lookup_alter_ne in Hj by done. rewrite (Href j n) by (by rewrite list_lookup_fmap).
    by rewrite bool_decide_eq_false_2.
Qed.

(** The packet that is built is the next of the stream. *)
Lemma content_advance s pkt pkt_r :
  ta_content s -> ta_sending s = true -> pkt = fst (tx_audio_session_build_packet cfg s) ->
  ta_content (ta_advance cfg pkt pkt_r (snd (tx_audio_session_build_packet cfg s))).
Proof using Hsize.
  intros Hc Hsd Hpkt. pose proof Hsize as (Hz1 & Hz2 & Hz3). destruct Hc as [c1 c0 c2 c3 c4 c5 c6 c7]. rewrite Hsd in c3, c4. cbn [andb] in c3.
  destruct (c6 Hsd) as (d & pre & Hd & Hpre). unfold ta_advance.
  set (s1 := ta_emit _ _ <| st30_pkt_idx ::= Z.succ |> <| calculate_time_cursor := true |>).
  assert (taken (ta_trace s1) = takes s) as Ht by (etransitivity; [apply taken_snoc|apply app_nil_r]).
  assert (built 0 (ta_trace s1) = builds s ++ [pkt]) as Hb by apply built_snoc.
  assert (ta_frames s1 = ta_frames s /\ st30_pkt_idx s1 = st30_pkt_idx s + 1 /\ st30_frame_idx s1 = st30_frame_idx s /\
    ta_sending s1 = true) as (Hf & Hpi & Hfi & Hsd1) by done.
  clearbody s1.
  assert (arr_len (takes s) = arr_len pre + 1) as Htl by (rewrite Hpre; unfold arr_len; rewrite length_app; cbn; lia).
  apply content_frame_end; rewrite ?Ht, ?Hb, ?Hf, ?Hpi, ?Hfi, ?Hsd1; try done; [lia| |by exists d, pre|].
  - unfold arr_len in *. rewrite length_app. cbn. lia.
  - intros k b Hk. apply lookup_app_Some in Hk as [Hk|[Hge Hk]]; [by apply c7|].
    assert (k = length (builds s) /\ b = pkt) as [Ek ->].
    { apply list_lookup_singleton_Some in Hk as [Hk <-]. split; [lia|done]. }
    assert (Z.of_nat k = arr_len pre * ta_total_pkts cfg + st30_pkt_idx s) as Hkz by (unfold arr_len in *; lia).
    exists d. rewrite Hkz, Z.div_add_l, Z.div_small, Z.add_0_r by lia.
    rewrite Z.add_comm, Z.mod_add, Z.mod_small by lia. subst pkt. split.
    + rewrite Hpre. unfold arr_len. by rewrite Nat2Z.id, list_lookup_middle.
    + cbn. split; [done|]. split; [|done]. unfold chunk. rewrite u32_id by (unfold is_u32; nia). do 2 f_equal.
      unfold ta_frame_at. rewrite list_lookup_fmap in Hd. destruct (ta_frames s !! st30_frame_idx s); [|done]. by injection Hd.
Qed.

Lemma next_frame_len env s : length (ta_frames (snd (ta_next_frame env s))) = length (ta_frames s).
Proof. unfold ta_next_frame. repeat case_match; try done. cbn. apply length_alter. Qed.
Lemma frame_end_len s : length (ta_frames (ta_frame_end cfg s)) = length (ta_frames s).
Proof. unfold ta_frame_end. repeat case_if; try done; cbn; apply length_alter. Qed.

Lemma content_tasklet env s : env_ok env s -> ta_content s -> ta_content (snd (tasklet_frame env s)).
Proof using Hsize.
  intros Henv Hc.
  assert (forall s s', ta_gen s' = ta_gen s -> length (ta_frames s') = length (ta_frames s)) as Hgl
    by (intros ? ? [= E1 _ _ _ _ _ _ _ _ _]; by rewrite E1).
  assert (forall s1 s2, ta_gen s2 = ta_gen s1 -> ta_content s1 /\ env_ok env s1 -> ta_content s2 /\ env_ok env s2) as Hgen.
  { intros s1 s2 G [H1 H2]. split; [by apply (content_gen s1)|]. unfold env_ok in *. by rewrite (Hgl _ _ G). }
  refine (proj1 (tasklet_frame_inv (fun s => ta_content s /\ env_ok env s) (fun s => ta_content s /\ env_ok env s)
    (fun s => ta_content s /\ env_ok env s /\ ta_sending s = true) env s Hgen Hgen _ _ _ _ _ _ (conj Hc Henv))); [done|..].
  - intros s1 [H1 H2]. split; [by apply content_next_frame|]. unfold env_ok in *. by rewrite next_frame_len.
  - intros s1 [H1 H2] Hok. destruct (content_next_frame env s1 H2 H1) as [H3 H4].
    destruct (packet_time_content env (snd (ta_next_frame env s1))) as (_ & E2 & _ & _ & _ & E6 & _).
    split; [by apply content_packet_time|]. apply (f_equal length) in E6. rewrite !length_fmap in E6.
    unfold env_ok, ta_sending in *. rewrite E6, E2, next_frame_len. split; [done|]. by apply H4.
  - by intros s1 (H1 & H2 & _).
  - intros s1 (H1 & H2 & _) _ _. split; [|done]. by apply (content_meta s1).
  - intros s1 pkt pkt_r (H1 & H2 & H3) Hp _. split; [by apply content_advance|].
    unfold env_ok in *. unfold ta_advance. by rewrite frame_end_len.
Qed.

(** *** Sequence numbers *)

Record ta_seq (s : ta_session) : Prop := {
  seq_next : st30_seq_id s = u16 (arr_len (builds s));
  seq_pkts : forall k b, builds s !! k = Some b -> mb_seq b = u16 (Z.of_nat k);
}.

Lemma seq_same s s' :
  st30_seq_id s' = st30_seq_id s -> built 0 (ta_trace s') = builds s -> ta_seq s -> ta_seq s'.
Proof. intros E1 E2 []. split; by rewrite E2, ?E1. Qed.

Lemma frame_end_rest s :
  let s' := ta_frame_end cfg s in
  st30_seq_id s' = st30_seq_id s /\ built 0 (ta_trace s') = builds s /\ cur_epochs s' = cur_epochs s /\
  rtp_time_stamp s' = rtp_time_stamp s /\ calculate_time_cursor s' = calculate_time_cursor s.
Proof.
  cbv zeta beta. unfold ta_frame_end. case_if; [done|]. case_if;
    (split; [done|]; split; [etransitivity; [apply built_snoc|apply app_nil_r]|done]).
Qed.

Lemma next_frame_rest env s :
  let s' := snd (ta_next_frame env s) in
  st30_seq_id s' = st30_seq_id s /\ built 0 (ta_trace s') = builds s /\ cur_epochs s' = cur_epochs s /\
  rtp_time_stamp s' = rtp_time_stamp s /\ calculate_time_cursor s' = calculate_time_cursor s.
Proof.
  cbv zeta beta. unfold ta_next_frame. repeat case_match; try done.
  split; [done|]. split; [etransitivity; [apply built_snoc|apply app_nil_r]|done].
Qed.

Lemma seq_tasklet env s :
  (send_r cfg = true -> env_alloc_r env = true) -> ta_seq s -> ta_seq (snd (tasklet_frame env s)).
Proof.
  intros Hr Hs. apply (tasklet_frame_inv ta_seq ta_seq ta_seq); try done.
  - intros s1 s2 [= E1 E2 E3 E4 E5 E6 E7 E8 E9 E10]. apply seq_same; by rewrite ?E10.
  - intros s1 s2 [= E1 E2 E3 E4 E5 E6 E7 E8 E9 E10]. apply seq_same; by rewrite ?E10.
  - intros s1. destruct (next_frame_rest env s1) as (? & ? & _). by apply seq_same.
  - intros s1 H1 _. destruct (next_frame_rest env s1) as (E1 & E2 & _).
    destruct (packet_time_content env (snd (ta_next_frame env s1))) as (_ & _ & _ & E3 & E4 & _).
    apply (seq_same s1); [by rewrite E3|by rewrite E4|done].
  - intros s1 _ Esr Ea. by rewrite (Hr Esr) in Ea.
  - intros s1 pkt pkt_r [H1 H2] -> _. unfold ta_advance.
    set (s2 := ta_emit _ _ <| st30_pkt_idx ::= Z.succ |> <| calculate_time_cursor := true |>).
    destruct (frame_end_rest s2) as (E1 & E2 & _). apply (seq_same s2); [done..|].
    assert (built 0 (ta_trace s2) = builds s1 ++ [fst (tx_audio_session_build_packet cfg s1)]) as Hb by apply built_snoc.
    assert (st30_seq_id s2 = u16 (st30_seq_id s1 + 1)) as Hq by done. clearbody s2. split; rewrite Hb.
    + rewrite Hq, H1. unfold arr_len. rewrite length_app. cbn. mlia.
    + intros k b Hk. apply lookup_app_Some in Hk as [Hk|[Hge Hk]]; [by apply H2|].
      apply list_lookup_singleton_Some in Hk as [Hk <-]. cbn. rewrite H1. unfold arr_len. do 2 f_equal. lia.
Qed.

(** *** Time stamps *)

Context (Hrate : 0 < ta_sample_rate cfg < 500000000) (Hsn : 0 < ta_sample_num cfg < 4294967296).

(** The RTP time of an epoch is its number of samples. *)
Lemma media_clk_of_epoch e :
  0 <= e -> tx_audio_pacing_time cfg e < UINT64_MAX ->
  st10_tai_to_media_clk (tx_audio_pacing_time cfg e) (ta_sample_rate cfg) = u32 (e * ta_sample_num cfg) /\
  e < UINT64_MAX /\ is_u64 (tx_audio_pacing_time cfg e).
Proof using Hrate Hsn.
  unfold tx_audio_pacing_time, st_epoch_to_tai, UINT64_MAX, is_u64, NS_PER_S. intros He Ht.
  set (rate := ta_sample_rate cfg) in *. set (sn := ta_sample_num cfg) in *.
  set (t := e * 1000000000 * sn / rate) in *. rewrite Z.geb_leb in *.
  destruct (Z.leb_spec 18446744073709551615 t); [lia|].
  pose proof (Z.div_mod (e * 1000000000 * sn) rate ltac:(lia)) as Hdm. fold t in Hdm.
  pose proof (Z.mod_pos_bound (e * 1000000000 * sn) rate ltac:(lia)) as Hr. set (r := _ mod rate) in *.
  assert (0 <= t) by (apply Z.div_pos; nia). rewrite (u64_id t) by (unfold is_u64; lia).
  unfold st10_tai_to_media_clk. rewrite (proj2 (Z.eqb_neq rate 0)) by lia.
  assert (0 <= e * sn) by nia. assert (rate * t <= 500000000 * t) by nia.
  assert (e * sn < 10000000000000000000) as Hes by lia.
  assert (e <= e * sn) by nia.
  split; [|lia]. f_equal. unfold st_muldiv_u64_round_closest, NS_PER_S.
  replace (t * rate) with (e * sn * 1000000000 - r) by nia. change (1000000000 / 2) with 500000000.
  assert ((e * sn * 1000000000 - r) / 1000000000 = if r =? 0 then e * sn else e * sn - 1) as ->.
  { destruct (Z.eqb_spec r 0) as [->|Hr0].
    - by rewrite Z.sub_0_r, Z.div_mul.
    - symmetry. apply (Z.div_unique _ _ _ (1000000000 - r)); lia. }
  destruct (Z.eqb_spec r 0) as [->|Hr0].
  - replace (e * sn * 1000000000 - 0 - e * sn * 1000000000) with 0 by lia. cbn [Z.gtb Z.compare].
    apply u64_id. unfold is_u64. lia.
  - replace (_ - (e * sn - 1) * 1000000000) with (1000000000 - r) by lia.
    rewrite Z.gtb_ltb, (proj2 (Z.ltb_lt 500000000 (1000000000 - r))) by lia.
    rewrite u64_id by (unfold is_u64; lia). lia.
Qed.

Lemma sync_default env s :
  let s' := tx_audio_session_sync_pacing cfg tai_of_next env 0 s in
  let e := fst (tx_audio_choose_epoch cfg (cur_epochs s)
                  (st_tai_to_epoch (env_ptp_time env) (ta_sample_rate cfg) (ta_sample_num cfg))) in
  cur_epochs s' = e /\ ptp_time_cursor s' = tx_audio_pacing_time cfg e.
Proof.
  cbv zeta. unfold tx_audio_session_sync_pacing. cbn [c_true Z.eqb negb].
  destruct (tx_audio_choose_epoch _ _ _) as [e late]. cbn [fst]. cbv zeta. repeat (case_if; cbv beta iota); done.
Qed.

(** The clock is where the stream expects it: neither so far behind the next epoch nor so
    far ahead of it that the sender would jump, and not at the end of 64 bits. *)
Definition clock_on_time (env : ta_env) (s : ta_session) : Prop :=
  let e := st_tai_to_epoch (env_ptp_time env) (ta_sample_rate cfg) (ta_sample_num cfg) in
  cur_epochs s - e < ta_max_onward_epochs cfg /\ e - (cur_epochs s + 1) < ta_max_late_epochs cfg /\
  tx_audio_pacing_time cfg (cur_epochs s + 1) < UINT64_MAX.

Context (Hdefault : ta_user_pacing cfg = false /\ ta_user_timestamp cfg = false /\ ta_rtp_timestamp_delta_us cfg = 0)
        (Hmax : 0 < ta_max_onward_epochs cfg /\ 0 < ta_max_late_epochs cfg).

Lemma choose_next cur e :
  0 <= cur < UINT64_MAX -> is_u64 e -> cur - e < ta_max_onward_epochs cfg ->
  e - (cur + 1) < ta_max_late_epochs cfg -> fst (tx_audio_choose_epoch cfg cur e) = cur + 1.
Proof using Hmax.
  intros Hc He H1 H2. unfold tx_audio_choose_epoch, UINT64_MAX, is_u64 in *.
  rewrite (u64_id (cur + 1)) by (unfold is_u64; lia). rewrite Z.gtb_ltb.
  destruct (Z.leb_spec e cur).
  - rewrite u64_id by (unfold is_u64; lia). by rewrite (proj2 (Z.ltb_lt _ _)) by lia.
  - destruct (Z.ltb_spec (cur + 1) e); cbn [fst]; [|lia].
    rewrite u64_id by (unfold is_u64; lia). by rewrite (proj2 (Z.ltb_lt _ _)) by lia.
Qed.

(** From epoch [E0] on, one epoch per packet. *)
Record ta_timed (E0 : Z) (s : ta_session) : Prop := {
  tim_cur : cur_epochs s = E0 + arr_len (builds s) + (if calculate_time_cursor s then 0 else 1);
  tim_next : calculate_time_cursor s = false ->
    rtp_time_stamp s = u32 ((E0 + 1 + arr_len (builds s)) * ta_sample_num cfg);
  tim_pkts : forall k b, builds s !! k = Some b -> mb_tmstamp b = u32 ((E0 + 1 + Z.of_nat k) * ta_sample_num cfg);
}.

Lemma timed_same E0 s s' :
  cur_epochs s' = cur_epochs s -> calculate_time_cursor s' = calculate_time_cursor s ->
  rtp_time_stamp s' = rtp_time_stamp s -> built 0 (ta_trace s') = builds s -> ta_timed E0 s -> ta_timed E0 s'.
Proof. intros E1 E2 E3 E4 []. split; by rewrite ?E1, ?E2, ?E3, ?E4. Qed.

Lemma timed_packet_time E0 env s :
  0 <= E0 -> ta_timed E0 s -> (calculate_time_cursor s = true -> clock_on_time env s) ->
  ta_timed E0 (packet_time env s) /\ calculate_time_cursor (packet_time env s) = false.
Proof using Hrate Hsn Hdefault Hmax.
  intros H0 Ht Hon. destruct Hdefault as (Hd1 & Hd2 & Hd3).
  unfold ta_packet_time. destruct (calculate_time_cursor s) eqn:Ec; cbn [negb]; [|done].
  specialize (Hon eq_refl). destruct Hon as (Hon1 & Hon2 & Hon3).
  destruct (if st30_pkt_idx s =? 0 then _ else _) as [tfmt ts].
  unfold tx_audio_pacing_required_tai. rewrite Hd1. cbn [negb].
  destruct Ht as [t1 t2 t3]. rewrite Ec, Z.add_0_r in t1.
  assert (0 <= cur_epochs s) as Hcur by (rewrite t1; unfold arr_len; lia).
  destruct (media_clk_of_epoch (cur_epochs s + 1) ltac:(lia) Hon3) as (Hclk & Hlt & Hu).
  destruct (sync_default env s) as [S1 S2]. rewrite choose_next in S1, S2 by (try apply u64_range; unfold UINT64_MAX in *; lia).
  assert (ta_trace (tx_audio_session_sync_pacing cfg tai_of_next env 0 s) = ta_trace s) as S3.
  { unfold tx_audio_session_sync_pacing, tx_audio_choose_epoch. cbv zeta. repeat (case_if; cbv beta iota); done. }
  set (s1 := tx_audio_session_sync_pacing _ _ _ _ _) in *. clearbody s1.
  unfold tx_audio_pacing_update_rtp_time_stamp. rewrite Hd2, Hd3. cbn [c_true Z.eqb negb].
  change (u64 (u64 0 * 1000)) with 0. rewrite S2, Z.add_0_r, u64_id, Hclk by done.
  set (s2 := _ <| calculate_time_cursor := false |>).
  assert (cur_epochs s2 = cur_epochs s1 /\ calculate_time_cursor s2 = false /\ ta_trace s2 = ta_trace s1 /\
    rtp_time_stamp s2 = u32 ((cur_epochs s + 1) * ta_sample_num cfg)) as (F1 & F2 & F3 & F4) by done.
  clearbody s2. split; [|done]. split; rewrite ?F1, ?F2, ?F3, ?S3; [lia| |done].
  intros _. rewrite F4, t1. do 2 f_equal. lia.
Qed.

Lemma timed_tasklet E0 env s :
  0 <= E0 -> (calculate_time_cursor s = true -> clock_on_time env s) -> ta_timed E0 s ->
  ta_timed E0 (snd (tasklet_frame env s)).
Proof using Hrate Hsn Hdefault Hmax.
  intros H0 Hon Hs.
  apply (tasklet_frame_inv (fun s => ta_timed E0 s /\ (calculate_time_cursor s = true -> clock_on_time env s))
    (ta_timed E0) (fun s => ta_timed E0 s /\ calculate_time_cursor s = false)); [..|done].
  - intros s1 s2 [= E1 E2 E3 E4 E5 E6 E7 E8 E9 E10] [H1 H2]. split; [apply (timed_same E0 s1); by rewrite ?E10|].
    unfold clock_on_time in *. by rewrite E6, E9.
  - intros s1 s2 [= E1 E2 E3 E4 E5 E6 E7 E8 E9 E10]. apply timed_same; by rewrite ?E10.
  - by intros s1 [].
  - intros s1 [H1 _]. destruct (next_frame_rest env s1) as (_ & ? & ? & ? & ?). by apply (timed_same E0 s1).
  - intros s1 [H1 H2] _. destruct (next_frame_rest env s1) as (_ & E2 & E3 & E4 & E5).
    apply timed_packet_time; [done|by apply (timed_same E0 s1)|]. unfold clock_on_time in *. by rewrite E3, E5.
  - by intros s1 [].
  - intros s1 [H1 _] _ _. by apply (timed_same E0 s1).
  - intros s1 pkt pkt_r [[t1 t2 t3] Hc] -> _. unfold ta_advance. rewrite Hc in t1. specialize (t2 Hc).
    set (s2 := ta_emit _ _ <| st30_pkt_idx ::= Z.succ |> <| calculate_time_cursor := true |>).
    destruct (frame_end_rest s2) as (_ & E2 & E3 & E4 & E5). apply (timed_same E0 s2); [done..|].
    assert (built 0 (ta_trace s2) = builds s1 ++ [fst (tx_audio_session_build_packet cfg s1)]) as Hb by apply built_snoc.
    assert (cur_epochs s2 = cur_epochs s1 /\ calculate_time_cursor s2 = true) as [F1 F2] by done. clearbody s2.
    split; rewrite ?Hb, ?F1, ?F2; [|done|].
    + rewrite t1. unfold arr_len. rewrite length_app. cbn. lia.
    + intros k b Hk. apply lookup_app_Some in Hk as [Hk|[Hge Hk]]; [by apply t3|].
      apply list_lookup_singleton_Some in Hk as [Hk <-]. cbn. rewrite t2. unfold arr_len. do 3 f_equal. lia.
Qed.

(** *** Other calls *)

Lemma transmit_rest env s_port s :
  let s' := snd (tx_audio_session_tasklet_transmit env s_port s) in
  (ta_frames s', st30_frame_idx s', st30_frame_stat s', st30_pkt_idx s', st30_seq_id s',
   (cur_epochs s', rtp_time_stamp s', calculate_time_cursor s')) =
  (ta_frames s, st30_frame_idx s, st30_frame_stat s, st30_pkt_idx s, st30_seq_id s,
   (cur_epochs s, rtp_time_stamp s, calculate_time_cursor s)) /\
  (forall q, built q (ta_trace s') = built q (ta_trace s)) /\ taken (ta_trace s') = takes s.
Proof.
  assert (forall q m tr, built q (tr ++ [TaSend s_port m]) = built q tr) as Hb
    by (intros; etransitivity; [apply built_snoc|apply app_nil_r]).
  assert (forall m tr, taken (tr ++ [TaSend s_port m]) = taken tr) as Ht
    by (intros; etransitivity; [apply taken_snoc|apply app_nil_r]).
  cbv zeta. unfold tx_audio_session_tasklet_transmit, ta_tx_pending, ta_port_upd.
  destruct (s_port =? 0); repeat case_match; simplify_eq; cbn -[built taken]; rewrite ?Ht; (split; [done|]); (split; [|done]);
    intros q; by rewrite ?Hb.
Qed.
End Stream.

(** ** Main theorems *)

Section Main.
Context (cfg : ta_config) (tai_of_next : Z -> Z) (media_clk_to_tai : Z -> Z -> Z -> Z).
Abbreviation tasklet_frame := (tx_audio_session_tasklet_frame cfg tai_of_next media_clk_to_tai).

Definition ta_step (s : ta_session) (op : ta_op) : ta_session :=
  match op with
  | TaBuildCall env => snd (tasklet_frame env s)
  | TaTransmitCall env s_port => snd (tx_audio_session_tasklet_transmit env s_port s)
  | TaWrite f data => ta_frame_upd f (fun fr => fr <| tf_data := data |>) s
  end.
Definition ta_run (l : list ta_op) (s : ta_session) : ta_session := fold_left ta_step l s.

(** The transmitter works on the two ports, the application names its frames and writes
    whole frames while the session does not use them. *)
Definition ta_op_ok (s : ta_session) (op : ta_op) : Prop :=
  match op with
  | TaBuildCall env => env_ok env s
  | TaTransmitCall _ s_port => ta_is_port s_port
  | TaWrite f data => tf_refcnt (ta_frame_at s f) = 0 /\ arr_len data = ta_total_pkts cfg * ta_pkt_len cfg
  end.
(** A condition on each call and the state it meets. *)
Fixpoint ta_all (ok : ta_session -> ta_op -> Prop) (l : list ta_op) (s : ta_session) : Prop :=
  match l with
  | [] => True
  | op :: l => ok s op /\ ta_all ok l (ta_step s op)
  end.

Lemma run_inv (P : ta_session -> Prop) (ok : ta_session -> ta_op -> Prop) l s :
  (forall s op, P s -> ok s op -> P (ta_step s op)) -> P s -> ta_all ok l s -> P (ta_run l s).
Proof.
  intros Hstep. revert s. induction l as [|op l IH]; intros s Hs Hl; [done|]. destruct Hl as [Hop Hl].
  apply IH; [|done]. by apply Hstep.
Qed.

Lemma ordered_step s op : ta_ordered s -> ta_op_ok s op -> ta_ordered (ta_step s op).
Proof.
  intros Hs Hop. destruct op as [env|env s_port|f data].
  - by apply tasklet_frame_ordered.
  - by apply transmit_ordered.
  - destruct Hs. split; by apply (order_same [] _ s).
Qed.

(** The second port carries the packets of the first. *)
Definition ta_mirrored (s : ta_session) : Prop :=
  built 1 (ta_trace s) = if send_r cfg then tx_audio_session_update_redundant <$> built 0 (ta_trace s) else [].

Lemma mirrored_trace s s' :
  (forall q, built q (ta_trace s') = built q (ta_trace s)) -> ta_mirrored s -> ta_mirrored s'.
Proof. intros H. unfold ta_mirrored. by rewrite !H. Qed.

Lemma mirrored_step s op : ta_mirrored s -> ta_op_ok s op -> ta_mirrored (ta_step s op).
Proof.
  intros Hs Hop. destruct op as [env|env s_port|f data]; cbn [ta_step].
  - apply (tasklet_frame_inv cfg tai_of_next media_clk_to_tai ta_mirrored ta_mirrored ta_mirrored); try done.
    + intros s1 s2 [= _ _ _ _ _ _ _ _ _ E]. apply mirrored_trace. by rewrite E.
    + intros s1 s2 [= _ _ _ _ _ _ _ _ _ E]. apply mirrored_trace. by rewrite E.
    + intros s1. apply mirrored_trace. intros q. unfold ta_next_frame. repeat case_match; try done.
      etransitivity; [apply built_snoc|apply app_nil_r].
    + intros s1 H1 _. destruct (packet_time_content cfg tai_of_next media_clk_to_tai env (snd (ta_next_frame env s1))) as (_ & _ & _ & _ & E & _).
      revert H1. apply mirrored_trace. intros q. rewrite E. unfold ta_next_frame. repeat case_match; try done.
      etransitivity; [apply built_snoc|apply app_nil_r].
    + intros s1 pkt pkt_r H1 _ ->. unfold ta_advance.
      set (s2 := ta_emit _ _ <| st30_pkt_idx ::= Z.succ |> <| calculate_time_cursor := true |>).
      assert (ta_mirrored s2) as H2.
      { unfold ta_mirrored in *. change (ta_trace s2) with (ta_trace s1 ++ [TaBuild pkt (if send_r cfg
          then Some (tx_audio_session_update_redundant pkt) else None)]).
        rewrite !built_snoc, H1. by destruct (send_r cfg); [rewrite fmap_app|]. }
      clearbody s2. revert H2. apply mirrored_trace. intros q. unfold ta_frame_end. repeat case_if; try done;
        (etransitivity; [apply built_snoc|apply app_nil_r]).
  - destruct (transmit_rest env s_port s) as (_ & Hb & _). by apply (mirrored_trace s).
  - by apply (mirrored_trace s).
Qed.

Lemma fresh_ordered cnt ring ptp :
  fifo_wf ring -> fifo_view ring = [] -> ta_ordered (ta_fresh cfg cnt ring ptp).
Proof.
  intros Hwf Hv. apply ordered_intro. intros q Hq. destruct Hq as [-> | ->]; split; try done; cbn; by rewrite Hv.
Qed.

(** C14: For every interleaving of building, transmitting on both ports and writing frames,
    what was sent on a port followed by the packets still on their way there (taken out
    early, in the ring, waiting for room) is exactly what was built for it, in order: no
    packet is lost, repeated or overtaken. The second port carries the same RTP packets as
    the first. *)
Theorem ta_stream_order cnt ring ptp l s_port :
  fifo_wf ring -> fifo_view ring = [] -> ta_is_port s_port ->
  let s := ta_run l (ta_fresh cfg cnt ring ptp) in
  ta_all ta_op_ok l (ta_fresh cfg cnt ring ptp) ->
  sent s_port (ta_trace s) ++ (mb_at s <$> ta_queue s_port s) = built s_port (ta_trace s) /\
  built 1 (ta_trace s) = if send_r cfg then tx_audio_session_update_redundant <$> built 0 (ta_trace s) else [].
Proof.
  intros Hwf Hv Hp s Hl. split.
  - pose proof (run_inv ta_ordered ta_op_ok l _ ordered_step (fresh_ordered cnt ring ptp Hwf Hv) Hl) as Ho.
    pose proof (ord_stream _ _ _ (ordered_at s_port _ Hp Ho)) as Hst. by rewrite app_nil_r in Hst.
  - apply (run_inv ta_mirrored ta_op_ok l _ mirrored_step); [|done]. unfold ta_mirrored. by destruct (send_r cfg).
Qed.

Context (Hsize : 0 < ta_pkt_len cfg /\ 0 < ta_total_pkts cfg /\ ta_total_pkts cfg * ta_pkt_len cfg < 4294967296).

Lemma content_step s op : ta_content cfg s -> ta_op_ok s op -> ta_content cfg (ta_step s op).
Proof using Hsize.
  intros Hs Hop. destruct op as [env|env s_port|f data]; cbn [ta_step].
  - by apply content_tasklet.
  - destruct (transmit_rest env s_port s) as ([= E1 E2 E3 E4 E5 E6 E7 E8] & Hb & Ht).
    apply (content_meta cfg s); try done; by rewrite E1.
  - destruct Hop as [Href Hlen]. destruct Hs as [c1 c0 c2 c3 c4 c5 c6 c7]. split; cbn; try done.
    + rewrite (list_fmap_alter tf_data _ (fun _ => data)) by (by apply Forall_true). by apply Forall_alter.
    + by rewrite fmap_alter_same.
    + intros Hsd. destruct (c6 Hsd) as (d & pre & Hd & Hpre). exists d, pre. split; [|done].
      rewrite list_lookup_fmap in *. rewrite list_lookup_alter_ne; [done|]. intros ->.
      change (ta_sending (ta_frame_upd (st30_frame_idx s) _ s)) with (ta_sending s) in Hsd.
      unfold ta_frame_at in Href. destruct (ta_frames s !! st30_frame_idx s) as [fr|] eqn:Efr; [|done]. cbn in Href.
      specialize (c3 (st30_frame_idx s) (tf_refcnt fr)). rewrite list_lookup_fmap, Efr, Hsd, bool_decide_eq_true_2 in c3 by done.
      specialize (c3 eq_refl). cbn in c3. lia.
Qed.

Lemma fresh_content cnt ring ptp : ta_content cfg (ta_fresh cfg cnt ring ptp).
Proof using Hsize.
  destruct Hsize as (H1 & H2 & H3). split; cbn; try done.
  - apply Forall_fmap, Forall_replicate. unfold compose. unfold arr_len. cbn. rewrite length_replicate. nia.
  - intros f n. rewrite list_lookup_fmap. destruct (_ !! f) as [fr|] eqn:E; [|done].
    apply lookup_replicate_1 in E as [-> _]. cbn. congruence.
Qed.

Lemma run_content cnt ring ptp l :
  ta_all ta_op_ok l (ta_fresh cfg cnt ring ptp) -> ta_content cfg (ta_run l (ta_fresh cfg cnt ring ptp)).
Proof using Hsize. intros Hl. exact (run_inv _ ta_op_ok l _ content_step (fresh_content cnt ring ptp) Hl). Qed.

(** The redundant packet can be allocated. *)
Definition ta_alloc_ok (s : ta_session) (op : ta_op) : Prop :=
  match op with TaBuildCall env => send_r cfg = true -> env_alloc_r env = true | _ => True end.

Lemma seq_step s op : ta_seq s -> ta_alloc_ok s op -> ta_seq (ta_step s op).
Proof.
  intros Hs Hop. destruct op as [env|env s_port|f data]; cbn [ta_step].
  - by apply seq_tasklet.
  - destruct (transmit_rest env s_port s) as ([= E1 E2 E3 E4 E5 E6 E7 E8] & Hb & _). by apply (seq_same s).
  - by apply (seq_same s).
Qed.

(** C21: The stream carries the frames of the application, in the order it named them and with
    the bytes they had when they were taken: packet number [k] is piece [k mod total] of
    frame number [k / total]. Only the frame being sent is in use, so that the application
    may write the others; and when the redundant packets can be allocated, packet [k] has
    sequence number [k]. *)
Theorem ta_stream_content cnt ring ptp l :
  let s := ta_run l (ta_fresh cfg cnt ring ptp) in
  ta_all ta_op_ok l (ta_fresh cfg cnt ring ptp) ->
  (forall k b, built 0 (ta_trace s) !! k = Some b -> pkt_content cfg (taken (ta_trace s)) k b) /\
  (forall f, tf_refcnt (ta_frame_at s f) <> 0 -> ta_sending s = true /\ f = st30_frame_idx s) /\
  (ta_all ta_alloc_ok l (ta_fresh cfg cnt ring ptp) ->
     forall k b, built 0 (ta_trace s) !! k = Some b -> mb_seq b = u16 (Z.of_nat k)).
Proof using Hsize.
  intros s Hl. pose proof (run_content cnt ring ptp l Hl) as Hc. fold s in Hc.
  split; [apply Hc|]. split.
  - intros f Hf. unfold ta_frame_at in Hf. destruct (ta_frames s !! f) as [fr|] eqn:E; [|done]. cbn in Hf.
    pose proof (con_ref _ _ Hc f (tf_refcnt fr)) as Hr. rewrite list_lookup_fmap, E in Hr. specialize (Hr eq_refl).
    destruct (ta_sending s); [|done]. cbn in Hr. case_bool_decide; done.
  - intros Ha. apply (run_inv ta_seq ta_alloc_ok l _ seq_step); [|done]. by split.
Qed.

Context (Hrate : 0 < ta_sample_rate cfg < 500000000) (Hsn : 0 < ta_sample_num cfg < 4294967296)
        (Hdefault : ta_user_pacing cfg = false /\ ta_user_timestamp cfg = false /\ ta_rtp_timestamp_delta_us cfg = 0)
        (Hmax : 0 < ta_max_onward_epochs cfg /\ 0 < ta_max_late_epochs cfg).

Definition ta_clock_ok (s : ta_session) (op : ta_op) : Prop :=
  match op with TaBuildCall env => calculate_time_cursor s = true -> clock_on_time cfg env s | _ => True end.

Lemma timed_step E0 s op : 0 <= E0 -> ta_timed cfg E0 s -> ta_clock_ok s op -> ta_timed cfg E0 (ta_step s op).
Proof using Hrate Hsn Hdefault Hmax.
  intros H0 Hs Hop. destruct op as [env|env s_port|f data]; cbn [ta_step].
  - by apply timed_tasklet.
  - destruct (transmit_rest env s_port s) as ([= E1 E2 E3 E4 E5 E6 E7 E8] & Hb & _). by apply (timed_same cfg E0 s).
  - by apply (timed_same cfg E0 s).
Qed.

Lemma run_timed cnt ring ptp l :
  let s0 := ta_fresh cfg cnt ring ptp in
  ta_all ta_clock_ok l s0 -> ta_timed cfg (cur_epochs s0) (ta_run l s0).
Proof using Hrate Hsn Hdefault Hmax.
  intros s0 Hl. assert (0 <= cur_epochs s0) as H0 by apply u64_range.
  apply (run_inv (ta_timed cfg (cur_epochs s0)) ta_clock_ok l s0 (fun s op => timed_step (cur_epochs s0) s op H0)); [|done].
  split; [|done..]. change (cur_epochs s0 = cur_epochs s0 + 0 + 0). lia.
Qed.

(** With the default pacing and a clock on time, packet number [k] of the stream has the
    RTP time stamp of the [k]-th epoch after the session started: consecutive packets,
    also across frames, are exactly one packet of samples apart. *)
Theorem ta_stream_time cnt ring ptp l k b :
  let s0 := ta_fresh cfg cnt ring ptp in
  let s := ta_run l s0 in
  ta_all ta_clock_ok l s0 -> built 0 (ta_trace s) !! k = Some b ->
  mb_tmstamp b = u32 ((cur_epochs s0 + 1 + Z.of_nat k) * ta_sample_num cfg).
Proof using Hrate Hsn Hdefault Hmax.
  intros s0 s Hl Hk. exact (tim_pkts _ _ _ (run_timed cnt ring ptp l Hl) k b Hk).
Qed.
End Main.

(** ** Examples: frames of two packets of four samples on two ports *)

Definition ex_tx_cfg : ta_config := mk_ta_config 2 4 2 4 48000 12000 120 false false 0 false false 100.
Definition ex_ring : mt_u64_fifo := mk_fifo (replicate 8 0) 0 0 8 0.
(** Epoch [k] of packets of 4 samples at 48 kHz starts at [k * 250000 / 3] ns. *)
Definition ex_tx_env (ptp : Z) : ta_env := mk_ta_env ptp 0 0 (Some (0%nat, ST10_TIMESTAMP_FMT_TAI, 0)) true true true 0.
Definition ex_tx_next (z : Z) : Z := z.
Definition ex_tx_unwrap (a b c : Z) : Z := a.
Definition ex_tx_fresh : ta_session := ta_fresh ex_tx_cfg 2 ex_ring 1000000.
(** A frame is written and sent, the first packet of port 0 leaves. *)
Definition ex_tx_ops : list ta_op :=
  [TaWrite 0 [1; 2; 3; 4; 5; 6; 7; 8]; TaBuildCall (ex_tx_env 1000000); TaBuildCall (ex_tx_env 1080000);
   TaTransmitCall (mk_ta_tx_env true 200000000 true 200000000 true 0) 0].
Abbreviation ex_tx_run := (ta_run ex_tx_cfg ex_tx_next ex_tx_unwrap ex_tx_ops ex_tx_fresh).

Lemma ex_ring_ok : fifo_wf ex_ring /\ fifo_view ex_ring = [].
Proof. split; [by split|done]. Qed.

Lemma ex_tx_ok : ta_all ex_tx_cfg ex_tx_next ex_tx_unwrap (ta_op_ok ex_tx_cfg) ex_tx_ops ex_tx_fresh.
Proof. cbn [ta_all ex_tx_ops ta_op_ok]. repeat split; try (left; reflexivity); vm_compute; lia || done. Qed.

Lemma ta_stream_order_witness :
  sent 0 (ta_trace ex_tx_run) ++ (mb_at ex_tx_run <$> ta_queue 0 ex_tx_run) = built 0 (ta_trace ex_tx_run) /\
  length (sent 0 (ta_trace ex_tx_run)) = 1%nat /\ length (built 0 (ta_trace ex_tx_run)) = 2%nat.
Proof.
  split; [|split; vm_compute; reflexivity]. destruct ex_ring_ok as [H1 H2].
  exact (proj1 (ta_stream_order ex_tx_cfg ex_tx_next ex_tx_unwrap 2 ex_ring 1000000 ex_tx_ops 0 H1 H2 (or_introl eq_refl) ex_tx_ok)).
Defined.

Lemma ta_stream_content_witness :
  exists b, built 0 (ta_trace ex_tx_run) !! 1%nat = Some b /\ pkt_content ex_tx_cfg (taken (ta_trace ex_tx_run)) 1 b /\
    mb_payload b = [5; 6; 7; 8].
Proof.
  eexists. split; [vm_compute; reflexivity|]. split; [|reflexivity].
  apply (ta_stream_content ex_tx_cfg ex_tx_next ex_tx_unwrap ltac:(by vm_compute) 2 ex_ring 1000000 ex_tx_ops ex_tx_ok).
  vm_compute. reflexivity.
Defined.

Lemma ex_tx_clock : ta_all ex_tx_cfg ex_tx_next ex_tx_unwrap (ta_clock_ok ex_tx_cfg) ex_tx_ops ex_tx_fresh.
Proof. cbn [ta_all ex_tx_ops ta_clock_ok]. repeat split; vm_compute; lia || done. Qed.

Lemma ta_stream_time_witness :
  exists b, built 0 (ta_trace ex_tx_run) !! 1%nat = Some b /\ mb_tmstamp b = 56.
Proof.
  eexists. split; [vm_compute; reflexivity|].
  rewrite (ta_stream_time ex_tx_cfg ex_tx_next ex_tx_unwrap ltac:(by vm_compute) ltac:(by vm_compute) ltac:(by vm_compute)
    ltac:(by vm_compute) 2 ex_ring 1000000 ex_tx_ops 1 _ ex_tx_clock ltac:(vm_compute; reflexivity)). reflexivity.
Defined.

(** When the packet of the second port cannot be allocated, the packet already built is
    dropped, and the one built in its place has the sequence number after it: the receivers
    count a lost packet. *)
Lemma seq_gap_after_failed_copy :
  let fail := mk_ta_env 1000000 0 0 (Some (0%nat, ST10_TIMESTAMP_FMT_TAI, 0)) true true false 0 in
  let s := ta_run ex_tx_cfg ex_tx_next ex_tx_unwrap
    [TaBuildCall (ex_tx_env 1000000); TaBuildCall fail; TaBuildCall (ex_tx_env 1080000)] ex_tx_fresh in
  mb_seq <$> built 0 (ta_trace s) = [0; 2] /\ mb_idx <$> built 0 (ta_trace s) = [0; 1].
Proof. vm_compute. split; reflexivity. Qed.

(** With ST30_TX_FLAG_USER_TIMESTAMP and without user pacing, the packets after the first
    carry the time of the packet before them: an application that keeps the time stamp it
    was offered gets the first two packets of a frame with the same RTP time stamp. *)
Definition ex_user_cfg : ta_config := mk_ta_config 1 4 3 4 48000 12000 120 false true 0 false false 100.
Lemma user_timestamp_lags :
  let offered := tx_audio_pacing_time ex_user_cfg (cur_epochs ex_tx_fresh + 1) in
  let env ptp := mk_ta_env ptp 0 0 (Some (0%nat, ST10_TIMESTAMP_FMT_TAI, offered)) true true true 0 in
  let s := ta_run ex_user_cfg ex_tx_next ex_tx_unwrap
    [TaBuildCall (env 1000000); TaBuildCall (env 1080000); TaBuildCall (env 1160000)] ex_tx_fresh in
  mb_tmstamp <$> built 0 (ta_trace s) = [52; 52; 56] /\ cur_epochs s * 4 = 60.
Proof. vm_compute. split; reflexivity. Qed.
