(* ===== verification/AudioEndToEnd.v ===== *)
(** From the application of an ST 2110-30 sender ([TxAudio]) to that of a receiver
    ([RxAudio]): the packets of a frame, in any order, repeated and over both ports, give
    the receiving application the bytes the sending one wrote. *)
From S2P Require Import Prelude Fifo Fmt TxCommon TxAudio AudioSend RxAudio AudioTimeline AudioDelivery.

(** A packet of the sender as the receiver sees it: payload type and SSRC come from the
    header of the session, the receive time from the network card. *)
Definition wire_pkt (pt ssrc ptp : Z) (m : ta_mbuf) : ra_pkt :=
  mk_ra_pkt (mb_seq m) (mb_tmstamp m) pt ssrc (mb_pkt_len m) (mb_pkt_len m) (mb_payload m) ptp.

(** Sender and receiver cut a frame into the same packets. *)
Record audio_match (tcfg : ta_config) (rcfg : ra_config) : Prop := {
  am_pkt_len : ta_pkt_len tcfg = pkt_len rcfg;
  am_total : ta_total_pkts tcfg = st30_total_pkts rcfg;
  am_samples : ta_sample_num tcfg = samples_per_pkt rcfg;
}.

(** Two sessions of the same audio format and frame size match. *)
Lemma attached_match tops rops tcfg rcfg mo ml th nc :
  ra_ops_sane rops ->
  to_fmt tops = ao_fmt rops -> to_ptime tops = ao_ptime rops -> to_sampling tops = ao_sampling rops ->
  to_channel tops = ao_channel rops -> to_framebuff_size tops = ao_framebuff_size rops ->
  tx_audio_session_attach tops mo ml th nc = inr tcfg -> rx_audio_session_attach rops = inr rcfg ->
  audio_match tcfg rcfg.
Proof.
  intros [Hc _ Hf] E1 E2 E3 E4 E5 Ht Hr.
  unfold tx_audio_session_attach, rx_audio_session_attach in *. rewrite E1, E2, E3, E4, E5 in Ht.
  do 5 (case_if_in Ht; [done|]). repeat (case_if_in Hr; [done|]). injection Ht as <-. injection Hr as <-.
  split; cbn; [done|done|]. unfold st30_get_packet_size in *.
  destruct (sample_size_range (ao_fmt rops)) as [Ha|Ha]; [|rewrite Ha in *; done].
  destruct (sample_num_range (ao_ptime rops) (ao_sampling rops)) as [Hn|Hn]; [|rewrite Hn in *; done].
  set (a := st30_get_sample_size _) in *. set (n := st30_get_sample_num _ _) in *. set (c := ao_channel rops) in *.
  rewrite (proj2 (Z.ltb_ge a 0)), (proj2 (Z.ltb_ge n 0)) in * by lia. unfold is_u16 in Hc.
  destruct (Z.eqb_spec c 0) as [Hc0|Hc0]; [done|]. assert (0 < a * c < 4294967296 /\ 0 < a * n <= 1536) as [Hac Han] by nia.
  rewrite (u32_id (a * c)) by (unfold is_u32; lia). unfold c_true. rewrite (proj2 (Z.eqb_neq (a * c) 0)) by lia. cbn [negb].
  rewrite u16_id by (unfold is_u16; lia). replace (i32 (a * n * c)) with (a * n * c) by (assert (0 <= a * n * c < 2147483648) by nia; mlia).
  apply Z.div_unique_exact; nia.
Qed.

Section EndToEnd.
Context (tcfg : ta_config) (tai_of_next : Z -> Z) (media_clk_to_tai : Z -> Z -> Z -> Z).
Context (rcfg : ra_config) (Hgeo : ra_geometry rcfg) (Hmatch : audio_match tcfg rcfg).

(** The packet of slot [i] of frame number [j] of the stream, from one of the ports. *)
Definition pkt_of_frame (tr : list ta_event) (j i : nat) (p : ra_pkt) : Prop :=
  exists m pt ssrc ptp, built 0 tr !! (j * Z.to_nat (ta_total_pkts tcfg) + i)%nat = Some m /\
    (p = wire_pkt pt ssrc ptp m \/ p = wire_pkt pt ssrc ptp (tx_audio_session_update_redundant m)) /\
    ra_wrong_stream rcfg p = None.

Lemma sent_frame_pkt cnt ring ptp l j i d p :
  let s0 := ta_fresh tcfg cnt ring ptp in
  let s := ta_run tcfg tai_of_next media_clk_to_tai l s0 in
  ta_content tcfg s -> ta_timed tcfg (cur_epochs s0) s ->
  taken (ta_trace s) !! j = Some d -> (i < Z.to_nat (ta_total_pkts tcfg))%nat -> pkt_of_frame (ta_trace s) j i p ->
  ra_wire p /\ frame_pkt rcfg (u32 ((cur_epochs s0 + 1 + Z.of_nat j * ta_total_pkts tcfg) * ta_sample_num tcfg)) d p i /\
  arr_len d = st30_frame_size rcfg.
Proof using Hgeo Hmatch.
  intros s0 s Hc Ht Hd Hi (m & pt & ssrc & pp & Hm & Hp & Hw). destruct Hmatch as [M1 M2 M3].
  pose proof (geo_pkt _ Hgeo) as Hpk. pose proof (geo_size _ Hgeo) as Hsz. pose proof (geo_total _ Hgeo) as Htot.
  unfold ST_PKT_MAX_ETHER_BYTES, SIZEOF_RFC3550_AUDIO_HDR in *.
  set (T := Z.to_nat (ta_total_pkts tcfg)) in *. assert (Z.of_nat T = ta_total_pkts tcfg) as HT by lia.
  destruct (con_pkts _ _ Hc _ _ Hm) as (d' & Hd' & _ & Hpl & Hln).
  pose proof (tim_pkts _ _ _ Ht _ _ Hm) as Hts.
  assert (Z.of_nat (j * T + i) = Z.of_nat j * ta_total_pkts tcfg + Z.of_nat i) as Hk by nia. rewrite Hk in *.
  rewrite Z.div_add_l, Z.div_small, Z.add_0_r, Nat2Z.id in Hd' by lia.
  assert (d' = d) as -> by congruence.
  rewrite (Z.add_comm (_ * _)), Z.mod_add, Z.mod_small in Hpl by lia.
  assert (arr_len d = st30_frame_size rcfg) as Hlen.
  { pose proof (con_takes _ _ Hc) as HF. rewrite Forall_lookup in HF. rewrite (HF _ _ Hd'). rewrite M1, M2. lia. }
  assert (arr_len (mb_payload m) = pkt_len rcfg) as Hpll.
  { rewrite Hpl, M1. apply chunk_length; [lia..|]. rewrite Hlen, Hsz. nia. }
  assert (ap_data_len p = 54 + pkt_len rcfg /\ ap_payload p = mb_payload m /\ ap_tmstamp p = mb_tmstamp m) as (P1 & P2 & P3).
  { destruct Hp as [-> | ->]; cbn; rewrite Hln, M1; done. }
  split; [|split; [|done]].
  - split; rewrite P1, ?P2; unfold SIZEOF_RFC3550_AUDIO_HDR; lia.
  - split.
    + rewrite <- M2. lia.
    + rewrite P3, Hts, <- M3. generalize (cur_epochs s0 + 1). intros e.
      replace ((e + (Z.of_nat j * ta_total_pkts tcfg + Z.of_nat i)) * ta_sample_num tcfg)
        with ((e + Z.of_nat j * ta_total_pkts tcfg) * ta_sample_num tcfg + Z.of_nat i * ta_sample_num tcfg) by ring.
      generalize ((e + Z.of_nat j * ta_total_pkts tcfg) * ta_sample_num tcfg) (Z.of_nat i * ta_sample_num tcfg). intros. mlia.
    + unfold aud_wanted, SIZEOF_RFC3550_AUDIO_HDR. rewrite Hw, P1. apply Z.eqb_refl.
    + rewrite P2. rewrite take_ge by (unfold arr_len in Hpll; lia). by rewrite Hpl, M1.
Qed.
End EndToEnd.

(** ** The way of a frame *)

(** Two sessions of the same audio, the sender with the pacing of the library. *)
Record audio_link (tops : st30_tx_ops) (rops : st30_rx_ops) (mo ml th : Z) (nc : bool) (tcfg : ta_config)
    (rcfg : ra_config) : Prop := {
  link_sane : ra_ops_sane rops;
  link_format : to_fmt tops = ao_fmt rops /\ to_ptime tops = ao_ptime rops /\ to_sampling tops = ao_sampling rops;
  link_size : to_channel tops = ao_channel rops /\ to_framebuff_size tops = ao_framebuff_size rops;
  link_pacing : to_user_pacing tops = false /\ to_user_timestamp tops = false /\ to_rtp_timestamp_delta_us tops = 0;
  link_limits : 0 < mo /\ 0 < ml;
  link_tx : tx_audio_session_attach tops mo ml th nc = inr tcfg;
  link_rx : rx_audio_session_attach rops = inr rcfg;
}.

Lemma sample_rate_ok ptime sampling :
  0 <= st30_get_sample_num ptime sampling -> 0 < st30_get_sample_rate sampling < 500000000.
Proof. destruct ptime, sampling; vm_compute; intuition congruence. Qed.

(** What the sender's theorems need of its configuration. *)
Lemma link_sender tops rops mo ml th nc tcfg rcfg :
  audio_link tops rops mo ml th nc tcfg rcfg ->
  ra_geometry rcfg /\ audio_match tcfg rcfg /\
  (0 < ta_pkt_len tcfg /\ 0 < ta_total_pkts tcfg /\ ta_total_pkts tcfg * ta_pkt_len tcfg < 4294967296) /\
  0 < ta_sample_rate tcfg < 500000000 /\ 0 < ta_sample_num tcfg < 4294967296 /\
  (ta_user_pacing tcfg = false /\ ta_user_timestamp tcfg = false /\ ta_rtp_timestamp_delta_us tcfg = 0) /\
  (0 < ta_max_onward_epochs tcfg /\ 0 < ta_max_late_epochs tcfg).
Proof.
  intros [Hs (F1 & F2 & F3) (F4 & F5) Hp Hl Ht Hr]. pose proof (attach_audio_geometry _ _ Hs Hr) as Hgeo.
  pose proof (attached_match _ _ _ _ _ _ _ _ Hs F1 F2 F3 F4 F5 Ht Hr) as Hm. split; [done|]. split; [done|].
  pose proof (geo_pkt _ Hgeo). pose proof (geo_total _ Hgeo). pose proof (geo_size _ Hgeo). pose proof (geo_size_max _ Hgeo).
  pose proof (geo_spp _ Hgeo). pose proof (geo_ticks _ Hgeo). pose proof (geo_ticks_max _ Hgeo). destruct Hm as [M1 M2 M3].
  split; [rewrite M1, M2; lia|].
  assert (0 <= st30_get_sample_num (to_ptime tops) (to_sampling tops) /\
    ta_sample_rate tcfg = st30_get_sample_rate (to_sampling tops) /\
    (ta_user_pacing tcfg = to_user_pacing tops /\ ta_user_timestamp tcfg = to_user_timestamp tops /\
     ta_rtp_timestamp_delta_us tcfg = to_rtp_timestamp_delta_us tops) /\
    ta_max_onward_epochs tcfg = mo /\ ta_max_late_epochs tcfg = ml) as (G1 & G2 & (G3 & G4 & G5) & G6 & G7).
  { unfold tx_audio_session_attach in Ht. repeat (case_if_in Ht; [done|]). injection Ht as <-. cbn. zbool. done. }
  rewrite G2, G3, G4, G5, G6, G7, M3. split; [by apply (sample_rate_ok (to_ptime tops))|]. split; [|done].
  split; [done|]. nia.
Qed.

(** C4: A frame the sending application wrote and the session took is, when its packets reach
    the receiver in any order, repeated, and each over either port, delivered to the
    receiving application once, COMPLETE, with exactly the bytes written and the RTP time of
    its first sample. Assumed: both sessions were attached with the same format, sampling,
    channels, packet time and frame size; the library paces the sender and stamps its
    packets, so neither ST30_TX_FLAG_USER_PACING nor ST30_TX_FLAG_USER_TIMESTAMP is set (with
    the latter the times of a frame lag, [user_timestamp_lags]) and rtp_timestamp_delta_us is
    0; the sender's clock is on time; the receiver is between two frames on the grid of this
    stream, at most half the range of RTP times before the frame, with a frame free. *)
Theorem st30_end_to_end tops rops mo ml th nc tcfg rcfg tai_of_next media_clk_to_tai cnt ring ptp l j d
    app h f k net p s_port i :
  audio_link tops rops mo ml th nc tcfg rcfg ->
  let s0 := ta_fresh tcfg cnt ring ptp in
  let s := ta_run tcfg tai_of_next media_clk_to_tai l s0 in
  let r := ra_run rcfg app h in
  let B := u32 ((cur_epochs s0 + 1 + Z.of_nat j * ta_total_pkts tcfg) * ta_sample_num tcfg) in
  let pkts := net ++ [(p, s_port, i)] in
  ta_all tcfg tai_of_next media_clk_to_tai (ta_op_ok tcfg) l s0 ->
  ta_all tcfg tai_of_next media_clk_to_tai (ta_clock_ok tcfg) l s0 ->
  taken (ta_trace s) !! j = Some d ->
  ra_legal rcfg app h aud_init -> ra_ready rcfg r f ->
  0 <= k -> (k + 1) * rtp_ticks_per_frame rcfg < 2147483648 ->
  B = u32 (ra_tmstamp r + 1 + k * rtp_ticks_per_frame rcfg) ->
  Forall (fun '(p, _, i) => (i < Z.to_nat (ta_total_pkts tcfg))%nat /\ pkt_of_frame tcfg rcfg (ta_trace s) j i p) pkts ->
  covered rcfg (pkt_slots pkts) -> i ∉ pkt_slots net ->
  exists ts_first, ra_notified (ra_run rcfg app (h ++ pkt_ops pkts)) =
    ra_notified r ++ [mk_ra_event f (mk_ra_meta B ts_first (ra_fmt rcfg) (ra_sampling rcfg) (ra_channel rcfg)
                        (st30_frame_size rcfg) true) d].
Proof.
  intros Hlink s0 s r B pkts Hok Hclk Hd Hl Hready Hk Hkt HB Hp Hcov Hnew.
  destruct (link_sender _ _ _ _ _ _ _ _ Hlink) as (Hgeo & Hmatch & Hsize & Hrate & Hsn & Hdef & Hmax).
  pose proof (run_content tcfg tai_of_next media_clk_to_tai Hsize cnt ring ptp l Hok) as Hcon.
  pose proof (run_timed tcfg tai_of_next media_clk_to_tai Hrate Hsn Hdef Hmax cnt ring ptp l Hclk) as Htim.
  assert (Forall (fun '(p, _, i) => ra_wire p /\ frame_pkt rcfg B d p i /\ arr_len d = st30_frame_size rcfg) pkts) as Hall.
  { eapply Forall_impl; [exact Hp|]. intros [[q sp] n] [Hn Hq].
    exact (sent_frame_pkt tcfg _ _ rcfg Hgeo Hmatch cnt ring ptp l j n d q Hcon Htim Hd Hn Hq). }
  assert (arr_len d = st30_frame_size rcfg) as Hlen.
  { apply Forall_app in Hall as [_ Hlast]. apply Forall_cons in Hlast as [(_ & _ & ?) _]. done. }
  apply (frame_delivered rcfg app h f B k d net p s_port i); try done.
  - rewrite (attach_audio_frames _ _ (link_rx _ _ _ _ _ _ _ _ Hlink)).
    pose proof (sane_cnt _ (link_sane _ _ _ _ _ _ _ _ Hlink)). lia.
  - eapply Forall_impl; [exact Hall|]. by intros [[]] (? & ? & _).
Qed.

(** *** Example *)

Definition ex_link_tops : st30_tx_ops :=
  mk_st30_tx_ops 2 ST30_FMT_PCM8 ST31_PTIME_80US ST30_SAMPLING_48K 1 2 8 false false 0 false.
Definition ex_sent (k : nat) : ta_mbuf :=
  default (mk_ta_mbuf 0 0 0 0 0 [] 0) (built 0 (ta_trace ex_tx_run) !! k).
(** The receiver has delivered the frame before. *)
Definition ex_link_history : list ra_op :=
  [RaPkt (ex_audio_pkt 0 44 [9; 9; 9; 9]) 0; RaPkt (ex_audio_pkt 1 48 [9; 9; 9; 9]) 0].
(** The second packet comes over the second port, before the first. *)
Definition ex_link_net : list (ra_pkt * Z * nat) :=
  [(wire_pkt 111 7 5 (tx_audio_session_update_redundant (ex_sent 1)), 1, 1%nat)].

Lemma ex_link : audio_link ex_link_tops ex_audio_ops 12000 120 100 false ex_tx_cfg ex_audio_cfg.
Proof. by split. Qed.

Lemma ex_link_pkts :
  Forall (fun '(p, _, i) => (i < Z.to_nat (ta_total_pkts ex_tx_cfg))%nat /\
      pkt_of_frame ex_tx_cfg ex_audio_cfg (ta_trace ex_tx_run) 0 i p)
    (ex_link_net ++ [(wire_pkt 111 7 6 (ex_sent 0), 0, 0%nat)]).
Proof.
  constructor; [|constructor; [|constructor]].
  - split; [vm_compute; lia|]. exists (ex_sent 1), 111, 7, 5.
    split; [vm_compute; reflexivity|]. split; [by right|vm_compute; reflexivity].
  - split; [vm_compute; lia|]. exists (ex_sent 0), 111, 7, 6.
    split; [vm_compute; reflexivity|]. split; [by left|vm_compute; reflexivity].
Qed.

Lemma st30_end_to_end_witness :
  exists ts_first, ra_notified (ra_run ex_audio_cfg ex_keeps
      (ex_link_history ++ pkt_ops (ex_link_net ++ [(wire_pkt 111 7 6 (ex_sent 0), 0, 0%nat)]))) =
    ra_notified (ra_run ex_audio_cfg ex_keeps ex_link_history) ++
      [mk_ra_event 1 (mk_ra_meta 52 ts_first ST30_FMT_PCM8 ST30_SAMPLING_48K 1 8 true) [1; 2; 3; 4; 5; 6; 7; 8]].
Proof.
  apply (st30_end_to_end ex_link_tops ex_audio_ops 12000 120 100 false ex_tx_cfg ex_audio_cfg ex_tx_next ex_tx_unwrap
    2 ex_ring 1000000 ex_tx_ops 0 [1; 2; 3; 4; 5; 6; 7; 8] ex_keeps ex_link_history 1 0 ex_link_net
    (wire_pkt 111 7 6 (ex_sent 0)) 0 0%nat ex_link ex_tx_ok ex_tx_clock).
  - vm_compute. reflexivity.
  - by repeat split.
  - by split; vm_compute.
  - lia.
  - by vm_compute.
  - vm_compute. reflexivity.
  - exact ex_link_pkts.
  - intros n Hn. destruct n as [|[|n]]; [by right; left|by left|vm_compute in Hn; lia].
  - apply (bool_decide_unpack _). by vm_compute.
Defined.
