(* ===== verification/HandleGuard.v ===== *)
(** The session-handle lifecycle gate, lib/src/mt_handle_guard.h: callers of the
    public API take a reference around their work, a destroying thread claims
    the handle, wakes the callers that sleep in a blocking get, drains all callers and
    frees the wrapper. Every atomic access is one step of the thread that makes it; the
    steps of all threads interleave in one total order, which is what the sequentially
    consistent accesses of the code give. A step of a thread on a freed wrapper is [Fault].
    The blocking get is that of st20_pipeline_rx.c; the other pipelines wait alike. *)
From S2P Require Import Prelude.

(** ** The code as a step machine *)

(** Where a thread is. A caller of the public API runs [mt_handle_acquire], then
    its body, then [mt_handle_release]; a destroyer runs
    [mt_handle_begin_destroy], [wake_on_destroy], [mt_handle_drain] and the teardown. *)
Inductive thread :=
(* a caller: [ok] says whether the handle has the type it wants *)
| CallStart (ok : bool)
| CallChecked                (* past the fast reject, before the increment *)
| CallCounted                (* incremented, before the second load *)
| CallUndo                   (* saw the flag, before the decrement *)
| CallInside                 (* holds a reference: the body of the API *)
| CallLock                   (* a blocking get found no frame and wants the mutex *)
| CallLoop                   (* has the mutex, at the condition of the wait loop *)
| CallClaim                  (* has the mutex, looks for a frame once more *)
| CallAsleep                 (* in [cond_timedwait], without the mutex *)
| CallRelock (timeout : bool) (* woken, wants the mutex back *)
| CallExit                   (* has the mutex, behind the loop *)
| CallWaker                  (* [wake_block], wants the mutex *)
| CallLeave                  (* the body is done, before the release *)
| CallDone (ret : Z)
(* a destroyer *)
| FreeStart (ok : bool)
| FreeWake                   (* won the claim, before [wake_on_destroy] *)
| FreeDrain                  (* spinning *)
| FreeTeardown               (* drained: tears down and frees the wrapper *)
| FreeDone (ret : Z)
| Fault.                     (* touched the freed wrapper *)
#[export] Instance thread_eq : EqDecision thread.
Proof. solve_decision. Defined.

(** The lifecycle fields of a wrapper, its mutex, and whether its memory is freed. *)
Record handle := mk_handle {
  lc_destroying : Z;
  lc_refcnt : Z;
  block_wake_pending : bool;
  block_wake_mutex : bool;
  wrapper_freed : bool;
}.
#[export] Instance eta_handle : Settable handle := fun h =>
  mk_handle (lc_destroying h) (lc_refcnt h) (block_wake_pending h) (block_wake_mutex h) (wrapper_freed h).

(** What the surroundings decide: what an API body does, whether a frame can be claimed,
    why a sleeper wakes up (a signal or for no reason, or its deadline). *)
Inductive choice := ChPlain | ChGet | ChWakeBlock | ChFrame | ChSignal | ChTimeout.

(** [mt_handle_acquire], one atomic access at a time. *)
Definition acquire_step (h : handle) (t : thread) : option (handle * thread) :=
  match t with
  | CallStart ok =>
      if negb ok then Some (h, CallDone (- EIO))
      else if c_true (lc_destroying h) then Some (h, CallDone (- EIO))
      else Some (h, CallChecked)
  | CallChecked => Some (h <| lc_refcnt ::= fun n => u32 (n + 1) |>, CallCounted)
  | CallCounted =>
      if c_true (lc_destroying h) then Some (h, CallUndo) else Some (h, CallInside)
  | CallUndo => Some (h <| lc_refcnt ::= fun n => u32 (n - 1) |>, CallDone (- EIO))
  | _ => None
  end.

Definition mt_handle_release (h : handle) (t : thread) : option (handle * thread) :=
  match t with
  | CallLeave => Some (h <| lc_refcnt ::= fun n => u32 (n - 1) |>, CallDone 0)
  | _ => None
  end.

(** The wait of a blocking get: the mutex is taken, the loop ends on a pending wake, on the
    flag, on a frame or on the deadline; sleeping gives the mutex up. *)
Definition block_wait_step (ch : choice) (h : handle) (t : thread) : option (handle * thread) :=
  match t with
  | CallLock => if block_wake_mutex h then None else Some (h <| block_wake_mutex := true |>, CallLoop)
  | CallLoop =>
      if block_wake_pending h || c_true (lc_destroying h) then Some (h, CallExit) else Some (h, CallClaim)
  | CallClaim =>
      match ch with ChFrame => Some (h, CallExit) | _ => Some (h <| block_wake_mutex := false |>, CallAsleep) end
  | CallAsleep =>
      match ch with ChSignal => Some (h, CallRelock false) | ChTimeout => Some (h, CallRelock true) | _ => None end
  | CallRelock timeout =>
      if block_wake_mutex h then None
      else Some (h <| block_wake_mutex := true |>, if timeout then CallExit else CallLoop)
  | CallExit => Some (h <| block_wake_pending := false |> <| block_wake_mutex := false |>, CallLeave)
  | _ => None
  end.

(** [rx_st20p_block_wake]: under the mutex the flag is set and every sleeper woken. *)
Definition block_wake_step (h : handle) : option handle :=
  if block_wake_mutex h then None else Some (h <| block_wake_pending := true |>).
Definition wake_all (ts : list thread) : list thread :=
  (fun t => match t with CallAsleep => CallRelock false | _ => t end) <$> ts.

(** The compare-and-exchange from 0 to 1. *)
Definition mt_handle_begin_destroy (h : handle) (t : thread) : option (handle * thread) :=
  match t with
  | FreeStart ok =>
      if negb ok then Some (h, FreeDone (- EIO))
      else if lc_destroying h =? 0 then Some (h <| lc_destroying := 1 |>, FreeWake)
      else Some (h, FreeDone (- EBUSY))
  | _ => None
  end.

(** One turn of the spin loop. *)
Definition mt_handle_drain (h : handle) (t : thread) : option (handle * thread) :=
  match t with
  | FreeDrain => if lc_refcnt h >? 0 then Some (h, FreeDrain) else Some (h, FreeTeardown)
  | _ => None
  end.

(** The next step of a thread on a live wrapper; a finished one has none. *)
Definition thread_step (ch : choice) (h : handle) (t : thread) : option (handle * thread) :=
  match t with
  | CallStart _ | CallChecked | CallCounted | CallUndo => acquire_step h t
  | CallInside => Some (h, match ch with ChGet => CallLock | ChWakeBlock => CallWaker | _ => CallLeave end)
  | CallLock | CallLoop | CallClaim | CallAsleep | CallRelock _ | CallExit => block_wait_step ch h t
  | CallWaker => h ← block_wake_step h; Some (h, CallLeave)
  | CallLeave => mt_handle_release h t
  | FreeStart _ => mt_handle_begin_destroy h t
  | FreeWake => h ← block_wake_step h; Some (h, FreeDrain)
  | FreeDrain => mt_handle_drain h t
  | FreeTeardown => Some (h <| wrapper_freed := true |>, FreeDone 0)
  | CallDone _ | FreeDone _ | Fault => None
  end.

Definition finished (t : thread) : bool := match t with CallDone _ | FreeDone _ | Fault => true | _ => false end.
Definition broadcasts (t : thread) : bool := match t with CallWaker | FreeWake => true | _ => false end.

Record system := mk_system { sys_handle : handle; sys_threads : list thread }.

(** Thread [i] makes its next step. *)
Definition sys_step (s : system) (i : nat) (ch : choice) : option system :=
  t ← sys_threads s !! i;
  if finished t then None
  else if wrapper_freed (sys_handle s) then Some (mk_system (sys_handle s) (<[i := Fault]> (sys_threads s)))
  else
    '(h, t') ← thread_step ch (sys_handle s) t;
    let ts := <[i := t']> (sys_threads s) in
    Some (mk_system h (if broadcasts t then wake_all ts else ts)).

Inductive steps : system -> system -> Prop :=
| steps_refl s : steps s s
| steps_trans s1 i ch s2 s3 : sys_step s1 i ch = Some s2 -> steps s2 s3 -> steps s1 s3.

(** A fresh handle and threads that have not started. *)
Definition is_start (t : thread) : Prop :=
  match t with CallStart _ | FreeStart _ => True | _ => False end.
Definition sys_init (ts : list thread) : system := mk_system (mk_handle 0 0 false false false) ts.

(** ** Invariant *)

(** Threads in the body of the API; counted in [lc_refcnt]; with the mutex; about to sleep
    or asleep; that won the claim, woke the sleepers, drained, freed. *)
Definition inside (t : thread) : bool :=
  match t with
  | CallInside | CallLock | CallLoop | CallClaim | CallAsleep | CallRelock _ | CallExit | CallWaker | CallLeave => true
  | _ => false
  end.
Definition counted (t : thread) : bool := match t with CallCounted | CallUndo => true | _ => inside t end.
Definition holding (t : thread) : bool := match t with CallLoop | CallClaim | CallExit => true | _ => false end.
Definition drowsy (t : thread) : bool := match t with CallClaim | CallAsleep => true | _ => false end.
Definition gone (t : thread) : bool := match t with FreeDone 0 => true | _ => false end.
Definition drained (t : thread) : bool := match t with FreeTeardown => true | _ => gone t end.
Definition woken (t : thread) : bool := match t with FreeDrain => true | _ => drained t end.
Definition claimed (t : thread) : bool := match t with FreeWake => true | _ => woken t end.

Definition countb (p : thread -> bool) (ts : list thread) : Z :=
  foldr (fun t n => (if p t then 1 else 0) + n) 0 ts.

Record sys_inv (s : system) : Prop := {
  si_small : arr_len (sys_threads s) < 4294967296;
  si_refcnt : wrapper_freed (sys_handle s) = false -> lc_refcnt (sys_handle s) = countb counted (sys_threads s);
  si_claim : lc_destroying (sys_handle s) = countb claimed (sys_threads s);
  si_single : countb claimed (sys_threads s) <= 1;
  si_mutex : countb holding (sys_threads s) = if block_wake_mutex (sys_handle s) then 1 else 0;
  si_freed : countb gone (sys_threads s) = if wrapper_freed (sys_handle s) then 1 else 0;
  si_woken : 0 < countb woken (sys_threads s) -> countb drowsy (sys_threads s) = 0;
  si_drained : 0 < countb drained (sys_threads s) -> countb inside (sys_threads s) = 0;
}.

(** ** Facts *)

Lemma countb_nonneg p ts : 0 <= countb p ts.
Proof. induction ts as [|t ts IH]; cbn; [lia|]. unfold countb in IH. case_if; lia. Qed.

Lemma countb_le p ts : countb p ts <= arr_len ts.
Proof. unfold arr_len. induction ts as [|t ts IH]; cbn [countb foldr length]; [lia|]. unfold countb in IH. case_if; lia. Qed.

Lemma countb_mono p q ts : (forall t, p t = true -> q t = true) -> countb p ts <= countb q ts.
Proof.
  intros H. induction ts as [|t ts IH]; [done|]. unfold countb in *. cbn. specialize (H t).
  destruct (p t), (q t); try (specialize (H eq_refl)); try discriminate; lia.
Qed.

Lemma countb_insert p ts i t t' :
  ts !! i = Some t ->
  countb p (<[i := t']> ts) = countb p ts - (if p t then 1 else 0) + (if p t' then 1 else 0).
Proof.
  revert i. induction ts as [|x ts IH]; intros [|i] Hi; simplify_eq/=; [unfold countb; lia|].
  specialize (IH i Hi). unfold countb in *. cbn. lia.
Qed.

Lemma countb_elem p ts i t : ts !! i = Some t -> p t = true -> 1 <= countb p ts.
Proof.
  revert i. induction ts as [|x ts IH]; intros [|i] Hi Hp; simplify_eq/=.
  - pose proof (countb_nonneg p ts). unfold countb in *. cbn. rewrite Hp. lia.
  - specialize (IH i Hi Hp). unfold countb in *. cbn. case_if; lia.
Qed.

Lemma countb_pos p ts : 0 < countb p ts -> exists i t, ts !! i = Some t /\ p t = true.
Proof.
  induction ts as [|x ts IH]; [done|]. intros H. destruct (p x) eqn:E; [by exists O, x|].
  destruct IH as (i & t & Hi & Ht); [unfold countb in *; cbn in H; by rewrite E in H|]. by exists (S i), t.
Qed.

Lemma countb_wake p ts :
  (forall b, p (CallRelock b) = p CallAsleep) -> countb p (wake_all ts) = countb p ts.
Proof.
  intros H. induction ts as [|t ts IH]; [done|]. unfold countb, wake_all in *. cbn. rewrite IH. destruct t; by rewrite ?H.
Qed.

(** When all are woken only those with the mutex can go to sleep. *)
Lemma drowsy_wake ts : countb drowsy (wake_all ts) <= countb holding ts.
Proof. induction ts as [|t ts IH]; [done|]. unfold countb, wake_all in *. cbn. destruct t; cbn; lia. Qed.

(** Only one thread can have won. *)
Lemma claimed_unique ts i j t u :
  ts !! i = Some t -> ts !! j = Some u -> claimed t = true -> claimed u = true ->
  countb claimed ts <= 1 -> i = j.
Proof.
  intros Hi Hj Ht Hu Hle. destruct (decide (i = j)) as [|Hij]; [done|].
  pose proof (countb_insert claimed ts i t (CallDone 0) Hi) as H1. rewrite Ht in H1. cbn in H1.
  pose proof (countb_elem claimed (<[i := CallDone 0]> ts) j u) as H2.
  rewrite list_lookup_insert_ne in H2 by done. specialize (H2 Hj Hu). unfold countb in *. lia.
Qed.

#[global] Arguments countb : simpl never.

Lemma drained_claimed t : drained t = true -> claimed t = true.
Proof. by destruct t as [| | | | | | | | | | | | | | | | | |[]|]. Qed.

(** The stages of a destroyer follow each other, and so do those of a caller. *)
Lemma count_order ts :
  0 <= countb gone ts <= countb drained ts /\ countb drained ts <= countb woken ts <= countb claimed ts
  /\ 0 <= countb holding ts <= countb inside ts /\ 0 <= countb drowsy ts <= countb inside ts
  /\ countb inside ts <= countb counted ts <= arr_len ts.
Proof.
  pose proof (countb_nonneg gone ts). pose proof (countb_nonneg holding ts). pose proof (countb_nonneg drowsy ts).
  pose proof (countb_le counted ts). split_and!; try lia; apply countb_mono; intros [| | | | | | | | | | | | | | | | | |[]|]; done.
Qed.

(** The counts behind a step. *)
Definition bit (b : bool) : Z := if b then 1 else 0.
Lemma step_counts p ts i t t' : ts !! i = Some t -> (forall b, p (CallRelock b) = p CallAsleep) ->
  let ts' := <[i := t']> ts in
  countb p (if broadcasts t then wake_all ts' else ts') = countb p ts - bit (p t) + bit (p t').
Proof. intros Hi Hp ts'. subst ts'. case_if; rewrite ?countb_wake by done; by rewrite (countb_insert _ _ _ t). Qed.

Lemma step_drowsy ts i t t' : ts !! i = Some t ->
  let ts' := <[i := t']> ts in
  countb drowsy (if broadcasts t then wake_all ts' else ts')
    <= if broadcasts t then countb holding ts - bit (holding t) + bit (holding t') else countb drowsy ts - bit (drowsy t) + bit (drowsy t').
Proof.
  intros Hi ts'. subst ts'. case_if; [|by rewrite (countb_insert _ _ _ t)].
  etrans; [apply drowsy_wake|]. by rewrite (countb_insert _ _ _ t).
Qed.

Lemma sys_step_inv s i ch s' : sys_inv s -> sys_step s i ch = Some s' -> sys_inv s'.
Proof.
  intros [Hsm Href Hcl Hone Hmx Hfr Hwk Hdr] Hstep. unfold sys_step in Hstep. destruct s as [h ts]. cbn in *.
  destruct (ts !! i) as [t|] eqn:Et; [|done]. cbn in Hstep. destruct (finished t) eqn:Ef; [done|].
  pose proof (count_order ts) as Ho.
  assert (forall t', let ts' := <[i := t']> ts in
    let l := if broadcasts t then wake_all ts' else ts' in arr_len l = arr_len ts) as Hlen.
  { intros t'. cbn. unfold arr_len, wake_all. case_if; by rewrite ?length_fmap, length_insert. }
  destruct (wrapper_freed h) eqn:Efr.
  { injection Hstep as <-. assert (gone t = false) by (by destruct t as [| | | | | | | | | | | | | | | | | |[]|]).
    assert (claimed t = false) as Hc.
    { destruct (claimed t) eqn:E; [|done]. exfalso.
      pose proof (countb_insert claimed ts i t Fault Et) as H1. rewrite E in H1. cbn in H1.
      pose proof (countb_insert gone ts i t Fault Et) as H2. rewrite H in H2. cbn in H2.
      pose proof (count_order (<[i := Fault]> ts)). lia. }
    assert (inside t = false) as Hin.
    { destruct (inside t) eqn:E; [|done]. pose proof (countb_elem _ _ _ _ Et E). lia. }
    assert (holding t = false /\ drowsy t = false /\ woken t = false /\ drained t = false) as (E1 & E2 & E3 & E4)
      by (by destruct t as [| | | | | | | | | | | | | | | | | |[]|]).
    split; cbn; rewrite ?Efr; try done; rewrite ?(countb_insert _ _ _ t) by done;
      rewrite ?H, ?Hc, ?Hin, ?E1, ?E2, ?E3, ?E4; cbn; try lia.
    unfold arr_len in *. by rewrite length_insert. }
  destruct (thread_step ch h t) as [[h' t']|] eqn:Es; [|done]. cbn in Hstep. injection Hstep as <-.
  specialize (Hlen t'). cbn in Hlen. specialize (Href eq_refl).
  pose proof (step_counts counted ts i t t' Et ltac:(done)) as N1. pose proof (step_counts claimed ts i t t' Et ltac:(done)) as N2.
  pose proof (step_counts holding ts i t t' Et ltac:(done)) as N3. pose proof (step_counts gone ts i t t' Et ltac:(done)) as N4.
  pose proof (step_counts woken ts i t t' Et ltac:(done)) as N5. pose proof (step_counts drained ts i t t' Et ltac:(done)) as N6.
  pose proof (step_counts inside ts i t t' Et ltac:(done)) as N7. pose proof (step_drowsy ts i t t' Et) as N8. cbn in N1, N2, N3, N4, N5, N6, N7, N8.
  assert (forall p, p t = true -> 1 <= countb p ts) as Hin by (intros p Hp; by eapply countb_elem).
  pose proof (count_order (if broadcasts t then wake_all (<[i := t']> ts) else <[i := t']> ts)) as Ho'. rewrite Hlen in Ho'.
  pose proof (Hin inside) as I1. pose proof (Hin counted) as I2. pose proof (Hin claimed) as I3. pose proof (Hin holding) as I4.
  set (ts' := if broadcasts t then _ else _) in *. clearbody ts'. clear Hin Et.
  destruct h as [d r pe mx fr]. cbn in *. subst fr.
  destruct t as [[]| | | | | | | | |to| | | |ret|[]| | | |ret|]; try discriminate; cbn in Es;
    repeat first [progress case_if_in Es | destruct ch | destruct mx | destruct to]; try discriminate; simplify_eq/=;
    unfold bit in *; cbn in *; unfold c_true in *; zbool;
    try specialize (I1 eq_refl); try specialize (I2 eq_refl); try specialize (I3 eq_refl); try specialize (I4 eq_refl);
    split; cbn in *; try lia; intros; rewrite ?u32_id by (unfold is_u32; lia); try lia.
Qed.

Lemma countb_start p ts :
  Forall is_start ts -> (forall t, is_start t -> p t = false) -> countb p ts = 0.
Proof.
  intros HF Hp. induction HF as [|t ts Ht _ IH]; [done|].
  unfold countb in *. cbn. by rewrite Hp, IH by done.
Qed.

Lemma sys_init_inv ts : arr_len ts < 4294967296 -> Forall is_start ts -> sys_inv (sys_init ts).
Proof.
  intros Hl HF. split; cbn; [done|..]; intros; by rewrite ?countb_start by (done || by intros []).
Qed.

Lemma steps_inv s s' : steps s s' -> sys_inv s -> sys_inv s'.
Proof. induction 1 as [|s1 i ch s2 s3 Hs _ IH]; [done|]. intros H. apply IH. by eapply sys_step_inv. Qed.

(** No thread leaves the drained stages. *)
Lemma step_drained s k ch s' : sys_inv s -> sys_step s k ch = Some s' ->
  countb drained (sys_threads s) <= countb drained (sys_threads s').
Proof.
  unfold sys_step. intros Hinv Hk. destruct (sys_threads s !! k) as [u|] eqn:Eu; [|done]. cbn in Hk.
  destruct (finished u) eqn:Ef; [done|]. destruct (wrapper_freed (sys_handle s)) eqn:Efr.
  - injection Hk as <-. cbn. rewrite (countb_insert _ _ _ u) by done. cbn. destruct Hinv as [_ _ _ Hs _ Hf _ _]. rewrite Efr in Hf.
    pose proof (countb_insert gone _ k u Fault Eu) as H1. pose proof (countb_insert drained _ k u Fault Eu) as H2.
    pose proof (count_order (sys_threads s)). pose proof (count_order (<[k := Fault]> (sys_threads s))).
    assert (gone u = false) as Eg by (by destruct u as [| | | | | | | | | | | | | | | | | |[]|]). rewrite Eg in H1. cbn in *. lia.
  - destruct (thread_step ch (sys_handle s) u) as [[h u']|] eqn:Es; [|done]. cbn in Hk. injection Hk as <-. cbn.
    rewrite (step_counts drained _ k u u' Eu) by done.
    assert (drained u = true -> drained u' = true) as H by (destruct u; try done; cbn in Es; by injection Es as <- <-).
    destruct (drained u), (drained u'); cbn; try lia; by specialize (H eq_refl).
Qed.

(** C28: once a destroying thread has drained the handle, no caller is in the body of the
    public API, and none gets in while the wrapper exists, in every interleaving of any
    number of callers (blocking gets among them) and destroyers; and a thread that touches
    the wrapper after it was freed is neither in the body of the API nor a destroyer that
    won the claim: it has not passed [mt_handle_acquire] or [mt_handle_begin_destroy]. Such
    a late thread exists ([handle_late_increment]); the model stops it there, as the C code
    has no defined behaviour from then on. *)
Theorem handle_drain_excludes_callers ts s :
  arr_len ts < 4294967296 -> Forall is_start ts -> steps (sys_init ts) s ->
  (forall i t, sys_threads s !! i = Some t -> drained t = true ->
    lc_destroying (sys_handle s) = 1 /\
    forall s', steps s s' -> forall j u, sys_threads s' !! j = Some u -> inside u = false) /\
  (forall i t ch s', sys_threads s !! i = Some t -> sys_step s i ch = Some s' ->
    sys_threads s' !! i = Some Fault -> wrapper_freed (sys_handle s) = true /\ inside t = false /\ claimed t = false).
Proof.
  intros Hl HF Hs. pose proof (steps_inv _ _ Hs (sys_init_inv ts Hl HF)) as Hinv. split.
  - intros i t Hi Hd. pose proof (countb_elem _ _ _ _ Hi Hd) as Hn. split.
    { destruct Hinv. pose proof (count_order (sys_threads s)). lia. }
    intros s' Hs'. assert (sys_inv s' /\ 1 <= countb drained (sys_threads s')) as [Hinv' Hn'].
    { clear Hs Hi. induction Hs' as [|s1 k ch s2 s3 Hk _ IH]; [done|]. apply IH; [by eapply sys_step_inv|].
      pose proof (step_drained _ _ _ _ Hinv Hk). lia. }
    intros j u Hj. destruct (inside u) eqn:E; [|done]. pose proof (countb_elem _ _ _ _ Hj E).
    pose proof (si_drained _ Hinv'). lia.
  - intros i t ch s' Hi Hk Hf. pose proof (sys_step_inv _ _ _ _ Hinv Hk) as Hinv'. unfold sys_step in Hk. rewrite Hi in Hk. cbn in Hk.
    destruct (finished t) eqn:Efin; [done|]. pose proof (lookup_lt_Some _ _ _ Hi). destruct (wrapper_freed (sys_handle s)) eqn:Efr.
    + injection Hk as <-. destruct Hinv as [_ _ _ H1 _ H2 _ H3]. rewrite Efr in H2.
      pose proof (count_order (sys_threads s)) as Ho. split_and!; [done| |].
      * destruct (inside t) eqn:E; [|done]. pose proof (countb_elem _ _ _ _ Hi E). lia.
      * destruct (claimed t) eqn:E; [|done]. exfalso. destruct Hinv' as [_ _ _ _ _ H2' _ _]. cbn in H2'. rewrite Efr in H2'.
        pose proof (countb_insert claimed _ _ _ Fault Hi) as H4. rewrite E in H4. cbn in H4.
        pose proof (count_order (<[i := Fault]> (sys_threads s))). lia.
    + destruct (thread_step ch (sys_handle s) t) as [[h t']|] eqn:Es; [|done]. cbn in Hk. injection Hk as <-. cbn in Hf.
      assert (t' = Fault) as ->.
      { destruct (broadcasts t); [unfold wake_all in Hf; rewrite list_lookup_fmap in Hf|]; rewrite list_lookup_insert_eq in Hf by done;
          cbn in Hf; by destruct t'; simplify_eq. }
      exfalso. destruct t as [[]| | | | | | | | | | | | | |[]| | | | |]; cbn in Es; unfold block_wake_step in Es; repeat case_if_in Es; destruct ch; simplify_eq.
Qed.

(** the claim has one winner. In every reachable state at most one thread is
    draining, tearing down or done tearing down, and the reference count is
    the number of callers that have counted themselves and not yet left. *)
Theorem handle_single_destroyer ts s i j t u :
  arr_len ts < 4294967296 -> Forall is_start ts -> steps (sys_init ts) s ->
  sys_threads s !! i = Some t -> sys_threads s !! j = Some u ->
  claimed t = true -> claimed u = true ->
  i = j /\ (wrapper_freed (sys_handle s) = false -> lc_refcnt (sys_handle s) = countb counted (sys_threads s)).
Proof.
  intros Hl HF Hs Hi Hj Ht Hu. destruct (steps_inv _ _ Hs (sys_init_inv ts Hl HF)) as [_ Hr _ H1 _ _ _ _].
  split; [|done]. by eapply claimed_unique.
Qed.

(** Steps a caller still has to make once the flag is set, at most. *)
Definition call_work (t : thread) : Z :=
  match t with
  | CallStart _ => 4 | CallChecked => 3 | CallCounted => 2 | CallUndo => 1
  | CallClaim => 6 | CallAsleep => 5 | CallInside => 5 | CallLock => 4 | CallRelock _ => 4
  | CallLoop => 3 | CallExit => 2 | CallWaker => 2 | CallLeave => 1
  | _ => 0
  end.
Definition work_of (ts : list thread) : Z := foldr (fun t n => call_work t + n) 0 ts.
Definition callers_work (s : system) : Z := work_of (sys_threads s).

Lemma work_nonneg ts : 0 <= work_of ts.
Proof. unfold work_of. induction ts as [|[] ts IH]; cbn; lia. Qed.
Lemma work_le ts : work_of ts <= 6 * arr_len ts.
Proof. unfold work_of, arr_len. induction ts as [|[] ts IH]; cbn; lia. Qed.

Lemma work_insert ts i t t' : ts !! i = Some t -> work_of (<[i := t']> ts) = work_of ts - call_work t + call_work t'.
Proof.
  revert i. induction ts as [|x ts IH]; intros [|i] Hi; simplify_eq/=; [unfold work_of; cbn; lia|].
  specialize (IH i Hi). unfold work_of in *. cbn. lia.
Qed.
Lemma work_wake ts : work_of (wake_all ts) <= work_of ts.
Proof. unfold work_of, wake_all. induction ts as [|[] ts IH]; cbn in *; lia. Qed.

Lemma work_pos ts : 0 < work_of ts -> exists k t, ts !! k = Some t /\ 0 < call_work t.
Proof.
  unfold work_of. induction ts as [|t ts IH]; cbn; [lia|]. intros H. destruct (decide (0 < call_work t)).
  - by exists O, t.
  - destruct IH as (k & u & Hk & Hu); [destruct t; cbn in *; lia|]. by exists (S k), u.
Qed.

Lemma work_zero_counted ts : work_of ts = 0 -> countb counted ts = 0.
Proof.
  unfold work_of. induction ts as [|t ts IH]; [done|]. cbn. pose proof (work_nonneg ts). unfold countb, work_of in *. cbn.
  destruct t; cbn in *; intros Hs; try lia; apply IH; lia.
Qed.

(** Once the flag is set no step adds work for callers, and a caller's own step uses some up. *)
Lemma step_work s k ch s' :
  lc_destroying (sys_handle s) = 1 -> sys_step s k ch = Some s' ->
  callers_work s' <= callers_work s /\
  (forall t, sys_threads s !! k = Some t -> 0 < call_work t -> callers_work s' < callers_work s).
Proof.
  unfold sys_step. intros Hd Hk. unfold callers_work at 2 4.
  destruct (sys_threads s !! k) as [t|] eqn:Et; [|done]. cbn in Hk. destruct (finished t) eqn:Ef; [done|].
  assert (forall t', callers_work s' <= work_of (<[k := t']> (sys_threads s)) ->
    call_work t' <= call_work t /\ (0 < call_work t -> call_work t' < call_work t) ->
    callers_work s' <= work_of (sys_threads s) /\
    (forall u, Some t = Some u -> 0 < call_work u -> callers_work s' < work_of (sys_threads s))) as Hfin.
  { intros t' H1 H2. rewrite (work_insert _ _ t) in H1 by done. split; [lia|]. intros u [= <-] Hu. lia. }
  destruct (wrapper_freed (sys_handle s)).
  { apply (Hfin Fault); [|by destruct t]. injection Hk as <-. done. }
  destruct (thread_step ch (sys_handle s) t) as [[h t']|] eqn:Es; [|done].
  apply (Hfin t').
  { injection Hk as <-. unfold callers_work. cbn. destruct (broadcasts t); [apply work_wake|done]. }
  clear Hk Hfin. destruct (sys_handle s) as [d r pe mx fr]. cbn in *. subst d.
  destruct t as [[]| | | | | | | | |[]| | | | |[]| | | | |]; cbn in Es; unfold block_wake_step in Es; cbn in Es;
    rewrite ?orb_true_r in Es; repeat case_if_in Es; destruct ch; cbn in Es; simplify_eq; cbn; lia.
Qed.

(** A caller that neither sleeps nor waits for the mutex can step, whatever is chosen. *)
Definition waits_mutex (t : thread) : bool := match t with CallLock | CallRelock _ | CallWaker => true | _ => false end.
Lemma caller_enabled s k t ch : sys_threads s !! k = Some t -> 0 < call_work t -> t <> CallAsleep ->
  (waits_mutex t = true -> block_wake_mutex (sys_handle s) = false) -> is_Some (sys_step s k ch).
Proof.
  intros Hk Hw Ha Hm. unfold sys_step. rewrite Hk. cbn. destruct (finished t) eqn:Ef; [by destruct t|].
  destruct (wrapper_freed _); [done|]. destruct (sys_handle s) as [d r pe mx fr]. cbn in *.
  destruct t as [[]| | | | | | | | |[]| | | | |[]| | | | |]; cbn in *; try done; unfold block_wake_step; cbn;
    try (rewrite Hm by done); repeat case_if; destruct ch; done.
Qed.

(** C39: draining ends. From the claim on, every step of an unfinished caller uses up some of
    the bounded work all callers have left and no step of any thread adds to it. The
    destroyer gets past [wake_on_destroy]: it can step, or a caller with the mutex can.
    While it drains nobody sleeps in a blocking get and, as long as work is left, some
    caller can step whatever is chosen for it, without a timeout or a signal; and when none
    is left the next turn of the drain loop leaves it. An API call is taken to be a bounded
    number of steps apart from the sleep of a blocking get, and the mutex of the wait is
    given to a thread that can have it. *)
Theorem handle_drain_terminates ts s i :
  arr_len ts < 4294967296 -> Forall is_start ts -> steps (sys_init ts) s ->
  sys_threads s !! i = Some FreeWake \/ sys_threads s !! i = Some FreeDrain ->
  callers_work s <= 6 * arr_len (sys_threads s) /\
  (forall k ch s', sys_step s k ch = Some s' ->
    callers_work s' <= callers_work s /\
    (forall t, sys_threads s !! k = Some t -> 0 < call_work t -> callers_work s' < callers_work s)) /\
  (sys_threads s !! i = Some FreeWake ->
    exists k t, sys_threads s !! k = Some t /\ (k = i \/ 0 < call_work t) /\ forall ch, is_Some (sys_step s k ch)) /\
  (sys_threads s !! i = Some FreeDrain -> 0 < callers_work s ->
    ~ CallAsleep ∈ sys_threads s /\
    exists k t, sys_threads s !! k = Some t /\ 0 < call_work t /\ forall ch, is_Some (sys_step s k ch)) /\
  (sys_threads s !! i = Some FreeDrain -> callers_work s = 0 ->
    forall ch, exists s', sys_step s i ch = Some s' /\ sys_threads s' !! i = Some FreeTeardown).
Proof.
  intros Hl HF Hs Hi. pose proof (steps_inv _ _ Hs (sys_init_inv ts Hl HF)) as [_ Href Hcl Hone Hmx Hfr Hwk _].
  pose proof (count_order (sys_threads s)) as Ho.
  assert (1 <= countb claimed (sys_threads s)) as Hc by (destruct Hi as [Hi|Hi]; by eapply countb_elem).
  assert (wrapper_freed (sys_handle s) = false) as Hlive.
  { destruct (wrapper_freed (sys_handle s)); [|done]. destruct (countb_pos gone (sys_threads s) ltac:(lia)) as (j & t & Hj & Ht).
    assert (i = j) as -> by (destruct Hi as [Hi|Hi]; (eapply (claimed_unique _ i j); [done|done|done| |done]); by apply drained_claimed; destruct t).
    destruct Hi as [Hi|Hi]; rewrite Hj in Hi; by simplify_eq. }
  assert (block_wake_mutex (sys_handle s) = true ->
    exists k t, sys_threads s !! k = Some t /\ 0 < call_work t /\ forall ch, is_Some (sys_step s k ch)) as Hholder.
  { intros Hm. rewrite Hm in Hmx. destruct (countb_pos holding (sys_threads s) ltac:(lia)) as (k & t & Hk & Ht).
    exists k, t. split_and!; [done|by destruct t|]. intros ch. apply (caller_enabled _ _ t); [done| | |]; by destruct t. }
  split_and!.
  - apply work_le.
  - intros k ch s' Hk. apply (step_work _ _ ch); [lia|done].
  - intros Hi'. destruct (block_wake_mutex (sys_handle s)) eqn:Em.
    + destruct (Hholder eq_refl) as (k & t & Hk & Ht & Hst). exists k, t. split_and!; [done|by right|done].
    + exists i, FreeWake. split_and!; [done|by left|]. intros ch. unfold sys_step. rewrite Hi'. cbn. rewrite Hlive. unfold block_wake_step. by rewrite Em.
  - intros Hi' Hw. pose proof (countb_elem woken _ _ _ Hi' eq_refl).
    assert (~ CallAsleep ∈ sys_threads s) as Hns.
    { intros [j Hj]%list_elem_of_lookup. pose proof (countb_elem drowsy _ _ _ Hj eq_refl). lia. }
    split; [done|]. destruct (block_wake_mutex (sys_handle s)) eqn:Em; [by apply Hholder|].
    destruct (work_pos _ Hw) as (k & t & Hk & Ht). exists k, t. split_and!; [done|done|]. intros ch.
    apply (caller_enabled _ _ t); [done|done| |done]. intros ->. apply Hns. by eapply list_elem_of_lookup_2.
  - intros Hi' H0 ch. apply work_zero_counted in H0. rewrite <- Href in H0 by done. unfold sys_step. rewrite Hi'. cbn.
    rewrite Hlive, H0. cbn. eexists. split; [reflexivity|]. cbn. apply list_lookup_insert_eq. by eapply lookup_lt_Some.
Qed.

(** ** Witnesses and a boundary *)

(** A schedule: the thread that makes each step and what is chosen for it. *)
Fixpoint run (s : system) (sched : list (nat * choice)) : option system :=
  match sched with
  | [] => Some s
  | (i, ch) :: sched => s' ← sys_step s i ch; run s' sched
  end.

Lemma run_steps sched s s' : run s sched = Some s' -> steps s s'.
Proof.
  revert s. induction sched as [|[i ch] sched IH]; intros s; cbn; [intros [= <-]; constructor|].
  destruct (sys_step s i ch) as [s1|] eqn:E; [|done]. cbn. intros H. econstructor; eauto.
Qed.

Definition plain (sched : list nat) : list (nat * choice) := (fun i => (i, ChPlain)) <$> sched.
Definition demo_threads : list thread := [CallStart true; CallStart true; FreeStart true; FreeStart true].

(** The first caller sleeps in a blocking get when the destroyer comes; the second is at
    the gate. *)
Definition demo_sched : list (nat * choice) :=
  plain [0; 0; 0]%nat ++ [(0%nat, ChGet)] ++ plain [0; 0; 0; 1; 2; 3; 1; 2]%nat.
Definition demo_drained : list (nat * choice) := demo_sched ++ plain [0; 0; 0; 0; 1; 1; 2]%nat.

Lemma handle_drain_excludes_callers_witness :
  exists s, run (sys_init demo_threads) demo_drained = Some s /\
    sys_threads s = [CallDone 0; CallDone (- EIO); FreeTeardown; FreeDone (- EBUSY)] /\
    forall s', steps s s' -> forall j u, sys_threads s' !! j = Some u -> inside u = false.
Proof.
  eexists. split; [vm_compute; reflexivity|]. split; [reflexivity|].
  edestruct (handle_drain_excludes_callers demo_threads) as [H _].
  - by vm_compute.
  - by repeat constructor.
  - eapply (run_steps demo_drained). vm_compute. reflexivity.
  - by apply (H 2%nat FreeTeardown).
Defined.

Lemma handle_drain_terminates_witness :
  exists s, run (sys_init demo_threads) demo_sched = Some s /\
    sys_threads s = [CallRelock false; CallCounted; FreeDrain; FreeDone (- EBUSY)] /\
    exists k t, sys_threads s !! k = Some t /\ 0 < call_work t /\ forall ch, is_Some (sys_step s k ch).
Proof.
  eexists. split; [vm_compute; reflexivity|]. split; [reflexivity|].
  match goal with |- exists k t, sys_threads ?s !! k = _ /\ _ => destruct (handle_drain_terminates demo_threads s 2) as (_ & _ & _ & H & _) end.
  - by vm_compute.
  - by repeat constructor.
  - eapply (run_steps demo_sched). vm_compute. reflexivity.
  - by right.
  - by apply H.
Defined.

Lemma handle_single_destroyer_witness :
  exists s, run (sys_init demo_threads) demo_sched = Some s /\
    lc_refcnt (sys_handle s) = countb counted (sys_threads s) /\ lc_refcnt (sys_handle s) = 2.
Proof.
  eexists. split; [vm_compute; reflexivity|]. split; [|reflexivity].
  eapply (handle_single_destroyer demo_threads _ 2 2 FreeDrain FreeDrain); try reflexivity.
  - by repeat constructor.
  - eapply (run_steps demo_sched). vm_compute. reflexivity.
Qed.

(** Without the broadcast the sleeper would hold its reference until its deadline: before
    [wake_on_destroy] it cannot step unless a signal or the deadline comes. *)
Lemma sleeper_holds_drain :
  exists s, run (sys_init demo_threads) (plain [0; 0; 0]%nat ++ [(0%nat, ChGet)] ++ plain [0; 0; 0; 2]%nat) = Some s /\
    sys_threads s !! 0%nat = Some CallAsleep /\ sys_step s 0 ChPlain = None /\ is_Some (sys_step s 0 ChTimeout).
Proof. eexists. split; [vm_compute; reflexivity|]. vm_compute. eauto. Qed.

(** The gate keeps callers out of the API body, not away from the gate itself: a
    caller can pass the fast reject before the claim and increment
    [lc_refcnt] of the wrapper after it was drained and freed. *)
Lemma handle_late_increment :
  exists s s', run (sys_init [CallStart true; FreeStart true]) (plain [0; 1; 1; 1; 1]%nat) = Some s /\
    sys_threads s = [CallChecked; FreeDone 0] /\ wrapper_freed (sys_handle s) = true /\
    sys_step s 0 ChPlain = Some s' /\ sys_threads s' !! 0%nat = Some Fault.
Proof. do 2 eexists. split; [vm_compute; reflexivity|]. split_and!; reflexivity. Qed.
