(* ===== verification/Anc.v ===== *)
(** RFC 8331 ancillary data packets, lib/src/st2110/st_ancillary.c: parity bits,
    10-bit words packed into bytes, the checksum, and the encoder and decoder
    of one packet. Encoding and decoding are shown to be inverse, and every
    single-bit error in the words of a packet to be detected. *)
From S2P Require Import Prelude Bytes.

(** ** Parity *)

Definition parity_tab : list Z := [
  0x0200; 0x0100; 0x0100; 0x0200; 0x0100; 0x0200; 0x0200; 0x0100;
  0x0100; 0x0200; 0x0200; 0x0100; 0x0200; 0x0100; 0x0100; 0x0200;
  0x0100; 0x0200; 0x0200; 0x0100; 0x0200; 0x0100; 0x0100; 0x0200;
  0x0200; 0x0100; 0x0100; 0x0200; 0x0100; 0x0200; 0x0200; 0x0100;
  0x0100; 0x0200; 0x0200; 0x0100; 0x0200; 0x0100; 0x0100; 0x0200;
  0x0200; 0x0100; 0x0100; 0x0200; 0x0100; 0x0200; 0x0200; 0x0100;
  0x0200; 0x0100; 0x0100; 0x0200; 0x0100; 0x0200; 0x0200; 0x0100;
  0x0100; 0x0200; 0x0200; 0x0100; 0x0200; 0x0100; 0x0100; 0x0200;
  0x0100; 0x0200; 0x0200; 0x0100; 0x0200; 0x0100; 0x0100; 0x0200;
  0x0200; 0x0100; 0x0100; 0x0200; 0x0100; 0x0200; 0x0200; 0x0100;
  0x0200; 0x0100; 0x0100; 0x0200; 0x0100; 0x0200; 0x0200; 0x0100;
  0x0100; 0x0200; 0x0200; 0x0100; 0x0200; 0x0100; 0x0100; 0x0200;
  0x0200; 0x0100; 0x0100; 0x0200; 0x0100; 0x0200; 0x0200; 0x0100;
  0x0100; 0x0200; 0x0200; 0x0100; 0x0200; 0x0100; 0x0100; 0x0200;
  0x0100; 0x0200; 0x0200; 0x0100; 0x0200; 0x0100; 0x0100; 0x0200;
  0x0200; 0x0100; 0x0100; 0x0200; 0x0100; 0x0200; 0x0200; 0x0100;
  0x0100; 0x0200; 0x0200; 0x0100; 0x0200; 0x0100; 0x0100; 0x0200;
  0x0200; 0x0100; 0x0100; 0x0200; 0x0100; 0x0200; 0x0200; 0x0100;
  0x0200; 0x0100; 0x0100; 0x0200; 0x0100; 0x0200; 0x0200; 0x0100;
  0x0100; 0x0200; 0x0200; 0x0100; 0x0200; 0x0100; 0x0100; 0x0200;
  0x0200; 0x0100; 0x0100; 0x0200; 0x0100; 0x0200; 0x0200; 0x0100;
  0x0100; 0x0200; 0x0200; 0x0100; 0x0200; 0x0100; 0x0100; 0x0200;
  0x0100; 0x0200; 0x0200; 0x0100; 0x0200; 0x0100; 0x0100; 0x0200;
  0x0200; 0x0100; 0x0100; 0x0200; 0x0100; 0x0200; 0x0200; 0x0100;
  0x0200; 0x0100; 0x0100; 0x0200; 0x0100; 0x0200; 0x0200; 0x0100;
  0x0100; 0x0200; 0x0200; 0x0100; 0x0200; 0x0100; 0x0100; 0x0200;
  0x0100; 0x0200; 0x0200; 0x0100; 0x0200; 0x0100; 0x0100; 0x0200;
  0x0200; 0x0100; 0x0100; 0x0200; 0x0100; 0x0200; 0x0200; 0x0100;
  0x0100; 0x0200; 0x0200; 0x0100; 0x0200; 0x0100; 0x0100; 0x0200;
  0x0200; 0x0100; 0x0100; 0x0200; 0x0100; 0x0200; 0x0200; 0x0100;
  0x0200; 0x0100; 0x0100; 0x0200; 0x0100; 0x0200; 0x0200; 0x0100;
  0x0100; 0x0200; 0x0200; 0x0100; 0x0200; 0x0100; 0x0100; 0x0200
].

Definition get_parity_bits (val : Z) : Z := arr_get 0 parity_tab (Z.land val 0xFF).
Definition st40_add_parity_bits (val : Z) : Z := Z.lor (get_parity_bits val) (Z.land val 0xFF).
Definition st40_check_parity_bits (val : Z) : bool := val =? st40_add_parity_bits (Z.land val 0xFF).

(** ** 10-bit words

    [data] is the memory and [base] the offset of the first word in it; the
    union of bit fields chosen by [bit_offset] leaves [6 - bit_offset] bits below
    the word. *)

Definition st_ntohs (data : bytes) (off : Z) : Z :=
  Z.lor (Z.shiftl (arr_get 0 data off) 8) (arr_get 0 data (off + 1)).

Definition udw_shift (idx : Z) : Z := 6 - (idx * 10) mod 8.
Definition udw_byte (idx : Z) : Z := idx * 10 / 8.

Definition get_10bit_udw (idx : Z) (data : bytes) (base : Z) : Z :=
  let val := st_ntohs data (base + udw_byte idx) in
  Z.land (Z.shiftr val (udw_shift idx)) 0x3FF.

Definition set_10bit_udw (idx udw : Z) (data : bytes) (base : Z) : bytes :=
  let off := base + udw_byte idx in
  let val := st_ntohs data off in
  let field := Z.shiftl 0x3FF (udw_shift idx) in
  let val := Z.lor (Z.ldiff val field) (Z.shiftl (Z.land udw 0x3FF) (udw_shift idx)) in
  let data := arr_set data off (Z.shiftr (Z.land val 0xFF00) 8) in
  arr_set data (off + 1) (Z.land val 0xFF).

Definition st40_get_udw (idx : Z) (data : bytes) (base : Z) : Z := get_10bit_udw idx data base.
Definition st40_set_udw (idx udw : Z) (data : bytes) (base : Z) : bytes := set_10bit_udw idx udw data base.

Definition st40_calc_checksum (data_num : Z) (data : bytes) (base : Z) : Z :=
  let chks :=
    for_from 0 (Z.to_nat data_num) (fun i chks => u16 (chks + get_10bit_udw i data base)) 0 in
  let chks := Z.land chks 0x1ff in
  Z.lor (Z.land (Z.lnot (Z.shiftl chks 1)) 0x200) chks.

(** [sizeof(struct st40_rfc8331_payload_hdr)] *)
Definition SIZEOF_RFC8331_HDR : Z := 8.

Definition st40_rfc8331_payload_bytes (udw_size : Z) : Z :=
  let total_bits := u32 (3 + udw_size + 1) * 10 in
  let total_size := (total_bits + 7) / 8 in
  let total_size := Z.ldiff (total_size + 3) 0x3 in
  SIZEOF_RFC8331_HDR - 4 + total_size.

(** ** Packets *)

Record st40_meta := mk_meta {
  meta_c : Z; meta_line_number : Z; meta_hori_offset : Z; meta_s : Z; meta_stream_num : Z;
  meta_did : Z; meta_sdid : Z; meta_udw_size : Z; meta_udw_offset : Z;
}.

(** The two 32-bit header words, assembled from their bit fields. *)
Definition first_hdr_chunk (m : st40_meta) : Z :=
  Z.lor (Z.lor (Z.lor (Z.lor (Z.land (meta_stream_num m) 0x7F) (Z.shiftl (Z.land (meta_s m) 1) 7))
    (Z.shiftl (Z.land (meta_hori_offset m) 0xFFF) 8)) (Z.shiftl (Z.land (meta_line_number m) 0x7FF) 20))
    (Z.shiftl (Z.land (meta_c m) 1) 31).
Definition second_hdr_chunk (did sdid data_count : Z) : Z :=
  Z.lor (Z.lor (Z.shiftl (Z.land data_count 0x3FF) 2) (Z.shiftl (Z.land sdid 0x3FF) 12))
    (Z.shiftl (Z.land did 0x3FF) 22).

(** [memset(buf, 0, n)] and a store of bytes at an offset. *)
Definition mem_zero (buf : bytes) (n : Z) : bytes := replicate (Z.to_nat n) 0 ++ drop (Z.to_nat n) buf.
Definition mem_store (buf : bytes) (off : Z) (l : bytes) : bytes :=
  for_from 0 (length l) (fun i buf => arr_set buf (off + i) (arr_get 0 l i)) buf.

(** The memory holds at least [room] bytes. On failure it is left alone. *)
Definition st40_rfc8331_encode_packet (buf : bytes) (room : Z) (meta : st40_meta) (udw_in : bytes)
    : Z * bytes * Z :=
  let udw_size := meta_udw_size meta in
  if udw_size >? 0xFF then (- EINVAL, buf, 0)
  else
    let need := st40_rfc8331_payload_bytes udw_size in
    if room <? need then (- ENOSPC, buf, 0)
    else
      let buf := mem_zero buf need in
      let buf := mem_store buf 0 (be32 (first_hdr_chunk meta)) in
      let buf := mem_store buf 4
        (be32 (second_hdr_chunk (st40_add_parity_bits (meta_did meta))
                 (st40_add_parity_bits (meta_sdid meta)) (st40_add_parity_bits udw_size))) in
      let buf := for_from 0 (Z.to_nat udw_size)
        (fun i buf => st40_set_udw (i + 3) (st40_add_parity_bits (arr_get 0 udw_in i)) buf 4) buf in
      let checksum := st40_calc_checksum (3 + udw_size) buf 4 in
      let buf := st40_set_udw (udw_size + 3) checksum buf 4 in
      (0, buf, need).

Inductive st40_rfc8331_decode_result :=
| ST40_RFC8331_DECODE_OK | ST40_RFC8331_DECODE_SHORT_BUFFER
| ST40_RFC8331_DECODE_PARITY_FAIL | ST40_RFC8331_DECODE_CHECKSUM_FAIL.

(** [ntohl] of the word at [off]. *)
Definition ld_be32 (buf : bytes) (off : Z) : Z := Z.lor (Z.shiftl (st_ntohs buf off) 16) (st_ntohs buf (off + 2)).

(** The loop over the user data words: [None] is a parity failure. *)
Fixpoint decode_udws (buf : bytes) (i : Z) (n : nat) : option bytes :=
  match n with
  | O => Some []
  | S n' =>
      let udw := st40_get_udw (i + 3) buf 4 in
      if negb (st40_check_parity_bits udw) then None
      else rest ← decode_udws buf (i + 1) n'; Some (Z.land udw 0xFF :: rest)
  end.

(** [udw_cap] is [None] when the caller passes no output buffer. On success the
    result carries the parsed header, the data bytes and the bytes consumed. *)
Definition st40_rfc8331_decode_packet (buf : bytes) (room : Z) (udw_cap : option Z)
    : st40_rfc8331_decode_result * option (st40_meta * bytes * Z) :=
  if room <? SIZEOF_RFC8331_HDR then (ST40_RFC8331_DECODE_SHORT_BUFFER, None)
  else
    let first := ld_be32 buf 0 in
    let second := ld_be32 buf 4 in
    let did := Z.land (Z.shiftr second 22) 0x3FF in
    let sdid := Z.land (Z.shiftr second 12) 0x3FF in
    let data_count := Z.land (Z.shiftr second 2) 0x3FF in
    if negb (st40_check_parity_bits did) || negb (st40_check_parity_bits sdid)
       || negb (st40_check_parity_bits data_count)
    then (ST40_RFC8331_DECODE_PARITY_FAIL, None)
    else
      let udw_size := Z.land data_count 0xFF in
      let need := st40_rfc8331_payload_bytes udw_size in
      if room <? need then (ST40_RFC8331_DECODE_SHORT_BUFFER, None)
      else if match udw_cap with Some cap => udw_size >? cap | None => false end
      then (ST40_RFC8331_DECODE_SHORT_BUFFER, None)
      else
        match decode_udws buf 0 (Z.to_nat udw_size) with
        | None => (ST40_RFC8331_DECODE_PARITY_FAIL, None)
        | Some udw_out =>
            let checksum_wire := st40_get_udw (udw_size + 3) buf 4 in
            let checksum_calc := st40_calc_checksum (3 + udw_size) buf 4 in
            if negb (checksum_wire =? checksum_calc) then (ST40_RFC8331_DECODE_CHECKSUM_FAIL, None)
            else
              (ST40_RFC8331_DECODE_OK,
               Some (mk_meta (Z.land (Z.shiftr first 31) 1) (Z.land (Z.shiftr first 20) 0x7FF)
                       (Z.land (Z.shiftr first 8) 0xFFF) (Z.land (Z.shiftr first 7) 1)
                       (Z.land first 0x7F) (Z.land did 0xFF) (Z.land sdid 0xFF) udw_size 0,
                     udw_out, need))
        end.

(** ** Bits of a buffer

    Bit [k] of a buffer counts from the most significant bit of its first byte,
    the order in which the words are packed. *)

Definition buf_bit (buf : bytes) (k : Z) : bool := Z.testbit (arr_get 0 buf (k / 8)) (7 - k mod 8).

Lemma byte_bits_high buf i j : is_bytes buf -> 8 <= j -> Z.testbit (arr_get 0 buf i) j = false.
Proof.
  intros Hb Hj. apply (bits_above _ 8); [lia| |done].
  change (2 ^ 8) with 256. apply arr_get_Forall; [unfold is_u8; lia|exact Hb].
Qed.

Lemma ntohs_bit buf off j :
  is_bytes buf -> 0 <= j < 16 -> Z.testbit (st_ntohs buf off) j = buf_bit buf (8 * off + 15 - j).
Proof.
  intros Hb Hj. unfold st_ntohs, buf_bit. rewrite Z.lor_spec, Z.shiftl_spec by lia.
  destruct (Z.lt_ge_cases j 8).
  - rewrite (Z.testbit_neg_r _ (j - 8)) by lia. cbn [orb].
    replace ((8 * off + 15 - j) / 8) with (off + 1) by mlia.
    by replace (7 - (8 * off + 15 - j) mod 8) with j by mlia.
  - rewrite (byte_bits_high _ (off + 1)), orb_false_r by (done || lia).
    replace ((8 * off + 15 - j) / 8) with off by mlia.
    by replace (7 - (8 * off + 15 - j) mod 8) with (j - 8) by mlia.
Qed.

Lemma ntohs_range buf off : is_bytes buf -> 0 <= st_ntohs buf off < 65536.
Proof.
  intros Hb. assert (Hr : forall i, is_u8 (arr_get 0 buf i)).
  { intros i. apply arr_get_Forall; [unfold is_u8; lia|exact Hb]. }
  unfold st_ntohs. pose proof (Hr off). pose proof (Hr (off + 1)). unfold is_u8 in *.
  assert (0 <= Z.lor (Z.shiftl (arr_get 0 buf off) 8) (arr_get 0 buf (off + 1))).
  { apply Z.lor_nonneg. split; [apply Z.shiftl_nonneg|]; lia. }
  split; [done|]. change 65536 with (2 ^ 16). apply bits_below_range; [lia|done|].
  intros i Hi. rewrite Z.lor_spec, Z.shiftl_spec by lia. rewrite !byte_bits_high by (done || lia). done.
Qed.

Lemma land_3ff_bit x j : 0 <= j -> Z.testbit (Z.land x 0x3FF) j = Z.testbit x j && (j <? 10).
Proof.
  intros Hj. rewrite Z.land_spec. f_equal. change 0x3FF with (Z.ones 10).
  rewrite Z.testbit_ones by lia. destruct (Z.leb_spec 0 j); [done|lia].
Qed.

Lemma land_3ff_mod x : Z.land x 0x3FF = x mod 1024.
Proof. change 0x3FF with (Z.ones 10). by rewrite Z.land_ones by lia. Qed.

Section Words.
Context (buf : bytes) (base : Z).
Hypothesis Hbuf : is_bytes buf.
Hypothesis Hbase : 0 <= base.

Lemma get_udw_bit idx j :
  0 <= idx -> 0 <= j < 10 ->
  Z.testbit (get_10bit_udw idx buf base) j = buf_bit buf (8 * base + 10 * idx + 9 - j).
Proof.
  intros Hi Hj. unfold get_10bit_udw. rewrite land_3ff_bit, Z.shiftr_spec by lia.
  replace (j <? 10) with true by lia. rewrite andb_true_r. unfold udw_shift, udw_byte.
  rewrite ntohs_bit by (try done; mlia). f_equal. mlia.
Qed.

Lemma get_udw_range idx : 0 <= get_10bit_udw idx buf base < 1024.
Proof. unfold get_10bit_udw. rewrite land_3ff_mod. apply Z.mod_pos_bound. lia. Qed.
End Words.

(** Two words are equal when their ten bits are. *)
Lemma word_ext x y :
  0 <= x < 1024 -> 0 <= y < 1024 -> (forall j, 0 <= j < 10 -> Z.testbit x j = Z.testbit y j) -> x = y.
Proof.
  intros Hx Hy H. apply Z.bits_inj'. intros j Hj. destruct (Z.lt_ge_cases j 10); [apply H; lia|].
  rewrite !(bits_above _ 10) by (change (2 ^ 10) with 1024; lia). done.
Qed.

Lemma land_ff00_shift v j : 0 <= j < 8 -> Z.testbit (Z.shiftr (Z.land v 0xFF00) 8) j = Z.testbit v (j + 8).
Proof.
  intros Hj. rewrite Z.shiftr_spec, Z.land_spec by lia. change 0xFF00 with (Z.shiftl (Z.ones 8) 8).
  rewrite Z.shiftl_spec, Z.testbit_ones by lia.
  replace ((0 <=? j + 8 - 8) && (j + 8 - 8 <? 8)) with true by lia. apply andb_true_r.
Qed.

Lemma land_ff_bit v j : 0 <= j -> Z.testbit (Z.land v 0xFF) j = Z.testbit v j && (j <? 8).
Proof.
  intros Hj. rewrite Z.land_spec. change 0xFF with (Z.ones 8). rewrite Z.testbit_ones by lia.
  by replace (0 <=? j) with true by lia.
Qed.

Lemma land_ff_mod v : Z.land v 0xFF = v mod 256.
Proof. change 0xFF with (Z.ones 8). by rewrite Z.land_ones by lia. Qed.

Lemma land_ff00_range v : is_u8 (Z.shiftr (Z.land v 0xFF00) 8).
Proof.
  change 0xFF00 with (Z.shiftl (Z.ones 8) 8). rewrite Z.shiftr_land, Z.shiftr_shiftl_l by lia.
  change (Z.shiftl (Z.ones 8) (8 - 8)) with (Z.ones 8). rewrite Z.land_ones by lia.
  apply Z.mod_pos_bound. lia.
Qed.

(** The 16-bit value with its field replaced. *)
Lemma field_bit v udw sh j :
  0 <= sh -> 0 <= j ->
  Z.testbit (Z.lor (Z.ldiff v (Z.shiftl 0x3FF sh)) (Z.shiftl (Z.land udw 0x3FF) sh)) j =
    if (sh <=? j) && (j <? sh + 10) then Z.testbit udw (j - sh) else Z.testbit v j.
Proof.
  intros Hs Hj. rewrite Z.lor_spec, Z.ldiff_spec, !Z.shiftl_spec by lia.
  destruct (Z.leb_spec sh j); cbn [andb].
  - rewrite land_3ff_bit by lia. change 0x3FF with (Z.ones 10). rewrite Z.testbit_ones by lia.
    replace (0 <=? j - sh) with true by lia. replace (j - sh <? 10) with (j <? sh + 10) by lia.
    destruct (j <? sh + 10); cbn [andb negb]; [by rewrite andb_false_r, andb_true_r|].
    by rewrite andb_true_r, andb_false_r, orb_false_r.
  - rewrite !(Z.testbit_neg_r _ (j - sh)) by lia. by rewrite andb_true_r, orb_false_r.
Qed.

Section SetWord.
Context (buf : bytes) (base idx udw : Z).
Hypothesis Hbuf : is_bytes buf.
Hypothesis Hbase : 0 <= base.
Hypothesis Hidx : 0 <= idx.
Hypothesis Hin : base + udw_byte idx + 1 < arr_len buf.

Lemma udw_byte_nonneg : 0 <= udw_byte idx.
Proof. unfold udw_byte. mlia. Qed.

Lemma set_udw_bytes : is_bytes (set_10bit_udw idx udw buf base).
Proof.
  unfold set_10bit_udw. apply arr_set_Forall.
  - rewrite land_ff_mod. apply Z.mod_pos_bound. lia.
  - apply arr_set_Forall; [apply land_ff00_range|done].
Qed.

Lemma set_udw_len : arr_len (set_10bit_udw idx udw buf base) = arr_len buf.
Proof. unfold set_10bit_udw. by rewrite !arr_len_set. Qed.

Lemma set_udw_bit k :
  0 <= k ->
  buf_bit (set_10bit_udw idx udw buf base) k =
    if (8 * base + 10 * idx <=? k) && (k <? 8 * base + 10 * idx + 10)
    then Z.testbit udw (8 * base + 10 * idx + 9 - k) else buf_bit buf k.
Proof.
  intros Hk. pose proof udw_byte_nonneg as Hub. unfold set_10bit_udw, buf_bit at 1.
  set (off := base + udw_byte idx) in *.
  set (val := Z.lor _ _).
  assert (Hpos : 0 <= k / 8 /\ 0 <= 7 - k mod 8 < 8) by mlia.
  assert (Hval : forall j, 0 <= j < 16 -> Z.testbit val j =
    if (udw_shift idx <=? j) && (j <? udw_shift idx + 10) then Z.testbit udw (j - udw_shift idx)
    else buf_bit buf (8 * off + 15 - j)).
  { intros j Hj. unfold val. rewrite field_bit, ntohs_bit by (try done; unfold udw_shift; mlia). done. }
  assert (Hsh : 8 * off + 15 - udw_shift idx = 8 * base + 10 * idx + 9) by (unfold off, udw_shift, udw_byte; mlia).
  assert (Hsr : 0 <= udw_shift idx <= 6) by (unfold udw_shift; mlia).
  destruct (decide (k / 8 = off + 1)) as [E1|N1]; [|destruct (decide (k / 8 = off)) as [E0|N0]].
  - rewrite E1, arr_get_set_eq by (rewrite arr_len_set; lia).
    rewrite land_ff_bit by lia. replace (7 - k mod 8 <? 8) with true by lia. rewrite andb_true_r, Hval by lia.
    replace (8 * off + 15 - (7 - k mod 8)) with k by mlia.
    replace ((udw_shift idx <=? 7 - k mod 8) && (7 - k mod 8 <? udw_shift idx + 10))
      with ((8 * base + 10 * idx <=? k) && (k <? 8 * base + 10 * idx + 10)) by mlia.
    case_if; [|done]. f_equal. mlia.
  - rewrite arr_get_set_ne, E0, arr_get_set_eq by lia.
    rewrite land_ff00_shift, Hval by lia.
    replace (8 * off + 15 - (7 - k mod 8 + 8)) with k by mlia.
    replace ((udw_shift idx <=? 7 - k mod 8 + 8) && (7 - k mod 8 + 8 <? udw_shift idx + 10))
      with ((8 * base + 10 * idx <=? k) && (k <? 8 * base + 10 * idx + 10)) by mlia.
    case_if; [|done]. f_equal. mlia.
  - rewrite !arr_get_set_ne by lia.
    replace ((8 * base + 10 * idx <=? k) && (k <? 8 * base + 10 * idx + 10)) with false by mlia. done.
Qed.

(** Reading back the word just written, and any other one. *)
Lemma get_set_udw idx' :
  0 <= idx' ->
  get_10bit_udw idx' (set_10bit_udw idx udw buf base) base =
    if idx' =? idx then udw mod 1024 else get_10bit_udw idx' buf base.
Proof.
  intros Hi'. pose proof set_udw_bytes as Hb'.
  apply word_ext; [by apply get_udw_range| |].
  { case_if; [apply Z.mod_pos_bound; lia|by apply get_udw_range]. }
  intros j Hj. rewrite get_udw_bit, set_udw_bit by (done || lia).
  destruct (Z.eqb_spec idx' idx) as [->|Hne].
  - replace ((_ <=? _) && _) with true by lia. rewrite <- land_3ff_mod, land_3ff_bit by lia.
    replace (j <? 10) with true by lia. rewrite andb_true_r. f_equal. lia.
  - replace ((_ <=? _) && _) with false by lia. by rewrite get_udw_bit.
Qed.
End SetWord.

(** ** Header words *)

Lemma lor_shift_add a b n : 0 <= n -> 0 <= b < 2 ^ n -> Z.lor (Z.shiftl a n) b = a * 2 ^ n + b.
Proof.
  intros Hn Hb. rewrite <- Z.shiftl_mul_pow2 by done.
  assert (Hand : Z.land (Z.shiftl a n) b = 0).
  { apply Z.bits_inj'. intros j Hj. rewrite Z.land_spec, Z.shiftl_spec, Z.bits_0 by done.
    destruct (Z.lt_ge_cases j n); [by rewrite (Z.testbit_neg_r _ (j - n)) by lia|].
    rewrite (bits_above b n j) by done. apply andb_false_r. }
  rewrite Z.add_nocarry_lxor by done. symmetry. by apply Z.lxor_lor.
Qed.

Lemma store32_get buf off v i :
  0 <= off -> off + 3 < arr_len buf -> 0 <= i ->
  arr_get 0 (mem_store buf off (be32 v)) i =
    if (off <=? i) && (i <? off + 4) then arr_get 0 (be32 v) (i - off) else arr_get 0 buf i.
Proof.
  intros Ho Hl Hi. unfold mem_store. change (length (be32 v)) with 4%nat. cbn [for_from].
  change (0 + 1) with 1. change (1 + 1) with 2. change (2 + 1) with 3. destruct ((off <=? i) && (i <? off + 4)) eqn:E; zbool.
  - assert (i = off + 3 \/ i = off + 2 \/ i = off + 1 \/ i = off + 0) as [-> | [-> | [-> | ->]]] by lia.
    + rewrite arr_get_set_eq by (rewrite !arr_len_set; lia). f_equal. lia.
    + rewrite arr_get_set_ne, arr_get_set_eq by (rewrite ?arr_len_set; lia). f_equal. lia.
    + do 2 rewrite arr_get_set_ne by lia. rewrite arr_get_set_eq by (rewrite ?arr_len_set; lia). f_equal. lia.
    + do 3 rewrite arr_get_set_ne by lia. rewrite arr_get_set_eq by lia. f_equal. lia.
  - destruct E; zbool; rewrite !arr_get_set_ne by lia; done.
Qed.

Lemma store32_ok buf off v :
  is_bytes buf -> is_bytes (mem_store buf off (be32 v)) /\ arr_len (mem_store buf off (be32 v)) = arr_len buf.
Proof.
  intros Hb. unfold mem_store. change (length (be32 v)) with 4%nat. cbn [for_from]. split.
  - repeat apply arr_set_Forall; try done;
      (apply arr_get_Forall; [unfold is_u8; lia|repeat constructor; apply u8_range]).
  - by rewrite !arr_len_set.
Qed.

Lemma ld_store32 buf off v :
  0 <= off -> off + 3 < arr_len buf -> is_u32 v -> ld_be32 (mem_store buf off (be32 v)) off = v.
Proof.
  intros Ho Hl Hv. unfold ld_be32, st_ntohs. replace (off + 2 + 1) with (off + 3) by lia.
  rewrite !store32_get by lia.
  replace (off <=? off) with true by lia. replace (off <=? off + 1) with true by lia.
  replace (off <=? off + 2) with true by lia. replace (off <=? off + 3) with true by lia.
  replace (off <? off + 4) with true by lia. replace (off + 1 <? off + 4) with true by lia.
  replace (off + 2 <? off + 4) with true by lia. replace (off + 3 <? off + 4) with true by lia.
  cbn [andb]. rewrite Z.sub_diag. replace (off + 1 - off) with 1 by lia. replace (off + 2 - off) with 2 by lia.
  replace (off + 3 - off) with 3 by lia.
  change (arr_get 0 (be32 v) 0) with (u8 (v / 65536 / 256)). change (arr_get 0 (be32 v) 1) with (u8 (v / 65536)).
  change (arr_get 0 (be32 v) 2) with (u8 (v / 256)). change (arr_get 0 (be32 v) 3) with (u8 v).
  pose proof (u8_range (v / 65536)). pose proof (u8_range v). pose proof (u8_range (v / 256)). unfold is_u8 in *.
  rewrite !(lor_shift_add _ _ 8) by (change (2 ^ 8) with 256; lia). change (2 ^ 8) with 256.
  rewrite lor_shift_add by (change (2 ^ 16) with 65536; lia). change (2 ^ 16) with 65536. mlia.
Qed.

Lemma ld_be32_bit buf off j :
  is_bytes buf -> 0 <= j < 32 -> Z.testbit (ld_be32 buf off) j = buf_bit buf (8 * off + 31 - j).
Proof.
  intros Hb Hj. unfold ld_be32. rewrite Z.lor_spec, Z.shiftl_spec by lia.
  destruct (Z.lt_ge_cases j 16).
  - rewrite (Z.testbit_neg_r _ (j - 16)) by lia. rewrite ntohs_bit by (done || lia). cbn [orb]. f_equal. lia.
  - rewrite ntohs_bit by (done || lia). rewrite (bits_above (st_ntohs buf (off + 2)) 16); [|lia| |lia].
    + rewrite orb_false_r. f_equal. lia.
    + by apply ntohs_range.
Qed.

Lemma ld_be32_range buf off : is_bytes buf -> is_u32 (ld_be32 buf off).
Proof.
  intros Hb. pose proof (ntohs_range buf off Hb). pose proof (ntohs_range buf (off + 2) Hb).
  unfold ld_be32. rewrite lor_shift_add by (change (2 ^ 16) with 65536; lia). change (2 ^ 16) with 65536.
  unfold is_u32. lia.
Qed.

(** The three words of the header as the decoder extracts them. *)
Lemma header_word buf idx :
  is_bytes buf -> 0 <= idx <= 2 ->
  Z.land (Z.shiftr (ld_be32 buf 4) (22 - 10 * idx)) 0x3FF = get_10bit_udw idx buf 4.
Proof.
  intros Hb Hi. apply word_ext.
  - rewrite land_3ff_mod. apply Z.mod_pos_bound. lia.
  - apply get_udw_range.
  - intros j Hj. rewrite land_3ff_bit, Z.shiftr_spec by lia. replace (j <? 10) with true by lia.
    rewrite andb_true_r, ld_be32_bit, get_udw_bit by (done || lia). f_equal. lia.
Qed.

Lemma second_chunk_fields did sdid dc :
  0 <= did < 1024 -> 0 <= sdid < 1024 -> 0 <= dc < 1024 ->
  second_hdr_chunk did sdid dc = did * 4194304 + sdid * 4096 + dc * 4.
Proof.
  intros Hd Hs Hc. unfold second_hdr_chunk. rewrite !land_3ff_mod, !Z.mod_small by lia.
  rewrite Z.lor_comm, (Z.lor_comm (Z.shiftl dc 2)).
  rewrite (Z.shiftl_mul_pow2 dc) by lia. change (2 ^ 2) with 4.
  rewrite (lor_shift_add sdid) by (change (2 ^ 12) with 4096; lia).
  rewrite lor_shift_add by (change (2 ^ 22) with 4194304; change (2 ^ 12) with 4096; lia).
  change (2 ^ 22) with 4194304. change (2 ^ 12) with 4096. lia.
Qed.

(** Field ranges of the header that the wire format can carry. *)
Record meta_ok (m : st40_meta) : Prop := {
  mo_c : 0 <= meta_c m < 2; mo_line : 0 <= meta_line_number m < 2048;
  mo_hori : 0 <= meta_hori_offset m < 4096; mo_s : 0 <= meta_s m < 2;
  mo_stream : 0 <= meta_stream_num m < 128; mo_did : is_u8 (meta_did m);
  mo_sdid : is_u8 (meta_sdid m); mo_size : 0 <= meta_udw_size m <= 255;
  mo_offset : meta_udw_offset m = 0;
}.

Lemma first_chunk_fields m :
  meta_ok m ->
  first_hdr_chunk m = meta_c m * 2147483648 + meta_line_number m * 1048576
    + meta_hori_offset m * 256 + meta_s m * 128 + meta_stream_num m.
Proof.
  intros [Hc Hl Hh Hs Hn _ _ _ _]. unfold first_hdr_chunk.
  change 0x7F with (Z.ones 7). change 0xFFF with (Z.ones 12). change 0x7FF with (Z.ones 11).
  change (Z.land (meta_s m) 1) with (Z.land (meta_s m) (Z.ones 1)).
  change (Z.land (meta_c m) 1) with (Z.land (meta_c m) (Z.ones 1)). rewrite !Z.land_ones by lia.
  change (2 ^ 7) with 128. change (2 ^ 12) with 4096. change (2 ^ 11) with 2048. change (2 ^ 1) with 2.
  rewrite !Z.mod_small by lia.
  rewrite (Z.lor_comm (meta_stream_num m)), (lor_shift_add (meta_s m)) by (change (2 ^ 7) with 128; lia).
  rewrite (Z.lor_comm _ (Z.shiftl (meta_hori_offset m) 8)).
  rewrite (lor_shift_add (meta_hori_offset m)) by (change (2 ^ 8) with 256; change (2 ^ 7) with 128; lia).
  rewrite (Z.lor_comm _ (Z.shiftl (meta_line_number m) 20)).
  rewrite (lor_shift_add (meta_line_number m))
    by (change (2 ^ 20) with 1048576; change (2 ^ 8) with 256; change (2 ^ 7) with 128; lia).
  rewrite (Z.lor_comm _ (Z.shiftl (meta_c m) 31)), (lor_shift_add (meta_c m))
    by (change (2 ^ 31) with 2147483648; change (2 ^ 20) with 1048576; change (2 ^ 8) with 256;
        change (2 ^ 7) with 128; lia).
  change (2 ^ 31) with 2147483648. change (2 ^ 20) with 1048576. change (2 ^ 8) with 256.
  change (2 ^ 7) with 128. lia.
Qed.

(** ** Facts about parity and checksums *)

(** Even parity of the eight data bits. *)
Definition byte_parity (v : Z) : bool :=
  foldr (fun i p => xorb (Z.testbit v i) p) false (seqZ 0 8).

(** A property of a bounded range can be checked by evaluation. *)
Lemma forall_range (n : Z) (P : Z -> bool) :
  forallb P (seqZ 0 n) = true -> forall v, 0 <= v < n -> P v = true.
Proof.
  intros H v Hv. apply (proj1 (List.forallb_forall P (seqZ 0 n)) H).
  apply list_elem_of_In, elem_of_seqZ. lia.
Qed.

Lemma add_parity_low v : st40_add_parity_bits (Z.land v 0xFF) = st40_add_parity_bits v.
Proof. unfold st40_add_parity_bits, get_parity_bits. by rewrite <- !Z.land_assoc. Qed.

Lemma add_parity_facts v : is_u8 v ->
  0 <= st40_add_parity_bits v < 1024 /\ Z.land (st40_add_parity_bits v) 0xFF = v /\
  Z.testbit (st40_add_parity_bits v) 8 = byte_parity v /\
  Z.testbit (st40_add_parity_bits v) 9 = negb (byte_parity v).
Proof.
  intros Hv. pose proof (forall_range 256 (fun v =>
    (0 <=? st40_add_parity_bits v) && (st40_add_parity_bits v <? 1024) &&
    (Z.land (st40_add_parity_bits v) 0xFF =? v) &&
    eqb (Z.testbit (st40_add_parity_bits v) 8) (byte_parity v) &&
    eqb (Z.testbit (st40_add_parity_bits v) 9) (negb (byte_parity v))) eq_refl v Hv) as H.
  cbv beta in H. zbool. apply eqb_prop in H0, H1. done.
Qed.

Lemma check_add_parity v : is_u8 v -> st40_check_parity_bits (st40_add_parity_bits v) = true.
Proof.
  intros Hv. destruct (add_parity_facts v Hv) as (_ & Hl & _). unfold st40_check_parity_bits.
  rewrite Hl. apply Z.eqb_refl.
Qed.

Lemma parity_flip w j :
  0 <= w < 1024 -> 0 <= j < 10 -> st40_check_parity_bits w = true ->
  st40_check_parity_bits (Z.lxor w (Z.shiftl 1 j)) = false.
Proof.
  intros Hw Hj Hc. pose proof (forall_range 1024 (fun w =>
    negb (st40_check_parity_bits w) ||
    forallb (fun j => negb (st40_check_parity_bits (Z.lxor w (Z.shiftl 1 j)))) (seqZ 0 10)) eq_refl w Hw) as H.
  cbv beta in H. rewrite Hc in H. cbn [negb orb] in H.
  apply (forall_range 10 (fun j => negb (st40_check_parity_bits (Z.lxor w (Z.shiftl 1 j)))) H j) in Hj.
  by apply negb_true_iff in Hj.
Qed.

(** the parity bits follow SMPTE ST 291: for every byte, bit 8 is the even parity
    of the byte, bit 9 its complement and the low byte the byte itself, so the
    result passes the check; and the check accepts no word that differs from an
    accepted one in exactly one bit. *)
Theorem st40_parity_code v j :
  is_u8 v -> 0 <= j < 10 ->
  let w := st40_add_parity_bits v in
  Z.land w 0xFF = v /\ Z.testbit w 8 = byte_parity v /\ Z.testbit w 9 = negb (byte_parity v) /\
  st40_check_parity_bits w = true /\ st40_check_parity_bits (Z.lxor w (Z.shiftl 1 j)) = false.
Proof.
  intros Hv Hj w. destruct (add_parity_facts v Hv) as (Hr & Hl & H8 & H9). pose proof (check_add_parity v Hv) as Hc.
  repeat split; try done. by apply parity_flip.
Qed.

Lemma st40_parity_code_witness :
  st40_add_parity_bits 0x61 = 0x161 /\ st40_check_parity_bits (Z.lxor 0x161 (Z.shiftl 1 3)) = false.
Proof.
  split; [reflexivity|]. apply (st40_parity_code 0x61 3); vm_compute; done.
Defined.

Lemma checksum_ext n a b base :
  (forall i, 0 <= i < n -> get_10bit_udw i a base = get_10bit_udw i b base) ->
  st40_calc_checksum n a base = st40_calc_checksum n b base.
Proof.
  intros H. unfold st40_calc_checksum.
  rewrite (for_from_ext _ (fun i chks => u16 (chks + get_10bit_udw i b base))); [done|].
  intros k c Hk. rewrite H by lia. done.
Qed.

Lemma checksum_range n a base : 0 <= st40_calc_checksum n a base < 1024.
Proof.
  unfold st40_calc_checksum. set (c := for_from _ _ _ _). change 0x1ff with (Z.ones 9).
  assert (Hz : Z.land c (Z.ones 9) = c mod 512) by (by rewrite Z.land_ones). rewrite Hz.
  pose proof (Z.mod_pos_bound c 512 ltac:(lia)). set (x := c mod 512) in *.
  assert (0 <= Z.lor (Z.land (Z.lnot (Z.shiftl x 1)) 512) x).
  { apply Z.lor_nonneg. split; [apply Z.land_nonneg; right|]; lia. }
  split; [done|]. change 1024 with (2 ^ 10). apply bits_below_range; [lia|done|].
  intros i Hi. rewrite Z.lor_spec, Z.land_spec. rewrite (bits_above x 10) by (change (2 ^ 10) with 1024; lia).
  rewrite (bits_above 512 10) by (change (2 ^ 10) with 1024; lia). by rewrite andb_false_r.
Qed.

(** ** Encoding *)

Lemma payload_bytes_eq n :
  0 <= n <= 255 ->
  st40_rfc8331_payload_bytes n = 4 + 4 * ((((n + 4) * 10 + 7) / 8 + 3) / 4).
Proof.
  intros Hn. unfold st40_rfc8331_payload_bytes, SIZEOF_RFC8331_HDR. rewrite u32_id by (unfold is_u32; lia).
  change 0x3 with (Z.ones 2). rewrite Z.ldiff_ones_r, Z.shiftl_mul_pow2, Z.shiftr_div_pow2 by lia.
  change (2 ^ 2) with 4. change (Z.ones 2) with 3. replace (3 + n + 1) with (n + 4) by lia. ring.
Qed.

(** Every word of the packet, the checksum included, lies inside it. *)
Lemma word_in_packet n idx :
  0 <= n <= 255 -> 0 <= idx <= n + 3 -> 4 + udw_byte idx + 1 < st40_rfc8331_payload_bytes n.
Proof. intros Hn Hi. rewrite payload_bytes_eq by done. unfold udw_byte. mlia. Qed.

Lemma mem_zero_ok buf n :
  is_bytes buf -> 0 <= n <= arr_len buf ->
  is_bytes (mem_zero buf n) /\ arr_len (mem_zero buf n) = arr_len buf /\
  forall k, n <= k -> arr_get 0 (mem_zero buf n) k = arr_get 0 buf k.
Proof.
  intros Hb Hn. unfold mem_zero, arr_len, is_bytes in *. split; [|split].
  - apply Forall_app. split; [apply Forall_replicate; unfold is_u8; lia|by apply Forall_drop].
  - rewrite length_app, length_replicate, length_drop. lia.
  - intros k Hk. unfold arr_get. case_if; [done|].
    rewrite lookup_app_r, length_replicate, lookup_drop by (rewrite length_replicate; lia).
    do 2 f_equal. lia.
Qed.

(** Writing a word changes only the two bytes it lies in. *)
Lemma set_udw_outside buf base idx udw k :
  0 <= base -> 0 <= idx -> base + udw_byte idx + 1 < k ->
  arr_get 0 (set_10bit_udw idx udw buf base) k = arr_get 0 buf k.
Proof.
  intros Hb Hi Hk. pose proof (udw_byte_nonneg idx Hi). unfold set_10bit_udw.
  by rewrite !arr_get_set_ne by lia.
Qed.

(** What the loop over the data words has done after [i] of them. *)
Record enc_inv (buf0 : bytes) (udw_in : bytes) (need i : Z) (buf : bytes) : Prop := {
  ei_bytes : is_bytes buf;
  ei_len : arr_len buf = arr_len buf0;
  ei_word : forall w, 0 <= w -> get_10bit_udw w buf 4 =
    if (3 <=? w) && (w <? 3 + i) then st40_add_parity_bits (arr_get 0 udw_in (w - 3))
    else get_10bit_udw w buf0 4;
  ei_head : forall k, 0 <= k < 32 -> buf_bit buf k = buf_bit buf0 k;
  ei_tail : forall k, need <= k -> arr_get 0 buf k = arr_get 0 buf0 k;
}.

Lemma enc_step buf0 udw_in need n i buf :
  0 <= n <= 255 -> need = st40_rfc8331_payload_bytes n -> need <= arr_len buf0 ->
  is_bytes udw_in -> 0 <= i < n -> enc_inv buf0 udw_in need i buf ->
  enc_inv buf0 udw_in need (i + 1) (st40_set_udw (i + 3) (st40_add_parity_bits (arr_get 0 udw_in i)) buf 4).
Proof.
  intros Hn Hneed Hl Hu Hi [Hb Hlen Hw Hh Ht]. unfold st40_set_udw.
  pose proof (word_in_packet n (i + 3) Hn ltac:(lia)) as Hin.
  assert (Hbyte : is_u8 (arr_get 0 udw_in i)) by (apply arr_get_Forall; [unfold is_u8; lia|exact Hu]).
  destruct (add_parity_facts _ Hbyte) as [Hr _].
  split.
  - by apply set_udw_bytes.
  - by rewrite set_udw_len.
  - intros w H0. rewrite get_set_udw by (done || lia). rewrite Hw by done.
    destruct (Z.eqb_spec w (i + 3)) as [->|Hne].
    + replace ((3 <=? i + 3) && (i + 3 <? 3 + (i + 1))) with true by lia.
      rewrite Z.mod_small by done. f_equal. f_equal. lia.
    + replace ((3 <=? w) && (w <? 3 + (i + 1))) with ((3 <=? w) && (w <? 3 + i)) by lia. done.
  - intros k Hk. rewrite set_udw_bit by (done || lia).
    replace ((_ <=? k) && _) with false by lia. by apply Hh.
  - intros k Hk. rewrite set_udw_outside by lia. by apply Ht.
Qed.

(** A packet as the encoder leaves it in memory. *)
Record encoded (m : st40_meta) (udw_in : bytes) (f : bytes) : Prop := {
  ec_bytes : is_bytes f;
  ec_first : ld_be32 f 0 = first_hdr_chunk m;
  ec_did : get_10bit_udw 0 f 4 = st40_add_parity_bits (meta_did m);
  ec_sdid : get_10bit_udw 1 f 4 = st40_add_parity_bits (meta_sdid m);
  ec_count : get_10bit_udw 2 f 4 = st40_add_parity_bits (meta_udw_size m);
  ec_data : forall i, 0 <= i < meta_udw_size m ->
    get_10bit_udw (i + 3) f 4 = st40_add_parity_bits (arr_get 0 udw_in i);
  ec_sum : get_10bit_udw (meta_udw_size m + 3) f 4 = st40_calc_checksum (3 + meta_udw_size m) f 4;
}.

(** The header words after the two stores. *)
Lemma header_stored buf m dst :
  meta_ok m -> is_bytes buf -> 8 <= arr_len buf ->
  dst = mem_store (mem_store buf 0 (be32 (first_hdr_chunk m))) 4
    (be32 (second_hdr_chunk (st40_add_parity_bits (meta_did m))
             (st40_add_parity_bits (meta_sdid m)) (st40_add_parity_bits (meta_udw_size m)))) ->
  is_bytes dst /\ arr_len dst = arr_len buf /\ ld_be32 dst 0 = first_hdr_chunk m /\
  get_10bit_udw 0 dst 4 = st40_add_parity_bits (meta_did m) /\
  get_10bit_udw 1 dst 4 = st40_add_parity_bits (meta_sdid m) /\
  get_10bit_udw 2 dst 4 = st40_add_parity_bits (meta_udw_size m) /\
  forall k, 8 <= k -> arr_get 0 dst k = arr_get 0 buf k.
Proof.
  intros Hm Hb Hl ->. pose proof Hm as [Hc Hli Hh Hs Hst Hd Hsd Hsz _].
  destruct (add_parity_facts _ Hd) as [Rd _]. destruct (add_parity_facts _ Hsd) as [Rs _].
  destruct (add_parity_facts (meta_udw_size m)) as [Rn _]; [unfold is_u8; lia|].
  set (pd := st40_add_parity_bits (meta_did m)) in *. set (ps := st40_add_parity_bits (meta_sdid m)) in *.
  set (pn := st40_add_parity_bits (meta_udw_size m)) in *.
  pose proof (second_chunk_fields pd ps pn Rd Rs Rn) as Hsec. pose proof (first_chunk_fields m Hm) as Hfst.
  set (b1 := mem_store buf 0 (be32 (first_hdr_chunk m))).
  destruct (store32_ok buf 0 (first_hdr_chunk m) Hb) as [Hb1 Hl1]. fold b1 in Hb1, Hl1.
  destruct (store32_ok b1 4 (second_hdr_chunk pd ps pn) Hb1) as [Hb2 Hl2].
  assert (H1 : ld_be32 b1 0 = first_hdr_chunk m) by (apply ld_store32; unfold is_u32; lia).
  assert (H2 : ld_be32 (mem_store b1 4 (be32 (second_hdr_chunk pd ps pn))) 4 = second_hdr_chunk pd ps pn)
    by (apply ld_store32; unfold is_u32; lia).
  set (dst := mem_store b1 4 _) in *.
  split; [done|]. split; [lia|]. split.
  { rewrite <- H1. unfold ld_be32, st_ntohs, dst. rewrite !store32_get by lia. done. }
  rewrite <- !header_word by (done || lia). rewrite H2, Hsec, !land_3ff_mod, !Z.shiftr_div_pow2 by lia.
  change (2 ^ (22 - 10 * 0)) with 4194304. change (2 ^ (22 - 10 * 1)) with 4096. change (2 ^ (22 - 10 * 2)) with 4.
  split; [mlia|]. split; [mlia|]. split; [mlia|].
  intros k Hk. unfold dst. rewrite store32_get by lia. replace (k <? 4 + 4) with false by lia.
  rewrite andb_false_r. unfold b1. rewrite store32_get by lia. replace (k <? 0 + 4) with false by lia.
  by rewrite andb_false_r.
Qed.

Lemma encode_spec buf room m udw_in :
  meta_ok m -> is_bytes buf -> is_bytes udw_in ->
  st40_rfc8331_payload_bytes (meta_udw_size m) <= room <= arr_len buf ->
  exists f, st40_rfc8331_encode_packet buf room m udw_in
      = (0, f, st40_rfc8331_payload_bytes (meta_udw_size m)) /\
    encoded m udw_in f /\ arr_len f = arr_len buf /\
    forall k, st40_rfc8331_payload_bytes (meta_udw_size m) <= k -> arr_get 0 f k = arr_get 0 buf k.
Proof.
  intros Hm Hb Hu Hroom. pose proof Hm as [_ _ _ _ _ _ _ Hsz _]. unfold st40_rfc8331_encode_packet.
  set (n := meta_udw_size m) in *. set (need := st40_rfc8331_payload_bytes n) in *.
  replace (n >? 0xFF) with false by lia. replace (room <? need) with false by lia.
  assert (Hn8 : 8 <= need).
  { unfold need. rewrite payload_bytes_eq by done. mlia. }
  destruct (mem_zero_ok buf need Hb ltac:(lia)) as (Hb0 & Hl0 & Ht0).
  edestruct (header_stored (mem_zero buf need) m) as (Hb1 & Hl1 & H1 & Hd & Hs & Hc & Ht1);
    [done|done|lia|reflexivity|]. fold n in Hb1, Hl1, H1, Hd, Hs, Hc, Ht1.
  set (hdr := mem_store _ 4 _) in *.
  assert (Hloop : enc_inv hdr udw_in need n (for_from 0 (Z.to_nat n)
    (fun i buf => st40_set_udw (i + 3) (st40_add_parity_bits (arr_get 0 udw_in i)) buf 4) hdr)).
  { apply (for_upto_inv (enc_inv hdr udw_in need)); [lia| |].
    - split; try done. intros w H0. by replace ((3 <=? w) && (w <? 3 + 0)) with false by lia.
    - intros i b Hi Hinv. apply (enc_step _ _ _ n); try done. lia. }
  set (body := for_from _ _ _ hdr) in *. destruct Hloop as [Hbb Hlb Hw Hh Htl].
  pose proof (word_in_packet n (n + 3) Hsz ltac:(lia)) as Hin. fold need in Hin.
  set (sum := st40_calc_checksum (3 + n) body 4). pose proof (checksum_range (3 + n) body 4) as Hsr. fold sum in Hsr.
  assert (Hget : forall w, 0 <= w -> get_10bit_udw w (st40_set_udw (n + 3) sum body 4) 4 =
    if w =? n + 3 then sum else get_10bit_udw w body 4).
  { intros w H0. unfold st40_set_udw. rewrite get_set_udw by (done || lia). by rewrite Z.mod_small. }
  exists (st40_set_udw (n + 3) sum body 4). split; [done|]. split; [split|split].
  - by apply set_udw_bytes.
  - rewrite <- H1. apply Z.bits_inj'. intros j Hj. destruct (Z.lt_ge_cases j 32).
    + rewrite !ld_be32_bit by (done || lia || by apply set_udw_bytes). unfold st40_set_udw.
      rewrite set_udw_bit by (done || lia). replace ((_ <=? _) && _) with false by lia. apply Hh. lia.
    + rewrite !(bits_above _ 32); [done|lia| |done|lia| |done]; change (2 ^ 32) with 4294967296;
        apply ld_be32_range; [done|by apply set_udw_bytes].
  - rewrite Hget, Hw by lia. by replace (0 =? n + 3) with false by lia.
  - rewrite Hget, Hw by lia. by replace (1 =? n + 3) with false by lia.
  - rewrite Hget, Hw by lia. by replace (2 =? n + 3) with false by lia.
  - fold n. intros i Hi. rewrite Hget, Hw by lia. replace (i + 3 =? n + 3) with false by lia.
    replace ((3 <=? i + 3) && (i + 3 <? 3 + n)) with true by lia. do 2 f_equal. lia.
  - fold n. rewrite Hget by lia. rewrite Z.eqb_refl. apply checksum_ext. intros i Hi. rewrite Hget by lia.
    by replace (i =? n + 3) with false by lia.
  - unfold st40_set_udw. rewrite set_udw_len. lia.
  - intros k Hk. unfold st40_set_udw. rewrite set_udw_outside by lia. rewrite Htl, Ht1, Ht0 by lia. done.
Qed.

(** ** Decoding *)

Lemma decode_udws_ok f udw_in n : forall i,
  (forall k, i <= k < i + Z.of_nat n ->
     get_10bit_udw (k + 3) f 4 = st40_add_parity_bits (arr_get 0 udw_in k)) ->
  is_bytes udw_in -> 0 <= i -> i + Z.of_nat n <= arr_len udw_in ->
  decode_udws f i n = Some (take n (drop (Z.to_nat i) udw_in)).
Proof.
  induction n as [|n IH]; intros i Hw Hu Hi Hl; [done|]. cbn [decode_udws].
  unfold st40_get_udw. rewrite Hw by lia.
  assert (Hbyte : is_u8 (arr_get 0 udw_in i)) by (apply arr_get_Forall; [unfold is_u8; lia|exact Hu]).
  rewrite check_add_parity by done. cbn [negb].
  rewrite IH; [|intros k Hk; apply Hw; lia|done|lia|lia]. cbn [mbind option_bind].
  destruct (add_parity_facts _ Hbyte) as (_ & -> & _). f_equal.
  destruct (lookup_lt_is_Some_2 udw_in (Z.to_nat i)) as [x Hx]; [unfold arr_len in Hl; lia|].
  rewrite (arr_get_lookup 0 udw_in i x) by done. rewrite (drop_S udw_in x (Z.to_nat i)) by done. simpl.
  do 3 f_equal. lia.
Qed.

Lemma first_chunk_decode m :
  meta_ok m ->
  mk_meta (Z.land (Z.shiftr (first_hdr_chunk m) 31) 1) (Z.land (Z.shiftr (first_hdr_chunk m) 20) 0x7FF)
    (Z.land (Z.shiftr (first_hdr_chunk m) 8) 0xFFF) (Z.land (Z.shiftr (first_hdr_chunk m) 7) 1)
    (Z.land (first_hdr_chunk m) 0x7F) (meta_did m) (meta_sdid m) (meta_udw_size m) 0 = m.
Proof.
  intros Hm. pose proof (first_chunk_fields m Hm) as ->. destruct Hm as [Hc Hl Hh Hs Hn _ _ _ Ho].
  destruct m as [c li ho s st did sdid n off]. cbn in *. subst off.
  change 0x7F with (Z.ones 7). change 0xFFF with (Z.ones 12). change 0x7FF with (Z.ones 11).
  change (Z.land ?x 1) with (Z.land x (Z.ones 1)).
  rewrite !Z.land_ones, !Z.shiftr_div_pow2 by lia.
  change (2 ^ 31) with 2147483648. change (2 ^ 20) with 1048576. change (2 ^ 8) with 256.
  change (2 ^ 7) with 128. change (2 ^ 12) with 4096. change (2 ^ 11) with 2048. change (2 ^ 1) with 2.
  f_equal; mlia.
Qed.

(** The decoder in terms of the packed words. *)
Definition decode_words (f : bytes) (room : Z) (udw_cap : option Z)
    : st40_rfc8331_decode_result * option (st40_meta * bytes * Z) :=
  let did := get_10bit_udw 0 f 4 in
  let sdid := get_10bit_udw 1 f 4 in
  let data_count := get_10bit_udw 2 f 4 in
  if negb (st40_check_parity_bits did) || negb (st40_check_parity_bits sdid)
     || negb (st40_check_parity_bits data_count)
  then (ST40_RFC8331_DECODE_PARITY_FAIL, None)
  else
    let udw_size := Z.land data_count 0xFF in
    let need := st40_rfc8331_payload_bytes udw_size in
    if room <? need then (ST40_RFC8331_DECODE_SHORT_BUFFER, None)
    else if match udw_cap with Some cap => udw_size >? cap | None => false end
    then (ST40_RFC8331_DECODE_SHORT_BUFFER, None)
    else
      match decode_udws f 0 (Z.to_nat udw_size) with
      | None => (ST40_RFC8331_DECODE_PARITY_FAIL, None)
      | Some udw_out =>
          if negb (get_10bit_udw (udw_size + 3) f 4 =? st40_calc_checksum (3 + udw_size) f 4)
          then (ST40_RFC8331_DECODE_CHECKSUM_FAIL, None)
          else
            (ST40_RFC8331_DECODE_OK,
             Some (mk_meta (Z.land (Z.shiftr (ld_be32 f 0) 31) 1) (Z.land (Z.shiftr (ld_be32 f 0) 20) 0x7FF)
                     (Z.land (Z.shiftr (ld_be32 f 0) 8) 0xFFF) (Z.land (Z.shiftr (ld_be32 f 0) 7) 1)
                     (Z.land (ld_be32 f 0) 0x7F) (Z.land did 0xFF) (Z.land sdid 0xFF) udw_size 0,
                   udw_out, need))
      end.

Lemma decode_view f room cap :
  is_bytes f -> 8 <= room -> st40_rfc8331_decode_packet f room cap = decode_words f room cap.
Proof.
  intros Hb Hr. unfold st40_rfc8331_decode_packet, decode_words.
  replace (room <? SIZEOF_RFC8331_HDR) with false by (unfold SIZEOF_RFC8331_HDR; lia).
  pose proof (header_word f 0 Hb ltac:(lia)) as W0. pose proof (header_word f 1 Hb ltac:(lia)) as W1.
  pose proof (header_word f 2 Hb ltac:(lia)) as W2.
  change (22 - 10 * 0) with 22 in W0. change (22 - 10 * 1) with 12 in W1. change (22 - 10 * 2) with 2 in W2.
  by rewrite W0, W1, W2.
Qed.

Lemma need_ge_8 n : 0 <= n <= 255 -> 8 <= st40_rfc8331_payload_bytes n.
Proof. intros Hn. rewrite payload_bytes_eq by done. mlia. Qed.

(** Memory that starts with an encoded packet is decoded to what was encoded. *)
Lemma encoded_decodes f room m udw_in cap :
  encoded m udw_in f -> meta_ok m -> is_bytes udw_in -> meta_udw_size m <= arr_len udw_in ->
  st40_rfc8331_payload_bytes (meta_udw_size m) <= room ->
  match cap with Some cap => meta_udw_size m <= cap | None => True end ->
  st40_rfc8331_decode_packet f room cap =
    (ST40_RFC8331_DECODE_OK,
     Some (m, take (Z.to_nat (meta_udw_size m)) udw_in, st40_rfc8331_payload_bytes (meta_udw_size m))).
Proof.
  intros [Hfb Hf Hd Hs Hc Hdat Hsum] Hm Hu Hlen Hroom Hcap.
  pose proof Hm as [Rc Rl Rh Rs Rn Rd Rsd Hsz Ho].
  set (n := meta_udw_size m) in *. set (need := st40_rfc8331_payload_bytes n) in *.
  assert (Hn8 : 8 <= need) by (by apply need_ge_8). assert (Hn8' : is_u8 n) by (unfold is_u8; lia).
  rewrite decode_view by (done || lia). unfold decode_words. rewrite Hd, Hs, Hc.
  rewrite !check_add_parity by done. cbn [negb orb].
  destruct (add_parity_facts _ Hn8') as (_ & -> & _). fold need.
  destruct (add_parity_facts _ Rd) as (_ & -> & _). destruct (add_parity_facts _ Rsd) as (_ & -> & _).
  replace (room <? need) with false by lia.
  replace (match cap with Some cap => n >? cap | None => false end) with false by (destruct cap; [lia|done]).
  rewrite (decode_udws_ok f udw_in) by (done || lia || (intros; apply Hdat; lia)).
  rewrite Hsum, Z.eqb_refl. cbn [negb]. rewrite drop_0. do 4 f_equal.
  rewrite Hf. by apply first_chunk_decode.
Qed.

(** C13: encoding and decoding are inverse. For every header the wire format can carry
    and every list of data bytes, a packet encoded into a large enough buffer
    occupies exactly [st40_rfc8331_payload_bytes] of it, leaves the rest of the
    buffer as it was, and is decoded, by any caller whose output buffer is large
    enough, to the same header and the same bytes. *)
Theorem st40_encode_decode buf room m udw_in cap :
  meta_ok m -> is_bytes buf -> is_bytes udw_in -> meta_udw_size m <= arr_len udw_in ->
  st40_rfc8331_payload_bytes (meta_udw_size m) <= room <= arr_len buf -> meta_udw_size m <= cap ->
  exists f, st40_rfc8331_encode_packet buf room m udw_in
      = (0, f, st40_rfc8331_payload_bytes (meta_udw_size m)) /\
    arr_len f = arr_len buf /\
    (forall k, st40_rfc8331_payload_bytes (meta_udw_size m) <= k -> arr_get 0 f k = arr_get 0 buf k) /\
    st40_rfc8331_decode_packet f room (Some cap) =
      (ST40_RFC8331_DECODE_OK,
       Some (m, take (Z.to_nat (meta_udw_size m)) udw_in, st40_rfc8331_payload_bytes (meta_udw_size m))).
Proof.
  intros Hm Hb Hu Hlen Hroom Hcap.
  destruct (encode_spec buf room m udw_in Hm Hb Hu Hroom) as (f & He & Henc & Hl & Ht).
  exists f. split_and!; try done. apply encoded_decodes; done || lia.
Qed.

Lemma st40_encode_decode_witness :
  exists f, st40_rfc8331_encode_packet (replicate 20 7) 20 (mk_meta 1 9 4095 0 3 0x61 0x02 3 0) [0xFF; 0x80; 5]
      = (0, f, 16) /\
    st40_rfc8331_decode_packet f 20 (Some 3)
      = (ST40_RFC8331_DECODE_OK, Some (mk_meta 1 9 4095 0 3 0x61 0x02 3 0, [0xFF; 0x80; 5], 16)).
Proof.
  destruct (st40_encode_decode (replicate 20 7) 20 (mk_meta 1 9 4095 0 3 0x61 0x02 3 0) [0xFF; 0x80; 5] 3)
    as (f & H1 & _ & _ & H2).
  - by split; vm_compute.
  - by repeat constructor; vm_compute.
  - by repeat constructor; vm_compute.
  - by vm_compute.
  - by vm_compute.
  - by vm_compute.
  - exists f. split; [exact H1|exact H2].
Defined.

(** ** Error detection *)

(** A transmission error in one bit. *)
Definition flip_bit (buf : bytes) (k : Z) : bytes :=
  arr_set buf (k / 8) (Z.lxor (arr_get 0 buf (k / 8)) (Z.shiftl 1 (7 - k mod 8))).

Section Flip.
Context (buf : bytes) (k : Z).
Hypothesis Hbuf : is_bytes buf.
Hypothesis Hk : 0 <= k < 8 * arr_len buf.

Lemma flip_bytes : is_bytes (flip_bit buf k).
Proof.
  unfold flip_bit. apply arr_set_Forall; [|done].
  assert (Hr : is_u8 (arr_get 0 buf (k / 8))) by (apply arr_get_Forall; [unfold is_u8; lia|exact Hbuf]).
  unfold is_u8 in *. assert (Hj : 0 <= 7 - k mod 8 < 8) by mlia.
  assert (0 <= Z.lxor (arr_get 0 buf (k / 8)) (Z.shiftl 1 (7 - k mod 8))).
  { apply Z.lxor_nonneg. split; [intros _; apply Z.shiftl_nonneg|]; lia. }
  split; [done|]. change 256 with (2 ^ 8). apply bits_below_range; [lia|done|].
  intros i Hi. rewrite Z.lxor_spec, shiftl_1_testbit by lia.
  rewrite (byte_bits_high buf) by (done || lia). by rewrite bool_decide_eq_false_2 by lia.
Qed.

Lemma flip_buf_bit k' : 0 <= k' -> buf_bit (flip_bit buf k) k' = xorb (buf_bit buf k') (bool_decide (k' = k)).
Proof.
  intros H'. unfold buf_bit, flip_bit. assert (Hj : 0 <= 7 - k mod 8 < 8) by mlia.
  destruct (decide (k' / 8 = k / 8)) as [E|N].
  - rewrite E, arr_get_set_eq by mlia. rewrite Z.lxor_spec, shiftl_1_testbit by lia. f_equal.
    apply bool_decide_ext. mlia.
  - rewrite arr_get_set_ne by mlia. rewrite bool_decide_eq_false_2 by (intros ->; done).
    by rewrite xorb_false_r.
Qed.

(** A word reads as before, or with one bit inverted. *)
Lemma flip_word w w0 j :
  0 <= w -> 0 <= w0 -> 0 <= j < 10 -> k = 32 + 10 * w0 + 9 - j ->
  get_10bit_udw w (flip_bit buf k) 4 =
    if w =? w0 then Z.lxor (get_10bit_udw w0 buf 4) (Z.shiftl 1 j) else get_10bit_udw w buf 4.
Proof.
  intros Hw Hw0 Hj Ek. pose proof flip_bytes as Hb'. pose proof (get_udw_range buf 4 w0) as Hr.
  assert (Hx : 0 <= Z.lxor (get_10bit_udw w0 buf 4) (Z.shiftl 1 j) < 1024).
  { assert (0 <= Z.lxor (get_10bit_udw w0 buf 4) (Z.shiftl 1 j)).
    { apply Z.lxor_nonneg. split; [intros _; apply Z.shiftl_nonneg|]; lia. }
    split; [done|]. change 1024 with (2 ^ 10). apply bits_below_range; [lia|done|].
    intros i Hi. rewrite Z.lxor_spec, shiftl_1_testbit by lia.
    rewrite (bits_above _ 10) by (change (2 ^ 10) with 1024; lia). by rewrite bool_decide_eq_false_2 by lia. }
  apply word_ext; [apply get_udw_range|case_if; [done|apply get_udw_range]|].
  intros i Hi. rewrite get_udw_bit, flip_buf_bit by (done || lia).
  destruct (Z.eqb_spec w w0) as [->|Hne].
  - rewrite Z.lxor_spec, shiftl_1_testbit, get_udw_bit by (done || lia). f_equal.
    apply bool_decide_ext. lia.
  - rewrite bool_decide_eq_false_2, xorb_false_r by lia. by rewrite get_udw_bit.
Qed.
End Flip.

Lemma decode_udws_bad f n : forall i w,
  i <= w < i + Z.of_nat n -> st40_check_parity_bits (get_10bit_udw (w + 3) f 4) = false ->
  decode_udws f i n = None.
Proof.
  induction n as [|n IH]; intros i w Hw Hc; [lia|]. cbn [decode_udws]. unfold st40_get_udw.
  destruct (decide (w = i)) as [->|]; [by rewrite Hc|].
  case_if; [done|]. by rewrite (IH (i + 1) w) by (done || lia).
Qed.

(** All words of an encoded packet but the checksum pass the parity check. *)
Lemma encoded_words_good m udw_in f w :
  meta_ok m -> is_bytes udw_in -> encoded m udw_in f -> 0 <= w < meta_udw_size m + 3 ->
  st40_check_parity_bits (get_10bit_udw w f 4) = true.
Proof.
  intros Hm Hu [_ _ Hd Hs Hc Hdat _] Hw. pose proof Hm as [_ _ _ _ _ Rd Rsd Hsz _].
  assert (w = 0 \/ w = 1 \/ w = 2 \/ 3 <= w) as [-> | [-> | [-> | H3]]] by lia.
  - rewrite Hd. by apply check_add_parity.
  - rewrite Hs. by apply check_add_parity.
  - rewrite Hc. apply check_add_parity. unfold is_u8. lia.
  - replace w with (w - 3 + 3) by lia. rewrite Hdat by lia. apply check_add_parity, arr_get_Forall;
      [unfold is_u8; lia|exact Hu].
Qed.

Lemma lxor_bit_ne c j : 0 <= j -> Z.lxor c (Z.shiftl 1 j) <> c.
Proof.
  intros Hj E. apply (f_equal (fun x => Z.testbit x j)) in E.
  rewrite Z.lxor_spec, shiftl_1_testbit in E by lia.
  rewrite bool_decide_eq_true_2 in E by done. by destruct (Z.testbit c j).
Qed.

(** C40: every single-bit error in the words of an encoded packet is detected. When
    one bit of DID, SDID, data count or user data is inverted the decoder
    reports a parity failure, and when a bit of the checksum is inverted a
    checksum failure; no such packet is ever accepted. *)
Theorem st40_detects_bit_errors buf room m udw_in cap k f need :
  meta_ok m -> is_bytes buf -> is_bytes udw_in -> meta_udw_size m <= arr_len udw_in ->
  st40_rfc8331_payload_bytes (meta_udw_size m) <= room <= arr_len buf -> meta_udw_size m <= cap ->
  st40_rfc8331_encode_packet buf room m udw_in = (0, f, need) ->
  32 <= k < 32 + 10 * (meta_udw_size m + 4) ->
  st40_rfc8331_decode_packet (flip_bit f k) room (Some cap) =
    (if k <? 32 + 10 * (meta_udw_size m + 3)
     then ST40_RFC8331_DECODE_PARITY_FAIL else ST40_RFC8331_DECODE_CHECKSUM_FAIL, None).
Proof.
  intros Hm Hb Hu Hlen Hroom Hcap He Hk.
  destruct (encode_spec buf room m udw_in Hm Hb Hu Hroom) as (f' & He' & Henc & Hl & _).
  rewrite He in He'. injection He' as <- ->. clear He. pose proof Henc as [Hfb _ _ _ Hc Hdat Hsum].
  pose proof Hm as [_ _ _ _ _ Rd Rsd Hsz _]. set (n := meta_udw_size m) in *.
  set (w0 := (k - 32) / 10). set (j := 9 - (k - 32) mod 10).
  assert (Hw0 : 0 <= w0 <= n + 3) by (unfold w0; mlia). assert (Hj : 0 <= j < 10) by (unfold j; mlia).
  assert (Hkj : k = 32 + 10 * w0 + 9 - j) by (unfold w0, j; mlia).
  assert (Hkl : 0 <= k < 8 * arr_len f).
  { rewrite Hl. pose proof (word_in_packet n w0 Hsz Hw0). unfold udw_byte in *. mlia. }
  pose proof (flip_bytes f k Hfb Hkl) as Hb'.
  assert (Hword : forall w, 0 <= w -> get_10bit_udw w (flip_bit f k) 4 =
    if w =? w0 then Z.lxor (get_10bit_udw w0 f 4) (Z.shiftl 1 j) else get_10bit_udw w f 4).
  { intros w H0. apply flip_word; try done; lia. }
  assert (Hbad : st40_check_parity_bits (get_10bit_udw w0 f 4) = true ->
    st40_check_parity_bits (get_10bit_udw w0 (flip_bit f k) 4) = false).
  { intros Hok. rewrite Hword, Z.eqb_refl by lia. apply parity_flip; try done. apply get_udw_range. }
  pose proof (need_ge_8 n Hsz) as Hn8. assert (Hn8' : is_u8 n) by (unfold is_u8; lia).
  rewrite decode_view by (done || lia). unfold decode_words.
  assert (Hgood : forall w, 0 <= w < n + 3 -> st40_check_parity_bits (get_10bit_udw w f 4) = true)
    by (intros w Hw; by apply (encoded_words_good m udw_in)).
  destruct (Z.lt_ge_cases w0 3) as [Hlow|Hhigh].
  { replace (k <? 32 + 10 * (n + 3)) with true by lia.
    assert (w0 = 0 \/ w0 = 1 \/ w0 = 2) as [E | [E | E]] by lia; rewrite E in Hbad;
      rewrite Hbad by (apply Hgood; lia); cbn [negb]; by rewrite ?orb_true_r. }
  rewrite !Hword by lia. replace (0 =? w0) with false by lia. replace (1 =? w0) with false by lia.
  replace (2 =? w0) with false by lia. rewrite !Hgood by lia. cbn [negb orb]. rewrite Hc.
  destruct (add_parity_facts _ Hn8') as (_ & -> & _).
  replace (room <? st40_rfc8331_payload_bytes n) with false by lia. replace (n >? cap) with false by lia.
  destruct (Z.lt_ge_cases w0 (n + 3)) as [Hdata|Hlast].
  { rewrite (decode_udws_bad _ _ 0 (w0 - 3)); [by replace (k <? 32 + 10 * (n + 3)) with true by lia|lia|].
    replace (w0 - 3 + 3) with w0 by lia. apply Hbad, Hgood. lia. }
  assert (w0 = n + 3) as Ew by lia. replace (k <? 32 + 10 * (n + 3)) with false by lia.
  rewrite (decode_udws_ok _ udw_in); [|intros i Hi; rewrite Hword by lia;
    replace (i + 3 =? w0) with false by lia; apply Hdat; lia|done|lia|lia].
  rewrite Hword, Ew, Z.eqb_refl, Hsum by lia.
  rewrite (checksum_ext (3 + n) (flip_bit f k) f) by (intros i Hi; rewrite Hword by lia;
    by replace (i =? w0) with false by lia).
  set (c := st40_calc_checksum (3 + n) f 4).
  pose proof (lxor_bit_ne c j (proj1 Hj)) as Hne. apply Z.eqb_neq in Hne. by rewrite Hne.
Qed.

Lemma st40_detects_bit_errors_witness :
  exists f, st40_rfc8331_encode_packet (replicate 20 7) 20 (mk_meta 1 9 4095 0 3 0x61 0x02 3 0) [0xFF; 0x80; 5]
      = (0, f, 16) /\
    st40_rfc8331_decode_packet (flip_bit f 70) 20 (Some 3) = (ST40_RFC8331_DECODE_PARITY_FAIL, None).
Proof.
  eexists. split; [vm_compute; reflexivity|].
  eapply (st40_detects_bit_errors (replicate 20 7) 20 (mk_meta 1 9 4095 0 3 0x61 0x02 3 0) [0xFF; 0x80; 5] 3 70).
  - by split; vm_compute.
  - by repeat constructor; vm_compute.
  - by repeat constructor; vm_compute.
  - by vm_compute.
  - by vm_compute.
  - by vm_compute.
  - vm_compute. reflexivity.
  - by vm_compute.
Defined.

(** ** Locality of decoding *)

(** [a] and [b] agree on their first [n] bytes. *)
Definition same_bytes (n : Z) (a b : bytes) : Prop := forall k, 0 <= k < n -> arr_get 0 a k = arr_get 0 b k.

Lemma same_ntohs n a b off : same_bytes n a b -> 0 <= off -> off + 1 < n -> st_ntohs a off = st_ntohs b off.
Proof. intros H H0 H1. unfold st_ntohs. by rewrite !H by lia. Qed.

Lemma same_word n a b idx :
  0 <= n <= 255 -> same_bytes (st40_rfc8331_payload_bytes n) a b -> 0 <= idx <= n + 3 ->
  get_10bit_udw idx a 4 = get_10bit_udw idx b 4.
Proof.
  intros Hn H Hi. unfold get_10bit_udw. pose proof (word_in_packet n idx Hn Hi).
  rewrite (same_ntohs _ a b _ H); [done| |lia]. unfold udw_byte. mlia.
Qed.

Lemma same_udws n a b : forall cnt i,
  0 <= n <= 255 -> same_bytes (st40_rfc8331_payload_bytes n) a b -> 0 <= i -> i + Z.of_nat cnt <= n ->
  decode_udws a i cnt = decode_udws b i cnt.
Proof.
  induction cnt as [|cnt IH]; intros i Hn H H0 H1; [done|]. cbn [decode_udws]. unfold st40_get_udw.
  rewrite (same_word n a b (i + 3)) by (done || lia). by rewrite (IH (i + 1)) by (done || lia).
Qed.

(** The decoder reads nothing behind [room]. *)
Lemma decode_local a b room cap :
  same_bytes room a b -> st40_rfc8331_decode_packet a room cap = st40_rfc8331_decode_packet b room cap.
Proof.
  intros H. unfold st40_rfc8331_decode_packet, SIZEOF_RFC8331_HDR.
  destruct (Z.ltb_spec room 8) as [|Hr]; [done|].
  assert (forall off, 0 <= off <= 4 -> ld_be32 a off = ld_be32 b off) as Hld.
  { intros off Ho. unfold ld_be32. by rewrite !(same_ntohs room a b) by (done || lia). }
  rewrite !Hld by lia. cbn zeta. case_if; [done|].
  set (dc := Z.land (Z.shiftr (ld_be32 b 4) 2) 0x3FF) in *.
  assert (0 <= Z.land dc 0xFF <= 255) as Hn by (rewrite land_ff_mod; mlia).
  set (n := Z.land dc 0xFF) in *. destruct (Z.ltb_spec room (st40_rfc8331_payload_bytes n)) as [|Hneed]; [done|].
  assert (same_bytes (st40_rfc8331_payload_bytes n) a b) as Hs by (intros k Hk; apply H; lia).
  rewrite (same_udws n a b) by (done || lia).
  unfold st40_get_udw. rewrite (same_word n a b (n + 3)) by (done || lia).
  rewrite (checksum_ext (3 + n) a b 4); [done|]. intros i Hi. apply (same_word n); done || lia.
Qed.

Lemma decode_udws_length buf : forall n i l, decode_udws buf i n = Some l -> length l = n.
Proof.
  induction n as [|n IH]; intros i l H; cbn [decode_udws] in H; [by injection H as <-|].
  case_if_in H; [done|]. apply bind_Some in H as (rest & Hr & [= <-]). cbn. by rewrite (IH _ _ Hr).
Qed.

Lemma decode_udws_bytes buf : forall n i l, decode_udws buf i n = Some l -> is_bytes l.
Proof.
  induction n as [|n IH]; intros i l H; cbn [decode_udws] in H; [injection H as <-; constructor|].
  case_if_in H; [done|]. apply bind_Some in H as (rest & Hr & [= <-]). constructor; [|by apply (IH _ _ Hr)].
  rewrite land_ff_mod. apply u8_range.
Qed.

(** What an accepted packet is: its data fit the caller's buffer, its length the packet. *)
Lemma decode_ok_facts buf room cap r o :
  st40_rfc8331_decode_packet buf room (Some cap) = (r, o) ->
  match o with
  | Some (m, udw, need) =>
      r = ST40_RFC8331_DECODE_OK /\ 0 <= meta_udw_size m <= 255 /\ arr_len udw = meta_udw_size m /\ is_bytes udw
      /\ meta_udw_size m <= cap /\ need = st40_rfc8331_payload_bytes (meta_udw_size m) /\ 8 <= need <= room
  | None => r <> ST40_RFC8331_DECODE_OK
  end.
Proof.
  unfold st40_rfc8331_decode_packet. cbn zeta. intros H.
  case_if_in H; [injection H as <- <-; done|]. case_if_in H; [injection H as <- <-; done|].
  set (dc := Z.land (Z.shiftr (ld_be32 buf 4) 2) 0x3FF) in *.
  assert (0 <= Z.land dc 0xFF <= 255) as Hn by (rewrite land_ff_mod; mlia).
  case_if_in H; [injection H as <- <-; done|]. case_if_in H; [injection H as <- <-; done|].
  destruct (decode_udws buf 0 (Z.to_nat (Z.land dc 0xFF))) as [udw|] eqn:Eu; [|injection H as <- <-; done].
  case_if_in H; [injection H as <- <-; done|]. injection H as <- <-. cbn [meta_udw_size].
  zbool. pose proof (need_ge_8 _ Hn). apply decode_udws_length in Eu as Hl. apply decode_udws_bytes in Eu.
  unfold arr_len. rewrite Hl. repeat split; done || lia.
Qed.

(** What was encoded stays encoded when only the bytes behind it change. *)
Lemma encoded_same m udw_in a b :
  meta_ok m -> same_bytes (st40_rfc8331_payload_bytes (meta_udw_size m)) a b -> is_bytes b ->
  encoded m udw_in a -> encoded m udw_in b.
Proof.
  intros Hm Hs Hb [E1 E2 E3 E4 E5 E6 E7]. pose proof (mo_size _ Hm) as Hn. set (n := meta_udw_size m) in *.
  assert (forall idx, 0 <= idx <= n + 3 -> get_10bit_udw idx b 4 = get_10bit_udw idx a 4) as Hw.
  { intros idx Hi. symmetry. by apply (same_word n). }
  pose proof (need_ge_8 n Hn). split; fold n; try (rewrite Hw by lia; done); try done.
  - rewrite <- E2. unfold ld_be32. by rewrite <- !(same_ntohs _ a b) by (done || lia).
  - intros i Hi. rewrite Hw by lia. by apply E6.
  - rewrite Hw, E7 by lia. apply checksum_ext. intros i Hi. symmetry. apply Hw. lia.
Qed.
