(* ===== verification/RxAnc.v ===== *)
(** The ST 2110-40 receiver, lib/src/st2110/st_rx_ancillary_session.c: the packet
    filter over two ports with its windows of recent sequence numbers, the slots
    frames are assembled in, delivery, and the RTP-level session that hands packets
    to the application through a ring.

    Packets of a frame share an RTP timestamp and the last one carries the marker.
    A slot is FREE, RECEIVING (the session's in-flight slot), PENDING (the frame
    before, which still waits for its marker from the other port) or IN_USER. Log
    messages and trace probes are left out. *)
From S2P Require Import Prelude SeqNum Bytes Anc.

Definition ST_RX_ANC_BITMAP_BITS : Z := 64.
Definition ST40_MAX_META : Z := 20.
(** [sizeof(struct st_rfc3550_hdr) - sizeof(struct st_rfc3550_rtp_hdr)] *)
Definition ANC_HDR_OFFSET : Z := 42.
Definition SIZEOF_RFC8331_RTP_HDR : Z := 20.

(** ** State *)

Inductive st_rx_anc_slot_state :=
| ST_RX_ANC_SLOT_FREE | ST_RX_ANC_SLOT_RECEIVING | ST_RX_ANC_SLOT_PENDING
| ST_RX_ANC_SLOT_READY | ST_RX_ANC_SLOT_IN_USER.
#[export] Instance anc_slot_state_eq : EqDecision st_rx_anc_slot_state.
Proof. solve_decision. Defined.

(** The counters of [struct st40_rx_user_stats] and of the session. *)
Inductive rn_counter :=
| RN_PKTS_WRONG_PT | RN_PKTS_WRONG_SSRC | RN_PKTS_WRONG_INTERLACE | RN_FIRST_FIELD | RN_SECOND_FIELD
| RN_FIELD_MISMATCH | RN_LOST_PACKETS | RN_PKTS_REDUNDANT | RN_PKTS_UNRECOVERED | RN_PKTS_RECEIVED
| RN_ENQUEUE_FAIL | RN_FRAMES_READY | RN_FRAMES_DROPPED | RN_PARSE_ERR | RN_DISPATCHED
| RN_PORT_LOST (s_port : Z) | RN_PORT_DUPLICATES (s_port : Z) | RN_PORT_REORDERED (s_port : Z)
| RN_PORT_PACKETS (s_port : Z) | RN_PORT_BYTES (s_port : Z) | RN_PORT_FRAMES (s_port : Z)
| RN_PORT_ERR (s_port : Z).
#[export] Instance rn_counter_eq : EqDecision rn_counter.
Proof. solve_decision. Defined.

(** A received packet: the fields of [struct st40_rfc8331_rtp_hdr] in host order, the
    lengths of the mbuf, the bytes behind the header and the receive time. *)
Record rn_pkt := mk_rn_pkt {
  np_seq : Z;
  np_tmstamp : Z;
  np_payload_type : Z;
  np_ssrc : Z;
  np_marker : bool;
  np_f : Z;
  np_anc_count : Z;
  np_data_len : Z;
  np_pkt_len : Z;
  np_dgram_len : Z;
  np_payload : bytes;
  np_recv_ts : Z;
}.

(** [struct st_rx_anc_frame_slot]. [sl_udw] is the part of [udw_buf] that is filled, so
    its length is [udw_buffer_fill], and [sl_meta] the entries of [meta] in use. *)
Record rn_slot := mk_rn_slot {
  sl_state : st_rx_anc_slot_state;
  sl_rtp_timestamp : Z;
  sl_udw : bytes;
  sl_meta : list st40_meta;
  sl_pkts_total : Z;
  sl_pkts_recv : list Z;
  sl_receive_timestamp : Z;
  sl_interlaced : bool;
  sl_second_field : bool;
  sl_rtp_marker : bool;
  seq_bitmap : Z;
  seq_base : Z;
  seq_max_offset : Z;
  seq_base_valid : bool;
  port_last_seq : list Z;
  port_seq_lost : list Z;
  port_seq_discont : list bool;
}.
#[export] Instance eta_rn_slot : Settable rn_slot := fun s =>
  mk_rn_slot (sl_state s) (sl_rtp_timestamp s) (sl_udw s) (sl_meta s) (sl_pkts_total s) (sl_pkts_recv s)
    (sl_receive_timestamp s) (sl_interlaced s) (sl_second_field s) (sl_rtp_marker s) (seq_bitmap s)
    (seq_base s) (seq_max_offset s) (seq_base_valid s) (port_last_seq s) (port_seq_lost s) (port_seq_discont s).

(** [struct st40_rx_frame_meta]; [fm_complete] is the status COMPLETE, its negation
    CORRUPTED, which is also [seq_discont]. *)
Record rn_meta := mk_rn_meta {
  fm_meta : list st40_meta;
  fm_timestamp : Z;
  fm_interlaced : bool;
  fm_second_field : bool;
  fm_rtp_marker : bool;
  fm_timestamp_first_pkt : Z;
  fm_seq_lost : Z;
  fm_port_seq_lost : list Z;
  fm_port_seq_discont : list bool;
  fm_pkts_recv : list Z;
  fm_pkts_total : Z;
  fm_complete : bool;
}.
(** A call of [notify_frame_ready]: the slot, the meta and the bytes of [udw_buf]. *)
Record rn_event := mk_rn_event { ne_slot : nat; ne_meta : rn_meta; ne_udw : bytes }.

(** [struct anc_window] *)
Record anc_window := mk_anc_window { w_bitmap : Z; w_tmstamp : Z; w_base_seq : Z; w_valid : bool }.
#[export] Instance eta_anc_window : Settable anc_window := fun w =>
  mk_anc_window (w_bitmap w) (w_tmstamp w) (w_base_seq w) (w_valid w).

Record rn_config := mk_rn_config {
  rn_num_port : Z;
  rn_payload_type : Z;
  rn_ssrc : Z;
  rn_fmd : bool;
  rn_frame_level : bool;
  rn_interlace_auto : bool;
  rn_framebuff_cnt : Z;
  rn_framebuff_size : Z;
}.

(** [struct st_rx_ancillary_session_impl] *)
Record rn_session := mk_rn_session {
  frame_slots : list rn_slot;
  anc_inflight_slot : option nat;
  anc_pending_slot : option nat;
  rn_session_seq_id : Z;
  rn_latest_seq_id : list Z;
  rn_redundant_error_cnt : list Z;
  anc_window_cur : anc_window;
  anc_window_prev : anc_window;
  last_f_bits : list Z;
  last_f_tmstamp : list Z;
  interlace_detected : bool;
  interlace_interlaced : bool;
  rn_tmstamp : Z;
  prev_tmstamp : Z;
  rn_frames_received : Z;
  rn_counters : rn_counter -> Z;
  rn_packet_ring : list rn_pkt;
  rn_notified : list rn_event;
  rn_rtp_notified : Z;
}.
#[export] Instance eta_rn_session : Settable rn_session := fun s =>
  mk_rn_session (frame_slots s) (anc_inflight_slot s) (anc_pending_slot s) (rn_session_seq_id s)
    (rn_latest_seq_id s) (rn_redundant_error_cnt s) (anc_window_cur s) (anc_window_prev s) (last_f_bits s)
    (last_f_tmstamp s) (interlace_detected s) (interlace_interlaced s) (rn_tmstamp s) (prev_tmstamp s)
    (rn_frames_received s) (rn_counters s) (rn_packet_ring s) (rn_notified s) (rn_rtp_notified s).

Definition rn_slot_none : rn_slot :=
  mk_rn_slot ST_RX_ANC_SLOT_FREE 0 [] [] 0 [0; 0] 0 false false false 0 0 0 false [0; 0] [0; 0] [false; false].
Definition rn_slot_at (s : rn_session) (i : nat) : rn_slot := default rn_slot_none (frame_slots s !! i).
Definition rn_slot_upd (i : nat) (g : rn_slot -> rn_slot) (s : rn_session) : rn_session :=
  s <| frame_slots ::= alter g i |>.
Definition rn_set_state (i : nat) (st : st_rx_anc_slot_state) (s : rn_session) : rn_session :=
  rn_slot_upd i (fun sl => sl <| sl_state := st |>) s.
Definition rn_count (k : rn_counter) (n : Z) (s : rn_session) : rn_session :=
  s <| rn_counters ::= fun f j => if decide (j = k) then u64 (f j + n) else f j |>.

(** ** Slots *)

Definition rx_anc_get_free_slot (s : rn_session) : option nat :=
  fst <$> list_find (fun sl => sl_state sl = ST_RX_ANC_SLOT_FREE) (frame_slots s).

Definition rx_anc_slot_init_frame (tmstamp : Z) (interlaced second_field : bool) (recv_ts : Z) (sl : rn_slot)
    : rn_slot :=
  mk_rn_slot ST_RX_ANC_SLOT_RECEIVING tmstamp [] [] 0 [0; 0] recv_ts interlaced second_field false
    0 0 0 false [-1; -1] [0; 0] [false; false].

(** The sequence number in the bitmap of the frame. *)
Definition rn_record_bitmap (seq_id : Z) (sl : rn_slot) : rn_slot :=
  if negb (seq_base_valid sl) then
    sl <| seq_base := seq_id |> <| seq_base_valid := true |> <| seq_bitmap := 1 |> <| seq_max_offset := 0 |>
  else
    let delta := i16 (seq_id - seq_base sl) in
    if delta <? 0 then
      let shift := u32 (- delta) in
      if shift <? ST_RX_ANC_BITMAP_BITS then
        sl <| seq_bitmap ::= fun b => Z.lor (u64 (Z.shiftl b shift)) 1 |>
           <| seq_base := seq_id |>
           <| seq_max_offset ::= fun n => u16 (n + shift) |>
      else sl
    else
      if delta <? ST_RX_ANC_BITMAP_BITS then
        let sl := sl <| seq_bitmap ::= fun b => Z.lor b (Z.shiftl 1 delta) |> in
        if delta >? seq_max_offset sl then sl <| seq_max_offset := u16 delta |> else sl
      else sl.

(** The gaps of one port. *)
Definition rn_record_port (seq_id s_port : Z) (sl : rn_slot) : rn_slot :=
  let last := arr_get 0 (port_last_seq sl) s_port in
  let sl :=
    if last >=? 0 then
      let expected := u16 (last + 1) in
      if negb (expected =? seq_id) then
        let sl := sl <| port_seq_discont ::= fun l => arr_set l s_port true |> in
        if mt_seq16_greater seq_id expected then
          sl <| port_seq_lost ::= fun l => arr_set l s_port (u32 (arr_get 0 l s_port + u16 (seq_id - expected))) |>
        else sl
      else sl
    else sl in
  if (last <? 0) || mt_seq16_greater seq_id (u16 last)
  then sl <| port_last_seq ::= fun l => arr_set l s_port seq_id |> else sl.

Definition rx_anc_slot_record_seq (seq_id s_port : Z) (sl : rn_slot) : rn_slot :=
  let sl := rn_record_bitmap seq_id sl in
  if s_port <? 2 then rn_record_port seq_id s_port sl else sl.

(** The loop of [rx_anc_slot_parse_pkt] from payload offset [off], [n] entries left;
    the second result says whether an entry was refused. The refused entry may have
    left bytes behind [udw_buffer_fill]. *)
Fixpoint rn_parse_loop (n : nat) (payload : bytes) (room off cap : Z) (sl : rn_slot) : rn_slot * bool :=
  match n with
  | O => (sl, false)
  | S n =>
      if arr_len (sl_meta sl) >=? ST40_MAX_META then (sl, false)
      else
        let udw_offset := arr_len (sl_udw sl) in
        match st40_rfc8331_decode_packet (drop (Z.to_nat off) payload) (u32 (room - off))
                (Some (u32 (cap - udw_offset))) with
        | (ST40_RFC8331_DECODE_OK, Some (m, udw, consumed)) =>
            let m := mk_meta (meta_c m) (meta_line_number m) (meta_hori_offset m) (meta_s m) (meta_stream_num m)
                       (meta_did m) (meta_sdid m) (meta_udw_size m) (u16 udw_offset) in
            rn_parse_loop n payload room (u32 (off + consumed)) cap
              (sl <| sl_udw ::= fun l => l ++ udw |> <| sl_meta ::= fun l => l ++ [m] |>)
        | _ => (sl, true)
        end
  end.

Definition rn_payload_room (p : rn_pkt) : Z :=
  let len := u16 (np_data_len p - ANC_HDR_OFFSET) in
  if len >? SIZEOF_RFC8331_RTP_HDR then len - SIZEOF_RFC8331_RTP_HDR else 0.

Definition rn_popcount64 (b : Z) : Z := Z.of_nat (length (filter (fun i => Z.testbit b i = true) (seqZ 0 64))).

(** What [rx_anc_slot_deliver] tells the application about a slot. *)
Definition rn_frame_meta (sl : rn_slot) : rn_meta :=
  let seq_lost :=
    if seq_base_valid sl then
      let expected := seq_max_offset sl + 1 in
      let seen := rn_popcount64 (seq_bitmap sl) in
      if expected >? seen then expected - seen else 0
    else 0 in
  mk_rn_meta (sl_meta sl) (sl_rtp_timestamp sl) (sl_interlaced sl) (sl_second_field sl) (sl_rtp_marker sl)
    (sl_receive_timestamp sl) seq_lost (port_seq_lost sl) (port_seq_discont sl) (sl_pkts_recv sl)
    (sl_pkts_total sl) (negb (seq_lost >? 0)).

(** [st40_rx_put_framebuff]: the frame is found by its address, [Some i] when it is one of
    the session's. *)
Definition st40_rx_put_framebuff (frame : option nat) (s : rn_session) : Z * rn_session :=
  match frame with
  | Some i =>
      if bool_decide (i < length (frame_slots s))%nat then (0, rn_set_state i ST_RX_ANC_SLOT_FREE s)
      else (- EIO, s)
  | None => (- EIO, s)
  end.

Section Receiver.
Context (cfg : rn_config).
(** The answer to the [n]-th notification. *)
Context (app : nat -> app_answer).

Definition rx_anc_slot_parse_pkt (p : rn_pkt) (i : nat) (s : rn_session) : rn_session :=
  let '(sl, bad) := rn_parse_loop (Z.to_nat (np_anc_count p)) (np_payload p) (rn_payload_room p) 0
                      (rn_framebuff_size cfg) (rn_slot_at s i) in
  let s := rn_slot_upd i (fun _ => sl) s in
  if bad then rn_count RN_PARSE_ERR 1 s else s.

Definition rx_anc_slot_deliver (i : nat) (s : rn_session) : rn_session :=
  let sl := rn_slot_at s i in
  let s := rn_count RN_FRAMES_READY 1 s in
  let s := rn_set_state i ST_RX_ANC_SLOT_IN_USER s in
  let answer := app (length (rn_notified s)) in
  let s := s <| rn_notified ::= fun l => l ++ [mk_rn_event i (rn_frame_meta sl) (sl_udw sl)] |> in
  match answer with
  | AppKeeps => s
  | AppReturns => snd (st40_rx_put_framebuff (Some i) s)
  | AppFails => rn_set_state i ST_RX_ANC_SLOT_FREE s
  end.

(** [prev_pending] is the pending slot. *)
Definition rx_anc_force_deliver_pending (prev_pending : nat) (s : rn_session) : rn_session :=
  let s := s <| anc_pending_slot := None |> in
  rx_anc_slot_deliver prev_pending (rn_set_state prev_pending ST_RX_ANC_SLOT_READY s).

(** The in-flight slot when it receives [tmstamp]; otherwise it is closed, or waits for a
    late marker when there are two ports. *)
Definition rn_roll_inflight (tmstamp : Z) (s : rn_session) : option nat * rn_session :=
  match anc_inflight_slot s with
  | None => (None, s)
  | Some old =>
      if sl_rtp_timestamp (rn_slot_at s old) =? tmstamp then (Some old, s)
      else
        let s := s <| anc_inflight_slot := None |> in
        if rn_num_port cfg >? 1 then
          let s := match anc_pending_slot s with
                   | Some i => rx_anc_force_deliver_pending i s
                   | None => s
                   end in
          (None, rn_set_state old ST_RX_ANC_SLOT_PENDING s <| anc_pending_slot := Some old |>)
        else (None, rx_anc_slot_deliver old (rn_set_state old ST_RX_ANC_SLOT_READY s))
  end.

(** The slot that already receives packets of [tmstamp]. *)
Definition rn_find_slot (tmstamp : Z) (s : rn_session) : option nat * rn_session :=
  match anc_pending_slot s with
  | Some i => if sl_rtp_timestamp (rn_slot_at s i) =? tmstamp then (Some i, s) else rn_roll_inflight tmstamp s
  | None => rn_roll_inflight tmstamp s
  end.

(** A free slot, when need be the one of a frame that has waited since before this packet. *)
Definition rn_new_slot (pending_at_entry : option nat) (s : rn_session) : option nat * rn_session :=
  match rx_anc_get_free_slot s with
  | Some i => (Some i, s)
  | None =>
      match anc_pending_slot s with
      | Some i =>
          if bool_decide (pending_at_entry = Some i) then
            let s := rx_anc_force_deliver_pending i s in (rx_anc_get_free_slot s, s)
          else (None, s)
      | None => (None, s)
      end
  end.

(** A later packet of a frame: the earliest receive time is kept. *)
Definition rn_refresh_slot (interlaced second_field : bool) (recv_ts : Z) (sl : rn_slot) : rn_slot :=
  let sl := if c_true recv_ts
               && (negb (c_true (sl_receive_timestamp sl)) || (sl_receive_timestamp sl >? recv_ts))
            then sl <| sl_receive_timestamp := recv_ts |> else sl in
  sl <| sl_interlaced := interlaced |> <| sl_second_field := second_field |>.

Definition rx_anc_select_slot (tmstamp : Z) (interlaced second_field : bool) (recv_ts : Z) (s : rn_session)
    : option nat * rn_session :=
  let pending_at_entry := anc_pending_slot s in
  match rn_find_slot tmstamp s with
  | (Some i, s) => (Some i, rn_slot_upd i (rn_refresh_slot interlaced second_field recv_ts) s)
  | (None, s) =>
      match rn_new_slot pending_at_entry s with
      | (None, s) => (None, rn_count RN_FRAMES_DROPPED 1 s)
      | (Some i, s) =>
          (Some i, rn_slot_upd i (rx_anc_slot_init_frame tmstamp interlaced second_field recv_ts) s
                     <| anc_inflight_slot := Some i |>)
      end
  end.

(** The packet in its slot: counters, sequence number, payload. *)
Definition rn_store (p : rn_pkt) (s_port : Z) (i : nat) (s : rn_session) : rn_session :=
  let s := rn_slot_upd i (fun sl =>
    rx_anc_slot_record_seq (np_seq p) s_port
      (sl <| sl_pkts_total ::= fun n => u16 (n + 1) |>
          <| sl_pkts_recv ::= fun l => if s_port <? 2 then arr_set l s_port (u16 (arr_get 0 l s_port + 1)) else l |>)) s in
  rx_anc_slot_parse_pkt p i s.

(** The marker closes the frame in slot [i]. *)
Definition rn_close (i : nat) (s : rn_session) : rn_session :=
  let s := rn_slot_upd i (fun sl => sl <| sl_rtp_marker := true |>) s in
  let s := if bool_decide (anc_pending_slot s = Some i) then s <| anc_pending_slot := None |>
           else s <| anc_inflight_slot := None |> in
  rx_anc_slot_deliver i (rn_set_state i ST_RX_ANC_SLOT_READY s).

Definition rx_ancillary_session_assemble_pkt (p : rn_pkt) (s_port : Z) (s : rn_session) : Z * rn_session :=
  let s := rn_count RN_DISPATCHED 1 s in
  let f_bits := Z.land (np_f p) 3 in
  let interlaced := c_true (Z.land f_bits 2) in
  let second_field := interlaced && c_true (Z.land f_bits 1) in
  match rx_anc_select_slot (np_tmstamp p) interlaced second_field (np_recv_ts p) s with
  | (None, s) => (- EBUSY, s)
  | (Some i, s) =>
      let s := rn_store p s_port i s in
      (0, if np_marker p then rn_close i s else s)
  end.

(** ** The filter *)

(** The payload type and the SSRC the session expects; [Some] is the drop. *)
Definition rn_wrong_stream (p : rn_pkt) : option rn_counter :=
  if c_true (rn_payload_type cfg) && negb (np_payload_type p =? rn_payload_type cfg) then Some RN_PKTS_WRONG_PT
  else if c_true (rn_ssrc cfg) && negb (np_ssrc p =? rn_ssrc cfg) then Some RN_PKTS_WRONG_SSRC
  else None.

(** The field bits of a packet, for RFC 8331 sessions; [None] is the drop. *)
Definition rn_check_field (p : rn_pkt) (s_port : Z) (s : rn_session) : option rn_session :=
  let f_bits := np_f p in
  if f_bits =? 1 then None
  else
    let interlaced := c_true (Z.land f_bits 2) in
    let s :=
      if rn_interlace_auto cfg then
        if negb (interlace_detected s) || negb (eqb (interlace_interlaced s) interlaced)
        then s <| interlace_detected := true |> <| interlace_interlaced := interlaced |> else s
      else s in
    let s :=
      if interlaced then
        rn_count (if c_true (Z.land f_bits 1) then RN_SECOND_FIELD else RN_FIRST_FIELD) 1 s
      else s in
    let other := Z.lxor s_port 1 in
    let s :=
      if (rn_num_port cfg >? 1)
         && negb (arr_get 0 (last_f_bits s) other =? 0xff)
         && (arr_get 0 (last_f_tmstamp s) other =? np_tmstamp p)
         && negb (arr_get 0 (last_f_bits s) other =? f_bits)
      then rn_count RN_FIELD_MISMATCH 1 s else s in
    Some (s <| last_f_bits ::= fun l => arr_set l s_port f_bits |>
            <| last_f_tmstamp ::= fun l => arr_set l s_port (np_tmstamp p) |>).

Definition rn_first_packet (p : rn_pkt) (s_port : Z) (s : rn_session) : rn_session :=
  let s := if arr_get 0 (rn_latest_seq_id s) s_port =? -1
           then s <| rn_latest_seq_id ::= fun l => arr_set l s_port (np_seq p - 1) |> else s in
  let s := if rn_session_seq_id s =? -1 then s <| rn_session_seq_id := np_seq p - 1 |> else s in
  if rn_tmstamp s =? -1 then s <| rn_tmstamp := u32 (np_tmstamp p - 1) |> else s.

Definition rn_port_seq (p : rn_pkt) (s_port : Z) (s : rn_session) : rn_session :=
  let seq_id := np_seq p in
  let latest := arr_get 0 (rn_latest_seq_id s) s_port in
  let s :=
    if negb (seq_id =? u16 (latest + 1)) && mt_seq16_greater seq_id (u16 latest) then
      let gap := u16 (seq_id - latest - 1) in
      rn_count RN_LOST_PACKETS gap (rn_count (RN_PORT_LOST s_port) gap s)
    else if seq_id =? u16 latest then rn_count (RN_PORT_DUPLICATES s_port) 1 s
    else if negb (mt_seq16_greater seq_id (u16 latest)) then rn_count (RN_PORT_REORDERED s_port) 1 s
    else s in
  let s := if mt_seq16_greater seq_id (u16 latest)
           then s <| rn_latest_seq_id ::= fun l => arr_set l s_port seq_id |> else s in
  rn_count (RN_PORT_BYTES s_port) (np_pkt_len p) (rn_count (RN_PORT_PACKETS s_port) 1 s).

(** The offset of a sequence number in a window, and whether the window has seen it. *)
Definition rn_window_offset (w : anc_window) (seq_id : Z) : Z := u16 (seq_id - w_base_seq w).
Definition rn_window_misses (w : anc_window) (seq_id : Z) : bool :=
  let offset := rn_window_offset w seq_id in
  (offset <? ST_RX_ANC_BITMAP_BITS) && negb (c_true (Z.land (w_bitmap w) (Z.shiftl 1 offset))).
Definition rn_window_mark (seq_id : Z) (w : anc_window) : anc_window :=
  let offset := rn_window_offset w seq_id in
  if offset <? ST_RX_ANC_BITMAP_BITS then w <| w_bitmap ::= fun b => Z.lor b (Z.shiftl 1 offset) |> else w.

(** A late packet the current or the previous frame still misses. *)
Definition rn_late_cur (p : rn_pkt) (s : rn_session) : bool :=
  let w := anc_window_cur s in
  w_valid w && (np_tmstamp p =? w_tmstamp w) && negb (mt_seq32_greater (u32 (rn_tmstamp s)) (np_tmstamp p))
  && rn_window_misses w (np_seq p).
Definition rn_late_prev (p : rn_pkt) (s : rn_session) : bool :=
  let w := anc_window_prev s in
  (prev_tmstamp s >=? 0) && (np_tmstamp p =? u32 (prev_tmstamp s))
  && w_valid w && (np_tmstamp p =? w_tmstamp w) && rn_window_misses w (np_seq p).

(** Every port has seen the threshold of old packets in a row. *)
Definition rn_threshold_reached (errs : list Z) : bool :=
  forallb (fun i => ST_SESSION_REDUNDANT_ERROR_THRESHOLD <=? arr_get 0 errs i) (seqZ 0 (rn_num_port cfg)).

(** How a packet is taken: as the next one, as a late one, as a redundant one that is
    dropped, or past the threshold. *)
Inductive rn_verdict := RnNext | RnLate | RnDrop | RnBypass.

Definition rn_filter (p : rn_pkt) (s_port : Z) (s : rn_session) : rn_verdict * rn_session :=
  if mt_seq32_greater (u32 (rn_tmstamp s)) (np_tmstamp p)
     || negb (mt_seq16_greater (np_seq p) (u16 (rn_session_seq_id s))) then
    if rn_late_cur p s || rn_late_prev p s then
      (RnLate, if rn_counters s RN_PKTS_UNRECOVERED >? 0 then rn_count RN_PKTS_UNRECOVERED (-1) s else s)
    else
      let s := s <| rn_redundant_error_cnt ::= arr_inc_int s_port |> in
      let s := rn_count RN_PKTS_REDUNDANT 1 s in
      if rn_threshold_reached (rn_redundant_error_cnt s)
      then (RnBypass, rn_count RN_PKTS_REDUNDANT (-1) s) else (RnDrop, s)
  else (RnNext, s).

(** The number of the session, and the windows, after a packet was accepted. *)
Definition rn_session_seq (seq_id : Z) (s : rn_session) : rn_session :=
  let last := rn_session_seq_id s in
  let s :=
    if negb (seq_id =? u16 (last + 1)) && mt_seq16_greater seq_id (u16 last)
    then rn_count RN_PKTS_UNRECOVERED (u16 (seq_id - last - 1)) s else s in
  if mt_seq16_greater seq_id (u16 last) then s <| rn_session_seq_id := seq_id |> else s.

Definition rn_update_windows (p : rn_pkt) (old_session_seq : Z) (s : rn_session) : rn_session :=
  let prev := anc_window_prev s in
  let cur := anc_window_cur s in
  if w_valid prev && (np_tmstamp p =? w_tmstamp prev) then
    s <| anc_window_prev ::= rn_window_mark (np_seq p) |>
  else
    let s :=
      if negb (w_valid cur) || negb (np_tmstamp p =? w_tmstamp cur) then
        (if w_valid cur then s <| anc_window_prev := cur |> else s)
          <| anc_window_cur := mk_anc_window 0 (np_tmstamp p) (u16 (old_session_seq + 1)) true |>
      else s in
    s <| anc_window_cur ::= rn_window_mark (np_seq p) |>.

(** The timestamp of the session, after the packet was passed on. *)
Definition rn_advance (p : rn_pkt) (s_port : Z) (bypass : bool) (s : rn_session) : rn_session :=
  if negb (np_tmstamp p =? rn_tmstamp s)
     && (mt_seq32_greater (np_tmstamp p) (u32 (rn_tmstamp s)) || bypass) then
    rn_count (RN_PORT_FRAMES s_port) 1
      (s <| prev_tmstamp := rn_tmstamp s |> <| rn_frames_received ::= fun n => i32 (n + 1) |>
         <| rn_tmstamp := np_tmstamp p |>)
  else s.

(** The ring between the tasklet and the application is DPDK's; [ring_room] says whether
    an enqueue succeeds. *)
Context (ring_room : list rn_pkt -> bool).

(** An accepted packet: windows, then the frame or the ring. *)
Definition rn_accept (p : rn_pkt) (s_port : Z) (bypass : bool) (s : rn_session) : Z * rn_session :=
  let s := s <| rn_redundant_error_cnt ::= fun l => arr_set l s_port 0 |> in
  let old_session_seq := rn_session_seq_id s in
  let s := rn_update_windows p old_session_seq (rn_session_seq (np_seq p) s) in
  if rn_frame_level cfg then
    let s := snd (rx_ancillary_session_assemble_pkt p s_port s) in
    (0, rn_count RN_PKTS_RECEIVED 1 (rn_advance p s_port bypass s))
  else if ring_room (rn_packet_ring s) then
    let s := s <| rn_packet_ring ::= fun l => l ++ [p] |> in
    let s := rn_count RN_PKTS_RECEIVED 1 (rn_advance p s_port bypass s) in
    (0, s <| rn_rtp_notified ::= Z.succ |>)
  else (0, rn_count RN_ENQUEUE_FAIL 1 s).

Definition rx_ancillary_session_handle_pkt (p : rn_pkt) (s_port : Z) (s : rn_session) : Z * rn_session :=
  match rn_wrong_stream p with
  | Some k => (- EINVAL, rn_count k 1 s)
  | None =>
      match (if rn_fmd cfg then Some s else rn_check_field p s_port s) with
      | None => (- EINVAL, rn_count RN_PKTS_WRONG_INTERLACE 1 s)
      | Some s =>
          let s := rn_port_seq p s_port (rn_first_packet p s_port s) in
          match rn_filter p s_port s with
          | (RnDrop, s) => (- EAGAIN, s)
          | (v, s) => rn_accept p s_port (match v with RnBypass => true | _ => false end) s
          end
      end
  end.

Definition rx_ancillary_session_handle_mbuf (attached : bool) (s_port : Z) (mbuf : list rn_pkt) (s : rn_session)
    : Z * rn_session :=
  if negb attached then (- EIO, s)
  else
    (0, fold_left (fun s p =>
      let '(rc, s) := rx_ancillary_session_handle_pkt p s_port s in
      if (rc <? 0) && negb (rc =? - EAGAIN) then rn_count (RN_PORT_ERR s_port) 1 s else s) mbuf s).

(** The oldest packet of the ring and the length of its UDP payload, which leaves out
    Ethernet padding and is capped by the bytes there are. *)
Definition st40_rx_get_mbuf (s : rn_session) : option (rn_pkt * Z) * rn_session :=
  match rn_packet_ring s with
  | [] => (None, s)
  | p :: l => (Some (p, Z.max 0 (Z.min (np_dgram_len p - 8) (np_data_len p - ANC_HDR_OFFSET))), s <| rn_packet_ring := l |>)
  end.

(** [rx_ancillary_session_reset] and [rx_ancillary_session_init_frames]: a session after attach. *)
Definition rx_ancillary_session_init_frames : list rn_slot :=
  replicate (Z.to_nat (rn_framebuff_cnt cfg)) rn_slot_none.
Definition rx_ancillary_session_reset (interlaced : bool) (slots : list rn_slot) : rn_session :=
  mk_rn_session slots None None (-1) [-1; -1] [0; 0] (mk_anc_window 0 0 0 false) (mk_anc_window 0 0 0 false)
    [0xff; 0xff] [0; 0] (negb (rn_interlace_auto cfg)) interlaced (-1) (-1) 0 (fun _ => 0) [] [] 0.

End Receiver.
