(* ===== verification/AncAssembly.v ===== *)
(** Slots of the ancillary receiver: what the sequence bitmap of a frame means, that
    parsing stays inside the packet and the buffer, and who owns a slot when. *)
From S2P Require Import Prelude SeqNum Bytes Anc RxAnc.

(** ** Sequence numbers of a frame *)

(** [ks] are the numbers recorded so far, unwrapped: between [lo] and [hi], less than 64
    apart. *)
Record tracked (ks : list Z) (lo hi : Z) (sl : rn_slot) : Prop := {
  trk_lo : lo ∈ ks;
  trk_hi : hi ∈ ks;
  trk_in : forall k, k ∈ ks -> lo <= k <= hi;
  trk_span : hi - lo < 64;
  trk_valid : seq_base_valid sl = true;
  trk_base : seq_base sl = u16 lo;
  trk_off : seq_max_offset sl = hi - lo;
  trk_bits : forall j, 0 <= j -> Z.testbit (seq_bitmap sl) j = bool_decide (j < 64 /\ lo + j ∈ ks);
}.

Lemma u16_sub_i16 a b : -64 < a - b < 64 -> i16 (u16 a - u16 b) = a - b.
Proof. intros. mlia. Qed.

Lemma testbit_1 j : Z.testbit 1 j = bool_decide (0 = j).
Proof. apply (shiftl_1_testbit 0 j). lia. Qed.

Lemma tracked_first k sl : seq_base_valid sl = false -> tracked [k] k k (rn_record_bitmap (u16 k) sl).
Proof.
  intros H. unfold rn_record_bitmap. rewrite H. cbn.
  split; cbn -[Z.testbit]; try done; try lia; try by apply list_elem_of_singleton.
  - intros j ->%list_elem_of_singleton. lia.
  - intros j Hj. rewrite testbit_1.
    apply bool_decide_ext. rewrite list_elem_of_singleton. lia.
Qed.

Lemma tracked_step ks lo hi k sl :
  tracked ks lo hi sl -> (forall j, j ∈ ks -> -64 < k - j < 64) ->
  tracked (k :: ks) (Z.min k lo) (Z.max k hi) (rn_record_bitmap (u16 k) sl).
Proof.
  intros [Hlo Hhi Hin Hspan Hv Hb Ho Hbits] Hk.
  pose proof (Hk _ Hlo) as Hklo. pose proof (Hk _ Hhi) as Hkhi. pose proof (Hin _ Hlo) as Hlh.
  unfold rn_record_bitmap. rewrite Hv, Hb, u16_sub_i16 by lia. cbn [negb]. unfold ST_RX_ANC_BITMAP_BITS.
  destruct (Z.ltb_spec (k - lo) 0) as [Hneg|Hpos].
  - rewrite u32_id by (unfold is_u32; lia). rewrite (proj2 (Z.ltb_lt (- (k - lo)) 64)) by lia.
    split; cbn -[Z.shiftl Z.lor Z.testbit]; try (done || lia).
    + rewrite Z.min_l by lia. by left.
    + rewrite Z.max_r by lia. by right.
    + intros j [-> |Hj]%elem_of_cons; [lia|]. specialize (Hin j Hj). lia.
    + f_equal. lia.
    + rewrite Ho. mlia.
    + intros j Hj. rewrite Z.lor_spec. rewrite Z.min_l by lia.
      rewrite testbit_1.
      unfold u64. change 18446744073709551616 with (2 ^ 64).
      destruct (Z.ltb_spec j 64) as [Hj64|Hj64].
      * rewrite Z.mod_pow2_bits_low, Z.shiftl_spec by lia.
        destruct (Z.ltb_spec (j - - (k - lo)) 0) as [Hs|Hs].
        { rewrite Z.testbit_neg_r by lia. cbn [orb]. apply bool_decide_ext. rewrite elem_of_cons.
          split; [lia|]. intros [_ [E|Hj']]; [lia|]. specialize (Hin _ Hj'). lia. }
        rewrite Hbits by lia. rewrite <- bool_decide_or. apply bool_decide_ext. rewrite elem_of_cons.
        replace (lo + (j - - (k - lo))) with (k + j) by lia. split; [intros [[? ?]|?]|intros [? [?|?]]]; [by auto|lia|lia|].
        left. split; [|done]. lia.
      * rewrite Z.mod_pow2_bits_high by lia. cbn [orb]. apply bool_decide_ext. lia.
  - rewrite (proj2 (Z.ltb_lt (k - lo) 64)) by lia. cbn -[Z.shiftl Z.lor Z.testbit].
    assert (forall sl', seq_bitmap sl' = Z.lor (seq_bitmap sl) (Z.shiftl 1 (k - lo)) ->
      seq_max_offset sl' = Z.max k hi - lo -> seq_base sl' = u16 lo -> seq_base_valid sl' = true ->
      tracked (k :: ks) (Z.min k lo) (Z.max k hi) sl') as Hres.
    { intros sl' E1 E2 E3 E4. rewrite Z.min_r by lia. split; try done; try lia.
      + by right.
      + destruct (Z.max_spec k hi) as [[? ->]|[? ->]]; [by right|by left].
      + intros j [-> |Hj]%elem_of_cons; [lia|]. specialize (Hin j Hj). lia.
      + intros j Hj. rewrite E1, Z.lor_spec, Hbits, shiftl_1_testbit by lia.
        rewrite <- bool_decide_or. apply bool_decide_ext. rewrite elem_of_cons.
        split; [intros [[? ?]|?]; [by auto|split; [lia|left; lia]]|intros [? [?|?]]; [right; lia|by left]]. }
    unfold modify_field. cbn -[Z.shiftl Z.lor Z.testbit].
    destruct (Z.gtb_spec (k - lo) (seq_max_offset sl)); apply Hres; try done; cbn -[Z.shiftl Z.lor Z.testbit]; try done; mlia.
Qed.

(** The other bookkeeping of a packet leaves the bitmap alone. *)
Lemma record_port_bitmap seq_id s_port sl :
  let sl' := rn_record_port seq_id s_port sl in
  seq_base_valid sl' = seq_base_valid sl /\ seq_base sl' = seq_base sl
  /\ seq_max_offset sl' = seq_max_offset sl /\ seq_bitmap sl' = seq_bitmap sl.
Proof. unfold rn_record_port. repeat case_if; done. Qed.

Lemma tracked_port ks lo hi seq_id s_port sl : tracked ks lo hi sl -> tracked ks lo hi (rn_record_port seq_id s_port sl).
Proof.
  destruct (record_port_bitmap seq_id s_port sl) as (E1 & E2 & E3 & E4).
  intros []. split; congruence || (rewrite E4; done) || done.
Qed.

Lemma tracked_start k s_port sl :
  seq_base_valid sl = false -> tracked [k] k k (rx_anc_slot_record_seq (u16 k) s_port sl).
Proof. intros H. unfold rx_anc_slot_record_seq. case_if; [apply tracked_port|]; by apply tracked_first. Qed.

Lemma tracked_record ks lo hi k s_port sl :
  tracked ks lo hi sl -> (forall j, j ∈ ks -> -64 < k - j < 64) ->
  tracked (k :: ks) (Z.min k lo) (Z.max k hi) (rx_anc_slot_record_seq (u16 k) s_port sl).
Proof.
  intros H Hk. unfold rx_anc_slot_record_seq.
  case_if; [apply tracked_port|]; by apply tracked_step.
Qed.

Lemma filter_seqZ_shift (P Q : Z -> Prop) `{HP : !forall x, Decision (P x)} `{HQ : !forall x, Decision (Q x)} n : forall a b,
  (forall j, 0 <= j < Z.of_nat n -> P (a + j) <-> Q (b + j)) ->
  length (filter P (seqZ a (Z.of_nat n))) = length (filter Q (seqZ b (Z.of_nat n))).
Proof.
  induction n as [|n IH]; intros a b H; [done|].
  rewrite (seqZ_cons a), (seqZ_cons b) by lia. rewrite !filter_cons.
  replace (Z.pred (Z.of_nat (S n))) with (Z.of_nat n) by lia.
  pose proof (H 0 ltac:(lia)) as H0. rewrite !Z.add_0_r in H0.
  assert (length (filter P (seqZ (Z.succ a) (Z.of_nat n))) = length (filter Q (seqZ (Z.succ b) (Z.of_nat n)))) as E.
  { apply IH. intros j Hj. specialize (H (j + 1) ltac:(lia)). by rewrite (Z.add_comm j 1), !Z.add_assoc in H. }
  destruct (decide (P a)), (decide (Q b)); rewrite ?length_cons, ?E; tauto || done.
Qed.

Lemma filter_none_length {A} (P : A -> Prop) `{HP : !forall x, Decision (P x)} (l : list A) :
  (forall x, x ∈ l -> ~ P x) -> length (filter P l) = 0%nat.
Proof.
  induction l as [|x l IH]; intros H; [done|]. rewrite filter_cons.
  destruct (decide (P x)) as [Hx|]; [by destruct (H x ltac:(by left))|]. apply IH. intros y Hy. apply H. by right.
Qed.

Lemma filter_partition_length {A} (P : A -> Prop) `{HP : !forall x, Decision (P x)} (l : list A) :
  (length (filter P l) + length (filter (fun x => ~ P x) l) = length l)%nat.
Proof.
  induction l as [|x l IH]; [done|]. rewrite !filter_cons.
  destruct (decide (P x)), (decide (~ P x)); try done; cbn; lia.
Qed.

(** The numbers from [lo] to [hi] that are not in [ks]. *)
Definition absent (lo hi : Z) (ks : list Z) : list Z := filter (fun k => k ∉ ks) (seqZ lo (hi - lo + 1)).

Lemma tracked_count ks lo hi sl :
  tracked ks lo hi sl ->
  rn_popcount64 (seq_bitmap sl) = hi - lo + 1 - Z.of_nat (length (absent lo hi ks)).
Proof.
  intros [Hlo Hhi Hin Hspan _ _ _ Hbits]. pose proof (Hin _ Hlo) as Hlh.
  unfold rn_popcount64, absent. set (n := hi - lo + 1). assert (0 < n <= 64) by lia.
  replace 64 with (n + (64 - n)) by lia. rewrite seqZ_app, filter_app, length_app by lia.
  rewrite (filter_none_length _ (seqZ (0 + n) (64 - n))).
  2:{ intros j Hj%elem_of_seqZ. rewrite Hbits by lia. intros [_ Hk]%bool_decide_eq_true. specialize (Hin _ Hk). lia. }
  pose proof (filter_partition_length (fun k => k ∈ ks) (seqZ lo n)) as Hp. rewrite length_seqZ in Hp.
  assert (length (filter (fun i => Z.testbit (seq_bitmap sl) i = true) (seqZ 0 n))
          = length (filter (fun k => k ∈ ks) (seqZ lo n))) as E; [|lia].
  rewrite <- (Z2Nat.id n) by lia. apply filter_seqZ_shift. intros j Hj.
  rewrite Z.add_0_l, Hbits by lia. rewrite bool_decide_eq_true. intuition lia.
Qed.

(** The numbers of a frame, each with its port, in the order they come. *)
Definition record_all (l : list (Z * Z)) (sl : rn_slot) : rn_slot :=
  fold_left (fun sl '(k, s_port) => rx_anc_slot_record_seq (u16 k) s_port sl) l sl.

Lemma tracked_all l : forall ks lo hi sl,
  tracked ks lo hi sl -> (forall a b, a ∈ l.*1 ++ ks -> b ∈ l.*1 ++ ks -> a - b < 64) ->
  exists lo' hi' ks', tracked ks' lo' hi' (record_all l sl) /\ (forall k, k ∈ ks' <-> k ∈ l.*1 ++ ks).
Proof.
  induction l as [|[k port] l IH]; intros ks lo hi sl H Hspan; [by exists lo, hi, ks|].
  cbn [record_all fold_left]. destruct (IH (k :: ks) (Z.min k lo) (Z.max k hi)
    (rx_anc_slot_record_seq (u16 k) port sl)) as (lo' & hi' & ks' & Ht & Hk).
  - apply tracked_record; [done|]. intros j Hj.
    assert (j ∈ ((k, port) :: l).*1 ++ ks) as Hj' by (apply elem_of_app; by right).
    assert (k ∈ ((k, port) :: l).*1 ++ ks) as Hk' by (by left).
    pose proof (Hspan _ _ Hj' Hk'). pose proof (Hspan _ _ Hk' Hj'). lia.
  - intros a b Ha Hb. apply Hspan; revert Ha Hb; rewrite !elem_of_app, !fmap_cons, !elem_of_cons; cbn; tauto.
  - exists lo', hi', ks'. split; [done|]. intros j. rewrite Hk, !elem_of_app, fmap_cons, !elem_of_cons. cbn. tauto.
Qed.

(** The loss an ancillary frame reports is exact. Whatever the order in which the
    packets of a frame arrive, over which ports and how often each, the [seq_lost] that
    [rx_anc_slot_deliver] gives to the application is the number of sequence numbers
    between the lowest and the highest received one that never came, across the wrap of
    16 bits, as long as the frame spans fewer than 64 numbers; and the frame is COMPLETE
    exactly when there is none. *)
Theorem rn_seq_lost_exact l lo hi sl :
  seq_base_valid sl = false -> lo ∈ l.*1 -> hi ∈ l.*1 ->
  (forall k, k ∈ l.*1 -> lo <= k <= hi) -> hi - lo < 64 ->
  let meta := rn_frame_meta (record_all l sl) in
  fm_seq_lost meta = Z.of_nat (length (absent lo hi l.*1))
  /\ (fm_complete meta = true <-> absent lo hi l.*1 = []).
Proof.
  intros Hv Hlo Hhi Hin Hspan. destruct l as [|[k port] l]; [by apply not_elem_of_nil in Hlo|].
  destruct (tracked_all l [k] k k (rx_anc_slot_record_seq (u16 k) port sl)) as (lo' & hi' & ks & Ht & Hks).
  { by apply tracked_start. }
  { intros a b Ha Hb. assert (forall x, x ∈ l.*1 ++ [k] -> lo <= x <= hi) as Hx; [|pose proof (Hx a Ha); pose proof (Hx b Hb); lia].
    intros x. rewrite elem_of_app, list_elem_of_singleton. intros Hx. apply Hin. cbn. rewrite elem_of_cons. tauto. }
  assert (forall j, j ∈ ks <-> j ∈ ((k, port) :: l).*1) as Hsame.
  { intros j. rewrite Hks, elem_of_app, list_elem_of_singleton. cbn. rewrite elem_of_cons. tauto. }
  pose proof Ht as [L1 L2 L3 L4 L5 L6 L7 _].
  assert (lo' = lo /\ hi' = hi) as [-> ->].
  { apply Hsame in L1 as M1. apply Hsame in L2 as M2. apply Hin in M1, M2.
    apply Hsame, L3 in Hlo. apply Hsame, L3 in Hhi. lia. }
  assert (absent lo hi ks = absent lo hi ((k, port) :: l).*1) as Hab.
  { unfold absent. apply list_filter_iff. intros j. by rewrite Hsame. }
  pose proof (tracked_count _ _ _ _ Ht) as Hc. rewrite Hab in Hc.
  cbn zeta. unfold rn_frame_meta. change (record_all ((k, port) :: l) sl) with (record_all l (rx_anc_slot_record_seq (u16 k) port sl)).
  rewrite L5, L7, Hc. cbn [fm_seq_lost fm_complete].
  set (ab := absent lo hi ((k, port) :: l).*1). split.
  - destruct (Z.gtb_spec (hi - lo + 1) (hi - lo + 1 - Z.of_nat (length ab))); lia.
  - rewrite <- length_zero_iff_nil, negb_true_iff, Z.gtb_ltb, Z.ltb_ge.
    destruct (Z.gtb_spec (hi - lo + 1) (hi - lo + 1 - Z.of_nat (length ab))); lia.
Qed.

Lemma rn_seq_lost_exact_witness :
  fm_seq_lost (rn_frame_meta (record_all [(65536, 0); (65534, 1); (65536, 1); (65538, 0)] rn_slot_none)) = 2.
Proof.
  apply (rn_seq_lost_exact [(65536, 0); (65534, 1); (65536, 1); (65538, 0)] 65534 65538 rn_slot_none).
  - reflexivity.
  - apply (bool_decide_unpack _). vm_compute. exact I.
  - apply (bool_decide_unpack _). vm_compute. exact I.
  - intros k. cbn. rewrite !elem_of_cons, elem_of_nil. lia.
  - lia.
Defined.

(** ** Parsing *)

Definition meta_bytes (metas : list st40_meta) : Z := foldr (fun m n => meta_udw_size m + n) 0 metas.

(** The entries of [metas] cut the [fill] bytes of a buffer into consecutive pieces. *)
Record metas_cut (metas : list st40_meta) (fill : Z) : Prop := {
  cut_fill : meta_bytes metas = fill;
  cut_size : Forall (fun m => 0 <= meta_udw_size m <= 255) metas;
  cut_offset : forall i m, metas !! i = Some m -> meta_udw_offset m = meta_bytes (take i metas);
}.

(** A slot whose buffer has [cap] bytes. *)
Record slot_wf (cap : Z) (sl : rn_slot) : Prop := {
  wf_fill : arr_len (sl_udw sl) <= cap;
  wf_metas : arr_len (sl_meta sl) <= ST40_MAX_META;
  wf_cut : metas_cut (sl_meta sl) (arr_len (sl_udw sl));
  wf_bytes : is_bytes (sl_udw sl);
}.


Lemma meta_bytes_app l1 l2 : meta_bytes (l1 ++ l2) = meta_bytes l1 + meta_bytes l2.
Proof. induction l1 as [|m l1 IH]; cbn; [done|]. fold (meta_bytes (l1 ++ l2)) (meta_bytes l1). lia. Qed.

Lemma meta_bytes_bound l : Forall (fun m => 0 <= meta_udw_size m <= 255) l -> 0 <= meta_bytes l <= 255 * arr_len l.
Proof.
  induction 1 as [|m l Hm Hl IH]; [done|]. cbn. fold (meta_bytes l). unfold arr_len in *. cbn [length]. lia.
Qed.

Lemma cut_snoc metas fill m :
  metas_cut metas fill -> 0 <= meta_udw_size m <= 255 -> meta_udw_offset m = fill ->
  metas_cut (metas ++ [m]) (fill + meta_udw_size m).
Proof.
  intros [Hf Hs Ho] Hm Hmo. split.
  - rewrite meta_bytes_app, Hf. cbn. lia.
  - apply Forall_app. by auto.
  - intros i m' H. apply lookup_app_Some in H as [H|[Hi H]].
    + rewrite take_app_le by (apply lookup_lt_Some in H; lia). by apply Ho.
    + apply list_lookup_singleton_Some in H as [H ->]. replace i with (length metas) by lia.
      by rewrite take_app_length, Hf.
Qed.

(** The state of a slot with [m] and its bytes appended. *)
Lemma wf_append cap sl m udw off :
  slot_wf cap sl -> 0 <= meta_udw_size m <= 255 -> arr_len udw = meta_udw_size m -> is_bytes udw ->
  arr_len (sl_udw sl) + meta_udw_size m <= cap -> arr_len (sl_meta sl) < ST40_MAX_META ->
  off = u16 (arr_len (sl_udw sl)) ->
  slot_wf cap (sl <| sl_udw ::= fun l => l ++ udw |>
    <| sl_meta ::= fun l => l ++ [mk_meta (meta_c m) (meta_line_number m) (meta_hori_offset m) (meta_s m)
         (meta_stream_num m) (meta_did m) (meta_sdid m) (meta_udw_size m) off] |>).
Proof.
  intros [Hf Hm Hc Hb] Hs Hu Hub Hcap Hn ->. unfold modify_field. split; cbn [sl_udw sl_meta].
  - rewrite arr_len_app. lia.
  - rewrite arr_len_app. unfold arr_len at 2. cbn. lia.
  - rewrite arr_len_app, Hu. apply (cut_snoc _ _ (mk_meta _ _ _ _ _ _ _ _ _)); cbn; [done|done|].
    destruct Hc as [Hcf Hcs _]. pose proof (meta_bytes_bound _ Hcs) as Hmb. unfold ST40_MAX_META in *.
    apply u16_id. unfold is_u16. lia.
  - by apply Forall_app.
Qed.

Section Parse.
Context (cap : Z) (Hcap : 0 <= cap < 4294967296).

Lemma parse_loop_wf payload room n : forall off sl,
  slot_wf cap sl -> slot_wf cap (fst (rn_parse_loop n payload room off cap sl)).
Proof using Hcap.
  induction n as [|n IH]; intros off sl Hsl; [done|]. cbn [rn_parse_loop].
  destruct (Z.geb_spec (arr_len (sl_meta sl)) ST40_MAX_META) as [|Hn]; [done|].
  destruct (st40_rfc8331_decode_packet _ _ _) as [r o] eqn:Ed. apply decode_ok_facts in Ed.
  destruct o as [[[m udw] need]|]; [|by destruct r].
  destruct Ed as (-> & Hs & Hu & Hub & Hc & _). apply IH. pose proof (wf_fill _ _ Hsl) as Hfill.
  apply wf_append; try done; try lia. rewrite u32_id in Hc; unfold is_u32, arr_len in *; lia.
Qed.

(** No byte behind the packet is read: the offset never passes the room there is. *)
Lemma parse_loop_local p1 p2 room n : forall off sl,
  0 <= off <= room -> room < 4294967296 -> same_bytes room p1 p2 ->
  rn_parse_loop n p1 room off cap sl = rn_parse_loop n p2 room off cap sl.
Proof.
  induction n as [|n IH]; intros off sl Ho Hr Hs; [done|]. cbn [rn_parse_loop]. case_if; [done|].
  rewrite (u32_id (room - off)) by (unfold is_u32; lia).
  assert (same_bytes (room - off) (drop (Z.to_nat off) p1) (drop (Z.to_nat off) p2)) as Hd.
  { intros k Hk. specialize (Hs (off + k) ltac:(lia)). revert Hs. unfold arr_get.
    rewrite (proj2 (Z.ltb_ge (off + k) 0)), (proj2 (Z.ltb_ge k 0)), !lookup_drop by lia.
    by replace (Z.to_nat off + Z.to_nat k)%nat with (Z.to_nat (off + k)) by lia. }
  rewrite (decode_local _ _ _ _ Hd). destruct (st40_rfc8331_decode_packet _ _ _) as [r o] eqn:Ed.
  apply decode_ok_facts in Ed. destruct o as [[[m udw] need]|]; [|by destruct r].
  destruct Ed as (-> & _ & _ & _ & _ & _ & Hn). apply IH; [|done|done]. rewrite u32_id; unfold is_u32; lia.
Qed.

End Parse.

(** ** Every slot, every notification *)

(** [P] is a property of slots that every step on a slot keeps, [Q] one of notifications
    that follows from it. *)
Section AllSlots.
Context (cfg : rn_config) (app : nat -> app_answer).
Context (P : rn_slot -> Prop) (Q : rn_event -> Prop).
Context (P_state : forall st sl, P sl -> P (sl <| sl_state := st |>)).
Context (P_init : forall ts i2 sf rt sl, P sl -> P (rx_anc_slot_init_frame ts i2 sf rt sl)).
Context (P_refresh : forall i2 sf rt sl, P sl -> P (rn_refresh_slot i2 sf rt sl)).
Context (P_none : P rn_slot_none).
Context (P_marker : forall sl, P sl -> P (sl <| sl_rtp_marker := true |>)).
Context (P_record : forall seq_id s_port f g sl, P sl ->
  P (rx_anc_slot_record_seq seq_id s_port (sl <| sl_pkts_total ::= f |> <| sl_pkts_recv ::= g |>))).
Context (P_parse : forall n payload room off sl,
  P sl -> P (fst (rn_parse_loop n payload room off (rn_framebuff_size cfg) sl))).
Context (Q_event : forall i sl, P sl -> Q (mk_rn_event i (rn_frame_meta sl) (sl_udw sl))).

Definition all_slots (s : rn_session) : Prop := Forall P (frame_slots s) /\ Forall Q (rn_notified s).

Lemma all_upd i g s : (forall sl, P sl -> P (g sl)) -> all_slots s -> all_slots (rn_slot_upd i g s).
Proof. intros Hg [H1 H2]. split; [|done]. cbn. by apply Forall_alter; [|intros sl _; apply Hg]. Qed.

Lemma all_set_state i st s : all_slots s -> all_slots (rn_set_state i st s).
Proof. apply all_upd. intros sl. apply P_state. Qed.

Lemma all_at i s : all_slots s -> P (rn_slot_at s i).
Proof. intros [H _]. unfold rn_slot_at. destruct (frame_slots s !! i) eqn:E; [|done]. by eapply Forall_lookup_1. Qed.

Lemma all_deliver i s : all_slots s -> all_slots (rx_anc_slot_deliver app i s).
Proof using All.
  intros H. unfold rx_anc_slot_deliver.
  set (s1 := rn_set_state _ _ (rn_count _ _ _)). set (s2 := s1 <| rn_notified ::= _ |>).
  assert (all_slots s2) as H2.
  { assert (all_slots s1) as [H1 H1'] by (apply all_set_state, H). split; [done|]. cbn. apply Forall_app. split; [done|].
    apply Forall_singleton, Q_event, all_at, H. }
  destruct (app _); [done| |by apply all_set_state].
  cbn. case_if; [by apply all_set_state|done].
Qed.

Lemma all_force i s : all_slots s -> all_slots (rx_anc_force_deliver_pending app i s).
Proof using All. intros H. apply all_deliver, all_set_state, H. Qed.

Lemma all_find_slot ts s o s' : all_slots s -> rn_find_slot cfg app ts s = (o, s') -> all_slots s'.
Proof using All.
  intros H. unfold rn_find_slot, rn_roll_inflight.
  assert (forall i, all_slots ((rn_set_state i ST_RX_ANC_SLOT_PENDING
    (match anc_pending_slot (s <| anc_inflight_slot := None |>) with
     | Some j => rx_anc_force_deliver_pending app j (s <| anc_inflight_slot := None |>)
     | None => s <| anc_inflight_slot := None |> end)) <| anc_pending_slot := Some i |>)) as Hp.
  { intros i. apply (all_set_state i). destruct (anc_pending_slot _); [by apply all_force|done]. }
  assert (forall i, all_slots (rx_anc_slot_deliver app i (rn_set_state i ST_RX_ANC_SLOT_READY
    (s <| anc_inflight_slot := None |>)))) as Hd by (intros i; by apply all_deliver, all_set_state).
  destruct (anc_pending_slot s) as [i|]; [destruct (_ =? _); [by intros [= <- <-]|]|].
  all: destruct (anc_inflight_slot s) as [j|]; [|by intros [= <- <-]].
  all: destruct (_ =? _); [by intros [= <- <-]|]; destruct (_ >? _); intros [= <- <-]; done.
Qed.

Lemma all_new_slot e s o s' : all_slots s -> rn_new_slot app e s = (o, s') -> all_slots s'.
Proof using All.
  intros H. unfold rn_new_slot. destruct (rx_anc_get_free_slot s); [by intros [= <- <-]|].
  destruct (anc_pending_slot s); [|by intros [= <- <-]]. case_if; intros [= <- <-]; [by apply all_force|done].
Qed.

Lemma all_select ts i2 sf rt s o s' : all_slots s -> rx_anc_select_slot cfg app ts i2 sf rt s = (o, s') -> all_slots s'.
Proof using All.
  intros H. unfold rx_anc_select_slot. destruct (rn_find_slot cfg app ts s) as [[i|] s1] eqn:E1.
  - intros [= <- <-]. apply all_upd; [apply P_refresh|by eapply all_find_slot].
  - apply all_find_slot in E1; [|done]. destruct (rn_new_slot app _ s1) as [[i|] s2] eqn:E2; apply all_new_slot in E2; try done.
    + intros [= <- <-]. by apply (all_upd i); [apply P_init|].
    + by intros [= <- <-].
Qed.

Lemma all_assemble p s_port s : all_slots s -> all_slots (snd (rx_ancillary_session_assemble_pkt cfg app p s_port s)).
Proof using All.
  intros H. unfold rx_ancillary_session_assemble_pkt.
  destruct (rx_anc_select_slot _ _ _ _ _ _ _) as [[i|] s1] eqn:E; apply all_select in E; try done.
  assert (all_slots (rn_store cfg p s_port i s1)) as Hst.
  { unfold rn_store, rx_anc_slot_parse_pkt.
    set (s2 := rn_slot_upd i _ s1). assert (all_slots s2) as H2 by (apply all_upd; [intros sl; apply P_record|done]).
    destruct (rn_parse_loop _ _ _ _ _ _) as [sl bad] eqn:Ep.
    pose proof (P_parse (Z.to_nat (np_anc_count p)) (np_payload p) (rn_payload_room p) 0 _ (all_at i s2 H2)) as Hsl.
    rewrite Ep in Hsl. cbn in Hsl.
    destruct bad; apply (all_upd i); try done; intros ? ?; done. }
  cbn. destruct (np_marker p); [|done]. unfold rn_close. apply all_deliver, all_set_state.
  case_if; by apply (all_upd i); [intros sl; apply P_marker|].
Qed.

End AllSlots.

(** ** Histories *)

(** What the slots depend on. *)
Definition rn_core (s : rn_session) := (frame_slots s, anc_inflight_slot s, anc_pending_slot s, rn_notified s).

Lemma core_rn_count k n s : rn_core (rn_count k n s) = rn_core s.
Proof. done. Qed.
Lemma core_check_field cfg p s_port s s' : rn_check_field cfg p s_port s = Some s' -> rn_core s' = rn_core s.
Proof. unfold rn_check_field. intros H. case_if_in H; [done|]. injection H as <-. repeat case_if; done. Qed.
Lemma core_first_packet p s_port s : rn_core (rn_first_packet p s_port s) = rn_core s.
Proof. unfold rn_first_packet. repeat case_if; done. Qed.
Lemma core_rn_port_seq p s_port s : rn_core (rn_port_seq p s_port s) = rn_core s.
Proof. unfold rn_port_seq. repeat case_if; done. Qed.
Lemma core_rn_filter cfg p s_port s v s' : rn_filter cfg p s_port s = (v, s') -> rn_core s' = rn_core s.
Proof. unfold rn_filter. repeat case_if; by intros [= <- <-]. Qed.
Lemma core_rn_session_seq seq_id s : rn_core (rn_session_seq seq_id s) = rn_core s.
Proof. unfold rn_session_seq. repeat case_if; done. Qed.
Lemma core_update_windows p old s : rn_core (rn_update_windows p old s) = rn_core s.
Proof. unfold rn_update_windows. repeat case_if; done. Qed.
Lemma core_advance p s_port b s : rn_core (rn_advance p s_port b s) = rn_core s.
Proof. unfold rn_advance. case_if; done. Qed.

(** The slots of a frame-level session change only when an accepted packet is assembled. *)
Lemma handle_core cfg app room p s_port s :
  exists s1, rn_core s1 = rn_core s /\
    let s' := snd (rx_ancillary_session_handle_pkt cfg app room p s_port s) in
    rn_core s' = rn_core s1 \/ rn_core s' = rn_core (snd (rx_ancillary_session_assemble_pkt cfg app p s_port s1)).
Proof.
  unfold rx_ancillary_session_handle_pkt. destruct (rn_wrong_stream cfg p); [exists s; by auto|].
  destruct (if rn_fmd cfg then Some s else rn_check_field cfg p s_port s) as [s0|] eqn:Ef; [|exists s; by auto].
  assert (rn_core s0 = rn_core s) as E0.
  { destruct (rn_fmd cfg); [by injection Ef as <-|by eapply core_check_field]. }
  destruct (rn_filter cfg p s_port _) as [v s2] eqn:Ev. apply core_rn_filter in Ev.
  rewrite core_rn_port_seq, core_first_packet, E0 in Ev.
  assert (forall b, exists s1, rn_core s1 = rn_core s /\
    let s' := snd (rn_accept cfg app room p s_port b s2) in
    rn_core s' = rn_core s1 \/ rn_core s' = rn_core (snd (rx_ancillary_session_assemble_pkt cfg app p s_port s1))) as Ha.
  { intros b. unfold rn_accept. cbn zeta. set (s3 := rn_update_windows _ _ _).
    assert (rn_core s3 = rn_core s) as E3 by (unfold s3; by rewrite core_update_windows, core_rn_session_seq).
    exists s3. split; [done|]. destruct (rn_frame_level cfg); cbn [snd].
    - right. by rewrite core_rn_count, core_advance.
    - left. destruct (room _); [|done]. cbn [snd]. change (rn_core (rn_advance p s_port b (s3 <| rn_packet_ring ::= fun l => l ++ [p] |>)) = rn_core s3).
      by rewrite core_advance. }
  destruct v; [apply Ha|apply Ha| |apply Ha]. exists s2. split; [done|]. by left.
Qed.

Inductive rn_op := RnPkt (p : rn_pkt) (s_port : Z) | RnPut (i : nat).

Section Run.
Context (cfg : rn_config) (app : nat -> app_answer) (room : list rn_pkt -> bool).

Definition rn_step (s : rn_session) (op : rn_op) : rn_session :=
  match op with
  | RnPkt p s_port => snd (rx_ancillary_session_handle_pkt cfg app room p s_port s)
  | RnPut i => snd (st40_rx_put_framebuff (Some i) s)
  end.
Definition rn_start (interlaced : bool) : rn_session :=
  rx_ancillary_session_reset cfg interlaced (rx_ancillary_session_init_frames cfg).
Definition rn_run (interlaced : bool) (h : list rn_op) : rn_session := fold_left rn_step h (rn_start interlaced).

Lemma wf_all_slots interlaced h :
  0 <= rn_framebuff_size cfg < 4294967296 ->
  all_slots (slot_wf (rn_framebuff_size cfg))
    (fun e => arr_len (ne_udw e) <= rn_framebuff_size cfg
              /\ arr_len (fm_meta (ne_meta e)) <= ST40_MAX_META
              /\ metas_cut (fm_meta (ne_meta e)) (arr_len (ne_udw e)))
    (rn_run interlaced h).
Proof.
  intros Hcap. set (C := rn_framebuff_size cfg) in *. set (P := slot_wf C). set (Q := fun _ => _).
  assert (forall sl, sl_udw sl = [] -> sl_meta sl = [] -> P sl) as Hempty.
  { intros sl E1 E2. split; rewrite ?E1, ?E2; unfold arr_len; cbn; [lia|done| |constructor]. split; [done|constructor|done]. }
  assert (forall sl sl', sl_udw sl' = sl_udw sl -> sl_meta sl' = sl_meta sl -> P sl -> P sl') as Hsame.
  { intros sl sl' E1 E2 []. split; rewrite ?E1, ?E2; done. }
  assert (forall seq_id s_port sl, sl_udw (rx_anc_slot_record_seq seq_id s_port sl) = sl_udw sl
            /\ sl_meta (rx_anc_slot_record_seq seq_id s_port sl) = sl_meta sl) as Hrec.
  { intros. unfold rx_anc_slot_record_seq, rn_record_port, rn_record_bitmap. repeat case_if; done. }
  assert (forall s p s_port, all_slots P Q s -> all_slots P Q (snd (rx_ancillary_session_assemble_pkt cfg app p s_port s))) as Hasm.
  { intros s p s_port. apply all_assemble; subst P Q; cbv beta.
    - intros st sl. by apply Hsame.
    - intros. by apply Hempty.
    - intros. eapply Hsame; [| |done]; unfold rn_refresh_slot; case_if; done.
    - by apply Hempty.
    - intros sl. by apply Hsame.
    - intros seq_id port f g sl. destruct (Hrec seq_id port (sl <| sl_pkts_total ::= f |> <| sl_pkts_recv ::= g |>)) as [E1 E2].
      by apply Hsame.
    - intros. by apply parse_loop_wf.
    - intros i sl []. by split_and!. }
  unfold rn_run. assert (all_slots P Q (rn_start interlaced)) as H0.
  { split; [|constructor]. apply Forall_replicate. by apply Hempty. }
  revert H0. generalize (rn_start interlaced). induction h as [|op h IH]; intros s Hs; [done|]. cbn [fold_left].
  apply IH. destruct op as [p s_port|i]; cbn [rn_step].
  - destruct (handle_core cfg app room p s_port s) as (s1 & E1 & E2).
    assert (forall a b, rn_core a = rn_core b -> all_slots P Q b -> all_slots P Q a) as Hc.
    { intros a b [= Ea _ _ Eb] [Hx Hy]. split; by rewrite ?Ea, ?Eb. }
    destruct E2 as [E2|E2]; eapply Hc; try exact E2; [|apply Hasm]; by apply (Hc s1 s).
  - cbn. case_if; [|done]. apply all_upd; [|done]. intros sl. by apply Hsame.
Qed.

End Run.

(** The packet [p] with other bytes in its mbuf. *)
Definition with_payload (b : bytes) (p : rn_pkt) : rn_pkt :=
  mk_rn_pkt (np_seq p) (np_tmstamp p) (np_payload_type p) (np_ssrc p) (np_marker p) (np_f p) (np_anc_count p)
    (np_data_len p) (np_pkt_len p) (np_dgram_len p) b (np_recv_ts p).

Lemma payload_room_range p : 0 <= rn_payload_room p < 65536.
Proof. unfold rn_payload_room, SIZEOF_RFC8331_RTP_HDR. case_if; mlia. Qed.

Lemma first_packet_payload b p s_port s : rn_first_packet (with_payload b p) s_port s = rn_first_packet p s_port s.
Proof. reflexivity. Qed.
Lemma port_seq_payload b p s_port s : rn_port_seq (with_payload b p) s_port s = rn_port_seq p s_port s.
Proof. reflexivity. Qed.
Lemma filter_payload cfg b p s_port s : rn_filter cfg (with_payload b p) s_port s = rn_filter cfg p s_port s.
Proof. reflexivity. Qed.

Lemma assemble_local cfg app p b s_port s :
  same_bytes (rn_payload_room p) (np_payload p) b ->
  rx_ancillary_session_assemble_pkt cfg app (with_payload b p) s_port s
  = rx_ancillary_session_assemble_pkt cfg app p s_port s.
Proof.
  intros Hb. unfold rx_ancillary_session_assemble_pkt, rn_store.
  assert (forall i s, rx_anc_slot_parse_pkt cfg (with_payload b p) i s = rx_anc_slot_parse_pkt cfg p i s) as Hp.
  { intros i s'. unfold rx_anc_slot_parse_pkt. change (rn_payload_room (with_payload b p)) with (rn_payload_room p).
    pose proof (payload_room_range p). cbn [with_payload np_payload np_anc_count].
    by rewrite (parse_loop_local _ (np_payload p) b) by (done || lia). }
  cbn [with_payload np_seq np_tmstamp np_marker np_f np_recv_ts].
  destruct (rx_anc_select_slot _ _ _ _ _ _ _) as [[i|] s1]; [|done].
  by rewrite (Hp i).
Qed.

(** What the parser may read is what came behind the headers. *)
Lemma payload_room_bytes p b : 14 + 20 + 8 <= np_data_len p < 65536 ->
  take (Z.to_nat (np_data_len p - (14 + 20 + 8 + 20))) (np_payload p) = take (Z.to_nat (np_data_len p - (14 + 20 + 8 + 20))) b ->
  same_bytes (rn_payload_room p) (np_payload p) b.
Proof.
  intros Hlen Hb. unfold rn_payload_room, ANC_HDR_OFFSET, SIZEOF_RFC8331_RTP_HDR. rewrite u16_id by (unfold is_u16; lia).
  rewrite Z.gtb_ltb. destruct (Z.ltb_spec 20 (np_data_len p - 42)) as [Hl|]; [|intros k Hk; lia]. intros k Hk. unfold arr_get.
  rewrite (proj2 (Z.ltb_ge k 0)) by lia. rewrite <- (lookup_take_lt (np_payload p) (Z.to_nat (np_data_len p - (14 + 20 + 8 + 20)))) by lia.
  by rewrite Hb, lookup_take_lt by lia.
Qed.

(** A packet that ends before its UDP header does wraps the room around. *)
Lemma runt_payload_room p : np_data_len p = 41 -> rn_payload_room p = 65515.
Proof. unfold rn_payload_room. intros ->. reflexivity. Qed.

(** C25: an ancillary receiver stays inside its buffers and inside the packet. In every
    state a session can reach, with any packets from the wire and any calls of the
    application, each slot holds at most the bytes of its buffer and at most
    ST40_MAX_META entries, and the entries cut the bytes into consecutive pieces, so that
    every range an entry names lies in the buffer; the same holds for every notification.
    And of a packet with a whole UDP header only the bytes received matter: two packets of
    the same length and headers (14 bytes Ethernet, 20 IPv4, 8 UDP, 20 RTP with RFC 8331)
    whose payloads agree up to that length have the same effect, whatever lies in the
    mbufs behind. *)
Theorem rn_parse_in_bounds cfg app room interlaced h :
  0 <= rn_framebuff_size cfg < 4294967296 ->
  let s := rn_run cfg app room interlaced h in
  (forall i sl, frame_slots s !! i = Some sl -> slot_wf (rn_framebuff_size cfg) sl)
  /\ (forall e, e ∈ rn_notified s -> arr_len (ne_udw e) <= rn_framebuff_size cfg
        /\ arr_len (fm_meta (ne_meta e)) <= ST40_MAX_META
        /\ metas_cut (fm_meta (ne_meta e)) (arr_len (ne_udw e)))
  /\ (rn_frame_level cfg = true -> forall p b s_port, 14 + 20 + 8 <= np_data_len p < 65536 ->
        take (Z.to_nat (np_data_len p - (14 + 20 + 8 + 20))) (np_payload p) = take (Z.to_nat (np_data_len p - (14 + 20 + 8 + 20))) b ->
        rx_ancillary_session_handle_pkt cfg app room (with_payload b p) s_port s
        = rx_ancillary_session_handle_pkt cfg app room p s_port s).
Proof.
  intros Hcap s. destruct (wf_all_slots cfg app room interlaced h Hcap) as [H1 H2]. split_and!.
  - intros i sl. by apply Forall_lookup_1.
  - by apply Forall_forall.
  - intros Hfl p b s_port Hlen Hb. apply payload_room_bytes in Hb; [|done]. unfold rx_ancillary_session_handle_pkt.
    change (rn_wrong_stream cfg (with_payload b p)) with (rn_wrong_stream cfg p).
    destruct (rn_wrong_stream cfg p); [done|].
    change (rn_check_field cfg (with_payload b p) s_port s) with (rn_check_field cfg p s_port s).
    destruct (if rn_fmd cfg then Some s else rn_check_field cfg p s_port s) as [s0|]; [|done].
    rewrite (first_packet_payload b p), (port_seq_payload b p), (filter_payload cfg b p).
    destruct (rn_filter cfg p s_port _) as [v s2]. unfold rn_accept. rewrite Hfl.
    destruct v; try done; by rewrite assemble_local.
Qed.

Definition ex_anc_cfg : rn_config := mk_rn_config 2 113 0 false true true 3 64.
(** One entry of two bytes, as [st40_rfc8331_encode_packet] builds it. *)
Definition ex_anc_entry : bytes :=
  snd (fst (st40_rfc8331_encode_packet (replicate 12 0) 12 (mk_meta 0 9 0 0 0 0x61 2 2 0) [7; 8])).
Definition ex_anc_pkt (seq ts : Z) (marker : bool) : rn_pkt :=
  mk_rn_pkt seq ts 113 0 marker 0 1 (62 + arr_len ex_anc_entry) (62 + arr_len ex_anc_entry)
    (28 + arr_len ex_anc_entry) ex_anc_entry 5.
Definition ex_anc_history : list rn_op :=
  [RnPkt (ex_anc_pkt 65535 100 false) 0; RnPkt (ex_anc_pkt 0 100 true) 1; RnPut 0; RnPkt (ex_anc_pkt 1 200 false) 0].
Definition ex_anc_keeps (n : nat) : app_answer := AppKeeps.
Definition ex_anc_room (l : list rn_pkt) : bool := true.

Lemma rn_parse_in_bounds_witness :
  (exists e, rn_notified (rn_run ex_anc_cfg ex_anc_keeps ex_anc_room false ex_anc_history) = [e]
     /\ ne_udw e = [7; 8; 7; 8] /\ arr_len (fm_meta (ne_meta e)) = 2)
  /\ (forall i sl, frame_slots (rn_run ex_anc_cfg ex_anc_keeps ex_anc_room false ex_anc_history) !! i = Some sl ->
       slot_wf 64 sl)
  /\ let s := rn_run ex_anc_cfg ex_anc_keeps ex_anc_room false ex_anc_history in
     rx_ancillary_session_handle_pkt ex_anc_cfg ex_anc_keeps ex_anc_room (with_payload (ex_anc_entry ++ [1; 2; 3]) (ex_anc_pkt 2 200 true)) 0 s
     = rx_ancillary_session_handle_pkt ex_anc_cfg ex_anc_keeps ex_anc_room (ex_anc_pkt 2 200 true) 0 s.
Proof.
  split; [eexists; vm_compute; done|].
  destruct (rn_parse_in_bounds ex_anc_cfg ex_anc_keeps ex_anc_room false ex_anc_history) as (H1 & _ & H3); [cbn; lia|]. split; [exact H1|].
  cbv zeta. apply H3; [done|vm_compute; split; congruence|vm_compute; reflexivity].
Defined.
