(* ===== verification/AncSlots.v ===== *)
(** Who owns a slot of the ancillary receiver: the state of every slot between packets,
    and that a frame the application holds is not touched. *)
From S2P Require Import Prelude SeqNum Bytes Anc RxAnc AncAssembly.

(** ** The roles of the slots *)

Definition state_of (s : rn_session) (i : nat) : option st_rx_anc_slot_state := sl_state <$> frame_slots s !! i.

(** The slot [ready] is about to be delivered. *)
Record lifecycle (ready : option nat) (s : rn_session) : Prop := {
  lc_inflight : forall i, anc_inflight_slot s = Some i <-> state_of s i = Some ST_RX_ANC_SLOT_RECEIVING;
  lc_pending : forall i, anc_pending_slot s = Some i <-> state_of s i = Some ST_RX_ANC_SLOT_PENDING;
  lc_ready : forall i, ready = Some i <-> state_of s i = Some ST_RX_ANC_SLOT_READY;
}.

(** From [s] to [s'] the frames of the application stay as they are, and it is not told
    about them again. *)
Definition keeps (s s' : rn_session) : Prop :=
  exists ev, rn_notified s' = rn_notified s ++ ev /\
    forall i sl, frame_slots s !! i = Some sl -> sl_state sl = ST_RX_ANC_SLOT_IN_USER ->
      frame_slots s' !! i = Some sl /\ Forall (fun e => ne_slot e <> i) ev.

Lemma anc_keeps_refl s : keeps s s.
Proof. exists []. split; [by rewrite app_nil_r|]. intros i sl H _. by split. Qed.

Lemma anc_keeps_trans s1 s2 s3 : keeps s1 s2 -> keeps s2 s3 -> keeps s1 s3.
Proof.
  intros (e1 & E1 & H1) (e2 & E2 & H2). exists (e1 ++ e2). split; [by rewrite E2, E1, app_assoc|].
  intros i sl Hi Hst. destruct (H1 i sl Hi Hst) as [Hi2 He1]. destruct (H2 i sl Hi2 Hst) as [Hi3 He2].
  split; [done|]. by apply Forall_app.
Qed.

Definition rn_view (s : rn_session) := (frame_slots s, rn_notified s).
Lemma core_view s s' : rn_core s = rn_core s' -> rn_view s = rn_view s'.
Proof. unfold rn_view. by intros [= -> _ _ ->]. Qed.

Lemma keeps_view s1 s2 s1' s2' : rn_view s1 = rn_view s1' -> rn_view s2 = rn_view s2' -> keeps s1 s2 -> keeps s1' s2'.
Proof. intros [= E1 E2] [= E3 E4]. unfold keeps. by rewrite E1, E2, E3, E4. Qed.

Lemma keeps_same s s' : rn_view s = rn_view s' -> keeps s s'.
Proof. intros H. by eapply keeps_view; [|exact H|apply anc_keeps_refl]. Qed.

Lemma lifecycle_core r s s' : rn_core s = rn_core s' -> lifecycle r s -> lifecycle r s'.
Proof. intros [= E1 E2 E3 _] [H1 H2 H3]. unfold state_of in *. split; unfold state_of; rewrite <- ?E1, <- ?E2, <- ?E3; done. Qed.

Lemma state_upd i g s j :
  state_of (rn_slot_upd i g s) j = if decide (i = j) then sl_state <$> (g <$> frame_slots s !! j) else state_of s j.
Proof.
  unfold state_of. cbn. destruct (decide (i = j)) as [->|]; [by rewrite list_lookup_alter_eq|by rewrite list_lookup_alter_ne].
Qed.

Lemma state_set i st s j :
  state_of (rn_set_state i st s) j = if decide (i = j) then (fun _ => st) <$> state_of s j else state_of s j.
Proof. unfold rn_set_state. rewrite state_upd. case_decide; [|done]. unfold state_of. by destruct (_ !! j). Qed.

(** A change inside a slot that keeps its state. *)
Lemma lifecycle_upd r i g s :
  (forall sl, sl_state (g sl) = sl_state sl) -> lifecycle r s -> lifecycle r (rn_slot_upd i g s).
Proof.
  intros Hg [H1 H2 H3].
  assert (forall j, state_of (rn_slot_upd i g s) j = state_of s j) as E.
  { intros j. rewrite state_upd. case_decide; [|done]. unfold state_of. destruct (_ !! j); cbn; by rewrite ?Hg. }
  split; intros j; rewrite E; [apply H1|apply H2|apply H3].
Qed.

Lemma keeps_upd i g s : state_of s i <> Some ST_RX_ANC_SLOT_IN_USER -> keeps s (rn_slot_upd i g s).
Proof.
  intros Hi. exists []. split; [by rewrite app_nil_r|]. intros j sl Hj Hst. split; [|done].
  cbn. rewrite list_lookup_alter_ne; [done|]. intros ->. apply Hi. unfold state_of. rewrite Hj. cbn. by f_equal.
Qed.

(** ** Delivery *)

Section Roles.
Context (cfg : rn_config) (app : nat -> app_answer).

Lemma deliver_keeps i s : state_of s i <> Some ST_RX_ANC_SLOT_IN_USER -> keeps s (rx_anc_slot_deliver app i s).
Proof.
  intros Hi. exists [mk_rn_event i (rn_frame_meta (rn_slot_at s i)) (sl_udw (rn_slot_at s i))]. split.
  { unfold rx_anc_slot_deliver. destruct (app _); try done. cbn. case_if; done. }
  intros j sl Hj Hst. assert (i <> j) as Hne.
  { intros ->. apply Hi. unfold state_of. rewrite Hj. cbn. by f_equal. }
  split; [|by apply Forall_singleton].
  unfold rx_anc_slot_deliver. destruct (app _); cbn; [| |]; try case_if; cbn; by rewrite ?list_lookup_alter_ne.
Qed.

Lemma deliver_state i s j :
  state_of (rx_anc_slot_deliver app i s) j =
  if decide (i = j) then (fun _ => match app (length (rn_notified s)) with
                                   | AppKeeps => ST_RX_ANC_SLOT_IN_USER | _ => ST_RX_ANC_SLOT_FREE end) <$> state_of s j
  else state_of s j.
Proof.
  unfold rx_anc_slot_deliver. cbn [rn_notified rn_set_state rn_slot_upd rn_count modify_field].
  set (s1 := rn_set_state i ST_RX_ANC_SLOT_IN_USER (rn_count RN_FRAMES_READY 1 s)). set (s2 := s1 <| rn_notified ::= _ |>).
  change (length (rn_notified s1)) with (length (rn_notified s)).
  assert (forall k, state_of s2 k = if decide (i = k) then (fun _ => ST_RX_ANC_SLOT_IN_USER) <$> state_of s k else state_of s k) as E.
  { intros k. change (state_of s2 k) with (state_of s1 k). unfold s1. by rewrite state_set. }
  assert (forall k, state_of (rn_set_state i ST_RX_ANC_SLOT_FREE s2) k
    = if decide (i = k) then (fun _ => ST_RX_ANC_SLOT_FREE) <$> state_of s k else state_of s k) as Ef.
  { intros k. rewrite state_set, E. case_decide; [|done]. by destruct (state_of s k). }
  destruct (app _); [by rewrite E| |by rewrite Ef].
  unfold st40_rx_put_framebuff. case_bool_decide as Hl; cbn [snd]; [by rewrite Ef|].
  rewrite E. case_decide as Hij; [|done]. subst j. unfold state_of.
  rewrite (lookup_ge_None_2 (frame_slots s) i); [done|]. cbn in Hl. rewrite length_alter in Hl. lia.
Qed.

Lemma deliver_pointers i s :
  anc_inflight_slot (rx_anc_slot_deliver app i s) = anc_inflight_slot s
  /\ anc_pending_slot (rx_anc_slot_deliver app i s) = anc_pending_slot s.
Proof. unfold rx_anc_slot_deliver. destruct (app _); cbn; try case_if; done. Qed.

Lemma deliver_lifecycle i s : lifecycle (Some i) s -> lifecycle None (rx_anc_slot_deliver app i s).
Proof.
  intros [H1 H2 H3]. destruct (deliver_pointers i s) as [E1 E2].
  assert (state_of s i = Some ST_RX_ANC_SLOT_READY) as Hi by (by apply H3).
  split; intros j; rewrite ?E1, ?E2, deliver_state, ?H1, ?H2; destruct (decide (i = j)) as [<-|Hne]; try done.
  - rewrite Hi. cbn. by destruct (app _).
  - rewrite Hi. cbn. by destruct (app _).
  - rewrite Hi. cbn. by destruct (app _).
  - rewrite <- H3. split; [done|]. by intros [= ->].
Qed.

(** A slot becomes READY when its pointer is dropped. *)
Lemma ready_pending i s :
  lifecycle None s -> anc_pending_slot s = Some i ->
  lifecycle (Some i) (rn_set_state i ST_RX_ANC_SLOT_READY (s <| anc_pending_slot := None |>)).
Proof.
  intros [H1 H2 H3] Hi. apply H2 in Hi as Hst.
  split; intros j; rewrite state_set; change (state_of (s <| anc_pending_slot := None |>) j) with (state_of s j); cbn;
    destruct (decide (i = j)) as [<-|Hne]; rewrite ?Hst; cbn.
  - rewrite H1, Hst. split; intros; congruence.
  - apply H1.
  - split; intros; congruence.
  - rewrite <- H2, Hi. split; intros; congruence.
  - split; intros; congruence.
  - rewrite <- H3. split; intros; congruence.
Qed.

Lemma ready_inflight i s :
  lifecycle None s -> anc_inflight_slot s = Some i ->
  lifecycle (Some i) (rn_set_state i ST_RX_ANC_SLOT_READY (s <| anc_inflight_slot := None |>)).
Proof.
  intros [H1 H2 H3] Hi. apply H1 in Hi as Hst.
  split; intros j; rewrite state_set; change (state_of (s <| anc_inflight_slot := None |>) j) with (state_of s j); cbn;
    destruct (decide (i = j)) as [<-|Hne]; rewrite ?Hst; cbn.
  - split; intros; congruence.
  - rewrite <- H1, Hi. split; intros; congruence.
  - rewrite H2, Hst. split; intros; congruence.
  - apply H2.
  - split; intros; congruence.
  - rewrite <- H3. split; intros; congruence.
Qed.

Definition fine (s s' : rn_session) : Prop := lifecycle None s' /\ keeps s s'.

Lemma deliver_fine s s1 i : lifecycle (Some i) s1 -> keeps s s1 -> fine s (rx_anc_slot_deliver app i s1).
Proof.
  intros H Hk. split; [by apply deliver_lifecycle|]. eapply anc_keeps_trans; [exact Hk|]. apply deliver_keeps.
  rewrite (proj1 (lc_ready _ _ H i)); done.
Qed.

Lemma keeps_set_state s s1 i st :
  frame_slots s1 = frame_slots s -> rn_notified s1 = rn_notified s ->
  state_of s i <> Some ST_RX_ANC_SLOT_IN_USER -> keeps s (rn_set_state i st s1).
Proof.
  intros E1 E2 H. assert (keeps s (rn_set_state i st s)) as Hk by (by apply keeps_upd).
  unfold keeps in *. cbn in *. by rewrite E1, E2.
Qed.

Lemma force_fine i s :
  lifecycle None s -> anc_pending_slot s = Some i -> fine s (rx_anc_force_deliver_pending app i s).
Proof.
  intros H Hi. apply deliver_fine; [by apply ready_pending|]. apply keeps_set_state; try done.
  rewrite (proj1 (lc_pending _ _ H i) Hi). done.
Qed.

Lemma force_pointers i s :
  anc_inflight_slot (rx_anc_force_deliver_pending app i s) = anc_inflight_slot s
  /\ anc_pending_slot (rx_anc_force_deliver_pending app i s) = None.
Proof.
  unfold rx_anc_force_deliver_pending.
  by destruct (deliver_pointers i (rn_set_state i ST_RX_ANC_SLOT_READY (s <| anc_pending_slot := None |>))) as [-> ->].
Qed.

(** [lifecycle None] for a slot that no pointer names any more: [old] was in flight. *)
Lemma park_fine old s0 s :
  state_of s old = Some ST_RX_ANC_SLOT_RECEIVING -> anc_inflight_slot s = None -> anc_pending_slot s = None ->
  (forall i, state_of s i = Some ST_RX_ANC_SLOT_RECEIVING -> i = old) ->
  (forall i, state_of s i <> Some ST_RX_ANC_SLOT_PENDING /\ state_of s i <> Some ST_RX_ANC_SLOT_READY) ->
  keeps s0 s ->
  fine s0 (rn_set_state old ST_RX_ANC_SLOT_PENDING s <| anc_pending_slot := Some old |>).
Proof.
  intros Ho Hi Hp Hr Hn Hk. split.
  - split; intros j; change (state_of (?x <| anc_pending_slot := Some old |>) j) with (state_of x j);
      rewrite state_set; cbn; destruct (decide (old = j)) as [<-|Hne]; rewrite ?Ho; cbn; rewrite ?Hi.
    + split; done.
    + split; [done|]. intros E. by destruct Hne; rewrite (Hr j E).
    + split; done.
    + split; [intros; congruence|]. intros E. by destruct (Hn j).
    + split; done.
    + split; [done|]. intros E. by destruct (Hn j).
  - eapply anc_keeps_trans; [exact Hk|].
    apply (keeps_view s (rn_set_state old ST_RX_ANC_SLOT_PENDING s)); [done|done|]. apply keeps_upd. by rewrite Ho.
Qed.

Lemma force_inflight i s :
  rx_anc_force_deliver_pending app i (s <| anc_inflight_slot := None |>)
  = rx_anc_force_deliver_pending app i s <| anc_inflight_slot := None |>.
Proof.
  unfold rx_anc_force_deliver_pending, rx_anc_slot_deliver.
  change (length (rn_notified _)) with (length (rn_notified s)). cbn. destruct (app _); cbn; try case_if; done.
Qed.

Lemma roll_fine ts s o s' :
  lifecycle None s -> rn_roll_inflight cfg app ts s = (o, s') ->
  fine s s' /\ match o with
               | Some i => anc_inflight_slot s' = Some i
               | None => anc_inflight_slot s' = None
               end.
Proof.
  intros H. unfold rn_roll_inflight. destruct (anc_inflight_slot s) as [old|] eqn:Hi.
  2:{ intros [= <- <-]. split; [split; [done|apply anc_keeps_refl]|done]. }
  pose proof (proj1 (lc_inflight _ _ H old) Hi) as Ho.
  case_if; [intros [= <- <-]; split; [split; [done|apply anc_keeps_refl]|done]|].
  destruct (rn_num_port cfg >? 1).
  - intros [= <- <-]. change (anc_pending_slot (s <| anc_inflight_slot := None |>)) with (anc_pending_slot s).
    destruct (anc_pending_slot s) as [j|] eqn:Hp.
    + rewrite force_inflight. destruct (force_fine j s H Hp) as [[F1 F2 F3] Fk]. destruct (force_pointers j s) as [P1 P2].
      set (s1 := rx_anc_force_deliver_pending app j s) in *. rewrite Hi in P1.
      split; [|done]. apply park_fine; try done.
      * change (state_of s1 old = Some ST_RX_ANC_SLOT_RECEIVING). by apply F1.
      * intros i Es. apply F1 in Es. congruence.
      * intros i. change (state_of (s1 <| anc_inflight_slot := None |>) i) with (state_of s1 i).
        split; [rewrite <- F2, P2; done|]. rewrite <- F3. done.
    + destruct H as [F1 F2 F3]. split; [|done]. apply park_fine; try done.
      * intros i Es. apply F1 in Es. congruence.
      * intros i. change (state_of (s <| anc_inflight_slot := None |>) i) with (state_of s i).
        split; [rewrite <- F2, Hp; done|]. rewrite <- F3. done.
      * by apply keeps_same.
  - intros [= <- <-]. split.
    + apply deliver_fine; [by apply ready_inflight|]. apply keeps_set_state; try done. by rewrite Ho.
    + by rewrite (proj1 (deliver_pointers old _)).
Qed.

Lemma find_fine ts s o s' :
  lifecycle None s -> rn_find_slot cfg app ts s = (o, s') ->
  fine s s' /\ match o with
               | Some i => anc_inflight_slot s' = Some i \/ anc_pending_slot s' = Some i
               | None => anc_inflight_slot s' = None
               end.
Proof.
  intros H. unfold rn_find_slot. destruct (anc_pending_slot s) as [i|] eqn:Hp; [case_if|].
  - intros [= <- <-]. split; [split; [done|apply anc_keeps_refl]|]. by right.
  - intros Hr. apply roll_fine in Hr as [? ?]; [|done]. split; [done|]. destruct o; [by left|done].
  - intros Hr. apply roll_fine in Hr as [? ?]; [|done]. split; [done|]. destruct o; [by left|done].
Qed.

Lemma free_slot_state s i : rx_anc_get_free_slot s = Some i -> state_of s i = Some ST_RX_ANC_SLOT_FREE.
Proof.
  unfold rx_anc_get_free_slot. intros H. apply fmap_Some in H as ([j sl] & H & ->).
  apply list_find_Some in H as (Hj & Hst & _). unfold state_of. cbn. rewrite Hj. cbn. by f_equal.
Qed.

Lemma new_fine e s o s' :
  lifecycle None s -> anc_inflight_slot s = None -> rn_new_slot app e s = (o, s') ->
  fine s s' /\ anc_inflight_slot s' = None
  /\ match o with Some i => state_of s' i = Some ST_RX_ANC_SLOT_FREE | None => True end.
Proof.
  intros H Hi. unfold rn_new_slot. destruct (rx_anc_get_free_slot s) as [i|] eqn:Ef.
  { intros [= <- <-]. split; [split; [done|apply anc_keeps_refl]|]. split; [done|]. by apply free_slot_state. }
  destruct (anc_pending_slot s) as [j|] eqn:Hp; [|intros [= <- <-]; split; [split; [done|apply anc_keeps_refl]|done]].
  case_if; intros [= <- <-]; [|split; [split; [done|apply anc_keeps_refl]|done]].
  split; [by apply force_fine|]. split; [by rewrite (proj1 (force_pointers j s))|].
  destruct (rx_anc_get_free_slot (rx_anc_force_deliver_pending app j s)) eqn:Eg; [by apply free_slot_state|done].
Qed.

(** A free slot becomes the in-flight one. *)
Lemma init_fine i g s :
  lifecycle None s -> anc_inflight_slot s = None -> state_of s i = Some ST_RX_ANC_SLOT_FREE ->
  (forall sl, sl_state (g sl) = ST_RX_ANC_SLOT_RECEIVING) ->
  fine s (rn_slot_upd i g s <| anc_inflight_slot := Some i |>).
Proof.
  intros [H1 H2 H3] Hn Hf Hg. split.
  - assert (forall j, state_of (rn_slot_upd i g s <| anc_inflight_slot := Some i |>) j
      = if decide (i = j) then Some ST_RX_ANC_SLOT_RECEIVING else state_of s j) as E.
    { intros j. change (state_of (rn_slot_upd i g s) j = if decide (i = j) then Some ST_RX_ANC_SLOT_RECEIVING else state_of s j).
      rewrite state_upd. case_decide; [|done]. subst j. unfold state_of in Hf. destruct (_ !! i); [|done]. cbn. by rewrite Hg. }
    split; intros j; rewrite E; cbn; destruct (decide (i = j)) as [<-|Hne].
    + done.
    + rewrite <- H1, Hn. split; intros; congruence.
    + rewrite H2, Hf. split; intros; congruence.
    + apply H2.
    + rewrite H3, Hf. split; intros; congruence.
    + apply H3.
  - apply (keeps_view s (rn_slot_upd i g s)); [done|done|]. apply keeps_upd. by rewrite Hf.
Qed.

Lemma fine_trans s1 s2 s3 : keeps s1 s2 -> fine s2 s3 -> fine s1 s3.
Proof. intros H [Hl Hk]. split; [done|]. by eapply anc_keeps_trans. Qed.

Lemma select_fine ts i2 sf rt s o s' :
  lifecycle None s -> rx_anc_select_slot cfg app ts i2 sf rt s = (o, s') ->
  fine s s' /\ match o with
               | Some i => anc_inflight_slot s' = Some i \/ anc_pending_slot s' = Some i
               | None => True
               end.
Proof.
  intros H. unfold rx_anc_select_slot. destruct (rn_find_slot cfg app ts s) as [[i|] s1] eqn:E1; apply find_fine in E1 as [[L1 K1] P1]; try done.
  - intros [= <- <-]. split; [|done]. split.
    + apply lifecycle_upd; [|done]. intros sl. unfold rn_refresh_slot. by case_if.
    + eapply anc_keeps_trans; [exact K1|]. apply keeps_upd. destruct P1 as [P1|P1]; apply L1 in P1; by rewrite P1.
  - destruct (rn_new_slot app _ s1) as [[i|] s2] eqn:E2; apply new_fine in E2 as ([L2 K2] & P2 & F2); try done.
    + intros [= <- <-]. split; [|by left]. apply (fine_trans _ s2); [by eapply anc_keeps_trans|]. by apply init_fine.
    + intros [= <- <-]. split; [|done]. split; [by eapply lifecycle_core; [|exact L2]|].
      apply (keeps_view s s2); [done|done|]. by eapply anc_keeps_trans.
Qed.

Lemma record_state seq_id s_port sl : sl_state (rx_anc_slot_record_seq seq_id s_port sl) = sl_state sl.
Proof. unfold rx_anc_slot_record_seq, rn_record_port, rn_record_bitmap. repeat case_if; done. Qed.

Lemma parse_state n payload room : forall off cap sl, sl_state (fst (rn_parse_loop n payload room off cap sl)) = sl_state sl.
Proof.
  induction n as [|n IH]; intros off cap sl; [done|]. cbn [rn_parse_loop]. case_if; [done|].
  destruct (st40_rfc8331_decode_packet _ _ _) as [[] [[[m udw] need]|]]; try done. by rewrite IH.
Qed.

Lemma store_fine p s_port i s :
  lifecycle None s -> state_of s i <> Some ST_RX_ANC_SLOT_IN_USER -> fine s (rn_store cfg p s_port i s).
Proof.
  intros H Hi. unfold rn_store, rx_anc_slot_parse_pkt. set (s1 := rn_slot_upd i _ s).
  assert (lifecycle None s1) as L1.
  { apply lifecycle_upd; [|done]. intros sl. by rewrite record_state. }
  assert (state_of s1 i = state_of s i) as E1.
  { unfold s1. rewrite state_upd, decide_True by done. unfold state_of. destruct (_ !! i); [|done]. cbn. by rewrite record_state. }
  destruct (rn_parse_loop _ _ _ _ _ _) as [sl bad] eqn:Ep.
  assert (sl_state sl = sl_state (rn_slot_at s1 i)) as Es.
  { erewrite <- (parse_state (Z.to_nat (np_anc_count p)) (np_payload p) (rn_payload_room p) 0 (rn_framebuff_size cfg) (rn_slot_at s1 i)).
    by rewrite Ep. }
  apply (fine_trans _ s1); [by apply keeps_upd|].
  assert (fine s1 (rn_slot_upd i (fun _ => sl) s1)) as [L2 K2].
  { split; [|apply keeps_upd; by rewrite E1]. destruct L1 as [F1 F2 F3].
    assert (forall j, state_of (rn_slot_upd i (fun _ => sl) s1) j = state_of s1 j) as E.
    { intros j. rewrite state_upd. case_decide; [|done]. subst j. unfold state_of. unfold rn_slot_at in Es.
      destruct (frame_slots s1 !! i); [|done]. cbn in *. by rewrite Es. }
    split; intros j; rewrite E; done. }
  destruct bad; [|done]. split; [by eapply lifecycle_core; [|exact L2]|]. by eapply keeps_view; [| |exact K2].
Qed.

Lemma close_fine i s :
  lifecycle None s -> anc_inflight_slot s = Some i \/ anc_pending_slot s = Some i -> fine s (rn_close app i s).
Proof.
  intros H Hi. unfold rn_close. set (s1 := rn_slot_upd i _ s).
  assert (state_of s i <> Some ST_RX_ANC_SLOT_IN_USER) as Hst.
  { destruct Hi as [Hi|Hi]; apply H in Hi; by rewrite Hi. }
  assert (lifecycle None s1) as L1 by (by apply lifecycle_upd).
  assert (keeps s s1) as K1 by (by apply keeps_upd).
  assert (state_of s1 i <> Some ST_RX_ANC_SLOT_IN_USER) as Hst1.
  { change (anc_inflight_slot s1 = Some i \/ anc_pending_slot s1 = Some i) in Hi.
    destruct Hi as [Hi|Hi]; apply L1 in Hi; by rewrite Hi. }
  apply (fine_trans _ s1); [done|]. case_bool_decide as Hp.
  - apply deliver_fine; [by apply ready_pending|]. by apply keeps_set_state.
  - destruct Hi as [Hi|Hi]; [|done]. apply deliver_fine; [by apply ready_inflight|]. by apply keeps_set_state.
Qed.

Lemma store_pointers p s_port i s :
  anc_inflight_slot (rn_store cfg p s_port i s) = anc_inflight_slot s
  /\ anc_pending_slot (rn_store cfg p s_port i s) = anc_pending_slot s.
Proof. unfold rn_store, rx_anc_slot_parse_pkt. destruct (rn_parse_loop _ _ _ _ _ _) as [sl []]; done. Qed.

Lemma assemble_fine p s_port s :
  lifecycle None s -> fine s (snd (rx_ancillary_session_assemble_pkt cfg app p s_port s)).
Proof.
  intros H. unfold rx_ancillary_session_assemble_pkt. set (s0 := rn_count RN_DISPATCHED 1 s).
  assert (lifecycle None s0) as H0 by (by eapply lifecycle_core; [|exact H]).
  assert (keeps s s0) as K0 by (by apply keeps_same).
  destruct (rx_anc_select_slot _ _ _ _ _ _ s0) as [[i|] s1] eqn:E; apply select_fine in E as [[L1 K1] P1]; try done; cbn [snd].
  assert (state_of s1 i <> Some ST_RX_ANC_SLOT_IN_USER) as Hi.
  { destruct P1 as [P1|P1]; apply L1 in P1; by rewrite P1. }
  destruct (store_fine p s_port i s1 L1 Hi) as [L2 K2].
  apply (fine_trans _ s0); [done|]. apply (fine_trans _ s1); [done|]. destruct (np_marker p); [|done].
  apply (fine_trans _ (rn_store cfg p s_port i s1)); [done|]. apply close_fine; [done|].
  destruct (store_pointers p s_port i s1) as [-> ->]. done.
Qed.

Context (room : list rn_pkt -> bool).

Lemma handle_fine p s_port s :
  lifecycle None s -> fine s (snd (rx_ancillary_session_handle_pkt cfg app room p s_port s)).
Proof.
  intros H. destruct (handle_core cfg app room p s_port s) as (s1 & E1 & E2).
  assert (lifecycle None s1) as L1 by (by eapply lifecycle_core; [|exact H]).
  assert (keeps s s1) as K1 by (by apply keeps_same, core_view).
  apply (fine_trans _ s1); [done|]. destruct E2 as [E2|E2].
  - split; [by eapply lifecycle_core; [|exact L1]|]. by apply keeps_same, core_view.
  - destruct (assemble_fine p s_port s1 L1) as [L2 K2]. split; [by eapply lifecycle_core; [|exact L2]|].
    by eapply keeps_view; [done|apply core_view; symmetry; exact E2|exact K2].
Qed.

End Roles.

(** ** Histories *)

(** The application puts back only frames it holds. *)
Fixpoint rn_legal cfg app room (h : list rn_op) (s : rn_session) : Prop :=
  match h with
  | [] => True
  | op :: h =>
      match op with RnPkt _ _ => True | RnPut i => state_of s i = Some ST_RX_ANC_SLOT_IN_USER end
      /\ rn_legal cfg app room h (rn_step cfg app room s op)
  end.

Lemma put_lifecycle i s :
  lifecycle None s -> state_of s i = Some ST_RX_ANC_SLOT_IN_USER ->
  lifecycle None (snd (st40_rx_put_framebuff (Some i) s)).
Proof.
  intros [H1 H2 H3] Hi. unfold st40_rx_put_framebuff. case_bool_decide; [|done]. cbn [snd].
  split; intros j; rewrite state_set; cbn; destruct (decide (i = j)) as [<-|Hne]; try done; rewrite ?Hi; cbn.
  - rewrite H1, Hi. split; intros; congruence.
  - rewrite H2, Hi. split; intros; congruence.
  - split; intros; congruence.
Qed.

Lemma run_lifecycle cfg app room h : forall s,
  lifecycle None s -> rn_legal cfg app room h s -> lifecycle None (fold_left (rn_step cfg app room) h s).
Proof.
  induction h as [|op h IH]; intros s H Hl; [done|]. destruct Hl as [Hop Hl]. cbn [fold_left]. apply IH; [|done].
  destruct op as [p s_port|i]; cbn [rn_step]; [by apply handle_fine|by apply put_lifecycle].
Qed.

Lemma start_lifecycle cfg interlaced : lifecycle None (rn_start cfg interlaced).
Proof.
  assert (forall i st, state_of (rn_start cfg interlaced) i = Some st -> st = ST_RX_ANC_SLOT_FREE) as E.
  { intros i st. unfold state_of. cbn. unfold rx_ancillary_session_init_frames. intros H.
    apply fmap_Some in H as (sl & Hsl & ->). by apply lookup_replicate in Hsl as [-> _]. }
  split; intros i; cbn; (split; [done|]); intros H; apply E in H; done.
Qed.

(** C27: the slots of an ancillary receiver follow their state machine. In every state
    between two packets, whatever came from the wire, a slot is free, or with the
    application, or it is RECEIVING and is the one in-flight slot, or it is PENDING and
    is the one pending slot; none is left READY. *)
Theorem rn_slot_lifecycle cfg app room interlaced h i sl :
  rn_legal cfg app room h (rn_start cfg interlaced) ->
  let s := rn_run cfg app room interlaced h in
  frame_slots s !! i = Some sl ->
  match sl_state sl with
  | ST_RX_ANC_SLOT_FREE | ST_RX_ANC_SLOT_IN_USER => anc_inflight_slot s <> Some i /\ anc_pending_slot s <> Some i
  | ST_RX_ANC_SLOT_RECEIVING => anc_inflight_slot s = Some i
  | ST_RX_ANC_SLOT_PENDING => anc_pending_slot s = Some i
  | ST_RX_ANC_SLOT_READY => False
  end.
Proof.
  intros Hl s Hi. destruct (run_lifecycle cfg app room h _ (start_lifecycle cfg interlaced) Hl) as [H1 H2 H3].
  fold (rn_run cfg app room interlaced h) in H1, H2, H3. fold s in H1, H2, H3.
  assert (state_of s i = Some (sl_state sl)) as E by (unfold state_of; by rewrite Hi).
  destruct (sl_state sl).
  2:{ by apply H1. } 2:{ by apply H2. } 2:{ by apply H3 in E. }
  all: split; intros Hc; apply H1 in Hc || apply H2 in Hc; congruence.
Qed.

(** C26: a frame the application holds is safe. While a slot is with the application no
    packet from the wire changes anything in it, neither its bytes nor its entries nor
    its state, and the application is not told about it a second time. *)
Theorem rn_held_frames_untouched cfg app room interlaced h p s_port i sl :
  rn_legal cfg app room h (rn_start cfg interlaced) ->
  let s := rn_run cfg app room interlaced h in
  let s' := snd (rx_ancillary_session_handle_pkt cfg app room p s_port s) in
  frame_slots s !! i = Some sl -> sl_state sl = ST_RX_ANC_SLOT_IN_USER ->
  frame_slots s' !! i = Some sl
  /\ exists ev, rn_notified s' = rn_notified s ++ ev /\ Forall (fun e => ne_slot e <> i) ev.
Proof.
  intros Hl s s' Hi Hst. pose proof (run_lifecycle cfg app room h _ (start_lifecycle cfg interlaced) Hl) as H.
  destruct (handle_fine cfg app room p s_port s H) as [_ (ev & E & Hk)].
  destruct (Hk i sl Hi Hst) as [H1 H2]. split; [done|]. by exists ev.
Qed.

Lemma ex_anc_legal : rn_legal ex_anc_cfg ex_anc_keeps ex_anc_room ex_anc_history (rn_start ex_anc_cfg false).
Proof. vm_compute. done. Qed.

Lemma rn_slot_lifecycle_witness :
  anc_inflight_slot (rn_run ex_anc_cfg ex_anc_keeps ex_anc_room false ex_anc_history) = Some 0%nat.
Proof.
  set (sl := rn_slot_at (rn_run ex_anc_cfg ex_anc_keeps ex_anc_room false ex_anc_history) 0).
  assert (sl_state sl = ST_RX_ANC_SLOT_RECEIVING) as E by (vm_compute; reflexivity).
  assert (H := rn_slot_lifecycle ex_anc_cfg ex_anc_keeps ex_anc_room false ex_anc_history 0 sl ex_anc_legal
                 ltac:(vm_compute; reflexivity)).
  rewrite E in H. exact H.
Defined.

(** The application still holds the first frame when the third packet comes. *)
Definition ex_anc_held : list rn_op := [RnPkt (ex_anc_pkt 65535 100 false) 0; RnPkt (ex_anc_pkt 0 100 true) 1].
Lemma rn_held_frames_untouched_witness :
  let s := rn_run ex_anc_cfg ex_anc_keeps ex_anc_room false ex_anc_held in
  frame_slots (snd (rx_ancillary_session_handle_pkt ex_anc_cfg ex_anc_keeps ex_anc_room (ex_anc_pkt 1 200 true) 0 s)) !! 0%nat
  = Some (rn_slot_at s 0).
Proof.
  intros s. apply (rn_held_frames_untouched ex_anc_cfg ex_anc_keeps ex_anc_room false ex_anc_held
    (ex_anc_pkt 1 200 true) 0 0 (rn_slot_at s 0)).
  - vm_compute. done.
  - vm_compute. reflexivity.
  - vm_compute. reflexivity.
Defined.
