(* ===== verification/AncFilter.v ===== *)
(** The packet filter of the ancillary receiver on the packets of one sender: what comes
    in on both ports is passed on once.

    The sender numbers its packets without wrapping; [num] is the number of a packet and
    [tau] the time of the frame a number belongs to. The code sees both modulo their
    widths. *)
From S2P Require Import Prelude SeqNum Bytes Anc RxAnc AncAssembly.

(** ** What the filter depends on *)

Definition filter_view (s : rn_session) :=
  (rn_session_seq_id s, rn_tmstamp s, prev_tmstamp s, anc_window_cur s, anc_window_prev s).

(** A window over the frame of time [t]: [b] is the number of its first bit, [acc] the
    numbers passed on. [k0] opened it. *)
Record window_of (tau : Z -> Z) (acc : list Z) (t b k0 : Z) (w : anc_window) : Prop := {
  win_valid : w_valid w = true;
  win_time : w_tmstamp w = u32 t;
  win_base : w_base_seq w = u16 b;
  win_open : tau k0 = t /\ 0 <= k0 - b < 32768;
  win_low : forall k, k ∈ acc -> tau k = t -> b <= k;
  win_bits : forall j, 0 <= j < 64 -> Z.testbit (w_bitmap w) j = bool_decide (b + j ∈ acc /\ tau (b + j) = t);
}.

(** ** Assembly does not touch the filter *)

Section View.
Context (cfg : rn_config) (app : nat -> app_answer).

Lemma view_deliver i s : filter_view (rx_anc_slot_deliver app i s) = filter_view s.
Proof. unfold rx_anc_slot_deliver. destruct (app _); cbn; try case_if; done. Qed.

Lemma view_force i s : filter_view (rx_anc_force_deliver_pending app i s) = filter_view s.
Proof. unfold rx_anc_force_deliver_pending. by rewrite view_deliver. Qed.

Lemma view_roll ts s : filter_view (snd (rn_roll_inflight cfg app ts s)) = filter_view s.
Proof.
  unfold rn_roll_inflight. destruct (anc_inflight_slot s) as [old|]; [|done]. case_if; [done|].
  destruct (rn_num_port cfg >? 1); cbn [snd]; [|by rewrite view_deliver].
  destruct (anc_pending_slot _) as [i|]; [|done].
  change (filter_view (rx_anc_force_deliver_pending app i (s <| anc_inflight_slot := None |>)) = filter_view s).
  by rewrite view_force.
Qed.

Lemma view_select ts i2 sf rt s : filter_view (snd (rx_anc_select_slot cfg app ts i2 sf rt s)) = filter_view s.
Proof.
  unfold rx_anc_select_slot. assert (filter_view (snd (rn_find_slot cfg app ts s)) = filter_view s) as Ef.
  { unfold rn_find_slot. destruct (anc_pending_slot s); [case_if; [done|]|]; apply view_roll. }
  destruct (rn_find_slot cfg app ts s) as [[i|] s1]; [exact Ef|]. cbn in Ef.
  assert (filter_view (snd (rn_new_slot app (anc_pending_slot s) s1)) = filter_view s1) as En.
  { unfold rn_new_slot. destruct (rx_anc_get_free_slot s1); [done|]. destruct (anc_pending_slot s1); [|done].
    case_if; [apply view_force|done]. }
  destruct (rn_new_slot app _ s1) as [[i|] s2]; cbn in *; (etransitivity; [exact En|exact Ef]).
Qed.

Lemma view_assemble p s_port s : filter_view (snd (rx_ancillary_session_assemble_pkt cfg app p s_port s)) = filter_view s.
Proof.
  unfold rx_ancillary_session_assemble_pkt.
  pose proof (view_select (np_tmstamp p) (c_true (Z.land (Z.land (np_f p) 3) 2))
    (c_true (Z.land (Z.land (np_f p) 3) 2) && c_true (Z.land (Z.land (np_f p) 3) 1)) (np_recv_ts p) (rn_count RN_DISPATCHED 1 s)) as Hs.
  destruct (rx_anc_select_slot _ _ _ _ _ _ _) as [[i|] s1]; cbn [snd] in *; [|exact Hs].
  assert (filter_view (rn_store cfg p s_port i s1) = filter_view s1) as Est.
  { unfold rn_store, rx_anc_slot_parse_pkt. by destruct (rn_parse_loop _ _ _ _ _ _) as [sl []]. }
  destruct (np_marker p); [|by rewrite Est]. unfold rn_close. rewrite view_deliver.
  case_if; change (filter_view (rn_store cfg p s_port i s1) = filter_view s); by rewrite Est.
Qed.

End View.

Section Stream.
Context (tau : Z -> Z).
Context (tau_mono : forall a b, a <= b -> tau a <= tau b).
Context (tau_frame : forall a b, tau a = tau b -> a - b < 32768).

Record filter_at (acc : list Z) (M : Z) (s : rn_session) : Prop := {
  fa_in : M ∈ acc;
  fa_max : forall k, k ∈ acc -> k <= M;
  fa_seq : rn_session_seq_id s = u16 M;
  fa_time : rn_tmstamp s = u32 (tau M);
  fa_cur : exists b k0, b <= M /\ window_of tau acc (tau M) b k0 (anc_window_cur s);
  fa_prev : w_valid (anc_window_prev s) = true ->
    exists t b k0, 0 < tau M - t < 2147483648 /\ window_of tau acc t b k0 (anc_window_prev s);
}.

Lemma filter_at_view acc M s s' : filter_view s = filter_view s' -> filter_at acc M s -> filter_at acc M s'.
Proof. intros [= E1 E2 E3 E4 E5] []. split; rewrite <- ?E1, <- ?E2, <- ?E4, <- ?E5; done. Qed.

(** The packet of number [k] comes while the newest number is [M]. *)
Definition near (k M : Z) : Prop := -32768 < k - M < 32768 /\ -2147483648 < tau k - tau M < 2147483648.
Definition of_number (p : rn_pkt) (k : Z) : Prop := np_seq p = u16 k /\ np_tmstamp p = u32 (tau k).

(** ** Windows *)

Lemma u32_near a b : -4294967296 < a - b < 4294967296 -> (u32 a = u32 b <-> a = b).
Proof. intros. split; [|by intros ->]. mlia. Qed.

Lemma window_offset acc t b k0 w k :
  window_of tau acc t b k0 w -> tau k = t -> -32768 < k - b -> rn_window_offset w (u16 k) = if k <? b then k - b + 65536 else k - b.
Proof.
  intros [_ _ Hb [Hk0 Hk0'] _ _] Ht Hlow. unfold rn_window_offset. rewrite Hb.
  pose proof (tau_frame k k0 ltac:(congruence)). case_if; mlia.
Qed.

(** A window misses exactly the numbers of its range that were not passed on. *)
Lemma window_misses acc t b k0 w k :
  window_of tau acc t b k0 w -> tau k = t -> -32768 < k - b ->
  (rn_window_misses w (u16 k) = true <-> b <= k < b + 64 /\ k ∉ acc).
Proof.
  intros Hw Ht Hlow. unfold rn_window_misses, ST_RX_ANC_BITMAP_BITS. rewrite (window_offset _ _ _ _ _ _ Hw Ht Hlow).
  destruct (Z.ltb_spec k b) as [Hlt|Hge].
  - rewrite (proj2 (Z.ltb_ge (k - b + 65536) 64)) by lia. cbn [andb]. split; [done|lia].
  - destruct (Z.ltb_spec (k - b) 64) as [H64|]; cbn [andb]; [|split; [done|lia]].
    rewrite land_shiftl_1 by lia. rewrite (win_bits _ _ _ _ _ _ Hw) by lia. replace (b + (k - b)) with k by lia.
    rewrite negb_true_iff, bool_decide_eq_false. split; [intros Hn; split; [lia|tauto]|tauto].
Qed.

Lemma mark_base n w : w_base_seq (rn_window_mark n w) = w_base_seq w.
Proof. unfold rn_window_mark. case_if; done. Qed.

(** A passed-on number marked in its window. *)
Lemma window_mark acc t b k0 w k :
  window_of tau acc t b k0 w -> tau k = t -> b <= k ->
  window_of tau (k :: acc) t b k0 (rn_window_mark (u16 k) w).
Proof.
  intros Hw Ht Hlow. unfold rn_window_mark. rewrite (window_offset _ _ _ _ _ _ Hw Ht) by lia.
  rewrite (proj2 (Z.ltb_ge k b)) by lia. unfold ST_RX_ANC_BITMAP_BITS. destruct Hw as [W1 W2 W3 W4 W5 W6].
  assert (forall j, j ∈ k :: acc -> tau j = t -> b <= j) as Hl.
  { intros j [-> |Hj]%elem_of_cons ?; [done|by apply W5]. }
  destruct (Z.ltb_spec (k - b) 64) as [H64|H64]; split; try done.
  - intros j Hj. cbn -[Z.lor Z.shiftl Z.testbit]. rewrite Z.lor_spec, W6, shiftl_1_testbit by lia.
    rewrite <- bool_decide_or. apply bool_decide_ext. rewrite elem_of_cons. split.
    + intros [[? ?]|E]; [by auto|]. replace (b + j) with k by lia. by auto.
    + intros [[E|?] ?]; [right; lia|by left].
  - intros j Hj. rewrite W6 by lia. apply bool_decide_ext. rewrite elem_of_cons. split; [tauto|].
    intros [[E|?] ?]; [lia|done].
Qed.

(** Other numbers do not concern it. *)
Lemma window_other acc t b k0 w k :
  window_of tau acc t b k0 w -> tau k <> t -> window_of tau (k :: acc) t b k0 w.
Proof.
  intros [W1 W2 W3 W4 W5 W6] Ht. split; try done.
  - intros j [-> |Hj]%elem_of_cons ?; [done|by apply W5].
  - intros j Hj. rewrite W6 by lia. apply bool_decide_ext. rewrite elem_of_cons. split; [tauto|].
    intros [[E|?] ?]; [|done]. by rewrite <- E in Ht.
Qed.

(** A window opened by [k], whose first bit is the number after [last]. *)
Lemma window_new acc k last :
  (forall j, j ∈ acc -> tau j <> tau k) -> 0 < k - last <= 32768 ->
  window_of tau (k :: acc) (tau k) (last + 1) k
    (rn_window_mark (u16 k) (mk_anc_window 0 (u32 (tau k)) (u16 (last + 1)) true)).
Proof.
  intros Hacc Hk. apply window_mark; [|done|lia]. split; try done; [split; [done|lia]| |].
  - intros j Hj Ht. by destruct (Hacc j Hj).
  - intros j Hj. cbn -[Z.testbit]. rewrite Z.testbit_0_l. symmetry. apply bool_decide_eq_false.
    intros [Hj' Ht]. by destruct (Hacc _ Hj').
Qed.

(** ** Verdicts *)

Lemma seq_newer k M : near k M -> mt_seq16_greater (u16 k) (u16 (u16 M)) = (M <? k).
Proof. intros [H _]. rewrite seq16_greater_spec. apply Bool.eq_true_iff_eq. rewrite andb_true_iff, !Z.ltb_lt. mlia. Qed.

Lemma time_older k M : near k M -> mt_seq32_greater (u32 (u32 (tau M))) (u32 (tau k)) = (tau k <? tau M).
Proof. intros [_ H]. rewrite seq32_greater_spec. apply Bool.eq_true_iff_eq. rewrite andb_true_iff, !Z.ltb_lt. mlia. Qed.

Lemma time_newer k M : near k M -> mt_seq32_greater (u32 (tau k)) (u32 (u32 (tau M))) = (tau M <? tau k).
Proof. intros [_ H]. rewrite seq32_greater_spec. apply Bool.eq_true_iff_eq. rewrite andb_true_iff, !Z.ltb_lt. mlia. Qed.

Section Verdict.
Context (cfg : rn_config) (acc : list Z) (M : Z) (s : rn_session) (p : rn_pkt) (k s_port : Z).
Context (Hat : filter_at acc M s) (Hp : of_number p k) (Hnear : near k M).

Lemma late_cur_facts : rn_late_cur p s = true ->
  k ∉ acc /\ tau k = tau M
  /\ forall b k0, b <= M -> window_of tau acc (tau M) b k0 (anc_window_cur s) -> b <= k.
Proof using Hat Hp Hnear tau_frame.
  destruct Hat as [_ _ _ _ (b & k0 & Hb & Hw) _], Hp as [Es Et]. unfold rn_late_cur. rewrite Es, Et. intros H.
  apply andb_true_iff in H as [H H4]. apply andb_true_iff in H as [H _]. apply andb_true_iff in H as [_ H2].
  destruct Hnear as [N1 N2]. rewrite (win_time _ _ _ _ _ _ Hw), Z.eqb_eq, u32_near in H2 by lia.
  assert (forall b' k0', b' <= M -> window_of tau acc (tau M) b' k0' (anc_window_cur s) -> b' <= k < b' + 64 /\ k ∉ acc) as Hall.
  { intros b' k0' Hb' Hw'. apply (proj1 (window_misses _ _ _ _ _ k Hw' H2 ltac:(lia)) H4). }
  split_and!; [by eapply Hall|done|]. intros b' k0' Hb' Hw'. destruct (Hall b' k0' Hb' Hw'). lia.
Qed.

Lemma late_prev_facts :
  rn_late_prev p s = true ->
  k ∉ acc /\ exists b k0, b <= k /\ 0 < tau M - tau k < 2147483648 /\ window_of tau acc (tau k) b k0 (anc_window_prev s).
Proof using Hat Hp Hnear tau_frame tau_mono.
  destruct Hat as [_ _ _ _ _ Hprev], Hp as [Es Et]. unfold rn_late_prev. rewrite Es, Et. intros H.
  apply andb_true_iff in H as [H H4]. apply andb_true_iff in H as [H H3]. apply andb_true_iff in H as [_ H2].
  destruct (Hprev H2) as (t & b & k0 & Ht & Hw). destruct Hnear.
  rewrite (win_time _ _ _ _ _ _ Hw), Z.eqb_eq, u32_near in H3 by lia. subst t.
  assert (b <= M) as Hb.
  { destruct (win_open _ _ _ _ _ _ Hw) as [E ?]. destruct (Z.le_gt_cases M k0) as [Hc|?]; [|lia].
    apply tau_mono in Hc. lia. }
  destruct (proj1 (window_misses _ _ _ _ _ k Hw eq_refl ltac:(lia)) H4) as [Hr Hn].
  split; [done|]. exists b, k0. split_and!; try done; lia.
Qed.

(** The number is newer than all before: it is taken as the next one. *)
Lemma verdict_next : M < k -> rn_filter cfg p s_port s = (RnNext, s).
Proof using Hat Hp Hnear tau_mono.
  intros Hk. destruct Hat as [_ _ E3 E4 _ _], Hp as [Es Et]. unfold rn_filter. rewrite Es, Et, E3, E4.
  rewrite seq_newer, time_older by done. pose proof (tau_mono M k ltac:(lia)).
  rewrite (proj2 (Z.ltb_ge (tau k) (tau M))), (proj2 (Z.ltb_lt M k)) by lia. done.
Qed.

Lemma verdict_old : k <= M -> forall v s', rn_filter cfg p s_port s = (v, s') ->
  v <> RnNext /\ (v = RnLate -> rn_late_cur p s = true \/ rn_late_prev p s = true).
Proof using Hat Hp Hnear.
  intros Hk v s'. destruct Hat as [_ _ E3 E4 _ _], Hp as [Es Et]. unfold rn_filter. rewrite Es, Et, E3, E4.
  rewrite seq_newer, time_older by done. rewrite (proj2 (Z.ltb_ge M k)), orb_true_r by lia.
  destruct (rn_late_cur p s || rn_late_prev p s) eqn:El.
  - intros [= <- <-]. split; [done|]. intros _. by apply orb_true_iff in El.
  - case_if; intros [= <- <-]; done.
Qed.

(** A late packet of the newest frame that was not passed on yet. *)
Lemma verdict_late b k0 :
  window_of tau acc (tau M) b k0 (anc_window_cur s) -> b <= M ->
  k <= M -> tau k = tau M -> b <= k < b + 64 -> k ∉ acc -> exists s', rn_filter cfg p s_port s = (RnLate, s').
Proof using Hat Hp Hnear tau_frame.
  intros Hw Hb Hk Ht Hr Hn. destruct Hat as [_ _ E3 E4 _ _]. pose proof Hp as [Es Et]. pose proof Hnear as [Hn1 Hn2].
  assert (rn_late_cur p s = true) as El.
  { unfold rn_late_cur. rewrite Es, Et, E4, time_older by done.
    rewrite (win_valid _ _ _ _ _ _ Hw), (win_time _ _ _ _ _ _ Hw), Ht, Z.eqb_refl, Z.ltb_irrefl. cbn [negb andb].
    apply (window_misses _ _ _ _ _ _ Hw Ht); [lia|done]. }
  unfold rn_filter. rewrite Es, Et, E3, E4, seq_newer, time_older by done.
  rewrite (proj2 (Z.ltb_ge M k)), orb_true_r by lia. rewrite El. cbn [orb]. by eexists.
Qed.

(** ** The state after a packet was passed on *)

Lemma session_seq_view : filter_at acc M s -> rn_session_seq_id (rn_session_seq (u16 k) s) = u16 (Z.max k M)
  /\ rn_tmstamp (rn_session_seq (u16 k) s) = u32 (tau M)
  /\ anc_window_cur (rn_session_seq (u16 k) s) = anc_window_cur s
  /\ anc_window_prev (rn_session_seq (u16 k) s) = anc_window_prev s.
Proof using Hnear.
  intros [_ _ E3 E4 _ _]. unfold rn_session_seq. rewrite E3, seq_newer by done.
  destruct (Z.ltb_spec M k) as [H|H]; [rewrite Z.max_l by lia|rewrite Z.max_r by lia];
    case_if; cbn; rewrite ?E3, ?E4; done.
Qed.

(** The window of the previous frame does not take a packet of the newest. *)
Lemma not_in_prev t b k0 w :
  window_of tau acc t b k0 w -> 0 < tau M - t < 2147483648 -> tau k = tau M \/ M < k ->
  w_valid w && (np_tmstamp p =? w_tmstamp w) = false.
Proof using Hp Hnear tau_mono.
  intros Hw Ht Hk. destruct Hp as [_ Et], Hnear. rewrite Et, (win_time _ _ _ _ _ _ Hw).
  apply andb_false_iff. right. apply Z.eqb_neq. rewrite u32_near; [|lia].
  destruct Hk as [Hk|Hk]; [lia|]. pose proof (tau_mono M k ltac:(lia)). lia.
Qed.

(** The windows after the packet, before it is assembled. *)
Lemma windows_after s2 :
  filter_at acc M s -> (M < k \/ rn_late_cur p s = true \/ rn_late_prev p s = true) ->
  anc_window_cur s2 = anc_window_cur s -> anc_window_prev s2 = anc_window_prev s ->
  let s3 := rn_update_windows p (u16 M) s2 in
  (exists b k0, b <= Z.max k M /\ window_of tau (k :: acc) (tau (Z.max k M)) b k0 (anc_window_cur s3))
  /\ (w_valid (anc_window_prev s3) = true ->
      exists t b k0, 0 < tau (Z.max k M) - t < 2147483648 /\ window_of tau (k :: acc) t b k0 (anc_window_prev s3)).
Proof using Hat Hp Hnear tau_frame tau_mono.
  intros [F1 F2 _ _ (b & k0 & Hb & Hw) Fprev] Hk Ec Ep. pose proof Hp as [Es Et]. pose proof Hnear as [Hn1 Hn2].
  unfold rn_update_windows. rewrite Ec, Ep, Es.
  assert (tau k = tau M \/ M < k -> w_valid (anc_window_prev s) && (np_tmstamp p =? w_tmstamp (anc_window_prev s)) = false) as Hnp.
  { intros Hc. destruct (w_valid (anc_window_prev s)) eqn:Ev; [|done]. rewrite <- Ev.
    destruct (Fprev eq_refl) as (t & b' & k0' & Ht & Hw'). by apply (not_in_prev t b' k0'). }
  assert (forall t b' k0', tau k <> t -> window_of tau acc t b' k0' (anc_window_prev s) ->
    window_of tau (k :: acc) t b' k0' (anc_window_prev s)) as Hoth by (intros; by apply window_other).
  rewrite (win_valid _ _ _ _ _ _ Hw), (win_time _ _ _ _ _ _ Hw), Et. cbn [negb orb].
  destruct (Z.eq_dec (tau k) (tau M)) as [Ht|Ht].
  - (* the newest frame *)
    assert (b <= k) as Hbk.
    { destruct Hk as [?|[Hk|Hk]]; [lia| |].
      - by eapply (late_cur_facts Hk).
      - destruct (late_prev_facts Hk) as (_ & _ & _ & _ & ? & _). lia. }
    rewrite <- Et, Hnp by (by left). rewrite Et, Ht, Z.eqb_refl. cbn [negb]. cbv zeta. unfold modify_field. cbn.
    assert (tau (Z.max k M) = tau M) as -> by (destruct (Z.max_spec k M) as [[? ->]|[? ->]]; done).
    rewrite Ec, Ep. split; [exists b, k0; split; [lia|by apply window_mark]|]. intros Hv. destruct (Fprev Hv) as (t & b' & k0' & Ht' & Hw'). exists t, b', k0'. split; [done|].
    apply Hoth; [lia|done].
  - destruct (Z.lt_ge_cases M k) as [Hlt|Hge].
    + (* a new frame *)
      pose proof (tau_mono M k ltac:(lia)) as Hm. rewrite <- Et, Hnp by (by right). rewrite Et.
      rewrite (proj2 (Z.eqb_neq (u32 (tau k)) (u32 (tau M)))) by (rewrite u32_near; lia). cbn [negb].
      unfold modify_field. cbn. rewrite Z.max_l by lia. split.
      * exists (M + 1), k. split; [lia|]. replace (u16 (u16 M + 1)) with (u16 (M + 1)) by mlia. apply window_new; [|lia].
        intros j Hj. apply F2, tau_mono in Hj. lia.
      * intros _. rewrite ?Ec. exists (tau M), b, k0. split; [lia|]. by apply window_other.
    + (* the previous frame *)
      destruct Hk as [?|[Hk|Hk]]; [lia| |].
      { destruct (late_cur_facts Hk) as (_ & ? & _). done. }
      destruct (late_prev_facts Hk) as (_ & b1 & k1 & Hb1 & Ht1 & Hw1).
      rewrite (win_valid _ _ _ _ _ _ Hw1), (win_time _ _ _ _ _ _ Hw1), Z.eqb_refl. cbn [andb]. unfold modify_field. cbn.
      rewrite Z.max_r, Ec, Ep by lia. split; [exists b, k0; split; [lia|by apply window_other]|].
      intros _. exists (tau k), b1, k1. split; [lia|]. by apply window_mark.
Qed.

End Verdict.

Lemma late_cur_view p s s' : filter_view s = filter_view s' -> rn_late_cur p s = rn_late_cur p s'.
Proof. intros [= E1 E2 E3 E4 E5]. unfold rn_late_cur. by rewrite E2, E4. Qed.
Lemma late_prev_view p s s' : filter_view s = filter_view s' -> rn_late_prev p s = rn_late_prev p s'.
Proof. intros [= E1 E2 E3 E4 E5]. unfold rn_late_prev. by rewrite E3, E5. Qed.

Section Accept.
Context (cfg : rn_config) (app : nat -> app_answer) (room : list rn_pkt -> bool).
Context (Hroom : rn_frame_level cfg = true \/ forall l, room l = true).

Lemma advance_view p s_port s :
  filter_view (rn_advance p s_port false s)
  = if negb (np_tmstamp p =? rn_tmstamp s) && mt_seq32_greater (np_tmstamp p) (u32 (rn_tmstamp s))
    then (rn_session_seq_id s, np_tmstamp p, rn_tmstamp s, anc_window_cur s, anc_window_prev s) else filter_view s.
Proof. unfold rn_advance. rewrite orb_false_r. case_if; done. Qed.

(** The state before the timestamp moves on. *)
Lemma accept_view p s_port s :
  exists s3, filter_view s3 = filter_view (rn_update_windows p (rn_session_seq_id s)
                (rn_session_seq (np_seq p) (s <| rn_redundant_error_cnt ::= fun l => arr_set l s_port 0 |>)))
  /\ filter_view (snd (rn_accept cfg app room p s_port false s)) = filter_view (rn_advance p s_port false s3).
Proof using Hroom.
  unfold rn_accept. cbn zeta. set (s2 := rn_update_windows _ _ _).
  destruct (rn_frame_level cfg) eqn:Ef.
  - exists (snd (rx_ancillary_session_assemble_pkt cfg app p s_port s2)). split; [apply view_assemble|done].
  - destruct Hroom as [|Hr]; [done|]. rewrite Hr. exists (s2 <| rn_packet_ring ::= fun l => l ++ [p] |>). done.
Qed.

Lemma accept_at acc M p k s_port s :
  filter_at acc M s -> of_number p k -> near k M ->
  M < k \/ rn_late_cur p s = true \/ rn_late_prev p s = true ->
  filter_at (k :: acc) (Z.max k M) (snd (rn_accept cfg app room p s_port false s)).
Proof using tau_mono tau_frame Hroom.
  intros Hat Hp Hnear Hcase. destruct (accept_view p s_port s) as (s3 & E3 & E4).
  set (s0 := s <| rn_redundant_error_cnt ::= fun l => arr_set l s_port 0 |>) in *.
  assert (filter_at acc M s0) as Hat0 by (by apply (filter_at_view acc M s)).
  destruct (session_seq_view acc M s0 k Hnear Hat0) as (V1 & V2 & V3 & V4).
  pose proof Hp as [Es Et]. rewrite Es, (fa_seq _ _ _ Hat) in E3.
  destruct (windows_after acc M s0 p k Hat0 Hp Hnear (rn_session_seq (u16 k) s0) Hat0 Hcase V3 V4) as [Wc Wp].
  set (s2 := rn_update_windows p (u16 M) (rn_session_seq (u16 k) s0)) in *.
  assert (rn_session_seq_id s2 = u16 (Z.max k M) /\ rn_tmstamp s2 = u32 (tau M)) as [S1 S2].
  { unfold s2, rn_update_windows. repeat case_if; done. }
  injection E3 as T1 T2 T3 T4 T5. rewrite advance_view in E4. rewrite T1, T2, T4, T5, S1, S2, Et in E4.
  assert (u32 (u32 (tau M)) = u32 (tau M)) as Hu by mlia.
  rewrite time_newer in E4 by done. pose proof Hnear as [N1 N2].
  assert (negb (u32 (tau k) =? u32 (tau M)) && (tau M <? tau k) = (tau M <? tau k)) as Hb.
  { destruct (Z.ltb_spec (tau M) (tau k)); [|apply andb_false_r]. rewrite andb_true_r, negb_true_iff, Z.eqb_neq, u32_near; lia. }
  rewrite Hb in E4.
  assert (tau (Z.max k M) = if tau M <? tau k then tau k else tau M) as Ht.
  { destruct (Z.ltb_spec (tau M) (tau k)) as [H|H].
    - destruct (Z.le_gt_cases k M) as [Hc|Hc]; [apply tau_mono in Hc; lia|by rewrite Z.max_l by lia].
    - destruct (Z.le_gt_cases k M) as [Hc|Hc]; [by rewrite Z.max_r by lia|]. rewrite Z.max_l by lia.
      pose proof (tau_mono M k ltac:(lia)). lia. }
  destruct Hat as [F1 F2 _ _ _ _].
  destruct (tau M <? tau k); unfold filter_view in E4; rewrite ?T1, ?T2, ?T4, ?T5, ?S1, ?S2 in E4; injection E4 as R1 R2 R3 R4 R5; split.
  all: try (destruct (Z.max_spec k M) as [[? ->]|[? ->]]; [by right|by left]).
  all: try (intros j [-> |Hj]%elem_of_cons; [lia|apply F2 in Hj; lia]).
  all: rewrite ?R1, ?R2, ?R4, ?R5, ?Ht; try done.
  all: rewrite <- Ht; done.
Qed.

Lemma accept_first p k s_port s :
  of_number p k -> rn_session_seq_id s = u16 k - 1 -> rn_tmstamp s = u32 (u32 (tau k) - 1) ->
  w_valid (anc_window_cur s) = false -> w_valid (anc_window_prev s) = false ->
  fst (rn_filter cfg p s_port s) = RnNext /\ filter_view (snd (rn_filter cfg p s_port s)) = filter_view s
  /\ filter_at [k] k (snd (rn_accept cfg app room p s_port false s))
  /\ w_base_seq (anc_window_cur (snd (rn_accept cfg app room p s_port false s))) = u16 k.
Proof using tau_mono tau_frame Hroom.
  intros [Es Et] H1 H2 H3 H4.
  assert (mt_seq16_greater (u16 k) (u16 (u16 k - 1)) = true) as G1.
  { rewrite seq16_greater_spec. apply andb_true_iff. rewrite !Z.ltb_lt. mlia. }
  assert (mt_seq32_greater (u32 (u32 (u32 (tau k) - 1))) (u32 (tau k)) = false) as G2.
  { rewrite seq32_greater_spec. apply andb_false_iff. rewrite !Z.ltb_ge. right. mlia. }
  assert (mt_seq32_greater (u32 (tau k)) (u32 (u32 (u32 (tau k) - 1))) = true) as G3.
  { rewrite seq32_greater_spec. apply andb_true_iff. rewrite !Z.ltb_lt. mlia. }
  assert (rn_filter cfg p s_port s = (RnNext, s)) as ->.
  { unfold rn_filter. by rewrite Es, Et, H1, H2, G1, G2. }
  split; [done|]. split; [done|]. destruct (accept_view p s_port s) as (s3 & E3 & E4).
  set (s0 := s <| rn_redundant_error_cnt ::= fun l => arr_set l s_port 0 |>) in *.
  rewrite Es, H1 in E3.
  assert (filter_view (rn_session_seq (u16 k) s0) = (u16 k, rn_tmstamp s, prev_tmstamp s, anc_window_cur s, anc_window_prev s)) as V.
  { unfold rn_session_seq. change (rn_session_seq_id s0) with (rn_session_seq_id s). rewrite H1, G1. case_if; done. }
  injection V as V1 V2 V3 V4 V5.
  assert (filter_view (rn_update_windows p (u16 k - 1) (rn_session_seq (u16 k) s0))
    = (u16 k, rn_tmstamp s, prev_tmstamp s,
       rn_window_mark (u16 k) (mk_anc_window 0 (u32 (tau k)) (u16 (k - 1 + 1)) true), anc_window_prev s)) as W.
  { unfold rn_update_windows. rewrite V4, V5, H3, H4, Es, Et. cbn [andb negb orb]. unfold filter_view, modify_field. cbn.
    rewrite V1, V2, V3, V5. replace (u16 (u16 k - 1 + 1)) with (u16 (k - 1 + 1)) by mlia. done. }
  rewrite W in E3. injection E3 as T1 T2 T3 T4 T5. rewrite advance_view, T2, Et, H2, G3 in E4.
  replace (u32 (tau k) =? u32 (u32 (tau k) - 1)) with false in E4 by (symmetry; apply Z.eqb_neq; mlia).
  cbn [negb andb] in E4. injection E4 as R1 R2 R3 R4 R5. split; [|rewrite R4, T4, mark_base; cbn; f_equal; lia]. split.
  - by left.
  - intros j ->%list_elem_of_singleton. lia.
  - by rewrite R1, T1.
  - by rewrite R2.
  - exists (k - 1 + 1), k. split; [lia|]. rewrite R4, T4. apply window_new; [|lia]. intros j Hj. by apply not_elem_of_nil in Hj.
  - by rewrite R5, T5, H4.
Qed.

(** ** The packet handler *)

(** How the handler judges a packet; [None] for a packet of another stream. *)
Definition rn_verdict_of (p : rn_pkt) (s_port : Z) (s : rn_session) : option rn_verdict :=
  match rn_wrong_stream cfg p with
  | Some _ => None
  | None =>
      s ← (if rn_fmd cfg then Some s else rn_check_field cfg p s_port s);
      Some (fst (rn_filter cfg p s_port (rn_port_seq p s_port (rn_first_packet p s_port s))))
  end.

(** A packet of the session's stream. *)
Definition rn_wanted (p : rn_pkt) : Prop :=
  rn_wrong_stream cfg p = None /\ (rn_fmd cfg = true \/ np_f p <> 1).

Lemma check_field_view p s_port s s' : rn_check_field cfg p s_port s = Some s' -> filter_view s' = filter_view s.
Proof. unfold rn_check_field. intros H. case_if_in H; [done|]. injection H as <-. repeat case_if; done. Qed.
Lemma port_seq_view p s_port s : filter_view (rn_port_seq p s_port s) = filter_view s.
Proof. unfold rn_port_seq. repeat case_if; done. Qed.
Lemma filter_view_same p s_port s : filter_view (snd (rn_filter cfg p s_port s)) = filter_view s.
Proof. unfold rn_filter. repeat case_if; done. Qed.

Lemma wanted_field p s_port s : rn_wanted p ->
  exists s0, (if rn_fmd cfg then Some s else rn_check_field cfg p s_port s) = Some s0 /\ filter_view s0 = filter_view s.
Proof.
  intros [_ Hf]. destruct (rn_fmd cfg); [by exists s|]. destruct Hf as [?|Hf]; [done|].
  unfold rn_check_field. rewrite (proj2 (Z.eqb_neq (np_f p) 1)) by done. eexists. split; [done|]. repeat case_if; done.
Qed.

(** A packet of number [k], when [acc] have been passed on and [M] is the newest. *)
Lemma handle_number acc M p k s_port s :
  filter_at acc M s -> of_number p k -> near k M -> rn_wanted p -> rn_verdict_of p s_port s <> Some RnBypass ->
  let s' := snd (rx_ancillary_session_handle_pkt cfg app room p s_port s) in
  match rn_verdict_of p s_port s with
  | Some RnNext | Some RnLate => k ∉ acc /\ filter_at (k :: acc) (Z.max k M) s'
  | Some RnDrop => k <= M /\ filter_at acc M s'
  | _ => False
  end.
Proof using tau_mono tau_frame Hroom.
  intros Hat Hp Hnear Hw Hb. destruct (wanted_field p s_port s Hw) as (s0 & E0 & V0). destruct Hw as [Hws _].
  unfold rx_ancillary_session_handle_pkt, rn_verdict_of in *. rewrite Hws, E0 in *. cbn [mbind option_bind] in *.
  assert (rn_first_packet p s_port s0 = s0 \/ exists l, rn_first_packet p s_port s0 = s0 <| rn_latest_seq_id := l |>) as Hfp.
  { injection V0 as E1 E2 _ _ _. unfold rn_first_packet.
    assert (rn_session_seq_id s0 =? -1 = false /\ rn_tmstamp s0 =? -1 = false) as [N1 N2].
    { rewrite E1, E2, (fa_seq _ _ _ Hat), (fa_time _ _ _ Hat), !Z.eqb_neq. mlia. }
    destruct (arr_get 0 (rn_latest_seq_id s0) s_port =? -1).
    - right. eexists. unfold modify_field. cbn. rewrite N1. cbn. by rewrite N2.
    - left. rewrite N1. cbn. by rewrite N2. }
  assert (filter_view (rn_first_packet p s_port s0) = filter_view s) as V1.
  { destruct Hfp as [-> |[l ->]]; done. }
  set (s1 := rn_port_seq p s_port (rn_first_packet p s_port s0)) in *.
  assert (filter_view s1 = filter_view s) as V2 by (unfold s1; by rewrite port_seq_view).
  assert (filter_at acc M s1) as Hat1 by (by apply (filter_at_view acc M s)).
  pose proof (filter_view_same p s_port s1) as V3. destruct (rn_filter cfg p s_port s1) as [v s2] eqn:Ev. cbn [fst snd] in *.
  assert (filter_at acc M s2) as Hat2 by (by apply (filter_at_view acc M s1)).
  assert (M < k -> v = RnNext) as Hnew.
  { intros Hk. rewrite (verdict_next cfg acc M s1 p k s_port Hat1 Hp Hnear Hk) in Ev. by injection Ev. }
  assert (k <= M -> v <> RnNext /\ (v = RnLate -> rn_late_cur p s2 = true \/ rn_late_prev p s2 = true)) as Hold.
  { intros Hk. rewrite (late_cur_view p s2 s1), (late_prev_view p s2 s1) by done.
    by apply (verdict_old cfg acc M s1 p k s_port Hat1 Hp Hnear Hk v s2). }
  destruct (Z.lt_ge_cases M k) as [Hk|Hk].
  - rewrite (Hnew Hk). split; [|apply accept_at; by auto]. intros Hin. apply (fa_max _ _ _ Hat) in Hin. lia.
  - destruct (Hold Hk) as [Hv Hl]. destruct v; [done| |done|done]. split.
    + destruct (Hl eq_refl) as [Hc|Hc].
      * by apply (late_cur_facts acc M s2 p k Hat2 Hp Hnear).
      * by apply (late_prev_facts acc M s2 p k Hat2 Hp Hnear).
    + apply accept_at; by auto.
Qed.

(** The first packet of a session. *)
Lemma handle_first p k s_port s :
  of_number p k -> rn_wanted p -> filter_view s = (-1, -1, -1, mk_anc_window 0 0 0 false, mk_anc_window 0 0 0 false) ->
  rn_verdict_of p s_port s = Some RnNext
  /\ filter_at [k] k (snd (rx_ancillary_session_handle_pkt cfg app room p s_port s))
  /\ w_base_seq (anc_window_cur (snd (rx_ancillary_session_handle_pkt cfg app room p s_port s))) = u16 k.
Proof using tau_mono tau_frame Hroom.
  intros Hp Hw V. destruct (wanted_field p s_port s Hw) as (s0 & E0 & V0). destruct Hw as [Hws _].
  unfold rx_ancillary_session_handle_pkt, rn_verdict_of in *. rewrite Hws, E0 in *. cbn [mbind option_bind] in *.
  rewrite V in V0. injection V0 as E1 E2 E3 E4 E5. pose proof Hp as [Es Et].
  assert (filter_view (rn_first_packet p s_port s0)
    = (u16 k - 1, u32 (u32 (tau k) - 1), -1, mk_anc_window 0 0 0 false, mk_anc_window 0 0 0 false)) as V1.
  { unfold rn_first_packet. rewrite Es, Et. unfold filter_view.
    destruct (arr_get 0 (rn_latest_seq_id s0) s_port =? -1); unfold modify_field; cbn; rewrite E1; cbn; rewrite E2; cbn;
      by rewrite ?E3, ?E4, ?E5. }
  set (s1 := rn_port_seq p s_port (rn_first_packet p s_port s0)) in *.
  assert (filter_view s1 = filter_view (rn_first_packet p s_port s0)) as V2 by apply port_seq_view.
  rewrite V1 in V2. clearbody s1. injection V2 as F1 F2 F3 F4 F5.
  destruct (accept_first p k s_port s1 Hp F1 F2) as (Hv & Hfv & _); [by rewrite F4|by rewrite F5|].
  destruct (rn_filter cfg p s_port s1) as [v s2] eqn:Ev. cbn [fst snd] in *. subst v. split; [done|].
  unfold filter_view in Hfv. rewrite F1, F2, F3, F4, F5 in Hfv. injection Hfv as G1 G2 G3 G4 G5.
  apply (accept_first p k s_port s2); try done; by rewrite ?G4, ?G5.
Qed.

(** What the handler has done before it accepts or drops: the slots and what the filter
    depends on are as before. *)
Lemma handle_view acc M p s_port s :
  filter_at acc M s -> rn_wanted p ->
  let s' := snd (rx_ancillary_session_handle_pkt cfg app room p s_port s) in
  exists s1 s2, filter_view s1 = filter_view s /\ filter_view s2 = filter_view s /\ rn_core s2 = rn_core s
  /\ rn_verdict_of p s_port s = Some (fst (rn_filter cfg p s_port s1))
  /\ match rn_verdict_of p s_port s with
     | Some RnDrop => s' = s2
     | Some RnNext | Some RnLate => s' = snd (rn_accept cfg app room p s_port false s2)
     | _ => True
     end.
Proof using.
  intros Hat Hw. destruct (wanted_field p s_port s Hw) as (s0 & E0 & V0). destruct Hw as [Hws _].
  assert (rn_core s0 = rn_core s) as C0.
  { destruct (rn_fmd cfg); [by injection E0 as <-|by eapply core_check_field]. }
  unfold rx_ancillary_session_handle_pkt, rn_verdict_of. rewrite Hws, E0. cbn [mbind option_bind].
  assert (filter_view (rn_first_packet p s_port s0) = filter_view s) as V1.
  { pose proof V0 as [= E1 E2 E3 E4 E5]. unfold rn_first_packet.
    assert (rn_session_seq_id s0 =? -1 = false /\ rn_tmstamp s0 =? -1 = false) as [N1 N2].
    { rewrite E1, E2, (fa_seq _ _ _ Hat), (fa_time _ _ _ Hat), !Z.eqb_neq. mlia. }
    destruct (arr_get 0 (rn_latest_seq_id s0) s_port =? -1); unfold modify_field; cbn; rewrite N1; cbn; by rewrite N2. }
  set (s1 := rn_port_seq p s_port (rn_first_packet p s_port s0)).
  assert (filter_view s1 = filter_view s) as V2 by (unfold s1; by rewrite port_seq_view).
  assert (rn_core s1 = rn_core s) as C1 by (unfold s1; by rewrite core_rn_port_seq, core_first_packet).
  clearbody s1. destruct (rn_filter cfg p s_port s1) as [v s2] eqn:Ev.
  pose proof (filter_view_same p s_port s1) as V3. rewrite Ev in V3. apply core_rn_filter in Ev as C2.
  exists s1, s2. rewrite Ev. cbn [fst snd] in *. split_and!; try congruence. by destruct v.
Qed.

(** The first bit of the current window. *)
Lemma accept_base acc M p k s_port s :
  filter_at acc M s -> of_number p k -> near k M -> tau k = tau M \/ M < k ->
  w_base_seq (anc_window_cur (snd (rn_accept cfg app room p s_port false s)))
  = if bool_decide (tau k = tau M) then w_base_seq (anc_window_cur s) else u16 (M + 1).
Proof using tau_mono Hroom.
  intros Hat Hp Hn Hk. destruct (accept_view p s_port s) as (s3 & E3 & E4).
  assert (anc_window_cur (snd (rn_accept cfg app room p s_port false s)) = anc_window_cur s3) as ->.
  { rewrite advance_view in E4. case_if_in E4; by injection E4. }
  injection E3 as _ _ _ -> _. clear E4. pose proof Hp as [Es Et]. rewrite (fa_seq _ _ _ Hat).
  set (s0 := s <| rn_redundant_error_cnt ::= _ |>).
  assert (anc_window_cur (rn_session_seq (np_seq p) s0) = anc_window_cur s
    /\ anc_window_prev (rn_session_seq (np_seq p) s0) = anc_window_prev s) as [W1 W2].
  { unfold rn_session_seq. repeat case_if; done. }
  destruct (fa_cur _ _ _ Hat) as (b & k0 & Hb & Hw).
  assert (w_valid (anc_window_prev s) && (np_tmstamp p =? w_tmstamp (anc_window_prev s)) = false) as Hnp.
  { destruct (w_valid (anc_window_prev s)) eqn:Ev; [|done]. rewrite <- Ev.
    destruct (fa_prev _ _ _ Hat Ev) as (t & b' & k0' & Ht & Hw').
    by apply (not_in_prev acc M p k Hp Hn t b' k0'). }
  unfold rn_update_windows. rewrite W1, W2, Hnp, (win_valid _ _ _ _ _ _ Hw), (win_time _ _ _ _ _ _ Hw), Et. cbn [negb orb].
  destruct Hn as [_ Hn]. pose proof (u32_near (tau k) (tau M) ltac:(lia)) as Hu.
  unfold modify_field. destruct (Z.eqb_spec (u32 (tau k)) (u32 (tau M))) as [E|E]; cbn [negb].
  - rewrite bool_decide_eq_true_2 by tauto. cbn. by rewrite mark_base, W1.
  - rewrite bool_decide_eq_false_2 by tauto. cbn. rewrite mark_base. cbn. mlia.
Qed.

(** ** Histories *)

Context (num : rn_pkt -> Z).

(** The packets of [h] come from the sender, each less than half a circle away from the
    newest number [M] before it. *)
Fixpoint rn_arrivals (M : option Z) (h : list rn_op) : Prop :=
  match h with
  | [] => True
  | RnPut _ :: h => rn_arrivals M h
  | RnPkt p _ :: h =>
      of_number p (num p) /\ rn_wanted p
      /\ match M with Some M => near (num p) M | None => True end
      /\ rn_arrivals (Some (match M with Some M => Z.max (num p) M | None => num p end)) h
  end.

(** The threshold of redundant packets on all ports is not reached. *)
Fixpoint rn_no_bypass (h : list rn_op) (s : rn_session) : Prop :=
  match h with
  | [] => True
  | op :: h =>
      match op with RnPkt p s_port => rn_verdict_of p s_port s <> Some RnBypass | RnPut _ => True end
      /\ rn_no_bypass h (rn_step cfg app room s op)
  end.

(** The packets passed on, in order. *)
Fixpoint rn_taken (h : list rn_op) (s : rn_session) : list rn_pkt :=
  match h with
  | [] => []
  | op :: h =>
      match op with
      | RnPkt p s_port =>
          match rn_verdict_of p s_port s with Some RnNext | Some RnLate | Some RnBypass => [p] | _ => [] end
      | RnPut _ => []
      end ++ rn_taken h (rn_step cfg app room s op)
  end.

Definition rn_received (h : list rn_op) : list rn_pkt := omap (fun op => match op with RnPkt p _ => Some p | RnPut _ => None end) h.

(** [acc] have been passed on before [h]. *)
Definition filter_rest (acc : list Z) (M : option Z) (s : rn_session) : Prop :=
  match M with
  | Some M => filter_at acc M s
  | None => acc = [] /\ filter_view s = (-1, -1, -1, mk_anc_window 0 0 0 false, mk_anc_window 0 0 0 false)
  end.

Lemma put_view i s : filter_view (snd (st40_rx_put_framebuff (Some i) s)) = filter_view s.
Proof. cbn. case_if; done. Qed.

(** One packet: it is taken, and new, or it is dropped, and not the newest. *)
Lemma handle_rest acc M p s_port s :
  filter_rest acc M s -> of_number p (num p) -> rn_wanted p -> rn_verdict_of p s_port s <> Some RnBypass ->
  match M with Some M => near (num p) M | None => True end ->
  let s' := snd (rx_ancillary_session_handle_pkt cfg app room p s_port s) in
  let M' := match M with Some M => Z.max (num p) M | None => num p end in
  (rn_verdict_of p s_port s = Some RnNext \/ rn_verdict_of p s_port s = Some RnLate)
    /\ num p ∉ acc /\ filter_at (num p :: acc) M' s'
  \/ rn_verdict_of p s_port s = Some RnDrop /\ filter_at acc M' s'.
Proof using tau_mono tau_frame Hroom.
  intros Hr Hp Hw Hb Hn. destruct M as [M|]; cbn [filter_rest] in Hr.
  - pose proof (handle_number acc M p (num p) s_port s Hr Hp Hn Hw Hb) as H. cbv zeta in *.
    destruct (rn_verdict_of p s_port s) as [[]|]; try done.
    + left. by auto.
    + left. by auto.
    + right. destruct H as [Hk H]. split; [done|]. by rewrite Z.max_r.
  - destruct Hr as [-> Hv]. destruct (handle_first p (num p) s_port s Hp Hw Hv) as (H1 & H2 & _). left.
    split_and!; [by left|apply not_elem_of_nil|done].
Qed.

Lemma taken_once h : forall acc M s,
  filter_rest acc M s -> NoDup acc -> rn_arrivals M h -> rn_no_bypass h s ->
  NoDup (reverse (num <$> rn_taken h s) ++ acc)
  /\ forall p, p ∈ rn_received h -> exists k, k ∈ reverse (num <$> rn_taken h s) ++ acc /\ num p <= k.
Proof using tau_mono tau_frame Hroom.
  induction h as [|op h IH]; intros acc M s Hs Hnd Ha Hb; [split; [done|]; intros p Hp; by apply not_elem_of_nil in Hp|].
  destruct Hb as [Hb1 Hb]. destruct op as [p s_port|i]; cbn [rn_taken rn_step] in *.
  - destruct Ha as (Hp & Hw & Hn & Ha). set (M' := match M with Some M => Z.max (num p) M | None => num p end) in *.
    set (s' := snd (rx_ancillary_session_handle_pkt cfg app room p s_port s)) in *.
    assert (exists acc', filter_at acc' M' s' /\ NoDup acc' /\
      reverse (num <$> (match rn_verdict_of p s_port s with Some RnNext | Some RnLate | Some RnBypass => [p] | _ => [] end
                        ++ rn_taken h s')) ++ acc = reverse (num <$> rn_taken h s') ++ acc') as (acc' & Hat & Hnd' & E).
    { destruct (handle_rest acc M p s_port s Hs Hp Hw Hb1 Hn) as [(Hv & Hni & Hat)|(Hv & Hat)].
      - exists (num p :: acc). split_and!; [done|by constructor|].
        destruct Hv as [-> | ->]; cbn [Datatypes.app]; by rewrite fmap_cons, reverse_cons, <- app_assoc.
      - exists acc. rewrite Hv. by split_and!. }
    destruct (IH acc' (Some M') s' Hat Hnd' Ha Hb) as [H1 H2]. rewrite E. split; [done|].
    intros q Hq. cbn in Hq. apply elem_of_cons in Hq as [-> |Hq]; [|by apply H2].
    exists M'. split; [apply elem_of_app; right; apply (fa_in _ _ _ Hat)|]. unfold M'. destruct M; lia.
  - apply (IH acc M); try done. destruct M as [M|]; cbn [filter_rest] in *.
    + by apply (filter_at_view acc M s); [rewrite put_view|].
    + destruct Hs as [-> Hs]. split; [done|]. by rewrite put_view.
Qed.

(** The ring of an RTP-level session gets the packets taken. *)
Lemma ring_taken h : forall s,
  rn_frame_level cfg = false ->
  rn_packet_ring (fold_left (rn_step cfg app room) h s) = rn_packet_ring s ++ rn_taken h s.
Proof using Hroom.
  induction h as [|op h IH]; intros s Hf; cbn [fold_left rn_taken]; [by rewrite app_nil_r|].
  rewrite IH by done. rewrite app_assoc. f_equal. destruct op as [p s_port|i]; cbn [rn_step].
  2:{ rewrite app_nil_r. unfold st40_rx_put_framebuff. case_bool_decide; done. }
  destruct Hroom as [|Hr]; [congruence|].
  unfold rx_ancillary_session_handle_pkt, rn_verdict_of. destruct (rn_wrong_stream cfg p); [by rewrite app_nil_r|].
  assert (forall s0, (if rn_fmd cfg then Some s else rn_check_field cfg p s_port s) = Some s0 -> rn_packet_ring s0 = rn_packet_ring s) as E0.
  { intros s0. destruct (rn_fmd cfg); [by intros [= <-]|]. unfold rn_check_field. intros H. case_if_in H; [done|].
    injection H as <-. repeat case_if; done. }
  destruct (if rn_fmd cfg then Some s else rn_check_field cfg p s_port s) as [s0|]; [|by rewrite app_nil_r].
  rewrite <- (E0 s0 eq_refl). cbn [mbind option_bind]. set (s1 := rn_port_seq p s_port (rn_first_packet p s_port s0)).
  assert (rn_packet_ring s1 = rn_packet_ring s0) as E1.
  { unfold s1, rn_port_seq, rn_first_packet. repeat case_if; done. }
  rewrite <- E1. clearbody s1.
  assert (rn_packet_ring (snd (rn_filter cfg p s_port s1)) = rn_packet_ring s1) as E2 by (unfold rn_filter; repeat case_if; done).
  destruct (rn_filter cfg p s_port s1) as [v s2]. cbn [fst snd] in *.
  assert (forall b, rn_packet_ring (snd (rn_accept cfg app room p s_port b s2)) = rn_packet_ring s1 ++ [p]) as Ha.
  { intros b. unfold rn_accept. rewrite Hf, Hr. cbn [snd]. rewrite <- E2. set (s3 := rn_update_windows _ _ _).
    assert (rn_packet_ring s3 = rn_packet_ring s2) as E3.
    { unfold s3, rn_update_windows, rn_session_seq. repeat case_if; done. }
    rewrite <- E3. clearbody s3. unfold rn_advance. by case_if. }
  destruct v; [apply Ha|apply Ha|by rewrite app_nil_r|apply Ha].
Qed.

End Accept.
End Stream.

(** C24: an ancillary receiver passes every packet of a sender on once. Take any history of
    packets a sender numbered in order, each of them coming any number of times, over both
    ports, out of order as long as it is less than half of the 16-bit circle away from the
    newest, with the sequence numbers and timestamps wrapping around; as long as the
    recovery threshold of redundant packets is not hit, no number is passed on twice, and
    nothing received is newer than everything passed on. In an RTP-level session whose
    ring has room, what is passed on is what is in the ring. *)
Theorem rn_no_duplicates tau cfg app room interlaced num h :
  (forall a b, a <= b -> tau a <= tau b) -> (forall a b, tau a = tau b -> a - b < 32768) ->
  rn_frame_level cfg = true \/ (forall l, room l = true) ->
  rn_arrivals tau cfg num None h -> rn_no_bypass cfg app room h (rn_start cfg interlaced) ->
  let taken := rn_taken cfg app room h (rn_start cfg interlaced) in
  NoDup (num <$> taken)
  /\ (forall p, p ∈ rn_received h -> exists q, q ∈ taken /\ num p <= num q)
  /\ (rn_frame_level cfg = false -> rn_packet_ring (rn_run cfg app room interlaced h) = taken).
Proof.
  intros Hm Hf Hroom Ha Hb taken.
  destruct (taken_once tau Hm Hf cfg app room Hroom num h [] None (rn_start cfg interlaced)) as [H1 H2]; try done.
  { constructor. }
  rewrite app_nil_r in *. split_and!.
  - by rewrite reverse_Permutation in H1.
  - intros p Hp. destruct (H2 p Hp) as (k & Hk & Hle).
    apply elem_of_reverse, list_elem_of_fmap in Hk as (q & -> & Hq). by exists q.
  - intros Hl. unfold rn_run. by rewrite (ring_taken cfg app room Hroom).
Qed.

Definition ex_anc_num (p : rn_pkt) : Z := if np_seq p <? 100 then np_seq p + 65536 else np_seq p.
Definition ex_anc_tau (k : Z) : Z := 100 * ((k + 1) / 2 - 32767).
Definition ex_anc_rtp : rn_config := mk_rn_config 2 113 0 false false true 3 64.
(** Two packets, the second across the wrap, both from both ports, then the next frame. *)
Definition ex_anc_copies : list rn_op :=
  [RnPkt (ex_anc_pkt 65535 100 false) 0; RnPkt (ex_anc_pkt 65535 100 false) 1; RnPkt (ex_anc_pkt 0 100 true) 1;
   RnPkt (ex_anc_pkt 1 200 false) 0; RnPkt (ex_anc_pkt 0 100 true) 0].

Lemma rn_no_duplicates_witness :
  rn_packet_ring (rn_run ex_anc_rtp ex_anc_keeps ex_anc_room false ex_anc_copies)
    = [ex_anc_pkt 65535 100 false; ex_anc_pkt 0 100 true; ex_anc_pkt 1 200 false]
  /\ NoDup (ex_anc_num <$> rn_taken ex_anc_rtp ex_anc_keeps ex_anc_room ex_anc_copies (rn_start ex_anc_rtp false)).
Proof.
  split; [vm_compute; reflexivity|].
  apply (rn_no_duplicates ex_anc_tau ex_anc_rtp ex_anc_keeps ex_anc_room false ex_anc_num ex_anc_copies).
  - intros a b H. unfold ex_anc_tau. mlia.
  - intros a b. unfold ex_anc_tau. mlia.
  - right. done.
  - vm_compute. intuition congruence.
  - vm_compute. intuition congruence.
Defined.
