(* ===== verification/AncDelivery.v ===== *)
(** From packets to frames in the ancillary receiver: an abstract receiver that collects the
    packets of a frame up to the marker, and that the session refines it. *)
From S2P Require Import Prelude SeqNum Bytes Anc RxAnc AncAssembly AncSlots AncFilter.

(** ** The entries of a packet *)

(** The entries [n] calls of the decoder find from offset [off]. *)
Fixpoint pkt_entries (n : nat) (payload : bytes) (room off : Z) : option (list (st40_meta * bytes)) :=
  match n with
  | O => Some []
  | S n =>
      match st40_rfc8331_decode_packet (drop (Z.to_nat off) payload) (u32 (room - off)) None with
      | (ST40_RFC8331_DECODE_OK, Some (m, udw, consumed)) =>
          l ← pkt_entries n payload room (u32 (off + consumed)); Some ((m, udw) :: l)
      | _ => None
      end
  end.
Definition anc_entries (p : rn_pkt) : option (list (st40_meta * bytes)) :=
  pkt_entries (Z.to_nat (np_anc_count p)) (np_payload p) (rn_payload_room p) 0.

Definition entries_udw (es : list (st40_meta * bytes)) : bytes := concat es.*2.

(** The entries as a slot lists them, the first one's data at offset [off]. *)
Definition meta_at (off : Z) (m : st40_meta) : st40_meta :=
  mk_meta (meta_c m) (meta_line_number m) (meta_hori_offset m) (meta_s m) (meta_stream_num m) (meta_did m)
    (meta_sdid m) (meta_udw_size m) (u16 off).
Fixpoint placed (off : Z) (es : list (st40_meta * bytes)) : list st40_meta :=
  match es with
  | [] => []
  | (m, udw) :: es => meta_at off m :: placed (off + arr_len udw) es
  end.

Lemma entries_udw_app a b : entries_udw (a ++ b) = entries_udw a ++ entries_udw b.
Proof. unfold entries_udw. by rewrite fmap_app, concat_app. Qed.

Lemma placed_app a : forall off b, placed off (a ++ b) = placed off a ++ placed (off + arr_len (entries_udw a)) b.
Proof.
  induction a as [|[m udw] a IH]; intros off b; cbn [placed Datatypes.app]; [by rewrite Z.add_0_r|].
  rewrite IH. cbn. rewrite arr_len_app. by rewrite Z.add_assoc.
Qed.

Lemma placed_length es : forall off, length (placed off es) = length es.
Proof. induction es as [|[m udw] es IH]; intros off; [done|]. cbn. by rewrite IH. Qed.

(** A caller with enough room for the data decodes what one without a limit does. *)
Lemma decode_no_cap buf room m udw need cap :
  st40_rfc8331_decode_packet buf room None = (ST40_RFC8331_DECODE_OK, Some (m, udw, need)) -> arr_len udw <= cap ->
  st40_rfc8331_decode_packet buf room (Some cap) = (ST40_RFC8331_DECODE_OK, Some (m, udw, need)).
Proof.
  unfold st40_rfc8331_decode_packet. cbn zeta. intros H Hc.
  case_if_in H; [done|]. case_if_in H; [done|].
  set (n := Z.land (Z.land (Z.shiftr (ld_be32 buf 4) 2) 0x3FF) 0xFF) in *.
  assert (0 <= n) as Hn by (unfold n; rewrite land_ff_mod; mlia).
  case_if_in H; [done|]. cbn [negb] in H.
  destruct (decode_udws buf 0 (Z.to_nat n)) as [l|] eqn:Eu; [|done].
  assert (l = udw) as -> by (case_if_in H; [done|]; congruence).
  apply decode_udws_length in Eu. unfold arr_len in Hc.
  destruct (Z.gtb_spec n cap); [lia|]. done.
Qed.

Lemma parse_entries payload room cap n : forall off es sl,
  pkt_entries n payload room off = Some es ->
  arr_len (sl_meta sl) + arr_len es <= ST40_MAX_META -> arr_len (sl_udw sl) + arr_len (entries_udw es) <= cap ->
  cap < 4294967296 ->
  rn_parse_loop n payload room off cap sl
  = (sl <| sl_udw ::= fun l => l ++ entries_udw es |> <| sl_meta ::= fun l => l ++ placed (arr_len (sl_udw sl)) es |>, false).
Proof.
  induction n as [|n IH]; intros off es sl He Hm Hu Hcap; cbn [pkt_entries rn_parse_loop] in *.
  { injection He as <-. unfold modify_field. cbn. rewrite !app_nil_r. by destruct sl. }
  destruct (st40_rfc8331_decode_packet _ _ None) as [[] [[[m udw] need]|]] eqn:Ed; try done.
  destruct (pkt_entries n _ _ _) as [l|] eqn:El; [|done]. cbn in He. injection He as <-.
  unfold entries_udw in Hu. cbn in Hu. fold (entries_udw l) in Hu. rewrite arr_len_app in Hu.
  assert (arr_len ((m, udw) :: l) = 1 + arr_len l) as E1 by (unfold arr_len; cbn [length]; lia). rewrite E1 in Hm.
  assert (0 <= arr_len l /\ 0 <= arr_len udw /\ 0 <= arr_len (entries_udw l) /\ 0 <= arr_len (sl_udw sl))
    as (P1 & P2 & P3 & P4) by (unfold arr_len; lia).
  destruct (Z.geb_spec (arr_len (sl_meta sl)) ST40_MAX_META); [lia|].
  rewrite (u32_id (cap - _)) by (unfold is_u32; lia). erewrite decode_no_cap by (done || lia).
  erewrite IH; [|done|..|done]; cbn [sl_meta sl_udw modify_field]; unfold modify_field; cbn.
  - by rewrite arr_len_app, <- !app_assoc.
  - rewrite arr_len_app. unfold arr_len at 2. cbn [length]. lia.
  - rewrite arr_len_app. lia.
Qed.

(** ** A packet in a slot *)

(** The slot after the packet, as [rn_store] makes it. *)
Definition slot_take (cap : Z) (p : rn_pkt) (s_port : Z) (sl : rn_slot) : rn_slot :=
  fst (rn_parse_loop (Z.to_nat (np_anc_count p)) (np_payload p) (rn_payload_room p) 0 cap
    (rx_anc_slot_record_seq (np_seq p) s_port
      (sl <| sl_pkts_total ::= fun n => u16 (n + 1) |>
          <| sl_pkts_recv ::= fun l => if s_port <? 2 then arr_set l s_port (u16 (arr_get 0 l s_port + 1)) else l |>))).

(** ** The packets a slot has taken *)

(** The entries of packets, in their order. *)
Definition frame_entries (ps : list rn_pkt) : list (st40_meta * bytes) := ps ≫= fun p => default [] (anc_entries p).

(** A frame of these packets fits into a slot. *)
Definition frame_fits (cap : Z) (ps : list rn_pkt) : Prop :=
  arr_len (frame_entries ps) <= ST40_MAX_META /\ arr_len (entries_udw (frame_entries ps)) <= cap.

Lemma frame_entries_app a b : frame_entries (a ++ b) = frame_entries a ++ frame_entries b.
Proof. apply bind_app. Qed.

Lemma frame_fits_app cap a b : frame_fits cap (a ++ b) -> frame_fits cap a.
Proof.
  intros [H1 H2]. rewrite frame_entries_app in H1, H2. rewrite entries_udw_app, arr_len_app in *.
  assert (0 <= arr_len (frame_entries b) /\ 0 <= arr_len (entries_udw (frame_entries b))) by (unfold arr_len; lia).
  rewrite arr_len_app in H1. split; lia.
Qed.

Section Slot.
Context (num : rn_pkt -> Z).

(** The slot receives the frame of time [t] and has taken [ps]. *)
Record slot_holds (t : Z) (ps : list rn_pkt) (sl : rn_slot) : Prop := {
  sh_state : sl_state sl = ST_RX_ANC_SLOT_RECEIVING;
  sh_time : sl_rtp_timestamp sl = u32 t;
  sh_udw : sl_udw sl = entries_udw (frame_entries ps);
  sh_meta : sl_meta sl = placed 0 (frame_entries ps);
  sh_total : sl_pkts_total sl = u16 (arr_len ps);
  sh_seq : exists ks lo hi, tracked ks lo hi sl /\ forall k, k ∈ ks <-> k ∈ num <$> ps;
}.

Lemma record_seq_fields seq_id s_port sl :
  let sl' := rx_anc_slot_record_seq seq_id s_port sl in
  sl_state sl' = sl_state sl /\ sl_rtp_timestamp sl' = sl_rtp_timestamp sl /\ sl_udw sl' = sl_udw sl
  /\ sl_meta sl' = sl_meta sl /\ sl_pkts_total sl' = sl_pkts_total sl.
Proof. unfold rx_anc_slot_record_seq, rn_record_port, rn_record_bitmap. repeat case_if; done. Qed.

(** A packet more in a slot that holds [ps], or nothing yet. *)
Lemma slot_take_holds cap t p s_port ps sl :
  cap < 4294967296 -> frame_fits cap (ps ++ [p]) -> is_Some (anc_entries p) -> np_seq p = u16 (num p) ->
  sl_state sl = ST_RX_ANC_SLOT_RECEIVING -> sl_rtp_timestamp sl = u32 t ->
  sl_udw sl = entries_udw (frame_entries ps) -> sl_meta sl = placed 0 (frame_entries ps) ->
  sl_pkts_total sl = u16 (arr_len ps) ->
  (forall f g, exists ks lo hi,
     tracked ks lo hi (rx_anc_slot_record_seq (u16 (num p)) s_port (sl <| sl_pkts_total ::= f |> <| sl_pkts_recv ::= g |>))
     /\ forall k, k ∈ ks <-> k ∈ num <$> ps ++ [p]) ->
  slot_holds t (ps ++ [p]) (slot_take cap p s_port sl).
Proof.
  intros Hcap [F1 F2] [es He] Hn H1 H2 H3 H4 H5 Hseq. unfold slot_take. rewrite Hn.
  set (sl0 := sl <| sl_pkts_total ::= _ |> <| sl_pkts_recv ::= _ |>).
  assert (exists ks lo hi, tracked ks lo hi (rx_anc_slot_record_seq (u16 (num p)) s_port sl0)
    /\ forall k, k ∈ ks <-> k ∈ num <$> ps ++ [p]) as (ks & lo & hi & Ht0 & Hks) by apply Hseq.
  destruct (record_seq_fields (u16 (num p)) s_port sl0) as (E1 & E2 & E3 & E4 & E5).
  set (sl1 := rx_anc_slot_record_seq (u16 (num p)) s_port sl0) in *. clearbody sl1.
  unfold sl0, modify_field in E1, E2, E3, E4, E5. cbn in E1, E2, E3, E4, E5. clear sl0.
  rewrite frame_entries_app in F1, F2. rewrite entries_udw_app, arr_len_app in F2. rewrite arr_len_app in F1.
  assert (frame_entries [p] = es) as Ep by (unfold frame_entries; cbn; by rewrite He, app_nil_r).
  rewrite Ep in F1, F2. unfold anc_entries in He.
  rewrite (parse_entries _ _ cap _ 0 es sl1 He); [|..|done].
  2:{ rewrite E4, H4. unfold arr_len in *. rewrite placed_length. lia. }
  2:{ rewrite E3, H3. lia. }
  cbn [fst]. unfold modify_field. split; cbn; rewrite ?frame_entries_app, ?Ep, ?entries_udw_app, ?E1, ?E2, ?E3, ?E4, ?E5, ?H3, ?H4, ?H5; try done.
  - by rewrite placed_app.
  - rewrite arr_len_app. unfold arr_len at 3. cbn [length]. mlia.
  - exists ks, lo, hi. split; [|done]. destruct Ht0. by split.
Qed.

(** The first packet. *)
Lemma slot_open_holds cap t p s_port i2 sf rt sl :
  cap < 4294967296 -> frame_fits cap [p] -> is_Some (anc_entries p) -> np_seq p = u16 (num p) -> np_tmstamp p = u32 t ->
  slot_holds t [p] (slot_take cap p s_port (rx_anc_slot_init_frame (np_tmstamp p) i2 sf rt sl)).
Proof.
  intros. apply (slot_take_holds _ _ _ _ []); try done.
  intros f g. exists [num p], (num p), (num p). split; [by apply tracked_start|]. intros k. done.
Qed.

(** A later one, of a frame of at most 64 numbers. *)
Lemma slot_next_holds cap t p s_port i2 sf rt ps sl :
  cap < 4294967296 -> frame_fits cap (ps ++ [p]) -> is_Some (anc_entries p) -> np_seq p = u16 (num p) ->
  slot_holds t ps sl -> (forall k, k ∈ num <$> ps -> -64 < num p - k < 64) ->
  slot_holds t (ps ++ [p]) (slot_take cap p s_port (rn_refresh_slot i2 sf rt sl)).
Proof.
  intros Hcap Hf He Hn [H1 H2 H3 H4 H5 (ks & lo & hi & Ht & Hks)] Hd. apply slot_take_holds; try done.
  1-5: unfold rn_refresh_slot; case_if; done.
  intros f g. exists (num p :: ks), (Z.min (num p) lo), (Z.max (num p) hi). split.
  - apply tracked_record; [|intros j Hj; by apply Hd, Hks]. unfold rn_refresh_slot. destruct Ht. case_if; split; assumption.
  - intros k. rewrite fmap_app, elem_of_app, elem_of_cons, Hks. change (num <$> [p]) with [num p]. rewrite list_elem_of_singleton. tauto.
Qed.

End Slot.

Definition pkt_interlaced (p : rn_pkt) : bool := c_true (Z.land (Z.land (np_f p) 3) 2).
Definition pkt_second_field (p : rn_pkt) : bool := pkt_interlaced p && c_true (Z.land (Z.land (np_f p) 3) 1).

Section Deliver.
Context (cfg : rn_config) (app : nat -> app_answer) (room : list rn_pkt -> bool).
Abbreviation cap := (rn_framebuff_size cfg).

Lemma store_slots p s_port i s sl :
  frame_slots s !! i = Some sl ->
  frame_slots (rn_store cfg p s_port i s) = <[i := slot_take cap p s_port sl]> (frame_slots s)
  /\ anc_inflight_slot (rn_store cfg p s_port i s) = anc_inflight_slot s
  /\ anc_pending_slot (rn_store cfg p s_port i s) = anc_pending_slot s
  /\ rn_notified (rn_store cfg p s_port i s) = rn_notified s.
Proof.
  intros Hi. unfold rn_store, rx_anc_slot_parse_pkt. set (g := fun sl => rx_anc_slot_record_seq _ _ _).
  assert (rn_slot_at (rn_slot_upd i g s) i = g sl) as Ea.
  { unfold rn_slot_at. cbn. by rewrite list_lookup_alter_eq, Hi. }
  rewrite Ea. unfold slot_take. fold (g sl).
  destruct (rn_parse_loop _ _ _ _ _ (g sl)) as [sl' bad]. cbn [fst].
  assert (alter (fun _ => sl') i (alter g i (frame_slots s)) = <[i := sl']> (frame_slots s)) as El.
  { apply list_eq. intros j. destruct (decide (i = j)) as [->|Hne].
    - rewrite !list_lookup_alter_eq, Hi, list_lookup_insert_eq by (by eapply lookup_lt_Some). done.
    - by rewrite !list_lookup_alter_ne, list_lookup_insert_ne. }
  destruct bad; cbn; by rewrite El.
Qed.

(** What [rn_close] does to slot [f]: one notification, and the slot is with the
    application or free. *)
Lemma close_slots f s sl :
  frame_slots s !! f = Some sl -> anc_inflight_slot s = Some f -> anc_pending_slot s <> Some f ->
  let s' := rn_close app f s in
  rn_notified s' = rn_notified s
    ++ [mk_rn_event f (rn_frame_meta (sl <| sl_rtp_marker := true |> <| sl_state := ST_RX_ANC_SLOT_READY |>)) (sl_udw sl)]
  /\ anc_inflight_slot s' = None /\ anc_pending_slot s' = anc_pending_slot s
  /\ forall j, j <> f -> frame_slots s' !! j = frame_slots s !! j.
Proof.
  intros Hf Hi Hp. unfold rn_close.
  change (anc_pending_slot (rn_slot_upd f _ s)) with (anc_pending_slot s).
  rewrite bool_decide_eq_false_2 by done. cbv zeta. set (s1 := rn_set_state f _ _).
  assert (rn_slot_at s1 f = sl <| sl_rtp_marker := true |> <| sl_state := ST_RX_ANC_SLOT_READY |>) as Ea.
  { unfold rn_slot_at. cbn. by rewrite !list_lookup_alter_eq, Hf. }
  assert (forall j, j <> f -> frame_slots s1 !! j = frame_slots s !! j) as Eo.
  { intros j Hj. cbn. by rewrite !list_lookup_alter_ne. }
  destruct (deliver_pointers app f s1) as [P1 P2]. rewrite P1, P2. split_and!; [|done|done|].
  - unfold rx_anc_slot_deliver. rewrite Ea. destruct (app _); try done. cbn. case_if; done.
  - intros j Hj. rewrite <- Eo by done. unfold rx_anc_slot_deliver. destruct (app _); cbn; try case_if; cbn;
      by rewrite ?list_lookup_alter_ne.
Qed.

(** The first packet of a frame goes into the first free slot. *)
Lemma select_open p s f :
  anc_inflight_slot s = None -> anc_pending_slot s = None -> rx_anc_get_free_slot s = Some f ->
  let r := rx_anc_select_slot cfg app (np_tmstamp p) (pkt_interlaced p) (pkt_second_field p) (np_recv_ts p) s in
  exists sl0, fst r = Some f /\ anc_inflight_slot (snd r) = Some f /\ anc_pending_slot (snd r) = None
  /\ rn_notified (snd r) = rn_notified s
  /\ frame_slots (snd r) !! f
     = Some (rx_anc_slot_init_frame (np_tmstamp p) (pkt_interlaced p) (pkt_second_field p) (np_recv_ts p) sl0).
Proof.
  intros Hi Hp Hf. unfold rx_anc_select_slot, rn_find_slot, rn_roll_inflight. rewrite Hp, Hi. unfold rn_new_slot. rewrite Hf.
  apply free_slot_state in Hf. unfold state_of in Hf. apply fmap_Some in Hf as (sl0 & Hsl & _).
  exists sl0. cbn. split_and!; try done. by rewrite list_lookup_alter_eq, Hsl.
Qed.

(** A later one goes into the slot of its frame. *)
Lemma select_next p s f sl :
  anc_inflight_slot s = Some f -> anc_pending_slot s = None -> frame_slots s !! f = Some sl ->
  sl_rtp_timestamp sl = np_tmstamp p ->
  let r := rx_anc_select_slot cfg app (np_tmstamp p) (pkt_interlaced p) (pkt_second_field p) (np_recv_ts p) s in
  fst r = Some f /\ anc_inflight_slot (snd r) = Some f /\ anc_pending_slot (snd r) = None
  /\ rn_notified (snd r) = rn_notified s
  /\ frame_slots (snd r) !! f = Some (rn_refresh_slot (pkt_interlaced p) (pkt_second_field p) (np_recv_ts p) sl).
Proof.
  intros Hi Hp Hf Ht. unfold rx_anc_select_slot, rn_find_slot, rn_roll_inflight. rewrite Hp, Hi.
  unfold rn_slot_at. rewrite Hf. change (default rn_slot_none (Some sl)) with sl. rewrite Ht, Z.eqb_refl. cbn. rewrite list_lookup_alter_eq, Hf. by split_and!.
Qed.

(** The packet in the slot it was given, and the frame closed by the marker. *)
Lemma assemble_at p s_port s f sl :
  let r := rx_anc_select_slot cfg app (np_tmstamp p) (pkt_interlaced p) (pkt_second_field p) (np_recv_ts p)
             (rn_count RN_DISPATCHED 1 s) in
  fst r = Some f -> anc_inflight_slot (snd r) = Some f -> anc_pending_slot (snd r) = None ->
  rn_notified (snd r) = rn_notified s -> frame_slots (snd r) !! f = Some sl ->
  let s' := snd (rx_ancillary_session_assemble_pkt cfg app p s_port s) in
  let sl' := slot_take cap p s_port sl in
  anc_pending_slot s' = None
  /\ if np_marker p then
       anc_inflight_slot s' = None /\ rn_notified s' = rn_notified s
         ++ [mk_rn_event f (rn_frame_meta (sl' <| sl_rtp_marker := true |> <| sl_state := ST_RX_ANC_SLOT_READY |>)) (sl_udw sl')]
     else anc_inflight_slot s' = Some f /\ rn_notified s' = rn_notified s /\ frame_slots s' !! f = Some sl'.
Proof.
  intros r H1 H2 H3 H4 H5. unfold rx_ancillary_session_assemble_pkt.
  change (rx_anc_select_slot _ _ _ _ _ _ _) with r. destruct r as [o s1]. cbn [fst snd] in *. subst o.
  destruct (store_slots p s_port f s1 sl H5) as (S1 & S2 & S3 & S4). cbn [snd].
  assert (frame_slots (rn_store cfg p s_port f s1) !! f = Some (slot_take cap p s_port sl)) as S5.
  { rewrite S1. apply list_lookup_insert_eq. by eapply lookup_lt_Some. }
  destruct (np_marker p).
  - destruct (close_slots f (rn_store cfg p s_port f s1) (slot_take cap p s_port sl)) as (C1 & C2 & C3 & _);
      [done|congruence|congruence|]. rewrite C1, C2, C3, S3, S4. by rewrite H4.
  - rewrite S2, S3, S4. by split_and!.
Qed.

(** ** The handler, packet by packet *)

Lemma handle_verdict p s_port s :
  rn_frame_level cfg = true ->
  let s' := snd (rx_ancillary_session_handle_pkt cfg app room p s_port s) in
  match rn_verdict_of cfg p s_port s with
  | None | Some RnDrop => rn_core s' = rn_core s
  | Some _ => exists s1, rn_core s1 = rn_core s /\ rn_core s' = rn_core (snd (rx_ancillary_session_assemble_pkt cfg app p s_port s1))
  end.
Proof.
  intros Hfl. unfold rx_ancillary_session_handle_pkt, rn_verdict_of. destruct (rn_wrong_stream cfg p); [done|].
  destruct (if rn_fmd cfg then Some s else rn_check_field cfg p s_port s) as [s0|] eqn:Ef; [|done].
  cbn [mbind option_bind].
  assert (rn_core s0 = rn_core s) as E0.
  { destruct (rn_fmd cfg); [by injection Ef as <-|by eapply core_check_field]. }
  destruct (rn_filter cfg p s_port _) as [v s2] eqn:Ev. apply core_rn_filter in Ev.
  rewrite core_rn_port_seq, core_first_packet, E0 in Ev. cbn [fst].
  assert (forall b, exists s1, rn_core s1 = rn_core s /\
    rn_core (snd (rn_accept cfg app room p s_port b s2)) = rn_core (snd (rx_ancillary_session_assemble_pkt cfg app p s_port s1))) as Ha.
  { intros b. unfold rn_accept. rewrite Hfl. cbn zeta. set (s3 := rn_update_windows _ _ _). exists s3. split.
    - unfold s3. by rewrite core_update_windows, core_rn_session_seq.
    - cbn [snd]. by rewrite core_rn_count, core_advance. }
  destruct v; try apply Ha. done.
Qed.

End Deliver.
