(* ===== verification/AncRefine.v ===== *)
(** The ancillary receiver refines an abstract one that keeps the numbers it has seen,
    collects the packets of a frame and hands the frame over at its marker. *)
From S2P Require Import Prelude SeqNum Bytes Anc RxAnc AncAssembly AncSlots AncFilter AncDelivery.

(** ** The abstract receiver *)

Record anc_spec := mk_anc_spec {
  sp_seen : list Z;
  sp_open : list rn_pkt;
  sp_out : list (list rn_pkt);
}.

Section Spec.
Context (num : rn_pkt -> Z).

Definition anc_spec_step (sp : anc_spec) (op : rn_op) : anc_spec :=
  match op with
  | RnPut _ => sp
  | RnPkt p _ =>
      if decide (num p ∈ sp_seen sp) then sp
      else if np_marker p then mk_anc_spec (num p :: sp_seen sp) [] (sp_out sp ++ [sp_open sp ++ [p]])
      else mk_anc_spec (num p :: sp_seen sp) (sp_open sp ++ [p]) (sp_out sp)
  end.
Definition anc_spec_run (h : list rn_op) : anc_spec := fold_left anc_spec_step h (mk_anc_spec [] [] []).

(** The stream: [tau] gives the time of the frame of a number, [start] is the first number. *)
Context (tau : Z -> Z) (start : Z).

(** The packets come frame by frame: no packet of a frame before the frames before it are
    complete, and the marker of a frame after its other packets. Within that, in any
    order and any number of times. *)
Fixpoint anc_orderly (sp : anc_spec) (h : list rn_op) : Prop :=
  match h with
  | [] => True
  | op :: h =>
      match op with
      | RnPut _ => True
      | RnPkt p _ =>
          num p ∉ sp_seen sp ->
          start <= num p
          /\ (forall j, start <= j -> tau j < tau (num p) -> j ∈ sp_seen sp)
          /\ (np_marker p = true -> forall j, start <= j -> tau j = tau (num p) -> j <> num p -> j ∈ sp_seen sp)
      end
      /\ anc_orderly (anc_spec_step sp op) h
  end.

(** The first packet that arrives is the first of the stream: the filter takes what is older
    than the first packet it saw for late. *)
Definition anc_first (h : list rn_op) : Prop := match rn_received h with p :: _ => num p = start | [] => True end.

(** The two together. *)
Fixpoint anc_orderly_from (sp : anc_spec) (h : list rn_op) : Prop :=
  match h with
  | [] => True
  | op :: h =>
      match op with
      | RnPut _ => True
      | RnPkt p _ =>
          num p ∉ sp_seen sp ->
          start <= num p /\ (sp_seen sp = [] -> num p = start)
          /\ (forall j, start <= j -> tau j < tau (num p) -> j ∈ sp_seen sp)
          /\ (np_marker p = true -> forall j, start <= j -> tau j = tau (num p) -> j <> num p -> j ∈ sp_seen sp)
      end
      /\ anc_orderly_from (anc_spec_step sp op) h
  end.

Lemma orderly_first h : forall sp, anc_orderly sp h -> (sp_seen sp = [] -> anc_first h) -> anc_orderly_from sp h.
Proof.
  induction h as [|[p q|i] h IH]; intros sp Ho Hf; [done| |].
  - destruct Ho as [Hp Ho]. split.
    + intros Hn. destruct (Hp Hn) as (H1 & H2 & H3). split_and!; try done; by apply Hf.
    + apply IH; [done|]. intros E. exfalso. revert E. cbn [anc_spec_step].
      destruct (decide (num p ∈ sp_seen sp)) as [Hin|]; [intros E; rewrite E in Hin; by apply not_elem_of_nil in Hin|]. by case_if.
  - destruct Ho as [_ Ho]. split; [done|]. by apply IH.
Qed.

Lemma orderly_weaken h : forall sp, anc_orderly_from sp h -> anc_orderly sp h.
Proof.
  induction h as [|[p q|i] h IH]; intros sp; [done| |]; intros [Hp Ho]; (split; [|by apply IH]); [|done].
  intros Hn. by destruct (Hp Hn) as (H1 & _ & H3).
Qed.

(** [ps] are all packets of a frame, each once. *)
Definition whole_frame (ps : list rn_pkt) : Prop :=
  ps <> [] /\ NoDup (num <$> ps)
  /\ forall p, p ∈ ps -> forall j, start <= j -> (tau j = tau (num p) <-> j ∈ num <$> ps).

(** The notification of a frame made of [ps], with nothing lost. *)
Record frame_event (ps : list rn_pkt) (e : rn_event) : Prop := {
  fe_udw : ne_udw e = entries_udw (frame_entries ps);
  fe_meta : fm_meta (ne_meta e) = placed 0 (frame_entries ps);
  fe_time : forall p, p ∈ ps -> fm_timestamp (ne_meta e) = u32 (tau (num p));
  fe_total : fm_pkts_total (ne_meta e) = u16 (arr_len ps);
  fe_lost : fm_seq_lost (ne_meta e) = 0 /\ fm_complete (ne_meta e) = true;
  fe_marker : fm_rtp_marker (ne_meta e) = true;
}.

End Spec.

(** A free slot for every new frame, and only frames the application holds are put back. *)
Fixpoint anc_slots_ready cfg app room (h : list rn_op) (s : rn_session) : Prop :=
  match h with
  | [] => True
  | op :: h =>
      match op with
      | RnPut i => state_of s i = Some ST_RX_ANC_SLOT_IN_USER
      | RnPkt _ _ => anc_inflight_slot s = None -> is_Some (rx_anc_get_free_slot s)
      end
      /\ anc_slots_ready cfg app room h (rn_step cfg app room s op)
  end.

Section Refine.
Context (tau : Z -> Z) (start : Z) (num : rn_pkt -> Z).
Context (tau_mono : forall a b, a <= b -> tau a <= tau b).
Context (tau_span : forall a b, tau a = tau b -> a - b < 64).
Context (cfg : rn_config) (app : nat -> app_answer) (room : list rn_pkt -> bool).
Context (Hlevel : rn_frame_level cfg = true) (Hcap : rn_framebuff_size cfg < 4294967296).
Abbreviation cap := (rn_framebuff_size cfg).

(** The packets that can arrive. *)
Context (univ : rn_pkt -> Prop).
Context (Hmark : forall p, univ p -> np_marker p = bool_decide (tau (num p) <> tau (num p + 1))).
Context (Hents : forall p, univ p -> is_Some (anc_entries p)).
Context (Hfits : forall ps, (forall p, p ∈ ps -> univ p) -> NoDup (num <$> ps) ->
  (forall p q, p ∈ ps -> q ∈ ps -> tau (num p) = tau (num q)) -> frame_fits cap ps).

Lemma tau_frame : forall a b, tau a = tau b -> a - b < 32768.
Proof using tau_span. intros a b H. apply tau_span in H. lia. Qed.

(** The frame in the slot: its first number is [b]. *)
Record collecting (M b : Z) (seen : list Z) (ps : list rn_pkt) (f : nat) (sl : rn_slot) (s : rn_session) : Prop := {
  co_inflight : anc_inflight_slot s = Some f;
  co_slot : frame_slots s !! f = Some sl;
  co_holds : slot_holds num (tau M) ps sl;
  co_base : w_base_seq (anc_window_cur s) = u16 b;
  co_first : start <= b /\ tau b = tau M /\ forall j, start <= j < b -> tau j < tau M;
  co_more : tau (M + 1) = tau M;
  co_once : NoDup (num <$> ps);
  co_nums : forall k, k ∈ num <$> ps <-> k ∈ seen /\ tau k = tau M;
}.

(** Nothing in flight: the frame of the newest number is complete. *)
Record resting (M : Z) (seen : list Z) (s : rn_session) : Prop := {
  re_inflight : anc_inflight_slot s = None;
  re_whole : forall j, start <= j -> tau j = tau M -> j ∈ seen;
  re_last : tau (M + 1) <> tau M;
}.

Record refines_at (M : Z) (sp : anc_spec) (s : rn_session) : Prop := {
  rf_filter : filter_at tau (sp_seen sp) M s;
  rf_low : forall k, k ∈ sp_seen sp -> start <= k;
  rf_done : forall j, start <= j -> tau j < tau M -> j ∈ sp_seen sp;
  rf_pending : anc_pending_slot s = None;
  rf_univ : forall p, p ∈ sp_open sp -> univ p;
  rf_log : Forall2 (fun e ps => frame_event num tau ps e /\ whole_frame num tau start ps) (rn_notified s) (sp_out sp);
  rf_open : match sp_open sp with
            | [] => resting M (sp_seen sp) s
            | _ => exists b f sl, collecting M b (sp_seen sp) (sp_open sp) f sl s
            end;
}.

(** Before the first packet. *)
Record fresh (s : rn_session) : Prop := {
  fr_view : filter_view s = (-1, -1, -1, mk_anc_window 0 0 0 false, mk_anc_window 0 0 0 false);
  fr_inflight : anc_inflight_slot s = None;
  fr_pending : anc_pending_slot s = None;
  fr_log : rn_notified s = [];
}.

Definition refines (M : option Z) (sp : anc_spec) (s : rn_session) : Prop :=
  match M with
  | None => sp = mk_anc_spec [] [] [] /\ fresh s
  | Some M => refines_at M sp s
  end.

(** ** A frame is closed *)

Lemma closed_event M ps p sl f :
  slot_holds num (tau M) ps sl -> whole_frame num tau start ps ->
  p ∈ ps -> tau (num p) = tau M -> (forall q, q ∈ num <$> ps -> start <= q) ->
  frame_event num tau ps
    (mk_rn_event f (rn_frame_meta (sl <| sl_rtp_marker := true |> <| sl_state := ST_RX_ANC_SLOT_READY |>)) (sl_udw sl)).
Proof using tau_mono.
  intros [_ H2 H3 H4 H5 (ks & lo & hi & Ht & Hks)] (_ & Hnd & Hw) Hp Hpt Hst.
  assert (absent lo hi ks = []) as Hab.
  { unfold absent. apply nil_length_inv, filter_none_length. intros j Hj%elem_of_seqZ Hn. apply Hn, Hks, (Hw p Hp).
    - pose proof (Hst lo ltac:(by apply Hks, (trk_lo _ _ _ _ Ht))). lia.
    - assert (tau lo = tau (num p) /\ tau hi = tau (num p)) as [El Eh].
      { split; apply (Hw p Hp); try apply Hst; apply Hks; [apply (trk_lo _ _ _ _ Ht)|apply (trk_lo _ _ _ _ Ht)
          |apply (trk_hi _ _ _ _ Ht)|apply (trk_hi _ _ _ _ Ht)]. }
      pose proof (tau_mono lo j ltac:(lia)). pose proof (tau_mono j hi ltac:(lia)). lia. }
  pose proof (tracked_count _ _ _ _ Ht) as Hc. rewrite Hab in Hc. cbn in Hc.
  split; cbn; try done.
  - intros q Hq. rewrite H2. f_equal. symmetry. transitivity (tau (num p)); [|done].
    apply (Hw p Hp); [apply Hst|]; by apply list_elem_of_fmap_2.
  - rewrite (trk_valid _ _ _ _ Ht), (trk_off _ _ _ _ Ht), Hc. split; case_if; zbool; lia || done.
Qed.

(** ** One packet *)

Lemma refines_same M sp s s' :
  filter_view s' = filter_view s -> rn_core s' = rn_core s -> refines_at M sp s -> refines_at M sp s'.
Proof.
  intros V [= E1 E2 E3 E4] [H1 H2 H3 H4 H5 H6 H7]. split; rewrite ?E3, ?E4; try done.
  - by apply (filter_at_view _ _ _ s).
  - injection V as V1 V2 V3 V4 V5. destruct (sp_open sp) as [|q l].
    + destruct H7. split; by rewrite ?E2.
    + destruct H7 as (b & f & sl & []). exists b, f, sl. split; rewrite ?E1, ?E2, ?V4; done.
Qed.

Section Packet.
Context (M : Z) (sp : anc_spec) (s : rn_session) (p : rn_pkt) (s_port : Z).
Context (Hrf : refines_at M sp s) (Hu : univ p).
Context (Hp : of_number tau p (num p)) (Hw : rn_wanted cfg p) (Hnear : near tau (num p) M).
Context (Hnb : rn_verdict_of cfg p s_port s <> Some RnBypass).
Abbreviation k := (num p).
Abbreviation s' := (snd (rx_ancillary_session_handle_pkt cfg app room p s_port s)).

(** A copy is dropped. *)
Lemma step_copy : k ∈ sp_seen sp -> refines_at M sp s'.
Proof using Hrf Hp Hw Hnear Hnb tau_mono tau_span Hlevel.
  intros Hk. destruct (handle_view tau cfg app room (sp_seen sp) M p s_port s (rf_filter _ _ _ Hrf) Hw)
    as (s1 & s2 & _ & V2 & C2 & _ & Hs).
  pose proof (handle_number tau tau_mono tau_frame cfg app room (or_introl Hlevel) _ _ p k s_port s (rf_filter _ _ _ Hrf) Hp Hnear Hw Hnb) as Hn.
  cbv zeta in *. destruct (rn_verdict_of cfg p s_port s) as [[]|]; try tauto.
  rewrite Hs. by apply (refines_same M sp s).
Qed.

Context (Hk : k ∉ sp_seen sp) (Hstart : start <= k).
Context (Hbefore : forall j, start <= j -> tau j < tau k -> j ∈ sp_seen sp).

Lemma newest_seen : M ∈ sp_seen sp /\ start <= M /\ forall j, j ∈ sp_seen sp -> j <= M.
Proof using Hrf.
  destruct (rf_filter _ _ _ Hrf) as [F1 F2 _ _ _ _]. split_and!; try done. by apply (rf_low _ _ _ Hrf).
Qed.

(** It is of the frame in flight or, when there is none, of the next one. *)
Lemma new_frame : resting M (sp_seen sp) s -> M < k /\ tau k = tau (M + 1) /\ tau M < tau k.
Proof using Hrf Hk Hstart Hbefore tau_mono.
  intros [_ Hwh Hl]. destruct newest_seen as (F1 & F2 & F3).
  assert (tau M < tau k) as Ht.
  { destruct (Z.lt_trichotomy (tau k) (tau M)) as [H|[H|H]]; [| |done].
    - by destruct Hk; apply (rf_done _ _ _ Hrf).
    - by destruct Hk; apply Hwh. }
  assert (M < k) as Hlt by (destruct (Z.le_gt_cases k M) as [H|H]; [apply tau_mono in H; lia|lia]).
  split_and!; try done. pose proof (tau_mono (M + 1) k ltac:(lia)) as Hm.
  destruct (Z.eq_dec (tau k) (tau (M + 1))) as [E|E]; [done|].
  specialize (Hbefore (M + 1) ltac:(lia) ltac:(lia)). apply F3 in Hbefore. lia.
Qed.

Lemma same_frame b f sl : collecting M b (sp_seen sp) (sp_open sp) f sl s -> tau k = tau M /\ b <= k < b + 64 /\ b <= M.
Proof using Hrf Hk Hstart Hbefore tau_mono tau_span.
  intros []. destruct newest_seen as (F1 & F2 & F3). destruct co_first0 as (B1 & B2 & B3).
  assert (tau k = tau M) as Ht.
  { destruct (Z.lt_trichotomy (tau k) (tau M)) as [H|[H|H]]; [|done|].
    - by destruct Hk; apply (rf_done _ _ _ Hrf).
    - specialize (Hbefore (M + 1) ltac:(lia) ltac:(lia)). apply F3 in Hbefore. lia. }
  assert (forall j, start <= j -> tau j = tau M -> b <= j) as Hb.
  { intros j Hj Hjt. destruct (Z.le_gt_cases b j); [done|]. specialize (B3 j ltac:(lia)). lia. }
  pose proof (tau_span k b ltac:(congruence)). split_and!; try done; [by apply Hb|lia|by apply Hb].
Qed.

(** A packet not seen before is taken. *)
Lemma new_taken : exists s2, filter_view s2 = filter_view s /\ rn_core s2 = rn_core s
  /\ s' = snd (rn_accept cfg app room p s_port false s2) /\ filter_at tau (k :: sp_seen sp) (Z.max k M) s'.
Proof using Hrf Hk Hstart Hbefore Hp Hw Hnear Hnb tau_mono tau_span Hlevel.
  destruct (handle_view tau cfg app room (sp_seen sp) M p s_port s (rf_filter _ _ _ Hrf) Hw)
    as (s1 & s2 & V1 & V2 & C2 & Hv & Hs).
  pose proof (handle_number tau tau_mono tau_frame cfg app room (or_introl Hlevel) _ _ p k s_port s (rf_filter _ _ _ Hrf) Hp Hnear Hw Hnb) as Hn.
  exists s2. cbv zeta in *. destruct (rn_verdict_of cfg p s_port s) as [[]|] eqn:Ev; try tauto. exfalso.
  destruct Hn as [Hle _]. pose proof (rf_open _ _ _ Hrf) as Ho. destruct (sp_open sp) as [|q l] eqn:Eo.
  { destruct (new_frame Ho). lia. }
  destruct Ho as (b & f & sl & Hc). rewrite <- Eo in Hc. destruct (same_frame b f sl Hc) as (Ht & Hr & Hb).
  assert (filter_at tau (sp_seen sp) M s1) as Hat by (by apply (filter_at_view _ _ _ s); [|apply (rf_filter _ _ _ Hrf)]).
  destruct (fa_cur _ _ _ _ Hat) as (b' & k0 & Hb' & Hwin).
  assert (w_base_seq (anc_window_cur s1) = u16 b) as Hbase by (injection V1 as _ _ _ E _; rewrite E; apply (co_base _ _ _ _ _ _ _ Hc)).
  assert (b' = b) as ->.
  { rewrite (win_base _ _ _ _ _ _ Hwin) in Hbase. destruct (win_open _ _ _ _ _ _ Hwin) as [E ?].
    destruct (co_first _ _ _ _ _ _ _ Hc) as (_ & E' & _).
    pose proof (tau_span k0 b ltac:(congruence)). pose proof (tau_span b k0 ltac:(congruence)). mlia. }
  destruct (verdict_late tau tau_frame cfg _ _ s1 p k s_port Hat Hp Hnear b k0 Hwin) as (s3 & E); try done.
  rewrite E in Hv. done.
Qed.

(** The packets of the frame with the new one. *)
Abbreviation ps := (sp_open sp ++ [p]).

Lemma new_nums : NoDup (num <$> ps) /\ forall j, j ∈ num <$> ps <-> j ∈ k :: sp_seen sp /\ tau j = tau k.
Proof using All.
  destruct newest_seen as (F1 & F2 & F3). pose proof (rf_open _ _ _ Hrf) as Ho. rewrite fmap_app. change (num <$> [p]) with [k].
  destruct (sp_open sp) as [|q l] eqn:Eo.
  - destruct (new_frame Ho) as (N1 & N2 & N3). split; [apply NoDup_singleton|]. intros j. cbn [fmap list_fmap Datatypes.app].
    rewrite list_elem_of_singleton, elem_of_cons. split; [intros ->; by auto|]. intros [[-> |Hj] Ht]; [done|].
    apply F3, tau_mono in Hj. lia.
  - destruct Ho as (b & f & sl & Hc). rewrite <- Eo in Hc |- *. destruct (same_frame b f sl Hc) as (Ht & _).
    destruct Hc as [_ _ _ _ _ _ Hnd Hnums]. split.
    + apply NoDup_app. split_and!; [done| |apply NoDup_singleton]. intros j Hj ->%list_elem_of_singleton.
      by apply Hnums in Hj as [Hj _].
    + intros j. rewrite elem_of_app, Hnums, list_elem_of_singleton, elem_of_cons, Ht. split; [|tauto].
      intros [?| ->]; [tauto|by auto].
Qed.

Lemma new_fits : (forall q, q ∈ ps -> univ q) /\ frame_fits cap ps.
Proof using All.
  destruct new_nums as [Hnd Hnums].
  assert (forall q, q ∈ ps -> univ q) as Hall.
  { intros q [Hq| ->%list_elem_of_singleton]%elem_of_app; [by apply (rf_univ _ _ _ Hrf)|done]. }
  split; [done|]. apply Hfits; [done|done|]. intros q r Hq Hr.
  apply (list_elem_of_fmap_2 num), Hnums in Hq as [_ ->]. by apply (list_elem_of_fmap_2 num), Hnums in Hr as [_ ->].
Qed.

(** It goes into a slot that then holds the frame so far. *)
Lemma new_slot s3 :
  rn_core s3 = rn_core s -> (anc_inflight_slot s = None -> is_Some (rx_anc_get_free_slot s)) ->
  let t := snd (rx_ancillary_session_assemble_pkt cfg app p s_port s3) in
  exists f sl, slot_holds num (tau k) ps sl /\ anc_pending_slot t = None
  /\ if np_marker p then
       anc_inflight_slot t = None /\ rn_notified t = rn_notified s
         ++ [mk_rn_event f (rn_frame_meta (sl <| sl_rtp_marker := true |> <| sl_state := ST_RX_ANC_SLOT_READY |>)) (sl_udw sl)]
     else anc_inflight_slot t = Some f /\ rn_notified t = rn_notified s /\ frame_slots t !! f = Some sl.
Proof using All.
  intros [= E1 E2 E3 E4] Hfree. destruct new_fits as [_ Hft]. destruct new_nums as [_ Hnums].
  pose proof (rf_pending _ _ _ Hrf) as Hpend. pose proof (rf_open _ _ _ Hrf) as Ho. destruct Hp as [Es Et].
  set (s4 := rn_count RN_DISPATCHED 1 s3). rewrite <- E4. destruct (sp_open sp) as [|q l] eqn:Eo.
  - destruct (Hfree (re_inflight _ _ _ Ho)) as [f Hf].
    destruct (select_open cfg app p s4 f) as (sl0 & R1 & R2 & R3 & R4 & R5).
    { by rewrite (re_inflight _ _ _ Ho) in E2. }
    { by rewrite Hpend in E3. }
    { unfold rx_anc_get_free_slot in *. change (frame_slots s4) with (frame_slots s3). by rewrite E1. }
    eexists f, _. split; [|by apply (assemble_at cfg app p s_port s3 f _ R1 R2 R3 R4 R5)].
    apply slot_open_holds; by auto.
  - destruct Ho as (b & f & sl & Hc). rewrite <- Eo in Hc, Hft |- *. destruct (same_frame b f sl Hc) as (Ht & Hr & _).
    destruct Hc as [C1 C2 C3 _ _ _ _ Cn].
    destruct (select_next cfg app p s4 f sl) as (R1 & R2 & R3 & R4 & R5).
    { by rewrite C1 in E2. }
    { by rewrite Hpend in E3. }
    { change (frame_slots s4) with (frame_slots s3). by rewrite E1. }
    { by rewrite (sh_time _ _ _ _ C3), Et, Ht. }
    eexists f, _. split; [|by apply (assemble_at cfg app p s_port s3 f _ R1 R2 R3 R4 R5)].
    rewrite Ht. apply slot_next_holds; [done|done|by apply Hents|done|done|]. intros j Hj. apply Cn in Hj as [_ Hj].
    pose proof (tau_span k j ltac:(congruence)). pose proof (tau_span j k ltac:(congruence)). lia.
Qed.

Context (Hclose : np_marker p = true -> forall j, start <= j -> tau j = tau k -> j <> k -> j ∈ sp_seen sp).
Context (Hfree : anc_inflight_slot s = None -> is_Some (rx_anc_get_free_slot s)).

Lemma newest_frame : tau (Z.max k M) = tau k.
Proof using All.
  pose proof (rf_open _ _ _ Hrf) as Ho. destruct (sp_open sp) as [|q l] eqn:Eo.
  - destruct (new_frame Ho) as (N1 & _). by rewrite Z.max_l by lia.
  - destruct Ho as (b & f & sl & Hc). rewrite <- Eo in Hc. destruct (same_frame b f sl Hc) as (Ht & _).
    destruct (Z.max_spec k M) as [[_ ->]|[_ ->]]; by rewrite ?Ht.
Qed.

(** The marker makes the frame whole. *)
Lemma marker_whole : np_marker p = true -> whole_frame num tau start ps.
Proof using All.
  intros Hm. destruct new_nums as [Hnd Hnums]. split; [by destruct (sp_open sp)|]. split; [done|].
  intros q Hq j Hj. apply (list_elem_of_fmap_2 num), Hnums in Hq as [_ ->]. rewrite Hnums, elem_of_cons.
  split; [|tauto]. intros Ht. split; [|done]. destruct (Z.eq_dec j k) as [-> |Hne]; [by left|]. right. by apply Hclose.
Qed.

Lemma marker_resting t :
  np_marker p = true -> anc_inflight_slot t = None -> resting (Z.max k M) (k :: sp_seen sp) t.
Proof using All.
  intros Hm Hi. pose proof newest_frame as Hn. split; [done| |].
  - intros j Hj Ht. rewrite Hn in Ht. destruct (Z.eq_dec j k) as [-> |Hne]; [by left|]. right. by apply Hclose.
  - rewrite (Hmark p Hu) in Hm. apply bool_decide_eq_true in Hm.
    destruct (Z.max_spec k M) as [[H E]|[H E]]; rewrite E in *; [|by intros E'; apply Hm].
    pose proof (tau_mono k (k + 1) ltac:(lia)). pose proof (tau_mono (k + 1) M ltac:(lia)). lia.
Qed.

(** Without one the frame stays in its slot. *)
Lemma unmarked_collecting f sl t :
  np_marker p = false -> slot_holds num (tau k) ps sl -> anc_inflight_slot t = Some f -> frame_slots t !! f = Some sl ->
  w_base_seq (anc_window_cur t) = (if bool_decide (tau k = tau M) then w_base_seq (anc_window_cur s) else u16 (M + 1)) ->
  exists b, collecting (Z.max k M) b (k :: sp_seen sp) ps f sl t.
Proof using All.
  intros Hm Hh Hi Hf Hb. destruct new_nums as [Hnd Hnums]. pose proof newest_frame as Hn.
  rewrite (Hmark p Hu) in Hm. apply bool_decide_eq_false in Hm. apply dec_stable in Hm.
  destruct newest_seen as (F1 & F2 & F3). pose proof (rf_open _ _ _ Hrf) as Ho. destruct (sp_open sp) as [|q l] eqn:Eo.
  - destruct (new_frame Ho) as (N1 & N2 & N3). rewrite bool_decide_eq_false_2 in Hb by lia.
    exists (M + 1). split; rewrite ?Hn; try done.
    + split_and!; [lia|done|]. intros j Hj. pose proof (tau_mono j M ltac:(lia)). lia.
    + by rewrite Z.max_l by lia.
  - destruct Ho as (b & f' & sl' & Hc). rewrite <- Eo in Hc, Hnd, Hnums, Hh |- *. destruct (same_frame b f' sl' Hc) as (Ht & _).
    destruct Hc as [_ _ _ C4 C5 C6 _ _]. rewrite bool_decide_eq_true_2 in Hb by done.
    rewrite Ht in Hh. exists b. split; rewrite ?Hn, ?Ht; try done.
    + congruence.
    + destruct (Z.max_spec k M) as [[_ ->]|[_ ->]]; congruence.
    + intros j. by rewrite Hnums, Ht.
Qed.

Lemma step_new : refines_at (Z.max k M) (anc_spec_step num sp (RnPkt p s_port)) s'.
Proof using All.
  destruct new_taken as (s2 & V2 & C2 & Hs & Hat). cbn [anc_spec_step]. rewrite decide_False by done.
  pose proof newest_frame as Hn. destruct new_fits as [Huniv _]. destruct newest_seen as (F1 & F2 & F3).
  set (s3 := rn_update_windows p (rn_session_seq_id (s2 <| rn_redundant_error_cnt ::= fun l => arr_set l s_port 0 |>))
    (rn_session_seq (np_seq p) (s2 <| rn_redundant_error_cnt ::= fun l => arr_set l s_port 0 |>))).
  assert (rn_core s3 = rn_core s) as C3 by (unfold s3; rewrite core_update_windows, core_rn_session_seq; exact C2).
  destruct (new_slot s3 C3 Hfree) as (f & sl & Hh & Hpd & Hres).
  assert (rn_core s' = rn_core (snd (rx_ancillary_session_assemble_pkt cfg app p s_port s3))) as Cs.
  { rewrite Hs. unfold rn_accept. rewrite Hlevel. cbn [snd]. by rewrite core_rn_count, core_advance. }
  assert (filter_at tau (sp_seen sp) M s2) as Hat2 by (by apply (filter_at_view _ _ _ s); [|apply (rf_filter _ _ _ Hrf)]).
  assert (tau k = tau M \/ M < k) as Hcase.
  { pose proof (rf_open _ _ _ Hrf) as Ho. destruct (sp_open sp) as [|q l] eqn:Eo; [right; apply (new_frame Ho)|].
    destruct Ho as (b & f' & sl' & Hc). rewrite <- Eo in Hc. left. apply (same_frame b f' sl' Hc). }
  pose proof (accept_base tau tau_mono cfg app room (or_introl Hlevel) _ M p k s_port s2 Hat2 Hp Hnear Hcase) as Hb.
  rewrite <- Hs in Hb. assert (anc_window_cur s2 = anc_window_cur s) as Ew by (by injection V2). rewrite Ew in Hb.
  set (t := snd (rx_ancillary_session_assemble_pkt cfg app p s_port s3)) in *.
  injection Cs as D1 D2 D3 D4. rewrite <- D3 in Hpd.
  assert (forall j, j ∈ k :: sp_seen sp -> start <= j) as Hlow.
  { intros j [-> |Hj]%elem_of_cons; [done|by apply (rf_low _ _ _ Hrf)]. }
  assert (forall j, start <= j -> tau j < tau (Z.max k M) -> j ∈ k :: sp_seen sp) as Hdone.
  { intros j Hj Ht. rewrite Hn in Ht. right. by apply Hbefore. }
  destruct new_nums as [_ Hnums].
  pose proof marker_whole as Hwh. pose proof marker_resting as Hre. pose proof unmarked_collecting as Hco.
  destruct (np_marker p); cbn [sp_seen sp_open sp_out].
  - destruct Hres as [R1 R2]. split; cbn [sp_seen sp_open sp_out]; try done.
    + intros q Hq. by apply not_elem_of_nil in Hq.
    + rewrite D4, R2. apply Forall2_app; [apply (rf_log _ _ _ Hrf)|]. constructor; [|constructor].
      split; [|by apply Hwh]. apply (closed_event k ps p); try done.
      * by apply Hwh.
      * apply elem_of_app. right. by left.
      * intros j Hj. apply Hnums in Hj as [Hj _]. by apply Hlow.
    + apply Hre; congruence.
  - destruct Hres as (R1 & R2 & R3). split; cbn [sp_seen sp_open sp_out]; try done.
    + rewrite D4, R2. apply (rf_log _ _ _ Hrf).
    + destruct (Hco f sl s') as [b Hc]; [done|done|congruence|congruence|done|].
      destruct (sp_open sp); cbn in *; by exists b, f, sl.
Qed.

End Packet.

(** The first packet of a session. *)
Lemma step_first p s_port s :
  fresh s -> univ p -> of_number tau p (num p) -> rn_wanted cfg p -> num p = start ->
  (np_marker p = true -> forall j, start <= j -> tau j = tau (num p) -> j = num p) ->
  is_Some (rx_anc_get_free_slot s) ->
  refines_at (num p) (anc_spec_step num (mk_anc_spec [] [] []) (RnPkt p s_port))
    (snd (rx_ancillary_session_handle_pkt cfg app room p s_port s)).
Proof using All.
  intros [G1 G2 G3 G4] Hu Hp Hw Hst Hclose [f Hf].
  destruct (handle_first tau tau_mono tau_frame cfg app room (or_introl Hlevel) p (num p) s_port s Hp Hw G1) as (Hv & Hat & Hb).
  pose proof (handle_verdict cfg app room p s_port s Hlevel) as Hc. rewrite Hv in Hc. destruct Hc as (s1 & [= E1 E2 E3 E4] & Cs).
  set (s' := snd (rx_ancillary_session_handle_pkt cfg app room p s_port s)) in *.
  destruct (select_open cfg app p (rn_count RN_DISPATCHED 1 s1) f) as (sl0 & R1 & R2 & R3 & R4 & R5).
  { by rewrite G2 in E2. }
  { by rewrite G3 in E3. }
  { unfold rx_anc_get_free_slot in *. change (frame_slots (rn_count RN_DISPATCHED 1 s1)) with (frame_slots s1). by rewrite E1. }
  destruct (assemble_at cfg app p s_port s1 f _ R1 R2 R3 R4 R5) as [A1 A2]. rewrite E4, G4 in A2. injection Cs as D1 D2 D3 D4.
  set (sl := slot_take cap p s_port _) in A2.
  assert (slot_holds num (tau (num p)) [p] sl) as Hh.
  { destruct Hp as [Es Et]. apply slot_open_holds; try done; [|by apply Hents]. apply Hfits.
    - by intros q ->%list_elem_of_singleton.
    - apply NoDup_singleton.
    - by intros q r ->%list_elem_of_singleton ->%list_elem_of_singleton. }
  assert (forall j, j ∈ [num p] -> start <= j) as Hlow by (intros j ->%list_elem_of_singleton; lia).
  assert (forall j, start <= j -> tau j < tau (num p) -> j ∈ [num p]) as Hdone.
  { intros j Hj Ht. pose proof (tau_mono (num p) j ltac:(lia)). lia. }
  pose proof (Hmark p Hu) as Hm. cbn [anc_spec_step sp_seen]. rewrite decide_False by apply not_elem_of_nil.
  destruct (np_marker p).
  - destruct A2 as [A2 A3]. symmetry in Hm. apply bool_decide_eq_true in Hm.
    split; cbn [sp_seen sp_open sp_out]; try done; [congruence|intros q Hq; by apply not_elem_of_nil in Hq| |].
    + rewrite D4, A3. constructor; [|constructor].
      assert (whole_frame num tau start [p]) as Hwh.
      { split; [done|]. split; [apply NoDup_singleton|]. intros q ->%list_elem_of_singleton j Hj. cbn.
        rewrite list_elem_of_singleton. split; [by apply Hclose|by intros ->]. }
      split; [|done]. apply (closed_event (num p) [p] p); try done. by left.
    + split; [congruence| |by intros E; apply Hm]. intros j Hj Ht. rewrite (Hclose eq_refl j Hj Ht). by left.
  - destruct A2 as (A2 & A3 & A4). symmetry in Hm. apply bool_decide_eq_false, dec_stable in Hm.
    split; cbn [sp_seen sp_open sp_out]; try done; [congruence|by intros q ->%list_elem_of_singleton| |].
    + by rewrite D4, A3.
    + exists (num p), f, sl. split; try done; [congruence|congruence| |apply NoDup_singleton|].
      * split_and!; [lia|done|]. intros j Hj. lia.
      * intros j. cbn. rewrite list_elem_of_singleton. split; [by intros ->|tauto].
Qed.

(** ** Histories *)

Lemma put_core i s :
  state_of s i = Some ST_RX_ANC_SLOT_IN_USER ->
  let s' := snd (st40_rx_put_framebuff (Some i) s) in
  filter_view s' = filter_view s /\ anc_inflight_slot s' = anc_inflight_slot s /\ anc_pending_slot s' = anc_pending_slot s
  /\ rn_notified s' = rn_notified s
  /\ forall f sl, frame_slots s !! f = Some sl -> sl_state sl = ST_RX_ANC_SLOT_RECEIVING -> frame_slots s' !! f = Some sl.
Proof.
  intros Hi. cbv zeta. rewrite put_view. unfold st40_rx_put_framebuff. case_bool_decide; [|done]. cbn. split_and!; try done.
  intros f sl Hf Hs. rewrite list_lookup_alter_ne; [done|]. intros ->. unfold state_of in Hi. rewrite Hf in Hi. cbn in Hi. congruence.
Qed.

Lemma step_put M sp i s :
  refines M sp s -> state_of s i = Some ST_RX_ANC_SLOT_IN_USER -> refines M sp (snd (st40_rx_put_framebuff (Some i) s)).
Proof.
  intros H Hi. destruct (put_core i s Hi) as (V & E1 & E2 & E3 & E4). destruct M as [M|]; cbn [refines] in *.
  - destruct H as [H1 H2 H3 H4 H5 H6 H7]. split; rewrite ?E2, ?E3; try done; [by apply (filter_at_view _ _ _ s)|].
    assert (anc_window_cur (snd (st40_rx_put_framebuff (Some i) s)) = anc_window_cur s) as W.
    { unfold st40_rx_put_framebuff. by case_bool_decide. }
    destruct (sp_open sp) as [|q l].
    + destruct H7. split; by rewrite ?E1.
    + destruct H7 as (b & f & sl & [C1 C2 C3 C4 C5 C6 C7 C8]). exists b, f, sl. split; try done; [congruence| |congruence].
      apply E4; [done|]. apply (sh_state _ _ _ _ C3).
  - destruct H as [-> []]. split; [done|]. split; congruence.
Qed.

Lemma run_refines h : forall M sp s,
  refines M sp s -> (forall p, p ∈ rn_received h -> univ p) ->
  rn_arrivals tau cfg num M h -> rn_no_bypass cfg app room h s ->
  anc_orderly_from num tau start sp h -> anc_slots_ready cfg app room h s ->
  exists M', refines M' (fold_left (anc_spec_step num) h sp) (fold_left (rn_step cfg app room) h s).
Proof using All.
  induction h as [|op h IH]; intros M sp s Hr Hu Ha Hb Ho Hf; [by exists M|].
  destruct Hb as [Hb1 Hb], Ho as [Ho1 Ho], Hf as [Hf1 Hf]. cbn [fold_left]. destruct op as [p s_port|i].
  2:{ eapply (IH M); try done. by apply step_put. }
  destruct Ha as (Hp & Hw & Hn & Ha). cbn [rn_step] in *.
  assert (univ p) as Hup by (apply Hu; by left).
  assert (forall q, q ∈ rn_received h -> univ q) as Hu' by (intros q Hq; apply Hu; by right).
  set (M' := match M with Some M => Z.max (num p) M | None => num p end) in *.
  apply (IH (Some M')); try done. destruct M as [M|]; cbn [refines] in *; subst M'.
  - destruct (decide (num p ∈ sp_seen sp)) as [Hin|Hin].
    + cbn [anc_spec_step]. rewrite decide_True by done.
      rewrite Z.max_r by (by apply (fa_max _ _ _ _ (rf_filter _ _ _ Hr))). by apply step_copy.
    + destruct (Ho1 Hin) as (O1 & O2 & O3 & O4). by apply step_new.
  - destruct Hr as [-> Hr]. destruct (Ho1 ltac:(apply not_elem_of_nil)) as (O1 & O2 & O3 & O4).
    apply step_first; try done.
    + by apply O2.
    + intros Hm j Hj Ht. destruct (Z.eq_dec j (num p)) as [|Hne]; [done|]. specialize (O4 Hm j Hj Ht Hne).
      by apply not_elem_of_nil in O4.
    + apply Hf1, (fr_inflight _ Hr).
Qed.

End Refine.

(** C7: an ancillary receiver hands over every frame it receives, once and whole. Take a
    stream whose frames have at most 64 packets and the marker on the last; let its packets
    come over the two ports any number of times and in any order, under three conditions:
    the very first packet of the stream arrives first, the frames are kept apart, and the
    marker of a frame comes behind its other packets. Then the notifications are, one by
    one, the frames of the abstract receiver: each holds all packets of a frame, the data of
    their entries one behind the other in the order the packets came first, the entries with
    the offsets of their data, and reports nothing lost. Sequence numbers and timestamps
    wrap around. Assumed besides: the session is frame-level, the packets decode, a frame
    fits into the buffer, there is a free slot when a frame begins, no packet is half of the
    16-bit circle away from the newest, and the recovery threshold of redundant packets is
    not hit. *)
Theorem rn_refines_frames tau start num cfg app room interlaced h :
  (forall a b, a <= b -> tau a <= tau b) -> (forall a b, tau a = tau b -> a - b < 64) ->
  rn_frame_level cfg = true -> rn_framebuff_size cfg < 4294967296 ->
  (forall p, p ∈ rn_received h -> is_Some (anc_entries p) /\ np_marker p = bool_decide (tau (num p) <> tau (num p + 1))) ->
  (forall ps, (forall p, p ∈ ps -> p ∈ rn_received h) -> NoDup (num <$> ps) ->
     (forall p q, p ∈ ps -> q ∈ ps -> tau (num p) = tau (num q)) -> frame_fits (rn_framebuff_size cfg) ps) ->
  rn_arrivals tau cfg num None h -> anc_first num start h -> anc_orderly num tau start (mk_anc_spec [] [] []) h ->
  rn_no_bypass cfg app room h (rn_start cfg interlaced) -> anc_slots_ready cfg app room h (rn_start cfg interlaced) ->
  Forall2 (fun e ps => frame_event num tau ps e /\ whole_frame num tau start ps)
    (rn_notified (rn_run cfg app room interlaced h)) (sp_out (anc_spec_run num h)).
Proof.
  intros Hm Hsp Hl Hc Hpk Hft Ha Hf1 Ho1 Hb Hs. pose proof (orderly_first _ _ _ _ _ Ho1 (fun _ => Hf1)) as Ho.
  destruct (run_refines tau start num Hm Hsp cfg app room Hl Hc (fun p => p ∈ rn_received h) (fun p Hp => proj2 (Hpk p Hp))
    (fun p Hp => proj1 (Hpk p Hp)) Hft h None (mk_anc_spec [] [] []) (rn_start cfg interlaced)) as [[M|] HM]; try done.
  - by apply (rf_log _ _ _ _ _ _ _ HM).
  - destruct HM as [E HM]. unfold rn_run, anc_spec_run. rewrite E, (fr_log _ HM). constructor.
Qed.

(** Two frames of three packets across the wrap; the second one starts out of order, and
    both ports deliver. *)
(** Frames of [n] packets from number [first] on, [rate] apart. *)
Definition ex_stream_time (first n rate k : Z) : Z := rate * ((k - first) / n + 1).
Definition ex_frames_tau : Z -> Z := ex_stream_time 65535 3 100.
Definition ex_frames : list rn_op :=
  [RnPkt (ex_anc_pkt 65535 100 false) 0; RnPkt (ex_anc_pkt 0 100 false) 1; RnPkt (ex_anc_pkt 65535 100 false) 1;
   RnPkt (ex_anc_pkt 1 100 true) 0; RnPkt (ex_anc_pkt 1 100 true) 1; RnPkt (ex_anc_pkt 3 200 false) 0; RnPut 0;
   RnPkt (ex_anc_pkt 2 200 false) 1; RnPkt (ex_anc_pkt 3 200 false) 1; RnPkt (ex_anc_pkt 4 200 true) 0].
Definition ex_frames_entry : st40_meta * bytes := (mk_meta 0 9 0 0 0 0x61 2 2 0, [7; 8]).

Lemma ex_frames_entries p : p ∈ rn_received ex_frames -> anc_entries p = Some [ex_frames_entry].
Proof.
  intros Hp. assert (Forall (fun p => anc_entries p = Some [ex_frames_entry]) (rn_received ex_frames)) as H.
  { repeat constructor. }
  by eapply Forall_forall in H.
Qed.

Lemma ex_frames_fit ps :
  (forall p, p ∈ ps -> p ∈ rn_received ex_frames) -> NoDup (ex_anc_num <$> ps) -> frame_fits 64 ps.
Proof.
  intros Hps Hnd. assert (length ps <= 9)%nat as Hl.
  { assert ((ex_anc_num <$> ps) ⊆+ (ex_anc_num <$> rn_received ex_frames)) as Hs.
    { apply NoDup_submseteq; [done|]. intros k Hk. apply list_elem_of_fmap in Hk as (p & -> & Hp).
      by apply list_elem_of_fmap_2, Hps. }
    apply submseteq_length in Hs. rewrite length_fmap in Hs. exact Hs. }
  assert (frame_entries ps = replicate (length ps) ex_frames_entry) as E.
  { clear Hnd Hl. induction ps as [|p ps IH]; [done|]. cbn [length replicate]. change (p :: ps) with ([p] ++ ps).
    rewrite frame_entries_app, IH by (intros q Hq; apply Hps; by right). unfold frame_entries. cbn [mbind list_bind].
    rewrite (ex_frames_entries p) by (apply Hps; by left). done. }
  unfold frame_fits. rewrite E. do 10 (destruct ps as [|? ps]; [vm_compute; split; discriminate|]). cbn in Hl. lia.
Qed.

(** One step of [anc_orderly_from] on concrete packets. *)
Ltac orderly_step :=
  lazymatch goal with
  | |- anc_orderly_from ?n ?t ?s ?sp (?op :: ?h) =>
      let sp' := eval vm_compute in sp in
      change (anc_orderly_from n t s sp' (op :: h));
      split;
      [lazymatch op with
       | RnPkt ?p _ =>
           let k := eval vm_compute in (n p) in
           change (n p) with k; cbn [sp_seen]; intros Hnew; split; [lia|split; [first [lia|discriminate]|split]];
           [intros j Hj Ht; cbv beta delta [ex_frames_tau ex_stream_time] in Ht; rewrite ?elem_of_cons; mlia
           |first [discriminate|intros _ j Hj Ht Hne; cbv beta delta [ex_frames_tau ex_stream_time] in Ht; rewrite ?elem_of_cons; mlia]]
       | RnPut _ => exact I
       end
      |]
  | |- anc_orderly_from _ _ _ _ [] => exact I
  end.

Lemma ex_frames_orderly : anc_orderly_from ex_anc_num ex_frames_tau 65535 (mk_anc_spec [] [] []) ex_frames.
Proof. unfold ex_frames. repeat orderly_step. Qed.

Lemma rn_refines_frames_witness :
  (exists e1 e2, rn_notified (rn_run ex_anc_cfg ex_anc_keeps ex_anc_room false ex_frames) = [e1; e2]
     /\ ne_udw e1 = [7; 8; 7; 8; 7; 8] /\ fm_seq_lost (ne_meta e2) = 0)
  /\ Forall2 (fun e ps => frame_event ex_anc_num ex_frames_tau ps e /\ whole_frame ex_anc_num ex_frames_tau 65535 ps)
       (rn_notified (rn_run ex_anc_cfg ex_anc_keeps ex_anc_room false ex_frames)) (sp_out (anc_spec_run ex_anc_num ex_frames)).
Proof.
  split; [eexists _, _; vm_compute; done|]. apply rn_refines_frames.
  - intros a b H. unfold ex_frames_tau, ex_stream_time. mlia.
  - intros a b. unfold ex_frames_tau, ex_stream_time. mlia.
  - done.
  - done.
  - intros p Hp. split; [rewrite (ex_frames_entries p Hp); by eexists|].
    assert (Forall (fun p => np_marker p = bool_decide (ex_frames_tau (ex_anc_num p) <> ex_frames_tau (ex_anc_num p + 1)))
      (rn_received ex_frames)) as H by (repeat constructor). by eapply Forall_forall in H.
  - intros ps H1 H2 _. by apply ex_frames_fit.
  - vm_compute. intuition congruence.
  - done.
  - apply orderly_weaken, ex_frames_orderly.
  - vm_compute. intuition congruence.
  - vm_compute. repeat split; intros; eexists; reflexivity.
Defined.
