(* ===== verification/TxAnc.v ===== *)
(** The ST 2110-40 sender, lib/src/st2110/st_tx_ancillary_session.c: frame-level sessions
    from the application's frames to the queues, for RFC 8331 ancillary data and for
    ST 2110-41 fast metadata.

    [tx_ancillary_session_tasklet_frame] takes a frame, paces it, and builds and sends a
    packet per call; a packet the queue does not take waits in [tn_inflight]. Time is in
    integers: [long double] holds the 64-bit times of the code exactly, and what computes
    with fractions of a nanosecond is a parameter. The hooks for fault injection of
    st_tx_ancillary_test.h, which are empty in a release build, the statistics of late
    frames and the trace probes are left out. *)
From S2P Require Import Prelude Bytes Fmt Anc TxCommon.

Inductive st40_tx_frame_status := ST40_TX_STAT_WAIT_FRAME | ST40_TX_STAT_SENDING_PKTS.

Inductive tn_counter :=
| TN_ERROR_USER_TIMESTAMP | TN_EPOCH_ONWARD | TN_EPOCH_DROP | TN_EPOCH_MISMATCH
| TN_FIRST_FIELD | TN_SECOND_FIELD | TN_PORT_BUILD (s_port : Z) | TN_PORT_PACKETS (s_port : Z)
| TN_PORT_BYTES (s_port : Z) | TN_PORT_FRAMES (s_port : Z) | TN_INFLIGHT (s_port : Z).
#[export] Instance tn_counter_eq : EqDecision tn_counter.
Proof. solve_decision. Defined.

(** [struct st40_frame]: the entries in use and the data they point into. *)
Record st40_frame := mk_st40_frame { fr_meta : list st40_meta; fr_data : bytes; fr_data_size : Z }.

(** [struct st_frame_trans] with its [tc_meta]. *)
Record tn_frame := mk_tn_frame {
  tnf_refcnt : Z;
  tnf_addr : st40_frame;
  tnf_tfmt : st10_timestamp_fmt;
  tnf_timestamp : Z;
  tnf_second_field : bool;
  tnf_rtp_timestamp : Z;
  tnf_epoch : Z;
}.
#[export] Instance eta_tn_frame : Settable tn_frame := fun f =>
  mk_tn_frame (tnf_refcnt f) (tnf_addr f) (tnf_tfmt f) (tnf_timestamp f) (tnf_second_field f) (tnf_rtp_timestamp f) (tnf_epoch f).

(** What follows the RTP header: the RFC 8331 header with its payload, or the ST 2110-41
    header with a data item; [None] is the packet without an item. *)
Inductive tn_body :=
| AncBody (ext_seq length f anc_count : Z) (payload : bytes)
| FmdBody (item : option (Z * Z * Z * bytes)).

(** A packet: the port whose headers it carries, the RTP fields, the index and the send
    time of its private data, and its body. *)
Record tn_mbuf := mk_tn_mbuf {
  nb_port : Z;
  nb_seq : Z;
  nb_tmstamp : Z;
  nb_marker : bool;
  nb_body : tn_body;
  nb_pkt_len : Z;
  nb_idx : Z;
  nb_tsc : Z;
}.

Inductive tn_event :=
| TnTake (frame : nat) (content : st40_frame) (second_field : bool)
| TnBuild (pkt : tn_mbuf) (pkt_r : option tn_mbuf)
| TnDone (frame : nat)
| TnSend (s_port : Z) (pkt : tn_mbuf).

Record tn_config := mk_tn_config {
  tn_num_port : Z;
  tn_fmd : bool;
  tn_fmd_dit : Z;
  tn_fmd_k_bit : Z;
  tn_split_payload : bool;
  tn_max_pkt_len : Z;
  tn_interlaced : bool;
  tn_no_chain : bool;
  tn_user_pacing : bool;
  tn_exact_user_pacing : bool;
  tn_user_timestamp : bool;
  tn_fps_mul : Z;
  tn_fps_den : Z;
  tn_sampling_clock_rate : Z;
  tn_max_onward_epochs : Z;
}.

Record tn_session := mk_tn_session {
  st40_frames : list tn_frame;
  st40_frame_idx : nat;
  st40_frame_stat : st40_tx_frame_status;
  st40_pkt_idx : Z;
  st40_anc_idx : Z;
  st40_total_pkts : Z;
  st40_seq_id : Z;
  st40_ext_seq_id : Z;
  tn_second_field : bool;
  tn_cur_epochs : Z;
  tn_rtp_time_stamp : Z;
  tn_ptp_time_cursor : Z;
  tn_tsc_time_cursor : Z;
  tn_calculate_time_cursor : bool;
  tn_inflight_p : option tn_mbuf;
  tn_inflight_r : option tn_mbuf;
  tn_build_ret_code : option sti_code;
  tn_counters : tn_counter -> Z;
  tn_trace : list tn_event;
}.
#[export] Instance eta_tn_session : Settable tn_session := fun s =>
  mk_tn_session (st40_frames s) (st40_frame_idx s) (st40_frame_stat s) (st40_pkt_idx s) (st40_anc_idx s)
    (st40_total_pkts s) (st40_seq_id s) (st40_ext_seq_id s) (tn_second_field s) (tn_cur_epochs s) (tn_rtp_time_stamp s)
    (tn_ptp_time_cursor s) (tn_tsc_time_cursor s) (tn_calculate_time_cursor s) (tn_inflight_p s)
    (tn_inflight_r s) (tn_build_ret_code s) (tn_counters s) (tn_trace s).

Definition tn_frame_none : tn_frame := mk_tn_frame 0 (mk_st40_frame [] [] 0) ST10_TIMESTAMP_FMT_TAI 0 false 0 0.
Definition tn_frame_at (s : tn_session) (i : nat) : tn_frame := default tn_frame_none (st40_frames s !! i).
Definition tn_frame_upd (i : nat) (g : tn_frame -> tn_frame) (s : tn_session) : tn_session :=
  s <| st40_frames ::= alter g i |>.
Definition tn_count (k : tn_counter) (n : Z) (s : tn_session) : tn_session :=
  s <| tn_counters ::= fun f j => if decide (j = k) then u64 (f j + n) else f j |>.
Definition tn_emit (e : tn_event) (s : tn_session) : tn_session := s <| tn_trace ::= fun l => l ++ [e] |>.
Definition tn_stop (code : sti_code) (s : tn_session) : tn_session := s <| tn_build_ret_code := Some code |>.

(** What a call of the tasklet meets: whether the shared ring is full, the clocks, the
    answer of [get_next_frame] (a frame, the time stamp and the field in its meta), which
    allocations succeed, the room behind the headers of an mbuf, and whether each of the
    possible sends succeeds. *)
Record tn_env := mk_tn_env {
  ne_ring_full : bool;
  ne_ptp_required : Z;
  ne_ptp_time : Z;
  ne_tsc_sync : Z;
  ne_tsc : Z;
  ne_next_frame : option (nat * st10_timestamp_fmt * Z * bool);
  ne_alloc_p : bool;
  ne_alloc_chain : bool;
  ne_alloc_r : bool;
  ne_tailroom : Z;
  ne_send_inflight_p : bool;
  ne_send_inflight_r : bool;
  ne_send_p : bool;
  ne_send_r : bool;
  ne_schedule_ns : Z;
}.

(** ** Sequence numbers *)

(** [tx_ancillary_seq_advance] with step 1: the loop takes one turn at most. *)
Definition tx_ancillary_seq_advance (s : tn_session) : tn_session :=
  let seq := u32 (st40_seq_id s + 1) in
  if seq >? UINT16_MAX then s <| st40_seq_id := seq - (UINT16_MAX + 1) |> <| st40_ext_seq_id ::= fun n => u16 (n + 1) |>
  else s <| st40_seq_id := seq |>.

Section Sender.
Context (cfg : tn_config).
(** [st10_media_clk_to_tai], which unwraps a media clock in [long double]. *)
Context (media_clk_to_tai : Z -> Z -> Z -> Z).
(** [NS_PER_S / pacing->frame_time], the epochs of a second. *)
Context (max_future_epochs : Z).
(** [tsc_time_cursor += frame_time / total] in [double]: the send time of the packet after
    the one at a time, in a frame of [total] packets. *)
Context (tsc_next_pkt : Z -> Z -> Z).

Definition tn_send_r : bool := tn_num_port cfg >? 1.

(** ** Pacing *)

Definition tx_ancillary_pacing_time (epochs : Z) : Z := st_epoch_to_tai epochs (tn_fps_mul cfg) (tn_fps_den cfg).

Definition tx_ancillary_pacing_required_tai (env : tn_env) (tfmt : st10_timestamp_fmt) (timestamp : Z)
    (s : tn_session) : Z * tn_session :=
  if negb (tn_user_pacing cfg) then (0, s)
  else if timestamp =? 0 then (0, if tn_exact_user_pacing cfg then tn_count TN_ERROR_USER_TIMESTAMP 1 s else s)
  else
    match tfmt with
    | ST10_TIMESTAMP_FMT_MEDIA_CLK => (0, tn_count TN_ERROR_USER_TIMESTAMP 1 s)
    | ST10_TIMESTAMP_FMT_TAI =>
        if tn_exact_user_pacing cfg
           && ((timestamp <? ne_ptp_required env) || (timestamp - ne_ptp_required env >? NS_PER_S))
        then (0, tn_count TN_ERROR_USER_TIMESTAMP 1 s) else (timestamp, s)
    end.

Definition tx_ancillary_validate_user_timestamp (requested_time current_time max_future : Z) (s : tn_session)
    : tn_session :=
  if requested_time <? current_time then tn_count TN_ERROR_USER_TIMESTAMP 1 s
  else if requested_time - current_time >? max_future then tn_count TN_ERROR_USER_TIMESTAMP 1 s
  else s.

Definition tx_ancillary_calc_epoch (cur_tai required_tai : Z) (s : tn_session) : Z * tn_session :=
  let current_epoch := st_tai_to_epoch cur_tai (tn_fps_mul cfg) (tn_fps_den cfg) in
  if c_true required_tai then
    let epoch := st_tai_to_nearest_epoch required_tai (tn_fps_mul cfg) (tn_fps_den cfg) in
    let s := if tn_exact_user_pacing cfg
             then tx_ancillary_validate_user_timestamp required_tai cur_tai NS_PER_S s
             else tx_ancillary_validate_user_timestamp epoch current_epoch max_future_epochs s in
    (if epoch =? 0 then current_epoch else epoch, s)
  else if tn_cur_epochs s =? UINT64_MAX then (current_epoch, s)
  else
    let next_free_epoch := tn_cur_epochs s + 1 in
    if current_epoch <=? next_free_epoch then
      let onward := next_free_epoch - current_epoch in
      if onward >? tn_max_onward_epochs cfg then (current_epoch, tn_count TN_EPOCH_ONWARD onward s)
      else (next_free_epoch, s)
    else (current_epoch, tn_count TN_EPOCH_DROP (current_epoch - next_free_epoch) s).

Definition tx_ancillary_session_sync_pacing (env : tn_env) (required_tai : Z) (s : tn_session) : tn_session :=
  let cur_tai := ne_ptp_time env in
  let cur_tsc := ne_tsc_sync env in
  let '(epoch, s) := tx_ancillary_calc_epoch cur_tai required_tai s in
  let s := s <| tn_cur_epochs := epoch |> in
  let exact_user_pacing := tn_exact_user_pacing cfg && c_true required_tai in
  let start_time_tai := if exact_user_pacing then required_tai else tx_ancillary_pacing_time epoch in
  let start_time_tai :=
    if negb exact_user_pacing && negb (tn_user_timestamp cfg)
    then st_tai_round_to_media_clk_ns start_time_tai (tn_sampling_clock_rate cfg) else start_time_tai in
  let '(time_to_tx_ns, s) :=
    if start_time_tai <? cur_tai then (0, tn_count TN_EPOCH_MISMATCH 1 s) else (start_time_tai - cur_tai, s) in
  let tsc := if time_to_tx_ns >? UINT64_MAX - cur_tsc then UINT64_MAX else cur_tsc + time_to_tx_ns in
  s <| tn_ptp_time_cursor := start_time_tai |> <| tn_tsc_time_cursor := tsc |>.

Definition tx_ancillary_update_rtp_time_stamp (tfmt : st10_timestamp_fmt) (timestamp : Z) (s : tn_session)
    : Z * tn_session :=
  let tai_for_rtp_ts :=
    if tn_user_timestamp cfg then
      match tfmt with
      | ST10_TIMESTAMP_FMT_MEDIA_CLK =>
          media_clk_to_tai (tn_ptp_time_cursor s) (u32 timestamp) (tn_sampling_clock_rate cfg)
      | ST10_TIMESTAMP_FMT_TAI => timestamp
      end
    else tn_ptp_time_cursor s in
  (tai_for_rtp_ts, s <| tn_rtp_time_stamp := st10_tai_to_media_clk tai_for_rtp_ts (tn_sampling_clock_rate cfg) |>).

(** The time of a frame, in the block under [calculate_time_cursor]. *)
Definition tn_frame_time (env : tn_env) (s : tn_session) : tn_session :=
  if negb (tn_calculate_time_cursor s) then s
  else
    let i := st40_frame_idx s in
    let frame := tn_frame_at s i in
    let '(required_tai, s) := tx_ancillary_pacing_required_tai env (tnf_tfmt frame) (tnf_timestamp frame) s in
    let second_field := tnf_second_field frame in
    let s := if tn_interlaced cfg then tn_count (if second_field then TN_SECOND_FIELD else TN_FIRST_FIELD) 1 s else s in
    let s := tx_ancillary_session_sync_pacing env required_tai s in
    let '(tai, s) := tx_ancillary_update_rtp_time_stamp (tnf_tfmt frame) (tnf_timestamp frame) s in
    let s := tn_frame_upd i (fun f => f <| tnf_tfmt := ST10_TIMESTAMP_FMT_TAI |> <| tnf_timestamp := tai |>
               <| tnf_rtp_timestamp := tn_rtp_time_stamp s |> <| tnf_epoch := tn_cur_epochs s |>) s in
    (if tn_interlaced cfg then s <| tn_second_field := negb second_field |> else s)
      <| tn_calculate_time_cursor := false |>.

(** ** Packets *)

(** The entries that go into one packet, behind the [payload] of those before: the new
    payload and the number of entries, or the reason for the failure. The encoder writes
    every byte it counts, so what the mbuf held before does not matter. *)
Fixpoint tn_fill (metas : list st40_meta) (data payload : bytes) (cnt : Z) : sti_code + bytes * Z :=
  match metas with
  | [] => inr (payload, cnt)
  | m :: metas =>
      let used := arr_len payload in
      if negb (tn_split_payload cfg)
         && (used + st40_rfc8331_payload_bytes (meta_udw_size m) >? tn_max_pkt_len cfg)
      then inr (payload, cnt)
      else if used >=? tn_max_pkt_len cfg then inl STI_FRAME_ANC_TOO_LARGE
      else
        let room := tn_max_pkt_len cfg - used in
        let '(ret, buf, written) :=
          st40_rfc8331_encode_packet (replicate (Z.to_nat room) 0) room m
            (drop (Z.to_nat (meta_udw_offset m)) data) in
        if ret =? - ENOSPC then inl STI_FRAME_ANC_TOO_LARGE
        else if ret <? 0 then inl (STI_ERRNO (- ret))
        else
          let payload := payload ++ take (Z.to_nat written) buf in
          if tn_split_payload cfg then inr (payload, cnt + 1) else tn_fill metas data payload (cnt + 1)
  end.

Definition tn_f_bits (second_field : bool) : Z := if tn_interlaced cfg then if second_field then 3 else 2 else 0.

(** [tx_ancillary_session_build_fmd] *)
Definition tx_ancillary_session_build_fmd (env : tn_env) (s : tn_session) : (sti_code + tn_mbuf) * tn_session :=
  let src := tnf_addr (tn_frame_at s (st40_frame_idx s)) in
  let data_size := fr_data_size src in
  if data_size >? tn_max_pkt_len cfg then (inl STI_FRAME_ANC_TOO_LARGE, tn_stop STI_FRAME_ANC_TOO_LARGE s)
  else
    let padded_size := Z.ldiff (data_size + 3) 3 in
    let rtp_len := if c_true data_size then 12 + 4 + padded_size else 12 in
    if ne_tailroom env <? rtp_len then (inl (STI_ERRNO ENOSPC), s)
    else
      let item :=
        if c_true data_size
        then Some (tn_fmd_dit cfg, tn_fmd_k_bit cfg, padded_size / 4,
                   take (Z.to_nat data_size) (fr_data src) ++ replicate (Z.to_nat (padded_size - data_size)) 0)
        else None in
      (inr (mk_tn_mbuf 0 (st40_seq_id s) (tn_rtp_time_stamp s) false (FmdBody item) (42 + rtp_len)
              (st40_pkt_idx s) (tn_tsc_time_cursor s)),
       tx_ancillary_seq_advance s).

(** [tx_ancillary_session_build_packet], or [tx_ancillary_session_build_rtp_packet] with
    [tx_ancillary_session_build_packet_chain]: the packet of the primary port and the
    entries it holds. The sequence number is used up before the entries are looked at. *)
Definition tx_ancillary_session_build_packet (env : tn_env) (s : tn_session)
    : (sti_code + tn_mbuf * Z) * tn_session :=
  if tn_fmd cfg then
    let '(r, s) := tx_ancillary_session_build_fmd env s in
    (match r with inl code => inl code | inr pkt => inr (pkt, 0) end, s)
  else
    let seq := st40_seq_id s in
    let ext_seq := st40_ext_seq_id s in
    let s := tx_ancillary_seq_advance s in
    let frame := tn_frame_at s (st40_frame_idx s) in
    let src := tnf_addr frame in
    let anc_idx := st40_anc_idx s in
    match tn_fill (drop (Z.to_nat anc_idx) (fr_meta src)) (fr_data src) [] 0 with
    | inl code => (inl code, tn_stop code s)
    | inr (payload, cnt) =>
        let idx := anc_idx + cnt in
        let payload_size := arr_len payload in
        let last_pkt := if st40_total_pkts s >? 0 then st40_pkt_idx s =? st40_total_pkts s - 1
                        else idx =? arr_len (fr_meta src) in
        (inr (mk_tn_mbuf 0 seq (tn_rtp_time_stamp s) last_pkt
                (AncBody ext_seq (u16 payload_size) (tn_f_bits (tnf_second_field frame)) (u8 cnt) payload)
                (62 + payload_size) (st40_pkt_idx s) (tn_tsc_time_cursor s), idx), s)
    end.

(** [tx_ancillary_session_update_redundant], or the chain for the second port: other
    headers, the same RTP packet. *)
Definition tx_ancillary_session_update_redundant (pkt : tn_mbuf) : tn_mbuf :=
  mk_tn_mbuf 1 (nb_seq pkt) (nb_tmstamp pkt) (nb_marker pkt) (nb_body pkt) (nb_pkt_len pkt) (nb_idx pkt) (nb_tsc pkt).

(** ** The tasklet *)

(** The application gets its frame back; what is left of it is not sent. *)
Definition tx_ancillary_session_abort_frame (s : tn_session) : tn_session :=
  match st40_frame_stat s with
  | ST40_TX_STAT_WAIT_FRAME => s
  | ST40_TX_STAT_SENDING_PKTS =>
      let i := st40_frame_idx s in
      let s := tn_frame_upd i (fun f => f <| tnf_refcnt ::= fun n => i32 (n - 1) |>) (tn_emit (TnDone i) s) in
      s <| st40_frame_stat := ST40_TX_STAT_WAIT_FRAME |> <| st40_pkt_idx := 0 |> <| st40_anc_idx := 0 |>
        <| tn_calculate_time_cursor := false |> <| tn_tsc_time_cursor := 0 |>
  end.

(** The packets a frame will take, and whether it is let through. *)
Definition tn_total_pkts (src : st40_frame) : Z * bool :=
  if tn_fmd cfg then (1, true)
  else if tn_split_payload cfg then (if c_true (arr_len (fr_meta src)) then arr_len (fr_meta src) else 1, true)
  else
    let total_udw := foldr (fun m n => meta_udw_size m + n) 0 (fr_meta src) in
    let total_size := total_udw * 10 / 8 in
    let total := total_size / tn_max_pkt_len cfg + (if c_true (total_size mod tn_max_pkt_len cfg) then 1 else 0) in
    let total := if total =? 0 then 1 else total in
    (total, negb (total >? 1)).

(** Between frames the application is asked for one; [false] stops the tasklet. *)
Definition tn_next_frame (env : tn_env) (s : tn_session) : bool * tn_session :=
  match st40_frame_stat s with
  | ST40_TX_STAT_SENDING_PKTS => (true, s)
  | ST40_TX_STAT_WAIT_FRAME =>
      match ne_next_frame env with
      | None => (false, tn_stop STI_FRAME_APP_GET_FRAME_BUSY s)
      | Some (i, tfmt, timestamp, second_field) =>
          if c_true (tnf_refcnt (tn_frame_at s i)) then (false, tn_stop STI_FRAME_APP_ERR_TX_FRAME s)
          else
            let s := tn_frame_upd i (fun f => f <| tnf_refcnt ::= fun n => i32 (n + 1) |> <| tnf_tfmt := tfmt |>
                       <| tnf_timestamp := timestamp |> <| tnf_second_field := second_field |>
                       <| tnf_rtp_timestamp := 0 |> <| tnf_epoch := u64 (tn_cur_epochs s + 1) |>) s in
            let src := tnf_addr (tn_frame_at s i) in
            let s := tn_emit (TnTake i src second_field) s in
            let '(total, ok) := tn_total_pkts src in
            let s := s <| st40_frame_idx := i |> <| st40_frame_stat := ST40_TX_STAT_SENDING_PKTS |>
                       <| st40_pkt_idx := 0 |> <| st40_anc_idx := 0 |> <| st40_total_pkts := total |> in
            if ok then (true, s) else (false, tn_stop STI_FRAME_APP_ERR_TX_FRAME s)
      end
  end.

(** A packet the queue did not take is tried again; [false] when it still waits. *)
Definition tn_flush (env : tn_env) (s : tn_session) : bool * tn_session :=
  let '(ok, s) :=
    match tn_inflight_p s with
    | None => (true, s)
    | Some pkt =>
        if ne_send_inflight_p env then (true, tn_emit (TnSend 0 pkt) (s <| tn_inflight_p := None |>))
        else (false, tn_stop STI_FRAME_INFLIGHT_ENQUEUE_FAIL s)
    end in
  if negb ok then (false, s)
  else if negb tn_send_r then (true, s)
  else
    match tn_inflight_r s with
    | None => (true, s)
    | Some pkt =>
        if ne_send_inflight_r env then (true, tn_emit (TnSend 1 pkt) (s <| tn_inflight_r := None |>))
        else (false, tn_stop STI_FRAME_INFLIGHT_R_ENQUEUE_FAIL s)
    end.

(** Both packets with their cost, and the index of the next entry. *)
Definition tn_build (env : tn_env) (s : tn_session) : option (tn_mbuf * option tn_mbuf) * tn_session :=
  if negb (ne_alloc_p env) then (None, tn_stop STI_FRAME_PKT_ALLOC_FAIL s)
  else if negb (tn_no_chain cfg) && negb (ne_alloc_chain env) then (None, tn_stop STI_FRAME_PKT_ALLOC_FAIL s)
  else
    match tx_ancillary_session_build_packet env s with
    | (inl code, s) =>
        let s := match tn_build_ret_code s with None => tn_stop code s | Some _ => s end in
        (None, tx_ancillary_session_abort_frame s)
    | (inr (pkt, next_anc_idx), s) =>
        if tn_send_r && negb (ne_alloc_r env) then (None, tn_stop STI_FRAME_PKT_ALLOC_FAIL s)
        else
          (Some (pkt, if tn_send_r then Some (tx_ancillary_session_update_redundant pkt) else None),
           s <| st40_anc_idx := next_anc_idx |>)
    end.

Definition tn_account (s_port : Z) (pkt : tn_mbuf) (s : tn_session) : tn_session :=
  tn_count (TN_PORT_BYTES s_port) (nb_pkt_len pkt)
    (tn_count (TN_PORT_PACKETS s_port) 1 (tn_count (TN_PORT_BUILD s_port) 1 s)).

(** [true] when the queue did not take the packet, which then waits. *)
Definition tn_send (s_port : Z) (ok : bool) (code : sti_code) (pkt : tn_mbuf) (s : tn_session) : bool * tn_session :=
  if ok then (false, tn_emit (TnSend s_port pkt) s)
  else
    let s := tn_count (TN_INFLIGHT s_port) 1 s in
    (true, tn_stop code (if s_port =? 0 then s <| tn_inflight_p := Some pkt |> else s <| tn_inflight_r := Some pkt |>)).

(** After the last packet the frame goes back to the application. *)
Definition tn_frame_end (s : tn_session) : tn_session :=
  if st40_pkt_idx s <? st40_total_pkts s then s
  else
    let i := st40_frame_idx s in
    let s := tn_frame_upd i (fun f => f <| tnf_refcnt ::= fun n => i32 (n - 1) |>) (tn_emit (TnDone i) s) in
    let s := s <| st40_frame_stat := ST40_TX_STAT_WAIT_FRAME |> <| st40_pkt_idx := 0 |> <| st40_anc_idx := 0 |> in
    let s := tn_count (TN_PORT_FRAMES 0) 1 s in
    (if tn_send_r then tn_count (TN_PORT_FRAMES 1) 1 s else s) <| tn_tsc_time_cursor := 0 |>.

(** Both packets go to their queues. *)
Definition tn_post (env : tn_env) (pkt : tn_mbuf) (pkt_r : option tn_mbuf) (s : tn_session) : Z * tn_session :=
  let s := tn_account 0 pkt s in
  let s := match pkt_r with Some p => tn_account 1 p s | None => s end in
  let s := tn_emit (TnBuild pkt pkt_r) s in
  let s := s <| st40_pkt_idx ::= Z.succ |> in
  let s := s <| tn_tsc_time_cursor := tsc_next_pkt (tn_tsc_time_cursor s) (Z.max 1 (st40_total_pkts s)) |>
             <| tn_calculate_time_cursor := negb (st40_pkt_idx s <? st40_total_pkts s) |> in
  let '(done, s) := tn_send 0 (ne_send_p env) STI_FRAME_PKT_ENQUEUE_FAIL pkt s in
  let '(done_r, s) :=
    match pkt_r with
    | None => (false, s)
    | Some p => tn_send 1 (ne_send_r env) STI_FRAME_PKT_R_ENQUEUE_FAIL p s
    end in
  (if done || done_r then MTL_TASKLET_ALL_DONE else MTL_TASKLET_HAS_PENDING, tn_frame_end s).

Definition tx_ancillary_session_tasklet_frame (env : tn_env) (s : tn_session) : Z * tn_session :=
  if ne_ring_full env then (MTL_TASKLET_ALL_DONE, tn_stop STI_FRAME_RING_FULL s)
  else
    let '(ok, s) := tn_flush env s in
    if negb ok then (MTL_TASKLET_ALL_DONE, s)
    else
      let '(ok, s) := tn_next_frame env s in
      if negb ok then (MTL_TASKLET_ALL_DONE, s)
      else
        let s := tn_frame_time env s in
        let delta := tn_tsc_time_cursor s - ne_tsc env in
        if (0 <? delta) && (delta <=? NS_PER_S) then
          (if delta <? ne_schedule_ns env then MTL_TASKLET_HAS_PENDING else MTL_TASKLET_ALL_DONE,
           tn_stop STI_TSCTRS_TARGET_TSC_NOT_REACH s)
        else
          match tn_build env s with
          | (None, s) => (MTL_TASKLET_ALL_DONE, s)
          | (Some (pkt, pkt_r), s) => tn_post env pkt pkt_r s
          end.

End Sender.

(** ** Attaching a session *)

(** The longest payload: the headers are those of [struct st_rfc8331_anc_hdr] or
    [struct st_fmd_hdr]. *)
Definition tn_attach_max_pkt_len (fmd : bool) : Z := ST_PKT_MAX_ETHER_BYTES - (if fmd then 58 else 62).

(** A session after attach at PTP time [ptp_time]. *)
Definition tx_ancillary_session_attach (cfg : tn_config) (frames : list st40_frame) (ptp_time : Z) : tn_session :=
  mk_tn_session ((fun f => mk_tn_frame 0 f ST10_TIMESTAMP_FMT_TAI 0 false 0 0) <$> frames) 0 ST40_TX_STAT_WAIT_FRAME
    0 0 0 0 0 false (st_tai_to_epoch ptp_time (tn_fps_mul cfg) (tn_fps_den cfg)) 0 0 0 true None None None
    (fun _ => 0) [].
