(* ===== verification/AncSend.v ===== *)
(** What the ancillary sender puts on the wire: every packet built goes to its queue once and
    in order, and the events of a session are those of an abstract sender that cuts one
    frame after the other into packets. *)
From S2P Require Import Prelude Bytes Fmt Anc TxCommon TxAnc.

(** ** Histories *)

(** A call of the tasklet, or the application writes a frame buffer. *)
Inductive tn_op := TnCall (env : tn_env) | TnFill (i : nat) (content : st40_frame).

(** The packets of one port in a trace. *)
Definition tn_sent (s_port : Z) (tr : list tn_event) : list tn_mbuf :=
  omap (fun e => match e with TnSend q pkt => if q =? s_port then Some pkt else None | _ => None end) tr.
Definition tn_built (s_port : Z) (tr : list tn_event) : list tn_mbuf :=
  omap (fun e => match e with TnBuild pkt pkt_r => if s_port =? 0 then Some pkt else pkt_r | _ => None end) tr.

Lemma tn_sent_app q a b : tn_sent q (a ++ b) = tn_sent q a ++ tn_sent q b.
Proof. apply omap_app. Qed.
Lemma tn_built_app q a b : tn_built q (a ++ b) = tn_built q a ++ tn_built q b.
Proof. apply omap_app. Qed.

(** The sizes of the entries of a frame are 16-bit numbers. *)
Definition frame_typed (src : st40_frame) : Prop := Forall (fun m => is_u16 (meta_udw_size m)) (fr_meta src).

Section Send.
Context (cfg : tn_config) (media_clk_to_tai : Z -> Z -> Z -> Z) (max_future_epochs : Z) (tsc_next_pkt : Z -> Z -> Z).

Definition tn_step (s : tn_session) (op : tn_op) : tn_session :=
  match op with
  | TnCall env => snd (tx_ancillary_session_tasklet_frame cfg media_clk_to_tai max_future_epochs tsc_next_pkt env s)
  | TnFill i content => tn_frame_upd i (fun f => f <| tnf_addr := content |>) s
  end.
Definition tn_run (l : list tn_op) (s : tn_session) : tn_session := fold_left tn_step l s.

(** The application answers with frames of the session and writes only frames that are not
    being sent. *)
Definition tn_op_ok (s : tn_session) (op : tn_op) : Prop :=
  match op with
  | TnCall env => match ne_next_frame env with Some (i, _, _, _) => (i < length (st40_frames s))%nat | None => True end
  | TnFill i src => tnf_refcnt (tn_frame_at s i) = 0 /\ frame_typed src
  end.
Fixpoint tn_ops_ok (l : list tn_op) (s : tn_session) : Prop :=
  match l with [] => True | op :: l => tn_op_ok s op /\ tn_ops_ok l (tn_step s op) end.

(** A property kept by every call is kept by every history. *)
Lemma tn_run_inv (P : tn_session -> Prop) l : forall s,
  (forall s op, P s -> tn_op_ok s op -> P (tn_step s op)) -> P s -> tn_ops_ok l s -> P (tn_run l s).
Proof. induction l as [|op l IH]; intros s Hstep Hs Hl; [done|]. destruct Hl as [Hop Hl]. apply IH; by auto. Qed.

(** ** Pacing touches only times *)

Definition tn_untimed (s : tn_session) :=
  (fmap (fun f => (tnf_refcnt f, tnf_addr f, tnf_second_field f)) (st40_frames s), st40_frame_idx s, st40_frame_stat s,
   st40_pkt_idx s, st40_anc_idx s, st40_total_pkts s, (st40_seq_id s, st40_ext_seq_id s), (tn_inflight_p s, tn_inflight_r s),
   tn_trace s).

Lemma untimed_count k n s : tn_untimed (tn_count k n s) = tn_untimed s.
Proof. done. Qed.

Lemma untimed_upd i g s :
  (forall x, (tnf_refcnt (g x), tnf_addr (g x), tnf_second_field (g x)) = (tnf_refcnt x, tnf_addr x, tnf_second_field x)) ->
  tn_untimed (tn_frame_upd i g s) = tn_untimed s.
Proof.
  intros Hg. unfold tn_untimed. change (st40_frames (tn_frame_upd i g s)) with (alter g i (st40_frames s)).
  by rewrite fmap_alter_same.
Qed.

Lemma untimed_required env tfmt ts s : tn_untimed (snd (tx_ancillary_pacing_required_tai cfg env tfmt ts s)) = tn_untimed s.
Proof. unfold tx_ancillary_pacing_required_tai. repeat case_match; done. Qed.

Lemma untimed_validate a b c s : tn_untimed (tx_ancillary_validate_user_timestamp a b c s) = tn_untimed s.
Proof. unfold tx_ancillary_validate_user_timestamp. repeat case_if; done. Qed.

Lemma untimed_calc a b s : tn_untimed (snd (tx_ancillary_calc_epoch cfg max_future_epochs a b s)) = tn_untimed s.
Proof.
  unfold tx_ancillary_calc_epoch. destruct (c_true b); [cbn [snd]; case_if; apply untimed_validate|].
  repeat case_if; done.
Qed.

Lemma untimed_sync env a s : tn_untimed (tx_ancillary_session_sync_pacing cfg max_future_epochs env a s) = tn_untimed s.
Proof.
  unfold tx_ancillary_session_sync_pacing. pose proof (untimed_calc (ne_ptp_time env) a s) as E.
  destruct (tx_ancillary_calc_epoch cfg max_future_epochs (ne_ptp_time env) a s) as [e s1]. cbn [snd] in E. rewrite <- E.
  cbv zeta. case_if; [|done]. by case_match.
Qed.

Lemma untimed_frame_time env s : tn_untimed (tn_frame_time cfg media_clk_to_tai max_future_epochs env s) = tn_untimed s.
Proof.
  unfold tn_frame_time. destruct (negb _); [done|]. cbv zeta. set (f := tn_frame_at s (st40_frame_idx s)).
  pose proof (untimed_required env (tnf_tfmt f) (tnf_timestamp f) s) as E1.
  destruct (tx_ancillary_pacing_required_tai cfg env (tnf_tfmt f) (tnf_timestamp f) s) as [req s1]. cbn [snd] in E1.
  set (s2 := if tn_interlaced cfg then _ else s1). assert (tn_untimed s2 = tn_untimed s) as E2 by (unfold s2; by case_if).
  pose proof (untimed_sync env req s2) as E3. set (s3 := tx_ancillary_session_sync_pacing _ _ _ _ _) in *. clearbody s3.
  unfold tx_ancillary_update_rtp_time_stamp. set (tai := if tn_user_timestamp cfg then _ else _). clearbody tai. cbv zeta.
  rewrite E2 in E3. clear E1 E2. rewrite <- E3. clear E3.
  set (s4 := s3 <| tn_rtp_time_stamp := _ |>). set (s5 := tn_frame_upd _ _ s4). transitivity (tn_untimed s5); [by case_if|].
  unfold s5. by rewrite untimed_upd.
Qed.

(** ** Order *)

Definition tn_waiting (s_port : Z) (s : tn_session) : list tn_mbuf :=
  option_list (if s_port =? 0 then tn_inflight_p s else tn_inflight_r s).
Definition tn_is_port (s_port : Z) : Prop := s_port = 0 \/ s_port = 1.

(** What was built for a port was sent there, is waiting, or is among [rest]. *)
Definition tn_ordered (rest : Z -> list tn_mbuf) (s : tn_session) : Prop :=
  forall q, tn_is_port q -> tn_sent q (tn_trace s) ++ tn_waiting q s ++ rest q = tn_built q (tn_trace s).
Definition tn_mirrored (s : tn_session) : Prop :=
  tn_built 1 (tn_trace s) = if tn_send_r cfg then tx_ancillary_session_update_redundant <$> tn_built 0 (tn_trace s) else [].

Abbreviation none := (fun _ : Z => @nil tn_mbuf).

(** What order depends on. *)
Definition tn_lines (s : tn_session) := (tn_inflight_p s, tn_inflight_r s, tn_trace s).

Lemma ordered_lines rest s s' : tn_lines s' = tn_lines s -> tn_ordered rest s -> tn_ordered rest s'.
Proof. intros [= E1 E2 E3] H q Hq. unfold tn_waiting. rewrite E1, E2, E3. by apply H. Qed.

(** An event that neither builds nor sends. *)
Lemma ordered_emit rest e s :
  (forall q, tn_sent q [e] = [] /\ tn_built q [e] = []) -> tn_ordered rest s -> tn_ordered rest (tn_emit e s).
Proof.
  intros He H q Hq. destruct (He q) as [E1 E2]. cbn [tn_emit]. change (tn_trace (tn_emit e s)) with (tn_trace s ++ [e]).
  change (tn_waiting q (tn_emit e s)) with (tn_waiting q s). rewrite tn_sent_app, tn_built_app, E1, E2, !app_nil_r. by apply H.
Qed.

Lemma tn_flush_order env s :
  tn_ordered none s ->
  let r := tn_flush cfg env s in
  tn_ordered none (snd r)
  /\ (fst r = true -> tn_inflight_p (snd r) = None /\ (tn_send_r cfg = true -> tn_inflight_r (snd r) = None)).
Proof.
  intros H. unfold tn_flush.
  set (r1 := match tn_inflight_p s with None => _ | Some pkt => _ end).
  assert (tn_ordered none (snd r1) /\ (fst r1 = true -> tn_inflight_p (snd r1) = None)) as [H1 H2].
  { unfold r1. destruct (tn_inflight_p s) as [pkt|] eqn:Ep; [|done]. destruct (ne_send_inflight_p env); [|done].
    split; [|done]. intros q Hq. specialize (H q Hq). revert H. unfold tn_waiting. cbn [snd].
    change (tn_trace (tn_emit ?e ?t)) with (tn_trace t ++ [e]). cbn -[tn_sent tn_built].
    rewrite tn_sent_app, tn_built_app, Ep. destruct Hq as [-> | ->]; cbn; by rewrite !app_nil_r. }
  clearbody r1. destruct r1 as [[] s1]; cbn [fst snd negb] in *; [|done]. specialize (H2 eq_refl).
  destruct (tn_send_r cfg); cbn [negb]; [|by split].
  destruct (tn_inflight_r s1) as [pkt|] eqn:Er; [|done]. destruct (ne_send_inflight_r env); [|done].
  split; [|done]. intros q Hq. specialize (H1 q Hq). revert H1. unfold tn_waiting. cbn [snd].
  change (tn_trace (tn_emit ?e ?t)) with (tn_trace t ++ [e]). cbn -[tn_sent tn_built].
  rewrite tn_sent_app, tn_built_app, Er. destruct Hq as [-> | ->]; cbn; by rewrite !app_nil_r.
Qed.

Lemma send_order q0 ok code pkt rest s :
  tn_is_port q0 -> tn_waiting q0 s = [] ->
  tn_ordered (fun q => if q =? q0 then pkt :: rest q else rest q) s ->
  let s' := snd (tn_send q0 ok code pkt s) in
  tn_ordered rest s' /\ (forall q, tn_is_port q -> q <> q0 -> tn_waiting q s' = tn_waiting q s).
Proof.
  intros Hq0 Hw H. unfold tn_send. destruct ok; cbn [snd].
  - split; [|done]. intros q Hq. specialize (H q Hq). change (tn_trace (tn_emit ?e ?t)) with (tn_trace t ++ [e]).
    rewrite tn_sent_app, tn_built_app, <- app_assoc. change (tn_waiting q (tn_emit ?e ?t)) with (tn_waiting q t).
    change (tn_built q [TnSend q0 pkt]) with (@nil tn_mbuf). rewrite app_nil_r, <- H. f_equal.
    cbn -[Z.eqb]. destruct (Z.eqb_spec q0 q) as [-> |Hne]; cbn.
    + by rewrite Hw, Z.eqb_refl.
    + by rewrite (proj2 (Z.eqb_neq q q0)) by done.
  - split.
    + intros q Hq. specialize (H q Hq). revert H. unfold tn_waiting in *.
      destruct Hq0 as [-> | ->], Hq as [-> | ->]; cbn in *; rewrite ?Hw; try done.
    + intros q Hq Hne. unfold tn_waiting. destruct Hq0 as [-> | ->], Hq as [-> | ->]; done.
Qed.

(** What building a packet does not touch. *)
Definition tn_kept (s : tn_session) :=
  (st40_frames s, st40_frame_idx s, st40_frame_stat s, st40_pkt_idx s, st40_anc_idx s, st40_total_pkts s,
   (tn_inflight_p s, tn_inflight_r s, tn_trace s), (tn_rtp_time_stamp s, tn_calculate_time_cursor s)).

Lemma kept_advance s : tn_kept (tx_ancillary_seq_advance s) = tn_kept s.
Proof. unfold tx_ancillary_seq_advance. case_if; done. Qed.

Lemma kept_packet env s : tn_kept (snd (tx_ancillary_session_build_packet cfg env s)) = tn_kept s.
Proof.
  unfold tx_ancillary_session_build_packet. destruct (tn_fmd cfg).
  - unfold tx_ancillary_session_build_fmd. repeat case_if; cbn [snd]; try done; by rewrite kept_advance.
  - destruct (tn_fill _ _ _ _ _) as [code|[payload cnt]]; cbn [snd]; [|by rewrite kept_advance].
    change (tn_kept (tx_ancillary_seq_advance s) = tn_kept s). apply kept_advance.
Qed.

(** A build fails and leaves the session as it was, fails and gives the frame up, or gives
    the packet and its copy. *)
Lemma build_cases env s :
  let r := tn_build cfg env s in
  exists s1, tn_kept s1 = tn_kept s /\
    (r = (None, s1)
     \/ (exists code, fst (tx_ancillary_session_build_packet cfg env s) = inl code /\ r = (None, tx_ancillary_session_abort_frame s1))
     \/ exists pkt next, fst (tx_ancillary_session_build_packet cfg env s) = inr (pkt, next)
        /\ r = (Some (pkt, if tn_send_r cfg then Some (tx_ancillary_session_update_redundant pkt) else None),
                s1 <| st40_anc_idx := next |>)).
Proof.
  unfold tn_build. destruct (negb (ne_alloc_p env)); [eexists; split; [|left; reflexivity]; done|].
  destruct (negb (tn_no_chain cfg) && negb (ne_alloc_chain env)); [eexists; split; [|left; reflexivity]; done|].
  pose proof (kept_packet env s) as Ek. destruct (tx_ancillary_session_build_packet cfg env s) as [[code|[pkt next]] s1]; cbn [snd fst] in *.
  - eexists. split; [|right; left; by eexists]. by case_match.
  - destruct (tn_send_r cfg) eqn:Er; cbn [andb]; [destruct (ne_alloc_r env); cbn [negb]|].
    + exists s1. split; [done|]. right. right. by exists pkt, next.
    + eexists. split; [|left; reflexivity]. done.
    + exists s1. split; [done|]. right. right. by exists pkt, next.
Qed.

Lemma kept_lines s s' : tn_kept s' = tn_kept s -> tn_lines s' = tn_lines s.
Proof. unfold tn_lines. intros [= _ _ _ _ _ _ E1 E2 E3 _ _]. by rewrite E1, E2, E3. Qed.

Lemma abort_order rest s : tn_ordered rest s -> tn_ordered rest (tx_ancillary_session_abort_frame s).
Proof.
  intros H. unfold tx_ancillary_session_abort_frame. destruct (st40_frame_stat s); [done|].
  apply (ordered_lines rest (tn_emit (TnDone (st40_frame_idx s)) s)); [done|]. by apply ordered_emit.
Qed.

Lemma tn_frame_end_order rest s : tn_ordered rest s -> tn_ordered rest (tn_frame_end cfg s).
Proof.
  intros H. unfold tn_frame_end. case_if; [done|].
  apply (ordered_lines rest (tn_emit (TnDone (st40_frame_idx s)) s)); [case_if; done|]. by apply ordered_emit.
Qed.

Lemma tn_next_frame_order rest env s : tn_ordered rest s -> tn_ordered rest (snd (tn_next_frame cfg env s)).
Proof.
  intros H. unfold tn_next_frame. destruct (st40_frame_stat s); [|done].
  destruct (ne_next_frame env) as [[[[i tfmt] ts] sf]|]; [|by apply (ordered_lines rest s)].
  case_if; [by apply (ordered_lines rest s)|]. cbv zeta.
  set (s1 := tn_frame_upd _ _ s). set (src := tnf_addr _).
  assert (tn_ordered rest (tn_emit (TnTake i src sf) s1)) as H1 by (apply ordered_emit; [done|by apply (ordered_lines rest s)]).
  destruct (tn_total_pkts cfg src) as [total ok]. destruct ok; exact H1.
Qed.

Lemma tn_post_order env pkt s :
  tn_ordered none s -> tn_inflight_p s = None -> (tn_send_r cfg = true -> tn_inflight_r s = None) ->
  tn_ordered none (snd (tn_post cfg tsc_next_pkt env pkt
    (if tn_send_r cfg then Some (tx_ancillary_session_update_redundant pkt) else None) s)).
Proof.
  intros H Hp Hr. unfold tn_post. set (pkt_r := if tn_send_r cfg then _ else None). cbv zeta.
  set (s1 := (_ <| tn_tsc_time_cursor := _ |>) <| tn_calculate_time_cursor := _ |>).
  assert (tn_lines s1 = (tn_inflight_p s, tn_inflight_r s, tn_trace s ++ [TnBuild pkt pkt_r])) as E1.
  { unfold s1, pkt_r. by destruct (tn_send_r cfg). }
  clearbody s1. injection E1 as P1 P2 P3.
  assert (tn_ordered (fun q => if q =? 0 then [pkt] else option_list pkt_r) s1) as H1.
  { intros q Hq. specialize (H q Hq). unfold tn_waiting in *. rewrite P1, P2, P3, tn_sent_app, tn_built_app, <- H.
    change (tn_sent q [TnBuild pkt pkt_r]) with (@nil tn_mbuf).
    destruct Hq as [-> | ->]; cbn; rewrite ?app_nil_r, <- ?app_assoc; [done|by destruct pkt_r]. }
  destruct (tn_send 0 (ne_send_p env) STI_FRAME_PKT_ENQUEUE_FAIL pkt s1) as [d s2] eqn:Es.
  destruct (send_order 0 (ne_send_p env) STI_FRAME_PKT_ENQUEUE_FAIL pkt (fun q => if q =? 0 then [] else option_list pkt_r) s1)
    as [H2 H2w].
  { by left. }
  { unfold tn_waiting. cbn. by rewrite P1, Hp. }
  { intros q Hq. rewrite <- (H1 q Hq). do 2 f_equal. by destruct (q =? 0). }
  rewrite Es in H2, H2w. cbn [snd] in *.
  destruct pkt_r as [p|] eqn:Epr.
  - assert (tn_send_r cfg = true) as Hsr by (unfold pkt_r in Epr; by destruct (tn_send_r cfg)).
    destruct (tn_send 1 (ne_send_r env) STI_FRAME_PKT_R_ENQUEUE_FAIL p s2) as [d2 s3] eqn:Es3.
    destruct (send_order 1 (ne_send_r env) STI_FRAME_PKT_R_ENQUEUE_FAIL p none s2) as [H3 _].
    { by right. }
    { rewrite H2w; [|by right|done]. unfold tn_waiting. cbn. by rewrite P2, Hr. }
    { intros q Hq. rewrite <- (H2 q Hq). do 2 f_equal. by destruct Hq as [-> | ->]. }
    rewrite Es3 in H3. cbn [snd] in *. by apply tn_frame_end_order.
  - cbn [snd]. apply tn_frame_end_order. intros q Hq. rewrite <- (H2 q Hq). do 2 f_equal. by destruct (q =? 0).
Qed.

Lemma tn_ordered_step s op : tn_ordered none s -> tn_ordered none (tn_step s op).
Proof.
  intros H. destruct op as [env|i content]; cbn [tn_step]; [|by apply (ordered_lines none s)].
  unfold tx_ancillary_session_tasklet_frame. destruct (ne_ring_full env); [by apply (ordered_lines none s)|].
  destruct (tn_flush_order env s H) as [H1 H1w]. destruct (tn_flush cfg env s) as [[] s1]; cbn [fst snd negb] in *; [|done].
  destruct (H1w eq_refl) as [W1 W2]. pose proof (tn_next_frame_order none env s1 H1) as H2.
  assert (tn_inflight_p (snd (tn_next_frame cfg env s1)) = tn_inflight_p s1
    /\ tn_inflight_r (snd (tn_next_frame cfg env s1)) = tn_inflight_r s1) as [I1 I2].
  { unfold tn_next_frame. repeat case_match; done. }
  destruct (tn_next_frame cfg env s1) as [[] s2]; cbn [fst snd negb] in *; [|done].
  pose proof (untimed_frame_time env s2) as Et.
  set (s3 := tn_frame_time _ _ _ _ _) in *. clearbody s3. injection Et as _ _ _ _ _ _ _ _ I3 I4 I5.
  assert (tn_ordered none s3) as H3 by (apply (ordered_lines none s2); [unfold tn_lines; congruence|done]).
  case_if; [by apply (ordered_lines none s3)|].
  destruct (build_cases env s3) as (s4 & Ek & [-> |[(code & _ & ->)|(pkt & next & _ & ->)]]); cbn [snd].
  - by apply (ordered_lines none s3); [apply kept_lines|].
  - apply abort_order. by apply (ordered_lines none s3); [apply kept_lines|].
  - apply kept_lines in Ek. pose proof Ek as [= K1 K2 K3]. apply tn_post_order.
    + by apply (ordered_lines none s3).
    + change (tn_inflight_p s4 = None). congruence.
    + intros Hs. change (tn_inflight_r s4 = None). rewrite K2, I4, I2. by apply W2.
Qed.

(** ** The abstract sender *)

(** Between frames, or [idx] packets with the first [anc] entries of a frame are built;
    [time] is their RTP time. *)
Inductive send_state :=
| SendIdle
| SendFrame (i : nat) (src : st40_frame) (second_field : bool) (idx anc : Z) (time : option Z).

(** The payload and the number of entries of the packet that starts at entry [anc]. *)
Definition tn_payload (src : st40_frame) (anc : Z) : sti_code + bytes * Z :=
  tn_fill cfg (drop (Z.to_nat anc) (fr_meta src)) (fr_data src) [] 0.
(** The packets planned for a frame: one for each entry, or as many as its data words, of ten
    bits each, fill; at least one. *)
Definition tn_total (src : st40_frame) : Z :=
  if tn_split_payload cfg then Z.max 1 (arr_len (fr_meta src))
  else
    let words := foldr (fun m n => meta_udw_size m + n) 0 (fr_meta src) in
    Z.max 1 ((words * 10 / 8 + tn_max_pkt_len cfg - 1) / tn_max_pkt_len cfg).

(** One event of an RFC 8331 session. *)
Inductive send_event : send_state -> tn_event -> send_state -> Prop :=
| SendTake i src sf : frame_typed src -> send_event SendIdle (TnTake i src sf) (SendFrame i src sf 0 0 None)
| SendBuild i src sf idx anc time pkt ext payload cnt :
    idx < tn_total src ->
    tn_payload src anc = inr (payload, cnt) ->
    nb_body pkt = AncBody ext (u16 (arr_len payload)) (tn_f_bits cfg sf) (u8 cnt) payload ->
    nb_pkt_len pkt = 62 + arr_len payload -> nb_port pkt = 0 -> nb_idx pkt = idx ->
    nb_marker pkt = (idx =? tn_total src - 1) ->
    (forall t, time = Some t -> nb_tmstamp pkt = t) ->
    send_event (SendFrame i src sf idx anc time)
      (TnBuild pkt (if tn_send_r cfg then Some (tx_ancillary_session_update_redundant pkt) else None))
      (SendFrame i src sf (idx + 1) (anc + cnt) (Some (nb_tmstamp pkt)))
| SendDone i src sf idx anc time : idx = tn_total src -> send_event (SendFrame i src sf idx anc time) (TnDone i) SendIdle
| SendAbort i src sf idx anc time code :
    tn_payload src anc = inl code -> send_event (SendFrame i src sf idx anc time) (TnDone i) SendIdle
| SendOut st q pkt : send_event st (TnSend q pkt) st.

Inductive send_run (st : send_state) : list tn_event -> send_state -> Prop :=
| SendNil : send_run st [] st
| SendSnoc l st1 e st2 : send_run st l st1 -> send_event st1 e st2 -> send_run st (l ++ [e]) st2.

(** How a session shows the abstract state. *)
Definition tn_shows (st : send_state) (s : tn_session) : Prop :=
  match st with
  | SendIdle => st40_frame_stat s = ST40_TX_STAT_WAIT_FRAME
  | SendFrame i src sf idx anc time =>
      st40_frame_stat s = ST40_TX_STAT_SENDING_PKTS /\ st40_frame_idx s = i
      /\ (exists f, st40_frames s !! i = Some f /\ tnf_refcnt f = 1 /\ tnf_addr f = src /\ tnf_second_field f = sf)
      /\ st40_pkt_idx s = idx /\ st40_anc_idx s = anc /\ st40_total_pkts s = tn_total src
      /\ 0 <= anc /\ 0 <= idx < tn_total src
      /\ forall t, time = Some t -> tn_rtp_time_stamp s = t /\ tn_calculate_time_cursor s = false
  end.
Definition tn_tracks (s : tn_session) : Prop := exists st, send_run SendIdle (tn_trace s) st /\ tn_shows st s.

(** What [tn_shows] and the trace depend on. *)
Lemma shows_kept st s s' : tn_kept s' = tn_kept s -> tn_shows st s -> tn_shows st s'.
Proof.
  unfold tn_kept. intros [= E1 E2 E3 E4 E5 E6 _ _ _ E7 E8]. destruct st; cbn; [congruence|].
  by rewrite E1, E2, E3, E4, E5, E6, E7, E8.
Qed.

Lemma kept_trace s s' : tn_kept s' = tn_kept s -> tn_trace s' = tn_trace s.
Proof. unfold tn_kept. by intros [= _ _ _ _ _ _ _ _ E _ _]. Qed.

Lemma tracks_kept s s' : tn_kept s' = tn_kept s -> tn_tracks s -> tn_tracks s'.
Proof. intros E (st & Hr & Hs). exists st. rewrite (kept_trace s s' E). split; [done|]. by apply (shows_kept st s). Qed.

Lemma tracks_send q pkt s s' :
  tn_trace s' = tn_trace s ++ [TnSend q pkt] -> (forall st, tn_shows st s -> tn_shows st s') -> tn_tracks s -> tn_tracks s'.
Proof. intros E Hs (st & Hr & H). exists st. rewrite E. split; [|by apply Hs]. eapply SendSnoc; [done|constructor]. Qed.

Lemma flush_tracks env s : tn_tracks s -> tn_tracks (snd (tn_flush cfg env s)).
Proof.
  intros H. unfold tn_flush. set (r1 := match tn_inflight_p s with None => _ | Some pkt => _ end).
  assert (tn_tracks (snd r1)) as H1.
  { unfold r1. destruct (tn_inflight_p s); [|done]. destruct (ne_send_inflight_p env); [|exact H]. by eapply tracks_send. }
  clearbody r1. destruct r1 as [[] s1]; cbn [snd negb] in *; [|done]. destruct (tn_send_r cfg); cbn [negb]; [|done].
  destruct (tn_inflight_r s1); [|done]. destruct (ne_send_inflight_r env); [|exact H1]. by eapply tracks_send.
Qed.

Definition tn_typed (s : tn_session) : Prop := Forall (fun f => frame_typed (tnf_addr f)) (st40_frames s).

Context (Hlen : 0 < tn_max_pkt_len cfg) (Hrfc : tn_fmd cfg = false).

Lemma tn_total_pos src : frame_typed src -> 0 < tn_total src.
Proof. unfold tn_total. case_if; lia. Qed.

(** The code plans the same. *)
Lemma total_planned src : frame_typed src -> fst (tn_total_pkts cfg src) = tn_total src.
Proof using Hlen Hrfc.
  intros Ht. unfold tn_total, tn_total_pkts. rewrite Hrfc. destruct (tn_split_payload cfg); cbn [fst].
  { unfold c_true, arr_len. destruct (Z.eqb_spec (Z.of_nat (length (fr_meta src))) 0); cbn [negb]; lia. }
  assert (0 <= foldr (fun m n => meta_udw_size m + n) 0 (fr_meta src)) as Hs.
  { induction Ht as [|m l Hm _ IH]; [done|]. cbn. unfold is_u16 in Hm. lia. }
  set (n := foldr _ _ _) in *. cbv zeta. set (size := n * 10 / 8). assert (0 <= size) by (apply Z.div_pos; lia).
  pose proof (Z.div_mod size (tn_max_pkt_len cfg) ltac:(lia)) as Hd. pose proof (Z.mod_pos_bound size (tn_max_pkt_len cfg) Hlen) as Hm.
  set (q := size / tn_max_pkt_len cfg) in *. set (k := size mod tn_max_pkt_len cfg) in *.
  assert ((size + tn_max_pkt_len cfg - 1) / tn_max_pkt_len cfg = q + (if c_true k then 1 else 0)) as ->.
  { symmetry. unfold c_true. destruct (Z.eqb_spec k 0); cbn [negb].
    - apply (Z.div_unique_pos _ _ _ (tn_max_pkt_len cfg - 1)); lia.
    - apply (Z.div_unique_pos _ _ _ (k - 1)); lia. }
  assert (0 <= q) by (apply Z.div_pos; lia). destruct (Z.eqb_spec (q + (if c_true k then 1 else 0)) 0) as [E|E]; cbn [fst].
  - by rewrite E.
  - assert (0 <= q + (if c_true k then 1 else 0)) by (case_if; lia). lia.
Qed.

Lemma tn_frame_at_lookup s i f : st40_frames s !! i = Some f -> tn_frame_at s i = f.
Proof. unfold tn_frame_at. by intros ->. Qed.

Lemma next_frame_tracks env s :
  tn_tracks s -> tn_typed s -> tn_op_ok s (TnCall env) -> tn_tracks (snd (tn_next_frame cfg env s)).
Proof using Hlen Hrfc.
  intros (st & Hr & Hs) Hty Hok. unfold tn_next_frame. destruct (st40_frame_stat s) eqn:Est; [|by exists st].
  destruct st as [|i src sf idx anc time]; [|destruct Hs; congruence].
  cbn [tn_op_ok] in Hok. destruct (ne_next_frame env) as [[[[i tfmt] ts] sf]|]; [|by exists SendIdle].
  apply lookup_lt_is_Some in Hok as [f Hf]. rewrite (tn_frame_at_lookup s i f Hf).
  destruct (c_true (tnf_refcnt f)) eqn:Eref; [by exists SendIdle|]. apply negb_false_iff, Z.eqb_eq in Eref. cbv zeta.
  set (g := fun f0 : tn_frame => _). set (s1 := tn_frame_upd i g s).
  assert (st40_frames s1 !! i = Some (g f)) as Hf1 by (cbn; by rewrite list_lookup_alter_eq, Hf).
  rewrite (tn_frame_at_lookup s1 i _ Hf1). change (tnf_addr (g f)) with (tnf_addr f).
  assert (frame_typed (tnf_addr f)) as Htf by (by eapply (Forall_lookup_1 _ _ _ _ Hty)).
  destruct (tn_total_pkts cfg (tnf_addr f)) as [total ok] eqn:Et.
  assert (tn_total (tnf_addr f) = total) as Etot by (rewrite <- total_planned by done; by rewrite Et).
  assert (forall s2, tn_trace s2 = tn_trace s ++ [TnTake i (tnf_addr f) sf] -> st40_frames s2 = st40_frames s1 ->
    st40_frame_idx s2 = i -> st40_frame_stat s2 = ST40_TX_STAT_SENDING_PKTS -> st40_pkt_idx s2 = 0 -> st40_anc_idx s2 = 0 ->
    st40_total_pkts s2 = total -> tn_tracks s2) as Hres.
  { intros s2 E1 E2 E3 E4 E5 E6 E7. exists (SendFrame i (tnf_addr f) sf 0 0 None). rewrite E1.
    split; [eapply SendSnoc; [done|by constructor]|]. cbn [tn_shows]. rewrite E2, Etot. split_and!; try done.
    - exists (g f). split_and!; try done. cbn. rewrite Eref. done.
    - rewrite <- Etot. by apply tn_total_pos. }
  destruct ok; cbn [snd]; by apply Hres.
Qed.

Lemma frame_time_tracks env s :
  tn_tracks s -> tn_tracks (tn_frame_time cfg media_clk_to_tai max_future_epochs env s).
Proof.
  intros (st & Hr & Hs). pose proof (untimed_frame_time env s) as E. set (s' := tn_frame_time _ _ _ _ _) in *.
  assert (tn_calculate_time_cursor s = false -> s' = s) as Hsame.
  { intros Hc. unfold s', tn_frame_time. by rewrite Hc. }
  clearbody s'. unfold tn_untimed in E. injection E as E1 E2 E3 E4 E5 E6 _ _ _ _ E7. exists st. rewrite E7. split; [done|].
  destruct st as [|i src sf idx anc time]; cbn [tn_shows] in *; [congruence|].
  rewrite E2, E3, E4, E5, E6. destruct Hs as (S1 & S2 & (f & Hf & F1 & F2 & F3) & S4 & S5 & S6 & S7 & S8 & S9). split_and!; try done; try lia.
  - assert ((fun f => (tnf_refcnt f, tnf_addr f, tnf_second_field f)) <$> st40_frames s' !! i = Some (1, src, sf)) as Hl.
    { rewrite <- list_lookup_fmap, E1, list_lookup_fmap, Hf. cbn. congruence. }
    apply fmap_Some in Hl as (f' & Hf' & [= G1 G2 G3]). by exists f'.
  - intros t Ht. destruct (S9 t Ht) as [T1 T2]. by rewrite (Hsame T2).
Qed.

Lemma abort_tracks s code :
  tn_tracks s -> (forall i src sf idx anc time, tn_shows (SendFrame i src sf idx anc time) s -> tn_payload src anc = inl code) ->
  tn_tracks (tx_ancillary_session_abort_frame s).
Proof.
  intros (st & Hr & Hs) Hpay. unfold tx_ancillary_session_abort_frame.
  destruct (st40_frame_stat s) eqn:Est; [by exists st|].
  destruct st as [|i src sf idx anc time]; [cbn in Hs; congruence|].
  exists SendIdle. split; [|done]. change (send_run SendIdle (tn_trace s ++ [TnDone (st40_frame_idx s)]) SendIdle).
  eapply SendSnoc; [done|]. pose proof (Hpay _ _ _ _ _ _ Hs). destruct Hs as (_ & -> & _). by eapply SendAbort.
Qed.

Lemma fill_count metas data : forall payload cnt payload' cnt',
  tn_fill cfg metas data payload cnt = inr (payload', cnt') -> cnt <= cnt'.
Proof.
  induction metas as [|m metas IH]; intros payload cnt payload' cnt'; cbn [tn_fill]; [intros [= _ <-]; lia|].
  case_if; [intros [= _ <-]; lia|]. case_if; [done|]. destruct (st40_rfc8331_encode_packet _ _ _ _) as [[ret buf] written].
  case_if; [done|]. case_if; [done|]. case_if; [intros [= _ <-]; lia|]. intros H%IH. lia.
Qed.

(** The packet the sender builds in a state. *)
Lemma packet_spec env s i src sf idx anc time :
  tn_shows (SendFrame i src sf idx anc time) s ->
  match fst (tx_ancillary_session_build_packet cfg env s) with
  | inl code => tn_payload src anc = inl code
  | inr (pkt, next) =>
      exists payload cnt, tn_payload src anc = inr (payload, cnt) /\ next = anc + cnt /\ 0 <= cnt
      /\ nb_body pkt = AncBody (st40_ext_seq_id s) (u16 (arr_len payload)) (tn_f_bits cfg sf) (u8 cnt) payload
      /\ nb_pkt_len pkt = 62 + arr_len payload /\ nb_port pkt = 0 /\ nb_idx pkt = idx
      /\ nb_marker pkt = (idx =? tn_total src - 1) /\ nb_tmstamp pkt = tn_rtp_time_stamp s /\ nb_seq pkt = st40_seq_id s
  end.
Proof using Hrfc.
  intros (S1 & S2 & (f & Hf & F1 & F2 & F3) & S4 & S5 & S6 & S7 & S8 & S9).
  unfold tx_ancillary_session_build_packet. rewrite Hrfc.
  pose proof (kept_advance s) as Ek. set (s1 := tx_ancillary_seq_advance s) in *. clearbody s1. unfold tn_kept in Ek.
  injection Ek as E1 E2 E3 E4 E5 E6 _ _ _ E7 _. unfold tn_frame_at. rewrite E1, E2, S2, Hf.
  change (default tn_frame_none (Some f)) with f. rewrite F2, E4, E5, E6, E7, S4, S5, S6. fold (tn_payload src anc).
  destruct (tn_payload src anc) as [code|[payload cnt]] eqn:Ep; [done|]. exists payload, cnt. apply fill_count in Ep.
  cbn [fst nb_body nb_pkt_len nb_port nb_idx nb_marker nb_tmstamp nb_seq]. rewrite F3.
  rewrite (proj2 (Z.gtb_lt (tn_total src) 0)) by lia. by split_and!.
Qed.

(** What the sends and the end of a frame depend on. *)
Definition tn_place (s : tn_session) :=
  (st40_frames s, st40_frame_idx s, st40_frame_stat s, st40_pkt_idx s, st40_anc_idx s, st40_total_pkts s,
   (tn_rtp_time_stamp s, tn_calculate_time_cursor s)).

Lemma send_place q ok code pkt st s :
  send_run SendIdle (tn_trace s) st ->
  let s' := snd (tn_send q ok code pkt s) in tn_place s' = tn_place s /\ send_run SendIdle (tn_trace s') st.
Proof.
  intros H. unfold tn_send. destruct ok; cbn [snd].
  - split; [done|]. eapply SendSnoc; [done|constructor].
  - split; case_if; done.
Qed.

Lemma frame_end_tracks i src sf idx anc t s :
  send_run SendIdle (tn_trace s) (SendFrame i src sf idx anc (Some t)) ->
  st40_frame_stat s = ST40_TX_STAT_SENDING_PKTS -> st40_frame_idx s = i ->
  (exists f, st40_frames s !! i = Some f /\ tnf_refcnt f = 1 /\ tnf_addr f = src /\ tnf_second_field f = sf) ->
  st40_pkt_idx s = idx -> st40_anc_idx s = anc -> st40_total_pkts s = tn_total src -> 0 <= anc -> 0 <= idx <= tn_total src ->
  tn_rtp_time_stamp s = t -> tn_calculate_time_cursor s = negb (idx <? tn_total src) -> tn_tracks (tn_frame_end cfg s).
Proof.
  intros Hr E1 E2 E3 E4 E5 E6 E7 E8 E9 E10. unfold tn_frame_end. rewrite E4, E6. destruct (Z.ltb_spec idx (tn_total src)) as [Hlt|Hge].
  - exists (SendFrame i src sf idx anc (Some t)). split; [done|]. cbn. split_and!; try done; try lia.
    intros t' [= <-]. split; [done|]. by rewrite E10.
  - exists SendIdle. cbv zeta. split; [|case_if; done].
    assert (send_run SendIdle (tn_trace s ++ [TnDone (st40_frame_idx s)]) SendIdle) as H.
    { eapply SendSnoc; [done|]. rewrite E2. apply SendDone. lia. }
    case_if; exact H.
Qed.

Lemma post_tracks env pkt i src sf idx anc time cnt s :
  send_run SendIdle (tn_trace s) (SendFrame i src sf idx anc time) ->
  tn_shows (SendFrame i src sf idx anc time) (s <| st40_anc_idx := anc |>) ->
  send_event (SendFrame i src sf idx anc time)
    (TnBuild pkt (if tn_send_r cfg then Some (tx_ancillary_session_update_redundant pkt) else None))
    (SendFrame i src sf (idx + 1) (anc + cnt) (Some (nb_tmstamp pkt))) ->
  st40_anc_idx s = anc + cnt -> 0 <= cnt -> nb_tmstamp pkt = tn_rtp_time_stamp s ->
  tn_tracks (snd (tn_post cfg tsc_next_pkt env pkt
    (if tn_send_r cfg then Some (tx_ancillary_session_update_redundant pkt) else None) s)).
Proof.
  intros Hr (S1 & S2 & S3 & S4 & _ & S6 & S7 & S8 & S9) He Ea Hc Ht. cbn in S1, S2, S3, S4, S6. unfold tn_post.
  set (pkt_r := if tn_send_r cfg then _ else None) in *. cbv zeta.
  set (s1 := (_ <| tn_tsc_time_cursor := _ |>) <| tn_calculate_time_cursor := _ |>).
  assert (tn_place s1 = (st40_frames s, st40_frame_idx s, st40_frame_stat s, Z.succ (st40_pkt_idx s), st40_anc_idx s,
    st40_total_pkts s, (tn_rtp_time_stamp s, negb (Z.succ (st40_pkt_idx s) <? st40_total_pkts s)))
    /\ tn_trace s1 = tn_trace s ++ [TnBuild pkt pkt_r]) as [E1 E2].
  { unfold s1. by destruct pkt_r. }
  clearbody s1.
  assert (send_run SendIdle (tn_trace s1) (SendFrame i src sf (idx + 1) (anc + cnt) (Some (nb_tmstamp pkt)))) as H1.
  { rewrite E2. by eapply SendSnoc. }
  destruct (send_place 0 (ne_send_p env) STI_FRAME_PKT_ENQUEUE_FAIL pkt _ s1 H1) as [P2 H2].
  destruct (tn_send 0 (ne_send_p env) STI_FRAME_PKT_ENQUEUE_FAIL pkt s1) as [d s2]. cbn [snd] in *.
  assert (let r := match pkt_r with None => (false, s2) | Some p => tn_send 1 (ne_send_r env) STI_FRAME_PKT_R_ENQUEUE_FAIL p s2 end in
    tn_place (snd r) = tn_place s1 /\ send_run SendIdle (tn_trace (snd r)) (SendFrame i src sf (idx + 1) (anc + cnt) (Some (nb_tmstamp pkt))))
    as [P3 H3].
  { destruct pkt_r as [p|]; cbn [snd]; [|done]. destruct (send_place 1 (ne_send_r env) STI_FRAME_PKT_R_ENQUEUE_FAIL p _ s2 H2) as [P3 H3].
    split; [congruence|done]. }
  destruct (match pkt_r with None => _ | Some p => _ end) as [d2 s3]. cbn [snd] in *.
  rewrite E1 in P3. unfold tn_place in P3. injection P3 as Q1 Q2 Q3 Q4 Q5 Q6 Q7 Q8.
  apply (frame_end_tracks i src sf (idx + 1) (anc + cnt) (nb_tmstamp pkt));
    rewrite ?Q1, ?Q2, ?Q3, ?Q4, ?Q5, ?Q6, ?Q7, ?Q8; try done; try lia.
  rewrite S4, S6. by replace (Z.succ idx) with (idx + 1) by lia.
Qed.

Lemma flush_frames env s : st40_frames (snd (tn_flush cfg env s)) = st40_frames s.
Proof.
  unfold tn_flush. set (r1 := match tn_inflight_p s with None => _ | Some pkt => _ end).
  assert (st40_frames (snd r1) = st40_frames s) as E by (unfold r1; repeat case_match; done).
  clearbody r1. destruct r1 as [[] s1]; cbn [snd negb] in *; [|done]. rewrite <- E. repeat case_match; done.
Qed.

Lemma tasklet_tracks env s :
  tn_tracks s -> tn_typed s -> tn_op_ok s (TnCall env) -> tn_tracks (tn_step s (TnCall env)).
Proof using Hlen Hrfc.
  intros H Hty Hok. cbn [tn_step]. unfold tx_ancillary_session_tasklet_frame.
  destruct (ne_ring_full env); [by apply (tracks_kept s)|].
  pose proof (flush_tracks env s H) as H1. pose proof (flush_frames env s) as Ef.
  destruct (tn_flush cfg env s) as [[] s1]; cbn [snd negb] in *; [|done].
  assert (tn_typed s1) as Hty1 by (unfold tn_typed; by rewrite Ef).
  assert (tn_op_ok s1 (TnCall env)) as Hok1 by (cbn [tn_op_ok] in *; by rewrite Ef).
  pose proof (next_frame_tracks env s1 H1 Hty1 Hok1) as H2.
  assert (fst (tn_next_frame cfg env s1) = true -> st40_frame_stat (snd (tn_next_frame cfg env s1)) = ST40_TX_STAT_SENDING_PKTS) as Hst.
  { unfold tn_next_frame. repeat case_match; done. }
  destruct (tn_next_frame cfg env s1) as [[] s2]; cbn [fst snd negb] in *; [|done]. specialize (Hst eq_refl).
  pose proof (frame_time_tracks env s2 H2) as H3. pose proof (untimed_frame_time env s2) as Et.
  set (s3 := tn_frame_time _ _ _ _ _) in *. clearbody s3. unfold tn_untimed in Et. injection Et as _ _ Et _ _ _ _ _ _ _ _.
  case_if; [by apply (tracks_kept s3)|].
  assert (exists i src sf idx anc time, send_run SendIdle (tn_trace s3) (SendFrame i src sf idx anc time)
    /\ tn_shows (SendFrame i src sf idx anc time) s3) as (i & src & sf & idx & anc & time & Hr & Hs).
  { destruct H3 as ([|i src sf idx anc time] & Hr & Hs); [cbn in Hs; congruence|]. by exists i, src, sf, idx, anc, time. }
  pose proof (packet_spec env s3 i src sf idx anc time Hs) as Hp.
  destruct (build_cases env s3) as (s4 & Ek & [-> |[(code & Hb & ->)|(pkt & next & Hb & ->)]]); cbn [snd].
  - by apply (tracks_kept s3).
  - rewrite Hb in Hp. apply (abort_tracks s4 code); [by apply (tracks_kept s3)|].
    intros i' src' sf' idx' anc' time' Hs'. apply (shows_kept _ s4 s3 (eq_sym Ek)) in Hs'.
    destruct Hs as (_ & <- & (f & Hf & _ & <- & _) & _ & <- & _), Hs' as (_ & <- & (f' & Hf' & _ & <- & _) & _ & <- & _). congruence.
  - rewrite Hb in Hp. destruct Hp as (payload & cnt & P1 & -> & P3 & P4 & P5 & P6 & P7 & P8 & P9 & P10).
    apply (post_tracks env pkt i src sf idx anc time cnt); try done.
    + change (tn_trace (s4 <| st40_anc_idx := _ |>)) with (tn_trace s4). by rewrite (kept_trace s3 s4 Ek).
    + apply (shows_kept _ s3); [|done]. destruct Hs as (_ & _ & _ & _ & S5 & _). unfold tn_kept in *. cbn.
      injection Ek as K1 K2 K3 K4 K5 K6 K7 K8 K9 K10 K11. congruence.
    + eapply SendBuild; try done; [apply Hs|]. intros t Ht. rewrite P9. by apply Hs.
    + unfold tn_kept in Ek. injection Ek as K1 K2 K3 K4 K5 K6 K7 K8 K9 K10 K11. rewrite P9. by cbn.
Qed.

Abbreviation addrs := (fun s => tnf_addr <$> st40_frames s).

Lemma addrs_upd i g s : (forall f, tnf_addr (g f) = tnf_addr f) -> addrs (tn_frame_upd i g s) = addrs s.
Proof. intros Hg. change (st40_frames (tn_frame_upd i g s)) with (alter g i (st40_frames s)). by apply fmap_alter_same. Qed.

Lemma addrs_untimed s s' : tn_untimed s' = tn_untimed s -> addrs s' = addrs s.
Proof.
  unfold tn_untimed. intros [= E _ _ _ _ _ _ _ _ _ _].
  apply (f_equal (fmap (M := list) (fun x => snd (fst x)))) in E. by rewrite <- !list_fmap_compose in E.
Qed.

Lemma addrs_next_frame env s : addrs (snd (tn_next_frame cfg env s)) = addrs s.
Proof.
  unfold tn_next_frame. destruct (st40_frame_stat s); [|done]. destruct (ne_next_frame env) as [[[[i tfmt] ts] sf]|]; [|done].
  case_if; [done|]. cbv zeta. destruct (tn_total_pkts _ _) as [total []]; cbn [snd]; by apply (addrs_upd i).
Qed.

Lemma addrs_post env pkt pkt_r s : addrs (snd (tn_post cfg tsc_next_pkt env pkt pkt_r s)) = addrs s.
Proof.
  unfold tn_post. cbv zeta. set (s1 := (_ <| tn_tsc_time_cursor := _ |>) <| tn_calculate_time_cursor := _ |>).
  assert (st40_frames s1 = st40_frames s) as E1 by (unfold s1; by destruct pkt_r). clearbody s1.
  assert (forall q ok code p s, st40_frames (snd (tn_send q ok code p s)) = st40_frames s) as Hs.
  { intros. unfold tn_send. destruct ok; [done|]. cbn [snd]. case_if; done. }
  pose proof (Hs 0 (ne_send_p env) STI_FRAME_PKT_ENQUEUE_FAIL pkt s1) as E2. destruct (tn_send 0 _ _ _ _) as [d s2]. cbn [snd] in E2.
  set (r := match pkt_r with None => _ | Some p => _ end).
  assert (st40_frames (snd r) = st40_frames s2) as E3 by (unfold r; destruct pkt_r; [apply Hs|done]). clearbody r.
  destruct r as [d2 s3]. cbn [snd] in *. assert (addrs s3 = addrs s) as <- by congruence. unfold tn_frame_end. case_if; [done|]. cbv zeta.
  transitivity (addrs (tn_frame_upd (st40_frame_idx s3) (fun f => f <| tnf_refcnt ::= fun n => i32 (n - 1) |>) (tn_emit (TnDone (st40_frame_idx s3)) s3)));
    [case_if; done|]. etransitivity; [by apply addrs_upd|done].
Qed.

(** No call changes what is in the frames. *)
Lemma addrs_tasklet env s : addrs (tn_step s (TnCall env)) = addrs s.
Proof.
  cbn [tn_step]. unfold tx_ancillary_session_tasklet_frame. destruct (ne_ring_full env); [done|].
  pose proof (flush_frames env s) as E1. destruct (tn_flush cfg env s) as [[] s1]; cbn [snd negb] in *; [|by rewrite E1].
  rewrite <- E1. clear E1. rewrite <- (addrs_next_frame env s1). destruct (tn_next_frame cfg env s1) as [[] s2]; cbn [snd negb]; [|done].
  rewrite <- (addrs_untimed _ _ (untimed_frame_time env s2)). set (s3 := tn_frame_time _ _ _ _ _). clearbody s3.
  case_if; [done|].
  destruct (build_cases env s3) as (s4 & Ek & [-> |[(code & _ & ->)|(pkt & next & _ & ->)]]); cbn [snd];
    unfold tn_kept in Ek; injection Ek as Ek _ _ _ _ _ _ _ _ _ _; rewrite <- Ek.
  - done.
  - unfold tx_ancillary_session_abort_frame. destruct (st40_frame_stat s4); [done|].
    etransitivity; [by apply (addrs_upd (st40_frame_idx s4))|done].
  - by rewrite addrs_post.
Qed.

Definition tn_good (s : tn_session) : Prop := tn_tracks s /\ tn_typed s.

Lemma typed_addrs s : tn_typed s <-> Forall frame_typed (addrs s).
Proof. unfold tn_typed. by rewrite Forall_fmap. Qed.

Lemma good_step s op : tn_good s -> tn_op_ok s op -> tn_good (tn_step s op).
Proof using Hlen Hrfc.
  intros [H1 H2] Hok. destruct op as [env|i content].
  - split; [by apply tasklet_tracks|]. apply typed_addrs. rewrite addrs_tasklet. by apply typed_addrs.
  - destruct Hok as [Hok Hty]. cbn [tn_step]. split.
    + destruct H1 as (st & Hr & Hs). exists st. split; [done|]. destruct st as [|j src sf idx anc time]; [done|].
      destruct Hs as (S1 & S2 & (f & Hf & F1 & F2) & S4). cbn [tn_shows]. split_and!; try apply S4; try done.
      exists f. split; [|done]. cbn. rewrite list_lookup_alter_ne; [done|]. intros ->.
      rewrite (tn_frame_at_lookup _ _ _ Hf) in Hok. lia.
    + unfold tn_typed. cbn. apply Forall_alter; [done|]. intros f Hf _. exact Hty.
Qed.

(** ** Numbers *)

(** Every entry of the frame can be sent. *)
Definition frame_sendable (src : st40_frame) : Prop :=
  forall anc, 0 <= anc -> exists x, tn_payload src anc = inr x.
Definition tn_op_smooth (op : tn_op) : Prop :=
  match op with TnCall env => ne_alloc_r env = true | TnFill _ src => frame_sendable src end.

Record tn_numbered (s : tn_session) : Prop := {
  nm_seq : st40_seq_id s = u16 (arr_len (tn_built 0 (tn_trace s)));
  nm_built : forall n pkt, tn_built 0 (tn_trace s) !! n = Some pkt -> nb_seq pkt = u16 (Z.of_nat n);
  nm_sendable : Forall frame_sendable (addrs s);
}.

Lemma numbered_same s s' :
  st40_seq_id s' = st40_seq_id s -> tn_built 0 (tn_trace s') = tn_built 0 (tn_trace s) -> addrs s' = addrs s ->
  tn_numbered s -> tn_numbered s'.
Proof. intros E1 E2 E3 []. split; cbv beta in *; rewrite ?E1, ?E2, ?E3; done. Qed.

Lemma seq_advance_u16 s n : st40_seq_id s = u16 n -> st40_seq_id (tx_ancillary_seq_advance s) = u16 (n + 1).
Proof. intros E. unfold tx_ancillary_seq_advance, UINT16_MAX. rewrite E. case_if; cbn; zbool; mlia. Qed.

(** The number after a build that cannot fail half-way. *)
Lemma build_seq env s pkt next :
  ne_alloc_r env = true -> fst (tx_ancillary_session_build_packet cfg env s) = inr (pkt, next) ->
  let r := tn_build cfg env s in
  addrs (snd r) = addrs s /\ tn_trace (snd r) = tn_trace s
  /\ (fst r = None /\ st40_seq_id (snd r) = st40_seq_id s
      \/ fst r = Some (pkt, if tn_send_r cfg then Some (tx_ancillary_session_update_redundant pkt) else None)
         /\ st40_seq_id (snd r) = st40_seq_id (tx_ancillary_seq_advance s)).
Proof using Hrfc.
  intros Ha Hb. unfold tn_build. destruct (negb (ne_alloc_p env)); [split; [done|]; split; [done|]; by left|].
  destruct (negb (tn_no_chain cfg) && negb (ne_alloc_chain env)); [split; [done|]; split; [done|]; by left|].
  pose proof (kept_packet env s) as Ek.
  assert (st40_seq_id (snd (tx_ancillary_session_build_packet cfg env s)) = st40_seq_id (tx_ancillary_seq_advance s)) as Es.
  { revert Hb. unfold tx_ancillary_session_build_packet. rewrite Hrfc. by destruct (tn_fill _ _ _ _ _) as [|[]]. }
  destruct (tx_ancillary_session_build_packet cfg env s) as [[code|[pkt' next']] s1]; cbn [snd fst] in *; [done|].
  injection Hb as -> ->. rewrite Ha. cbn [negb]. rewrite andb_false_r. cbn [fst snd].
  unfold tn_kept in Ek. injection Ek as K1 _ _ _ _ _ _ _ K9 _ _.
  split; [cbn; by rewrite K1|]. split; [done|]. by right.
Qed.

Lemma post_built env pkt pkt_r s :
  let s' := snd (tn_post cfg tsc_next_pkt env pkt pkt_r s) in
  tn_built 0 (tn_trace s') = tn_built 0 (tn_trace s) ++ [pkt] /\ st40_seq_id s' = st40_seq_id s.
Proof.
  unfold tn_post. cbv zeta. set (s1 := (_ <| tn_tsc_time_cursor := _ |>) <| tn_calculate_time_cursor := _ |>).
  assert (tn_trace s1 = tn_trace s ++ [TnBuild pkt pkt_r] /\ st40_seq_id s1 = st40_seq_id s) as [E1 E2] by (unfold s1; by destruct pkt_r).
  clearbody s1.
  assert (forall q ok code p s, let s' := snd (tn_send q ok code p s) in
    tn_built 0 (tn_trace s') = tn_built 0 (tn_trace s) /\ st40_seq_id s' = st40_seq_id s) as Hs.
  { intros. unfold s', tn_send. destruct ok; cbn [snd].
    - change (tn_trace (tn_emit ?e ?t)) with (tn_trace t ++ [e]). by rewrite tn_built_app, app_nil_r.
    - case_if; done. }
  destruct (Hs 0 (ne_send_p env) STI_FRAME_PKT_ENQUEUE_FAIL pkt s1) as [E3 E4]. destruct (tn_send 0 _ _ _ _) as [d s2]. cbn [snd] in *.
  set (r := match pkt_r with None => _ | Some p => _ end).
  assert (tn_built 0 (tn_trace (snd r)) = tn_built 0 (tn_trace s2) /\ st40_seq_id (snd r) = st40_seq_id s2) as [E5 E6].
  { unfold r; destruct pkt_r; [apply Hs|done]. }
  clearbody r. destruct r as [d2 s3]. cbn [snd] in *.
  assert (tn_built 0 (tn_trace (tn_frame_end cfg s3)) = tn_built 0 (tn_trace s3) /\ st40_seq_id (tn_frame_end cfg s3) = st40_seq_id s3) as [E7 E8].
  { unfold tn_frame_end. case_if; [done|]. cbv zeta.
    assert (tn_built 0 (tn_trace s3 ++ [TnDone (st40_frame_idx s3)]) = tn_built 0 (tn_trace s3)) as E9
      by (by rewrite tn_built_app, app_nil_r). case_if; exact (conj E9 eq_refl). }
  rewrite E7, E8, E5, E6, E3, E4, E1, E2, tn_built_app. done.
Qed.

Lemma flush_built env s :
  tn_built 0 (tn_trace (snd (tn_flush cfg env s))) = tn_built 0 (tn_trace s)
  /\ st40_seq_id (snd (tn_flush cfg env s)) = st40_seq_id s.
Proof.
  assert (forall q pkt t, tn_built 0 (tn_trace t ++ [TnSend q pkt]) = tn_built 0 (tn_trace t)) as Hb.
  { intros. by rewrite tn_built_app, app_nil_r. }
  unfold tn_flush. set (r1 := match tn_inflight_p s with None => _ | Some pkt => _ end).
  assert (tn_built 0 (tn_trace (snd r1)) = tn_built 0 (tn_trace s) /\ st40_seq_id (snd r1) = st40_seq_id s) as [<- <-].
  { unfold r1. destruct (tn_inflight_p s); [|done]. destruct (ne_send_inflight_p env); [|done]. split; [exact (Hb _ _ s)|done]. }
  clearbody r1. destruct r1 as [[] s1]; cbn [snd negb]; [|done]. destruct (tn_send_r cfg); cbn [negb]; [|done].
  destruct (tn_inflight_r s1); [|done]. destruct (ne_send_inflight_r env); [|done]. split; [exact (Hb _ _ s1)|done].
Qed.

Lemma next_frame_built env s :
  tn_built 0 (tn_trace (snd (tn_next_frame cfg env s))) = tn_built 0 (tn_trace s)
  /\ st40_seq_id (snd (tn_next_frame cfg env s)) = st40_seq_id s.
Proof.
  unfold tn_next_frame. destruct (st40_frame_stat s); [|done]. destruct (ne_next_frame env) as [[[[i tfmt] ts] sf]|]; [|done].
  case_if; [done|]. cbv zeta. destruct (tn_total_pkts _ _) as [total []]; cbn [snd]; (split; [|done]);
    change (tn_built 0 (tn_trace s ++ [TnTake i (tnf_addr (tn_frame_at (tn_frame_upd i (fun f => f <| tnf_refcnt ::= fun n => i32 (n + 1) |> <| tnf_tfmt := tfmt |>
                       <| tnf_timestamp := ts |> <| tnf_second_field := sf |>
                       <| tnf_rtp_timestamp := 0 |> <| tnf_epoch := u64 (tn_cur_epochs s + 1) |>) s) i)) sf]) = tn_built 0 (tn_trace s));
    by rewrite tn_built_app, app_nil_r.
Qed.

Lemma numbered_step s op :
  tn_numbered s -> tn_good s -> tn_op_ok s op -> tn_op_smooth op -> tn_numbered (tn_step s op).
Proof using Hlen Hrfc.
  intros Hn [Htr Hty] Hok Hsm. destruct op as [env|i content].
  2:{ destruct Hn as [N1 N2 N3]. split; cbn; try done. rewrite (list_fmap_alter tnf_addr _ (fun _ => content)) by (by apply Forall_true).
      apply Forall_alter; by auto. }
  cbn [tn_op_smooth] in Hsm. cbn [tn_step]. unfold tx_ancillary_session_tasklet_frame.
  destruct (ne_ring_full env); [by apply (numbered_same s)|].
  destruct (flush_built env s) as [B1 Q1]. pose proof (flush_frames env s) as Ef. pose proof (flush_tracks env s Htr) as T1.
  destruct (tn_flush cfg env s) as [[] s1]; cbn [snd negb] in *; [|apply (numbered_same s); cbv beta; congruence].
  assert (tn_numbered s1) as N1 by (apply (numbered_same s); cbv beta; congruence).
  assert (tn_typed s1) as Hty1 by (unfold tn_typed; by rewrite Ef).
  assert (tn_op_ok s1 (TnCall env)) as Hok1 by (cbn [tn_op_ok] in *; by rewrite Ef).
  destruct (next_frame_built env s1) as [B2 Q2]. pose proof (addrs_next_frame env s1) as A2.
  pose proof (next_frame_tracks env s1 T1 Hty1 Hok1) as T2.
  assert (fst (tn_next_frame cfg env s1) = true -> st40_frame_stat (snd (tn_next_frame cfg env s1)) = ST40_TX_STAT_SENDING_PKTS) as Hst.
  { unfold tn_next_frame. repeat case_match; done. }
  destruct (tn_next_frame cfg env s1) as [[] s2]; cbn [fst snd negb] in *; [|by apply (numbered_same s1)]. specialize (Hst eq_refl).
  assert (tn_numbered s2) as N2 by (by apply (numbered_same s1)).
  pose proof (frame_time_tracks env s2 T2) as T3. pose proof (untimed_frame_time env s2) as Et.
  pose proof (addrs_untimed _ _ Et) as A3. set (s3 := tn_frame_time _ _ _ _ _) in *. clearbody s3.
  unfold tn_untimed in Et. injection Et as _ _ Et _ _ _ Eq _ _ _ Etr.
  assert (tn_numbered s3) as N3 by (apply (numbered_same s2); try done; by rewrite Etr).
  case_if; [by apply (numbered_same s3)|].
  destruct T3 as ([|i src sf idx anc time] & Hr & Hs); [cbn in Hs; congruence|].
  pose proof (packet_spec env s3 i src sf idx anc time Hs) as Hp.
  destruct (fst (tx_ancillary_session_build_packet cfg env s3)) as [code|[pkt next]] eqn:Eb.
  { exfalso. destruct Hs as (_ & _ & (f & Hf & _ & <- & _) & _ & _ & _ & Hanc & _). pose proof (nm_sendable _ N3) as Hsd.
    eapply Forall_lookup_1 in Hsd; [|rewrite list_lookup_fmap, Hf; reflexivity]. destruct (Hsd anc Hanc) as [x Hx]. congruence. }
  destruct Hp as (payload & cnt & _ & _ & _ & _ & _ & _ & _ & _ & _ & Hseq).
  destruct (build_seq env s3 pkt next Hsm Eb) as (A4 & Tr4 & Hr4). destruct (tn_build cfg env s3) as [o s4]. cbn [fst snd] in *.
  destruct Hr4 as [[-> Q4]|[-> Q4]]; cbn [snd].
  - apply (numbered_same s3); try done. by rewrite Tr4.
  - destruct (post_built env pkt (if tn_send_r cfg then Some (tx_ancillary_session_update_redundant pkt) else None) s4) as [B5 Q5].
    pose proof (addrs_post env pkt (if tn_send_r cfg then Some (tx_ancillary_session_update_redundant pkt) else None) s4) as A5.
    cbv beta in A4, A5. set (s5 := snd (tn_post _ _ _ _ _ _)) in *. clearbody s5.
    destruct N3 as [M1 M2 M3]. rewrite Tr4 in B5. split; cbv beta in *.
    + rewrite Q5, Q4, B5. rewrite (seq_advance_u16 s3 _ M1). unfold arr_len. rewrite length_app. cbn. mlia.
    + rewrite B5. intros n p [Hl|[Hl H1]]%lookup_app_Some; [by apply M2|].
      apply list_lookup_singleton_Some in H1 as [E1 <-]. rewrite Hseq, M1. unfold arr_len. f_equal. lia.
    + by rewrite A5, A4.
Qed.

Lemma numbered_run l : forall s,
  tn_numbered s -> tn_good s -> tn_ops_ok l s -> Forall tn_op_smooth l -> tn_numbered (tn_run l s) /\ tn_good (tn_run l s).
Proof using Hlen Hrfc.
  induction l as [|op l IH]; intros s Hn Hg Hl Hs; [done|]. destruct Hl as [Hok Hl]. inversion Hs as [|? ? Hs1 Hs2]; subst.
  apply IH; [by apply numbered_step|by apply good_step|done|done].
Qed.

Lemma attach_good frames ptp : Forall frame_typed frames -> tn_good (tx_ancillary_session_attach cfg frames ptp).
Proof.
  intros H. split.
  - exists SendIdle. split; [constructor|done].
  - apply typed_addrs. cbn. rewrite <- list_fmap_compose. cbn. by rewrite list_fmap_id.
Qed.

Lemma attach_numbered frames ptp : Forall frame_sendable frames -> tn_numbered (tx_ancillary_session_attach cfg frames ptp).
Proof. intros H. split; [done|done|]. cbn. rewrite <- list_fmap_compose. cbn. by rewrite list_fmap_id. Qed.

End Send.

(** C23: an ancillary sender loses, repeats and reorders nothing. After any calls of the
    tasklet, with any failing allocations and full queues, what was sent on a port
    followed by the packet that waits there is what was built for the port, in order. (A
    packet that is freed because the one for the second port cannot be allocated does not
    count as built: its number is used up, [anc_seq_gap].) *)
Theorem tn_stream_order cfg media_clk_to_tai max_future_epochs tsc_next_pkt frames ptp l s_port :
  tn_is_port s_port ->
  let s := tn_run cfg media_clk_to_tai max_future_epochs tsc_next_pkt l (tx_ancillary_session_attach cfg frames ptp) in
  tn_sent s_port (tn_trace s) ++ tn_waiting s_port s = tn_built s_port (tn_trace s).
Proof.
  intros Hp s.
  assert (tn_ordered (fun _ => []) s) as H; [|specialize (H s_port Hp); by rewrite app_nil_r in H].
  unfold s, tn_run. assert (tn_ordered (fun _ => []) (tx_ancillary_session_attach cfg frames ptp)) as H0.
  { by intros q [-> | ->]. }
  revert H0. generalize (tx_ancillary_session_attach cfg frames ptp). induction l as [|op l IH]; intros s0 H0; [done|].
  cbn [fold_left]. apply IH. by apply tn_ordered_step.
Qed.

(** ** The specification of the sender *)

Section Spec.
Context (cfg : tn_config).

(** [b] is what the encoder writes for the entry [m] of a frame with the user data [data], in
    a buffer with room for it. *)
Definition entry_wire (data : bytes) (m : st40_meta) (b : bytes) : Prop :=
  let need := st40_rfc8331_payload_bytes (meta_udw_size m) in
  exists room f, st40_rfc8331_encode_packet (replicate (Z.to_nat room) 0) room m (drop (Z.to_nat (meta_udw_offset m)) data) = (0, f, need)
    /\ b = take (Z.to_nat need) f.

(** The payload of the packet behind the first [anc] entries: [cnt] entries one behind the
    other, one per packet or as many as fit. *)
Definition pkt_of (src : st40_frame) (anc : Z) (payload : bytes) (cnt : Z) : Prop :=
  let rest := drop (Z.to_nat anc) (fr_meta src) in
  0 <= cnt <= arr_len rest
  /\ (exists pieces, Forall2 (entry_wire (fr_data src)) (take (Z.to_nat cnt) rest) pieces /\ payload = concat pieces)
  /\ arr_len payload <= tn_max_pkt_len cfg
  /\ if tn_split_payload cfg then cnt = Z.min 1 (arr_len rest)
     else forall m, rest !! Z.to_nat cnt = Some m ->
       tn_max_pkt_len cfg < arr_len payload + st40_rfc8331_payload_bytes (meta_udw_size m).

(** An entry of that packet has too much data for an entry or for a packet of its own. *)
Definition pkt_fails (src : st40_frame) (anc : Z) : Prop :=
  exists k m, drop (Z.to_nat anc) (fr_meta src) !! k = Some m
    /\ (tn_split_payload cfg = true -> k = 0%nat)
    /\ (255 < meta_udw_size m \/ (tn_split_payload cfg = true /\ tn_max_pkt_len cfg < st40_rfc8331_payload_bytes (meta_udw_size m))).

(** One event of an RFC 8331 session. *)
Inductive spec_event : send_state -> tn_event -> send_state -> Prop :=
| SpecTake (i : nat) (src : st40_frame) (sf : bool) : spec_event SendIdle (TnTake i src sf) (SendFrame i src sf 0 0 None)
| SpecBuild (i : nat) (src : st40_frame) (sf : bool) (idx anc : Z) (time : option Z) (pkt : tn_mbuf) ext payload cnt :
    idx < tn_total cfg src ->
    pkt_of src anc payload cnt ->
    nb_body pkt = AncBody ext (u16 (arr_len payload)) (if tn_interlaced cfg then if sf then 3 else 2 else 0) (u8 cnt) payload ->
    nb_pkt_len pkt = 62 + arr_len payload -> nb_port pkt = 0 -> nb_idx pkt = idx ->
    nb_marker pkt = (idx =? tn_total cfg src - 1) ->
    (forall t, time = Some t -> nb_tmstamp pkt = t) ->
    spec_event (SendFrame i src sf idx anc time)
      (TnBuild pkt (if tn_send_r cfg
         then Some (mk_tn_mbuf 1 (nb_seq pkt) (nb_tmstamp pkt) (nb_marker pkt) (nb_body pkt) (nb_pkt_len pkt) (nb_idx pkt) (nb_tsc pkt))
         else None))
      (SendFrame i src sf (idx + 1) (anc + cnt) (Some (nb_tmstamp pkt)))
| SpecDone (i : nat) (src : st40_frame) (sf : bool) (idx anc : Z) (time : option Z) : idx = tn_total cfg src -> spec_event (SendFrame i src sf idx anc time) (TnDone i) SendIdle
| SpecAbort (i : nat) (src : st40_frame) (sf : bool) (idx anc : Z) (time : option Z) : pkt_fails src anc -> spec_event (SendFrame i src sf idx anc time) (TnDone i) SendIdle
| SpecOut st q pkt : spec_event st (TnSend q pkt) st.

Inductive spec_run (st : send_state) : list tn_event -> send_state -> Prop :=
| SpecNil : spec_run st [] st
| SpecSnoc l st1 e st2 : spec_run st l st1 -> spec_event st1 e st2 -> spec_run st (l ++ [e]) st2.

Context (Hlen : 0 < tn_max_pkt_len cfg).

Lemma need_pos n : is_u16 n -> 0 < st40_rfc8331_payload_bytes n.
Proof.
  intros Hn. unfold st40_rfc8331_payload_bytes, SIZEOF_RFC8331_HDR. cbv zeta. set (x := Z.ldiff _ _).
  assert (0 <= x); [|lia]. apply Z.ldiff_nonneg. left. assert (0 <= u32 (3 + n + 1)) by apply Z.mod_pos_bound, eq_refl.
  apply Z.add_nonneg_nonneg; [apply Z.div_pos; lia|lia].
Qed.

Lemma encode_result buf room m udw ret f written :
  st40_rfc8331_encode_packet buf room m udw = (ret, f, written) ->
  let need := st40_rfc8331_payload_bytes (meta_udw_size m) in
  (255 < meta_udw_size m /\ ret = - EINVAL) \/ (room < need /\ ret = - ENOSPC) \/ (ret = 0 /\ written = need /\ need <= room).
Proof.
  unfold st40_rfc8331_encode_packet. destruct (Z.gtb_spec (meta_udw_size m) 0xFF); [intros [= <- _ _]; left; lia|].
  cbv zeta. destruct (Z.ltb_spec room (st40_rfc8331_payload_bytes (meta_udw_size m))); [intros [= <- _ _]; right; left; lia|].
  intros [= <- _ <-]. right. right. lia.
Qed.

(** What [tn_fill] makes of the entries left. *)
Lemma fill_spec data metas : forall payload cnt,
  Forall (fun m => is_u16 (meta_udw_size m)) metas -> arr_len payload <= tn_max_pkt_len cfg ->
  (tn_split_payload cfg = true -> payload = []) ->
  match tn_fill cfg metas data payload cnt with
  | inr (payload', cnt') =>
      let k := cnt' - cnt in
      0 <= k <= arr_len metas
      /\ (exists pieces, Forall2 (entry_wire data) (take (Z.to_nat k) metas) pieces /\ payload' = payload ++ concat pieces)
      /\ arr_len payload' <= tn_max_pkt_len cfg
      /\ if tn_split_payload cfg then k = Z.min 1 (arr_len metas)
         else forall m, metas !! Z.to_nat k = Some m ->
           tn_max_pkt_len cfg < arr_len payload' + st40_rfc8331_payload_bytes (meta_udw_size m)
  | inl _ =>
      exists k m, metas !! k = Some m /\ (tn_split_payload cfg = true -> k = 0%nat)
        /\ (255 < meta_udw_size m \/ (tn_split_payload cfg = true /\ tn_max_pkt_len cfg < st40_rfc8331_payload_bytes (meta_udw_size m)))
  end.
Proof using Hlen.
  induction metas as [|m metas IH]; intros payload cnt Hty Hl Hsp; cbn [tn_fill].
  { cbv zeta. rewrite Z.sub_diag. unfold arr_len at 1 3. cbn. split_and!; try done; [exists []; by rewrite app_nil_r|by case_if]. }
  apply Forall_cons in Hty as [Hm Hty]. pose proof (need_pos _ Hm) as Hpos. cbv zeta.
  set (need := st40_rfc8331_payload_bytes (meta_udw_size m)) in *.
  assert (0 <= arr_len metas /\ arr_len (m :: metas) = 1 + arr_len metas) as [Hlm Hlc] by (unfold arr_len; cbn [length]; lia).
  destruct (negb (tn_split_payload cfg) && (arr_len payload + need >? tn_max_pkt_len cfg)) eqn:Estop.
  { rewrite Z.sub_diag. apply andb_true_iff in Estop as [Es Ef]. apply negb_true_iff in Es. rewrite Es. zbool.
    split_and!; try done; try lia; [exists []; by rewrite app_nil_r|]. intros m' [= <-]. fold need. lia. }
  assert (tn_split_payload cfg = false -> arr_len payload + need <= tn_max_pkt_len cfg) as Hroom.
  { intros Hs. rewrite Hs in Estop. cbn in Estop. lia. }
  destruct (Z.geb_spec (arr_len payload) (tn_max_pkt_len cfg)) as [Hfull|Hnf].
  { destruct (tn_split_payload cfg); [rewrite Hsp in Hfull by done; unfold arr_len in Hfull; cbn in Hfull; lia|].
    specialize (Hroom eq_refl). lia. }
  set (room := tn_max_pkt_len cfg - arr_len payload).
  destruct (st40_rfc8331_encode_packet _ room m _) as [[ret f] written] eqn:Ee.
  pose proof (encode_result _ _ _ _ _ _ _ Ee) as Hr. cbv zeta in Hr. fold need in Hr. destruct Hr as [(Hbig & ->)|[(Hsmall & ->)|(-> & -> & Hfit)]].
  { change (- EINVAL =? - ENOSPC) with false. change (- EINVAL <? 0) with true. exists 0%nat, m. split_and!; [done|done|by left]. }
  { change (- ENOSPC =? - ENOSPC) with true. exists 0%nat, m. split_and!; [done|done|]. right.
    unfold room in Hsmall. destruct (tn_split_payload cfg); [|specialize (Hroom eq_refl); lia]. split; [done|].
    rewrite Hsp in Hsmall by done. unfold arr_len in Hsmall. cbn in Hsmall. lia. }
  change (0 =? - ENOSPC) with false. change (0 <? 0) with false. cbv iota.
  set (b := take (Z.to_nat need) f). assert (entry_wire data m b) as Hb by (by exists room, f).
  assert (arr_len b <= need) as Hbl by (unfold b, arr_len; rewrite length_take; lia).
  destruct (tn_split_payload cfg) eqn:Es.
  { split_and!; try lia.
    - exists [b]. replace (Z.to_nat (cnt + 1 - cnt)) with 1%nat by lia. split; [|cbn [concat]; by rewrite app_nil_r].
      change (take 1 (m :: metas)) with [m]. constructor; [done|constructor].
    - rewrite arr_len_app. unfold room in *. lia. }
  specialize (IH (payload ++ b) (cnt + 1) Hty ltac:(rewrite arr_len_app; unfold room in *; lia) ltac:(done)).
  destruct (tn_fill cfg metas data (payload ++ b) (cnt + 1)) as [code|[payload' cnt']].
  - destruct IH as (k & m' & Hk & _ & Hbad). exists (S k), m'. by split_and!.
  - cbv zeta in IH. destruct IH as (I1 & (pieces & I2 & I3) & I4 & I5). set (k := cnt' - (cnt + 1)) in *.
    assert (Z.to_nat (cnt' - cnt) = S (Z.to_nat k)) as Ek by (unfold k in *; lia). rewrite Ek. split_and!; try (unfold k in *; lia).
    + exists (b :: pieces). split; [change (take (S (Z.to_nat k)) (m :: metas)) with (m :: take (Z.to_nat k) metas); by constructor|].
      cbn [concat]. by rewrite I3, app_assoc.
    + exact I5.
Qed.

Lemma build_payload_spec src anc : frame_typed src ->
  match tn_payload cfg src anc with inr (payload, cnt) => pkt_of src anc payload cnt | inl _ => pkt_fails src anc end.
Proof using Hlen.
  intros Hty. unfold tn_payload. pose proof (fill_spec (fr_data src) (drop (Z.to_nat anc) (fr_meta src)) [] 0
    ltac:(by apply Forall_drop) ltac:(unfold arr_len; cbn; lia) ltac:(done)) as H.
  destruct (tn_fill _ _ _ _ _) as [code|[payload cnt]]; [exact H|]. cbv zeta in H. rewrite Z.sub_0_r in H. exact H.
Qed.

Lemma send_run_spec st l st' : send_run cfg st l st' ->
  match st with SendIdle => True | SendFrame _ src _ _ _ _ => frame_typed src end ->
  spec_run st l st' /\ match st' with SendIdle => True | SendFrame _ src _ _ _ _ => frame_typed src end.
Proof using Hlen.
  intros Hr Ht. induction Hr as [|l st1 e st2 _ [IH1 IH2] He]; [by split; [constructor|]|].
  destruct He as [i src sf Hty|i src sf idx anc time pkt ext payload cnt H1 H2 H3 H4 H5 H6 H7 H8|i src sf idx anc time H|i src sf idx anc time code H|st1 q pkt].
  - split; [|done]. eapply SpecSnoc; [done|constructor].
  - split; [|done]. eapply SpecSnoc; [done|]. pose proof (build_payload_spec src anc IH2) as Hp. rewrite H2 in Hp. by eapply SpecBuild.
  - split; [|done]. eapply SpecSnoc; [done|by constructor].
  - split; [|done]. eapply SpecSnoc; [done|]. pose proof (build_payload_spec src anc IH2) as Hp. rewrite H in Hp. by constructor.
  - split; [|done]. eapply SpecSnoc; [done|constructor].
Qed.
End Spec.

(** C22: an ancillary sender cuts the frames it takes into packets. For every history of
    tasklet calls, with any answers of allocator, queue and clock, and of frames the
    application writes while they are free, the events of an RFC 8331 session follow the
    specification: frames are taken and given back one after the other; between the two,
    packet number [idx] holds the entries behind those of the packets before, one of them or
    as many as fit the packet, each encoded from its place in the user data, with their number
    and the field bits of the frame; all packets of a frame have one RTP time; the marker is
    on the last of the planned packets; the copy for the second port is the same RTP packet;
    the frame goes back after the last planned packet, or when an entry has more than 255
    words or does not fit a packet of its own. *)
Theorem tn_refines_sender cfg media_clk_to_tai max_future_epochs tsc_next_pkt frames ptp l :
  0 < tn_max_pkt_len cfg -> tn_fmd cfg = false -> Forall frame_typed frames ->
  let start := tx_ancillary_session_attach cfg frames ptp in
  tn_ops_ok cfg media_clk_to_tai max_future_epochs tsc_next_pkt l start ->
  let s := tn_run cfg media_clk_to_tai max_future_epochs tsc_next_pkt l start in
  exists st, spec_run cfg SendIdle (tn_trace s) st /\ tn_shows cfg st s.
Proof.
  intros Hlen Hrfc Hty start Hok s.
  assert (tn_good cfg s) as [(st & Hr & Hs) _].
  { apply (tn_run_inv cfg media_clk_to_tai max_future_epochs tsc_next_pkt (tn_good cfg) l start); [|by apply attach_good|done].
    intros s1 op. by apply good_step. }
  exists st. split; [|done]. by apply send_run_spec.
Qed.

(** ** Examples *)

Definition ex_tn_frame (n : nat) : st40_frame :=
  mk_st40_frame (imap (fun i _ => mk_meta 0 9 0 0 0 0x61 2 2 (2 * Z.of_nat i)) (replicate n tt)) (replicate (2 * n) 7) (2 * Z.of_nat n).
Definition ex_tn_cfg (split : bool) (max_pkt_len : Z) : tn_config :=
  mk_tn_config 2 false 0 0 split max_pkt_len false true false false false 25 1 90000 1000.
Definition ex_tn_next (cursor total : Z) : Z := cursor + 1000.
Definition ex_tn_tai (a b c : Z) : Z := 0.
(** A call at time [now], with frame [i] ready; [alloc_r] is the allocation for the second
    port and [send] whether the queue of the first has room. *)
Definition ex_tn_env (now : Z) (i : nat) (alloc_r send : bool) : tn_env :=
  mk_tn_env false now now now now (Some (i, ST10_TIMESTAMP_FMT_TAI, 0, false)) true true alloc_r 2000 true true send true 0.
Definition ex_tn_run cfg frames l : tn_session := tn_run cfg ex_tn_tai 25 ex_tn_next l (tx_ancillary_session_attach cfg frames 0).

(** Two entries in two packets; the first one waits for its queue. *)
Definition ex_tn_split : list tn_op :=
  [TnCall (ex_tn_env 40000000 0 true false); TnCall (ex_tn_env 40001000 0 true true)].

Lemma tn_stream_order_witness :
  (nb_seq <$> tn_built 0 (tn_trace (ex_tn_run (ex_tn_cfg true 1400) [ex_tn_frame 2] ex_tn_split))) = [0; 1]
  /\ tn_sent 0 (tn_trace (ex_tn_run (ex_tn_cfg true 1400) [ex_tn_frame 2] ex_tn_split))
       ++ tn_waiting 0 (ex_tn_run (ex_tn_cfg true 1400) [ex_tn_frame 2] ex_tn_split)
     = tn_built 0 (tn_trace (ex_tn_run (ex_tn_cfg true 1400) [ex_tn_frame 2] ex_tn_split)).
Proof. split; [vm_compute; reflexivity|]. apply tn_stream_order. by left. Defined.

Lemma tn_refines_sender_witness :
  (nb_marker <$> tn_built 0 (tn_trace (ex_tn_run (ex_tn_cfg true 1400) [ex_tn_frame 2] ex_tn_split))) = [false; true]
  /\ exists st, spec_run (ex_tn_cfg true 1400) SendIdle (tn_trace (ex_tn_run (ex_tn_cfg true 1400) [ex_tn_frame 2] ex_tn_split)) st
       /\ tn_shows (ex_tn_cfg true 1400) st (ex_tn_run (ex_tn_cfg true 1400) [ex_tn_frame 2] ex_tn_split).
Proof.
  split; [vm_compute; reflexivity|]. apply tn_refines_sender.
  - done.
  - done.
  - constructor; [|constructor]. vm_compute. repeat constructor; discriminate.
  - vm_compute. repeat split; lia.
Defined.

(** A frame of [n] entries of [size] bytes. *)
Definition ex_tn_big (n : nat) (size : Z) : st40_frame :=
  mk_st40_frame (replicate n (mk_meta 0 9 0 0 0 0x61 2 size 0)) (replicate (Z.to_nat size) 7) size.
Definition ex_tn_stamps (tr : list tn_event) : list (Z * Z) := (fun p => (nb_seq p, nb_tmstamp p)) <$> tn_built 0 tr.
Definition ex_tn_counts (tr : list tn_event) : list (Z * bool) :=
  (fun p => (match nb_body p with AncBody _ _ _ n _ => n | FmdBody _ => 0 end, nb_marker p)) <$> tn_built 0 tr.

(** After a frame that could not be encoded, the next one is sent with the RTP time of the
    one given up, at once, also one second later. *)
Lemma abort_keeps_time :
  let frames := [ex_tn_big 1 200; ex_tn_frame 1] in
  let bad := TnCall (ex_tn_env 40000000 0 true true) in
  let late := TnCall (ex_tn_env 1040000000 1 true true) in
  ex_tn_stamps (tn_trace (ex_tn_run (ex_tn_cfg true 100) frames [bad; late])) = [(1, 3600)]
  /\ ex_tn_stamps (tn_trace (ex_tn_run (ex_tn_cfg true 100) frames [late])) = [(0, 93600)].
Proof. vm_compute. done. Qed.

(** The packets of a frame are counted without the headers of its entries: twenty entries of
    55 bytes are let through as one packet, which has room for 17. *)
Lemma entries_dropped :
  ex_tn_counts (tn_trace (ex_tn_run (ex_tn_cfg false (tn_attach_max_pkt_len false)) [ex_tn_big 20 55]
    [TnCall (ex_tn_env 40000000 0 true true); TnCall (ex_tn_env 40001000 0 true true)])) = [(17, true)].
Proof. vm_compute. done. Qed.

(** A frame that is refused because it needs two packets is sent by the next call. *)
Lemma refused_frame_sent :
  let l := [TnCall (ex_tn_env 40000000 0 true true); TnCall (ex_tn_env 40000001 0 true true)] in
  let s1 := ex_tn_run (ex_tn_cfg false (tn_attach_max_pkt_len false)) [ex_tn_big 8 200] (take 1 l) in
  tn_build_ret_code s1 = Some STI_FRAME_APP_ERR_TX_FRAME /\ tn_built 0 (tn_trace s1) = []
  /\ ex_tn_counts (tn_trace (ex_tn_run (ex_tn_cfg false (tn_attach_max_pkt_len false)) [ex_tn_big 8 200] l)) = [(5, false)].
Proof. vm_compute. done. Qed.

(** A number is used up by a packet whose copy could not be allocated. *)
Lemma anc_seq_gap :
  ex_tn_stamps (tn_trace (ex_tn_run (ex_tn_cfg true 1400) [ex_tn_frame 1]
    [TnCall (ex_tn_env 40000000 0 false true); TnCall (ex_tn_env 40000001 0 true true)])) = [(1, 3600)].
Proof. vm_compute. done. Qed.
