(* ===== verification/AncEndToEnd.v ===== *)
(** An ancillary sender and an ancillary receiver together: what the application of the
    sender puts into its frames is what the application of the receiver gets. *)
From stdpp Require Import sorting.
From S2P Require Import Prelude SeqNum Bytes Fmt Anc RxAnc AncAssembly AncSlots AncFilter AncDelivery AncRefine TxCommon TxAnc AncSend.

(** ** Entries on the wire *)

(** The header of an entry without the place of its data, and the entry as it is received. *)
Definition meta0 (m : st40_meta) : st40_meta :=
  mk_meta (meta_c m) (meta_line_number m) (meta_hori_offset m) (meta_s m) (meta_stream_num m) (meta_did m)
    (meta_sdid m) (meta_udw_size m) 0.
Definition entry_of (data : bytes) (m : st40_meta) : st40_meta * bytes :=
  (meta0 m, take (Z.to_nat (meta_udw_size m)) (drop (Z.to_nat (meta_udw_offset m)) data)).
Definition src_entries (src : st40_frame) : list (st40_meta * bytes) := entry_of (fr_data src) <$> fr_meta src.

(** An entry the wire format can carry, with its data in the frame. *)
Definition entry_ok (data : bytes) (m : st40_meta) : Prop :=
  meta_ok (meta0 m) /\ 0 <= meta_udw_offset m /\ meta_udw_offset m + meta_udw_size m <= arr_len data.

Lemma encode_meta0 buf room m udw_in :
  st40_rfc8331_encode_packet buf room m udw_in = st40_rfc8331_encode_packet buf room (meta0 m) udw_in.
Proof. done. Qed.

Lemma arr_len_take {A} (l : list A) n : 0 <= n <= arr_len l -> arr_len (take (Z.to_nat n) l) = n.
Proof. unfold arr_len. intros. rewrite length_take. lia. Qed.

Section Fill.
Context (cfg : tn_config) (data : bytes).
Context (Hmax : tn_max_pkt_len cfg < 4294967296) (Hdata : is_bytes data).

(** One entry of a packet. *)
Lemma entry_encoded m room :
  entry_ok data m -> st40_rfc8331_payload_bytes (meta_udw_size m) <= room ->
  exists f, st40_rfc8331_encode_packet (replicate (Z.to_nat room) 0) room m (drop (Z.to_nat (meta_udw_offset m)) data)
    = (0, f, st40_rfc8331_payload_bytes (meta_udw_size m))
  /\ (let b := take (Z.to_nat (st40_rfc8331_payload_bytes (meta_udw_size m))) f in
      arr_len b = st40_rfc8331_payload_bytes (meta_udw_size m) /\ is_bytes b
      /\ forall rest room', is_bytes rest -> st40_rfc8331_payload_bytes (meta_udw_size m) <= room' ->
         st40_rfc8331_decode_packet (b ++ rest) room' None
         = (ST40_RFC8331_DECODE_OK, Some (entry_of data m, st40_rfc8331_payload_bytes (meta_udw_size m)))).
Proof using Hdata.
  intros (Hm & Ho & Hsz) Hroom. pose proof (mo_size _ Hm) as Hs. cbn in Hs. pose proof (need_ge_8 _ Hs) as H8.
  set (need := st40_rfc8331_payload_bytes (meta_udw_size m)) in *. set (udw := drop (Z.to_nat (meta_udw_offset m)) data).
  assert (is_bytes udw) as Hu by (by apply Forall_drop).
  assert (arr_len (replicate (Z.to_nat room) 0) = room) as Hrep by (unfold arr_len; rewrite length_replicate; lia).
  destruct (encode_spec (replicate (Z.to_nat room) 0) room (meta0 m) udw Hm) as (f & He & Henc & Hlen & _).
  { apply Forall_replicate. unfold is_u8. lia. }
  { done. }
  { cbn. fold need. lia. }
  exists f. rewrite encode_meta0, He. split; [done|]. cbv zeta. set (b := take (Z.to_nat need) f).
  assert (arr_len b = need) as Hb by (apply arr_len_take; lia).
  split_and!; [done|apply Forall_take, (ec_bytes _ _ _ Henc)|]. intros rest room' Hr Hroom'.
  apply (encoded_decodes (b ++ rest) room' (meta0 m) udw None); try done.
  - apply (encoded_same _ _ f); try done.
    + intros k Hk. cbn in Hk. fold need in Hk. unfold arr_get. rewrite (proj2 (Z.ltb_ge k 0)) by lia.
      unfold arr_len in Hb. rewrite lookup_app_l by lia. unfold b. by rewrite lookup_take_lt by lia.
    + apply Forall_app. split; [apply Forall_take, (ec_bytes _ _ _ Henc)|done].
  - unfold arr_len, udw in *. cbn. rewrite length_drop. lia.
Qed.

Lemma fill_decodes metas : forall payload cnt payload' cnt',
  Forall (entry_ok data) metas -> is_bytes payload -> arr_len payload <= tn_max_pkt_len cfg ->
  tn_fill cfg metas data payload cnt = inr (payload', cnt') ->
  is_bytes payload' /\ arr_len payload <= arr_len payload' <= tn_max_pkt_len cfg
  /\ cnt <= cnt' <= cnt + arr_len metas
  /\ (exists tail, payload' = payload ++ tail)
  /\ pkt_entries (Z.to_nat (cnt' - cnt)) payload' (arr_len payload') (arr_len payload)
     = Some (entry_of data <$> take (Z.to_nat (cnt' - cnt)) metas).
Proof using Hmax Hdata.
  assert (forall payload cnt metas, is_bytes payload -> arr_len payload <= tn_max_pkt_len cfg ->
    is_bytes payload /\ arr_len payload <= arr_len payload <= tn_max_pkt_len cfg /\ cnt <= cnt <= cnt + arr_len metas
    /\ (exists tail, payload = payload ++ tail)
    /\ pkt_entries (Z.to_nat (cnt - cnt)) payload (arr_len payload) (arr_len payload)
       = Some (entry_of data <$> take (Z.to_nat (cnt - cnt)) metas)) as Hend.
  { intros payload cnt metas' Hb Hl. rewrite Z.sub_diag. split_and!; try done; try (unfold arr_len; lia). exists []. by rewrite app_nil_r. }
  induction metas as [|m metas IH]; intros payload cnt payload' cnt' Hok Hb Hl; cbn [tn_fill].
  { intros [= <- <-]. by apply (Hend payload cnt []). }
  inversion Hok as [|? ? Hm Hms]; subst.
  case_if; [intros [= <- <-]; by apply (Hend payload cnt (m :: metas))|]. case_if; [done|]. zbool.
  pose proof Hm as (Hmo & _). pose proof (mo_size _ Hmo) as Hs. cbn in Hs.
  set (room := tn_max_pkt_len cfg - arr_len payload).
  destruct (Z.le_gt_cases (st40_rfc8331_payload_bytes (meta_udw_size m)) room) as [Hfit|Hbig].
  2:{ unfold st40_rfc8331_encode_packet. replace (meta_udw_size m >? 0xFF) with false by lia. by rewrite (proj2 (Z.ltb_lt room _)) by lia. }
  destruct (entry_encoded m room Hm Hfit) as (f & -> & Hblen & Hbb & Hdec). set (need := st40_rfc8331_payload_bytes (meta_udw_size m)) in *.
  set (b := take (Z.to_nat need) f) in *. cbn [Z.eqb Z.ltb].
  pose proof (need_ge_8 _ Hs) as H8. fold need in H8.
  assert (is_bytes (payload ++ b)) as Hpb by (by apply Forall_app).
  assert (arr_len (payload ++ b) = arr_len payload + need) as Hplen by (rewrite arr_len_app; lia).
  (* the entry read back, whatever follows it *)
  assert (forall p' n es, is_bytes p' -> (exists tail, p' = (payload ++ b) ++ tail) -> arr_len p' <= tn_max_pkt_len cfg ->
    pkt_entries n p' (arr_len p') (arr_len (payload ++ b)) = Some es ->
    pkt_entries (S n) p' (arr_len p') (arr_len payload) = Some (entry_of data m :: es)) as Hcons.
  { intros p' n es Hp' (tail & ->) Hp'l He. cbn [pkt_entries].
    assert (drop (Z.to_nat (arr_len payload)) ((payload ++ b) ++ tail) = b ++ tail) as ->.
    { rewrite <- app_assoc. apply drop_app_length'. unfold arr_len. lia. }
    assert (0 <= arr_len tail /\ 0 <= arr_len payload) as [Ht0 Hp0] by (unfold arr_len; lia).
    rewrite arr_len_app in Hp'l. rewrite Hdec.
    - rewrite u32_id by (unfold is_u32; lia). destruct (entry_of data m) as [m0 udw]. rewrite <- Hplen, He. done.
    - apply Forall_app in Hp' as [_ ?]. done.
    - rewrite u32_id; rewrite arr_len_app; unfold is_u32; lia. }
  destruct (tn_split_payload cfg).
  - intros [= <- <-]. replace (Z.to_nat (cnt + 1 - cnt)) with 1%nat by lia.
    assert (0 <= arr_len metas /\ arr_len (m :: metas) = 1 + arr_len metas) as [? ?] by (unfold arr_len; cbn [length]; lia).
    split_and!; try done; try lia; [by exists b|]. apply (Hcons (payload ++ b) 0%nat []); try done; [by exists []; rewrite app_nil_r|lia].
  - intros H. destruct (IH _ _ _ _ Hms Hpb ltac:(lia) H) as (I1 & I2 & I3 & (tail & I4) & I5).
    assert (arr_len (m :: metas) = 1 + arr_len metas) as Hlm by (unfold arr_len; cbn [length]; lia).
    split_and!; try done; try lia; [exists (b ++ tail); by rewrite I4, app_assoc|].
    replace (Z.to_nat (cnt' - cnt)) with (S (Z.to_nat (cnt' - (cnt + 1)))) by lia.
    cbn [take fmap list_fmap]. apply Hcons; try done; [by exists tail|lia].
Qed.

End Fill.

(** ** The frames of the abstract receiver *)

(** The stream is cut at [b 0 = 0], [b 1], ..., [b F]: frame [i] has the numbers from [b i] up
    to [b (i + 1)]. *)
Section SpecFrames.
Context (num : rn_pkt -> Z) (tau : Z -> Z) (b : nat -> Z) (F : nat).
Context (tau_mono : forall x y, x <= y -> tau x <= tau y).
Context (b_0 : b 0%nat = 0) (b_inc : forall i, (i < F)%nat -> b i < b (S i)).
Context (b_class : forall i j, (i < F)%nat -> 0 <= j -> (tau j = tau (b i) <-> b i <= j < b (S i))).

Definition spec_pkt (p : rn_pkt) : Prop :=
  0 <= num p < b F /\ np_marker p = bool_decide (tau (num p) <> tau (num p + 1)).

Record spec_frames (sp : anc_spec) : Prop := {
  sf_count : (length (sp_out sp) <= F)%nat;
  sf_seen : forall j, j ∈ sp_seen sp <-> 0 <= j < b (length (sp_out sp)) \/ j ∈ num <$> sp_open sp;
  sf_open : forall p, p ∈ sp_open sp ->
    b (length (sp_out sp)) <= num p < b (S (length (sp_out sp))) /\ np_marker p = false /\ spec_pkt p;
  sf_once : NoDup (num <$> sp_open sp);
  sf_out : forall i ps, sp_out sp !! i = Some ps ->
    NoDup (num <$> ps) /\ forall j, j ∈ num <$> ps <-> b i <= j < b (S i);
}.

Lemma b_mono i j : (i <= j <= F)%nat -> b i <= b j.
Proof using b_inc.
  intros [H1 H2]. induction H1 as [|j H1 IH]; [done|]. pose proof (b_inc j ltac:(lia)). specialize (IH ltac:(lia)). lia.
Qed.

(** A new packet belongs to the frame that is collected. *)
Lemma spec_place sp p :
  spec_frames sp -> spec_pkt p -> num p ∉ sp_seen sp ->
  (forall j, 0 <= j -> tau j < tau (num p) -> j ∈ sp_seen sp) ->
  let K := length (sp_out sp) in (K < F)%nat /\ b K <= num p < b (S K).
Proof using All.
  intros [S1 S2 S3 S4 S5] [Hr Hm] Hn Hbef K.
  assert (b K <= num p) as Hge by (destruct (Z.le_gt_cases (b K) (num p)); [done|]; destruct Hn; apply S2; left; fold K; lia).
  assert (K < F)%nat as HK by (destruct (decide (K = F)) as [E|]; [rewrite E in Hge; lia|lia]).
  split; [done|]. split; [done|]. destruct (Z.lt_ge_cases (num p) (b (S K))) as [|Hout]; [done|]. exfalso.
  pose proof (b_inc K HK) as Hi. pose proof (b_mono 0 K ltac:(lia)) as Hb0. rewrite b_0 in Hb0.
  set (last := b (S K) - 1).
  assert (tau last = tau (b K)) as E1 by (apply (b_class K); unfold last; lia).
  assert (tau last < tau (num p)) as Hlt.
  { assert (tau last <= tau (num p)) by (apply tau_mono; unfold last; lia).
    destruct (Z.eq_dec (tau last) (tau (num p))) as [E|]; [|lia].
    assert (b K <= num p < b (S K)) by (apply (b_class K); [done|lia|congruence]). lia. }
  assert (last ∈ num <$> sp_open sp) as Hl.
  { pose proof (Hbef last ltac:(unfold last; lia) Hlt) as H. apply S2 in H as [H|H]; [unfold last in H; fold K in H; lia|done]. }
  apply list_elem_of_fmap in Hl as (q & Eq & Hq). destruct (S3 q Hq) as (Hqr & Hqm & Hqp). fold K in Hqr.
  rewrite (proj2 (Hqp : spec_pkt q)) in Hqm. apply bool_decide_eq_false in Hqm. apply Hqm. rewrite <- Eq. intros E2.
  assert (b K <= last + 1 < b (S K)) by (apply (b_class K); [done|unfold last; lia|congruence]). unfold last in *. lia.
Qed.

Lemma spec_step sp op :
  spec_frames sp -> match op with RnPkt p _ => spec_pkt p | RnPut _ => True end ->
  anc_orderly_from num tau 0 sp [op] -> spec_frames (anc_spec_step num sp op).
Proof using All.
  intros Hsp Hop [Ho _]. destruct op as [p s_port|i]; cbn [anc_spec_step]; [|done].
  destruct (decide (num p ∈ sp_seen sp)) as [|Hn]; [done|]. destruct (Ho Hn) as (O1 & O2 & O3 & O4).
  destruct (spec_place sp p Hsp Hop Hn O3) as [HK Hpl]. set (K := length (sp_out sp)) in *.
  pose proof Hsp as [S1 S2 S3 S4 S5]. fold K in S2, S3. pose proof (b_inc K HK) as Hinc.
  pose proof (b_mono 0 K ltac:(lia)) as Hb0. rewrite b_0 in Hb0.
  assert (NoDup (num <$> sp_open sp ++ [p])) as Hnd.
  { rewrite fmap_app. apply NoDup_app. split_and!; [done| |apply NoDup_singleton].
    intros j Hj ->%list_elem_of_singleton. destruct Hn. apply S2. by right. }
  assert (forall j, j ∈ num <$> sp_open sp ++ [p] <-> j ∈ num <$> sp_open sp \/ j = num p) as Hin.
  { intros j. rewrite fmap_app, elem_of_app. change (num <$> [p]) with [num p]. by rewrite list_elem_of_singleton. }
  assert (tau (num p) = tau (b K)) as Etp by (by apply (b_class K)).
  destruct (np_marker p) eqn:Em.
  - assert (forall j, j ∈ num <$> sp_open sp ++ [p] <-> b K <= j < b (S K)) as Hall.
    { intros j. rewrite Hin. split.
      - intros [Hj| ->]; [|done]. apply list_elem_of_fmap in Hj as (q & -> & Hq). apply (S3 q Hq).
      - intros Hj. destruct (Z.eq_dec j (num p)) as [|Hne]; [by right|left].
        assert (j ∈ sp_seen sp) as Hs by (apply O4; try done; [lia|rewrite Etp; by apply (b_class K); [|lia|]]).
        apply S2 in Hs as [Hs|Hs]; [lia|done]. }
    split; cbn [sp_seen sp_open sp_out]; rewrite ?length_app; cbn [length]; fold K.
    + lia.
    + intros j. rewrite elem_of_cons, S2, fmap_nil, elem_of_nil. replace (K + 1)%nat with (S K) by lia.
      pose proof (Hall j) as Ha. rewrite Hin in Ha. split; [|intros [Hj|[]]].
      * intros H. left. destruct H as [H|[H|H]]; [|lia|]; (assert (b K <= j < b (S K)) by tauto; lia).
      * destruct (Z.lt_ge_cases j (b K)); [right; left; lia|]. assert (j ∈ num <$> sp_open sp \/ j = num p) by (apply Ha; lia). tauto.
    + intros q Hq. by apply not_elem_of_nil in Hq.
    + constructor.
    + intros i ps [Hi|[Hi1 Hi2]]%lookup_app_Some; [by apply S5|].
      apply list_lookup_singleton_Some in Hi2 as [E <-]. replace i with K by (fold K in Hi1, E; lia). done.
  - split; cbn [sp_seen sp_open sp_out]; fold K; try done.
    + intros j. rewrite elem_of_cons, S2, Hin. tauto.
    + intros q [Hq| ->%list_elem_of_singleton]%elem_of_app; [by apply S3|done].
Qed.

Lemma spec_run h : forall sp,
  spec_frames sp -> (forall p, p ∈ rn_received h -> spec_pkt p) -> anc_orderly_from num tau 0 sp h ->
  spec_frames (fold_left (anc_spec_step num) h sp).
Proof using All.
  induction h as [|op h IH]; intros sp Hs Hp Ho; [done|]. destruct Ho as [Ho1 Ho]. cbn [fold_left]. apply IH; [|destruct op|done].
  - apply spec_step; [done| |done]. destruct op; [apply Hp; by left|done].
  - intros q Hq. apply Hp. by right.
  - done.
Qed.

End SpecFrames.

(** ** The frames of the sender *)

Definition tn_takes (tr : list tn_event) : list st40_frame :=
  omap (fun e => match e with TnTake _ src _ => Some src | _ => None end) tr.

Section Groups.
Context (cfg : tn_config).

(** [pkt] is packet [idx] of the frame [src] and has [cnt] entries from [anc]. *)
Definition cut_pkt (src : st40_frame) (idx anc cnt : Z) (pkt : tn_mbuf) : Prop :=
  exists ext f payload, tn_payload cfg src anc = inr (payload, cnt) /\ 0 <= anc
  /\ nb_body pkt = AncBody ext (u16 (arr_len payload)) f (u8 cnt) payload /\ f <> 1
  /\ nb_pkt_len pkt = 62 + arr_len payload /\ nb_marker pkt = (idx =? tn_total cfg src - 1).

(** The first [idx] packets of a frame, with its first [anc] entries. *)
Inductive frame_cut (src : st40_frame) : Z -> Z -> list tn_mbuf -> Prop :=
| CutNil : frame_cut src 0 0 []
| CutSnoc idx anc g cnt pkt :
    frame_cut src idx anc g -> cut_pkt src idx anc cnt pkt -> frame_cut src (idx + 1) (anc + cnt) (g ++ [pkt]).

Lemma cut_range src idx anc g : frame_cut src idx anc g -> idx = arr_len g /\ 0 <= anc.
Proof.
  induction 1 as [|idx anc g cnt pkt _ [IH1 IH2] (ext & f & payload & Hp & _)]; [done|].
  apply fill_count in Hp. rewrite arr_len_app, IH1. unfold arr_len at 3. cbn. lia.
Qed.

Lemma cut_lookup src idx anc g q pkt :
  frame_cut src idx anc g -> g !! q = Some pkt -> exists anc cnt, cut_pkt src (Z.of_nat q) anc cnt pkt.
Proof.
  intros H. revert q. induction H as [|idx anc g cnt pkt' Hc IH Hp]; intros q; [done|].
  intros [Hq|[Hq1 Hq2]]%lookup_app_Some; [by apply IH|]. apply list_lookup_singleton_Some in Hq2 as [Hq2 <-].
  exists anc, cnt. destruct (cut_range _ _ _ _ Hc) as [-> _]. unfold arr_len in *. by replace (Z.of_nat q) with (Z.of_nat (length g)) by lia.
Qed.

Definition whole_cut (src : st40_frame) (g : list tn_mbuf) : Prop := exists anc, frame_cut src (tn_total cfg src) anc g.

(** The packets built are those of the frames taken, one frame after the other. *)
Lemma run_groups tr st :
  send_run cfg SendIdle tr st -> (forall src, src ∈ tn_takes tr -> frame_sendable cfg src) ->
  exists gs cur, tn_built 0 tr = concat gs ++ cur /\
    match st with
    | SendIdle => cur = [] /\ Forall2 whole_cut (tn_takes tr) gs
    | SendFrame _ src _ idx anc _ =>
        frame_cut src idx anc cur /\ exists before, tn_takes tr = before ++ [src] /\ Forall2 whole_cut before gs
    end.
Proof.
  induction 1 as [|tr st1 e st2 Hr IH He]; intros Hs; [by exists [], []|].
  assert (tn_takes (tr ++ [e]) = tn_takes tr ++ tn_takes [e]) as Et by apply omap_app. rewrite Et in *.
  destruct IH as (gs & cur & Hb & IH). { intros src Hin. apply Hs, elem_of_app. by left. }
  rewrite tn_built_app, Hb. destruct He as [i src sf|i src sf idx anc time pkt ext payload cnt|i src sf idx anc time|
    i src sf idx anc time code Hbad|st q pkt]; cbn [tn_takes omap list_omap]; rewrite ?app_nil_r.
  - destruct IH as [-> IH]. exists gs, []. split; [by rewrite !app_nil_r|]. split; [constructor|]. by exists (tn_takes tr).
  - destruct IH as (Hc & before & E & IH). exists gs, (cur ++ [pkt]). split; [by rewrite app_assoc|].
    split; [|by exists before]. apply CutSnoc; [done|]. exists ext, (tn_f_bits cfg sf), payload.
    split_and!; try done; [by apply (cut_range _ _ _ _ Hc)|]. unfold tn_f_bits. by repeat case_if.
  - destruct IH as (Hc & before & E & IH). exists (gs ++ [cur]), []. rewrite concat_app. cbn [concat]. rewrite !app_nil_r.
    split; [done|]. split; [done|]. rewrite E. apply Forall2_app; [done|]. constructor; [|constructor]. exists anc. by subst idx.
  - destruct IH as (Hc & before & E & IH). exfalso. destruct (cut_range _ _ _ _ Hc) as [_ Ha].
    assert (frame_sendable cfg src) as Hsrc by (apply Hs; rewrite E; apply elem_of_app; left; apply elem_of_app; right; by left).
    destruct (Hsrc anc Ha) as [x Hx]. congruence.
  - exists gs, cur. split; [done|]. done.
Qed.

(** The entry behind the packets of a frame. *)
Fixpoint tn_cut (n : nat) (src : st40_frame) (anc : Z) : option Z :=
  match n with
  | O => Some anc
  | S n => match tn_payload cfg src anc with inr (_, cnt) => tn_cut n src (anc + cnt) | inl _ => None end
  end.

Lemma tn_cut_snoc n : forall src anc a,
  tn_cut n src anc = Some a -> forall payload cnt, tn_payload cfg src a = inr (payload, cnt) -> tn_cut (S n) src anc = Some (a + cnt).
Proof.
  induction n as [|n IH]; intros src anc a; [intros [= ->] payload cnt H; cbn; by rewrite H|].
  intros H payload cnt Hp. cbn [tn_cut] in H. cbn [tn_cut]. destruct (tn_payload cfg src anc) as [|[p c]]; [done|]. by apply (IH _ _ a H payload).
Qed.

Lemma cut_end src idx anc g : frame_cut src idx anc g -> tn_cut (length g) src 0 = Some anc.
Proof.
  induction 1 as [|idx anc g cnt pkt _ IH (ext & f & payload & Hp & _)]; [done|].
  rewrite length_app, Nat.add_1_r. by apply (tn_cut_snoc _ _ _ _ IH payload).
Qed.

(** A frame whose entries are all sent, in entries the wire format can carry. *)
Record frame_ok (src : st40_frame) : Prop := {
  fo_send : frame_sendable cfg src;
  fo_data : is_bytes (fr_data src);
  fo_entries : Forall (entry_ok (fr_data src)) (fr_meta src);
  fo_count : arr_len (fr_meta src) <= ST40_MAX_META;
  fo_whole : tn_cut (Z.to_nat (tn_total cfg src)) src 0 = Some (arr_len (fr_meta src));
}.

(** ** A packet from the sender to the receiver *)

(** What arrives of [pkt]: the fields of its headers, and the time. *)
Definition wire (payload_type ssrc : Z) (pkt : tn_mbuf) (recv_ts : Z) : rn_pkt :=
  match nb_body pkt with
  | AncBody _ _ f anc_count payload =>
      mk_rn_pkt (nb_seq pkt) (nb_tmstamp pkt) payload_type ssrc (nb_marker pkt) f anc_count (nb_pkt_len pkt)
        (nb_pkt_len pkt) (nb_pkt_len pkt - 34) payload recv_ts
  | FmdBody _ =>
      mk_rn_pkt (nb_seq pkt) (nb_tmstamp pkt) payload_type ssrc (nb_marker pkt) 0 0 (nb_pkt_len pkt)
        (nb_pkt_len pkt) (nb_pkt_len pkt - 34) [] recv_ts
  end.

Context (Hmax : 0 < tn_max_pkt_len cfg < 65000).

Lemma cut_entries src idx anc cnt pkt pt ssrc rt :
  frame_ok src -> cut_pkt src idx anc cnt pkt ->
  anc_entries (wire pt ssrc pkt rt)
  = Some (entry_of (fr_data src) <$> take (Z.to_nat cnt) (drop (Z.to_nat anc) (fr_meta src))) /\ 0 <= cnt.
Proof using Hmax.
  intros [O1 O2 O3 O4 O5] (ext & f & payload & Hp & Ha & Hbody & Hf & Hlen & Hm).
  destruct (fill_decodes cfg (fr_data src) ltac:(lia) O2 (drop (Z.to_nat anc) (fr_meta src)) [] 0 payload cnt) as (F1 & F2 & F3 & _ & F5).
  { by apply Forall_drop. }
  { constructor. }
  { unfold arr_len. cbn. lia. }
  { exact Hp. }
  assert (0 <= cnt <= 20) as Hc.
  { split; [lia|]. unfold arr_len, ST40_MAX_META in *. rewrite length_drop in F3. lia. }
  split; [|lia]. unfold anc_entries, wire. rewrite Hbody. cbn [np_anc_count np_payload].
  assert (rn_payload_room (mk_rn_pkt (nb_seq pkt) (nb_tmstamp pkt) pt ssrc (nb_marker pkt) f (u8 cnt) (nb_pkt_len pkt)
    (nb_pkt_len pkt) (nb_pkt_len pkt - 34) payload rt) = arr_len payload) as ->.
  { unfold rn_payload_room, ANC_HDR_OFFSET, SIZEOF_RFC8331_RTP_HDR. cbn [np_data_len]. rewrite Hlen.
    unfold arr_len in *. cbn [length] in F2. rewrite u16_id by (unfold is_u16; lia). case_if; zbool; lia. }
  rewrite u8_id by (unfold is_u8; lia). rewrite Z.sub_0_r in F5. exact F5.
Qed.

End Groups.

(** ** Entries and order *)

Lemma udw_length_perm (l l' : list (st40_meta * bytes)) : l ≡ₚ l' -> length (entries_udw l) = length (entries_udw l').
Proof. induction 1; unfold entries_udw in *; cbn; rewrite ?length_app; lia. Qed.

(** A part of the entries takes no more room than all. *)
Lemma udw_length_sub (l l' : list (st40_meta * bytes)) :
  l ⊆+ l' -> (length l <= length l')%nat /\ (length (entries_udw l) <= length (entries_udw l'))%nat.
Proof.
  intros (k & Hk)%submseteq_Permutation. pose proof (udw_length_perm _ _ Hk) as E.
  apply Permutation_length in Hk. rewrite entries_udw_app, length_app in E. rewrite length_app in Hk. lia.
Qed.

Lemma bind_sub {A B} (f : A -> list B) (l l' : list A) : l ⊆+ l' -> (l ≫= f) ⊆+ (l' ≫= f).
Proof. intros (k & ->)%submseteq_Permutation. rewrite bind_app. by apply submseteq_inserts_r. Qed.

(** Packets that are distinct numbers of a range, in any order. *)
Lemma range_sub (l : list Z) a n : NoDup l -> (forall x, x ∈ l -> a <= x < a + Z.of_nat n) -> l ⊆+ seqZ a (Z.of_nat n).
Proof. intros Hn Hl. apply NoDup_submseteq; [done|]. intros x Hx%Hl. by apply elem_of_seqZ. Qed.

Lemma range_perm (l : list Z) a n : NoDup l -> (forall x, x ∈ l <-> a <= x < a + Z.of_nat n) -> l ≡ₚ seqZ a (Z.of_nat n).
Proof. intros Hn Hl. apply NoDup_Permutation; [done|apply NoDup_seqZ|]. intros x. by rewrite Hl, elem_of_seqZ. Qed.

Lemma seqZ_sorted n : forall a, StronglySorted Z.lt (seqZ a (Z.of_nat n)).
Proof.
  induction n as [|n IH]; intros a; [constructor|]. rewrite seqZ_cons by lia. constructor.
  - replace (Z.pred (Z.of_nat (S n))) with (Z.of_nat n) by lia. apply IH.
  - apply Forall_forall. intros x Hx%elem_of_seqZ. lia.
Qed.

Lemma range_sorted (l : list Z) a n :
  l ≡ₚ seqZ a (Z.of_nat n) -> StronglySorted Z.lt l -> l = seqZ a (Z.of_nat n).
Proof. intros Hp Hs. apply (StronglySorted_unique_strong Z.lt); [lia|done|apply seqZ_sorted|done]. Qed.

(** The place of a packet in consecutive groups. *)
Definition group_start {A} (gs : list (list A)) (i : nat) : Z := arr_len (concat (take i gs)).

Lemma group_next {A} (gs : list (list A)) i g : gs !! i = Some g -> group_start gs (S i) = group_start gs i + arr_len g.
Proof.
  intros H. unfold group_start. rewrite (take_S_r _ _ g) by done. rewrite concat_app. cbn. rewrite app_nil_r. apply arr_len_app.
Qed.

Lemma group_end {A} (gs : list (list A)) : group_start gs (length gs) = arr_len (concat gs).
Proof. unfold group_start. by rewrite firstn_all. Qed.

Lemma group_lookup {A} (gs : list (list A)) i g q :
  gs !! i = Some g -> 0 <= q < arr_len g -> concat gs !! Z.to_nat (group_start gs i + q) = g !! Z.to_nat q.
Proof.
  intros Hg Hq. assert (concat gs = concat (take i gs) ++ g ++ concat (drop (S i) gs)) as ->.
  { rewrite <- (take_drop_middle gs i g Hg) at 1. by rewrite concat_app. }
  unfold group_start, arr_len in *. rewrite lookup_app_r by lia. rewrite lookup_app_l by lia. f_equal. lia.
Qed.

Lemma group_find {A} (gs : list (list A)) : forall n x,
  concat gs !! n = Some x -> exists i g, gs !! i = Some g /\ group_start gs i <= Z.of_nat n < group_start gs (S i).
Proof.
  induction gs as [|g gs IH]; intros n x; [done|]. cbn [concat]. intros [H|[H1 H2]]%lookup_app_Some.
  - exists 0%nat, g. split; [done|]. unfold group_start, arr_len. cbn. rewrite app_nil_r. apply lookup_lt_Some in H. lia.
  - destruct (IH _ _ H2) as (i & g' & Hg & Hr). exists (S i), g'. split; [done|].
    unfold group_start, arr_len in *. cbn [take concat]. rewrite !length_app in *. cbn [take concat] in *. rewrite ?length_app in *. lia.
Qed.

(** ** The link *)

Section Link.
Context (tc : tn_config) (rc : rn_config).
Context (Hmax : 0 < tn_max_pkt_len tc < 65000) (Hrfc : tn_fmd tc = false).
Context (takes : list st40_frame) (gs : list (list tn_mbuf)).
Context (Hcut : Forall2 (whole_cut tc) takes gs) (Hok : Forall (frame_ok tc) takes).
Abbreviation pkts := (concat gs).
Abbreviation b := (group_start gs).
Context (tau : Z -> Z) (tau_mono : forall x y, x <= y -> tau x <= tau y).
Context (Htime : forall n pkt, pkts !! n = Some pkt ->
  nb_seq pkt = u16 (Z.of_nat n) /\ nb_tmstamp pkt = u32 (tau (Z.of_nat n))
  /\ nb_marker pkt = bool_decide (tau (Z.of_nat n) <> tau (Z.of_nat n + 1))).

(** The frame of a group. *)
Lemma group_src i g : gs !! i = Some g ->
  exists src anc, takes !! i = Some src /\ frame_ok tc src /\ frame_cut tc src (arr_len g) anc g
    /\ arr_len g = tn_total tc src /\ 0 < arr_len g.
Proof using Hcut Hok Hmax Hrfc.
  intros Hg. destruct (Forall2_lookup_r _ _ _ _ _ Hcut Hg) as (src & Hs & anc & Hc).
  pose proof (Forall_lookup_1 _ _ _ _ Hok Hs) as Ho. destruct (cut_range _ _ _ _ _ Hc) as [E _].
  assert (0 < tn_total tc src) as Hp.
  { apply tn_total_pos. eapply Forall_impl; [apply (fo_entries _ _ Ho)|]. intros m (Hm & _).
    pose proof (mo_size _ Hm) as Hz. cbn in Hz. unfold is_u16. lia. }
  exists src, anc. rewrite <- E. by split_and!; [| | |lia|lia].
Qed.

Lemma group_marker i g q pkt : gs !! i = Some g -> g !! q = Some pkt -> nb_marker pkt = (Z.of_nat q + 1 =? arr_len g).
Proof using Hcut Hok Hmax Hrfc.
  intros Hg Hq. destruct (group_src i g Hg) as (src & anc & _ & _ & Hc & Ht & _).
  destruct (cut_lookup _ _ _ _ _ _ _ Hc Hq) as (a & c & ext & f & payload & _ & _ & _ & _ & _ & ->).
  rewrite <- Ht. apply Bool.eq_true_iff_eq. rewrite !Z.eqb_eq. lia.
Qed.

Lemma group_at i g q : gs !! i = Some g -> 0 <= q < arr_len g ->
  exists pkt, g !! Z.to_nat q = Some pkt /\ pkts !! Z.to_nat (b i + q) = Some pkt
    /\ (tau (b i + q) <> tau (b i + q + 1) <-> q + 1 = arr_len g).
Proof using Hcut Hok Hmax Hrfc Htime.
  intros Hg Hq. destruct (lookup_lt_is_Some_2 g (Z.to_nat q)) as [pkt Hp]; [unfold arr_len in Hq; lia|].
  pose proof (group_lookup gs i g q Hg Hq) as E. rewrite Hp in E. exists pkt. split_and!; try done.
  destruct (Htime _ _ E) as (_ & _ & Hm). rewrite (group_marker i g _ pkt Hg Hp) in Hm.
  assert (0 <= b i) by (unfold group_start, arr_len; lia). rewrite !Z2Nat.id in Hm by lia.
  symmetry in Hm. destruct (Z.eqb_spec (q + 1) (arr_len g)) as [Eq|Eq].
  - apply bool_decide_eq_true in Hm. tauto.
  - apply bool_decide_eq_false in Hm. tauto.
Qed.

Lemma group_tau i g q : gs !! i = Some g -> 0 <= q < arr_len g -> tau (b i + q) = tau (b i).
Proof using Hcut Hok Hmax Hrfc Htime.
  intros Hg [H0 Hq]. revert Hq. pattern q. apply natlike_ind; [by rewrite Z.add_0_r| |done]. clear q H0.
  intros q Hq IH Hlt. destruct (group_at i g q Hg ltac:(lia)) as (_ & _ & _ & Hm). rewrite <- IH by lia.
  replace (b i + Z.succ q) with (b i + q + 1) by lia. destruct (Z.eq_dec (tau (b i + q)) (tau (b i + q + 1))) as [E|E]; [done|].
  apply Hm in E. lia.
Qed.

Lemma group_inc i : (i < length gs)%nat -> b i < b (S i) /\ 0 <= b i.
Proof using Hcut Hok Hmax Hrfc.
  intros (g & Hg)%lookup_lt_is_Some. rewrite (group_next gs i g Hg). destruct (group_src i g Hg) as (_ & _ & _ & _ & _ & _ & ?).
  unfold group_start, arr_len in *. lia.
Qed.

(** The frames are the classes of numbers with one time. *)
Lemma group_class i j : (i < length gs)%nat -> 0 <= j -> (tau j = tau (b i) <-> b i <= j < b (S i)).
Proof using Hcut Hok Hmax Hrfc Htime tau_mono.
  intros Hi Hj. destruct (group_inc i Hi) as [Hinc Hb]. apply lookup_lt_is_Some in Hi as (g & Hg).
  pose proof (group_next gs i g Hg) as En. split.
  - intros E. split.
    + destruct (Z.le_gt_cases (b i) j) as [|Hlt]; [done|]. exfalso. destruct i as [|i].
      { change (group_start gs 0) with 0 in Hlt. lia. }
      destruct (lookup_lt_is_Some_2 gs i) as [g' Hg']; [apply lookup_lt_Some in Hg; lia|].
      pose proof (group_next gs i g' Hg') as En'. destruct (group_src i g' Hg') as (_ & _ & _ & _ & _ & _ & Hpos).
      destruct (group_at i g' (arr_len g' - 1) Hg' ltac:(lia)) as (_ & _ & _ & Hm).
      replace (b i + (arr_len g' - 1) + 1) with (b (S i)) in Hm by lia. apply (proj2 Hm); [lia|].
      pose proof (tau_mono j (b i + (arr_len g' - 1)) ltac:(lia)). pose proof (tau_mono (b i + (arr_len g' - 1)) (b (S i)) ltac:(lia)). lia.
    + destruct (Z.lt_ge_cases j (b (S i))) as [|Hge]; [done|]. exfalso.
      destruct (group_at i g (arr_len g - 1) Hg ltac:(lia)) as (_ & _ & _ & Hm).
      replace (b i + (arr_len g - 1) + 1) with (b (S i)) in Hm by lia. apply (proj2 Hm); [lia|].
      rewrite (group_tau i g) by (done || lia).
      pose proof (tau_mono (b i) (b (S i)) ltac:(lia)). pose proof (tau_mono (b (S i)) j ltac:(lia)). lia.
  - intros Hr. replace j with (b i + (j - b i)) by lia. apply (group_tau i g); [done|lia].
Qed.

(** ** What arrives *)

Context (num : rn_pkt -> Z).
Definition sent_pkt (p : rn_pkt) : Prop :=
  0 <= num p /\ exists pkt rt, pkts !! Z.to_nat (num p) = Some pkt /\ p = wire (rn_payload_type rc) (rn_ssrc rc) pkt rt.

Definition entries_at (n : Z) : list (st40_meta * bytes) :=
  default [] (pkt ← pkts !! Z.to_nat n; anc_entries (wire (rn_payload_type rc) (rn_ssrc rc) pkt 0)).

Lemma wire_entries pt ssrc pkt rt : anc_entries (wire pt ssrc pkt rt) = anc_entries (wire pt ssrc pkt 0).
Proof. unfold wire. by destruct (nb_body pkt). Qed.

Lemma sent_fields p : sent_pkt p ->
  is_Some (anc_entries p) /\ default [] (anc_entries p) = entries_at (num p)
  /\ np_marker p = bool_decide (tau (num p) <> tau (num p + 1))
  /\ (exists i, (i < length gs)%nat /\ b i <= num p < b (S i)) /\ num p < arr_len pkts.
Proof using All.
  intros (H0 & pkt & rt & Hn & ->). set (p := wire _ _ pkt rt) in *. destruct (Htime _ _ Hn) as (_ & _ & Hm). rewrite Z2Nat.id in Hm by lia.
  destruct (group_find gs _ _ Hn) as (i & g & Hg & Hr). rewrite Z2Nat.id in Hr by lia.
  destruct (group_src i g Hg) as (src & anc & _ & Ho & Hc & _ & _). pose proof (group_next gs i g Hg) as En.
  pose proof (group_lookup gs i g (num p - b i) Hg ltac:(lia)) as El. replace (b i + (num p - b i)) with (num p) in El by lia. rewrite Hn in El.
  destruct (cut_lookup _ _ _ _ _ _ _ Hc (eq_sym El)) as (a & c & Hcp).
  destruct (cut_entries tc Hmax src _ a c pkt (rn_payload_type rc) (rn_ssrc rc) rt Ho Hcp) as [He _]. split_and!.
  - unfold p. by rewrite He.
  - unfold entries_at. rewrite Hn. cbn. unfold p. by rewrite wire_entries.
  - rewrite <- Hm. unfold p, wire. by destruct (nb_body pkt).
  - exists i. split; [by eapply lookup_lt_Some|lia].
  - apply lookup_lt_Some in Hn. unfold arr_len. lia.
Qed.

(** The entries of the packets of a frame are its entries. *)
Lemma cut_all_entries src idx anc g :
  frame_ok tc src -> frame_cut tc src idx anc g ->
  (g ≫= fun pkt => default [] (anc_entries (wire (rn_payload_type rc) (rn_ssrc rc) pkt 0)))
  = entry_of (fr_data src) <$> take (Z.to_nat anc) (fr_meta src).
Proof using Hmax.
  intros Ho. induction 1 as [|idx anc g cnt pkt Hc IH Hp]; [done|]. rewrite bind_app, IH. cbn. rewrite app_nil_r.
  destruct (cut_entries tc Hmax src _ _ _ _ (rn_payload_type rc) (rn_ssrc rc) 0 Ho Hp) as [-> Hcnt].
  change (default [] (Some ?x)) with x. destruct (cut_range _ _ _ _ _ Hc) as [_ Ha].
  rewrite <- fmap_app, take_take_drop. do 2 f_equal. lia.
Qed.

Lemma group_entries i g src :
  gs !! i = Some g -> takes !! i = Some src -> seqZ (b i) (arr_len g) ≫= entries_at = src_entries src.
Proof using Hcut Hok Hmax Hrfc.
  intros Hg Hs. destruct (group_src i g Hg) as (src' & anc & Hs' & Ho & Hc & Ht & _).
  assert (src' = src) as -> by congruence. clear Hs'.
  pose proof (cut_end _ _ _ _ _ Hc) as Hend. pose proof (fo_whole _ _ Ho) as Hwh.
  assert (Z.to_nat (tn_total tc src) = length g) as El by (rewrite <- Ht; unfold arr_len; lia). rewrite El, Hend in Hwh. injection Hwh as ->.
  pose proof (cut_all_entries _ _ _ _ Ho Hc) as E. unfold src_entries. unfold arr_len in E. rewrite Nat2Z.id, firstn_all in E. rewrite <- E.
  clear E Hc Hend El Ht.
  assert (forall l2 l1, g = l1 ++ l2 -> seqZ (b i + arr_len l1) (arr_len l2) ≫= entries_at
    = l2 ≫= fun pkt => default [] (anc_entries (wire (rn_payload_type rc) (rn_ssrc rc) pkt 0))) as H.
  { induction l2 as [|pkt l2 IH]; intros l1 E; [done|].
    assert (arr_len (pkt :: l2) = Z.succ (arr_len l2)) as -> by (unfold arr_len; cbn [length]; lia).
    rewrite seqZ_cons by (unfold arr_len; lia). rewrite Z.pred_succ. cbn [mbind list_bind]. f_equal.
    - unfold entries_at. rewrite (group_lookup gs i g) by (done || (rewrite E; unfold arr_len; rewrite length_app; cbn [length]; lia)).
      rewrite E, lookup_app_r by (unfold arr_len; lia). unfold arr_len. by replace (Z.to_nat (Z.of_nat (length l1)) - length l1)%nat with 0%nat by lia.
    - rewrite <- (IH (l1 ++ [pkt])) by (by rewrite <- app_assoc). do 2 f_equal. rewrite arr_len_app. unfold arr_len at 3. cbn. lia. }
  specialize (H g [] eq_refl). unfold arr_len at 1 in H. cbn in H. by rewrite Z.add_0_r in H.
Qed.

Lemma sent_entries ps : (forall p, p ∈ ps -> sent_pkt p) -> frame_entries ps = (num <$> ps) ≫= entries_at.
Proof using All.
  induction ps as [|p ps IH]; intros H; [done|]. cbn [frame_entries mbind list_bind fmap list_fmap]. fold (frame_entries ps).
  unfold frame_entries in IH |- *. cbn [mbind list_bind]. f_equal; [by apply sent_fields, H; left|apply IH; intros q Hq; apply H; by right].
Qed.

(** The packets of one frame fit where the frame does. *)
Lemma sent_fits ps :
  (forall src, src ∈ takes -> arr_len (entries_udw (src_entries src)) <= rn_framebuff_size rc) -> 0 <= rn_framebuff_size rc ->
  (forall p, p ∈ ps -> sent_pkt p) -> NoDup (num <$> ps) -> (forall p q, p ∈ ps -> q ∈ ps -> tau (num p) = tau (num q)) ->
  frame_fits (rn_framebuff_size rc) ps.
Proof using All.
  intros Hroom Hcap Hs Hnd Ht. destruct ps as [|p0 ps0] eqn:Eps; [by split|]. rewrite <- Eps in *.
  assert (p0 ∈ ps) as Hp0 by (rewrite Eps; by left). clear Eps ps0.
  destruct (sent_fields p0 (Hs p0 Hp0)) as (_ & _ & _ & (i & Hi & Hri) & _).
  destruct (group_inc i Hi) as [_ Hbi]. pose proof Hi as (g & Hg)%lookup_lt_is_Some.
  destruct (group_src i g Hg) as (src & anc & Hsrc & Ho & _). pose proof (group_next gs i g Hg) as En.
  assert (num <$> ps ⊆+ seqZ (b i) (arr_len g)) as Hsub.
  { apply range_sub; [done|]. intros x (p & -> & Hp)%list_elem_of_fmap. fold (arr_len g). rewrite <- En.
    apply (group_class i); [done|apply (Hs p Hp)|]. rewrite (Ht p p0 Hp Hp0). apply (group_class i); [done|apply (Hs p0 Hp0)|done]. }
  apply (bind_sub entries_at) in Hsub. rewrite (group_entries i g src Hg Hsrc), <- (sent_entries ps Hs) in Hsub.
  destruct (udw_length_sub _ _ Hsub) as [L1 L2]. pose proof (fo_count _ _ Ho) as Hcnt.
  specialize (Hroom src ltac:(by eapply list_elem_of_lookup_2)). unfold frame_fits, arr_len, src_entries in *.
  rewrite length_fmap in L1. lia.
Qed.

(** Notification [e], made of the packets [ps], carries the frame [src]. *)
Record delivered (src : st40_frame) (ps : list rn_pkt) (e : rn_event) : Prop := {
  dv_entries : exists es, es ≡ₚ src_entries src /\ (StronglySorted Z.lt (num <$> ps) -> es = src_entries src)
    /\ ne_udw e = entries_udw es /\ fm_meta (ne_meta e) = placed 0 es;
  dv_lost : fm_seq_lost (ne_meta e) = 0 /\ fm_complete (ne_meta e) = true /\ fm_rtp_marker (ne_meta e) = true;
}.

Lemma anc_frame_delivered k g src ps e :
  gs !! k = Some g -> takes !! k = Some src -> (forall p, p ∈ ps -> sent_pkt p) ->
  NoDup (num <$> ps) -> (forall j, j ∈ num <$> ps <-> b k <= j < b (S k)) -> frame_event num tau ps e -> delivered src ps e.
Proof using All.
  intros Hg Hsrc Hs Hnd Hall [E1 E2 _ _ [E4 E5] E6]. rewrite (group_next gs k g Hg) in Hall.
  pose proof (range_perm _ _ _ Hnd Hall) as Hp. pose proof (group_entries k g src Hg Hsrc) as Hge.
  split; [|done]. exists (frame_entries ps). rewrite (sent_entries ps Hs). split_and!.
  - rewrite <- Hge. by rewrite Hp.
  - intros Hsort. rewrite <- Hge. by rewrite (range_sorted _ _ _ Hp Hsort).
  - by rewrite E1, sent_entries.
  - by rewrite E2, sent_entries.
Qed.

(** When all packets came, all frames were handed over. *)
Lemma all_delivered sp :
  spec_frames num tau b (length gs) sp -> (forall n, 0 <= n < arr_len pkts -> n ∈ sp_seen sp) -> length (sp_out sp) = length gs.
Proof using All.
  intros [S1 S2 S3 S4 S5] Hall. destruct (decide (length (sp_out sp) = length gs)) as [|Hne]; [done|]. exfalso.
  set (K := length (sp_out sp)) in *. destruct (group_inc K ltac:(lia)) as [Hinc Hb].
  pose proof (b_mono b (length gs) (fun i Hi => proj1 (group_inc i Hi)) (S K) (length gs) ltac:(lia)) as Hle. rewrite group_end in Hle.
  assert (b (S K) - 1 ∈ num <$> sp_open sp) as Hin by (destruct (proj1 (S2 _) (Hall (b (S K) - 1) ltac:(lia))); [lia|done]).
  apply list_elem_of_fmap in Hin as (q & Eq & Hq). destruct (S3 q Hq) as (_ & Hm & _ & Hm'). rewrite Hm' in Hm.
  apply bool_decide_eq_false in Hm. apply Hm. rewrite <- Eq. intros E.
  assert (b K <= b (S K) - 1 + 1 < b (S K)) as Hc; [|lia]. apply (group_class K); [lia|lia|]. rewrite <- E. apply (group_class K); lia.
Qed.

End Link.

(** ** Frames taken *)

(** Only frames of the session are taken. *)
Definition trace_grows (s s' : tn_session) : Prop :=
  exists evs, tn_trace s' = tn_trace s ++ evs /\ forall src, src ∈ tn_takes evs -> src ∈ tnf_addr <$> st40_frames s.

Lemma grows_same s s' : tn_trace s' = tn_trace s -> trace_grows s s'.
Proof. intros E. exists []. rewrite app_nil_r. split; [done|]. intros src H. by apply not_elem_of_nil in H. Qed.

Lemma grows_emit s s' e : tn_trace s' = tn_trace s ++ [e] -> tn_takes [e] = [] -> trace_grows s s'.
Proof. intros E H. exists [e]. split; [done|]. rewrite H. intros src Hs. by apply not_elem_of_nil in Hs. Qed.

Lemma grows_trans s1 s2 s3 : tnf_addr <$> st40_frames s2 = tnf_addr <$> st40_frames s1 -> trace_grows s1 s2 -> trace_grows s2 s3 -> trace_grows s1 s3.
Proof.
  intros Ha (e1 & E1 & H1) (e2 & E2 & H2). exists (e1 ++ e2). split; [by rewrite E2, E1, app_assoc|].
  intros src Hs. unfold tn_takes in Hs. rewrite omap_app in Hs. apply elem_of_app in Hs as [Hs|Hs]; [by apply H1|rewrite <- Ha; by apply H2].
Qed.

Section Takes.
Context (cfg : tn_config) (media_clk_to_tai : Z -> Z -> Z -> Z) (max_future_epochs : Z) (tsc_next_pkt : Z -> Z -> Z).
Abbreviation step := (tn_step cfg media_clk_to_tai max_future_epochs tsc_next_pkt).

Lemma grows_flush env s : trace_grows s (snd (tn_flush cfg env s)).
Proof.
  unfold tn_flush. set (r1 := match tn_inflight_p s with None => _ | Some pkt => _ end).
  assert (trace_grows s (snd r1) /\ st40_frames (snd r1) = st40_frames s) as [H1 E1].
  { unfold r1. destruct (tn_inflight_p s) as [pkt|]; [|split; [by apply grows_same|done]].
    destruct (ne_send_inflight_p env); (split; [|done]); [by apply (grows_emit s _ (TnSend 0 pkt))|by apply grows_same]. }
  clearbody r1. destruct r1 as [[] s1]; cbn [snd negb] in *; [|done]. destruct (tn_send_r cfg); cbn [negb]; [|done].
  destruct (tn_inflight_r s1) as [pkt|]; [|done]. apply (grows_trans s s1); [by rewrite E1|done|].
  destruct (ne_send_inflight_r env); [by apply (grows_emit s1 _ (TnSend 1 pkt))|by apply grows_same].
Qed.

Lemma grows_next_frame env s : tn_op_ok s (TnCall env) -> trace_grows s (snd (tn_next_frame cfg env s)).
Proof.
  intros Hok. unfold tn_next_frame. destruct (st40_frame_stat s); [|by apply grows_same]. cbn [tn_op_ok] in Hok.
  destruct (ne_next_frame env) as [[[[i tfmt] ts] sf]|]; [|by apply grows_same]. apply lookup_lt_is_Some in Hok as (f & Hf).
  case_if; [by apply grows_same|]. cbv zeta. set (g := fun f0 : tn_frame => _). set (s1 := tn_frame_upd i g s).
  assert (tnf_addr (tn_frame_at s1 i) = tnf_addr f) as Ea.
  { unfold tn_frame_at. cbn. by rewrite list_lookup_alter_eq, Hf. }
  rewrite Ea. assert (forall t, tn_trace t = tn_trace s ++ [TnTake i (tnf_addr f) sf] -> trace_grows s t) as Hres.
  { intros t Et. exists [TnTake i (tnf_addr f) sf]. split; [done|]. intros src ->%list_elem_of_singleton.
    eapply list_elem_of_fmap_2, list_elem_of_lookup_2, Hf. }
  destruct (tn_total_pkts cfg (tnf_addr f)) as [total []]; by apply Hres.
Qed.

Lemma grows_post env pkt pkt_r s : trace_grows s (snd (tn_post cfg tsc_next_pkt env pkt pkt_r s)).
Proof.
  unfold tn_post. cbv zeta. set (s1 := (_ <| tn_tsc_time_cursor := _ |>) <| tn_calculate_time_cursor := _ |>).
  assert (tn_trace s1 = tn_trace s ++ [TnBuild pkt pkt_r] /\ st40_frames s1 = st40_frames s) as [T1 F1] by (unfold s1; by destruct pkt_r).
  clearbody s1.
  assert (forall q ok code p s, trace_grows s (snd (tn_send q ok code p s)) /\ st40_frames (snd (tn_send q ok code p s)) = st40_frames s) as Hs.
  { intros q ok code p t. unfold tn_send. destruct ok; cbn [snd]; [split; [by apply (grows_emit t _ (TnSend q p))|done]|].
    case_if; split; (by apply grows_same) || done. }
  destruct (Hs 0 (ne_send_p env) STI_FRAME_PKT_ENQUEUE_FAIL pkt s1) as [G2 F2]. destruct (tn_send 0 _ _ _ _) as [d s2]. cbn [snd] in *.
  set (r := match pkt_r with None => _ | Some p => _ end).
  assert (trace_grows s2 (snd r) /\ st40_frames (snd r) = st40_frames s2) as [G3 F3].
  { unfold r; destruct pkt_r; [apply Hs|split; [by apply grows_same|done]]. }
  clearbody r. destruct r as [d2 s3]. cbn [snd] in *.
  apply (grows_trans s s1); [by rewrite F1|by apply (grows_emit s s1 (TnBuild pkt pkt_r))|].
  apply (grows_trans s1 s2); [by rewrite F2|done|]. apply (grows_trans s2 s3); [by rewrite F3|done|].
  unfold tn_frame_end. case_if; [by apply grows_same|]. apply (grows_emit s3 _ (TnDone (st40_frame_idx s3))); [|done].
  cbv zeta. case_if; done.
Qed.

Lemma grows_tasklet env s : tn_op_ok s (TnCall env) -> trace_grows s (step s (TnCall env)).
Proof.
  intros Hok. cbn [tn_step]. unfold tx_ancillary_session_tasklet_frame. destruct (ne_ring_full env); [by apply grows_same|].
  pose proof (grows_flush env s) as G1. pose proof (flush_frames cfg env s) as F1. destruct (tn_flush cfg env s) as [[] s1]; cbn [snd negb] in *; [|done].
  apply (grows_trans s s1); [by rewrite F1|done|]. assert (tn_op_ok s1 (TnCall env)) as Hok1 by (cbn [tn_op_ok] in *; by rewrite F1).
  pose proof (grows_next_frame env s1 Hok1) as G2. pose proof (addrs_next_frame cfg env s1) as F2.
  destruct (tn_next_frame cfg env s1) as [[] s2]; cbn [snd negb] in *; [|done].
  apply (grows_trans s1 s2); [done|done|]. pose proof (untimed_frame_time cfg media_clk_to_tai max_future_epochs env s2) as Et.
  set (s3 := tn_frame_time _ _ _ _ _) in *. clearbody s3. pose proof (addrs_untimed _ _ Et) as F3.
  unfold tn_untimed in Et. injection Et as _ _ _ _ _ _ _ _ _ _ T3.
  apply (grows_trans s2 s3); [done|by apply grows_same|]. case_if; [by apply grows_same|].
  destruct (build_cases cfg env s3) as (s4 & Ek & [-> |[(code & _ & ->)|(pkt & next & _ & ->)]]); cbn [snd]; apply kept_trace in Ek as T4.
  - by apply grows_same.
  - unfold tx_ancillary_session_abort_frame. destruct (st40_frame_stat s4); [by apply grows_same|].
    apply (grows_emit s3 _ (TnDone (st40_frame_idx s4))); [|done]. cbn. by rewrite T4.
  - unfold tn_kept in Ek. injection Ek as Ek _ _ _ _ _ _ _ _ _ _. apply (grows_trans s3 (s4 <| st40_anc_idx := next |>));
      [cbn; by rewrite Ek|by apply grows_same|apply grows_post].
Qed.

(** Every frame taken is one the application had written. *)
Lemma takes_run (Q : st40_frame -> Prop) l : forall s,
  Forall Q (tnf_addr <$> st40_frames s) -> Forall Q (tn_takes (tn_trace s)) ->
  Forall (fun op => match op with TnFill _ src => Q src | TnCall _ => True end) l ->
  tn_ops_ok cfg media_clk_to_tai max_future_epochs tsc_next_pkt l s ->
  Forall Q (tn_takes (tn_trace (tn_run cfg media_clk_to_tai max_future_epochs tsc_next_pkt l s))).
Proof.
  induction l as [|op l IH]; intros s Ha Ht Hl Hok; [done|]. inversion Hl as [|? ? Hop Hl']; subst. destruct Hok as [Hop' Hok].
  apply (IH (step s op)); [| |done|done].
  - destruct op as [env|i content].
    + pose proof (addrs_tasklet cfg media_clk_to_tai max_future_epochs tsc_next_pkt env s) as E. cbv beta in E. by rewrite E.
    + cbn. rewrite (list_fmap_alter tnf_addr _ (fun _ => content)) by (by apply Forall_true). apply Forall_alter; by auto.
  - destruct op as [env|i content]; [|done]. destruct (grows_tasklet env s Hop') as (evs & -> & He).
    unfold tn_takes. rewrite omap_app. apply Forall_app. split; [done|]. apply Forall_forall. intros src Hs%He.
    by eapply Forall_forall in Ha.
Qed.

End Takes.

(** ** End to end *)

Lemma spec_members num (U : rn_pkt -> Prop) h : forall sp,
  (forall p, p ∈ rn_received h -> U p) -> Forall U (sp_open sp) -> Forall (Forall U) (sp_out sp) ->
  Forall (Forall U) (sp_out (fold_left (anc_spec_step num) h sp)).
Proof.
  induction h as [|op h IH]; intros sp Hu Ho Hout; [done|]. cbn [fold_left]. destruct op as [p s_port|i]; [|by apply IH].
  assert (U p) as Hp by (apply Hu; by left).
  apply IH; [intros q Hq; apply Hu; by right|..]; cbn [anc_spec_step]; repeat case_if; cbn [sp_open sp_out]; try done.
  - apply Forall_app. by auto.
  - apply Forall_app. split; [done|]. apply Forall_singleton, Forall_app. by auto.
Qed.

Lemma spec_seen num h : forall sp,
  (forall j, j ∈ sp_seen sp -> j ∈ sp_seen (fold_left (anc_spec_step num) h sp))
  /\ forall p, p ∈ rn_received h -> num p ∈ sp_seen (fold_left (anc_spec_step num) h sp).
Proof.
  induction h as [|op h IH]; intros sp; [split; [done|]; intros p Hp; by apply not_elem_of_nil in Hp|].
  cbn [fold_left]. destruct (IH (anc_spec_step num sp op)) as [H1 H2].
  assert (forall j, j ∈ sp_seen sp -> j ∈ sp_seen (anc_spec_step num sp op)) as Hmono.
  { intros j Hj. destruct op; cbn [anc_spec_step]; repeat case_if; cbn [sp_seen]; try done; by right. }
  split; [by auto|]. destruct op as [p s_port|i]; [|done]. intros q [-> |Hq]%elem_of_cons; [|by apply H2].
  apply H1. cbn [anc_spec_step]. repeat case_if; cbn [sp_seen]; try done; by left.
Qed.

Lemma ok_typed tc src : frame_ok tc src -> frame_typed src.
Proof.
  intros Ho. eapply Forall_impl; [apply (fo_entries _ _ Ho)|]. intros m (Hm & _). pose proof (mo_size _ Hm) as Hz. cbn in Hz.
  unfold is_u16. lia.
Qed.

(** C6: ancillary data arrive as they were sent. A sender takes frames of the application, cuts
    them into packets and numbers them; the packets reach a frame-level receiver over two
    ports, any number of times and in any order in which the very first packet of the stream
    arrives first, the frames are kept apart and the marker of a frame comes last. Then the
    [k]-th notification of the receiver is the [k]-th frame the sender took: the same entries
    with the same data, in the same order when the packets of the frame first came in order,
    with nothing lost; and when every packet came at least once, every frame taken is handed
    over. Assumed are frames the wire format can carry and the packets have room for, of at
    most 64 packets, allocations that succeed for the second port, RTP times that increase
    from frame to frame, a sender between two frames, and at the receiver room in the
    buffers, a free slot when a frame begins, and no recovery by the threshold of redundant
    packets. *)
Theorem st40_end_to_end tc media_clk_to_tai max_future_epochs tsc_next_pkt frames ptp l rc app room interlaced h tau num :
  0 < tn_max_pkt_len tc < 65000 -> tn_fmd tc = false ->
  Forall (frame_ok tc) frames ->
  Forall (fun op => match op with TnFill _ src => frame_ok tc src | TnCall env => ne_alloc_r env = true end) l ->
  let start := tx_ancillary_session_attach tc frames ptp in
  tn_ops_ok tc media_clk_to_tai max_future_epochs tsc_next_pkt l start ->
  let s := tn_run tc media_clk_to_tai max_future_epochs tsc_next_pkt l start in
  let built := tn_built 0 (tn_trace s) in
  let taken := tn_takes (tn_trace s) in
  st40_frame_stat s = ST40_TX_STAT_WAIT_FRAME ->
  (forall a b, a <= b -> tau a <= tau b) -> (forall a b, tau a = tau b -> a - b < 64) ->
  (forall n pkt, built !! n = Some pkt -> nb_tmstamp pkt = u32 (tau (Z.of_nat n))
     /\ nb_marker pkt = bool_decide (tau (Z.of_nat n) <> tau (Z.of_nat n + 1))) ->
  rn_frame_level rc = true -> 0 <= rn_framebuff_size rc < 4294967296 ->
  (forall src, src ∈ taken -> arr_len (entries_udw (src_entries src)) <= rn_framebuff_size rc) ->
  (forall p, p ∈ rn_received h -> 0 <= num p /\ exists pkt rt,
     built !! Z.to_nat (num p) = Some pkt /\ p = wire (rn_payload_type rc) (rn_ssrc rc) pkt rt) ->
  rn_arrivals tau rc num None h -> anc_first num 0 h -> anc_orderly num tau 0 (mk_anc_spec [] [] []) h ->
  rn_no_bypass rc app room h (rn_start rc interlaced) -> anc_slots_ready rc app room h (rn_start rc interlaced) ->
  let notified := rn_notified (rn_run rc app room interlaced h) in
  (forall k e, notified !! k = Some e ->
     exists src ps, taken !! k = Some src /\ sp_out (anc_spec_run num h) !! k = Some ps /\ delivered num src ps e)
  /\ ((forall n, 0 <= n < arr_len built -> exists p, p ∈ rn_received h /\ num p = n) -> length notified = length taken).
Proof.
  intros Hmax Hrfc Hfr Hl start Hops s built taken Hst Hm Hsp Htime Hlevel Hcap Hroom Hlink Ha Hf1 Ho1 Hb Hs notified.
  pose proof (orderly_first _ _ _ _ _ Ho1 (fun _ => Hf1)) as Ho.
  assert (Forall (frame_ok tc) taken) as Hok.
  { apply (takes_run tc media_clk_to_tai max_future_epochs tsc_next_pkt (frame_ok tc) l start); [|by constructor| |done].
    - cbn. rewrite <- list_fmap_compose. cbn. by rewrite list_fmap_id.
    - eapply Forall_impl; [exact Hl|]. by intros []. }
  destruct (numbered_run tc media_clk_to_tai max_future_epochs tsc_next_pkt ltac:(lia) Hrfc l start) as [Hnum Hgood].
  { apply attach_numbered. eapply Forall_impl; [exact Hfr|]. intros src Hsrc. apply (fo_send _ _ Hsrc). }
  { apply attach_good. eapply Forall_impl; [exact Hfr|]. intros src. apply ok_typed. }
  { done. }
  { eapply Forall_impl; [exact Hl|]. intros [env|i src]; [done|]. intros Hsrc. apply (fo_send _ _ Hsrc). }
  fold s in Hnum, Hgood. destruct Hgood as [(st & Hrun & Hshow) _].
  destruct st as [|i src sf idx anc time]; [|destruct Hshow; congruence].
  destruct (run_groups tc _ _ Hrun) as (gs & cur & Hbuilt & -> & Hcut).
  { intros src Hin. eapply Forall_forall in Hok; [|exact Hin]. apply (fo_send _ _ Hok). }
  rewrite app_nil_r in Hbuilt. fold built in Hbuilt. fold taken in Hcut.
  assert (forall n pkt, concat gs !! n = Some pkt -> nb_seq pkt = u16 (Z.of_nat n) /\ nb_tmstamp pkt = u32 (tau (Z.of_nat n))
    /\ nb_marker pkt = bool_decide (tau (Z.of_nat n) <> tau (Z.of_nat n + 1))) as Ht.
  { intros n pkt. rewrite <- Hbuilt. intros Hn. destruct (Htime n pkt Hn). split; [by apply (nm_built _ _ Hnum)|done]. }
  assert (forall p, p ∈ rn_received h -> sent_pkt rc gs num p) as Hsent by (intros p Hp; unfold sent_pkt; rewrite <- Hbuilt; by apply Hlink).
  pose proof (fun p Hp => sent_fields tc rc Hmax Hrfc taken gs Hcut Hok tau Hm Ht num p (Hsent p Hp)) as Hf.
  destruct (run_refines tau 0 num Hm Hsp rc app room Hlevel ltac:(lia) (fun p => p ∈ rn_received h)
    (fun p Hp => proj1 (proj2 (proj2 (Hf p Hp)))) (fun p Hp => proj1 (Hf p Hp))
    (fun ps Hps => sent_fits tc rc Hmax Hrfc taken gs Hcut Hok tau Hm Ht num ps Hroom ltac:(lia) (fun p Hp => Hsent p (Hps p Hp)))
    h None (mk_anc_spec [] [] []) (rn_start rc interlaced)) as [M HM]; try done.
  assert (Forall2 (fun e ps => frame_event num tau ps e /\ whole_frame num tau 0 ps) notified (sp_out (anc_spec_run num h))) as Hlog.
  { destruct M as [M|]; [by apply (rf_log _ _ _ _ _ _ _ HM)|]. destruct HM as [E HM]. unfold notified, rn_run, anc_spec_run.
    rewrite E, (fr_log _ HM). constructor. }
  assert (spec_frames num tau (group_start gs) (length gs) (anc_spec_run num h)) as Hspec.
  { apply (spec_run num tau (group_start gs) (length gs) Hm eq_refl
      (fun i Hi => proj1 (group_inc tc Hmax Hrfc taken gs Hcut Hok i Hi)) (group_class tc Hmax Hrfc taken gs Hcut Hok tau Hm Ht));
      [|intros p Hp; destruct (Hf p Hp) as (_ & _ & Hmk & _ & Hlt)|done].
    - split; cbn [sp_seen sp_open sp_out length]; [lia| |by intros ? ?%not_elem_of_nil|constructor|by intros i ps].
      intros j. rewrite !elem_of_nil. change (group_start gs 0) with 0. split; [done|]. intros [?|[]]. lia.
    - split; [|done]. split; [apply (Hsent p Hp)|]. by rewrite group_end. }
  split.
  - intros k e Hk. destruct (Forall2_lookup_l _ _ _ _ _ Hlog Hk) as (ps & Hps & Hev & _).
    destruct (sf_out _ _ _ _ _ Hspec k ps Hps) as [Hnd Hall].
    assert (k < length gs)%nat as (g & Hg)%lookup_lt_is_Some
      by (apply lookup_lt_Some in Hps; pose proof (sf_count _ _ _ _ _ Hspec); lia).
    destruct (group_src tc Hmax Hrfc taken gs Hcut Hok k g Hg) as (src & anc & Hsrc & _).
    exists src, ps. split_and!; try done.
    apply (anc_frame_delivered tc rc Hmax Hrfc taken gs Hcut Hok tau Hm Ht num k g src ps e); try done.
    pose proof (spec_members num (fun p => p ∈ rn_received h) h (mk_anc_spec [] [] []) (fun p Hp => Hp)
      (Forall_nil_2 _) (Forall_nil_2 _)) as Hmem.
    eapply Forall_lookup_1 in Hmem; [|exact Hps]. intros p Hp. eapply Forall_forall in Hmem; [|exact Hp]. by apply Hsent.
  - intros Hevery. apply Forall2_length in Hlog. rewrite Hlog.
    rewrite (all_delivered tc rc Hmax Hrfc taken gs Hcut Hok tau Hm Ht num _ Hspec).
    + symmetry. by eapply Forall2_length.
    + intros n Hn. rewrite <- Hbuilt in Hn. destruct (Hevery n Hn) as (p & Hp & <-). by apply (spec_seen num h).
Qed.

(** Two frames of three entries, each entry in a packet of its own, to a receiver with two
    ports; the second frame starts out of order. *)
Definition ex_link_cfg : tn_config := ex_tn_cfg true 1400.
Definition ex_link_frames : list st40_frame := [ex_tn_frame 3; ex_tn_frame 3].
Definition ex_link_ops : list tn_op :=
  [TnCall (ex_tn_env 40000000 0 true true); TnCall (ex_tn_env 40001000 0 true false); TnCall (ex_tn_env 40002000 0 true true);
   TnCall (ex_tn_env 80000000 1 true true); TnCall (ex_tn_env 80001000 1 true true); TnCall (ex_tn_env 80002000 1 true true)].
Abbreviation ex_link_start := (tx_ancillary_session_attach ex_link_cfg ex_link_frames 0).
Abbreviation ex_link_sender := (tn_run ex_link_cfg ex_tn_tai 25 ex_tn_next ex_link_ops ex_link_start).
Abbreviation ex_link_built := (tn_built 0 (tn_trace ex_link_sender)).
Definition ex_link_pkt (n : nat) : rn_pkt :=
  match ex_link_built !! n with Some pkt => wire 113 0 pkt 5 | None => ex_anc_pkt 0 0 false end.
Definition ex_link_history : list rn_op :=
  [RnPkt (ex_link_pkt 0) 0; RnPkt (ex_link_pkt 1) 0; RnPkt (ex_link_pkt 0) 1; RnPkt (ex_link_pkt 2) 0;
   RnPkt (ex_link_pkt 4) 1; RnPkt (ex_link_pkt 3) 0; RnPkt (ex_link_pkt 5) 0; RnPkt (ex_link_pkt 5) 1].
Definition ex_link_tau : Z -> Z := ex_stream_time 0 3 3600.

Lemma ex_link_frame_ok : frame_ok ex_link_cfg (ex_tn_frame 3).
Proof.
  split.
  - intros anc _. unfold tn_payload. destruct (Z.to_nat anc) as [|[|[|[|n]]]]; eexists; vm_compute; reflexivity.
  - repeat constructor; done.
  - repeat (apply Forall_cons; split; [split; [split; cbn; unfold is_u8; lia|cbn; unfold arr_len; cbn; lia]|]). constructor.
  - done.
  - vm_compute. reflexivity.
Qed.

Lemma ex_link_seq n : (n < 6)%nat -> np_seq (ex_link_pkt n) = Z.of_nat n /\ is_Some (ex_link_built !! n).
Proof.
  intros Hn. do 6 (destruct n as [|n]; [split; [vm_compute; reflexivity|eexists; vm_compute; reflexivity]|]). lia.
Qed.

Lemma ex_link_first : anc_first np_seq 0 ex_link_history.
Proof. vm_compute. reflexivity. Qed.
Lemma ex_link_orderly : anc_orderly_from np_seq ex_link_tau 0 (mk_anc_spec [] [] []) ex_link_history.
Proof.
  let h := eval vm_compute in ex_link_history in assert (ex_link_history = h) as -> by (vm_compute; reflexivity).
  unfold ex_link_tau. repeat orderly_step.
Qed.

Lemma ex_link_times n pkt :
  ex_link_built !! n = Some pkt ->
  nb_tmstamp pkt = u32 (ex_link_tau (Z.of_nat n)) /\ nb_marker pkt = bool_decide (ex_link_tau (Z.of_nat n) <> ex_link_tau (Z.of_nat n + 1)).
Proof.
  intros H. assert (Forall (fun '(n, pkt) => nb_tmstamp pkt = u32 (ex_link_tau (Z.of_nat n))
    /\ nb_marker pkt = bool_decide (ex_link_tau (Z.of_nat n) <> ex_link_tau (Z.of_nat n + 1))) (imap pair ex_link_built)) as Hall.
  { let l := eval vm_compute in (imap pair ex_link_built) in assert (imap pair ex_link_built = l) as -> by (vm_compute; reflexivity).
    repeat constructor. }
  assert (imap pair ex_link_built !! n = Some (n, pkt)) as Hi by (rewrite list_lookup_imap; by rewrite H).
  exact (Forall_lookup_1 _ _ _ _ Hall Hi).
Qed.

Lemma ex_link_room src :
  src ∈ tn_takes (tn_trace ex_link_sender) ->
  arr_len (entries_udw (src_entries src)) <= rn_framebuff_size ex_anc_cfg.
Proof.
  set (l := tn_takes _). intros H. assert (l = ex_link_frames) as E by (vm_compute; reflexivity). rewrite E in H.
  apply elem_of_cons in H as [-> |H]; [vm_compute; discriminate|]. apply list_elem_of_singleton in H as ->. vm_compute. discriminate.
Qed.

Lemma ex_link_frames_ok : Forall (frame_ok ex_link_cfg) ex_link_frames.
Proof. constructor; [apply ex_link_frame_ok|]. constructor; [apply ex_link_frame_ok|constructor]. Qed.

Lemma ex_link_ops_ok : tn_ops_ok ex_link_cfg ex_tn_tai 25 ex_tn_next ex_link_ops ex_link_start.
Proof. vm_compute. repeat split; lia. Qed.

Lemma ex_link_waits : st40_frame_stat ex_link_sender = ST40_TX_STAT_WAIT_FRAME.
Proof. vm_compute. reflexivity. Qed.

Lemma ex_link_tau_spec : (forall a b, a <= b -> ex_link_tau a <= ex_link_tau b) /\ (forall a b, ex_link_tau a = ex_link_tau b -> a - b < 64).
Proof. split; intros a b; unfold ex_link_tau, ex_stream_time; mlia. Qed.

Lemma ex_link_arrivals : rn_arrivals ex_link_tau ex_anc_cfg np_seq None ex_link_history.
Proof. vm_compute. intuition congruence. Qed.

Lemma ex_link_no_bypass : rn_no_bypass ex_anc_cfg ex_anc_keeps ex_anc_room ex_link_history (rn_start ex_anc_cfg false).
Proof. vm_compute. intuition congruence. Qed.

Lemma ex_link_slots : anc_slots_ready ex_anc_cfg ex_anc_keeps ex_anc_room ex_link_history (rn_start ex_anc_cfg false).
Proof. vm_compute. repeat split; intros; eexists; reflexivity. Qed.

Lemma ex_link_wire n :
  (n < 6)%nat ->
  0 <= np_seq (ex_link_pkt n) /\ exists pkt rt, ex_link_built !! Z.to_nat (np_seq (ex_link_pkt n)) = Some pkt
    /\ ex_link_pkt n = wire (rn_payload_type ex_anc_cfg) (rn_ssrc ex_anc_cfg) pkt rt.
Proof.
  intros Hn. destruct (ex_link_seq n Hn) as [-> [pkt Hpkt]]. split; [lia|]. exists pkt, 5. rewrite Nat2Z.id.
  split; [exact Hpkt|]. unfold ex_link_pkt. by rewrite Hpkt.
Qed.

Lemma ex_link_received : rn_received ex_link_history = ex_link_pkt <$> [0; 1; 0; 2; 4; 3; 5; 5]%nat.
Proof. reflexivity. Qed.

Lemma ex_link_sent p :
  p ∈ rn_received ex_link_history ->
  0 <= np_seq p /\ exists pkt rt, ex_link_built !! Z.to_nat (np_seq p) = Some pkt
    /\ p = wire (rn_payload_type ex_anc_cfg) (rn_ssrc ex_anc_cfg) pkt rt.
Proof.
  rewrite ex_link_received. intros (n & -> & Hn)%list_elem_of_fmap. apply ex_link_wire.
  rewrite !elem_of_cons, elem_of_nil in Hn. lia.
Qed.

Lemma st40_end_to_end_witness :
  let notified := rn_notified (rn_run ex_anc_cfg ex_anc_keeps ex_anc_room false ex_link_history) in
  length notified = 2%nat
  /\ forall k e, notified !! k = Some e ->
       exists src ps, tn_takes (tn_trace ex_link_sender) !! k = Some src
         /\ sp_out (anc_spec_run np_seq ex_link_history) !! k = Some ps /\ delivered np_seq src ps e.
Proof.
  split; [vm_compute; reflexivity|].
  refine (proj1 (st40_end_to_end ex_link_cfg ex_tn_tai 25 ex_tn_next ex_link_frames 0 ex_link_ops ex_anc_cfg ex_anc_keeps ex_anc_room
    false ex_link_history ex_link_tau np_seq _ _ ex_link_frames_ok _ ex_link_ops_ok ex_link_waits (proj1 ex_link_tau_spec)
    (proj2 ex_link_tau_spec) ex_link_times _ _ ex_link_room ex_link_sent ex_link_arrivals ex_link_first (orderly_weaken _ _ _ _ _ ex_link_orderly) ex_link_no_bypass ex_link_slots)).
  - done.
  - done.
  - repeat constructor.
  - done.
  - done.
Defined.
