(* ===== verification/PipelineTx20.v ===== *)
(** The frame-slot protocol of the ST 2110-20 transmit pipeline,
    lib/src/st2110/pipeline/st20_pipeline_tx.c: the application fills slots
    ([st20p_tx_get_frame] / [st20p_tx_put_frame] and their external-buffer
    variants), a converter may transform them, and the transport takes the
    oldest converted slot, sends it and gives it back.

    Callbacks into the application are a parameter [app] of the operations: what
    the application does to the session, through the same API, while the
    callback runs. Where the code scans for a slot and then claims it with a
    compare-and-exchange, other threads may run in between: the parameter [env]
    lists what they do before each attempt. Every store to the atomic [stat] of
    a slot and every callback is appended to the ghost field [trace]. Pixel data
    is not modelled. *)
From stdpp Require Import relations.
From S2P Require Import Prelude SeqNum Fmt TxCommon.

(** ** The data *)

Inductive st20p_tx_frame_status :=
| ST20P_TX_FRAME_FREE | ST20P_TX_FRAME_READY | ST20P_TX_FRAME_IN_CONVERTING
| ST20P_TX_FRAME_CONVERTED | ST20P_TX_FRAME_DROPPED | ST20P_TX_FRAME_IN_USER
| ST20P_TX_FRAME_IN_TRANSMITTING.
#[export] Instance tx_frame_status_eq : EqDecision st20p_tx_frame_status.
Proof. solve_decision. Defined.

(** [struct st_frame]: the geometry and buffers of [Fmt.st_frame] plus the
    per-transmission fields. [fm_user_meta] is the buffer [user_meta] points to. *)
Record frame_meta := mk_frame_meta {
  fm_frame : st_frame;
  fm_second_field : bool;
  fm_tfmt : st10_timestamp_fmt;
  fm_timestamp : Z;
  fm_epoch : Z;
  fm_rtp_timestamp : Z;
  fm_status : st_frame_status;
  fm_user_meta : option (list Z);
  fm_user_meta_size : Z;
  fm_opaque : Z;
}.
#[export] Instance eta_frame_meta : Settable frame_meta := fun f =>
  mk_frame_meta (fm_frame f) (fm_second_field f) (fm_tfmt f) (fm_timestamp f) (fm_epoch f)
    (fm_rtp_timestamp f) (fm_status f) (fm_user_meta f) (fm_user_meta_size f) (fm_opaque f).

Record st20p_tx_frame := mk_tx_frame {
  stat : st20p_tx_frame_status;
  src : frame_meta;
  dst : frame_meta;
  seq_number : Z;
  user_meta : list Z;
  user_meta_buffer_size : Z;
  user_meta_data_size : Z;
  frame_done_cb_called : bool;
}.
#[export] Instance eta_tx_frame : Settable st20p_tx_frame := fun f =>
  mk_tx_frame (stat f) (src f) (dst f) (seq_number f) (user_meta f) (user_meta_buffer_size f)
    (user_meta_data_size f) (frame_done_cb_called f).

(** The ghost trace: stores to [stat], frames handed to the application, calls
    out of the library and wake-ups of a blocked [st20p_tx_get_frame]. *)
Inductive tx_event :=
| EvStat (i : nat) (old new : st20p_tx_frame_status)
| EvGot (i : nat)
| EvAvailable
| EvDone (i : nat)
| EvLate (epoch_skipped : Z)
| EvConvertReady
| EvSignal.

Record st20p_tx_ctx := mk_tx_ctx {
  lc_destroying : bool;
  (* the parts of [ops] that are consulted; a callback is there or is NULL *)
  ops_flags : Z;
  ops_interlaced : bool;
  has_notify_frame_available : bool;
  has_notify_frame_done : bool;
  has_notify_frame_late : bool;
  framebuff_sequence_number : Z;
  framebuffs : list st20p_tx_frame;
  internal_converter : bool;
  ready : bool;
  derive : bool;
  frame_period_ns : Z;
  second_field : bool;
  block_get : bool;
  block_timeout_ns : Z;
  wake_block_cnt : Z;
  stat_convert_fail : Z;
  stat_busy : Z;
  stat_get_frame_try : Z;
  stat_get_frame_succ : Z;
  stat_put_frame : Z;
  stat_drop_frame : Z;
  stat_frames_sent : Z;
  stat_frames_dropped : Z;
  ptp_time : Z; (* what [mt_get_ptp_time] reads *)
  trace : list tx_event;
}.
#[export] Instance eta_tx_ctx : Settable st20p_tx_ctx := fun c =>
  mk_tx_ctx (lc_destroying c) (ops_flags c) (ops_interlaced c) (has_notify_frame_available c)
    (has_notify_frame_done c) (has_notify_frame_late c) (framebuff_sequence_number c)
    (framebuffs c) (internal_converter c) (ready c) (derive c) (frame_period_ns c)
    (second_field c) (block_get c) (block_timeout_ns c) (wake_block_cnt c) (stat_convert_fail c)
    (stat_busy c) (stat_get_frame_try c) (stat_get_frame_succ c) (stat_put_frame c)
    (stat_drop_frame c) (stat_frames_sent c) (stat_frames_dropped c) (ptp_time c) (trace c).

Definition ST20P_TX_FLAG_EXT_FRAME : Z := Z.shiftl 1 2.
Definition ST20P_TX_FLAG_USER_PACING : Z := Z.shiftl 1 3.
Definition ST20P_TX_FLAG_USER_TIMESTAMP : Z := Z.shiftl 1 4.
Definition ST20P_TX_FLAG_DROP_WHEN_LATE : Z := Z.shiftl 1 12.
Definition ST20P_TX_FLAG_EXT_FRAME_MANUAL_RELEASE : Z := Z.shiftl 1 13.
Definition ST20P_TX_FLAG_BLOCK_GET : Z := Z.shiftl 1 15.
Definition ST_TX_DROP_MAX_BATCH : Z := 80.

(** ** Slots *)

Definition frame_meta_zero : frame_meta :=
  mk_frame_meta (st_frame_blank ST_FRAME_FMT_YUV422PLANAR10LE 0 0 false 0) false
    ST10_TIMESTAMP_FMT_TAI 0 0 0 ST_FRAME_STATUS_COMPLETE None 0 0.
Definition tx_frame_zero : st20p_tx_frame :=
  mk_tx_frame ST20P_TX_FRAME_FREE frame_meta_zero frame_meta_zero 0 [] 0 0 false.

(** [&ctx->framebuffs[i]], read and updated. *)
Definition fb_at (c : st20p_tx_ctx) (i : nat) : st20p_tx_frame :=
  default tx_frame_zero (framebuffs c !! i).
Definition fb_upd (i : nat) (g : st20p_tx_frame -> st20p_tx_frame) (c : st20p_tx_ctx) :=
  c <| framebuffs ::= alter g i |>.
Definition emit (e : tx_event) (c : st20p_tx_ctx) : st20p_tx_ctx :=
  c <| trace ::= fun t => t ++ [e] |>.

(** [atomic_store(&framebuff->stat, s)] *)
Definition set_stat (i : nat) (s : st20p_tx_frame_status) (c : st20p_tx_ctx) : st20p_tx_ctx :=
  emit (EvStat i (stat (fb_at c i)) s) (fb_upd i (fun fb => fb <| stat := s |>) c).

Definition tx_st20p_user_frame (c : st20p_tx_ctx) (fb : st20p_tx_frame) : frame_meta :=
  if derive c then dst fb else src fb.
(** A write through the pointer [tx_st20p_user_frame] returns. *)
Definition user_frame_upd (i : nat) (g : frame_meta -> frame_meta) (c : st20p_tx_ctx) :=
  fb_upd i (fun fb => if derive c then fb <| dst ::= g |> else fb <| src ::= g |>) c.

Definition tx_st20p_next_available (c : st20p_tx_ctx) (desired : st20p_tx_frame_status)
    : option nat :=
  fst <$> list_find (fun fb => stat fb = desired) (framebuffs c).

(** The scan keeps the candidate unless the current slot is not newer. *)
Definition newest_step (c : st20p_tx_ctx) (desired : st20p_tx_frame_status)
    (newest : option nat) (idx : nat) : option nat :=
  let fb := fb_at c idx in
  if bool_decide (stat fb = desired) &&
     match newest with
     | None => true
     | Some b => negb (mt_seq32_greater (seq_number fb) (seq_number (fb_at c b)))
     end
  then Some idx else newest.
Definition tx_st20p_newest_available (c : st20p_tx_ctx) (desired : st20p_tx_frame_status)
    : option nat :=
  foldl (newest_step c desired) None (seq 0 (length (framebuffs c))).

(** [while ((fb = pick())) if (CAS(&fb->stat, desired, claimed)) return fb;] The
    head of [env] runs between the scan and the exchange; when the list is
    exhausted no other thread interferes. *)
Fixpoint cas_claim (pick : st20p_tx_ctx -> option nat) (desired claimed : st20p_tx_frame_status)
    (env : list (st20p_tx_ctx -> st20p_tx_ctx)) (c : st20p_tx_ctx) : option nat * st20p_tx_ctx :=
  match pick c with
  | None => (None, c)
  | Some i =>
      match env with
      | [] => (Some i, set_stat i claimed c)
      | e :: env =>
          let c := e c in
          if bool_decide (stat (fb_at c i) = desired) then (Some i, set_stat i claimed c)
          else cas_claim pick desired claimed env c
      end
  end.

Definition tx_st20p_claim_available (c : st20p_tx_ctx) (desired claimed : st20p_tx_frame_status)
    (env : list (st20p_tx_ctx -> st20p_tx_ctx)) : option nat * st20p_tx_ctx :=
  cas_claim (fun c => tx_st20p_next_available c desired) desired claimed env c.

Section Operations.
(** What the application does while a callback runs. *)
Context (app : tx_event -> st20p_tx_ctx -> st20p_tx_ctx).

Definition fire (e : tx_event) (c : st20p_tx_ctx) : st20p_tx_ctx := app e (emit e c).

Definition tx_st20p_notify_frame_available (c : st20p_tx_ctx) : st20p_tx_ctx :=
  let c := if has_notify_frame_available c then fire EvAvailable c else c in
  if block_get c then emit EvSignal c else c.

(** [frame_done_cb_called = true; notify_frame_done(priv, frame)] when the
    callback is set and has not run for this use of the slot; [mark] is what the
    caller writes into the frame in between. *)
Definition frame_done_once (i : nat) (mark : st20p_tx_ctx -> st20p_tx_ctx) (c : st20p_tx_ctx) :=
  if has_notify_frame_done c && negb (frame_done_cb_called (fb_at c i)) then
    fire (EvDone i) (mark (fb_upd i (fun fb => fb <| frame_done_cb_called := true |>) c))
  else c.

(** ** The transport side *)

Definition tx_st20p_if_frame_late (i : nat) (c : st20p_tx_ctx) : bool * st20p_tx_ctx :=
  let fb := fb_at c i in
  let frame := tx_st20p_user_frame c fb in
  let user_done := has_flag (ops_flags c) ST20P_TX_FLAG_EXT_FRAME_MANUAL_RELEASE in
  let need_in_user := user_done && negb (frame_done_cb_called fb) in
  if negb (has_flag (ops_flags c) ST20P_TX_FLAG_DROP_WHEN_LATE)
     || negb (has_flag (ops_flags c) ST20P_TX_FLAG_USER_PACING) then (false, c)
  else if negb (bool_decide (fm_tfmt frame = ST10_TIMESTAMP_FMT_TAI)) then (false, c)
  else if ptp_time c <? u64 (fm_timestamp frame + frame_period_ns c) then (false, c)
  else
    let c := c <| stat_drop_frame ::= fun n => u32 (n + 1) |> in
    let c := c <| stat_frames_dropped ::= fun n => u64 (n + 1) |> in
    let c := set_stat i ST20P_TX_FRAME_DROPPED c in
    let c := frame_done_once i
      (user_frame_upd i (fun f => f <| fm_status := ST_FRAME_STATUS_DROPPED |>)) c in
    let c := if has_notify_frame_late c then fire (EvLate 0) c else c in
    let c := set_stat i (if need_in_user then ST20P_TX_FRAME_IN_USER else ST20P_TX_FRAME_FREE) c in
    let c := if need_in_user then c else tx_st20p_notify_frame_available c in
    (true, c).

(** The loop of [tx_st20p_next_frame]; one unit of fuel per turn. *)
Fixpoint next_frame_loop (fuel : nat) (drop_cnt : Z) (env : list (st20p_tx_ctx -> st20p_tx_ctx))
    (c : st20p_tx_ctx) : option nat * st20p_tx_ctx :=
  match fuel with
  | O => (None, c)
  | S fuel =>
      match tx_st20p_newest_available c ST20P_TX_FRAME_CONVERTED with
      | None => (None, c)
      | Some i =>
          let '(late, c) := tx_st20p_if_frame_late i c in
          if late then
            if drop_cnt + 1 >=? ST_TX_DROP_MAX_BATCH then (None, c)
            else next_frame_loop fuel (drop_cnt + 1) env c
          else
            match env with
            | [] => (Some i, set_stat i ST20P_TX_FRAME_IN_TRANSMITTING c)
            | e :: env =>
                let c := e c in
                if bool_decide (stat (fb_at c i) = ST20P_TX_FRAME_CONVERTED) then
                  (Some i, set_stat i ST20P_TX_FRAME_IN_TRANSMITTING c)
                else next_frame_loop fuel drop_cnt env c
            end
      end
  end.
(** Turns that drop are capped by the batch, the others use up [env]. *)
Definition next_frame_fuel (env : list (st20p_tx_ctx -> st20p_tx_ctx)) : nat :=
  Z.to_nat ST_TX_DROP_MAX_BATCH + length env + 1.

(** The fields of [struct st20_tx_frame_meta] the pipeline fills in. *)
Record st20_tx_frame_meta := mk_tx_meta {
  tm_second_field : bool; tm_tfmt : st10_timestamp_fmt; tm_timestamp : Z;
  tm_epoch : Z; tm_rtp_timestamp : Z;
  tm_user_meta : option (list Z); tm_user_meta_size : Z;
}.

Definition fill_tx_meta (c : st20p_tx_ctx) (fb : st20p_tx_frame) (meta : st20_tx_frame_meta)
    : st20_tx_frame_meta :=
  let frame := tx_st20p_user_frame c fb in
  let stamped := has_flag (ops_flags c)
                   (Z.lor ST20P_TX_FLAG_USER_PACING ST20P_TX_FLAG_USER_TIMESTAMP) in
  let with_meta := c_true (user_meta_data_size fb) in
  mk_tx_meta (fm_second_field frame)
    (if stamped then fm_tfmt frame else tm_tfmt meta)
    (if stamped then fm_timestamp frame else tm_timestamp meta)
    (tm_epoch meta) (tm_rtp_timestamp meta)
    (if with_meta then Some (user_meta fb) else tm_user_meta meta)
    (if with_meta then user_meta_data_size fb else tm_user_meta_size meta).

Definition tx_st20p_next_frame (env : list (st20p_tx_ctx -> st20p_tx_ctx))
    (meta : st20_tx_frame_meta) (c : st20p_tx_ctx)
    : (Z + nat * st20_tx_frame_meta) * st20p_tx_ctx :=
  if negb (ready c) then (inl (- EBUSY), c)
  else
    let '(framebuff, c) := next_frame_loop (next_frame_fuel env) 0 env c in
    match framebuff with
    | None =>
        let c :=
          if has_flag (ops_flags c) ST20P_TX_FLAG_DROP_WHEN_LATE then
            match tx_st20p_next_available c ST20P_TX_FRAME_FREE with
            | Some _ => tx_st20p_notify_frame_available c
            | None => c
            end
          else c in
        (inl (- EBUSY), c)
    | Some i => (inr (i, fill_tx_meta c (fb_at c i) meta), c)
    end.

Definition tx_st20p_frame_done (frame_idx : nat) (meta : st20_tx_frame_meta) (c : st20p_tx_ctx)
    : Z * st20p_tx_ctx :=
  let user_done := has_flag (ops_flags c) ST20P_TX_FLAG_EXT_FRAME_MANUAL_RELEASE in
  let need_in_user := user_done && negb (frame_done_cb_called (fb_at c frame_idx)) in
  let c := user_frame_upd frame_idx (fun f =>
    f <| fm_tfmt := tm_tfmt meta |> <| fm_timestamp := tm_timestamp meta |>
      <| fm_epoch := tm_epoch meta |> <| fm_rtp_timestamp := tm_rtp_timestamp meta |>) c in
  let '(ret, c) :=
    if bool_decide (stat (fb_at c frame_idx) = ST20P_TX_FRAME_IN_TRANSMITTING) then
      (0, set_stat frame_idx
            (if need_in_user then ST20P_TX_FRAME_IN_USER else ST20P_TX_FRAME_FREE) c)
    else (- EIO, c) in
  let c := frame_done_once frame_idx
    (user_frame_upd frame_idx (fun f => f <| fm_status := ST_FRAME_STATUS_COMPLETE |>)) c in
  let c := if ret =? 0 then c <| stat_frames_sent ::= fun n => u64 (n + 1) |> else c in
  let c := if need_in_user then c else tx_st20p_notify_frame_available c in
  (ret, c).

(** ** The converter side *)

Definition tx_st20p_convert_get_frame (env : list (st20p_tx_ctx -> st20p_tx_ctx))
    (c : st20p_tx_ctx) : option nat * st20p_tx_ctx :=
  if lc_destroying c then (None, c)
  else if negb (ready c) then (None, c)
  else cas_claim (fun c => tx_st20p_newest_available c ST20P_TX_FRAME_READY)
         ST20P_TX_FRAME_READY ST20P_TX_FRAME_IN_CONVERTING env c.

(** [data_size] is what the converter left in [dst->data_size]. *)
Definition tx_st20p_convert_put_frame (i : nat) (data_size result : Z) (c : st20p_tx_ctx)
    : Z * st20p_tx_ctx :=
  if lc_destroying c then (- EIO, c)
  else if negb (bool_decide (stat (fb_at c i) = ST20P_TX_FRAME_IN_CONVERTING)) then (- EIO, c)
  else
    let c :=
      if (result <? 0) || (data_size <=? 0) then
        let c := set_stat i ST20P_TX_FRAME_FREE c in
        let c := tx_st20p_notify_frame_available c in
        c <| stat_convert_fail ::= fun n => i32 (n + 1) |>
      else set_stat i ST20P_TX_FRAME_CONVERTED c in
    (0, frame_done_once i id c).

Definition tx_st20p_convert_dump (c : st20p_tx_ctx) : Z * st20p_tx_ctx :=
  if negb (ready c) then (- EBUSY, c)
  else (0, c <| stat_convert_fail := 0 |> <| stat_busy := 0 |>).

(** ** The application side *)

(** One [mt_pthread_cond_timedwait]: what the other threads do while this one is
    blocked (and between its claim attempts), and the value the wait returns. *)
Record wait := mk_wait {
  wait_races : list (st20p_tx_ctx -> st20p_tx_ctx);
  wait_sleep : st20p_tx_ctx -> st20p_tx_ctx;
  wait_ret : Z;
}.

(** The wait loop; the deadline is fixed, so the waits that end without a
    timeout form a finite list, and the one after them times out. *)
Fixpoint get_block_wait (wake_cnt : Z) (waits : list wait) (c : st20p_tx_ctx)
    : option nat * st20p_tx_ctx :=
  if lc_destroying c then (None, c)
  else
    let races := match waits with [] => [] | w :: _ => wait_races w end in
    match tx_st20p_claim_available c ST20P_TX_FRAME_FREE ST20P_TX_FRAME_IN_USER races with
    | (Some i, c) => (Some i, c)
    | (None, c) =>
        if negb (wake_block_cnt c =? wake_cnt) then (None, c)
        else
          match waits with
          | [] => (None, c)
          | w :: waits =>
              let c := wait_sleep w c in
              if c_true (wait_ret w) then (None, c) else get_block_wait wake_cnt waits c
          end
    end.

(** The part of [st20p_tx_get_frame] after a slot is claimed. *)
Definition get_frame_init (i : nat) (c : st20p_tx_ctx) : st20p_tx_ctx :=
  let c := emit (EvGot i) (fb_upd i (fun fb => fb <| frame_done_cb_called := false |>) c) in
  let c := fb_upd i (fun fb => fb <| seq_number := framebuff_sequence_number c |>) c in
  let c := c <| framebuff_sequence_number ::= fun n => u32 (n + 1) |> in
  let c :=
    if ops_interlaced c then
      let c := user_frame_upd i (fun f => f <| fm_second_field := second_field c |>) c in
      c <| second_field ::= negb |>
    else c in
  let c := user_frame_upd i (fun f => f <| fm_user_meta := None |> <| fm_user_meta_size := 0 |>) c in
  c <| stat_get_frame_succ ::= fun n => u32 (n + 1) |>.

(** [destroy_began]: [st20p_tx_free] set [lc_destroying] after the wait loop was
    left. The result is the slot whose user frame is returned. *)
Definition st20p_tx_get_frame (env : list (st20p_tx_ctx -> st20p_tx_ctx)) (waits : list wait)
    (destroy_began : bool) (c : st20p_tx_ctx) : option nat * st20p_tx_ctx :=
  if lc_destroying c then (None, c)
  else if negb (ready c) then (None, c)
  else
    let c := c <| stat_get_frame_try ::= fun n => u32 (n + 1) |> in
    match tx_st20p_claim_available c ST20P_TX_FRAME_FREE ST20P_TX_FRAME_IN_USER env with
    | (Some i, c) => (Some i, get_frame_init i c)
    | (None, c) =>
        if negb (block_get c) then (None, c)
        else
          let '(framebuff, c) := get_block_wait (wake_block_cnt c) waits c in
          let c := c <| lc_destroying ::= orb destroy_began |> in
          if lc_destroying c then
            match framebuff with
            | Some i => (None, set_stat i ST20P_TX_FRAME_FREE c)
            | None => (None, c)
            end
          else
            match framebuff with
            | Some i => (Some i, get_frame_init i c)
            | None => (None, c)
            end
    end.

(** What the application writes into a frame it was given. *)
Definition app_write_frame (i : nat) (g : frame_meta -> frame_meta) (c : st20p_tx_ctx) :=
  if bool_decide (stat (fb_at c i) = ST20P_TX_FRAME_IN_USER) then user_frame_upd i g c else c.

Definition set_second_fields (b : bool) (fb : st20p_tx_frame) : st20p_tx_frame :=
  fb <| src ::= fun f => f <| fm_second_field := b |> |>
     <| dst ::= fun f => f <| fm_second_field := b |> |>.

(** [memcpy(framebuff->user_meta, bytes, n)] into the front of the buffer. *)
Definition copy_user_meta (bytes : list Z) (n : Z) (buf : list Z) : list Z :=
  take (Z.to_nat n) bytes ++ drop (Z.to_nat n) buf.

(** The user-meta part of [st20p_tx_put_frame]; [None] when it is too large. *)
Definition put_user_meta (i : nat) (frame : frame_meta) (c : st20p_tx_ctx) : option st20p_tx_ctx :=
  match fm_user_meta frame with
  | Some bytes =>
      if fm_user_meta_size frame >? user_meta_buffer_size (fb_at c i) then None
      else
        Some (fb_upd i (fun fb =>
                fb <| user_meta ::= copy_user_meta bytes (fm_user_meta_size frame) |>
                   <| user_meta_data_size := fm_user_meta_size frame |>) c)
  | None => Some c
  end.

(** [frame] is the user frame of slot [i]. The internal converter writes pixels
    only, so it leaves no mark here. *)
Definition st20p_tx_put_frame (i : nat) (c : st20p_tx_ctx) : Z * st20p_tx_ctx :=
  let frame := tx_st20p_user_frame c (fb_at c i) in
  if lc_destroying c then (- EIO, c)
  else if negb (bool_decide (stat (fb_at c i) = ST20P_TX_FRAME_IN_USER)) then (- EIO, c)
  else if has_flag (ops_flags c) ST20P_TX_FLAG_EXT_FRAME then (- EIO, c)
  else
    let c := fb_upd i (fun fb => fb <| user_meta_data_size := 0 |>) c in
    match put_user_meta i frame c with
    | None => (- EIO, set_stat i ST20P_TX_FRAME_FREE c)
    | Some c =>
        let c :=
          if ops_interlaced c then fb_upd i (set_second_fields (fm_second_field frame)) c else c in
        let c :=
          if internal_converter c then set_stat i ST20P_TX_FRAME_CONVERTED c
          else if derive c then set_stat i ST20P_TX_FRAME_CONVERTED c
          else emit EvConvertReady (set_stat i ST20P_TX_FRAME_READY c) in
        (0, c <| stat_put_frame ::= fun n => u32 (n + 1) |>)
    end.

Definition st20p_tx_put_frame_abort (i : nat) (c : st20p_tx_ctx) : Z * st20p_tx_ctx :=
  if lc_destroying c then (- EIO, c)
  else if negb (bool_decide (stat (fb_at c i) = ST20P_TX_FRAME_IN_USER)) then (- EIO, c)
  else
    let c := set_stat i ST20P_TX_FRAME_FREE c in
    let c := c <| stat_drop_frame ::= fun n => u32 (n + 1) |> in
    (0, c <| stat_frames_dropped ::= fun n => u64 (n + 1) |>).

(** The derive branch of [st20p_tx_put_ext_frame]: the buffer goes to the
    transport frame. *)
Definition ext_to_dst (ext : st_ext_frame) (fb : st20p_tx_frame) : st20p_tx_frame :=
  fb <| dst ::= fun f =>
    f <| fm_frame ::= fun g =>
           g <| fr_addr ::= fun l => arr_set l 0 (arr_get 0 (ext_addr ext) 0) |>
             <| fr_iova ::= fun l => arr_set l 0 (arr_get 0 (ext_iova ext) 0) |>
             <| fr_flags ::= Z.lor ST_FRAME_FLAG_EXT_BUF |> |>
      <| fm_opaque := ext_opaque ext |> |>.

(** The other branch: every plane goes to the source frame. *)
Definition ext_to_src (ext : st_ext_frame) (fb : st20p_tx_frame) : st20p_tx_frame :=
  let planes := st_frame_fmt_planes (fr_fmt (fm_frame (src fb))) in
  fb <| src ::= fun f =>
    f <| fm_frame ::= fun g =>
           (for_from 0 (Z.to_nat planes) (fun plane g =>
              g <| fr_addr ::= fun l => arr_set l plane (arr_get 0 (ext_addr ext) plane) |>
                <| fr_iova ::= fun l => arr_set l plane (arr_get 0 (ext_iova ext) plane) |>
                <| fr_linesize ::= fun l => arr_set l plane (arr_get 0 (ext_linesize ext) plane) |>) g)
             <| fr_buffer_size := ext_size ext |>
             <| fr_data_size := ext_size ext |>
             <| fr_flags ::= Z.lor ST_FRAME_FLAG_EXT_BUF |> |>
      <| fm_opaque := ext_opaque ext |> |>.

(** [set_ext_ret] is what [st20_tx_set_ext_frame] of the transport returns. *)
Definition st20p_tx_put_ext_frame (set_ext_ret : Z) (i : nat) (ext : st_ext_frame)
    (c : st20p_tx_ctx) : Z * st20p_tx_ctx :=
  let frame := tx_st20p_user_frame c (fb_at c i) in
  if lc_destroying c then (- EIO, c)
  else if negb (has_flag (ops_flags c) ST20P_TX_FLAG_EXT_FRAME) then (- EIO, c)
  else if negb (bool_decide (stat (fb_at c i) = ST20P_TX_FRAME_IN_USER)) then (- EIO, c)
  else
    let c :=
      if ops_interlaced c then fb_upd i (set_second_fields (fm_second_field frame)) c else c in
    if derive c then
      if set_ext_ret <? 0 then (- EIO, c)
      else
        let c := set_stat i ST20P_TX_FRAME_CONVERTED (fb_upd i (ext_to_dst ext) c) in
        (0, c <| stat_put_frame ::= fun n => u32 (n + 1) |>)
    else
      let c := fb_upd i (ext_to_src ext) c in
      if st_frame_sanity_check (fm_frame (src (fb_at c i))) <? 0 then (- EIO, c)
      else
        let c :=
          if internal_converter c then frame_done_once i id (set_stat i ST20P_TX_FRAME_CONVERTED c)
          else emit EvConvertReady (set_stat i ST20P_TX_FRAME_READY c) in
        (0, c <| stat_put_frame ::= fun n => u32 (n + 1) |>).

Definition st20p_tx_notify_ext_frame_free (i : nat) (c : st20p_tx_ctx) : Z * st20p_tx_ctx :=
  if lc_destroying c then (- EIO, c)
  else if negb (has_flag (ops_flags c) ST20P_TX_FLAG_EXT_FRAME_MANUAL_RELEASE) then (0, c)
  else if internal_converter c then (0, c)
  else if negb (bool_decide (stat (fb_at c i) = ST20P_TX_FRAME_IN_USER)) then (- EIO, c)
  else (0, tx_st20p_notify_frame_available (set_stat i ST20P_TX_FRAME_FREE c)).

(** ** Statistics and control *)

(** The counters are printed and reset. *)
Definition tx_st20p_stat (c : st20p_tx_ctx) : Z * st20p_tx_ctx :=
  if negb (ready c) then (- EBUSY, c)
  else (0, c <| stat_get_frame_try := 0 |> <| stat_get_frame_succ := 0 |>
             <| stat_put_frame := 0 |> <| stat_drop_frame := 0 |>).

(** [reset_ret] is the result of the transport's own reset. *)
Definition st20p_tx_reset_session_stats (reset_ret : Z) (c : st20p_tx_ctx) : Z * st20p_tx_ctx :=
  if lc_destroying c then (- EIO, c)
  else (reset_ret, c <| stat_frames_sent := 0 |> <| stat_frames_dropped := 0 |>).

Definition st20p_tx_wake_block (c : st20p_tx_ctx) : Z * st20p_tx_ctx :=
  if lc_destroying c then (- EIO, c)
  else if block_get c then (0, emit EvSignal (c <| wake_block_cnt ::= fun n => u32 (n + 1) |>))
  else (0, c).

Definition st20p_tx_set_block_timeout (timedwait_ns : Z) (c : st20p_tx_ctx) : Z * st20p_tx_ctx :=
  if lc_destroying c then (- EIO, c) else (0, c <| block_timeout_ns := timedwait_ns |>).

Definition st20p_tx_get_fb_addr (idx : Z) (c : st20p_tx_ctx) : Z :=
  if lc_destroying c then 0
  else if idx >=? arr_len (framebuffs c) then 0
  else if has_flag (ops_flags c) ST20P_TX_FLAG_EXT_FRAME then 0
  else arr_get 0 (fr_addr (fm_frame (tx_st20p_user_frame c (fb_at c (Z.to_nat idx))))) 0.

(** The start of [st20p_tx_free]: the handle is claimed and sleepers are woken. *)
Definition st20p_tx_begin_free (c : st20p_tx_ctx) : Z * st20p_tx_ctx :=
  if lc_destroying c then (- EBUSY, c) else (0, emit EvSignal (c <| lc_destroying := true |>)).

(** [tx_st20p_framebuffs_flush]: milliseconds slept for one slot whose status is
    [obs retry] at each look. *)
Fixpoint flush_wait (fuel : nat) (obs : Z -> st20p_tx_frame_status) (retry : Z) : Z :=
  match fuel with
  | O => 0
  | S fuel =>
      match obs retry with
      | ST20P_TX_FRAME_FREE | ST20P_TX_FRAME_DROPPED => 0
      | ST20P_TX_FRAME_IN_TRANSMITTING => 50
      | _ => if retry + 1 >? 100 then 0 else 10 + flush_wait fuel obs (retry + 1)
      end
  end.
Definition tx_st20p_framebuffs_flush (obs : nat -> Z -> st20p_tx_frame_status) (framebuff_cnt : nat)
    : Z :=
  foldr (fun i ms => flush_wait 101 (obs i) 0 + ms) 0 (seq 0 framebuff_cnt).
End Operations.

(** ** Behaviours of a session

    [session f]: [f] is something the threads of a session can do to it, calls
    of the API, of the converter and of the transport in any order, with
    callbacks in which the application calls back and with other threads
    running wherever the code races. *)
Definition in_range (i : nat) (f : st20p_tx_ctx -> st20p_tx_ctx) (c : st20p_tx_ctx) :=
  if bool_decide (i < length (framebuffs c))%nat then f c else c.

Inductive session : (st20p_tx_ctx -> st20p_tx_ctx) -> Prop :=
| b_id : session (fun c => c)
| b_seq f g : session f -> session g -> session (fun c => g (f c))
| b_tick t : session (fun c => c <| ptp_time := t |>)
| b_next app env meta :
    (forall e, session (app e)) -> (forall f, In f env -> session f) ->
    session (fun c => (tx_st20p_next_frame app env meta c).2)
| b_done app i meta :
    (forall e, session (app e)) ->
    session (in_range i (fun c => (tx_st20p_frame_done app i meta c).2))
| b_convert_get env :
    (forall f, In f env -> session f) -> session (fun c => (tx_st20p_convert_get_frame env c).2)
| b_convert_put app i size result :
    (forall e, session (app e)) ->
    session (fun c => (tx_st20p_convert_put_frame app i size result c).2)
| b_dump : session (fun c => (tx_st20p_convert_dump c).2)
| b_get env waits destroy_began :
    (forall f, In f env -> session f) ->
    (forall w f, In w waits -> In f (wait_races w) -> session f) ->
    (forall w, In w waits -> session (wait_sleep w)) ->
    session (fun c => (st20p_tx_get_frame env waits destroy_began c).2)
| b_write i g : session (app_write_frame i g)
| b_put i : session (fun c => (st20p_tx_put_frame i c).2)
| b_abort i : session (fun c => (st20p_tx_put_frame_abort i c).2)
| b_put_ext app ret i ext :
    (forall e, session (app e)) ->
    session (fun c => (st20p_tx_put_ext_frame app ret i ext c).2)
| b_ext_free app i :
    (forall e, session (app e)) -> session (fun c => (st20p_tx_notify_ext_frame_free app i c).2)
| b_stat : session (fun c => (tx_st20p_stat c).2)
| b_reset ret : session (fun c => (st20p_tx_reset_session_stats ret c).2)
| b_wake : session (fun c => (st20p_tx_wake_block c).2)
| b_timeout ns : session (fun c => (st20p_tx_set_block_timeout ns c).2)
| b_free : session (fun c => (st20p_tx_begin_free c).2).

(** ** The abstract slot machine

    What the pipeline promises about a slot, independently of who acts: its
    status moves along the edges below, a frame is handed out when the slot is
    the user's, and [notify_frame_done] is called at most once for each time a
    frame is handed out. *)
Definition allowed (old new : st20p_tx_frame_status) : bool :=
  match old, new with
  | ST20P_TX_FRAME_FREE, ST20P_TX_FRAME_IN_USER
  | ST20P_TX_FRAME_IN_USER, ST20P_TX_FRAME_FREE
  | ST20P_TX_FRAME_IN_USER, ST20P_TX_FRAME_READY
  | ST20P_TX_FRAME_IN_USER, ST20P_TX_FRAME_CONVERTED
  | ST20P_TX_FRAME_READY, ST20P_TX_FRAME_IN_CONVERTING
  | ST20P_TX_FRAME_IN_CONVERTING, ST20P_TX_FRAME_FREE
  | ST20P_TX_FRAME_IN_CONVERTING, ST20P_TX_FRAME_CONVERTED
  | ST20P_TX_FRAME_CONVERTED, ST20P_TX_FRAME_DROPPED
  | ST20P_TX_FRAME_CONVERTED, ST20P_TX_FRAME_IN_TRANSMITTING
  | ST20P_TX_FRAME_DROPPED, ST20P_TX_FRAME_FREE
  | ST20P_TX_FRAME_DROPPED, ST20P_TX_FRAME_IN_USER
  | ST20P_TX_FRAME_IN_TRANSMITTING, ST20P_TX_FRAME_FREE
  | ST20P_TX_FRAME_IN_TRANSMITTING, ST20P_TX_FRAME_IN_USER => true
  | _, _ => false
  end.

Record slots := mk_slots {
  sl_slots : list (st20p_tx_frame_status * bool);
  sl_trace : list tx_event;
}.

Definition is_note (e : tx_event) : Prop :=
  match e with EvAvailable | EvLate _ | EvConvertReady | EvSignal => True | _ => False end.

Inductive slot_step : slots -> slots -> Prop :=
| ss_stat l t i old new d :
    l !! i = Some (old, d) -> allowed old new = true ->
    slot_step (mk_slots l t) (mk_slots (<[i := (new, d)]> l) (t ++ [EvStat i old new]))
| ss_got l t i d :
    l !! i = Some (ST20P_TX_FRAME_IN_USER, d) ->
    slot_step (mk_slots l t) (mk_slots (<[i := (ST20P_TX_FRAME_IN_USER, false)]> l) (t ++ [EvGot i]))
| ss_done l t i s :
    l !! i = Some (s, false) ->
    slot_step (mk_slots l t) (mk_slots (<[i := (s, true)]> l) (t ++ [EvDone i]))
| ss_note l t e : is_note e -> slot_step (mk_slots l t) (mk_slots l (t ++ [e])).

Definition abs_slot (fb : st20p_tx_frame) : st20p_tx_frame_status * bool :=
  (stat fb, frame_done_cb_called fb).
Definition abs (c : st20p_tx_ctx) : slots := mk_slots (abs_slot <$> framebuffs c) (trace c).

(** The legality of one slot's part of a trace, as an automaton. *)
Definition replay_step (i : nat) (st : st20p_tx_frame_status * bool) (e : tx_event)
    : option (st20p_tx_frame_status * bool) :=
  match e with
  | EvStat j old new =>
      if bool_decide (j = i) then
        if bool_decide (old = st.1) && allowed old new then Some (new, st.2) else None
      else Some st
  | EvGot j =>
      if bool_decide (j = i) then
        if bool_decide (st.1 = ST20P_TX_FRAME_IN_USER) then Some (st.1, false) else None
      else Some st
  | EvDone j =>
      if bool_decide (j = i) then if st.2 then None else Some (st.1, true) else Some st
  | _ => Some st
  end.
Definition replay (i : nat) (t : list tx_event) : option (st20p_tx_frame_status * bool) :=
  foldl (fun st e => st ← st; replay_step i st e) (Some (ST20P_TX_FRAME_FREE, false)) t.

(** ** Facts *)

Lemma fb_at_upd_eq i g c :
  (i < length (framebuffs c))%nat -> fb_at (fb_upd i g c) i = g (fb_at c i).
Proof.
  intros Hi. unfold fb_at, fb_upd; cbn. rewrite list_lookup_alter_eq.
  destruct (framebuffs c !! i) eqn:E; [done|]. apply lookup_ge_None in E. lia.
Qed.

Lemma fb_at_upd_ne i j g c : i <> j -> fb_at (fb_upd i g c) j = fb_at c j.
Proof. intros H. unfold fb_at, fb_upd; cbn. by rewrite list_lookup_alter_ne. Qed.

Lemma fb_at_lookup c i :
  (i < length (framebuffs c))%nat -> framebuffs c !! i = Some (fb_at c i).
Proof.
  intros Hi. unfold fb_at. destruct (framebuffs c !! i) eqn:E; [done|].
  apply lookup_ge_None in E. lia.
Qed.

(** A slot that is in some state other than FREE is a slot of the session. *)
Lemma fb_at_range c i s :
  stat (fb_at c i) = s -> s <> ST20P_TX_FRAME_FREE -> (i < length (framebuffs c))%nat.
Proof.
  intros <- Hs. destruct (framebuffs c !! i) eqn:E; [by apply lookup_lt_Some in E|].
  unfold fb_at in Hs. rewrite E in Hs. done.
Qed.

Lemma abs_lookup c i :
  (i < length (framebuffs c))%nat -> sl_slots (abs c) !! i = Some (abs_slot (fb_at c i)).
Proof. intros Hi. cbn. by rewrite list_lookup_fmap, fb_at_lookup. Qed.

(** Updates of a slot, seen by the abstraction. *)
Lemma abs_fb_upd i g c s :
  (i < length (framebuffs c))%nat -> abs_slot (g (fb_at c i)) = s ->
  abs (fb_upd i g c) = mk_slots (<[i := s]> (sl_slots (abs c))) (trace c).
Proof.
  intros Hi <-. unfold abs, fb_upd; cbn. f_equal. apply list_eq. intros j.
  rewrite list_lookup_fmap. destruct (decide (i = j)) as [<-|Hne].
  - rewrite list_lookup_alter_eq, list_lookup_insert_eq by (by rewrite length_fmap).
    by rewrite fb_at_lookup.
  - by rewrite list_lookup_alter_ne, list_lookup_insert_ne, list_lookup_fmap.
Qed.

Lemma abs_fb_upd_same i g c :
  (forall fb, abs_slot (g fb) = abs_slot fb) -> abs (fb_upd i g c) = abs c.
Proof. intros Hg. unfold abs, fb_upd; cbn. by rewrite fmap_alter_same. Qed.

Lemma abs_user_frame_upd i g c : abs (user_frame_upd i g c) = abs c.
Proof. apply abs_fb_upd_same. intros fb. by destruct (derive c). Qed.

(** Progress of the slots that leaves a slot being dropped alone: what any
    behaviour does, as seen by a thread that is in the middle of a drop. *)
Definition follows (a a' : slots) : Prop :=
  rtc slot_step a a' /\
  forall i d, sl_slots a !! i = Some (ST20P_TX_FRAME_DROPPED, d) ->
    exists d', sl_slots a' !! i = Some (ST20P_TX_FRAME_DROPPED, d').

Lemma follows_refl a : follows a a.
Proof. split; [done|]. eauto. Qed.

Lemma follows_trans a b c : follows a b -> follows b c -> follows a c.
Proof.
  intros [H1 P1] [H2 P2]. split; [by etrans|]. intros i d Hd.
  destruct (P1 _ _ Hd) as [d' Hd']. eauto.
Qed.

Lemma follows_note l t e : is_note e -> follows (mk_slots l t) (mk_slots l (t ++ [e])).
Proof. intros He. split; [by apply rtc_once, ss_note|]. cbn. eauto. Qed.

Lemma slot_pinned (l : list (st20p_tx_frame_status * bool)) i old d s :
  l !! i = Some (old, d) -> (old = ST20P_TX_FRAME_DROPPED -> s.1 = ST20P_TX_FRAME_DROPPED) ->
  forall j e, l !! j = Some (ST20P_TX_FRAME_DROPPED, e) ->
    exists e', <[i := s]> l !! j = Some (ST20P_TX_FRAME_DROPPED, e').
Proof.
  intros Hi Hs j e Hj. destruct (decide (i = j)) as [<-|Hne].
  - rewrite Hi in Hj. injection Hj as -> ->. exists s.2.
    rewrite list_lookup_insert_eq by (by eapply lookup_lt_Some). rewrite <- (Hs eq_refl) at 1.
    by destruct s.
  - rewrite list_lookup_insert_ne by done. eauto.
Qed.

(** The same length of slots before and after. *)
Lemma slot_step_length a b : slot_step a b -> length (sl_slots b) = length (sl_slots a).
Proof. intros []; cbn; by rewrite ?length_insert. Qed.

Lemma follows_length c c' :
  follows (abs c) (abs c') -> length (framebuffs c') = length (framebuffs c).
Proof.
  intros [H _]. assert (length (sl_slots (abs c')) = length (sl_slots (abs c))) as HL.
  { induction H as [|a b d Hab _ IH]; [done|]. rewrite IH. by apply slot_step_length. }
  cbn in HL. by rewrite !length_fmap in HL.
Qed.

Lemma abs_set_stat i s c :
  (i < length (framebuffs c))%nat ->
  abs (set_stat i s c) =
    mk_slots (<[i := (s, frame_done_cb_called (fb_at c i))]> (sl_slots (abs c)))
      (trace c ++ [EvStat i (stat (fb_at c i)) s]).
Proof.
  intros Hi. unfold set_stat.
  transitivity (mk_slots (sl_slots (abs (fb_upd i (fun fb => fb <| stat := s |>) c)))
                 (trace c ++ [EvStat i (stat (fb_at c i)) s])); [done|].
  by erewrite abs_fb_upd.
Qed.

Lemma set_stat_step i s c :
  (i < length (framebuffs c))%nat -> allowed (stat (fb_at c i)) s = true ->
  slot_step (abs c) (abs (set_stat i s c)).
Proof.
  intros Hi Ha. rewrite abs_set_stat by done.
  refine (ss_stat _ _ _ _ _ _ _ Ha). by apply abs_lookup.
Qed.

Lemma follows_set_stat i s c :
  (i < length (framebuffs c))%nat -> allowed (stat (fb_at c i)) s = true ->
  stat (fb_at c i) <> ST20P_TX_FRAME_DROPPED -> follows (abs c) (abs (set_stat i s c)).
Proof.
  intros Hi Ha Hd. split; [by apply rtc_once, set_stat_step|].
  rewrite abs_set_stat by done. cbn [sl_slots].
  eapply slot_pinned; [by apply abs_lookup|done].
Qed.

(** A status test that succeeded gives the range of the index. *)
Lemma follows_set_stat_from i old s c :
  stat (fb_at c i) = old -> old <> ST20P_TX_FRAME_FREE -> old <> ST20P_TX_FRAME_DROPPED ->
  allowed old s = true -> follows (abs c) (abs (set_stat i s c)).
Proof.
  intros Hs Hf Hd Ha. apply follows_set_stat; [by eapply fb_at_range|by rewrite Hs|by rewrite Hs].
Qed.

Lemma follows_got i c :
  stat (fb_at c i) = ST20P_TX_FRAME_IN_USER ->
  follows (abs c)
    (abs (emit (EvGot i) (fb_upd i (fun fb => fb <| frame_done_cb_called := false |>) c))).
Proof.
  intros Hs. assert (Hi : (i < length (framebuffs c))%nat) by (by eapply fb_at_range).
  assert (abs (emit (EvGot i) (fb_upd i (fun fb => fb <| frame_done_cb_called := false |>) c)) =
    mk_slots (<[i := (ST20P_TX_FRAME_IN_USER, false)]> (sl_slots (abs c))) (trace c ++ [EvGot i])) as ->.
  { transitivity (mk_slots (sl_slots (abs (fb_upd i (fun fb => fb <| frame_done_cb_called := false |>) c)))
      (trace c ++ [EvGot i])); [done|]. erewrite abs_fb_upd; [done|done|]. cbn. by rewrite <- Hs. }
  pose proof (abs_lookup c i Hi) as Hl. unfold abs_slot in Hl. rewrite Hs in Hl.
  split; [by eapply rtc_once, ss_got|]. cbn [sl_slots]. by eapply slot_pinned.
Qed.

Lemma follows_emit_note e c : is_note e -> follows (abs c) (abs (emit e c)).
Proof. intros He. by apply follows_note. Qed.

Lemma list_find_stat_range c desired i :
  tx_st20p_next_available c desired = Some i ->
  stat (fb_at c i) = desired /\ (i < length (framebuffs c))%nat.
Proof.
  unfold tx_st20p_next_available. intros H. apply fmap_Some in H as [[j fb] [Hf ->]].
  apply list_find_Some in Hf as (Hl & Hs & _). cbn. split; [|by eapply lookup_lt_Some].
  unfold fb_at. by rewrite Hl.
Qed.

Lemma newest_available_range c desired i :
  tx_st20p_newest_available c desired = Some i ->
  stat (fb_at c i) = desired /\ (i < length (framebuffs c))%nat.
Proof.
  unfold tx_st20p_newest_available.
  assert (H : forall l best,
    (forall j, In j l -> (j < length (framebuffs c))%nat) ->
    (forall j, best = Some j -> stat (fb_at c j) = desired /\ (j < length (framebuffs c))%nat) ->
    foldl (newest_step c desired) best l = Some i ->
    stat (fb_at c i) = desired /\ (i < length (framebuffs c))%nat).
  { induction l as [|k l IH]; cbn; intros best Hl Hb; [apply Hb|].
    apply IH; [auto|]. intros j. unfold newest_step. case_if; [|apply Hb].
    intros [= <-]. apply andb_true_iff in E as [E _]. apply bool_decide_eq_true in E.
    split; [done|]. apply Hl. by left. }
  apply H; [|done]. intros j Hj. apply in_seq in Hj. lia.
Qed.

(** What a behaviour does to the slots. *)
Definition tame (f : st20p_tx_ctx -> st20p_tx_ctx) : Prop := forall c, follows (abs c) (abs (f c)).

(** Reduce a goal [follows] by one known part. *)
Ltac follow_with H := eapply follows_trans; [exact H|].

Lemma cas_claim_follows pick desired claimed env c :
  (forall c i, pick c = Some i -> stat (fb_at c i) = desired /\ (i < length (framebuffs c))%nat) ->
  allowed desired claimed = true -> desired <> ST20P_TX_FRAME_DROPPED ->
  (forall f, In f env -> tame f) ->
  follows (abs c) (abs (cas_claim pick desired claimed env c).2) /\
  forall i, (cas_claim pick desired claimed env c).1 = Some i ->
    stat (fb_at (cas_claim pick desired claimed env c).2 i) = claimed /\
    (i < length (framebuffs (cas_claim pick desired claimed env c).2))%nat.
Proof.
  intros Hpick Ha Hd. revert c. induction env as [|e env IH]; intros c Henv; cbn [cas_claim].
  - destruct (pick c) as [i|] eqn:Ep; cbn [fst snd]; [|split; [apply follows_refl|done]].
    apply Hpick in Ep as [Hs Hi]. split; [apply follows_set_stat; congruence|].
    intros j [= <-]. unfold set_stat, emit. cbn [framebuffs modify_field].
    split; [|cbn; by rewrite length_alter].
    change (stat (fb_at (fb_upd i (fun fb => fb <| stat := claimed |>) c) i) = claimed).
    by rewrite fb_at_upd_eq.
  - destruct (pick c) as [i|] eqn:Ep; cbn [fst snd]; [|split; [apply follows_refl|done]].
    apply Hpick in Ep as [Hs Hi].
    assert (He : follows (abs c) (abs (e c))) by (apply Henv; by left).
    case_if; cbn [fst snd].
    + apply bool_decide_eq_true in E. apply follows_length in He as HL.
      split; [follow_with He; apply follows_set_stat; congruence|].
      intros j [= <-]. split; [|cbn; rewrite length_alter; lia].
      change (stat (fb_at (fb_upd i (fun fb => fb <| stat := claimed |>) (e c)) i) = claimed).
      rewrite fb_at_upd_eq by lia. done.
    + destruct (IH (e c)) as [H1 H2]; [intros f Hf; apply Henv; by right|].
      split; [by follow_with He|done].
Qed.

Section Callbacks.
Context (app : tx_event -> st20p_tx_ctx -> st20p_tx_ctx).
Hypothesis app_tame : forall e, tame (app e).

Lemma fire_note_follows e c : is_note e -> follows (abs c) (abs (fire app e c)).
Proof. intros He. follow_with (follows_emit_note e c He). apply app_tame. Qed.

Lemma notify_available_follows c :
  follows (abs c) (abs (tx_st20p_notify_frame_available app c)).
Proof.
  unfold tx_st20p_notify_frame_available.
  set (c1 := if has_notify_frame_available c then fire app EvAvailable c else c).
  assert (H : follows (abs c) (abs c1)).
  { unfold c1. case_if; [by apply fire_note_follows|apply follows_refl]. }
  follow_with H. case_if; [by apply follows_emit_note|apply follows_refl].
Qed.

Lemma frame_done_once_follows i mark c :
  (i < length (framebuffs c))%nat -> (forall c, abs (mark c) = abs c) ->
  follows (abs c) (abs (frame_done_once app i mark c)).
Proof.
  intros Hi Hm. unfold frame_done_once. case_if; [|apply follows_refl].
  apply andb_true_iff in E as [_ E]. apply negb_true_iff in E.
  eapply follows_trans; [|apply app_tame]. set (c1 := fb_upd _ _ c).
  assert (abs (emit (EvDone i) (mark c1)) =
    mk_slots (<[i := (stat (fb_at c i), true)]> (sl_slots (abs c))) (trace c ++ [EvDone i])) as ->.
  { transitivity (mk_slots (sl_slots (abs (mark c1))) (sl_trace (abs (mark c1)) ++ [EvDone i])); [done|].
    rewrite Hm. unfold c1. by erewrite abs_fb_upd. }
  pose proof (abs_lookup c i Hi) as Hl. unfold abs_slot in Hl. rewrite E in Hl.
  split; [by apply rtc_once, ss_done|]. cbn [sl_slots]. by eapply slot_pinned.
Qed.

(** The late drop: the slot stays parked as DROPPED during the callbacks. *)
Lemma if_frame_late_follows i c :
  stat (fb_at c i) = ST20P_TX_FRAME_CONVERTED ->
  follows (abs c) (abs (tx_st20p_if_frame_late app i c).2).
Proof.
  intros Hs. unfold tx_st20p_if_frame_late. do 3 (case_if; [apply follows_refl|]).
  clear E E0 E1. set (need := _ && negb (frame_done_cb_called (fb_at c i))). clearbody need.
  set (c1 := c <| stat_drop_frame ::= _ |> <| stat_frames_dropped ::= _ |>).
  assert (Hi : (i < length (framebuffs c1))%nat) by (by eapply fb_at_range).
  set (c2 := set_stat i ST20P_TX_FRAME_DROPPED c1).
  assert (H2 : follows (abs c) (abs c2)) by (by eapply (follows_set_stat_from i _ _ c1)).
  assert (Hd : exists d, sl_slots (abs c2) !! i = Some (ST20P_TX_FRAME_DROPPED, d)).
  { unfold c2. rewrite abs_set_stat by done. cbn [sl_slots].
    rewrite list_lookup_insert_eq by (cbn; by rewrite length_fmap). eauto. }
  apply follows_length in H2 as HL2. set (c3 := frame_done_once _ _ _ c2).
  assert (H3 : follows (abs c2) (abs c3)).
  { apply frame_done_once_follows; [unfold c1 in *; cbn in *; lia|apply abs_user_frame_upd]. }
  set (c4 := if has_notify_frame_late c3 then _ else c3).
  assert (H4 : follows (abs c2) (abs c4)).
  { follow_with H3. unfold c4. case_if; [by apply fire_note_follows|apply follows_refl]. }
  clearbody c4. destruct Hd as [d Hd]. apply H4 in Hd as [d' Hd'].
  assert (H24 : follows (abs c) (abs c4)) by (by follow_with H2). clear c3 H3 H4.
  apply follows_length in H24 as HL. change (length (framebuffs c1)) with (length (framebuffs c)) in Hi.
  assert (Hs4 : stat (fb_at c4 i) = ST20P_TX_FRAME_DROPPED).
  { rewrite abs_lookup in Hd' by lia. by injection Hd'. }
  set (c5 := set_stat i _ c4).
  assert (H5 : follows (abs c) (abs c5)).
  { split.
    - destruct H24 as [H24 _]. etrans; [exact H24|]. apply rtc_once, set_stat_step; [lia|].
      rewrite Hs4. by destruct need.
    - intros j e Hj. destruct (decide (i = j)) as [<-|Hne].
      + rewrite abs_lookup in Hj by lia. unfold abs_slot in Hj. congruence.
      + apply H24 in Hj as [e' Hj]. exists e'. unfold c5. rewrite abs_set_stat by lia.
        cbn [sl_slots]. by rewrite list_lookup_insert_ne. }
  cbn [snd]. follow_with H5. case_if; [apply follows_refl|apply notify_available_follows].
Qed.

Lemma next_frame_loop_follows fuel drop_cnt env c :
  (forall f, In f env -> tame f) ->
  follows (abs c) (abs (next_frame_loop app fuel drop_cnt env c).2).
Proof.
  revert drop_cnt env c. induction fuel as [|fuel IH]; intros drop_cnt env c Henv;
    cbn [next_frame_loop]; [apply follows_refl|].
  destruct (tx_st20p_newest_available c ST20P_TX_FRAME_CONVERTED) as [i|] eqn:Ei;
    [|apply follows_refl].
  apply newest_available_range in Ei as [Hs Hi].
  pose proof (if_frame_late_follows i c Hs) as H1.
  destruct (tx_st20p_if_frame_late app i c) as [late c1] eqn:El. cbn [snd] in H1.
  destruct late; [case_if; [done|]; follow_with H1; by apply IH|].
  assert (c1 = c) as ->.
  { revert El. unfold tx_st20p_if_frame_late. do 3 (case_if; [congruence|]). done. }
  destruct env as [|e env]; [by eapply follows_set_stat_from|].
  assert (He : follows (abs c) (abs (e c))) by (apply Henv; by left).
  case_if; follow_with He.
  - apply bool_decide_eq_true in E. by eapply follows_set_stat_from.
  - apply IH. intros f Hf. apply Henv. by right.
Qed.

Lemma next_frame_tame env meta :
  (forall f, In f env -> tame f) -> tame (fun c => (tx_st20p_next_frame app env meta c).2).
Proof.
  intros Henv c. unfold tx_st20p_next_frame. case_if; [apply follows_refl|].
  pose proof (next_frame_loop_follows (next_frame_fuel env) 0 env c Henv) as H1.
  destruct (next_frame_loop _ _ _ _ _) as [[i|] c1]; cbn [snd] in *; [done|].
  follow_with H1. case_if; [|apply follows_refl].
  case_match; [apply notify_available_follows|apply follows_refl].
Qed.

Lemma frame_done_tame i meta :
  tame (in_range i (fun c => (tx_st20p_frame_done app i meta c).2)).
Proof.
  intros c. unfold in_range. case_bool_decide as Hi; [|apply follows_refl].
  unfold tx_st20p_frame_done. set (need := _ && negb (frame_done_cb_called (fb_at c i))).
  clearbody need. set (c1 := user_frame_upd _ _ c).
  assert (H1 : abs c1 = abs c) by apply abs_user_frame_upd. rewrite <- H1.
  assert (Hi1 : (i < length (framebuffs c1))%nat) by (unfold c1; cbn; by rewrite length_alter).
  clearbody c1. clear c Hi H1.
  set (rc := if bool_decide _ then _ else _).
  assert (H2 : follows (abs c1) (abs rc.2)).
  { unfold rc. case_bool_decide as Hs; [|apply follows_refl].
    eapply follows_set_stat_from; [done..|]. by destruct need. }
  destruct rc as [ret c2]. cbn [snd] in *. apply follows_length in H2 as HL. follow_with H2.
  set (c3 := frame_done_once _ _ _ c2).
  assert (H3 : follows (abs c2) (abs c3)).
  { apply frame_done_once_follows; [lia|apply abs_user_frame_upd]. }
  follow_with H3. set (c4 := if ret =? 0 then _ else c3).
  assert (abs c4 = abs c3) as <- by (unfold c4; by case_if).
  case_if; [apply follows_refl|apply notify_available_follows].
Qed.

Lemma convert_put_tame i size result :
  tame (fun c => (tx_st20p_convert_put_frame app i size result c).2).
Proof.
  intros c. unfold tx_st20p_convert_put_frame. case_if; [apply follows_refl|].
  case_bool_decide as Hs; cbn [negb]; [|apply follows_refl]. cbn [snd].
  set (c1 := if _ || _ then _ else _).
  assert (H1 : follows (abs c) (abs c1)).
  { unfold c1. case_if; [|by eapply follows_set_stat_from].
    eapply follows_trans; [by eapply (follows_set_stat_from i _ ST20P_TX_FRAME_FREE c)|].
    apply notify_available_follows. }
  follow_with H1. apply follows_length in H1.
  assert (i < length (framebuffs c))%nat by (by eapply fb_at_range).
  apply frame_done_once_follows; [lia|done].
Qed.

Lemma put_ext_tame ret i ext : tame (fun c => (st20p_tx_put_ext_frame app ret i ext c).2).
Proof.
  intros c. unfold st20p_tx_put_ext_frame. do 2 (case_if; [apply follows_refl|]).
  case_bool_decide as Hs; cbn [negb]; [|apply follows_refl].
  set (c1 := if ops_interlaced c then _ else c).
  assert (H1 : abs c1 = abs c).
  { unfold c1. case_if; [by apply abs_fb_upd_same|done]. }
  assert (Hi : (i < length (framebuffs c))%nat) by (by eapply fb_at_range).
  assert (forall g, (forall fb, abs_slot (g fb) = abs_slot fb) ->
    abs (fb_upd i g c1) = abs c /\ (i < length (framebuffs (fb_upd i g c1)))%nat /\
    stat (fb_at (fb_upd i g c1) i) = ST20P_TX_FRAME_IN_USER) as Hg.
  { intros g Hg. assert (Ha : abs (fb_upd i g c1) = abs c) by (by rewrite abs_fb_upd_same).
    assert (Hi' : (i < length (framebuffs (fb_upd i g c1)))%nat).
    { apply (f_equal sl_slots), (f_equal length) in Ha. cbn in Ha |- *.
      rewrite !length_fmap in Ha. lia. }
    split; [done|]. split; [done|].
    apply (f_equal (fun a => sl_slots a !! i)) in Ha. rewrite !abs_lookup in Ha by done.
    unfold abs_slot in Ha. congruence. }
  case_if.
  - case_if; [cbn [snd]; rewrite H1; apply follows_refl|]. cbn [snd].
    destruct (Hg (ext_to_dst ext)) as (Ha & Hr & Hu); [done|]. rewrite <- Ha.
    by eapply (follows_set_stat_from i _ ST20P_TX_FRAME_CONVERTED (fb_upd i (ext_to_dst ext) c1)).
  - destruct (Hg (ext_to_src ext)) as (Ha & Hr & Hu); [done|].
    set (c2 := fb_upd i (ext_to_src ext) c1) in *. rewrite <- Ha.
    case_if; [apply follows_refl|]. cbn [snd]. set (c3 := if internal_converter c2 then _ else _).
    change (follows (abs c2) (abs c3)). unfold c3. case_if.
    + eapply follows_trans; [by eapply (follows_set_stat_from i _ ST20P_TX_FRAME_CONVERTED c2)|].
      apply frame_done_once_follows; [|done]. cbn. by rewrite length_alter.
    + eapply follows_trans; [by eapply (follows_set_stat_from i _ ST20P_TX_FRAME_READY c2)|].
      by apply follows_emit_note.
Qed.

Lemma ext_free_tame i : tame (fun c => (st20p_tx_notify_ext_frame_free app i c).2).
Proof.
  intros c. unfold st20p_tx_notify_ext_frame_free. do 3 (case_if; [apply follows_refl|]).
  case_bool_decide as Hs; cbn [negb]; [|apply follows_refl]. cbn [snd].
  eapply follows_trans; [by eapply (follows_set_stat_from i _ ST20P_TX_FRAME_FREE c)|].
  apply notify_available_follows.
Qed.
End Callbacks.

Lemma claim_free_follows env c :
  (forall f, In f env -> tame f) ->
  let r := tx_st20p_claim_available c ST20P_TX_FRAME_FREE ST20P_TX_FRAME_IN_USER env in
  follows (abs c) (abs r.2) /\
  forall i, r.1 = Some i -> stat (fb_at r.2 i) = ST20P_TX_FRAME_IN_USER.
Proof.
  intros Henv r. unfold r, tx_st20p_claim_available.
  destruct (cas_claim_follows (fun c => tx_st20p_next_available c ST20P_TX_FRAME_FREE)
    ST20P_TX_FRAME_FREE ST20P_TX_FRAME_IN_USER env c) as [H1 H2]; [|done|done|exact Henv|].
  - intros c' i. apply list_find_stat_range.
  - split; [exact H1|]. intros i Hi. by apply H2.
Qed.

Lemma get_block_wait_follows cnt waits c :
  (forall w f, In w waits -> In f (wait_races w) -> tame f) ->
  (forall w, In w waits -> tame (wait_sleep w)) ->
  follows (abs c) (abs (get_block_wait cnt waits c).2) /\
  forall i, (get_block_wait cnt waits c).1 = Some i ->
    stat (fb_at (get_block_wait cnt waits c).2 i) = ST20P_TX_FRAME_IN_USER.
Proof.
  revert c. induction waits as [|w waits IH]; intros c Hr Hs; cbn [get_block_wait];
    (case_if; [split; [apply follows_refl|done]|]).
  - destruct (claim_free_follows [] c) as [H1 H2]; [done|].
    destruct (tx_st20p_claim_available _ _ _ _) as [[i|] c1]; cbn [fst snd] in *; [by auto|].
    case_if; split; done.
  - destruct (claim_free_follows (wait_races w) c) as [H1 H2]; [intros f; apply Hr; by left|].
    destruct (tx_st20p_claim_available _ _ _ _) as [[i|] c1]; cbn [fst snd] in *; [by auto|].
    case_if; [by split|]. assert (H3 : tame (wait_sleep w)) by (apply Hs; by left).
    specialize (H3 c1). case_if; [split; [by follow_with H1|done]|].
    destruct (IH (wait_sleep w c1)) as [H4 H5].
    { intros w' f Hw. apply Hr. by right. }
    { intros w' Hw. apply Hs. by right. }
    split; [|done]. follow_with H1. by follow_with H3.
Qed.

(** Fields the abstraction does not read. *)
Lemma abs_second_field c g : abs (c <| second_field ::= g |>) = abs c.
Proof. done. Qed.
Lemma abs_sequence_number c g : abs (c <| framebuff_sequence_number ::= g |>) = abs c.
Proof. done. Qed.
Lemma abs_get_frame_succ c g : abs (c <| stat_get_frame_succ ::= g |>) = abs c.
Proof. done. Qed.

Lemma get_frame_init_follows i c :
  stat (fb_at c i) = ST20P_TX_FRAME_IN_USER -> follows (abs c) (abs (get_frame_init i c)).
Proof.
  intros Hs. follow_with (follows_got i c Hs). unfold get_frame_init.
  generalize (emit (EvGot i) (fb_upd i (fun fb => fb <| frame_done_cb_called := false |>) c)).
  clear c Hs. intros c. rewrite abs_get_frame_succ, abs_user_frame_upd.
  assert (forall c, abs (if ops_interlaced c
      then user_frame_upd i (fun f => f <| fm_second_field := second_field c |>) c
             <| second_field ::= negb |> else c) = abs c) as ->.
  { intros c'. case_if; [|done]. by rewrite abs_second_field, abs_user_frame_upd. }
  rewrite abs_sequence_number, abs_fb_upd_same by done. apply follows_refl.
Qed.

Lemma get_frame_tame env waits destroy_began :
  (forall f, In f env -> tame f) ->
  (forall w f, In w waits -> In f (wait_races w) -> tame f) ->
  (forall w, In w waits -> tame (wait_sleep w)) ->
  tame (fun c => (st20p_tx_get_frame env waits destroy_began c).2).
Proof.
  intros Henv Hr Hs c. unfold st20p_tx_get_frame. do 2 (case_if; [apply follows_refl|]).
  set (c0 := c <| stat_get_frame_try ::= _ |>). change (abs c) with (abs c0). clearbody c0.
  destruct (claim_free_follows env c0 Henv) as [H1 H2].
  destruct (tx_st20p_claim_available _ _ _ _) as [[i|] c1]; cbn [fst snd] in *.
  { follow_with H1. apply get_frame_init_follows. by apply H2. }
  follow_with H1. case_if; [apply follows_refl|].
  destruct (get_block_wait_follows (wake_block_cnt c1) waits c1 Hr Hs) as [H3 H4].
  destruct (get_block_wait _ _ _) as [fb c2]; cbn [fst snd] in *. follow_with H3.
  set (c3 := c2 <| lc_destroying ::= _ |>).
  assert (forall i, fb = Some i -> stat (fb_at c3 i) = ST20P_TX_FRAME_IN_USER) as H5 by apply H4.
  change (abs c2) with (abs c3). clearbody c3. clear H4.
  destruct fb as [i|]; [|case_if; apply follows_refl].
  specialize (H5 i eq_refl). case_if.
  - by eapply follows_set_stat_from.
  - by apply get_frame_init_follows.
Qed.

Lemma put_user_meta_abs i frame c c1 : put_user_meta i frame c = Some c1 -> abs c1 = abs c.
Proof.
  unfold put_user_meta. case_match; [|congruence]. case_if; [done|]. intros [= <-].
  by apply abs_fb_upd_same.
Qed.

(** The status of a slot is a function of the abstraction. *)
Lemma abs_stat c c' i : abs c' = abs c -> stat (fb_at c' i) = stat (fb_at c i).
Proof.
  intros Ha. apply (f_equal sl_slots) in Ha. cbn in Ha.
  apply (f_equal (fun l => l !! i)) in Ha. rewrite !list_lookup_fmap in Ha. unfold fb_at.
  destruct (framebuffs c' !! i), (framebuffs c !! i); cbn in *; try done. by injection Ha.
Qed.

Lemma put_frame_tame i : tame (fun c => (st20p_tx_put_frame i c).2).
Proof.
  intros c. unfold st20p_tx_put_frame. case_if; [apply follows_refl|].
  case_bool_decide as Hs; cbn [negb]; [|apply follows_refl]. case_if; [apply follows_refl|].
  set (c1 := fb_upd i _ c). assert (H1 : abs c1 = abs c) by (by apply abs_fb_upd_same).
  rewrite <- (abs_stat _ _ i H1) in Hs. rewrite <- H1. clear H1.
  destruct (put_user_meta _ _ _) as [c2|] eqn:E2; [|by eapply follows_set_stat_from].
  apply put_user_meta_abs in E2 as H2. rewrite <- (abs_stat _ _ i H2) in Hs. rewrite <- H2.
  set (c3 := if ops_interlaced c2 then _ else c2).
  assert (H3 : abs c3 = abs c2) by (unfold c3; case_if; [by apply abs_fb_upd_same|done]).
  rewrite <- (abs_stat _ _ i H3) in Hs. rewrite <- H3. cbn [snd].
  set (c4 := if internal_converter c3 then _ else _). change (follows (abs c3) (abs c4)).
  unfold c4. do 2 (case_if; [by eapply follows_set_stat_from|]).
  eapply follows_trans; [by eapply (follows_set_stat_from i _ ST20P_TX_FRAME_READY c3)|].
  by apply follows_emit_note.
Qed.

Lemma session_tame f : session f -> tame f.
Proof.
  induction 1; intros c.
  - apply follows_refl.
  - eapply follows_trans; [apply IHsession1|apply IHsession2].
  - apply follows_refl.
  - by apply next_frame_tame.
  - by apply frame_done_tame.
  - unfold tx_st20p_convert_get_frame. do 2 (case_if; [apply follows_refl|]).
    destruct (cas_claim_follows (fun c => tx_st20p_newest_available c ST20P_TX_FRAME_READY)
      ST20P_TX_FRAME_READY ST20P_TX_FRAME_IN_CONVERTING env c) as [H1 _]; [|done..|exact H1].
    intros c'. apply newest_available_range.
  - by apply convert_put_tame.
  - unfold tx_st20p_convert_dump. case_if; apply follows_refl.
  - by apply get_frame_tame.
  - unfold app_write_frame. case_if; [rewrite abs_user_frame_upd|]; apply follows_refl.
  - by apply put_frame_tame.
  - unfold st20p_tx_put_frame_abort. case_if; [apply follows_refl|].
    case_bool_decide as Hs; cbn [negb]; [|apply follows_refl].
    by eapply (follows_set_stat_from i _ ST20P_TX_FRAME_FREE c).
  - by apply put_ext_tame.
  - by apply ext_free_tame.
  - unfold tx_st20p_stat. case_if; apply follows_refl.
  - unfold st20p_tx_reset_session_stats. case_if; apply follows_refl.
  - unfold st20p_tx_wake_block. case_if; [apply follows_refl|]. case_if; [|apply follows_refl].
    set (c1 := c <| wake_block_cnt ::= _ |>). change (abs c) with (abs c1).
    by apply follows_emit_note.
  - unfold st20p_tx_set_block_timeout. case_if; apply follows_refl.
  - unfold st20p_tx_begin_free. case_if; [apply follows_refl|].
    set (c1 := c <| lc_destroying := true |>). change (abs c) with (abs c1).
    by apply follows_emit_note.
Qed.

(** Replaying a trace that the slot machine made gives each slot's state. *)
Lemma replay_snoc i t e : replay i (t ++ [e]) = (st ← replay i t; replay_step i st e).
Proof. unfold replay. by rewrite foldl_app. Qed.

Definition replays (a : slots) : Prop :=
  forall i st, sl_slots a !! i = Some st -> replay i (sl_trace a) = Some st.

(** One event about slot [i], for that slot and for the others. *)
Lemma replays_insert l t i e st st' :
  replays (mk_slots l t) -> l !! i = Some st -> replay_step i st e = Some st' ->
  (forall j st, i <> j -> replay_step j st e = Some st) ->
  replays (mk_slots (<[i := st']> l) (t ++ [e])).
Proof.
  unfold replays. intros Hr Hl He Ho j stj Hj. cbn [sl_slots sl_trace] in *. rewrite replay_snoc.
  destruct (decide (i = j)) as [<-|Hne].
  - rewrite (Hr _ _ Hl). rewrite list_lookup_insert_eq in Hj by (by eapply lookup_lt_Some).
    by injection Hj as <-.
  - rewrite list_lookup_insert_ne in Hj by done. rewrite (Hr _ _ Hj). by apply Ho.
Qed.

Lemma slot_step_replays a b : slot_step a b -> replays a -> replays b.
Proof.
  intros [l t i old new d Hl Ha|l t i d Hl|l t i s Hl|l t e He] Hr.
  - eapply replays_insert; [done..| |]; cbn.
    + by rewrite !bool_decide_eq_true_2, Ha by done.
    + intros j st Hj. by rewrite bool_decide_eq_false_2.
  - eapply replays_insert; [done..| |]; cbn.
    + by rewrite !bool_decide_eq_true_2 by done.
    + intros j st Hj. by rewrite bool_decide_eq_false_2.
  - eapply replays_insert; [done..| |]; cbn.
    + by rewrite bool_decide_eq_true_2 by done.
    + intros j st Hj. by rewrite bool_decide_eq_false_2.
  - unfold replays in *. intros j st Hj. cbn [sl_slots sl_trace] in *. rewrite replay_snoc, (Hr _ _ Hj).
    by destruct e.
Qed.

(** A session as it comes out of [st20p_tx_create]. *)
Definition fresh_session (c : st20p_tx_ctx) : Prop :=
  trace c = [] /\
  Forall (fun fb => stat fb = ST20P_TX_FRAME_FREE /\ frame_done_cb_called fb = false) (framebuffs c).

Lemma fresh_replays c : fresh_session c -> replays (abs c).
Proof.
  intros [Ht Hf] i st Hi. cbn in *. rewrite Ht. rewrite list_lookup_fmap in Hi.
  apply fmap_Some in Hi as (fb & Hl & ->).
  apply (Forall_lookup_1 _ _ _ _ Hf) in Hl as [H1 H2]. unfold abs_slot. by rewrite H1, H2.
Qed.

(** ** Which frame the transport gets

    The rest is about a call during which nobody else acts: the application's
    callbacks return without calling the API and no thread interferes. *)
Definition idle : tx_event -> st20p_tx_ctx -> st20p_tx_ctx := fun _ c => c.

(** How many frames were handed out since this one. *)
Definition age (c : st20p_tx_ctx) (i : nat) : Z :=
  u32 (framebuff_sequence_number c - seq_number (fb_at c i)).

(** The sequence numbers of the slots in a state are apart and at most half the
    32-bit circle old. *)
Definition seq_window (c : st20p_tx_ctx) (s : st20p_tx_frame_status) : Prop :=
  forall i, stat (fb_at c i) = s -> age c i < 2147483648 /\
    forall j, stat (fb_at c j) = s -> age c j = age c i -> j = i.

(** Past its slot by more than one frame period, where that is checked. *)
Definition frame_late (c : st20p_tx_ctx) (i : nat) : bool :=
  let frame := tx_st20p_user_frame c (fb_at c i) in
  has_flag (ops_flags c) ST20P_TX_FLAG_DROP_WHEN_LATE &&
  has_flag (ops_flags c) ST20P_TX_FLAG_USER_PACING &&
  bool_decide (fm_tfmt frame = ST10_TIMESTAMP_FMT_TAI) &&
  (u64 (fm_timestamp frame + frame_period_ns c) <=? ptp_time c).

Lemma newest_step_oldest c s l best i :
  seq_window c s ->
  (forall b, best = Some b -> stat (fb_at c b) = s) ->
  foldl (newest_step c s) best l = Some i ->
  stat (fb_at c i) = s /\
  (forall b, best = Some b -> age c b <= age c i) /\
  (forall j, In j l -> stat (fb_at c j) = s -> age c j <= age c i).
Proof.
  intros Hw. revert best. induction l as [|k l IH]; intros best Hb Hf.
  - cbn in Hf. subst. split; [by apply Hb|]. split; [|done]. intros b [= <-]. lia.
  - cbn [foldl] in Hf.
    assert (Hn : forall b, newest_step c s best k = Some b -> stat (fb_at c b) = s).
    { intros b. unfold newest_step. case_if; [|apply Hb]. intros [= <-].
      apply andb_true_iff in E as [E _]. by apply bool_decide_eq_true in E. }
    destruct (IH _ Hn Hf) as (Hi & Hbest & Hl). split; [done|].
    unfold newest_step in Hbest. case_bool_decide as Hk; cbn [andb] in Hbest.
    + destruct best as [b|]; cbn [negb] in Hbest.
      * specialize (Hb b eq_refl). rewrite (seq32_greater_age (framebuff_sequence_number c)) in Hbest
          by (by apply Hw).
        fold (age c k) (age c b) in Hbest. destruct (Z.ltb_spec (age c k) (age c b)); cbn in Hbest.
        -- specialize (Hbest b eq_refl). split; [intros ? [= <-]; done|].
           intros j [<-|Hj]; [lia|]. by apply Hl.
        -- specialize (Hbest k eq_refl). split; [intros ? [= <-]; lia|].
           intros j [<-|Hj]; [lia|]. by apply Hl.
      * split; [done|]. intros j [<-|Hj]; [intros _; by apply Hbest|]. by apply Hl.
    + split; [done|]. intros j [<-|Hj]; [done|]. by apply Hl.
Qed.

(** Despite its name the scan returns the oldest slot of the state. *)
Lemma newest_available_oldest c s i :
  seq_window c s -> tx_st20p_newest_available c s = Some i ->
  stat (fb_at c i) = s /\ forall j, (j < length (framebuffs c))%nat ->
    stat (fb_at c j) = s -> age c j <= age c i.
Proof.
  intros Hw H. unfold tx_st20p_newest_available in H.
  destruct (newest_step_oldest c s _ None i Hw ltac:(done) H) as (Hi & _ & Hl).
  split; [done|]. intros j Hj. apply Hl. apply in_seq. lia.
Qed.

Lemma newest_available_none c s :
  tx_st20p_newest_available c s = None ->
  forall j, (j < length (framebuffs c))%nat -> stat (fb_at c j) <> s.
Proof.
  unfold tx_st20p_newest_available. intros H j Hj Hs.
  assert (Hin : In j (seq 0 (length (framebuffs c)))) by (apply in_seq; lia). revert Hin H.
  assert (Hsome : forall l b, foldl (newest_step c s) (Some b) l <> None).
  { induction l as [|k l IH]; intros b; [done|]. cbn [foldl]. unfold newest_step at 2.
    case_if; apply IH. }
  generalize (seq 0 (length (framebuffs c))). induction l as [|k l IH]; [done|].
  cbn [foldl]. intros [->|Hin]; unfold newest_step at 2; cbn.
  - rewrite bool_decide_eq_true_2 by done. cbn. apply Hsome.
  - case_if; [by intros []%Hsome|by apply IH].
Qed.

(** A change to nothing but slot [i] and what does not decide the order. *)
Record slot_only (i : nat) (c c' : st20p_tx_ctx) : Prop := {
  so_flags : ops_flags c' = ops_flags c;
  so_seq : framebuff_sequence_number c' = framebuff_sequence_number c;
  so_time : ptp_time c' = ptp_time c;
  so_period : frame_period_ns c' = frame_period_ns c;
  so_derive : derive c' = derive c;
  so_len : length (framebuffs c') = length (framebuffs c);
  so_dropped : stat_frames_dropped c' = stat_frames_dropped c;
  so_others : forall j, j <> i -> fb_at c' j = fb_at c j;
}.

Lemma slot_only_refl i c : slot_only i c c.
Proof. by constructor. Qed.
Lemma slot_only_trans i c1 c2 c3 : slot_only i c1 c2 -> slot_only i c2 c3 -> slot_only i c1 c3.
Proof.
  intros [] []. constructor; try congruence. intros j Hj.
  by rewrite so_others1, so_others0.
Qed.
Lemma slot_only_emit i e c : slot_only i c (emit e c).
Proof. by constructor. Qed.
Lemma slot_only_upd i g c : slot_only i c (fb_upd i g c).
Proof.
  constructor; try done; [cbn; by rewrite length_alter|]. intros j Hj. by apply fb_at_upd_ne.
Qed.
Lemma slot_only_set_stat i s c : slot_only i c (set_stat i s c).
Proof. eapply slot_only_trans; [apply slot_only_upd|apply slot_only_emit]. Qed.
Lemma slot_only_notify i c : slot_only i c (tx_st20p_notify_frame_available idle c).
Proof.
  unfold tx_st20p_notify_frame_available, fire, idle.
  set (c1 := if has_notify_frame_available c then _ else c).
  assert (slot_only i c c1) by (unfold c1; case_if; [apply slot_only_emit|apply slot_only_refl]).
  case_if; [|done]. eapply slot_only_trans; [done|apply slot_only_emit].
Qed.
Lemma slot_only_done i mark c :
  (forall c, slot_only i c (mark c)) -> slot_only i c (frame_done_once idle i mark c).
Proof.
  intros Hm. unfold frame_done_once, fire, idle. case_if; [|apply slot_only_refl].
  eapply slot_only_trans; [apply slot_only_upd|].
  eapply slot_only_trans; [apply Hm|apply slot_only_emit].
Qed.
Create HintDb slots.
#[export] Hint Resolve slot_only_refl slot_only_emit slot_only_upd slot_only_set_stat
  slot_only_notify slot_only_done : slots.

Lemma set_stat_stat i s c :
  (i < length (framebuffs c))%nat -> stat (fb_at (set_stat i s c) i) = s.
Proof.
  intros Hi. change (stat (fb_at (fb_upd i (fun fb => fb <| stat := s |>) c) i) = s).
  by rewrite fb_at_upd_eq.
Qed.

Lemma notify_idle_fb c i : fb_at (tx_st20p_notify_frame_available idle c) i = fb_at c i.
Proof. unfold tx_st20p_notify_frame_available, fire, idle. by repeat case_if. Qed.

(** A late slot is dropped and counted, and nothing else changes. *)
Record dropped (i : nat) (c c' : st20p_tx_ctx) : Prop := {
  dr_only : slot_only i (c <| stat_frames_dropped ::= fun n => u64 (n + 1) |>) c';
  dr_slot : stat (fb_at c' i) = ST20P_TX_FRAME_FREE \/ stat (fb_at c' i) = ST20P_TX_FRAME_IN_USER;
}.

Lemma if_frame_late_idle i c :
  (i < length (framebuffs c))%nat ->
  let r := tx_st20p_if_frame_late idle i c in
  r.1 = frame_late c i /\ if frame_late c i then dropped i c r.2 else r.2 = c.
Proof.
  intros Hi r. unfold r, tx_st20p_if_frame_late, frame_late.
  destruct (has_flag _ ST20P_TX_FLAG_DROP_WHEN_LATE); [|done].
  destruct (has_flag _ ST20P_TX_FLAG_USER_PACING); [|done]. cbn [negb orb andb].
  case_bool_decide as Et; [|done]. cbn [negb andb]. rewrite Z.leb_antisym.
  case_if; [done|]. cbn [negb fst snd]. split; [done|].
  set (need := has_flag _ _ && _). clearbody need. clear r Et E.
  set (c1 := c <| stat_drop_frame ::= _ |> <| stat_frames_dropped ::= _ |>).
  assert (H1 : slot_only i (c <| stat_frames_dropped ::= fun n => u64 (n + 1) |>) c1) by done.
  assert (Hi1 : (i < length (framebuffs c1))%nat) by done. clearbody c1.
  set (c2 := set_stat i ST20P_TX_FRAME_DROPPED c1). set (c3 := frame_done_once _ _ _ c2).
  assert (H3 : slot_only i c1 c3).
  { eapply slot_only_trans; [apply slot_only_set_stat|].
    apply slot_only_done. intros c'. apply slot_only_upd. }
  set (c4 := if has_notify_frame_late c3 then _ else c3).
  assert (H4 : slot_only i c1 c4).
  { eapply slot_only_trans; [exact H3|]. unfold c4, fire, idle. case_if; auto with slots. }
  clearbody c4. clear c2 c3 H3. set (c5 := set_stat i _ c4).
  assert (H5 : slot_only i c1 c5) by (eapply slot_only_trans; [exact H4|apply slot_only_set_stat]).
  assert (Hs : stat (fb_at c5 i) = if need then ST20P_TX_FRAME_IN_USER else ST20P_TX_FRAME_FREE).
  { apply set_stat_stat. rewrite (so_len _ _ _ H4). lia. }
  split.
  - eapply slot_only_trans; [exact H1|]. eapply slot_only_trans; [exact H5|].
    case_if; auto with slots.
  - destruct need; [by right|left]. by rewrite notify_idle_fb.
Qed.

(** Slots and time as the decisions of the loop see them. *)
Lemma dropped_others i c c' j :
  dropped i c c' -> j <> i ->
  fb_at c' j = fb_at c j /\ age c' j = age c j /\ frame_late c' j = frame_late c j.
Proof.
  intros [[] _] Hj. specialize (so_others0 j Hj). cbn in *. split; [done|].
  unfold age, frame_late, tx_st20p_user_frame.
  change (fb_at (c <| stat_frames_dropped ::= fun n => u64 (n + 1) |>) j) with (fb_at c j) in *.
  by rewrite so_others0, so_flags0, so_seq0, so_time0, so_period0, so_derive0.
Qed.

Lemma dropped_window i c c' :
  dropped i c c' -> seq_window c ST20P_TX_FRAME_CONVERTED -> seq_window c' ST20P_TX_FRAME_CONVERTED.
Proof.
  intros Hd Hw j Hj.
  assert (Hne : forall k, stat (fb_at c' k) = ST20P_TX_FRAME_CONVERTED -> k <> i).
  { intros k Hk ->. destruct (dr_slot _ _ _ Hd); congruence. }
  destruct (dropped_others i c c' j Hd (Hne j Hj)) as (E1 & E2 & _).
  rewrite E1 in Hj. destruct (Hw j Hj) as [H1 H2]. split; [lia|]. intros k Hk Ha.
  destruct (dropped_others i c c' k Hd (Hne k Hk)) as (E3 & E4 & _).
  rewrite E3 in Hk. apply H2; [done|lia].
Qed.

(** What became of slot [j] when every slot older than [a] was to be dropped. *)
Definition kept_or_dropped (c c' : st20p_tx_ctx) (older : nat -> bool) (j : nat) : Prop :=
  if older j then
    frame_late c j = true /\
    (stat (fb_at c' j) = ST20P_TX_FRAME_FREE \/ stat (fb_at c' j) = ST20P_TX_FRAME_IN_USER)
  else fb_at c' j = fb_at c j.
Definition converted (c : st20p_tx_ctx) (j : nat) : bool :=
  bool_decide (stat (fb_at c j) = ST20P_TX_FRAME_CONVERTED).

(** The outcome of the loop with [n] drops left before the cap. *)
Definition next_outcome (c : st20p_tx_ctx) (n : Z) (r : option nat * st20p_tx_ctx) : Prop :=
  match r with
  | (Some i, c') =>
      converted c i = true /\ frame_late c i = false /\
      stat (fb_at c' i) = ST20P_TX_FRAME_IN_TRANSMITTING /\
      forall j, j <> i -> kept_or_dropped c c' (fun j => converted c j && (age c i <? age c j)) j
  | (None, c') =>
      (forall j, kept_or_dropped c c' (converted c) j) \/
      (stat_frames_dropped c' = u64 (stat_frames_dropped c + n) /\
       forall j, fb_at c' j = fb_at c j \/ kept_or_dropped c c' (converted c) j)
  end.

Lemma converted_range c i : converted c i = true -> (i < length (framebuffs c))%nat.
Proof. intros H. apply bool_decide_eq_true in H. by eapply fb_at_range. Qed.

(** One drop in front of the rest of the loop. *)
Lemma next_outcome_drop c c1 k n r :
  seq_window c ST20P_TX_FRAME_CONVERTED -> converted c k = true -> frame_late c k = true ->
  (forall j, converted c j = true -> age c j <= age c k) ->
  dropped k c c1 -> next_outcome c1 n r -> next_outcome c (n + 1) r.
Proof.
  intros Hw Hk Hl Hold Hd. pose proof (dropped_others k c c1) as Ho.
  assert (Hk1 : converted c1 k = false).
  { apply bool_decide_eq_false. intros H. destruct (dr_slot _ _ _ Hd); congruence. }
  assert (Hconv : forall j, j <> k -> converted c1 j = converted c j).
  { intros j Hj. unfold converted. by destruct (Ho j Hd Hj) as (-> & _). }
  assert (Hall : forall c' j, kept_or_dropped c1 c' (converted c1) j ->
    kept_or_dropped c c' (converted c) j).
  { intros c' j H. unfold kept_or_dropped in *. destruct (decide (j = k)) as [->|Hj].
    - rewrite Hk1 in H. rewrite Hk, H. split; [done|]. apply Hd.
    - rewrite Hconv in H by done. destruct (Ho j Hd Hj) as (E1 & _ & E3). by rewrite E1, E3 in H. }
  destruct r as [[i|] c']; cbn [next_outcome].
  - intros (Hi & Hli & Hsi & Hj). assert (Hik : i <> k) by congruence.
    rewrite Hconv in Hi by done. destruct (Ho i Hd Hik) as (E1 & E2 & E3). rewrite E3 in Hli.
    split; [done|]. split; [done|]. split; [done|]. intros j Hji. specialize (Hj j Hji).
    unfold kept_or_dropped in *. destruct (decide (j = k)) as [->|Hjk].
    + rewrite Hk1 in Hj. cbn in Hj. rewrite Hk, Hj.
      assert (age c i < age c k).
      { pose proof (Hold i Hi). destruct (decide (age c i = age c k)) as [Heq|]; [|lia].
        destruct Hik. apply bool_decide_eq_true in Hk, Hi. by apply (Hw k Hk). }
      destruct (Z.ltb_spec (age c i) (age c k)); [|lia]. cbn. split; [done|]. apply Hd.
    + destruct (Ho j Hd Hjk) as (F1 & F2 & F3).
      by rewrite Hconv, E2, F1, F2, F3 in Hj by done.
  - intros [H|[Hn H]]; [left; auto|right]. split.
    + rewrite Hn. rewrite (so_dropped _ _ _ (dr_only _ _ _ Hd)). cbn. mlia.
    + intros j. destruct (H j) as [Hj|Hj]; [|by auto]. destruct (decide (j = k)) as [->|Hjk].
      * right. unfold kept_or_dropped. rewrite Hk, Hj. split; [done|]. apply Hd.
      * left. rewrite Hj. by apply Ho.
Qed.

Lemma next_frame_loop_outcome fuel d c :
  seq_window c ST20P_TX_FRAME_CONVERTED -> 0 <= d < ST_TX_DROP_MAX_BATCH ->
  ST_TX_DROP_MAX_BATCH - d <= Z.of_nat fuel ->
  next_outcome c (ST_TX_DROP_MAX_BATCH - d) (next_frame_loop idle fuel d [] c).
Proof.
  revert d c. induction fuel as [|fuel IH]; intros d c Hw Hd Hf; [lia|]. cbn [next_frame_loop].
  destruct (tx_st20p_newest_available c ST20P_TX_FRAME_CONVERTED) as [k|] eqn:Ek.
  2:{ left. intros j. unfold kept_or_dropped. destruct (converted c j) eqn:Ej; [|done].
      apply newest_available_none with (j := j) in Ek; [|by apply converted_range].
      by apply bool_decide_eq_true in Ej. }
  apply newest_available_range in Ek as Hr. destruct Hr as [Hks Hkr].
  apply newest_available_oldest in Ek as [_ Hold]; [|done].
  assert (Hold' : forall j, converted c j = true -> age c j <= age c k).
  { intros j Hj. apply Hold; [by apply converted_range|]. by apply bool_decide_eq_true in Hj. }
  assert (Hkc : converted c k = true) by (by apply bool_decide_eq_true).
  destruct (if_frame_late_idle k c Hkr) as [Hlate Hafter].
  destruct (tx_st20p_if_frame_late idle k c) as [late c1]. cbn [fst snd] in *. subst late.
  destruct (frame_late c k) eqn:El.
  - case_if.
    + assert (ST_TX_DROP_MAX_BATCH - d = 1) as -> by lia. cbn [next_outcome]. right. split.
      * by rewrite (so_dropped _ _ _ (dr_only _ _ _ Hafter)).
      * intros j. destruct (decide (j = k)) as [->|Hj].
        -- right. unfold kept_or_dropped. rewrite Hkc. split; [done|]. apply Hafter.
        -- left. by apply (dropped_others k c c1).
    + replace (ST_TX_DROP_MAX_BATCH - d) with (ST_TX_DROP_MAX_BATCH - (d + 1) + 1) by lia.
      eapply next_outcome_drop; [done..|]. apply IH; [by eapply dropped_window|lia|lia].
  - subst c1. cbn [next_outcome]. split; [done|]. split; [done|].
    split; [by apply set_stat_stat|]. intros j Hj. unfold kept_or_dropped.
    destruct (converted c j) eqn:Ej; cbn [andb].
    + destruct (Z.ltb_spec (age c k) (age c j)) as [Hlt|_];
        [specialize (Hold' j Ej); lia|]. by apply slot_only_set_stat.
    + by apply slot_only_set_stat.
Qed.

(** ** Functional behaviour of the other operations, with nobody else acting *)

Lemma next_available_none c s :
  tx_st20p_next_available c s = None <-> Forall (fun fb => stat fb <> s) (framebuffs c).
Proof.
  unfold tx_st20p_next_available. rewrite fmap_None. apply list_find_None.
Qed.

Lemma slot_only_user i g c : slot_only i c (user_frame_upd i g c).
Proof. apply slot_only_upd. Qed.

(** What [st20p_tx_get_frame] sets up in the slot it hands out. *)
Lemma get_frame_init_slot i c :
  (i < length (framebuffs c))%nat ->
  let c' := get_frame_init i c in
  stat (fb_at c' i) = stat (fb_at c i) /\
  frame_done_cb_called (fb_at c' i) = false /\
  seq_number (fb_at c' i) = framebuff_sequence_number c /\
  framebuff_sequence_number c' = u32 (framebuff_sequence_number c + 1) /\
  fm_user_meta (tx_st20p_user_frame c' (fb_at c' i)) = None /\
  (forall j, j <> i -> fb_at c' j = fb_at c j).
Proof.
  intros Hi c'. unfold c', get_frame_init, tx_st20p_user_frame, user_frame_upd, fb_at, fb_upd, emit.
  destruct (ops_interlaced c) eqn:Eil; cbn [ops_interlaced modify_field framebuffs derive]; rewrite Eil;
    cbn; rewrite ?list_lookup_alter_eq; pose proof (fb_at_lookup c i Hi) as ->; cbn;
    (split; [by destruct (derive c)|]); (split; [by destruct (derive c)|]);
    (split; [by destruct (derive c)|]); (split; [done|]); (split; [by destruct (derive c)|]);
    intros j Hj; by rewrite !list_lookup_alter_ne.
Qed.

Lemma next_frame_loop_fuel app n m d env c :
  0 <= d < ST_TX_DROP_MAX_BATCH ->
  (ST_TX_DROP_MAX_BATCH - d + arr_len env + 1 <= Z.of_nat n) ->
  (ST_TX_DROP_MAX_BATCH - d + arr_len env + 1 <= Z.of_nat m) ->
  next_frame_loop app n d env c = next_frame_loop app m d env c.
Proof.
  unfold arr_len. revert m d env c. induction n as [|n IH]; intros m d env c Hd Hn Hm; [lia|].
  destruct m as [|m]; [lia|]. cbn [next_frame_loop].
  destruct (tx_st20p_newest_available c ST20P_TX_FRAME_CONVERTED) as [i|]; [|done].
  destruct (tx_st20p_if_frame_late app i c) as [[|] c1].
  - case_if; [done|]. apply IH; lia.
  - destruct env as [|e env]; [done|]. case_if; [done|]. cbn [length] in *. apply IH; lia.
Qed.

(** ** A concrete session *)

(** Two slots whose user frames carry the given timestamps. *)
Definition demo_frame (ts : Z) : frame_meta := frame_meta_zero <| fm_timestamp := ts |>.
Definition demo_slot (s : st20p_tx_frame_status) (seq ts : Z) : st20p_tx_frame :=
  mk_tx_frame s (demo_frame ts) (demo_frame ts) seq [] 0 0 false.
Definition demo (flags : Z) (drv : bool) (seqno now : Z) (fbs : list st20p_tx_frame)
    : st20p_tx_ctx :=
  mk_tx_ctx false flags false true true true seqno fbs false true drv 16683333 false false NS_PER_S
    0 0 0 0 0 0 0 0 0 now [].

(** An application that gives an external buffer back as soon as it hears that
    the frame is done, as the samples do. *)
Definition release_in_done (e : tx_event) (c : st20p_tx_ctx) : st20p_tx_ctx :=
  match e with
  | EvDone i => (st20p_tx_notify_ext_frame_free idle i c).2
  | _ => c
  end.
(** An application that asks for the next frame as soon as one is available. *)
Definition get_in_available (e : tx_event) (c : st20p_tx_ctx) : st20p_tx_ctx :=
  match e with
  | EvAvailable => (st20p_tx_get_frame [] [] false c).2
  | _ => c
  end.
Definition meta0 : st20_tx_frame_meta := mk_tx_meta false ST10_TIMESTAMP_FMT_TAI 0 0 0 None 0.

Definition ext_flags : Z :=
  Z.lor (Z.lor ST20P_TX_FLAG_EXT_FRAME ST20P_TX_FLAG_EXT_FRAME_MANUAL_RELEASE)
    (Z.lor ST20P_TX_FLAG_DROP_WHEN_LATE ST20P_TX_FLAG_USER_PACING).

(** On the normal path releasing the buffer inside [notify_frame_done] frees the
    slot. *)
Lemma release_in_done_sent :
  let c := demo ext_flags true 1 0 [demo_slot ST20P_TX_FRAME_IN_TRANSMITTING 0 0] in
  stat (fb_at (tx_st20p_frame_done release_in_done 0 meta0 c).2 0) = ST20P_TX_FRAME_FREE.
Proof. reflexivity. Qed.

(** On the late path the slot is DROPPED while the callback runs: the release is
    refused and the slot is left IN_USER, for good if the application, as it
    may, releases each buffer once. *)
Lemma release_in_done_late_refused :
  let c := demo ext_flags true 1 20000000 [demo_slot ST20P_TX_FRAME_CONVERTED 0 0] in
  let r := tx_st20p_next_frame release_in_done [] meta0 c in
  r.1 = inl (- EBUSY) /\ stat (fb_at r.2 0) = ST20P_TX_FRAME_IN_USER /\
  trace r.2 =
    [EvStat 0 ST20P_TX_FRAME_CONVERTED ST20P_TX_FRAME_DROPPED; EvDone 0; EvLate 0;
     EvStat 0 ST20P_TX_FRAME_DROPPED ST20P_TX_FRAME_IN_USER].
Proof. repeat split; reflexivity. Qed.

(** When a conversion fails the slot is FREE, and announced, before
    [frame_done_cb_called] is looked at: an application that takes the slot again
    at once gets the "done" of the failed frame for the new one. *)
Lemma convert_fail_done_misdirected :
  let c := demo 0 false 1 0 [demo_slot ST20P_TX_FRAME_IN_CONVERTING 0 0
                             <| frame_done_cb_called := false |>] in
  let r := tx_st20p_convert_put_frame get_in_available 0 100 (-1) c in
  trace r.2 =
    [EvStat 0 ST20P_TX_FRAME_IN_CONVERTING ST20P_TX_FRAME_FREE; EvAvailable;
     EvStat 0 ST20P_TX_FRAME_FREE ST20P_TX_FRAME_IN_USER; EvGot 0; EvDone 0] /\
  stat (fb_at r.2 0) = ST20P_TX_FRAME_IN_USER /\ frame_done_cb_called (fb_at r.2 0) = true.
Proof. repeat split; reflexivity. Qed.

(** ** The properties *)

(** C9: Every behaviour of a session (API calls, converter, transport, with
    applications that call back from callbacks and threads that interfere between
    a scan and its compare-and-exchange) is a run of the abstract slot machine:
    slots move only along the allowed edges and [notify_frame_done] is called at
    most once per hand-out. *)
Theorem st20p_tx_refines_slots f c : session f -> rtc slot_step (abs c) (abs (f c)).
Proof. intros Hf. apply (session_tame f Hf c). Qed.

Lemma idle_session e : session (idle e).
Proof. apply b_id. Qed.
Lemma release_session e : session (release_in_done e).
Proof. destruct e; try apply b_id. apply b_ext_free. apply idle_session. Qed.

(** Take a frame, put it, let the transport send it, with the releasing application. *)
Definition demo_run (c : st20p_tx_ctx) : st20p_tx_ctx :=
  let c := (st20p_tx_get_frame [fun c => (st20p_tx_get_frame [] [] false c).2] [] false c).2 in
  let c := (st20p_tx_put_ext_frame release_in_done 0 1 (mk_ext_frame [1] [1] [1] 1 0) c).2 in
  let c := (tx_st20p_next_frame release_in_done [] meta0 c).2 in
  in_range 1 (fun c => (tx_st20p_frame_done release_in_done 1 meta0 c).2) c.
Lemma demo_run_session : session demo_run.
Proof.
  refine (b_seq _ _ (b_seq _ _ (b_seq _ _ (b_get _ _ _ _ _ _) (b_put_ext _ _ _ _ release_session))
    (b_next _ _ _ release_session _)) (b_done _ _ _ release_session)); try done.
  intros f [<-|[]]. by apply b_get.
Qed.
Definition demo_fresh : st20p_tx_ctx :=
  demo ext_flags true 0 0 [demo_slot ST20P_TX_FRAME_FREE 0 0; demo_slot ST20P_TX_FRAME_FREE 0 0].

Lemma st20p_tx_refines_slots_witness :
  rtc slot_step (abs demo_fresh) (abs (demo_run demo_fresh)) /\
  length (trace (demo_run demo_fresh)) = 10%nat.
Proof.
  split; [apply (st20p_tx_refines_slots demo_run demo_fresh demo_run_session)|].
  vm_compute. reflexivity.
Defined.

(** In any history of a fresh session, the events of each slot form a legal
    word: every atomic store starts from the status the previous one left and
    follows an allowed edge, a slot is handed out only when it is IN_USER, no
    [notify_frame_done] repeats before the next hand-out, and the slot's status
    and flag are the ones this history ends in. *)
Lemma st20p_tx_trace_legal f c i :
  session f -> fresh_session c -> (i < length (framebuffs c))%nat ->
  replay i (trace (f c)) = Some (abs_slot (fb_at (f c) i)).
Proof.
  intros Hf Hc Hi. destruct (session_tame f Hf c) as [Hr _].
  assert (HL : length (framebuffs (f c)) = length (framebuffs c)).
  { apply follows_length. by apply session_tame. }
  assert (Hrep : replays (abs (f c))).
  { generalize (fresh_replays c Hc). induction Hr as [|a b d Hab _ IH]; [done|].
    intros Ha. apply IH. by eapply slot_step_replays. }
  apply (Hrep i). apply abs_lookup. lia.
Qed.

Lemma st20p_tx_trace_legal_witness :
  replay 1 (trace (demo_run demo_fresh)) = Some (ST20P_TX_FRAME_FREE, true).
Proof.
  rewrite (st20p_tx_trace_legal demo_run demo_fresh 1 demo_run_session).
  - vm_compute. reflexivity.
  - split; [reflexivity|]. repeat constructor.
  - cbn. lia.
Defined.

(** C29: [tx_st20p_next_frame] hands the transport the oldest converted frame that
    is not late, in the order of the sequence numbers across their wrap: that slot goes
    to IN_TRANSMITTING, every older converted frame is late and is dropped, every other
    slot is untouched, and the meta data are filled from the chosen slot. It answers
    -EBUSY only when all converted frames were late and dropped (or there was
    none), or when it stopped after [ST_TX_DROP_MAX_BATCH] drops. A frame is late when
    the session drops late frames, paces by the user's TAI times, and the time of the
    frame plus one period has passed. Assumed: the session is ready, the converted
    frames have distinct numbers within half the range of the counter, the callbacks do
    not call back into the session and no other thread takes a slot meanwhile. *)
Theorem st20p_next_frame_oldest c meta :
  ready c = true -> seq_window c ST20P_TX_FRAME_CONVERTED ->
  match tx_st20p_next_frame idle [] meta c with
  | (inr (i, m), c') =>
      next_outcome c ST_TX_DROP_MAX_BATCH (Some i, c') /\ m = fill_tx_meta c' (fb_at c' i) meta
  | (inl e, c') => e = - EBUSY /\ next_outcome c ST_TX_DROP_MAX_BATCH (None, c')
  end.
Proof.
  intros Hr Hw. unfold tx_st20p_next_frame. rewrite Hr. cbn [negb].
  pose proof (next_frame_loop_outcome (next_frame_fuel []) 0 c Hw) as H.
  rewrite Z.sub_0_r in H. specialize (H ltac:(done) ltac:(done)).
  destruct (next_frame_loop idle (next_frame_fuel []) 0 [] c) as [[i|] c']; [done|].
  split; [done|]. case_if; [|done]. case_match; [|done].
  pose proof (notify_idle_fb c') as Hn. revert H. cbn [next_outcome].
  rewrite (so_dropped _ _ _ (slot_only_notify 0 c')). unfold kept_or_dropped.
  intros [H|[H1 H2]]; [left|right; split; [done|]]; intros j; rewrite Hn; [apply H|apply H2].
Qed.

(** The second slot is older across the wrap of the sequence number, and late. *)
Definition demo_late : st20p_tx_ctx :=
  demo (Z.lor ST20P_TX_FLAG_DROP_WHEN_LATE ST20P_TX_FLAG_USER_PACING) true 1 50000000
    [demo_slot ST20P_TX_FRAME_CONVERTED 0 60000000; demo_slot ST20P_TX_FRAME_CONVERTED 4294967295 0;
     demo_slot ST20P_TX_FRAME_IN_USER 7 0].

Lemma st20p_next_frame_oldest_witness :
  (tx_st20p_next_frame idle [] meta0 demo_late).1 =
    inr (0%nat, mk_tx_meta false ST10_TIMESTAMP_FMT_TAI 60000000 0 0 None 0) /\
  stat (fb_at (tx_st20p_next_frame idle [] meta0 demo_late).2 1) = ST20P_TX_FRAME_FREE /\
  match tx_st20p_next_frame idle [] meta0 demo_late with
  | (inr (i, m), c') =>
      next_outcome demo_late ST_TX_DROP_MAX_BATCH (Some i, c') /\ m = fill_tx_meta c' (fb_at c' i) meta0
  | (inl e, c') => e = - EBUSY /\ next_outcome demo_late ST_TX_DROP_MAX_BATCH (None, c')
  end.
Proof.
  split; [vm_compute; reflexivity|]. split; [vm_compute; reflexivity|].
  apply (st20p_next_frame_oldest demo_late meta0 eq_refl).
  intros [|[|[|i]]]; cbn; try done; intros _; (split; [vm_compute; reflexivity|]);
    intros [|[|[|j]]]; cbn; done.
Defined.

(** C38: The loop of [tx_st20p_next_frame] ends whatever the application and the
    other threads do: [next_frame_fuel] turns are enough, so that more would not
    change its result; turns that drop are bounded by the batch and every other
    repetition needs a lost race. *)
Theorem st20p_next_frame_terminates app env c n :
  (next_frame_fuel env <= n)%nat ->
  next_frame_loop app n 0 env c = next_frame_loop app (next_frame_fuel env) 0 env c.
Proof.
  intros Hn. unfold next_frame_fuel in *. apply next_frame_loop_fuel; unfold arr_len;
    change (Z.to_nat ST_TX_DROP_MAX_BATCH) with 80%nat in *;
    change ST_TX_DROP_MAX_BATCH with 80 in *; lia.
Qed.

Lemma st20p_next_frame_terminates_witness :
  next_frame_loop release_in_done 200 0 [id] demo_fresh =
  next_frame_loop release_in_done (next_frame_fuel [id]) 0 [id] demo_fresh.
Proof.
  apply (st20p_next_frame_terminates release_in_done [id] demo_fresh 200).
  vm_compute. lia.
Defined.

(** [st20p_tx_get_frame], called without a blocking wait and without races:
    it fails exactly when no slot is FREE and then changes only the attempt
    counter; otherwise it hands out a FREE slot, now IN_USER, with the next
    sequence number, a cleared user-meta pointer and a re-armed done callback,
    and leaves all other slots alone. *)
Theorem st20p_get_frame_spec c :
  lc_destroying c = false -> ready c = true -> block_get c = false ->
  match st20p_tx_get_frame [] [] false c with
  | (None, c') =>
      Forall (fun fb => stat fb <> ST20P_TX_FRAME_FREE) (framebuffs c) /\
      c' = c <| stat_get_frame_try ::= fun n => u32 (n + 1) |>
  | (Some i, c') =>
      (i < length (framebuffs c))%nat /\
      stat (fb_at c i) = ST20P_TX_FRAME_FREE /\
      stat (fb_at c' i) = ST20P_TX_FRAME_IN_USER /\
      frame_done_cb_called (fb_at c' i) = false /\
      seq_number (fb_at c' i) = framebuff_sequence_number c /\
      framebuff_sequence_number c' = u32 (framebuff_sequence_number c + 1) /\
      fm_user_meta (tx_st20p_user_frame c' (fb_at c' i)) = None /\
      (forall j, j <> i -> fb_at c' j = fb_at c j)
  end.
Proof.
  intros Hd Hr Hb. unfold st20p_tx_get_frame. rewrite Hd, Hr. cbn [negb].
  set (c1 := c <| stat_get_frame_try ::= _ |>).
  unfold tx_st20p_claim_available. cbn [cas_claim].
  destruct (tx_st20p_next_available c1 ST20P_TX_FRAME_FREE) as [i|] eqn:Ei.
  - apply list_find_stat_range in Ei as [Hs Hi].
    pose proof (slot_only_set_stat i ST20P_TX_FRAME_IN_USER c1) as Ho.
    pose proof (set_stat_stat i ST20P_TX_FRAME_IN_USER c1 Hi) as Hu.
    destruct (get_frame_init_slot i (set_stat i ST20P_TX_FRAME_IN_USER c1))
      as (H1 & H2 & H3 & H4 & H5 & H6); [by rewrite (so_len _ _ _ Ho)|].
    rewrite (so_seq _ _ _ Ho) in *. split; [done|]. split; [done|].
    split; [by rewrite H1|]. repeat (split; [done|]). intros j Hj.
    rewrite H6 by done. by apply Ho.
  - change (block_get c1) with (block_get c). rewrite Hb. cbn [negb]. split; [|done].
    by apply (next_available_none c1).
Qed.

Lemma st20p_get_frame_spec_witness :
  (st20p_tx_get_frame [] [] false demo_fresh).1 = Some 0%nat /\
  match st20p_tx_get_frame [] [] false demo_fresh with
  | (None, _) => False
  | (Some i, c') => stat (fb_at c' i) = ST20P_TX_FRAME_IN_USER
  end.
Proof.
  split; [vm_compute; reflexivity|].
  pose proof (st20p_get_frame_spec demo_fresh eq_refl eq_refl eq_refl) as H.
  destruct (st20p_tx_get_frame [] [] false demo_fresh) as [[i|] c']; [apply H|].
  destruct H as [H _]. inversion H as [|fb l Hn]. by destruct Hn.
Defined.
