(* ===== verification/RxRing.v ===== *)
(** The ring of frame slots the receive pipelines share (lib/src/st2110/pipeline/
    st20_pipeline_rx.c, st22_pipeline_rx.c, st30_pipeline_rx.c, st40_pipeline_rx.c): the
    scan for a slot in a state, the claim with a compare-and-exchange, the blocking get.
    The code repeats them in every pipeline; the definitions here are generic in the slot
    and are instantiated by the pipelines. [RxPipeline] is the interface of a receive
    pipeline and [RxPipelineLaws] what the pipelines promise; from the laws alone follows
    that a pipeline is a bounded queue for an application that puts its frames back in
    the order it got them. *)
From stdpp Require Import relations.
From S2P Require Import Prelude.

(** ** The scan *)

Section Scan.
Context {F : Type} (want : F -> bool).

(** [next_idx]: [idx] is below [framebuff_cnt], so the [uint16_t] does not wrap. *)
Definition ring_next_idx (cnt idx : nat) : nat := if decide (cnt <= S idx)%nat then 0%nat else S idx.

(** The loop of [next_available]; one unit of fuel per slot looked at. *)
Fixpoint ring_scan (fuel : nat) (slots : list F) (idx_start idx : nat) : option nat :=
  match fuel with
  | O => None
  | S fuel =>
      match slots !! idx with
      | None => None
      | Some slot =>
          if want slot then Some idx
          else
            let idx := ring_next_idx (length slots) idx in
            if decide (idx = idx_start) then None else ring_scan fuel slots idx_start idx
      end
  end.
Definition ring_next_available (slots : list F) (idx_start : nat) : option nat :=
  ring_scan (length slots) slots idx_start idx_start.

End Scan.

(** [(start + k) mod n], the [k]-th slot from [start] on. *)
Definition ring_at (n start k : nat) : nat := ((start + k) mod n)%nat.

Lemma ring_at_lt n start k : (0 < n)%nat -> (ring_at n start k < n)%nat.
Proof. intros H. apply Nat.mod_upper_bound. lia. Qed.

Lemma ring_at_0 n start : (start < n)%nat -> ring_at n start 0 = start.
Proof. intros H. unfold ring_at. rewrite Nat.add_0_r. by apply Nat.mod_small. Qed.

Lemma ring_at_add n start a b : (0 < n)%nat -> ring_at n (ring_at n start a) b = ring_at n start (a + b).
Proof. intros H. unfold ring_at. rewrite Nat.Div0.add_mod_idemp_l. f_equal. lia. Qed.

Lemma ring_at_S n start k : (0 < n)%nat -> ring_next_idx n (ring_at n start k) = ring_at n start (S k).
Proof.
  intros H. rewrite <- (Nat.add_1_r k), <- ring_at_add by done. pose proof (ring_at_lt n start k H) as Hlt.
  generalize dependent (ring_at n start k). intros i Hi. unfold ring_next_idx, ring_at. case_decide.
  - assert (i + 1 = n)%nat as -> by lia. symmetry. apply Nat.Div0.mod_same.
  - rewrite Nat.mod_small; lia.
Qed.

Lemma ring_at_inj n start a b :
  (a < n)%nat -> (b < n)%nat -> ring_at n start a = ring_at n start b -> a = b.
Proof.
  unfold ring_at. intros Ha Hb H.
  pose proof (Nat.div_mod_eq (start + a) n) as Ea. pose proof (Nat.div_mod_eq (start + b) n) as Eb.
  revert Ea Eb H. generalize ((start + a) / n)%nat ((start + b) / n)%nat ((start + a) mod n)%nat ((start + b) mod n)%nat.
  intros qa qb ra rb Ea Eb ->. assert (qa = qb) by nia. nia.
Qed.

Lemma ring_at_surj n start i : (start < n)%nat -> (i < n)%nat -> exists k, (k < n)%nat /\ i = ring_at n start k.
Proof.
  intros Hs Hi. unfold ring_at. destruct (decide (start <= i)%nat).
  - exists (i - start)%nat. split; [lia|]. rewrite Nat.mod_small; lia.
  - exists (n + i - start)%nat. split; [lia|].
    replace (start + (n + i - start))%nat with (i + 1 * n)%nat by lia. rewrite Nat.Div0.mod_add. rewrite Nat.mod_small; lia.
Qed.

Section ScanSpec.
Context {F : Type} (want : F -> bool).

(** The scan stops at the first wanted slot in ring order, or has seen all slots. *)
Lemma ring_scan_spec slots start : (start < length slots)%nat ->
  forall m k, (k + m = length slots)%nat -> (0 < m)%nat ->
  match ring_scan want m slots start (ring_at (length slots) start k) with
  | Some i => exists j slot, (k <= j < length slots)%nat /\ i = ring_at (length slots) start j
      /\ slots !! i = Some slot /\ want slot = true
      /\ forall j' slot', (k <= j' < j)%nat -> slots !! ring_at (length slots) start j' = Some slot' -> want slot' = false
  | None => forall j slot, (k <= j < length slots)%nat ->
      slots !! ring_at (length slots) start j = Some slot -> want slot = false
  end.
Proof.
  intros Hs m. induction m as [|m IH]; intros k Hk Hm; [lia|]. cbn [ring_scan].
  destruct (lookup_lt_is_Some_2 slots (ring_at (length slots) start k)) as [slot Hslot]; [apply ring_at_lt; lia|].
  rewrite Hslot. destruct (want slot) eqn:Hw.
  { exists k, slot. split_and!; try done; lia. }
  rewrite ring_at_S by lia. case_decide as Hend.
  - assert (S k = length slots) as HS.
    { rewrite <- (ring_at_0 (length slots) start Hs) in Hend at 2. destruct (decide (S k = length slots)); [done|].
      apply ring_at_inj in Hend; lia. }
    intros j slot' Hj. assert (j = k) as -> by lia. rewrite Hslot. by intros [= <-].
  - assert (0 < m)%nat as Hm0.
    { destruct m; [|lia]. exfalso. apply Hend. replace (S k) with (length slots) by lia.
      unfold ring_at. replace (start + length slots)%nat with (start + 1 * length slots)%nat by lia.
      rewrite Nat.Div0.mod_add. by apply Nat.mod_small. }
    specialize (IH (S k) ltac:(lia) Hm0). destruct ring_scan as [i|].
    + destruct IH as (j & slot' & Hj & -> & Hl & Hw' & Hbefore). exists j, slot'. split_and!; try done; [lia|lia|].
      intros j' slot'' Hj' Hl'. destruct (decide (j' = k)) as [-> |]; [congruence|]. eapply Hbefore; [|exact Hl']. lia.
    + intros j slot' Hj Hl. destruct (decide (j = k)) as [-> |]; [congruence|]. eapply IH; [|exact Hl]. lia.
Qed.

Lemma next_available_spec slots start : (start < length slots)%nat ->
  match ring_next_available want slots start with
  | Some i => exists j slot, (j < length slots)%nat /\ i = ring_at (length slots) start j
      /\ slots !! i = Some slot /\ want slot = true
      /\ forall j' slot', (j' < j)%nat -> slots !! ring_at (length slots) start j' = Some slot' -> want slot' = false
  | None => forall i slot, slots !! i = Some slot -> want slot = false
  end.
Proof.
  intros Hs. pose proof (ring_scan_spec slots start Hs (length slots) 0 ltac:(lia) ltac:(lia)) as H.
  unfold ring_next_available. rewrite ring_at_0 in H by done. destruct ring_scan as [i|].
  - destruct H as (j & slot & Hj & -> & Hl & Hw & Hb). exists j, slot. split_and!; try done; [lia|].
    intros j' slot' Hj'. apply Hb. lia.
  - intros i slot Hi. pose proof (lookup_lt_Some _ _ _ Hi) as Hlt.
    destruct (ring_at_surj (length slots) start i Hs Hlt) as (k & Hk & ->). eapply H; [|exact Hi]. lia.
Qed.

Lemma next_available_some slots start i :
  ring_next_available want slots start = Some i -> exists slot, slots !! i = Some slot /\ want slot = true.
Proof.
  destruct (decide (start < length slots)%nat) as [Hs|Hs].
  - pose proof (next_available_spec slots start Hs) as H. intros E. rewrite E in H. destruct H as (j & slot & _ & _ & Hl & Hw & _). by exists slot.
  - unfold ring_next_available. destruct slots as [|x slots]; [done|]. cbn [length] in *. cbn [ring_scan].
    rewrite lookup_ge_None_2; [done|cbn; lia].
Qed.

(** A slot that is wanted is found where the scan starts. *)
Lemma next_available_here slots start slot :
  slots !! start = Some slot -> want slot = true -> ring_next_available want slots start = Some start.
Proof.
  intros Hl Hw. unfold ring_next_available. pose proof (lookup_lt_Some _ _ _ Hl). destruct (length slots) eqn:E; [lia|].
  cbn [ring_scan]. by rewrite Hl, Hw.
Qed.

Lemma ring_available_none slots start :
  Forall (fun slot => want slot = false) slots -> ring_next_available want slots start = None.
Proof.
  intros H. destruct (ring_next_available want slots start) as [i|] eqn:E; [|done].
  destruct (next_available_some _ _ _ E) as (slot & Hl & Hw). rewrite Forall_lookup in H. specialize (H _ _ Hl). congruence.
Qed.

(** The scan from a slot that is wanted stays there: a search for the next slot has to
    start behind it. *)
Lemma next_available_again slots start i :
  ring_next_available want slots start = Some i -> ring_next_available want slots i = Some i.
Proof. intros (slot & Hl & Hw)%next_available_some. by eapply next_available_here. Qed.

(** More turns than there are slots change nothing. *)
Lemma ring_scan_fuel slots start n : (start < length slots)%nat -> (length slots <= n)%nat ->
  ring_scan want n slots start start = ring_next_available want slots start.
Proof.
  intros Hs Hn. unfold ring_next_available. cut (forall m k d, (k + m = length slots)%nat -> (0 < m)%nat ->
    ring_scan want (m + d) slots start (ring_at (length slots) start k)
    = ring_scan want m slots start (ring_at (length slots) start k)).
  { intros H. specialize (H (length slots) 0%nat (n - length slots)%nat ltac:(lia) ltac:(lia)).
    rewrite ring_at_0 in H by done. replace (length slots + (n - length slots))%nat with n in H by lia. exact H. }
  clear n Hn. intros m. induction m as [|m IH]; intros k d Hk Hm; [lia|]. cbn [ring_scan Nat.add].
  destruct (slots !! _); [|done]. destruct (want f); [done|]. rewrite ring_at_S by lia. case_decide as Hend; [done|].
  apply IH; [lia|]. destruct m; [|lia]. exfalso. apply Hend. replace (S k) with (length slots) by lia.
  unfold ring_at. replace (start + length slots)%nat with (start + 1 * length slots)%nat by lia.
  rewrite Nat.Div0.mod_add. by apply Nat.mod_small.
Qed.

End ScanSpec.

(** The scan sees a slot only through the test. *)
Lemma ring_scan_fmap {F G} (g : F -> G) (want : F -> bool) (want' : G -> bool) slots fuel start idx :
  Forall (fun s => want s = want' (g s)) slots ->
  ring_scan want' fuel (g <$> slots) start idx = ring_scan want fuel slots start idx.
Proof.
  intros Hw. revert idx. induction fuel as [|fuel IH]; intros idx; [done|]. cbn [ring_scan].
  rewrite list_lookup_fmap, length_fmap. destruct (slots !! idx) as [s|] eqn:E; [|done]. cbn.
  rewrite <- (Forall_lookup_1 _ _ _ _ Hw E). destruct (want s); [done|]. case_decide; [done|]. apply IH.
Qed.

Lemma next_available_fmap_in {F G} (g : F -> G) (want : F -> bool) (want' : G -> bool) slots start :
  Forall (fun s => want s = want' (g s)) slots ->
  ring_next_available want' (g <$> slots) start = ring_next_available want slots start.
Proof. intros Hw. unfold ring_next_available. rewrite length_fmap. by apply ring_scan_fmap. Qed.

Lemma next_available_fmap {F G} (g : F -> G) (want : F -> bool) (want' : G -> bool) slots start :
  (forall s, want s = want' (g s)) ->
  ring_next_available want' (g <$> slots) start = ring_next_available want slots start.
Proof. intros Hw. by apply next_available_fmap_in, Forall_true. Qed.

Lemma fmap_alter_insert {A B} (g : A -> B) (f : A -> A) (l : list A) i x :
  l !! i = Some x -> g <$> alter f i l = <[i := g (f x)]> (g <$> l).
Proof.
  intros H. apply list_eq. intros j. rewrite list_lookup_fmap. destruct (decide (i = j)) as [<- |Hne].
  - rewrite list_lookup_alter_eq, H, list_lookup_insert_eq; [done|]. rewrite length_fmap. by eapply lookup_lt_Some.
  - by rewrite list_lookup_alter_ne, list_lookup_insert_ne, list_lookup_fmap by done.
Qed.

Lemma Forall_alter_at {A} (P : A -> Prop) f (l : list A) i :
  Forall P l -> (forall x, l !! i = Some x -> P x -> P (f x)) -> Forall P (alter f i l).
Proof.
  intros H Hf. apply Forall_lookup. intros j y Hy. rewrite Forall_lookup in H. destruct (decide (i = j)) as [<- |Hne].
  - rewrite list_lookup_alter_eq in Hy. destruct (l !! i) as [x|] eqn:E; [|done]. injection Hy as <-. eauto.
  - rewrite list_lookup_alter_ne in Hy by done. eauto.
Qed.

(** ** The claim and the blocking get *)

(** One [mt_pthread_cond_timedwait]: what the other threads do between the scan and the
    exchange of the claim before it, what they do while this one sleeps, and the value
    the wait returns. *)
Record rx_wait (C : Type) := mk_rx_wait { rw_races : list (C -> C); rw_sleep : C -> C; rw_ret : Z }.
Arguments mk_rx_wait {C}.
Arguments rw_races {C}.
Arguments rw_sleep {C}.
Arguments rw_ret {C}.

Section Claim.
Context {C : Type}.

(** [while ((fb = next_available())) if (CAS(&fb->stat, desired, claimed)) return fb;]
    The head of [env] runs between the scan and the exchange; when the list is exhausted
    no other thread interferes. *)
Fixpoint ring_claim (pick : C -> option nat) (still : nat -> C -> bool) (claim : nat -> C -> C)
    (env : list (C -> C)) (c : C) : option nat * C :=
  match pick c with
  | None => (None, c)
  | Some i =>
      match env with
      | [] => (Some i, claim i c)
      | e :: env =>
          let c := e c in
          if still i c then (Some i, claim i c) else ring_claim pick still claim env c
      end
  end.

Section Block.
Context (attempt : list (C -> C) -> C -> option nat * C).
Context (pending destroying : C -> bool) (clear : C -> C).

Fixpoint rx_wait_loop (waits : list (rx_wait C)) (c : C) : option nat * C :=
  if pending c || destroying c then (None, c)
  else
    match attempt (match waits with [] => [] | w :: _ => rw_races w end) c with
    | (Some i, c) => (Some i, c)
    | (None, c) =>
        match waits with
        | [] => (None, c)
        | w :: waits =>
            let c := rw_sleep w c in
            if c_true (rw_ret w) then (None, c) else rx_wait_loop waits c
        end
    end.

(** The claim of a [get_frame] with [ST*P_RX_FLAG_BLOCK_GET]. [unlocked] is what other
    threads do after the mutex is released. *)
Definition rx_block_get (block_get : C -> bool) (env : list (C -> C)) (waits : list (rx_wait C))
    (unlocked : C -> C) (again : list (C -> C)) (c : C) : option nat * C :=
  match attempt env c with
  | (Some i, c) => (Some i, c)
  | (None, c) =>
      if negb (block_get c) then (None, c)
      else
        match rx_wait_loop waits c with
        | (Some i, c) => (Some i, unlocked (clear c))
        | (None, c) =>
            let c := unlocked (clear c) in
            if destroying c then (None, c) else attempt again c
        end
  end.

End Block.

(** Without other threads a claim that finds nothing changes the flag at most. *)
Lemma rx_block_get_idle (attempt : list (C -> C) -> C -> option nat * C) pending destroying clear block_get c :
  attempt [] c = (None, c) -> attempt [] (clear c) = (None, clear c) ->
  exists c', rx_block_get attempt pending destroying clear block_get [] [] id [] c = (None, c') /\ (c' = c \/ c' = clear c).
Proof.
  intros H1 H2. unfold rx_block_get. rewrite H1. destruct (negb (block_get c)); [eauto|]. cbn [rx_wait_loop].
  rewrite H1. assert ((if pending c || destroying c then (None, c) else (None, c)) = (@None nat, c)) as -> by (by case_if).
  cbn [id]. rewrite H2. destruct (destroying (clear c)); eauto.
Qed.

(** A property of the state the other threads, the claim and the flag keep holds after the
    get; a slot it answers was claimed and the property [Q] of claimed slots kept. *)
Section ClaimRules.
Context (P : C -> Prop) (Q : nat -> C -> Prop).
Context (pick : C -> option nat) (still : nat -> C -> bool) (claim : nat -> C -> C).

Hypothesis claim_ok : forall i c, P c -> pick c = Some i \/ still i c = true -> P (claim i c) /\ Q i (claim i c).

Lemma ring_claim_rule env c :
  Forall (fun e => forall c, P c -> P (e c)) env -> P c ->
  P (ring_claim pick still claim env c).2
  /\ forall i, (ring_claim pick still claim env c).1 = Some i -> Q i (ring_claim pick still claim env c).2.
Proof.
  intros He. revert c. induction He as [|e env He Henv IH]; intros c Hc; cbn [ring_claim].
  - destruct (pick c) as [i|] eqn:E; [|split; [done|by intros i]].
    destruct (claim_ok i c Hc) as [H1 H2]; [by left|]. split; [done|]. by intros j [= <-].
  - destruct (pick c) as [i|] eqn:E; [|split; [done|by intros i]].
    destruct (still i (e c)) eqn:Es; [|by apply IH, He].
    destruct (claim_ok i (e c)) as [H1 H2]; [by apply He|by right|]. split; [done|]. by intros j [= <-].
Qed.

End ClaimRules.

Section BlockRules.
Context (P : C -> Prop) (Q : nat -> C -> Prop).
Context (attempt : list (C -> C) -> C -> option nat * C).
Context (pending destroying : C -> bool) (clear : C -> C) (block_get : C -> bool).

Definition keeps_inv (f : C -> C) : Prop := forall c, P c -> P (f c).

Hypothesis attempt_ok : forall env c, Forall keeps_inv env -> P c ->
  P (attempt env c).2 /\ forall i, (attempt env c).1 = Some i -> Q i (attempt env c).2.
Hypothesis clear_ok : forall c, P c -> P (clear c) /\ forall i, Q i c -> Q i (clear c).

Definition wait_ok (w : rx_wait C) : Prop := Forall keeps_inv (rw_races w) /\ keeps_inv (rw_sleep w).

Lemma rx_wait_loop_rule waits c :
  Forall wait_ok waits -> P c ->
  P (rx_wait_loop attempt pending destroying waits c).2
  /\ forall i, (rx_wait_loop attempt pending destroying waits c).1 = Some i ->
       Q i (rx_wait_loop attempt pending destroying waits c).2.
Proof using attempt_ok.
  intros Hw. revert c. induction Hw as [|w waits [Hr Hs] Hw IH]; intros c Hc; cbn [rx_wait_loop];
    (case_if; [by split|]).
  - destruct (attempt_ok [] c (Forall_nil_2 _) Hc) as [H1 H2]. destruct (attempt [] c) as [[i|] c']; by split.
  - destruct (attempt_ok (rw_races w) c Hr Hc) as [H1 H2]. destruct (attempt (rw_races w) c) as [[i|] c']; [by split|].
    cbn in H1. case_if; [split; [by apply Hs|done]|]. by apply IH, Hs.
Qed.

Lemma rx_block_get_rule env waits unlocked again c :
  Forall keeps_inv env -> Forall wait_ok waits -> keeps_inv unlocked ->
  (forall i c, P c -> Q i c -> Q i (unlocked c)) -> Forall keeps_inv again -> P c ->
  P (rx_block_get attempt pending destroying clear block_get env waits unlocked again c).2
  /\ forall i, (rx_block_get attempt pending destroying clear block_get env waits unlocked again c).1 = Some i ->
       Q i (rx_block_get attempt pending destroying clear block_get env waits unlocked again c).2.
Proof using attempt_ok clear_ok.
  intros He Hw Hu HuQ Ha Hc. unfold rx_block_get. destruct (attempt_ok env c He Hc) as [H1 H2].
  destruct (attempt env c) as [[i|] c1]; [by split|]. cbn in H1. destruct (negb (block_get c1)); [by split|].
  destruct (rx_wait_loop_rule waits c1 Hw H1) as [H3 H4].
  destruct (rx_wait_loop attempt pending destroying waits c1) as [[i|] c2]; cbn in H3, H4.
  - destruct (clear_ok c2 H3) as [H5 H6]. split; [by apply Hu|]. intros j [= <-]. apply HuQ; [done|]. by apply H6, H4.
  - destruct (clear_ok c2 H3) as [H5 H6]. specialize (Hu _ H5). destruct (destroying (unlocked (clear c2))); [by split|].
    by apply attempt_ok.
Qed.

End BlockRules.
End Claim.

(** ** The ledger of transport buffers *)

(** What a pipeline does to the outside: it takes a buffer of the transport
    ([frame_ready] answered 0), it gives one back ([st*_rx_put_framebuff]), it hands a
    slot to the application, and it calls and wakes others. *)
Inductive rx_event :=
| RvAccept (addr : Z)
| RvBack (addr : Z)
| RvGot (i : nat)
| RvAvailable
| RvPluginReady
| RvSignal
| RvWake.

Definition rx_accepted (t : list rx_event) : list Z := omap (fun e => match e with RvAccept a => Some a | _ => None end) t.
Definition rx_returned (t : list rx_event) : list Z := omap (fun e => match e with RvBack a => Some a | _ => None end) t.

(** Every buffer taken is either in one slot or was given back once. *)
Definition rx_ledger (held : list (option Z)) (t : list rx_event) : Prop :=
  rx_accepted t ≡ₚ rx_returned t ++ omap id held.

Lemma omap_id_fmap {A} (f : A -> option Z) (l : list A) : omap id (f <$> l) = omap f l.
Proof. induction l as [|x l IH]; [done|]. cbn. destruct (f x); cbn; by rewrite IH. Qed.

Lemma ledger_note held t e :
  rx_accepted [e] = [] -> rx_returned [e] = [] -> rx_ledger held t -> rx_ledger held (t ++ [e]).
Proof. unfold rx_ledger, rx_accepted, rx_returned. rewrite !omap_app. intros -> ->. by rewrite !app_nil_r. Qed.

Lemma held_insert (held : list (option Z)) i x y :
  held !! i = Some x -> omap id (<[i := y]> held) ++ option_list x ≡ₚ omap id held ++ option_list y.
Proof.
  revert i. induction held as [|z held IH]; intros [|i]; try done; cbn.
  - intros [= ->]. destruct x as [x|], y as [y|]; cbn; rewrite ?app_nil_r; try done; solve_Permutation.
  - intros H. specialize (IH i H). destruct z as [z|]; cbn; [|done]. by rewrite IH.
Qed.

Lemma ledger_accept held t i a :
  held !! i = Some None -> rx_ledger held t -> rx_ledger (<[i := Some a]> held) (t ++ [RvAccept a]).
Proof.
  intros Hi H. unfold rx_ledger, rx_accepted, rx_returned in *. rewrite !omap_app. cbn. rewrite app_nil_r.
  pose proof (held_insert held i None (Some a) Hi) as E. cbn in E. rewrite app_nil_r in E. rewrite E, H. solve_Permutation.
Qed.

Lemma ledger_back held t i a :
  held !! i = Some (Some a) -> rx_ledger held t -> rx_ledger (<[i := None]> held) (t ++ [RvBack a]).
Proof.
  intros Hi H. unfold rx_ledger, rx_accepted, rx_returned in *. rewrite !omap_app. cbn. rewrite app_nil_r.
  pose proof (held_insert held i (Some a) None Hi) as E. cbn in E. rewrite app_nil_r in E. rewrite H, <- E. solve_Permutation.
Qed.

(** The buffers given back are among those taken, and none twice when none was taken twice. *)
Lemma ledger_returned held t : rx_ledger held t -> rx_returned t ⊆+ rx_accepted t.
Proof. intros ->. apply submseteq_inserts_r. done. Qed.

(** The part of the state of a pipeline the ledger speaks of: its slots, the buffer in a
    slot ([None] when it is free), and the trace. *)
Class RxCtx (C FB : Type) := {
  xc_fbs : C -> list FB;
  xc_buffer : FB -> option Z;
  xc_trace : C -> list rx_event;
}.

Section Balance.
Context `{RxCtx C FB}.

Definition xc_balanced (c : C) : Prop := rx_ledger (xc_buffer <$> xc_fbs c) (xc_trace c).

(** Calls out of the library that move no buffer. *)
Definition rx_notes (t : list rx_event) : Prop := rx_accepted t = [] /\ rx_returned t = [].

Lemma balanced_keep c c' i g t :
  (forall fb, xc_fbs c !! i = Some fb -> xc_buffer (g fb) = xc_buffer fb) ->
  xc_fbs c' = alter g i (xc_fbs c) -> xc_trace c' = xc_trace c ++ t -> rx_notes t -> xc_balanced c -> xc_balanced c'.
Proof.
  intros Hg Ef Et [H1 H2] Hc. unfold xc_balanced. assert (xc_buffer <$> xc_fbs c' = xc_buffer <$> xc_fbs c) as ->.
  { rewrite Ef. apply list_eq. intros j. rewrite !list_lookup_fmap, list_lookup_alter. case_decide as Hd; [|done]. subst j.
    destruct (xc_fbs c !! i) as [fb|] eqn:Hfb; [|done]. cbn. by rewrite Hg. }
  rewrite Et. unfold xc_balanced, rx_ledger, rx_accepted, rx_returned in *. by rewrite !omap_app, H1, H2, !app_nil_r.
Qed.

Lemma balanced_notes c c' t :
  xc_fbs c' = xc_fbs c -> xc_trace c' = xc_trace c ++ t -> rx_notes t -> xc_balanced c -> xc_balanced c'.
Proof. intros Ef Et Ht Hc. apply (balanced_keep c c' (length (xc_fbs c)) id t); try done.
  rewrite Ef. apply list_eq. intros j. rewrite list_lookup_alter. case_decide as Hd; [|done]. subst j. by destruct (_ !! _).
Qed.

Lemma balanced_same c c' : xc_fbs c' = xc_fbs c -> xc_trace c' = xc_trace c -> xc_balanced c -> xc_balanced c'.
Proof. unfold xc_balanced. by intros -> ->. Qed.

Lemma balanced_accept c c' i g fb a :
  xc_fbs c !! i = Some fb -> xc_buffer fb = None -> xc_buffer (g fb) = Some a ->
  xc_fbs c' = alter g i (xc_fbs c) -> xc_trace c' = xc_trace c ++ [RvAccept a] -> xc_balanced c -> xc_balanced c'.
Proof.
  intros Hfb Hn Hs Ef Et Hc. unfold xc_balanced. rewrite Ef, Et. erewrite fmap_alter_insert by exact Hfb. rewrite Hs.
  apply ledger_accept; [|exact Hc]. by rewrite list_lookup_fmap, Hfb, <- Hn.
Qed.

Lemma balanced_free c c' i g fb :
  xc_fbs c !! i = Some fb -> xc_buffer (g fb) = None -> xc_fbs c' = alter g i (xc_fbs c) ->
  xc_trace c' = xc_trace c ++ match xc_buffer fb with Some a => [RvBack a] | None => [] end -> xc_balanced c -> xc_balanced c'.
Proof.
  intros Hfb Hn Ef Et Hc. destruct (xc_buffer fb) as [a|] eqn:Hb.
  - unfold xc_balanced. rewrite Ef, Et. erewrite fmap_alter_insert by exact Hfb. rewrite Hn.
    apply ledger_back; [|exact Hc]. by rewrite list_lookup_fmap, Hfb, <- Hb.
  - apply (balanced_keep c c' i g []); try done. intros fb' Hfb'. congruence.
Qed.

End Balance.

(** ** Receive pipelines as queues *)

(** The state of a slot as the two ends see it, with what the application finds in it. *)
Inductive rx_slot (F : Type) := RFree | RReady (f : F) | RUser (f : F).
Arguments RFree {F}.
Arguments RReady {F}.
Arguments RUser {F}.
Definition rslot_free {F} (s : rx_slot F) : bool := match s with RFree => true | _ => false end.
Definition rslot_ready {F} (s : rx_slot F) : bool := match s with RReady _ => true | _ => false end.

(** The operations of a receive pipeline: [M] is the meta data of the transport and [F]
    what the application finds in a frame. *)
Class RxPipeline (C M F : Type) := {
  rx_frame_ready : Z -> M -> C -> Z * C;
  rx_get_frame : C -> option nat * C;
  rx_put_frame : nat -> C -> Z * C;
  rx_frame : C -> nat -> F;
  rx_trace : C -> list rx_event;
}.

(** What a pipeline whose frames need no converter plugin promises, in terms of its slots
    and of the two indices. [rx_open] is a session that is ready and not being destroyed,
    with the settings [K]; [rx_seen] is the frame made from a buffer and its meta data. *)
Class RxPipelineLaws (C M F K : Type) `{RxPipeline C M F} := {
  rx_open : K -> C -> Prop;
  rx_slots : C -> list (rx_slot F);
  rx_in : C -> nat;
  rx_out : C -> nat;
  rx_seen : K -> Z -> M -> F;
  rx_addr : F -> Z;
  law_addr k a m : rx_addr (rx_seen k a m) = a;
  law_ready k a m c : rx_open k c ->
    let '(ret, c') := rx_frame_ready a m c in
    rx_open k c' /\ rx_out c' = rx_out c /\ rx_returned (rx_trace c') = rx_returned (rx_trace c) /\
    match ring_next_available rslot_free (rx_slots c) (rx_in c) with
    | None => ret = - EBUSY /\ rx_slots c' = rx_slots c /\ rx_in c' = rx_in c
    | Some i => ret = 0 /\ rx_slots c' = <[i := RReady (rx_seen k a m)]> (rx_slots c)
        /\ rx_in c' = ring_next_idx (length (rx_slots c)) i
    end;
  law_get k c : rx_open k c ->
    let '(r, c') := rx_get_frame c in
    rx_open k c' /\ rx_in c' = rx_in c /\ rx_returned (rx_trace c') = rx_returned (rx_trace c) /\
    match ring_next_available rslot_ready (rx_slots c) (rx_out c) with
    | None => r = None /\ rx_slots c' = rx_slots c /\ rx_out c' = rx_out c
    | Some i => r = Some i /\ rx_out c' = ring_next_idx (length (rx_slots c)) i
        /\ forall f, rx_slots c !! i = Some (RReady f) -> rx_slots c' = <[i := RUser f]> (rx_slots c) /\ rx_frame c' i = f
    end;
  law_put k i f c : rx_open k c -> rx_slots c !! i = Some (RUser f) ->
    let '(ret, c') := rx_put_frame i c in
    rx_open k c' /\ ret = 0 /\ rx_slots c' = <[i := RFree]> (rx_slots c) /\ rx_in c' = rx_in c /\ rx_out c' = rx_out c
    /\ rx_returned (rx_trace c') = rx_returned (rx_trace c) ++ [rx_addr f];
}.

(** An application that puts its frames back in the order it got them. *)
Inductive rx_call (M : Type) := RxReady (addr : Z) (m : M) | RxGet | RxPut.
Arguments RxReady {M}.
Arguments RxGet {M}.
Arguments RxPut {M}.
Inductive rx_answer (F : Type) := AnsReady (ret : Z) | AnsGet (f : option F) | AnsPut (ret : option Z).
Arguments AnsReady {F}.
Arguments AnsGet {F}.
Arguments AnsPut {F}.

Definition rx_client_step `{RxPipeline C M F} (op : rx_call M) (s : C * list nat) : rx_answer F * (C * list nat) :=
  let '(c, held) := s in
  match op with
  | RxReady addr m => let '(ret, c) := rx_frame_ready addr m c in (AnsReady ret, (c, held))
  | RxGet =>
      match rx_get_frame c with
      | (Some i, c) => (AnsGet (Some (rx_frame c i)), (c, held ++ [i]))
      | (None, c) => (AnsGet None, (c, held))
      end
  | RxPut =>
      match held with
      | [] => (AnsPut None, (c, held))
      | i :: held => let '(ret, c) := rx_put_frame i c in (AnsPut (Some ret), (c, held))
      end
  end.

Fixpoint rx_client `{RxPipeline C M F} (l : list (rx_call M)) (s : C * list nat) : list (rx_answer F) * (C * list nat) :=
  match l with
  | [] => ([], s)
  | op :: l => let '(a, s) := rx_client_step op s in let '(r, s) := rx_client l s in (a :: r, s)
  end.

(** The queue: the frames the application holds, those that wait, the buffers given back. *)
Record rx_queue (F : Type) := mk_rx_queue { rq_held : list F; rq_wait : list F; rq_back : list F }.
Arguments mk_rx_queue {F}.
Arguments rq_held {F}.
Arguments rq_wait {F}.
Arguments rq_back {F}.

Definition rx_queue_step {M F} (cap : nat) (seen : Z -> M -> F) (op : rx_call M) (q : rx_queue F) : rx_answer F * rx_queue F :=
  match op with
  | RxReady addr m =>
      if decide (length (rq_held q) + length (rq_wait q) < cap)%nat
      then (AnsReady 0, mk_rx_queue (rq_held q) (rq_wait q ++ [seen addr m]) (rq_back q))
      else (AnsReady (- EBUSY), q)
  | RxGet =>
      match rq_wait q with
      | [] => (AnsGet None, q)
      | f :: wait => (AnsGet (Some f), mk_rx_queue (rq_held q ++ [f]) wait (rq_back q))
      end
  | RxPut =>
      match rq_held q with
      | [] => (AnsPut None, q)
      | f :: held => (AnsPut (Some 0), mk_rx_queue held (rq_wait q) (rq_back q ++ [f]))
      end
  end.

Fixpoint rx_queue_run {M F} (cap : nat) (seen : Z -> M -> F) (l : list (rx_call M)) (q : rx_queue F) : list (rx_answer F) * rx_queue F :=
  match l with
  | [] => ([], q)
  | op :: l => let '(a, q) := rx_queue_step cap seen op q in let '(r, q) := rx_queue_run cap seen l q in (a :: r, q)
  end.

Section Queue.
Context {F : Type}.

(** The slots in ring order from the one the application has held longest. *)
Definition rx_window (n : nat) (held wait : list F) : list (rx_slot F) :=
  (RUser <$> held) ++ (RReady <$> wait) ++ replicate (n - length held - length wait) RFree.

Record ring_queue (n h : nat) (held wait : list F) (slots : list (rx_slot F)) (pin pout : nat) : Prop := {
  rq_len : length slots = n;
  rq_head : (h < n)%nat;
  rq_cap : (length held + length wait <= n)%nat;
  rq_at : forall k, (k < n)%nat -> slots !! ring_at n h k = rx_window n held wait !! k;
  rq_out : pout = ring_at n h (length held);
  rq_in : pin = ring_at n h (length held + length wait);
}.

Lemma window_length n held wait : (length held + length wait <= n)%nat -> length (rx_window n held wait) = n.
Proof. intros H. unfold rx_window. rewrite !length_app, !length_fmap, length_replicate. lia. Qed.

Lemma window_slots n h held wait slots pin pout (P : rx_slot F -> Prop) :
  ring_queue n h held wait slots pin pout -> Forall P (rx_window n held wait) -> Forall P slots.
Proof.
  intros Q HP. apply Forall_lookup. intros i s Hi. pose proof (lookup_lt_Some _ _ _ Hi) as Hlt.
  rewrite (rq_len _ _ _ _ _ _ _ Q) in Hlt. destruct (ring_at_surj n h i) as (k & Hk & ->); [by apply Q|done|].
  rewrite (rq_at _ _ _ _ _ _ _ Q) in Hi by done. rewrite Forall_lookup in HP. by eapply HP.
Qed.

(** A store to one slot changes one place of the window. *)
Lemma window_insert n h held wait slots pin pout j x :
  ring_queue n h held wait slots pin pout -> (j < n)%nat ->
  forall k, (k < n)%nat -> <[ring_at n h j := x]> slots !! ring_at n h k = <[j := x]> (rx_window n held wait) !! k.
Proof.
  intros Q Hj k Hk. destruct (decide (k = j)) as [-> |Hne].
  - rewrite !list_lookup_insert_eq; [done| |].
    + rewrite window_length; [done|apply Q].
    + rewrite (rq_len _ _ _ _ _ _ _ Q). apply ring_at_lt. lia.
  - rewrite !list_lookup_insert_ne; [by apply Q|congruence|]. intros E. apply Hne. symmetry. by eapply ring_at_inj.
Qed.

Lemma queue_free n h held wait slots pin pout :
  ring_queue n h held wait slots pin pout ->
  ring_next_available rslot_free slots pin = if decide (length held + length wait < n)%nat then Some pin else None.
Proof.
  intros Q. case_decide as Hd.
  - eapply next_available_here with (slot := RFree); [|done]. rewrite (rq_in _ _ _ _ _ _ _ Q), (rq_at _ _ _ _ _ _ _ Q) by done.
    unfold rx_window. rewrite !lookup_app_r, !length_fmap by (rewrite !length_fmap; lia).
    apply lookup_replicate_2. lia.
  - apply ring_available_none. eapply window_slots; [done|]. unfold rx_window. replace (n - _ - _)%nat with 0%nat by lia.
    rewrite app_nil_r. apply Forall_app. split; apply Forall_fmap, Forall_true; done.
Qed.

Lemma queue_ready n h held wait slots pin pout :
  ring_queue n h held wait slots pin pout ->
  match wait with
  | [] => ring_next_available rslot_ready slots pout = None
  | f :: _ => ring_next_available rslot_ready slots pout = Some pout /\ slots !! pout = Some (RReady f)
  end.
Proof.
  intros Q. pose proof (rq_cap _ _ _ _ _ _ _ Q) as Hc. destruct wait as [|f wait].
  - apply ring_available_none. eapply window_slots; [done|]. unfold rx_window.
    repeat (apply Forall_app; split); [apply Forall_fmap, Forall_true; done|constructor|by apply Forall_replicate].
  - cut (slots !! pout = Some (RReady f)); [intros H; split; [by eapply next_available_here|done]|].
    rewrite (rq_out _ _ _ _ _ _ _ Q), (rq_at _ _ _ _ _ _ _ Q) by (cbn in Hc; lia).
    unfold rx_window. by rewrite lookup_app_r, length_fmap, Nat.sub_diag by (rewrite length_fmap; lia).
Qed.

Lemma queue_accept n h held wait slots pin pout f :
  ring_queue n h held wait slots pin pout -> (length held + length wait < n)%nat ->
  ring_queue n h held (wait ++ [f]) (<[pin := RReady f]> slots) (ring_next_idx n pin) pout.
Proof.
  intros Q Hd. pose proof (rq_head _ _ _ _ _ _ _ Q) as Hh. pose proof (rq_in _ _ _ _ _ _ _ Q) as Hin.
  split; [by rewrite length_insert; apply Q|done|rewrite length_app; cbn; lia| |apply Q|].
  - intros k Hk. rewrite Hin. erewrite window_insert by (done || lia).
    f_equal. unfold rx_window. rewrite insert_app_r_alt, length_fmap by (rewrite length_fmap; lia). f_equal.
    rewrite insert_app_r_alt, length_fmap by (rewrite length_fmap; lia). rewrite fmap_app, <- app_assoc. f_equal.
    replace (_ - _ - _)%nat with 0%nat by lia. rewrite length_app. cbn [length].
    replace (n - length held - length wait)%nat with (S (n - length held - (length wait + 1)))%nat by lia. done.
  - rewrite Hin, ring_at_S by lia. rewrite length_app. cbn [length]. f_equal. lia.
Qed.

Lemma queue_take n h held wait slots pin pout f :
  ring_queue n h held (f :: wait) slots pin pout ->
  ring_queue n h (held ++ [f]) wait (<[pout := RUser f]> slots) pin (ring_next_idx n pout).
Proof.
  intros Q. pose proof (rq_head _ _ _ _ _ _ _ Q) as Hh. pose proof (rq_out _ _ _ _ _ _ _ Q) as Hout.
  pose proof (rq_cap _ _ _ _ _ _ _ Q) as Hc. cbn [length] in Hc.
  split; [by rewrite length_insert; apply Q|done|rewrite length_app; cbn; lia| | |].
  - intros k Hk. rewrite Hout. erewrite window_insert by (done || lia).
    f_equal. unfold rx_window. rewrite insert_app_r_alt, length_fmap by (rewrite length_fmap; lia).
    rewrite fmap_app, <- app_assoc. f_equal. rewrite Nat.sub_diag, length_app. cbn. do 3 f_equal. lia.
  - rewrite Hout, ring_at_S by lia. rewrite length_app. cbn [length]. f_equal. lia.
  - rewrite (rq_in _ _ _ _ _ _ _ Q), length_app. cbn [length]. f_equal. lia.
Qed.

Lemma queue_put n h f held wait slots pin pout :
  ring_queue n h (f :: held) wait slots pin pout ->
  slots !! h = Some (RUser f)
  /\ ring_queue n (ring_at n h 1) held wait (<[h := RFree]> slots) pin pout.
Proof.
  intros Q. pose proof (rq_head _ _ _ _ _ _ _ Q) as Hh. pose proof (rq_cap _ _ _ _ _ _ _ Q) as Hc. cbn [length] in Hc.
  assert (ring_at n h 0 = h) as H0 by (by apply ring_at_0). split.
  { rewrite <- H0, (rq_at _ _ _ _ _ _ _ Q) by lia. done. }
  split; [by rewrite length_insert; apply Q|apply ring_at_lt; lia|lia| | |].
  - intros k Hk. rewrite ring_at_add by lia. assert (exists l, rx_window n (f :: held) wait = RUser f :: l
      /\ rx_window n held wait = l ++ [RFree] /\ length l = (n - 1)%nat) as (l & E & -> & Hl).
    { exists ((RUser <$> held) ++ (RReady <$> wait) ++ replicate (n - S (length held) - length wait) RFree).
      split; [done|]. rewrite !length_app, !length_fmap, length_replicate. cbn [length]. split; [|lia].
      unfold rx_window. rewrite <- !app_assoc. do 2 f_equal. rewrite <- replicate_S_end. f_equal. lia. }
    destruct (decide (S k < n)%nat) as [Hlt|Hge].
    + pose proof (window_insert _ _ _ _ _ _ _ 0 RFree Q ltac:(lia) (1 + k)%nat ltac:(lia)) as Hi.
      rewrite H0 in Hi. rewrite Hi, E. cbn [insert list_insert Nat.add].
      rewrite lookup_app_l by lia. done.
    + assert (1 + k = n)%nat as -> by lia. replace (ring_at n h n) with h.
      * rewrite list_lookup_insert_eq by (rewrite (rq_len _ _ _ _ _ _ _ Q); lia). rewrite lookup_app_r by lia.
        replace (k - length l)%nat with 0%nat by lia. done.
      * unfold ring_at. replace (h + n)%nat with (h + 1 * n)%nat by lia. rewrite Nat.Div0.mod_add. by rewrite Nat.mod_small.
  - rewrite (rq_out _ _ _ _ _ _ _ Q), ring_at_add by lia. done.
  - rewrite (rq_in _ _ _ _ _ _ _ Q), ring_at_add by lia. done.
Qed.

End Queue.

(** From the laws: a pipeline answers and gives back buffers like the queue. *)
Section Refine.
Context `{RxPipelineLaws C M F K}.

Definition rx_refines (k : K) (s : C * list nat) (q : rx_queue F) (back0 : list Z) : Prop :=
  exists n h, rx_open k s.1 /\ ring_queue n h (rq_held q) (rq_wait q) (rx_slots s.1) (rx_in s.1) (rx_out s.1)
    /\ s.2 = ring_at n h <$> seq 0 (length (rq_held q))
    /\ rx_returned (rx_trace s.1) = back0 ++ (rx_addr <$> rq_back q).

Lemma rx_client_refines k op s q back0 :
  rx_refines k s q back0 ->
  let '(a, s') := rx_client_step op s in
  let '(a', q') := rx_queue_step (length (rx_slots s.1)) (rx_seen k) op q in
  a = a' /\ rx_refines k s' q' back0 /\ length (rx_slots s'.1) = length (rx_slots s.1).
Proof.
  destruct s as [c held]. intros (n & h & Ho & Q & Eh & Eb). cbn in Ho, Q, Eh, Eb.
  pose proof (rq_len _ _ _ _ _ _ _ Q) as Hlen. unfold rx_client_step, rx_queue_step. cbn [fst]. rewrite Hlen.
  destruct op as [a m| |].
  - pose proof (law_ready k a m c Ho) as L. destruct (rx_frame_ready a m c) as [ret c'].
    destruct L as (Ho' & Eout & Er & L). rewrite (queue_free _ _ _ _ _ _ _ Q) in L. case_decide as Hd.
    + destruct L as (-> & Es & Ei). split; [done|]. split; [|cbn; by rewrite Es, length_insert].
      exists n, h. cbn. rewrite Er, Es, Ei, Eout, Hlen. split_and!; try done. by apply queue_accept.
    + destruct L as (-> & Es & Ei). split; [done|]. split; [|cbn; by rewrite Es].
      exists n, h. cbn. rewrite Er, Es, Ei, Eout. by split_and!.
  - pose proof (law_get k c Ho) as L. destruct (rx_get_frame c) as [r c']. destruct L as (Ho' & Ein & Er & L).
    pose proof (queue_ready _ _ _ _ _ _ _ Q) as Hr. destruct q as [hq [|f wq] bq]; cbn [rq_held rq_wait rq_back] in *.
    + rewrite Hr in L. destruct L as (-> & Es & Eo). split; [done|]. split; [|cbn; by rewrite Es].
      exists n, h. cbn. rewrite Er, Es, Ein, Eo. by split_and!.
    + destruct Hr as [Hr Hf]. rewrite Hr in L. destruct L as (-> & Eo & L). destruct (L f Hf) as [Es Ef].
      rewrite Ef. split; [done|]. split; [|cbn; by rewrite Es, length_insert].
      exists n, h. cbn. rewrite Er, Es, Ein, Eo, Hlen. split_and!; try done; [by apply queue_take|].
      rewrite length_app, seq_app, fmap_app, <- Eh. cbn. by rewrite (rq_out _ _ _ _ _ _ _ Q).
  - destruct q as [[|f hq] wq bq]; cbn [rq_held rq_wait rq_back] in *.
    + cbn in Eh. subst held. split; [done|]. split; [|done]. exists n, h. by split_and!.
    + cbn [length seq] in Eh. rewrite fmap_cons, ring_at_0 in Eh by apply Q. subst held.
      destruct (queue_put _ _ _ _ _ _ _ _ Q) as [Hf Q']. pose proof (law_put k h f c Ho Hf) as L.
      destruct (rx_put_frame h c) as [ret c']. destruct L as (Ho' & -> & Es & Ein & Eo & Er). split; [done|].
      split; [|cbn; by rewrite Es, length_insert]. exists n, (ring_at n h 1). cbn. rewrite Es, Ein, Eo, Er, Eb.
      split_and!; try done; [|by rewrite fmap_app, app_assoc].
      rewrite <- fmap_S_seq, <- list_fmap_compose. apply list_fmap_ext. intros i j _. cbn.
      by rewrite ring_at_add by (pose proof (rq_head _ _ _ _ _ _ _ Q); lia).
Qed.

Lemma rx_run_refines k l s q back0 :
  rx_refines k s q back0 ->
  let '(a, s') := rx_client l s in
  let '(a', q') := rx_queue_run (length (rx_slots s.1)) (rx_seen k) l q in
  a = a' /\ rx_returned (rx_trace s'.1) = back0 ++ (rx_addr <$> rq_back q').
Proof.
  revert s q. induction l as [|op l IH]; intros s q R; cbn [rx_client rx_queue_run].
  - split; [done|]. by destruct R as (n & h & _ & _ & _ & Eb).
  - pose proof (rx_client_refines k op s q back0 R) as L. destruct (rx_client_step op s) as [a s1].
    destruct (rx_queue_step (length (rx_slots s.1)) (rx_seen k) op q) as [a' q1]. destruct L as (-> & R1 & El).
    specialize (IH s1 q1 R1). rewrite El in IH. destruct (rx_client l s1) as [r s2].
    destruct (rx_queue_run (length (rx_slots s.1)) (rx_seen k) l q1) as [r' q2]. by destruct IH as [-> ->].
Qed.

(** A session just created. *)
Definition rx_fresh (k : K) (c : C) : Prop :=
  rx_open k c /\ rx_slots c <> [] /\ Forall (eq RFree) (rx_slots c) /\ rx_in c = 0%nat /\ rx_out c = 0%nat
  /\ rx_returned (rx_trace c) = [].

Lemma rx_fresh_refines k l c :
  rx_fresh k c ->
  let '(answers, s) := rx_client l (c, []) in
  let '(answers', q) := rx_queue_run (length (rx_slots c)) (rx_seen k) l (mk_rx_queue [] [] []) in
  answers = answers' /\ rx_returned (rx_trace s.1) = rx_addr <$> rq_back q.
Proof.
  intros (Ho & Hn & Hf & Ei & Eo & Er). apply (rx_run_refines k l (c, []) (mk_rx_queue [] [] []) []).
  assert (0 < length (rx_slots c))%nat as Hpos by (destruct (rx_slots c); [done|cbn; lia]).
  exists (length (rx_slots c)), 0%nat. cbn. rewrite Ei, Eo, Er. split_and!; try done.
  split; cbn; rewrite ?ring_at_0; try done; [lia|].
  intros j Hj. unfold rx_window, ring_at. cbn. rewrite Nat.sub_0_r, Nat.mod_small by lia.
  rewrite lookup_replicate_2 by lia. destruct (lookup_lt_is_Some_2 _ _ Hj) as [x Hx].
  rewrite Forall_lookup in Hf. rewrite Hx. by rewrite <- (Hf _ _ Hx).
Qed.

End Refine.
