(* ===== verification/TxRing.v ===== *)
(** The frame slots of the transmit pipelines of audio, ancillary data and compressed video,
    lib/src/st2110/pipeline/st30_pipeline_tx.c, st40_pipeline_tx.c and st22_pipeline_tx.c.
    The first two are the same program over another frame: the application takes a slot
    ([get_frame]), fills it and puts it, the transport takes the slot handed out first among
    those put ([next_frame]), sends it and gives it back ([frame_done]); a frame that is late
    is dropped instead. The third shares slots, scans, late drops and [frame_done], and has an
    encoder between the application and the transport. The definitions are generic in the
    frame, [TxMedia] is what a medium adds; [PipelineTx30], [PipelineTx40] and [PipelineTx22]
    are the instances, with the names of the C functions.

    [app] is what the application does to the session while a callback runs, [env], [race]
    and [freed] what other threads do where the code can be overtaken. Every store to the
    status of a slot, every hand-out and every callback is appended to the ghost field
    [tp_trace]. *)
From S2P Require Import Prelude SeqNum TxCommon RxRing.

(** ** The data *)

(** [enum st30p_tx_frame_status], [enum st40p_tx_frame_status], [enum st22p_tx_frame_status];
    only the last has the two states of encoding. *)
Inductive tx_frame_status :=
| TX_FRAME_FREE | TX_FRAME_IN_USER | TX_FRAME_READY | TX_FRAME_IN_ENCODING | TX_FRAME_ENCODED
| TX_FRAME_DROPPED | TX_FRAME_IN_TRANSMITTING.
#[export] Instance tx_slot_status_eq : EqDecision tx_frame_status.
Proof. solve_decision. Defined.

Inductive tp_event :=
| TpStat (i : nat) (old new : tx_frame_status)
| TpGot (i : nat)
| TpAvailable
| TpDone (i : nat)
| TpLate (epoch_skipped : Z)
| TpEncodeReady
| TpSignal.

(** What a medium adds: [X] are the fields of its context and ops the shared code does not
    know, [P] its frame, [M] the meta data the transport exchanges with the pipeline. *)
Class TxMedia (X P M : Type) := {
  md_frame_zero : P;
  (* whether an encoder stands before the transport, whether frames are counted *)
  md_codec : bool;
  md_counts : bool;
  md_user_pacing : Z;
  md_drop_when_late : Z;
  (* the frame period in nanoseconds *)
  md_period : X -> Z;
  md_tfmt : X -> P -> st10_timestamp_fmt;
  md_timestamp : X -> P -> Z;
  md_mark : X -> st_frame_status -> P -> P;
  (* what [frame_done] copies into the frame, what [next_frame] copies out of it *)
  md_sent : X -> M -> P -> P;
  md_stamp : P -> M -> M;
  (* what a wake-up of a blocked [get_frame] leaves behind *)
  md_wake : X -> X;
  (* the check of [put_frame] and what it leaves in the frame *)
  md_put : P -> bool * P;
}.

(** [struct st30p_tx_frame], [struct st40p_tx_frame] *)
Record tp_slot (P : Type) := mk_tp_slot {
  tp_stat : tx_frame_status;
  tp_frame : P;
  tp_seq_number : Z;
  tp_done_called : bool;
}.
Arguments mk_tp_slot {P}.
Arguments tp_stat {P}.
Arguments tp_frame {P}.
Arguments tp_seq_number {P}.
Arguments tp_done_called {P}.
#[export] Instance eta_tp_slot P : Settable (tp_slot P) := fun fb =>
  mk_tp_slot (tp_stat fb) (tp_frame fb) (tp_seq_number fb) (tp_done_called fb).

(** [struct st30p_tx_ctx], [struct st40p_tx_ctx] with the parts of the ops that are
    consulted; a callback is there or is NULL. *)
Record tp_ctx (X P : Type) := mk_tp_ctx {
  tp_destroying : bool;
  tp_flags : Z;
  tp_has_available : bool;
  tp_has_done : bool;
  tp_has_late : bool;
  tp_media : X;
  tp_seq : Z;
  tp_framebuffs : list (tp_slot P);
  tp_ready : bool;
  tp_block_get : bool;
  tp_block_timeout_ns : Z;
  tp_wake_block_cnt : Z;
  tp_stat_get_frame_try : Z;
  tp_stat_get_frame_succ : Z;
  tp_stat_put_frame : Z;
  tp_stat_drop_frame : Z;
  tp_frames_sent : Z;
  tp_frames_dropped : Z;
  tp_ptp_time : Z;
  tp_trace : list tp_event;
}.
Arguments mk_tp_ctx {X P}.
Arguments tp_destroying {X P}.
Arguments tp_flags {X P}.
Arguments tp_has_available {X P}.
Arguments tp_has_done {X P}.
Arguments tp_has_late {X P}.
Arguments tp_media {X P}.
Arguments tp_seq {X P}.
Arguments tp_framebuffs {X P}.
Arguments tp_ready {X P}.
Arguments tp_block_get {X P}.
Arguments tp_block_timeout_ns {X P}.
Arguments tp_wake_block_cnt {X P}.
Arguments tp_stat_get_frame_try {X P}.
Arguments tp_stat_get_frame_succ {X P}.
Arguments tp_stat_put_frame {X P}.
Arguments tp_stat_drop_frame {X P}.
Arguments tp_frames_sent {X P}.
Arguments tp_frames_dropped {X P}.
Arguments tp_ptp_time {X P}.
Arguments tp_trace {X P}.
#[export] Instance eta_tp_ctx X P : Settable (tp_ctx X P) := fun c =>
  mk_tp_ctx (tp_destroying c) (tp_flags c) (tp_has_available c) (tp_has_done c) (tp_has_late c) (tp_media c) (tp_seq c)
    (tp_framebuffs c) (tp_ready c) (tp_block_get c) (tp_block_timeout_ns c) (tp_wake_block_cnt c) (tp_stat_get_frame_try c)
    (tp_stat_get_frame_succ c) (tp_stat_put_frame c) (tp_stat_drop_frame c) (tp_frames_sent c) (tp_frames_dropped c)
    (tp_ptp_time c) (tp_trace c).

(** [ST_TX_ST30P_DROP_MAX_BATCH], [ST_TX_ST40P_DROP_MAX_BATCH], [ST_TX_DROP_MAX_BATCH] *)
Definition TX_DROP_MAX_BATCH : Z := 80.

(** The status in which the transport takes a frame. *)
Definition tx_sendable (codec : bool) : tx_frame_status := if codec then TX_FRAME_ENCODED else TX_FRAME_READY.

Section Operations.
Context {X P M : Type} {media : TxMedia X P M}.
Notation ctx := (tp_ctx X P).

Definition tp_at (c : ctx) (i : nat) : tp_slot P :=
  default (mk_tp_slot TX_FRAME_FREE md_frame_zero 0 false) (tp_framebuffs c !! i).
Definition tp_upd (i : nat) (g : tp_slot P -> tp_slot P) (c : ctx) : ctx := c <| tp_framebuffs ::= alter g i |>.
Definition tp_emit (e : tp_event) (c : ctx) : ctx := c <| tp_trace ::= fun t => t ++ [e] |>.
(** [atomic_store(&framebuff->stat, s)] *)
Definition tp_set_stat (i : nat) (s : tx_frame_status) (c : ctx) : ctx :=
  tp_emit (TpStat i (tp_stat (tp_at c i)) s) (tp_upd i (fun fb => fb <| tp_stat := s |>) c).
Definition tp_is (s : tx_frame_status) (c : ctx) (i : nat) : bool := bool_decide (tp_stat (tp_at c i) = s).

Definition tp_next_available (c : ctx) (desired : tx_frame_status) : option nat :=
  fst <$> list_find (fun fb => tp_stat fb = desired) (tp_framebuffs c).

(** The scan keeps the candidate unless the current slot is not newer. *)
Definition tp_newest_step (c : ctx) (desired : tx_frame_status) (newest : option nat) (idx : nat) : option nat :=
  if tp_is desired c idx &&
     match newest with
     | None => true
     | Some b => negb (mt_seq32_greater (tp_seq_number (tp_at c idx)) (tp_seq_number (tp_at c b)))
     end
  then Some idx else newest.
Definition tp_newest_available (c : ctx) (desired : tx_frame_status) : option nat :=
  foldl (tp_newest_step c desired) None (seq 0 (length (tp_framebuffs c))).

Definition tp_claim_available (desired claimed : tx_frame_status) (env : list (ctx -> ctx)) (c : ctx) : option nat * ctx :=
  ring_claim (fun c => tp_next_available c desired) (fun i c => tp_is desired c i) (fun i => tp_set_stat i claimed) env c.

Section Callbacks.
Context (app : tp_event -> ctx -> ctx).

Definition tp_fire (e : tp_event) (c : ctx) : ctx := app e (tp_emit e c).

Definition tp_notify_frame_available (c : ctx) : ctx :=
  let c := if tp_has_available c then tp_fire TpAvailable c else c in
  if tp_block_get c then tp_emit TpSignal (c <| tp_media ::= md_wake |>) else c.

(** ** The transport side *)

(** Whether the slot missed its window, where that is checked. *)
Definition tp_late (c : ctx) (i : nat) : bool :=
  let frame := tp_frame (tp_at c i) in
  has_flag (tp_flags c) md_drop_when_late && has_flag (tp_flags c) md_user_pacing
  && bool_decide (md_tfmt (tp_media c) frame = ST10_TIMESTAMP_FMT_TAI)
  && negb (tp_ptp_time c <? u64 (md_timestamp (tp_media c) frame + md_period (tp_media c))).

(** The flag of the slot is set behind the callback. *)
Definition tp_done_dropped (i : nat) (c : ctx) : ctx :=
  if tp_has_done c && negb (tp_done_called (tp_at c i)) then
    let c := tp_upd i (fun fb => fb <| tp_frame ::= md_mark (tp_media c) ST_FRAME_STATUS_DROPPED |>) c in
    let c := tp_fire (TpDone i) c in
    tp_upd i (fun fb => fb <| tp_done_called := true |>) c
  else c.

Definition tp_if_frame_late (i : nat) (c : ctx) : bool * ctx :=
  if negb (tp_late c i) then (false, c)
  else
    let c := c <| tp_stat_drop_frame ::= fun n => u32 (n + 1) |> in
    let c := if md_counts then c <| tp_frames_dropped ::= fun n => u64 (n + 1) |> else c in
    let c := tp_done_dropped i (tp_set_stat i TX_FRAME_DROPPED c) in
    let c := if tp_has_late c then tp_fire (TpLate 0) c else c in
    (true, tp_notify_frame_available (tp_set_stat i TX_FRAME_FREE c)).

(** The loop of [next_frame], one unit of fuel per turn. *)
Fixpoint tp_pick_loop (fuel : nat) (drop_cnt : Z) (c : ctx) : option nat * ctx :=
  match fuel with
  | O => (None, c)
  | S fuel =>
      match tp_newest_available c (tx_sendable md_codec) with
      | None => (None, c)
      | Some i =>
          if drop_cnt >=? TX_DROP_MAX_BATCH then (None, c)
          else
            match tp_if_frame_late i c with
            | (true, c) => tp_pick_loop fuel (drop_cnt + 1) c
            | (false, c) => (Some i, c)
            end
      end
  end.
(** The turn that meets the cap is the last. *)
Definition TX_PICK_FUEL : nat := 81.

(** [race] runs between the scan and the exchange; a lost race is not tried again. *)
Definition tp_next_frame (race : ctx -> ctx) (meta : M) (c : ctx) : (Z + nat * M) * ctx :=
  if negb (tp_ready c) then (inl (- EBUSY), c)
  else
    match tp_pick_loop TX_PICK_FUEL 0 c with
    | (None, c) =>
        let c :=
          if has_flag (tp_flags c) md_drop_when_late then
            match tp_next_available c TX_FRAME_FREE with
            | Some _ => tp_notify_frame_available c
            | None => c
            end
          else c in
        (inl (- EBUSY), c)
    | (Some i, c) =>
        let c := race c in
        if negb (tp_is (tx_sendable md_codec) c i) then (inl (- EBUSY), c)
        else
          let c := tp_set_stat i TX_FRAME_IN_TRANSMITTING c in
          let meta := if has_flag (tp_flags c) md_user_pacing then md_stamp (tp_frame (tp_at c i)) meta else meta in
          (inr (i, meta), c)
    end.

(** [freed]: the slot is free before the callback is made. *)
Definition tp_frame_done (freed : ctx -> ctx) (i : nat) (meta : M) (c : ctx) : Z * ctx :=
  let c := tp_upd i (fun fb => fb <| tp_frame ::= md_sent (tp_media c) meta |>) c in
  let notify := tp_has_done c && negb (tp_done_called (tp_at c i)) in
  let c :=
    if notify then tp_upd i (fun fb => fb <| tp_done_called := true |> <| tp_frame ::= md_mark (tp_media c) ST_FRAME_STATUS_COMPLETE |>) c
    else c in
  let '(ret, c) :=
    if tp_is TX_FRAME_IN_TRANSMITTING c i then (0, freed (tp_set_stat i TX_FRAME_FREE c)) else (- EIO, c) in
  let c := if notify then tp_fire (TpDone i) c else c in
  let c := if (ret =? 0) && md_counts then c <| tp_frames_sent ::= fun n => u64 (n + 1) |> else c in
  (ret, tp_notify_frame_available c).

(** What [create] makes of the slots, when memory and transport are there. *)
Definition tp_create (flags : Z) (available done late block_get : bool) (x : X) (frames : list P) : ctx :=
  let c := mk_tp_ctx false flags available done late x 0 ((fun f => mk_tp_slot TX_FRAME_FREE f 0 false) <$> frames)
             true block_get NS_PER_S 0 0 0 0 0 0 0 0 [] in
  if tp_block_get c then c else tp_notify_frame_available c.

End Callbacks.

(** ** The application side *)

(** The wait loop; the deadline is fixed, so the waits that end without a timeout form a
    finite list, and the one after them times out. *)
Fixpoint tp_wait_loop (wake_block_cnt : Z) (waits : list (rx_wait ctx)) (c : ctx) : option nat * ctx :=
  if tp_destroying c then (None, c)
  else
    match tp_claim_available TX_FRAME_FREE TX_FRAME_IN_USER (match waits with [] => [] | w :: _ => rw_races w end) c with
    | (Some i, c) => (Some i, c)
    | (None, c) =>
        if negb (tp_wake_block_cnt c =? wake_block_cnt) then (None, c)
        else
          match waits with
          | [] => (None, c)
          | w :: waits =>
              let c := rw_sleep w c in
              if c_true (rw_ret w) then (None, c) else tp_wait_loop wake_block_cnt waits c
          end
    end.

(** The part of [get_frame] after a slot is claimed. *)
Definition tp_hand_out (i : nat) (c : ctx) : ctx :=
  let c := tp_upd i (fun fb => fb <| tp_done_called := false |> <| tp_seq_number := tp_seq c |>) c in
  let c := c <| tp_seq ::= fun n => u32 (n + 1) |> in
  tp_emit (TpGot i) (c <| tp_stat_get_frame_succ ::= fun n => u32 (n + 1) |>).

(** [destroy_began]: [free] set [lc_destroying] after the wait loop was left. *)
Definition tp_get_frame (env : list (ctx -> ctx)) (waits : list (rx_wait ctx)) (destroy_began : bool) (c : ctx)
    : option nat * ctx :=
  if tp_destroying c then (None, c)
  else if negb (tp_ready c) then (None, c)
  else
    let c := c <| tp_stat_get_frame_try ::= fun n => u32 (n + 1) |> in
    match tp_claim_available TX_FRAME_FREE TX_FRAME_IN_USER env c with
    | (Some i, c) => (Some i, tp_hand_out i c)
    | (None, c) =>
        if negb (tp_block_get c) then (None, c)
        else
          let '(framebuff, c) := tp_wait_loop (tp_wake_block_cnt c) waits c in
          let c := c <| tp_destroying ::= orb destroy_began |> in
          match framebuff with
          | None => (None, c)
          | Some i => if tp_destroying c then (None, tp_set_stat i TX_FRAME_FREE c) else (Some i, tp_hand_out i c)
          end
    end.

(** What the application writes into a frame it was given. *)
Definition tp_write (i : nat) (g : P -> P) (c : ctx) : ctx :=
  if tp_is TX_FRAME_IN_USER c i then tp_upd i (fun fb => fb <| tp_frame ::= g |>) c else c.

Definition tp_put_frame (i : nat) (c : ctx) : Z * ctx :=
  if tp_destroying c then (- EIO, c)
  else if negb (tp_is TX_FRAME_IN_USER c i) then (- EIO, c)
  else
    let '(ok, frame) := md_put (tp_frame (tp_at c i)) in
    let c := tp_upd i (fun fb => fb <| tp_frame := frame |>) c in
    if negb ok then (- EIO, c)
    else (0, tp_set_stat i TX_FRAME_READY c <| tp_stat_put_frame ::= fun n => u32 (n + 1) |>).

Definition tp_put_frame_abort (i : nat) (c : ctx) : Z * ctx :=
  if tp_destroying c then (- EIO, c)
  else if negb (tp_is TX_FRAME_IN_USER c i) then (- EIO, c)
  else
    let c := tp_set_stat i TX_FRAME_FREE c in
    let c := c <| tp_stat_drop_frame ::= fun n => u32 (n + 1) |> in
    (0, if md_counts then c <| tp_frames_dropped ::= fun n => u64 (n + 1) |> else c).

(** ** Statistics and control *)

Definition tp_print_stat (c : ctx) : Z * ctx :=
  if negb (tp_ready c) then (- EBUSY, c)
  else (0, c <| tp_stat_get_frame_try := 0 |> <| tp_stat_get_frame_succ := 0 |> <| tp_stat_put_frame := 0 |>
             <| tp_stat_drop_frame := 0 |>).

(** [transport_ret] is what the transport's own function answers. *)
Definition tp_get_session_stats (transport_ret : Z) (c : ctx) : Z + Z * Z :=
  if tp_destroying c then inl (- EINVAL)
  else if transport_ret <? 0 then inl transport_ret else inr (tp_frames_sent c, tp_frames_dropped c).
Definition tp_reset_session_stats (transport_ret : Z) (c : ctx) : Z * ctx :=
  if tp_destroying c then (- EIO, c) else (transport_ret, c <| tp_frames_sent := 0 |> <| tp_frames_dropped := 0 |>).

Definition tp_wake_block (c : ctx) : Z * ctx :=
  if tp_destroying c then (- EIO, c)
  else (0, if tp_block_get c then tp_emit TpSignal (c <| tp_wake_block_cnt ::= fun n => u32 (n + 1) |>) else c).

Definition tp_set_block_timeout (timedwait_ns : Z) (c : ctx) : Z * ctx :=
  if tp_destroying c then (- EIO, c) else (0, c <| tp_block_timeout_ns := timedwait_ns |>).

(** The start of [free]: the handle is claimed and sleepers are woken. *)
Definition tp_begin_free (c : ctx) : Z * ctx :=
  if tp_destroying c then (- EBUSY, c) else (0, tp_emit TpSignal (c <| tp_destroying := true |>)).

End Operations.

(** ** Behaviours of a session *)

Section Behaviours.
Context {X P M : Type} {media : TxMedia X P M}.
Notation ctx := (tp_ctx X P).

(** The transport reports a frame as done while it has it. *)
Definition tp_when_sending (i : nat) (f : ctx -> ctx) (c : ctx) : ctx :=
  if tp_is TX_FRAME_IN_TRANSMITTING c i then f c else c.

(** [tp_session r f]: [f] is something the threads of a session can do to it, calls of the
    API and of the transport in any order, with callbacks in which the application calls
    back and other threads running wherever the code can be overtaken. [r] tells whether
    the statistics may be reset. *)
Inductive tp_session (r : bool) : (ctx -> ctx) -> Prop :=
| ts_id : tp_session r (fun c => c)
| ts_seq f g : tp_session r f -> tp_session r g -> tp_session r (fun c => g (f c))
| ts_tick t : tp_session r (fun c => c <| tp_ptp_time := t |>)
| ts_next app race meta :
    (forall e, tp_session r (app e)) -> tp_session r race -> tp_session r (fun c => (tp_next_frame app race meta c).2)
| ts_done app freed i meta :
    (forall e, tp_session r (app e)) -> tp_session r freed ->
    tp_session r (tp_when_sending i (fun c => (tp_frame_done app freed i meta c).2))
| ts_get env waits destroy_began :
    (forall f, In f env -> tp_session r f) -> (forall w f, In w waits -> In f (rw_races w) -> tp_session r f) ->
    (forall w, In w waits -> tp_session r (rw_sleep w)) -> tp_session r (fun c => (tp_get_frame env waits destroy_began c).2)
| ts_write i g : tp_session r (tp_write i g)
| ts_put i : tp_session r (fun c => (tp_put_frame i c).2)
| ts_abort i : tp_session r (fun c => (tp_put_frame_abort i c).2)
| ts_stat : tp_session r (fun c => (tp_print_stat c).2)
| ts_reset ret : r = true -> tp_session r (fun c => (tp_reset_session_stats ret c).2)
| ts_wake : tp_session r (fun c => (tp_wake_block c).2)
| ts_timeout ns : tp_session r (fun c => (tp_set_block_timeout ns c).2)
| ts_free : tp_session r (fun c => (tp_begin_free c).2).

End Behaviours.

(** ** What a history says of a slot *)

(** The edges of the state diagram, without and with an encoder. *)
Definition tx_allowed (codec : bool) (old new : tx_frame_status) : bool :=
  match old, new with
  | TX_FRAME_FREE, TX_FRAME_IN_USER
  | TX_FRAME_IN_USER, TX_FRAME_READY
  | TX_FRAME_IN_USER, TX_FRAME_FREE
  | TX_FRAME_IN_TRANSMITTING, TX_FRAME_FREE
  | TX_FRAME_DROPPED, TX_FRAME_FREE => true
  | TX_FRAME_READY, TX_FRAME_IN_TRANSMITTING
  | TX_FRAME_READY, TX_FRAME_DROPPED => negb codec
  | TX_FRAME_IN_USER, TX_FRAME_ENCODED
  | TX_FRAME_READY, TX_FRAME_IN_ENCODING
  | TX_FRAME_IN_ENCODING, TX_FRAME_ENCODED
  | TX_FRAME_IN_ENCODING, TX_FRAME_FREE
  | TX_FRAME_ENCODED, TX_FRAME_IN_TRANSMITTING
  | TX_FRAME_ENCODED, TX_FRAME_DROPPED => codec
  | _, _ => false
  end.

(** The status of slot [i] after a history, when each of its stores is allowed. *)
Definition tx_follow (codec : bool) (i : nat) (s : option tx_frame_status) (e : tp_event) : option tx_frame_status :=
  match s, e with
  | Some s, TpStat j old new =>
      if bool_decide (j = i) then if bool_decide (old = s) && tx_allowed codec old new then Some new else None else Some s
  | s, _ => s
  end.
Definition tx_run (codec : bool) (i : nat) (s : tx_frame_status) (t : list tp_event) : option tx_frame_status :=
  foldl (tx_follow codec i) (Some s) t.

Definition tx_is_sent (e : tp_event) : bool :=
  match e with TpStat _ TX_FRAME_IN_TRANSMITTING TX_FRAME_FREE => true | _ => false end.
Definition tx_about (i : nat) (e : tp_event) : bool :=
  match e with TpStat j _ _ | TpDone j => bool_decide (j = i) | _ => false end.
Definition tx_is_dropped (e : tp_event) : bool :=
  match e with TpStat _ _ TX_FRAME_DROPPED => true | _ => false end.
Definition tx_is_done (e : tp_event) : bool := match e with TpDone _ => true | _ => false end.
(** How many events of a history satisfy a test. *)
Definition tx_tally (p : tp_event -> bool) (t : list tp_event) : nat := length (List.filter p t).
(** How many frames of slot [i] were sent or dropped as late, and how many the application
    was told to be done. *)
Definition tx_ended (i : nat) (t : list tp_event) : nat :=
  tx_tally (fun e => tx_about i e && (tx_is_sent e || tx_is_dropped e)) t.
Definition tx_answered (i : nat) (t : list tp_event) : nat := tx_tally (fun e => tx_about i e && tx_is_done e) t.

Lemma tx_tally_app p t u : tx_tally p (t ++ u) = (tx_tally p t + tx_tally p u)%nat.
Proof. unfold tx_tally. by rewrite List.filter_app, length_app. Qed.

Lemma tx_run_app k i s s' t u : tx_run k i s t = Some s' -> tx_run k i s (t ++ u) = tx_run k i s' u.
Proof. unfold tx_run. rewrite foldl_app. by intros ->. Qed.

Lemma tx_run_other k i s e : (forall old new, e <> TpStat i old new) -> tx_run k i s [e] = Some s.
Proof. destruct e as [j old new| | | | | |]; cbn; try done. case_bool_decide as E; [|done]. subst. intros H. by destruct (H old new). Qed.

Section Slots.
Context {X P M : Type} {media : TxMedia X P M}.
Notation ctx := (tp_ctx X P).

Lemma tp_at_upd_eq i g (c : ctx) : (i < length (tp_framebuffs c))%nat -> tp_at (tp_upd i g c) i = g (tp_at c i).
Proof.
  intros Hi. unfold tp_at, tp_upd; cbn. rewrite list_lookup_alter_eq. destruct (tp_framebuffs c !! i) eqn:E; [done|].
  apply lookup_ge_None in E. lia.
Qed.

Lemma tp_at_upd_ne i j g (c : ctx) : j <> i -> tp_at (tp_upd i g c) j = tp_at c j.
Proof. intros H. unfold tp_at, tp_upd; cbn. by rewrite list_lookup_alter_ne. Qed.

Lemma tp_range (c : ctx) i s : tp_stat (tp_at c i) = s -> s <> TX_FRAME_FREE -> (i < length (tp_framebuffs c))%nat.
Proof.
  intros <- Hs. destruct (tp_framebuffs c !! i) eqn:E; [by apply lookup_lt_Some in E|]. unfold tp_at in Hs. by rewrite E in Hs.
Qed.

Lemma tp_available_some (c : ctx) s i :
  tp_next_available c s = Some i -> tp_stat (tp_at c i) = s /\ (i < length (tp_framebuffs c))%nat.
Proof.
  unfold tp_next_available. intros ([j fb] & Hf & ->)%fmap_Some. apply list_find_Some in Hf as (Hl & Hs & _).
  cbn. split; [|by eapply lookup_lt_Some]. unfold tp_at. by rewrite Hl.
Qed.

Lemma tp_newest_some (c : ctx) s i :
  tp_newest_available c s = Some i -> tp_stat (tp_at c i) = s.
Proof.
  unfold tp_newest_available. assert (H : forall l best, (forall j, best = Some j -> tp_stat (tp_at c j) = s) ->
    foldl (tp_newest_step c s) best l = Some i -> tp_stat (tp_at c i) = s).
  { induction l as [|k l IH]; cbn; intros best Hb; [apply Hb|]. apply IH. intros j. unfold tp_newest_step. case_if; [|apply Hb].
    intros [= <-]. apply andb_true_iff in E as [E _]. by apply bool_decide_eq_true in E. }
  by apply H.
Qed.

(** ** Histories *)

(** [c'] continues [c] with the events [t]. *)
Record tp_moves (c : ctx) (t : list tp_event) (c' : ctx) : Prop := {
  mv_done : tp_has_done c' = tp_has_done c;
  mv_len : length (tp_framebuffs c') = length (tp_framebuffs c);
  mv_trace : tp_trace c' = tp_trace c ++ t;
  mv_run : forall i, tx_run md_codec i (tp_stat (tp_at c i)) t = Some (tp_stat (tp_at c' i));
}.

Lemma tp_moves_trans c t c1 u c2 : tp_moves c t c1 -> tp_moves c1 u c2 -> tp_moves c (t ++ u) c2.
Proof.
  intros [] []. split; [congruence|congruence|rewrite mv_trace1, mv_trace0; by rewrite app_assoc|].
  intros i. by rewrite (tx_run_app _ _ _ _ _ _ (mv_run0 i)).
Qed.

(** The rest of the context changed. *)
Lemma tp_moves_same c c' :
  tp_has_done c' = tp_has_done c -> tp_framebuffs c' = tp_framebuffs c -> tp_trace c' = tp_trace c -> tp_moves c [] c'.
Proof. intros H1 H2 H3. split; [done|by rewrite H2|by rewrite app_nil_r|]. intros i. unfold tp_at. by rewrite H2. Qed.

Lemma tp_moves_upd i g c : (forall fb, tp_stat (g fb) = tp_stat fb) -> tp_moves c [] (tp_upd i g c).
Proof.
  intros Hg. split; [done|cbn; by rewrite length_alter|cbn; by rewrite app_nil_r|]. intros j. cbn. f_equal.
  destruct (decide (j = i)) as [-> |Hne]; [|by rewrite tp_at_upd_ne].
  destruct (decide (i < length (tp_framebuffs c))%nat); [by rewrite tp_at_upd_eq, Hg|].
  unfold tp_at, tp_upd; cbn. by rewrite list_lookup_alter_eq, lookup_ge_None_2 by lia.
Qed.

Lemma tp_moves_emit e c : (forall i old new, e <> TpStat i old new) -> tp_moves c [e] (tp_emit e c).
Proof. intros He. split; try done. intros i. rewrite tx_run_other by done. done. Qed.

Lemma tp_stat_set_eq i s c : (i < length (tp_framebuffs c))%nat -> tp_stat (tp_at (tp_set_stat i s c) i) = s.
Proof. intros Hi. change (tp_at (tp_set_stat i s c) i) with (tp_at (tp_upd i (fun fb => fb <| tp_stat := s |>) c) i). by rewrite tp_at_upd_eq. Qed.

Lemma tp_at_set_ne i j s c : j <> i -> tp_at (tp_set_stat i s c) j = tp_at c j.
Proof. apply (tp_at_upd_ne i j (fun fb => fb <| tp_stat := s |>) c). Qed.

Lemma tp_moves_stat i old s c :
  (i < length (tp_framebuffs c))%nat -> tp_stat (tp_at c i) = old -> tx_allowed md_codec old s = true ->
  tp_moves c [TpStat i old s] (tp_set_stat i s c).
Proof.
  intros Hi Ho Ha. split; [done|cbn; by rewrite length_alter|by rewrite <- Ho|]. intros j. cbn [tx_run foldl tx_follow].
  case_bool_decide as Ej.
  - subst j. by rewrite bool_decide_eq_true_2, Ha, tp_stat_set_eq by done.
  - by rewrite tp_at_set_ne by done.
Qed.

(** A slot with a frame of the application in it owes a notification. *)
Definition tx_live (s : tx_frame_status) : Prop := match s with TX_FRAME_FREE | TX_FRAME_DROPPED => False | _ => True end.
Definition tp_armed_but (skip : option nat) (c : ctx) : Prop :=
  forall i, skip <> Some i -> tx_live (tp_stat (tp_at c i)) -> tp_done_called (tp_at c i) = false.
Notation tp_armed := (tp_armed_but None).

Lemma tp_armed_at i c c' :
  tp_armed_but (Some i) c -> (forall j, j <> i -> tp_at c' j = tp_at c j) ->
  (tx_live (tp_stat (tp_at c' i)) -> tp_done_called (tp_at c' i) = false) -> tp_armed c'.
Proof.
  intros Ha Ho Hi j _. destruct (decide (j = i)) as [-> |Hne]; [done|]. rewrite Ho by done. apply Ha. congruence.
Qed.

Lemma tp_armed_weaken skip c : tp_armed c -> tp_armed_but skip c.
Proof. intros H i _. by apply H. Qed.

Lemma tp_armed_same c c' : tp_framebuffs c' = tp_framebuffs c -> tp_armed c -> tp_armed c'.
Proof. unfold tp_armed_but, tp_at. by intros ->. Qed.

Lemma tp_armed_stat i s c :
  tp_armed c -> (tx_live s -> tp_done_called (tp_at c i) = false) -> tp_armed (tp_set_stat i s c).
Proof.
  intros Ha Hs. eapply tp_armed_at; [by eapply tp_armed_weaken|intros j; apply tp_at_set_ne|].
  change (tp_at (tp_set_stat i s c) i) with (tp_at (tp_upd i (fun fb => fb <| tp_stat := s |>) c) i).
  destruct (decide (i < length (tp_framebuffs c))%nat).
  - by rewrite tp_at_upd_eq by done.
  - unfold tp_at, tp_upd; cbn. by rewrite list_lookup_alter_eq, lookup_ge_None_2 by lia.
Qed.

Lemma tp_armed_upd i g c :
  (forall fb, tp_stat (g fb) = tp_stat fb /\ tp_done_called (g fb) = tp_done_called fb) -> tp_armed c -> tp_armed (tp_upd i g c).
Proof.
  intros Hg Ha. eapply tp_armed_at; [by eapply tp_armed_weaken|intros j; apply tp_at_upd_ne|].
  destruct (decide (i < length (tp_framebuffs c))%nat).
  - rewrite tp_at_upd_eq by done. destruct (Hg (tp_at c i)) as [-> ->]. by apply Ha.
  - unfold tp_at, tp_upd; cbn. by rewrite list_lookup_alter_eq, lookup_ge_None_2 by lia.
Qed.

(** ** The account of a behaviour

    [tp_ok r x owe unsent c c']: from [c] to [c'] the slots moved along the allowed edges;
    the application has [owe i] notifications of slot [i] to come, and [unsent] frames that
    were sent are still to be counted. Slots being dropped stay so, and live slots owe a
    notification, but for slot [x], which the call in progress has in its hands. *)
Record tp_account (r : bool) (x : option nat) (owe : nat -> Z) (unsent : Z) (c : ctx) (t : list tp_event) (c' : ctx) : Prop := {
  ac_moves : tp_moves c t c';
  ac_armed : tp_armed_but x c';
  ac_pin : forall i, x <> Some i -> tp_stat (tp_at c i) = TX_FRAME_DROPPED -> tp_stat (tp_at c' i) = TX_FRAME_DROPPED;
  ac_owe : tp_has_done c = true -> forall i, Z.of_nat (tx_answered i t) + owe i = Z.of_nat (tx_ended i t);
  ac_sent : r = false -> md_counts = true -> u64 (tp_frames_sent c' + unsent) = u64 (tp_frames_sent c + Z.of_nat (tx_tally tx_is_sent t));
}.
Definition tp_ok r x owe unsent (c c' : ctx) : Prop := exists t, tp_account r x owe unsent c t c'.
Definition nothing : nat -> Z := fun _ => 0.
Definition one (i : nat) : nat -> Z := fun j => if bool_decide (j = i) then 1 else 0.
Notation tp_good r f := (forall c, tp_armed c -> tp_ok r None nothing 0 c (f c)).

Lemma tp_ok_armed r x owe u c c' : tp_ok r x owe u c c' -> tp_armed_but x c'.
Proof. by intros [t []]. Qed.
Lemma tp_ok_done r x owe u c c' : tp_ok r x owe u c c' -> tp_has_done c' = tp_has_done c.
Proof. by intros [t [[]]]. Qed.
Lemma tp_ok_len r x owe u c c' : tp_ok r x owe u c c' -> length (tp_framebuffs c') = length (tp_framebuffs c).
Proof. by intros [t [[]]]. Qed.
Lemma tp_ok_pin r x owe u c c' i :
  tp_ok r x owe u c c' -> x <> Some i -> tp_stat (tp_at c i) = TX_FRAME_DROPPED -> tp_stat (tp_at c' i) = TX_FRAME_DROPPED.
Proof. intros [t []]. auto. Qed.

Lemma tp_ok_trans r x owe1 u1 owe2 u2 owe u c c1 c2 :
  tp_ok r x owe1 u1 c c1 -> tp_ok r x owe2 u2 c1 c2 -> (forall i, owe i = owe1 i + owe2 i) -> u = u1 + u2 ->
  tp_ok r x owe u c c2.
Proof.
  intros [t [M1 _ P1 O1 S1]] [t' [M2 A2 P2 O2 S2]] Ho ->. exists (t ++ t').
  split; [by eapply tp_moves_trans|done|by auto| |].
  - intros Hd i. rewrite (mv_done _ _ _ M1) in O2. specialize (O1 Hd i). specialize (O2 Hd i).
    unfold tx_answered, tx_ended in *. rewrite !tx_tally_app, Ho. lia.
  - intros Hr Hk. specialize (S1 Hr Hk). specialize (S2 Hr Hk). rewrite tx_tally_app. unfold u64 in *. 
    replace (tp_frames_sent c2 + (u1 + u2)) with (tp_frames_sent c2 + u2 + u1) by lia.
    rewrite <- Z.add_mod_idemp_l, S2, Z.add_mod_idemp_l by lia.
    replace (tp_frames_sent c1 + Z.of_nat (tx_tally tx_is_sent t') + u1)
      with (tp_frames_sent c1 + u1 + Z.of_nat (tx_tally tx_is_sent t')) by lia.
    rewrite <- Z.add_mod_idemp_l, S1, Z.add_mod_idemp_l by lia. f_equal. lia.
Qed.

(** The call lets go of the slot. *)
Lemma tp_ok_close r i owe u c c' :
  tp_ok r (Some i) owe u c c' -> tp_stat (tp_at c i) <> TX_FRAME_DROPPED ->
  (tx_live (tp_stat (tp_at c' i)) -> tp_done_called (tp_at c' i) = false) -> tp_ok r None owe u c c'.
Proof.
  intros [t []] Hd Hl. exists t. split; try done; [by eapply tp_armed_at|].
  intros j _ Hj. destruct (decide (j = i)) as [-> |Hne]; [done|]. apply ac_pin0; congruence.
Qed.

Lemma tp_ok_open r x owe u c c' : tp_ok r None owe u c c' -> tp_ok r x owe u c c'.
Proof. intros [t []]. exists t. split; try done; [by apply tp_armed_weaken|]. intros i _. by apply ac_pin0. Qed.

(** Other fields. *)
Lemma tp_ok_same r x u c c' :
  tp_armed_but x c -> tp_has_done c' = tp_has_done c -> tp_framebuffs c' = tp_framebuffs c -> tp_trace c' = tp_trace c ->
  (r = false -> md_counts = true -> u64 (tp_frames_sent c' + u) = u64 (tp_frames_sent c)) -> tp_ok r x nothing u c c'.
Proof.
  intros Ha Hd Hf Ht Hs. exists []. split; [by apply tp_moves_same| | |done|].
  - unfold tp_armed_but, tp_at in *. by rewrite Hf.
  - unfold tp_at. by rewrite Hf.
  - intros Hr Hk. rewrite Hs by done. cbn. f_equal. lia.
Qed.

Lemma tp_ok_fields r x c c' :
  tp_armed_but x c -> tp_has_done c' = tp_has_done c -> tp_framebuffs c' = tp_framebuffs c -> tp_trace c' = tp_trace c ->
  tp_frames_sent c' = tp_frames_sent c -> tp_ok r x nothing 0 c c'.
Proof. intros Ha Hd Hf Ht Hs. apply tp_ok_same; try done. intros _ _. by rewrite Hs, Z.add_0_r. Qed.

Lemma tp_ok_refl r x c : tp_armed_but x c -> tp_ok r x nothing 0 c c.
Proof. intros H. by apply tp_ok_fields. Qed.

Lemma tp_ok_note r x e c :
  tp_armed_but x c -> match e with TpStat _ _ _ | TpDone _ => False | _ => True end -> tp_ok r x nothing 0 c (tp_emit e c).
Proof.
  intros Ha He. exists [e]. split; [apply tp_moves_emit; by destruct e|done|done| |].
  - intros _ i. by destruct e.
  - intros _. rewrite Z.add_0_r. destruct e; try done; by rewrite Z.add_0_r.
Qed.

Lemma tp_ok_told r x i c : tp_armed_but x c -> tp_ok r x (fun j => - one i j) 0 c (tp_emit (TpDone i) c).
Proof.
  intros Ha. exists [TpDone i]. split; [by apply tp_moves_emit|done|done| |].
  - intros _ j. unfold tx_answered, tx_ended, tx_tally, one. cbn. 
    case_bool_decide as E1; case_bool_decide as E2; subst; try done.
  - intros _. by rewrite !Z.add_0_r.
Qed.

(** A store to the status of a slot. *)
Definition owes (old new : tx_frame_status) (i : nat) : nat -> Z :=
  if tx_is_sent (TpStat i old new) || tx_is_dropped (TpStat i old new) then one i else nothing.
Definition uncounted (old new : tx_frame_status) : Z := if tx_is_sent (TpStat 0 old new) then 1 else 0.

Lemma tp_ok_stat r x i old new c :
  tp_armed_but x c -> (i < length (tp_framebuffs c))%nat -> tp_stat (tp_at c i) = old -> tx_allowed md_codec old new = true ->
  x = Some i \/ old <> TX_FRAME_DROPPED /\ (tx_live new -> tp_done_called (tp_at c i) = false) ->
  tp_ok r x (owes old new i) (uncounted old new) c (tp_set_stat i new c).
Proof.
  intros Ha Hi Ho Hal Hx. exists [TpStat i old new]. split; [by apply tp_moves_stat| | | |].
  - intros j Hj. destruct (decide (j = i)) as [-> |Hne].
    + destruct Hx as [Hx|[_ Hx]]; [done|].
      change (tp_at (tp_set_stat i new c) i) with (tp_at (tp_upd i (fun fb => fb <| tp_stat := new |>) c) i).
      by rewrite tp_at_upd_eq by done.
    + rewrite tp_at_set_ne by done. by apply Ha.
  - intros j Hj Hd. destruct (decide (j = i)) as [-> |Hne]; [|by rewrite tp_at_set_ne].
    destruct Hx as [Hx|[Hx _]]; [done|]. congruence.
  - intros _ j. unfold tx_answered, tx_ended, tx_tally, owes, one, nothing.
    destruct old, new; try done; cbn; repeat case_bool_decide; subst; done.
  - intros _. by destruct old, new.
Qed.

(** The transport drops or takes a frame. *)
Lemma tx_sendable_live k : tx_live (tx_sendable k) /\ tx_sendable k <> TX_FRAME_DROPPED /\ tx_sendable k <> TX_FRAME_FREE.
Proof. by destruct k. Qed.

Lemma tp_ok_take r i new c :
  tp_armed c -> tp_stat (tp_at c i) = tx_sendable md_codec -> new = TX_FRAME_DROPPED \/ new = TX_FRAME_IN_TRANSMITTING ->
  tp_ok r None (if bool_decide (new = TX_FRAME_DROPPED) then one i else nothing) 0 c (tp_set_stat i new c).
Proof.
  intros Ha Hs Hn. destruct (tx_sendable_live md_codec) as (Hl & Hd & Hf).
  assert (Hc : tp_done_called (tp_at c i) = false) by (apply Ha; [done|]; by rewrite Hs).
  assert (Hal : tx_allowed md_codec (tx_sendable md_codec) new = true).
  { destruct Hn as [-> | ->]; unfold tx_sendable; by destruct md_codec. }
  pose proof (tp_ok_stat r None i (tx_sendable md_codec) new c Ha (tp_range c i _ Hs Hf) Hs Hal (or_intror (conj Hd (fun _ => Hc)))) as H.
  assert (E1 : owes (tx_sendable md_codec) new i = if bool_decide (new = TX_FRAME_DROPPED) then one i else nothing).
  { unfold tx_sendable. destruct Hn as [-> | ->]; by destruct md_codec. }
  assert (E2 : uncounted (tx_sendable md_codec) new = 0).
  { unfold tx_sendable. destruct Hn as [-> | ->]; by destruct md_codec. }
  by rewrite E1, E2 in H.
Qed.

(** What is written into a slot but its status. *)
Lemma tp_ok_upd r x i g c :
  tp_armed_but x c -> (forall fb, tp_stat (g fb) = tp_stat fb) ->
  x = Some i \/ tp_stat (tp_at c i) = TX_FRAME_DROPPED \/ (forall fb, tp_done_called fb = false -> tp_done_called (g fb) = false) ->
  tp_ok r x nothing 0 c (tp_upd i g c).
Proof.
  intros Ha Hg Hx. pose proof (tp_moves_upd i g c Hg) as Hm. exists []. split; [done| | |done|].
  - intros j Hj Hl. pose proof (mv_run _ _ _ Hm j) as [= Hr]. rewrite <- Hr in Hl.
    destruct (decide (j = i)) as [-> |Hne]; [|rewrite tp_at_upd_ne by done; by apply Ha].
    destruct Hx as [Hx|[Hx|Hx]]; [done|by rewrite Hx in Hl|].
    assert (Hi : (i < length (tp_framebuffs c))%nat) by (apply (tp_range c i _ eq_refl); intros E; by rewrite E in Hl).
    rewrite tp_at_upd_eq by done. by apply Hx, Ha.
  - intros j _ Hd. pose proof (mv_run _ _ _ Hm j) as [= Hr]. by rewrite <- Hr.
  - intros _. rewrite !Z.add_0_r. done.
Qed.
End Slots.

(** ** Every call balances its account *)

Section Good.
Context {X P M : Type} {media : TxMedia X P M} (r : bool).
Notation ctx := (tp_ctx X P).
Notation tp_armed := (tp_armed_but None).
Notation tp_good f := (forall c, tp_armed c -> tp_ok r None nothing 0 c (f c)).

(** Chain two parts of a call. *)
Lemma tp_ok_then x owe u c c1 c2 :
  tp_ok r x nothing 0 c c1 -> (tp_armed_but x c1 -> tp_ok r x owe u c1 c2) -> tp_ok r x owe u c c2.
Proof.
  intros H1 H2. eapply tp_ok_trans; [exact H1|apply H2; by eapply tp_ok_armed|intros i; unfold nothing; lia|lia].
Qed.
Lemma tp_ok_after x owe u c c1 c2 :
  tp_ok r x owe u c c1 -> (tp_armed_but x c1 -> tp_ok r x nothing 0 c1 c2) -> tp_ok r x owe u c c2.
Proof.
  intros H1 H2. eapply tp_ok_trans; [exact H1|apply H2; by eapply tp_ok_armed|intros i; unfold nothing; lia|lia].
Qed.

Section Callbacks.
Context (app : tp_event -> ctx -> ctx).
Hypothesis app_good : forall e, tp_good (app e).

Lemma tp_fire_note_good e c :
  tp_armed c -> match e with TpStat _ _ _ | TpDone _ => False | _ => True end -> tp_ok r None nothing 0 c (tp_fire app e c).
Proof. intros Ha He. eapply tp_ok_then; [by apply tp_ok_note|]. intros H. by apply app_good. Qed.

Lemma tp_notify_good : tp_good (tp_notify_frame_available app).
Proof.
  intros c Ha. unfold tp_notify_frame_available. set (c1 := if tp_has_available c then _ else c).
  assert (H1 : tp_ok r None nothing 0 c c1) by (unfold c1; case_if; [by apply tp_fire_note_good|by apply tp_ok_refl]).
  eapply tp_ok_then; [exact H1|]. intros Ha1. case_if; [|by apply tp_ok_refl].
  eapply tp_ok_then; [|intros A; by apply tp_ok_note]. by apply tp_ok_fields.
Qed.

(** A slot being dropped that was live is told to the application. *)
Lemma tp_done_dropped_ok i c :
  tp_armed c -> tp_stat (tp_at c i) = TX_FRAME_DROPPED -> tp_has_done c = true -> tp_done_called (tp_at c i) = false ->
  tp_ok r None (fun j => - one i j) 0 c (tp_done_dropped app i c).
Proof.
  intros Ha Hs Hd Hc. unfold tp_done_dropped. rewrite Hd, Hc. cbn [negb andb].
  set (c1 := tp_upd _ _ c). assert (H1 : tp_ok r None nothing 0 c c1) by (apply tp_ok_upd; auto).
  eapply tp_ok_then; [exact H1|]. intros A1. assert (S1 : tp_stat (tp_at c1 i) = TX_FRAME_DROPPED) by (by eapply tp_ok_pin).
  set (c2 := tp_fire app (TpDone i) c1).
  assert (H2 : tp_ok r None (fun j => - one i j) 0 c1 c2).
  { eapply tp_ok_after; [by apply tp_ok_told|]. intros A2. by apply app_good. }
  eapply tp_ok_after; [exact H2|]. intros A2. apply tp_ok_upd; [done|done|]. right. left. by eapply tp_ok_pin.
Qed.

Lemma tp_ok_ignore owe c c' : tp_has_done c = false -> tp_ok r None owe 0 c c' -> forall owe', tp_ok r None owe' 0 c c'.
Proof. intros Hd [t []] owe'. exists t. split; try done. congruence. Qed.

Lemma tp_late_ok i c :
  tp_armed c -> tp_stat (tp_at c i) = tx_sendable md_codec -> tp_ok r None nothing 0 c (tp_if_frame_late app i c).2.
Proof.
  intros Ha Hs. unfold tp_if_frame_late. case_if; [by apply tp_ok_refl|]. clear E. cbn [snd].
  set (c1 := if md_counts then _ else c <| tp_stat_drop_frame ::= _ |>).
  assert (E1 : tp_ok r None nothing 0 c c1 /\ tp_framebuffs c1 = tp_framebuffs c).
  { unfold c1. destruct md_counts; (split; [by apply tp_ok_fields|done]). }
  destruct E1 as [H1 F1]. assert (A1 : forall j, tp_at c1 j = tp_at c j) by (intros j; unfold tp_at; by rewrite F1). clearbody c1.
  destruct (tx_sendable_live md_codec) as (Hl & Hd & Hf).
  assert (Hi : (i < length (tp_framebuffs c1))%nat) by (rewrite F1; by eapply tp_range).
  assert (Hc : tp_done_called (tp_at c i) = false) by (apply Ha; [done|]; by rewrite ?Hs, ?Es).
  set (c2 := tp_set_stat i TX_FRAME_DROPPED c1).
  assert (H2 : tp_ok r None (one i) 0 c c2).
  { eapply tp_ok_then; [exact H1|]. intros A. apply (tp_ok_take r i TX_FRAME_DROPPED c1); [done|by rewrite A1|by left]. }
  assert (S2 : tp_stat (tp_at c2 i) = TX_FRAME_DROPPED) by (by apply tp_stat_set_eq).
  assert (C2 : tp_done_called (tp_at c2 i) = false).
  { change (tp_at c2 i) with (tp_at (tp_upd i (fun fb => fb <| tp_stat := TX_FRAME_DROPPED |>) c1) i).
    rewrite tp_at_upd_eq by done. by rewrite A1. }
  pose proof (tp_ok_armed _ _ _ _ _ _ H2) as A2. set (c3 := tp_done_dropped app i c2).
  assert (H3 : tp_ok r None nothing 0 c c3 /\ tp_stat (tp_at c3 i) = TX_FRAME_DROPPED).
  { destruct (tp_has_done c2) eqn:Ed.
    - pose proof (tp_done_dropped_ok i c2 A2 S2 Ed C2) as H3. split; [|by eapply tp_ok_pin].
      eapply tp_ok_trans; [exact H2|exact H3|intros j; unfold nothing; lia|done].
    - unfold c3, tp_done_dropped. rewrite Ed. cbn [andb]. split; [|done].
      eapply tp_ok_ignore; [|exact H2]. by rewrite <- (tp_ok_done _ _ _ _ _ _ H2). }
  destruct H3 as [H3 S3]. clearbody c3. set (c4 := if tp_has_late c3 then _ else c3).
  assert (H4 : tp_ok r None nothing 0 c3 c4).
  { pose proof (tp_ok_armed _ _ _ _ _ _ H3). unfold c4. case_if; [by apply tp_fire_note_good|by apply tp_ok_refl]. }
  assert (S4 : tp_stat (tp_at c4 i) = TX_FRAME_DROPPED) by (by eapply tp_ok_pin).
  assert (H5 : tp_ok r None nothing 0 c c4) by (eapply tp_ok_then; [exact H3|by intros _]). clearbody c4.
  eapply tp_ok_then; [|intros A; by apply tp_notify_good].
  assert (Hi4 : (i < length (tp_framebuffs c4))%nat) by (rewrite (tp_ok_len _ _ _ _ _ _ H5), <- F1; done).
  eapply (tp_ok_close r i); [|by rewrite Hs|rewrite tp_stat_set_eq by done; by intros []].
  eapply tp_ok_then; [by apply tp_ok_open, H5|]. intros A. apply (tp_ok_stat r (Some i) i TX_FRAME_DROPPED TX_FRAME_FREE c4); auto.
Qed.

Lemma tp_pick_loop_ok fuel n c : tp_armed c -> tp_ok r None nothing 0 c (tp_pick_loop app fuel n c).2.
Proof.
  revert n c. induction fuel as [|fuel IH]; intros n c Ha; cbn [tp_pick_loop]; [by apply tp_ok_refl|].
  destruct (tp_newest_available c (tx_sendable md_codec)) as [i|] eqn:Ei; [|by apply tp_ok_refl].
  case_if; [by apply tp_ok_refl|]. pose proof (tp_late_ok i c Ha (tp_newest_some _ _ _ Ei)) as H1.
  destruct (tp_if_frame_late app i c) as [[|] c1]; [|done]. eapply tp_ok_then; [exact H1|]. apply IH.
Qed.

Lemma tp_next_good race meta : tp_good race -> tp_good (fun c => (tp_next_frame app race meta c).2).
Proof.
  intros Hrace c Ha. unfold tp_next_frame. case_if; [by apply tp_ok_refl|].
  pose proof (tp_pick_loop_ok TX_PICK_FUEL 0 c Ha) as H1. destruct (tp_pick_loop app TX_PICK_FUEL 0 c) as [[i|] c1]; cbn [snd] in H1.
  - assert (H2 : tp_ok r None nothing 0 c (race c1)) by (eapply tp_ok_then; [exact H1|apply Hrace]).
    destruct (tp_is (tx_sendable md_codec) (race c1) i) eqn:Es; cbn [negb snd]; [|done]. apply bool_decide_eq_true in Es.
    eapply tp_ok_then; [exact H2|]. intros A2. apply (tp_ok_take r i TX_FRAME_IN_TRANSMITTING (race c1)); auto.
  - cbn [snd]. eapply tp_ok_then; [exact H1|]. intros A1. case_if; [|by apply tp_ok_refl].
    case_match; [by apply tp_notify_good|by apply tp_ok_refl].
Qed.

Lemma tp_done_good freed i meta :
  tp_good freed -> tp_good (tp_when_sending i (fun c => (tp_frame_done app freed i meta c).2)).
Proof.
  intros Hfreed c Ha. unfold tp_when_sending. destruct (tp_is TX_FRAME_IN_TRANSMITTING c i) eqn:Es; [|by apply tp_ok_refl].
  apply bool_decide_eq_true in Es. assert (Hc : tp_done_called (tp_at c i) = false) by (apply Ha; [done|]; by rewrite ?Hs, ?Es).
  assert (Hi : (i < length (tp_framebuffs c))%nat) by (by eapply tp_range).
  unfold tp_frame_done. set (c1 := tp_upd i _ c).
  assert (E1 : tp_at c1 i = tp_at c i <| tp_frame ::= md_sent (tp_media c) meta |>) by (by apply tp_at_upd_eq).
  rewrite E1. cbn [tp_done_called modify_field]. rewrite Hc. cbn [negb]. rewrite andb_true_r. change (tp_has_done c1) with (tp_has_done c).
  set (c2 := if tp_has_done c then tp_upd i _ c1 else c1).
  assert (H2 : tp_ok r (Some i) nothing 0 c c2).
  { eapply (tp_ok_then (Some i) _ _ c c1); [apply tp_ok_upd; [by apply tp_armed_weaken|done|by left]|]. intros A1. unfold c2.
    case_if; [|by apply tp_ok_refl]. apply tp_ok_upd; auto. }
  assert (S2 : tp_stat (tp_at c2 i) = TX_FRAME_IN_TRANSMITTING).
  { unfold c2. case_if; [rewrite tp_at_upd_eq by (cbn; by rewrite length_alter); cbn|]; by rewrite E1. }
  assert (Hi2 : (i < length (tp_framebuffs c2))%nat) by (by rewrite (tp_ok_len _ _ _ _ _ _ H2)).
  unfold tp_is. rewrite bool_decide_eq_true_2 by done. set (c3 := tp_set_stat i TX_FRAME_FREE c2).
  assert (H3 : tp_ok r None (one i) 1 c c3).
  { eapply (tp_ok_close r i); [|congruence|unfold c3; rewrite tp_stat_set_eq by done; by intros []].
    eapply tp_ok_then; [exact H2|]. intros A. apply (tp_ok_stat r (Some i) i TX_FRAME_IN_TRANSMITTING TX_FRAME_FREE c2); auto. }
  assert (H4 : tp_ok r None (one i) 1 c (freed c3)) by (eapply tp_ok_after; [exact H3|apply Hfreed]).
  clearbody c3. set (c5 := if tp_has_done c then tp_fire app (TpDone i) (freed c3) else freed c3).
  assert (H5 : tp_ok r None nothing 1 c c5).
  { unfold c5. destruct (tp_has_done c) eqn:Ed.
    - eapply (tp_ok_trans r None (one i) 1 (fun j => - one i j) 0); [exact H4| |intros j; unfold nothing; lia|done].
      eapply tp_ok_after; [apply tp_ok_told; by eapply tp_ok_armed|]. apply app_good.
    - destruct H4 as [t []]. exists t. split; try done. congruence. }
  cbn [Z.eqb andb snd]. clearbody c5. eapply tp_ok_then; [|apply tp_notify_good].
  eapply (tp_ok_trans r None nothing 1 nothing (-1)); [exact H5| |done|done].
  pose proof (tp_ok_armed _ _ _ _ _ _ H5) as A5. destruct md_counts eqn:Ek.
  - apply tp_ok_same; try done. intros _ _. cbn. unfold u64. rewrite Z.add_mod_idemp_l by lia. f_equal. lia.
  - apply tp_ok_same; try done. intros _ Hk. congruence.
Qed.

End Callbacks.

(** What a claim leaves: a slot in the hands of the call. *)
Definition tp_claimed (c : ctx) (res : option nat * ctx) : Prop :=
  match res with
  | (None, c') => tp_ok r None nothing 0 c c'
  | (Some i, c') => tp_ok r (Some i) nothing 0 c c' /\ tp_stat (tp_at c' i) = TX_FRAME_IN_USER /\ tp_stat (tp_at c i) <> TX_FRAME_DROPPED
  end.

Lemma tp_claim_take i c c1 :
  tp_ok r None nothing 0 c c1 -> (i < length (tp_framebuffs c1))%nat -> tp_stat (tp_at c1 i) = TX_FRAME_FREE ->
  tp_claimed c (Some i, tp_set_stat i TX_FRAME_IN_USER c1).
Proof.
  intros H Hi Hs. split; [|split; [by apply tp_stat_set_eq|]].
  - eapply tp_ok_then; [by apply tp_ok_open, H|]. intros A.
    apply (tp_ok_stat r (Some i) i TX_FRAME_FREE TX_FRAME_IN_USER c1); auto.
  - intros Hd. rewrite (tp_ok_pin _ _ _ _ _ _ i H) in Hs; done.
Qed.

Lemma tp_claimed_then c c1 res : tp_ok r None nothing 0 c c1 -> (tp_armed c1 -> tp_claimed c1 res) -> tp_claimed c res.
Proof.
  intros H1 H2. specialize (H2 (tp_ok_armed _ _ _ _ _ _ H1)). destruct res as [[i|] c2]; cbn [tp_claimed] in *.
  - destruct H2 as (H2 & Hs & Hd). split; [|split; [done|]].
    + eapply tp_ok_then; [by apply tp_ok_open, H1|by intros _].
    + intros Hc. apply Hd. by eapply tp_ok_pin.
  - by eapply tp_ok_then.
Qed.

Lemma tp_claim_ok env c :
  (forall f, In f env -> tp_good f) -> tp_armed c ->
  tp_claimed c (tp_claim_available TX_FRAME_FREE TX_FRAME_IN_USER env c).
Proof.
  unfold tp_claim_available. revert c. induction env as [|e env IH]; intros c He Ha; cbn [ring_claim].
  - destruct (tp_next_available c TX_FRAME_FREE) as [i|] eqn:Ei; [|by apply tp_ok_refl].
    apply tp_available_some in Ei as [Hs Hi]. apply tp_claim_take; [by apply tp_ok_refl|done|done].
  - destruct (tp_next_available c TX_FRAME_FREE) as [i|] eqn:Ei; [|by apply tp_ok_refl].
    apply tp_available_some in Ei as [Hs Hi]. assert (H1 : tp_ok r None nothing 0 c (e c)) by (apply He; [by left|done]).
    destruct (tp_is TX_FRAME_FREE (e c) i) eqn:E.
    + apply bool_decide_eq_true in E. apply tp_claim_take; [done|by rewrite (tp_ok_len _ _ _ _ _ _ H1)|done].
    + eapply tp_claimed_then; [exact H1|]. intros A1. apply IH; [|done]. intros f Hf. apply He. by right.
Qed.

Lemma tp_wait_loop_ok cnt waits c :
  (forall w f, In w waits -> In f (rw_races w) -> tp_good f) -> (forall w, In w waits -> tp_good (rw_sleep w)) ->
  tp_armed c -> tp_claimed c (tp_wait_loop cnt waits c).
Proof.
  revert c. induction waits as [|w waits IH]; intros c Hr Hs Ha; cbn [tp_wait_loop]; (case_if; [by apply tp_ok_refl|]).
  - pose proof (tp_claim_ok [] c ltac:(done) Ha) as H1.
    destruct (tp_claim_available _ _ _ _) as [[i|] c1]; [done|]. by case_if.
  - pose proof (tp_claim_ok (rw_races w) c ltac:(intros f; apply Hr; by left) Ha) as H1.
    destruct (tp_claim_available _ _ _ _) as [[i|] c1]; [done|]. case_if; [done|]. cbn [tp_claimed] in H1.
    assert (H2 : tp_ok r None nothing 0 c (rw_sleep w c1)).
    { eapply tp_ok_then; [exact H1|]. intros A1. apply Hs; [by left|done]. }
    case_if; [done|]. eapply tp_claimed_then; [exact H2|]. intros A2. apply IH; [|intros w' Hw; apply Hs; by right|done].
    intros w' f Hw. apply Hr. by right.
Qed.

Lemma tp_hand_out_ok i c c1 : tp_claimed c (Some i, c1) -> tp_ok r None nothing 0 c (tp_hand_out i c1).
Proof.
  intros (H & Hs & Hd). assert (Hi : (i < length (tp_framebuffs c1))%nat) by (by eapply tp_range).
  set (c2 := tp_upd i (fun fb => fb <| tp_done_called := false |> <| tp_seq_number := tp_seq c1 |>) c1).
  assert (H2 : tp_ok r None nothing 0 c c2).
  { eapply (tp_ok_close r i); [|done|].
    - eapply tp_ok_then; [exact H|]. intros A. apply tp_ok_upd; auto.
    - intros _. unfold c2. by rewrite tp_at_upd_eq. }
  eapply tp_ok_then; [exact H2|]. intros A2. unfold tp_hand_out. fold c2.
  eapply tp_ok_then; [|intros A3; by apply tp_ok_note].
  by apply tp_ok_fields.
Qed.

Lemma tp_get_good env waits destroy_began :
  (forall f, In f env -> tp_good f) -> (forall w f, In w waits -> In f (rw_races w) -> tp_good f) ->
  (forall w, In w waits -> tp_good (rw_sleep w)) -> tp_good (fun c => (tp_get_frame env waits destroy_began c).2).
Proof.
  intros He Hr Hs c Ha. unfold tp_get_frame. do 2 (case_if; [by apply tp_ok_refl|]).
  set (c0 := c <| tp_stat_get_frame_try ::= _ |>).
  assert (H0 : tp_ok r None nothing 0 c c0) by (by apply tp_ok_fields).
  eapply tp_ok_then; [exact H0|]. intros A0. clearbody c0. clear c Ha E E0 H0.
  pose proof (tp_claim_ok env c0 He A0) as H1. destruct (tp_claim_available _ _ env c0) as [[i|] c1]; [by apply tp_hand_out_ok|].
  case_if; [done|]. eapply tp_ok_then; [exact H1|]. intros A1. clear E H1 A0 c0.
  pose proof (tp_wait_loop_ok (tp_wake_block_cnt c1) waits c1 Hr Hs A1) as H2.
  destruct (tp_wait_loop _ waits c1) as [fb c2]. set (c3 := c2 <| tp_destroying ::= _ |>).
  assert (Hsame : forall x, tp_armed_but x c2 -> tp_ok r x nothing 0 c2 c3).
  { intros x A. by apply tp_ok_fields. }
  assert (H3 : tp_claimed c1 (fb, c3)).
  { destruct fb as [i|]; cbn [tp_claimed] in *; [|exact (tp_ok_then _ _ _ _ _ _ H2 (Hsame None))].
    destruct H2 as (H2 & H4 & H5). split; [exact (tp_ok_then _ _ _ _ _ _ H2 (Hsame (Some i)))|done]. }
  destruct fb as [i|]; [|done]. case_if; [|by apply tp_hand_out_ok]. destruct H3 as (H3 & H4 & H5). cbn [snd].
  assert (Hi : (i < length (tp_framebuffs c3))%nat) by (by eapply tp_range).
  eapply (tp_ok_close r i); [|done|rewrite tp_stat_set_eq by done; by intros []].
  eapply tp_ok_then; [exact H3|]. intros A. apply (tp_ok_stat r (Some i) i TX_FRAME_IN_USER TX_FRAME_FREE c3); auto.
Qed.

(** A store behind a test that the application has the slot. *)
Lemma tp_user_stat_ok i s c :
  tp_armed c -> tp_stat (tp_at c i) = TX_FRAME_IN_USER -> s = TX_FRAME_READY \/ s = TX_FRAME_FREE ->
  tp_ok r None nothing 0 c (tp_set_stat i s c).
Proof.
  intros Ha Hs Hn. assert (tp_done_called (tp_at c i) = false) by (apply Ha; [done|]; by rewrite ?Hs, ?Es).
  destruct Hn as [-> | ->].
  - apply (tp_ok_stat r None i TX_FRAME_IN_USER TX_FRAME_READY c); auto. by eapply tp_range.
  - apply (tp_ok_stat r None i TX_FRAME_IN_USER TX_FRAME_FREE c); auto. by eapply tp_range.
Qed.

Lemma tp_put_good i : tp_good (fun c => (tp_put_frame i c).2).
Proof.
  intros c Ha. unfold tp_put_frame. case_if; [by apply tp_ok_refl|].
  destruct (tp_is TX_FRAME_IN_USER c i) eqn:Es; cbn [negb]; [|by apply tp_ok_refl]. apply bool_decide_eq_true in Es.
  destruct (md_put _) as [ok frame]. set (c1 := tp_upd i _ c).
  assert (H1 : tp_ok r None nothing 0 c c1) by (apply tp_ok_upd; auto).
  assert (S1 : tp_stat (tp_at c1 i) = TX_FRAME_IN_USER) by (unfold c1; rewrite tp_at_upd_eq by (by eapply tp_range); done).
  case_if; [done|]. cbn [snd]. eapply tp_ok_then; [exact H1|]. intros A1.
  eapply tp_ok_then; [apply (tp_user_stat_ok i TX_FRAME_READY); auto|]. intros A2.
  by apply tp_ok_fields.
Qed.

Lemma tp_abort_good i : tp_good (fun c => (tp_put_frame_abort i c).2).
Proof.
  intros c Ha. unfold tp_put_frame_abort. case_if; [by apply tp_ok_refl|].
  destruct (tp_is TX_FRAME_IN_USER c i) eqn:Es; cbn [negb]; [|by apply tp_ok_refl]. apply bool_decide_eq_true in Es.
  cbn [snd]. eapply tp_ok_then; [apply (tp_user_stat_ok i TX_FRAME_FREE); auto|]. intros A2.
  destruct md_counts; by apply tp_ok_fields.
Qed.

Lemma tp_session_good f : tp_session r f -> tp_good f.
Proof.
  induction 1; intros c Ha.
  - by apply tp_ok_refl.
  - eapply tp_ok_then; eauto.
  - by apply tp_ok_fields.
  - by apply (tp_next_good app).
  - by apply (tp_done_good app).
  - by apply tp_get_good.
  - unfold tp_write. case_if; [|by apply tp_ok_refl]. apply tp_ok_upd; auto.
  - by apply tp_put_good.
  - by apply tp_abort_good.
  - unfold tp_print_stat. case_if; [by apply tp_ok_refl|]. by apply tp_ok_fields.
  - unfold tp_reset_session_stats. case_if; [by apply tp_ok_refl|]. apply tp_ok_same; try done. intros Hr. congruence.
  - unfold tp_wake_block. case_if; [by apply tp_ok_refl|]. cbn [snd]. case_if; [|by apply tp_ok_refl].
    eapply tp_ok_then; [|intros A; by apply tp_ok_note]. by apply tp_ok_fields.
  - unfold tp_set_block_timeout. case_if; [by apply tp_ok_refl|]. by apply tp_ok_fields.
  - unfold tp_begin_free. case_if; [by apply tp_ok_refl|]. eapply tp_ok_then; [|intros A; by apply tp_ok_note].
    by apply tp_ok_fields.
Qed.

End Good.

(** ** What the pipelines promise *)

Section Promises.
Context {X P M : Type} {media : TxMedia X P M}.
Notation ctx := (tp_ctx X P).

(** The history of a slot is legal; sent and dropped frames are told to the application,
    each once; the counter of sent frames counts them. *)
Definition tp_accounted (r : bool) (c : ctx) : Prop :=
  (forall i, tx_run md_codec i TX_FRAME_FREE (tp_trace c) = Some (tp_stat (tp_at c i)))
  /\ (tp_has_done c = true -> forall i, tx_answered i (tp_trace c) = tx_ended i (tp_trace c))
  /\ (r = false -> md_counts = true -> u64 (tp_frames_sent c) = u64 (Z.of_nat (tx_tally tx_is_sent (tp_trace c)))).

Lemma tp_accounted_good r f app flags available done late block_get x frames :
  (forall c, tp_armed_but None c -> tp_ok r None nothing 0 c (f c)) ->
  (forall e c, tp_armed_but None c -> tp_ok r None nothing 0 c (app e c)) ->
  tp_accounted r (f (tp_create app flags available done late block_get x frames)).
Proof.
  intros Hf Happ. unfold tp_create. set (c := mk_tp_ctx _ _ _ _ _ _ _ _ _ _ _ _ _ _ _ _ _ _ _ _).
  assert (Hfree : forall i, tp_stat (tp_at c i) = TX_FRAME_FREE).
  { intros i. unfold tp_at, c. cbn. rewrite list_lookup_fmap. by destruct (frames !! i). }
  assert (Ha : tp_armed_but None c) by (intros i _; rewrite Hfree; by intros []).
  set (c1 := if tp_block_get c then c else _).
  assert (H1 : tp_ok r None nothing 0 c c1).
  { unfold c1. case_if; [by apply tp_ok_refl|]. by apply tp_notify_good. }
  assert (H2 : tp_ok r None nothing 0 c (f c1)).
  { eapply tp_ok_then; [exact H1|]. apply Hf. }
  destruct H2 as [t [[Hd _ Ht Hr] _ _ Ho Hs]]. cbn in Ht. unfold tp_accounted. rewrite Ht. split; [|split].
  - intros i. rewrite <- (Hfree i). apply Hr.
  - rewrite Hd. intros E i. specialize (Ho E i). unfold nothing in Ho. lia.
  - intros E Hk. specialize (Hs E Hk). by rewrite Z.add_0_r in Hs.
Qed.

Lemma tp_accounted_create r f app flags available done late block_get x frames :
  tp_session r f -> (forall e, tp_session r (app e)) ->
  tp_accounted r (f (tp_create app flags available done late block_get x frames)).
Proof. intros Hf Happ. apply tp_accounted_good; [by apply tp_session_good|]. intros e. by apply tp_session_good. Qed.

(** ** Which frame the transport gets *)

(** How many frames were handed out since this one. *)
Definition tp_age (c : ctx) (i : nat) : Z := u32 (tp_seq c - tp_seq_number (tp_at c i)).

Lemma tp_newest_step_oldest (c : ctx) s l best i :
  (forall j, tp_stat (tp_at c j) = s -> tp_age c j < 2147483648) -> (forall b, best = Some b -> tp_stat (tp_at c b) = s) ->
  foldl (tp_newest_step c s) best l = Some i ->
  (forall b, best = Some b -> tp_age c b <= tp_age c i) /\ (forall j, In j l -> tp_stat (tp_at c j) = s -> tp_age c j <= tp_age c i).
Proof.
  intros Hw. revert best. induction l as [|k l IH]; intros best Hb Hf.
  - cbn in Hf. split; [|done]. intros b Eb. rewrite Hf in Eb. injection Eb as ->. lia.
  - cbn [foldl] in Hf.
    assert (Hn : forall b, tp_newest_step c s best k = Some b -> tp_stat (tp_at c b) = s).
    { intros b. unfold tp_newest_step. case_if; [|apply Hb]. intros [= <-]. apply andb_true_iff in E as [E _].
      by apply bool_decide_eq_true in E. }
    destruct (IH _ Hn Hf) as [Hbest Hl].
    enough (H : (forall b, best = Some b -> tp_age c b <= tp_age c i) /\ (tp_stat (tp_at c k) = s -> tp_age c k <= tp_age c i)).
    { destruct H as [H1 H2]. split; [done|]. intros j [<- |Hj]; [done|]. by apply Hl. }
    unfold tp_newest_step, tp_is in Hbest. case_bool_decide as Hk; cbn [andb] in Hbest; [|by split].
    destruct best as [b|]; [|split; [done|]; intros _; by apply Hbest].
    specialize (Hb b eq_refl). rewrite (seq32_greater_age (tp_seq c)) in Hbest by (by apply Hw).
    fold (tp_age c k) (tp_age c b) in Hbest. destruct (Z.ltb_spec (tp_age c k) (tp_age c b)); cbn in Hbest.
    + specialize (Hbest b eq_refl). split; [by intros ? [= <-]|lia].
    + specialize (Hbest k eq_refl). split; [intros ? [= <-]; lia|done].
Qed.

(** Despite its name the scan finds the oldest slot. *)
Lemma tp_newest_oldest (c : ctx) s i j :
  (forall j, tp_stat (tp_at c j) = s -> tp_age c j < 2147483648) -> s <> TX_FRAME_FREE ->
  tp_newest_available c s = Some i -> tp_stat (tp_at c j) = s -> tp_age c j <= tp_age c i.
Proof.
  intros Hw Hs Hn Hj. destruct (tp_newest_step_oldest c s _ None i Hw ltac:(done) Hn) as [_ H]. apply H; [|done].
  apply in_seq. pose proof (tp_range c j s Hj Hs). lia.
Qed.

(** The loop ends with the frame the scan finds in the state it leaves, and that frame is
    not late; whatever the application does in the callbacks of the drops. *)
Lemma tp_pick_loop_found app fuel n c i c1 :
  tp_pick_loop app fuel n c = (Some i, c1) -> tp_newest_available c1 (tx_sendable md_codec) = Some i /\ tp_late c1 i = false.
Proof.
  revert n c. induction fuel as [|fuel IH]; intros n c; cbn [tp_pick_loop]; [done|].
  destruct (tp_newest_available c (tx_sendable md_codec)) as [k|] eqn:Ek; [|done]. case_if; [done|].
  unfold tp_if_frame_late. destruct (tp_late c k) eqn:El; cbn [negb]; [apply IH|]. by intros [= <- <-].
Qed.

(** [next_frame] gives the transport the oldest frame put, which is not late. *)
Lemma tp_next_frame_oldest app meta c i m c' :
  tp_next_frame app id meta c = (inr (i, m), c') ->
  (forall j, j = i \/ tp_stat (tp_at c' j) = tx_sendable md_codec -> tp_age c' j < 2147483648) ->
  tp_stat (tp_at c' i) = TX_FRAME_IN_TRANSMITTING /\ tp_late c' i = false
  /\ forall j, tp_stat (tp_at c' j) = tx_sendable md_codec -> tp_age c' j <= tp_age c' i.
Proof.
  unfold tp_next_frame. case_if; [done|]. destruct (tp_pick_loop app TX_PICK_FUEL 0 c) as [[k|] c1] eqn:Ep; [|done].
  unfold id. destruct (tp_is (tx_sendable md_codec) c1 k) eqn:Es; cbn [negb]; [|done]. intros [= <- <- <-] Hw.
  apply tp_pick_loop_found in Ep as [Ek El]. apply bool_decide_eq_true in Es. destruct (tx_sendable_live md_codec) as (_ & _ & Hf).
  assert (Hi : (k < length (tp_framebuffs c1))%nat) by (by eapply tp_range).
  assert (Hat : forall j, tp_at (tp_set_stat k TX_FRAME_IN_TRANSMITTING c1) j
    = if bool_decide (j = k) then tp_at c1 k <| tp_stat := TX_FRAME_IN_TRANSMITTING |> else tp_at c1 j).
  { intros j. case_bool_decide; [subst j; exact (tp_at_upd_eq _ _ _ Hi)|by apply tp_at_set_ne]. }
  assert (Hage : forall j, tp_age (tp_set_stat k TX_FRAME_IN_TRANSMITTING c1) j = tp_age c1 j).
  { intros j. unfold tp_age. rewrite Hat. case_bool_decide; [by subst j|done]. }
  split; [by rewrite Hat, bool_decide_eq_true_2|]. split.
  { unfold tp_late. rewrite Hat, (bool_decide_eq_true_2 (k = k)) by done. exact El. }
  intros j Hj. rewrite !Hage. apply (tp_newest_oldest c1 (tx_sendable md_codec)); try done.
  - intros l Hl. rewrite <- Hage. apply Hw. rewrite Hat. case_bool_decide; [by left|by right].
  - rewrite Hat in Hj. case_bool_decide; [|done]. cbn in Hj. exfalso. revert Hj. unfold tx_sendable. by destruct md_codec.
Qed.

(** The loop ends: more turns than those [TX_PICK_FUEL] allows change nothing. *)
Lemma tp_pick_loop_fuel app a b n c :
  TX_DROP_MAX_BATCH - n < Z.of_nat a -> TX_DROP_MAX_BATCH - n < Z.of_nat b -> n <= TX_DROP_MAX_BATCH ->
  tp_pick_loop app a n c = tp_pick_loop app b n c.
Proof.
  revert b n c. induction a as [|a IH]; intros b n c Ha Hb Hn; [lia|]. destruct b as [|b]; [lia|]. cbn [tp_pick_loop].
  destruct (tp_newest_available c (tx_sendable md_codec)); [|done]. destruct (Z.geb_spec n TX_DROP_MAX_BATCH); [done|].
  destruct (tp_if_frame_late app n0 c) as [[|] c1]; [|done]. apply IH; lia.
Qed.

End Promises.
