(* ===== verification/PipelineRx30.v ===== *)
(** The frame slots of the ST 2110-30 receive pipeline,
    lib/src/st2110/pipeline/st30_pipeline_rx.c: the transport hands over audio frames
    ([rx_st30p_frame_ready]), the application takes them ([st30p_rx_get_frame]) and puts
    them back ([st30p_rx_put_frame]), which gives the buffer back to the transport. The
    scan, the claim and the blocking get are those of [RxRing]. [app] is what the
    application does to the session while [notify_frame_available] runs. *)
From S2P Require Import Prelude Fmt TxCommon RxRing.

Inductive st30p_rx_frame_status := ST30P_RX_FRAME_FREE | ST30P_RX_FRAME_READY | ST30P_RX_FRAME_IN_USER.
#[export] Instance st30p_rx_frame_status_eq : EqDecision st30p_rx_frame_status.
Proof. solve_decision. Defined.

(** [struct st30_rx_frame_meta], the fields the pipeline reads. *)
Record st30_rx_frame_meta := mk_st30_rx_meta {
  rm_tfmt : st10_timestamp_fmt;
  rm_timestamp : Z;
  rm_timestamp_first_pkt : Z;
  rm_rtp_timestamp : Z;
  rm_status : st_frame_status;
}.

(** [struct st30_frame] *)
Record st30_frame := mk_st30_frame {
  f30_addr : option Z;
  f30_fmt : st30_fmt;
  f30_channel : Z;
  f30_sampling : st30_sampling;
  f30_ptime : st30_ptime;
  f30_buffer_size : Z;
  f30_data_size : Z;
  f30_tfmt : st10_timestamp_fmt;
  f30_timestamp : Z;
  f30_epoch : Z;
  f30_rtp_timestamp : Z;
  f30_receive_timestamp : Z;
  f30_status : st_frame_status;
}.
#[export] Instance eta_st30_frame : Settable st30_frame := fun f =>
  mk_st30_frame (f30_addr f) (f30_fmt f) (f30_channel f) (f30_sampling f) (f30_ptime f) (f30_buffer_size f)
    (f30_data_size f) (f30_tfmt f) (f30_timestamp f) (f30_epoch f) (f30_rtp_timestamp f) (f30_receive_timestamp f) (f30_status f).

Record st30p_rx_frame := mk_st30p_rx_frame { r30_stat : st30p_rx_frame_status; r30_frame : st30_frame }.
#[export] Instance eta_st30p_rx_frame : Settable st30p_rx_frame := fun fb => mk_st30p_rx_frame (r30_stat fb) (r30_frame fb).

(** The fields of [st30p_rx_ops] that are consulted. *)
Record st30p_rx_ops := mk_st30p_rx_ops {
  o30_fmt : st30_fmt;
  o30_channel : Z;
  o30_sampling : st30_sampling;
  o30_ptime : st30_ptime;
  o30_framebuff_cnt : Z;
  o30_framebuff_size : Z;
  o30_notify_frame_available : bool;
  o30_flags : Z;
}.
Definition ST30P_RX_FLAG_BLOCK_GET : Z := Z.shiftl 1 15.

Record st30p_rx_ctx := mk_st30p_rx_ctx {
  r30_destroying : bool;
  r30_ops : st30p_rx_ops;
  r30_producer_idx : nat;
  r30_consumer_idx : nat;
  r30_framebuffs : list st30p_rx_frame;
  r30_ready : bool;
  r30_block_get : bool;
  r30_block_timeout_ns : Z;
  r30_wake_pending : bool;
  r30_stat_get_frame_try : Z;
  r30_stat_get_frame_succ : Z;
  r30_stat_put_frame : Z;
  r30_stat_busy : Z;
  r30_frames_received : Z;
  r30_frames_dropped : Z;
  r30_frames_corrupted : Z;
  r30_trace : list rx_event;
}.
#[export] Instance eta_st30p_rx_ctx : Settable st30p_rx_ctx := fun c =>
  mk_st30p_rx_ctx (r30_destroying c) (r30_ops c) (r30_producer_idx c) (r30_consumer_idx c) (r30_framebuffs c) (r30_ready c)
    (r30_block_get c) (r30_block_timeout_ns c) (r30_wake_pending c) (r30_stat_get_frame_try c) (r30_stat_get_frame_succ c)
    (r30_stat_put_frame c) (r30_stat_busy c) (r30_frames_received c) (r30_frames_dropped c) (r30_frames_corrupted c)
    (r30_trace c).

Definition st30_frame_zero : st30_frame :=
  mk_st30_frame None ST30_FMT_PCM8 0 ST30_SAMPLING_48K ST30_PTIME_1MS 0 0 ST10_TIMESTAMP_FMT_TAI 0 0 0 0 ST_FRAME_STATUS_COMPLETE.
Definition r30_at (c : st30p_rx_ctx) (i : nat) : st30p_rx_frame :=
  default (mk_st30p_rx_frame ST30P_RX_FRAME_FREE st30_frame_zero) (r30_framebuffs c !! i).
Definition r30_upd (i : nat) (g : st30p_rx_frame -> st30p_rx_frame) (c : st30p_rx_ctx) : st30p_rx_ctx :=
  c <| r30_framebuffs ::= alter g i |>.
Definition r30_emit (e : rx_event) (c : st30p_rx_ctx) : st30p_rx_ctx := c <| r30_trace ::= fun t => t ++ [e] |>.
Definition r30_set_stat (i : nat) (s : st30p_rx_frame_status) : st30p_rx_ctx -> st30p_rx_ctx :=
  r30_upd i (fun fb => fb <| r30_stat := s |>).
Definition r30_is (s : st30p_rx_frame_status) (fb : st30p_rx_frame) : bool := bool_decide (r30_stat fb = s).

Definition rx_st30p_next_idx (c : st30p_rx_ctx) (idx : nat) : nat := ring_next_idx (length (r30_framebuffs c)) idx.

Definition rx_st30p_block_wake (c : st30p_rx_ctx) : st30p_rx_ctx := r30_emit RvWake (c <| r30_wake_pending := true |>).

Definition rx_st30p_next_available (c : st30p_rx_ctx) (idx_start : nat) (desired : st30p_rx_frame_status) : option nat :=
  ring_next_available (r30_is desired) (r30_framebuffs c) idx_start.

(** The start index is an argument of the C function: it is read once. *)
Definition rx_st30p_claim_available (idx_start : nat) (desired claimed : st30p_rx_frame_status)
    (env : list (st30p_rx_ctx -> st30p_rx_ctx)) (c : st30p_rx_ctx) : option nat * st30p_rx_ctx :=
  ring_claim (fun c => rx_st30p_next_available c idx_start desired) (fun i c => r30_is desired (r30_at c i))
    (fun i => r30_set_stat i claimed) env c.

(** What [rx_st30p_frame_ready] writes into the frame of a slot. *)
Definition r30_fill (framebuff_size addr : Z) (meta : st30_rx_frame_meta) (f : st30_frame) : st30_frame :=
  f <| f30_addr := Some addr |> <| f30_data_size := framebuff_size |> <| f30_tfmt := rm_tfmt meta |>
    <| f30_timestamp := rm_timestamp meta |> <| f30_receive_timestamp := rm_timestamp_first_pkt meta |>
    <| f30_rtp_timestamp := rm_rtp_timestamp meta |> <| f30_status := rm_status meta |>.

Section Operations.
Context (app : st30p_rx_ctx -> st30p_rx_ctx).

Definition rx_st30p_notify_frame_available (c : st30p_rx_ctx) : st30p_rx_ctx :=
  let c := if o30_notify_frame_available (r30_ops c) then app (r30_emit RvAvailable c) else c in
  if r30_block_get c then r30_emit RvSignal c else c.

Definition rx_st30p_frame_ready (addr : Z) (meta : st30_rx_frame_meta) (c : st30p_rx_ctx) : Z * st30p_rx_ctx :=
  if negb (r30_ready c) then (- EBUSY, c)
  else
    match rx_st30p_next_available c (r30_producer_idx c) ST30P_RX_FRAME_FREE with
    | None =>
        (- EBUSY, c <| r30_stat_busy ::= fun n => u32 (n + 1) |> <| r30_frames_dropped ::= fun n => u64 (n + 1) |>)
    | Some i =>
        let c := r30_upd i (fun fb => fb <| r30_frame ::= r30_fill (o30_framebuff_size (r30_ops c)) addr meta |>
                                         <| r30_stat := ST30P_RX_FRAME_READY |>) c in
        let c := r30_emit (RvAccept addr) c in
        let c := c <| r30_producer_idx := rx_st30p_next_idx c i |> in
        (0, rx_st30p_notify_frame_available c)
    end.

(** The claim of [st30p_rx_get_frame], with the blocking wait. *)
Definition r30_get_claim (env : list (st30p_rx_ctx -> st30p_rx_ctx)) (waits : list (rx_wait st30p_rx_ctx))
    (unlocked : st30p_rx_ctx -> st30p_rx_ctx) (again : list (st30p_rx_ctx -> st30p_rx_ctx)) (c : st30p_rx_ctx)
    : option nat * st30p_rx_ctx :=
  rx_block_get (fun env c => rx_st30p_claim_available (r30_consumer_idx c) ST30P_RX_FRAME_READY ST30P_RX_FRAME_IN_USER env c)
    r30_wake_pending r30_destroying (fun c => c <| r30_wake_pending := false |>) r30_block_get env waits unlocked again c.

Definition st30p_rx_get_frame (env : list (st30p_rx_ctx -> st30p_rx_ctx)) (waits : list (rx_wait st30p_rx_ctx))
    (unlocked : st30p_rx_ctx -> st30p_rx_ctx) (again : list (st30p_rx_ctx -> st30p_rx_ctx)) (c : st30p_rx_ctx)
    : option nat * st30p_rx_ctx :=
  if r30_destroying c then (None, c)
  else if negb (r30_ready c) then (None, c)
  else
    let c := c <| r30_stat_get_frame_try ::= fun n => u32 (n + 1) |> in
    match r30_get_claim env waits unlocked again c with
    | (None, c) => (None, c)
    | (Some i, c) =>
        let c := c <| r30_consumer_idx := rx_st30p_next_idx c i |> in
        let c := c <| r30_stat_get_frame_succ ::= fun n => u32 (n + 1) |>
                   <| r30_frames_received ::= fun n => u64 (n + 1) |> in
        let c := if bool_decide (f30_status (r30_frame (r30_at c i)) = ST_FRAME_STATUS_CORRUPTED)
                 then c <| r30_frames_corrupted ::= fun n => u64 (n + 1) |> else c in
        (Some i, r30_emit (RvGot i) c)
    end.

(** [st30_rx_put_framebuff(ctx->transport, frame->addr)] *)
Definition r30_give_back (i : nat) (c : st30p_rx_ctx) : st30p_rx_ctx :=
  match f30_addr (r30_frame (r30_at c i)) with Some addr => r30_emit (RvBack addr) c | None => c end.

Definition st30p_rx_put_frame (i : nat) (c : st30p_rx_ctx) : Z * st30p_rx_ctx :=
  if r30_destroying c then (- EIO, c)
  else if negb (r30_is ST30P_RX_FRAME_IN_USER (r30_at c i)) then (- EIO, c)
  else
    let c := r30_set_stat i ST30P_RX_FRAME_FREE (r30_give_back i c) in
    (0, c <| r30_stat_put_frame ::= fun n => u32 (n + 1) |>).

Definition st30p_rx_put_frame_abort (i : nat) (c : st30p_rx_ctx) : Z * st30p_rx_ctx :=
  if r30_destroying c then (- EIO, c)
  else if negb (r30_is ST30P_RX_FRAME_IN_USER (r30_at c i)) then (- EIO, c)
  else (0, r30_set_stat i ST30P_RX_FRAME_FREE (r30_give_back i c)).

(** What [st30p_rx_create] makes of the ops, when memory and transport are there. *)
Definition rx_st30p_init_fbs (ops : st30p_rx_ops) : list st30p_rx_frame :=
  replicate (Z.to_nat (o30_framebuff_cnt ops))
    (mk_st30p_rx_frame ST30P_RX_FRAME_FREE
       (mk_st30_frame None (o30_fmt ops) (o30_channel ops) (o30_sampling ops) (o30_ptime ops) (o30_framebuff_size ops)
          (o30_framebuff_size ops) ST10_TIMESTAMP_FMT_TAI 0 0 0 0 ST_FRAME_STATUS_COMPLETE)).

Definition st30p_rx_create (ops : st30p_rx_ops) : st30p_rx_ctx :=
  let c := mk_st30p_rx_ctx false ops 0 0 (rx_st30p_init_fbs ops) true (has_flag (o30_flags ops) ST30P_RX_FLAG_BLOCK_GET)
             NS_PER_S false 0 0 0 0 0 0 0 [] in
  if r30_block_get c then c else rx_st30p_notify_frame_available c.

Definition st30p_rx_wake_block (c : st30p_rx_ctx) : Z * st30p_rx_ctx :=
  if r30_destroying c then (- EIO, c) else (0, if r30_block_get c then rx_st30p_block_wake c else c).

Definition st30p_rx_set_block_timeout (timedwait_ns : Z) (c : st30p_rx_ctx) : Z * st30p_rx_ctx :=
  if r30_destroying c then (- EIO, c) else (0, c <| r30_block_timeout_ns := timedwait_ns |>).

Definition st30p_rx_frame_size (c : st30p_rx_ctx) : Z := if r30_destroying c then 0 else o30_framebuff_size (r30_ops c).

(** [transport_ret] is the answer of [st30_rx_reset_session_stats]. *)
Definition st30p_rx_reset_session_stats (transport_ret : Z) (c : st30p_rx_ctx) : Z * st30p_rx_ctx :=
  if r30_destroying c then (- EIO, c)
  else (transport_ret, c <| r30_frames_received := 0 |> <| r30_frames_dropped := 0 |> <| r30_frames_corrupted := 0 |>).

Definition rx_st30p_stat (c : st30p_rx_ctx) : Z * st30p_rx_ctx :=
  if negb (r30_ready c) then (- EBUSY, c)
  else
    (0, c <| r30_stat_get_frame_try := 0 |> <| r30_stat_get_frame_succ := 0 |> <| r30_stat_put_frame := 0 |>
          <| r30_stat_busy := 0 |>).

(** The start of [st30p_rx_free]: the gate closes and sleepers are woken. What follows runs
    after the drain, when no caller is left. *)
Definition st30p_rx_free_begin (c : st30p_rx_ctx) : Z * st30p_rx_ctx :=
  if r30_destroying c then (- EBUSY, c) else (0, rx_st30p_block_wake (c <| r30_destroying := true |>)).

End Operations.

(** ** The pipeline as a queue *)

Definition r30_slot (fb : st30p_rx_frame) : rx_slot st30_frame :=
  match r30_stat fb with
  | ST30P_RX_FRAME_FREE => RFree
  | ST30P_RX_FRAME_READY => RReady (r30_frame fb)
  | ST30P_RX_FRAME_IN_USER => RUser (r30_frame fb)
  end.

(** The frame made from a buffer of the transport and its meta data. *)
Definition st30_seen (ops : st30p_rx_ops) (addr : Z) (meta : st30_rx_frame_meta) : st30_frame :=
  mk_st30_frame (Some addr) (o30_fmt ops) (o30_channel ops) (o30_sampling ops) (o30_ptime ops) (o30_framebuff_size ops)
    (o30_framebuff_size ops) (rm_tfmt meta) (rm_timestamp meta) 0 (rm_rtp_timestamp meta) (rm_timestamp_first_pkt meta)
    (rm_status meta).

(** A slot of a session: the settings never change, and a slot in use has a buffer. *)
Definition r30_slot_ok (ops : st30p_rx_ops) (fb : st30p_rx_frame) : Prop :=
  let f := r30_frame fb in
  f30_fmt f = o30_fmt ops /\ f30_channel f = o30_channel ops /\ f30_sampling f = o30_sampling ops
  /\ f30_ptime f = o30_ptime ops /\ (f30_buffer_size f = o30_framebuff_size ops /\ f30_epoch f = 0)
  /\ (r30_stat fb <> ST30P_RX_FRAME_FREE -> is_Some (f30_addr f)).

Definition r30_open (ops : st30p_rx_ops) (c : st30p_rx_ctx) : Prop :=
  r30_ops c = ops /\ r30_ready c = true /\ r30_destroying c = false /\ Forall (r30_slot_ok ops) (r30_framebuffs c).

#[export] Instance st30p_rx_pipeline : RxPipeline st30p_rx_ctx st30_rx_frame_meta st30_frame := {
  rx_frame_ready := rx_st30p_frame_ready id;
  rx_get_frame := st30p_rx_get_frame [] [] id [];
  rx_put_frame := st30p_rx_put_frame;
  rx_frame c i := r30_frame (r30_at c i);
  rx_trace := r30_trace;
}.

Lemma r30_is_free fb : r30_is ST30P_RX_FRAME_FREE fb = rslot_free (r30_slot fb).
Proof. unfold r30_is, r30_slot. by destruct (r30_stat fb). Qed.
Lemma r30_is_ready fb : r30_is ST30P_RX_FRAME_READY fb = rslot_ready (r30_slot fb).
Proof. unfold r30_is, r30_slot. by destruct (r30_stat fb). Qed.
Lemma r30_is_user fb : r30_is ST30P_RX_FRAME_IN_USER fb = true <-> r30_slot fb = RUser (r30_frame fb).
Proof. unfold r30_is, r30_slot. rewrite bool_decide_eq_true. by destruct (r30_stat fb). Qed.

Lemma r30_at_lookup c i fb : r30_framebuffs c !! i = Some fb -> r30_at c i = fb.
Proof. unfold r30_at. by intros ->. Qed.

Lemma r30_claim c :
  rx_st30p_claim_available (r30_consumer_idx c) ST30P_RX_FRAME_READY ST30P_RX_FRAME_IN_USER [] c
  = match rx_st30p_next_available c (r30_consumer_idx c) ST30P_RX_FRAME_READY with
    | Some i => (Some i, r30_set_stat i ST30P_RX_FRAME_IN_USER c)
    | None => (None, c)
    end.
Proof. unfold rx_st30p_claim_available. cbn [ring_claim]. by destruct rx_st30p_next_available. Qed.

(** Two states a client of the queue cannot tell apart. *)
Definition r30_same (c c' : st30p_rx_ctx) : Prop :=
  r30_ops c' = r30_ops c /\ r30_ready c' = r30_ready c /\ r30_destroying c' = r30_destroying c
  /\ r30_framebuffs c' = r30_framebuffs c /\ r30_producer_idx c' = r30_producer_idx c
  /\ r30_consumer_idx c' = r30_consumer_idx c /\ rx_returned (r30_trace c') = rx_returned (r30_trace c).

Lemma r30_notify_same c : r30_same c (rx_st30p_notify_frame_available id c).
Proof.
  unfold rx_st30p_notify_frame_available, r30_same, rx_returned, id.
  destruct (o30_notify_frame_available _); destruct (r30_block_get _); cbn; rewrite ?omap_app; cbn; rewrite ?app_nil_r; done.
Qed.

Lemma r30_same_open ops c c' : r30_same c c' -> r30_open ops c -> r30_open ops c'.
Proof. unfold r30_open. intros (-> & -> & -> & -> & _). done. Qed.

Lemma r30_fill_seen ops a m fb : r30_slot_ok ops fb -> r30_fill (o30_framebuff_size ops) a m (r30_frame fb) = st30_seen ops a m.
Proof. destruct fb as [stat []]. intros (E1 & E2 & E3 & E4 & [E5 E6] & _). cbn in *. by subst. Qed.

#[export, refine] Instance st30p_rx_laws : RxPipelineLaws st30p_rx_ctx st30_rx_frame_meta st30_frame st30p_rx_ops := {
  rx_open := r30_open;
  rx_slots c := r30_slot <$> r30_framebuffs c;
  rx_in := r30_producer_idx;
  rx_out := r30_consumer_idx;
  rx_seen := st30_seen;
  rx_addr f := default 0 (f30_addr f);
}.
Proof.
  - done.
  - intros ops a m c (Ho & Hr & Hd & Hs). cbn [rx_frame_ready st30p_rx_pipeline rx_trace].
    rewrite (next_available_fmap _ (r30_is ST30P_RX_FRAME_FREE)) by apply r30_is_free.
    unfold rx_st30p_frame_ready, rx_st30p_next_available. rewrite Hr. cbn [negb].
    destruct (ring_next_available _ _ _) as [i|] eqn:E; [|by split_and!].
    destruct (next_available_some _ _ _ _ E) as (fb & Hfb & _). pose proof (Forall_lookup_1 _ _ _ _ Hs Hfb) as Hok.
    set (c1 := _ <| r30_producer_idx := _ |>).
    assert (r30_open ops c1) as Hc1.
    { split_and!; try done. apply Forall_alter_at; [done|]. intros x _ (F1 & F2 & F3 & F4 & [F5 FE] & _). by split_and!. }
    pose proof (r30_notify_same c1) as Hsame. split; [by eapply r30_same_open|].
    destruct Hsame as (_ & _ & _ & -> & -> & -> & ->). unfold c1, rx_st30p_next_idx. cbn. rewrite length_alter, length_fmap.
    split_and!; try done.
    + unfold rx_returned. rewrite omap_app. cbn. by rewrite app_nil_r.
    + erewrite fmap_alter_insert by exact Hfb. f_equal. unfold r30_slot. cbn. f_equal. rewrite Ho. by apply r30_fill_seen.
  - intros ops c (Ho & Hr & Hd & Hs). cbn [rx_get_frame st30p_rx_pipeline rx_trace rx_frame].
    rewrite (next_available_fmap _ (r30_is ST30P_RX_FRAME_READY)) by apply r30_is_ready.
    unfold st30p_rx_get_frame. rewrite Hd, Hr. cbn [negb]. set (c1 := _ <| r30_stat_get_frame_try ::= _ |>).
    assert (r30_same c c1) as Hsame by (by split_and!).
    unfold r30_get_claim. destruct (ring_next_available _ _ _) as [i|] eqn:E.
    + destruct (next_available_some _ _ _ _ E) as (fb & Hfb & Hst%bool_decide_eq_true). unfold rx_block_get. rewrite r30_claim.
      change (rx_st30p_next_available c1 (r30_consumer_idx c1) ST30P_RX_FRAME_READY)
        with (ring_next_available (r30_is ST30P_RX_FRAME_READY) (r30_framebuffs c) (r30_consumer_idx c)). rewrite E.
      set (c2 := _ <| r30_frames_received ::= _ |>). set (c3 := if bool_decide _ then _ else _).
      assert (r30_framebuffs c2 = alter (fun fb => fb <| r30_stat := ST30P_RX_FRAME_IN_USER |>) i (r30_framebuffs c)) as Ef by done.
      assert (r30_same c2 (r30_emit (RvGot i) c3)) as H3.
      { unfold r30_same, rx_returned, c3. destruct (bool_decide _); cbn; rewrite omap_app; cbn; by rewrite app_nil_r. }
      split; [eapply r30_same_open; [exact H3|]|].
      { split_and!; try done. rewrite Ef. apply Forall_alter_at; [done|]. intros x Hx (F1 & F2 & F3 & F4 & [F5 FE] & F6).
        split_and!; try done. intros _. apply F6. congruence. }
      destruct H3 as (_ & _ & _ & E1 & -> & -> & ->). rewrite E1, Ef, length_fmap. split_and!; try done.
      { unfold c2, rx_st30p_next_idx. cbn. by rewrite length_alter. }
      intros f. rewrite list_lookup_fmap, Hfb. cbn. unfold r30_slot at 1. rewrite Hst. intros [= <-]. split.
      * by erewrite fmap_alter_insert by exact Hfb.
      * unfold r30_at. by rewrite E1, Ef, list_lookup_alter_eq, Hfb.
    + destruct (rx_block_get_idle (fun env c => rx_st30p_claim_available (r30_consumer_idx c) ST30P_RX_FRAME_READY ST30P_RX_FRAME_IN_USER env c)
        r30_wake_pending r30_destroying (fun c => c <| r30_wake_pending := false |>) r30_block_get c1) as (c' & -> & Hc');
        [rewrite r30_claim; change (rx_st30p_next_available _ _ _) with
           (ring_next_available (r30_is ST30P_RX_FRAME_READY) (r30_framebuffs c) (r30_consumer_idx c)); by rewrite E..|].
      destruct Hc' as [-> | ->]; by split_and!.
  - intros ops i f c (Ho & Hr & Hd & Hs) Hi. cbn [rx_put_frame st30p_rx_pipeline rx_trace].
    rewrite list_lookup_fmap in Hi. destruct (r30_framebuffs c !! i) as [fb|] eqn:Hfb; [|done]. cbn in Hi. injection Hi as Hi.
    pose proof (Forall_lookup_1 _ _ _ _ Hs Hfb) as (_ & _ & _ & _ & _ & F6).
    assert (r30_stat fb = ST30P_RX_FRAME_IN_USER /\ r30_frame fb = f) as [Est <-].
    { unfold r30_slot in Hi. destruct (r30_stat fb); try done. by injection Hi. }
    unfold st30p_rx_put_frame, r30_give_back. rewrite Hd, (r30_at_lookup c i fb Hfb). unfold r30_is. rewrite Est. cbn [negb bool_decide].
    rewrite bool_decide_eq_true_2 by done. cbn [negb]. destruct F6 as [a Ea]; [congruence|]. rewrite Ea. cbn. split_and!; try done.
    + split_and!; try done. apply Forall_alter_at; [done|]. intros x _ (G1 & G2 & G3 & G4 & [G5 GE] & G6). by split_and!.
    + by erewrite fmap_alter_insert by exact Hfb.
    + unfold rx_returned. by rewrite omap_app.
Defined.

(** The audio receive pipeline is a bounded queue. For an application that puts its
    frames back in the order it got them, every answer of a session and every buffer given
    back to the transport is that of a queue with as many places as the session has
    frames: frames arrive in the order in which the transport completed them, with the
    data of their packets' meta, a frame is refused exactly when the application holds or
    has waiting as many frames as there are, and a buffer goes back when its frame is put. *)
Theorem st30p_rx_refines_queue ops l :
  0 < o30_framebuff_cnt ops ->
  let '(answers, s) := rx_client l (st30p_rx_create id ops, []) in
  let '(answers', q) := rx_queue_run (Z.to_nat (o30_framebuff_cnt ops)) (st30_seen ops) l (mk_rx_queue [] [] []) in
  answers = answers' /\ rx_returned (r30_trace s.1) = (fun f => default 0 (f30_addr f)) <$> rq_back q.
Proof.
  intros Hcnt. pose proof (rx_fresh_refines ops l (st30p_rx_create id ops)) as L. cbn [rx_slots st30p_rx_laws] in L.
  assert (r30_framebuffs (st30p_rx_create id ops) = rx_st30p_init_fbs ops
    /\ r30_open ops (st30p_rx_create id ops) /\ r30_producer_idx (st30p_rx_create id ops) = 0%nat
    /\ r30_consumer_idx (st30p_rx_create id ops) = 0%nat /\ rx_returned (r30_trace (st30p_rx_create id ops)) = []) as (Ef & Ho & Ei & Ec & Et).
  { unfold st30p_rx_create. set (c := mk_st30p_rx_ctx _ _ _ _ _ _ _ _ _ _ _ _ _ _ _ _ _).
    assert (r30_open ops c) as Hc.
    { split_and!; try done. apply Forall_replicate. by split_and!. }
    destruct (r30_block_get c); [by split_and!|]. pose proof (r30_notify_same c) as Hsame.
    destruct Hsame as (? & ? & ? & ? & ? & ? & ?) eqn:E. split_and!; try done. by eapply r30_same_open. }
  rewrite Ef, length_fmap in L. unfold rx_st30p_init_fbs in L. rewrite length_replicate in L. apply L. split; [done|]. cbn [rx_slots st30p_rx_laws rx_in rx_out].
  rewrite Ef. split_and!; try done.
  - unfold rx_st30p_init_fbs. destruct (Z.to_nat _) eqn:E; [lia|done].
  - apply Forall_fmap, Forall_replicate. done.
Qed.

(** Three frames; the application puts the second back before the first. *)
Definition ex_r30_ops : st30p_rx_ops := mk_st30p_rx_ops ST30_FMT_PCM24 2 ST30_SAMPLING_48K ST30_PTIME_1MS 3 288 true 0.
Definition ex_r30_meta (ts : Z) : st30_rx_frame_meta :=
  mk_st30_rx_meta ST10_TIMESTAMP_FMT_MEDIA_CLK ts 5 ts ST_FRAME_STATUS_COMPLETE.

Lemma st30p_rx_refines_queue_witness :
  let l := [RxReady 100 (ex_r30_meta 0); RxReady 200 (ex_r30_meta 48); RxGet; RxReady 300 (ex_r30_meta 96);
            RxReady 400 (ex_r30_meta 144); RxPut; RxReady 400 (ex_r30_meta 144); RxGet; RxGet; RxGet; RxGet] in
  let '(answers, s) := rx_client l (st30p_rx_create id ex_r30_ops, []) in
  let '(answers', q) := rx_queue_run 3 (st30_seen ex_r30_ops) l (mk_rx_queue [] [] []) in
  (answers = answers' /\ rx_returned (r30_trace s.1) = (fun f => default 0 (f30_addr f)) <$> rq_back q)
  /\ rx_returned (r30_trace s.1) = [100].
Proof.
  intros l. pose proof (st30p_rx_refines_queue ex_r30_ops l eq_refl) as H. change (Z.to_nat (o30_framebuff_cnt ex_r30_ops)) with 3%nat in H.
  destruct (rx_client l (st30p_rx_create id ex_r30_ops, [])) as [answers s] eqn:E1.
  destruct (rx_queue_run 3 (st30_seen ex_r30_ops) l (mk_rx_queue [] [] [])) as [answers' q] eqn:E2. split; [exact H|].
  destruct H as [_ ->]. revert E2. vm_compute. by intros [= <- <-].
Defined.

(** When frames are put back in another order a later frame can overtake an earlier one:
    the scan takes the first ready slot from the index on, not the oldest. *)
Definition ex_r30_overtake : st30p_rx_ctx :=
  let ready a ts c := (rx_st30p_frame_ready id a (ex_r30_meta ts) c).2 in
  let get c := (st30p_rx_get_frame [] [] id [] c).2 in
  let put i c := (st30p_rx_put_frame i c).2 in
  let c := ready 300 96 (ready 200 48 (ready 100 0 (st30p_rx_create id ex_r30_ops))) in
  let c := put 2%nat (get (get (get c))) in
  let c := put 1%nat (ready 400 144 c) in
  ready 500 192 c.
Lemma r30_overtakes :
  f30_rtp_timestamp (r30_frame (r30_at ex_r30_overtake 2)) = 144 /\
  let '(r, c) := st30p_rx_get_frame [] [] id [] ex_r30_overtake in
  r = Some 1%nat /\ f30_rtp_timestamp (r30_frame (r30_at c 1)) = 192.
Proof. vm_compute. repeat split. Qed.

(** ** The buffers of the transport *)

(** Everything that can happen to a session, from any thread: calls of the application and
    of the transport, with applications that call back and threads that run between the
    scan and the exchange of a claim or while a blocking get sleeps. *)
Inductive r30_session : (st30p_rx_ctx -> st30p_rx_ctx) -> Prop :=
| r30_s_id : r30_session id
| r30_s_comp f g : r30_session f -> r30_session g -> r30_session (fun c => g (f c))
| r30_s_ready app a m : r30_session app -> r30_session (fun c => (rx_st30p_frame_ready app a m c).2)
| r30_s_get env waits unlocked again :
    (forall f, f ∈ env ++ again -> r30_session f) -> r30_session unlocked ->
    (forall w, w ∈ waits -> r30_session (rw_sleep w)) -> (forall w f, w ∈ waits -> f ∈ rw_races w -> r30_session f) ->
    r30_session (fun c => (st30p_rx_get_frame env waits unlocked again c).2)
| r30_s_put i : r30_session (fun c => (st30p_rx_put_frame i c).2)
| r30_s_abort i : r30_session (fun c => (st30p_rx_put_frame_abort i c).2)
| r30_s_wake : r30_session (fun c => (st30p_rx_wake_block c).2)
| r30_s_timeout ns : r30_session (fun c => (st30p_rx_set_block_timeout ns c).2)
| r30_s_reset ret : r30_session (fun c => (st30p_rx_reset_session_stats ret c).2)
| r30_s_stat : r30_session (fun c => (rx_st30p_stat c).2)
| r30_s_free : r30_session (fun c => (st30p_rx_free_begin c).2).

Definition r30_buffer (fb : st30p_rx_frame) : option Z :=
  match r30_stat fb with ST30P_RX_FRAME_FREE => None | _ => f30_addr (r30_frame fb) end.

#[export] Instance r30_rx_ctx : RxCtx st30p_rx_ctx st30p_rx_frame := {
  xc_fbs := r30_framebuffs; xc_buffer := r30_buffer; xc_trace := r30_trace;
}.

Lemma r30_balanced_note e c : rx_notes [e] -> xc_balanced c -> xc_balanced (r30_emit e c).
Proof. intros He. by apply (balanced_notes _ _ [e]). Qed.

Lemma r30_balanced_claimed i c :
  r30_stat (r30_at c i) = ST30P_RX_FRAME_READY -> xc_balanced c -> xc_balanced (r30_set_stat i ST30P_RX_FRAME_IN_USER c).
Proof.
  intros Hs. apply (balanced_keep _ _ i (fun fb => fb <| r30_stat := ST30P_RX_FRAME_IN_USER |>) []); try done.
  - intros fb Hfb%r30_at_lookup. subst fb. cbn. unfold r30_buffer. cbn. by rewrite Hs.
  - cbn. by rewrite app_nil_r.
Qed.

Lemma r30_balanced_back i c :
  r30_is ST30P_RX_FRAME_IN_USER (r30_at c i) = true -> xc_balanced c ->
  xc_balanced (r30_set_stat i ST30P_RX_FRAME_FREE (r30_give_back i c)).
Proof.
  unfold r30_is. rewrite bool_decide_eq_true. unfold r30_give_back, r30_at.
  destruct (r30_framebuffs c !! i) as [fb|] eqn:Hfb; [|done]. cbn. intros Hu.
  apply (balanced_free _ _ i (fun fb => fb <| r30_stat := ST30P_RX_FRAME_FREE |>) fb); [done|done|by destruct (f30_addr _)|].
  cbn. unfold r30_buffer. rewrite Hu. destruct (f30_addr _); cbn; by rewrite ?app_nil_r.
Qed.

Lemma r30_balanced_notify app c :
  keeps_inv xc_balanced app -> xc_balanced c -> xc_balanced (rx_st30p_notify_frame_available app c).
Proof.
  intros Happ Hc. unfold rx_st30p_notify_frame_available. assert (forall c, xc_balanced c ->
    xc_balanced (if r30_block_get c then r30_emit RvSignal c else c)) as Hs.
  { intros c1 H1. case_if; [by apply r30_balanced_note|done]. }
  apply Hs. case_if; [|done]. by apply Happ, r30_balanced_note.
Qed.

Lemma r30_balanced_ready app a m c :
  keeps_inv xc_balanced app -> xc_balanced c -> xc_balanced (rx_st30p_frame_ready app a m c).2.
Proof.
  intros Happ Hc. unfold rx_st30p_frame_ready, rx_st30p_next_available. case_if; [done|].
  destruct (ring_next_available _ _ _) as [i|] eqn:Ei; [|done]. cbn [snd]. apply r30_balanced_notify; [done|].
  destruct (next_available_some _ _ _ _ Ei) as (fb & Hfb & Hst%bool_decide_eq_true).
  eapply (balanced_accept c _ i); [exact Hfb| |..|exact Hc]; try reflexivity; [|done].
  cbn. unfold r30_buffer. by rewrite Hst.
Qed.

Lemma r30_balanced_claim idx env c :
  Forall (keeps_inv xc_balanced) env -> xc_balanced c ->
  xc_balanced (rx_st30p_claim_available idx ST30P_RX_FRAME_READY ST30P_RX_FRAME_IN_USER env c).2 /\
  forall i, (rx_st30p_claim_available idx ST30P_RX_FRAME_READY ST30P_RX_FRAME_IN_USER env c).1 = Some i -> True.
Proof.
  intros He Hc. apply (ring_claim_rule xc_balanced (fun _ _ => True)); [|done|done].
  intros i c1 Hb [Hp|Hs]; (split; [|done]); apply r30_balanced_claimed; try done.
  - destruct (next_available_some _ _ _ _ Hp) as (fb & Hfb & Hst%bool_decide_eq_true). by rewrite (r30_at_lookup _ _ _ Hfb).
  - unfold r30_is in Hs. by apply bool_decide_eq_true in Hs.
Qed.

Lemma r30_session_balanced f : r30_session f -> keeps_inv xc_balanced f.
Proof.
  induction 1 as [|f g _ IHf _ IHg|app a m _ IH|env waits unlocked again _ IHe _ IHu _ IHs _ IHr|i|i| |ns|ret| |]; intros c Hc.
  - done.
  - by apply IHg, IHf.
  - by apply r30_balanced_ready.
  - unfold st30p_rx_get_frame. case_if; [done|]. case_if; [done|]. set (c1 := _ <| r30_stat_get_frame_try ::= _ |>).
    assert (xc_balanced (r30_get_claim env waits unlocked again c1).2) as Hb.
    { unfold r30_get_claim. apply (rx_block_get_rule xc_balanced (fun _ _ => True)); try done.
      - intros env' c' He' Hc'. by apply r30_balanced_claim.
      - apply Forall_forall. intros g Hg c2. apply (IHe g), elem_of_app. by left.
      - apply Forall_forall. intros w Hw. split; [apply Forall_forall; intros g Hg; exact (IHr w g Hw Hg)|exact (IHs w Hw)].
      - apply Forall_forall. intros g Hg c2. apply (IHe g), elem_of_app. by right. }
    destruct (r30_get_claim env waits unlocked again c1) as [[i|] c2]; cbn [snd] in *; [|done].
    apply r30_balanced_note; [done|]. case_if; (eapply balanced_same; [..|exact Hb]; done).
  - unfold st30p_rx_put_frame. case_if; [done|]. case_if; [done|]. zbool.
    eapply balanced_same; [| |apply r30_balanced_back; [eassumption|exact Hc]]; done.
  - unfold st30p_rx_put_frame_abort. case_if; [done|]. case_if; [done|]. zbool. by apply r30_balanced_back.
  - unfold st30p_rx_wake_block. case_if; [done|]. cbn. case_if; [|done]. by apply r30_balanced_note.
  - unfold st30p_rx_set_block_timeout. by case_if.
  - unfold st30p_rx_reset_session_stats. by case_if.
  - unfold rx_st30p_stat. by case_if.
  - unfold st30p_rx_free_begin. case_if; [done|]. by apply r30_balanced_note.
Qed.

(** Whatever happens to a session, a buffer it took from the transport is in exactly one
    slot or went back exactly once. *)
Theorem st30p_rx_buffers_balance app ops f :
  r30_session app -> r30_session f ->
  let c := f (st30p_rx_create app ops) in
  rx_accepted (r30_trace c) ≡ₚ rx_returned (r30_trace c) ++ omap r30_buffer (r30_framebuffs c).
Proof.
  intros Ha Hf c. assert (xc_balanced c) as H.
  { apply r30_session_balanced; [done|]. unfold st30p_rx_create. set (c0 := mk_st30p_rx_ctx _ _ _ _ _ _ _ _ _ _ _ _ _ _ _ _ _).
    assert (xc_balanced c0) as H0.
    { unfold xc_balanced, rx_ledger. cbn. unfold rx_st30p_init_fbs.
      induction (Z.to_nat (o30_framebuff_cnt ops)); done. }
    destruct (r30_block_get c0); [done|]. apply r30_balanced_notify; [by apply r30_session_balanced|done]. }
  unfold xc_balanced, rx_ledger in H. rewrite omap_id_fmap in H. exact H.
Qed.
