(* ===== verification/PipelineRx40.v ===== *)
(** The frame slots of the ST 2110-40 receive pipeline,
    lib/src/st2110/pipeline/st40_pipeline_rx.c: the transport hands over assembled
    ancillary frames ([rx_st40p_frame_ready]), the application takes them
    ([st40p_rx_get_frame]) and puts them back ([st40p_rx_put_frame]). The words stay in the
    buffer of the transport, the table of entries is copied. The scan, the claim and the
    blocking get are those of [RxRing]. [app] is what the application does to the session
    while [notify_frame_available] runs. *)
From S2P Require Import Prelude Fmt Anc TxCommon RxRing RxAnc.

Inductive st40p_rx_frame_status := ST40P_RX_FRAME_FREE | ST40P_RX_FRAME_READY | ST40P_RX_FRAME_IN_USER.
#[export] Instance st40p_rx_frame_status_eq : EqDecision st40p_rx_frame_status.
Proof. solve_decision. Defined.

(** [struct st40_rx_frame_meta]; [meta_num] is the length of [ri_meta]. *)
Record st40_rx_frame_meta := mk_st40_rx_meta {
  ri_tfmt : st10_timestamp_fmt;
  ri_timestamp : Z;
  ri_timestamp_first_pkt : Z;
  ri_rtp_timestamp : Z;
  ri_pkts_total : Z;
  ri_pkts_recv : list Z;
  ri_port_seq_lost : list Z;
  ri_port_seq_discont : list bool;
  ri_seq_lost : Z;
  ri_seq_discont : bool;
  ri_rtp_marker : bool;
  ri_interlaced : bool;
  ri_second_field : bool;
  ri_meta : list st40_meta;
  ri_udw_buffer_fill : Z;
  ri_status : st_frame_status;
}.

(** [struct st40_frame_info]; [fi_meta] is the array of the slot that [meta] points to. *)
Record st40_frame_info := mk_st40_frame_info {
  fi_addr : option Z;
  fi_udw_buffer_size : Z;
  fi_udw_buffer_fill : Z;
  fi_meta : list st40_meta;
  fi_meta_num : Z;
  fi_pkts_total : Z;
  fi_pkts_recv : list Z;
  fi_port_seq_lost : list Z;
  fi_port_seq_discont : list bool;
  fi_seq_lost : Z;
  fi_seq_discont : bool;
  fi_rtp_marker : bool;
  fi_interlaced : bool;
  fi_second_field : bool;
  fi_tfmt : st10_timestamp_fmt;
  fi_rtp_timestamp : Z;
  fi_timestamp : Z;
  fi_receive_timestamp : Z;
  fi_epoch : Z;
  fi_status : st_frame_status;
}.
#[export] Instance eta_st40_frame_info : Settable st40_frame_info := fun f =>
  mk_st40_frame_info (fi_addr f) (fi_udw_buffer_size f) (fi_udw_buffer_fill f) (fi_meta f) (fi_meta_num f)
    (fi_pkts_total f) (fi_pkts_recv f) (fi_port_seq_lost f) (fi_port_seq_discont f) (fi_seq_lost f) (fi_seq_discont f)
    (fi_rtp_marker f) (fi_interlaced f) (fi_second_field f) (fi_tfmt f) (fi_rtp_timestamp f) (fi_timestamp f)
    (fi_receive_timestamp f) (fi_epoch f) (fi_status f).

Record st40p_rx_frame := mk_st40p_rx_frame { r40_stat : st40p_rx_frame_status; r40_frame : st40_frame_info }.
#[export] Instance eta_st40p_rx_frame : Settable st40p_rx_frame := fun fb => mk_st40p_rx_frame (r40_stat fb) (r40_frame fb).

(** The fields of [st40p_rx_ops] that are consulted. *)
Record st40p_rx_ops := mk_st40p_rx_ops {
  o40_framebuff_cnt : Z;
  o40_max_udw_buff_size : Z;
  o40_notify_frame_available : bool;
  o40_flags : Z;
}.
Definition ST40P_RX_FLAG_BLOCK_GET : Z := Z.shiftl 1 15.

Record st40p_rx_ctx := mk_st40p_rx_ctx {
  r40_destroying : bool;
  r40_ops : st40p_rx_ops;
  r40_producer_idx : nat;
  r40_consumer_idx : nat;
  r40_framebuffs : list st40p_rx_frame;
  r40_ready : bool;
  r40_block_get : bool;
  r40_block_timeout_ns : Z;
  r40_wake_pending : bool;
  r40_stat_get_frame_try : Z;
  r40_stat_get_frame_succ : Z;
  r40_stat_put_frame : Z;
  r40_stat_busy : Z;
  r40_frames_received : Z;
  r40_frames_dropped : Z;
  r40_frames_corrupted : Z;
  r40_trace : list rx_event;
}.
#[export] Instance eta_st40p_rx_ctx : Settable st40p_rx_ctx := fun c =>
  mk_st40p_rx_ctx (r40_destroying c) (r40_ops c) (r40_producer_idx c) (r40_consumer_idx c) (r40_framebuffs c) (r40_ready c)
    (r40_block_get c) (r40_block_timeout_ns c) (r40_wake_pending c) (r40_stat_get_frame_try c) (r40_stat_get_frame_succ c)
    (r40_stat_put_frame c) (r40_stat_busy c) (r40_frames_received c) (r40_frames_dropped c) (r40_frames_corrupted c)
    (r40_trace c).

Definition st40_meta_zero : st40_meta := mk_meta 0 0 0 0 0 0 0 0 0.
(** A slot as [rx_st40p_init_fbs] leaves it, in zeroed memory. *)
Definition st40_frame_info_zero (max_udw_buff_size : Z) : st40_frame_info :=
  mk_st40_frame_info None max_udw_buff_size 0 (replicate (Z.to_nat ST40_MAX_META) st40_meta_zero) 0 0 [0; 0] [0; 0]
    [false; false] 0 false false false false ST10_TIMESTAMP_FMT_TAI 0 0 0 0 ST_FRAME_STATUS_COMPLETE.
Definition r40_at (c : st40p_rx_ctx) (i : nat) : st40p_rx_frame :=
  default (mk_st40p_rx_frame ST40P_RX_FRAME_FREE (st40_frame_info_zero 0)) (r40_framebuffs c !! i).
Definition r40_upd (i : nat) (g : st40p_rx_frame -> st40p_rx_frame) (c : st40p_rx_ctx) : st40p_rx_ctx :=
  c <| r40_framebuffs ::= alter g i |>.
Definition r40_emit (e : rx_event) (c : st40p_rx_ctx) : st40p_rx_ctx := c <| r40_trace ::= fun t => t ++ [e] |>.
Definition r40_set_stat (i : nat) (s : st40p_rx_frame_status) : st40p_rx_ctx -> st40p_rx_ctx :=
  r40_upd i (fun fb => fb <| r40_stat := s |>).
Definition r40_is (s : st40p_rx_frame_status) (fb : st40p_rx_frame) : bool := bool_decide (r40_stat fb = s).

Definition rx_st40p_next_idx (c : st40p_rx_ctx) (idx : nat) : nat := ring_next_idx (length (r40_framebuffs c)) idx.

Definition rx_st40p_block_wake (c : st40p_rx_ctx) : st40p_rx_ctx := r40_emit RvWake (c <| r40_wake_pending := true |>).

Definition rx_st40p_next_available (c : st40p_rx_ctx) (idx_start : nat) (desired : st40p_rx_frame_status) : option nat :=
  ring_next_available (r40_is desired) (r40_framebuffs c) idx_start.

(** The start index is an argument of the C function: it is read once. *)
Definition rx_st40p_claim_available (idx_start : nat) (desired claimed : st40p_rx_frame_status)
    (env : list (st40p_rx_ctx -> st40p_rx_ctx)) (c : st40p_rx_ctx) : option nat * st40p_rx_ctx :=
  ring_claim (fun c => rx_st40p_next_available c idx_start desired) (fun i c => r40_is desired (r40_at c i))
    (fun i => r40_set_stat i claimed) env c.

(** [memcpy(frame_info->meta, meta->meta, sizeof(struct st40_meta) * copy)] *)
Definition r40_copy_meta (metas dst : list st40_meta) : list st40_meta :=
  let copy := Z.to_nat (if arr_len metas >? ST40_MAX_META then ST40_MAX_META else arr_len metas) in
  take copy metas ++ drop copy dst.

(** What [rx_st40p_frame_ready] writes into the frame of a slot. *)
Definition r40_fill (addr : Z) (meta : st40_rx_frame_meta) (f : st40_frame_info) : st40_frame_info :=
  let f := f <| fi_addr := Some addr |> <| fi_udw_buffer_fill := ri_udw_buffer_fill meta |>
             <| fi_meta_num := arr_len (ri_meta meta) |> in
  let f := if c_true (arr_len (ri_meta meta)) then f <| fi_meta ::= r40_copy_meta (ri_meta meta) |> else f in
  f <| fi_pkts_total := ri_pkts_total meta |> <| fi_pkts_recv := ri_pkts_recv meta |>
    <| fi_port_seq_lost := ri_port_seq_lost meta |> <| fi_port_seq_discont := ri_port_seq_discont meta |>
    <| fi_seq_lost := ri_seq_lost meta |> <| fi_seq_discont := ri_seq_discont meta |> <| fi_rtp_marker := ri_rtp_marker meta |>
    <| fi_interlaced := ri_interlaced meta |> <| fi_second_field := ri_second_field meta |> <| fi_tfmt := ri_tfmt meta |>
    <| fi_rtp_timestamp := ri_rtp_timestamp meta |> <| fi_timestamp := ri_timestamp meta |>
    <| fi_receive_timestamp := ri_timestamp_first_pkt meta |> <| fi_epoch := 0 |> <| fi_status := ri_status meta |>.

(** What a put resets, and what an abort does; the address goes with the buffer. *)
Definition r40_reset (f : st40_frame_info) : st40_frame_info :=
  f <| fi_addr := None |> <| fi_meta_num := 0 |> <| fi_udw_buffer_fill := 0 |> <| fi_pkts_total := 0 |> <| fi_pkts_recv := [0; 0] |>
    <| fi_port_seq_lost := [0; 0] |> <| fi_port_seq_discont := [false; false] |> <| fi_seq_discont := false |>
    <| fi_seq_lost := 0 |> <| fi_rtp_marker := false |> <| fi_receive_timestamp := 0 |> <| fi_second_field := false |>
    <| fi_interlaced := false |>.
Definition r40_reset_abort (f : st40_frame_info) : st40_frame_info :=
  f <| fi_addr := None |> <| fi_meta_num := 0 |> <| fi_udw_buffer_fill := 0 |>.

Section Operations.
Context (app : st40p_rx_ctx -> st40p_rx_ctx).

Definition rx_st40p_notify_frame_available (c : st40p_rx_ctx) : st40p_rx_ctx :=
  let c := if o40_notify_frame_available (r40_ops c) then app (r40_emit RvAvailable c) else c in
  if r40_block_get c then r40_emit RvSignal c else c.

Definition rx_st40p_frame_ready (addr : Z) (meta : st40_rx_frame_meta) (c : st40p_rx_ctx) : Z * st40p_rx_ctx :=
  if negb (r40_ready c) then (- EBUSY, c)
  else
    match rx_st40p_next_available c (r40_producer_idx c) ST40P_RX_FRAME_FREE with
    | None =>
        (- EBUSY, c <| r40_stat_busy ::= fun n => u32 (n + 1) |> <| r40_frames_dropped ::= fun n => u64 (n + 1) |>)
    | Some i =>
        let c := r40_upd i (fun fb => fb <| r40_frame ::= r40_fill addr meta |>
                                         <| r40_stat := ST40P_RX_FRAME_READY |>) c in
        let c := r40_emit (RvAccept addr) c in
        let c := c <| r40_producer_idx := rx_st40p_next_idx c i |> <| r40_frames_received ::= fun n => u64 (n + 1) |> in
        let c := if ri_seq_discont meta then c <| r40_frames_corrupted ::= fun n => u64 (n + 1) |> else c in
        (0, rx_st40p_notify_frame_available c)
    end.

(** The claim of [st40p_rx_get_frame], with the blocking wait. *)
Definition r40_get_claim (env : list (st40p_rx_ctx -> st40p_rx_ctx)) (waits : list (rx_wait st40p_rx_ctx))
    (unlocked : st40p_rx_ctx -> st40p_rx_ctx) (again : list (st40p_rx_ctx -> st40p_rx_ctx)) (c : st40p_rx_ctx)
    : option nat * st40p_rx_ctx :=
  rx_block_get (fun env c => rx_st40p_claim_available (r40_consumer_idx c) ST40P_RX_FRAME_READY ST40P_RX_FRAME_IN_USER env c)
    r40_wake_pending r40_destroying (fun c => c <| r40_wake_pending := false |>) r40_block_get env waits unlocked again c.

Definition st40p_rx_get_frame (env : list (st40p_rx_ctx -> st40p_rx_ctx)) (waits : list (rx_wait st40p_rx_ctx))
    (unlocked : st40p_rx_ctx -> st40p_rx_ctx) (again : list (st40p_rx_ctx -> st40p_rx_ctx)) (c : st40p_rx_ctx)
    : option nat * st40p_rx_ctx :=
  if r40_destroying c then (None, c)
  else if negb (r40_ready c) then (None, c)
  else
    let c := c <| r40_stat_get_frame_try ::= fun n => u32 (n + 1) |> in
    match r40_get_claim env waits unlocked again c with
    | (None, c) => (None, c)
    | (Some i, c) =>
        let c := c <| r40_consumer_idx := rx_st40p_next_idx c i |> in
        let c := c <| r40_stat_get_frame_succ ::= fun n => u32 (n + 1) |> in
        (Some i, r40_emit (RvGot i) c)
    end.

(** [st40_rx_put_framebuff(ctx->transport, frame_info->udw_buff_addr)], when there is one. *)
Definition r40_give_back (i : nat) (c : st40p_rx_ctx) : st40p_rx_ctx :=
  match fi_addr (r40_frame (r40_at c i)) with
  | Some addr => r40_emit (RvBack addr) c
  | None => c
  end.

Definition st40p_rx_put_frame (i : nat) (c : st40p_rx_ctx) : Z * st40p_rx_ctx :=
  if r40_destroying c then (- EIO, c)
  else if negb (r40_is ST40P_RX_FRAME_IN_USER (r40_at c i)) then (- EIO, c)
  else
    let c := r40_upd i (fun fb => fb <| r40_frame ::= r40_reset |> <| r40_stat := ST40P_RX_FRAME_FREE |>) (r40_give_back i c) in
    (0, c <| r40_stat_put_frame ::= fun n => u32 (n + 1) |>).

Definition st40p_rx_put_frame_abort (i : nat) (c : st40p_rx_ctx) : Z * st40p_rx_ctx :=
  if r40_destroying c then (- EIO, c)
  else if negb (r40_is ST40P_RX_FRAME_IN_USER (r40_at c i)) then (- EIO, c)
  else
    (0, r40_upd i (fun fb => fb <| r40_frame ::= r40_reset_abort |> <| r40_stat := ST40P_RX_FRAME_FREE |>) (r40_give_back i c)).

(** What [st40p_rx_create] makes of the ops, when memory and transport are there. *)
Definition rx_st40p_init_fbs (ops : st40p_rx_ops) : list st40p_rx_frame :=
  replicate (Z.to_nat (o40_framebuff_cnt ops))
    (mk_st40p_rx_frame ST40P_RX_FRAME_FREE (st40_frame_info_zero (o40_max_udw_buff_size ops))).

Definition st40p_rx_create (ops : st40p_rx_ops) : st40p_rx_ctx :=
  let c := mk_st40p_rx_ctx false ops 0 0 (rx_st40p_init_fbs ops) true (has_flag (o40_flags ops) ST40P_RX_FLAG_BLOCK_GET)
             NS_PER_S false 0 0 0 0 0 0 0 [] in
  if r40_block_get c then c else rx_st40p_notify_frame_available c.

Definition st40p_rx_wake_block (c : st40p_rx_ctx) : Z * st40p_rx_ctx :=
  if r40_destroying c then (- EIO, c) else (0, if r40_block_get c then rx_st40p_block_wake c else c).

Definition st40p_rx_set_block_timeout (timedwait_ns : Z) (c : st40p_rx_ctx) : Z * st40p_rx_ctx :=
  if r40_destroying c then (- EIO, c) else (0, c <| r40_block_timeout_ns := timedwait_ns |>).

Definition st40p_rx_max_udw_buff_size (c : st40p_rx_ctx) : Z := if r40_destroying c then 0 else o40_max_udw_buff_size (r40_ops c).

Definition st40p_rx_get_udw_buff_addr (idx : nat) (c : st40p_rx_ctx) : option Z :=
  if r40_destroying c then None else r40_framebuffs c !! idx ≫= fun fb => fi_addr (r40_frame fb).

(** [transport_ret] is the answer of [st40_rx_reset_session_stats]. *)
Definition st40p_rx_reset_session_stats (transport_ret : Z) (c : st40p_rx_ctx) : Z * st40p_rx_ctx :=
  if r40_destroying c then (- EIO, c)
  else (transport_ret, c <| r40_frames_received := 0 |> <| r40_frames_dropped := 0 |> <| r40_frames_corrupted := 0 |>).

Definition rx_st40p_stat (c : st40p_rx_ctx) : Z * st40p_rx_ctx :=
  if negb (r40_ready c) then (- EBUSY, c)
  else
    (0, c <| r40_stat_get_frame_try := 0 |> <| r40_stat_get_frame_succ := 0 |> <| r40_stat_put_frame := 0 |>
          <| r40_stat_busy := 0 |>).

(** The start of [st40p_rx_free]: the gate closes and sleepers are woken. What follows runs
    after the drain, when no caller is left. *)
Definition st40p_rx_free_begin (c : st40p_rx_ctx) : Z * st40p_rx_ctx :=
  if r40_destroying c then (- EBUSY, c) else (0, rx_st40p_block_wake (c <| r40_destroying := true |>)).

End Operations.

(** ** The pipeline as a queue *)

(** The application looks at the first [meta_num] entries. *)
Definition r40_visible (f : st40_frame_info) : st40_frame_info :=
  f <| fi_meta ::= take (Z.to_nat (fi_meta_num f)) |>.

Definition r40_slot (fb : st40p_rx_frame) : rx_slot st40_frame_info :=
  match r40_stat fb with
  | ST40P_RX_FRAME_FREE => RFree
  | ST40P_RX_FRAME_READY => RReady (r40_visible (r40_frame fb))
  | ST40P_RX_FRAME_IN_USER => RUser (r40_visible (r40_frame fb))
  end.

(** The frame made from a buffer of the transport and its meta data. *)
Definition st40_seen (ops : st40p_rx_ops) (addr : Z) (meta : st40_rx_frame_meta) : st40_frame_info :=
  mk_st40_frame_info (Some addr) (o40_max_udw_buff_size ops) (ri_udw_buffer_fill meta)
    (take (Z.to_nat ST40_MAX_META) (ri_meta meta)) (arr_len (ri_meta meta)) (ri_pkts_total meta) (ri_pkts_recv meta)
    (ri_port_seq_lost meta) (ri_port_seq_discont meta) (ri_seq_lost meta) (ri_seq_discont meta) (ri_rtp_marker meta)
    (ri_interlaced meta) (ri_second_field meta) (ri_tfmt meta) (ri_rtp_timestamp meta) (ri_timestamp meta)
    (ri_timestamp_first_pkt meta) 0 (ri_status meta).

(** A slot of a session: the size and the array stay, and a slot in use has a buffer. *)
Definition r40_slot_ok (ops : st40p_rx_ops) (fb : st40p_rx_frame) : Prop :=
  let f := r40_frame fb in
  fi_udw_buffer_size f = o40_max_udw_buff_size ops /\ length (fi_meta f) = Z.to_nat ST40_MAX_META
  /\ (r40_stat fb <> ST40P_RX_FRAME_FREE -> is_Some (fi_addr f)).

Definition r40_open (ops : st40p_rx_ops) (c : st40p_rx_ctx) : Prop :=
  r40_ops c = ops /\ r40_ready c = true /\ r40_destroying c = false /\ Forall (r40_slot_ok ops) (r40_framebuffs c).

#[export] Instance st40p_rx_pipeline : RxPipeline st40p_rx_ctx st40_rx_frame_meta st40_frame_info := {
  rx_frame_ready := rx_st40p_frame_ready id;
  rx_get_frame := st40p_rx_get_frame [] [] id [];
  rx_put_frame := st40p_rx_put_frame;
  rx_frame c i := r40_visible (r40_frame (r40_at c i));
  rx_trace := r40_trace;
}.

Lemma r40_is_free fb : r40_is ST40P_RX_FRAME_FREE fb = rslot_free (r40_slot fb).
Proof. unfold r40_is, r40_slot. by destruct (r40_stat fb). Qed.
Lemma r40_is_ready fb : r40_is ST40P_RX_FRAME_READY fb = rslot_ready (r40_slot fb).
Proof. unfold r40_is, r40_slot. by destruct (r40_stat fb). Qed.
Lemma r40_is_user fb : r40_is ST40P_RX_FRAME_IN_USER fb = true <-> r40_slot fb = RUser (r40_visible (r40_frame fb)).
Proof. unfold r40_is, r40_slot. rewrite bool_decide_eq_true. by destruct (r40_stat fb). Qed.

Lemma r40_at_lookup c i fb : r40_framebuffs c !! i = Some fb -> r40_at c i = fb.
Proof. unfold r40_at. by intros ->. Qed.

Lemma r40_claim c :
  rx_st40p_claim_available (r40_consumer_idx c) ST40P_RX_FRAME_READY ST40P_RX_FRAME_IN_USER [] c
  = match rx_st40p_next_available c (r40_consumer_idx c) ST40P_RX_FRAME_READY with
    | Some i => (Some i, r40_set_stat i ST40P_RX_FRAME_IN_USER c)
    | None => (None, c)
    end.
Proof. unfold rx_st40p_claim_available. cbn [ring_claim]. by destruct rx_st40p_next_available. Qed.

(** Two states a client of the queue cannot tell apart. *)
Definition r40_same (c c' : st40p_rx_ctx) : Prop :=
  r40_ops c' = r40_ops c /\ r40_ready c' = r40_ready c /\ r40_destroying c' = r40_destroying c
  /\ r40_framebuffs c' = r40_framebuffs c /\ r40_producer_idx c' = r40_producer_idx c
  /\ r40_consumer_idx c' = r40_consumer_idx c /\ rx_returned (r40_trace c') = rx_returned (r40_trace c).

Lemma r40_notify_same c : r40_same c (rx_st40p_notify_frame_available id c).
Proof.
  unfold rx_st40p_notify_frame_available, r40_same, rx_returned, id.
  destruct (o40_notify_frame_available _); destruct (r40_block_get _); cbn; rewrite ?omap_app; cbn; rewrite ?app_nil_r; done.
Qed.

Lemma r40_same_open ops c c' : r40_same c c' -> r40_open ops c -> r40_open ops c'.
Proof. unfold r40_open. intros (-> & -> & -> & -> & _). done. Qed.

Lemma r40_copy_meta_length metas dst :
  length dst = Z.to_nat ST40_MAX_META -> length (r40_copy_meta metas dst) = Z.to_nat ST40_MAX_META.
Proof. intros H. unfold r40_copy_meta. rewrite length_app, length_take, length_drop, H. unfold arr_len. case_if; zbool; lia. Qed.

Lemma r40_copy_meta_visible metas dst :
  length dst = Z.to_nat ST40_MAX_META -> take (length metas) (r40_copy_meta metas dst) = take (Z.to_nat ST40_MAX_META) metas.
Proof.
  intros H. unfold r40_copy_meta. unfold arr_len. case_if; zbool.
  - rewrite drop_ge by lia. rewrite app_nil_r, take_take. f_equal. lia.
  - rewrite Nat2Z.id, firstn_all, take_app_length. symmetry. apply take_ge. lia.
Qed.

(** A filled slot keeps its size and array and shows the frame. *)
Lemma r40_fill_ok ops a m fb s :
  r40_slot_ok ops fb -> r40_slot_ok ops (mk_st40p_rx_frame s (r40_fill a m (r40_frame fb))).
Proof.
  intros (E1 & E2 & _). unfold r40_slot_ok, r40_fill. destruct (c_true _); cbn; split_and!; try done. by apply r40_copy_meta_length.
Qed.

Lemma r40_fill_fields a m f : r40_fill a m f =
  mk_st40_frame_info (Some a) (fi_udw_buffer_size f) (ri_udw_buffer_fill m)
    (if c_true (arr_len (ri_meta m)) then r40_copy_meta (ri_meta m) (fi_meta f) else fi_meta f)
    (arr_len (ri_meta m)) (ri_pkts_total m) (ri_pkts_recv m)
    (ri_port_seq_lost m) (ri_port_seq_discont m) (ri_seq_lost m) (ri_seq_discont m) (ri_rtp_marker m)
    (ri_interlaced m) (ri_second_field m) (ri_tfmt m) (ri_rtp_timestamp m) (ri_timestamp m)
    (ri_timestamp_first_pkt m) 0 (ri_status m).
Proof. unfold r40_fill. by destruct (c_true _). Qed.

Lemma r40_fill_seen ops a m fb : r40_slot_ok ops fb -> r40_visible (r40_fill a m (r40_frame fb)) = st40_seen ops a m.
Proof.
  intros (E1 & E2 & _). rewrite r40_fill_fields. unfold st40_seen. rewrite <- E1. set (metas := if c_true _ then _ else _).
  assert (take (Z.to_nat (arr_len (ri_meta m))) metas = take (Z.to_nat ST40_MAX_META) (ri_meta m)) as <-; [|done].
  unfold metas. destruct (c_true _) eqn:Ec; unfold arr_len in *; rewrite Nat2Z.id.
  - by apply r40_copy_meta_visible.
  - unfold c_true in Ec. zbool. destruct (ri_meta m); [by rewrite take_nil|cbn in Ec; lia].
Qed.

#[export, refine] Instance st40p_rx_laws : RxPipelineLaws st40p_rx_ctx st40_rx_frame_meta st40_frame_info st40p_rx_ops := {
  rx_open := r40_open;
  rx_slots c := r40_slot <$> r40_framebuffs c;
  rx_in := r40_producer_idx;
  rx_out := r40_consumer_idx;
  rx_seen := st40_seen;
  rx_addr f := default 0 (fi_addr f);
}.
Proof.
  - done.
  - intros ops a m c (Ho & Hr & Hd & Hs). cbn [rx_frame_ready st40p_rx_pipeline rx_trace].
    rewrite (next_available_fmap _ (r40_is ST40P_RX_FRAME_FREE)) by apply r40_is_free.
    unfold rx_st40p_frame_ready, rx_st40p_next_available. rewrite Hr. cbn [negb].
    destruct (ring_next_available _ _ _) as [i|] eqn:E; [|by split_and!].
    destruct (next_available_some _ _ _ _ E) as (fb & Hfb & _). pose proof (Forall_lookup_1 _ _ _ _ Hs Hfb) as Hok.
    set (c1 := if ri_seq_discont m then _ else _).
    assert (r40_open ops c1) as Hc1.
    { split_and!; try (unfold c1; by case_if). assert (r40_framebuffs c1 = alter (fun fb => fb <| r40_frame ::= r40_fill a m |>
        <| r40_stat := ST40P_RX_FRAME_READY |>) i (r40_framebuffs c)) as -> by (unfold c1; by case_if).
      apply Forall_alter_at; [done|]. intros x _. apply r40_fill_ok. }
    pose proof (r40_notify_same c1) as Hsame. split; [by eapply r40_same_open|].
    destruct Hsame as (_ & _ & _ & -> & -> & -> & ->). rewrite length_fmap.
    unfold c1, rx_st40p_next_idx. destruct (ri_seq_discont m); cbn; rewrite length_alter; split_and!; try done.
    + unfold rx_returned. rewrite omap_app. cbn. by rewrite app_nil_r.
    + erewrite fmap_alter_insert by exact Hfb. f_equal. unfold r40_slot. cbn. f_equal. by apply r40_fill_seen.
    + unfold rx_returned. rewrite omap_app. cbn. by rewrite app_nil_r.
    + erewrite fmap_alter_insert by exact Hfb. f_equal. unfold r40_slot. cbn. f_equal. by apply r40_fill_seen.
  - intros ops c (Ho & Hr & Hd & Hs). cbn [rx_get_frame st40p_rx_pipeline rx_trace rx_frame].
    rewrite (next_available_fmap _ (r40_is ST40P_RX_FRAME_READY)) by apply r40_is_ready.
    unfold st40p_rx_get_frame. rewrite Hd, Hr. cbn [negb]. set (c1 := _ <| r40_stat_get_frame_try ::= _ |>).
    assert (r40_same c c1) as Hsame by (by split_and!).
    unfold r40_get_claim. destruct (ring_next_available _ _ _) as [i|] eqn:E.
    + destruct (next_available_some _ _ _ _ E) as (fb & Hfb & Hst%bool_decide_eq_true). unfold rx_block_get. rewrite r40_claim.
      change (rx_st40p_next_available c1 (r40_consumer_idx c1) ST40P_RX_FRAME_READY)
        with (ring_next_available (r40_is ST40P_RX_FRAME_READY) (r40_framebuffs c) (r40_consumer_idx c)). rewrite E.
      set (c2 := _ <| r40_stat_get_frame_succ ::= _ |>).
      assert (r40_framebuffs c2 = alter (fun fb => fb <| r40_stat := ST40P_RX_FRAME_IN_USER |>) i (r40_framebuffs c)) as Ef by done.
      assert (r40_same c2 (r40_emit (RvGot i) c2)) as H3.
      { unfold r40_same, rx_returned. cbn. rewrite omap_app. cbn. by rewrite app_nil_r. }
      split; [eapply r40_same_open; [exact H3|]|].
      { split_and!; try done. rewrite Ef. apply Forall_alter_at; [done|]. intros x Hx (F1 & F2 & F6).
        split_and!; try done. intros _. apply F6. congruence. }
      destruct H3 as (_ & _ & _ & E1 & -> & -> & ->). rewrite E1, Ef, length_fmap. split_and!; try done.
      { unfold c2, rx_st40p_next_idx. cbn. by rewrite length_alter. }
      intros f. rewrite list_lookup_fmap, Hfb. cbn. unfold r40_slot at 1. rewrite Hst. intros [= <-]. split.
      * by erewrite fmap_alter_insert by exact Hfb.
      * unfold r40_at. by rewrite E1, Ef, list_lookup_alter_eq, Hfb.
    + destruct (rx_block_get_idle (fun env c => rx_st40p_claim_available (r40_consumer_idx c) ST40P_RX_FRAME_READY ST40P_RX_FRAME_IN_USER env c)
        r40_wake_pending r40_destroying (fun c => c <| r40_wake_pending := false |>) r40_block_get c1) as (c' & -> & Hc');
        [rewrite r40_claim; change (rx_st40p_next_available _ _ _) with
           (ring_next_available (r40_is ST40P_RX_FRAME_READY) (r40_framebuffs c) (r40_consumer_idx c)); by rewrite E..|].
      destruct Hc' as [-> | ->]; by split_and!.
  - intros ops i f c (Ho & Hr & Hd & Hs) Hi. cbn [rx_put_frame st40p_rx_pipeline rx_trace].
    rewrite list_lookup_fmap in Hi. destruct (r40_framebuffs c !! i) as [fb|] eqn:Hfb; [|done]. cbn in Hi. injection Hi as Hi.
    pose proof (Forall_lookup_1 _ _ _ _ Hs Hfb) as (_ & _ & F6).
    assert (r40_stat fb = ST40P_RX_FRAME_IN_USER /\ r40_visible (r40_frame fb) = f) as [Est <-].
    { unfold r40_slot in Hi. destruct (r40_stat fb); try done. by injection Hi. }
    unfold st40p_rx_put_frame, r40_give_back. rewrite Hd, (r40_at_lookup c i fb Hfb). unfold r40_is. rewrite Est. cbn [negb bool_decide].
    rewrite bool_decide_eq_true_2 by done. cbn [negb]. destruct F6 as [a Ea]; [congruence|]. rewrite Ea. cbn. split_and!; try done.
    + split_and!; try done. apply Forall_alter_at; [done|]. intros x _ (G1 & G2 & G3). by split_and!.
    + by erewrite fmap_alter_insert by exact Hfb.
    + unfold rx_returned. rewrite omap_app. change (fi_addr (r40_visible (r40_frame fb))) with (fi_addr (r40_frame fb)). by rewrite Ea.
Defined.

(** The ancillary receive pipeline is a bounded queue. For an application that puts its
    frames back in the order it got them, every answer of a session and every buffer given
    back to the transport is that of a queue with as many places as the session has
    frames: frames arrive in the order in which the transport completed them, with the
    entries and the meta data the transport gave, a frame is refused exactly when the application holds or
    has waiting as many frames as there are, and a buffer goes back when its frame is put. *)
Theorem st40p_rx_refines_queue ops l :
  0 < o40_framebuff_cnt ops ->
  let '(answers, s) := rx_client l (st40p_rx_create id ops, []) in
  let '(answers', q) := rx_queue_run (Z.to_nat (o40_framebuff_cnt ops)) (st40_seen ops) l (mk_rx_queue [] [] []) in
  answers = answers' /\ rx_returned (r40_trace s.1) = (fun f => default 0 (fi_addr f)) <$> rq_back q.
Proof.
  intros Hcnt. pose proof (rx_fresh_refines ops l (st40p_rx_create id ops)) as L. cbn [rx_slots st40p_rx_laws] in L.
  assert (r40_framebuffs (st40p_rx_create id ops) = rx_st40p_init_fbs ops
    /\ r40_open ops (st40p_rx_create id ops) /\ r40_producer_idx (st40p_rx_create id ops) = 0%nat
    /\ r40_consumer_idx (st40p_rx_create id ops) = 0%nat /\ rx_returned (r40_trace (st40p_rx_create id ops)) = []) as (Ef & Ho & Ei & Ec & Et).
  { unfold st40p_rx_create. set (c := mk_st40p_rx_ctx _ _ _ _ _ _ _ _ _ _ _ _ _ _ _ _ _).
    assert (r40_open ops c) as Hc.
    { split_and!; try done. apply Forall_replicate. by split_and!. }
    destruct (r40_block_get c); [by split_and!|]. pose proof (r40_notify_same c) as Hsame.
    destruct Hsame as (? & ? & ? & ? & ? & ? & ?) eqn:E. split_and!; try done. by eapply r40_same_open. }
  rewrite Ef, length_fmap in L. unfold rx_st40p_init_fbs in L. rewrite length_replicate in L. apply L. split; [done|]. cbn [rx_slots st40p_rx_laws rx_in rx_out].
  rewrite Ef. split_and!; try done.
  - unfold rx_st40p_init_fbs. destruct (Z.to_nat _) eqn:E; [lia|done].
  - apply Forall_fmap, Forall_replicate. done.
Qed.

Definition ex_r40_ops : st40p_rx_ops := mk_st40p_rx_ops 3 1024 true 0.
Definition ex_r40_meta (ts : Z) : st40_rx_frame_meta :=
  mk_st40_rx_meta ST10_TIMESTAMP_FMT_MEDIA_CLK ts 5 ts 1 [1; 0] [0; 0] [false; false] 0 false true false false
    [mk_meta 0 9 0 0 0 0x61 1 4 0] 4 ST_FRAME_STATUS_COMPLETE.

Lemma st40p_rx_refines_queue_witness :
  let l := [RxReady 100 (ex_r40_meta 0); RxReady 200 (ex_r40_meta 48); RxGet; RxReady 300 (ex_r40_meta 96);
            RxReady 400 (ex_r40_meta 144); RxPut; RxReady 400 (ex_r40_meta 144); RxGet; RxGet; RxGet; RxGet] in
  let '(answers, s) := rx_client l (st40p_rx_create id ex_r40_ops, []) in
  let '(answers', q) := rx_queue_run 3 (st40_seen ex_r40_ops) l (mk_rx_queue [] [] []) in
  (answers = answers' /\ rx_returned (r40_trace s.1) = (fun f => default 0 (fi_addr f)) <$> rq_back q)
  /\ rx_returned (r40_trace s.1) = [100].
Proof.
  intros l. pose proof (st40p_rx_refines_queue ex_r40_ops l eq_refl) as H. change (Z.to_nat (o40_framebuff_cnt ex_r40_ops)) with 3%nat in H.
  destruct (rx_client l (st40p_rx_create id ex_r40_ops, [])) as [answers s] eqn:E1.
  destruct (rx_queue_run 3 (st40_seen ex_r40_ops) l (mk_rx_queue [] [] [])) as [answers' q] eqn:E2. split; [exact H|].
  destruct H as [_ ->]. revert E2. vm_compute. by intros [= <- <-].
Defined.

(** ** The buffers of the transport *)

(** Everything that can happen to a session, from any thread: calls of the application and
    of the transport, with applications that call back and threads that run between the
    scan and the exchange of a claim or while a blocking get sleeps. *)
Inductive r40_session : (st40p_rx_ctx -> st40p_rx_ctx) -> Prop :=
| r40_s_id : r40_session id
| r40_s_comp f g : r40_session f -> r40_session g -> r40_session (fun c => g (f c))
| r40_s_ready app a m : r40_session app -> r40_session (fun c => (rx_st40p_frame_ready app a m c).2)
| r40_s_get env waits unlocked again :
    (forall f, f ∈ env ++ again -> r40_session f) -> r40_session unlocked ->
    (forall w, w ∈ waits -> r40_session (rw_sleep w)) -> (forall w f, w ∈ waits -> f ∈ rw_races w -> r40_session f) ->
    r40_session (fun c => (st40p_rx_get_frame env waits unlocked again c).2)
| r40_s_put i : r40_session (fun c => (st40p_rx_put_frame i c).2)
| r40_s_abort i : r40_session (fun c => (st40p_rx_put_frame_abort i c).2)
| r40_s_wake : r40_session (fun c => (st40p_rx_wake_block c).2)
| r40_s_timeout ns : r40_session (fun c => (st40p_rx_set_block_timeout ns c).2)
| r40_s_reset ret : r40_session (fun c => (st40p_rx_reset_session_stats ret c).2)
| r40_s_stat : r40_session (fun c => (rx_st40p_stat c).2)
| r40_s_free : r40_session (fun c => (st40p_rx_free_begin c).2).

Definition r40_buffer (fb : st40p_rx_frame) : option Z :=
  match r40_stat fb with ST40P_RX_FRAME_FREE => None | _ => fi_addr (r40_frame fb) end.

#[export] Instance r40_rx_ctx : RxCtx st40p_rx_ctx st40p_rx_frame := {
  xc_fbs := r40_framebuffs; xc_buffer := r40_buffer; xc_trace := r40_trace;
}.

Lemma r40_balanced_note e c : rx_notes [e] -> xc_balanced c -> xc_balanced (r40_emit e c).
Proof. intros He. by apply (balanced_notes _ _ [e]). Qed.

Lemma r40_balanced_claimed i c :
  r40_stat (r40_at c i) = ST40P_RX_FRAME_READY -> xc_balanced c -> xc_balanced (r40_set_stat i ST40P_RX_FRAME_IN_USER c).
Proof.
  intros Hs. apply (balanced_keep _ _ i (fun fb => fb <| r40_stat := ST40P_RX_FRAME_IN_USER |>) []); try done.
  - intros fb Hfb%r40_at_lookup. subst fb. cbn. unfold r40_buffer. cbn. by rewrite Hs.
  - cbn. by rewrite app_nil_r.
Qed.

Lemma r40_balanced_back g i c :
  (forall f, fi_addr (g f) = None) -> r40_is ST40P_RX_FRAME_IN_USER (r40_at c i) = true -> xc_balanced c ->
  xc_balanced (r40_upd i (fun fb => fb <| r40_frame ::= g |> <| r40_stat := ST40P_RX_FRAME_FREE |>) (r40_give_back i c)).
Proof.
  intros Hg. unfold r40_is. rewrite bool_decide_eq_true. unfold r40_give_back, r40_at.
  destruct (r40_framebuffs c !! i) as [fb|] eqn:Hfb; [|done]. cbn. intros Hu.
  eapply (balanced_free _ _ i _ fb); [done| |by destruct (fi_addr _)|]; [done|].
  cbn. unfold r40_buffer. rewrite Hu. destruct (fi_addr _); cbn; by rewrite ?app_nil_r.
Qed.

Lemma r40_balanced_notify app c :
  keeps_inv xc_balanced app -> xc_balanced c -> xc_balanced (rx_st40p_notify_frame_available app c).
Proof.
  intros Happ Hc. unfold rx_st40p_notify_frame_available. assert (forall c, xc_balanced c ->
    xc_balanced (if r40_block_get c then r40_emit RvSignal c else c)) as Hs.
  { intros c1 H1. case_if; [by apply r40_balanced_note|done]. }
  apply Hs. case_if; [|done]. by apply Happ, r40_balanced_note.
Qed.

Lemma r40_balanced_ready app a m c :
  keeps_inv xc_balanced app -> xc_balanced c -> xc_balanced (rx_st40p_frame_ready app a m c).2.
Proof.
  intros Happ Hc. unfold rx_st40p_frame_ready, rx_st40p_next_available. case_if; [done|].
  destruct (ring_next_available _ _ _) as [i|] eqn:Ei; [|done]. cbn [snd]. apply r40_balanced_notify; [done|].
  destruct (next_available_some _ _ _ _ Ei) as (fb & Hfb & Hst%bool_decide_eq_true).
  assert (xc_buffer fb = None) as Hn by (cbn; unfold r40_buffer; by rewrite Hst).
  destruct (ri_seq_discont m); (eapply (balanced_accept c _ i); [exact Hfb|exact Hn|..|exact Hc]; [|reflexivity|reflexivity]);
    (transitivity (fi_addr (r40_fill a m (r40_frame fb))); [done|by rewrite r40_fill_fields]).
Qed.

Lemma r40_balanced_claim idx env c :
  Forall (keeps_inv xc_balanced) env -> xc_balanced c ->
  xc_balanced (rx_st40p_claim_available idx ST40P_RX_FRAME_READY ST40P_RX_FRAME_IN_USER env c).2 /\
  forall i, (rx_st40p_claim_available idx ST40P_RX_FRAME_READY ST40P_RX_FRAME_IN_USER env c).1 = Some i -> True.
Proof.
  intros He Hc. apply (ring_claim_rule xc_balanced (fun _ _ => True)); [|done|done].
  intros i c1 Hb [Hp|Hs]; (split; [|done]); apply r40_balanced_claimed; try done.
  - destruct (next_available_some _ _ _ _ Hp) as (fb & Hfb & Hst%bool_decide_eq_true). by rewrite (r40_at_lookup _ _ _ Hfb).
  - unfold r40_is in Hs. by apply bool_decide_eq_true in Hs.
Qed.

Lemma r40_session_balanced f : r40_session f -> keeps_inv xc_balanced f.
Proof.
  induction 1 as [|f g _ IHf _ IHg|app a m _ IH|env waits unlocked again _ IHe _ IHu _ IHs _ IHr|i|i| |ns|ret| |]; intros c Hc.
  - done.
  - by apply IHg, IHf.
  - by apply r40_balanced_ready.
  - unfold st40p_rx_get_frame. case_if; [done|]. case_if; [done|]. set (c1 := _ <| r40_stat_get_frame_try ::= _ |>).
    assert (xc_balanced (r40_get_claim env waits unlocked again c1).2) as Hb.
    { unfold r40_get_claim. apply (rx_block_get_rule xc_balanced (fun _ _ => True)); try done.
      - intros env' c' He' Hc'. by apply r40_balanced_claim.
      - apply Forall_forall. intros g Hg c2. apply (IHe g), elem_of_app. by left.
      - apply Forall_forall. intros w Hw. split; [apply Forall_forall; intros g Hg; exact (IHr w g Hw Hg)|exact (IHs w Hw)].
      - apply Forall_forall. intros g Hg c2. apply (IHe g), elem_of_app. by right. }
    destruct (r40_get_claim env waits unlocked again c1) as [[i|] c2]; cbn [snd] in *; [|done].
    apply r40_balanced_note; [done|]. eapply balanced_same; [..|exact Hb]; done.
  - unfold st40p_rx_put_frame. case_if; [done|]. case_if; [done|]. zbool.
    eapply balanced_same; [| |apply (r40_balanced_back r40_reset); [|eassumption|exact Hc]]; done.
  - unfold st40p_rx_put_frame_abort. case_if; [done|]. case_if; [done|]. zbool. by apply (r40_balanced_back r40_reset_abort).
  - unfold st40p_rx_wake_block. case_if; [done|]. cbn. case_if; [|done]. by apply r40_balanced_note.
  - unfold st40p_rx_set_block_timeout. by case_if.
  - unfold st40p_rx_reset_session_stats. by case_if.
  - unfold rx_st40p_stat. by case_if.
  - unfold st40p_rx_free_begin. case_if; [done|]. by apply r40_balanced_note.
Qed.

(** Whatever happens to a session, a buffer it took from the transport is in exactly one
    slot or went back exactly once. *)
Theorem st40p_rx_buffers_balance app ops f :
  r40_session app -> r40_session f ->
  let c := f (st40p_rx_create app ops) in
  rx_accepted (r40_trace c) ≡ₚ rx_returned (r40_trace c) ++ omap r40_buffer (r40_framebuffs c).
Proof.
  intros Ha Hf c. assert (xc_balanced c) as H.
  { apply r40_session_balanced; [done|]. unfold st40p_rx_create. set (c0 := mk_st40p_rx_ctx _ _ _ _ _ _ _ _ _ _ _ _ _ _ _ _ _).
    assert (xc_balanced c0) as H0.
    { unfold xc_balanced, rx_ledger. cbn. unfold rx_st40p_init_fbs.
      induction (Z.to_nat (o40_framebuff_cnt ops)); done. }
    destruct (r40_block_get c0); [done|]. apply r40_balanced_notify; [by apply r40_session_balanced|done]. }
  unfold xc_balanced, rx_ledger in H. rewrite omap_id_fmap in H. exact H.
Qed.
