(* ===== verification/PipelineTx30.v ===== *)
(** The ST 2110-30 transmit pipeline, lib/src/st2110/pipeline/st30_pipeline_tx.c: the
    instance of [TxRing] for audio frames. The functions of the C file are those of the
    shared pipeline at [st30_media]; creation fills the slots from the ops and the buffers
    of the transport.

    [tx_st30p_if_frame_late] divides by [frames_per_sec], which the transport computes
    from the duration of a frame; the model is about sessions where it is positive. *)
From S2P Require Import Prelude Fmt TxCommon RxRing TxRing PipelineRx30.

(** The fields of [struct st30_tx_frame_meta] that are exchanged. *)
Record st30_tx_frame_meta := mk_st30_tx_meta {
  am_tfmt : st10_timestamp_fmt;
  am_timestamp : Z;
  am_epoch : Z;
  am_rtp_timestamp : Z;
}.

(** The fields of [struct st30p_tx_ops] that are consulted. *)
Record st30p_tx_ops := mk_st30p_tx_ops {
  a30_fmt : st30_fmt;
  a30_channel : Z;
  a30_sampling : st30_sampling;
  a30_ptime : st30_ptime;
  a30_framebuff_cnt : Z;
  a30_framebuff_size : Z;
  a30_flags : Z;
  a30_notify_frame_available : bool;
  a30_notify_frame_done : bool;
  a30_notify_frame_late : bool;
}.

Definition ST30P_TX_FLAG_USER_PACING : Z := Z.shiftl 1 3.
Definition ST30P_TX_FLAG_BLOCK_GET : Z := Z.shiftl 1 15.
Definition ST30P_TX_FLAG_DROP_WHEN_LATE : Z := Z.shiftl 1 16.

(** What the context of an audio session has beside the shared part. *)
Record st30p_tx_more := mk_st30p_tx_more { t30_ops : st30p_tx_ops; t30_frames_per_sec : Z }.

Definition st30_tx_frame_zero : st30_frame :=
  mk_st30_frame None ST30_FMT_PCM8 0 ST30_SAMPLING_48K ST30_PTIME_1MS 0 0 ST10_TIMESTAMP_FMT_TAI 0 0 0 0 ST_FRAME_STATUS_COMPLETE.

#[export] Instance st30_media : TxMedia st30p_tx_more st30_frame st30_tx_frame_meta := {
  md_frame_zero := st30_tx_frame_zero;
  md_codec := false;
  md_counts := true;
  md_user_pacing := ST30P_TX_FLAG_USER_PACING;
  md_drop_when_late := ST30P_TX_FLAG_DROP_WHEN_LATE;
  md_period x := NS_PER_S / t30_frames_per_sec x;
  md_tfmt _ := f30_tfmt;
  md_timestamp _ := f30_timestamp;
  md_mark _ s f := f <| f30_status := s |>;
  md_sent _ meta f :=
    f <| f30_tfmt := am_tfmt meta |> <| f30_timestamp := am_timestamp meta |> <| f30_epoch := am_epoch meta |>
      <| f30_rtp_timestamp := am_rtp_timestamp meta |>;
  md_stamp f meta := mk_st30_tx_meta (f30_tfmt f) (f30_timestamp f) (am_epoch meta) (am_rtp_timestamp meta);
  md_wake x := x;
  md_put f := (true, f);
}.

Notation st30p_tx_ctx := (tp_ctx st30p_tx_more st30_frame).

Definition tx_st30p_next_available : st30p_tx_ctx -> tx_frame_status -> option nat := tp_next_available.
Definition tx_st30p_newest_available : st30p_tx_ctx -> tx_frame_status -> option nat := tp_newest_available.
Definition tx_st30p_claim_available (desired claimed : tx_frame_status)
    : list (st30p_tx_ctx -> st30p_tx_ctx) -> st30p_tx_ctx -> option nat * st30p_tx_ctx := tp_claim_available desired claimed.

Section Callbacks.
Context (app : tp_event -> st30p_tx_ctx -> st30p_tx_ctx).

Definition tx_st30p_notify_frame_available : st30p_tx_ctx -> st30p_tx_ctx := tp_notify_frame_available app.
Definition tx_st30p_if_frame_late : nat -> st30p_tx_ctx -> bool * st30p_tx_ctx := tp_if_frame_late app.
Definition tx_st30p_next_frame (race : st30p_tx_ctx -> st30p_tx_ctx) (meta : st30_tx_frame_meta) (c : st30p_tx_ctx)
    : (Z + nat * st30_tx_frame_meta) * st30p_tx_ctx := tp_next_frame app race meta c.
Definition tx_st30p_frame_done (freed : st30p_tx_ctx -> st30p_tx_ctx) (frame_idx : nat) (meta : st30_tx_frame_meta)
    (c : st30p_tx_ctx) : Z * st30p_tx_ctx := tp_frame_done app freed frame_idx meta c.

(** The transport reports that it skipped epochs. The callback is registered only when
    the application has one. *)
Definition tx_st30p_notify_frame_late (epoch_skipped : Z) : st30p_tx_ctx -> st30p_tx_ctx := tp_fire app (TpLate epoch_skipped).

(** [tx_st30p_init_fbs]; [fb i] is [st30_tx_get_framebuffer(transport, i)]. *)
Definition tx_st30p_init_fbs (fb : nat -> Z) (ops : st30p_tx_ops) : list st30_frame :=
  (fun i => mk_st30_frame (Some (fb i)) (a30_fmt ops) (a30_channel ops) (a30_sampling ops) (a30_ptime ops)
              (a30_framebuff_size ops) (a30_framebuff_size ops) ST10_TIMESTAMP_FMT_TAI 0 0 0 0 ST_FRAME_STATUS_COMPLETE)
  <$> seq 0 (Z.to_nat (a30_framebuff_cnt ops)).

(** Creation, when memory and transport are there; the transport answers the number of
    frames in a second. *)
Definition st30p_tx_create (fb : nat -> Z) (frames_per_sec : Z) (ops : st30p_tx_ops) : st30p_tx_ctx :=
  tp_create app (a30_flags ops) (a30_notify_frame_available ops) (a30_notify_frame_done ops) (a30_notify_frame_late ops)
    (has_flag (a30_flags ops) ST30P_TX_FLAG_BLOCK_GET) (mk_st30p_tx_more ops frames_per_sec) (tx_st30p_init_fbs fb ops).

End Callbacks.

Definition st30p_tx_get_frame : list (st30p_tx_ctx -> st30p_tx_ctx) -> list (rx_wait st30p_tx_ctx) -> bool ->
    st30p_tx_ctx -> option nat * st30p_tx_ctx := tp_get_frame.
Definition st30p_tx_put_frame : nat -> st30p_tx_ctx -> Z * st30p_tx_ctx := tp_put_frame.
Definition st30p_tx_put_frame_abort : nat -> st30p_tx_ctx -> Z * st30p_tx_ctx := tp_put_frame_abort.
Definition tx_st30p_stat : st30p_tx_ctx -> Z * st30p_tx_ctx := tp_print_stat.
Definition st30p_tx_get_session_stats : Z -> st30p_tx_ctx -> Z + Z * Z := tp_get_session_stats.
Definition st30p_tx_reset_session_stats : Z -> st30p_tx_ctx -> Z * st30p_tx_ctx := tp_reset_session_stats.
Definition st30p_tx_wake_block : st30p_tx_ctx -> Z * st30p_tx_ctx := tp_wake_block.
Definition st30p_tx_set_block_timeout : Z -> st30p_tx_ctx -> Z * st30p_tx_ctx := tp_set_block_timeout.
Definition st30p_tx_begin_free : st30p_tx_ctx -> Z * st30p_tx_ctx := tp_begin_free.
Definition st30p_tx_frame_size (c : st30p_tx_ctx) : Z :=
  if tp_destroying c then 0 else a30_framebuff_size (t30_ops (tp_media c)).
Definition st30p_tx_get_fb_addr (idx : nat) (c : st30p_tx_ctx) : option Z :=
  if tp_destroying c then None else tp_framebuffs c !! idx ≫= fun fb => f30_addr (tp_frame fb).

(** [tx_st30p_framebuffs_flush]: milliseconds slept for one slot whose status is
    [obs retry] at each look. *)
Fixpoint t30_flush_wait (fuel : nat) (obs : Z -> tx_frame_status) (retry : Z) : Z :=
  match fuel with
  | O => 0
  | S fuel =>
      match obs retry with
      | TX_FRAME_FREE => 0
      | TX_FRAME_IN_TRANSMITTING => 50
      | _ => if retry + 1 >? 100 then 0 else 10 + t30_flush_wait fuel obs (retry + 1)
      end
  end.
Definition tx_st30p_framebuffs_flush (obs : nat -> Z -> tx_frame_status) (framebuff_cnt : nat) : Z :=
  foldr (fun i ms => t30_flush_wait 101 (obs i) 0 + ms) 50 (seq 0 framebuff_cnt).

(** ** Facts *)

(** A flush takes at most a second for each slot and 50 ms at the end, whatever the
    others do meanwhile. *)
Lemma t30_flush_wait_bound fuel obs retry : 0 <= retry <= 100 -> 0 <= t30_flush_wait fuel obs retry <= 1050 - 10 * retry.
Proof.
  revert retry. induction fuel as [|fuel IH]; intros retry Hr; cbn [t30_flush_wait]; [lia|].
  destruct (obs retry); try lia; (destruct (Z.gtb_spec (retry + 1) 100); [lia|]);
    pose proof (IH (retry + 1)); lia.
Qed.

Lemma st30p_flush_bound obs n : 0 <= tx_st30p_framebuffs_flush obs n <= 50 + 1050 * Z.of_nat n.
Proof.
  unfold tx_st30p_framebuffs_flush. generalize 101%nat. intros fuel. generalize 0%nat. induction n as [|n IH]; intros k; cbn [seq foldr]; [lia|].
  specialize (IH (S k)). pose proof (t30_flush_wait_bound fuel (obs k) 0). lia.
Qed.

(** A frame put with a time is offered to the transport with that time. *)
Lemma st30p_next_frame_time app race meta c i m c' :
  tx_st30p_next_frame app race meta c = (inr (i, m), c') -> has_flag (tp_flags c') ST30P_TX_FLAG_USER_PACING = true ->
  am_tfmt m = f30_tfmt (tp_frame (tp_at c' i)) /\ am_timestamp m = f30_timestamp (tp_frame (tp_at c' i)).
Proof.
  unfold tx_st30p_next_frame, tp_next_frame. case_if; [done|]. destruct (tp_pick_loop _ _ _ _) as [[k|] c1]; [|done].
  case_if; [done|]. set (c2 := tp_set_stat k TX_FRAME_IN_TRANSMITTING (race c1)). intros [= <- <- <-] Hf.
  change (tp_flags c2) with (tp_flags (race c1)) in Hf. by rewrite Hf.
Qed.

(** ** A concrete session *)

Definition demo30_flags : Z := Z.lor ST30P_TX_FLAG_USER_PACING ST30P_TX_FLAG_DROP_WHEN_LATE.
Definition demo30_ops : st30p_tx_ops :=
  mk_st30p_tx_ops ST30_FMT_PCM24 2 ST30_SAMPLING_48K ST30_PTIME_1MS 2 2880 demo30_flags true true true.
Definition demo30_meta : st30_tx_frame_meta := mk_st30_tx_meta ST10_TIMESTAMP_FMT_TAI 0 0 0.
(** An application that takes a frame as soon as one is available. *)
Definition demo30_app (e : tp_event) (c : st30p_tx_ctx) : st30p_tx_ctx :=
  match e with TpAvailable => (tp_get_frame [] [] false c).2 | _ => c end.
Lemma demo30_app_session e : tp_session false (demo30_app e).
Proof. destruct e; try apply ts_id. by apply ts_get. Qed.

(** The first frame is put for time 0 and late at 50 ms, the second is sent; another thread
    takes its slot again before the application hears that it is done. *)
Definition demo30_run (c : st30p_tx_ctx) : st30p_tx_ctx :=
  let c := (tp_put_frame 0 c).2 in
  let c := (tp_get_frame [] [] false c).2 in
  let c := tp_write 1 (fun f => f <| f30_timestamp := 45000000 |>) c in
  let c := (tp_put_frame 1 c).2 in
  let c := c <| tp_ptp_time := 50000000 |> in
  let c := (tp_next_frame demo30_app id demo30_meta c).2 in
  tp_when_sending 1 (fun c => (tp_frame_done demo30_app (fun c => (tp_get_frame [] [] false c).2) 1 demo30_meta c).2) c.
Lemma demo30_run_session : tp_session false demo30_run.
Proof.
  refine (ts_seq _ _ _ (ts_seq _ _ _ (ts_seq _ _ _ (ts_seq _ _ _ (ts_seq _ _ _ (ts_seq _ _ _ (ts_put _ 0) _) (ts_write _ 1 _))
    (ts_put _ 1)) (ts_tick _ 50000000)) (ts_next _ demo30_app id demo30_meta demo30_app_session (ts_id _)))
    (ts_done _ demo30_app _ 1 demo30_meta demo30_app_session _)); by apply ts_get.
Qed.

(** ** The property *)

(** C31: In every history of an audio transmit session, from its creation on, with an
    application that calls back from callbacks and threads that interfere, the status of
    each slot moves only along the edges of the state diagram and ends as the history
    says; every frame that was sent or dropped for being late has been reported by
    [notify_frame_done], once, even when its slot was taken again before the report; and,
    while the statistics are not reset, the counter of sent frames is their number. *)
Theorem st30p_tx_frames_accounted r f app fb frames_per_sec ops :
  tp_session r f -> (forall e, tp_session r (app e)) ->
  tp_accounted r (f (st30p_tx_create app fb frames_per_sec ops)).
Proof. intros Hf Happ. by apply tp_accounted_create. Qed.

Lemma st30p_tx_frames_accounted_witness :
  let c := demo30_run (st30p_tx_create demo30_app (fun i => Z.of_nat i) 100 demo30_ops) in
  tp_accounted false c /\ tx_ended 0 (tp_trace c) = 1%nat /\ tx_ended 1 (tp_trace c) = 1%nat
  /\ tp_frames_sent c = 1 /\ tp_frames_dropped c = 1.
Proof.
  split.
  - apply (st30p_tx_frames_accounted false demo30_run demo30_app _ _ _ demo30_run_session demo30_app_session).
  - vm_compute. repeat split; reflexivity.
Defined.
