(* ===== verification/PipelineTx40.v ===== *)
(** The ST 2110-40 transmit pipeline, lib/src/st2110/pipeline/st40_pipeline_tx.c: the
    instance of [TxRing] for ancillary frames. A slot holds the [st40_frame_info] the
    application fills and the two fields of the transport's [struct st40_frame] that are set
    from it when the frame is put; the table of entries and the buffer of user data words
    are shared by both. *)
From S2P Require Import Prelude Fmt Anc TxCommon RxRing RxAnc TxRing PipelineRx40.

(** The fields of [struct st40_tx_frame_meta] that are exchanged. *)
Record st40_tx_frame_meta := mk_st40_tx_meta {
  nm_tfmt : st10_timestamp_fmt;
  nm_timestamp : Z;
  nm_epoch : Z;
  nm_second_field : bool;
  nm_rtp_timestamp : Z;
}.

(** The fields of [struct st40p_tx_ops] that are consulted. *)
Record st40p_tx_ops := mk_st40p_tx_ops {
  n40_fps : st_fps;
  n40_interlaced : bool;
  n40_framebuff_cnt : Z;
  n40_max_udw_buff_size : Z;
  n40_flags : Z;
  n40_notify_frame_available : bool;
  n40_notify_frame_done : bool;
  n40_notify_frame_late : bool;
}.

Definition ST40P_TX_FLAG_USER_PACING : Z := Z.shiftl 1 3.
Definition ST40P_TX_FLAG_USER_TIMESTAMP : Z := Z.shiftl 1 4.
Definition ST40P_TX_FLAG_DROP_WHEN_LATE : Z := Z.shiftl 1 7.
Definition ST40P_TX_FLAG_FORCE_NUMA : Z := Z.shiftl 1 8.
Definition ST40P_TX_FLAG_BLOCK_GET : Z := Z.shiftl 1 15.

(** The frame of a slot: [frame_info], and [meta_num] and [data_size] of [anc_frame]. *)
Record st40p_tx_frame := mk_st40p_tx_frame {
  t40_info : st40_frame_info;
  t40_anc_frame : Z;
  t40_anc_meta_num : Z;
  t40_anc_data_size : Z;
}.
#[export] Instance eta_st40p_tx_frame : Settable st40p_tx_frame := fun f =>
  mk_st40p_tx_frame (t40_info f) (t40_anc_frame f) (t40_anc_meta_num f) (t40_anc_data_size f).

Record st40p_tx_more := mk_st40p_tx_more { t40_ops : st40p_tx_ops; t40_frame_period_ns : Z }.

(** The check of [st40p_tx_put_frame] comes after the fields of the transport's frame are set. *)
Definition t40_put (f : st40p_tx_frame) : bool * st40p_tx_frame :=
  let f := f <| t40_anc_meta_num := fi_meta_num (t40_info f) |> <| t40_anc_data_size := fi_udw_buffer_fill (t40_info f) |> in
  if t40_anc_meta_num f >? ST40_MAX_META then (false, f)
  else (true, f <| t40_info ::= fun i => i <| fi_udw_buffer_fill := 0 |> |>).

#[export] Instance st40_media : TxMedia st40p_tx_more st40p_tx_frame st40_tx_frame_meta := {
  md_frame_zero := mk_st40p_tx_frame (st40_frame_info_zero 0) 0 0 0;
  md_codec := false;
  md_counts := true;
  md_user_pacing := ST40P_TX_FLAG_USER_PACING;
  md_drop_when_late := ST40P_TX_FLAG_DROP_WHEN_LATE;
  md_period := t40_frame_period_ns;
  md_tfmt _ f := fi_tfmt (t40_info f);
  md_timestamp _ f := fi_timestamp (t40_info f);
  md_mark _ s f := f <| t40_info ::= fun i => i <| fi_status := s |> |>;
  md_sent x meta f :=
    let interlaced := n40_interlaced (t40_ops x) in
    f <| t40_info ::= fun i =>
      i <| fi_tfmt := nm_tfmt meta |> <| fi_timestamp := nm_timestamp meta |> <| fi_epoch := nm_epoch meta |>
        <| fi_rtp_timestamp := nm_rtp_timestamp meta |> <| fi_interlaced := interlaced |>
        <| fi_second_field := if interlaced then nm_second_field meta else false |> |>;
  md_stamp f meta :=
    mk_st40_tx_meta (fi_tfmt (t40_info f)) (fi_timestamp (t40_info f)) (nm_epoch meta) (nm_second_field meta)
      (nm_rtp_timestamp meta);
  md_wake x := x;
  md_put := t40_put;
}.

Notation st40p_tx_ctx := (tp_ctx st40p_tx_more st40p_tx_frame).

Definition tx_st40p_next_available : st40p_tx_ctx -> tx_frame_status -> option nat := tp_next_available.
Definition tx_st40p_newest_available : st40p_tx_ctx -> tx_frame_status -> option nat := tp_newest_available.
Definition tx_st40p_claim_available (desired claimed : tx_frame_status)
    : list (st40p_tx_ctx -> st40p_tx_ctx) -> st40p_tx_ctx -> option nat * st40p_tx_ctx := tp_claim_available desired claimed.

Section Callbacks.
Context (app : tp_event -> st40p_tx_ctx -> st40p_tx_ctx).

Definition tx_st40p_notify_frame_available : st40p_tx_ctx -> st40p_tx_ctx := tp_notify_frame_available app.
Definition tx_st40p_if_frame_late : nat -> st40p_tx_ctx -> bool * st40p_tx_ctx := tp_if_frame_late app.
Definition tx_st40p_next_frame (race : st40p_tx_ctx -> st40p_tx_ctx) (meta : st40_tx_frame_meta) (c : st40p_tx_ctx)
    : (Z + nat * st40_tx_frame_meta) * st40p_tx_ctx := tp_next_frame app race meta c.
Definition tx_st40p_frame_done (freed : st40p_tx_ctx -> st40p_tx_ctx) (frame_idx : nat) (meta : st40_tx_frame_meta)
    (c : st40p_tx_ctx) : Z * st40p_tx_ctx := tp_frame_done app freed frame_idx meta c.
Definition tx_st40p_notify_frame_late (epoch_skipped : Z) : st40p_tx_ctx -> st40p_tx_ctx := tp_fire app (TpLate epoch_skipped).

(** [tx_st40p_init_fbs] and [tx_st40p_asign_anc_frames]: [udw i] is the buffer allocated for
    slot [i], [fb i] is [st40_tx_get_framebuffer(transport, i)]. *)
Definition tx_st40p_init_fbs (udw fb : nat -> Z) (ops : st40p_tx_ops) : list st40p_tx_frame :=
  (fun i => mk_st40p_tx_frame (st40_frame_info_zero (n40_max_udw_buff_size ops) <| fi_addr := Some (udw i) |>) (fb i) 0 0)
  <$> seq 0 (Z.to_nat (n40_framebuff_cnt ops)).

(** Creation, when memory and transport are there: refused for an unknown frame rate, for
    a forced NUMA node and without room for user data words. *)
Definition st40p_tx_create (udw fb : nat -> Z) (ops : st40p_tx_ops) : option st40p_tx_ctx :=
  match st_frame_period_ns (n40_fps ops) with
  | inl _ => None
  | inr frame_period_ns =>
      if has_flag (n40_flags ops) ST40P_TX_FLAG_FORCE_NUMA then None
      else if n40_max_udw_buff_size ops =? 0 then None
      else
        Some (tp_create app (n40_flags ops) (n40_notify_frame_available ops) (n40_notify_frame_done ops)
                (n40_notify_frame_late ops) (has_flag (n40_flags ops) ST40P_TX_FLAG_BLOCK_GET)
                (mk_st40p_tx_more ops frame_period_ns) (tx_st40p_init_fbs udw fb ops))
  end.

End Callbacks.

Definition st40p_tx_get_frame : list (st40p_tx_ctx -> st40p_tx_ctx) -> list (rx_wait st40p_tx_ctx) -> bool ->
    st40p_tx_ctx -> option nat * st40p_tx_ctx := tp_get_frame.
Definition st40p_tx_put_frame : nat -> st40p_tx_ctx -> Z * st40p_tx_ctx := tp_put_frame.
Definition st40p_tx_put_frame_abort : nat -> st40p_tx_ctx -> Z * st40p_tx_ctx := tp_put_frame_abort.
Definition tx_st40p_stat : st40p_tx_ctx -> Z * st40p_tx_ctx := tp_print_stat.
Definition st40p_tx_get_session_stats : Z -> st40p_tx_ctx -> Z + Z * Z := tp_get_session_stats.
Definition st40p_tx_reset_session_stats : Z -> st40p_tx_ctx -> Z * st40p_tx_ctx := tp_reset_session_stats.
Definition st40p_tx_wake_block : st40p_tx_ctx -> Z * st40p_tx_ctx := tp_wake_block.
Definition st40p_tx_set_block_timeout : Z -> st40p_tx_ctx -> Z * st40p_tx_ctx := tp_set_block_timeout.
Definition st40p_tx_begin_free : st40p_tx_ctx -> Z * st40p_tx_ctx := tp_begin_free.
Definition st40p_tx_max_udw_buff_size (c : st40p_tx_ctx) : Z :=
  if tp_destroying c then 0 else n40_max_udw_buff_size (t40_ops (tp_media c)).
Definition st40p_tx_get_udw_buff_addr (idx : nat) (c : st40p_tx_ctx) : option Z :=
  if tp_destroying c then None else tp_framebuffs c !! idx ≫= fun fb => fi_addr (t40_info (tp_frame fb)).
Definition st40p_tx_get_fb_addr (idx : nat) (c : st40p_tx_ctx) : option Z :=
  if tp_destroying c then None else (fun fb => t40_anc_frame (tp_frame fb)) <$> tp_framebuffs c !! idx.

(** [tx_st40p_framebuffs_flush]: milliseconds slept for one slot. *)
Fixpoint t40_flush_wait (fuel : nat) (obs : Z -> tx_frame_status) (retry : Z) : Z :=
  match fuel with
  | O => 0
  | S fuel =>
      if retry <? 100 then
        match obs retry with
        | TX_FRAME_FREE => 0
        | TX_FRAME_IN_TRANSMITTING => 50
        | _ => 10 + t40_flush_wait fuel obs (retry + 1)
        end
      else 0
  end.
Definition tx_st40p_framebuffs_flush (obs : nat -> Z -> tx_frame_status) (framebuff_cnt : nat) : Z :=
  foldr (fun i ms => t40_flush_wait 101 (obs i) 0 + ms) 0 (seq 0 framebuff_cnt).

(** ** Facts *)

(** Every history of an ancillary transmit session accounts for its frames, as those of
    audio do. *)
Lemma st40p_tx_frames_accounted r f app udw fb ops c :
  tp_session r f -> (forall e, tp_session r (app e)) -> st40p_tx_create app udw fb ops = Some c -> tp_accounted r (f c).
Proof.
  intros Hf Happ. unfold st40p_tx_create. destruct (st_frame_period_ns _); [done|]. do 2 (case_if; [done|]).
  intros [= <-]. by apply tp_accounted_create.
Qed.

(** What a put hands to the transport: the number of entries and of words the application
    filled in, which fit the table, and an empty fill for the next use of the slot. *)
Lemma st40p_put_frame_spec i (c : st40p_tx_ctx) :
  tp_destroying c = false -> tp_stat (tp_at c i) = TX_FRAME_IN_USER ->
  let info := t40_info (tp_frame (tp_at c i)) in
  let '(ret, c') := st40p_tx_put_frame i c in
  let fb' := tp_at c' i in
  t40_anc_meta_num (tp_frame fb') = fi_meta_num info /\ t40_anc_data_size (tp_frame fb') = fi_udw_buffer_fill info
  /\ if fi_meta_num info <=? ST40_MAX_META
     then ret = 0 /\ tp_stat fb' = TX_FRAME_READY /\ fi_udw_buffer_fill (t40_info (tp_frame fb')) = 0
     else ret = - EIO /\ tp_stat fb' = TX_FRAME_IN_USER /\ t40_info (tp_frame fb') = info.
Proof.
  intros Hd Hs info. unfold st40p_tx_put_frame, tp_put_frame, tp_is. rewrite Hd, bool_decide_eq_true_2 by done.
  assert (Hi : (i < length (tp_framebuffs c))%nat) by (by eapply tp_range). cbn [negb md_put st40_media]. unfold t40_put.
  cbn [t40_anc_meta_num modify_field]. fold info. rewrite Z.gtb_ltb, Z.leb_antisym.
  destruct (ST40_MAX_META <? fi_meta_num info) eqn:Em; cbn [negb].
  - rewrite tp_at_upd_eq by done. by rewrite <- Hs.
  - set (c1 := tp_upd i _ c). set (c2 := _ <| tp_stat_put_frame ::= _ |>).
    assert (Ef : tp_at c2 i = tp_at c1 i <| tp_stat := TX_FRAME_READY |>).
    { apply (tp_at_upd_eq i (fun fb => fb <| tp_stat := TX_FRAME_READY |>) c1). unfold c1. cbn. by rewrite length_alter. }
    rewrite Ef. unfold c1. by rewrite tp_at_upd_eq.
Qed.

(** ** Concrete sessions *)

Definition demo40_ops (flags : Z) : st40p_tx_ops := mk_st40p_tx_ops ST_FPS_P50 false 2 255 flags true true true.
Definition demo40_meta : st40_tx_frame_meta := mk_st40_tx_meta ST10_TIMESTAMP_FMT_TAI 777 0 false 0.
Definition demo40_idle (e : tp_event) (c : st40p_tx_ctx) : st40p_tx_ctx := c.
(** A frame put with time 5, offered to the transport. *)
Definition demo40_offer (flags : Z) : option ((Z + nat * st40_tx_frame_meta) * st40p_tx_ctx) :=
  c ← st40p_tx_create demo40_idle (fun i => Z.of_nat i) (fun i => Z.of_nat i) (demo40_ops flags);
  let c := (st40p_tx_get_frame [] [] false c).2 in
  let c := tp_write 0 (fun f => f <| t40_info ::= fun i => i <| fi_timestamp := 5 |> <| fi_tfmt := ST10_TIMESTAMP_FMT_MEDIA_CLK |> |>) c in
  let c := (st40p_tx_put_frame 0 c).2 in
  Some (tx_st40p_next_frame demo40_idle id demo40_meta c).

(** The time of the application reaches the transport with user pacing, but not with
    [ST40P_TX_FLAG_USER_TIMESTAMP] alone: the transport, to which the flag is passed on,
    derives the RTP time stamp from the time it had filled in itself. *)
Lemma st40p_user_timestamp_not_passed :
  fst <$> demo40_offer ST40P_TX_FLAG_USER_PACING
    = Some (inr (0%nat, mk_st40_tx_meta ST10_TIMESTAMP_FMT_MEDIA_CLK 5 0 false 0))
  /\ fst <$> demo40_offer ST40P_TX_FLAG_USER_TIMESTAMP = Some (inr (0%nat, demo40_meta)).
Proof. split; vm_compute; reflexivity. Qed.
