(* ===== verification/PipelineTx22.v ===== *)
(** The ST 2110-22 transmit pipeline, lib/src/st2110/pipeline/st22_pipeline_tx.c. The slots,
    the scans, late drops and [frame_done] are those of [TxRing]; between the application and
    the transport stands an encoder plugin, which takes READY slots and leaves them ENCODED,
    or, in derive mode, nobody. A frame is a pair: [src] before and [dst] after encoding.
    Pixel data is not modelled. [app] is what the application and the plugin do to the
    session while a callback runs. *)
From S2P Require Import Prelude SeqNum Fmt TxCommon PipelineTx20 RxRing TxRing.

(** [struct st22p_tx_frame] beside what [tp_slot] has. *)
Record st22p_tx_pair := mk_st22p_tx_pair { p22_src : frame_meta; p22_dst : frame_meta }.
#[export] Instance eta_st22p_tx_pair : Settable st22p_tx_pair := fun f => mk_st22p_tx_pair (p22_src f) (p22_dst f).

(** The fields of [struct st22_tx_frame_meta] that are exchanged. *)
Record st22_tx_frame_meta := mk_st22_tx_meta {
  cm_second_field : bool;
  cm_tfmt : st10_timestamp_fmt;
  cm_timestamp : Z;
  cm_rtp_timestamp : Z;
  cm_codestream_size : Z;
}.

(** The fields of [struct st22p_tx_ops] that are consulted. *)
Record st22p_tx_ops := mk_st22p_tx_ops {
  c22_width : Z;
  c22_height : Z;
  c22_fps : st_fps;
  c22_interlaced : bool;
  c22_input_fmt : st_frame_fmt;
  c22_codec : st22_codec;
  c22_codestream_size : Z;
  c22_framebuff_cnt : Z;
  c22_flags : Z;
  c22_notify_frame_available : bool;
  c22_notify_frame_done : bool;
  c22_notify_frame_late : bool;
}.

Definition ST22P_TX_FLAG_USER_PACING : Z := Z.shiftl 1 3.
Definition ST22P_TX_FLAG_USER_TIMESTAMP : Z := Z.shiftl 1 4.
Definition ST22P_TX_FLAG_EXT_FRAME : Z := Z.shiftl 1 8.
Definition ST22P_TX_FLAG_DROP_WHEN_LATE : Z := Z.shiftl 1 12.
Definition ST22P_TX_FLAG_BLOCK_GET : Z := Z.shiftl 1 15.
(** [(ST_SESSION_MAX_BULK + 1) * MTL_PKT_MAX_RTP_BYTES] *)
Definition ST22_ENCODE_MIN_FRAME_SZ : Z := (4 + 1) * (1460 - 8 - 100).

(** What the context has beside [tp_ctx], with what the encoder session told. *)
Record st22p_tx_more := mk_st22p_tx_more {
  t22_ops : st22p_tx_ops;
  t22_derive : bool;
  t22_ext_frame : bool;
  t22_second_field : bool;
  t22_src_size : Z;
  t22_frame_period_ns : Z;
  t22_wake_pending : bool;
  t22_codestream_max_size : Z;
  t22_encoder_notified : bool;
  t22_encode_block_get : bool;
  t22_encode_block_timeout_ns : Z;
  t22_encode_wake_pending : bool;
  t22_stat_encode_fail : Z;
  t22_stat_encode_get_frame_try : Z;
  t22_stat_encode_get_frame_succ : Z;
  t22_stat_encode_put_frame : Z;
}.
#[export] Instance eta_st22p_tx_more : Settable st22p_tx_more := fun x =>
  mk_st22p_tx_more (t22_ops x) (t22_derive x) (t22_ext_frame x) (t22_second_field x) (t22_src_size x) (t22_frame_period_ns x)
    (t22_wake_pending x) (t22_codestream_max_size x) (t22_encoder_notified x) (t22_encode_block_get x)
    (t22_encode_block_timeout_ns x) (t22_encode_wake_pending x) (t22_stat_encode_fail x) (t22_stat_encode_get_frame_try x)
    (t22_stat_encode_get_frame_succ x) (t22_stat_encode_put_frame x).

(** [tx_st22p_user_frame], read and updated. *)
Definition tx_st22p_user_frame (x : st22p_tx_more) (f : st22p_tx_pair) : frame_meta :=
  if t22_derive x then p22_dst f else p22_src f.
Definition t22_user_upd (x : st22p_tx_more) (g : frame_meta -> frame_meta) (f : st22p_tx_pair) : st22p_tx_pair :=
  if t22_derive x then f <| p22_dst ::= g |> else f <| p22_src ::= g |>.
(** A write into both frames. *)
Definition t22_both (g : frame_meta -> frame_meta) (f : st22p_tx_pair) : st22p_tx_pair := f <| p22_src ::= g |> <| p22_dst ::= g |>.

#[export] Instance st22_media : TxMedia st22p_tx_more st22p_tx_pair st22_tx_frame_meta := {
  md_frame_zero := mk_st22p_tx_pair frame_meta_zero frame_meta_zero;
  md_codec := true;
  md_counts := false;
  md_user_pacing := ST22P_TX_FLAG_USER_PACING;
  md_drop_when_late := ST22P_TX_FLAG_DROP_WHEN_LATE;
  md_period := t22_frame_period_ns;
  md_tfmt x f := fm_tfmt (tx_st22p_user_frame x f);
  md_timestamp x f := fm_timestamp (tx_st22p_user_frame x f);
  md_mark x s := t22_user_upd x (fun f => f <| fm_status := s |>);
  md_sent _ meta :=
    t22_both (fun f => f <| fm_tfmt := cm_tfmt meta |> <| fm_timestamp := cm_timestamp meta |>
                         <| fm_rtp_timestamp := cm_rtp_timestamp meta |>);
  md_stamp _ meta := meta;
  md_wake x := x <| t22_wake_pending := true |>;
  md_put f := (true, f);
}.

Notation st22p_tx_ctx := (tp_ctx st22p_tx_more st22p_tx_pair).
Definition t22_more (g : st22p_tx_more -> st22p_tx_more) (c : st22p_tx_ctx) : st22p_tx_ctx := c <| tp_media ::= g |>.
Definition t22_fill (i : nat) (g : st22p_tx_pair -> st22p_tx_pair) (c : st22p_tx_ctx) : st22p_tx_ctx :=
  tp_upd i (fun fb => fb <| tp_frame ::= g |>) c.

Definition tx_st22p_next_available : st22p_tx_ctx -> tx_frame_status -> option nat := tp_next_available.
Definition tx_st22p_newest_available : st22p_tx_ctx -> tx_frame_status -> option nat := tp_newest_available.
Definition tx_st22p_claim_available (desired claimed : tx_frame_status)
    : list (st22p_tx_ctx -> st22p_tx_ctx) -> st22p_tx_ctx -> option nat * st22p_tx_ctx := tp_claim_available desired claimed.

Definition tx_st22p_encode_block_wake (c : st22p_tx_ctx) : st22p_tx_ctx :=
  tp_emit TpSignal (t22_more (fun x => x <| t22_encode_wake_pending := true |>) c).
Definition tx_st22p_block_wake_all (c : st22p_tx_ctx) : st22p_tx_ctx :=
  tx_st22p_encode_block_wake (tp_emit TpSignal (t22_more (fun x => x <| t22_wake_pending := true |>) c)).

Section Callbacks.
Context (app : tp_event -> st22p_tx_ctx -> st22p_tx_ctx).

Definition tx_st22p_notify_frame_available : st22p_tx_ctx -> st22p_tx_ctx := tp_notify_frame_available app.
Definition tx_st22p_if_frame_late : nat -> st22p_tx_ctx -> bool * st22p_tx_ctx := tp_if_frame_late app.

(** The plugin's [notify_frame_available], and the wake-up of an encoder that blocks. *)
Definition tx_st22p_encode_notify_frame_ready (c : st22p_tx_ctx) : st22p_tx_ctx :=
  if t22_derive (tp_media c) then c
  else
    let c := if t22_encoder_notified (tp_media c) then tp_fire app TpEncodeReady c else c in
    if t22_encode_block_get (tp_media c) then tp_emit TpSignal c else c.

(** ** The transport side *)

(** The loop of [tx_st22p_next_frame]; the head of [env] runs between a scan and its
    exchange. *)
Fixpoint t22_next_loop (fuel : nat) (drop_cnt : Z) (env : list (st22p_tx_ctx -> st22p_tx_ctx)) (c : st22p_tx_ctx)
    : option nat * st22p_tx_ctx :=
  match fuel with
  | O => (None, c)
  | S fuel =>
      match tx_st22p_newest_available c TX_FRAME_ENCODED with
      | None => (None, c)
      | Some i =>
          match tx_st22p_if_frame_late i c with
          | (true, c) =>
              if drop_cnt + 1 >=? TX_DROP_MAX_BATCH then (None, c) else t22_next_loop fuel (drop_cnt + 1) env c
          | (false, c) =>
              match env with
              | [] => (Some i, tp_set_stat i TX_FRAME_IN_TRANSMITTING c)
              | e :: env =>
                  let c := e c in
                  if tp_is TX_FRAME_ENCODED c i then (Some i, tp_set_stat i TX_FRAME_IN_TRANSMITTING c)
                  else t22_next_loop fuel drop_cnt env c
              end
          end
      end
  end.
(** Turns that drop are capped by the batch, the others use up [env]. *)
Definition t22_next_fuel (env : list (st22p_tx_ctx -> st22p_tx_ctx)) : nat :=
  Z.to_nat TX_DROP_MAX_BATCH + length env + 1.

Definition t22_fill_meta (c : st22p_tx_ctx) (f : st22p_tx_pair) (meta : st22_tx_frame_meta) : st22_tx_frame_meta :=
  let frame := tx_st22p_user_frame (tp_media c) f in
  let stamped := has_flag (tp_flags c) (Z.lor ST22P_TX_FLAG_USER_PACING ST22P_TX_FLAG_USER_TIMESTAMP) in
  mk_st22_tx_meta (fm_second_field frame) (if stamped then fm_tfmt frame else cm_tfmt meta)
    (if stamped then fm_timestamp frame else cm_timestamp meta) (cm_rtp_timestamp meta)
    (fr_data_size (fm_frame (p22_dst f))).

Definition tx_st22p_next_frame (env : list (st22p_tx_ctx -> st22p_tx_ctx)) (meta : st22_tx_frame_meta) (c : st22p_tx_ctx)
    : (Z + nat * st22_tx_frame_meta) * st22p_tx_ctx :=
  if negb (tp_ready c) then (inl (- EBUSY), c)
  else
    match t22_next_loop (t22_next_fuel env) 0 env c with
    | (None, c) =>
        let c :=
          if has_flag (tp_flags c) ST22P_TX_FLAG_DROP_WHEN_LATE then
            match tx_st22p_next_available c TX_FRAME_FREE with
            | Some _ => tx_st22p_notify_frame_available c
            | None => c
            end
          else c in
        (inl (- EBUSY), c)
    | (Some i, c) => (inr (i, t22_fill_meta c (tp_frame (tp_at c i)) meta), c)
    end.

Definition tx_st22p_frame_done (freed : st22p_tx_ctx -> st22p_tx_ctx) (frame_idx : nat) (meta : st22_tx_frame_meta)
    (c : st22p_tx_ctx) : Z * st22p_tx_ctx := tp_frame_done app freed frame_idx meta c.

Definition tx_st22p_notify_frame_late (epoch_skipped : Z) : st22p_tx_ctx -> st22p_tx_ctx := tp_fire app (TpLate epoch_skipped).

(** ** The encoder side *)

(** [data_size] is what the encoder left in [dst->data_size]. *)
Definition tx_st22p_encode_put_frame (i : nat) (data_size result : Z) (c : st22p_tx_ctx) : Z * st22p_tx_ctx :=
  if tp_destroying c then (- EIO, c)
  else if negb (tp_is TX_FRAME_IN_ENCODING c i) then (- EIO, c)
  else
    let c := t22_fill i (fun f => f <| p22_dst ::= fun g => g <| fm_frame ::= fun h => h <| fr_data_size := data_size |> |> |>) c in
    let c := t22_more (fun x => x <| t22_stat_encode_put_frame ::= fun n => u32 (n + 1) |>) c in
    let c :=
      if (result <? 0) || (data_size <=? ST22_ENCODE_MIN_FRAME_SZ) || (data_size >? t22_codestream_max_size (tp_media c)) then
        let c := tx_st22p_notify_frame_available (tp_set_stat i TX_FRAME_FREE c) in
        t22_more (fun x => x <| t22_stat_encode_fail ::= fun n => i32 (n + 1) |>) c
      else tp_set_stat i TX_FRAME_ENCODED c in
    (0, c).

(** ** The application side *)

Definition t22_second_fields (b : bool) (i : nat) : st22p_tx_ctx -> st22p_tx_ctx :=
  t22_fill i (t22_both (fun f => f <| fm_second_field := b |>)).

Definition st22p_tx_put_frame (i : nat) (c : st22p_tx_ctx) : Z * st22p_tx_ctx :=
  if tp_destroying c then (- EIO, c)
  else if negb (tp_is TX_FRAME_IN_USER c i) then (- EIO, c)
  else if t22_ext_frame (tp_media c) then (- EIO, c)
  else
    let frame := tx_st22p_user_frame (tp_media c) (tp_frame (tp_at c i)) in
    let c := if c22_interlaced (t22_ops (tp_media c)) then t22_second_fields (fm_second_field frame) i c else c in
    let c :=
      if t22_derive (tp_media c) then tp_set_stat i TX_FRAME_ENCODED c
      else tx_st22p_encode_notify_frame_ready (tp_set_stat i TX_FRAME_READY c) in
    (0, c <| tp_stat_put_frame ::= fun n => u32 (n + 1) |>).

(** Every plane goes to the source frame. *)
Definition t22_ext_src (ext : st_ext_frame) (f : frame_meta) : frame_meta :=
  f <| fm_frame ::= fun g =>
         (for_from 0 (Z.to_nat (st_frame_fmt_planes (fr_fmt g))) (fun plane g =>
            g <| fr_addr ::= fun l => arr_set l plane (arr_get 0 (ext_addr ext) plane) |>
              <| fr_iova ::= fun l => arr_set l plane (arr_get 0 (ext_iova ext) plane) |>
              <| fr_linesize ::= fun l => arr_set l plane (arr_get 0 (ext_linesize ext) plane) |>) g)
           <| fr_buffer_size := ext_size ext |> <| fr_data_size := ext_size ext |>
           <| fr_flags ::= Z.lor ST_FRAME_FLAG_EXT_BUF |> |>
    <| fm_opaque := ext_opaque ext |>.

Definition st22p_tx_put_ext_frame (i : nat) (ext : st_ext_frame) (c : st22p_tx_ctx) : Z * st22p_tx_ctx :=
  if tp_destroying c then (- EIO, c)
  else if negb (t22_ext_frame (tp_media c)) then (- EIO, c)
  else if t22_derive (tp_media c) then (- EIO, c)
  else if negb (tp_is TX_FRAME_IN_USER c i) then (- EIO, c)
  else
    let c := t22_fill i (fun f => f <| p22_src ::= t22_ext_src ext |>) c in
    let ret := st_frame_sanity_check (fm_frame (p22_src (tp_frame (tp_at c i)))) in
    if ret <? 0 then (ret, c)
    else
      let frame := tx_st22p_user_frame (tp_media c) (tp_frame (tp_at c i)) in
      let c := if c22_interlaced (t22_ops (tp_media c)) then t22_second_fields (fm_second_field frame) i c else c in
      let c := tx_st22p_encode_notify_frame_ready (tp_set_stat i TX_FRAME_READY c) in
      (0, c <| tp_stat_put_frame ::= fun n => u32 (n + 1) |>).

(** ** Creation *)

(** [tx_st22p_init_src_fbs] and the frames of [tx_st22p_create_transport]: [src i] is the
    address allocated for slot [i], [iova] its bus address, [fb i] is
    [st22_tx_get_fb_addr(transport, i)]. *)
Definition tx_st22p_init_src_fbs (src fb : nat -> Z) (iova : Z -> Z) (x : st22p_tx_more) (max_size : Z) (codestream_fmt : st_frame_fmt)
    : option (list st22p_tx_pair) :=
  let ops := t22_ops x in
  let blank fmt := st_frame_blank fmt (c22_width ops) (c22_height ops) (c22_interlaced ops) 0 in
  let make (i : nat) :=
    let s := blank (c22_input_fmt ops) <| fr_buffer_size := t22_src_size x |> <| fr_data_size := t22_src_size x |> in
    let s := if t22_derive x || t22_ext_frame x then s else st_frame_init_plane_single_src s (src i) (iova (src i)) in
    let d := blank codestream_fmt <| fr_addr ::= fun l => arr_set l 0 (fb i) |> <| fr_buffer_size := max_size |>
               <| fr_data_size := max_size |> in
    mk_st22p_tx_pair (frame_meta_zero <| fm_frame := s |>) (frame_meta_zero <| fm_frame := d |>) in
  let frames := make <$> seq 0 (Z.to_nat (c22_framebuff_cnt ops)) in
  if negb (t22_derive x || t22_ext_frame x)
     && existsb (fun f => st_frame_sanity_check (fm_frame (p22_src f)) <? 0) frames then None
  else Some frames.

(** Creation, when memory, port, encoder and transport are there. The encoder session tells
    the largest codestream, whether its device wants to be notified and whether it blocks. *)
Definition st22p_tx_create (src fb : nat -> Z) (iova : Z -> Z) (codestream_max_size : Z) (encoder_notified encoder_blocks : bool)
    (ops : st22p_tx_ops) : option st22p_tx_ctx :=
  let codestream_fmt := st_codec_codestream_fmt (c22_codec ops) in
  if bool_decide (codestream_fmt = ST_FRAME_FMT_MAX) then None
  else
    match st_frame_period_ns (c22_fps ops) with
    | inl _ => None
    | inr frame_period_ns =>
        let derive := bool_decide (codestream_fmt = c22_input_fmt ops) in
        let src_size :=
          if derive then if c22_codestream_size ops =? 0 then 0x100000 else c22_codestream_size ops
          else st_frame_size (c22_input_fmt ops) (c22_width ops) (c22_height ops) (c22_interlaced ops) in
        if src_size =? 0 then None
        else if negb derive && (codestream_max_size =? 0) then None
        else
          let x := mk_st22p_tx_more ops derive (has_flag (c22_flags ops) ST22P_TX_FLAG_EXT_FRAME) false src_size frame_period_ns
                     false codestream_max_size encoder_notified (negb derive && encoder_blocks) NS_PER_S false 0 0 0 0 in
          frames ← tx_st22p_init_src_fbs src fb iova x (if derive then src_size else codestream_max_size) codestream_fmt;
          Some (tp_create app (c22_flags ops) (c22_notify_frame_available ops) (c22_notify_frame_done ops)
                  (c22_notify_frame_late ops) (has_flag (c22_flags ops) ST22P_TX_FLAG_BLOCK_GET) x frames)
    end.

End Callbacks.

(** [tx_st22p_encode_get_block_wait] *)
Fixpoint t22_ready_wait (waits : list (rx_wait st22p_tx_ctx)) (c : st22p_tx_ctx) : st22p_tx_ctx :=
  if t22_encode_wake_pending (tp_media c) || tp_ready c || tp_destroying c then c
  else
    match waits with
    | [] => c
    | w :: waits => let c := rw_sleep w c in if c_true (rw_ret w) then c else t22_ready_wait waits c
    end.
Definition t22_encode_clear : st22p_tx_ctx -> st22p_tx_ctx := t22_more (fun x => x <| t22_encode_wake_pending := false |>).
Definition tx_st22p_encode_get_block_wait (waits : list (rx_wait st22p_tx_ctx)) (c : st22p_tx_ctx) : st22p_tx_ctx :=
  t22_encode_clear (t22_ready_wait waits c).

(** An encoder that comes before the session is ready waits and goes away empty. *)
Definition tx_st22p_encode_get_frame (env : list (st22p_tx_ctx -> st22p_tx_ctx)) (waits : list (rx_wait st22p_tx_ctx))
    (unlocked : st22p_tx_ctx -> st22p_tx_ctx) (again : list (st22p_tx_ctx -> st22p_tx_ctx)) (c : st22p_tx_ctx)
    : option nat * st22p_tx_ctx :=
  if tp_destroying c then (None, c)
  else if negb (tp_ready c) then
    (None, if t22_encode_block_get (tp_media c) then tx_st22p_encode_get_block_wait waits c else c)
  else
    let c := t22_more (fun x => x <| t22_stat_encode_get_frame_try ::= fun n => u32 (n + 1) |>) c in
    match rx_block_get (fun env c => tx_st22p_claim_available TX_FRAME_READY TX_FRAME_IN_ENCODING env c)
            (fun c => t22_encode_wake_pending (tp_media c)) tp_destroying t22_encode_clear
            (fun c => t22_encode_block_get (tp_media c)) env waits unlocked again c with
    | (None, c) => (None, c)
    | (Some i, c) => (Some i, t22_more (fun x => x <| t22_stat_encode_get_frame_succ ::= fun n => u32 (n + 1) |>) c)
    end.

Definition tx_st22p_encode_wake_block (c : st22p_tx_ctx) : Z * st22p_tx_ctx := (0, tx_st22p_encode_block_wake c).
Definition tx_st22p_encode_set_timeout (timedwait_ns : Z) (c : st22p_tx_ctx) : Z * st22p_tx_ctx :=
  (0, t22_more (fun x => x <| t22_encode_block_timeout_ns := timedwait_ns |>) c).
Definition tx_st22p_encode_dump (c : st22p_tx_ctx) : Z * st22p_tx_ctx :=
  if negb (tp_ready c) then (- EBUSY, c)
  else
    let c := c <| tp_stat_get_frame_try := 0 |> <| tp_stat_get_frame_succ := 0 |> <| tp_stat_put_frame := 0 |> in
    (0, t22_more (fun x => x <| t22_stat_encode_fail := 0 |> <| t22_stat_encode_get_frame_try := 0 |>
                             <| t22_stat_encode_get_frame_succ := 0 |> <| t22_stat_encode_put_frame := 0 |>) c).

Definition t22_wake_clear : st22p_tx_ctx -> st22p_tx_ctx := t22_more (fun x => x <| t22_wake_pending := false |>).

(** The wait loop of [st22p_tx_get_frame]: a turn uses up a wake-up with a claim or sleeps.
    The deadline is fixed, so the turns before it form a finite list. *)
Fixpoint t22_wait_loop (wake_block_cnt : Z) (turns : list (rx_wait st22p_tx_ctx)) (c : st22p_tx_ctx) : option nat * st22p_tx_ctx :=
  if tp_destroying c then (None, c)
  else if t22_wake_pending (tp_media c) then
    match tx_st22p_claim_available TX_FRAME_FREE TX_FRAME_IN_USER (match turns with [] => [] | w :: _ => rw_races w end) (t22_wake_clear c) with
    | (Some i, c) => (Some i, c)
    | (None, c) => match turns with [] => (None, c) | _ :: turns => t22_wait_loop wake_block_cnt turns c end
    end
  else if negb (tp_wake_block_cnt c =? wake_block_cnt) then (None, c)
  else
    match turns with
    | [] => (None, c)
    | w :: turns => let c := rw_sleep w c in if c_true (rw_ret w) then (None, c) else t22_wait_loop wake_block_cnt turns c
    end.

Definition t22_hand_out (i : nat) (c : st22p_tx_ctx) : st22p_tx_ctx :=
  let c := tp_hand_out i c in
  if c22_interlaced (t22_ops (tp_media c)) then
    t22_more (fun x => x <| t22_second_field ::= negb |>) (t22_second_fields (t22_second_field (tp_media c)) i c)
  else c.

(** The claim of [st22p_tx_get_frame], with the blocking wait. *)
Definition t22_get_claim (env : list (st22p_tx_ctx -> st22p_tx_ctx)) (turns : list (rx_wait st22p_tx_ctx))
    (unlocked : st22p_tx_ctx -> st22p_tx_ctx) (again : list (st22p_tx_ctx -> st22p_tx_ctx)) (c : st22p_tx_ctx)
    : option nat * st22p_tx_ctx :=
  match tx_st22p_claim_available TX_FRAME_FREE TX_FRAME_IN_USER env c with
  | (Some i, c) => (Some i, c)
  | (None, c) =>
      if negb (tp_block_get c) then (None, c)
      else
        match t22_wait_loop (tp_wake_block_cnt c) turns c with
        | (Some i, c) => (Some i, c)
        | (None, c) =>
            let c := unlocked c in
            if tp_destroying c then (None, c) else tx_st22p_claim_available TX_FRAME_FREE TX_FRAME_IN_USER again c
        end
  end.

Definition st22p_tx_get_frame (env : list (st22p_tx_ctx -> st22p_tx_ctx)) (turns : list (rx_wait st22p_tx_ctx))
    (unlocked : st22p_tx_ctx -> st22p_tx_ctx) (again : list (st22p_tx_ctx -> st22p_tx_ctx)) (c : st22p_tx_ctx)
    : option nat * st22p_tx_ctx :=
  if tp_destroying c then (None, c)
  else if negb (tp_ready c) then (None, c)
  else
    match t22_get_claim env turns unlocked again (c <| tp_stat_get_frame_try ::= fun n => u32 (n + 1) |>) with
    | (None, c) => (None, c)
    | (Some i, c) => (Some i, t22_hand_out i c)
    end.

Definition st22p_tx_put_frame_abort : nat -> st22p_tx_ctx -> Z * st22p_tx_ctx := tp_put_frame_abort.
Definition st22p_tx_wake_block : st22p_tx_ctx -> Z * st22p_tx_ctx := tp_wake_block.
Definition st22p_tx_set_block_timeout : Z -> st22p_tx_ctx -> Z * st22p_tx_ctx := tp_set_block_timeout.
Definition st22p_tx_begin_free (c : st22p_tx_ctx) : Z * st22p_tx_ctx :=
  if tp_destroying c then (- EBUSY, c) else (0, tx_st22p_block_wake_all (c <| tp_destroying := true |>)).
Definition st22p_tx_frame_size (c : st22p_tx_ctx) : Z := if tp_destroying c then 0 else t22_src_size (tp_media c).
Definition st22p_tx_get_fb_addr (idx : nat) (c : st22p_tx_ctx) : option Z :=
  if tp_destroying c then None
  else
    fb ← tp_framebuffs c !! idx;
    if t22_ext_frame (tp_media c) then None
    else Some (arr_get 0 (fr_addr (fm_frame (tx_st22p_user_frame (tp_media c) (tp_frame fb)))) 0).

(** [tx_st22p_framebuffs_flush]: milliseconds slept for one slot; a slot in transmission is
    looked at again. *)
Fixpoint t22_flush_wait (fuel : nat) (obs : Z -> tx_frame_status) (retry : Z) : Z :=
  match fuel with
  | O => 0
  | S fuel =>
      match obs retry with
      | TX_FRAME_FREE => 0
      | s =>
          let sent := if bool_decide (s = TX_FRAME_IN_TRANSMITTING) then 50 else 0 in
          if retry + 1 >? 100 then sent else sent + 10 + t22_flush_wait fuel obs (retry + 1)
      end
  end.
Definition tx_st22p_framebuffs_flush (obs : nat -> Z -> tx_frame_status) (framebuff_cnt : nat) : Z :=
  foldr (fun i ms => t22_flush_wait 101 (obs i) 0 + ms) 0 (seq 0 framebuff_cnt).

(** ** Behaviours of a session *)

(** What the threads of a session can do to it: the transport, the encoder and the
    application in any order, with callbacks in which others act and threads running
    wherever the code can be overtaken. *)
Inductive t22_session : (st22p_tx_ctx -> st22p_tx_ctx) -> Prop :=
| t22_id : t22_session (fun c => c)
| t22_seq f g : t22_session f -> t22_session g -> t22_session (fun c => g (f c))
| t22_tick t : t22_session (fun c => c <| tp_ptp_time := t |>)
| t22_next app env meta :
    (forall e, t22_session (app e)) -> (forall f, In f env -> t22_session f) ->
    t22_session (fun c => (tx_st22p_next_frame app env meta c).2)
| t22_done app freed i meta :
    (forall e, t22_session (app e)) -> t22_session freed ->
    t22_session (tp_when_sending i (fun c => (tx_st22p_frame_done app freed i meta c).2))
| t22_encode_get env waits unlocked again :
    (forall f, In f env -> t22_session f) -> (forall w f, In w waits -> In f (rw_races w) -> t22_session f) ->
    (forall w, In w waits -> t22_session (rw_sleep w)) -> t22_session unlocked -> (forall f, In f again -> t22_session f) ->
    t22_session (fun c => (tx_st22p_encode_get_frame env waits unlocked again c).2)
| t22_encode_put app i data_size result :
    (forall e, t22_session (app e)) -> t22_session (fun c => (tx_st22p_encode_put_frame app i data_size result c).2)
| t22_encode_wake : t22_session (fun c => (tx_st22p_encode_wake_block c).2)
| t22_encode_timeout ns : t22_session (fun c => (tx_st22p_encode_set_timeout ns c).2)
| t22_encode_stat : t22_session (fun c => (tx_st22p_encode_dump c).2)
| t22_get env turns unlocked again :
    (forall f, In f env -> t22_session f) -> (forall w f, In w turns -> In f (rw_races w) -> t22_session f) ->
    (forall w, In w turns -> t22_session (rw_sleep w)) -> t22_session unlocked -> (forall f, In f again -> t22_session f) ->
    t22_session (fun c => (st22p_tx_get_frame env turns unlocked again c).2)
| t22_write i g : t22_session (tp_write i g)
| t22_put app i : (forall e, t22_session (app e)) -> t22_session (fun c => (st22p_tx_put_frame app i c).2)
| t22_put_ext app i ext : (forall e, t22_session (app e)) -> t22_session (fun c => (st22p_tx_put_ext_frame app i ext c).2)
| t22_abort i : t22_session (fun c => (st22p_tx_put_frame_abort i c).2)
| t22_wake : t22_session (fun c => (st22p_tx_wake_block c).2)
| t22_timeout ns : t22_session (fun c => (st22p_tx_set_block_timeout ns c).2)
| t22_free : t22_session (fun c => (st22p_tx_begin_free c).2).

(** ** Facts *)

Notation t22_ok c c' := (tp_ok true None nothing 0 c c').
Notation t22_armed := (tp_armed_but None).
Notation t22_good f := (forall c : st22p_tx_ctx, t22_armed c -> t22_ok c (f c)).

Lemma t22_more_good g : t22_good (t22_more g).
Proof. intros c Ha. by apply tp_ok_fields. Qed.

Lemma t22_fill_good i g : t22_good (t22_fill i g).
Proof. intros c Ha. apply tp_ok_upd; auto. Qed.

Lemma t22_fill_stat i g c j : tp_stat (tp_at (t22_fill i g c) j) = tp_stat (tp_at c j).
Proof.
  assert (H : tp_moves c [] (t22_fill i g c)) by (by apply tp_moves_upd). symmetry. apply (inj Some), (mv_run _ _ _ H j).
Qed.

(** A store to the status of a slot that leaves it live, or frees it without a word. *)
Lemma t22_stat_ok i old new (c : st22p_tx_ctx) :
  t22_armed c -> tp_stat (tp_at c i) = old -> tx_live old -> tx_allowed true old new = true ->
  new <> TX_FRAME_DROPPED -> old <> TX_FRAME_IN_TRANSMITTING -> t22_ok c (tp_set_stat i new c).
Proof.
  intros Ha Hs Hl Hal Hn Ho. assert (Hc : tp_done_called (tp_at c i) = false) by (apply Ha; [done|]; by rewrite Hs).
  assert (Hi : (i < length (tp_framebuffs c))%nat) by (eapply tp_range; [done|]; by destruct old).
  pose proof (tp_ok_stat true None i old new c Ha Hi Hs Hal) as H.
  assert (owes old new i = nothing /\ uncounted old new = 0) as [E1 E2] by (by destruct old, new).
  rewrite E1, E2 in H. apply H. right. split; [by intros -> |done].
Qed.

Section Callbacks.
Context (app : tp_event -> st22p_tx_ctx -> st22p_tx_ctx).
Hypothesis app_good : forall e, t22_good (app e).

Lemma t22_encode_ready_good : t22_good (tx_st22p_encode_notify_frame_ready app).
Proof.
  intros c Ha. unfold tx_st22p_encode_notify_frame_ready. case_if; [by apply tp_ok_refl|].
  set (c1 := if t22_encoder_notified _ then _ else c).
  assert (H1 : t22_ok c c1) by (unfold c1; case_if; [by apply tp_fire_note_good|by apply tp_ok_refl]).
  eapply tp_ok_then; [exact H1|]. intros A1. case_if; [by apply tp_ok_note|by apply tp_ok_refl].
Qed.

Lemma t22_next_loop_ok fuel n env c :
  (forall f, In f env -> t22_good f) -> t22_armed c -> t22_ok c (t22_next_loop app fuel n env c).2.
Proof.
  revert n env c. induction fuel as [|fuel IH]; intros n env c He Ha; cbn [t22_next_loop]; [by apply tp_ok_refl|].
  unfold tx_st22p_newest_available. destruct (tp_newest_available c TX_FRAME_ENCODED) as [i|] eqn:Ei; [|by apply tp_ok_refl].
  pose proof (tp_newest_some _ _ _ Ei) as Hs. pose proof (tp_late_ok true app app_good i c Ha Hs) as H1.
  unfold tx_st22p_if_frame_late. destruct (tp_if_frame_late app i c) as [late c1] eqn:El. cbn [snd] in H1. destruct late.
  - case_if; [done|]. eapply tp_ok_then; [exact H1|]. intros A1. by apply IH.
  - assert (c1 = c) as -> by (revert El; unfold tp_if_frame_late; case_if; congruence).
    destruct env as [|e env]; [by apply (tp_ok_take true i TX_FRAME_IN_TRANSMITTING c); auto|].
    assert (He1 : t22_ok c (e c)) by (apply He; [by left|done]). eapply tp_ok_then; [exact He1|]. intros A1.
    destruct (tp_is TX_FRAME_ENCODED (e c) i) eqn:Es.
    + apply bool_decide_eq_true in Es. by apply (tp_ok_take true i TX_FRAME_IN_TRANSMITTING (e c)); auto.
    + apply IH; [|done]. intros f Hf. apply He. by right.
Qed.

Lemma t22_next_good env meta :
  (forall f, In f env -> t22_good f) -> t22_good (fun c => (tx_st22p_next_frame app env meta c).2).
Proof.
  intros He c Ha. unfold tx_st22p_next_frame. case_if; [by apply tp_ok_refl|].
  pose proof (t22_next_loop_ok (t22_next_fuel env) 0 env c He Ha) as H1.
  destruct (t22_next_loop app (t22_next_fuel env) 0 env c) as [[i|] c1]; [done|]. cbn [snd] in *.
  eapply tp_ok_then; [exact H1|]. intros A1. case_if; [|by apply tp_ok_refl].
  case_match; [by apply tp_notify_good|by apply tp_ok_refl].
Qed.

Lemma t22_encode_put_good i data_size result : t22_good (fun c => (tx_st22p_encode_put_frame app i data_size result c).2).
Proof.
  intros c Ha. unfold tx_st22p_encode_put_frame. case_if; [by apply tp_ok_refl|].
  destruct (tp_is TX_FRAME_IN_ENCODING c i) eqn:Es; cbn [negb]; [|by apply tp_ok_refl]. apply bool_decide_eq_true in Es.
  cbn [snd]. set (c1 := t22_fill i _ c). set (c2 := t22_more _ c1).
  assert (H2 : t22_ok c c2) by (eapply tp_ok_then; [by apply t22_fill_good|]; apply t22_more_good).
  assert (S2 : tp_stat (tp_at c2 i) = TX_FRAME_IN_ENCODING).
  { change (tp_stat (tp_at c1 i) = TX_FRAME_IN_ENCODING). unfold c1. by rewrite t22_fill_stat. }
  clearbody c2. eapply tp_ok_then; [exact H2|]. intros A2. case_if.
  - eapply tp_ok_then; [|intros A; by apply t22_more_good].
    eapply tp_ok_then; [by eapply (t22_stat_ok i TX_FRAME_IN_ENCODING TX_FRAME_FREE c2)|]. by apply tp_notify_good.
  - by eapply (t22_stat_ok i TX_FRAME_IN_ENCODING TX_FRAME_ENCODED c2).
Qed.

Lemma t22_second_fields_ok b i c :
  t22_armed c -> tp_stat (tp_at c i) = TX_FRAME_IN_USER ->
  let c' := if c22_interlaced (t22_ops (tp_media c)) then t22_second_fields b i c else c in
  t22_ok c c' /\ tp_stat (tp_at c' i) = TX_FRAME_IN_USER.
Proof.
  intros Ha Hs. cbn zeta. case_if; [|by split; [apply tp_ok_refl|]]. unfold t22_second_fields.
  split; [by apply t22_fill_good|by rewrite t22_fill_stat].
Qed.

(** The end of both ways to put a frame. *)
Lemma t22_put_ready_ok i c c1 :
  t22_ok c c1 -> tp_stat (tp_at c1 i) = TX_FRAME_IN_USER ->
  t22_ok c (tx_st22p_encode_notify_frame_ready app (tp_set_stat i TX_FRAME_READY c1)).
Proof.
  intros H1 S1. eapply tp_ok_then; [exact H1|]. intros A1.
  eapply tp_ok_then; [by eapply (t22_stat_ok i TX_FRAME_IN_USER TX_FRAME_READY c1)|]. by apply t22_encode_ready_good.
Qed.

Lemma t22_put_good i : t22_good (fun c => (st22p_tx_put_frame app i c).2).
Proof.
  intros c Ha. unfold st22p_tx_put_frame. case_if; [by apply tp_ok_refl|].
  destruct (tp_is TX_FRAME_IN_USER c i) eqn:Es; cbn [negb]; [|by apply tp_ok_refl]. apply bool_decide_eq_true in Es.
  case_if; [by apply tp_ok_refl|]. cbn [snd]. destruct (t22_second_fields_ok (fm_second_field (tx_st22p_user_frame (tp_media c) (tp_frame (tp_at c i)))) i c Ha Es) as [H1 S1].
  set (c1 := if c22_interlaced _ then _ else c) in *. clearbody c1.
  set (c2 := if t22_derive _ then _ else _). eapply (tp_ok_then true None _ _ c c2); [|intros A; by apply tp_ok_fields].
  unfold c2. case_if; [|by apply t22_put_ready_ok].
  eapply tp_ok_then; [exact H1|]. intros A1. by eapply (t22_stat_ok i TX_FRAME_IN_USER TX_FRAME_ENCODED c1).
Qed.

Lemma t22_put_ext_good i ext : t22_good (fun c => (st22p_tx_put_ext_frame app i ext c).2).
Proof.
  intros c Ha. unfold st22p_tx_put_ext_frame. do 3 (case_if; [by apply tp_ok_refl|]).
  destruct (tp_is TX_FRAME_IN_USER c i) eqn:Es; cbn [negb]; [|by apply tp_ok_refl]. apply bool_decide_eq_true in Es.
  set (c1 := t22_fill i _ c). assert (H1 : t22_ok c c1) by (by apply t22_fill_good).
  assert (S1 : tp_stat (tp_at c1 i) = TX_FRAME_IN_USER) by (unfold c1; by rewrite t22_fill_stat).
  clearbody c1. case_if; [done|]. cbn [snd].
  destruct (t22_second_fields_ok (fm_second_field (tx_st22p_user_frame (tp_media c1) (tp_frame (tp_at c1 i)))) i c1 (tp_ok_armed _ _ _ _ _ _ H1) S1) as [H2 S2].
  set (c2 := if c22_interlaced _ then _ else c1) in *. clearbody c2.
  set (c3 := tx_st22p_encode_notify_frame_ready app _). eapply (tp_ok_then true None _ _ c c3); [|intros A; by apply tp_ok_fields].
  apply t22_put_ready_ok; [|done]. eapply tp_ok_then; [exact H1|done].
Qed.

End Callbacks.

(** Others that act between the parts of a call. *)
Definition t22_keeps (c0 : st22p_tx_ctx) : (st22p_tx_ctx -> st22p_tx_ctx) -> Prop := keeps_inv (fun c => t22_ok c0 c).
Lemma t22_good_keeps c0 f : t22_good f -> t22_keeps c0 f.
Proof. intros Hf c Hc. eapply tp_ok_then; [exact Hc|]. apply Hf. Qed.

Lemma t22_all_keep c0 env : (forall f, In f env -> t22_good f) -> Forall (t22_keeps c0) env.
Proof. intros He. apply Forall_forall. intros f Hf. apply t22_good_keeps, He. by apply list_elem_of_In. Qed.

Lemma t22_encode_claim_ok c0 env c :
  Forall (t22_keeps c0) env -> t22_ok c0 c ->
  t22_ok c0 (tx_st22p_claim_available TX_FRAME_READY TX_FRAME_IN_ENCODING env c).2.
Proof.
  intros He Hc. unfold tx_st22p_claim_available, tp_claim_available.
  refine (proj1 (ring_claim_rule (fun c => t22_ok c0 c) (fun _ _ => True) _ _ _ _ env c He Hc)).
  clear. intros i c Hc Hi. split; [|done].
  assert (Hs : tp_stat (tp_at c i) = TX_FRAME_READY).
  { destruct Hi as [Hi|Hi]; [by apply tp_available_some in Hi as [Hi _]|by apply bool_decide_eq_true in Hi]. }
  eapply tp_ok_then; [exact Hc|]. intros A. by eapply (t22_stat_ok i TX_FRAME_READY TX_FRAME_IN_ENCODING c).
Qed.

Lemma t22_ready_wait_good waits : (forall w, In w waits -> t22_good (rw_sleep w)) -> t22_good (t22_ready_wait waits).
Proof.
  induction waits as [|w waits IH]; intros Hw c Ha; cbn [t22_ready_wait]; (case_if; [by apply tp_ok_refl|]); [by apply tp_ok_refl|].
  assert (H1 : t22_ok c (rw_sleep w c)) by (apply Hw; [by left|done]). case_if; [done|].
  eapply tp_ok_then; [exact H1|]. apply IH. intros w' Hw'. apply Hw. by right.
Qed.

Lemma t22_encode_get_good env waits unlocked again :
  (forall f, In f env -> t22_good f) -> (forall w f, In w waits -> In f (rw_races w) -> t22_good f) ->
  (forall w, In w waits -> t22_good (rw_sleep w)) -> t22_good unlocked -> (forall f, In f again -> t22_good f) ->
  t22_good (fun c => (tx_st22p_encode_get_frame env waits unlocked again c).2).
Proof.
  intros He Hr Hs Hu Hg c Ha. unfold tx_st22p_encode_get_frame. case_if; [by apply tp_ok_refl|].
  case_if.
  { cbn [snd]. case_if; [|by apply tp_ok_refl]. unfold tx_st22p_encode_get_block_wait.
    eapply tp_ok_then; [by apply t22_ready_wait_good|]. apply t22_more_good. }
  set (c1 := t22_more _ c). assert (H1 : t22_ok c c1) by (by apply t22_more_good). clearbody c1. clear E E0.
  set (res := rx_block_get _ _ _ _ _ _ _ _ _ c1).
  assert (H2 : t22_ok c res.2).
  { refine (proj1 (rx_block_get_rule (fun c' => t22_ok c c') (fun _ _ => True) _ _ _ _ _ _ _ env waits unlocked again c1 _ _ _ _ _ H1)).
    - intros env' c' He' Hc'. split; [by apply t22_encode_claim_ok|done].
    - intros c' Hc'. split; [|done]. eapply tp_ok_then; [exact Hc'|]. apply t22_more_good.
    - by apply t22_all_keep.
    - apply Forall_forall. intros w Hw%list_elem_of_In. split; [apply t22_all_keep; eauto|]. by apply t22_good_keeps, Hs.
    - by apply t22_good_keeps.
    - done.
    - by apply t22_all_keep. }
  destruct res as [[i|] c2]; [|done]. cbn [snd] in *. eapply tp_ok_then; [exact H2|]. apply t22_more_good.
Qed.

Lemma t22_wait_loop_ok cnt turns c :
  (forall w f, In w turns -> In f (rw_races w) -> t22_good f) -> (forall w, In w turns -> t22_good (rw_sleep w)) ->
  t22_armed c -> tp_claimed true c (t22_wait_loop cnt turns c).
Proof.
  revert c. induction turns as [|w turns IH]; intros c Hr Hs Ha; cbn [t22_wait_loop]; (case_if; [by apply tp_ok_refl|]); case_if.
  - eapply tp_claimed_then; [by apply (t22_more_good (fun x => x <| t22_wake_pending := false |>))|]. intros A1.
    pose proof (tp_claim_ok true [] (t22_wake_clear c) ltac:(done) A1) as H1.
    unfold tx_st22p_claim_available. by destruct (tp_claim_available _ _ _ _) as [[i|] c1].
  - case_if; by apply tp_ok_refl.
  - eapply tp_claimed_then; [by apply (t22_more_good (fun x => x <| t22_wake_pending := false |>))|]. intros A1.
    pose proof (tp_claim_ok true (rw_races w) (t22_wake_clear c) ltac:(intros f; apply Hr; by left) A1) as H1.
    unfold tx_st22p_claim_available. destruct (tp_claim_available _ _ _ _) as [[i|] c1]; [done|].
    eapply tp_claimed_then; [exact H1|]. apply IH; [intros w' f Hw; apply Hr; by right|intros w' Hw; apply Hs; by right].
  - case_if; [by apply tp_ok_refl|]. assert (H1 : t22_ok c (rw_sleep w c)) by (apply Hs; [by left|done]).
    case_if; [done|]. eapply tp_claimed_then; [exact H1|].
    apply IH; [intros w' f Hw; apply Hr; by right|intros w' Hw; apply Hs; by right].
Qed.

Lemma t22_hand_out_ok i c c1 : tp_claimed true c (Some i, c1) -> t22_ok c (t22_hand_out i c1).
Proof.
  intros H. pose proof (tp_hand_out_ok true i c c1 H) as H1. eapply tp_ok_then; [exact H1|]. intros A1.
  unfold t22_hand_out. case_if; [|by apply tp_ok_refl].
  eapply tp_ok_then; [by apply (t22_fill_good i)|]. apply t22_more_good.
Qed.

Lemma t22_get_good env turns unlocked again :
  (forall f, In f env -> t22_good f) -> (forall w f, In w turns -> In f (rw_races w) -> t22_good f) ->
  (forall w, In w turns -> t22_good (rw_sleep w)) -> t22_good unlocked -> (forall f, In f again -> t22_good f) ->
  t22_good (fun c => (st22p_tx_get_frame env turns unlocked again c).2).
Proof.
  intros He Hr Hs Hu Hg c Ha. unfold st22p_tx_get_frame. do 2 (case_if; [by apply tp_ok_refl|]).
  set (c0 := c <| tp_stat_get_frame_try ::= _ |>). assert (H0 : t22_ok c c0) by (by apply tp_ok_fields).
  assert (H1 : tp_claimed true c (t22_get_claim env turns unlocked again c0)).
  { eapply tp_claimed_then; [exact H0|]. intros A0. unfold t22_get_claim.
    pose proof (tp_claim_ok true env c0 He A0) as H1. unfold tx_st22p_claim_available at 1.
    destruct (tp_claim_available _ _ env c0) as [[i|] c1]; [done|]. case_if; [done|].
    eapply tp_claimed_then; [exact H1|]. intros A1. pose proof (t22_wait_loop_ok (tp_wake_block_cnt c1) turns c1 Hr Hs A1) as H2.
    destruct (t22_wait_loop _ turns c1) as [[i|] c2]; [done|]. cbn [tp_claimed] in H2.
    assert (H3 : t22_ok c1 (unlocked c2)) by (eapply tp_ok_then; [exact H2|apply Hu]). case_if; [done|].
    eapply tp_claimed_then; [exact H3|]. intros A3. by apply tp_claim_ok. }
  destruct (t22_get_claim env turns unlocked again c0) as [[i|] c3]; [|done]. by apply t22_hand_out_ok.
Qed.

Lemma t22_session_good f : t22_session f -> t22_good f.
Proof.
  induction 1; intros c Ha.
  - by apply tp_ok_refl.
  - eapply tp_ok_then; eauto.
  - by apply tp_ok_fields.
  - by apply (t22_next_good app).
  - by apply (tp_done_good true app).
  - by apply t22_encode_get_good.
  - by apply (t22_encode_put_good app).
  - eapply tp_ok_then; [by apply (t22_more_good (fun x => x <| t22_encode_wake_pending := true |>))|]. intros A. by apply tp_ok_note.
  - by apply t22_more_good.
  - unfold tx_st22p_encode_dump. case_if; [by apply tp_ok_refl|]. by apply tp_ok_fields.
  - by apply t22_get_good.
  - unfold tp_write. case_if; [|by apply tp_ok_refl]. by apply t22_fill_good.
  - by apply (t22_put_good app).
  - by apply (t22_put_ext_good app).
  - by apply tp_abort_good.
  - apply (tp_session_good true _ (ts_wake true) c Ha).
  - apply (tp_session_good true _ (ts_timeout true ns) c Ha).
  - unfold st22p_tx_begin_free. case_if; [by apply tp_ok_refl|]. cbn [snd]. unfold tx_st22p_block_wake_all, tx_st22p_encode_block_wake.
    set (c1 := t22_more _ (c <| tp_destroying := true |>)). set (c2 := t22_more _ (tp_emit TpSignal c1)).
    assert (H1 : t22_ok c c1) by (by apply tp_ok_fields).
    eapply (tp_ok_then true None _ _ c c2); [|intros A; by apply tp_ok_note]. eapply tp_ok_then; [exact H1|]. intros A1.
    eapply (tp_ok_then true None _ _ c1 (tp_emit TpSignal c1)); [by apply tp_ok_note|]. apply t22_more_good.
Qed.

(** Every history of a compressed video session accounts for the frames that were sent or
    dropped as late. *)
Lemma st22p_tx_frames_accounted f app src fb iova max notified blocks ops c :
  t22_session f -> (forall e, t22_session (app e)) ->
  st22p_tx_create app src fb iova max notified blocks ops = Some c -> tp_accounted true (f c).
Proof.
  intros Hf Happ. unfold st22p_tx_create. case_if; [done|]. destruct (st_frame_period_ns _); [done|].
  do 2 (case_if; [done|]). destruct (tx_st22p_init_src_fbs _ _ _ _ _ _) as [frames|]; [|done].
  intros [= <-]. apply tp_accounted_good; [by apply t22_session_good|]. intros e. by apply t22_session_good.
Qed.

(** The loop of [tx_st22p_next_frame] ends: more turns change nothing. *)
Lemma t22_next_loop_fuel app a b n env c :
  0 <= n < TX_DROP_MAX_BATCH ->
  TX_DROP_MAX_BATCH - n + arr_len env + 1 <= Z.of_nat a -> TX_DROP_MAX_BATCH - n + arr_len env + 1 <= Z.of_nat b ->
  t22_next_loop app a n env c = t22_next_loop app b n env c.
Proof.
  unfold arr_len. revert b n env c. induction a as [|a IH]; intros b n env c Hn Ha Hb; [lia|]. destruct b as [|b]; [lia|].
  cbn [t22_next_loop]. destruct (tx_st22p_newest_available c TX_FRAME_ENCODED) as [i|]; [|done].
  destruct (tx_st22p_if_frame_late app i c) as [[|] c1].
  - destruct (Z.geb_spec (n + 1) TX_DROP_MAX_BATCH); [done|]. apply IH; lia.
  - destruct env as [|e env]; [done|]. case_if; [done|]. cbn [length] in *. apply IH; lia.
Qed.

(** ** Concrete sessions *)

Definition demo22_ops : st22p_tx_ops :=
  mk_st22p_tx_ops 64 32 ST_FPS_P50 false ST_FRAME_FMT_YUV422PLANAR10LE ST22_CODEC_JPEGXS 20000 3 0 true true true.
Definition demo22_idle (e : tp_event) (c : st22p_tx_ctx) : st22p_tx_ctx := c.
Definition demo22_session : option st22p_tx_ctx :=
  st22p_tx_create demo22_idle (fun i => 4096 * (Z.of_nat i + 1)) (fun i => 4096 * (Z.of_nat i + 9)) id 20000 true false demo22_ops.
Definition demo22_meta : st22_tx_frame_meta := mk_st22_tx_meta false ST10_TIMESTAMP_FMT_TAI 0 0 0.
Definition demo22_take (c : st22p_tx_ctx) : st22p_tx_ctx :=
  let '(fb, c) := st22p_tx_get_frame [] [] id [] c in
  match fb with Some i => (st22p_tx_put_frame demo22_idle i c).2 | None => c end.
Definition demo22_encode (result : Z) (c : st22p_tx_ctx) : st22p_tx_ctx :=
  let '(fb, c) := tx_st22p_encode_get_frame [] [] id [] c in
  match fb with Some i => (tx_st22p_encode_put_frame demo22_idle i 10000 result c).2 | None => c end.
Definition demo22_send (c : st22p_tx_ctx) : option Z * st22p_tx_ctx :=
  match tx_st22p_next_frame demo22_idle [] demo22_meta c with
  | (inr (i, meta), c) =>
      (Some (tp_seq_number (tp_at c i)), (tx_st22p_frame_done demo22_idle id i meta c).2)
  | (inl _, c) => (None, c)
  end.

(** The encoder takes READY slots by their index. When a slot is filled again while one
    behind it waits, the newer frame is encoded first and the transport, which finds no
    older one encoded, sends it first. *)
Lemma st22p_encode_overtakes :
  (c ← demo22_session;
   let c := demo22_encode 0 (demo22_take (demo22_take c)) in
   let '(first, c) := demo22_send c in
   let c := demo22_encode 0 (demo22_take c) in
   let '(second, c) := demo22_send c in
   let '(third, _) := demo22_send (demo22_encode 0 c) in
   Some (first, second, third)) = Some (Some 0, Some 2, Some 1).
Proof. vm_compute. reflexivity. Qed.

(** A frame whose encoding fails is freed without [notify_frame_done]. *)
Lemma st22p_encode_fail_not_told :
  (c ← demo22_session; Some (tp_trace (demo22_encode (-1) (demo22_take c))))
  = Some [TpAvailable; TpStat 0 TX_FRAME_FREE TX_FRAME_IN_USER; TpGot 0; TpStat 0 TX_FRAME_IN_USER TX_FRAME_READY; TpEncodeReady;
          TpStat 0 TX_FRAME_READY TX_FRAME_IN_ENCODING; TpStat 0 TX_FRAME_IN_ENCODING TX_FRAME_FREE; TpAvailable].
Proof. vm_compute. reflexivity. Qed.
