(* ===== verification/PipelineRx20.v ===== *)
(** The frame slots of the ST 2110-20 receive pipeline,
    lib/src/st2110/pipeline/st20_pipeline_rx.c. The transport hands over video frames
    ([rx_st20p_frame_ready]); they reach the application as they are ([derive]), converted
    by the library when the application takes them ([internal_converter]), converted by a
    plugin in between, or converted packet by packet while they are received
    ([ST20P_RX_FLAG_PKT_CONVERT]). The scan, the claim and the blocking get are those of
    [RxRing]. [app] is what the application does to the session while
    [notify_frame_available] runs. Pixels are those of [FrameConvert]; here a conversion of
    packets leaves the list of what was written where. A put has no compare-and-exchange:
    [st20p_rx_put_frame] and its like are a whole call that nobody interrupts,
    [r20_put_check], [r20_put_give] and [r20_put_free] or [r20_put_converted] its steps,
    between which other threads act. *)
From S2P Require Import Prelude Fmt TxCommon RxRing.

Inductive st20p_rx_frame_status :=
| ST20P_RX_FRAME_FREE | ST20P_RX_FRAME_READY | ST20P_RX_FRAME_IN_CONVERTING | ST20P_RX_FRAME_CONVERTED
| ST20P_RX_FRAME_IN_USER.
#[export] Instance st20p_rx_frame_status_eq : EqDecision st20p_rx_frame_status.
Proof. solve_decision. Defined.

(** [struct st20_rx_frame_meta], the fields the pipeline reads; [vm_tp] are the results of
    the timing parser per port, where there are any. *)
Record st20_rx_frame_meta := mk_st20_rx_meta {
  vm_second_field : bool;
  vm_tfmt : st10_timestamp_fmt;
  vm_timestamp : Z;
  vm_rtp_timestamp : Z;
  vm_status : st_frame_status;
  vm_frame_total_size : Z;
  vm_timestamp_first_pkt : Z;
  vm_pkts_total : Z;
  vm_pkts_recv : list Z;
  vm_tp : list (option Z);
  vm_user_meta : option (list Z);
}.

(** [struct st_frame]: geometry and buffers in [vf_frame], the rest per frame received.
    [vf_addr] is [addr[0]] of a source frame, the buffer of the transport. *)
Record rx20_frame := mk_rx20_frame {
  vf_frame : st_frame;
  vf_addr : option Z;
  vf_opaque : Z;
  vf_second_field : bool;
  vf_tfmt : st10_timestamp_fmt;
  vf_timestamp : Z;
  vf_rtp_timestamp : Z;
  vf_status : st_frame_status;
  vf_receive_timestamp : Z;
  vf_pkts_total : Z;
  vf_pkts_recv : list Z;
  vf_tp : list (option Z);
  vf_user_meta : option (list Z);
}.
#[export] Instance eta_rx20_frame : Settable rx20_frame := fun f =>
  mk_rx20_frame (vf_frame f) (vf_addr f) (vf_opaque f) (vf_second_field f) (vf_tfmt f) (vf_timestamp f) (vf_rtp_timestamp f)
    (vf_status f) (vf_receive_timestamp f) (vf_pkts_total f) (vf_pkts_recv f) (vf_tp f) (vf_user_meta f).

(** The calls that give a frame back are a load of the status, the call of the transport and
    a plain store: how far the thread that makes one on a slot is. *)
Inductive put_call := PutFrame | PutAbort | PutConverted (result : Z).
Inductive put_pc := PutIdle | PutChecked (p : put_call) | PutGave (p : put_call).
#[export] Instance put_call_eq : EqDecision put_call.
Proof. solve_decision. Defined.
#[export] Instance put_pc_eq : EqDecision put_pc.
Proof. solve_decision. Defined.

(** [struct st20p_rx_frame]; [r20_user_meta] is the [user_meta_data_size] bytes in use,
    [r20_put] is no field of it but the call that is under way for the slot. *)
Record st20p_rx_frame := mk_st20p_rx_frame {
  r20_stat : st20p_rx_frame_status;
  r20_src : rx20_frame;
  r20_dst : rx20_frame;
  r20_user_meta_buffer_size : Z;
  r20_user_meta : list Z;
  r20_put : put_pc;
}.
#[export] Instance eta_st20p_rx_frame : Settable st20p_rx_frame := fun fb =>
  mk_st20p_rx_frame (r20_stat fb) (r20_src fb) (r20_dst fb) (r20_user_meta_buffer_size fb) (r20_user_meta fb) (r20_put fb).

(** Where a converter comes from ([rx_st20p_get_converter]): a plugin, the table of the
    library, or nowhere. *)
Inductive rx20_converter := ConvPlugin | ConvInternal | ConvNone.
#[export] Instance rx20_converter_eq : EqDecision rx20_converter.
Proof. solve_decision. Defined.

(** What [rx_st20p_packet_convert] hands to a conversion routine: the slot, the format, the
    place in the planes and the number of pixel groups. *)
Record pkt_job := mk_pkt_job { pj_slot : nat; pj_fmt : st_frame_fmt; pj_offsets : list Z; pj_pg_cnt : Z }.

(** [struct st20_rx_uframe_pg_meta], the fields used. *)
Record st20_rx_uframe_pg_meta := mk_pg_meta { pg_row_number : Z; pg_row_offset : Z; pg_cnt : Z; pg_timestamp : Z }.

(** The fields of [st20p_rx_ops] that are consulted. *)
Record st20p_rx_ops := mk_st20p_rx_ops {
  o20_num_port : Z;
  o20_width : Z;
  o20_height : Z;
  o20_interlaced : bool;
  o20_transport_fmt : st20_fmt;
  o20_transport_linesize : Z;
  o20_output_fmt : st_frame_fmt;
  o20_framebuff_cnt : Z;
  o20_ext_frames : option (list st_ext_frame);
  o20_has_query_ext_frame : bool;
  o20_flags : Z;
  o20_notify_frame_available : bool;
}.
Definition ST20P_RX_FLAG_EXT_FRAME : Z := Z.shiftl 1 2.
Definition ST20P_RX_FLAG_PKT_CONVERT : Z := Z.shiftl 1 3.
Definition ST20P_RX_FLAG_BLOCK_GET : Z := Z.shiftl 1 15.
Definition ST20P_RX_FLAG_RECEIVE_INCOMPLETE_FRAME : Z := Z.shiftl 1 16.
Definition ST20P_RX_FLAG_AUTO_DETECT : Z := Z.shiftl 1 18.

Record st20p_rx_ctx := mk_st20p_rx_ctx {
  r20_destroying : bool;
  r20_ops : st20p_rx_ops;
  r20_producer_idx : nat;
  r20_convert_idx : nat;
  r20_consumer_idx : nat;
  r20_framebuffs : list st20p_rx_frame;
  r20_convert_impl : bool;
  r20_internal_converter : bool;
  r20_ready : bool;
  r20_derive : bool;
  r20_dynamic_ext_frame : bool;
  r20_block_get : bool;
  r20_block_timeout_ns : Z;
  r20_wake_pending : bool;
  r20_stat_convert_fail : Z;
  r20_stat_busy : Z;
  r20_stat_get_frame_try : Z;
  r20_stat_get_frame_succ : Z;
  r20_stat_put_frame : Z;
  r20_frames_received : Z;
  r20_frames_dropped : Z;
  r20_frames_corrupted : Z;
  r20_jobs : list pkt_job;
  r20_trace : list rx_event;
}.
#[export] Instance eta_st20p_rx_ctx : Settable st20p_rx_ctx := fun c =>
  mk_st20p_rx_ctx (r20_destroying c) (r20_ops c) (r20_producer_idx c) (r20_convert_idx c) (r20_consumer_idx c) (r20_framebuffs c)
    (r20_convert_impl c) (r20_internal_converter c) (r20_ready c) (r20_derive c) (r20_dynamic_ext_frame c) (r20_block_get c)
    (r20_block_timeout_ns c) (r20_wake_pending c) (r20_stat_convert_fail c) (r20_stat_busy c) (r20_stat_get_frame_try c)
    (r20_stat_get_frame_succ c) (r20_stat_put_frame c) (r20_frames_received c) (r20_frames_dropped c) (r20_frames_corrupted c)
    (r20_jobs c) (r20_trace c).

Definition rx20_frame_zero : rx20_frame :=
  mk_rx20_frame (st_frame_blank ST_FRAME_FMT_YUV422PLANAR10LE 0 0 false 0) None 0 false ST10_TIMESTAMP_FMT_TAI 0 0
    ST_FRAME_STATUS_COMPLETE 0 0 [0; 0] [None; None] None.
Definition r20_at (c : st20p_rx_ctx) (i : nat) : st20p_rx_frame :=
  default (mk_st20p_rx_frame ST20P_RX_FRAME_FREE rx20_frame_zero rx20_frame_zero 0 [] PutIdle) (r20_framebuffs c !! i).
Definition r20_upd (i : nat) (g : st20p_rx_frame -> st20p_rx_frame) (c : st20p_rx_ctx) : st20p_rx_ctx :=
  c <| r20_framebuffs ::= alter g i |>.
Definition r20_emit (e : rx_event) (c : st20p_rx_ctx) : st20p_rx_ctx := c <| r20_trace ::= fun t => t ++ [e] |>.
Definition r20_set_stat (i : nat) (s : st20p_rx_frame_status) : st20p_rx_ctx -> st20p_rx_ctx :=
  r20_upd i (fun fb => fb <| r20_stat := s |>).
Definition r20_is (s : st20p_rx_frame_status) (fb : st20p_rx_frame) : bool := bool_decide (r20_stat fb = s).
Definition r20_pkt_convert (c : st20p_rx_ctx) : bool := has_flag (o20_flags (r20_ops c)) ST20P_RX_FLAG_PKT_CONVERT.

Definition rx_st20p_next_idx (c : st20p_rx_ctx) (idx : nat) : nat := ring_next_idx (length (r20_framebuffs c)) idx.

Definition rx_st20p_block_wake (c : st20p_rx_ctx) : st20p_rx_ctx := r20_emit RvWake (c <| r20_wake_pending := true |>).

Definition rx_st20p_next_available (c : st20p_rx_ctx) (idx_start : nat) (desired : st20p_rx_frame_status) : option nat :=
  ring_next_available (r20_is desired) (r20_framebuffs c) idx_start.

Definition rx_st20p_claim_available (idx_start : nat) (desired claimed : st20p_rx_frame_status)
    (env : list (st20p_rx_ctx -> st20p_rx_ctx)) (c : st20p_rx_ctx) : option nat * st20p_rx_ctx :=
  ring_claim (fun c => rx_st20p_next_available c idx_start desired) (fun i c => r20_is desired (r20_at c i))
    (fun i => r20_set_stat i claimed) env c.

Definition r20_busy (c : st20p_rx_ctx) : st20p_rx_ctx :=
  c <| r20_stat_busy ::= fun n => i32 (n + 1) |> <| r20_frames_dropped ::= fun n => u64 (n + 1) |>.

(** The slot that is being converted for a timestamp: [inl] is a slot or none at all,
    [inr] a wrong timestamp. The second search starts at the slot the first one found. *)
Definition r20_find_converting (timestamp : Z) (c : st20p_rx_ctx) : option nat + unit :=
  match rx_st20p_next_available c (r20_producer_idx c) ST20P_RX_FRAME_IN_CONVERTING with
  | None => inl None
  | Some i =>
      if vf_timestamp (r20_dst (r20_at c i)) =? timestamp then inl (Some i)
      else
        match rx_st20p_next_available c i ST20P_RX_FRAME_IN_CONVERTING with
        | None => inl None
        | Some j => if vf_timestamp (r20_dst (r20_at c j)) =? timestamp then inl (Some j) else inr tt
        end
  end.

(** The offsets of a run of pixel groups in the planes of the frame, per output format. *)
Definition r20_job (fmt : st_frame_fmt) (i : nat) (meta : st20_rx_uframe_pg_meta) (f : st_frame) : option pkt_job :=
  let at_ plane scale := arr_get 0 (fr_linesize f) plane * pg_row_number meta + pg_row_offset meta * scale in
  let job offsets := Some (mk_pkt_job i fmt offsets (pg_cnt meta)) in
  match fmt with
  | ST_FRAME_FMT_YUV422PLANAR10LE | ST_FRAME_FMT_YUV422PLANAR8 | ST_FRAME_FMT_YUV420PLANAR8 => job [at_ 0 2; at_ 1 1; at_ 2 1]
  | ST_FRAME_FMT_Y210 => job [at_ 0 4]
  | ST_FRAME_FMT_UYVY => job [at_ 0 2]
  | _ => None
  end.

(** [convert] is the answer of the conversion routine. *)
Definition rx_st20p_packet_convert (convert : pkt_job -> Z) (meta : st20_rx_uframe_pg_meta) (c : st20p_rx_ctx)
    : Z * st20p_rx_ctx :=
  let '(found, c) :=
    if (pg_row_number meta =? 0) && (pg_row_offset meta =? 0) then
      match rx_st20p_next_available c (r20_producer_idx c) ST20P_RX_FRAME_FREE with
      | Some i =>
          (inl (Some i), r20_upd i (fun fb => fb <| r20_stat := ST20P_RX_FRAME_IN_CONVERTING |>
             <| r20_dst ::= fun f => f <| vf_timestamp := pg_timestamp meta |> |>) c)
      | None => (inl None, c)
      end
    else (r20_find_converting (pg_timestamp meta) c, c) in
  match found with
  | inr _ => (- EIO, c)
  | inl None => (- EBUSY, r20_busy c)
  | inl (Some i) =>
      match r20_job (o20_output_fmt (r20_ops c)) i meta (vf_frame (r20_dst (r20_at c i))) with
      | Some job => (convert job, c <| r20_jobs ::= fun l => l ++ [job] |>)
      | None => (0, c)
      end
  end.

(** The buffer of the application becomes the destination of a slot. *)
Definition r20_ext_dst (ext : st_ext_frame) (f : rx20_frame) : rx20_frame :=
  let planes := Z.to_nat (st_frame_fmt_planes (fr_fmt (vf_frame f))) in
  let put new old := take planes new ++ drop planes old in
  f <| vf_frame ::= fun g =>
         g <| fr_addr ::= put (ext_addr ext) |> <| fr_iova ::= put (ext_iova ext) |> <| fr_linesize ::= put (ext_linesize ext) |>
           <| fr_data_size := ext_size ext |> <| fr_buffer_size := ext_size ext |>
           <| fr_flags ::= fun n => Z.lor n ST_FRAME_FLAG_EXT_BUF |> |>
    <| vf_opaque := ext_opaque ext |>.

(** What [rx_st20p_frame_ready] writes into both frames of a slot. *)
Definition r20_received (num_port : Z) (meta : st20_rx_frame_meta) (f : rx20_frame) : rx20_frame :=
  f <| vf_second_field := vm_second_field meta |> <| vf_tfmt := vm_tfmt meta |> <| vf_timestamp := vm_timestamp meta |>
    <| vf_rtp_timestamp := vm_rtp_timestamp meta |> <| vf_status := vm_status meta |>
    <| vf_receive_timestamp := vm_timestamp_first_pkt meta |> <| vf_pkts_total := vm_pkts_total meta |>
    <| vf_pkts_recv := vm_pkts_recv meta |>
    <| vf_tp := take (Z.to_nat num_port) (vm_tp meta) ++ replicate (2 - Z.to_nat num_port) None |>.

(** The bytes copied into [framebuff->user_meta]; too many are left out. *)
Definition r20_user_meta_copy (meta : st20_rx_frame_meta) (fb : st20p_rx_frame) : list Z :=
  match vm_user_meta meta with
  | Some bytes => if arr_len bytes <=? r20_user_meta_buffer_size fb then bytes else []
  | None => []
  end.

Definition r20_fill (num_port : Z) (derive : bool) (addr : Z) (meta : st20_rx_frame_meta) (fb : st20p_rx_frame) : st20p_rx_frame :=
  let src := r20_received num_port meta (r20_src fb)
               <| vf_addr := Some addr |> <| vf_frame ::= fun g => g <| fr_data_size := vm_frame_total_size meta |> |> in
  fb <| r20_src := src |> <| r20_dst := if derive then src else r20_received num_port meta (r20_dst fb) |>
     <| r20_user_meta := r20_user_meta_copy meta fb |>.

Section Operations.
Context (app : st20p_rx_ctx -> st20p_rx_ctx).
(** The answer of [query_ext_frame]. *)
Context (query : st20_rx_frame_meta -> Z + st_ext_frame).

Definition rx_st20p_notify_frame_available (c : st20p_rx_ctx) : st20p_rx_ctx :=
  let c := if o20_notify_frame_available (r20_ops c) then app (r20_emit RvAvailable c) else c in
  if r20_block_get c then r20_emit RvSignal c else c.

(** The buffer of the application for a converted frame: [inl] is the error answered. *)
Definition r20_query_dst (i : nat) (meta : st20_rx_frame_meta) (c : st20p_rx_ctx) : (Z + unit) * st20p_rx_ctx :=
  if negb (r20_dynamic_ext_frame c && negb (r20_derive c)) then (inr tt, c)
  else
    match query meta with
    | inl ret => (inl ret, c)
    | inr ext =>
        let c := r20_upd i (fun fb => fb <| r20_dst ::= r20_ext_dst ext |>) c in
        let ret := st_frame_sanity_check (vf_frame (r20_dst (r20_at c i))) in
        (if ret <? 0 then inl ret else inr tt, c)
    end.

(** A wrong timestamp is answered with 0, so that the transport takes the frame for taken. *)
Definition rx_st20p_frame_ready (addr : Z) (meta : st20_rx_frame_meta) (c : st20p_rx_ctx) : Z * st20p_rx_ctx :=
  if negb (r20_ready c) then (- EBUSY, c)
  else
    let found := if r20_pkt_convert c then r20_find_converting (vm_timestamp meta) c
                 else inl (rx_st20p_next_available c (r20_producer_idx c) ST20P_RX_FRAME_FREE) in
    match found with
    | inr _ => (0, r20_emit (RvAccept addr) c)
    | inl None => (- EBUSY, r20_busy c)
    | inl (Some i) =>
        match r20_query_dst i meta c with
        | (inl ret, c) => (ret, c)
        | (inr _, c) =>
            let direct := r20_derive c || r20_pkt_convert c in
            let stat := if direct then ST20P_RX_FRAME_CONVERTED else ST20P_RX_FRAME_READY in
            let c := r20_upd i (fun fb => r20_fill (o20_num_port (r20_ops c)) (r20_derive c) addr meta fb <| r20_stat := stat |>) c in
            let c := r20_emit (RvAccept addr) c in
            let c := c <| r20_producer_idx := rx_st20p_next_idx c i |> in
            if direct then (0, rx_st20p_notify_frame_available c)
            else
              let c := if r20_convert_impl c then r20_emit RvPluginReady c else c in
              (0, if r20_internal_converter c then rx_st20p_notify_frame_available c else c)
        end
    end.

(** The transport asks for a buffer before a frame; the answer is [addr[0]] and the rest of
    the external frame. *)
Definition rx_st20p_query_ext_frame (meta : st20_rx_frame_meta) (c : st20p_rx_ctx) : (Z + st_ext_frame) * st20p_rx_ctx :=
  if negb (r20_ready c) then (inl (- EBUSY), c)
  else
    match rx_st20p_next_available c (r20_producer_idx c) ST20P_RX_FRAME_FREE with
    | None => (inl (- EBUSY), r20_busy c)
    | Some i =>
        match query meta with
        | inl _ => (inl (- EBUSY), c)
        | inr ext => (inr ext, r20_upd i (fun fb => fb <| r20_src ::= fun f => f <| vf_opaque := ext_opaque ext |> |>) c)
        end
    end.

Definition rx_st20p_convert_get_frame (env : list (st20p_rx_ctx -> st20p_rx_ctx)) (c : st20p_rx_ctx) : option nat * st20p_rx_ctx :=
  if r20_destroying c then (None, c)
  else if negb (r20_ready c) then (None, c)
  else
    match rx_st20p_claim_available (r20_convert_idx c) ST20P_RX_FRAME_READY ST20P_RX_FRAME_IN_CONVERTING env c with
    | (None, c) => (None, c)
    | (Some i, c) => (Some i, c <| r20_convert_idx := rx_st20p_next_idx c i |>)
    end.

(** [st20_rx_put_framebuff(ctx->transport, framebuff->src.addr[0])] *)
Definition r20_give_back (i : nat) (c : st20p_rx_ctx) : st20p_rx_ctx :=
  match vf_addr (r20_src (r20_at c i)) with Some addr => r20_emit (RvBack addr) c | None => c end.

(** *** Giving a frame back, step by step *)

Definition put_from (p : put_call) : st20p_rx_frame_status :=
  match p with PutConverted _ => ST20P_RX_FRAME_IN_CONVERTING | _ => ST20P_RX_FRAME_IN_USER end.
(** A frame that was converted goes on to the application. *)
Definition put_keeps (p : put_call) : bool := match p with PutConverted result => negb (result <? 0) | _ => false end.

(** The guard and the load of the status. *)
Definition r20_put_check (p : put_call) (i : nat) (c : st20p_rx_ctx) : Z * st20p_rx_ctx :=
  if r20_destroying c then (- EIO, c)
  else if negb (r20_is (put_from p) (r20_at c i)) then (- EIO, c)
  else (0, r20_upd i (fun fb => fb <| r20_put := PutChecked p |>) c).

(** The call of the transport. *)
Definition r20_put_give (i : nat) (c : st20p_rx_ctx) : st20p_rx_ctx :=
  match r20_put (r20_at c i) with
  | PutChecked p => if put_keeps p then c else r20_upd i (fun fb => fb <| r20_put := PutGave p |>) (r20_give_back i c)
  | _ => c
  end.

(** The store of FREE and the counters. *)
Definition r20_put_free (i : nat) (c : st20p_rx_ctx) : st20p_rx_ctx :=
  match r20_put (r20_at c i) with
  | PutGave p =>
      let c := r20_upd i (fun fb => fb <| r20_stat := ST20P_RX_FRAME_FREE |> <| r20_put := PutIdle |>) c in
      match p with
      | PutFrame => c <| r20_stat_put_frame ::= fun n => u32 (n + 1) |>
      | PutAbort => c
      | PutConverted _ => c <| r20_stat_convert_fail ::= fun n => i32 (n + 1) |>
      end
  | _ => c
  end.

(** The store of CONVERTED and the notification. *)
Definition r20_put_converted (i : nat) (c : st20p_rx_ctx) : st20p_rx_ctx :=
  match r20_put (r20_at c i) with
  | PutChecked p =>
      if put_keeps p then
        rx_st20p_notify_frame_available
          (r20_upd i (fun fb => fb <| r20_stat := ST20P_RX_FRAME_CONVERTED |> <| r20_put := PutIdle |>) c)
      else c
  | _ => c
  end.

(** The calls as a whole, when no other thread runs in between. *)
Definition rx_st20p_convert_put_frame (i : nat) (result : Z) (c : st20p_rx_ctx) : Z * st20p_rx_ctx :=
  let '(ret, c) := r20_put_check (PutConverted result) i c in
  if ret <? 0 then (ret, c)
  else if result <? 0 then (0, r20_put_free i (r20_put_give i c))
  else (0, r20_put_converted i c).

Definition rx_st20p_convert_dump (c : st20p_rx_ctx) : Z * st20p_rx_ctx :=
  if negb (r20_ready c) then (- EBUSY, c) else (0, c <| r20_stat_convert_fail := 0 |> <| r20_stat_busy := 0 |>).

(** The claim of [st20p_rx_get_frame], with the blocking wait. The library converts a
    frame that was READY. *)
Definition r20_get_claim (env : list (st20p_rx_ctx -> st20p_rx_ctx)) (waits : list (rx_wait st20p_rx_ctx))
    (unlocked : st20p_rx_ctx -> st20p_rx_ctx) (again : list (st20p_rx_ctx -> st20p_rx_ctx)) (c : st20p_rx_ctx)
    : option nat * st20p_rx_ctx :=
  let desired := if r20_internal_converter c then ST20P_RX_FRAME_READY else ST20P_RX_FRAME_CONVERTED in
  rx_block_get (fun env c => rx_st20p_claim_available (r20_consumer_idx c) desired ST20P_RX_FRAME_IN_USER env c)
    r20_wake_pending r20_destroying (fun c => c <| r20_wake_pending := false |>) r20_block_get env waits unlocked again c.

Definition st20p_rx_get_frame (env : list (st20p_rx_ctx -> st20p_rx_ctx)) (waits : list (rx_wait st20p_rx_ctx))
    (unlocked : st20p_rx_ctx -> st20p_rx_ctx) (again : list (st20p_rx_ctx -> st20p_rx_ctx)) (c : st20p_rx_ctx)
    : option nat * st20p_rx_ctx :=
  if r20_destroying c then (None, c)
  else if negb (r20_ready c) then (None, c)
  else
    let c := c <| r20_stat_get_frame_try ::= fun n => u32 (n + 1) |> in
    match r20_get_claim env waits unlocked again c with
    | (None, c) => (None, c)
    | (Some i, c) =>
        let c := c <| r20_consumer_idx := rx_st20p_next_idx c i |> in
        let c := r20_upd i (fun fb => fb <| r20_dst ::= fun f => f <| vf_user_meta :=
                   if c_true (arr_len (r20_user_meta fb)) then Some (r20_user_meta fb) else None |> |>) c in
        let c := c <| r20_stat_get_frame_succ ::= fun n => u32 (n + 1) |>
                   <| r20_frames_received ::= fun n => u64 (n + 1) |> in
        let c := if bool_decide (vf_status (r20_dst (r20_at c i)) = ST_FRAME_STATUS_CORRUPTED)
                 then c <| r20_frames_corrupted ::= fun n => u64 (n + 1) |> else c in
        (Some i, r20_emit (RvGot i) c)
    end.

Definition st20p_rx_put_frame (i : nat) (c : st20p_rx_ctx) : Z * st20p_rx_ctx :=
  let '(ret, c) := r20_put_check PutFrame i c in
  if ret <? 0 then (ret, c) else (0, r20_put_free i (r20_put_give i c)).

Definition st20p_rx_put_frame_abort (i : nat) (c : st20p_rx_ctx) : Z * st20p_rx_ctx :=
  let '(ret, c) := r20_put_check PutAbort i c in
  if ret <? 0 then (ret, c) else (0, r20_put_free i (r20_put_give i c)).

Definition st20p_rx_get_fb_addr (idx : nat) (c : st20p_rx_ctx) : Z :=
  if r20_destroying c then 0
  else
    match r20_framebuffs c !! idx with
    | None => 0
    | Some fb => if r20_derive c then default 0 (vf_addr (r20_src fb)) else arr_get 0 (fr_addr (vf_frame (r20_dst fb))) 0
    end.

Definition st20p_rx_wake_block (c : st20p_rx_ctx) : Z * st20p_rx_ctx :=
  if r20_destroying c then (- EIO, c) else (0, if r20_block_get c then rx_st20p_block_wake c else c).

Definition st20p_rx_set_block_timeout (timedwait_ns : Z) (c : st20p_rx_ctx) : Z * st20p_rx_ctx :=
  if r20_destroying c then (- EIO, c) else (0, c <| r20_block_timeout_ns := timedwait_ns |>).

(** [transport_ret] is the answer of [st20_rx_reset_session_stats]. *)
Definition st20p_rx_reset_session_stats (transport_ret : Z) (c : st20p_rx_ctx) : Z * st20p_rx_ctx :=
  if r20_destroying c then (- EIO, c)
  else (transport_ret, c <| r20_frames_received := 0 |> <| r20_frames_dropped := 0 |> <| r20_frames_corrupted := 0 |>).

Definition rx_st20p_stat (c : st20p_rx_ctx) : Z * st20p_rx_ctx :=
  if negb (r20_ready c) then (- EBUSY, c)
  else (0, c <| r20_stat_get_frame_try := 0 |> <| r20_stat_get_frame_succ := 0 |> <| r20_stat_put_frame := 0 |>).

(** The destination frame of slot [i]: [None] when it fails the check. [alloc] is the
    memory of the slot. *)
Definition r20_init_dst (ops : st20p_rx_ops) (derive : bool) (alloc : nat -> Z) (virt2iova : Z -> Z) (i : nat) : option st_frame :=
  let f := st_frame_blank (o20_output_fmt ops) (o20_width ops) (o20_height ops) (o20_interlaced ops) 0 in
  if derive then Some f
  else
    let no_dst_malloc := has_flag (o20_flags ops) ST20P_RX_FLAG_EXT_FRAME || has_flag (o20_flags ops) ST20P_RX_FLAG_AUTO_DETECT in
    let dst_size := if has_flag (o20_flags ops) ST20P_RX_FLAG_AUTO_DETECT then 0
                    else st_frame_size (o20_output_fmt ops) (o20_width ops) (o20_height ops) (o20_interlaced ops) in
    let f :=
      match o20_ext_frames ops with
      | Some exts =>
          let ext := default (mk_ext_frame [] [] [] 0 0) (exts !! i) in
          let planes := Z.to_nat (st_frame_fmt_planes (fr_fmt f)) in
          let put new old := take planes new ++ drop planes old in
          f <| fr_addr ::= put (ext_addr ext) |> <| fr_iova ::= put (ext_iova ext) |> <| fr_linesize ::= put (ext_linesize ext) |>
            <| fr_buffer_size := ext_size ext |> <| fr_data_size := ext_size ext |>
      | None =>
          if no_dst_malloc then f
          else
            let f := f <| fr_buffer_size := dst_size |> <| fr_data_size := dst_size |> in
            st_frame_init_plane_single_src f (alloc i) (virt2iova (alloc i))
      end in
    if negb no_dst_malloc && (st_frame_sanity_check f <? 0) then None else Some f.

(** The source frame of a slot, set when the transport exists. *)
Definition r20_init_src (ops : st20p_rx_ops) : st_frame :=
  let fmt := st_frame_fmt_from_transport (o20_transport_fmt ops) in
  let size := st_frame_size fmt (o20_width ops) (o20_height ops) (o20_interlaced ops) in
  st_frame_blank fmt (o20_width ops) (o20_height ops) (o20_interlaced ops) 0
    <| fr_buffer_size := size |> <| fr_data_size := size |>
    <| fr_linesize ::= fun l => arr_set l 0 (Z.max (o20_transport_linesize ops) (st_frame_least_linesize fmt (o20_width ops) 0)) |>.

Definition rx_st20p_init_dst_fbs (ops : st20p_rx_ops) (derive : bool) (alloc : nat -> Z) (virt2iova : Z -> Z) (user_meta_size : Z)
    : option (list st20p_rx_frame) :=
  mapM (fun i =>
    dst ← r20_init_dst ops derive alloc virt2iova i;
    Some (mk_st20p_rx_frame ST20P_RX_FRAME_FREE (rx20_frame_zero <| vf_frame := r20_init_src ops |>)
            (rx20_frame_zero <| vf_frame := dst |>) user_meta_size [] PutIdle))
    (seq 0 (Z.to_nat (o20_framebuff_cnt ops))).

(** The conditions on the ops that [rx_st20p_create_transport] checks. *)
Definition rx_st20p_transport_ok (ops : st20p_rx_ops) (derive : bool) : bool :=
  (negb (has_flag (o20_flags ops) ST20P_RX_FLAG_PKT_CONVERT)
   || bool_decide (o20_transport_fmt ops = ST20_FMT_YUV_422_10BIT)
      && bool_decide (o20_output_fmt ops ∈ [ST_FRAME_FMT_YUV422PLANAR10LE; ST_FRAME_FMT_Y210; ST_FRAME_FMT_UYVY;
                                            ST_FRAME_FMT_YUV422PLANAR16LE]))
  && (negb (derive && o20_has_query_ext_frame ops)
      || has_flag (o20_flags ops) ST20P_RX_FLAG_RECEIVE_INCOMPLETE_FRAME).

(** [st20p_rx_create], when there is memory and the transport can be created. *)
Definition st20p_rx_create (ops : st20p_rx_ops) (converter : rx20_converter) (alloc : nat -> Z) (virt2iova : Z -> Z)
    (user_meta_size : Z) : option st20p_rx_ctx :=
  let derive := st_frame_fmt_equal_transport (o20_output_fmt ops) (o20_transport_fmt ops) in
  let ext := has_flag (o20_flags ops) ST20P_RX_FLAG_EXT_FRAME in
  let dst_size := st_frame_size (o20_output_fmt ops) (o20_width ops) (o20_height ops) (o20_interlaced ops) in
  let wants := negb derive && negb (has_flag (o20_flags ops) ST20P_RX_FLAG_PKT_CONVERT) in
  if ext && negb (o20_has_query_ext_frame ops) then None
  else if negb (has_flag (o20_flags ops) ST20P_RX_FLAG_AUTO_DETECT) && negb (c_true dst_size) then None
  else if wants && bool_decide (converter = ConvNone) then None
  else
    fbs ← rx_st20p_init_dst_fbs ops derive alloc virt2iova user_meta_size;
    if negb (rx_st20p_transport_ok ops derive) then None
    else
      let c := mk_st20p_rx_ctx false ops 0 0 0 fbs (wants && bool_decide (converter = ConvPlugin))
                 (wants && bool_decide (converter = ConvInternal)) true derive ext
                 (has_flag (o20_flags ops) ST20P_RX_FLAG_BLOCK_GET) NS_PER_S false 0 0 0 0 0 0 0 0 [] [] in
      Some (if r20_block_get c then c else rx_st20p_notify_frame_available c).

(** The start of [st20p_rx_free]. *)
Definition st20p_rx_free_begin (c : st20p_rx_ctx) : Z * st20p_rx_ctx :=
  if r20_destroying c then (- EBUSY, c) else (0, rx_st20p_block_wake (c <| r20_destroying := true |>)).

End Operations.

Lemma r20_at_lookup c i fb : r20_framebuffs c !! i = Some fb -> r20_at c i = fb.
Proof. unfold r20_at. by intros ->. Qed.

(** ** Conversion of packets *)

(** The second search of a slot for a timestamp finds what the first one found: a second
    frame that is converted at the same time is never found. *)
Lemma find_converting_first timestamp c :
  r20_find_converting timestamp c =
  match rx_st20p_next_available c (r20_producer_idx c) ST20P_RX_FRAME_IN_CONVERTING with
  | None => inl None
  | Some i => if vf_timestamp (r20_dst (r20_at c i)) =? timestamp then inl (Some i) else inr tt
  end.
Proof.
  unfold r20_find_converting, rx_st20p_next_available. destruct (ring_next_available _ _ _) as [i|] eqn:E; [|done].
  destruct (_ =? timestamp) eqn:Et; [done|]. rewrite (next_available_again _ _ _ _ E). by rewrite Et.
Qed.

(** ** The pipeline as a queue *)

(** The settings of a session that converts nothing or converts in [st20p_rx_get_frame]. *)
Record rx20_settings := mk_rx20_settings { k20_ops : st20p_rx_ops; k20_internal : bool; k20_user_meta_size : Z }.
Definition k20_desired (k : rx20_settings) : st20p_rx_frame_status :=
  if k20_internal k then ST20P_RX_FRAME_READY else ST20P_RX_FRAME_CONVERTED.

(** What the application finds in a frame, the buffers of the slot itself aside:
    [vf_addr] is the buffer of the transport it comes from. *)
Definition r20_shown (fb : st20p_rx_frame) : rx20_frame :=
  let f := r20_dst fb in
  mk_rx20_frame (vf_frame rx20_frame_zero) (vf_addr (r20_src fb)) 0 (vf_second_field f) (vf_tfmt f) (vf_timestamp f)
    (vf_rtp_timestamp f) (vf_status f) (vf_receive_timestamp f) (vf_pkts_total f) (vf_pkts_recv f) (vf_tp f) (vf_user_meta f).
Definition r20_meta_shown (bytes : list Z) : option (list Z) := if c_true (arr_len bytes) then Some bytes else None.
Definition r20_view (fb : st20p_rx_frame) : rx20_frame := r20_shown fb <| vf_user_meta := r20_meta_shown (r20_user_meta fb) |>.

Definition st20_seen (k : rx20_settings) (addr : Z) (m : st20_rx_frame_meta) : rx20_frame :=
  mk_rx20_frame (vf_frame rx20_frame_zero) (Some addr) 0 (vm_second_field m) (vm_tfmt m) (vm_timestamp m) (vm_rtp_timestamp m)
    (vm_status m) (vm_timestamp_first_pkt m) (vm_pkts_total m) (vm_pkts_recv m)
    (take (Z.to_nat (o20_num_port (k20_ops k))) (vm_tp m) ++ replicate (2 - Z.to_nat (o20_num_port (k20_ops k))) None)
    (match vm_user_meta m with
     | Some bytes => if arr_len bytes <=? k20_user_meta_size k then r20_meta_shown bytes else None
     | None => None
     end).

Definition r20_slot (fb : st20p_rx_frame) : rx_slot rx20_frame :=
  match r20_stat fb with
  | ST20P_RX_FRAME_FREE => RFree
  | ST20P_RX_FRAME_IN_USER => RUser (r20_view fb)
  | _ => RReady (r20_view fb)
  end.

Definition r20_slot_ok (k : rx20_settings) (fb : st20p_rx_frame) : Prop :=
  r20_user_meta_buffer_size fb = k20_user_meta_size k
  /\ r20_stat fb ∈ [ST20P_RX_FRAME_FREE; k20_desired k; ST20P_RX_FRAME_IN_USER]
  /\ (r20_stat fb <> ST20P_RX_FRAME_FREE -> is_Some (vf_addr (r20_src fb))).

Definition r20_open (k : rx20_settings) (c : st20p_rx_ctx) : Prop :=
  r20_ops c = k20_ops k /\ r20_ready c = true /\ r20_destroying c = false
  /\ r20_internal_converter c = k20_internal k /\ r20_derive c = negb (k20_internal k)
  /\ r20_convert_impl c = false /\ r20_dynamic_ext_frame c = false /\ r20_pkt_convert c = false
  /\ Forall (r20_slot_ok k) (r20_framebuffs c).

Lemma r20_fill_view k a m fb stat :
  r20_user_meta_buffer_size fb = k20_user_meta_size k ->
  r20_view (r20_fill (o20_num_port (k20_ops k)) (negb (k20_internal k)) a m fb <| r20_stat := stat |>) = st20_seen k a m.
Proof.
  intros H. unfold r20_view, r20_shown, st20_seen, r20_fill, r20_user_meta_copy.
  destruct (k20_internal k); cbn; rewrite H; (destruct (vm_user_meta m) as [bytes|]; [|done]); by destruct (_ <=? _).
Qed.

#[export] Instance st20p_rx_pipeline : RxPipeline st20p_rx_ctx st20_rx_frame_meta rx20_frame := {
  rx_frame_ready := rx_st20p_frame_ready id (fun _ => inl 0);
  rx_get_frame := st20p_rx_get_frame [] [] id [];
  rx_put_frame := st20p_rx_put_frame;
  rx_frame c i := r20_shown (r20_at c i);
  rx_trace := r20_trace;
}.

Lemma r20_is_free fb : r20_is ST20P_RX_FRAME_FREE fb = rslot_free (r20_slot fb).
Proof. unfold r20_is, r20_slot. by destruct (r20_stat fb). Qed.
Lemma r20_is_desired k fb : r20_slot_ok k fb -> r20_is (k20_desired k) fb = rslot_ready (r20_slot fb).
Proof.
  intros (_ & Hs & _). unfold r20_is, r20_slot, k20_desired in *. rewrite !elem_of_cons, elem_of_nil in Hs.
  destruct (k20_internal k); destruct Hs as [-> |[-> |[-> |[]]]]; done.
Qed.

Lemma r20_claim k c :
  rx_st20p_claim_available (r20_consumer_idx c) (k20_desired k) ST20P_RX_FRAME_IN_USER [] c
  = match rx_st20p_next_available c (r20_consumer_idx c) (k20_desired k) with
    | Some i => (Some i, r20_set_stat i ST20P_RX_FRAME_IN_USER c)
    | None => (None, c)
    end.
Proof. unfold rx_st20p_claim_available. cbn [ring_claim]. by destruct rx_st20p_next_available. Qed.

(** Two states a client of the queue cannot tell apart. *)
Definition r20_same (c c' : st20p_rx_ctx) : Prop :=
  r20_ops c' = r20_ops c /\ r20_ready c' = r20_ready c /\ r20_destroying c' = r20_destroying c
  /\ r20_internal_converter c' = r20_internal_converter c /\ r20_derive c' = r20_derive c
  /\ r20_convert_impl c' = r20_convert_impl c /\ r20_dynamic_ext_frame c' = r20_dynamic_ext_frame c
  /\ r20_framebuffs c' = r20_framebuffs c /\ r20_producer_idx c' = r20_producer_idx c
  /\ r20_consumer_idx c' = r20_consumer_idx c /\ rx_returned (r20_trace c') = rx_returned (r20_trace c).

Lemma r20_notify_same c : r20_same c (rx_st20p_notify_frame_available id c).
Proof.
  unfold rx_st20p_notify_frame_available, r20_same, rx_returned, id.
  destruct (o20_notify_frame_available _); destruct (r20_block_get _); cbn; rewrite ?omap_app; cbn; rewrite ?app_nil_r; done.
Qed.

Lemma r20_same_open k c c' : r20_same c c' -> r20_open k c -> r20_open k c'.
Proof. unfold r20_open, r20_pkt_convert. intros (-> & -> & -> & -> & -> & -> & -> & -> & _). done. Qed.

(** A slot in one of the states of a session stays one. *)
Lemma r20_ok_stat k fb g s :
  r20_slot_ok k fb -> r20_user_meta_buffer_size (g fb) = r20_user_meta_buffer_size fb -> r20_stat (g fb) = s ->
  s ∈ [ST20P_RX_FRAME_FREE; k20_desired k; ST20P_RX_FRAME_IN_USER] ->
  (s <> ST20P_RX_FRAME_FREE -> is_Some (vf_addr (r20_src (g fb)))) -> r20_slot_ok k (g fb).
Proof. intros (H1 & _ & _) Hu Hs He Ha. unfold r20_slot_ok. rewrite Hu, Hs. done. Qed.

Lemma desired_elem k : k20_desired k ∈ [ST20P_RX_FRAME_FREE; k20_desired k; ST20P_RX_FRAME_IN_USER].
Proof. right. left. Qed.
Lemma in_user_elem k : ST20P_RX_FRAME_IN_USER ∈ [ST20P_RX_FRAME_FREE; k20_desired k; ST20P_RX_FRAME_IN_USER].
Proof. right. right. left. Qed.

Lemma r20_ready_law k a m c : r20_open k c ->
  let '(ret, c') := rx_st20p_frame_ready id (fun _ => inl 0) a m c in
  r20_open k c' /\ r20_consumer_idx c' = r20_consumer_idx c /\ rx_returned (r20_trace c') = rx_returned (r20_trace c) /\
  match ring_next_available rslot_free (r20_slot <$> r20_framebuffs c) (r20_producer_idx c) with
  | None => ret = - EBUSY /\ r20_slot <$> r20_framebuffs c' = r20_slot <$> r20_framebuffs c
      /\ r20_producer_idx c' = r20_producer_idx c
  | Some i => ret = 0 /\ r20_slot <$> r20_framebuffs c' = <[i := RReady (st20_seen k a m)]> (r20_slot <$> r20_framebuffs c)
      /\ r20_producer_idx c' = ring_next_idx (length (r20_slot <$> r20_framebuffs c)) i
  end.
Proof.
  intros (Ho & Hr & Hd & Hi & Hv & Hp & Hx & Hk & Hs).
  rewrite (next_available_fmap _ (r20_is ST20P_RX_FRAME_FREE)) by apply r20_is_free.
  unfold rx_st20p_frame_ready. rewrite Hr, Hk. cbn [negb]. unfold rx_st20p_next_available.
  destruct (ring_next_available _ _ _) as [i|] eqn:E; [|by split_and!].
  unfold r20_query_dst. rewrite Hx. cbn [andb negb].
  destruct (next_available_some _ _ _ _ E) as (fb & Hfb & _). pose proof (Forall_lookup_1 _ _ _ _ Hs Hfb) as Hok.
  rewrite Hv, Hk, orb_false_r, Ho. set (g := fun fb => r20_fill _ _ a m fb <| r20_stat := _ |>). cbv zeta.
  set (c1 := r20_emit (RvAccept a) (r20_upd i g c) <| r20_producer_idx := _ |>).
  assert (r20_open k c1) as Hc1.
  { split_and!; try done. apply Forall_alter_at; [done|]. intros x _ Hx'. eapply r20_ok_stat; [done|done|reflexivity|..].
    - pose proof (desired_elem k) as He. unfold g, k20_desired in *. by destruct (k20_internal k).
    - intros _. done. }
  assert (r20_slot <$> r20_framebuffs c1 = <[i := RReady (st20_seen k a m)]> (r20_slot <$> r20_framebuffs c)) as Ev.
  { unfold c1. cbn. erewrite fmap_alter_insert by exact Hfb. f_equal. destruct Hok as (Hu & _).
    unfold g, r20_slot. rewrite r20_fill_view by done. cbn. by destruct (k20_internal k). }
  assert (r20_producer_idx c1 = ring_next_idx (length (r20_slot <$> r20_framebuffs c)) i) as Ei.
  { unfold c1, rx_st20p_next_idx. cbn. by rewrite length_alter, length_fmap. }
  assert (rx_returned (r20_trace c1) = rx_returned (r20_trace c)) as Et.
  { unfold c1, rx_returned. cbn. rewrite omap_app. cbn. by rewrite app_nil_r. }
  assert (forall c2, r20_same c1 c2 -> r20_open k c2 /\ r20_consumer_idx c2 = r20_consumer_idx c
    /\ rx_returned (r20_trace c2) = rx_returned (r20_trace c) /\ 0 = 0
    /\ r20_slot <$> r20_framebuffs c2 = <[i := RReady (st20_seen k a m)]> (r20_slot <$> r20_framebuffs c)
    /\ r20_producer_idx c2 = ring_next_idx (length (r20_slot <$> r20_framebuffs c)) i) as Hend.
  { intros c2 Hsame. split; [by eapply r20_same_open|]. destruct Hsame as (_ & _ & _ & _ & _ & _ & _ & -> & -> & -> & ->). by split_and!. }
  change (r20_convert_impl c1) with (r20_convert_impl c). rewrite Hp. change (r20_internal_converter c1) with (r20_internal_converter c).
  rewrite Hi. destruct (k20_internal k); apply Hend, r20_notify_same.
Qed.

Lemma r20_get_law k c : r20_open k c ->
  let '(r, c') := st20p_rx_get_frame [] [] id [] c in
  r20_open k c' /\ r20_producer_idx c' = r20_producer_idx c /\ rx_returned (r20_trace c') = rx_returned (r20_trace c) /\
  match ring_next_available rslot_ready (r20_slot <$> r20_framebuffs c) (r20_consumer_idx c) with
  | None => r = None /\ r20_slot <$> r20_framebuffs c' = r20_slot <$> r20_framebuffs c /\ r20_consumer_idx c' = r20_consumer_idx c
  | Some i => r = Some i /\ r20_consumer_idx c' = ring_next_idx (length (r20_slot <$> r20_framebuffs c)) i
      /\ forall f, (r20_slot <$> r20_framebuffs c) !! i = Some (RReady f) ->
         r20_slot <$> r20_framebuffs c' = <[i := RUser f]> (r20_slot <$> r20_framebuffs c) /\ r20_shown (r20_at c' i) = f
  end.
Proof.
  intros Hopen. pose proof Hopen as (Ho & Hr & Hd & Hi & Hv & Hp & Hx & Hk & Hs).
  rewrite (next_available_fmap_in _ (r20_is (k20_desired k))) by (eapply Forall_impl; [exact Hs|apply r20_is_desired]).
  unfold st20p_rx_get_frame. rewrite Hd, Hr. cbn [negb]. set (c1 := _ <| r20_stat_get_frame_try ::= _ |>).
  unfold r20_get_claim. change (r20_internal_converter c1) with (r20_internal_converter c). rewrite Hi. fold (k20_desired k).
  destruct (ring_next_available _ _ _) as [i|] eqn:E.
  - destruct (next_available_some _ _ _ _ E) as (fb & Hfb & Hst%bool_decide_eq_true). unfold rx_block_get. rewrite r20_claim.
    change (rx_st20p_next_available c1 (r20_consumer_idx c1) (k20_desired k))
      with (ring_next_available (r20_is (k20_desired k)) (r20_framebuffs c) (r20_consumer_idx c)). rewrite E.
    set (c2 := _ <| r20_frames_received ::= _ |>). set (c3 := if bool_decide _ then _ else _).
    set (g := fun fb => fb <| r20_dst ::= fun f => f <| vf_user_meta := r20_meta_shown (r20_user_meta fb) |> |>).
    assert (r20_framebuffs c2 = alter g i (alter (fun fb => fb <| r20_stat := ST20P_RX_FRAME_IN_USER |>) i (r20_framebuffs c))) as Ef by done.
    assert (r20_same c2 (r20_emit (RvGot i) c3)) as H3.
    { unfold r20_same, rx_returned, c3. destruct (bool_decide _); cbn; rewrite omap_app; cbn; by rewrite app_nil_r. }
    assert (k20_desired k <> ST20P_RX_FRAME_FREE) as Hdf by (unfold k20_desired; by destruct (k20_internal k)).
    split; [eapply r20_same_open; [exact H3|]|].
    { split_and!; try done. rewrite Ef. apply Forall_alter_at; [apply Forall_alter_at; [done|]|].
      - intros x Hx' Hok. eapply r20_ok_stat; [done|done|reflexivity|apply in_user_elem|]. intros _. apply Hok. congruence.
      - intros x _ (G1 & G2 & G3). by split_and!. }
    destruct H3 as (_ & _ & _ & _ & _ & _ & _ & E1 & -> & -> & ->). rewrite E1, Ef, length_fmap. split_and!; try done.
    { unfold c2, rx_st20p_next_idx. cbn. by rewrite length_alter. }
    intros f. rewrite list_lookup_fmap, Hfb. cbn. unfold r20_slot at 1. rewrite Hst. intros Hf.
    assert (r20_view fb = f) as <- by (unfold k20_desired in Hf; destruct (k20_internal k); by injection Hf).
    split; [|unfold r20_at; by rewrite E1, Ef, list_lookup_alter_eq, list_lookup_alter_eq, Hfb].
    erewrite fmap_alter_insert by (by rewrite list_lookup_alter_eq, Hfb). erewrite fmap_alter_insert by exact Hfb.
    by rewrite list_insert_insert_eq.
  - destruct (rx_block_get_idle (fun env c => rx_st20p_claim_available (r20_consumer_idx c) (k20_desired k) ST20P_RX_FRAME_IN_USER env c)
      r20_wake_pending r20_destroying (fun c => c <| r20_wake_pending := false |>) r20_block_get c1) as (c' & -> & Hc');
      [rewrite r20_claim; change (rx_st20p_next_available _ _ _) with
         (ring_next_available (r20_is (k20_desired k)) (r20_framebuffs c) (r20_consumer_idx c)); by rewrite E..|].
    destruct Hc' as [-> | ->]; by split_and!.
Qed.

Lemma r20_at_upd i g c fb : r20_framebuffs c !! i = Some fb -> r20_at (r20_upd i g c) i = g fb.
Proof. intros H. unfold r20_at, r20_upd. cbn. by rewrite list_lookup_alter_eq, H. Qed.
Lemma r20_upd_upd i g h c : r20_upd i g (r20_upd i h c) = r20_upd i (fun fb => g (h fb)) c.
Proof.
  transitivity (c <| r20_framebuffs := alter g i (alter h i (r20_framebuffs c)) |>); [done|].
  transitivity (c <| r20_framebuffs := alter (fun fb => g (h fb)) i (r20_framebuffs c) |>); [|done].
  enough (alter g i (alter h i (r20_framebuffs c)) = alter (fun fb => g (h fb)) i (r20_framebuffs c)) as -> by done.
  apply list_eq. intros j. destruct (decide (j = i)) as [->|].
  - rewrite !list_lookup_alter_eq. by destruct (_ !! i).
  - by rewrite !list_lookup_alter_ne by done.
Qed.
Lemma r20_give_upd i g c : (forall fb, r20_src (g fb) = r20_src fb) -> r20_give_back i (r20_upd i g c) = r20_upd i g (r20_give_back i c).
Proof.
  intros Hg. unfold r20_give_back, r20_at. cbn. rewrite list_lookup_alter_eq.
  destruct (r20_framebuffs c !! i) as [fb|]; cbn; [|done]. rewrite Hg. by destruct (vf_addr _).
Qed.

(** A put that nothing comes between. *)
Lemma r20_put_frame_steps i c fb : r20_framebuffs c !! i = Some fb -> r20_destroying c = false -> r20_stat fb = ST20P_RX_FRAME_IN_USER ->
  st20p_rx_put_frame i c =
    (0, r20_upd i (fun fb => fb <| r20_stat := ST20P_RX_FRAME_FREE |> <| r20_put := PutIdle |>) (r20_give_back i c)
          <| r20_stat_put_frame ::= fun n => u32 (n + 1) |>).
Proof.
  intros Hfb Hd Est. unfold st20p_rx_put_frame, r20_put_check. rewrite Hd, (r20_at_lookup c i fb Hfb). unfold r20_is. rewrite Est.
  rewrite bool_decide_eq_true_2 by done. cbn [negb Z.ltb Z.compare]. f_equal. unfold r20_put_give. erewrite r20_at_upd by exact Hfb.
  cbn [r20_put put_keeps modify_field]. rewrite r20_give_upd, r20_upd_upd by done. unfold r20_put_free.
  assert (r20_framebuffs (r20_give_back i c) !! i = Some fb) as Hfb' by (unfold r20_give_back; by destruct (vf_addr _)).
  erewrite r20_at_upd by exact Hfb'. cbn [r20_put modify_field]. by rewrite r20_upd_upd.
Qed.

Lemma r20_put_law k i f c : r20_open k c -> (r20_slot <$> r20_framebuffs c) !! i = Some (RUser f) ->
  let '(ret, c') := st20p_rx_put_frame i c in
  r20_open k c' /\ ret = 0 /\ r20_slot <$> r20_framebuffs c' = <[i := RFree]> (r20_slot <$> r20_framebuffs c)
  /\ r20_producer_idx c' = r20_producer_idx c /\ r20_consumer_idx c' = r20_consumer_idx c
  /\ rx_returned (r20_trace c') = rx_returned (r20_trace c) ++ [default 0 (vf_addr f)].
Proof.
  intros (Ho & Hr & Hd & Hi & Hv & Hp & Hx & Hk & Hs) Hf.
  rewrite list_lookup_fmap in Hf. destruct (r20_framebuffs c !! i) as [fb|] eqn:Hfb; [|done]. cbn in Hf. injection Hf as Hf.
  pose proof (Forall_lookup_1 _ _ _ _ Hs Hfb) as (_ & _ & F3).
  assert (r20_stat fb = ST20P_RX_FRAME_IN_USER /\ r20_view fb = f) as [Est <-].
  { unfold r20_slot in Hf. destruct (r20_stat fb); try done. by injection Hf. }
  rewrite (r20_put_frame_steps i c fb) by done. destruct F3 as [a Ea]; [congruence|]. unfold r20_give_back.
  rewrite (r20_at_lookup c i fb Hfb), Ea. split_and!; try done.
  - split_and!; try done. apply Forall_alter_at; [done|]. intros x _ (G1 & G2 & G3). split_and!; [done|left|done].
  - cbn. by erewrite fmap_alter_insert by exact Hfb.
  - cbn. unfold rx_returned. rewrite omap_app. cbn. by rewrite Ea.
Qed.

#[export] Instance st20p_rx_laws : RxPipelineLaws st20p_rx_ctx st20_rx_frame_meta rx20_frame rx20_settings := {
  rx_open := r20_open;
  rx_slots c := r20_slot <$> r20_framebuffs c;
  rx_in := r20_producer_idx;
  rx_out := r20_consumer_idx;
  rx_seen := st20_seen;
  rx_addr f := default 0 (vf_addr f);
  law_addr k a m := eq_refl;
  law_ready := r20_ready_law;
  law_get := r20_get_law;
  law_put := r20_put_law;
}.

(** What a created session is made of. *)
Lemma r20_create_fbs ops derive alloc virt2iova ums fbs :
  rx_st20p_init_dst_fbs ops derive alloc virt2iova ums = Some fbs ->
  length fbs = Z.to_nat (o20_framebuff_cnt ops)
  /\ Forall (fun fb => r20_stat fb = ST20P_RX_FRAME_FREE /\ r20_user_meta_buffer_size fb = ums /\ r20_put fb = PutIdle) fbs.
Proof.
  unfold rx_st20p_init_dst_fbs. intros H%mapM_Some. split.
  - apply Forall2_length in H. by rewrite length_seq in H.
  - eapply Forall2_Forall_r; [exact H|]. apply Forall_true. intros i fb. destruct (r20_init_dst _ _ _ _ _); [|done]. by intros [= <-].
Qed.

(** C10: the video receive pipeline is a bounded queue. Take a session of at least one frame
    that needs no converter or whose frames the library converts when they are taken (no
    converter plugin, no ST20P_RX_FLAG_PKT_CONVERT), without ST20P_RX_FLAG_EXT_FRAME (with it
    a frame is also refused when query_ext_frame fails), whose callbacks do not call back
    into the session, and an application that makes its calls one after the other and puts
    its frames back in the order it got them. Then every answer and every buffer given back
    to the transport is that of a queue with as many places as the session has frames.
    Frames come in the order in which the transport completed them, with the meta data it
    gave and the user meta data of the frame; a frame is refused exactly when as many frames
    as there are wait or are held. *)
Theorem st20p_rx_refines_queue ops converter alloc virt2iova ums c l :
  st20p_rx_create id ops converter alloc virt2iova ums = Some c ->
  0 < o20_framebuff_cnt ops -> r20_pkt_convert c = false -> r20_convert_impl c = false -> r20_dynamic_ext_frame c = false ->
  let k := mk_rx20_settings ops (r20_internal_converter c) ums in
  let '(answers, s) := rx_client l (c, []) in
  let '(answers', q) := rx_queue_run (Z.to_nat (o20_framebuff_cnt ops)) (st20_seen k) l (mk_rx_queue [] [] []) in
  answers = answers' /\ rx_returned (r20_trace s.1) = (fun f => default 0 (vf_addr f)) <$> rq_back q.
Proof.
  intros Hc Hcnt Hk Hp Hx k. pose proof (rx_fresh_refines k l c) as L. cbn [rx_slots st20p_rx_laws] in L.
  unfold st20p_rx_create in Hc. case_if_in Hc; [done|]. case_if_in Hc; [done|]. case_if_in Hc; [done|].
  destruct (rx_st20p_init_dst_fbs _ _ _ _ _) as [fbs|] eqn:Efb; [|done]. cbn in Hc. case_if_in Hc; [done|].
  destruct (r20_create_fbs _ _ _ _ _ _ Efb) as [Hlen Hfbs]. set (c0 := mk_st20p_rx_ctx _ _ _ _ _ _ _ _ _ _ _ _ _ _ _ _ _ _ _ _ _ _ _ _) in Hc.
  assert (r20_same c0 c) as Hsame.
  { injection Hc as <-. case_if; [by split_and!|apply r20_notify_same]. }
  assert (r20_framebuffs c = fbs) as Ef by apply Hsame.
  assert (r20_open k c) as Hopen.
  { unfold r20_open. destruct Hsame as (S1 & S2 & S3 & S4 & S5 & S6 & S7 & S8 & _). rewrite S2, S3, Ef. split_and!; try done.
    - rewrite S5. unfold k. cbn. rewrite S4. unfold r20_pkt_convert in Hk. rewrite S1 in Hk. unfold c0 in *. cbn in *.
      rewrite Hk, andb_true_r in *. rewrite Hp in S6. destruct (st_frame_fmt_equal_transport _ _); [done|]. cbn in *.
      by destruct converter.
    - eapply Forall_impl; [exact Hfbs|]. intros fb (G1 & G2 & _). unfold r20_slot_ok. rewrite G1. split_and!; [done|left|done]. }
  rewrite Ef, length_fmap, Hlen in L. apply L. destruct Hsame as (_ & _ & _ & _ & _ & _ & _ & _ & S9 & S10 & S11).
  split; [done|]. cbn [rx_slots st20p_rx_laws rx_in rx_out rx_trace st20p_rx_pipeline]. rewrite Ef, S9, S10, S11. split_and!; try done.
  - destruct fbs; [cbn in Hlen; lia|done].
  - apply Forall_fmap. eapply Forall_impl; [exact Hfbs|]. intros fb (G1 & _). cbn. unfold r20_slot. by rewrite G1.
Qed.

Definition ex_r20_ops (flags : Z) (output : st_frame_fmt) : st20p_rx_ops :=
  mk_st20p_rx_ops 2 1920 1080 false ST20_FMT_YUV_422_10BIT 0 output 3 None false flags true.
Definition ex_r20_create (flags : Z) (output : st_frame_fmt) (converter : rx20_converter) : option st20p_rx_ctx :=
  st20p_rx_create id (ex_r20_ops flags output) converter (fun i => 4096 * (1 + Z.of_nat i)) id 100.
Definition ex_r20_meta (ts : Z) : st20_rx_frame_meta :=
  mk_st20_rx_meta false ST10_TIMESTAMP_FMT_MEDIA_CLK ts ts ST_FRAME_STATUS_COMPLETE 5184000 7 4320 [4320; 0] [None; None] (Some [1; 2]).
Definition ex_r20_session : st20p_rx_ctx :=
  default (mk_st20p_rx_ctx false (ex_r20_ops 0 ST_FRAME_FMT_V210) 0 0 0 [] false false false false false false 0 false 0 0 0 0 0 0 0 0 [] [])
    (ex_r20_create 0 ST_FRAME_FMT_YUV422PLANAR10LE ConvInternal).

Lemma ex_r20_created : ex_r20_create 0 ST_FRAME_FMT_YUV422PLANAR10LE ConvInternal = Some ex_r20_session.
Proof. vm_compute. reflexivity. Qed.

Lemma st20p_rx_refines_queue_witness :
  let l := [RxReady 100 (ex_r20_meta 0); RxReady 200 (ex_r20_meta 3600); RxGet; RxReady 300 (ex_r20_meta 7200);
            RxReady 400 (ex_r20_meta 10800); RxPut; RxReady 400 (ex_r20_meta 10800); RxGet; RxPut; RxGet; RxGet] in
  let k := mk_rx20_settings (ex_r20_ops 0 ST_FRAME_FMT_YUV422PLANAR10LE) (r20_internal_converter ex_r20_session) 100 in
  let '(answers, s) := rx_client l (ex_r20_session, []) in
  let '(answers', q) := rx_queue_run 3 (st20_seen k) l (mk_rx_queue [] [] []) in
  (answers = answers' /\ rx_returned (r20_trace s.1) = (fun f => default 0 (vf_addr f)) <$> rq_back q)
  /\ rx_returned (r20_trace s.1) = [100; 200].
Proof.
  intros l k. assert (r20_pkt_convert ex_r20_session = false /\ r20_convert_impl ex_r20_session = false
    /\ r20_dynamic_ext_frame ex_r20_session = false) as (H1 & H2 & H3) by (vm_compute; done).
  pose proof (st20p_rx_refines_queue _ _ _ _ _ _ l ex_r20_created eq_refl H1 H2 H3) as H. cbv zeta in H. fold k in H.
  change (Z.to_nat (o20_framebuff_cnt (ex_r20_ops 0 ST_FRAME_FMT_YUV422PLANAR10LE))) with 3%nat in H.
  destruct (rx_client l (ex_r20_session, [])) as [answers s] eqn:E1.
  destruct (rx_queue_run 3 (st20_seen k) l (mk_rx_queue [] [] [])) as [answers' q] eqn:E2. split; [exact H|].
  destruct H as [_ ->]. revert E2. vm_compute. by intros [= <- <-].
Defined.

(** Two frames under conversion at the same time: packets of the second are refused, and
    the second frame is answered with 0 although no slot takes it, so its buffer is lost. *)
Definition ex_pkt_session : st20p_rx_ctx :=
  let c := default ex_r20_session (ex_r20_create ST20P_RX_FLAG_PKT_CONVERT ST_FRAME_FMT_Y210 ConvNone) in
  let first ts c := (rx_st20p_packet_convert (fun _ => 0) (mk_pg_meta 0 0 60 ts) c).2 in
  first 3600 (first 0 c).
Lemma second_frame_not_found :
  (rx_st20p_packet_convert (fun _ => 0) (mk_pg_meta 1 0 60 3600) ex_pkt_session).1 = - EIO /\
  let '(ret, c) := rx_st20p_frame_ready id (fun _ => inl 0) 200 (ex_r20_meta 3600) ex_pkt_session in
  ret = 0 /\ r20_framebuffs c = r20_framebuffs ex_pkt_session.
Proof. vm_compute. repeat split. Qed.

(** A session may convert packets to 16 bit planes, but no routine does. *)
Lemma planar16_not_written :
  exists c, ex_r20_create ST20P_RX_FLAG_PKT_CONVERT ST_FRAME_FMT_YUV422PLANAR16LE ConvNone = Some c /\
  let '(ret, c') := rx_st20p_packet_convert (fun _ => - EIO) (mk_pg_meta 0 0 60 0) c in ret = 0 /\ r20_jobs c' = [].
Proof. eexists. split; [vm_compute; reflexivity|]. vm_compute. split; reflexivity. Qed.

(** ** The buffers of the transport *)

(** Everything that can happen to a session that does not convert packets: calls of the
    application, of the transport and of a converter plugin, with applications that call
    back and threads that run between the scan and the exchange of a claim, while a
    blocking get sleeps, and between the load of the status, the call of the transport and
    the store of a call that gives a frame back. A frame that a thread is giving back is
    not given back by another one at the same time: only then is the call not made.
    [rx_st20p_frame_ready] runs on the one thread of the transport, which alone takes FREE
    slots, and is one step. *)
Definition r20_put_call (p : put_call) (i : nat) (c : st20p_rx_ctx) : st20p_rx_ctx :=
  if bool_decide (r20_put (r20_at c i) = PutIdle) then (r20_put_check p i c).2 else c.
Inductive r20_session : (st20p_rx_ctx -> st20p_rx_ctx) -> Prop :=
| r20_s_id : r20_session id
| r20_s_comp f g : r20_session f -> r20_session g -> r20_session (fun c => g (f c))
| r20_s_ready app query a m : r20_session app -> r20_session (fun c => (rx_st20p_frame_ready app query a m c).2)
| r20_s_query query m : r20_session (fun c => (rx_st20p_query_ext_frame query m c).2)
| r20_s_conv_get env : (forall f, f ∈ env -> r20_session f) -> r20_session (fun c => (rx_st20p_convert_get_frame env c).2)
| r20_s_put_check p i : r20_session (r20_put_call p i)
| r20_s_put_give i : r20_session (r20_put_give i)
| r20_s_put_free i : r20_session (r20_put_free i)
| r20_s_put_converted app i : r20_session app -> r20_session (r20_put_converted app i)
| r20_s_dump : r20_session (fun c => (rx_st20p_convert_dump c).2)
| r20_s_get env waits unlocked again :
    (forall f, f ∈ env ++ again -> r20_session f) -> r20_session unlocked ->
    (forall w, w ∈ waits -> r20_session (rw_sleep w)) -> (forall w f, w ∈ waits -> f ∈ rw_races w -> r20_session f) ->
    r20_session (fun c => (st20p_rx_get_frame env waits unlocked again c).2)
| r20_s_wake : r20_session (fun c => (st20p_rx_wake_block c).2)
| r20_s_timeout ns : r20_session (fun c => (st20p_rx_set_block_timeout ns c).2)
| r20_s_reset ret : r20_session (fun c => (st20p_rx_reset_session_stats ret c).2)
| r20_s_stat : r20_session (fun c => (rx_st20p_stat c).2)
| r20_s_free : r20_session (fun c => (st20p_rx_free_begin c).2).

(** The buffer of the transport in a slot, until it is given back. *)
Definition r20_buffer (fb : st20p_rx_frame) : option Z :=
  match r20_put fb, r20_stat fb with
  | PutGave _, _ | _, ST20P_RX_FRAME_FREE => None
  | _, _ => vf_addr (r20_src fb)
  end.
(** A slot a call is under way for keeps the status the call has seen. *)
Definition r20_put_ok (fb : st20p_rx_frame) : Prop :=
  match r20_put fb with
  | PutIdle => True
  | PutChecked p => r20_stat fb = put_from p
  | PutGave p => r20_stat fb = put_from p /\ put_keeps p = false
  end.

#[export] Instance r20_rx_ctx : RxCtx st20p_rx_ctx st20p_rx_frame := {
  xc_fbs := r20_framebuffs; xc_buffer := r20_buffer; xc_trace := r20_trace;
}.

(** The ledger balances, the calls under way are where their slots say, and the session
    converts no packets. *)
Definition r20_inv (c : st20p_rx_ctx) : Prop :=
  xc_balanced c /\ r20_pkt_convert c = false /\ Forall r20_put_ok (r20_framebuffs c).

Lemma r20_inv_same c c' :
  r20_ops c' = r20_ops c -> r20_framebuffs c' = r20_framebuffs c -> r20_trace c' = r20_trace c -> r20_inv c -> r20_inv c'.
Proof. unfold r20_inv, r20_pkt_convert. intros -> H1 H2 (H3 & H4 & H5). rewrite H1. split; [by eapply balanced_same|done]. Qed.

Lemma r20_inv_note e c : rx_notes [e] -> r20_inv c -> r20_inv (r20_emit e c).
Proof. intros He [H1 H2]. split; [by apply (balanced_notes c _ [e])|done]. Qed.

(** An update that leaves the buffer of a slot alone. *)
Lemma r20_inv_upd i g c :
  (forall fb, r20_framebuffs c !! i = Some fb -> r20_put_ok fb -> r20_buffer (g fb) = r20_buffer fb /\ r20_put_ok (g fb)) ->
  r20_inv c -> r20_inv (r20_upd i g c).
Proof.
  intros Hg (H1 & H2 & H3).
  assert (forall fb, r20_framebuffs c !! i = Some fb -> r20_buffer (g fb) = r20_buffer fb /\ r20_put_ok (g fb)) as Hg'
    by (intros fb Hfb; apply Hg; [done|by eapply Forall_lookup_1]).
  split_and!; [|done|].
  - apply (balanced_keep c _ i g []); try done; [|cbn; by rewrite app_nil_r]. intros fb Hfb. by apply Hg'.
  - apply Forall_alter_at; [done|]. intros fb Hfb _. by apply Hg'.
Qed.

Lemma r20_put_idle fb : r20_put_ok fb -> r20_stat fb <> ST20P_RX_FRAME_IN_USER -> r20_stat fb <> ST20P_RX_FRAME_IN_CONVERTING ->
  r20_put fb = PutIdle.
Proof.
  unfold r20_put_ok. destruct (r20_put fb) as [|p|p]; [done| |intros [H _]; revert H]; intros -> H1 H2; by destruct p.
Qed.

(** A claimed slot: no call was under way for it. *)
Lemma r20_inv_move i s s' c :
  r20_is s (r20_at c i) = true -> s = ST20P_RX_FRAME_READY \/ s = ST20P_RX_FRAME_CONVERTED -> s' <> ST20P_RX_FRAME_FREE ->
  r20_inv c -> r20_inv (r20_set_stat i s' c).
Proof.
  unfold r20_is. rewrite bool_decide_eq_true. intros Hs Hn Hn'. apply r20_inv_upd. intros fb Hfb%r20_at_lookup Hok. subst fb.
  assert (r20_put (r20_at c i) = PutIdle) as Hp.
  { apply r20_put_idle; rewrite ?Hs; try done; by destruct Hn as [->| ->]. }
  unfold r20_buffer, r20_put_ok. cbn. rewrite Hs, Hp. destruct Hn as [->| ->]; by destruct s'.
Qed.

Lemma r20_inv_notify app c : keeps_inv r20_inv app -> r20_inv c -> r20_inv (rx_st20p_notify_frame_available app c).
Proof.
  intros Happ Hc. unfold rx_st20p_notify_frame_available. assert (forall c, r20_inv c ->
    r20_inv (if r20_block_get c then r20_emit RvSignal c else c)) as Hs.
  { intros c1 H1. case_if; [by apply r20_inv_note|done]. }
  apply Hs. case_if; [|done]. by apply Happ, r20_inv_note.
Qed.

Lemma r20_inv_ready app query a m c : keeps_inv r20_inv app -> r20_inv c -> r20_inv (rx_st20p_frame_ready app query a m c).2.
Proof.
  intros Happ Hc. unfold rx_st20p_frame_ready. case_if; [done|]. rewrite (proj1 (proj2 Hc)). unfold rx_st20p_next_available.
  destruct (ring_next_available _ _ _) as [i|] eqn:Ei; [|by eapply r20_inv_same].
  destruct (next_available_some _ _ _ _ Ei) as (fb & Hfb & Hst%bool_decide_eq_true).
  assert (r20_inv (r20_query_dst query i m c).2 /\ exists fb', r20_framebuffs (r20_query_dst query i m c).2 !! i = Some fb'
    /\ r20_stat fb' = ST20P_RX_FRAME_FREE) as [Hq (fb' & Hfb' & Hst')].
  { unfold r20_query_dst. case_if; [by eauto|]. destruct (query m) as [ret|ext]; [by eauto|]. cbn [snd]. split.
    - by apply r20_inv_upd.
    - cbn. rewrite list_lookup_alter_eq, Hfb. eexists. by split. }
  destruct (r20_query_dst query i m c) as [[ret|u] c1]; cbn [snd] in *; [done|]. set (g := fun fb => _ <| r20_stat := _ |>).
  assert (r20_inv (r20_emit (RvAccept a) (r20_upd i g c1))) as H2.
  { destruct Hq as (Q1 & Q2 & Q3). assert (r20_put fb' = PutIdle) as Hidle
      by (apply r20_put_idle; [by eapply Forall_lookup_1|congruence..]).
    split_and!; [|done|].
    - apply (balanced_accept c1 _ i g fb' a); try done.
      + cbn. unfold r20_buffer. by rewrite Hidle, Hst'.
      + cbn. unfold r20_buffer, g. cbn. rewrite Hidle. by case_if.
    - apply Forall_alter_at; [done|]. intros x Hx _. assert (x = fb') as -> by congruence. unfold r20_put_ok, g. cbn. by rewrite Hidle. }
  set (c2 := _ <| r20_producer_idx := _ |>). assert (r20_inv c2) as H3 by (by eapply r20_inv_same).
  destruct (r20_derive c1 || _); [by apply r20_inv_notify|]. cbn [snd].
  assert (forall c, r20_inv c -> r20_inv (if r20_internal_converter c then rx_st20p_notify_frame_available app c else c)) as Hn.
  { intros c3 H4. case_if; [by apply r20_inv_notify|done]. }
  apply Hn. case_if; [by apply r20_inv_note|done].
Qed.

Lemma r20_inv_claim idx s s' env c :
  s = ST20P_RX_FRAME_READY \/ s = ST20P_RX_FRAME_CONVERTED -> s' <> ST20P_RX_FRAME_FREE -> Forall (keeps_inv r20_inv) env -> r20_inv c ->
  r20_inv (rx_st20p_claim_available idx s s' env c).2 /\
  forall i, (rx_st20p_claim_available idx s s' env c).1 = Some i -> True.
Proof.
  intros Hs Hs' He Hc. apply (ring_claim_rule r20_inv (fun _ _ => True)); [|done|done].
  intros i c1 Hb [Hp|Hd]; (split; [|done]); apply (r20_inv_move i s); try done.
  destruct (next_available_some _ _ _ _ Hp) as (fb & Hfb & Hst). by rewrite (r20_at_lookup _ _ _ Hfb).
Qed.

Lemma r20_inv_get env waits unlocked again c :
  Forall (keeps_inv r20_inv) env -> Forall (wait_ok r20_inv) waits -> keeps_inv r20_inv unlocked ->
  Forall (keeps_inv r20_inv) again -> r20_inv c -> r20_inv (st20p_rx_get_frame env waits unlocked again c).2.
Proof.
  intros He Hw Hu Ha Hc. unfold st20p_rx_get_frame. case_if; [done|]. case_if; [done|].
  set (c1 := _ <| r20_stat_get_frame_try ::= _ |>).
  assert (r20_inv (r20_get_claim env waits unlocked again c1).2) as Hb.
  { unfold r20_get_claim. apply (rx_block_get_rule r20_inv (fun _ _ => True)); try done.
    intros env' c' He' Hc'. apply r20_inv_claim; try done. case_if; [by left|by right]. }
  destruct (r20_get_claim env waits unlocked again c1) as [[i|] c2]; cbn [snd] in *; [|done].
  apply r20_inv_note; [done|]. set (c3 := r20_upd i _ _). assert (r20_inv c3) as H3.
  { apply r20_inv_upd; [done|]. by eapply r20_inv_same. }
  case_if; by eapply r20_inv_same.
Qed.

(** *** The steps that give a frame back *)

Lemma r20_inv_put_call p i c : r20_inv c -> r20_inv (r20_put_call p i c).
Proof.
  intros Hc. unfold r20_put_call, r20_put_check. case_bool_decide as Hi; [|done]. case_if; [done|].
  destruct (r20_is _ _) eqn:Es; [|done]. apply bool_decide_eq_true in Es. cbn [negb snd]. apply r20_inv_upd; [|done].
  intros fb <-%r20_at_lookup _. unfold r20_buffer, r20_put_ok. cbn. by rewrite Hi.
Qed.

Lemma r20_at_in c i : r20_put (r20_at c i) <> PutIdle -> r20_framebuffs c !! i = Some (r20_at c i).
Proof. unfold r20_at. by destruct (r20_framebuffs c !! i). Qed.

Lemma r20_inv_give i c : r20_inv c -> r20_inv (r20_put_give i c).
Proof.
  intros Hc. unfold r20_put_give. destruct (r20_put (r20_at c i)) as [|p|p] eqn:Hp; [done| |done].
  destruct (put_keeps p) eqn:Hk; [done|]. assert (r20_framebuffs c !! i = Some (r20_at c i)) as Hfb by (apply r20_at_in; congruence).
  destruct Hc as (H1 & H2 & H3). pose proof (Forall_lookup_1 _ _ _ _ H3 Hfb) as Hok. unfold r20_put_ok in Hok. rewrite Hp in Hok.
  set (g := fun fb => fb <| r20_put := PutGave p |>). split_and!.
  - apply (balanced_free c _ i g (r20_at c i)); [done|done| | |done].
    + unfold r20_give_back. by destruct (vf_addr _).
    + unfold r20_give_back. cbn. unfold r20_buffer. rewrite Hp, Hok.
      destruct (vf_addr _), p; cbn; by rewrite ?app_nil_r.
  - unfold r20_give_back. by destruct (vf_addr _).
  - assert (r20_framebuffs (r20_give_back i c) = r20_framebuffs c) as E by (unfold r20_give_back; by destruct (vf_addr _)).
    unfold r20_upd. cbn. rewrite E. apply Forall_alter_at; [done|]. intros x Hx _. assert (x = r20_at c i) as -> by congruence.
    unfold r20_put_ok, g. cbn. done.
Qed.

Lemma r20_inv_free i c : r20_inv c -> r20_inv (r20_put_free i c).
Proof.
  intros Hc. unfold r20_put_free. destruct (r20_put (r20_at c i)) as [|p|p] eqn:Hp; [done|done|].
  set (c1 := r20_upd i _ c). assert (r20_inv c1) as H1; [|destruct p; by eapply r20_inv_same].
  apply r20_inv_upd; [|done]. intros fb <-%r20_at_lookup _. unfold r20_buffer, r20_put_ok. cbn. by rewrite Hp.
Qed.

Lemma r20_inv_converted app i c : keeps_inv r20_inv app -> r20_inv c -> r20_inv (r20_put_converted app i c).
Proof.
  intros Happ Hc. unfold r20_put_converted. destruct (r20_put (r20_at c i)) as [|p|p] eqn:Hp; [done| |done].
  destruct (put_keeps p) eqn:Hk; [|done]. apply r20_inv_notify; [done|]. apply r20_inv_upd; [|done].
  intros fb <-%r20_at_lookup Hok. unfold r20_put_ok in Hok. rewrite Hp in Hok. unfold r20_buffer, r20_put_ok. cbn.
  rewrite Hp, Hok. by destruct p.
Qed.

Lemma r20_session_inv f : r20_session f -> keeps_inv r20_inv f.
Proof.
  induction 1 as [|f g _ IHf _ IHg|app query a m _ IH|query m|env _ IHe|p i|i|i|app i _ IH| |env waits unlocked again _ IHe _ IHu _ IHs _ IHr
    | |ns|ret| |]; intros c Hc.
  - done.
  - by apply IHg, IHf.
  - by apply r20_inv_ready.
  - unfold rx_st20p_query_ext_frame. case_if; [done|]. destruct (rx_st20p_next_available _ _ _); [|by eapply r20_inv_same].
    destruct (query m); [done|]. by apply r20_inv_upd.
  - unfold rx_st20p_convert_get_frame. case_if; [done|]. case_if; [done|].
    destruct (r20_inv_claim (r20_convert_idx c) ST20P_RX_FRAME_READY ST20P_RX_FRAME_IN_CONVERTING env c) as [H1 _]; try done; [by left|..].
    { apply Forall_forall. intros g Hg. exact (IHe g Hg). }
    destruct (rx_st20p_claim_available _ _ _ _ _) as [[i|] c1]; [by eapply r20_inv_same|done].
  - by apply r20_inv_put_call.
  - by apply r20_inv_give.
  - by apply r20_inv_free.
  - by apply r20_inv_converted.
  - unfold rx_st20p_convert_dump. case_if; [done|]. by eapply r20_inv_same.
  - apply r20_inv_get; try done.
    + apply Forall_forall. intros g Hg. apply (IHe g), elem_of_app. by left.
    + apply Forall_forall. intros w Hw. split; [apply Forall_forall; intros g Hg; exact (IHr w g Hw Hg)|exact (IHs w Hw)].
    + apply Forall_forall. intros g Hg. apply (IHe g), elem_of_app. by right.
  - unfold st20p_rx_wake_block. case_if; [done|]. cbn. case_if; [|done]. apply r20_inv_note; [done|]. by eapply r20_inv_same.
  - unfold st20p_rx_set_block_timeout. case_if; [done|]. by eapply r20_inv_same.
  - unfold st20p_rx_reset_session_stats. case_if; [done|]. by eapply r20_inv_same.
  - unfold rx_st20p_stat. case_if; [done|]. by eapply r20_inv_same.
  - unfold st20p_rx_free_begin. case_if; [done|]. apply r20_inv_note; [done|]. by eapply r20_inv_same.
Qed.

(** C30: a video receive pipeline neither loses a buffer of the transport nor gives one back
    twice. Whatever applications, converter plugins and the transport do to a session that
    does not convert packets, in any interleaving of their steps, every buffer the session
    took is in exactly one slot that is not free or went back to the transport exactly
    once. A put, an abort and the end of a conversion are three steps (the load of the
    status, the call of the transport, the plain store), and other threads can do anything
    between them except give back the same frame: the code has no exchange there, and two
    threads that put one frame at once give its buffer back twice
    ([double_put_gives_back_twice]). The hand-over of a frame by the transport, which has
    one thread and alone takes free slots, is one step. *)
Theorem st20p_rx_buffers_balance app ops converter alloc virt2iova ums c0 f :
  st20p_rx_create app ops converter alloc virt2iova ums = Some c0 -> r20_session app -> r20_session f ->
  has_flag (o20_flags ops) ST20P_RX_FLAG_PKT_CONVERT = false ->
  let c := f c0 in
  rx_accepted (r20_trace c) ≡ₚ rx_returned (r20_trace c) ++ omap r20_buffer (r20_framebuffs c).
Proof.
  intros Hc Ha Hf Hk c. assert (r20_inv c) as [H _]; [|unfold xc_balanced, rx_ledger in H; rewrite omap_id_fmap in H; exact H].
  apply r20_session_inv; [done|]. unfold st20p_rx_create in Hc. case_if_in Hc; [done|]. case_if_in Hc; [done|]. case_if_in Hc; [done|].
  destruct (rx_st20p_init_dst_fbs _ _ _ _ _) as [fbs|] eqn:Efb; [|done]. cbn in Hc. case_if_in Hc; [done|].
  destruct (r20_create_fbs _ _ _ _ _ _ Efb) as [_ Hfbs].
  set (c1 := mk_st20p_rx_ctx _ _ _ _ _ _ _ _ _ _ _ _ _ _ _ _ _ _ _ _ _ _ _ _) in Hc.
  assert (r20_inv c1) as H1.
  { split_and!; [|done|].
    - unfold xc_balanced, rx_ledger. cbn. rewrite omap_id_fmap. clear -Hfbs.
      induction Hfbs as [|fb fbs (G & _ & G') _ IH]; [done|]. cbn. unfold r20_buffer at 1. by rewrite G, G'.
    - eapply Forall_impl; [exact Hfbs|]. intros fb (_ & _ & G). unfold r20_put_ok. by rewrite G. }
  injection Hc as <-. case_if; [done|]. apply r20_inv_notify; [|done]. by apply r20_session_inv.
Qed.

(** Three frames with a plugin. The first conversion fails, and while its thread is between
    giving the buffer back and freeing the slot the second one is finished, taken and put
    back by two other threads whose steps alternate with it. *)
Definition ex_r20_plugin_steps : list (st20p_rx_ctx -> st20p_rx_ctx) :=
  [(fun c => (rx_st20p_frame_ready id (fun _ => inl 0) 100 (ex_r20_meta 0) c).2);
   (fun c => (rx_st20p_frame_ready id (fun _ => inl 0) 200 (ex_r20_meta 3600) c).2);
   (fun c => (rx_st20p_frame_ready id (fun _ => inl 0) 300 (ex_r20_meta 7200) c).2);
   (fun c => (rx_st20p_convert_get_frame [id] c).2); (fun c => (rx_st20p_convert_get_frame [] c).2);
   r20_put_call (PutConverted (-1)) 0; r20_put_call (PutConverted 0) 1; r20_put_give 0; r20_put_converted id 1;
   (fun c => (st20p_rx_get_frame [] [] id [] c).2); r20_put_call PutFrame 1; r20_put_free 0; r20_put_give 1].
Definition ex_r20_plugin_run (c : st20p_rx_ctx) : st20p_rx_ctx := foldl (fun c f => f c) c ex_r20_plugin_steps.

Lemma r20_session_steps l : Forall r20_session l -> r20_session (fun c => foldl (fun c f => f c) c l).
Proof.
  induction 1 as [|f l Hf _ IH]; [apply r20_s_id|]. exact (r20_s_comp f (fun c => foldl (fun c f => f c) c l) Hf IH).
Qed.

Lemma ex_r20_plugin_run_session : r20_session ex_r20_plugin_run.
Proof.
  apply r20_session_steps. repeat (apply Forall_cons_2; [first
    [ apply r20_s_ready, r20_s_id | apply r20_s_put_check | apply r20_s_put_give | apply r20_s_put_free
    | apply r20_s_put_converted, r20_s_id
    | apply r20_s_conv_get; intros f Hf; rewrite ?elem_of_cons, ?elem_of_nil in Hf; destruct_or? Hf; try done; subst f; apply r20_s_id
    | apply r20_s_get; [by intros f ?%elem_of_nil|apply r20_s_id|by intros w ?%elem_of_nil|by intros w f ?%elem_of_nil] ]|]).
  apply Forall_nil_2.
Qed.

Definition ex_r20_plugin : st20p_rx_ctx :=
  default ex_r20_session (ex_r20_create 0 ST_FRAME_FMT_YUV422PLANAR10LE ConvPlugin).
Lemma ex_r20_plugin_created : ex_r20_create 0 ST_FRAME_FMT_YUV422PLANAR10LE ConvPlugin = Some ex_r20_plugin.
Proof. vm_compute. reflexivity. Qed.

Lemma st20p_rx_buffers_balance_witness :
  let c := ex_r20_plugin_run ex_r20_plugin in
  rx_accepted (r20_trace c) ≡ₚ rx_returned (r20_trace c) ++ omap r20_buffer (r20_framebuffs c)
  /\ rx_returned (r20_trace c) = [100; 200] /\ omap r20_buffer (r20_framebuffs c) = [300].
Proof.
  split; [|vm_compute; split; reflexivity].
  apply (st20p_rx_buffers_balance _ _ _ _ _ _ _ ex_r20_plugin_run ex_r20_plugin_created r20_s_id ex_r20_plugin_run_session eq_refl).
Defined.

(** Two threads that put the same frame: both find it IN_USER, both give its buffer back. *)
Lemma double_put_gives_back_twice :
  let c := (st20p_rx_get_frame [] [] id [] (rx_st20p_frame_ready id (fun _ => inl 0) 100 (ex_r20_meta 0) ex_r20_session).2).2 in
  let first := r20_put_check PutFrame 0 c in
  let second := r20_put_check PutFrame 0 first.2 in
  first.1 = 0 /\ second.1 = 0 /\
  rx_returned (r20_trace (r20_give_back 0 (r20_give_back 0 second.2))) = [100; 100].
Proof. vm_compute. repeat split. Qed.
