(* ===== verification/PipelineRx22.v ===== *)
(** The frame slots of the ST 2110-22 receive pipeline,
    lib/src/st2110/pipeline/st22_pipeline_rx.c. The transport hands over codestreams
    ([rx_st22p_frame_ready]); a decoder plugin takes READY slots and leaves them DECODED,
    or, in derive mode, the application gets the codestream itself. Frames are the
    [rx20_frame] of [PipelineRx20], the scan, the claim and the blocking gets those of
    [RxRing]. [app] is what the application does to the session while
    [notify_frame_available] runs, [plugin] what the decoder does in its callback. *)
From S2P Require Import Prelude Fmt TxCommon RxRing PipelineRx20.

Inductive st22p_rx_frame_status :=
| ST22P_RX_FRAME_FREE | ST22P_RX_FRAME_READY | ST22P_RX_FRAME_IN_DECODING | ST22P_RX_FRAME_DECODED
| ST22P_RX_FRAME_IN_USER.
#[export] Instance st22p_rx_frame_status_eq : EqDecision st22p_rx_frame_status.
Proof. solve_decision. Defined.

Record st22_rx_frame_meta := mk_st22_rx_meta {
  xm_second_field : bool;
  xm_tfmt : st10_timestamp_fmt;
  xm_timestamp : Z;
  xm_rtp_timestamp : Z;
  xm_frame_total_size : Z;
  xm_status : st_frame_status;
  xm_pkts_total : Z;
  xm_pkts_recv : list Z;
}.

(** [struct st22p_rx_frame]; the [decode_frame] points to the two frames. *)
Record st22p_rx_frame := mk_st22p_rx_frame { r22_stat : st22p_rx_frame_status; r22_src : rx20_frame; r22_dst : rx20_frame }.
#[export] Instance eta_st22p_rx_frame : Settable st22p_rx_frame := fun fb =>
  mk_st22p_rx_frame (r22_stat fb) (r22_src fb) (r22_dst fb).

(** The fields of [st22p_rx_ops] that are consulted. *)
Record st22p_rx_ops := mk_st22p_rx_ops {
  o22_width : Z;
  o22_height : Z;
  o22_interlaced : bool;
  o22_output_fmt : st_frame_fmt;
  o22_codec : st22_codec;
  o22_max_codestream_size : Z;
  o22_framebuff_cnt : Z;
  o22_flags : Z;
  o22_has_query_ext_frame : bool;
  o22_notify_frame_available : bool;
}.
Definition ST22P_RX_FLAG_EXT_FRAME : Z := Z.shiftl 1 4.
Definition ST22P_RX_FLAG_BLOCK_GET : Z := Z.shiftl 1 15.

(** [r22_decoder_notified]: the device of the decoder has a [notify_frame_available]. *)
Record st22p_rx_ctx := mk_st22p_rx_ctx {
  r22_destroying : bool;
  r22_ops : st22p_rx_ops;
  r22_producer_idx : nat;
  r22_decode_idx : nat;
  r22_consumer_idx : nat;
  r22_framebuffs : list st22p_rx_frame;
  r22_ready : bool;
  r22_derive : bool;
  r22_ext_frame : bool;
  r22_dst_size : Z;
  r22_max_codestream_size : Z;
  r22_block_get : bool;
  r22_block_timeout_ns : Z;
  r22_wake_pending : bool;
  r22_decoder_notified : bool;
  r22_decode_block_get : bool;
  r22_decode_block_timeout_ns : Z;
  r22_decode_wake_pending : bool;
  r22_stat_decode_fail : Z;
  r22_stat_busy : Z;
  r22_stat_get_frame_try : Z;
  r22_stat_get_frame_succ : Z;
  r22_stat_put_frame : Z;
  r22_stat_decode_get_frame_try : Z;
  r22_stat_decode_get_frame_succ : Z;
  r22_stat_decode_put_frame : Z;
  r22_trace : list rx_event;
}.
#[export] Instance eta_st22p_rx_ctx : Settable st22p_rx_ctx := fun c =>
  mk_st22p_rx_ctx (r22_destroying c) (r22_ops c) (r22_producer_idx c) (r22_decode_idx c) (r22_consumer_idx c) (r22_framebuffs c)
    (r22_ready c) (r22_derive c) (r22_ext_frame c) (r22_dst_size c) (r22_max_codestream_size c) (r22_block_get c)
    (r22_block_timeout_ns c) (r22_wake_pending c) (r22_decoder_notified c) (r22_decode_block_get c)
    (r22_decode_block_timeout_ns c) (r22_decode_wake_pending c) (r22_stat_decode_fail c) (r22_stat_busy c)
    (r22_stat_get_frame_try c) (r22_stat_get_frame_succ c) (r22_stat_put_frame c) (r22_stat_decode_get_frame_try c)
    (r22_stat_decode_get_frame_succ c) (r22_stat_decode_put_frame c) (r22_trace c).

Definition r22_at (c : st22p_rx_ctx) (i : nat) : st22p_rx_frame :=
  default (mk_st22p_rx_frame ST22P_RX_FRAME_FREE rx20_frame_zero rx20_frame_zero) (r22_framebuffs c !! i).
Definition r22_upd (i : nat) (g : st22p_rx_frame -> st22p_rx_frame) (c : st22p_rx_ctx) : st22p_rx_ctx :=
  c <| r22_framebuffs ::= alter g i |>.
Definition r22_emit (e : rx_event) (c : st22p_rx_ctx) : st22p_rx_ctx := c <| r22_trace ::= fun t => t ++ [e] |>.
Definition r22_set_stat (i : nat) (s : st22p_rx_frame_status) : st22p_rx_ctx -> st22p_rx_ctx :=
  r22_upd i (fun fb => fb <| r22_stat := s |>).
Definition r22_is (s : st22p_rx_frame_status) (fb : st22p_rx_frame) : bool := bool_decide (r22_stat fb = s).

Definition rx_st22p_next_idx (c : st22p_rx_ctx) (idx : nat) : nat := ring_next_idx (length (r22_framebuffs c)) idx.

Definition rx_st22p_block_wake (c : st22p_rx_ctx) : st22p_rx_ctx := r22_emit RvWake (c <| r22_wake_pending := true |>).
Definition rx_st22p_decode_block_wake (c : st22p_rx_ctx) : st22p_rx_ctx := r22_emit RvWake (c <| r22_decode_wake_pending := true |>).
Definition rx_st22p_block_wake_all (c : st22p_rx_ctx) : st22p_rx_ctx := rx_st22p_decode_block_wake (rx_st22p_block_wake c).

Definition rx_st22p_next_available (c : st22p_rx_ctx) (idx_start : nat) (desired : st22p_rx_frame_status) : option nat :=
  ring_next_available (r22_is desired) (r22_framebuffs c) idx_start.

Definition rx_st22p_claim_available (idx_start : nat) (desired claimed : st22p_rx_frame_status)
    (env : list (st22p_rx_ctx -> st22p_rx_ctx)) (c : st22p_rx_ctx) : option nat * st22p_rx_ctx :=
  ring_claim (fun c => rx_st22p_next_available c idx_start desired) (fun i c => r22_is desired (r22_at c i))
    (fun i => r22_set_stat i claimed) env c.

(** What [rx_st22p_frame_ready] writes into both frames of a slot, and into the source. *)
Definition r22_received (meta : st22_rx_frame_meta) (f : rx20_frame) : rx20_frame :=
  f <| vf_tfmt := xm_tfmt meta |> <| vf_timestamp := xm_timestamp meta |> <| vf_rtp_timestamp := xm_rtp_timestamp meta |>
    <| vf_second_field := xm_second_field meta |> <| vf_pkts_total := xm_pkts_total meta |>
    <| vf_pkts_recv := xm_pkts_recv meta |> <| vf_status := xm_status meta |>.
Definition r22_source (addr : Z) (meta : st22_rx_frame_meta) (f : rx20_frame) : rx20_frame :=
  r22_received meta f <| vf_addr := Some addr |>
    <| vf_frame ::= fun g => g <| fr_addr ::= fun l => arr_set l 0 addr |> <| fr_data_size := xm_frame_total_size meta |> |>.
Definition r22_fill (derive : bool) (addr : Z) (meta : st22_rx_frame_meta) (fb : st22p_rx_frame) : st22p_rx_frame :=
  let src := r22_source addr meta (r22_src fb) in
  fb <| r22_src := src |> <| r22_dst := if derive then src else r22_received meta (r22_dst fb) |>
     <| r22_stat := if derive then ST22P_RX_FRAME_DECODED else ST22P_RX_FRAME_READY |>.

Section Operations.
Context (app plugin : st22p_rx_ctx -> st22p_rx_ctx).
(** The answer of [query_ext_frame]. *)
Context (query : st22_rx_frame_meta -> Z + st_ext_frame).

Definition rx_st22p_decode_notify_frame_ready (c : st22p_rx_ctx) : st22p_rx_ctx :=
  if r22_derive c then c
  else
    let c := if r22_decoder_notified c then plugin (r22_emit RvPluginReady c) else c in
    if r22_decode_block_get c then r22_emit RvSignal c else c.

Definition rx_st22p_notify_frame_available (c : st22p_rx_ctx) : st22p_rx_ctx :=
  let c := if o22_notify_frame_available (r22_ops c) then app (r22_emit RvAvailable c) else c in
  if r22_block_get c then r22_emit RvSignal c else c.

(** The buffer of the application for a frame: [inl] is the error answered. It is asked for
    in derive mode as well. *)
Definition r22_query_dst (i : nat) (meta : st22_rx_frame_meta) (c : st22p_rx_ctx) : (Z + unit) * st22p_rx_ctx :=
  if negb (r22_ext_frame c) then (inr tt, c)
  else
    match query meta with
    | inl ret => (inl ret, c)
    | inr ext =>
        let c := r22_upd i (fun fb => fb <| r22_dst ::= r20_ext_dst ext |>) c in
        let ret := st_frame_sanity_check (vf_frame (r22_dst (r22_at c i))) in
        (if ret <? 0 then inl ret else inr tt, c)
    end.

Definition rx_st22p_frame_ready (addr : Z) (meta : st22_rx_frame_meta) (c : st22p_rx_ctx) : Z * st22p_rx_ctx :=
  if negb (r22_ready c) then (- EBUSY, c)
  else
    match rx_st22p_next_available c (r22_producer_idx c) ST22P_RX_FRAME_FREE with
    | None => (- EBUSY, c <| r22_stat_busy ::= fun n => i32 (n + 1) |>)
    | Some i =>
        match r22_query_dst i meta c with
        | (inl ret, c) => (ret, c)
        | (inr _, c) =>
            let c := r22_emit (RvAccept addr) (r22_upd i (r22_fill (r22_derive c) addr meta) c) in
            let c := c <| r22_producer_idx := rx_st22p_next_idx c i |> in
            (0, if r22_derive c then rx_st22p_notify_frame_available c else rx_st22p_decode_notify_frame_ready c)
        end
    end.

(** [st22_rx_put_framebuff(ctx->transport, framebuff->src.addr[0])] *)
Definition r22_give_back (i : nat) (c : st22p_rx_ctx) : st22p_rx_ctx :=
  match vf_addr (r22_src (r22_at c i)) with Some addr => r22_emit (RvBack addr) c | None => c end.

Definition rx_st22p_decode_put_frame (i : nat) (result : Z) (c : st22p_rx_ctx) : Z * st22p_rx_ctx :=
  if r22_destroying c then (- EIO, c)
  else if negb (r22_is ST22P_RX_FRAME_IN_DECODING (r22_at c i)) then (- EIO, c)
  else
    let c := c <| r22_stat_decode_put_frame ::= fun n => u32 (n + 1) |> in
    (0, if result <? 0 then
          r22_set_stat i ST22P_RX_FRAME_FREE (r22_give_back i c) <| r22_stat_decode_fail ::= fun n => i32 (n + 1) |>
        else rx_st22p_notify_frame_available (r22_set_stat i ST22P_RX_FRAME_DECODED c)).

(** The destination frame of slot [i]: [None] when it fails the check. [alloc] is the
    memory of the slot. *)
Definition r22_init_dst (ops : st22p_rx_ops) (derive ext_frame : bool) (dst_size : Z) (alloc : nat -> Z) (virt2iova : Z -> Z) (i : nat)
    : option st_frame :=
  let f := st_frame_blank (o22_output_fmt ops) (o22_width ops) (o22_height ops) (o22_interlaced ops) 0
             <| fr_buffer_size := dst_size |> <| fr_data_size := dst_size |> in
  if derive || ext_frame then Some f
  else
    let f := st_frame_init_plane_single_src f (alloc i) (virt2iova (alloc i)) in
    if st_frame_sanity_check f <? 0 then None else Some f.

(** The source frame of a slot, set when the transport exists. *)
Definition r22_init_src (ops : st22p_rx_ops) (max_codestream_size : Z) : rx20_frame :=
  rx20_frame_zero <| vf_frame :=
    st_frame_blank (st_codec_codestream_fmt (o22_codec ops)) (o22_width ops) (o22_height ops) (o22_interlaced ops) 0
      <| fr_buffer_size := max_codestream_size |> <| fr_data_size := max_codestream_size |> |>.

Definition rx_st22p_init_dst_fbs (ops : st22p_rx_ops) (derive ext_frame : bool) (dst_size max_codestream_size : Z)
    (alloc : nat -> Z) (virt2iova : Z -> Z) : option (list st22p_rx_frame) :=
  mapM (fun i =>
    dst ← r22_init_dst ops derive ext_frame dst_size alloc virt2iova i;
    Some (mk_st22p_rx_frame ST22P_RX_FRAME_FREE (r22_init_src ops max_codestream_size) (rx20_frame_zero <| vf_frame := dst |>)))
    (seq 0 (Z.to_nat (o22_framebuff_cnt ops))).

(** The size of the buffers of the transport, which take one codestream. *)
Definition r22_codestream_size (ops : st22p_rx_ops) (derive : bool) (dst_size : Z) : Z :=
  let size := if c_true (o22_max_codestream_size ops) then o22_max_codestream_size ops else dst_size in
  if derive && negb (c_true size) then 0x100000 else size.

(** [st22p_rx_create], when memory, port and transport are there. [decoder] is what
    [st22_get_decoder] found: whether its device wants to be notified and whether it blocks. *)
Definition st22p_rx_create (ops : st22p_rx_ops) (decoder : option (bool * bool)) (alloc : nat -> Z) (virt2iova : Z -> Z)
    : option st22p_rx_ctx :=
  let codestream_fmt := st_codec_codestream_fmt (o22_codec ops) in
  let ext_frame := has_flag (o22_flags ops) ST22P_RX_FLAG_EXT_FRAME in
  if ext_frame && negb (o22_has_query_ext_frame ops) then None
  else if bool_decide (codestream_fmt = ST_FRAME_FMT_MAX) then None
  else
    let derive := bool_decide (codestream_fmt = o22_output_fmt ops) in
    let dst_size := if derive then 0 else st_frame_size (o22_output_fmt ops) (o22_width ops) (o22_height ops) (o22_interlaced ops) in
    if negb derive && negb (c_true dst_size) then None
    else
      '(notified, blocks) ← (if derive then Some (false, false) else decoder);
      let max_size := r22_codestream_size ops derive dst_size in
      fbs ← rx_st22p_init_dst_fbs ops derive ext_frame dst_size max_size alloc virt2iova;
      let c := mk_st22p_rx_ctx false ops 0 0 0 fbs true derive ext_frame dst_size max_size
                 (has_flag (o22_flags ops) ST22P_RX_FLAG_BLOCK_GET) NS_PER_S false notified blocks NS_PER_S false
                 0 0 0 0 0 0 0 0 [] in
      Some (if r22_block_get c then c else rx_st22p_notify_frame_available c).

End Operations.

(** [rx_st22p_decode_get_block_wait] *)
Fixpoint r22_ready_wait (waits : list (rx_wait st22p_rx_ctx)) (c : st22p_rx_ctx) : st22p_rx_ctx :=
  if r22_decode_wake_pending c || r22_ready c || r22_destroying c then c
  else
    match waits with
    | [] => c
    | w :: waits => let c := rw_sleep w c in if c_true (rw_ret w) then c else r22_ready_wait waits c
    end.
Definition rx_st22p_decode_get_block_wait (waits : list (rx_wait st22p_rx_ctx)) (c : st22p_rx_ctx) : st22p_rx_ctx :=
  r22_ready_wait waits c <| r22_decode_wake_pending := false |>.

(** The claims of the two blocking gets. *)
Definition r22_decode_claim (env : list (st22p_rx_ctx -> st22p_rx_ctx)) (waits : list (rx_wait st22p_rx_ctx))
    (unlocked : st22p_rx_ctx -> st22p_rx_ctx) (again : list (st22p_rx_ctx -> st22p_rx_ctx)) (c : st22p_rx_ctx)
    : option nat * st22p_rx_ctx :=
  rx_block_get (fun env c => rx_st22p_claim_available (r22_decode_idx c) ST22P_RX_FRAME_READY ST22P_RX_FRAME_IN_DECODING env c)
    r22_decode_wake_pending r22_destroying (fun c => c <| r22_decode_wake_pending := false |>) r22_decode_block_get
    env waits unlocked again c.
Definition r22_get_claim (env : list (st22p_rx_ctx -> st22p_rx_ctx)) (waits : list (rx_wait st22p_rx_ctx))
    (unlocked : st22p_rx_ctx -> st22p_rx_ctx) (again : list (st22p_rx_ctx -> st22p_rx_ctx)) (c : st22p_rx_ctx)
    : option nat * st22p_rx_ctx :=
  rx_block_get (fun env c => rx_st22p_claim_available (r22_consumer_idx c) ST22P_RX_FRAME_DECODED ST22P_RX_FRAME_IN_USER env c)
    r22_wake_pending r22_destroying (fun c => c <| r22_wake_pending := false |>) r22_block_get env waits unlocked again c.

(** A decoder that comes before the session is ready waits and goes away empty. *)
Definition rx_st22p_decode_get_frame (env : list (st22p_rx_ctx -> st22p_rx_ctx)) (waits : list (rx_wait st22p_rx_ctx))
    (unlocked : st22p_rx_ctx -> st22p_rx_ctx) (again : list (st22p_rx_ctx -> st22p_rx_ctx)) (c : st22p_rx_ctx)
    : option nat * st22p_rx_ctx :=
  if r22_destroying c then (None, c)
  else if negb (r22_ready c) then (None, if r22_decode_block_get c then rx_st22p_decode_get_block_wait waits c else c)
  else
    let c := c <| r22_stat_decode_get_frame_try ::= fun n => u32 (n + 1) |> in
    match r22_decode_claim env waits unlocked again c with
    | (None, c) => (None, c)
    | (Some i, c) =>
        (Some i, c <| r22_decode_idx := rx_st22p_next_idx c i |> <| r22_stat_decode_get_frame_succ ::= fun n => u32 (n + 1) |>)
    end.

Definition rx_st22p_decode_wake_block (c : st22p_rx_ctx) : Z * st22p_rx_ctx := (0, rx_st22p_decode_block_wake c).
Definition rx_st22p_decode_set_timeout (timedwait_ns : Z) (c : st22p_rx_ctx) : Z * st22p_rx_ctx :=
  (0, c <| r22_decode_block_timeout_ns := timedwait_ns |>).
Definition rx_st22p_decode_dump (c : st22p_rx_ctx) : Z * st22p_rx_ctx :=
  if negb (r22_ready c) then (- EBUSY, c)
  else
    (0, c <| r22_stat_decode_fail := 0 |> <| r22_stat_busy := 0 |> <| r22_stat_get_frame_try := 0 |>
          <| r22_stat_get_frame_succ := 0 |> <| r22_stat_put_frame := 0 |> <| r22_stat_decode_get_frame_try := 0 |>
          <| r22_stat_decode_get_frame_succ := 0 |> <| r22_stat_decode_put_frame := 0 |>).

Definition st22p_rx_get_frame (env : list (st22p_rx_ctx -> st22p_rx_ctx)) (waits : list (rx_wait st22p_rx_ctx))
    (unlocked : st22p_rx_ctx -> st22p_rx_ctx) (again : list (st22p_rx_ctx -> st22p_rx_ctx)) (c : st22p_rx_ctx)
    : option nat * st22p_rx_ctx :=
  if r22_destroying c then (None, c)
  else if negb (r22_ready c) then (None, c)
  else
    let c := c <| r22_stat_get_frame_try ::= fun n => u32 (n + 1) |> in
    match r22_get_claim env waits unlocked again c with
    | (None, c) => (None, c)
    | (Some i, c) =>
        let c := c <| r22_consumer_idx := rx_st22p_next_idx c i |> <| r22_stat_get_frame_succ ::= fun n => u32 (n + 1) |> in
        (Some i, r22_emit (RvGot i) c)
    end.

Definition st22p_rx_put_frame (i : nat) (c : st22p_rx_ctx) : Z * st22p_rx_ctx :=
  if r22_destroying c then (- EIO, c)
  else if negb (r22_is ST22P_RX_FRAME_IN_USER (r22_at c i)) then (- EIO, c)
  else (0, r22_set_stat i ST22P_RX_FRAME_FREE (r22_give_back i c) <| r22_stat_put_frame ::= fun n => u32 (n + 1) |>).

Definition st22p_rx_put_frame_abort (i : nat) (c : st22p_rx_ctx) : Z * st22p_rx_ctx :=
  if r22_destroying c then (- EIO, c)
  else if negb (r22_is ST22P_RX_FRAME_IN_USER (r22_at c i)) then (- EIO, c)
  else (0, r22_set_stat i ST22P_RX_FRAME_FREE (r22_give_back i c)).

Definition st22p_rx_get_fb_addr (idx : nat) (c : st22p_rx_ctx) : Z :=
  if r22_destroying c then 0
  else
    match r22_framebuffs c !! idx with
    | None => 0
    | Some fb => if r22_ext_frame c then 0 else arr_get 0 (fr_addr (vf_frame (r22_dst fb))) 0
    end.

Definition st22p_rx_frame_size (c : st22p_rx_ctx) : Z :=
  if r22_destroying c then 0 else if r22_derive c then r22_max_codestream_size c else r22_dst_size c.

Definition st22p_rx_wake_block (c : st22p_rx_ctx) : Z * st22p_rx_ctx :=
  if r22_destroying c then (- EIO, c) else (0, if r22_block_get c then rx_st22p_block_wake c else c).

Definition st22p_rx_set_block_timeout (timedwait_ns : Z) (c : st22p_rx_ctx) : Z * st22p_rx_ctx :=
  if r22_destroying c then (- EIO, c) else (0, c <| r22_block_timeout_ns := timedwait_ns |>).

(** The start of [st22p_rx_free]. *)
Definition st22p_rx_free_begin (c : st22p_rx_ctx) : Z * st22p_rx_ctx :=
  if r22_destroying c then (- EBUSY, c) else (0, rx_st22p_block_wake_all (c <| r22_destroying := true |>)).

Lemma r22_at_lookup c i fb : r22_framebuffs c !! i = Some fb -> r22_at c i = fb.
Proof. unfold r22_at. by intros ->. Qed.

(** ** The buffers of the transport *)

(** Everything that can happen to a session: calls of the application, of the transport and
    of the decoder, with callbacks that call back and threads that run between the scan and
    the exchange of a claim or while a blocking get sleeps. *)
Inductive r22_session : (st22p_rx_ctx -> st22p_rx_ctx) -> Prop :=
| r22_s_id : r22_session id
| r22_s_comp f g : r22_session f -> r22_session g -> r22_session (fun c => g (f c))
| r22_s_ready app plugin query a m :
    r22_session app -> r22_session plugin -> r22_session (fun c => (rx_st22p_frame_ready app plugin query a m c).2)
| r22_s_dec_get env waits unlocked again :
    (forall f, f ∈ env ++ again -> r22_session f) -> r22_session unlocked ->
    (forall w, w ∈ waits -> r22_session (rw_sleep w)) -> (forall w f, w ∈ waits -> f ∈ rw_races w -> r22_session f) ->
    r22_session (fun c => (rx_st22p_decode_get_frame env waits unlocked again c).2)
| r22_s_dec_put app i result : r22_session app -> r22_session (fun c => (rx_st22p_decode_put_frame app i result c).2)
| r22_s_dec_wake : r22_session (fun c => (rx_st22p_decode_wake_block c).2)
| r22_s_dec_timeout ns : r22_session (fun c => (rx_st22p_decode_set_timeout ns c).2)
| r22_s_dump : r22_session (fun c => (rx_st22p_decode_dump c).2)
| r22_s_get env waits unlocked again :
    (forall f, f ∈ env ++ again -> r22_session f) -> r22_session unlocked ->
    (forall w, w ∈ waits -> r22_session (rw_sleep w)) -> (forall w f, w ∈ waits -> f ∈ rw_races w -> r22_session f) ->
    r22_session (fun c => (st22p_rx_get_frame env waits unlocked again c).2)
| r22_s_put i : r22_session (fun c => (st22p_rx_put_frame i c).2)
| r22_s_abort i : r22_session (fun c => (st22p_rx_put_frame_abort i c).2)
| r22_s_wake : r22_session (fun c => (st22p_rx_wake_block c).2)
| r22_s_timeout ns : r22_session (fun c => (st22p_rx_set_block_timeout ns c).2)
| r22_s_free : r22_session (fun c => (st22p_rx_free_begin c).2).

Definition r22_buffer (fb : st22p_rx_frame) : option Z :=
  match r22_stat fb with ST22P_RX_FRAME_FREE => None | _ => vf_addr (r22_src fb) end.

#[export] Instance r22_rx_ctx : RxCtx st22p_rx_ctx st22p_rx_frame := {
  xc_fbs := r22_framebuffs; xc_buffer := r22_buffer; xc_trace := r22_trace;
}.
Notation r22_balanced := (@xc_balanced st22p_rx_ctx st22p_rx_frame r22_rx_ctx).

Lemma r22_bal_note e c : rx_notes [e] -> r22_balanced c -> r22_balanced (r22_emit e c).
Proof. intros He. by apply (balanced_notes c _ [e]). Qed.

(** An update that leaves the buffer of a slot alone. *)
Lemma r22_bal_upd i g c :
  (forall fb, r22_framebuffs c !! i = Some fb -> r22_buffer (g fb) = r22_buffer fb) -> r22_balanced c -> r22_balanced (r22_upd i g c).
Proof. intros Hg. apply (balanced_keep c _ i g []); try done. cbn. by rewrite app_nil_r. Qed.

Lemma r22_bal_move i s s' c :
  r22_is s (r22_at c i) = true -> s <> ST22P_RX_FRAME_FREE -> s' <> ST22P_RX_FRAME_FREE -> r22_balanced c ->
  r22_balanced (r22_set_stat i s' c).
Proof.
  unfold r22_is. rewrite bool_decide_eq_true. intros Hs Hn Hn'. apply r22_bal_upd. intros fb Hfb%r22_at_lookup. subst fb.
  unfold r22_buffer. cbn. rewrite Hs. by destruct s, s'.
Qed.

Lemma r22_bal_back i s c :
  r22_is s (r22_at c i) = true -> s <> ST22P_RX_FRAME_FREE -> r22_balanced c ->
  r22_balanced (r22_set_stat i ST22P_RX_FRAME_FREE (r22_give_back i c)).
Proof.
  unfold r22_is. rewrite bool_decide_eq_true. unfold r22_give_back, r22_at.
  destruct (r22_framebuffs c !! i) as [fb|] eqn:Hfb; cbn; [|intros <-; done]. intros Hu Hn.
  apply (balanced_free c _ i (fun fb => fb <| r22_stat := ST22P_RX_FRAME_FREE |>) fb); [done|done|by destruct (vf_addr _)|].
  cbn. unfold r22_buffer. rewrite Hu. destruct s, (vf_addr _); cbn; rewrite ?app_nil_r; done.
Qed.

(** A callback and the signal to a thread that blocks. *)
Lemma r22_bal_call (b : st22p_rx_ctx -> bool) (call : bool) cb e c :
  keeps_inv r22_balanced cb -> rx_notes [e] -> r22_balanced c ->
  let c := if call then cb (r22_emit e c) else c in r22_balanced (if b c then r22_emit RvSignal c else c).
Proof.
  intros Hcb He Hc. cbv zeta. set (c1 := if call then _ else _).
  assert (r22_balanced c1) as H1 by (unfold c1; case_if; [by apply Hcb, r22_bal_note|done]). case_if; [by apply r22_bal_note|done].
Qed.

Lemma r22_bal_notify app c : keeps_inv r22_balanced app -> r22_balanced c -> r22_balanced (rx_st22p_notify_frame_available app c).
Proof. intros Happ Hc. by apply (r22_bal_call r22_block_get). Qed.

Lemma r22_bal_decode_notify plugin c :
  keeps_inv r22_balanced plugin -> r22_balanced c -> r22_balanced (rx_st22p_decode_notify_frame_ready plugin c).
Proof. intros Hp Hc. unfold rx_st22p_decode_notify_frame_ready. case_if; [done|]. by apply (r22_bal_call r22_decode_block_get). Qed.

Lemma r22_bal_ready app plugin query a m c :
  keeps_inv r22_balanced app -> keeps_inv r22_balanced plugin -> r22_balanced c ->
  r22_balanced (rx_st22p_frame_ready app plugin query a m c).2.
Proof.
  intros Happ Hplug Hc. unfold rx_st22p_frame_ready. case_if; [done|]. unfold rx_st22p_next_available.
  destruct (ring_next_available _ _ _) as [i|] eqn:Ei; [|by eapply balanced_same].
  destruct (next_available_some _ _ _ _ Ei) as (fb & Hfb & Hst%bool_decide_eq_true).
  assert (r22_balanced (r22_query_dst query i m c).2 /\ exists fb', r22_framebuffs (r22_query_dst query i m c).2 !! i = Some fb'
    /\ r22_stat fb' = ST22P_RX_FRAME_FREE) as [Hq (fb' & Hfb' & Hst')].
  { unfold r22_query_dst. case_if; [by eauto|]. destruct (query m) as [ret|ext]; [by eauto|]. cbn [snd]. split.
    - by apply r22_bal_upd.
    - cbn. rewrite list_lookup_alter_eq, Hfb. eexists. by split. }
  destruct (r22_query_dst query i m c) as [[ret|u] c1]; cbn [snd] in *; [done|].
  assert (r22_balanced (r22_emit (RvAccept a) (r22_upd i (r22_fill (r22_derive c1) a m) c1))) as H2.
  { apply (balanced_accept c1 _ i (r22_fill (r22_derive c1) a m) fb' a); try done; cbn; unfold r22_buffer; [by rewrite Hst'|].
    cbn. by destruct (r22_derive c1). }
  set (c2 := _ <| r22_producer_idx := _ |>). assert (r22_balanced c2) as H3 by (by eapply balanced_same).
  case_if; [by apply r22_bal_notify|by apply r22_bal_decode_notify].
Qed.

Lemma r22_bal_claim idx s s' env c :
  s <> ST22P_RX_FRAME_FREE -> s' <> ST22P_RX_FRAME_FREE -> Forall (keeps_inv r22_balanced) env -> r22_balanced c ->
  r22_balanced (rx_st22p_claim_available idx s s' env c).2 /\
  forall i, (rx_st22p_claim_available idx s s' env c).1 = Some i -> True.
Proof.
  intros Hs Hs' He Hc. apply (ring_claim_rule r22_balanced (fun _ _ => True)); [|done|done].
  intros i c1 Hb [Hp|Hd]; (split; [|done]); apply (r22_bal_move i s); try done.
  destruct (next_available_some _ _ _ _ Hp) as (fb & Hfb & Hst). by rewrite (r22_at_lookup _ _ _ Hfb).
Qed.

(** What the other threads do in one of the two blocking gets. *)
Definition r22_gets (env : list (st22p_rx_ctx -> st22p_rx_ctx)) (waits : list (rx_wait st22p_rx_ctx))
    (unlocked : st22p_rx_ctx -> st22p_rx_ctx) (again : list (st22p_rx_ctx -> st22p_rx_ctx)) : Prop :=
  Forall (keeps_inv r22_balanced) env /\ Forall (wait_ok r22_balanced) waits /\ keeps_inv r22_balanced unlocked
  /\ Forall (keeps_inv r22_balanced) again.

Lemma r22_gets_intro env waits unlocked again :
  (forall f, f ∈ env ++ again -> keeps_inv r22_balanced f) -> keeps_inv r22_balanced unlocked ->
  (forall w, w ∈ waits -> keeps_inv r22_balanced (rw_sleep w)) ->
  (forall w f, w ∈ waits -> f ∈ rw_races w -> keeps_inv r22_balanced f) -> r22_gets env waits unlocked again.
Proof.
  intros He Hu Hs Hr. split_and!; [| |done|]; apply Forall_forall.
  - intros g Hg. apply He, elem_of_app. by left.
  - intros w Hw. split; [apply Forall_forall; intros g; by apply Hr|by apply Hs].
  - intros g Hg. apply He, elem_of_app. by right.
Qed.

Lemma r22_bal_get env waits unlocked again c :
  r22_gets env waits unlocked again -> r22_balanced c -> r22_balanced (st22p_rx_get_frame env waits unlocked again c).2.
Proof.
  intros (He & Hw & Hu & Ha) Hc. unfold st22p_rx_get_frame. case_if; [done|]. case_if; [done|].
  set (c1 := _ <| r22_stat_get_frame_try ::= _ |>). assert (r22_balanced (r22_get_claim env waits unlocked again c1).2) as Hb.
  { apply (rx_block_get_rule r22_balanced (fun _ _ => True)); try done. intros env' c' He' Hc'. by apply r22_bal_claim. }
  destruct (r22_get_claim env waits unlocked again c1) as [[i|] c2]; cbn [snd] in *; [|done].
  apply r22_bal_note; [done|]. by eapply balanced_same.
Qed.

Lemma r22_bal_ready_wait waits c : Forall (wait_ok r22_balanced) waits -> r22_balanced c -> r22_balanced (r22_ready_wait waits c).
Proof.
  intros Hw. revert c. induction Hw as [|w waits [_ Hs] _ IH]; intros c Hc; cbn [r22_ready_wait]; (case_if; [done|]); [done|].
  case_if; [by apply Hs|by apply IH, Hs].
Qed.

Lemma r22_bal_decode_get env waits unlocked again c :
  r22_gets env waits unlocked again -> r22_balanced c -> r22_balanced (rx_st22p_decode_get_frame env waits unlocked again c).2.
Proof.
  intros (He & Hw & Hu & Ha) Hc. unfold rx_st22p_decode_get_frame. case_if; [done|]. case_if.
  { cbn [snd]. case_if; [|done]. by eapply balanced_same, r22_bal_ready_wait. }
  set (c1 := _ <| r22_stat_decode_get_frame_try ::= _ |>). assert (r22_balanced (r22_decode_claim env waits unlocked again c1).2) as Hb.
  { apply (rx_block_get_rule r22_balanced (fun _ _ => True)); try done. intros env' c' He' Hc'. by apply r22_bal_claim. }
  destruct (r22_decode_claim env waits unlocked again c1) as [[i|] c2]; cbn [snd] in *; [|done]. by eapply balanced_same.
Qed.

Lemma r22_session_bal f : r22_session f -> keeps_inv r22_balanced f.
Proof.
  induction 1 as [|f g _ IHf _ IHg|app plugin query a m _ IHa _ IHp|env waits unlocked again _ IHe _ IHu _ IHs _ IHr|app i result _ IH
    | |ns| |env waits unlocked again _ IHe _ IHu _ IHs _ IHr|i|i| |ns|]; intros c Hc.
  - done.
  - by apply IHg, IHf.
  - by apply r22_bal_ready.
  - by apply r22_bal_decode_get; [apply r22_gets_intro|].
  - unfold rx_st22p_decode_put_frame. case_if; [done|]. case_if; [done|]. zbool. cbn [snd].
    set (c1 := _ <| r22_stat_decode_put_frame ::= _ |>). assert (r22_balanced c1) as H1 by (by eapply balanced_same). case_if.
    + eapply balanced_same; [..|by eapply (r22_bal_back i ST22P_RX_FRAME_IN_DECODING c1)]; done.
    + apply r22_bal_notify; [done|]. by apply (r22_bal_move i ST22P_RX_FRAME_IN_DECODING).
  - apply r22_bal_note; [done|]. by eapply balanced_same.
  - by eapply balanced_same.
  - unfold rx_st22p_decode_dump. case_if; [done|]. by eapply balanced_same.
  - by apply r22_bal_get; [apply r22_gets_intro|].
  - unfold st22p_rx_put_frame. case_if; [done|]. case_if; [done|]. zbool.
    eapply balanced_same; [..|by eapply (r22_bal_back i ST22P_RX_FRAME_IN_USER)]; done.
  - unfold st22p_rx_put_frame_abort. case_if; [done|]. case_if; [done|]. zbool. by apply (r22_bal_back i ST22P_RX_FRAME_IN_USER).
  - unfold st22p_rx_wake_block. case_if; [done|]. cbn. case_if; [|done]. apply r22_bal_note; [done|]. by eapply balanced_same.
  - unfold st22p_rx_set_block_timeout. case_if; [done|]. by eapply balanced_same.
  - unfold st22p_rx_free_begin. case_if; [done|]. apply r22_bal_note; [done|]. by eapply balanced_same; [..|apply r22_bal_note].
Qed.

(** What a created session is made of. *)
Lemma r22_create_fbs ops derive ext size max alloc virt2iova fbs :
  rx_st22p_init_dst_fbs ops derive ext size max alloc virt2iova = Some fbs ->
  length fbs = Z.to_nat (o22_framebuff_cnt ops)
  /\ Forall (fun fb => r22_stat fb = ST22P_RX_FRAME_FREE /\ r22_src fb = r22_init_src ops max) fbs.
Proof.
  unfold rx_st22p_init_dst_fbs. intros H%mapM_Some. split.
  - apply Forall2_length in H. by rewrite length_seq in H.
  - eapply Forall2_Forall_r; [exact H|]. apply Forall_true. intros i fb. destruct (r22_init_dst _ _ _ _ _ _ _); [|done]. by intros [= <-].
Qed.

(** What [st22p_rx_create] leaves before it calls the application. *)
Lemma r22_create_spec app ops decoder alloc virt2iova c :
  st22p_rx_create app ops decoder alloc virt2iova = Some c ->
  exists c0, c = (if r22_block_get c0 then c0 else rx_st22p_notify_frame_available app c0)
  /\ r22_ops c0 = ops /\ r22_ready c0 = true /\ r22_destroying c0 = false /\ r22_trace c0 = []
  /\ r22_derive c0 = bool_decide (st_codec_codestream_fmt (o22_codec ops) = o22_output_fmt ops)
  /\ r22_ext_frame c0 = has_flag (o22_flags ops) ST22P_RX_FLAG_EXT_FRAME
  /\ r22_producer_idx c0 = 0%nat /\ r22_consumer_idx c0 = 0%nat
  /\ length (r22_framebuffs c0) = Z.to_nat (o22_framebuff_cnt ops)
  /\ Forall (fun fb => r22_stat fb = ST22P_RX_FRAME_FREE /\ r22_src fb = r22_init_src ops (r22_max_codestream_size c0)) (r22_framebuffs c0).
Proof.
  unfold st22p_rx_create. intros Hc. case_if_in Hc; [done|]. case_if_in Hc; [done|]. case_if_in Hc; [done|].
  destruct (if bool_decide _ then Some (false, false) else decoder) as [[notified blocks]|]; [|done]. cbn in Hc.
  destruct (rx_st22p_init_dst_fbs _ _ _ _ _ _ _) as [fbs|] eqn:Efb; [|done]. cbn [mbind option_bind] in Hc.
  set (c0 := mk_st22p_rx_ctx _ _ _ _ _ _ _ _ _ _ _ _ _ _ _ _ _ _ _ _ _ _ _ _ _ _ _) in Hc. cbv zeta in Hc. apply (inj Some) in Hc. exists c0. split; [done|].
  destruct (r22_create_fbs _ _ _ _ _ _ _ _ Efb) as [Hlen Hfbs]. by split_and!.
Qed.

(** A codestream receive pipeline neither loses a buffer of the transport nor gives one back
    twice: whatever application, decoder and transport do to a session, in any
    interleaving, a buffer it took is in exactly one slot that is not free or went back
    exactly once. *)
Lemma st22p_rx_buffers_balance app ops decoder alloc virt2iova c0 f :
  st22p_rx_create app ops decoder alloc virt2iova = Some c0 -> r22_session app -> r22_session f ->
  let c := f c0 in
  rx_accepted (r22_trace c) ≡ₚ rx_returned (r22_trace c) ++ omap r22_buffer (r22_framebuffs c).
Proof.
  intros Hc Ha Hf c. assert (r22_balanced c) as H; [|unfold xc_balanced, rx_ledger in H; rewrite omap_id_fmap in H; exact H].
  apply r22_session_bal; [done|]. destruct (r22_create_spec _ _ _ _ _ _ Hc) as (c1 & -> & _ & _ & _ & Et & _ & _ & _ & _ & _ & Hfbs).
  assert (r22_balanced c1) as H1.
  { unfold xc_balanced, rx_ledger. cbn. rewrite Et, omap_id_fmap. cbn.
    induction Hfbs as [|fb fbs [G _] _ IH]; [done|]. cbn. unfold r22_buffer at 1. by rewrite G. }
  case_if; [done|]. apply r22_bal_notify; [|done]. by apply r22_session_bal.
Qed.

(** ** The pipeline as a queue *)

(** A session in derive mode with buffers of the transport: the application sees the source
    frame. The settings are the ops and the largest codestream. *)
Definition r22_slot (fb : st22p_rx_frame) : rx_slot rx20_frame :=
  match r22_stat fb with
  | ST22P_RX_FRAME_FREE => RFree
  | ST22P_RX_FRAME_IN_USER => RUser (r22_dst fb)
  | _ => RReady (r22_dst fb)
  end.

Definition st22_seen (k : st22p_rx_ops * Z) (addr : Z) (m : st22_rx_frame_meta) : rx20_frame :=
  r22_source addr m (r22_init_src k.1 k.2).

(** A slot not in use can be filled like a new one; one in use shows its source. *)
Definition r22_slot_ok (k : st22p_rx_ops * Z) (fb : st22p_rx_frame) : Prop :=
  r22_stat fb ∈ [ST22P_RX_FRAME_FREE; ST22P_RX_FRAME_DECODED; ST22P_RX_FRAME_IN_USER]
  /\ (forall a m, r22_source a m (r22_src fb) = st22_seen k a m)
  /\ (r22_stat fb <> ST22P_RX_FRAME_FREE -> r22_dst fb = r22_src fb /\ is_Some (vf_addr (r22_src fb))).

Definition r22_open (k : st22p_rx_ops * Z) (c : st22p_rx_ctx) : Prop :=
  r22_ready c = true /\ r22_destroying c = false /\ r22_derive c = true /\ r22_ext_frame c = false
  /\ Forall (r22_slot_ok k) (r22_framebuffs c).

#[export] Instance st22p_rx_pipeline : RxPipeline st22p_rx_ctx st22_rx_frame_meta rx20_frame := {
  rx_frame_ready := rx_st22p_frame_ready id id (fun _ => inl 0);
  rx_get_frame := st22p_rx_get_frame [] [] id [];
  rx_put_frame := st22p_rx_put_frame;
  rx_frame c i := r22_dst (r22_at c i);
  rx_trace := r22_trace;
}.

Lemma r22_source_again a m a' m' f : r22_source a m (r22_source a' m' f) = r22_source a m f.
Proof.
  assert (forall l : list Z, arr_set (arr_set l 0 a') 0 a = arr_set l 0 a) as E by (intros l; apply list_insert_insert_eq).
  unfold r22_source, r22_received. cbv -[arr_set Z.add]. by rewrite E.
Qed.

(** Two states a client of the queue cannot tell apart. *)
Definition r22_same (c c' : st22p_rx_ctx) : Prop :=
  r22_ready c' = r22_ready c /\ r22_destroying c' = r22_destroying c /\ r22_derive c' = r22_derive c
  /\ r22_ext_frame c' = r22_ext_frame c /\ r22_framebuffs c' = r22_framebuffs c /\ r22_producer_idx c' = r22_producer_idx c
  /\ r22_consumer_idx c' = r22_consumer_idx c /\ rx_returned (r22_trace c') = rx_returned (r22_trace c).

Lemma r22_notify_same c : r22_same c (rx_st22p_notify_frame_available id c).
Proof.
  unfold rx_st22p_notify_frame_available, r22_same, rx_returned, id.
  destruct (o22_notify_frame_available _); destruct (r22_block_get _); cbn; rewrite ?omap_app; cbn; rewrite ?app_nil_r; done.
Qed.

Lemma r22_same_open k c c' : r22_same c c' -> r22_open k c -> r22_open k c'.
Proof. unfold r22_open. intros (-> & -> & -> & -> & -> & _). done. Qed.

Lemma r22_is_free fb : r22_is ST22P_RX_FRAME_FREE fb = rslot_free (r22_slot fb).
Proof. unfold r22_is, r22_slot. by destruct (r22_stat fb). Qed.
Lemma r22_is_decoded k fb : r22_slot_ok k fb -> r22_is ST22P_RX_FRAME_DECODED fb = rslot_ready (r22_slot fb).
Proof.
  intros (Hs & _). unfold r22_is, r22_slot. rewrite !elem_of_cons, elem_of_nil in Hs. by destruct Hs as [-> |[-> |[-> |[]]]].
Qed.

Lemma r22_ready_law k a m c : r22_open k c ->
  let '(ret, c') := rx_st22p_frame_ready id id (fun _ => inl 0) a m c in
  r22_open k c' /\ r22_consumer_idx c' = r22_consumer_idx c /\ rx_returned (r22_trace c') = rx_returned (r22_trace c) /\
  match ring_next_available rslot_free (r22_slot <$> r22_framebuffs c) (r22_producer_idx c) with
  | None => ret = - EBUSY /\ r22_slot <$> r22_framebuffs c' = r22_slot <$> r22_framebuffs c
      /\ r22_producer_idx c' = r22_producer_idx c
  | Some i => ret = 0 /\ r22_slot <$> r22_framebuffs c' = <[i := RReady (st22_seen k a m)]> (r22_slot <$> r22_framebuffs c)
      /\ r22_producer_idx c' = ring_next_idx (length (r22_slot <$> r22_framebuffs c)) i
  end.
Proof.
  intros (Hr & Hd & Hv & Hx & Hs). rewrite (next_available_fmap _ (r22_is ST22P_RX_FRAME_FREE)) by apply r22_is_free.
  unfold rx_st22p_frame_ready. rewrite Hr. cbn [negb]. unfold rx_st22p_next_available.
  destruct (ring_next_available _ _ _) as [i|] eqn:E; [|by split_and!]. unfold r22_query_dst. rewrite Hx. cbn [negb].
  destruct (next_available_some _ _ _ _ E) as (fb & Hfb & _). pose proof (Forall_lookup_1 _ _ _ _ Hs Hfb) as (_ & Hok & _).
  rewrite Hv. set (c1 := _ <| r22_producer_idx := _ |>). change (r22_derive c1) with (r22_derive c). rewrite Hv.
  assert (r22_open k c1) as Hc1.
  { split_and!; try done. apply Forall_alter_at; [done|]. intros x _ (_ & G & _). split_and!; [right; left| |by eauto].
    intros a' m'. cbn. by rewrite r22_source_again. }
  split; [by eapply r22_same_open, Hc1; apply r22_notify_same|].
  destruct (r22_notify_same c1) as (_ & _ & _ & _ & -> & -> & -> & ->). split_and!; try done.
  - unfold c1, rx_returned. cbn. rewrite omap_app. cbn. by rewrite app_nil_r.
  - unfold c1. cbn. erewrite fmap_alter_insert by exact Hfb. f_equal. cbn. by rewrite Hok.
  - unfold c1, rx_st22p_next_idx. cbn. by rewrite length_alter, length_fmap.
Qed.

Lemma r22_claim c :
  rx_st22p_claim_available (r22_consumer_idx c) ST22P_RX_FRAME_DECODED ST22P_RX_FRAME_IN_USER [] c
  = match rx_st22p_next_available c (r22_consumer_idx c) ST22P_RX_FRAME_DECODED with
    | Some i => (Some i, r22_set_stat i ST22P_RX_FRAME_IN_USER c)
    | None => (None, c)
    end.
Proof. unfold rx_st22p_claim_available. cbn [ring_claim]. by destruct rx_st22p_next_available. Qed.

Lemma r22_get_law k c : r22_open k c ->
  let '(r, c') := st22p_rx_get_frame [] [] id [] c in
  r22_open k c' /\ r22_producer_idx c' = r22_producer_idx c /\ rx_returned (r22_trace c') = rx_returned (r22_trace c) /\
  match ring_next_available rslot_ready (r22_slot <$> r22_framebuffs c) (r22_consumer_idx c) with
  | None => r = None /\ r22_slot <$> r22_framebuffs c' = r22_slot <$> r22_framebuffs c /\ r22_consumer_idx c' = r22_consumer_idx c
  | Some i => r = Some i /\ r22_consumer_idx c' = ring_next_idx (length (r22_slot <$> r22_framebuffs c)) i
      /\ forall f, (r22_slot <$> r22_framebuffs c) !! i = Some (RReady f) ->
         r22_slot <$> r22_framebuffs c' = <[i := RUser f]> (r22_slot <$> r22_framebuffs c) /\ r22_dst (r22_at c' i) = f
  end.
Proof.
  intros Hopen. pose proof Hopen as (Hr & Hd & Hv & Hx & Hs).
  rewrite (next_available_fmap_in _ (r22_is ST22P_RX_FRAME_DECODED)) by (eapply Forall_impl; [exact Hs|apply r22_is_decoded]).
  unfold st22p_rx_get_frame. rewrite Hd, Hr. cbn [negb]. set (c1 := _ <| r22_stat_get_frame_try ::= _ |>).
  unfold r22_get_claim. destruct (ring_next_available _ _ _) as [i|] eqn:E.
  - destruct (next_available_some _ _ _ _ E) as (fb & Hfb & Hst%bool_decide_eq_true). unfold rx_block_get. rewrite r22_claim.
    change (rx_st22p_next_available c1 (r22_consumer_idx c1) ST22P_RX_FRAME_DECODED)
      with (ring_next_available (r22_is ST22P_RX_FRAME_DECODED) (r22_framebuffs c) (r22_consumer_idx c)). rewrite E. split_and!; try done.
    + split_and!; try done. apply Forall_alter_at; [done|]. intros x Hx' (_ & G1 & G2). split_and!; [right; right; left|done|].
      intros _. apply G2. change (r22_framebuffs c !! i = Some x) in Hx'. congruence.
    + unfold rx_returned. cbn. rewrite omap_app. cbn. by rewrite app_nil_r.
    + unfold rx_st22p_next_idx. cbn. by rewrite length_alter, length_fmap.
    + intros f. rewrite list_lookup_fmap, Hfb. cbn. unfold r22_slot at 1. rewrite Hst. intros [= <-].
      split; [by erewrite fmap_alter_insert by exact Hfb|]. unfold r22_at. cbn. by rewrite list_lookup_alter_eq, Hfb.
  - destruct (rx_block_get_idle
      (fun env c => rx_st22p_claim_available (r22_consumer_idx c) ST22P_RX_FRAME_DECODED ST22P_RX_FRAME_IN_USER env c)
      r22_wake_pending r22_destroying (fun c => c <| r22_wake_pending := false |>) r22_block_get c1) as (c' & -> & Hc');
      [rewrite r22_claim; change (rx_st22p_next_available _ _ _) with
         (ring_next_available (r22_is ST22P_RX_FRAME_DECODED) (r22_framebuffs c) (r22_consumer_idx c)); by rewrite E..|].
    destruct Hc' as [-> | ->]; by split_and!.
Qed.

Lemma r22_put_law k i f c : r22_open k c -> (r22_slot <$> r22_framebuffs c) !! i = Some (RUser f) ->
  let '(ret, c') := st22p_rx_put_frame i c in
  r22_open k c' /\ ret = 0 /\ r22_slot <$> r22_framebuffs c' = <[i := RFree]> (r22_slot <$> r22_framebuffs c)
  /\ r22_producer_idx c' = r22_producer_idx c /\ r22_consumer_idx c' = r22_consumer_idx c
  /\ rx_returned (r22_trace c') = rx_returned (r22_trace c) ++ [default 0 (vf_addr f)].
Proof.
  intros (Hr & Hd & Hv & Hx & Hs) Hf.
  rewrite list_lookup_fmap in Hf. destruct (r22_framebuffs c !! i) as [fb|] eqn:Hfb; [|done]. cbn in Hf. injection Hf as Hf.
  pose proof (Forall_lookup_1 _ _ _ _ Hs Hfb) as (_ & _ & F3).
  assert (r22_stat fb = ST22P_RX_FRAME_IN_USER /\ r22_dst fb = f) as [Est <-].
  { unfold r22_slot in Hf. destruct (r22_stat fb); try done. by injection Hf. }
  unfold st22p_rx_put_frame, r22_give_back. rewrite Hd, (r22_at_lookup c i fb Hfb). unfold r22_is. rewrite Est.
  rewrite bool_decide_eq_true_2 by done. cbn [negb]. destruct F3 as [-> [a Ea]]; [congruence|]. rewrite Ea. split_and!; try done.
  - split_and!; try done. apply Forall_alter_at; [done|]. intros x _ (G1 & G2 & G3). split_and!; [left|done|done].
  - cbn. by erewrite fmap_alter_insert by exact Hfb.
  - cbn. unfold rx_returned. by rewrite omap_app.
Qed.

#[export] Instance st22p_rx_laws : RxPipelineLaws st22p_rx_ctx st22_rx_frame_meta rx20_frame (st22p_rx_ops * Z) := {
  rx_open := r22_open;
  rx_slots c := r22_slot <$> r22_framebuffs c;
  rx_in := r22_producer_idx;
  rx_out := r22_consumer_idx;
  rx_seen := st22_seen;
  rx_addr f := default 0 (vf_addr f);
  law_addr k a m := eq_refl;
  law_ready := r22_ready_law;
  law_get := r22_get_law;
  law_put := r22_put_law;
}.

(** In derive mode the pipeline is a bounded queue of codestreams: they come in the order
    in which the transport completed them, every frame with the buffer of the transport, its
    size and its meta data, and one is refused exactly when all places are taken. *)
Lemma st22p_rx_refines_queue ops decoder alloc virt2iova c l :
  st22p_rx_create id ops decoder alloc virt2iova = Some c ->
  st_codec_codestream_fmt (o22_codec ops) = o22_output_fmt ops -> has_flag (o22_flags ops) ST22P_RX_FLAG_EXT_FRAME = false ->
  0 < o22_framebuff_cnt ops ->
  exists size,
  let '(answers, s) := rx_client l (c, []) in
  let '(answers', q) := rx_queue_run (Z.to_nat (o22_framebuff_cnt ops)) (st22_seen (ops, size)) l (mk_rx_queue [] [] []) in
  answers = answers' /\ rx_returned (r22_trace s.1) = (fun f => default 0 (vf_addr f)) <$> rq_back q.
Proof.
  intros Hc Hder Hext Hcnt.
  destruct (r22_create_spec _ _ _ _ _ _ Hc) as (c0 & Ec & _ & Hr & Hd & Et & Hv & Hx & Ei & Eo & Hlen & Hfbs). set (k := (ops, r22_max_codestream_size c0)).
  exists (r22_max_codestream_size c0). fold k. pose proof (rx_fresh_refines k l c) as L. cbn [rx_slots st22p_rx_laws] in L.
  assert (r22_same c0 c) as Hsame by (rewrite Ec; case_if; [by split_and!|apply r22_notify_same]).
  assert (r22_framebuffs c = r22_framebuffs c0) as Ef by apply Hsame. rewrite Ef, length_fmap, Hlen in L. apply L.
  assert (r22_open k c0) as Hopen.
  { split_and!; [done|done| |by rewrite Hx|].
    - rewrite Hv. by apply bool_decide_eq_true_2.
    - eapply Forall_impl; [exact Hfbs|]. intros fb [G1 G2]. unfold r22_slot_ok. rewrite G1, G2. split_and!; [left|done|done]. }
  split; [by eapply r22_same_open|]. destruct Hsame as (_ & _ & _ & _ & _ & S1 & S2 & S3).
  cbn [rx_slots st22p_rx_laws rx_in rx_out rx_trace st22p_rx_pipeline]. rewrite Ef, S1, S2, S3, Et. split_and!; try done.
  - destruct (r22_framebuffs c0); [cbn in Hlen; lia|done].
  - apply Forall_fmap. eapply Forall_impl; [exact Hfbs|]. intros fb [G1 _]. cbn. unfold r22_slot. by rewrite G1.
Qed.

Definition ex_r22_ops (flags : Z) (output : st_frame_fmt) : st22p_rx_ops :=
  mk_st22p_rx_ops 1920 1080 false output ST22_CODEC_JPEGXS 0x100000 3 flags true true.
Definition ex_r22_meta (ts : Z) : st22_rx_frame_meta :=
  mk_st22_rx_meta false ST10_TIMESTAMP_FMT_MEDIA_CLK ts ts 259200 ST_FRAME_STATUS_COMPLETE 200 [200; 0].
Definition ex_r22_create (flags : Z) (output : st_frame_fmt) : option st22p_rx_ctx :=
  st22p_rx_create id (ex_r22_ops flags output) (Some (true, true)) (fun i => 4096 * (1 + Z.of_nat i)) id.

(** Two frames with a decoder: one decoding fails, the other frame is taken. *)
Example ex_r22_decoder :
  exists c, ex_r22_create 0 ST_FRAME_FMT_YUV422PLANAR10LE = Some c /\
  let ready a ts c := (rx_st22p_frame_ready id id (fun _ => inl 0) a (ex_r22_meta ts) c).2 in
  let decode c := (rx_st22p_decode_get_frame [] [] id [] c).2 in
  let c := decode (decode (ready 200 3600 (ready 100 0 c))) in
  let c := (rx_st22p_decode_put_frame id 1 0 (rx_st22p_decode_put_frame id 0 (-1) c).2).2 in
  let '(got, c) := st22p_rx_get_frame [] [] id [] c in
  got = Some 1%nat /\ rx_returned (r22_trace c) = [100] /\ omap r22_buffer (r22_framebuffs c) = [200] /\ r22_stat_decode_fail c = 1.
Proof. eexists. split; [vm_compute; reflexivity|]. vm_compute. repeat split. Qed.

(** In derive mode the buffer that [query_ext_frame] gave is asked for, checked and then
    overwritten with the frame of the transport: the application never sees it again. *)
Definition ex_r22_ext : st_ext_frame := mk_ext_frame [777; 0; 0; 0] [777; 0; 0; 0] [0; 0; 0; 0] 0x100000 42.
Lemma st22p_rx_ext_frame_lost :
  exists c, ex_r22_create ST22P_RX_FLAG_EXT_FRAME ST_FRAME_FMT_JPEGXS_CODESTREAM = Some c /\
  let '(ret, c) := rx_st22p_frame_ready id id (fun _ => inr ex_r22_ext) 100 (ex_r22_meta 0) c in
  let '(got, c) := st22p_rx_get_frame [] [] id [] c in
  ret = 0 /\ got = Some 0%nat /\ arr_get 0 (fr_addr (vf_frame (r22_dst (r22_at c 0)))) 0 = 100 /\ vf_opaque (r22_dst (r22_at c 0)) = 0.
Proof. eexists. split; [vm_compute; reflexivity|]. vm_compute. repeat split. Qed.
