(* ===== verification/Mcast.v ===== *)
(** Multicast membership, lib/src/mt_mcast.c with [mt_rf1071_check_sum] of mt_util.c: the
    groups and sources a port has joined with their reference counts, the multicast MAC
    filter of the interface, and the IGMPv3 reports that are sent. An IPv4 address is the
    [uint32_t] whose bytes in memory, on a little-endian machine, are the address in network
    order. What an allocation or a transmission answers is an argument; the calls to the
    device and the packets sent are a trace. The specification is a list of memberships,
    the filter of a device that does what it is told ([dev_filter]) and a reader of
    reports written from RFC 3376 ([read_report]). *)
From S2P Require Import Prelude Bytes.

(** ** The Internet checksum *)

(** The loop of [mt_rf1071_check_sum]; a last odd byte counts as the low byte. *)
Fixpoint rf1071_sum (convert : bool) (p : bytes) (sum : Z) : Z :=
  match p with
  | a :: b :: p => rf1071_sum convert p (u32 (sum + if convert then a * 256 + b else b * 256 + a))
  | [rest] => u32 (sum + rest)
  | [] => sum
  end.
Definition rf1071_fold (sum : Z) : Z :=
  let sum := u32 (Z.shiftr sum 16 + Z.land sum 0xffff) in
  u32 (sum + Z.shiftr sum 16).
Definition mt_rf1071_check_sum (p : bytes) (convert : bool) : Z := u16 (Z.lnot (rf1071_fold (rf1071_sum convert p 0))).

(** ** Messages *)

Definition MEMBERSHIP_QUERY : Z := 0x11.
Definition MEMBERSHIP_REPORT_V3 : Z := 0x22.
Inductive mcast_group_record_type :=
| MCAST_MODE_IS_INCLUDE | MCAST_MODE_IS_EXCLUDE | MCAST_CHANGE_TO_INCLUDE_MODE | MCAST_CHANGE_TO_EXCLUDE_MODE
| MCAST_ALLOW_NEW_SOURCES | MCAST_BLOCK_OLD_SOURCES.
Definition record_type_value (t : mcast_group_record_type) : Z :=
  match t with
  | MCAST_MODE_IS_INCLUDE => 0x01 | MCAST_MODE_IS_EXCLUDE => 0x02 | MCAST_CHANGE_TO_INCLUDE_MODE => 0x03
  | MCAST_CHANGE_TO_EXCLUDE_MODE => 0x04 | MCAST_ALLOW_NEW_SOURCES => 0x05 | MCAST_BLOCK_OLD_SOURCES => 0x06
  end.
Inductive mcast_action_type := MCAST_JOIN | MCAST_LEAVE.

(** The bytes of an address in memory. *)
Definition ip_bytes (ip : Z) : bytes := [u8 ip; u8 (ip / 256); u8 (ip / 65536); u8 (ip / 16777216)].

(** [struct mcast_group_record] with its sources. *)
Definition mcast_group_record (record_type : mcast_group_record_type) (group_addr : Z) (sources : list Z) : bytes :=
  [record_type_value record_type; 0] ++ be16 (u16 (arr_len sources)) ++ ip_bytes group_addr ++ concat (ip_bytes <$> sources).

Definition mcast_create_group_record_on_query (group_addr : Z) (sources : list Z) : bytes :=
  mcast_group_record (if u16 (arr_len sources) =? 0 then MCAST_MODE_IS_EXCLUDE else MCAST_MODE_IS_INCLUDE) group_addr sources.
Definition mcast_create_group_record_join (group_addr src_addr : Z) : bytes :=
  if src_addr =? 0 then mcast_group_record MCAST_CHANGE_TO_EXCLUDE_MODE group_addr []
  else mcast_group_record MCAST_ALLOW_NEW_SOURCES group_addr [src_addr].
Definition mcast_create_group_record_leave (group_addr src_addr : Z) : bytes :=
  if src_addr =? 0 then mcast_group_record MCAST_CHANGE_TO_INCLUDE_MODE group_addr []
  else mcast_group_record MCAST_BLOCK_OLD_SOURCES group_addr [src_addr].

(** [struct mcast_mb_report_v3] and the records behind it. *)
Definition mcast_mb_report_v3 (checksum num_group_records : Z) (records : bytes) : bytes :=
  [MEMBERSHIP_REPORT_V3; 0] ++ be16 checksum ++ [0; 0] ++ be16 num_group_records ++ records.

(** [sizeof(struct mcast_mb_query_v3)] *)
Definition SIZEOF_MB_QUERY : nat := 12.
Definition mcast_msg_checksum (type : Z) (msg : bytes) (mb_report_len : nat) : Z :=
  let size := if type =? MEMBERSHIP_QUERY then SIZEOF_MB_QUERY else if type =? MEMBERSHIP_REPORT_V3 then mb_report_len else 0%nat in
  mt_rf1071_check_sum (take size msg) true.

(** A report with its checksum: [None] when the checksum is 0. *)
Definition mcast_report (num_group_records : Z) (records : bytes) : option bytes :=
  let msg := mcast_mb_report_v3 0 num_group_records records in
  let checksum := mcast_msg_checksum MEMBERSHIP_REPORT_V3 msg (length msg) in
  if checksum <=? 0 then None else Some (mcast_mb_report_v3 checksum num_group_records records).

(** ** State *)

Record mt_mcast_src_entry := mk_src_entry { src_ip : Z; src_ref_cnt : Z }.
#[export] Instance eta_src_entry : Settable mt_mcast_src_entry := fun e => mk_src_entry (src_ip e) (src_ref_cnt e).
Record mt_mcast_group_entry := mk_group_entry { group_ip : Z; group_ref_cnt : Z; src_list : list mt_mcast_src_entry }.
#[export] Instance eta_group_entry : Settable mt_mcast_group_entry := fun e => mk_group_entry (group_ip e) (group_ref_cnt e) (src_list e).

(** What the port sends and what it tells the device; [McReset] is the reset that
    [mt_mcast_restore] follows, after which the device has no filter. *)
Inductive mc_event :=
| McSend (msg : bytes)
| McSetList (macs : list bytes)
| McAddMac (mac : bytes)
| McRemoveMac (mac : bytes)
| McReset.

(** One port: [struct mt_mcast_impl] and the multicast part of [struct mt_interface]. The
    first [mcast_nb] entries of the pool are [mc_mac_lists], [mc_mac_cap] is the number of
    entries allocated. *)
Record mcast_port := mk_mcast_port {
  mc_group_list : list mt_mcast_group_entry;
  mc_group_num : Z;
  mc_has_external_query : bool;
  mc_mac_lists : list bytes;
  mc_mac_cap : Z;
  mc_trace : list mc_event;
}.
#[export] Instance eta_mcast_port : Settable mcast_port := fun p =>
  mk_mcast_port (mc_group_list p) (mc_group_num p) (mc_has_external_query p) (mc_mac_lists p) (mc_mac_cap p) (mc_trace p).
Definition mc_emit (e : mc_event) (p : mcast_port) : mcast_port := p <| mc_trace ::= fun t => t ++ [e] |>.

(** What the environment answers: an mbuf for a report, its transmission and that of the
    copy; memory for a group, a source, a larger pool. *)
Record mc_answers := mk_mc_answers {
  an_pkt : bool;
  an_tx : bool;
  an_tx_copy : bool;
  an_group : bool;
  an_src : bool;
  an_pool : bool;
}.

(** The settings of the port: [MTL_FLAG_NO_MULTICAST], [mt_drv_mcast_in_dp],
    [mt_drv_use_kernel_ctl] and [MT_DRV_F_USE_MC_ADDR_LIST]. *)
Record mc_config := mk_mc_config { cf_no_multicast : bool; cf_in_dp : bool; cf_kernel_ctl : bool; cf_mc_list : bool }.

(** ** Reports *)

Definition mc_send (tx : bool) (msg : bytes) (p : mcast_port) : mcast_port := if tx then mc_emit (McSend msg) p else p.

(** The groups of a port with their sources. *)
Definition mc_joined (p : mcast_port) : list (Z * list Z) := (fun g => (group_ip g, src_ip <$> src_list g)) <$> mc_group_list p.

(** The records of a report on a query. *)
Definition query_records (p : mcast_port) : bytes :=
  concat ((fun '(group, sources) => mcast_create_group_record_on_query group sources) <$> mc_joined p).

Definition mcast_membership_report_on_query (an : mc_answers) (p : mcast_port) : Z * mcast_port :=
  if mc_group_num p <=? 0 then (0, p)
  else if negb (an_pkt an) then (- ENOMEM, p)
  else
    match mcast_report (mc_group_num p) (query_records p) with
    | None => (- EIO, p)
    | Some msg => (if an_tx an then 0 else - EIO, mc_send (an_tx an) msg p)
    end.

(** The report goes out twice. *)
Definition mcast_membership_report_on_action (an : mc_answers) (group_addr src_addr : Z) (action : mcast_action_type) (p : mcast_port)
    : Z * mcast_port :=
  if negb (an_pkt an) then (- ENOMEM, p)
  else
    let record := match action with
                  | MCAST_JOIN => mcast_create_group_record_join group_addr src_addr
                  | MCAST_LEAVE => mcast_create_group_record_leave group_addr src_addr
                  end in
    match mcast_report 1 record with
    | None => (- EIO, p)
    | Some msg =>
        if negb (an_tx an) then (- EIO, p)
        else (if an_tx_copy an then 0 else - EIO, mc_send (an_tx_copy an) msg (mc_emit (McSend msg) p))
    end.

(** ** The MAC filter *)

Definition MT_MCAST_POOL_INC : Z := 32.

Definition mcast_addr_pool_append (an : mc_answers) (mac : bytes) (p : mcast_port) : mcast_port :=
  let nb := arr_len (mc_mac_lists p) in
  if negb (nb mod MT_MCAST_POOL_INC =? 0) then p <| mc_mac_lists ::= fun l => l ++ [mac] |>
  else if negb (an_pool an) then p
  else p <| mc_mac_cap := nb + MT_MCAST_POOL_INC |> <| mc_mac_lists ::= fun l => l ++ [mac] |>.

Definition mcast_addr_pool_remove (addr_idx : nat) (p : mcast_port) : mcast_port :=
  let p := p <| mc_mac_lists ::= delete addr_idx |> in
  if arr_len (mc_mac_lists p) =? 0 then p <| mc_mac_cap := 0 |> else p.

Section Port.
Context (cf : mc_config).

Definition mcast_inf_add_mac (an : mc_answers) (mac : bytes) (p : mcast_port) : mcast_port :=
  if bool_decide (mac ∈ mc_mac_lists p) then p
  else
    let p := mcast_addr_pool_append an mac p in
    mc_emit (if cf_mc_list cf then McSetList (mc_mac_lists p) else McAddMac mac) p.

Definition mcast_inf_remove_mac (mac : bytes) (p : mcast_port) : mcast_port :=
  match list_find (eq mac) (mc_mac_lists p) with
  | None => p
  | Some (i, _) =>
      let p := mcast_addr_pool_remove i p in
      mc_emit (if cf_mc_list cf then McSetList (mc_mac_lists p) else McRemoveMac mac) p
  end.

Definition mt_mcast_ip_to_mac (ip : Z) : bytes :=
  let b := ip_bytes ip in
  [0x01; 0x00; 0x5e; Z.land (arr_get 0 b 1) 0x7f; arr_get 0 b 2; arr_get 0 b 3].
(** 224.0.0.1 *)
Definition mcast_mac_all : bytes := [0x01; 0x00; 0x5e; 0x00; 0x00; 0x01].

Definition mt_mcast_l2_join (an : mc_answers) (mac : bytes) (p : mcast_port) : mcast_port :=
  if cf_kernel_ctl cf then p else mcast_inf_add_mac an mac p.
Definition mt_mcast_l2_leave (mac : bytes) (p : mcast_port) : mcast_port :=
  if cf_kernel_ctl cf then p else mcast_inf_remove_mac mac p.

(** The port part of [mt_mcast_init]. *)
Definition mt_mcast_init (an : mc_answers) : mcast_port := mt_mcast_l2_join an mcast_mac_all (mk_mcast_port [] 0 false [] 0 []).

(** ** Join and leave *)

Definition MT_MCAST_GROUP_MAX : Z := 60.
Definition find_group (group_addr : Z) (l : list mt_mcast_group_entry) : option (nat * mt_mcast_group_entry) :=
  list_find (fun g => group_ip g = group_addr) l.
Definition find_src (source_addr : Z) (l : list mt_mcast_src_entry) : option (nat * mt_mcast_src_entry) :=
  list_find (fun s => src_ip s = source_addr) l.

(** The group of a join, counted or new; [inl] when there is no memory. The flag is [found]. *)
Definition mc_join_group (an : mc_answers) (group_addr : Z) (p : mcast_port) : (unit + bool * nat) * mcast_port :=
  match find_group group_addr (mc_group_list p) with
  | Some (i, _) => (inr (true, i), p <| mc_group_list ::= alter (fun g => g <| group_ref_cnt ::= fun n => u16 (n + 1) |>) i |>)
  | None =>
      let p := if cf_kernel_ctl cf then p else mcast_inf_add_mac an (mt_mcast_ip_to_mac group_addr) p in
      if negb (an_group an) then (inl tt, p)
      else (inr (false, length (mc_group_list p)),
            p <| mc_group_list ::= fun l => l ++ [mk_group_entry group_addr 1 []] |> <| mc_group_num ::= fun n => u16 (n + 1) |>)
  end.

Definition mc_join_src (an : mc_answers) (source_addr : Z) (i : nat) (p : mcast_port) : (unit + bool) * mcast_port :=
  let srcs := default [] (src_list <$> mc_group_list p !! i) in
  let upd f := p <| mc_group_list ::= alter (fun g => g <| src_list ::= f |>) i |> in
  match find_src source_addr srcs with
  | Some (j, _) => (inr true, upd (alter (fun s => s <| src_ref_cnt ::= fun n => u16 (n + 1) |>) j))
  | None => if negb (an_src an) then (inl tt, p) else (inr false, upd (fun l => l ++ [mk_src_entry source_addr 1]))
  end.

Definition mt_mcast_join (an : mc_answers) (group_addr source_addr : Z) (p : mcast_port) : Z * mcast_port :=
  if cf_no_multicast cf || cf_in_dp cf then (0, p)
  else if mc_group_num p >=? MT_MCAST_GROUP_MAX then (- EIO, p)
  else
    match mc_join_group an group_addr p with
    | (inl _, p) => (- ENOMEM, p)
    | (inr (found, i), p) =>
        match (if source_addr =? 0 then (inr found, p) else mc_join_src an source_addr i p) with
        | (inl _, p) => (- ENOMEM, p)
        | (inr true, p) => (0, p)
        | (inr false, p) => mcast_membership_report_on_action an group_addr source_addr MCAST_JOIN p
        end
    end.

(** The source of a leave: [true] when its last reference went. *)
Definition mc_leave_src (source_addr : Z) (g : mt_mcast_group_entry) : bool * mt_mcast_group_entry :=
  match find_src source_addr (src_list g) with
  | None => (false, g)
  | Some (j, s) =>
      let n := u16 (src_ref_cnt s - 1) in
      if n =? 0 then (true, g <| src_list ::= delete j |>)
      else (false, g <| src_list ::= alter (fun s => s <| src_ref_cnt := n |>) j |>)
  end.

Definition mt_mcast_leave (an : mc_answers) (group_addr source_addr : Z) (p : mcast_port) : Z * mcast_port :=
  if cf_no_multicast cf || cf_in_dp cf then (0, p)
  else if mc_group_num p =? 0 then (0, p)
  else
    match find_group group_addr (mc_group_list p) with
    | None => (0, p)
    | Some (i, g) =>
        let '(source_deleted, g) := if source_addr =? 0 then (false, g) else mc_leave_src source_addr g in
        let n := u16 (group_ref_cnt g - 1) in
        let group_deleted := n =? 0 in
        let p :=
          if group_deleted then
            let p := p <| mc_group_list ::= delete i |> <| mc_group_num ::= fun n => u16 (n - 1) |> in
            if cf_kernel_ctl cf then p else mcast_inf_remove_mac (mt_mcast_ip_to_mac group_addr) p
          else p <| mc_group_list ::= <[i := g <| group_ref_cnt := n |>]> |> in
        if group_deleted || source_deleted then mcast_membership_report_on_action an group_addr source_addr MCAST_LEAVE p
        else (0, p)
    end.


(** A received IGMP message, as many bytes as the packet has. *)
Definition mt_mcast_parse (an : mc_answers) (query : bytes) (p : mcast_port) : Z * mcast_port :=
  if negb (arr_get 0 query 0 =? MEMBERSHIP_QUERY) then (- EIO, p)
  else
    let query_checksum := arr_get 0 query 2 * 256 + arr_get 0 query 3 in
    let checksum := mcast_msg_checksum MEMBERSHIP_QUERY (splice 2 [0; 0] query) 0 in
    if negb (checksum =? query_checksum) then (- EIO, p)
    else (0, (mcast_membership_report_on_query an (p <| mc_has_external_query := true |>)).2).


End Port.

(** ** The checksum verifies *)

(** The sum of the 16-bit words of a message. *)
Fixpoint words_sum (p : bytes) : Z := match p with a :: b :: p => a * 256 + b + words_sum p | _ => 0 end.

Lemma pairs_ind (P : bytes -> Prop) : P [] -> (forall a, P [a]) -> (forall a b p, P p -> P (a :: b :: p)) -> forall p, P p.
Proof.
  intros H0 H1 H2. cut (forall p, P p /\ forall a, P (a :: p)); [intros H p; apply H|].
  induction p as [|x p [IH1 IH2]]; split; [done|done|done|]. intros a. by apply H2.
Qed.

Lemma even_tail a b (p : bytes) : Nat.Even (length (a :: b :: p)) -> Nat.Even (length p).
Proof. intros [n Hn]. exists (n - 1)%nat. cbn in Hn. lia. Qed.

Lemma words_sum_app p q : Nat.Even (length p) -> words_sum (p ++ q) = words_sum p + words_sum q.
Proof.
  induction p as [|a|a b p IH] using pairs_ind; intros He; cbn; [lia|destruct He as [n Hn]; cbn in Hn; lia|].
  rewrite IH by (by eapply even_tail). lia.
Qed.

Lemma words_sum_bound p : is_bytes p -> 0 <= 2 * words_sum p <= 65535 * arr_len p.
Proof.
  unfold arr_len. induction p as [|a|a b p IH] using pairs_ind; intros Hp; cbn; [lia|lia|].
  apply Forall_cons in Hp as [Ha Hp]. apply Forall_cons in Hp as [Hb Hp]. unfold is_u8 in *. specialize (IH Hp). lia.
Qed.

Lemma rf1071_sum_words p s :
  is_bytes p -> Nat.Even (length p) -> 0 <= s -> s + words_sum p < 4294967296 -> rf1071_sum true p s = s + words_sum p.
Proof.
  revert s. induction p as [|a|a b p IH] using pairs_ind; intros s Hp He Hs Hb; cbn [rf1071_sum words_sum] in *;
    [lia|destruct He as [n Hn]; cbn in Hn; lia|].
  apply Forall_cons in Hp as [Ha Hp]. apply Forall_cons in Hp as [Hb' Hp]. pose proof (words_sum_bound p Hp). unfold is_u8 in *.
  assert (u32 (s + (a * 256 + b)) = s + (a * 256 + b)) as -> by (apply u32_id; unfold is_u32; lia).
  rewrite IH; try lia; [done|by eapply even_tail].
Qed.

(** The checksum is the complement of a residue of the sum modulo 65535, not 0 unless the sum is. *)
Lemma rf1071_fold_residue S : 0 <= S < 4294967296 ->
  exists r, u16 (Z.lnot (rf1071_fold S)) = 65535 - r /\ 0 <= r <= 65535 /\ (exists q, 0 <= q /\ S = q * 65535 + r) /\ (r = 0 -> S = 0).
Proof.
  intros HS. unfold rf1071_fold. change 0xffff with (Z.ones 16). rewrite Z.land_ones, !Z.shiftr_div_pow2 by lia.
  change (2 ^ 16) with 65536. set (a := S / 65536). set (b := S mod 65536).
  assert (S = a * 65536 + b /\ 0 <= a < 65536 /\ 0 <= b < 65536) as (ES & Ha & Hb) by (unfold a, b; mlia).
  rewrite (u32_id (a + b)) by (unfold is_u32; lia). set (c := (a + b) / 65536). set (d := (a + b) mod 65536).
  assert (a + b = c * 65536 + d /\ 0 <= c <= 1 /\ 0 <= d < 65536) as (Ec & Hc & Hd) by (unfold c, d; mlia).
  clearbody a b c d. exists (c + d). rewrite u32_id by (unfold is_u32; lia). unfold u16, Z.lnot.
  assert (Z.pred (- (a + b + c)) mod 65536 = 65535 - (c + d)) as ->.
  { symmetry. apply (Z.mod_unique_pos _ _ (- c - 1)); lia. }
  change (Z.ones 16) with 65535. split; [lia|]. split; [lia|]. split; [exists (a + c); lia|lia].
Qed.

Lemma rf1071_check_residue p : is_bytes p -> Nat.Even (length p) -> arr_len p <= 131072 ->
  exists r, mt_rf1071_check_sum p true = 65535 - r /\ 0 <= r <= 65535 /\ (exists q, 0 <= q /\ words_sum p = q * 65535 + r) /\ (r = 0 -> words_sum p = 0).
Proof.
  intros Hp He Hl. pose proof (words_sum_bound p Hp). unfold mt_rf1071_check_sum, arr_len in *.
  rewrite rf1071_sum_words by (try done; lia). apply rf1071_fold_residue. lia.
Qed.

Lemma be16_words v : is_u16 v -> words_sum (be16 v) = v.
Proof. unfold be16, is_u16, u8. cbn. intros. mlia. Qed.

(** A message with its checksum in a field that was 0 sums up to nothing: a receiver that
    computes the checksum over it gets 0. *)
Lemma check_sum_verifies pre post :
  is_bytes pre -> is_bytes post -> Nat.Even (length pre) -> Nat.Even (length post) -> arr_len pre + 2 + arr_len post <= 131072 ->
  mt_rf1071_check_sum (pre ++ be16 (mt_rf1071_check_sum (pre ++ be16 0 ++ post) true) ++ post) true = 0.
Proof.
  intros Hpre Hpost Epre Epost Hl.
  assert (forall v, is_bytes (pre ++ be16 v ++ post) /\ Nat.Even (length (pre ++ be16 v ++ post))
    /\ arr_len (pre ++ be16 v ++ post) <= 131072) as Hm.
  { intros v. split_and!; [|rewrite !length_app; cbn; destruct Epre as [x ->], Epost as [y ->]; exists (x + 1 + y)%nat; lia|
      unfold arr_len in *; rewrite !length_app; cbn; lia]. apply Forall_app. split; [done|]. apply Forall_app. split; [apply be16_bytes|done]. }
  assert (forall v, is_u16 v -> words_sum (pre ++ be16 v ++ post) = words_sum pre + v + words_sum post) as Hw.
  { intros v Hv. rewrite !words_sum_app, be16_words by (try done; by exists 1%nat). lia. }
  destruct (Hm 0) as (H1 & H2 & H3). destruct (rf1071_check_residue _ H1 H2 H3) as (r & -> & Hr & (q & Hq & Eq) & _).
  destruct (Hm (65535 - r)) as (G1 & G2 & G3). destruct (rf1071_check_residue _ G1 G2 G3) as (r' & -> & Hr' & (q' & Hq' & Eq') & Hz).
  rewrite Hw in Eq, Eq', Hz by (unfold is_u16; lia). pose proof (words_sum_bound _ Hpre). pose proof (words_sum_bound _ Hpost).
  assert (r' <> 0) by (intros ->; specialize (Hz eq_refl); unfold arr_len in *; lia). nia.
Qed.

(** ** Counted lists *)


(** Lists of entries with a key and a reference count: the groups of a port and the sources
    of a group. [cnt] is the number of references a key should have, [P] what else is known
    of an entry. *)
Section Counted.
Context {E : Type} (key : E -> Z) (ref : E -> Z).

Record counted (cnt : Z -> nat) (P : E -> Prop) (l : list E) : Prop := {
  cd_nodup : NoDup (key <$> l);
  cd_entry e : e ∈ l -> (0 < cnt (key e))%nat /\ ref e = Z.of_nat (cnt (key e)) /\ P e;
  cd_all k : (0 < cnt k)%nat -> k ∈ key <$> l;
}.













End Counted.

(** ** Memberships *)

(** The specification of a port: the list of (group, source) pairs joined and not left, the
    source 0 for any source. *)
Abbreviation memberships := (list (Z * Z)).

Definition cnt_group (m : memberships) (g : Z) : nat := length (filter (fun x => x.1 = g) m).
Definition cnt_src (m : memberships) (g s : Z) : nat := if decide (s = 0) then 0%nat else length (filter (fun x => x = (g, s)) m).




Definition src_ok (m : memberships) (g : Z) : list mt_mcast_src_entry -> Prop :=
  counted src_ip src_ref_cnt (cnt_src m g) (fun _ => True).
Definition groups_ok (m : memberships) : list mt_mcast_group_entry -> Prop :=
  counted group_ip group_ref_cnt (cnt_group m) (fun e => src_ok m (group_ip e) (src_list e)).

(** The counts of a port are those of a list of memberships. *)
Definition mc_ok (m : memberships) (p : mcast_port) : Prop :=
  groups_ok m (mc_group_list p) /\ mc_group_num p = arr_len (mc_group_list p) /\ arr_len (mc_group_list p) <= MT_MCAST_GROUP_MAX.





















(** ** The filter *)



(** The pool is allocated in whole blocks and holds its entries, whatever memory answers. *)
Definition mac_pool_ok (p : mcast_port) : Prop :=
  arr_len (mc_mac_lists p) <= (arr_len (mc_mac_lists p) + 31) / 32 * MT_MCAST_POOL_INC <= mc_mac_cap p.

Lemma mac_pool_in_bounds cf an mac p :
  mac_pool_ok p -> mac_pool_ok (mcast_inf_add_mac cf an mac p) /\ mac_pool_ok (mcast_inf_remove_mac cf mac p).
Proof.
  unfold mac_pool_ok, arr_len, MT_MCAST_POOL_INC. intros H. split.
  - unfold mcast_inf_add_mac, mcast_addr_pool_append, arr_len, MT_MCAST_POOL_INC. case_if; [done|]. cbn. case_if; zbool; cbn.
    + rewrite length_app. cbn. mlia.
    + case_if; cbn; [done|]. rewrite length_app. cbn. mlia.
  - unfold mcast_inf_remove_mac. destruct (list_find _ _) as [[i y]|] eqn:Ef; [|done]. apply list_find_Some in Ef as (Hi & _ & _).
    unfold mcast_addr_pool_remove. pose proof (Permutation_length (delete_Permutation _ _ _ Hi)) as Ed. cbn in Ed. cbn.
    unfold arr_len. cbn. case_if; zbool; cbn; mlia.
Qed.







(** ** Reading a report *)

(** A group record: its type as a number of RFC 3376, the group and the sources. *)
Abbreviation group_rec := (Z * Z * list Z)%type.




Lemma ip_bytes_ok ip : is_bytes (ip_bytes ip).
Proof. repeat constructor; apply u8_range. Qed.









(** ** Runs *)







Definition joined_sources (joined : list (Z * list Z)) : nat := foldr (fun (x : Z * list Z) n => (length x.2 + n)%nat) 0%nat joined.











(** ** Reports on the wire *)

Lemma group_record_ok t g sources :
  is_bytes (mcast_group_record t g sources) /\ length (mcast_group_record t g sources) = (8 + 4 * length sources)%nat.
Proof.
  assert (is_bytes (concat (ip_bytes <$> sources)) /\ length (concat (ip_bytes <$> sources)) = (4 * length sources)%nat) as [H1 H2].
  { induction sources as [|s sources [IH1 IH2]]; [split; [constructor|done]|]. rewrite fmap_cons. cbn [concat length]. split.
    - apply Forall_app. split; [apply ip_bytes_ok|done].
    - rewrite length_app, IH2. cbn [ip_bytes length]. lia. }
  unfold mcast_group_record. split; [|rewrite !length_app; cbn [length be16 ip_bytes]; lia].
  apply Forall_app. split; [by destruct t; repeat constructor|]. apply Forall_app. split; [apply be16_bytes|].
  apply Forall_app. split; [apply ip_bytes_ok|done].
Qed.

Lemma query_records_ok p :
  is_bytes (query_records p) /\ length (query_records p) = (8 * length (mc_joined p) + 4 * joined_sources (mc_joined p))%nat.
Proof.
  unfold query_records, joined_sources. induction (mc_joined p) as [|[g sources] l [IH1 IH2]]; [split; [constructor|done]|].
  destruct (group_record_ok (if u16 (arr_len sources) =? 0 then MCAST_MODE_IS_EXCLUDE else MCAST_MODE_IS_INCLUDE) g sources) as [H1 H2].
  rewrite fmap_cons. cbn [concat length foldr snd]. split; [apply Forall_app; by split|].
  rewrite length_app, IH2. unfold mcast_create_group_record_on_query at 1. rewrite H2. lia.
Qed.

(** A report that is sent verifies at the receiver, and it fits into the 2048 bytes of an
    mbuf behind the 34 bytes of the Ethernet and IP headers while no more than 381 sources
    are joined. *)
Lemma query_report_ok m p msg :
  mc_ok m p -> (joined_sources (mc_joined p) <= 381)%nat -> mcast_report (mc_group_num p) (query_records p) = Some msg ->
  mt_rf1071_check_sum msg true = 0 /\ 34 + arr_len msg <= 2048.
Proof.
  intros (_ & En & Hn) Hs. destruct (query_records_ok p) as [Hb Hl]. unfold mcast_report, mcast_msg_checksum.
  change (MEMBERSHIP_REPORT_V3 =? MEMBERSHIP_QUERY) with false. change (MEMBERSHIP_REPORT_V3 =? MEMBERSHIP_REPORT_V3) with true. cbv iota.
  rewrite firstn_all. case_if; [done|]. intros [= <-]. set (post := [0; 0] ++ be16 (mc_group_num p) ++ query_records p).
  assert (length (mc_joined p) = length (mc_group_list p)) as Ej by apply length_fmap. unfold arr_len, MT_MCAST_GROUP_MAX in *.
  assert (length post = (4 + 8 * length (mc_joined p) + 4 * joined_sources (mc_joined p))%nat) as Hp by (unfold post; rewrite !length_app, Hl; cbn; lia).
  split; [|unfold mcast_mb_report_v3; rewrite !length_app; fold post; rewrite Hl; cbn [length be16]; lia].
  apply (check_sum_verifies [MEMBERSHIP_REPORT_V3; 0] post).
  - by repeat constructor.
  - apply Forall_app. split; [by repeat constructor|]. apply Forall_app. split; [apply be16_bytes|done].
  - by exists 1%nat.
  - rewrite Hp. exists (2 + 4 * length (mc_joined p) + 2 * joined_sources (mc_joined p))%nat. lia.
  - unfold arr_len. rewrite Hp. cbn [length]. lia.
Qed.




(** ** The filter of the device *)










(** ** What goes out *)

















(** Addresses as the library has them. *)
Definition ipv4 (a b c d : Z) : Z := a + 256 * b + 65536 * c + 16777216 * d.
Definition ex_cf : mc_config := mk_mc_config false false false true.
Definition ex_an : mc_answers := mk_mc_answers true true true true true true.





(** A port that listens to one group, and what its filter lets through. *)
Definition ex_join (g s : Z) (p : mcast_port) : mcast_port := (mt_mcast_join ex_cf ex_an g s p).2.
Definition ex_leave (g s : Z) (p : mcast_port) : mcast_port := (mt_mcast_leave ex_cf ex_an g s p).2.

(** Two groups whose addresses differ only in the high 9 bits share a MAC address; when one
    is left the filter drops the other, which is still joined. *)
Lemma mcast_leave_drops_other :
  let p := ex_leave (ipv4 239 129 1 1) 0 (ex_join (ipv4 239 129 1 1) 0 (ex_join (ipv4 239 1 1 1) 0 (mt_mcast_init ex_cf ex_an))) in
  (mc_joined p).*1 = [ipv4 239 1 1 1] /\ mc_mac_lists p = [mcast_mac_all].
Proof. vm_compute. split; reflexivity. Qed.

(** A report whose checksum is 0 is not sent, although 0 is a valid checksum: the join of
    such a group fails, and leaves the group counted. *)
Lemma mcast_join_zero_checksum :
  let '(ret, p) := mt_mcast_join ex_cf ex_an (ipv4 239 1 234 252) 0 (mt_mcast_init ex_cf ex_an) in
  ret = - EIO /\ (mc_joined p).*1 = [ipv4 239 1 234 252].
Proof. vm_compute. split; reflexivity. Qed.

(** After a join with a source, a join with any source is answered 0, but neither reported
    nor kept apart: queries are answered with the one source only. *)
Lemma mcast_any_source_not_reported :
  let p := ex_join (ipv4 239 1 1 1) (ipv4 10 0 0 1) (mt_mcast_init ex_cf ex_an) in
  let '(ret, p') := mt_mcast_join ex_cf ex_an (ipv4 239 1 1 1) 0 p in
  ret = 0 /\ mc_trace p' = mc_trace p /\ mc_joined p' = mc_joined p.
Proof. vm_compute. repeat split. Qed.

(** A query for sources carries its checksum over the sources too; the code computes it
    over the first 12 bytes and refuses the query. *)
Definition ex_source_query : bytes :=
  let msg checksum := [MEMBERSHIP_QUERY; 100] ++ be16 checksum ++ [239; 1; 1; 1; 2; 125; 0; 1; 10; 0; 0; 1] in
  msg (mt_rf1071_check_sum (msg 0) true).
Lemma mcast_source_query_refused :
  mt_rf1071_check_sum ex_source_query true = 0
  /\ (mt_mcast_parse ex_an ex_source_query (mt_mcast_init ex_cf ex_an)).1 = - EIO.
Proof. vm_compute. split; reflexivity. Qed.

(** When 60 groups are joined, another member of one of them is refused too. *)
Lemma mcast_full_refuses_member :
  let p := foldl (fun p d => ex_join (ipv4 239 1 1 d) 0 p) (mt_mcast_init ex_cf ex_an) (seqZ 1 60) in
  length (mc_joined p) = 60%nat /\ (mt_mcast_join ex_cf ex_an (ipv4 239 1 1 1) 0 p).1 = - EIO.
Proof. vm_compute. split; reflexivity. Qed.
