(* ===== verification/Sch.v ===== *)
(** The schedulers, lib/src/mt_sch.c: which scheduler a session gets ([mt_sch_get_by_socket]),
    the data quota and the references it holds there, the life of a scheduler, and the
    tasklets a scheduler runs. Locks make the operations atomic; what the launch of a thread
    and the allocator answer are arguments. The lcore table shared between processes, sleep
    times and statistics are not modelled. *)
From S2P Require Import Prelude.

(** ** State *)

Inductive mt_sch_type := MT_SCH_TYPE_DEFAULT | MT_SCH_TYPE_RX_VIDEO_ONLY | MT_SCH_TYPE_APP | MT_SCH_TYPE_SYSTEM.
#[export] Instance mt_sch_type_eq : EqDecision mt_sch_type.
Proof. solve_decision. Defined.

(** [struct mt_sch_tasklet_impl]; [tk_id] stands for its address and its ops. *)
Record mt_sch_tasklet_impl := mk_tasklet { tk_id : Z; tk_request_exit : bool; tk_ack_exit : bool }.
#[export] Instance eta_tasklet : Settable mt_sch_tasklet_impl := fun t => mk_tasklet (tk_id t) (tk_request_exit t) (tk_ack_exit t).

(** [struct mtl_sch_impl]; [sc_tasklet] has [nb_tasklets] entries. *)
Record mtl_sch_impl := mk_sch {
  sc_tasklet : list (option mt_sch_tasklet_impl);
  sc_max_tasklet_idx : nat;
  sc_socket_id : Z;
  sc_data_quota_mbs_total : Z;
  sc_data_quota_mbs_limit : Z;
  sc_cpu_busy : bool;
  sc_started : bool;
  sc_active : bool;
  sc_ref_cnt : Z;
  sc_type : mt_sch_type;
}.
#[export] Instance eta_sch : Settable mtl_sch_impl := fun s =>
  mk_sch (sc_tasklet s) (sc_max_tasklet_idx s) (sc_socket_id s) (sc_data_quota_mbs_total s) (sc_data_quota_mbs_limit s)
    (sc_cpu_busy s) (sc_started s) (sc_active s) (sc_ref_cnt s) (sc_type s).

(** [struct mt_sch_mgr] with [mt_started] and [tasklets_nb_per_sch] of the instance. *)
Record mt_sch_mgr := mk_sch_mgr { mg_sch : list mtl_sch_impl; mg_sch_cnt : Z; mg_started : bool; mg_tasklets_nb : nat }.
#[export] Instance eta_sch_mgr : Settable mt_sch_mgr := fun m => mk_sch_mgr (mg_sch m) (mg_sch_cnt m) (mg_started m) (mg_tasklets_nb m).

Definition MT_MAX_SCH_NUM : nat := 18.
Definition sch_zero : mtl_sch_impl := mk_sch [] 0 0 0 0 false false false 0 MT_SCH_TYPE_DEFAULT.
Definition sch_at (m : mt_sch_mgr) (i : nat) : mtl_sch_impl := default sch_zero (mg_sch m !! i).
Definition sch_upd (i : nat) (f : mtl_sch_impl -> mtl_sch_impl) (m : mt_sch_mgr) : mt_sch_mgr := m <| mg_sch ::= alter f i |>.

(** The schedulers part of [mt_sch_mrg_init], on a zeroed instance. *)
Definition mt_sch_mrg_init (data_quota_mbs_limit : Z) (tasklets_nb : nat) : mt_sch_mgr :=
  mk_sch_mgr (replicate MT_MAX_SCH_NUM (sch_zero <| sc_data_quota_mbs_limit := data_quota_mbs_limit |>)) 0 false tasklets_nb.

(** ** Starting and stopping *)

(** [launch] is the answer of getting an lcore and launching the thread. *)
Definition sch_start (launch : Z) (s : mtl_sch_impl) : Z * mtl_sch_impl :=
  if sc_started s then (- EIO, s)
  else
    let s := s <| sc_cpu_busy := false |> in
    if launch <? 0 then (launch, s) else (0, s <| sc_started := true |>).

(** The wait for the thread is over when it returns. *)
Definition sch_stop (s : mtl_sch_impl) : mtl_sch_impl :=
  if negb (sc_started s) then s else s <| sc_started := false |> <| sc_cpu_busy := false |>.

(** ** Tasklets *)

Definition sch_max_idx (l : list (option mt_sch_tasklet_impl)) : nat :=
  foldl (fun n i => match l !! i with Some (Some _) => S i | _ => n end) 0%nat (seq 0 (length l)).

(** [mem] is whether the tasklet can be allocated. *)
Definition mtl_sch_register_tasklet (id : Z) (mem : bool) (s : mtl_sch_impl) : option nat * mtl_sch_impl :=
  match list_find (fun t => t = None) (sc_tasklet s) with
  | None => (None, s)
  | Some (i, _) =>
      if negb mem then (None, s)
      else (Some i, s <| sc_tasklet ::= <[i := Some (mk_tasklet id false false)]> |> <| sc_max_tasklet_idx ::= fun n => Nat.max n (S i) |>)
  end.

(** One turn of the loop of [sch_tasklet_func] over the slots: the handlers called. *)
Definition sch_tasklet_slot (i : nat) (st : list Z * mtl_sch_impl) : list Z * mtl_sch_impl :=
  let '(called, s) := st in
  match sc_tasklet s !! i with
  | Some (Some t) => if tk_request_exit t then (called, s <| sc_tasklet ::= <[i := None]> |>) else (called ++ [tk_id t], s)
  | _ => (called, s)
  end.
Definition sch_tasklet_pass (s : mtl_sch_impl) : list Z * mtl_sch_impl :=
  foldl (fun st i => sch_tasklet_slot i st) ([], s) (seq 0 (sc_max_tasklet_idx s)).

(** What [mtl_sch_unregister_tasklet] asks of a running scheduler, and the end of it.
    The thread acknowledges by emptying the slot; [passes] is the number of its turns before
    the caller gives up. *)
Definition sch_request_exit (i : nat) (s : mtl_sch_impl) : mtl_sch_impl :=
  s <| sc_tasklet ::= alter (fmap (fun t => t <| tk_ack_exit := false |> <| tk_request_exit := true |>)) i |>.
Fixpoint sch_passes (n : nat) (s : mtl_sch_impl) : list Z * mtl_sch_impl :=
  match n with
  | O => ([], s)
  | S n => let '(called, s) := sch_tasklet_pass s in let '(more, s) := sch_passes n s in (called ++ more, s)
  end.

Definition sch_slot_empty (i : nat) (s : mtl_sch_impl) : bool := match sc_tasklet s !! i with Some (Some _) => false | _ => true end.

Definition mtl_sch_unregister_tasklet (i : nat) (id : Z) (passes : nat) (s : mtl_sch_impl) : Z * mtl_sch_impl :=
  match sc_tasklet s !! i with
  | Some (Some t) =>
      if negb (tk_id t =? id) then (- EIO, s)
      else
        let '(acked, s) :=
          if sc_started s then
            let s := (sch_passes passes (sch_request_exit i s)).2 in
            (sch_slot_empty i s, s)
          else (true, s <| sc_tasklet ::= <[i := None]> |>) in
        if negb acked then (- EIO, s) else (0, s <| sc_max_tasklet_idx := sch_max_idx (sc_tasklet s) |>)
  | _ => (- EIO, s)
  end.

(** ** Request and free *)

(** [mem] is whether the array of tasklets can be allocated; [nb] is [ops->nb_tasklets], 0
    when there are no ops. *)
Definition sch_request_at (type : mt_sch_type) (nb : nat) (socket : Z) (mem : bool) (i : nat) (m : mt_sch_mgr) : option nat * mt_sch_mgr :=
  let n := if decide (nb = 0)%nat then mg_tasklets_nb m else nb in
  if negb mem then (None, sch_upd i (fun s => s <| sc_type := type |>) m)
  else (Some i, sch_upd i (fun s => s <| sc_type := type |> <| sc_tasklet := replicate n None |> <| sc_active := true |> <| sc_socket_id := socket |>) m
                  <| mg_sch_cnt ::= fun n => i32 (n + 1) |>).
Definition sch_request (type : mt_sch_type) (mask : Z) (nb : nat) (socket : Z) (mem : bool) (m : mt_sch_mgr) : option nat * mt_sch_mgr :=
  match list_find (fun i => Z.testbit mask (Z.of_nat i) = true /\ sc_active (sch_at m i) = false) (seq 0 MT_MAX_SCH_NUM) with
  | None => (None, m)
  | Some (_, i) => sch_request_at type nb socket mem i m
  end.

(** The tasklets left are unregistered; the scheduler does not run. *)
Definition sch_free (i : nat) (m : mt_sch_mgr) : Z * mt_sch_mgr :=
  if negb (sc_active (sch_at m i)) then (- EIO, m)
  else
    let left_over := existsb (fun t => bool_decide (is_Some t)) (sc_tasklet (sch_at m i)) in
    (0, sch_upd i (fun s => s <| sc_tasklet := [] |> <| sc_max_tasklet_idx ::= fun n => if left_over then 0%nat else n |>
                              <| sc_active := false |>) m <| mg_sch_cnt ::= fun n => i32 (n - 1) |>).

(** ** Quota *)

Definition sch_free_quota (quota_mbs : Z) (s : mtl_sch_impl) : mtl_sch_impl :=
  if negb (sc_active s) then s
  else
    let s := s <| sc_data_quota_mbs_total ::= fun n => i32 (n - quota_mbs) |> in
    if negb (c_true (sc_data_quota_mbs_total s)) then s <| sc_type := MT_SCH_TYPE_DEFAULT |> else s.

Definition sch_is_capable (quota_mbs : Z) (type : mt_sch_type) (s : mtl_sch_impl) : bool * mtl_sch_impl :=
  if negb (c_true quota_mbs) then (true, s)
  else if bool_decide (type = MT_SCH_TYPE_RX_VIDEO_ONLY) && bool_decide (sc_type s = MT_SCH_TYPE_DEFAULT)
          && negb (c_true (sc_data_quota_mbs_total s)) then (true, s <| sc_type := MT_SCH_TYPE_RX_VIDEO_ONLY |>)
  else (bool_decide (sc_type s = type), s).

Definition mt_sch_add_quota (quota_mbs : Z) (s : mtl_sch_impl) : Z * mtl_sch_impl :=
  if negb (sc_active s) then (- ENOMEM, s)
  else if negb (c_true (sc_data_quota_mbs_total s))
          || (i32 (sc_data_quota_mbs_total s + quota_mbs) <=? sc_data_quota_mbs_limit s) then
    (0, s <| sc_data_quota_mbs_total ::= fun n => i32 (n + quota_mbs) |>)
  else (- ENOMEM, s).

(** ** Get and put *)

(** The first loop of [mt_sch_get_by_socket]: an active scheduler with room. *)
Fixpoint sch_get_loop (quota_mbs : Z) (type : mt_sch_type) (mask socket : Z) (idxs : list nat) (m : mt_sch_mgr) : option nat * mt_sch_mgr :=
  match idxs with
  | [] => (None, m)
  | i :: idxs =>
      let s := sch_at m i in
      if negb (socket =? sc_socket_id s) || negb (Z.testbit mask (Z.of_nat i)) || negb (sc_active s) || sc_cpu_busy s then
        sch_get_loop quota_mbs type mask socket idxs m
      else
        let '(capable, s) := sch_is_capable quota_mbs type s in
        let m := sch_upd i (fun _ => s) m in
        if negb capable then sch_get_loop quota_mbs type mask socket idxs m
        else
          let '(ret, s) := mt_sch_add_quota quota_mbs s in
          if ret >=? 0 then (Some i, sch_upd i (fun _ => s <| sc_ref_cnt ::= fun n => i32 (n + 1) |>) m)
          else sch_get_loop quota_mbs type mask socket idxs m
  end.

Definition mt_sch_get_by_socket (quota_mbs : Z) (type : mt_sch_type) (mask socket : Z) (mem : bool) (launch : Z) (m : mt_sch_mgr)
    : option nat * mt_sch_mgr :=
  match sch_get_loop quota_mbs type mask socket (seq 0 MT_MAX_SCH_NUM) m with
  | (Some i, m) => (Some i, m)
  | (None, m) =>
      match sch_request type mask 0 socket mem m with
      | (None, m) => (None, m)
      | (Some i, m) =>
          let '(ret, s) := mt_sch_add_quota quota_mbs (sch_at m i) in
          let m := sch_upd i (fun _ => s) m in
          if ret <? 0 then (None, (sch_free i m).2)
          else
            let '(ret, s) := if mg_started m then sch_start launch s else (0, s) in
            let m := sch_upd i (fun _ => s) m in
            if ret <? 0 then (None, (sch_free i m).2)
            else (Some i, sch_upd i (fun s => s <| sc_ref_cnt ::= fun n => i32 (n + 1) |>) m)
      end
  end.

(** The managers of the sessions are torn down before the scheduler is freed. *)
Definition mt_sch_put (i : nat) (quota_mbs : Z) (m : mt_sch_mgr) : mt_sch_mgr :=
  let m := sch_upd i (fun s => sch_free_quota quota_mbs s <| sc_ref_cnt ::= fun n => i32 (n - 1) |>) m in
  if sc_ref_cnt (sch_at m i) =? 0 then (sch_free i (sch_upd i sch_stop m)).2 else m.

(** ** The instance and the application *)

(** [launches] gives the answer for the thread of each scheduler. *)
Fixpoint sch_start_loop (launches : nat -> Z) (idxs : list nat) (m : mt_sch_mgr) : Z * mt_sch_mgr :=
  match idxs with
  | [] => (0, m)
  | i :: idxs =>
      let s := sch_at m i in
      if bool_decide (sc_type s = MT_SCH_TYPE_APP) || negb (sc_active s && negb (sc_started s)) then sch_start_loop launches idxs m
      else
        let '(ret, s) := sch_start (launches i) s in
        let m := sch_upd i (fun _ => s) m in
        if ret <? 0 then (ret, m) else sch_start_loop launches idxs m
  end.
Definition mt_sch_stop_all (m : mt_sch_mgr) : mt_sch_mgr :=
  m <| mg_sch ::= fmap (fun s => if bool_decide (sc_type s = MT_SCH_TYPE_APP) || negb (sc_active s) then s else sch_stop s) |>.
Definition mt_sch_start_all (launches : nat -> Z) (m : mt_sch_mgr) : Z * mt_sch_mgr :=
  let '(ret, m) := sch_start_loop launches (seq 0 MT_MAX_SCH_NUM) m in
  (ret, if ret <? 0 then mt_sch_stop_all m else m).

Definition mtl_sch_create (nb : nat) (socket : Z) (mem : bool) : mt_sch_mgr -> option nat * mt_sch_mgr :=
  sch_request MT_SCH_TYPE_APP (Z.ones 64) nb socket mem.
Definition mtl_sch_free (i : nat) (m : mt_sch_mgr) : Z * mt_sch_mgr := sch_free i (sch_upd i sch_stop m).
Definition mtl_sch_start (launch : Z) (i : nat) (m : mt_sch_mgr) : Z * mt_sch_mgr :=
  let '(ret, s) := sch_start launch (sch_at m i) in (ret, sch_upd i (fun _ => s) m).
Definition mtl_sch_stop (i : nat) (m : mt_sch_mgr) : Z * mt_sch_mgr := (0, sch_upd i sch_stop m).

(** ** Accounting *)

(** Who holds what: a scheduler and the quota taken there, once per session. *)
Abbreviation holders := (list (nat * Z)).
Definition held_at (H : holders) (i : nat) : holders := filter (fun h => h.1 = i) H.
Definition refs_of (H : holders) (i : nat) : Z := arr_len (held_at H i).
Definition quota_of (H : holders) (i : nat) : Z := foldr Z.add 0 (held_at H i).*2.
(** Sessions with a quota of their own. *)
Definition paying (H : holders) (i : nat) : Z := arr_len (filter (fun h : nat * Z => h.2 <> 0) (held_at H i)).

Record sch_ok (L : Z) (H : holders) (i : nat) (s : mtl_sch_impl) : Prop := {
  so_refs : sc_ref_cnt s = refs_of H i;
  so_quota : sc_data_quota_mbs_total s = quota_of H i;
  so_active : 0 < refs_of H i -> sc_active s = true;
  so_idle : sc_active s = false -> sc_started s = false;
  so_limit : sc_data_quota_mbs_limit s = L;
  so_room : quota_of H i <= L \/ paying H i <= 1;
}.

Lemma held_cons i q H j : held_at ((i, q) :: H) j = if decide (i = j) then (i, q) :: held_at H j else held_at H j.
Proof. unfold held_at. by rewrite filter_cons. Qed.

(** The counts after one more session. *)
Lemma counts_cons i q H :
  refs_of ((i, q) :: H) i = refs_of H i + 1 /\ quota_of ((i, q) :: H) i = quota_of H i + q
  /\ paying ((i, q) :: H) i = paying H i + (if decide (q = 0) then 0 else 1).
Proof.
  unfold refs_of, quota_of, paying. rewrite held_cons, decide_True, fmap_cons, filter_cons by done. cbn [fst snd foldr].
  unfold arr_len. destruct (decide (q = 0)); [rewrite decide_False by tauto|rewrite decide_True by done]; cbn [length]; split_and!; lia.
Qed.

Lemma held_other i q H j : i <> j -> held_at ((i, q) :: H) j = held_at H j.
Proof. intros Hij. by rewrite held_cons, decide_False. Qed.

Lemma sch_ok_held L H H' i s : held_at H' i = held_at H i -> sch_ok L H i s -> sch_ok L H' i s.
Proof. intros E [H1 H2 H3 H0 H4 H5]. split; unfold refs_of, quota_of, paying in *; rewrite ?E; done. Qed.

Lemma counts_perm H H' i : H ≡ₚ H' -> quota_of H' i = quota_of H i /\ refs_of H' i = refs_of H i /\ paying H' i = paying H i.
Proof.
  intros Hp. assert (held_at H i ≡ₚ held_at H' i) as E by (unfold held_at; by rewrite Hp). unfold quota_of, refs_of, paying, arr_len. split_and!.
  - apply foldr_permutation_proper'; [apply _..|by rewrite E].
  - by rewrite E.
  - by rewrite E.
Qed.
Lemma sch_ok_perm L H H' i s : H ≡ₚ H' -> sch_ok L H i s -> sch_ok L H' i s.
Proof. intros (E1 & E2 & E3)%(counts_perm _ _ i) [H1 H2 H3 H0 H4 H5]. split; rewrite ?E1, ?E2, ?E3; done. Qed.

(** Quotas are not negative, so that a sum of 0 means that no session has one. *)
Definition quotas_pos (H : holders) : Prop := Forall (fun h => 0 <= h.2) H.

Lemma quota_nonneg H i : quotas_pos H -> 0 <= paying H i <= quota_of H i.
Proof.
  unfold quota_of, paying, held_at, arr_len. induction H as [|[j q] H IH]; intros Hq; [done|]. apply Forall_cons in Hq as [Hq0 Hq].
  specialize (IH Hq). cbn in Hq0. rewrite filter_cons. case_decide; [|done]. rewrite filter_cons, fmap_cons. cbn [snd foldr]. case_decide; cbn [length]; lia.
Qed.

(** What is the same for the accounts. *)
Definition sch_same (s s' : mtl_sch_impl) : Prop :=
  sc_ref_cnt s' = sc_ref_cnt s /\ sc_data_quota_mbs_total s' = sc_data_quota_mbs_total s /\ sc_active s' = sc_active s
  /\ sc_data_quota_mbs_limit s' = sc_data_quota_mbs_limit s /\ (sc_active s = false -> sc_started s = false -> sc_started s' = false).
Lemma sch_ok_same L H i s s' : sch_same s s' -> sch_ok L H i s -> sch_ok L H i s'.
Proof. intros (E1 & E2 & E3 & E4 & E5) [H1 H2 H3 H0 H4 H5]. split; rewrite ?E1, ?E2, ?E3, ?E4; try done. intros Ha. auto. Qed.

Lemma sch_start_same launch s : sc_active s = true -> sch_same s (sch_start launch s).2.
Proof. intros Ha. unfold sch_start. case_if; [done|]. case_if; [done|]. split_and!; try done. cbn. congruence. Qed.
Lemma sch_stop_same s : sch_same s (sch_stop s).
Proof. unfold sch_stop. by case_if. Qed.
Lemma sch_capable_same q type s : sch_same s (sch_is_capable q type s).2.
Proof. unfold sch_is_capable. case_if; [done|]. by case_if. Qed.
Lemma sch_slot_same i st : sch_same st.2 (sch_tasklet_slot i st).2.
Proof. destruct st as [called s]. unfold sch_tasklet_slot. destruct (sc_tasklet s !! i) as [[t|]|]; [by case_if|done|done]. Qed.
Lemma sch_same_trans s1 s2 s3 : sch_same s1 s2 -> sch_same s2 s3 -> sch_same s1 s3.
Proof. unfold sch_same. intros (<- & <- & E3 & <- & E5) (-> & -> & E6 & -> & E7). split_and!; try done; [congruence|]. rewrite E3 in E7. auto. Qed.
Lemma sch_pass_same s : sch_same s (sch_tasklet_pass s).2.
Proof.
  unfold sch_tasklet_pass. change s with (([] : list Z, s).2) at 1. generalize (([] : list Z), s). generalize (seq 0 (sc_max_tasklet_idx s)). intros l.
  induction l as [|i l IH]; intros st; [done|]. eapply sch_same_trans; [apply (sch_slot_same i)|apply IH].
Qed.
Lemma sch_passes_same n s : sch_same s (sch_passes n s).2.
Proof.
  revert s. induction n as [|n IH]; intros s; [done|]. cbn. pose proof (sch_pass_same s) as H1. destruct (sch_tasklet_pass s) as [called s1].
  specialize (IH s1). destruct (sch_passes n s1) as [more s2]. by eapply sch_same_trans.
Qed.

(** A session with quota [q] comes or goes. *)
Lemma sch_add_ok L H i q s :
  quotas_pos H -> 0 <= q -> quota_of H i + q < 2147483648 -> refs_of H i + 1 < 2147483648 -> sch_ok L H i s -> 0 <= L < 2147483648 ->
  let '(ret, s') := mt_sch_add_quota q s in
  (ret < 0 /\ s' = s /\ (sc_active s = false \/ quota_of H i <> 0))
  \/ (ret = 0 /\ sch_ok L ((i, q) :: H) i (s' <| sc_ref_cnt ::= fun n => i32 (n + 1) |>) /\ sc_active s' = true).
Proof.
  intros Hpos Hq Hb Hr [H1 H2 H3 H0 H4 H5] HL. unfold mt_sch_add_quota. case_if; zbool; [left; split_and!; [done|done|by left]|].
  pose proof (quota_nonneg H i Hpos) as Hn. rewrite H2, H4. unfold c_true.
  assert (i32 (quota_of H i + q) = quota_of H i + q) as E32 by mlia. rewrite E32.
  destruct (counts_cons i q H) as (C1 & C2 & C3). case_if.
  - right. split; [done|]. split; [|done]. assert (0 <= refs_of H i) by (unfold refs_of, arr_len; lia). split; cbn -[refs_of quota_of paying].
    + rewrite C1, H1. mlia.
    + by rewrite C2, H2.
    + done.
    + done.
    + done.
    + rewrite C2, C3. zbool. destruct E0 as [E0|E0]; zbool; [|by left]. right. case_decide; lia.
  - left. zbool. split_and!; [done|done|]. right. lia.
Qed.

Lemma sch_leave_ok L H i q s :
  quotas_pos H -> 0 <= q -> quota_of H i + q < 2147483648 -> refs_of H i + 1 < 2147483648 -> 0 <= L -> sch_ok L ((i, q) :: H) i s ->
  sch_ok L H i (sch_free_quota q s <| sc_ref_cnt ::= fun n => i32 (n - 1) |>).
Proof.
  intros Hpos Hq Hb Hr HL [H1 H2 H3 H0 H4 H5]. destruct (counts_cons i q H) as (C1 & C2 & C3). rewrite C1 in H1, H3. rewrite C2 in H2, H5. rewrite C3 in H5.
  pose proof (quota_nonneg H i Hpos) as Hn. assert (0 <= refs_of H i) by (unfold refs_of, arr_len; lia).
  unfold sch_free_quota. rewrite (H3 ltac:(lia)). cbn [negb]. set (s1 := s <| sc_data_quota_mbs_total ::= _ |>).
  assert (sch_ok L H i (s1 <| sc_ref_cnt ::= fun n => i32 (n - 1) |>)) as Hs.
  { split; cbn -[refs_of quota_of paying]; [rewrite H1; mlia|rewrite H2; mlia|intros; apply H3; lia|done|done|]. case_decide; lia. }
  case_if; [eapply sch_ok_same; [|exact Hs]; done|done].
Qed.

Definition mg_ok (L : Z) (H : holders) (m : mt_sch_mgr) : Prop :=
  length (mg_sch m) = MT_MAX_SCH_NUM /\ forall i s, mg_sch m !! i = Some s -> sch_ok L H i s.

Lemma sch_at_lookup m i s : mg_sch m !! i = Some s -> sch_at m i = s.
Proof. unfold sch_at. by intros ->. Qed.
Lemma mg_lookup L H m i : mg_ok L H m -> (i < MT_MAX_SCH_NUM)%nat -> mg_sch m !! i = Some (sch_at m i).
Proof. intros [Hl _] Hi. destruct (lookup_lt_is_Some_2 (mg_sch m) i) as [s Hs]; [lia|]. by rewrite (sch_at_lookup _ _ _ Hs). Qed.
Lemma mg_at L H m i : mg_ok L H m -> (i < MT_MAX_SCH_NUM)%nat -> sch_ok L H i (sch_at m i).
Proof. intros Hm Hi. by apply Hm, (mg_lookup L H). Qed.

(** An update of one scheduler. *)
Lemma mg_upd L H H' i f m :
  (forall j, j <> i -> held_at H' j = held_at H j) -> (mg_sch m !! i = Some (sch_at m i) -> sch_ok L H i (sch_at m i) -> sch_ok L H' i (f (sch_at m i))) ->
  mg_ok L H m -> mg_ok L H' (sch_upd i f m).
Proof.
  intros Hh Hf [Hl Hm]. split; [cbn; by rewrite length_alter|]. intros j s. cbn. rewrite list_lookup_alter. case_decide as Hij.
  - subst j. destruct (mg_sch m !! i) as [s'|] eqn:E; [|done]. intros [= <-]. rewrite <- (sch_at_lookup _ _ _ E). apply Hf.
    + by rewrite (sch_at_lookup _ _ _ E).
    + rewrite (sch_at_lookup _ _ _ E). by apply Hm.
  - intros Hs. eapply sch_ok_held; [apply Hh; congruence|by apply Hm].
Qed.

Lemma mg_same L H i f m : (forall s, sch_same s (f s)) -> mg_ok L H m -> mg_ok L H (sch_upd i f m).
Proof. intros Hf. apply mg_upd; [done|]. intros _. by apply sch_ok_same. Qed.
Lemma mg_set L H i s m : sch_same (sch_at m i) s -> mg_ok L H m -> mg_ok L H (sch_upd i (fun _ => s) m).
Proof. intros Hf. apply mg_upd; [done|]. intros _. by apply sch_ok_same. Qed.

Lemma sch_at_upd i f m : (i < length (mg_sch m))%nat -> sch_at (sch_upd i f m) i = f (sch_at m i).
Proof. intros Hi. unfold sch_at. cbn. rewrite list_lookup_alter_eq. destruct (lookup_lt_is_Some_2 _ _ Hi) as [s ->]. done. Qed.

Lemma sch_upd_upd i f g m : sch_upd i f (sch_upd i g m) = sch_upd i (fun s => f (g s)) m.
Proof. unfold sch_upd, modify_field. cbn. by rewrite list_alter_alter_eq. Qed.

(** What a get assumes of the sums. *)
Definition fits (L : Z) (H : holders) (q : Z) : Prop :=
  quotas_pos H /\ 0 <= q /\ 0 <= L < 2147483648 /\ forall i, quota_of H i + q < 2147483648 /\ refs_of H i + 1 < 2147483648.

Lemma sch_get_loop_ok L H q type mask socket idxs m :
  fits L H q -> Forall (fun i => (i < MT_MAX_SCH_NUM)%nat) idxs -> mg_ok L H m ->
  match sch_get_loop q type mask socket idxs m with
  | (None, m') => mg_ok L H m'
  | (Some i, m') => mg_ok L ((i, q) :: H) m' /\ i ∈ idxs /\ Z.testbit mask (Z.of_nat i) = true
      /\ sc_active (sch_at m' i) = true /\ sc_socket_id (sch_at m' i) = socket
  end.
Proof.
  intros (F1 & F2 & F3 & F4) Hidx. revert m. induction Hidx as [|i idxs Hi _ IH]; intros m Hm; [done|]. cbn [sch_get_loop].
  assert (forall m1, mg_ok L H m1 -> match sch_get_loop q type mask socket idxs m1 with
    | (None, m') => mg_ok L H m'
    | (Some j, m') => mg_ok L ((j, q) :: H) m' /\ j ∈ i :: idxs /\ Z.testbit mask (Z.of_nat j) = true
        /\ sc_active (sch_at m' j) = true /\ sc_socket_id (sch_at m' j) = socket end) as Hgo.
  { intros m1 Hm1. specialize (IH m1 Hm1). destruct (sch_get_loop q type mask socket idxs m1) as [[j|] m']; [|done].
    destruct IH as (? & ? & ? & ? & ?). split_and!; try done. by right. }
  destruct (_ || sc_cpu_busy (sch_at m i)) eqn:Eskip; [by apply Hgo|]. zbool.
  pose proof (sch_capable_same q type (sch_at m i)) as Hc. assert (sc_socket_id (sch_is_capable q type (sch_at m i)).2 = sc_socket_id (sch_at m i)) as Es.
  { unfold sch_is_capable. case_if; [done|]. by case_if. }
  destruct (sch_is_capable q type (sch_at m i)) as [capable s]. cbn [snd] in Hc, Es. pose proof (mg_set L H i s m Hc Hm) as Hm1.
  case_if; [by apply Hgo|]. pose proof (sch_ok_same L H i _ _ Hc (mg_at L H m i Hm Hi)) as Hs.
  pose proof (sch_add_ok L H i q s F1 F2 (proj1 (F4 i)) (proj2 (F4 i)) Hs F3) as Ha.
  assert (sc_socket_id (mt_sch_add_quota q s).2 = sc_socket_id s) as Es' by (unfold mt_sch_add_quota; case_if; [done|]; by case_if).
  destruct (mt_sch_add_quota q s) as [ret s']. cbn [snd] in Es'. destruct Ha as [(Hneg & _)|(-> & Hok & Hact)].
  - assert ((ret >=? 0) = false) as -> by (rewrite Z.geb_leb; apply Z.leb_gt; lia). by apply Hgo.
  - cbn [Z.geb Z.compare]. assert (length (mg_sch (sch_upd i (fun _ => s) m)) = MT_MAX_SCH_NUM) as Hl by apply Hm1.
    rewrite sch_at_upd by lia. cbn. split_and!; try done; [|by left|congruence].
    eapply mg_upd; [..|exact Hm1]; [|done]. intros j Hj. by apply held_other.
Qed.

Lemma sch_request_ok L H type mask nb socket mem m :
  mg_ok L H m ->
  match sch_request type mask nb socket mem m with
  | (None, m') => mg_ok L H m'
  | (Some i, m') => mg_ok L H m' /\ (i < MT_MAX_SCH_NUM)%nat /\ refs_of H i = 0 /\ Z.testbit mask (Z.of_nat i) = true
      /\ sc_active (sch_at m' i) = true /\ sc_socket_id (sch_at m' i) = socket /\ sc_started (sch_at m' i) = false
  end.
Proof.
  intros Hm. unfold sch_request. destruct (list_find _ _) as [[k i]|] eqn:Ef; [|done]. apply list_find_Some in Ef as (Hk & [Hmask Hina] & _).
  apply lookup_seq in Hk as [Ek Hi]. cbn in Ek. subst i. pose proof (mg_at L H m k Hm Hi) as Hs. unfold sch_request_at. case_if; [by apply mg_same|].
  assert (refs_of H k = 0) as Hr.
  { destruct Hs as [_ _ Ha _ _ _]. assert (0 <= refs_of H k) by (unfold refs_of, arr_len; lia).
    destruct (Z.eq_dec (refs_of H k) 0); [done|]. rewrite Ha in Hina by lia. done. }
  assert (sc_started (sch_at m k) = false) as Hst by (by apply Hs). set (g := fun s => _ <| sc_socket_id := _ |>).
  assert (mg_ok L H (sch_upd k g m)) as H1.
  { eapply mg_upd; [..|exact Hm]; [done|]. intros _ [A1 A2 A3 A0 A4 A5]. by split. }
  split_and!; try done; unfold sch_at; cbn; rewrite list_lookup_alter_eq, (mg_lookup L H m k Hm Hi); done.
Qed.

Lemma sch_free_ok L H i m : refs_of H i = 0 -> sc_started (sch_at m i) = false -> mg_ok L H m -> mg_ok L H (sch_free i m).2.
Proof.
  intros Hr Hst Hm. unfold sch_free. case_if; [done|]. cbn [snd]. set (g := fun s => _ <| sc_active := false |>).
  assert (mg_ok L H (sch_upd i g m)) as H1; [|exact H1]. eapply mg_upd; [..|exact Hm]; [done|]. intros _ [A1 A2 A3 A0 A4 A5]. split; try done. lia.
Qed.

(** A session that gets a scheduler is counted there, with its quota; the scheduler is
    active, allowed by the mask and on the socket asked for. *)
Lemma mt_sch_get_ok L H q type mask socket mem launch m :
  fits L H q -> 0 <= launch -> mg_ok L H m ->
  match mt_sch_get_by_socket q type mask socket mem launch m with
  | (None, m') => mg_ok L H m'
  | (Some i, m') => mg_ok L ((i, q) :: H) m' /\ (i < MT_MAX_SCH_NUM)%nat /\ Z.testbit mask (Z.of_nat i) = true
      /\ sc_active (sch_at m' i) = true /\ sc_socket_id (sch_at m' i) = socket
  end.
Proof.
  intros F Hlaunch Hm. pose proof (sch_get_loop_ok L H q type mask socket (seq 0 MT_MAX_SCH_NUM) m F) as Hg. unfold mt_sch_get_by_socket.
  destruct (sch_get_loop q type mask socket (seq 0 MT_MAX_SCH_NUM) m) as [[i|] m1].
  { destruct Hg as (G1 & G2%elem_of_seq & G3); [apply Forall_forall; intros j ?%elem_of_seq; lia|done|]. split_and!; try done; [lia|apply G3..]. }
  specialize (Hg ltac:(apply Forall_forall; intros j ?%elem_of_seq; lia) Hm). pose proof (sch_request_ok L H type mask 0 socket mem m1 Hg) as Hr.
  destruct (sch_request type mask 0 socket mem m1) as [[i|] m2]; [|done]. destruct Hr as (R1 & R2 & R3 & R4 & R5 & R6 & R7).
  destruct F as (F1 & F2 & F3 & F4). pose proof (mg_at L H m2 i R1 R2) as Hs.
  pose proof (sch_add_ok L H i q _ F1 F2 (proj1 (F4 i)) (proj2 (F4 i)) Hs F3) as Ha.
  assert (sc_socket_id (mt_sch_add_quota q (sch_at m2 i)).2 = socket /\ sc_started (mt_sch_add_quota q (sch_at m2 i)).2 = false) as [Es Est].
  { unfold mt_sch_add_quota. case_if; [done|]. by case_if. }
  assert (length (mg_sch m2) = MT_MAX_SCH_NUM) as Hl by apply R1.
  destruct (mt_sch_add_quota q (sch_at m2 i)) as [ret s]. cbn [snd] in Es, Est. destruct Ha as [(Hneg & -> & _)|(-> & Hok & Hact)].
  { assert ((ret <? 0) = true) as -> by (by apply Z.ltb_lt). apply sch_free_ok; [done| |by apply mg_set]. by rewrite sch_at_upd by lia. }
  cbn [Z.ltb Z.compare]. set (m3 := sch_upd i (fun _ => s) m2).
  assert (exists s', (if mg_started m3 then sch_start launch s else (0, s)) = (0, s') /\ sch_same s s' /\ sc_socket_id s' = socket) as (s' & -> & Hsame & Es').
  { pose proof (sch_start_same launch s Hact) as Hx. case_if; [|by exists s]. unfold sch_start in *. rewrite Est in *.
    assert ((launch <? 0) = false) as El by (by apply Z.ltb_ge). rewrite El in *. by eexists. }
  cbn [Z.ltb Z.compare]. set (m4 := sch_upd i _ (sch_upd i (fun _ => s') m3)).
  assert (m4 = sch_upd i (fun _ => s' <| sc_ref_cnt ::= fun n => i32 (n + 1) |>) m2) as ->.
  { unfold m4, m3. by rewrite !sch_upd_upd. }
  rewrite sch_at_upd by lia. split_and!; try done; [|destruct Hsame as (_ & _ & E3 & _); cbn; congruence].
  eapply mg_upd; [..|exact R1]; [intros j Hj; by apply held_other|]. intros _ _. eapply sch_ok_same; [|exact Hok].
  destruct Hsame as (E1 & E2 & E3 & E4 & E5). split_and!; cbn; [by rewrite E1|done|done|done|done].
Qed.

Lemma mt_sch_put_ok L H i q m :
  quotas_pos H -> 0 <= q -> quota_of H i + q < 2147483648 -> refs_of H i + 1 < 2147483648 -> 0 <= L -> (i < MT_MAX_SCH_NUM)%nat ->
  mg_ok L ((i, q) :: H) m -> mg_ok L H (mt_sch_put i q m).
Proof.
  intros Hpos Hq Hb Hr HL Hi Hm. unfold mt_sch_put. set (m1 := sch_upd i _ m). assert (mg_ok L H m1) as H1.
  { eapply mg_upd; [..|exact Hm]; [intros j Hj; symmetry; by apply held_other|]. intros _ Hs. by apply sch_leave_ok. }
  case_if; [|done]. zbool. rewrite (so_refs _ _ _ _ (mg_at L H m1 i H1 Hi)) in E.
  apply sch_free_ok; [done| |by apply mg_same, H1; apply sch_stop_same].
  rewrite sch_at_upd by (destruct H1 as [-> _]; lia). unfold sch_stop. case_if; [by apply negb_true_iff|done].
Qed.

Lemma sch_start_loop_ok L H launches idxs m : mg_ok L H m -> mg_ok L H (sch_start_loop launches idxs m).2.
Proof.
  revert m. induction idxs as [|i idxs IH]; intros m Hm; [done|]. cbn. case_if; [by apply IH|]. zbool.
  pose proof (sch_start_same (launches i) (sch_at m i) ltac:(done)) as Hs. destruct (sch_start (launches i) (sch_at m i)) as [ret s].
  cbn [snd] in Hs. pose proof (mg_set L H i s m Hs Hm) as Hm1. case_if; [done|by apply IH].
Qed.
Lemma sch_stop_all_ok L H m : mg_ok L H m -> mg_ok L H (mt_sch_stop_all m).
Proof.
  intros [Hl Hm]. split; [cbn; by rewrite length_fmap|]. intros i s. cbn. rewrite list_lookup_fmap. destruct (mg_sch m !! i) as [s'|] eqn:E; [|done].
  intros [= <-]. case_if; [by apply Hm|]. eapply sch_ok_same; [apply sch_stop_same|by apply Hm].
Qed.

(** What the tasklets of a scheduler go through. *)
Inductive tasklet_op := TopRegister (id : Z) (mem : bool) | TopUnregister (i : nat) (id : Z) (passes : nat) | TopPass.
Definition tasklet_step (op : tasklet_op) (s : mtl_sch_impl) : mtl_sch_impl :=
  match op with
  | TopRegister id mem => (mtl_sch_register_tasklet id mem s).2
  | TopUnregister i id passes => (mtl_sch_unregister_tasklet i id passes s).2
  | TopPass => (sch_tasklet_pass s).2
  end.

Lemma tasklet_step_same op s : sch_same s (tasklet_step op s).
Proof.
  destruct op as [id mem|i id passes|]; cbn.
  - unfold mtl_sch_register_tasklet. by destruct (list_find _ _) as [[i t]|], mem.
  - unfold mtl_sch_unregister_tasklet. destruct (sc_tasklet s !! i) as [[t|]|]; [|done|done]. case_if; [done|]. case_if; [|done].
    pose proof (sch_passes_same passes (sch_request_exit i s)) as Hs. destruct (sch_passes passes (sch_request_exit i s)) as [called s1].
    cbn [snd] in *. by destruct (sch_slot_empty i s1).
  - apply sch_pass_same.
Qed.

(** ** Runs *)

Inductive sch_op :=
| SopGet (quota_mbs : Z) (type : mt_sch_type) (mask socket : Z) (mem : bool) (launch : Z)
| SopPut (i : nat) (quota_mbs : Z)
| SopCreate (nb : nat) (socket : Z) (mem : bool)
| SopFree (i : nat)
| SopStart (launch : Z) (i : nat)
| SopStop (i : nat)
| SopStartAll (launches : nat -> Z)
| SopStopAll
| SopInstance (started : bool)
| SopBusy (i : nat) (busy : bool)
| SopTasklet (i : nat) (op : tasklet_op).

(** The manager and who holds what. *)
Definition sch_step (op : sch_op) (st : mt_sch_mgr * holders) : mt_sch_mgr * holders :=
  let '(m, H) := st in
  match op with
  | SopGet q type mask socket mem launch =>
      match mt_sch_get_by_socket q type mask socket mem launch m with (Some i, m) => (m, (i, q) :: H) | (None, m) => (m, H) end
  | SopPut i q => (mt_sch_put i q m, remove_one (i, q) H)
  | SopCreate nb socket mem => ((mtl_sch_create nb socket mem m).2, H)
  | SopFree i => ((mtl_sch_free i m).2, H)
  | SopStart launch i => ((mtl_sch_start launch i m).2, H)
  | SopStop i => ((mtl_sch_stop i m).2, H)
  | SopStartAll launches => ((mt_sch_start_all launches m).2, H)
  | SopStopAll => (mt_sch_stop_all m, H)
  | SopInstance b => (m <| mg_started := b |>, H)
  | SopBusy i b => (sch_upd i (fun s => s <| sc_cpu_busy := b |>) m, H)
  | SopTasklet i op => (sch_upd i (tasklet_step op) m, H)
  end.

(** Sums stay in an [int], a new scheduler can be launched, a session puts back what it
    got, an application starts and frees schedulers of its own. *)
Definition sch_legal (op : sch_op) (st : mt_sch_mgr * holders) : Prop :=
  let '(m, H) := st in
  match op with
  | SopGet q _ _ _ _ launch => 0 <= q /\ 0 <= launch /\ forall i, quota_of H i + q < 2147483648 /\ refs_of H i + 1 < 2147483648
  | SopPut i q => (i, q) ∈ H
  | SopFree i => refs_of H i = 0 /\ (i < MT_MAX_SCH_NUM)%nat
  | SopStart _ i => sc_active (sch_at m i) = true
  | _ => True
  end.
Fixpoint sch_legal_run (ops : list sch_op) (st : mt_sch_mgr * holders) : Prop :=
  match ops with [] => True | op :: ops => sch_legal op st /\ sch_legal_run ops (sch_step op st) end.
Definition sch_run (ops : list sch_op) (st : mt_sch_mgr * holders) : mt_sch_mgr * holders := foldl (fun st op => sch_step op st) st ops.

(** The accounts are right and the sums stay in range. *)
Record sch_inv (L : Z) (st : mt_sch_mgr * holders) : Prop := {
  si_ok : mg_ok L st.2 st.1;
  si_pos : quotas_pos st.2;
  si_idx : Forall (fun h => (h.1 < MT_MAX_SCH_NUM)%nat) st.2;
  si_fit i : quota_of st.2 i < 2147483648 /\ refs_of st.2 i < 2147483648;
}.

Lemma counts_cons_le i q H j : 0 <= q -> quota_of ((i, q) :: H) j <= quota_of H j + q /\ refs_of ((i, q) :: H) j <= refs_of H j + 1
  /\ quota_of H j <= quota_of ((i, q) :: H) j /\ refs_of H j <= refs_of ((i, q) :: H) j.
Proof.
  intros Hq. destruct (decide (i = j)) as [-> |Hij]; [destruct (counts_cons j q H) as (-> & -> & _); lia|].
  unfold quota_of, refs_of. rewrite held_other by done. lia.
Qed.

Lemma sch_step_inv L op st : 0 <= L < 2147483648 -> sch_legal op st -> sch_inv L st -> sch_inv L (sch_step op st).
Proof.
  destruct st as [m H]. intros HL Hl [Hok Hpos Hidx Hfit]. cbn [fst snd] in *.
  assert (forall m', mg_ok L H m' -> sch_inv L (m', H)) as Hsame by (intros m' Hm'; by split).
  destruct op as [q type mask socket mem launch|i q|nb socket mem|i|launch i|i|launches| |b|i b|i op]; cbn [sch_step].
  - destruct Hl as (L1 & L2 & L3). pose proof (mt_sch_get_ok L H q type mask socket mem launch m) as Hg.
    destruct (mt_sch_get_by_socket q type mask socket mem launch m) as [[i|] m1]; [|by apply Hsame, Hg].
    destruct Hg as (G1 & G2 & _); [done|done|done|]. split; [done| | |]; cbn [snd].
    + by constructor.
    + by constructor.
    + intros j. pose proof (counts_cons_le i q H j L1). specialize (L3 j). lia.
  - cbn in Hl. pose proof (remove_one_perm (i, q) H Hl) as Hp. set (H' := remove_one (i, q) H) in *.
    assert (quotas_pos ((i, q) :: H')) as Hpos' by (unfold quotas_pos; by rewrite <- Hp). apply Forall_cons in Hpos' as [Hq Hpos'].
    assert (Forall (fun h => (h.1 < MT_MAX_SCH_NUM)%nat) ((i, q) :: H')) as Hidx' by (by rewrite <- Hp). apply Forall_cons in Hidx' as [Hi Hidx'].
    assert (mg_ok L ((i, q) :: H') m) as Hok' by (destruct Hok as [Hlen Hs]; split; [done|]; intros j s Hj; eapply sch_ok_perm; [exact Hp|by apply Hs]).
    assert (forall j, quota_of ((i, q) :: H') j = quota_of H j /\ refs_of ((i, q) :: H') j = refs_of H j) as Ej by (intros j; by destruct (counts_perm _ _ j Hp) as (? & ? & _)).
    cbn in Hq, Hi. split; cbn [fst snd]; try done.
    + destruct (counts_cons i q H') as (C1 & C2 & _). pose proof (Ej i). pose proof (Hfit i). apply mt_sch_put_ok; try done; lia.
    + intros j. pose proof (counts_cons_le i q H' j Hq). pose proof (Ej j). pose proof (Hfit j). lia.
  - pose proof (sch_request_ok L H MT_SCH_TYPE_APP (Z.ones 64) nb socket mem m Hok) as Hr. unfold mtl_sch_create.
    destruct (sch_request _ _ _ _ _ _) as [[i|] m1]; apply Hsame; apply Hr.
  - destruct Hl as [Hr Hi]. apply Hsame, sch_free_ok; [done| |by apply mg_same, Hok; apply sch_stop_same].
    rewrite sch_at_upd by (destruct Hok as [-> _]; lia). unfold sch_stop. case_if; [by apply negb_true_iff|done].
  - apply Hsame. unfold mtl_sch_start. pose proof (sch_start_same launch (sch_at m i) Hl) as Hs. destruct (sch_start launch (sch_at m i)) as [ret s]. by apply mg_set.
  - apply Hsame, mg_same, Hok. apply sch_stop_same.
  - apply Hsame. unfold mt_sch_start_all. pose proof (sch_start_loop_ok L H launches (seq 0 MT_MAX_SCH_NUM) m Hok) as Hs.
    destruct (sch_start_loop _ _ _) as [ret m1]. cbn [snd] in *. case_if; [by apply sch_stop_all_ok|done].
  - by apply Hsame, sch_stop_all_ok.
  - by apply Hsame.
  - by apply Hsame, mg_same, Hok.
  - apply Hsame, mg_same, Hok. apply tasklet_step_same.
Qed.

Lemma sch_init_inv L nb : 0 <= L < 2147483648 -> sch_inv L (mt_sch_mrg_init L nb, []).
Proof.
  intros HL. split; [split; [done|]|constructor|constructor|done]. intros i s [-> _]%lookup_replicate. split; try done. left. cbn. lia.
Qed.

(** C33: the accounts of the schedulers are right: every scheduler counts as many references
    and as much quota as the sessions on it hold, a scheduler with a session is active, and
    the quota is within the limit unless a single session has it all. This is after any
    sequence of gets and puts of sessions, of schedulers created, started, stopped and freed
    by the application, of starts and stops of the instance and of work on tasklets in which
    the thread of a scheduler a session gets can be launched (after a failed launch the
    quota stays counted, [failed_start_keeps_quota]), a session puts back the scheduler and
    the quota it got, the application starts only active schedulers and frees only ones no
    session is on, and quotas are not negative and their sums fit an int. *)
Theorem sch_quota_accounted L nb ops :
  0 <= L < 2147483648 -> sch_legal_run ops (mt_sch_mrg_init L nb, []) ->
  let '(m, H) := sch_run ops (mt_sch_mrg_init L nb, []) in
  forall i s, mg_sch m !! i = Some s ->
  sc_ref_cnt s = refs_of H i /\ sc_data_quota_mbs_total s = quota_of H i /\ (0 < refs_of H i -> sc_active s = true)
  /\ (quota_of H i <= L \/ paying H i <= 1).
Proof.
  intros HL. assert (forall ops st, sch_inv L st -> sch_legal_run ops st -> sch_inv L (sch_run ops st)) as Hrun.
  { clear ops. induction ops as [|op ops IH]; intros st Hst Hl; [done|]. destruct Hl as [Hl Hls]. apply IH; [by apply sch_step_inv|done]. }
  intros Hl. pose proof (Hrun ops _ (sch_init_inv L nb HL) Hl) as [[_ Hok] _ _ _]. destruct (sch_run ops _) as [m H]. intros i s Hs.
  destruct (Hok i s Hs). by split_and!.
Qed.

(** Sessions of 1000 and 700 MB/s and one without a quota, on schedulers of 1500. *)
Definition ex_sch_ops : list sch_op :=
  [SopGet 0 MT_SCH_TYPE_DEFAULT (Z.ones 64) 0 true 0; SopInstance true; SopGet 1000 MT_SCH_TYPE_DEFAULT (Z.ones 64) 0 true 0;
   SopGet 700 MT_SCH_TYPE_DEFAULT (Z.ones 64) 0 true 0; SopTasklet 1 (TopRegister 5 true); SopPut 0 1000].

(** A few sessions of a few MB/s stay in range. *)
Definition few (H : holders) : bool := forallb (fun h => (0 <=? h.2) && (h.2 <=? 1000)) H && (arr_len H <=? 1000).
Lemma few_in_range H i : few H = true -> quota_of H i <= 1000000 /\ refs_of H i <= 1000.
Proof.
  unfold few. intros [Hf Hl]%andb_true_iff. zbool. assert (refs_of H i <= arr_len H) as Hr by (unfold refs_of, arr_len; apply inj_le, length_filter).
  split; [|lia]. assert (quota_of H i <= 1000 * arr_len H); [|lia]. clear Hl Hr. unfold quota_of, held_at, arr_len.
  induction H as [|[j q] H IH]; [done|]. cbn in Hf. apply andb_true_iff in Hf as [Hq Hf]. zbool. specialize (IH Hf).
  rewrite filter_cons. case_decide; rewrite ?fmap_cons; cbn [snd foldr length]; lia.
Qed.
Lemma few_get_legal q type mask socket mem launch st :
  few st.2 = true -> 0 <= q <= 1000 -> 0 <= launch -> sch_legal (SopGet q type mask socket mem launch) st.
Proof. destruct st as [m H]. intros Hf Hq Hl. cbn in *. split_and!; [lia|lia|]. intros i. pose proof (few_in_range H i Hf). lia. Qed.

Lemma sch_quota_accounted_witness :
  let '(m, H) := sch_run ex_sch_ops (mt_sch_mrg_init 1500 16, []) in
  forall i s, mg_sch m !! i = Some s ->
  sc_ref_cnt s = refs_of H i /\ sc_data_quota_mbs_total s = quota_of H i /\ (0 < refs_of H i -> sc_active s = true)
  /\ (quota_of H i <= 1500 \/ paying H i <= 1).
Proof.
  apply (sch_quota_accounted 1500 16 ex_sch_ops); [lia|]. cbn [sch_legal_run ex_sch_ops]. split_and!; try exact I.
  all: try (apply few_get_legal; [vm_compute; reflexivity|lia|lia]). apply (bool_decide_unpack _). vm_compute. exact I.
Defined.

Example ex_sch_holders : (sch_run ex_sch_ops (mt_sch_mrg_init 1500 16, [])).2 = [(1%nat, 700); (0%nat, 0)].
Proof. vm_compute. reflexivity. Qed.

(** ** Tasklets *)

(** What a turn of the thread calls in a slot, and what it leaves there. *)
Definition slot_call (t : option mt_sch_tasklet_impl) : option Z := t ← t; if tk_request_exit t then None else Some (tk_id t).
Definition slot_left (t : option mt_sch_tasklet_impl) : option mt_sch_tasklet_impl := t ← t; if tk_request_exit t then None else Some t.

(** The slots in use are below [max_tasklet_idx], so that the thread sees them. *)
Definition max_idx_ok (s : mtl_sch_impl) : Prop :=
  forall i t, sc_tasklet s !! i = Some (Some t) -> (i < sc_max_tasklet_idx s)%nat.

Lemma pass_slots s n : (n <= length (sc_tasklet s))%nat ->
  let '(called, s') := foldl (fun st i => sch_tasklet_slot i st) ([], s) (seq 0 n) in
  called = omap slot_call (take n (sc_tasklet s)) /\ sc_tasklet s' = (slot_left <$> take n (sc_tasklet s)) ++ drop n (sc_tasklet s)
  /\ sc_max_tasklet_idx s' = sc_max_tasklet_idx s.
Proof.
  induction n as [|n IH]; intros Hn; [done|]. rewrite seq_S, foldl_app. specialize (IH ltac:(lia)).
  destruct (foldl _ ([], s) (seq 0 n)) as [called s']. destruct IH as (-> & E2 & E3). cbn [foldl Nat.add].
  destruct (lookup_lt_is_Some_2 (sc_tasklet s) n ltac:(lia)) as [t Ht].
  assert (length (slot_left <$> take n (sc_tasklet s)) = n) as Hl by (rewrite length_fmap, length_take; lia).
  assert (sc_tasklet s' !! n = Some t) as Ht' by (rewrite E2, lookup_app_r, Hl, Nat.sub_diag, lookup_drop, Nat.add_0_r by lia; done).
  rewrite (take_S_r _ _ _ Ht), omap_app, fmap_app, (drop_S _ _ _ Ht) in *. unfold sch_tasklet_slot. rewrite Ht'.
  assert (forall x, <[n := x]> (sc_tasklet s') = (slot_left <$> take n (sc_tasklet s)) ++ x :: drop (S n) (sc_tasklet s)) as Hins.
  { intros x. rewrite E2, <- Hl at 1. by rewrite insert_app_r_alt, Nat.sub_diag by lia. }
  destruct t as [t|]; cbn.
  - destruct (tk_request_exit t); cbn; rewrite ?app_nil_r, <- ?app_assoc; by split_and!.
  - rewrite app_nil_r, <- app_assoc. by split_and!.
Qed.

(** A turn calls the handler of every tasklet that is not about to leave, once, in the
    order of the slots, and empties the slots of the others. *)
Lemma sch_pass_spec s : max_idx_ok s -> (sc_max_tasklet_idx s <= length (sc_tasklet s))%nat ->
  (sch_tasklet_pass s).1 = omap slot_call (sc_tasklet s) /\ sc_tasklet (sch_tasklet_pass s).2 = slot_left <$> sc_tasklet s
  /\ sc_max_tasklet_idx (sch_tasklet_pass s).2 = sc_max_tasklet_idx s.
Proof.
  intros Hm Hl. pose proof (pass_slots s (sc_max_tasklet_idx s) Hl) as Hp. unfold sch_tasklet_pass.
  destruct (foldl _ _ _) as [called s']. cbn. destruct Hp as (-> & -> & E3). set (n := sc_max_tasklet_idx s) in *.
  assert (Forall (eq None) (drop n (sc_tasklet s))) as Hd.
  { apply Forall_lookup. intros i t. rewrite lookup_drop. destruct t as [t|]; [|done]. intros Ht%Hm. fold n in Ht. lia. }
  split_and!; [| |done].
  - trans (omap slot_call (take n (sc_tasklet s) ++ drop n (sc_tasklet s))); [|by rewrite take_drop]. rewrite omap_app.
    rewrite <- (app_nil_r (omap slot_call (take n _))) at 1. f_equal. induction Hd as [|x l <- _ IH]; [done|]. cbn. exact IH.
  - trans (slot_left <$> (take n (sc_tasklet s) ++ drop n (sc_tasklet s))); [|by rewrite take_drop]. rewrite fmap_app.
    f_equal. induction Hd as [|x l <- _ IH]; [done|]. cbn. by f_equal.
Qed.

Lemma sch_max_idx_spec l i t : l !! i = Some (Some t) -> (i < sch_max_idx l)%nat.
Proof.
  unfold sch_max_idx. intros Hi. cut (forall n, (i < n)%nat -> (n <= length l)%nat ->
    (i < foldl (fun n j => match l !! j with Some (Some _) => S j | _ => n end) 0%nat (seq 0 n))%nat).
  { intros H. apply H; [by eapply lookup_lt_Some|done]. }
  induction n as [|n IH]; intros Hn Hl; [lia|]. rewrite seq_S, foldl_app. cbn [foldl Nat.add]. destruct (decide (i = n)) as [-> |Hne].
  - rewrite Hi. lia.
  - specialize (IH ltac:(lia) ltac:(lia)). destruct (l !! n) as [[t'|]|]; [lia|done|done].
Qed.

(** Registering, turns and unregistering keep the slots in sight of the thread. *)
Definition tasklets_ok (s : mtl_sch_impl) : Prop := max_idx_ok s /\ (sc_max_tasklet_idx s <= length (sc_tasklet s))%nat.

Lemma sch_max_idx_le l : (sch_max_idx l <= length l)%nat.
Proof.
  unfold sch_max_idx. cut (forall n, (foldl (fun n j => match l !! j with Some (Some _) => S j | _ => n end) 0%nat (seq 0 n) <= n)%nat).
  { intros H. apply H. }
  induction n as [|n IH]; [done|]. rewrite seq_S, foldl_app. cbn [foldl Nat.add]. destruct (l !! n) as [[t|]|]; lia.
Qed.

Lemma tasklets_ok_pass s : tasklets_ok s -> tasklets_ok (sch_tasklet_pass s).2.
Proof.
  intros [Hm Hl]. destruct (sch_pass_spec s Hm Hl) as (_ & E2 & E3). split; [|by rewrite E2, E3, length_fmap].
  intros i t. rewrite E2, E3, list_lookup_fmap. destruct (sc_tasklet s !! i) as [[t'|]|] eqn:E; [|done|done]. intros _. by eapply Hm.
Qed.

Lemma tasklets_ok_passes n s : tasklets_ok s -> tasklets_ok (sch_passes n s).2.
Proof.
  revert s. induction n as [|n IH]; intros s Hs; [done|]. cbn. pose proof (tasklets_ok_pass s Hs) as H1. destruct (sch_tasklet_pass s) as [called s1].
  specialize (IH s1 H1). by destruct (sch_passes n s1) as [more s2].
Qed.

Lemma tasklets_ok_step op s : tasklets_ok s -> tasklets_ok (tasklet_step op s).
Proof.
  intros Hs. destruct op as [id mem|i id passes|]; cbn [tasklet_step]; [| |by apply tasklets_ok_pass].
  - destruct Hs as [Hm Hl]. unfold mtl_sch_register_tasklet. destruct (list_find _ _) as [[i x]|] eqn:Ef; [|by split]. destruct mem; [|by split].
    apply list_find_Some in Ef as (Hi & _ & _). pose proof (lookup_lt_Some _ _ _ Hi). split; [|cbn; rewrite length_insert; lia].
    intros j t. cbn. rewrite list_lookup_insert. case_decide; [lia|]. intros Hj%Hm. lia.
  - unfold mtl_sch_unregister_tasklet. destruct (sc_tasklet s !! i) as [[t|]|] eqn:Ei; [|done|done]. case_if; [done|].
    assert (forall s', tasklets_ok (s' <| sc_max_tasklet_idx := sch_max_idx (sc_tasklet s') |>)) as Hend.
    { intros s'. split; [intros j x; apply sch_max_idx_spec|apply sch_max_idx_le]. }
    destruct (sc_started s); [|apply Hend]. assert (tasklets_ok (sch_passes passes (sch_request_exit i s)).2) as Hp.
    { apply tasklets_ok_passes. destruct Hs as [Hm Hl]. split; [|cbn; by rewrite length_alter].
      intros j x. cbn. rewrite list_lookup_alter. case_decide; [subst j; intros _; by eapply Hm|apply Hm]. }
    destruct (sch_passes passes _) as [called s1]. cbn [snd] in *. by destruct (sch_slot_empty i s1); [apply Hend|].
Qed.

(** When a tasklet was unregistered its slot is empty, so that no turn calls it. *)
Lemma unregistered_slot_empty i id passes s s' :
  mtl_sch_unregister_tasklet i id passes s = (0, s') -> sch_slot_empty i s' = true.
Proof.
  unfold mtl_sch_unregister_tasklet. destruct (sc_tasklet s !! i) as [[t|]|] eqn:Ei; [|done|done]. case_if; [done|].
  destruct (sc_started s).
  - destruct (sch_slot_empty i _) eqn:Ee; cbn; [|done]. intros [= <-]. exact Ee.
  - cbn. intros [= <-]. unfold sch_slot_empty. cbn. rewrite list_lookup_insert_eq; [done|]. by eapply lookup_lt_Some.
Qed.

(** The first turn of a running thread is enough. *)
Lemma unregister_one_pass i id n s t :
  tasklets_ok s -> sc_tasklet s !! i = Some (Some t) -> tk_id t = id -> (mtl_sch_unregister_tasklet i id (S n) s).1 = 0.
Proof.
  intros Hs Hi Hid. unfold mtl_sch_unregister_tasklet. rewrite Hi, Hid, Z.eqb_refl. cbn [negb]. destruct (sc_started s); [|done].
  set (s1 := sch_request_exit i s). assert (tasklets_ok s1) as H1.
  { destruct Hs as [Hm Hl]. split; [|cbn; by rewrite length_alter].
    intros j x. cbn. rewrite list_lookup_alter. case_decide; [subst j; intros _; by eapply Hm|apply Hm]. }
  assert (forall m s, tasklets_ok s -> sc_tasklet s !! i = Some None -> sc_tasklet (sch_passes m s).2 !! i = Some None) as Hstay.
  { clear. induction m as [|m IH]; intros s Hs Hi; [done|]. cbn. destruct (sch_pass_spec s (proj1 Hs) (proj2 Hs)) as (_ & E2 & _).
    pose proof (tasklets_ok_pass s Hs) as H1. destruct (sch_tasklet_pass s) as [called s1]. cbn [snd] in *.
    specialize (IH s1 H1). rewrite E2, list_lookup_fmap, Hi in IH. specialize (IH eq_refl). by destruct (sch_passes m s1). }
  cbn [sch_passes]. destruct (sch_pass_spec s1 (proj1 H1) (proj2 H1)) as (_ & E2 & _). pose proof (tasklets_ok_pass s1 H1) as H2.
  destruct (sch_tasklet_pass s1) as [called s2]. cbn [snd] in *. assert (sc_tasklet s2 !! i = Some None) as E3.
  { rewrite E2, list_lookup_fmap. unfold s1. cbn. rewrite list_lookup_alter_eq, Hi. done. }
  specialize (Hstay n s2 H2 E3). destruct (sch_passes n s2) as [more s3]. cbn [snd] in *. unfold sch_slot_empty. by rewrite Hstay.
Qed.

(** ** Where the code departs from what it means to do *)

(** An application has a scheduler of its own; while the first one is busy a session
    without a quota is put there, and when it ends the scheduler is stopped and freed under
    the application. *)
Lemma app_scheduler_freed :
  let m := (mt_sch_get_by_socket 0 MT_SCH_TYPE_DEFAULT (Z.ones 64) 0 true 0 (mt_sch_mrg_init 1500 16)).2 in
  let '(app, m) := mtl_sch_create 0 0 true m in
  let m := sch_upd 0 (fun s => s <| sc_cpu_busy := true |>) (mtl_sch_start 0 1 m).2 in
  let '(got, m) := mt_sch_get_by_socket 0 MT_SCH_TYPE_DEFAULT (Z.ones 64) 0 true 0 m in
  app = Some 1%nat /\ got = Some 1%nat /\ sc_active (sch_at (mt_sch_put 1 0 m) 1) = false.
Proof. vm_compute. repeat split. Qed.

(** The scheduler dedicated to system tasks takes a session without a quota, and is an
    ordinary one when the session ends. *)
Lemma system_scheduler_shared :
  let m := (mt_sch_get_by_socket 0 MT_SCH_TYPE_SYSTEM (Z.ones 64) 0 true 0 (mt_sch_mrg_init 1500 16)).2 in
  let '(got, m') := mt_sch_get_by_socket 0 MT_SCH_TYPE_DEFAULT (Z.ones 64) 0 true 0 m in
  sc_type (sch_at m 0) = MT_SCH_TYPE_SYSTEM /\ got = Some 0%nat /\ sc_type (sch_at (mt_sch_put 0 0 m') 0) = MT_SCH_TYPE_DEFAULT.
Proof. vm_compute. repeat split. Qed.

(** A scheduler whose thread cannot be launched is freed with the quota of the session that
    wanted it; the next session that gets the slot is refused. *)
Lemma failed_start_keeps_quota :
  let m := mt_sch_mrg_init 1500 16 <| mg_started := true |> in
  let '(got, m) := mt_sch_get_by_socket 1000 MT_SCH_TYPE_DEFAULT (Z.ones 64) 0 true (- EIO) m in
  let '(again, m') := mt_sch_get_by_socket 1000 MT_SCH_TYPE_DEFAULT (Z.ones 64) 0 true 0 m in
  got = None /\ sc_data_quota_mbs_total (sch_at m 0) = 1000 /\ again = None /\ sc_active (sch_at m' 0) = false.
Proof. vm_compute. repeat split. Qed.
