(* ===== verification/RxVideo.v ===== *)
(** Frame assembly of the ST 2110-20 receiver,
    lib/src/st2110/st_rx_video_session.c: the frame pool ([rv_get_frame],
    [rv_put_frame]), the slots that collect the packets of one RTP timestamp
    ([rv_slot_by_tmstamp]), the packet handler [rv_handle_frame_pkt], slice
    notification ([rv_slice_add]), frame delivery ([rv_frame_notify]) and the
    per-port loss accounting.

    The sessions modelled are those of type FRAME and SLICE that assemble by CPU
    copy: without DMA device, header split, timing parser, user-frame mode and
    dynamic external frames. Timing fields of the frame meta (floating point) are
    left out; the byte contents of the frame buffers are modelled. *)
From S2P Require Import Prelude SeqNum Bitmap Fmt.

(** ** Constants *)

Definition ST20_SECOND_FIELD : Z := Z.shiftl 1 15.
Definition ST20_SRD_OFFSET_CONTINUATION : Z := Z.shiftl 1 15.
Definition ST20_RETRANSMIT : Z := Z.shiftl 1 14.
Definition ST20_LEN_USER_META : Z := Z.shiftl 1 15.
Definition ST_VIDEO_RX_REC_NUM_OFO : Z := 2.
Definition ST_RX_VIDEO_RTCP_SLOT_NUM : Z := 2.
Definition ST_RX_VIDEO_REDUNDANT_SLOT_NUM : Z := 2.
Definition ST_VIDEO_RX_SLICE_NUM : Z := 32.
Definition SIZEOF_RFC4175_VIDEO_HDR : Z := 62.
Definition SIZEOF_RFC4175_EXTRA_HDR : Z := 6.

(** ** State *)

(** The counters of [port_user_stats] and of the session that the code below
    moves; [PORT_*] take the session port. *)
Inductive rv_counter :=
| STAT_PKTS_RETRANSMIT | STAT_PKTS_WRONG_PT | STAT_PKTS_WRONG_SSRC | STAT_PKTS_WRONG_INTERLACE
| STAT_PKTS_MULTI_SEGMENTS | STAT_PKTS_REDUNDANT | STAT_PKTS_NO_SLOT | STAT_PKTS_USER_META_ERR
| STAT_PKTS_USER_META | STAT_PKTS_OFFSET_DROPPED | STAT_PKTS_WRONG_LEN | STAT_PKTS_IDX_OO_BITMAP
| STAT_PKTS_IDX_DROPPED | STAT_PKTS_RECEIVED | STAT_SLOT_GET_FRAME_FAIL | STAT_PKTS_POOL_EMPTY
| STAT_FRAMES_RECEIVED | STAT_FRAMES_INCOMPLETE | CBS_INCOMPLETE_FRAME_CNT
| STAT_PKTS_UNRECOVERED | STAT_LOST_PACKETS | STAT_INTERLACE_FIRST | STAT_INTERLACE_SECOND
| STAT_PKTS_SLICE_FAIL | STAT_PKTS_SLICE_MERGED | STAT_SLICES_RECEIVED
| PORT_LOST_PACKETS (s_port : Z) | PORT_FRAMES (s_port : Z) | PORT_FRAMES_PARTIAL (s_port : Z)
| PORT_REORDERED (s_port : Z).
#[export] Instance rv_counter_eq : EqDecision rv_counter.
Proof. solve_decision. Defined.

Inductive rv_frame_status :=
| ST_FRAME_STATUS_COMPLETE | ST_FRAME_STATUS_RECONSTRUCTED | ST_FRAME_STATUS_CORRUPTED.

(** [struct st_frame_trans]: [ft_data] is the buffer at [addr]. *)
Record st_frame_trans := mk_frame_trans {
  ft_refcnt : Z;
  ft_data : list Z;
  ft_user_meta : list Z;
  ft_user_meta_buffer_size : Z;
  ft_user_meta_data_size : Z;
}.
#[export] Instance eta_frame_trans : Settable st_frame_trans := fun f =>
  mk_frame_trans (ft_refcnt f) (ft_data f) (ft_user_meta f) (ft_user_meta_buffer_size f)
    (ft_user_meta_data_size f).

(** [slices] are (offset, size) pairs; the first one is the main slice. *)
Record slice_info := mk_slice_info {
  slices : list (Z * Z);
  ready_slices : Z;
  extra_slices : Z;
}.
#[export] Instance eta_slice_info : Settable slice_info := fun i =>
  mk_slice_info (slices i) (ready_slices i) (extra_slices i).

(** [struct st_rx_video_slot_impl]; [sl_frame] is the index of the frame. *)
Record rv_slot := mk_rv_slot {
  sl_tmstamp : Z;
  sl_seq_id_base : Z;
  sl_seq_id_got : bool;
  sl_frame : option nat;
  sl_bitmap : bitmap_ptr;
  sl_frame_recv_size : Z;
  sl_lcore_recv_size : Z;
  sl_pkts_received : Z;
  sl_pkts_recv_per_port : list Z;
  sl_second_field : bool;
  sl_last_pkt_idx : list Z;
  sl_loss_pending : bool;
  sl_slices : option slice_info;
}.
#[export] Instance eta_rv_slot : Settable rv_slot := fun s =>
  mk_rv_slot (sl_tmstamp s) (sl_seq_id_base s) (sl_seq_id_got s) (sl_frame s) (sl_bitmap s)
    (sl_frame_recv_size s) (sl_lcore_recv_size s) (sl_pkts_received s) (sl_pkts_recv_per_port s)
    (sl_second_field s) (sl_last_pkt_idx s) (sl_loss_pending s) (sl_slices s).

(** What the application is told: a frame with its meta and its contents at that
    moment, or a slice. *)
Record rv_meta := mk_rv_meta {
  me_status : rv_frame_status;
  me_timestamp : Z;
  me_second_field : bool;
  me_recv_size : Z;
  me_pkts_total : Z;
  me_pkts_recv : list Z;
  me_user_meta : list Z;
}.
Inductive rv_event :=
| FrameReady (frame : nat) (meta : rv_meta) (data : list Z)
| SliceReady (frame : nat) (timestamp recv_size recv_lines : Z).

(** The configuration: what [rv_attach] computed from the ops. *)
Record rv_config := mk_rv_config {
  num_port : Z;
  ops_payload_type : Z;
  ops_ssrc : Z;
  ops_interlaced : bool;
  ops_width : Z;
  ops_height : Z;
  receive_incomplete : bool;
  st20_linesize : Z;
  st20_bytes_in_line : Z;
  st20_fb_size : Z;
  st20_frame_size : Z;
  st20_frame_bitmap_size : Z;
  st20_pg_size : Z;
  st20_pg_coverage : Z;
  slice_size : Z;
  slice_lines : Z;
  slot_max : Z;
}.

Record rv_session := mk_rv_session {
  st20_frames : list st_frame_trans;
  rv_slots : list rv_slot;
  slot_idx : Z;
  redundant_error_cnt : list Z;
  st20_frame_pkts : Z;
  counters : rv_counter -> Z;
  notified : list rv_event;
}.
#[export] Instance eta_rv_session : Settable rv_session := fun s =>
  mk_rv_session (st20_frames s) (rv_slots s) (slot_idx s) (redundant_error_cnt s)
    (st20_frame_pkts s) (counters s) (notified s).

(** The fields of a received packet the handler reads, in host order; the row
    fields are 16-bit wire values with their flag bits, [pk_payload] the bytes
    behind the header (and behind the extra row header, when there is one). *)
Record rv_pkt := mk_rv_pkt {
  pk_row_number : Z;
  pk_row_offset : Z;
  pk_row_length : Z;
  pk_extra_row_length : Z;
  pk_tmstamp : Z;
  pk_seq_number : Z;
  pk_seq_number_ext : Z;
  pk_payload_type : Z;
  pk_ssrc : Z;
  pk_pkt_len : Z;
  pk_data_len : Z;
  pk_next_data_len : Z;
  pk_payload : list Z;
}.

Definition frame_zero : st_frame_trans := mk_frame_trans 0 [] [] 0 0.
(** A slot as [rv_session_reset] leaves it, before its bitmap is allocated. *)
Definition slot_zero : rv_slot :=
  mk_rv_slot (-1) 0 false None None 0 0 0 [0; 0] false [-1; -1] false None.

Definition fr_at (s : rv_session) (i : nat) : st_frame_trans :=
  default frame_zero (st20_frames s !! i).
Definition fr_upd (i : nat) (g : st_frame_trans -> st_frame_trans) (s : rv_session) : rv_session :=
  s <| st20_frames ::= alter g i |>.
Definition slot_at (s : rv_session) (i : nat) : rv_slot := default slot_zero (rv_slots s !! i).
Definition slot_upd (i : nat) (g : rv_slot -> rv_slot) (s : rv_session) : rv_session :=
  s <| rv_slots ::= alter g i |>.
Definition count (k : rv_counter) (n : Z) (s : rv_session) : rv_session :=
  s <| counters ::= fun f j => if decide (j = k) then u64 (f j + n) else f j |>.
Definition notify (e : rv_event) (s : rv_session) : rv_session :=
  s <| notified ::= fun l => l ++ [e] |>.

(** ** The frame pool *)

Definition rv_get_frame (s : rv_session) : option nat * rv_session :=
  match list_find (fun f => ft_refcnt f = 0) (st20_frames s) with
  | Some (i, _) => (Some i, fr_upd i (fun f => f <| ft_refcnt ::= fun n => i32 (n + 1) |>) s)
  | None => (None, s)
  end.

Definition rv_put_frame (i : nat) (s : rv_session) : rv_session :=
  fr_upd i (fun f => f <| ft_refcnt ::= fun n => i32 (n - 1) |>) s.

(** The frame is found by its address: [Some i] when [framebuff] is one of them. *)
Definition st20_rx_put_framebuff (framebuff : option nat) (s : rv_session) : Z * rv_session :=
  match framebuff with
  | Some i =>
      if bool_decide (i < length (st20_frames s))%nat then (0, rv_put_frame i s) else (- EIO, s)
  | None => (- EIO, s)
  end.

Definition rv_slot_init_frame_size (sl : rv_slot) : rv_slot :=
  sl <| sl_frame_recv_size := 0 |> <| sl_lcore_recv_size := 0 |>.
Definition rv_slot_get_frame_size (sl : rv_slot) : Z :=
  u64 (sl_frame_recv_size sl + sl_lcore_recv_size sl).
Definition rv_slot_add_frame_size (size : Z) (sl : rv_slot) : rv_slot :=
  sl <| sl_frame_recv_size ::= fun n => u64 (n + size) |>.
Definition rv_slot_pkt_lcore_add_frame_size (size : Z) (sl : rv_slot) : rv_slot :=
  sl <| sl_lcore_recv_size ::= fun n => u64 (n + size) |>.

(** [rv_init_slot] on zeroed slots; [slices] for ST20_TYPE_SLICE_LEVEL. The
    allocations succeed; [None] is the failure of the slot-count check. *)
Definition slice_info_zero : slice_info :=
  mk_slice_info (replicate (Z.to_nat ST_VIDEO_RX_SLICE_NUM) (0, 0)) 0 0.
Definition rv_slot_max (rtcp : bool) (nport : Z) : Z :=
  if rtcp then ST_RX_VIDEO_RTCP_SLOT_NUM
  else if nport >? 1 then ST_RX_VIDEO_REDUNDANT_SLOT_NUM else 1.
Definition rv_init_slot (bitmap_size : Z) (slice_level rtcp : bool) (nport : Z)
    : option (list rv_slot * Z) :=
  let sl := slot_zero
    <| sl_bitmap := Some (bm_zero bitmap_size) |>
    <| sl_slices := if slice_level then Some slice_info_zero else None |> in
  if rv_slot_max rtcp nport >? ST_VIDEO_RX_REC_NUM_OFO then None
  else Some (replicate (Z.to_nat ST_VIDEO_RX_REC_NUM_OFO) sl, rv_slot_max rtcp nport).

(** [rv_reset_slot]: the frame of the slot goes back to the pool. *)
Definition rv_reset_slot (bitmap_size : Z) (slot : nat) (s : rv_session) : rv_session :=
  let s :=
    match sl_frame (slot_at s slot) with
    | Some f => fr_upd f (fun fr => fr <| ft_refcnt := 0 |>) s
    | None => s
    end in
  slot_upd slot (fun sl =>
    slot_zero
      <| sl_bitmap := (fun l => if c_true bitmap_size then bm_zero bitmap_size else l) <$> sl_bitmap sl |>
      <| sl_slices := (fun _ => slice_info_zero) <$> sl_slices sl |>) s.

Section Receiver.
Context (cfg : rv_config).
(** [mt_if_port_is_down] of a session port. *)
Context (port_is_down : Z -> bool).
(** What [notify_frame_ready] of the application returns. *)
Context (notify_ret : rv_event -> Z).
(** The [float] estimate of the packets missing from a frame, from the bytes and
    packets received. *)
Context (miss_estimate : Z -> Z -> Z).

(** ** Loss accounting *)

Definition rv_port_loss (slot : nat) (expected s_port : Z) (s : rv_session) : rv_session :=
  let recv := arr_get 0 (sl_pkts_recv_per_port (slot_at s slot)) s_port in
  if port_is_down s_port then s
  else if expected <=? recv then s
  else
    let deficit := expected - recv in
    count STAT_LOST_PACKETS deficit (count (PORT_LOST_PACKETS s_port) deficit s).
Definition rv_slot_account_per_port_loss (slot : nat) (expected : Z) (s : rv_session) : rv_session :=
  for_from 0 (Z.to_nat (num_port cfg)) (rv_port_loss slot expected) s.

Definition rv_flush_pending_slot (i : Z) (s : rv_session) : rv_session :=
  let slot := Z.to_nat i in
  if negb (sl_loss_pending (slot_at s slot)) then s
  else
    slot_upd slot (fun sl => sl <| sl_loss_pending := false |>)
      (rv_slot_account_per_port_loss slot (sl_pkts_received (slot_at s slot)) s).
Definition rv_flush_pending_loss (s : rv_session) : rv_session :=
  for_from 0 (Z.to_nat (slot_max cfg)) rv_flush_pending_slot s.

(** ** Delivery *)

Definition rv_port_frames (sl : rv_slot) (s_port : Z) (s : rv_session) : rv_session :=
  if arr_get 0 (sl_pkts_recv_per_port sl) s_port >=? sl_pkts_received sl
  then count (PORT_FRAMES s_port) 1 s
  else count (PORT_FRAMES_PARTIAL s_port) 1 s.

Definition rv_frame_meta (sl : rv_slot) (fr : st_frame_trans) : rv_meta :=
  let recv_size := rv_slot_get_frame_size sl in
  let status :=
    if recv_size >=? st20_frame_size cfg then
      if (num_port cfg >? 1)
         && (arr_get 0 (sl_pkts_recv_per_port sl) 0 <? sl_pkts_received sl)
         && (arr_get 0 (sl_pkts_recv_per_port sl) 1 <? sl_pkts_received sl)
      then ST_FRAME_STATUS_RECONSTRUCTED else ST_FRAME_STATUS_COMPLETE
    else ST_FRAME_STATUS_CORRUPTED in
  mk_rv_meta status (sl_tmstamp sl) (sl_second_field sl) recv_size (sl_pkts_received sl)
    (sl_pkts_recv_per_port sl) (take (Z.to_nat (ft_user_meta_data_size fr)) (ft_user_meta fr)).

Definition rv_miss_pkts (sl : rv_slot) (frame_pkts recv_size : Z) : Z :=
  if frame_pkts >? sl_pkts_received sl then i32 (frame_pkts - sl_pkts_received sl)
  else if c_true recv_size then miss_estimate recv_size (sl_pkts_received sl)
  else 0.

(** The slot has a frame, number [f]. *)
Definition rv_frame_notify (slot f : nat) (s : rv_session) : rv_session :=
  let sl := slot_at s slot in
  let s :=
    if ops_interlaced cfg then
      count (if sl_second_field sl then STAT_INTERLACE_SECOND else STAT_INTERLACE_FIRST) 1 s
    else s in
  let meta := rv_frame_meta sl (fr_at s f) in
  let ev := FrameReady f meta (ft_data (fr_at s f)) in
  if me_recv_size meta >=? st20_frame_size cfg then
    let s := slot_upd slot (fun sl => sl <| sl_loss_pending := true |>) s in
    let s := count STAT_FRAMES_RECEIVED 1 s in
    let s := rv_port_frames sl 0 s in
    let s := rv_port_frames sl 1 s in
    let s := notify ev s in
    let s :=
      if notify_ret ev <? 0 then
        slot_upd slot (fun sl => sl <| sl_frame := None |>) (rv_put_frame f s)
      else s in
    s <| st20_frame_pkts := me_pkts_total meta |>
  else
    let s := count STAT_FRAMES_INCOMPLETE 1 s in
    let miss_pkts := rv_miss_pkts sl (st20_frame_pkts s) (me_recv_size meta) in
    let s := if miss_pkts >? 0 then count STAT_PKTS_UNRECOVERED miss_pkts s else s in
    let s := rv_slot_account_per_port_loss slot
               (u32 (sl_pkts_received sl + if miss_pkts >? 0 then miss_pkts else 0)) s in
    let s := count CBS_INCOMPLETE_FRAME_CNT 1 s in
    if receive_incomplete cfg then notify ev s
    else slot_upd slot (fun sl => sl <| sl_frame := None |>) (rv_put_frame f s).

Definition rv_slot_full_frame (slot f : nat) (s : rv_session) : rv_session :=
  let s := rv_frame_notify slot f s in
  slot_upd slot (fun sl => rv_slot_init_frame_size sl <| sl_frame := None |>) s.

(** ** Slices *)

(** The first unused entry takes the piece, or the first one it continues. The
    flag says whether a new entry was used. *)
Fixpoint slice_place (offset size : Z) (l : list (Z * Z)) : option (list (Z * Z) * bool) :=
  match l with
  | [] => None
  | (o, sz) :: l' =>
      if sz =? 0 then Some ((offset, size) :: l', true)
      else if offset =? u32 (sz + o) then Some ((o, u32 (sz + size)) :: l', false)
      else '(l', fresh) ← slice_place offset size l'; Some ((o, sz) :: l', fresh)
  end.

(** One pass over the extra entries: the new main size, the entries and how many
    were merged. *)
Fixpoint slice_merge_pass (main : Z) (l : list (Z * Z)) : Z * list (Z * Z) * Z :=
  match l with
  | [] => (main, [], 0)
  | (o, sz) :: l' =>
      if c_true sz && (o =? main) then
        let '(main, l', n) := slice_merge_pass (u32 (main + sz)) l' in (main, (0, 0) :: l', n + 1)
      else
        let '(main, l', n) := slice_merge_pass main l' in (main, (o, sz) :: l', n)
  end.

(** [repeat_merge]: passes until one merges nothing. *)
Fixpoint slice_merge (fuel : nat) (main : Z) (l : list (Z * Z)) : Z * list (Z * Z) * Z :=
  match fuel with
  | O => (main, l, 0)
  | S fuel =>
      let '(main, l, n) := slice_merge_pass main l in
      if n =? 0 then (main, l, 0)
      else let '(main, l, n') := slice_merge fuel main l in (main, l, n + n')
  end.

Definition rv_slice_notify (slot f : nat) (info : slice_info) (s : rv_session) : rv_session :=
  let sl := slot_at s slot in
  let s := notify (SliceReady f (sl_tmstamp sl) (rv_slot_get_frame_size sl)
                     (u32 (ready_slices info * slice_lines cfg))) s in
  count STAT_SLICES_RECEIVED 1 s.

Definition slot_set_slices (slot : nat) (info : slice_info) : rv_session -> rv_session :=
  slot_upd slot (fun sl => sl <| sl_slices := Some info |>).

Definition rv_slice_add (slot f : nat) (info : slice_info) (offset size : Z) (s : rv_session)
    : rv_session :=
  match slices info with
  | [] => s
  | (main_offset, main_size) :: extra =>
      if negb (offset =? main_size) then
        match slice_place offset size extra with
        | Some (extra, fresh) =>
            slot_set_slices slot
              (mk_slice_info ((main_offset, main_size) :: extra) (ready_slices info)
                 (if fresh then u32 (extra_slices info + 1) else extra_slices info)) s
        | None => count STAT_PKTS_SLICE_FAIL 1 s
        end
      else
        let main_size := u32 (main_size + size) in
        let '(main_size, extra, merged) :=
          if c_true (extra_slices info) then slice_merge (S (length extra)) main_size extra
          else (main_size, extra, 0) in
        let s := count STAT_PKTS_SLICE_MERGED merged s in
        let info := mk_slice_info ((main_offset, main_size) :: extra) (ready_slices info)
                      (u32 (extra_slices info - merged)) in
        let ready := main_size / slice_size cfg in
        if ready >? ready_slices info then
          let info := info <| ready_slices := ready |> in
          rv_slice_notify slot f info (slot_set_slices slot info s)
        else slot_set_slices slot info s
  end.

(** ** The slot of a timestamp *)

Definition rv_find_tmstamp (s : rv_session) (tmstamp : Z) : option nat :=
  fst <$> list_find (fun sl => sl_tmstamp sl = tmstamp) (take (Z.to_nat (slot_max cfg)) (rv_slots s)).
Definition rv_tmstamp_in_past (s : rv_session) (tmstamp : Z) : bool :=
  forallb (fun sl => negb ((sl_tmstamp sl =? -1) || mt_seq32_greater tmstamp (sl_tmstamp sl)))
    (take (Z.to_nat (slot_max cfg)) (rv_slots s)).
Definition rv_error_threshold_reached (s : rv_session) : bool :=
  forallb (fun n => negb (n <? ST_SESSION_REDUNDANT_ERROR_THRESHOLD))
    (take (Z.to_nat (num_port cfg)) (redundant_error_cnt s)).

(** Give up what slot [slot] still holds. *)
Definition rv_slot_recycle (slot : nat) (s : rv_session) : rv_session :=
  let s :=
    match sl_frame (slot_at s slot) with
    | Some f => slot_upd slot (fun sl => sl <| sl_frame := None |>) (rv_frame_notify slot f s)
    | None => s
    end in
  if sl_loss_pending (slot_at s slot) then
    slot_upd slot (fun sl => sl <| sl_loss_pending := false |>)
      (rv_slot_account_per_port_loss slot (sl_pkts_received (slot_at s slot)) s)
  else s.

(** The slot, whether it was already there, and the session. *)
Definition rv_slot_by_tmstamp (tmstamp : Z) (s : rv_session) : option nat * bool * rv_session :=
  match rv_find_tmstamp s tmstamp with
  | Some slot => (Some slot, true, s)
  | None =>
      if rv_tmstamp_in_past s tmstamp && negb (rv_error_threshold_reached s) then (None, false, s)
      else
        let idx := (slot_idx s + 1) mod slot_max cfg in
        let slot := Z.to_nat idx in
        let s := rv_slot_recycle slot s in
        let s := slot_upd slot (fun sl =>
          rv_slot_init_frame_size sl <| sl_tmstamp := tmstamp |> <| sl_seq_id_got := false |>
            <| sl_pkts_received := 0 |> <| sl_pkts_recv_per_port := [0; 0] |>) s in
        let s := s <| slot_idx := idx |> in
        match rv_get_frame s with
        | (None, s) => (None, false, count STAT_PKTS_POOL_EMPTY 1 (count STAT_SLOT_GET_FRAME_FAIL 1 s))
        | (Some f, s) =>
            let s := fr_upd f (fun fr => fr <| ft_user_meta_data_size := 0 |>) s in
            let s := slot_upd slot (fun sl =>
              sl <| sl_frame := Some f |>
                 <| sl_bitmap := (fun _ => bm_zero (st20_frame_bitmap_size cfg)) <$> sl_bitmap sl |>
                 <| sl_slices := (fun _ => slice_info_zero) <$> sl_slices sl |>) s in
            (Some slot, false, s)
        end
  end.

(** ** The packet handler *)

Definition rfc4175_rtp_seq_id (p : rv_pkt) : Z :=
  Z.lor (pk_seq_number p) (Z.shiftl (pk_seq_number_ext p) 16).

(** The row header with its flag bits taken off. *)
Definition pk_second_field (p : rv_pkt) : bool := has_flag (pk_row_number p) ST20_SECOND_FIELD.
Definition line1_number (p : rv_pkt) : Z :=
  if pk_second_field p then Z.ldiff (pk_row_number p) ST20_SECOND_FIELD else pk_row_number p.
Definition pk_continuation (p : rv_pkt) : bool :=
  has_flag (pk_row_offset p) ST20_SRD_OFFSET_CONTINUATION.
Definition line1_offset (p : rv_pkt) : Z :=
  if pk_continuation p then Z.ldiff (pk_row_offset p) ST20_SRD_OFFSET_CONTINUATION
  else pk_row_offset p.
Definition pk_retransmit (p : rv_pkt) : bool := has_flag (pk_row_length p) ST20_RETRANSMIT.
(** After the retransmit bit is cleared; the user-meta bit may still be set. *)
Definition line1_length (p : rv_pkt) : Z :=
  if pk_retransmit p then Z.ldiff (pk_row_length p) ST20_RETRANSMIT else pk_row_length p.

(** The checks before the slot is looked up: the counter and the error. *)
Definition rv_pkt_filter (p : rv_pkt) : option (rv_counter * Z) :=
  if c_true (ops_payload_type cfg) && negb (pk_payload_type p =? ops_payload_type cfg)
  then Some (STAT_PKTS_WRONG_PT, - EINVAL)
  else if c_true (ops_ssrc cfg) && negb (pk_ssrc p =? ops_ssrc cfg)
  then Some (STAT_PKTS_WRONG_SSRC, - EINVAL)
  else if negb (ops_interlaced cfg) && pk_second_field p
  then Some (STAT_PKTS_WRONG_INTERLACE, - EINVAL)
  else if c_true (pk_next_data_len p) then Some (STAT_PKTS_MULTI_SEGMENTS, - EIO)
  else None.

(** The user-meta extension; the header in front of [pk_payload] is the video
    header and, with the continuation bit, the extra row header. *)
Definition rv_user_meta_pkt (p : rv_pkt) (len : Z) (f : nat) (s : rv_session) : Z * rv_session :=
  let pkt_hdr_len :=
    SIZEOF_RFC4175_VIDEO_HDR + if pk_continuation p then SIZEOF_RFC4175_EXTRA_HDR else 0 in
  if (len <=? ft_user_meta_buffer_size (fr_at s f)) && (pkt_hdr_len + len <=? pk_data_len p) then
    let s := fr_upd f (fun fr =>
      fr <| ft_user_meta ::= splice 0 (take (Z.to_nat len) (pk_payload p)) |>
         <| ft_user_meta_data_size := len |>) s in
    (0, count STAT_PKTS_USER_META 1 s)
  else (- EIO, count STAT_PKTS_USER_META_ERR 1 s).

Definition rv_pkt_offset (p : rv_pkt) : Z :=
  u32 (u32 (line1_number p * u32 (st20_linesize cfg))
       + line1_offset p / st20_pg_coverage cfg * st20_pg_size cfg).
Definition rv_payload_length (p : rv_pkt) : Z :=
  line1_length p + if pk_continuation p then pk_extra_row_length p else 0.
(** The packet crosses the padding behind a line. *)
Definition rv_crosses_padding (p : rv_pkt) : bool :=
  pk_continuation p && (st20_linesize cfg >? st20_bytes_in_line cfg).

(** The bounds checks, in [size_t] arithmetic. *)
Definition rv_pkt_bounds (p : rv_pkt) : option rv_counter :=
  if u64 (rv_pkt_offset p + rv_payload_length p)
     >? u64 (st20_fb_size cfg + st20_bytes_in_line cfg - st20_linesize cfg)
  then Some STAT_PKTS_OFFSET_DROPPED
  else
    let row := line1_number p + 1 in
    if rv_crosses_padding p &&
       ((row >=? ops_height cfg)
        || (rv_payload_length p - line1_length p
            >? u64 (st20_fb_size cfg - row * st20_linesize cfg)))
    then Some STAT_PKTS_OFFSET_DROPPED
    else
      let pkt_payload_len :=
        u64 (pk_pkt_len p - SIZEOF_RFC4175_VIDEO_HDR
             - if pk_continuation p then SIZEOF_RFC4175_EXTRA_HDR else 0) in
      if (rv_payload_length p =? 0) || negb (pkt_payload_len =? rv_payload_length p)
      then Some STAT_PKTS_WRONG_LEN
      else None.

(** The copies into the frame buffer: destination offset and bytes. *)
Definition rv_pkt_copies (p : rv_pkt) : list (Z * list Z) :=
  let len := Z.to_nat (rv_payload_length p) in
  let len1 := Z.to_nat (line1_length p) in
  if rv_crosses_padding p then
    [(rv_pkt_offset p, take len1 (pk_payload p));
     ((line1_number p + 1) * st20_linesize cfg, take (len - len1) (drop len1 (pk_payload p)))]
  else [(rv_pkt_offset p, take len (pk_payload p))].

(** The index of the first packet of a slot, from where its data go. *)
Definition rv_first_pkt_idx (p : rv_pkt) : Z :=
  let offset := rv_pkt_offset p in
  if c_true (offset mod rv_payload_length p) then
    let bytes_in_pkt := ST_PKT_MAX_ETHER_BYTES - SIZEOF_RFC4175_VIDEO_HDR in
    let pkts_in_line := st20_bytes_in_line cfg / bytes_in_pkt + 1 in
    let pixel_in_pkt := (ops_width cfg + pkts_in_line - 1) / pkts_in_line in
    i32 (line1_number p * pkts_in_line + line1_offset p / pixel_in_pkt)
  else i32 (offset / rv_payload_length p).

Definition rv_idx_in_bitmap (pkt_idx : Z) : bool :=
  negb ((pkt_idx <? 0) || (pkt_idx >=? st20_frame_bitmap_size cfg * 8)).

(** Which packet of the frame it is. *)
Inductive pkt_verdict :=
| PktDrop (k : rv_counter)
| PktRedundant
| PktNew (pkt_idx : Z).

Definition rv_pkt_index (p : rv_pkt) (s_port : Z) (ctrl_thread : bool) (slot : nat) (s : rv_session)
    : pkt_verdict * rv_session :=
  let sl := slot_at s slot in
  let seq_id := rfc4175_rtp_seq_id p in
  if sl_seq_id_got sl then
    let pkt_idx :=
      if seq_id >=? sl_seq_id_base sl then i32 (seq_id - sl_seq_id_base sl)
      else i32 (u32 (seq_id + (0xFFFFFFFF - sl_seq_id_base sl) + 1)) in
    if negb (rv_idx_in_bitmap pkt_idx) then (PktDrop STAT_PKTS_IDX_OO_BITMAP, s)
    else
      let '(is_set, bitmap) :=
        mt_bitmap_test_and_set (sl_bitmap sl) (st20_frame_bitmap_size cfg) pkt_idx in
      let s := slot_upd slot (fun sl => sl <| sl_bitmap := bitmap |>) s in
      if is_set then (PktRedundant, s)
      else if pkt_idx <? arr_get 0 (sl_last_pkt_idx sl) s_port
      then (PktNew pkt_idx, count (PORT_REORDERED s_port) 1 s)
      else (PktNew pkt_idx, s)
  else if negb ctrl_thread then (PktDrop STAT_PKTS_IDX_DROPPED, s)
  else
    let pkt_idx := rv_first_pkt_idx p in
    if negb (rv_idx_in_bitmap pkt_idx) then (PktDrop STAT_PKTS_IDX_OO_BITMAP, s)
    else
      let '(_, bitmap) :=
        mt_bitmap_test_and_set (sl_bitmap sl) (st20_frame_bitmap_size cfg) pkt_idx in
      (PktNew pkt_idx,
       slot_upd slot (fun sl =>
         sl <| sl_seq_id_base := u32 (seq_id - pkt_idx) |> <| sl_seq_id_got := true |>
            <| sl_bitmap := bitmap |>) s).

Definition rv_copy_all (f : nat) (copies : list (Z * list Z)) (s : rv_session) : rv_session :=
  fr_upd f (fun fr =>
    fr <| ft_data ::= fun d => foldl (fun d c => splice c.1 c.2 d) d copies |>) s.

(** A new packet: copy, account, announce slices, deliver a full frame. *)
Definition rv_pkt_store (p : rv_pkt) (s_port pkt_idx : Z) (ctrl_thread : bool) (slot f : nat)
    (s : rv_session) : rv_session :=
  let s := slot_upd slot (fun sl => sl <| sl_last_pkt_idx ::= fun l =>
    if pkt_idx >? arr_get 0 l s_port then arr_set l s_port pkt_idx else l |>) s in
  let s := rv_copy_all f (rv_pkt_copies p) s in
  let s := slot_upd slot
    (if ctrl_thread then rv_slot_pkt_lcore_add_frame_size (rv_payload_length p)
     else rv_slot_add_frame_size (rv_payload_length p)) s in
  let s := count STAT_PKTS_RECEIVED 1 s in
  let s := slot_upd slot (fun sl =>
    sl <| sl_pkts_received ::= fun n => u32 (n + 1) |>
       <| sl_pkts_recv_per_port ::= arr_inc s_port |>) s in
  let s :=
    match sl_slices (slot_at s slot) with
    | Some info => rv_slice_add slot f info (rv_pkt_offset p) (u32 (rv_payload_length p)) s
    | None => s
    end in
  if rv_slot_get_frame_size (slot_at s slot) >=? st20_frame_size cfg
  then rv_slot_full_frame slot f s else s.

(** The part of the handler after the slot is found, with frame [f]. *)
Definition rv_slot_pkt (p : rv_pkt) (s_port : Z) (ctrl_thread : bool) (slot f : nat) (s : rv_session)
    : Z * rv_session :=
  if has_flag (line1_length p) ST20_LEN_USER_META then
    rv_user_meta_pkt p (Z.ldiff (line1_length p) ST20_LEN_USER_META) f s
  else
    let s := slot_upd slot (fun sl => sl <| sl_second_field := pk_second_field p |>) s in
    match rv_pkt_bounds p with
    | Some k => (- EIO, count k 1 s)
    | None =>
        match rv_pkt_index p s_port ctrl_thread slot s with
        | (PktDrop k, s) => (- EIO, count k 1 s)
        | (PktRedundant, s) =>
            (0, slot_upd slot (fun sl => sl <| sl_pkts_recv_per_port ::= arr_inc s_port |>)
                  (count STAT_PKTS_REDUNDANT 1 s))
        | (PktNew pkt_idx, s) => (0, rv_pkt_store p s_port pkt_idx ctrl_thread slot f s)
        end
    end.

Definition rv_handle_frame_pkt (p : rv_pkt) (s_port : Z) (ctrl_thread : bool) (s : rv_session)
    : Z * rv_session :=
  let s := if pk_retransmit p then count STAT_PKTS_RETRANSMIT 1 s else s in
  match rv_pkt_filter p with
  | Some (k, err) => (err, count k 1 s)
  | None =>
      let '(found, exist_ts, s) := rv_slot_by_tmstamp (pk_tmstamp p) s in
      match found with
      | Some slot =>
          match sl_frame (slot_at s slot) with
          | None =>
              if exist_ts then
                let s := count STAT_PKTS_REDUNDANT 1 s in
                let s := slot_upd slot (fun sl => sl <| sl_pkts_recv_per_port ::= arr_inc s_port |>) s in
                (0, s <| redundant_error_cnt ::= arr_inc_int s_port |>)
              else
                (- EIO, count STAT_PKTS_NO_SLOT 1
                          (s <| redundant_error_cnt ::= fun l => arr_set l s_port 0 |>))
          | Some f =>
              rv_slot_pkt p s_port ctrl_thread slot f
                (s <| redundant_error_cnt ::= fun l => arr_set l s_port 0 |>)
          end
      | None =>
          (- EIO, count STAT_PKTS_NO_SLOT 1
                    (s <| redundant_error_cnt ::= fun l => arr_set l s_port 0 |>))
      end
  end.
End Receiver.

(** ** The configuration of a session *)

(** The part of [struct st20_rx_ops] that sizes the session. *)
Record st20_rx_ops := mk_rx_ops {
  op_num_port : Z;
  op_payload_type : Z;
  op_ssrc : Z;
  op_interlaced : bool;
  op_width : Z;
  op_height : Z;
  op_fps : st_fps;
  op_fmt : st20_fmt;
  op_linesize : Z;
  op_slice_lines : Z;
  op_receive_incomplete : bool;
  op_enable_rtcp : bool;
}.

(** The sizes [rv_attach] computes, and its errors. The products of the
    [uint32_t] fields are taken at 32 bit, the line sizes at 64. *)
Definition rv_attach_config (ops : st20_rx_ops) : Z + rv_config :=
  match st20_get_pgroup (op_fmt ops), st_get_fps_timing (op_fps ops) with
  | inl err, _ => inl err
  | inr _, inl err => inl err
  | inr pg, inr _ =>
      let raw_bytes_size := u64 (op_width ops * pg_size pg) in
      let bytes_in_line := u64 (raw_bytes_size + pg_coverage pg - 1) / pg_coverage pg in
      if negb (op_linesize ops >? bytes_in_line) && c_true (op_linesize ops) then inl (- EINVAL)
      else
        let linesize := if op_linesize ops >? bytes_in_line then op_linesize ops else bytes_in_line in
        let field size := if op_interlaced ops then Z.shiftr size 1 else size in
        let fb_size := field (u64 (linesize * op_height ops)) in
        let slice_lines :=
          if c_true (op_slice_lines ops) then op_slice_lines ops else op_height ops / 32 in
        let slice_size := u32 (u32 (op_width ops * slice_lines) * pg_size pg) / pg_coverage pg in
        let frame_size :=
          field (u32 (u32 (op_width ops * op_height ops) * pg_size pg) / pg_coverage pg) in
        let least := u32 (op_height ops * 2) / 8 in
        let bitmap_size := frame_size / 800 / 8 in
        inr (mk_rv_config (op_num_port ops) (op_payload_type ops) (op_ssrc ops) (op_interlaced ops)
               (op_width ops) (op_height ops) (op_receive_incomplete ops) linesize bytes_in_line
               fb_size frame_size (if bitmap_size <? least then least else bitmap_size)
               (pg_size pg) (pg_coverage pg) slice_size slice_lines
               (rv_slot_max (op_enable_rtcp ops) (op_num_port ops)))
  end.

(** ** Bounds of the copies *)

(** A configuration as [rv_attach] builds it, for frames below 4 GB; the lines of
    one field of an interlaced frame are half of an even height. *)
Record rv_geometry (cfg : rv_config) : Prop := {
  geo_line : 0 < st20_bytes_in_line cfg <= st20_linesize cfg;
  geo_height : 0 < ops_height cfg;
  geo_even : ops_interlaced cfg = true -> ops_height cfg mod 2 = 0;
  geo_fb : st20_fb_size cfg =
    if ops_interlaced cfg then Z.shiftr (st20_linesize cfg * ops_height cfg) 1
    else st20_linesize cfg * ops_height cfg;
  geo_pg : 0 < st20_pg_coverage cfg /\ 0 <= st20_pg_size cfg;
  geo_small : st20_linesize cfg * ops_height cfg + 65536 * st20_pg_size cfg < 4294967296;
}.

(** The packet as received: 16-bit row fields, and the payload the mbuf holds. *)
Record rv_wire (p : rv_pkt) : Prop := {
  wi_row_number : is_u16 (pk_row_number p);
  wi_row_offset : is_u16 (pk_row_offset p);
  wi_row_length : is_u16 (pk_row_length p);
  wi_extra : is_u16 (pk_extra_row_length p);
  wi_pkt_len : is_u32 (pk_pkt_len p);
  wi_payload : arr_len (pk_payload p) =
    pk_pkt_len p - SIZEOF_RFC4175_VIDEO_HDR
      - (if pk_continuation p then SIZEOF_RFC4175_EXTRA_HDR else 0);
}.

(** What is asked of the ops: the line fits 32 bit, fields have whole lines and
    the buffer is smaller than 4 GB, the range of the packet offset. *)
Record rv_ops_sane (ops : st20_rx_ops) (cfg : rv_config) : Prop := {
  os_width : 0 < op_width ops < 4294967296;
  os_height : 0 < op_height ops < 4294967296;
  os_linesize : is_u32 (op_linesize ops);
  os_even : op_interlaced ops = true -> op_height ops mod 2 = 0;
  os_small : st20_linesize cfg * op_height ops + 65536 * st20_pg_size cfg < 4294967296;
}.

Lemma pgroup_sane fmt pg : st20_get_pgroup fmt = inr pg -> 0 < pg_size pg <= 15 /\ 0 < pg_coverage pg <= 8.
Proof. destruct fmt; vm_compute; intros [= <-]; repeat split; congruence. Qed.

Lemma attach_geometry ops cfg :
  rv_attach_config ops = inr cfg -> rv_ops_sane ops cfg -> rv_geometry cfg.
Proof.
  intros Hc [Hw Hh Hl Hev Hsm]. unfold is_u32 in Hl. revert Hc. unfold rv_attach_config.
  destruct (st20_get_pgroup (op_fmt ops)) as [|pg] eqn:Hpg; [done|].
  destruct (st_get_fps_timing (op_fps ops)) as [|tm]; [done|].
  apply pgroup_sane in Hpg as [Hs Hcov].
  rewrite (u64_id (op_width ops * _)) by (unfold is_u64; nia).
  rewrite (u64_id (_ + _ - 1)) by (unfold is_u64; nia).
  set (bytes := (op_width ops * pg_size pg + pg_coverage pg - 1) / pg_coverage pg).
  assert (Hb : 0 < bytes < 68719476736).
  { subst bytes. split; [apply Z.div_str_pos; nia|]. apply Z.div_lt_upper_bound; nia. }
  case_if; [done|]. intros [= <-]. cbn in Hsm.
  assert (Hline : 0 < bytes <= (if op_linesize ops >? bytes then op_linesize ops else bytes)).
  { rewrite Z.gtb_ltb. destruct (Z.ltb_spec bytes (op_linesize ops)); lia. }
  set (line := if op_linesize ops >? bytes then op_linesize ops else bytes) in *.
  split; cbn; [done|lia|done| |lia|done].
  rewrite u64_id by (unfold is_u64; nia). done.
Qed.

(** Clearing a bit of a 16-bit value keeps it in range. *)
Lemma ldiff_u16 x m : is_u16 x -> 0 <= m -> 0 <= Z.ldiff x m <= x.
Proof.
  intros Hx Hm. unfold is_u16 in Hx. apply Z.ldiff_le; [lia|].
  apply Z.bits_inj'. intros n Hn. rewrite !Z.ldiff_spec, Z.bits_0.
  by destruct (Z.testbit x n), (Z.testbit m n).
Qed.

Section Bounds.
Context (cfg : rv_config) (p : rv_pkt).
Hypotheses (Hgeo : rv_geometry cfg) (Hwire : rv_wire p).

Lemma line1_number_range : 0 <= line1_number p < 65536.
Proof.
  destruct Hwire. unfold line1_number. unfold is_u16 in *. case_if; [|lia].
  pose proof (ldiff_u16 (pk_row_number p) ST20_SECOND_FIELD ltac:(done) ltac:(done)). lia.
Qed.
Lemma line1_offset_range : 0 <= line1_offset p < 65536.
Proof.
  destruct Hwire. unfold line1_offset. unfold is_u16 in *. case_if; [|lia].
  pose proof (ldiff_u16 (pk_row_offset p) ST20_SRD_OFFSET_CONTINUATION ltac:(done) ltac:(done)). lia.
Qed.
Lemma line1_length_range : 0 <= line1_length p < 65536.
Proof.
  destruct Hwire. unfold line1_length. unfold is_u16 in *. case_if; [|lia].
  pose proof (ldiff_u16 (pk_row_length p) ST20_RETRANSMIT ltac:(done) ltac:(done)). lia.
Qed.
Lemma payload_length_range :
  line1_length p <= rv_payload_length p < 131072.
Proof.
  pose proof line1_length_range. destruct Hwire. unfold rv_payload_length. unfold is_u16 in *.
  case_if; lia.
Qed.

(** The end of the last line, without its padding. *)
Lemma fb_end_range :
  0 <= st20_fb_size cfg + st20_bytes_in_line cfg - st20_linesize cfg <= st20_fb_size cfg /\
  st20_fb_size cfg < 4294967296.
Proof.
  destruct Hgeo as [Hl Hh Hev Hfb Hpg Hs]. rewrite Hfb. rewrite Z.shiftr_div_pow2 by lia.
  change (2 ^ 1) with 2. destruct (ops_interlaced cfg); [|nia].
  specialize (Hev eq_refl). assert (exists k, ops_height cfg = 2 * k /\ 0 < k) as (k & Hke & Hk).
  { exists (ops_height cfg / 2). clear - Hev Hh. mlia. }
  rewrite Hke in *. clear Hke Hev Hfb.
  replace (st20_linesize cfg * (2 * k)) with (st20_linesize cfg * k * 2) in * by lia.
  rewrite Z.div_mul by lia. nia.
Qed.

Lemma pkt_offset_row :
  line1_number p < ops_height cfg -> line1_number p * st20_linesize cfg <= rv_pkt_offset cfg p.
Proof.
  intros Hrow. pose proof line1_number_range. pose proof line1_offset_range as Ho.
  destruct Hgeo as [Hl Hh Hev Hfb [Hc Hs] Hsm].
  assert (0 <= line1_number p * st20_linesize cfg <= st20_linesize cfg * ops_height cfg) by nia.
  assert (0 <= line1_offset p / st20_pg_coverage cfg * st20_pg_size cfg
            <= 65536 * st20_pg_size cfg).
  { assert (0 <= line1_offset p / st20_pg_coverage cfg <= 65535); [|nia].
    split; [apply Z.div_pos; lia|]. apply Z.div_le_upper_bound; nia. }
  assert (0 < st20_linesize cfg <= st20_linesize cfg * ops_height cfg) by nia.
  unfold rv_pkt_offset. rewrite (u32_id (st20_linesize cfg)) by (unfold is_u32; nia).
  rewrite (u32_id (line1_number p * _)) by (unfold is_u32; nia).
  rewrite u32_id by (unfold is_u32; nia). nia.
Qed.

(** The line after the one the packet starts in begins inside the buffer. *)
Lemma next_row_in_buffer :
  st20_bytes_in_line cfg < st20_linesize cfg ->
  line1_number p + 1 < ops_height cfg ->
  rv_pkt_offset cfg p + rv_payload_length p
    <= st20_fb_size cfg + st20_bytes_in_line cfg - st20_linesize cfg ->
  (line1_number p + 1) * st20_linesize cfg <= st20_fb_size cfg.
Proof.
  intros Hpad Hrow Hend. pose proof (pkt_offset_row ltac:(lia)). pose proof payload_length_range.
  pose proof line1_length_range. pose proof line1_number_range.
  destruct Hgeo as [Hl Hh Hev Hfb Hpg Hs]. rewrite Hfb in *.
  rewrite Z.shiftr_div_pow2 in * by lia. change (2 ^ 1) with 2 in *.
  destruct (ops_interlaced cfg); [|nia].
  specialize (Hev eq_refl). assert (exists k, ops_height cfg = 2 * k) as (k & Hk).
  { exists (ops_height cfg / 2). clear - Hev. mlia. }
  rewrite Hk in *. replace (st20_linesize cfg * (2 * k)) with (st20_linesize cfg * k * 2) in * by lia.
  rewrite Z.div_mul in * by lia.
  assert ((line1_number p + 1) * st20_linesize cfg < (k + 1) * st20_linesize cfg) by nia.
  assert (line1_number p + 1 < k + 1) by nia. nia.
Qed.

Lemma pkt_copies_bounds :
  rv_pkt_bounds cfg p = None ->
  Forall (fun c => 0 <= c.1 /\ c.1 + arr_len c.2 <= st20_fb_size cfg) (rv_pkt_copies cfg p) /\
  mjoin (rv_pkt_copies cfg p).*2 = pk_payload p /\
  rv_payload_length p = arr_len (pk_payload p) /\ 0 < rv_payload_length p.
Proof.
  pose proof payload_length_range as Hpl. pose proof line1_length_range as Hll.
  pose proof fb_end_range as [Hfb Hfb4]. pose proof line1_number_range as Hln.
  pose proof next_row_in_buffer as Hnext.
  assert (Hoff : is_u32 (rv_pkt_offset cfg p)) by apply u32_range. unfold is_u32 in Hoff.
  destruct Hwire as [_ _ _ _ Hpk Hlen]. unfold is_u32 in Hpk.
  unfold rv_pkt_bounds. rewrite (u64_id (rv_pkt_offset cfg p + _)) by (unfold is_u64; lia).
  rewrite (u64_id (st20_fb_size cfg + _ - _)) by (unfold is_u64; lia).
  case_if; [done|]. case_if; [done|]. case_if; [done|]. intros _.
  apply orb_false_iff in E1 as [E1 E2]. apply Z.eqb_neq in E1.
  apply negb_false_iff, Z.eqb_eq in E2.
  assert (HL : rv_payload_length p = arr_len (pk_payload p)).
  { rewrite <- E2, <- Hlen. apply u64_id. unfold is_u64, SIZEOF_RFC4175_VIDEO_HDR in *.
    unfold arr_len in *. split; [lia|]. clear E2. revert Hlen. unfold SIZEOF_RFC4175_EXTRA_HDR.
    case_if; lia. }
  clear E2 Hlen. unfold arr_len in *. unfold rv_pkt_copies.
  rewrite Z.gtb_ltb in E. apply Z.ltb_ge in E.
  destruct (rv_crosses_padding cfg p) eqn:Ecr; cbn [andb] in E0.
  - unfold rv_crosses_padding in Ecr. apply andb_true_iff in Ecr as [_ Hpad].
    rewrite Z.gtb_ltb in Hpad. apply Z.ltb_lt in Hpad. specialize (Hnext Hpad). apply orb_false_iff in E0 as [Hrow Hc]. rewrite Z.geb_leb in Hrow. apply Z.leb_gt in Hrow.
    rewrite Z.gtb_ltb in Hc. apply Z.ltb_ge in Hc. specialize (Hnext Hrow E).
    destruct Hgeo as [Hl _ _ _ _ _].
    rewrite u64_id in Hc by (unfold is_u64; nia). split; [|split; [|lia]].
    + repeat constructor; cbn [fst snd]; rewrite ?length_take, ?length_drop; nia.
    + cbn. rewrite app_nil_r, (take_ge (drop _ _)) by (rewrite length_drop; lia).
      apply take_drop.
  - split; [|split; [|lia]].
    + repeat constructor; cbn [fst snd]; rewrite ?length_take; lia.
    + cbn. rewrite app_nil_r. apply take_ge. lia.
Qed.
End Bounds.

(** ** Who owns a frame

    A frame is free, in a slot, or with the application. [held] lists the frames
    the application owns: those it was told about and has not returned. *)
Definition slot_frames (s : rv_session) : list nat := omap sl_frame (rv_slots s).
Definition refcnts (s : rv_session) : list Z := ft_refcnt <$> st20_frames s.

(** Slots and reference counts agree with the frames in use. *)
Definition pool_ok (held : list nat) (s : rv_session) : Prop :=
  NoDup (slot_frames s ++ held) /\
  (forall f, f ∈ slot_frames s ++ held -> (f < length (refcnts s))%nat) /\
  (forall f r, refcnts s !! f = Some r ->
     r = if decide (f ∈ slot_frames s ++ held) then 1 else 0).

(** The frame of an event the application accepts; of an incomplete frame it refuses, which
    [rv_frame_notify] does not put back; and both: the frames that leave the slots and do not
    go back to the pool. *)
Definition accepted (notify_ret : rv_event -> Z) (e : rv_event) : option nat :=
  match e with
  | FrameReady f _ _ => if notify_ret e <? 0 then None else Some f
  | SliceReady _ _ _ _ => None
  end.
Definition refused_lost (notify_ret : rv_event -> Z) (e : rv_event) : option nat :=
  match e with
  | FrameReady f meta _ =>
      match me_status meta with
      | ST_FRAME_STATUS_CORRUPTED => if notify_ret e <? 0 then Some f else None
      | _ => None
      end
  | SliceReady _ _ _ _ => None
  end.
Definition handed_out (notify_ret : rv_event -> Z) (e : rv_event) : option nat :=
  match e with
  | FrameReady f meta _ =>
      match me_status meta with
      | ST_FRAME_STATUS_CORRUPTED => Some f
      | _ => if notify_ret e <? 0 then None else Some f
      end
  | SliceReady _ _ _ _ => None
  end.

Lemma handed_out_split notify_ret evs :
  omap (handed_out notify_ret) evs ≡ₚ omap (accepted notify_ret) evs ++ omap (refused_lost notify_ret) evs.
Proof.
  induction evs as [|e evs IH]; [done|]. cbn. unfold handed_out at 1, accepted at 1, refused_lost at 1. destruct e as [f meta d|]; [|done].
  destruct (me_status meta), (notify_ret _ <? 0); rewrite IH; try done; by rewrite ?Permutation_middle.
Qed.

Lemma pool_ok_perm held held' s s' :
  pool_ok held s -> refcnts s' = refcnts s ->
  slot_frames s' ++ held' ≡ₚ slot_frames s ++ held -> pool_ok held' s'.
Proof.
  intros (Hnd & Hrange & Href) Hr Hp. split; [by rewrite Hp|]. rewrite Hr. split.
  - intros f Hf. apply Hrange. by rewrite <- Hp.
  - intros f r Hf. rewrite (Href f r Hf).
    destruct (decide (f ∈ slot_frames s ++ held)) as [H|H],
      (decide (f ∈ slot_frames s' ++ held')) as [H'|H']; try done; exfalso.
    + apply H'. by rewrite Hp.
    + apply H. by rewrite <- Hp.
Qed.

(** The frames in the slots, slot by slot. *)
Definition slot_frame_list (s : rv_session) : list (option nat) := sl_frame <$> rv_slots s.

Lemma slot_frames_list s s' :
  slot_frame_list s' = slot_frame_list s -> slot_frames s' = slot_frames s.
Proof.
  unfold slot_frame_list, slot_frames. revert s s'.
  assert (forall l l' : list rv_slot, sl_frame <$> l' = sl_frame <$> l -> omap sl_frame l' = omap sl_frame l)
    as H; [|eauto].
  induction l as [|x l IH]; intros [|y l'] He; cbn in *; try done.
  injection He as Hx Hl. by rewrite Hx, (IH l').
Qed.

Lemma slot_frame_list_upd i g s :
  (forall sl, sl_frame (g sl) = sl_frame sl) -> slot_frame_list (slot_upd i g s) = slot_frame_list s.
Proof. apply fmap_alter_same. Qed.

Lemma slot_frame_list_at s s' i :
  slot_frame_list s' = slot_frame_list s -> sl_frame (slot_at s' i) = sl_frame (slot_at s i).
Proof. apply lookup_fmap_eq. Qed.

(** Emptying a slot that held [f]. *)
Lemma slot_frames_empty i g s f :
  sl_frame (slot_at s i) = Some f -> (forall sl, sl_frame (g sl) = None) ->
  slot_frames s ≡ₚ f :: slot_frames (slot_upd i g s).
Proof.
  intros Hf Hg. unfold slot_frames, slot_upd, slot_at in *; cbn. revert i Hf.
  generalize (rv_slots s). induction l as [|sl l IH]; intros [|j] Hf; cbn in *; try done.
  - by rewrite Hf, Hg.
  - destruct (sl_frame sl); [rewrite IH by done; by rewrite Permutation_swap|by apply IH].
Qed.

(** Filling an empty slot. *)
Lemma slot_frames_fill i g s f :
  (i < length (rv_slots s))%nat -> sl_frame (slot_at s i) = None ->
  (forall sl, sl_frame (g sl) = Some f) ->
  slot_frames (slot_upd i g s) ≡ₚ f :: slot_frames s.
Proof.
  intros Hi Hf Hg. unfold slot_frames, slot_upd, slot_at in *; cbn. revert i Hi Hf.
  generalize (rv_slots s). induction l as [|sl l IH]; intros [|j] Hi Hf; cbn in *; try lia.
  - by rewrite Hf, Hg.
  - destruct (sl_frame sl); [rewrite IH by (done || lia); by rewrite Permutation_swap|].
    apply IH; [lia|done].
Qed.

Lemma slot_at_range s i f : sl_frame (slot_at s i) = Some f -> (i < length (rv_slots s))%nat.
Proof.
  intros H. destruct (rv_slots s !! i) eqn:E; [by eapply lookup_lt_Some|].
  unfold slot_at in H. by rewrite E in H.
Qed.

Lemma slot_at_upd_eq i g s :
  (i < length (rv_slots s))%nat -> slot_at (slot_upd i g s) i = g (slot_at s i).
Proof.
  intros Hi. unfold slot_at, slot_upd; cbn. rewrite list_lookup_alter_eq.
  destruct (rv_slots s !! i) eqn:E; [done|]. apply lookup_ge_None in E. lia.
Qed.

Lemma slot_frame_elem s i f : sl_frame (slot_at s i) = Some f -> f ∈ slot_frames s.
Proof.
  intros H. unfold slot_frames. apply list_elem_of_omap. exists (slot_at s i).
  split; [|done]. pose proof (slot_at_range s i f H) as Hi. unfold slot_at.
  destruct (rv_slots s !! i) eqn:E; [by eapply list_elem_of_lookup_2|].
  apply lookup_ge_None in E. lia.
Qed.

Lemma fr_at_upd_eq i g s :
  (i < length (st20_frames s))%nat -> fr_at (fr_upd i g s) i = g (fr_at s i).
Proof.
  intros Hi. unfold fr_at, fr_upd; cbn. rewrite list_lookup_alter_eq.
  destruct (st20_frames s !! i) eqn:E; [done|]. apply lookup_ge_None in E. lia.
Qed.
Lemma fr_at_upd_ne i j g s : i <> j -> fr_at (fr_upd i g s) j = fr_at s j.
Proof. intros H. unfold fr_at, fr_upd; cbn. by rewrite list_lookup_alter_ne. Qed.
Lemma fr_len_upd i g s : length (st20_frames (fr_upd i g s)) = length (st20_frames s).
Proof. unfold fr_upd; cbn. by rewrite length_alter. Qed.

Lemma refcnts_upd_same i g s :
  (forall f, ft_refcnt (g f) = ft_refcnt f) -> refcnts (fr_upd i g s) = refcnts s.
Proof. apply fmap_alter_same. Qed.

Lemma slot_frames_none i g s :
  sl_frame (slot_at s i) = None -> (forall sl, sl_frame (g sl) = None) ->
  slot_frames (slot_upd i g s) = slot_frames s.
Proof.
  intros Hf Hg. unfold slot_frames, slot_upd, slot_at in *; cbn. revert i Hf.
  generalize (rv_slots s). induction l as [|sl l IH]; intros [|j] Hf; cbn in *; try done.
  - by rewrite Hf, Hg.
  - by rewrite IH.
Qed.

Lemma refcnts_upd f g s r :
  (f < length (refcnts s))%nat -> ft_refcnt (g (fr_at s f)) = r ->
  refcnts (fr_upd f g s) = <[f := r]> (refcnts s).
Proof.
  intros Hf <-. unfold refcnts, fr_upd, fr_at in *; cbn. apply list_eq. intros j.
  rewrite list_lookup_fmap. rewrite length_fmap in Hf. destruct (decide (f = j)) as [<-|Hne].
  - rewrite list_lookup_alter_eq, list_lookup_insert_eq by (by rewrite length_fmap).
    destruct (st20_frames s !! f) eqn:E; [done|]. apply lookup_ge_None in E. lia.
  - by rewrite list_lookup_alter_ne, list_lookup_insert_ne, list_lookup_fmap.
Qed.

Lemma refcnts_at s f : (f < length (refcnts s))%nat -> refcnts s !! f = Some (ft_refcnt (fr_at s f)).
Proof.
  unfold refcnts, fr_at. rewrite length_fmap, list_lookup_fmap. intros Hf.
  destruct (st20_frames s !! f) eqn:E; [done|]. apply lookup_ge_None in E. lia.
Qed.

Lemma pool_in_use held s f :
  pool_ok held s -> f ∈ slot_frames s ->
  (f < length (refcnts s))%nat /\ f ∉ held /\ ft_refcnt (fr_at s f) = 1.
Proof.
  intros (Hnd & Hrange & Href) Hf.
  assert (Hin : f ∈ slot_frames s ++ held) by (apply elem_of_app; by left).
  split; [by apply Hrange|]. split.
  - apply NoDup_app in Hnd as (_ & Hd & _). by apply Hd.
  - rewrite (Href f (ft_refcnt (fr_at s f))) by (apply refcnts_at; by apply Hrange).
    by rewrite decide_True.
Qed.

(** Changing the reference count of one frame. *)
Lemma pool_ok_refcnt held held' s s' f r :
  pool_ok held s -> (f < length (refcnts s))%nat -> refcnts s' = <[f := r]> (refcnts s) ->
  (r = 1 /\ slot_frames s' ++ held' ≡ₚ f :: slot_frames s ++ held /\ ft_refcnt (fr_at s f) = 0 \/
   r = 0 /\ f :: slot_frames s' ++ held' ≡ₚ slot_frames s ++ held) ->
  pool_ok held' s'.
Proof.
  intros (Hnd & Hrange & Href) Hf Hs' Hr.
  assert (Hnew : NoDup (slot_frames s' ++ held') /\
    forall g, g ∈ slot_frames s' ++ held' <->
      if decide (g = f) then r = 1 else g ∈ slot_frames s ++ held).
  { destruct Hr as [(-> & Hp & H0)|(-> & Hp)].
    - assert (f ∉ slot_frames s ++ held).
      { intros Hin. specialize (Href f _ (refcnts_at s f Hf)). rewrite decide_True in Href by done. lia. }
      split; [rewrite Hp; by constructor|]. intros g. rewrite Hp, elem_of_cons.
      destruct (decide (g = f)) as [->|]; [tauto|]. tauto.
    - rewrite <- Hp in Hnd. apply NoDup_cons in Hnd as [Hnf Hnd]. split; [done|]. intros g.
      destruct (decide (g = f)) as [->|]; [split; [done|lia]|]. rewrite <- Hp, elem_of_cons. tauto. }
  destruct Hnew as [Hnd' Hin]. split; [done|]. rewrite Hs', length_insert. split.
  - intros g Hg. apply Hin in Hg. destruct (decide (g = f)) as [->|]; [done|]. by apply Hrange.
  - intros g r' Hg. specialize (Hin g). destruct (decide (g = f)) as [->|Hgf].
    + rewrite list_lookup_insert_eq in Hg by done. injection Hg as <-.
      destruct Hr as [(-> & _)|(-> & _)].
      * rewrite decide_True by (by apply Hin). done.
      * rewrite decide_False; [done|]. intros H. apply Hin in H. done.
    + rewrite list_lookup_insert_ne in Hg by done. rewrite (Href g r' Hg).
      destruct (decide (g ∈ slot_frames s ++ held)), (decide (g ∈ slot_frames s' ++ held')); tauto.
Qed.

Section Ownership.
Context (cfg : rv_config) (port_is_down : Z -> bool) (notify_ret : rv_event -> Z)
  (miss_estimate : Z -> Z -> Z).
Abbreviation acc := (handed_out notify_ret).

(** Progress that keeps the books: [held] grows by what was handed out, and the
    frames the application held before are not touched. *)
Definition own_step (held : list nat) (s s' : rv_session) : Prop :=
  pool_ok held s ->
  exists evs, notified s' = notified s ++ evs /\
    pool_ok (held ++ omap acc evs) s' /\
    length (rv_slots s') = length (rv_slots s) /\
    forall f, f ∈ held -> fr_at s' f = fr_at s f.

Lemma own_step_trans held s1 s2 s3 :
  own_step held s1 s2 -> (forall held', own_step held' s2 s3) -> own_step held s1 s3.
Proof.
  intros H1 H2 Hok. destruct (H1 Hok) as (e1 & Hn1 & Ho1 & HL1 & Hf1).
  destruct (H2 _ Ho1) as (e2 & Hn2 & Ho2 & HL2 & Hf2). exists (e1 ++ e2). split.
  { by rewrite Hn2, Hn1, app_assoc. }
  split; [by rewrite omap_app, app_assoc|]. split; [congruence|].
  intros f Hf. rewrite Hf2 by (apply elem_of_app; by left). by apply Hf1.
Qed.

(** A change that moves no frame; it may write the frame [w] of a slot. *)
Record quiet (w : option nat) (s s' : rv_session) : Prop := {
  qu_ref : refcnts s' = refcnts s;
  qu_slots : slot_frame_list s' = slot_frame_list s;
  qu_len : length (rv_slots s') = length (rv_slots s);
  qu_frames : forall g, Some g <> w -> fr_at s' g = fr_at s g;
  qu_events : exists evs, notified s' = notified s ++ evs /\ omap acc evs = [];
}.

Lemma quiet_refl w s : quiet w s s.
Proof. split; try done. exists []. by rewrite app_nil_r. Qed.
Lemma quiet_trans w s1 s2 s3 : quiet w s1 s2 -> quiet w s2 s3 -> quiet w s1 s3.
Proof.
  intros [a1 b1 l1 c1 (e1 & d1 & d1')] [a2 b2 l2 c2 (e2 & d2 & d2')]. split; try congruence.
  - intros g Hg. by rewrite c2, c1.
  - exists (e1 ++ e2). by rewrite d2, d1, app_assoc, omap_app, d1', d2'.
Qed.
Lemma quiet_count w k n s : quiet w s (count k n s).
Proof. split; try done. exists []. by rewrite app_nil_r. Qed.
Lemma quiet_slot w i g s :
  (forall sl, sl_frame (g sl) = sl_frame sl) -> quiet w s (slot_upd i g s).
Proof.
  intros Hg. split; try done; [by apply slot_frame_list_upd|cbn; by rewrite length_alter|].
  exists []. by rewrite app_nil_r.
Qed.
Lemma quiet_frame f g s :
  (forall fr, ft_refcnt (g fr) = ft_refcnt fr) -> quiet (Some f) s (fr_upd f g s).
Proof.
  intros Hg. split; try done; [by apply refcnts_upd_same| |].
  - intros h Hh. apply fr_at_upd_ne. congruence.
  - exists []. by rewrite app_nil_r.
Qed.
Lemma quiet_for w f n i s :
  (forall k s, quiet w s (f k s)) -> quiet w s (for_from i n f s).
Proof.
  intros Hf. apply (for_from_inv (fun _ s' => quiet w s s')); [apply quiet_refl|].
  intros k s' _ H. by eapply quiet_trans.
Qed.
Lemma quiet_errcnt w g s : quiet w s (s <| redundant_error_cnt ::= g |>).
Proof. split; try done. exists []. by rewrite app_nil_r. Qed.
Lemma quiet_event w e s : acc e = None -> quiet w s (notify e s).
Proof. intros He. split; try done. exists [e]. split; [done|]. cbn. by rewrite He. Qed.

Lemma quiet_loss w slot n s :
  quiet w s (rv_slot_account_per_port_loss cfg port_is_down slot n s).
Proof.
  apply quiet_for. intros k s'. unfold rv_port_loss. do 2 (case_if; [apply quiet_refl|]).
  eapply quiet_trans; apply quiet_count.
Qed.

Lemma quiet_slices w slot f info offset size s :
  quiet w s (rv_slice_add cfg slot f info offset size s).
Proof.
  unfold rv_slice_add, slot_set_slices. destruct (slices info) as [|[mo ms] extra]; [apply quiet_refl|].
  case_if.
  { destruct (slice_place _ _ _) as [[l fresh]|]; [by apply quiet_slot|apply quiet_count]. }
  destruct (if c_true (extra_slices info) then _ else _) as [[main l] n].
  eapply quiet_trans; [apply quiet_count|]. case_if; [|by apply quiet_slot].
  unfold rv_slice_notify. eapply quiet_trans; [|apply quiet_count].
  eapply quiet_trans; [|by apply quiet_event]. by apply quiet_slot.
Qed.

Lemma own_quiet held w s s' :
  quiet w s s' -> (forall f, w = Some f -> f ∈ slot_frames s) -> own_step held s s'.
Proof.
  intros [Hr Hs HL Hf (evs & Hn & He)] Hw Hok. exists evs. split; [done|]. split.
  - rewrite He, app_nil_r. eapply pool_ok_perm; [exact Hok|done|]. by rewrite (slot_frames_list _ _ Hs).
  - split; [done|]. intros f Hin. apply Hf. intros <-. specialize (Hw f eq_refl).
    by apply (pool_in_use held s f Hok) in Hw as (_ & [] & _).
Qed.

Abbreviation frame_notify := (rv_frame_notify cfg port_is_down notify_ret miss_estimate).

Lemma quiet_pkts w n s : quiet w s (s <| st20_frame_pkts := n |>).
Proof. split; try done. exists []. by rewrite app_nil_r. Qed.

Lemma quiet_port_frames w sl k s : quiet w s (rv_port_frames sl k s).
Proof. unfold rv_port_frames. case_if; apply quiet_count. Qed.

(** The three ways a frame leaves its slot: the application takes it, it refuses
    it, or the library keeps it. *)
Lemma frame_notify_cases slot f s :
  exists sA ev, quiet None s sA /\
    let back s := slot_upd slot (fun sl => sl <| sl_frame := None |>) (rv_put_frame f s) in
    acc ev = Some f /\ quiet None (notify ev sA) (frame_notify slot f s) \/
    acc ev = None /\ quiet None (back (notify ev sA)) (frame_notify slot f s) \/
    quiet None (back sA) (frame_notify slot f s).
Proof.
  unfold rv_frame_notify. set (sl := slot_at s slot).
  set (s1 := if ops_interlaced cfg then _ else s).
  assert (H1 : quiet None s s1) by (unfold s1; case_if; [apply quiet_count|apply quiet_refl]).
  set (meta := rv_frame_meta cfg sl (fr_at s1 f)).
  set (ev := FrameReady f meta (ft_data (fr_at s1 f))).
  assert (Hst : me_status meta = ST_FRAME_STATUS_CORRUPTED <->
    (me_recv_size meta >=? st20_frame_size cfg) = false).
  { unfold meta, rv_frame_meta. cbn [me_status me_recv_size]. repeat case_if; naive_solver. }
  case_if.
  - assert (Hacc : acc ev = if notify_ret ev <? 0 then None else Some f).
    { unfold ev at 1. cbn [handed_out]. fold ev. clearbody ev.
      destruct (me_status meta) eqn:Hm; [done..|]. discriminate (proj1 Hst eq_refl). }
    set (s4 := rv_port_frames sl 1 _).
    assert (H4 : quiet None s s4).
    { eapply quiet_trans; [exact H1|]. unfold s4.
      eapply quiet_trans; [|apply quiet_port_frames]. eapply quiet_trans; [|apply quiet_port_frames].
      eapply quiet_trans; [|apply quiet_count]. by apply quiet_slot. }
    exists s4, ev. split; [done|]. cbv zeta. destruct (notify_ret ev <? 0).
    + right; left. split; [done|]. apply quiet_pkts.
    + left. split; [done|]. apply quiet_pkts.
  - set (s4 := count CBS_INCOMPLETE_FRAME_CNT 1 _).
    assert (H4 : quiet None s s4).
    { eapply quiet_trans; [exact H1|]. unfold s4. eapply quiet_trans; [|apply quiet_count].
      eapply quiet_trans; [|apply quiet_loss]. set (s2 := count STAT_FRAMES_INCOMPLETE 1 s1).
      eapply quiet_trans; [apply quiet_count|]. fold s2.
      case_if; [apply quiet_count|apply quiet_refl]. }
    exists s4, ev. split; [done|]. cbv zeta. destruct (receive_incomplete cfg).
    + left. split; [|apply quiet_refl]. unfold ev. cbn [handed_out]. by rewrite (proj2 Hst eq_refl).
    + right; right. apply quiet_refl.
Qed.


(** A frame that goes back to the pool from its slot. *)
Lemma pool_ok_back held slot f s :
  pool_ok held s -> sl_frame (slot_at s slot) = Some f ->
  let s' := slot_upd slot (fun sl => sl <| sl_frame := None |>) (rv_put_frame f s) in
  pool_ok held s' /\ sl_frame (slot_at s' slot) = None /\
  forall g, g <> f -> fr_at s' g = fr_at s g.
Proof.
  intros Hok Hsl s'. assert (Hf : f ∈ slot_frames s) by (by eapply slot_frame_elem).
  destruct (pool_in_use _ _ _ Hok Hf) as (Hfl & Hfh & Href).
  split; [|split].
  - eapply (pool_ok_refcnt held held s s' f 0); [done|done| |].
    + apply (refcnts_upd f _ s); [done|]. cbn. by rewrite Href.
    + right. split; [done|].
      pose proof (slot_frames_empty slot (fun sl => sl <| sl_frame := None |>) (rv_put_frame f s) f Hsl
        ltac:(done)) as Hp.
      change (slot_frames (rv_put_frame f s)) with (slot_frames s) in Hp. by rewrite Hp.
  - unfold s'. rewrite slot_at_upd_eq; [done|]. by eapply slot_at_range.
  - intros g Hg. unfold s'. apply fr_at_upd_ne. done.
Qed.

(** After a delivery the slot is emptied, and the books balance. *)
Lemma own_notify_empty held slot f g s :
  sl_frame (slot_at s slot) = Some f -> (forall sl, sl_frame (g sl) = None) ->
  own_step held s (slot_upd slot g (frame_notify slot f s)).
Proof.
  intros Hsl Hg Hok. assert (Hf : f ∈ slot_frames s) by (by eapply slot_frame_elem).
  destruct (pool_in_use _ _ _ Hok Hf) as (Hfl & Hfh & _).
  destruct (frame_notify_cases slot f s) as (sA & ev & HA & Hcases). cbv zeta in Hcases.
  destruct (own_quiet held None s sA HA ltac:(done) Hok) as (_ & _ & _ & HLA & HfA).
  destruct HA as [HAr HAs _ _ (eA & HnA & HeA)].
  assert (HokA : pool_ok held sA).
  { eapply pool_ok_perm; [exact Hok|done|]. by rewrite (slot_frames_list _ _ HAs). }
  rewrite <- (slot_frame_list_at s sA slot HAs) in Hsl.
  set (sB := frame_notify slot f s) in *. clearbody sB.
  destruct Hcases as [[Ha HB]|[[Ha HB]|HB]];
    destruct HB as [HBr HBs HLB HBf (eB & HnB & HeB)].
  - exists (eA ++ [ev] ++ eB). split; [cbn; rewrite HnB; cbn; by rewrite HnA, <- !app_assoc|].
    rewrite !omap_app, HeA, HeB. cbn. rewrite Ha. cbn.
    split; [|split; [cbn; rewrite length_alter; cbn in HLB; lia|]].
    + eapply pool_ok_perm; [exact HokA|done|].
      assert (HslB : sl_frame (slot_at sB slot) = Some f).
      { rewrite (slot_frame_list_at _ _ slot HBs). exact Hsl. }
      pose proof (slot_frames_empty slot g sB f HslB Hg) as Hp.
      apply slot_frames_list in HBs. change (slot_frames (notify ev sA)) with (slot_frames sA) in HBs.
      rewrite <- HBs, Hp. cbn. by rewrite app_assoc, (Permutation_app_comm _ [f]).
    + intros h Hh. change (fr_at (slot_upd slot g sB) h) with (fr_at sB h).
      rewrite HBf by done. by apply HfA.
  - destruct (pool_ok_back held slot f (notify ev sA) HokA Hsl) as (HokB & HslB & HfB).
    exists (eA ++ [ev] ++ eB). split; [cbn; rewrite HnB; cbn; by rewrite HnA, <- !app_assoc|].
    rewrite !omap_app, HeA, HeB. cbn. rewrite Ha. cbn. rewrite app_nil_r.
    split; [|split; [cbn in *; rewrite length_alter in *; lia|]].
    + eapply pool_ok_perm; [exact HokB|done|].
      rewrite <- (slot_frame_list_at _ _ slot HBs) in HslB.
      rewrite slot_frames_none by done. by rewrite (slot_frames_list _ _ HBs).
    + intros h Hh. change (fr_at (slot_upd slot g sB) h) with (fr_at sB h).
      rewrite HBf, HfB by (done || congruence). by apply HfA.
  - destruct (pool_ok_back held slot f sA HokA Hsl) as (HokB & HslB & HfB).
    exists (eA ++ eB). split; [cbn; rewrite HnB; cbn; by rewrite HnA, <- !app_assoc|].
    rewrite !omap_app, HeA, HeB. cbn. rewrite app_nil_r.
    split; [|split; [cbn in *; rewrite length_alter in *; lia|]].
    + eapply pool_ok_perm; [exact HokB|done|].
      rewrite <- (slot_frame_list_at _ _ slot HBs) in HslB.
      rewrite slot_frames_none by done. by rewrite (slot_frames_list _ _ HBs).
    + intros h Hh. change (fr_at (slot_upd slot g sB) h) with (fr_at sB h).
      rewrite HBf, HfB by (done || congruence). by apply HfA.
Qed.

Lemma own_quiet_none held s s' : quiet None s s' -> own_step held s s'.
Proof. intros H. by apply (own_quiet held None). Qed.

Lemma own_recycle held slot s :
  own_step held s (rv_slot_recycle cfg port_is_down notify_ret miss_estimate slot s).
Proof.
  unfold rv_slot_recycle. set (s1 := match sl_frame (slot_at s slot) with Some _ => _ | None => s end).
  apply (own_step_trans held s s1).
  - unfold s1. destruct (sl_frame (slot_at s slot)) as [f|] eqn:Ef.
    + by apply own_notify_empty.
    + apply own_quiet_none, quiet_refl.
  - intros held'. case_if; [|apply own_quiet_none, quiet_refl].
    apply own_quiet_none. eapply quiet_trans; [apply quiet_loss|by apply quiet_slot].
Qed.

Lemma recycle_empty slot s :
  sl_frame (slot_at (rv_slot_recycle cfg port_is_down notify_ret miss_estimate slot s) slot) = None.
Proof.
  unfold rv_slot_recycle. set (s1 := match sl_frame (slot_at s slot) with Some _ => _ | None => s end).
  assert (H1 : sl_frame (slot_at s1 slot) = None).
  { unfold s1. destruct (sl_frame (slot_at s slot)) as [f|] eqn:Ef; [|done].
    unfold slot_at, slot_upd; cbn. rewrite list_lookup_alter_eq. by destruct (_ !! slot). }
  case_if; [|done]. rewrite <- H1. apply slot_frame_list_at.
  transitivity (slot_frame_list (rv_slot_account_per_port_loss cfg port_is_down slot
    (sl_pkts_received (slot_at s1 slot)) s1)); [by apply slot_frame_list_upd|].
  apply (quiet_loss None).
Qed.

(** A free frame moves into an empty slot. *)
Lemma own_get_frame held slot g h f s s1 :
  rv_get_frame s = (Some f, s1) -> (slot < length (rv_slots s))%nat ->
  sl_frame (slot_at s slot) = None ->
  (forall fr, ft_refcnt (h fr) = ft_refcnt fr) -> (forall sl, sl_frame (g sl) = Some f) ->
  own_step held s (slot_upd slot g (fr_upd f h s1)).
Proof.
  intros Hget Hslot Hnone Hh Hg Hok. unfold rv_get_frame in Hget.
  destruct (list_find _ _) as [[i fr]|] eqn:Hfind; [|done]. injection Hget as -> <-.
  apply list_find_Some in Hfind as (Hl & H0 & _).
  assert (Hf : (f < length (refcnts s))%nat).
  { unfold refcnts. rewrite length_fmap. by eapply lookup_lt_Some. }
  assert (Href : ft_refcnt (fr_at s f) = 0) by (unfold fr_at; by rewrite Hl).
  exists []. split; [by rewrite app_nil_r|]. cbn [omap list_omap]. rewrite app_nil_r.
  split; [|split; [cbn; by rewrite length_alter|]].
  - eapply (pool_ok_refcnt held held s _ f 1); [done|done| |].
    + change (refcnts (fr_upd f h (fr_upd f (fun f => f <| ft_refcnt ::= fun n => i32 (n + 1) |>) s)) =
        <[f := 1]> (refcnts s)).
      rewrite refcnts_upd_same by done. apply refcnts_upd; [done|]. cbn. by rewrite Href.
    + left. split; [done|]. split; [|done].
      rewrite (slot_frames_fill slot g _ f) by done. done.
  - intros k Hk. destruct Hok as (Hnd & Hrange & Hrefs).
    assert (k <> f).
    { intros ->. specialize (Hrefs f _ (refcnts_at s f Hf)). rewrite Href in Hrefs.
      rewrite decide_True in Hrefs; [done|]. apply elem_of_app. by right. }
    unfold slot_upd. change (fr_at (fr_upd f h (fr_upd f (fun f => f <| ft_refcnt ::=
      fun n => i32 (n + 1) |>) s)) k = fr_at s k).
    by rewrite !fr_at_upd_ne by done.
Qed.

Abbreviation slot_by_tmstamp := (rv_slot_by_tmstamp cfg port_is_down notify_ret miss_estimate).

Lemma own_slot_by_tmstamp held tmstamp s :
  0 < slot_max cfg <= arr_len (rv_slots s) ->
  own_step held s (slot_by_tmstamp tmstamp s).2.
Proof.
  intros Hmax. unfold rv_slot_by_tmstamp.
  destruct (rv_find_tmstamp cfg s tmstamp) as [i|]; [apply own_quiet_none, quiet_refl|].
  case_if; [apply own_quiet_none, quiet_refl|].
  set (idx := (slot_idx s + 1) mod slot_max cfg). set (slot := Z.to_nat idx).
  assert (Hidx : (slot < length (rv_slots s))%nat).
  { unfold slot, idx. pose proof (Z.mod_pos_bound (slot_idx s + 1) (slot_max cfg)).
    unfold arr_len in *. lia. }
  pose proof (recycle_empty slot s) as Hempty. pose proof (own_recycle held slot s) as Hrec.
  set (s1 := rv_slot_recycle _ _ _ _ slot s) in *. set (s2 := slot_upd slot _ s1).
  set (s3 := s2 <| slot_idx := idx |>). intros Hok.
  destruct (Hrec Hok) as (e1 & Hn1 & Ho1 & HL1 & Hf1).
  assert (Hq : quiet None s1 s3).
  { apply (quiet_trans None s1 s2 s3); [by apply quiet_slot|]. split; try done.
    exists []. by rewrite app_nil_r. }
  assert (Hempty3 : sl_frame (slot_at s3 slot) = None).
  { rewrite (slot_frame_list_at _ _ slot (qu_slots _ _ _ Hq)). done. }
  apply (own_step_trans held s s1 _ Hrec); [|done]. intros held'.
  apply (own_step_trans held' s1 s3); [by apply own_quiet_none|]. intros held''.
  destruct (rv_get_frame s3) as [[f|] s4] eqn:Eg.
  - eapply own_get_frame; [exact Eg| |exact Hempty3|done|done].
    rewrite (qu_len _ _ _ Hq), HL1. done.
  - unfold rv_get_frame in Eg. destruct (list_find _ _) as [[]|]; [done|]. injection Eg as <-.
    apply own_quiet_none. eapply quiet_trans; apply quiet_count.
Qed.

Lemma quiet_index w p s_port ct slot s :
  quiet w s (rv_pkt_index cfg p s_port ct slot s).2.
Proof.
  unfold rv_pkt_index. destruct (sl_seq_id_got (slot_at s slot)).
  - case_if; [apply quiet_refl|].
    destruct (mt_bitmap_test_and_set _ _ _) as [is_set bitmap].
    set (s1 := slot_upd slot _ s). assert (H : quiet w s s1) by (by apply quiet_slot).
    do 2 (case_if; [by first [done | eapply quiet_trans; [exact H|apply quiet_count]]|]). done.
  - do 2 (case_if; [apply quiet_refl|]).
    destruct (mt_bitmap_test_and_set _ _ _) as [is_set bitmap]. by apply quiet_slot.
Qed.

(** Up to the check for a full frame a packet only writes into its own frame. *)
Lemma quiet_store_prefix p s_port pkt_idx (ct : bool) slot f s :
  exists s', quiet (Some f) s s' /\
    rv_pkt_store cfg port_is_down notify_ret miss_estimate p s_port pkt_idx ct slot f s =
    if rv_slot_get_frame_size (slot_at s' slot) >=? st20_frame_size cfg
    then rv_slot_full_frame cfg port_is_down notify_ret miss_estimate slot f s' else s'.
Proof.
  unfold rv_pkt_store. set (s5 := slot_upd slot _ (count STAT_PKTS_RECEIVED 1 _)).
  assert (H5 : quiet (Some f) s s5).
  { unfold s5, rv_copy_all.
    eapply quiet_trans; [|by apply quiet_slot]. eapply quiet_trans; [|apply quiet_count].
    eapply quiet_trans; [|apply quiet_slot; by destruct ct].
    eapply quiet_trans; [|by apply quiet_frame]. by apply quiet_slot. }
  set (s6 := match sl_slices (slot_at s5 slot) with Some _ => _ | None => s5 end).
  exists s6. split; [|done]. eapply quiet_trans; [exact H5|]. unfold s6.
  case_match; [apply quiet_slices|apply quiet_refl].
Qed.

Lemma own_slot_pkt held p s_port (ct : bool) slot f s :
  sl_frame (slot_at s slot) = Some f ->
  own_step held s (rv_slot_pkt cfg port_is_down notify_ret miss_estimate p s_port ct slot f s).2.
Proof.
  intros Hsl. assert (Hf : f ∈ slot_frames s) by (by eapply slot_frame_elem).
  assert (Hw : forall h, Some f = Some h -> h ∈ slot_frames s) by (by intros h [= <-]).
  unfold rv_slot_pkt. case_if.
  { unfold rv_user_meta_pkt. case_if; [|apply own_quiet_none, quiet_count].
    apply (own_quiet _ (Some f)); [|done].
    eapply quiet_trans; [|apply quiet_count]. by apply quiet_frame. }
  set (s1 := slot_upd slot _ s). assert (H1 : quiet (Some f) s s1) by (by apply quiet_slot).
  destruct (rv_pkt_bounds cfg p) as [k|].
  { apply (own_quiet _ (Some f)); [|done]. eapply quiet_trans; [exact H1|apply quiet_count]. }
  pose proof (quiet_index (Some f) p s_port ct slot s1) as H2.
  destruct (rv_pkt_index cfg p s_port ct slot s1) as [[k| |idx] s2]; cbn [snd] in *.
  - apply (own_quiet _ (Some f)); [|done]. eapply quiet_trans; [exact H1|].
    eapply quiet_trans; [exact H2|apply quiet_count].
  - apply (own_quiet _ (Some f)); [|done]. eapply quiet_trans; [exact H1|].
    eapply quiet_trans; [exact H2|]. eapply quiet_trans; [|by apply quiet_slot]. apply quiet_count.
  - destruct (quiet_store_prefix p s_port idx ct slot f s2) as (s3 & H3 & ->).
    assert (H : quiet (Some f) s s3).
    { eapply quiet_trans; [exact H1|]. by eapply quiet_trans. }
    apply (own_step_trans held s s3); [by eapply own_quiet|]. intros held'.
    case_if; [|apply own_quiet_none, quiet_refl].
    apply own_notify_empty; [|done]. by rewrite (slot_frame_list_at _ _ slot (qu_slots _ _ _ H)).
Qed.

Lemma own_handle_pkt held p s_port (ct : bool) s :
  0 < slot_max cfg <= arr_len (rv_slots s) ->
  own_step held s (rv_handle_frame_pkt cfg port_is_down notify_ret miss_estimate p s_port ct s).2.
Proof.
  intros Hmax. unfold rv_handle_frame_pkt. set (s1 := if pk_retransmit p then _ else s).
  assert (H1 : quiet None s s1) by (unfold s1; case_if; [apply quiet_count|apply quiet_refl]).
  apply (own_step_trans held s s1); [by apply own_quiet_none|]. intros held'.
  destruct (rv_pkt_filter cfg p) as [[k err]|]; [apply own_quiet_none, quiet_count|].
  assert (Hmax1 : 0 < slot_max cfg <= arr_len (rv_slots s1)).
  { unfold arr_len in *. by rewrite (qu_len _ _ _ H1). }
  pose proof (fun h => own_slot_by_tmstamp h (pk_tmstamp p) s1 Hmax1) as H2.
  destruct (slot_by_tmstamp (pk_tmstamp p) s1) as [[found exist_ts] s2]. cbn [snd] in H2.
  apply (own_step_trans held' s1 s2); [done|]. intros held''.
  destruct found as [slot|].
  - destruct (sl_frame (slot_at s2 slot)) as [f|] eqn:Ef.
    + set (s3 := s2 <| redundant_error_cnt ::= _ |>).
      apply (own_step_trans held'' s2 s3); [apply own_quiet_none, quiet_errcnt|].
      intros h. by apply own_slot_pkt.
    + apply own_quiet_none. destruct exist_ts; cbn [snd].
      * eapply quiet_trans; [|apply quiet_errcnt].
        eapply quiet_trans; [|by apply quiet_slot]. apply quiet_count.
      * eapply quiet_trans; [apply quiet_errcnt|apply quiet_count].
  - apply own_quiet_none. eapply quiet_trans; [apply quiet_errcnt|apply quiet_count].
Qed.

(** The application returns a frame it holds. *)
Lemma pool_ok_return held1 held2 f s :
  pool_ok (held1 ++ f :: held2) s -> pool_ok (held1 ++ held2) (rv_put_frame f s).
Proof.
  intros Hok. pose proof Hok as (Hnd & Hrange & Href).
  assert (Hin : f ∈ slot_frames s ++ held1 ++ f :: held2).
  { rewrite !elem_of_app, elem_of_cons. tauto. }
  assert (Hf : (f < length (refcnts s))%nat) by (by apply Hrange).
  eapply (pool_ok_refcnt _ _ s _ f 0); [exact Hok|done| |].
  - apply refcnts_upd; [done|]. cbn.
    rewrite (Href f _ (refcnts_at s f Hf)), decide_True by done. done.
  - right. split; [done|]. change (slot_frames (rv_put_frame f s)) with (slot_frames s).
    rewrite !app_assoc. by rewrite Permutation_middle.
Qed.
End Ownership.

(** Histories of a session: packets, and frames the application gives back. An
    application that returns a frame it does not hold is not considered. *)
Inductive rx_op := RxPkt (p : rv_pkt) (s_port : Z) (ctrl_thread : bool) | RxPut (f : nat).

Definition remove_one (f : nat) (l : list nat) : list nat :=
  match list_find (fun g => g = f) l with Some (i, _) => delete i l | None => l end.

Section Histories.
Context (cfg : rv_config) (port_is_down : Z -> bool) (notify_ret : rv_event -> Z)
  (miss_estimate : Z -> Z -> Z).

(** The frames the application holds, those lost, and the session. *)
Definition rx_step (hs : list nat * list nat * rv_session) (op : rx_op) : list nat * list nat * rv_session :=
  let '(held, lost, s) := hs in
  match op with
  | RxPkt p s_port ct =>
      let s' := (rv_handle_frame_pkt cfg port_is_down notify_ret miss_estimate p s_port ct s).2 in
      let evs := drop (length (notified s)) (notified s') in
      (held ++ omap (accepted notify_ret) evs, lost ++ omap (refused_lost notify_ret) evs, s')
  | RxPut f =>
      if decide (f ∈ held) then (remove_one f held, lost, (st20_rx_put_framebuff (Some f) s).2) else hs
  end.
Definition rx_run (ops : list rx_op) (s : rv_session) : list nat * list nat * rv_session :=
  foldl rx_step ([], [], s) ops.

(** All frames free, all slots empty. *)
Definition rx_fresh (s : rv_session) : Prop :=
  Forall (fun f => ft_refcnt f = 0) (st20_frames s) /\
  Forall (fun sl => sl_frame sl = None) (rv_slots s) /\
  0 < slot_max cfg <= arr_len (rv_slots s).

Lemma fresh_pool_ok s : rx_fresh s -> pool_ok [] s.
Proof.
  intros (Hf & Hs & _).
  assert (slot_frames s = []) as He.
  { unfold slot_frames. induction Hs as [|sl l H0 _ IH]; [done|]. cbn. by rewrite H0. }
  unfold pool_ok. rewrite He. cbn. split; [constructor|]. split; [by intros f Hin; inversion Hin|].
  intros f r Hr. unfold refcnts in Hr. rewrite list_lookup_fmap in Hr.
  apply fmap_Some in Hr as (fr & Hl & ->). by apply (Forall_lookup_1 _ _ _ _ Hf) in Hl.
Qed.

Lemma remove_one_split f l : f ∈ l -> exists l1 l2, l = l1 ++ f :: l2 /\ remove_one f l = l1 ++ l2.
Proof.
  intros Hin. unfold remove_one.
  destruct (list_find_elem_of (fun g => g = f) l f Hin eq_refl) as [[i g] Hi]. rewrite Hi.
  apply list_find_Some in Hi as (Hl & -> & _).
  exists (take i l), (drop (S i) l). split; [symmetry; by apply take_drop_middle|].
  by rewrite delete_take_drop.
Qed.

Lemma rx_step_ok held lost s op :
  pool_ok (held ++ lost) s -> 0 < slot_max cfg <= arr_len (rv_slots s) ->
  let '(held', lost', s') := rx_step (held, lost, s) op in
  pool_ok (held' ++ lost') s' /\ arr_len (rv_slots s') = arr_len (rv_slots s)
  /\ ((forall e, 0 <= notify_ret e) -> lost = [] -> lost' = []).
Proof.
  intros Hok Hmax. destruct op as [p s_port ct|f]; cbn [rx_step].
  - destruct (own_handle_pkt cfg port_is_down notify_ret miss_estimate (held ++ lost) p s_port ct s Hmax Hok)
      as (evs & Hn & Ho & HL & _).
    rewrite Hn, drop_app_length. split_and!.
    + eapply pool_ok_perm; [exact Ho|done|]. apply Permutation_app_head. rewrite (handed_out_split notify_ret evs). solve_Permutation.
    + unfold arr_len. by rewrite HL.
    + intros Hr ->. cbn. clear -Hr. induction evs as [|e evs IH]; [done|]. cbn. unfold refused_lost at 1. destruct e as [f meta d|]; [|done].
      specialize (Hr (FrameReady f meta d)). destruct (me_status meta); try done. by rewrite (proj2 (Z.ltb_ge _ _)) by done.
  - destruct (decide (f ∈ held)) as [Hin|]; [|done].
    destruct (remove_one_split f held Hin) as (l1 & l2 & -> & ->).
    assert (Hlt : (f < length (st20_frames s))%nat).
    { destruct Hok as (_ & Hr & _). specialize (Hr f). unfold refcnts in Hr.
      rewrite length_fmap in Hr. apply Hr. rewrite !elem_of_app, elem_of_cons. tauto. }
    unfold st20_rx_put_framebuff. rewrite bool_decide_eq_true_2 by done. cbn [snd].
    split_and!; [|done|done]. rewrite <- app_assoc in *. by apply pool_ok_return.
Qed.

Lemma rx_run_ok ops s :
  rx_fresh s ->
  let '(held, lost, s') := rx_run ops s in
  pool_ok (held ++ lost) s' /\ arr_len (rv_slots s') = arr_len (rv_slots s) /\ ((forall e, 0 <= notify_ret e) -> lost = []).
Proof.
  intros Hf. unfold rx_run. pose proof (fresh_pool_ok s Hf) as Hok. destruct Hf as (_ & _ & Hmax).
  assert (H : forall held lost s1, pool_ok (held ++ lost) s1 -> arr_len (rv_slots s1) = arr_len (rv_slots s) ->
    ((forall e, 0 <= notify_ret e) -> lost = []) ->
    let '(held', lost', s') := foldl rx_step (held, lost, s1) ops in
    pool_ok (held' ++ lost') s' /\ arr_len (rv_slots s') = arr_len (rv_slots s) /\ ((forall e, 0 <= notify_ret e) -> lost' = [])); [|by apply H].
  induction ops as [|op ops IH]; intros held lost s1 H1 HL1 Hn; [done|]. cbn [foldl].
  pose proof (rx_step_ok held lost s1 op H1 ltac:(lia)) as H2.
  destruct (rx_step (held, lost, s1) op) as [[held2 lost2] s2]. destruct H2 as (H2 & HL2 & Hn2). apply IH; [done|lia|]. intros Hr. by auto.
Qed.

End Histories.

(** ** Concrete sessions *)

(** Two lines of four pixels, 4:2:2 at 10 bit, one packet per line. *)
Definition small_cfg (nport slots : Z) (incomplete : bool) : rv_config :=
  mk_rv_config nport 0 0 false 4 2 incomplete 10 10 20 20 1 5 2 10 1 slots.
Definition small_session (frames : nat) : rv_session :=
  mk_rv_session (replicate frames (mk_frame_trans 0 (replicate 20 0) [] 0 0))
    (replicate 2 (slot_zero <| sl_bitmap := Some (bm_zero 1) |>)) (-1) [0; 0] 0 (fun _ => 0) [].
(** Line [row] of the frame with timestamp [ts], numbered [seq]. *)
Definition small_pkt (ts seq row : Z) : rv_pkt :=
  mk_rv_pkt row 0 10 0 ts seq 0 0 0 72 72 0 (replicate 10 (ts + row)).
Definition small_run (cfg : rv_config) (ret : Z) (l : list rv_pkt) (s : rv_session) : rv_session :=
  foldl (fun s p =>
    (rv_handle_frame_pkt cfg (fun _ => false) (fun _ => ret) (fun _ _ => 0) p 0 true s).2) s l.

(** The high-water mark of the packet index is not reset when a slot is opened
    for a new frame: of the second frame, received in order, the packet after the
    first two is below the mark of the first frame and counts as reordered. *)
Definition tall_cfg : rv_config := mk_rv_config 1 0 0 false 4 4 false 10 10 40 40 1 5 2 10 1 1.
Definition tall_session : rv_session :=
  mk_rv_session (replicate 2 (mk_frame_trans 0 (replicate 40 0) [] 0 0))
    (replicate 2 (slot_zero <| sl_bitmap := Some (bm_zero 1) |>)) (-1) [0; 0] 0 (fun _ => 0) [].
Lemma reorder_mark_survives_frame :
  let in_order ts seq := (fun row => small_pkt ts (seq + row) row) <$> [0; 1; 2; 3] in
  let s1 := small_run tall_cfg 0 (in_order 7 10) tall_session in
  let s2 := small_run tall_cfg 0 (in_order 8 14) s1 in
  counters s1 (PORT_REORDERED 0) = 0 /\ counters s2 STAT_FRAMES_RECEIVED = 2 /\
  counters s2 (PORT_REORDERED 0) = 2.
Proof. vm_compute. repeat split; reflexivity. Qed.

(** An incomplete frame the application asked for and then refuses is not put
    back: no slot holds it, the application does not own it, and it stays in use. *)
Lemma refused_incomplete_frame_lost :
  let s := small_run (small_cfg 1 1 true) (-1) [small_pkt 7 10 0; small_pkt 8 12 0] (small_session 1) in
  notified s = [FrameReady 0 (mk_rv_meta ST_FRAME_STATUS_CORRUPTED 7 false 10 1 [1; 0] [])
                  (replicate 10 7 ++ replicate 10 0)] /\
  slot_frames s = [] /\ refcnts s = [1] /\ counters s STAT_SLOT_GET_FRAME_FAIL = 1.
Proof. vm_compute. repeat split; reflexivity. Qed.

(** With an odd height the field of an interlaced frame ends inside a line, and
    the check of a packet that continues behind the padding wraps around: the
    second copy goes past the buffer. *)
Definition odd_ops : st20_rx_ops :=
  mk_rx_ops 1 0 0 true 32 5 ST_FPS_P59_94 ST20_FMT_YUV_422_10BIT 100 1 false false.
Definition odd_cfg : rv_config := mk_rv_config 1 0 0 true 32 5 false 100 80 250 200 1 5 2 80 1 1.
Definition odd_pkt : rv_pkt :=
  mk_rv_pkt 2 ST20_SRD_OFFSET_CONTINUATION 10 11 7 1 0 0 0 89 89 0 (replicate 21 9).
Definition odd_session : rv_session :=
  mk_rv_session [mk_frame_trans 0 (replicate 250 0) [] 0 0]
    [slot_zero <| sl_bitmap := Some (bm_zero 1) |>] (-1) [0; 0] 0 (fun _ => 0) [].
Lemma odd_field_overrun :
  rv_attach_config odd_ops = inr odd_cfg /\ rv_wire odd_pkt /\
  rv_pkt_bounds odd_cfg odd_pkt = None /\
  (fun c => (c.1, arr_len c.2)) <$> rv_pkt_copies odd_cfg odd_pkt = [(200, 10); (300, 11)] /\
  st20_fb_size odd_cfg = 250 /\
  let s := small_run odd_cfg 0 [odd_pkt] odd_session in counters s STAT_PKTS_RECEIVED = 1.
Proof. repeat split; vm_compute; congruence. Qed.

(** ** The properties *)

(** C3: On a session that [rv_attach] accepted, whatever arrives on the wire: a
    packet that passes the bounds checks is copied inside the frame buffer, and
    exactly the payload it carries is read. The height of an interlaced session is
    even and the buffer below 4 GB. *)
Theorem rv_copies_in_bounds ops cfg p :
  rv_attach_config ops = inr cfg -> rv_ops_sane ops cfg ->
  rv_wire p -> rv_pkt_bounds cfg p = None ->
  Forall (fun c => 0 <= c.1 /\ c.1 + arr_len c.2 <= st20_fb_size cfg) (rv_pkt_copies cfg p) /\
  mjoin (rv_pkt_copies cfg p).*2 = pk_payload p /\
  rv_payload_length p = arr_len (pk_payload p) /\ 0 < rv_payload_length p.
Proof. intros Hc Hs Hw. apply pkt_copies_bounds; [by eapply attach_geometry|done]. Qed.

(** A padded interlaced frame of 4 lines and a packet over two lines. *)
Definition even_ops : st20_rx_ops :=
  mk_rx_ops 1 0 0 true 32 4 ST_FPS_P59_94 ST20_FMT_YUV_422_10BIT 100 1 false false.
Definition even_cfg : rv_config := mk_rv_config 1 0 0 true 32 4 false 100 80 200 160 1 5 2 80 1 1.
Definition even_pkt : rv_pkt :=
  mk_rv_pkt (Z.lor ST20_SECOND_FIELD 0) ST20_SRD_OFFSET_CONTINUATION 80 80 7 1 0 0 0 228 228 0
    (replicate 160 9).
Lemma rv_copies_in_bounds_witness :
  rv_pkt_bounds even_cfg even_pkt = None /\
  (fun c => (c.1, arr_len c.2)) <$> rv_pkt_copies even_cfg even_pkt = [(0, 80); (100, 80)] /\
  Forall (fun c => 0 <= c.1 /\ c.1 + arr_len c.2 <= st20_fb_size even_cfg)
    (rv_pkt_copies even_cfg even_pkt).
Proof.
  split; [reflexivity|]. split; [reflexivity|].
  apply (rv_copies_in_bounds even_ops even_cfg even_pkt).
  - reflexivity.
  - constructor; vm_compute; try done; try (split; congruence).
  - constructor; vm_compute; try done; try (split; congruence).
  - reflexivity.
Defined.

(** C19: In any history of packets and returned frames, a frame is in at most one slot, or
    with the application that accepted it, or lost, and its reference count says whether it
    is any of these; handling a packet leaves every frame the application holds (contents,
    meta data and count) exactly as it is. Lost are the incomplete frames the application
    asked for and then refused, which the receiver does not take back
    ([refused_incomplete_frame_lost]); an application that never refuses a frame loses none.
    An application returns only frames it holds. *)
Theorem rv_held_frames_untouched cfg port_is_down notify_ret miss_estimate ops s p s_port ct :
  rx_fresh cfg s ->
  let '(held, lost, s) := rx_run cfg port_is_down notify_ret miss_estimate ops s in
  pool_ok (held ++ lost) s /\
  ((forall e, 0 <= notify_ret e) -> lost = []) /\
  forall f, f ∈ held ->
    fr_at (rv_handle_frame_pkt cfg port_is_down notify_ret miss_estimate p s_port ct s).2 f = fr_at s f.
Proof.
  intros Hf. pose proof (rx_run_ok cfg port_is_down notify_ret miss_estimate ops s Hf) as H. destruct Hf as (_ & _ & Hmax).
  destruct (rx_run cfg port_is_down notify_ret miss_estimate ops s) as [[held lost] s1]. destruct H as (Hok & HL & Hn).
  split; [done|]. split; [done|]. rewrite <- HL in Hmax. intros f Hin.
  destruct (own_handle_pkt cfg port_is_down notify_ret miss_estimate (held ++ lost) p s_port ct s1 Hmax Hok)
    as (evs & _ & _ & _ & Hheld). apply Hheld. apply elem_of_app. by left.
Qed.

Lemma rv_held_frames_untouched_witness :
  let ops := [RxPkt (small_pkt 7 11 1) 0 true; RxPkt (small_pkt 7 10 0) 0 true] in
  let run := rx_run (small_cfg 1 1 false) (fun _ => false) (fun _ => 0) (fun _ _ => 0) ops
               (small_session 2) in
  run.1 = ([0%nat], []) /\
  let '(held, lost, s) := run in
  pool_ok (held ++ lost) s /\
  ((forall e : rv_event, 0 <= 0) -> lost = []) /\
  forall f, f ∈ held ->
    fr_at (rv_handle_frame_pkt (small_cfg 1 1 false) (fun _ => false) (fun _ => 0) (fun _ _ => 0)
             (small_pkt 8 12 0) 0 true s).2 f = fr_at s f.
Proof.
  split; [vm_compute; reflexivity|].
  apply (rv_held_frames_untouched (small_cfg 1 1 false) (fun _ => false) (fun _ => 0) (fun _ _ => 0)
    [RxPkt (small_pkt 7 11 1) 0 true; RxPkt (small_pkt 7 10 0) 0 true] (small_session 2)
    (small_pkt 8 12 0) 0 true).
  split; [repeat constructor|]. split; [repeat constructor|]. split; vm_compute; congruence.
Defined.
