(* ===== verification/TxVideo.v ===== *)
(** The packet builder of the ST 2110-20 transmitter,
    lib/src/st2110/st_tx_video_session.c: how a frame is cut into packets
    ([tv_init_pkt]), the RTP and row headers and the payload of each packet
    ([tv_build_st20], [tv_build_st20_chain] and their redundant copies), and the
    bulk loop of [tv_tasklet_frame] that builds the packets of a frame.

    Packets are what the receiver sees ([RxVideo.rv_pkt]); of the headers below
    RTP only the lengths are kept. The divisions of doubles rounded up by [ceil] are
    integer divisions rounded up, which they equal for sizes below 2^53. *)
From S2P Require Import Prelude SeqNum Bitmap Fmt RxVideo.

Definition ST_VIDEO_BPM_SIZE : Z := 1260.
Definition SIZEOF_RFC4175_RTP_HDR : Z := 20.
Definition ST_RVRTP_PAYLOAD_TYPE_RAW_VIDEO : Z := 112.
Definition ETHER_HDR_LEN : Z := 14.
Definition IPV4_HDR_LEN : Z := 20.

(** ** Session set-up *)

(** The part of [struct st20_tx_ops] that decides the packets. *)
Record st20_tx_ops := mk_tx_ops {
  to_interlaced : bool;
  to_width : Z;
  to_height : Z;
  to_fps : st_fps;
  to_fmt : st20_fmt;
  to_packing : st20_packing;
  to_linesize : Z;
  to_payload_type : Z;
  to_ssrc : Z;
}.

(** [struct st20_packet_group_info]: size and number of one type of packets. *)
Record pkt_group := mk_group { pg_pkt_size : Z; pg_pkt_number : Z }.
Definition group_zero : pkt_group := mk_group 0 0.
Record pkt_info := mk_info {
  pi_normal : pkt_group;
  pi_extra : pkt_group;
  pi_frame_tail : pkt_group;
  pi_line_tail : pkt_group;
}.

(** The fields of [struct st_tx_video_session_impl] that are set at creation. *)
Record tv_config := mk_tv_config {
  tv_width : Z;
  tv_single_line : bool;
  tv_pg_size : Z;
  tv_pg_coverage : Z;
  tv_linesize : Z;
  tv_bytes_in_line : Z;
  tv_frame_size : Z;
  tv_fb_size : Z;
  tv_pkt_len : Z;
  tv_pkts_in_line : Z;
  tv_total_pkts : Z;
  tv_pkt_info : pkt_info;
  tv_payload_type : Z;
  tv_ssrc : Z;
}.

Definition ceil_div (a b : Z) : Z := (a + b - 1) / b.

(** The first multiple of the line size that is a multiple of the packet length,
    or that exceeds the frame. *)
Definition tv_aligned_lines (bytes_in_line pkt_len frame_size height : Z) : Z :=
  loop_while (Z.to_nat (height + 1))
    (fun temp => negb (temp mod pkt_len =? 0) && (temp <=? frame_size))
    (fun temp => temp + bytes_in_line) bytes_in_line.

(** The packet types of a frame cut without regard to lines (BPM and GPM). *)
Definition tv_block_info (bytes_in_line pkt_len frame_size height total : Z) : pkt_info :=
  let last_pkt_len := frame_size mod pkt_len in
  let pkt_size := pkt_len + SIZEOF_RFC4175_VIDEO_HDR in
  let temp := tv_aligned_lines bytes_in_line pkt_len frame_size height in
  let extra_pkts := height - ceil_div frame_size temp in
  let extra :=
    if c_true extra_pkts then mk_group (pkt_size + SIZEOF_RFC4175_EXTRA_HDR) (u32 extra_pkts)
    else group_zero in
  let tail :=
    if c_true last_pkt_len then mk_group (last_pkt_len + SIZEOF_RFC4175_VIDEO_HDR) 1
    else group_zero in
  mk_info (mk_group pkt_size (u32 (total - pg_pkt_number tail - pg_pkt_number extra))) extra tail
    group_zero.

(** Packet length, packets per line, packets of the frame and their types. *)
Definition tv_init_pkt (pkt_udp_suggest_max_size : Z) (ops : st20_tx_ops) (pg : st20_pgroup)
    (frame_size : Z) : Z + (Z * Z * Z * pkt_info) :=
  let height := if to_interlaced ops then Z.shiftr (to_height ops) 1 else to_height ops in
  let raw_bytes_size := u64 (to_width ops * pg_size pg) in
  let bytes_in_line := u64 (raw_bytes_size + pg_coverage pg - 1) / pg_coverage pg in
  let sized := fun pkt_len pkts_in_line total info =>
    if u16 (pkt_len + SIZEOF_RFC4175_VIDEO_HDR) >? ST_PKT_MAX_ETHER_BYTES then inl (- EIO)
    else inr (pkt_len, pkts_in_line, total, info) in
  match to_packing ops with
  | ST20_PACKING_GPM_SL =>
      let bytes_in_pkt := ST_PKT_MAX_ETHER_BYTES - SIZEOF_RFC4175_VIDEO_HDR in
      let pkts_in_line := bytes_in_line / bytes_in_pkt + 1 in
      let pixel_in_pkt := (to_width ops + pkts_in_line - 1) / pkts_in_line in
      let pkt_len := u16 ((pixel_in_pkt + pg_coverage pg - 1) / pg_coverage pg * pg_size pg) in
      let total := height * pkts_in_line in
      let line_last_len := bytes_in_line mod pkt_len in
      let tail :=
        if c_true line_last_len then mk_group (line_last_len + SIZEOF_RFC4175_VIDEO_HDR) height
        else group_zero in
      sized pkt_len pkts_in_line total
        (mk_info (mk_group (pkt_len + SIZEOF_RFC4175_VIDEO_HDR) (u32 (total - pg_pkt_number tail)))
           group_zero group_zero tail)
  | ST20_PACKING_BPM =>
      if c_true (ST_VIDEO_BPM_SIZE mod pg_size pg) then inl (- EIO)
      else
        let pkt_len := ST_VIDEO_BPM_SIZE in
        let total := ceil_div frame_size pkt_len in
        sized pkt_len 0 total (tv_block_info bytes_in_line pkt_len frame_size height total)
  | ST20_PACKING_GPM =>
      let align := pg_size pg * 2 in
      let max_data_len :=
        (pkt_udp_suggest_max_size - SIZEOF_RFC4175_RTP_HDR - SIZEOF_RFC4175_EXTRA_HDR)
          / align * align in
      let pg_per_pkt := max_data_len / pg_size pg in
      let total := ceil_div (to_width ops * height) (pg_coverage pg * pg_per_pkt) in
      let pkt_len := u16 (pg_per_pkt * pg_size pg) in
      sized pkt_len 0 total (tv_block_info bytes_in_line pkt_len frame_size height total)
  | ST20_PACKING_MAX => inl (- EIO)
  end.

(** What [tv_attach] and [tv_init_hdr] make of the ops; [idx] is the number of the
    session. *)
Definition tv_attach_config (pkt_udp_suggest_max_size idx : Z) (ops : st20_tx_ops)
    : Z + tv_config :=
  match st20_get_pgroup (to_fmt ops), st_get_fps_timing (to_fps ops) with
  | inl err, _ => inl err
  | inr _, inl err => inl err
  | inr pg, inr _ =>
      let raw_bytes_size := u64 (to_width ops * pg_size pg) in
      let bytes_in_line := u64 (raw_bytes_size + pg_coverage pg - 1) / pg_coverage pg in
      if negb (to_linesize ops >? bytes_in_line) && c_true (to_linesize ops) then inl (- EINVAL)
      else
        let linesize := if to_linesize ops >? bytes_in_line then to_linesize ops else bytes_in_line in
        let height := if to_interlaced ops then Z.shiftr (to_height ops) 1 else to_height ops in
        let frame_size := u32 (u32 (to_width ops * height) * pg_size pg) / pg_coverage pg in
        match tv_init_pkt pkt_udp_suggest_max_size ops pg frame_size with
        | inl err => inl err
        | inr (pkt_len, pkts_in_line, total, info) =>
            inr (mk_tv_config (to_width ops) (bool_decide (to_packing ops = ST20_PACKING_GPM_SL))
                   (pg_size pg) (pg_coverage pg) linesize bytes_in_line frame_size
                   (u64 (linesize * height)) pkt_len pkts_in_line total info
                   (if c_true (to_payload_type ops) then to_payload_type ops
                    else ST_RVRTP_PAYLOAD_TYPE_RAW_VIDEO)
                   (if c_true (to_ssrc ops) then to_ssrc ops else u32 (idx + 0x123450)))
        end
  end.

(** ** One packet *)

(** A packet on the wire: the fields the receiver reads, the marker bit, the
    extra row header (number, offset, length) and the lengths in the IP and UDP
    headers. *)
Record tv_wire := mk_tv_wire {
  wr_pkt : rv_pkt;
  wr_marker : bool;
  wr_extra : option (Z * Z * Z);
  wr_ip_total_length : Z;
  wr_udp_dgram_len : Z;
}.

(** The state the builder advances. *)
Record tv_state := mk_tv_state { st20_pkt_idx : Z; st20_seq_id : Z }.

(** Bytes [off .. off + len) of the frame. *)
Definition mem_read (fb : list Z) (off len : Z) : list Z :=
  take (Z.to_nat len) (drop (Z.to_nat off) fb).

Section Builder.
Context (c : tv_config).

Definition tv_pkt_has_extra_hdr (offset : Z) : bool :=
  let end_ := u32 (offset + tv_pkt_len c) in
  (end_ >? u32 ((offset / tv_bytes_in_line c + 1) * tv_bytes_in_line c))
  && (end_ <? tv_frame_size c).

(** Where packet [idx] starts: offset in the frame without (or, for single-line
    packing, with) padding, row, pixel in the row, extra header. *)
Definition tv_pkt_start (idx : Z) : Z * Z * Z * bool :=
  if tv_single_line c then
    let line1_number := u16 (idx / tv_pkts_in_line c) in
    let pixel_in_pkt := tv_pkt_len c / tv_pg_size c * tv_pg_coverage c in
    let line1_offset := u16 (pixel_in_pkt * (idx mod tv_pkts_in_line c)) in
    let offset := u32 (line1_number * u32 (tv_linesize c)
                       + line1_offset / tv_pg_coverage c * tv_pg_size c) in
    (offset, line1_number, line1_offset, false)
  else
    let offset := u32 (tv_pkt_len c * idx) in
    let line1_number := u16 (offset / tv_bytes_in_line c) in
    let line1_offset :=
      u16 (u32 (offset mod tv_bytes_in_line c * tv_pg_coverage c) / tv_pg_size c) in
    (offset, line1_number, line1_offset, tv_pkt_has_extra_hdr offset).

Definition tv_left_len (offset line1_offset : Z) : Z :=
  let temp :=
    if tv_single_line c then u32 (tv_width c - line1_offset) / tv_pg_coverage c * tv_pg_size c
    else u32 (tv_frame_size c - offset) in
  u16 (Z.min (tv_pkt_len c) temp).

(** The offset in the frame buffer, with the padding of the lines. *)
Definition tv_copy_offset (offset line1_number : Z) : Z :=
  if negb (tv_single_line c) && (tv_linesize c >? tv_bytes_in_line c)
  then u32 (offset mod tv_bytes_in_line c + line1_number * tv_linesize c)
  else offset.

Definition tv_line1_length (offset line1_number : Z) : Z :=
  u16 ((line1_number + 1) * tv_bytes_in_line c - offset).
Definition tv_line2_length (line1_length : Z) : Z := u16 (tv_pkt_len c - line1_length).

(** The headers of the packet, for a payload of the given bytes. *)
Definition tv_headers (second_field : bool) (rtp_time_stamp : Z) (st : tv_state)
    (payload : list Z) : tv_wire :=
  let '(offset, line1_number, line1_offset, extra) := tv_pkt_start (st20_pkt_idx st) in
  let field := if second_field then ST20_SECOND_FIELD else 0 in
  let left_len := tv_left_len offset line1_offset in
  let line1_length := tv_line1_length offset line1_number in
  let line2_length := tv_line2_length line1_length in
  let pkt_len := SIZEOF_RFC4175_VIDEO_HDR + left_len
                 + if extra then SIZEOF_RFC4175_EXTRA_HDR else 0 in
  mk_tv_wire
    (mk_rv_pkt (Z.lor line1_number field)
       (if extra then Z.lor line1_offset ST20_SRD_OFFSET_CONTINUATION else line1_offset)
       (if extra then line1_length else left_len) (if extra then line2_length else 0)
       rtp_time_stamp (u16 (st20_seq_id st)) (u16 (Z.shiftr (st20_seq_id st) 16))
       (tv_payload_type c) (tv_ssrc c) pkt_len pkt_len 0 payload)
    (st20_pkt_idx st >=? tv_total_pkts c - 1)
    (if extra then Some (Z.lor (u16 (line1_number + 1)) field, 0, line2_length) else None)
    (u16 (pkt_len - ETHER_HDR_LEN)) (u16 (pkt_len - ETHER_HDR_LEN - IPV4_HDR_LEN)).

Definition tv_next (st : tv_state) : tv_state :=
  mk_tv_state (st20_pkt_idx st) (u32 (st20_seq_id st + 1)).

(** The whole packet in one buffer. *)
Definition tv_build_st20 (second_field : bool) (rtp_time_stamp : Z) (fb : list Z) (st : tv_state)
    : tv_wire * tv_state :=
  let '(offset, line1_number, line1_offset, extra) := tv_pkt_start (st20_pkt_idx st) in
  let left_len := tv_left_len offset line1_offset in
  let line1_length := tv_line1_length offset line1_number in
  let copy_offset := tv_copy_offset offset line1_number in
  let payload :=
    if extra && (tv_linesize c >? tv_bytes_in_line c) then
      mem_read fb copy_offset line1_length
      ++ mem_read fb (tv_linesize c * (line1_number + 1)) (tv_line2_length line1_length)
    else mem_read fb copy_offset left_len in
  (tv_headers second_field rtp_time_stamp st payload, tv_next st).

(** Headers in one mbuf, the payload in a second one: copied when it crosses the
    padding of a line or a page, else attached to the frame buffer. [realloc_ok]
    is the outcome of the allocation of the copy, [cross_page] that of
    [tv_frame_payload_cross_page]. The result: the error, the packet (the header
    only, without payload, when the allocation fails), and the references taken
    on the frame. *)
Definition tv_build_st20_chain (realloc_ok cross_page second_field : bool) (rtp_time_stamp : Z)
    (fb : list Z) (st : tv_state) : Z * tv_wire * Z * tv_state :=
  let '(offset, line1_number, line1_offset, extra) := tv_pkt_start (st20_pkt_idx st) in
  let left_len := tv_left_len offset line1_offset in
  let line1_length := tv_line1_length offset line1_number in
  let copy_offset := tv_copy_offset offset line1_number in
  if extra && (tv_linesize c >? tv_bytes_in_line c) then
    if negb realloc_ok then
      let w := tv_headers second_field rtp_time_stamp st [] in
      let hdr_len := SIZEOF_RFC4175_VIDEO_HDR + SIZEOF_RFC4175_EXTRA_HDR in
      let p := wr_pkt w in
      (- ENOMEM,
       mk_tv_wire
         (mk_rv_pkt (pk_row_number p) (pk_row_offset p) (pk_row_length p) (pk_extra_row_length p)
            (pk_tmstamp p) (pk_seq_number p) (pk_seq_number_ext p) (pk_payload_type p) (pk_ssrc p)
            hdr_len hdr_len 0 [])
         (wr_marker w) (wr_extra w) 0 0,
       0, tv_next st)
    else
      (0, tv_headers second_field rtp_time_stamp st
            (mem_read fb copy_offset line1_length
             ++ mem_read fb (tv_linesize c * (line1_number + 1)) (tv_line2_length line1_length)),
       0, tv_next st)
  else
    (0, tv_headers second_field rtp_time_stamp st (mem_read fb copy_offset left_len),
     if cross_page then 0 else 1, tv_next st).

(** The copy for the second port: everything behind the UDP header is that of the
    first port's packet. *)
Definition tv_build_st20_redundant (base : tv_wire) : tv_wire :=
  let pkt_len := pk_data_len (wr_pkt base) in
  mk_tv_wire (wr_pkt base) (wr_marker base) (wr_extra base) (u16 (pkt_len - ETHER_HDR_LEN))
    (u16 (pkt_len - ETHER_HDR_LEN - IPV4_HDR_LEN)).

(** With chained mbufs the payload mbuf is shared; [None] when the first port's
    packet has none and the code dereferences NULL. *)
Definition tv_build_st20_redundant_chain (base_ret : Z) (base : tv_wire) : option tv_wire :=
  if base_ret <? 0 then None
  else
    let pkt_len := pk_pkt_len (wr_pkt base) in
    Some (mk_tv_wire (wr_pkt base) (wr_marker base) (wr_extra base) (u16 (pkt_len - ETHER_HDR_LEN))
            (u16 (pkt_len - ETHER_HDR_LEN - IPV4_HDR_LEN))).

(** The loop over one bulk in [tv_tasklet_frame] (without chained mbufs): after the
    last packet of the frame come dummies ([None]). *)
Fixpoint tv_build_bulk (bulk : nat) (second_field : bool) (rtp_time_stamp : Z) (fb : list Z)
    (st : tv_state) : list (option tv_wire) * tv_state :=
  match bulk with
  | O => ([], st)
  | S bulk =>
      let '(pkt, st) :=
        if st20_pkt_idx st >=? tv_total_pkts c then (None, st)
        else let '(w, st) := tv_build_st20 second_field rtp_time_stamp fb st in (Some w, st) in
      let st := mk_tv_state (st20_pkt_idx st + 1) (st20_seq_id st) in
      let '(pkts, st) := tv_build_bulk bulk second_field rtp_time_stamp fb st in
      (pkt :: pkts, st)
  end.
End Builder.

(** ** Chained packets

    A chained packet is on the wire the packet built in one buffer, and so is the
    copy of it for the second port. *)
Lemma tv_chain_same_wire c realloc_ok cross_page sf ts fb st w refs st' :
  tv_build_st20_chain c realloc_ok cross_page sf ts fb st = (0, w, refs, st') ->
  tv_build_st20 c sf ts fb st = (w, st') /\ tv_build_st20_redundant_chain 0 w = Some w /\
  tv_build_st20_redundant w = w.
Proof.
  unfold tv_build_st20_chain, tv_build_st20, tv_headers.
  destruct (tv_pkt_start c (st20_pkt_idx st)) as [[[offset line1_number] line1_offset] extra].
  destruct (extra && (tv_linesize c >? tv_bytes_in_line c)); [destruct realloc_ok; [|done]|];
    cbn [negb]; by intros [= <- <- <-].
Qed.

(** When the copy cannot be allocated the caller goes on all the same: what is left
    is a header without payload that the receiver refuses, and on a session with two
    ports the shared payload of the second packet is missing. *)
Definition chain_cfg : tv_config :=
  mk_tv_config 16 false 5 2 50 40 160 200 30 0 6 (mk_info group_zero group_zero group_zero group_zero)
    96 1.
Definition chain_rx_cfg : rv_config := mk_rv_config 1 96 0 false 16 4 false 40 40 160 160 1 5 2 0 0 1.
Lemma chain_realloc_fail_sends_header :
  let '(ret, w, _, _) := tv_build_st20_chain chain_cfg false false false 7 (replicate 200 0) (mk_tv_state 1 1) in
  ret = - ENOMEM /\ pk_payload (wr_pkt w) = [] /\
  pk_row_length (wr_pkt w) + pk_extra_row_length (wr_pkt w) = 30 /\
  rv_pkt_bounds chain_rx_cfg (wr_pkt w) = Some STAT_PKTS_WRONG_LEN /\
  tv_build_st20_redundant_chain ret w = None.
Proof. vm_compute. repeat split; reflexivity. Qed.
