(* ===== verification/RxReassembly.v ===== *)
(** Correctness of the ST 2110-20 receiver's frame assembly: whatever the order,
    the duplication and the split over two ports in which the packets of one
    frame arrive, [RxVideo.rv_handle_frame_pkt] delivers that frame exactly once,
    with the bytes that were sent. *)
From S2P Require Import Prelude SeqNum Bitmap RxVideo.

(** ** What a packet carries

    A frame is [N] packets whose sequence numbers count up from [base]; packet [k]
    brings [len k] bytes of the frame buffer [D], to the places [region k] (offset
    and length; two of them when it crosses the padding behind a line). *)
Section Stream.
Context (cfg : rv_config) (N : nat) (base ts : Z) (D : list Z) (len : nat -> Z)
  (region : nat -> list (Z * Z)).

Record carries (k : nat) (p : rv_pkt) : Prop := {
  ca_k : (k < N)%nat;
  ca_filter : rv_pkt_filter cfg p = None;
  ca_tmstamp : pk_tmstamp p = ts;
  ca_no_meta : has_flag (line1_length p) ST20_LEN_USER_META = false;
  ca_bounds : rv_pkt_bounds cfg p = None;
  ca_seq : rfc4175_rtp_seq_id p = u32 (base + Z.of_nat k);
  ca_len : rv_payload_length p = len k;
  ca_region : (fun c => (c.1, arr_len c.2)) <$> rv_pkt_copies cfg p = region k;
  ca_bytes : Forall (fun c => 0 <= c.1 /\ c.1 + arr_len c.2 <= arr_len D /\
    c.2 = take (length c.2) (drop (Z.to_nat c.1) D)) (rv_pkt_copies cfg p);
}.

Definition sum_len (R : list nat) : Z := foldr (fun k n => len k + n) 0 R.

(** The frame: its packets are not empty and add up to the frame size. *)
Record stream_ok : Prop := {
  so_len : forall k, (k < N)%nat -> 0 < len k;
  so_total : sum_len (seq 0 N) = st20_frame_size cfg;
  so_small : st20_frame_size cfg < 9223372036854775808;
  so_count : Z.of_nat N < 2147483648;
}.

(** [d] agrees with the frame wherever the packets of [R] put bytes. *)
Definition agrees (R : list nat) (d : list Z) : Prop :=
  forall k o l j, k ∈ R -> (o, l) ∈ region k -> o <= j < o + l ->
    d !! Z.to_nat j = D !! Z.to_nat j.

(** ** Sums over sets of packets *)

Lemma sum_len_app R1 R2 : sum_len (R1 ++ R2) = sum_len R1 + sum_len R2.
Proof. induction R1 as [|k R1 IH]; cbn; [done|]. unfold sum_len in *. cbn. lia. Qed.

Lemma sum_len_perm R1 R2 : R1 ≡ₚ R2 -> sum_len R1 = sum_len R2.
Proof. induction 1; unfold sum_len in *; cbn in *; lia. Qed.

Lemma sum_len_nonneg R :
  stream_ok -> (forall k, k ∈ R -> (k < N)%nat) -> 0 <= sum_len R.
Proof.
  intros Hs. induction R as [|k R IH]; intros HR; cbn; [done|].
  pose proof (so_len Hs k (HR k ltac:(left))). unfold sum_len in IH.
  specialize (IH ltac:(intros j Hj; apply HR; by right)). lia.
Qed.

(** A set of distinct packets leaves room for the rest. *)
Lemma sum_len_split R :
  stream_ok -> NoDup R -> (forall k, k ∈ R -> (k < N)%nat) ->
  exists R', R ++ R' ≡ₚ seq 0 N /\ sum_len R + sum_len R' = st20_frame_size cfg /\
    forall k, k ∈ R' -> (k < N)%nat.
Proof.
  intros Hs Hnd HR. destruct (submseteq_Permutation R (seq 0 N)) as [R' Hp].
  { apply NoDup_submseteq; [done|]. intros k Hk. apply elem_of_seq. split; [lia|]. by apply HR. }
  exists R'. split; [done|]. split.
  - rewrite <- sum_len_app, <- (so_total Hs). symmetry. by apply sum_len_perm.
  - intros k Hk. assert (k ∈ seq 0 N) as Hin by (rewrite Hp; apply elem_of_app; by right).
    apply elem_of_seq in Hin. lia.
Qed.

Lemma sum_len_bound R :
  stream_ok -> NoDup R -> (forall k, k ∈ R -> (k < N)%nat) -> 0 <= sum_len R <= st20_frame_size cfg.
Proof.
  intros Hs Hnd HR. destruct (sum_len_split R Hs Hnd HR) as (R' & _ & Hsum & HR').
  pose proof (sum_len_nonneg R Hs HR). pose proof (sum_len_nonneg R' Hs HR'). lia.
Qed.

(** The bytes are all there exactly when the packets are. *)
Lemma sum_len_full R :
  stream_ok -> NoDup R -> (forall k, k ∈ R -> (k < N)%nat) ->
  st20_frame_size cfg <= sum_len R <-> R ≡ₚ seq 0 N.
Proof.
  intros Hs Hnd HR. destruct (sum_len_split R Hs Hnd HR) as (R' & Hp & Hsum & HR'). split.
  - intros Hge. destruct R' as [|k R']; [by rewrite app_nil_r in Hp|]. exfalso.
    pose proof (so_len Hs k (HR' k ltac:(left))).
    pose proof (sum_len_nonneg R' Hs ltac:(intros j Hj; apply HR'; by right)).
    unfold sum_len in *. cbn in *. lia.
  - intros HpR. rewrite <- (so_total Hs), (sum_len_perm _ _ HpR). lia.
Qed.

Lemma distinct_count R :
  NoDup R -> (forall k, k ∈ R -> (k < N)%nat) -> (length R <= N)%nat.
Proof.
  intros Hnd HR. rewrite <- (length_seq N 0). apply submseteq_length, NoDup_submseteq; [done|].
  intros k Hk. apply elem_of_seq. specialize (HR k Hk). lia.
Qed.

(** ** Writing slices of the frame *)

(** Pieces of the frame written one after the other: agreement only grows. *)
Lemma copies_agree copies d :
  length d = length D ->
  Forall (fun c => 0 <= c.1 /\ c.1 + arr_len c.2 <= arr_len D /\
    c.2 = take (length c.2) (drop (Z.to_nat c.1) D)) copies ->
  let d' := foldl (fun d c => splice c.1 c.2 d) d copies in
  length d' = length D /\
  (forall j, d !! j = D !! j -> d' !! j = D !! j) /\
  (forall c j, c ∈ copies -> c.1 <= j < c.1 + arr_len c.2 -> d' !! Z.to_nat j = D !! Z.to_nat j).
Proof.
  revert d. induction copies as [|[o b] copies IH]; intros d Hd HF; cbn [foldl].
  { split; [done|]. split; [done|]. intros c j Hc. by apply elem_of_nil in Hc. }
  inversion HF as [|? ? (H0 & H1 & Hb) HF']; subst. cbn [fst snd] in *.
  assert (H1d : o + arr_len b <= arr_len d) by (unfold arr_len in *; lia).
  assert (Hw : forall j, splice o b d !! j =
    if decide (Z.to_nat o <= j < Z.to_nat o + length b)%nat then D !! j else d !! j).
  { intros j. rewrite splice_lookup by done. destruct (decide _) as [Hin|]; [|done].
    rewrite Hb at 1. rewrite lookup_take_lt by lia. rewrite lookup_drop. f_equal. lia. }
  destruct (IH (splice o b d)) as (HL & Hkeep & Hnew); [by rewrite splice_length|done|].
  split; [done|]. split.
  - intros j Hj. apply Hkeep. rewrite Hw. by destruct (decide _).
  - intros c j Hc Hj. apply elem_of_cons in Hc as [->|Hc]; [|by eapply Hnew]. cbn [fst snd] in Hj.
    apply Hkeep. rewrite Hw, decide_True; [done|]. unfold arr_len in Hj. lia.
Qed.

Lemma agrees_copies k p R d :
  carries k p -> length d = length D -> agrees R d ->
  let d' := foldl (fun d c => splice c.1 c.2 d) d (rv_pkt_copies cfg p) in
  length d' = length D /\ agrees (k :: R) d'.
Proof.
  intros [] Hd Ha. destruct (copies_agree _ d Hd ca_bytes0) as (HL & Hkeep & Hnew).
  split; [done|]. intros i o l j Hi Hr Hj. apply elem_of_cons in Hi as [->|Hi].
  - rewrite <- ca_region0 in Hr. apply list_elem_of_fmap in Hr as (c & [= -> ->] & Hc).
    by eapply Hnew.
  - apply Hkeep. by eapply Ha.
Qed.
End Stream.

(** ** Reading the state through the updates *)

Lemma slot_at_count i k n s : slot_at (count k n s) i = slot_at s i.
Proof. done. Qed.
Lemma slot_at_fr_upd i j g s : slot_at (fr_upd j g s) i = slot_at s i.
Proof. done. Qed.
Lemma fr_at_count i k n s : fr_at (count k n s) i = fr_at s i.
Proof. done. Qed.
Lemma fr_at_slot_upd i j g s : fr_at (slot_upd j g s) i = fr_at s i.
Proof. done. Qed.
#[export] Hint Rewrite slot_at_count slot_at_fr_upd fr_at_count fr_at_slot_upd : mtl.

(** A change that tells nothing to the application and keeps the timestamps. *)
Record silent (s s' : rv_session) : Prop := {
  si_tm : sl_tmstamp <$> rv_slots s' = sl_tmstamp <$> rv_slots s;
  si_frames : length (st20_frames s') = length (st20_frames s);
  si_events : notified s' = notified s;
}.
Lemma silent_refl s : silent s s.
Proof. done. Qed.
Lemma silent_trans s1 s2 s3 : silent s1 s2 -> silent s2 s3 -> silent s1 s3.
Proof. intros [] []. split; congruence. Qed.
Lemma silent_count k n s : silent s (count k n s).
Proof. done. Qed.
Lemma silent_errcnt g s : silent s (s <| redundant_error_cnt ::= g |>).
Proof. done. Qed.
Lemma silent_slot i g s :
  (forall sl, sl_tmstamp (g sl) = sl_tmstamp sl) -> silent s (slot_upd i g s).
Proof. intros Hg. split; try done. by apply fmap_alter_same. Qed.
Lemma silent_frame i g s : silent s (fr_upd i g s).
Proof. split; try done. cbn. by rewrite length_alter. Qed.
Create HintDb rx.
#[export] Hint Resolve silent_refl silent_count silent_errcnt silent_frame : rx.

Lemma silent_slots s s' : silent s s' -> length (rv_slots s') = length (rv_slots s).
Proof. intros [H _ _]. apply (f_equal length) in H. by rewrite !length_fmap in H. Qed.

Lemma find_tmstamp_fmap cfg s t :
  rv_find_tmstamp cfg s t =
  fst <$> list_find (fun x => x = t) (take (Z.to_nat (slot_max cfg)) (sl_tmstamp <$> rv_slots s)).
Proof.
  unfold rv_find_tmstamp. rewrite <- fmap_take, list_find_fmap.
  change (list_find ((fun x => x = t) ∘ sl_tmstamp)) with
    (list_find (fun sl => sl_tmstamp sl = t)).
  by destruct (list_find _ _) as [[]|].
Qed.

Lemma silent_find cfg s s' t :
  silent s s' -> rv_find_tmstamp cfg s' t = rv_find_tmstamp cfg s t.
Proof. intros [H _ _]. by rewrite !find_tmstamp_fmap, H. Qed.

Section Assembly.
Context (cfg : rv_config) (port_is_down : Z -> bool) (notify_ret : rv_event -> Z)
  (miss_estimate : Z -> Z -> Z).
Context (N : nat) (base ts : Z) (D : list Z) (len : nat -> Z) (region : nat -> list (Z * Z)).
Abbreviation carries := (carries cfg N base ts D len region).
Abbreviation sum_len := (sum_len len).
Abbreviation agrees := (agrees D region).
Abbreviation handle := (rv_handle_frame_pkt cfg port_is_down notify_ret miss_estimate).
Hypothesis Hstream : stream_ok cfg N len.
(** The estimate of the first packet's index is off by [sh], and the indices of
    all packets then fit the bitmap. *)
Context (sh : Z).
Hypothesis Hsh : 0 <= sh /\ Z.of_nat N + sh <= 8 * st20_frame_bitmap_size cfg /\
  Z.of_nat N + sh < 2147483648.

(** A bitmap that marks the packets of [R]. *)
Definition marks (R : list nat) (bitmap : bitmap_ptr) : Prop :=
  exists l, bitmap = Some l /\ bm_wf l /\ arr_len l = st20_frame_bitmap_size cfg /\
    forall k, (k < N)%nat -> bm_mem l (Z.of_nat k + sh) = bool_decide (k ∈ R).

(** The slot while the packets [R] have arrived; [d] is the frame buffer. *)
Record collecting (f : nat) (R : list nat) (sl : rv_slot) (d : list Z) : Prop := {
  co_frame : sl_frame sl = Some f;
  co_slices : sl_slices sl = None;
  co_got : sl_seq_id_got sl = true;
  co_base : sl_seq_id_base sl = u32 (base - sh);
  co_bitmap : marks R (sl_bitmap sl);
  co_size : 0 <= sl_frame_recv_size sl /\ 0 <= sl_lcore_recv_size sl /\
    sl_frame_recv_size sl + sl_lcore_recv_size sl = sum_len R;
  co_pkts : sl_pkts_received sl = Z.of_nat (length R);
  co_len : length d = length D;
  co_data : agrees R d;
  co_nodup : NoDup R;
  co_range : forall k, k ∈ R -> (k < N)%nat;
}.

(** The state of the session around the slot. *)
Record at_slot (slot f : nat) (s : rv_session) : Prop := {
  as_find : rv_find_tmstamp cfg s ts = Some slot;
  as_slot : (slot < length (rv_slots s))%nat;
  as_frame : (f < length (st20_frames s))%nat;
}.

Lemma at_slot_silent slot f s s' : silent s s' -> at_slot slot f s -> at_slot slot f s'.
Proof.
  intros H [H1 H2 H3]. split.
  - by rewrite (silent_find _ _ _ _ H).
  - by rewrite (silent_slots _ _ H).
  - by rewrite (si_frames _ _ H).
Qed.

(** ** The index of a packet *)

Lemma pkt_idx_value k p sl :
  carries k p -> sl_seq_id_base sl = u32 (base - sh) ->
  (if rfc4175_rtp_seq_id p >=? sl_seq_id_base sl then i32 (rfc4175_rtp_seq_id p - sl_seq_id_base sl)
   else i32 (u32 (rfc4175_rtp_seq_id p + (0xFFFFFFFF - sl_seq_id_base sl) + 1))) = Z.of_nat k + sh.
Proof.
  intros [Hk _ _ _ _ Hseq _ _ _] ->. rewrite Hseq. destruct Hsh as (H1 & _ & H2).
  assert (Hkn : 0 <= Z.of_nat k < Z.of_nat N) by lia. revert H1 H2 Hkn. generalize (Z.of_nat k), (Z.of_nat N).
  clear. intros k n H1 H2 H3.
  assert (Hkey : u32 (u32 (base + k) - u32 (base - sh)) = k + sh).
  { unfold u32. rewrite <- Zminus_mod. replace (base + k - (base - sh)) with (k + sh) by lia.
    apply Z.mod_small. lia. }
  pose proof (u32_range (base + k)) as Ha. pose proof (u32_range (base - sh)) as Hb.
  revert Ha Hb Hkey. generalize (u32 (base + k)), (u32 (base - sh)). intros a b Ha Hb Hkey.
  rewrite Z.geb_leb. destruct (Z.leb_spec b a); mlia.
Qed.

Lemma pkt_index_step k p s_port ct slot f R s :
  carries k p -> at_slot slot f s ->
  collecting f R (slot_at s slot) (ft_data (fr_at s f)) ->
  exists s' bitmap,
    rv_pkt_index cfg p s_port ct slot s =
      ((if decide (k ∈ R) then PktRedundant else PktNew (Z.of_nat k + sh)), s') /\
    silent s s' /\ fr_at s' f = fr_at s f /\
    slot_at s' slot = slot_at s slot <| sl_bitmap := bitmap |> /\
    marks (if decide (k ∈ R) then R else k :: R) bitmap.
Proof.
  intros Hc [Hfind Hsl Hfr] Hco. unfold rv_pkt_index. rewrite (co_got _ _ _ _ Hco).
  rewrite (pkt_idx_value k p _ Hc (co_base _ _ _ _ Hco)).
  assert (Hk : (k < N)%nat) by apply Hc. destruct Hsh as (Hs0 & Hs1 & Hs2).
  assert (Hin : rv_idx_in_bitmap cfg (Z.of_nat k + sh) = true).
  { unfold rv_idx_in_bitmap. apply negb_true_iff, orb_false_iff. split; [apply Z.ltb_ge; lia|].
    rewrite Z.geb_leb. apply Z.leb_gt. lia. }
  rewrite Hin. cbn [negb]. destruct (co_bitmap _ _ _ _ Hco) as (l & Hl & Hwf & HL & Hmem).
  rewrite Hl. destruct (bitmap_set_spec l (st20_frame_bitmap_size cfg) (Z.of_nat k + sh))
    as (l' & Hset & Hwf' & HL' & Hmem'); [done|done|lia|].
  rewrite Hset, (Hmem k Hk). set (s1 := slot_upd slot _ s).
  assert (H1 : silent s s1) by (by apply silent_slot).
  assert (Hs : slot_at s1 slot = slot_at s slot <| sl_bitmap := Some l' |>).
  { unfold s1. by rewrite slot_at_upd_eq. }
  assert (Hm : marks (if decide (k ∈ R) then R else k :: R) (Some l')).
  { exists l'. split; [done|]. split; [done|]. split; [done|]. intros j Hj.
    rewrite Hmem', (Hmem j Hj). destruct (decide (k ∈ R)).
    - destruct (decide (j = k)) as [->|].
      + by rewrite !bool_decide_eq_true_2 by done.
      + rewrite (bool_decide_eq_false_2 (_ = _)) by lia. by rewrite orb_false_r.
    - rewrite <- bool_decide_or. apply bool_decide_ext. rewrite elem_of_cons.
      assert (Z.of_nat j + sh = Z.of_nat k + sh <-> j = k) by lia. tauto. }
  destruct (decide (k ∈ R)) as [HkR|HkR].
  - rewrite bool_decide_eq_true_2 by done. by exists s1, (Some l').
  - rewrite bool_decide_eq_false_2 by done. case_if.
    + exists (count (PORT_REORDERED s_port) 1 s1), (Some l'). split; [done|].
      split; [eapply silent_trans; [exact H1|apply silent_count]|]. done.
    + by exists s1, (Some l').
Qed.

(** ** Storing a new packet *)

(** What the accounting of a packet of [n] bytes does to its slot. *)
Definition slot_after (s_port pkt_idx : Z) (ct : bool) (n : Z) (sl : rv_slot) : rv_slot :=
  let sl := sl <| sl_last_pkt_idx ::= fun l =>
    if pkt_idx >? arr_get 0 l s_port then arr_set l s_port pkt_idx else l |> in
  let sl := if ct then rv_slot_pkt_lcore_add_frame_size n sl else rv_slot_add_frame_size n sl in
  sl <| sl_pkts_received ::= fun n => u32 (n + 1) |> <| sl_pkts_recv_per_port ::= arr_inc s_port |>.

Lemma pkt_store_step p s_port idx ct slot f s :
  at_slot slot f s -> sl_slices (slot_at s slot) = None ->
  exists s', silent s s' /\
    slot_at s' slot = slot_after s_port idx ct (rv_payload_length p) (slot_at s slot) /\
    ft_data (fr_at s' f) =
      foldl (fun d c => splice c.1 c.2 d) (ft_data (fr_at s f)) (rv_pkt_copies cfg p) /\
    rv_pkt_store cfg port_is_down notify_ret miss_estimate p s_port idx ct slot f s =
      if rv_slot_get_frame_size (slot_at s' slot) >=? st20_frame_size cfg
      then rv_slot_full_frame cfg port_is_down notify_ret miss_estimate slot f s' else s'.
Proof.
  intros [_ Hslot Hfr] Hnone. unfold rv_pkt_store. set (s1 := slot_upd slot _ s).
  assert (H1 : silent s s1) by (by apply silent_slot).
  set (s2 := rv_copy_all f _ s1). set (s3 := slot_upd slot _ s2).
  set (s4 := count STAT_PKTS_RECEIVED 1 s3). set (s5 := slot_upd slot _ s4).
  assert (HL1 : length (rv_slots s1) = length (rv_slots s)) by (by apply silent_slots).
  assert (HL3 : length (rv_slots s3) = length (rv_slots s)).
  { unfold s3. cbn. by rewrite length_alter. }
  assert (H5 : silent s s5).
  { eapply silent_trans; [exact H1|]. unfold s5, s4, s3, s2, rv_copy_all.
    eapply silent_trans; [|by apply silent_slot]. eapply silent_trans; [|apply silent_count].
    eapply silent_trans; [apply silent_frame|]. apply silent_slot. by destruct ct. }
  assert (Hs5 : slot_at s5 slot = slot_after s_port idx ct (rv_payload_length p) (slot_at s slot)).
  { unfold s5. rewrite slot_at_upd_eq by (unfold s4; cbn; cbn in HL3; lia).
    unfold s4. rewrite slot_at_count. unfold s3.
    rewrite slot_at_upd_eq by (unfold s2, rv_copy_all, fr_upd; cbn; cbn in HL1; lia).
    unfold s2, rv_copy_all. rewrite slot_at_fr_upd. unfold s1.
    rewrite slot_at_upd_eq by done. by destruct ct. }
  assert (sl_slices (slot_at s5 slot) = None) as ->.
  { rewrite Hs5. unfold slot_after. by destruct ct. }
  exists s5. split; [done|]. split; [done|]. split; [|done].
  change (ft_data (fr_at s2 f) =
    foldl (fun d c => splice c.1 c.2 d) (ft_data (fr_at s f)) (rv_pkt_copies cfg p)).
  unfold s2, rv_copy_all. by rewrite fr_at_upd_eq by done.
Qed.

Lemma slot_after_collecting k p s_port idx ct f R bitmap sl d :
  carries k p -> k ∉ R -> collecting f R sl d -> marks (k :: R) bitmap ->
  let sl' := slot_after s_port idx ct (rv_payload_length p) (sl <| sl_bitmap := bitmap |>) in
  collecting f (k :: R) sl' (foldl (fun d c => splice c.1 c.2 d) d (rv_pkt_copies cfg p)) /\
  rv_slot_get_frame_size sl' = sum_len (k :: R).
Proof.
  intros Hc HkR [Hfr Hslc Hgot Hbase Hbm Hsize Hpkts Hlen Hdata Hnd Hrange] Hm sl'.
  destruct (agrees_copies cfg N base ts D len region k p R d Hc Hlen Hdata) as [HL' Ha'].
  assert (Hnd' : NoDup (k :: R)) by (by constructor).
  assert (Hrange' : forall j, j ∈ k :: R -> (j < N)%nat).
  { intros j Hj. apply elem_of_cons in Hj as [->|Hj]; [apply Hc|by apply Hrange]. }
  pose proof (sum_len_bound cfg N len (k :: R) Hstream Hnd' Hrange') as Hb.
  pose proof (distinct_count N (k :: R) Hnd' Hrange') as Hcnt.
  pose proof (so_small _ _ _ Hstream) as Hsmall. pose proof (so_count _ _ _ Hstream) as HN.
  pose proof (so_len _ _ _ Hstream k ltac:(apply Hc)) as Hpos.
  assert (Hsum : sum_len (k :: R) = len k + sum_len R) by done.
  cbn [length] in Hcnt. unfold sl', slot_after, rv_slot_get_frame_size.
  rewrite (ca_len _ _ _ _ _ _ _ _ _ Hc).
  assert (Hp' : u32 (sl_pkts_received sl + 1) = Z.of_nat (length (k :: R))).
  { rewrite Hpkts. cbn [length]. rewrite u32_id by (unfold is_u32; lia). lia. }
  destruct Hsize as (Hs1 & Hs2 & Hs3).
  assert (HA : u64 (sl_lcore_recv_size sl + len k) = sl_lcore_recv_size sl + len k)
    by (apply u64_id; unfold is_u64; lia).
  assert (HB : u64 (sl_frame_recv_size sl + len k) = sl_frame_recv_size sl + len k)
    by (apply u64_id; unfold is_u64; lia).
  destruct ct; (split; [split; cbn; rewrite ?HA, ?HB; try done; change (foldr (fun k n => len k + n) 0 R) with (sum_len R); lia|]);
    cbn; rewrite ?HA, ?HB; change (foldr (fun k n => len k + n) 0 R) with (sum_len R);
    rewrite u64_id by (unfold is_u64; lia); lia.
Qed.

(** ** Delivery *)

(** The application has been told about the frame, once; the slot keeps the
    timestamp and has no frame any more. *)
Record delivered (slot f : nat) (before : list rv_event) (s : rv_session) : Prop := {
  de_find : rv_find_tmstamp cfg s ts = Some slot;
  de_empty : sl_frame (slot_at s slot) = None;
  de_event : exists meta d, notified s = before ++ [FrameReady f meta d] /\
    me_status meta <> ST_FRAME_STATUS_CORRUPTED /\ me_timestamp meta = ts /\
    me_pkts_total meta = Z.of_nat N /\ me_recv_size meta = st20_frame_size cfg /\
    agrees (seq 0 N) d;
}.

Lemma find_tmstamp_at s slot : rv_find_tmstamp cfg s ts = Some slot -> sl_tmstamp (slot_at s slot) = ts.
Proof.
  intros H. apply fmap_Some in H as ([i sl] & Hf & ->). cbn.
  apply list_find_Some in Hf as (Hl & Ht & _). apply lookup_take_Some in Hl as [Hl _].
  unfold slot_at. by rewrite Hl.
Qed.

Lemma full_frame_delivers slot f R s :
  at_slot slot f s -> collecting f R (slot_at s slot) (ft_data (fr_at s f)) ->
  rv_slot_get_frame_size (slot_at s slot) = sum_len R -> st20_frame_size cfg <= sum_len R ->
  delivered slot f (notified s)
    (rv_slot_full_frame cfg port_is_down notify_ret miss_estimate slot f s).
Proof.
  intros Hat Hco Hsz Hge.
  assert (HR : R ≡ₚ seq 0 N) by (apply (sum_len_full cfg N len); [done|apply Hco|apply Hco|done]).
  pose proof (sum_len_bound cfg N len R Hstream (co_nodup _ _ _ _ Hco) (co_range _ _ _ _ Hco)) as Hb.
  pose proof (find_tmstamp_at s slot (as_find _ _ _ Hat)) as Htm.
  unfold rv_slot_full_frame, rv_frame_notify. set (sl := slot_at s slot) in *.
  set (s1 := if ops_interlaced cfg then _ else s).
  assert (Hfr : fr_at s1 f = fr_at s f) by (unfold s1; by case_if).
  assert (Hn1 : notified s1 = notified s) by (unfold s1; by case_if).
  assert (Ht1 : rv_slots s1 = rv_slots s) by (unfold s1; by case_if). rewrite Hfr.
  set (meta := rv_frame_meta cfg sl (fr_at s f)).
  assert (Hrs : me_recv_size meta = sum_len R) by (unfold meta; exact Hsz).
  assert (Hfull : (me_recv_size meta >=? st20_frame_size cfg) = true).
  { rewrite Hrs, Z.geb_leb. by apply Z.leb_le. }
  rewrite Hfull. set (ev := FrameReady f meta (ft_data (fr_at s f))).
  set (s4 := rv_port_frames sl 1 _).
  assert (Hs4 : notified s4 = notified s1 /\
    sl_tmstamp <$> rv_slots s4 = sl_tmstamp <$> rv_slots s1).
  { unfold s4, rv_port_frames. repeat case_if; (split; [done|]); by apply fmap_alter_same. }
  destruct Hs4 as [Hn4 Ht4]. set (s5 := if notify_ret ev <? 0 then _ else _).
  assert (Hs5 : notified s5 = notified s4 ++ [ev] /\
    sl_tmstamp <$> rv_slots s5 = sl_tmstamp <$> rv_slots s4).
  { unfold s5. case_if; [|done]. split; [done|]. by apply fmap_alter_same. }
  destruct Hs5 as [Hn5 Ht5]. clearbody s5.
  set (s6 := s5 <| st20_frame_pkts := _ |>). split.
  - rewrite <- (as_find _ _ _ Hat), !find_tmstamp_fmap. do 3 f_equal.
    transitivity (sl_tmstamp <$> rv_slots s6); [by apply fmap_alter_same|].
    by rewrite <- Ht1, <- Ht4, <- Ht5.
  - unfold slot_at, slot_upd; cbn. rewrite list_lookup_alter_eq. by destruct (_ !! slot).
  - exists meta, (ft_data (fr_at s f)). split; [cbn; by rewrite Hn5, Hn4, Hn1|]. split.
    + unfold meta, rv_frame_meta in *. cbn [me_status me_recv_size] in *. rewrite Hfull.
      by case_if.
    + split; [done|]. split.
      * change (me_pkts_total meta) with (sl_pkts_received sl). rewrite (co_pkts _ _ _ _ Hco).
        by rewrite HR, length_seq.
      * split; [lia|]. intros k o l j Hk. apply (co_data _ _ _ _ Hco). by rewrite HR.
Qed.

(** ** One packet *)

(** Either the frame is still being collected, with at least the packets of [R],
    or it has been delivered. *)
Definition progress (slot f : nat) (before : list rv_event) (R : list nat) (s : rv_session) : Prop :=
  (exists R', (forall k, k ∈ R -> k ∈ R') /\ at_slot slot f s /\
     collecting f R' (slot_at s slot) (ft_data (fr_at s f)) /\
     sum_len R' < st20_frame_size cfg /\ notified s = before) \/
  delivered slot f before s.

Lemma slot_pkt_progress k p s_port ct slot f R s :
  carries k p -> at_slot slot f s -> collecting f R (slot_at s slot) (ft_data (fr_at s f)) ->
  sum_len R < st20_frame_size cfg ->
  progress slot f (notified s) (k :: R)
    (rv_slot_pkt cfg port_is_down notify_ret miss_estimate p s_port ct slot f s).2.
Proof.
  intros Hc Hat Hco Hlt. unfold rv_slot_pkt. rewrite (ca_no_meta _ _ _ _ _ _ _ _ _ Hc).
  rewrite (ca_bounds _ _ _ _ _ _ _ _ _ Hc). set (s1 := slot_upd slot _ s).
  assert (H1 : silent s s1) by (by apply silent_slot).
  assert (Hat1 : at_slot slot f s1) by (by eapply at_slot_silent).
  assert (Hco1 : collecting f R (slot_at s1 slot) (ft_data (fr_at s1 f))).
  { unfold s1. rewrite slot_at_upd_eq, fr_at_slot_upd by apply Hat. by destruct Hco. }
  destruct (pkt_index_step k p s_port ct slot f R s1 Hc Hat1 Hco1)
    as (s2 & bitmap & -> & H2 & Hf2 & Hs2 & Hm). clear Hat Hco.
  assert (Hat2 : at_slot slot f s2) by (by eapply at_slot_silent).
  rewrite <- (si_events _ _ H1), <- (si_events _ _ H2).
  destruct (decide (k ∈ R)) as [HkR|HkR]; cbn [snd].
  - left. exists R. split; [intros j Hj; apply elem_of_cons in Hj as [->|]; done|].
    set (s3 := slot_upd slot _ (count _ _ s2)).
    assert (H3 : silent s2 s3).
    { unfold s3. eapply silent_trans; [apply silent_count|by apply silent_slot]. }
    split; [by eapply at_slot_silent|]. split; [|split; [done|by apply H3]].
    unfold s3. rewrite slot_at_upd_eq by apply Hat2.
    rewrite slot_at_count, fr_at_slot_upd, fr_at_count, Hf2, Hs2. by destruct Hco1.
  - destruct (pkt_store_step p s_port (Z.of_nat k + sh) ct slot f s2 Hat2)
      as (s3 & H3 & Hs3 & Hd3 & ->).
    { rewrite Hs2. apply Hco1. }
    destruct (slot_after_collecting k p s_port (Z.of_nat k + sh) ct f R bitmap _ _ Hc HkR Hco1 Hm)
      as [Hco3 Hsz3].
    rewrite Hs2 in Hs3. rewrite Hf2 in Hd3. rewrite <- Hs3 in Hco3, Hsz3. rewrite <- Hd3 in Hco3.
    assert (Hat3 : at_slot slot f s3) by (by eapply at_slot_silent).
    rewrite <- (si_events _ _ H3). rewrite Hsz3, Z.geb_leb.
    destruct (Z.leb_spec (st20_frame_size cfg) (sum_len (k :: R))).
    + right. by eapply full_frame_delivers.
    + left. by exists (k :: R).
Qed.

(** The session as the handler sees it after the retransmission counter. *)
Lemma handle_progress k p s_port ct slot f before R s :
  carries k p -> progress slot f before R s -> progress slot f before (k :: R) (handle p s_port ct s).2.
Proof.
  intros Hc Hp. unfold rv_handle_frame_pkt. set (s1 := if pk_retransmit p then _ else s).
  rewrite (ca_filter _ _ _ _ _ _ _ _ _ Hc). unfold rv_slot_by_tmstamp.
  rewrite (ca_tmstamp _ _ _ _ _ _ _ _ _ Hc).
  destruct Hp as [(R' & HR & Hat & Hco & Hlt & Hn)|[Hfind Hempty Hev]].
  - assert (H1 : silent s s1) by (unfold s1; case_if; [apply silent_count|apply silent_refl]).
    rewrite (silent_find _ _ _ _ H1), (as_find _ _ _ Hat).
    assert (slot_at s1 slot = slot_at s slot) as Hs1 by (unfold s1; by case_if).
    assert (fr_at s1 f = fr_at s f) as Hf1 by (unfold s1; by case_if).
    rewrite Hs1, (co_frame _ _ _ _ Hco). set (s2 := s1 <| redundant_error_cnt ::= _ |>).
    assert (H2 : silent s s2) by (eapply silent_trans; [exact H1|apply silent_errcnt]).
    rewrite <- Hn, <- (si_events _ _ H2).
    destruct (slot_pkt_progress k p s_port ct slot f R' s2 Hc) as [(R'' & HR'' & Hrest)|Hdel].
    + by eapply at_slot_silent.
    + change (collecting f R' (slot_at s1 slot) (ft_data (fr_at s1 f))). by rewrite Hs1, Hf1.
    + done.
    + left. exists R''. split; [|done]. intros j Hj. apply HR''.
      apply elem_of_cons in Hj as [->|Hj]; [by left|]. right. by apply HR.
    + by right.
  - right. assert (H1 : silent s s1) by (unfold s1; case_if; [apply silent_count|apply silent_refl]).
    rewrite (silent_find _ _ _ _ H1), Hfind.
    assert (slot_at s1 slot = slot_at s slot) as Hs1 by (unfold s1; by case_if).
    rewrite Hs1, Hempty. cbn [snd].
    set (s2 := slot_upd slot _ _). set (s3 := s2 <| redundant_error_cnt ::= _ |>).
    assert (H3 : silent s s3).
    { eapply silent_trans; [exact H1|]. eapply silent_trans; [apply (silent_count STAT_PKTS_REDUNDANT 1)|].
      eapply silent_trans; [|apply silent_errcnt]. by apply silent_slot. }
    split; [by rewrite (silent_find _ _ _ _ H3)| |by rewrite (si_events _ _ H3)].
    change (sl_frame (slot_at s2 slot) = None). unfold s2, slot_at, slot_upd; cbn.
    rewrite list_lookup_alter_eq. unfold slot_at in Hs1, Hempty.
    rewrite <- Hs1 in Hempty. by destruct (rv_slots s1 !! slot).
Qed.

(** ** The first packet of a frame *)

(** What opening a slot leaves alone, whatever the slot held before. *)
Record keeps (s s' : rv_session) : Prop := {
  ke_bitmap : sl_bitmap <$> rv_slots s' = sl_bitmap <$> rv_slots s;
  ke_slices : sl_slices <$> rv_slots s' = sl_slices <$> rv_slots s;
  ke_tm : sl_tmstamp <$> rv_slots s' = sl_tmstamp <$> rv_slots s;
  ke_data : ft_data <$> st20_frames s' = ft_data <$> st20_frames s;
  ke_idx : slot_idx s' = slot_idx s;
}.
Lemma keeps_refl s : keeps s s.
Proof. done. Qed.
Lemma keeps_trans s1 s2 s3 : keeps s1 s2 -> keeps s2 s3 -> keeps s1 s3.
Proof. intros [] []. split; congruence. Qed.
Lemma keeps_count k n s : keeps s (count k n s).
Proof. done. Qed.
Lemma keeps_notify e s : keeps s (notify e s).
Proof. done. Qed.
Lemma keeps_slot i g s :
  (forall sl, sl_bitmap (g sl) = sl_bitmap sl /\ sl_slices (g sl) = sl_slices sl /\
     sl_tmstamp (g sl) = sl_tmstamp sl) -> keeps s (slot_upd i g s).
Proof. intros Hg. split; try done; apply fmap_alter_same; apply Hg. Qed.
Lemma keeps_put f s : keeps s (rv_put_frame f s).
Proof. split; try done. by apply fmap_alter_same. Qed.

Lemma keeps_loss slot n s : keeps s (rv_slot_account_per_port_loss cfg port_is_down slot n s).
Proof.
  apply (for_from_inv (fun _ s' => keeps s s')); [done|]. intros k s' _ H.
  eapply keeps_trans; [exact H|]. unfold rv_port_loss. repeat case_if; done.
Qed.

Lemma keeps_frame_notify slot f s :
  keeps s (rv_frame_notify cfg port_is_down notify_ret miss_estimate slot f s).
Proof.
  unfold rv_frame_notify. set (s1 := if ops_interlaced cfg then _ else s).
  assert (H1 : keeps s s1) by (unfold s1; by case_if). eapply keeps_trans; [exact H1|]. clearbody s1.
  case_if.
  - set (s4 := rv_port_frames _ 1 _). assert (H4 : keeps s1 s4).
    { eapply (keeps_trans s1 (slot_upd slot (fun sl => sl <| sl_loss_pending := true |>) s1));
        [by apply keeps_slot|]. unfold s4, rv_port_frames. by repeat case_if. }
    eapply keeps_trans; [exact H4|]. case_if; [|done]. set (s5 := notify _ s4).
    assert (H5 : keeps s4 s5) by done. eapply keeps_trans; [exact H5|]. clearbody s5.
    set (s6 := slot_upd slot _ _). assert (H6 : keeps s5 s6); [|by destruct H6; split].
    eapply keeps_trans; [apply (keeps_put f)|]. by apply keeps_slot.
  - set (s4 := count CBS_INCOMPLETE_FRAME_CNT 1 _). assert (H4 : keeps s1 s4).
    { unfold s4. eapply keeps_trans; [|apply keeps_count]. eapply keeps_trans; [|apply keeps_loss].
      by case_if. }
    eapply keeps_trans; [exact H4|]. case_if; [done|].
    eapply keeps_trans; [apply (keeps_put f)|]. by apply keeps_slot.
Qed.

Lemma keeps_recycle slot s :
  keeps s (rv_slot_recycle cfg port_is_down notify_ret miss_estimate slot s).
Proof.
  unfold rv_slot_recycle. set (s1 := match sl_frame (slot_at s slot) with Some _ => _ | None => s end).
  assert (H1 : keeps s s1).
  { unfold s1. case_match; [|done]. eapply keeps_trans; [apply keeps_frame_notify|by apply keeps_slot]. }
  eapply keeps_trans; [exact H1|]. case_if; [|done].
  eapply keeps_trans; [apply keeps_loss|by apply keeps_slot].
Qed.

(** The sessions considered: frame level, buffers of the size of [D]. *)
Record rx_ready (s : rv_session) : Prop := {
  re_max : 0 < slot_max cfg <= arr_len (rv_slots s);
  re_slots : Forall (fun sl => sl_slices sl = None /\ sl_bitmap sl <> None) (rv_slots s);
  re_frames : Forall (fun fr => length (ft_data fr) = length D) (st20_frames s);
}.

(** A slot just opened for a timestamp. *)
Record fresh_slot (f : nat) (sl : rv_slot) (d : list Z) : Prop := {
  fs_frame : sl_frame sl = Some f;
  fs_slices : sl_slices sl = None;
  fs_got : sl_seq_id_got sl = false;
  fs_bitmap : sl_bitmap sl = Some (bm_zero (st20_frame_bitmap_size cfg));
  fs_size : sl_frame_recv_size sl = 0 /\ sl_lcore_recv_size sl = 0 /\ sl_pkts_received sl = 0;
  fs_data : length d = length D;
}.

Lemma find_after_open s slot :
  rv_find_tmstamp cfg s ts = None -> (slot < length (rv_slots s))%nat ->
  Z.of_nat slot < slot_max cfg -> forall s', 
  sl_tmstamp <$> rv_slots s' = <[slot := ts]> (sl_tmstamp <$> rv_slots s) ->
  rv_find_tmstamp cfg s' ts = Some slot.
Proof.
  rewrite !find_tmstamp_fmap. intros Hnone Hslot Hmax s' Htm. rewrite find_tmstamp_fmap, Htm.
  apply fmap_None, list_find_None in Hnone.
  assert (list_find (fun x => x = ts) (take (Z.to_nat (slot_max cfg))
    (<[slot := ts]> (sl_tmstamp <$> rv_slots s))) = Some (slot, ts)) as ->; [|done].
  apply list_find_Some. rewrite lookup_take_lt by lia.
  split; [apply list_lookup_insert_eq; by rewrite length_fmap|]. split; [done|].
  intros j y Hj Hlt. rewrite lookup_take_lt, list_lookup_insert_ne in Hj by lia.
  apply (Forall_lookup_1 _ _ j _ Hnone). by rewrite lookup_take_lt by lia.
Qed.

Lemma slot_opened slot s s1 :
  rx_ready s ->
  rv_slot_by_tmstamp cfg port_is_down notify_ret miss_estimate ts s = (Some slot, false, s1) ->
  exists f, at_slot slot f s1 /\ fresh_slot f (slot_at s1 slot) (ft_data (fr_at s1 f)).
Proof.
  intros [Hmax Hslots Hframes]. unfold rv_slot_by_tmstamp.
  destruct (rv_find_tmstamp cfg s ts) as [i|] eqn:Hfind; [done|]. case_if; [done|].
  set (idx := (slot_idx s + 1) mod slot_max cfg). set (sl0 := Z.to_nat idx).
  pose proof (Z.mod_pos_bound (slot_idx s + 1) (slot_max cfg) ltac:(lia)) as Hidx. fold idx in Hidx.
  pose proof (keeps_recycle sl0 s) as Hk. set (s2 := rv_slot_recycle _ _ _ _ sl0 s) in *.
  set (s3 := slot_upd sl0 _ s2). set (s4 := s3 <| slot_idx := idx |>).
  destruct (rv_get_frame s4) as [[f|] s5] eqn:Eg; [|done]. intros [= <- <-].
  unfold rv_get_frame in Eg. destruct (list_find _ _) as [[j fr]|] eqn:Ef; [|done].
  injection Eg as -> <-. apply list_find_Some in Ef as (Hl & _ & _).
  change (st20_frames s4) with (st20_frames s2) in Hl.
  assert (HL : length (rv_slots s2) = length (rv_slots s)).
  { destruct Hk as [_ _ Ht _ _]. apply (f_equal length) in Ht. by rewrite !length_fmap in Ht. }
  assert (Hin : (sl0 < length (rv_slots s))%nat) by (unfold sl0, arr_len in *; lia).
  exists f. set (g := fun sl => sl <| sl_frame := Some f |>
    <| sl_bitmap := (fun _ => bm_zero (st20_frame_bitmap_size cfg)) <$> sl_bitmap sl |>
    <| sl_slices := (fun _ => slice_info_zero) <$> sl_slices sl |>).
  split; [split|].
  - eapply find_after_open; [exact Hfind|done|unfold sl0; lia|].
    rewrite <- (ke_tm _ _ Hk). apply list_eq. intros j. rewrite !list_lookup_fmap. cbn.
    destruct (decide (sl0 = j)) as [<-|Hne].
    + rewrite !list_lookup_alter_eq, list_lookup_insert_eq by (rewrite length_fmap; lia).
      destruct (rv_slots s2 !! sl0) eqn:E'; [done|]. apply lookup_ge_None in E'. lia.
    + by rewrite !list_lookup_alter_ne, list_lookup_insert_ne, list_lookup_fmap.
  - cbn. rewrite !length_alter. lia.
  - cbn. rewrite !length_alter. by eapply lookup_lt_Some.
  - assert (Hsl2 : sl_slices (slot_at s2 sl0) = None /\ sl_bitmap (slot_at s2 sl0) <> None).
    { pose proof (lookup_fmap_eq sl_slices _ _ slot_zero sl0 (ke_slices _ _ Hk)) as E1.
      pose proof (lookup_fmap_eq sl_bitmap _ _ slot_zero sl0 (ke_bitmap _ _ Hk)) as E2.
      unfold slot_at. rewrite E1, E2. destruct (rv_slots s !! sl0) as [sl|] eqn:E'.
      - by apply (Forall_lookup_1 _ _ _ _ Hslots E').
      - apply lookup_ge_None in E'. lia. }
    assert (Hd2 : length (ft_data fr) = length D).
    { pose proof (ke_data _ _ Hk) as E1. apply (f_equal (fun l => l !! f)) in E1.
      rewrite !list_lookup_fmap, Hl in E1. cbn in E1. symmetry in E1.
      apply fmap_Some in E1 as (fr' & Hl' & ->). by apply (Forall_lookup_1 _ _ _ _ Hframes Hl'). }
    destruct Hsl2 as [Hn Hb].
    assert (Hat : slot_at (slot_upd sl0 g (fr_upd f (fun fr => fr <| ft_user_meta_data_size := 0 |>)
        (fr_upd f (fun f => f <| ft_refcnt ::= fun n => i32 (n + 1) |>) s4))) sl0 =
      g (rv_slot_init_frame_size (slot_at s2 sl0) <| sl_tmstamp := ts |> <| sl_seq_id_got := false |>
            <| sl_pkts_received := 0 |> <| sl_pkts_recv_per_port := [0; 0] |>)).
    { rewrite slot_at_upd_eq by (cbn; rewrite length_alter; lia). f_equal. rewrite !slot_at_fr_upd.
      change (slot_at s4 sl0) with (slot_at s3 sl0). unfold s3. by rewrite slot_at_upd_eq by lia. }
    rewrite Hat. split; cbn; try done.
    + by rewrite Hn.
    + by destruct (sl_bitmap (slot_at s2 sl0)).
    + unfold fr_at, slot_upd, fr_upd; cbn. rewrite !list_lookup_alter_eq.
      change (st20_frames s4) with (st20_frames s2). by rewrite Hl.
Qed.

Lemma first_pkt_progress k p s_port slot f s :
  carries k p -> at_slot slot f s -> fresh_slot f (slot_at s slot) (ft_data (fr_at s f)) ->
  rv_first_pkt_idx cfg p = Z.of_nat k + sh ->
  progress slot f (notified s) [k]
    (rv_slot_pkt cfg port_is_down notify_ret miss_estimate p s_port true slot f s).2.
Proof.
  intros Hc Hat Hfs Hidx. unfold rv_slot_pkt. rewrite (ca_no_meta _ _ _ _ _ _ _ _ _ Hc).
  rewrite (ca_bounds _ _ _ _ _ _ _ _ _ Hc). set (s1 := slot_upd slot _ s).
  assert (H1 : silent s s1) by (by apply silent_slot).
  assert (Hat1 : at_slot slot f s1) by (by eapply at_slot_silent).
  assert (Hs1 : slot_at s1 slot = slot_at s slot <| sl_second_field := pk_second_field p |>).
  { unfold s1. by rewrite slot_at_upd_eq by apply Hat. }
  assert (Hk : (k < N)%nat) by apply Hc. destruct Hsh as (Hs0 & Hs1' & Hs2).
  unfold rv_pkt_index. rewrite Hs1. cbn [sl_seq_id_got sl_bitmap modify_field].
  rewrite (fs_got _ _ _ Hfs), (fs_bitmap _ _ _ Hfs), Hidx. cbn [negb].
  assert (Hin : rv_idx_in_bitmap cfg (Z.of_nat k + sh) = true).
  { unfold rv_idx_in_bitmap. apply negb_true_iff, orb_false_iff. split; [apply Z.ltb_ge; lia|].
    rewrite Z.geb_leb. apply Z.leb_gt. lia. }
  rewrite Hin. cbn [negb]. assert (Hbs : 0 <= st20_frame_bitmap_size cfg) by lia.
  destruct (bitmap_set_spec (bm_zero (st20_frame_bitmap_size cfg)) (st20_frame_bitmap_size cfg)
    (Z.of_nat k + sh) (bm_zero_wf _) (bm_zero_len _ Hbs) ltac:(lia)) as (l' & -> & Hwf' & HL' & Hmem').
  set (s2 := slot_upd slot _ s1).
  assert (H2 : silent s1 s2) by (by apply silent_slot).
  assert (Hat2 : at_slot slot f s2) by (by eapply at_slot_silent).
  set (slx := slot_at s slot <| sl_second_field := pk_second_field p |>
    <| sl_seq_id_base := u32 (base - sh) |> <| sl_seq_id_got := true |>).
  assert (Hs2e : slot_at s2 slot = slx <| sl_bitmap := Some l' |>).
  { unfold s2. rewrite slot_at_upd_eq by apply Hat1. rewrite Hs1. unfold slx.
    rewrite (ca_seq _ _ _ _ _ _ _ _ _ Hc).
    assert (u32 (u32 (base + Z.of_nat k) - (Z.of_nat k + sh)) = u32 (base - sh)) as ->; [|done].
    unfold u32. rewrite Zminus_mod_idemp_l. f_equal. lia. }
  assert (Hcx : collecting f [] slx (ft_data (fr_at s f))).
  { destruct Hfs as [F1 F2 F3 F4 (F5 & F6 & F7) F8]. unfold slx.
    split; cbn; try done; [|rewrite F5, F6; done|by intros ? ? ? ? Hin0%elem_of_nil|constructor
      |by intros ? Hin0%elem_of_nil].
    exists (bm_zero (st20_frame_bitmap_size cfg)). split; [done|]. split; [apply bm_zero_wf|].
    split; [by apply bm_zero_len|]. intros j Hj. rewrite bm_zero_mem. symmetry.
    apply bool_decide_eq_false_2. by intros ?%elem_of_nil. }
  assert (Hm : marks [k] (Some l')).
  { exists l'. split; [done|]. split; [done|]. split; [done|]. intros j Hj.
    rewrite Hmem', bm_zero_mem. cbn [orb]. apply bool_decide_ext. rewrite list_elem_of_singleton. lia. }
  assert (Hf2 : fr_at s2 f = fr_at s f) by done.
  rewrite <- (si_events _ _ H1), <- (si_events _ _ H2).
  destruct (pkt_store_step p s_port (Z.of_nat k + sh) true slot f s2 Hat2)
    as (s3 & H3 & Hs3 & Hd3 & Heq).
  { rewrite Hs2e. apply Hfs. }
  cbn [snd]. rewrite Heq.
  destruct (slot_after_collecting k p s_port (Z.of_nat k + sh) true f [] (Some l') _ _ Hc
    ltac:(by intros ?%elem_of_nil) Hcx Hm) as [Hco3 Hsz3].
  rewrite Hs2e in Hs3. rewrite Hf2 in Hd3. rewrite <- Hs3 in Hco3, Hsz3. rewrite <- Hd3 in Hco3.
  assert (Hat3 : at_slot slot f s3) by (by eapply at_slot_silent).
  rewrite <- (si_events _ _ H3). rewrite Hsz3, Z.geb_leb.
  destruct (Z.leb_spec (st20_frame_size cfg) (sum_len [k])).
  - right. by eapply full_frame_delivers.
  - left. by exists [k].
Qed.

(** An arrival: a packet, its number in the frame, its port and its thread. *)
Record arrival := mk_arrival { ar_k : nat; ar_pkt : rv_pkt; ar_port : Z; ar_ctrl : bool }.
Definition receive (s : rv_session) (a : arrival) : rv_session :=
  (handle (ar_pkt a) (ar_port a) (ar_ctrl a) s).2.

Lemma receive_progress rest slot f before R s :
  Forall (fun a => carries (ar_k a) (ar_pkt a)) rest -> progress slot f before R s ->
  progress slot f before (rev (ar_k <$> rest) ++ R) (foldl receive s rest).
Proof.
  revert R s. induction rest as [|a rest IH]; intros R s HF Hp; [done|].
  inversion HF; subst. cbn [foldl fmap list_fmap rev]. rewrite <- app_assoc. cbn [app].
  apply IH; [done|]. by apply handle_progress.
Qed.

Lemma progress_complete slot f before R s :
  progress slot f before R s -> (forall k, (k < N)%nat -> k ∈ R) -> delivered slot f before s.
Proof.
  intros [(R' & HR & _ & Hco & Hlt & _)|H] Hall; [|done]. exfalso.
  destruct (sum_len_split cfg N len R' Hstream (co_nodup _ _ _ _ Hco) (co_range _ _ _ _ Hco))
    as (R'' & Hp & Hsum & Hr).
  destruct R'' as [|k R'']; [unfold sum_len in *; cbn in *; lia|].
  assert (Hk : k ∈ R') by (apply HR, Hall, Hr; by left).
  assert (Hnd : NoDup (R' ++ k :: R'')) by (rewrite Hp; apply NoDup_seq).
  apply NoDup_app in Hnd as (_ & Hd & _). destruct (Hd k Hk). by left.
Qed.

Lemma reassembly s s1 slot a rest :
  rx_ready s ->
  rv_slot_by_tmstamp cfg port_is_down notify_ret miss_estimate ts s = (Some slot, false, s1) ->
  carries (ar_k a) (ar_pkt a) -> ar_ctrl a = true -> pk_retransmit (ar_pkt a) = false ->
  rv_first_pkt_idx cfg (ar_pkt a) = Z.of_nat (ar_k a) + sh ->
  Forall (fun a => carries (ar_k a) (ar_pkt a)) rest ->
  (forall k, (k < N)%nat -> k ∈ ar_k a :: (ar_k <$> rest)) ->
  exists f, delivered slot f (notified s1) (foldl receive s (a :: rest)).
Proof.
  intros Hready Hopen Hc Hct Hrt Hidx HF Hall.
  destruct (slot_opened slot s s1 Hready Hopen) as (f & Hat & Hfs). exists f. cbn [foldl].
  assert (Hp : progress slot f (notified s1) [ar_k a] (receive s a)).
  { unfold receive, rv_handle_frame_pkt. rewrite Hct, Hrt, (ca_filter _ _ _ _ _ _ _ _ _ Hc).
    rewrite (ca_tmstamp _ _ _ _ _ _ _ _ _ Hc), Hopen, (fs_frame _ _ _ Hfs).
    set (s2 := s1 <| redundant_error_cnt ::= _ |>). assert (H2 : silent s1 s2) by apply silent_errcnt.
    change (notified s1) with (notified s2).
    apply first_pkt_progress; [done|by eapply at_slot_silent|exact Hfs|done]. }
  eapply progress_complete; [by apply receive_progress|]. intros k Hk. specialize (Hall k Hk).
  apply elem_of_cons in Hall as [->|Hin]; apply elem_of_app; [right; by left|left].
  apply list_elem_of_In. rewrite <- in_rev. by apply list_elem_of_In.
Qed.
End Assembly.

(** ** The property *)

(** C2: Let the packets of one frame arrive in any order, any number of times and
    on either port, the first one at the control thread, on a session with a free
    frame buffer for a new timestamp. Then the application gets exactly one
    [FrameReady] for it, not marked corrupted, with all [N] packets counted, the
    whole frame size received and, wherever a packet puts bytes, the bytes of the
    frame that was sent; later copies of the packets change nothing of that. The
    index guessed for the first packet may be too high by [sh], as long as all
    indices fit the bitmap. *)
Theorem rv_frame_reassembled cfg port_is_down notify_ret miss_estimate N base ts D len region sh
    s s1 slot a rest :
  stream_ok cfg N len ->
  0 <= sh /\ Z.of_nat N + sh <= 8 * st20_frame_bitmap_size cfg /\ Z.of_nat N + sh < 2147483648 ->
  rx_ready cfg D s ->
  rv_slot_by_tmstamp cfg port_is_down notify_ret miss_estimate ts s = (Some slot, false, s1) ->
  carries cfg N base ts D len region (ar_k a) (ar_pkt a) ->
  ar_ctrl a = true -> pk_retransmit (ar_pkt a) = false ->
  rv_first_pkt_idx cfg (ar_pkt a) = Z.of_nat (ar_k a) + sh ->
  Forall (fun a => carries cfg N base ts D len region (ar_k a) (ar_pkt a)) rest ->
  (forall k, (k < N)%nat -> k ∈ ar_k a :: (ar_k <$> rest)) ->
  exists f, delivered cfg N ts D region slot f (notified s1)
    (foldl (receive cfg port_is_down notify_ret miss_estimate) s (a :: rest)).
Proof.
  intros Hst Hsh Hready Hopen Hc Hct Hrt Hidx HF Hall.
  by eapply (reassembly cfg port_is_down notify_ret miss_estimate N base ts D len region Hst sh Hsh).
Qed.

(** A frame of two lines of four pixels, 4:2:2 at 10 bit, one packet per line. *)
Definition demo_cfg : rv_config :=
  mk_rv_config 2 96 0 false 4 2 false 10 10 20 20 1 5 2 10 1 2.
Definition demo_frame : list Z := seqZ 100 20.
Definition demo_pkt (k : nat) : rv_pkt :=
  mk_rv_pkt (Z.of_nat k) 0 10 0 7 (u16 (65535 + Z.of_nat k)) (if Nat.eqb k 0 then 65535 else 0) 96 0
    72 72 0 (take 10 (drop (10 * k) demo_frame)).
Definition demo_session : rv_session :=
  mk_rv_session (replicate 2 (mk_frame_trans 0 (replicate 20 0) [] 0 0))
    (replicate 2 (slot_zero <| sl_bitmap := Some (bm_zero 1) |>)) (-1) [0; 0] 0 (fun _ => 0) [].
Definition demo_arrival (k : nat) (port : Z) : arrival := mk_arrival k (demo_pkt k) port true.
Definition demo_opened : rv_session :=
  (rv_slot_by_tmstamp demo_cfg (fun _ => false) (fun _ => 0) (fun _ _ => 0) 7 demo_session).2.

Lemma demo_carries k :
  (k < 2)%nat ->
  carries demo_cfg 2 4294967295 7 demo_frame (fun _ => 10) (fun k => [(10 * Z.of_nat k, 10)]) k
    (demo_pkt k).
Proof.
  intros Hk. destruct k as [|[|k]]; [| |lia]; split; try (vm_compute; reflexivity); try lia;
    repeat constructor; vm_compute; congruence.
Qed.

Lemma rv_frame_reassembled_witness :
  exists f, delivered demo_cfg 2 7 demo_frame (fun k => [(10 * Z.of_nat k, 10)]) 0 f
    (notified demo_opened)
    (foldl (receive demo_cfg (fun _ => false) (fun _ => 0) (fun _ _ => 0)) demo_session
       (demo_arrival 1 1 :: [demo_arrival 1 0; demo_arrival 0 0; demo_arrival 0 1])).
Proof.
  apply (rv_frame_reassembled demo_cfg (fun _ => false) (fun _ => 0) (fun _ _ => 0) 2 4294967295 7
    demo_frame (fun _ => 10) (fun k => [(10 * Z.of_nat k, 10)]) 0 demo_session demo_opened 0
    (demo_arrival 1 1) [demo_arrival 1 0; demo_arrival 0 0; demo_arrival 0 1]).
  - split; [lia|vm_compute; reflexivity|vm_compute; reflexivity|lia].
  - cbn. lia.
  - split; [split; vm_compute; congruence|repeat constructor; discriminate|repeat constructor].
  - reflexivity.
  - apply demo_carries. cbn. lia.
  - reflexivity.
  - reflexivity.
  - reflexivity.
  - do 3 (apply Forall_cons; split; [apply demo_carries; cbn; lia|]). by apply Forall_nil.
  - intros k Hk. destruct k as [|[|k]]; [| |lia]; cbn; rewrite !elem_of_cons; tauto.
Defined.
