(* ===== verification/RxSlices.v ===== *)
(** Slice notification of the ST 2110-20 receiver ([RxVideo.rv_slice_add]): the
    main slice is the part of the frame received without a gap from its start,
    whatever the order of the packets, and the lines announced to the application
    are those of the main slice. *)
From S2P Require Import Prelude SeqNum Bitmap RxVideo.

(** ** Coverage

    How many of the pieces (offset, size) contain byte [j]. *)
Definition cnt (l : list (Z * Z)) (j : Z) : Z :=
  foldr (fun e n => (if (e.1 <=? j) && (j <? e.1 + e.2) then 1 else 0) + n) 0 l.

Lemma cnt_cons o sz l j :
  cnt ((o, sz) :: l) j = (if (o <=? j) && (j <? o + sz) then 1 else 0) + cnt l j.
Proof. done. Qed.
Lemma cnt_snoc l o sz j :
  cnt (l ++ [(o, sz)]) j = cnt l j + cnt [(o, sz)] j.
Proof. induction l as [|[o' sz'] l IH]; cbn [app];
  [by change (cnt [] j) with 0|]. rewrite !(cnt_cons o' sz'), IH. lia. Qed.
Lemma cnt_nonneg l j : 0 <= cnt l j.
Proof. induction l as [|[o sz] l IH]; [done|]. rewrite cnt_cons. case_if; lia. Qed.

(** A piece that starts where another ends makes one longer piece. *)
Lemma cnt_glue o sz size j :
  0 <= sz -> 0 <= size -> cnt [(o, sz + size)] j = cnt [(o, sz)] j + cnt [(o + sz, size)] j.
Proof.
  intros. unfold cnt. cbn [foldr fst snd].
  destruct (Z.leb_spec o j), (Z.ltb_spec j (o + (sz + size))), (Z.leb_spec (o + sz) j),
    (Z.ltb_spec j (o + sz)), (Z.ltb_spec j (o + sz + size)); cbn [andb]; lia.
Qed.
Lemma cnt_empty o j : cnt [(o, 0)] j = 0.
Proof.
  unfold cnt. cbn [foldr fst snd]. destruct (Z.leb_spec o j), (Z.ltb_spec j (o + 0)); cbn [andb]; lia.
Qed.
Lemma cnt_cons_app o sz l j : cnt ((o, sz) :: l) j = cnt [(o, sz)] j + cnt l j.
Proof. rewrite !cnt_cons. change (cnt [] j) with 0. lia. Qed.

(** Entries of the slice table below [bd]; [used] counts the ones in use. *)
Definition entry_ok (bd : Z) (e : Z * Z) : Prop := 0 <= e.1 /\ 0 <= e.2 /\ e.1 + e.2 <= bd.
Definition used (l : list (Z * Z)) : Z := arr_len (base.filter (fun e => e.2 <> 0) l).
(** No entry continues the main slice of [main] bytes. *)
Definition merged_up (main : Z) (l : list (Z * Z)) : Prop :=
  Forall (fun e => e.2 <> 0 -> e.1 <> main) l.

Lemma used_cons e l : used (e :: l) = (if decide (e.2 <> 0) then 1 else 0) + used l.
Proof. unfold used, arr_len. rewrite filter_cons. case_decide; cbn; lia. Qed.
Lemma used_range l : 0 <= used l <= arr_len l.
Proof.
  induction l as [|e l IH]; [done|]. rewrite used_cons. unfold arr_len in *. cbn.
  case_decide; lia.
Qed.
Lemma used_0 main l : used l = 0 -> merged_up main l.
Proof.
  unfold merged_up. induction l as [|e l IH]; intros H; [done|]. rewrite used_cons in H.
  pose proof (used_range l). case_decide; [lia|]. constructor; [done|apply IH; lia].
Qed.

Section Bounded.
Context (bd : Z) (Hbd : bd < 4294967296).

Lemma slice_place_spec offset size l :
  Forall (entry_ok bd) l -> 0 <= offset -> 0 < size -> offset + size <= bd ->
  match slice_place offset size l with
  | None => True
  | Some (l', fresh) =>
      Forall (entry_ok bd) l' /\ length l' = length l /\
      used l' = used l + (if fresh then 1 else 0) /\
      (forall main, offset <> main -> merged_up main l -> merged_up main l') /\
      forall j, cnt l' j = cnt l j + cnt [(offset, size)] j
  end.
Proof.
  intros HF Ho Hs Hb. induction HF as [|[o sz] l He HF IH]; [done|]. cbn [slice_place].
  unfold entry_ok in He. cbn [fst snd] in He.
  destruct (Z.eqb_spec sz 0) as [->|Hsz].
  { split_and!; [constructor; [unfold entry_ok; cbn; lia|done]|done| | |].
    - rewrite !used_cons. cbn. repeat case_decide; lia.
    - intros main Hm Hmu. inversion Hmu; subst. by constructor.
    - intros j. rewrite (cnt_cons_app offset size l), (cnt_cons_app o 0 l), cnt_empty. lia. }
  rewrite u32_id by (unfold is_u32; lia).
  destruct (Z.eqb_spec offset (sz + o)) as [->|Hne].
  { rewrite u32_id by (unfold is_u32; lia). split_and!; [|done| | |].
    - constructor; [|done]. unfold entry_ok. cbn. lia.
    - rewrite !used_cons. cbn. repeat case_decide; lia.
    - intros main Hm Hmu. inversion Hmu; subst. constructor; [|done]. cbn in *. auto.
    - intros j. rewrite (cnt_cons_app o (sz + size) l), (cnt_cons_app o sz l), cnt_glue by lia.
      replace (sz + o) with (o + sz) by lia. lia. }
  destruct (slice_place offset size l) as [[l' fresh]|]; [|done]. cbn [mbind option_bind].
  destruct IH as (H1 & H2 & H3 & H4 & H5). split_and!.
  - by constructor.
  - cbn [length]. by rewrite H2.
  - rewrite !used_cons. cbn. lia.
  - intros main Hm Hmu. inversion Hmu; subst. constructor; [done|by apply H4].
  - intros j. specialize (H5 j). rewrite (cnt_cons_app o sz l'), (cnt_cons_app o sz l). lia.
Qed.

Lemma slice_merge_pass_spec l : forall main,
  Forall (entry_ok bd) l -> 0 <= main <= bd ->
  let '(main', l', n) := slice_merge_pass main l in
  Forall (entry_ok bd) l' /\ length l' = length l /\ main <= main' <= bd /\ 0 <= n /\
  used l' = used l - n /\ (n = 0 -> main' = main /\ l' = l /\ merged_up main l) /\
  forall j, cnt [(0, main')] j + cnt l' j = cnt [(0, main)] j + cnt l j.
Proof.
  induction l as [|[o sz] l IH]; intros main HF Hm; cbn [slice_merge_pass].
  { split_and!; try done; try lia. intros _. split_and!; try done. by apply Forall_nil. }
  inversion HF as [|? ? He HF']; subst. unfold entry_ok in He. cbn [fst snd] in He.
  unfold c_true. destruct (Z.eqb_spec sz 0) as [->|Hsz]; cbn [negb andb].
  2: destruct (Z.eqb_spec o main) as [->|Hne].
  2:{ rewrite u32_id by (unfold is_u32; lia). specialize (IH (main + sz) HF' ltac:(lia)).
      destruct (slice_merge_pass (main + sz) l) as [[main' l'] n].
      destruct IH as (H1 & H2 & H3 & H4 & H5 & _ & H7). split_and!; try lia.
      - constructor; [|done]. unfold entry_ok. cbn. lia.
      - cbn. lia.
      - rewrite !used_cons. cbn. repeat case_decide; lia.
      - intros j. specialize (H7 j). rewrite (cnt_cons_app 0 0 l'), (cnt_cons_app main sz l), cnt_empty.
        rewrite (cnt_glue 0 main sz) in H7 by lia. rewrite Z.add_0_l in H7. lia. }
  all: specialize (IH main HF' Hm); destruct (slice_merge_pass main l) as [[main' l'] n];
    destruct IH as (H1 & H2 & H3 & H4 & H5 & H6 & H7);
    (split; [by constructor|]); (split; [cbn [length]; by rewrite H2|]); (split; [done|]);
    (split; [done|]); (split; [rewrite !used_cons; cbn [snd]; lia|]);
    (split; [intros Hn; destruct (H6 Hn) as (-> & -> & Hmu); split_and!; try done; by constructor
            |intros j; specialize (H7 j); rewrite (cnt_cons_app o _ l'), (cnt_cons_app o _ l); lia]).
Qed.

(** As many passes as entries in use, and one more, merge all that can be. *)
Lemma slice_merge_spec fuel : forall main l,
  Forall (entry_ok bd) l -> 0 <= main <= bd -> used l < Z.of_nat fuel ->
  let '(main', l', n) := slice_merge fuel main l in
  Forall (entry_ok bd) l' /\ length l' = length l /\ main <= main' <= bd /\ 0 <= n /\
  used l' = used l - n /\ merged_up main' l' /\
  forall j, cnt [(0, main')] j + cnt l' j = cnt [(0, main)] j + cnt l j.
Proof.
  induction fuel as [|fuel IH]; intros main l HF Hm Hu; [pose proof (used_range l); lia|].
  cbn [slice_merge]. pose proof (slice_merge_pass_spec l main HF Hm) as HP.
  destruct (slice_merge_pass main l) as [[main1 l1] n].
  destruct HP as (H1 & H2 & H3 & H4 & H5 & H6 & H7). destruct (Z.eqb_spec n 0) as [->|Hn].
  { destruct (H6 eq_refl) as (-> & -> & Hmu). split_and!; try done; lia. }
  specialize (IH main1 l1 H1 ltac:(lia) ltac:(lia)).
  destruct (slice_merge fuel main1 l1) as [[main' l'] n'].
  destruct IH as (G1 & G2 & G3 & G4 & G5 & G6 & G7). split_and!; try done; try lia.
  intros j. by rewrite G7, H7.
Qed.
End Bounded.

(** ** The slice table of a slot *)

(** The pieces of a frame reach [rv_slice_add] in the order of [pieces]. *)
Definition slice_run (cfg : rv_config) (slot f : nat) (pieces : list (Z * Z)) (s : rv_session)
    : rv_session :=
  foldl (fun s pc =>
    match sl_slices (slot_at s slot) with
    | Some info => rv_slice_add cfg slot f info pc.1 pc.2 s
    | None => s
    end) s pieces.

(** The application was last told of [ready] slices, or of none. *)
Definition announced (cfg : rv_config) (f : nat) (before : list rv_event) (ready : Z)
    (s : rv_session) : Prop :=
  (ready = 0 /\ notified s = before) \/
  (0 < ready /\ exists ts size,
     last (notified s) = Some (SliceReady f ts size (u32 (ready * slice_lines cfg)))).

Section Table.
Context (cfg : rv_config) (slot f : nat) (bd : Z) (before : list rv_event).
Hypotheses (Hbd : bd < 4294967296) (Hss : 0 < slice_size cfg).

Record table_ok (P : list (Z * Z)) (main : Z) (extra : list (Z * Z)) (s : rv_session) : Prop := {
  ta_slot : (slot < length (rv_slots s))%nat;
  ta_info : sl_slices (slot_at s slot) =
    Some (mk_slice_info ((0, main) :: extra) (main / slice_size cfg) (used extra));
  ta_main : 0 <= main <= bd;
  ta_extra : Forall (entry_ok bd) extra;
  ta_len : arr_len extra < 4294967295;
  ta_merged : merged_up main extra;
  ta_sound : forall j, cnt ((0, main) :: extra) j <= cnt P j;
  ta_fails : 0 <= counters s STAT_PKTS_SLICE_FAIL <= arr_len P;
  ta_exact : counters s STAT_PKTS_SLICE_FAIL = 0 -> forall j, cnt ((0, main) :: extra) j = cnt P j;
  ta_told : announced cfg f before (main / slice_size cfg) s;
}.

Lemma slot_at_set_slices info s :
  (slot < length (rv_slots s))%nat ->
  sl_slices (slot_at (slot_set_slices slot info s) slot) = Some info.
Proof.
  intros Hlt. unfold slot_set_slices, slot_upd, slot_at. cbn.
  destruct (lookup_lt_is_Some_2 _ _ Hlt) as [sl Hsl].
  rewrite list_lookup_alter_eq, Hsl. done.
Qed.
Lemma length_set_slices info s : length (rv_slots (slot_set_slices slot info s)) = length (rv_slots s).
Proof. unfold slot_set_slices, slot_upd. cbn. apply length_alter. Qed.

(** The table after a piece that does not continue the main slice. *)
Lemma table_place P main extra s o sz :
  table_ok P main extra s -> entry_ok bd (o, sz) -> 0 < sz -> o <> main ->
  arr_len P < 18446744073709551615 ->
  exists extra', table_ok (P ++ [(o, sz)]) main extra'
    (rv_slice_add cfg slot f (mk_slice_info ((0, main) :: extra) (main / slice_size cfg) (used extra))
       o sz s).
Proof.
  intros [H1 H2 H3 H4 H5 H6 H7 H8 H9 H10] [Ho [_ Hs]] Hsz Hne HP. cbn [fst snd] in *.
  unfold rv_slice_add. cbn [slices ready_slices extra_slices]. rewrite (proj2 (Z.eqb_neq o main) Hne).
  cbn [negb]. pose proof (slice_place_spec bd Hbd o sz extra H4 Ho Hsz Hs) as HS.
  destruct (slice_place o sz extra) as [[extra' fresh]|].
  - destruct HS as (G1 & G2 & G3 & G4 & G5). exists extra'.
    pose proof (used_range extra). assert (HL : arr_len extra' = arr_len extra) by (unfold arr_len; lia).
    split; [by rewrite length_set_slices| |done|done|lia|by apply G4| | | |done].
    + rewrite slot_at_set_slices by done. f_equal. f_equal. rewrite G3.
      destruct fresh; [|lia]. rewrite u32_id; [done|unfold is_u32; lia].
    + intros j. specialize (H7 j). rewrite cnt_snoc, (cnt_cons_app 0 main extra'), G5.
      rewrite (cnt_cons_app 0 main extra) in H7. lia.
    + change (counters (slot_set_slices slot _ s)) with (counters s).
      unfold arr_len in *. rewrite length_app. cbn [length]. lia.
    + change (counters (slot_set_slices slot _ s)) with (counters s). intros Hf j.
      specialize (H9 Hf j). rewrite cnt_snoc, (cnt_cons_app 0 main extra'), G5.
      rewrite (cnt_cons_app 0 main extra) in H9. lia.
  - exists extra. set (s' := count _ _ _).
    assert (Hc : counters s' STAT_PKTS_SLICE_FAIL = counters s STAT_PKTS_SLICE_FAIL + 1).
    { unfold s', count. cbn. rewrite decide_True by done. apply u64_id. unfold is_u64. lia. }
    split; try done.
    + intros j. specialize (H7 j). rewrite cnt_snoc. pose proof (cnt_nonneg [(o, sz)] j). lia.
    + rewrite Hc. unfold arr_len in *. rewrite length_app. cbn [length]. lia.
    + rewrite Hc. lia.
Qed.

(** The merge of the table, done only when entries are in use. *)
Lemma table_merge main extra :
  Forall (entry_ok bd) extra -> 0 <= main <= bd ->
  let '(main', extra', n) :=
    if c_true (used extra) then slice_merge (S (length extra)) main extra else (main, extra, 0) in
  Forall (entry_ok bd) extra' /\ length extra' = length extra /\ main <= main' <= bd /\ 0 <= n /\
  used extra' = used extra - n /\ merged_up main' extra' /\
  forall j, cnt [(0, main')] j + cnt extra' j = cnt [(0, main)] j + cnt extra j.
Proof.
  intros HF Hm. unfold c_true. destruct (Z.eqb_spec (used extra) 0) as [H0|H0]; cbn [negb].
  - split_and!; try done; try lia. by apply used_0.
  - apply slice_merge_spec; [done..|]. pose proof (used_range extra). unfold arr_len in *. lia.
Qed.

(** The table after a piece that continues the main slice. *)
Lemma table_extend P main extra s sz :
  table_ok P main extra s -> entry_ok bd (main, sz) -> 0 < sz ->
  exists main' extra', table_ok (P ++ [(main, sz)]) main' extra'
    (rv_slice_add cfg slot f (mk_slice_info ((0, main) :: extra) (main / slice_size cfg) (used extra))
       main sz s).
Proof.
  intros [H1 H2 H3 H4 H5 H6 H7 H8 H9 H10] [_ [_ Hs]] Hsz. cbn [fst snd] in *.
  unfold rv_slice_add. cbn [slices ready_slices extra_slices]. rewrite Z.eqb_refl. cbn [negb].
  rewrite (u32_id (main + sz)) by (unfold is_u32; lia).
  pose proof (table_merge (main + sz) extra H4 ltac:(lia)) as HM.
  destruct (if c_true (used extra) then _ else _) as [[main' extra'] n].
  destruct HM as (G1 & G2 & G3 & G4 & G5 & G6 & G7). exists main', extra'.
  pose proof (used_range extra). pose proof (used_range extra').
  rewrite (u32_id (used extra - n)) by (unfold is_u32; lia). rewrite <- G5.
  assert (HL : arr_len extra' = arr_len extra) by (unfold arr_len; lia).
  assert (Hle : main / slice_size cfg <= main' / slice_size cfg) by (apply Z.div_le_mono; lia).
  assert (Hcnt : forall j, cnt ((0, main') :: extra') j = cnt ((0, main) :: extra) j + cnt [(main, sz)] j).
  { intros j. rewrite (cnt_cons_app 0 main' extra'), G7, cnt_glue, (cnt_cons_app 0 main extra) by lia.
    rewrite Z.add_0_l. lia. }
  set (s1 := count _ _ s).
  assert (Hf : counters s1 STAT_PKTS_SLICE_FAIL = counters s STAT_PKTS_SLICE_FAIL) by done.
  rewrite Z.gtb_ltb. destruct (Z.ltb_spec (main / slice_size cfg) (main' / slice_size cfg)).
  - set (info := mk_slice_info _ _ _).
    change (info <| ready_slices := _ |>)
      with (mk_slice_info ((0, main') :: extra') (main' / slice_size cfg) (used extra')).
    set (info' := mk_slice_info _ (main' / _) _). set (s2 := slot_set_slices slot info' s1).
    assert (Hs2 : sl_slices (slot_at s2 slot) = Some info') by (by apply slot_at_set_slices).
    split; [by unfold rv_slice_notify, s2; cbn; rewrite length_alter|exact Hs2|lia|done|lia|done| | | |].
    + intros j. rewrite Hcnt, cnt_snoc. specialize (H7 j). lia.
    + change (0 <= counters s STAT_PKTS_SLICE_FAIL <= arr_len (P ++ [(main, sz)])).
      unfold arr_len in *. rewrite length_app. cbn [length]. lia.
    + change (counters s STAT_PKTS_SLICE_FAIL = 0 ->
        forall j, cnt ((0, main') :: extra') j = cnt (P ++ [(main, sz)]) j).
      intros Hz j. rewrite Hcnt, cnt_snoc, H9 by done. done.
    + right. split; [assert (0 <= main / slice_size cfg) by (apply Z.div_pos; lia); lia|].
      eexists _, _. unfold rv_slice_notify. cbn [notified count notify]. cbn. by rewrite last_snoc.
  - assert (Heq : main / slice_size cfg = main' / slice_size cfg) by lia.
    split; [by rewrite length_set_slices| |lia|done|lia|done| | | |].
    + rewrite slot_at_set_slices by done. by rewrite Heq.
    + intros j. rewrite Hcnt, cnt_snoc. specialize (H7 j). lia.
    + change (0 <= counters s STAT_PKTS_SLICE_FAIL <= arr_len (P ++ [(main, sz)])).
      unfold arr_len in *. rewrite length_app. cbn [length]. lia.
    + change (counters s STAT_PKTS_SLICE_FAIL = 0 ->
        forall j, cnt ((0, main') :: extra') j = cnt (P ++ [(main, sz)]) j).
      intros Hz j. rewrite Hcnt, cnt_snoc, H9 by done. done.
    + by rewrite <- Heq.
Qed.

Lemma table_step P main extra s pc :
  table_ok P main extra s -> entry_ok bd pc -> 0 < pc.2 -> arr_len P < 18446744073709551615 ->
  exists main' extra', table_ok (P ++ [pc]) main' extra' (slice_run cfg slot f [pc] s).
Proof.
  intros HT He Hsz HP. destruct pc as [o sz]. unfold slice_run. cbn [foldl fst snd].
  rewrite (ta_info _ _ _ _ HT). destruct (decide (o = main)) as [->|Hne].
  - by apply table_extend.
  - destruct (table_place P main extra s o sz) as [extra' H]; try done. by exists main, extra'.
Qed.

(** An entry that covers the end of the main slice starts there. *)
Lemma table_maximal P main extra s :
  table_ok P main extra s -> counters s STAT_PKTS_SLICE_FAIL = 0 ->
  (forall j, cnt P j <= 1) -> cnt P main = 0.
Proof.
  intros HT Hf Hone. pose proof (ta_exact _ _ _ _ HT Hf) as Hex. rewrite <- Hex.
  pose proof (ta_main _ _ _ _ HT) as Hm. pose proof (ta_merged _ _ _ _ HT) as Hmu.
  pose proof (ta_extra _ _ _ _ HT) as HF.
  assert (Hge : cnt [(0, main)] (main - 1) + cnt extra (main - 1) <= 1).
  { rewrite <- cnt_cons_app, Hex. done. }
  rewrite cnt_cons_app. assert (Hm0 : cnt [(0, main)] main = 0).
  { unfold cnt. cbn [foldr fst snd]. destruct (Z.ltb_spec main (0 + main)); [lia|].
    by rewrite andb_false_r. }
  rewrite Hm0, Z.add_0_l.
  assert (Hm1 : 0 < main -> cnt [(0, main)] (main - 1) = 1).
  { intros. unfold cnt. cbn [foldr fst snd]. destruct (Z.leb_spec 0 (main - 1)); [|lia].
    destruct (Z.ltb_spec (main - 1) (0 + main)); [done|lia]. }
  clear HT Hex Hm0. induction extra as [|[o sz] extra IH]; [done|].
  inversion Hmu as [|? ? Hmu1 Hmu2]; inversion HF as [|? ? He HF']; subst. cbn [fst snd] in *.
  unfold entry_ok in He. cbn [fst snd] in He. pose proof (cnt_nonneg extra (main - 1)).
  rewrite (cnt_cons o sz extra main), (cnt_cons o sz extra (main - 1)) in *.
  rewrite IH; [|done|done|destruct (_ && _); lia].
  destruct (Z.leb_spec o main); [|done]. destruct (Z.ltb_spec main (o + sz)); [|done].
  assert (o <> main) by (apply Hmu1; lia). exfalso.
  destruct (Z.leb_spec o (main - 1)); [|lia]. destruct (Z.ltb_spec (main - 1) (o + sz)); [|lia].
  cbn [andb] in Hge. lia.
Qed.
End Table.

Lemma slice_run_snoc cfg slot f P pc s :
  slice_run cfg slot f (P ++ [pc]) s = slice_run cfg slot f [pc] (slice_run cfg slot f P s).
Proof. unfold slice_run. by rewrite foldl_app. Qed.

Lemma table_run cfg slot f bd P s :
  bd < 4294967296 -> 0 <= bd -> 0 < slice_size cfg -> (slot < length (rv_slots s))%nat ->
  sl_slices (slot_at s slot) = Some slice_info_zero ->
  counters s STAT_PKTS_SLICE_FAIL = 0 -> arr_len P < 18446744073709551616 ->
  Forall (fun pc => entry_ok bd pc /\ 0 < pc.2) P ->
  exists main extra, table_ok cfg slot f bd (notified s) P main extra (slice_run cfg slot f P s).
Proof.
  intros Hbd Hbd0 Hss Hlt Hz Hc. induction P as [|pc P IH] using rev_ind; intros HP HF.
  - assert (Hcnt : forall j, cnt ((0, 0) :: replicate 31 (0, 0)) j = cnt [] j).
    { intros j. unfold cnt. cbn [foldr replicate fst snd].
      destruct (Z.leb_spec 0 j), (Z.ltb_spec j (0 + 0)); cbn [andb]; lia. }
    exists 0, (replicate 31 (0, 0)). change (slice_run cfg slot f [] s) with s.
    split; [done|done|lia| |done|by apply used_0| | | |].
    + apply Forall_replicate. unfold entry_ok. cbn. lia.
    + intros j. by rewrite Hcnt.
    + by rewrite Hc.
    + done.
    + left. rewrite Z.div_0_l by lia. done.
  - apply Forall_app in HF as [HF HF1]. inversion HF1 as [|? ? [He Hsz] _]; subst.
    unfold arr_len in *. rewrite length_app in HP. cbn [length] in HP.
    destruct IH as (main & extra & HT); [lia|done|]. rewrite slice_run_snoc.
    eapply table_step; [done|done|exact HT|done|done|unfold arr_len; lia].
Qed.

(** ** The property *)

(** C36: Let the pieces of a frame arrive in any order. The main slice then covers
    only bytes that arrived; as long as the table did not overflow and no byte
    came twice, it is the whole part received without a gap: the next byte is
    missing. The slices last announced to the application are exactly the whole
    slices of that part. *)
Theorem rv_slices_prefix cfg slot f bd P s :
  0 <= bd < 4294967296 -> 0 < slice_size cfg -> (slot < length (rv_slots s))%nat ->
  sl_slices (slot_at s slot) = Some slice_info_zero ->
  counters s STAT_PKTS_SLICE_FAIL = 0 -> arr_len P < 18446744073709551616 ->
  Forall (fun pc => entry_ok bd pc /\ 0 < pc.2) P ->
  let s' := slice_run cfg slot f P s in
  exists main,
    (forall j, 0 <= j < main -> 1 <= cnt P j) /\
    (counters s' STAT_PKTS_SLICE_FAIL = 0 -> (forall j, cnt P j <= 1) -> cnt P main = 0) /\
    announced cfg f (notified s) (main / slice_size cfg) s'.
Proof.
  intros [Hbd0 Hbd] Hss Hlt Hz Hc HP HF s'.
  destruct (table_run cfg slot f bd P s Hbd Hbd0 Hss Hlt Hz Hc HP HF) as (main & extra & HT).
  fold s' in HT. exists main. split; [|split; [|by destruct HT]].
  - intros j Hj. pose proof (ta_sound _ _ _ _ _ _ _ _ _ HT j) as Hs.
    rewrite cnt_cons in Hs. pose proof (cnt_nonneg extra j).
    destruct (Z.leb_spec 0 j), (Z.ltb_spec j (0 + main)); cbn [andb] in Hs; lia.
  - intros Hf Hone. by eapply table_maximal.
Qed.

(** Four packets of ten bytes, the first one last; slices of 20 bytes. *)
Definition slice_cfg : rv_config := mk_rv_config 1 0 0 false 4 4 true 10 10 40 40 1 5 2 20 2 1.
Definition slice_session : rv_session :=
  mk_rv_session [mk_frame_trans 1 (replicate 40 0) [] 0 0]
    [slot_zero <| sl_tmstamp := 7 |> <| sl_frame := Some 0%nat |> <| sl_slices := Some slice_info_zero |>]
    0 [0; 0] 0 (fun _ => 0) [].
Definition slice_pieces : list (Z * Z) := [(20, 10); (10, 10); (30, 10); (0, 10)].

Lemma rv_slices_prefix_witness :
  let s' := slice_run slice_cfg 0 0 slice_pieces slice_session in
  notified s' = [SliceReady 0 7 0 4] /\ counters s' STAT_PKTS_SLICE_FAIL = 0 /\
  exists main,
    (forall j, 0 <= j < main -> 1 <= cnt slice_pieces j) /\
    (counters s' STAT_PKTS_SLICE_FAIL = 0 -> (forall j, cnt slice_pieces j <= 1) ->
     cnt slice_pieces main = 0) /\
    announced slice_cfg 0 [] (main / 20) s'.
Proof.
  split; [vm_compute; reflexivity|]. split; [vm_compute; reflexivity|].
  apply (rv_slices_prefix slice_cfg 0 0 40 slice_pieces slice_session).
  - vm_compute. split; congruence.
  - reflexivity.
  - vm_compute. lia.
  - reflexivity.
  - reflexivity.
  - reflexivity.
  - repeat constructor; vm_compute; congruence.
Defined.
