(* ===== verification/TxRxVideo.v ===== *)
(** From the frame buffer of the sender to the frame buffer of the receiver: the
    packets [TxVideo.tv_build_st20] cuts a frame into, received in any order and on
    either port, give the receiver the frame, whatever padding each side has behind
    its lines. *)
From S2P Require Import Prelude SeqNum Bitmap Fmt RxVideo TxVideo RxReassembly.

(** ** A sender and a receiver that fit

    [H] lines of [bil] bytes, cut into packets of [L] bytes, pixel groups of [pgs]
    bytes and [cov] pixels; [lt] and [lr] are the line sizes with padding. *)
Record link (tc : tv_config) (rc : rv_config) (H : Z) (second_field : bool) : Prop := {
  lk_pg : 0 < tv_pg_size tc /\ 0 < tv_pg_coverage tc /\
    st20_pg_size rc = tv_pg_size tc /\ st20_pg_coverage rc = tv_pg_coverage tc;
  lk_bil : 0 < tv_bytes_in_line tc /\ st20_bytes_in_line rc = tv_bytes_in_line tc /\
    tv_bytes_in_line tc mod tv_pg_size tc = 0 /\
    tv_bytes_in_line tc / tv_pg_size tc * tv_pg_coverage tc < 32768;
  lk_lines : tv_bytes_in_line tc <= tv_linesize tc /\ tv_bytes_in_line tc <= st20_linesize rc;
  lk_height : 0 < H < 32768 /\ H <= ops_height rc;
  lk_frame : tv_frame_size tc = tv_bytes_in_line tc * H /\
    st20_frame_size rc = tv_bytes_in_line tc * H /\ st20_fb_size rc = st20_linesize rc * H;
  lk_small : tv_linesize tc * H + 65536 < 4294967296 /\ st20_linesize rc * H + 65536 < 4294967296 /\
    tv_bytes_in_line tc * tv_pg_coverage tc < 4294967296;
  lk_len : 0 < tv_pkt_len tc < 16384 /\ tv_pkt_len tc mod tv_pg_size tc = 0 /\
    tv_pkt_len tc <= tv_bytes_in_line tc;
  lk_total :
    if tv_single_line tc then
      0 < tv_pkts_in_line tc /\ tv_total_pkts tc = H * tv_pkts_in_line tc /\
      (tv_pkts_in_line tc - 1) * tv_pkt_len tc < tv_bytes_in_line tc
        <= tv_pkts_in_line tc * tv_pkt_len tc /\
      tv_width tc = tv_bytes_in_line tc / tv_pg_size tc * tv_pg_coverage tc
    else tv_total_pkts tc = ceil_div (tv_bytes_in_line tc * H) (tv_pkt_len tc);
  lk_bitmap : tv_total_pkts tc <= 8 * st20_frame_bitmap_size rc /\ tv_total_pkts tc < 2147483648;
  lk_pt : ops_payload_type rc = 0 \/ ops_payload_type rc = tv_payload_type tc;
  lk_ssrc : ops_ssrc rc = 0 \/ ops_ssrc rc = tv_ssrc tc;
  lk_field : second_field = true -> ops_interlaced rc = true;
}.

Lemma ceil_div_spec a b k : 0 < b -> k < ceil_div a b <-> k * b < a.
Proof.
  intros Hb. unfold ceil_div. split; intros H.
  - pose proof (Z.mul_div_le (a + b - 1) b Hb). nia.
  - assert (k + 1 <= (a + b - 1) / b); [|lia]. apply Z.div_le_lower_bound; nia.
Qed.

(** Flag bits on top of a row field. *)
Lemma flag_clear x i : 0 <= i -> 0 <= x < 2 ^ i -> has_flag x (Z.shiftl 1 i) = false.
Proof. intros Hi Hx. unfold has_flag. rewrite land_shiftl_1 by done. by eapply bits_above. Qed.
Lemma flag_set x i :
  0 <= i -> 0 <= x < 2 ^ i ->
  has_flag (Z.lor x (Z.shiftl 1 i)) (Z.shiftl 1 i) = true /\
  Z.ldiff (Z.lor x (Z.shiftl 1 i)) (Z.shiftl 1 i) = x.
Proof.
  intros Hi Hx. unfold has_flag. rewrite land_shiftl_1 by done. split.
  - rewrite Z.lor_spec, shiftl_1_testbit by done. rewrite bool_decide_eq_true_2 by done.
    apply orb_true_r.
  - apply Z.bits_inj'. intros n Hn. rewrite Z.ldiff_spec, Z.lor_spec, shiftl_1_testbit by done.
    destruct (decide (i = n)) as [->|Hne].
    + rewrite bool_decide_eq_true_2 by done. rewrite (bits_above x n n) by lia. done.
    + rewrite bool_decide_eq_false_2 by done. by rewrite orb_false_r, andb_true_r.
Qed.

Section Link.
Context (tc : tv_config) (rc : rv_config) (H : Z) (sf : bool) (ts : Z) (fb : list Z) (seq0 : Z).
Hypothesis Hlk : link tc rc H sf.
Hypothesis Hfb : arr_len fb = tv_linesize tc * H.

Abbreviation bil := (tv_bytes_in_line tc).
Abbreviation L := (tv_pkt_len tc).
Abbreviation lt := (tv_linesize tc).
Abbreviation lr := (st20_linesize rc).
Abbreviation pgs := (tv_pg_size tc).
Abbreviation cov := (tv_pg_coverage tc).
Abbreviation F := (bil * H).

Abbreviation n_line := (tv_pkts_in_line tc).
Abbreviation single := (tv_single_line tc).

(** Packet [k]: where it starts and how long it is. *)
Definition row (k : Z) : Z := if single then k / n_line else k * L / bil.
Definition col (k : Z) : Z := if single then (k mod n_line) * L else (k * L) mod bil.
Definition pos (k : Z) : Z := row k * bil + col k.
Definition plen (k : Z) : Z := if single then Z.min L (bil - col k) else Z.min L (F - k * L).
Definition crosses (k : Z) : bool :=
  if single then false else (k * L + L >? (row k + 1) * bil) && (k * L + L <? F).

(** Packets cut without regard to the lines. *)
Lemma pos_block k : single = false -> pos k = k * L.
Proof.
  intros Hsg. destruct (lk_bil _ _ _ _ Hlk). unfold pos, row, col. rewrite Hsg.
  pose proof (Z.div_mod (k * L) bil). lia.
Qed.
Lemma block_in_frame k : single = false -> k < tv_total_pkts tc <-> k * L < F.
Proof.
  intros Hsg. pose proof (lk_total _ _ _ _ Hlk) as Ht. rewrite Hsg in Ht. rewrite Ht.
  apply ceil_div_spec. destruct (lk_len _ _ _ _ Hlk). lia.
Qed.

(** Packets that end with their line. *)
Lemma single_idx k :
  single = true -> 0 <= k < tv_total_pkts tc ->
  k = row k * n_line + k mod n_line /\ 0 <= k mod n_line < n_line /\ 0 <= row k < H /\
  col k = (k mod n_line) * L /\ 0 <= col k <= (n_line - 1) * L.
Proof.
  intros Hsg Hk. pose proof (lk_total _ _ _ _ Hlk) as Ht. rewrite Hsg in Ht.
  destruct Ht as (Hn & Ht & Hl & _). destruct (lk_len _ _ _ _ Hlk) as [HL _].
  unfold row, col. rewrite Hsg. pose proof (Z.div_mod k n_line ltac:(lia)).
  pose proof (Z.mod_pos_bound k n_line Hn).
  assert (0 <= k / n_line < H); [|split_and!; nia].
  split; [apply Z.div_pos; lia|]. apply Z.div_lt_upper_bound; nia.
Qed.

Lemma col_range k : 0 <= k < tv_total_pkts tc -> 0 <= col k < bil.
Proof.
  intros Hk. destruct single eqn:Hsg.
  - destruct (single_idx k Hsg Hk) as (_ & _ & _ & _ & Hc). pose proof (lk_total _ _ _ _ Hlk) as Ht.
    rewrite Hsg in Ht. lia.
  - unfold col. rewrite Hsg. destruct (lk_bil _ _ _ _ Hlk). apply Z.mod_pos_bound. lia.
Qed.

Lemma row_range k : 0 <= k < tv_total_pkts tc -> 0 <= row k < H.
Proof.
  intros Hk. destruct single eqn:Hsg; [by apply single_idx|].
  destruct Hk as [Hk HN]. apply block_in_frame in HN; [|done]. destruct (lk_bil _ _ _ _ Hlk) as [Hb _].
  destruct (lk_len _ _ _ _ Hlk) as [HL _]. unfold row. rewrite Hsg. split; [apply Z.div_pos; nia|].
  apply Z.div_lt_upper_bound; lia.
Qed.

Lemma plen_range k : 0 <= k < tv_total_pkts tc -> 0 < plen k <= L /\ pos k + plen k <= F.
Proof.
  intros Hk. pose proof (col_range k Hk). pose proof (row_range k Hk).
  destruct (lk_len _ _ _ _ Hlk) as [HL _]. destruct single eqn:Hsg.
  - unfold plen, pos. rewrite Hsg. nia.
  - rewrite pos_block by done. destruct Hk as [Hk HN]. apply block_in_frame in HN; [|done].
    unfold plen. rewrite Hsg. lia.
Qed.

(** A packet without extra header stays in its line. *)
Lemma no_cross k : 0 <= k < tv_total_pkts tc -> crosses k = false -> col k + plen k <= bil.
Proof.
  intros Hk Hc. destruct single eqn:Hsg; [unfold plen; rewrite Hsg; lia|].
  pose proof (row_range k Hk). pose proof (pos_block k Hsg) as Hp. pose proof (col_range k Hk).
  destruct (lk_len _ _ _ _ Hlk) as (HL & _ & HLb). unfold crosses in Hc. unfold plen. rewrite Hsg in *.
  unfold pos in Hp. apply andb_false_iff in Hc. rewrite Z.gtb_ltb in Hc.
  destruct Hc as [Hc%Z.ltb_ge|Hc%Z.ltb_ge]; [nia|].
  assert (row k = H - 1 \/ row k <= H - 2) as [Hr|Hr] by lia; [rewrite Hr in *; nia|]. nia.
Qed.

(** One with an extra header is full and ends in the next line. *)
Lemma cross k :
  0 <= k < tv_total_pkts tc -> crosses k = true ->
  single = false /\ plen k = L /\ bil < col k + L /\ col k + L <= 2 * bil /\ row k + 1 < H.
Proof.
  intros Hk Hc. unfold crosses in Hc. destruct single eqn:Hsg; [done|].
  pose proof (pos_block k Hsg) as Hp. pose proof (col_range k Hk). unfold pos in Hp.
  destruct (lk_len _ _ _ _ Hlk) as (HL & _ & HLb). unfold plen. rewrite Hsg.
  apply andb_true_iff in Hc as [Hc1 Hc2]. rewrite Z.gtb_ltb in Hc1.
  apply Z.ltb_lt in Hc1, Hc2. split_and!; nia || done.
Qed.

(** ** The fields of a packet *)

Lemma frame_small : 0 < F /\ F + L < 4294967296.
Proof.
  destruct (lk_bil _ _ _ _ Hlk) as [Hb _], (lk_lines _ _ _ _ Hlk) as [Hl _],
    (lk_height _ _ _ _ Hlk) as [Hh _], (lk_small _ _ _ _ Hlk) as [Hs _], (lk_len _ _ _ _ Hlk) as [HL _].
  nia.
Qed.

(** Packets start at pixel groups. *)
Lemma col_groups k :
  0 <= k < tv_total_pkts tc ->
  exists q, col k = q * pgs /\ 0 <= q /\ q * cov < 32768 /\ col k * cov < 4294967296.
Proof.
  intros Hk.
  destruct (lk_bil _ _ _ _ Hlk) as (Hb & _ & Hbm & Hpx), (lk_len _ _ _ _ Hlk) as (HL & HLm & _),
    (lk_pg _ _ _ _ Hlk) as (Hp & Hc & _), (lk_small _ _ _ _ Hlk) as (_ & _ & Hs).
  pose proof (col_range k Hk) as Hcol. apply Z.mod_divide in Hbm as [b Hbm]; [|lia].
  apply Z.mod_divide in HLm as [l HLm]; [|lia].
  assert (exists q, col k = q * pgs) as [q Hq].
  { destruct single eqn:Hsg.
    - exists (k mod n_line * l). unfold col. rewrite Hsg, HLm. ring.
    - exists (k * l - row k * b). pose proof (pos_block k Hsg) as Hst. unfold pos in Hst.
      rewrite Hbm, HLm in Hst at 1. nia. }
  exists q. split; [done|]. assert (0 <= q) by nia. assert (q < b) by nia. split; [lia|].
  rewrite Hbm, Z.div_mul in Hpx by lia. split; nia.
Qed.

(** The offset the builder works with: padded already when packets end with lines. *)
Definition build_offset (k : Z) : Z := if single then row k * lt + col k else k * L.

Lemma pkt_start k :
  0 <= k < tv_total_pkts tc ->
  tv_pkt_start tc k = (build_offset k, row k, col k / pgs * cov, crosses k).
Proof.
  intros Hk. pose proof (row_range k Hk) as Hr. pose proof (col_range k Hk) as Hcol.
  pose proof frame_small as [HF0 HF].
  destruct (col_groups k Hk) as (q & Hq & Hq0 & Hqc & Hcs).
  destruct (lk_height _ _ _ _ Hlk) as [Hh _], (lk_pg _ _ _ _ Hlk) as (Hp & Hc & _).
  destruct (lk_bil _ _ _ _ Hlk) as [Hb _], (lk_frame _ _ _ _ Hlk) as [Hfr _].
  destruct (lk_lines _ _ _ _ Hlk) as [Hl _], (lk_small _ _ _ _ Hlk) as [Hs _].
  destruct (lk_len _ _ _ _ Hlk) as (HL & HLm & _).
  assert (Hpxr : is_u16 (col k / pgs * cov)) by (rewrite Hq, Z.div_mul by lia; unfold is_u16; nia).
  unfold tv_pkt_start, build_offset, crosses. destruct single eqn:Hsg.
  - apply Z.mod_divide in HLm as [l HLm]; [|lia]. unfold row in *. unfold col in *. rewrite Hsg in *.
    rewrite (u16_id (k / n_line)) by (unfold is_u16; lia).
    assert (Hpx : L / pgs * cov * (k mod n_line) = k mod n_line * L / pgs * cov).
    { rewrite HLm. replace (k mod n_line * (l * pgs)) with (k mod n_line * l * pgs) by ring.
      rewrite !Z.div_mul by lia. ring. }
    rewrite Hpx, (u16_id (_ * cov)) by done. rewrite Z.div_mul, Hq, Z.div_mul by lia.
    rewrite (u32_id lt) by (unfold is_u32; nia). rewrite u32_id by (unfold is_u32; nia). done.
  - pose proof (proj1 (block_in_frame k Hsg) (proj2 Hk)) as Hin.
    rewrite (Z.mul_comm L k). rewrite (u32_id (k * L)) by (unfold is_u32; nia).
    unfold row in *. unfold col in *. rewrite Hsg in *.
    rewrite (u16_id (k * L / bil)) by (unfold is_u16; lia).
    rewrite (u32_id ((k * L) mod bil * cov)) by (unfold is_u32; nia).
    assert (Hpx : (k * L) mod bil * cov / pgs = (k * L) mod bil / pgs * cov).
    { rewrite Hq, Z.div_mul by lia. replace (q * pgs * cov) with (q * cov * pgs) by lia.
      apply Z.div_mul. lia. }
    rewrite Hpx, u16_id by done. f_equal. unfold tv_pkt_has_extra_hdr.
    rewrite (u32_id (k * L + L)) by (unfold is_u32; nia). rewrite Hfr.
    rewrite (u32_id ((k * L / bil + 1) * bil)) by (unfold is_u32; nia). done.
Qed.

Lemma pkt_left_len k :
  0 <= k < tv_total_pkts tc -> tv_left_len tc (build_offset k) (col k / pgs * cov) = plen k.
Proof.
  intros Hk. pose proof frame_small. pose proof (plen_range k Hk) as [Hp _]. pose proof (col_range k Hk).
  destruct (col_groups k Hk) as (q & Hq & Hq0 & Hqc & _).
  destruct (lk_len _ _ _ _ Hlk) as [HL _], (lk_pg _ _ _ _ Hlk) as (Hps & Hc & _).
  destruct (lk_bil _ _ _ _ Hlk) as (Hb & _ & Hbm & Hpx).
  unfold tv_left_len, build_offset. pose proof (lk_total _ _ _ _ Hlk) as Ht. unfold plen in *.
  destruct single eqn:Hsg.
  - destruct Ht as (_ & _ & _ & Hw). apply Z.mod_divide in Hbm as [b Hbm]; [|lia].
    rewrite Hw, Hq, Hbm, !Z.div_mul in * by lia.
    assert (q < b) by nia. assert (0 < (b - q) * cov) by nia.
    replace (b * cov - q * cov) with ((b - q) * cov) by ring. rewrite u32_id by (unfold is_u32; nia).
    rewrite Z.div_mul by lia. replace ((b - q) * pgs) with (b * pgs - q * pgs) by ring.
    apply u16_id. unfold is_u16. lia.
  - pose proof (proj1 (block_in_frame k Hsg) (proj2 Hk)). destruct (lk_frame _ _ _ _ Hlk) as [-> _].
    rewrite u32_id by (unfold is_u32; nia). apply u16_id. unfold is_u16. lia.
Qed.

Lemma pkt_line_lengths k :
  0 <= k < tv_total_pkts tc -> crosses k = true ->
  tv_line1_length tc (build_offset k) (row k) = bil - col k /\ 0 < bil - col k < L /\
  tv_line2_length tc (bil - col k) = L - (bil - col k).
Proof.
  intros Hk Hc. destruct (cross k Hk Hc) as (Hsg & _ & Hx & _ & _). pose proof (pos_block k Hsg) as Hs.
  pose proof (col_range k Hk). destruct (lk_len _ _ _ _ Hlk) as [HL _]. unfold pos in Hs.
  unfold tv_line1_length, tv_line2_length, build_offset. rewrite Hsg. split_and!; [|lia|lia|].
  - rewrite <- Hs. replace ((row k + 1) * bil - (row k * bil + col k)) with (bil - col k) by ring.
    apply u16_id. unfold is_u16. lia.
  - apply u16_id. unfold is_u16. lia.
Qed.

(** ** The payload *)

(** Byte [x] of the image, a frame without padding, in the sender's buffer. *)
Definition img (x : Z) : option Z := fb !! Z.to_nat (x / bil * lt + x mod bil).

Lemma img_at i j : 0 <= i -> 0 <= j < bil -> img (i * bil + j) = fb !! Z.to_nat (i * lt + j).
Proof.
  intros Hi Hj. unfold img. replace (i * bil + j) with (j + i * bil) by ring.
  rewrite Z.mod_add, Z.div_add by lia.
  rewrite Z.mod_small, Z.div_small by lia. done.
Qed.

Lemma img_flat x : lt = bil -> img x = fb !! Z.to_nat x.
Proof.
  intros Hl. unfold img. destruct (lk_bil _ _ _ _ Hlk) as [Hb _]. rewrite Hl.
  f_equal. f_equal. pose proof (Z.div_mod x bil). lia.
Qed.

Lemma mem_read_lookup off len j :
  0 <= off -> 0 <= j < len -> mem_read fb off len !! Z.to_nat j = fb !! Z.to_nat (off + j).
Proof.
  intros Ho Hj. unfold mem_read. rewrite lookup_take_lt by lia. rewrite lookup_drop.
  f_equal. lia.
Qed.
Lemma mem_read_length off len :
  0 <= off -> 0 <= len -> off + len <= arr_len fb -> length (mem_read fb off len) = Z.to_nat len.
Proof. intros Ho Hl Hb. unfold mem_read, arr_len in *. rewrite length_take, length_drop. lia. Qed.

(** The bytes of packet [k], and the packet. *)
Definition payload (k : Z) : list Z :=
  if crosses k && (lt >? bil) then
    mem_read fb (row k * lt + col k) (bil - col k) ++ mem_read fb (lt * (row k + 1)) (L - (bil - col k))
  else mem_read fb (row k * lt + col k) (plen k).
Definition txp (k : Z) : rv_pkt :=
  wr_pkt (tv_build_st20 tc sf ts fb (mk_tv_state k (u32 (seq0 + k)))).1.

Lemma txp_fields k :
  0 <= k < tv_total_pkts tc ->
  let field := if sf then ST20_SECOND_FIELD else 0 in
  let px := col k / pgs * cov in
  let seq := u32 (seq0 + k) in
  let n := SIZEOF_RFC4175_VIDEO_HDR + plen k + if crosses k then SIZEOF_RFC4175_EXTRA_HDR else 0 in
  txp k = mk_rv_pkt (Z.lor (row k) field)
    (if crosses k then Z.lor px ST20_SRD_OFFSET_CONTINUATION else px)
    (if crosses k then bil - col k else plen k) (if crosses k then L - (bil - col k) else 0)
    ts (u16 seq) (u16 (Z.shiftr seq 16)) (tv_payload_type tc) (tv_ssrc tc) n n 0 (payload k).
Proof.
  intros Hk. pose proof (row_range k Hk). pose proof (col_range k Hk) as Hcol.
  destruct (lk_lines _ _ _ _ Hlk) as [Hl _], (lk_small _ _ _ _ Hlk) as [Hs _], (lk_bil _ _ _ _ Hlk) as [Hb _].
  assert (Hco : tv_copy_offset tc (build_offset k) (row k) = row k * lt + col k).
  { unfold tv_copy_offset, build_offset. destruct single eqn:Hsg; [done|]. cbn [negb andb].
    pose proof (pos_block k Hsg) as Hp. unfold pos in Hp. rewrite Z.gtb_ltb.
    destruct (Z.ltb_spec bil lt); [|nia].
    assert ((k * L) mod bil = col k) as -> by (unfold col; by rewrite Hsg).
    rewrite u32_id by (unfold is_u32; nia). lia. }
  unfold txp, tv_build_st20, tv_headers. cbn [st20_pkt_idx st20_seq_id]. rewrite (pkt_start k Hk).
  rewrite (pkt_left_len k Hk), Hco. cbn [fst wr_pkt]. unfold payload.
  destruct (crosses k) eqn:Hx; cbn [andb]; [|done].
  destruct (pkt_line_lengths k Hk Hx) as (-> & _ & ->). done.
Qed.

Lemma payload_spec k :
  0 <= k < tv_total_pkts tc ->
  arr_len (payload k) = plen k /\
  forall j, 0 <= j < plen k -> payload k !! Z.to_nat j = img (pos k + j).
Proof.
  intros Hk. pose proof (row_range k Hk) as Hr. pose proof (col_range k Hk) as Hcol.
  pose proof (plen_range k Hk) as [Hp HpF]. assert (Hst : pos k = row k * bil + col k) by done.
  destruct (lk_lines _ _ _ _ Hlk) as [Hl _], (lk_bil _ _ _ _ Hlk) as [Hb _].
  unfold payload. destruct (crosses k) eqn:Hx; cbn [andb].
  - destruct (cross k Hk Hx) as (Hsg & HpL & Hx1 & Hx2 & Hrow). rewrite Z.gtb_ltb.
    destruct (Z.ltb_spec bil lt) as [Hpad|Hnp].
    + assert (H1 : length (mem_read fb (row k * lt + col k) (bil - col k)) = Z.to_nat (bil - col k))
        by (apply mem_read_length; [nia|lia|nia]).
      assert (H2 : length (mem_read fb (lt * (row k + 1)) (L - (bil - col k)))
                   = Z.to_nat (L - (bil - col k))) by (apply mem_read_length; [nia|lia|nia]).
      split; [unfold arr_len; rewrite length_app, H1, H2; lia|]. intros j Hj.
      destruct (Z.ltb_spec j (bil - col k)).
      * rewrite lookup_app_l by lia. rewrite mem_read_lookup by nia.
        replace (pos k + j) with (row k * bil + (col k + j)) by lia. rewrite img_at by lia.
        f_equal. lia.
      * rewrite lookup_app_r by lia. rewrite H1.
        replace (Z.to_nat j - Z.to_nat (bil - col k))%nat with (Z.to_nat (j - (bil - col k))) by lia.
        rewrite mem_read_lookup by nia.
        replace (pos k + j) with ((row k + 1) * bil + (j - (bil - col k))) by lia.
        rewrite img_at by lia. f_equal. lia.
    + assert (Heq : lt = bil) by lia. split.
      * unfold arr_len. rewrite mem_read_length; [lia|nia|lia|]. rewrite Hfb, Heq. unfold plen in *. nia.
      * intros j Hj. rewrite mem_read_lookup by nia. rewrite img_flat by done. f_equal. rewrite Heq. lia.
  - pose proof (no_cross k Hk Hx) as Hn. split.
    + unfold arr_len. rewrite mem_read_length; [lia|nia|lia|nia].
    + intros j Hj. rewrite mem_read_lookup by nia.
      replace (pos k + j) with (row k * bil + (col k + j)) by lia. rewrite img_at by lia.
      f_equal. lia.
Qed.

(** ** What the receiver reads *)

Lemma rx_row k :
  0 <= k < tv_total_pkts tc -> line1_number (txp k) = row k /\ pk_second_field (txp k) = sf.
Proof.
  intros Hk. pose proof (row_range k Hk). destruct (lk_height _ _ _ _ Hlk) as [Hh _].
  unfold line1_number, pk_second_field. rewrite (txp_fields k Hk). cbn [pk_row_number].
  destruct sf.
  - destruct (flag_set (row k) 15) as [H1 H2]; [lia|change (2 ^ 15) with 32768; lia|].
    unfold ST20_SECOND_FIELD. by rewrite H1, H2.
  - rewrite Z.lor_0_r. unfold ST20_SECOND_FIELD.
    rewrite flag_clear; [done|lia|change (2 ^ 15) with 32768; lia].
Qed.

Lemma rx_offset k :
  0 <= k < tv_total_pkts tc ->
  line1_offset (txp k) = col k / pgs * cov /\ pk_continuation (txp k) = crosses k.
Proof.
  intros Hk. destruct (col_groups k Hk) as (q & Hq & Hq0 & Hqc & _).
  destruct (lk_pg _ _ _ _ Hlk) as (Hp & Hc & _).
  assert (Hpx : 0 <= col k / pgs * cov < 2 ^ 15).
  { rewrite Hq, Z.div_mul by lia. change (2 ^ 15) with 32768. nia. }
  unfold line1_offset, pk_continuation. rewrite (txp_fields k Hk). cbn [pk_row_offset].
  unfold ST20_SRD_OFFSET_CONTINUATION. destruct (crosses k).
  - destruct (flag_set _ 15 ltac:(lia) Hpx) as [-> ->]. done.
  - by rewrite flag_clear.
Qed.

Lemma rx_length k :
  0 <= k < tv_total_pkts tc ->
  line1_length (txp k) = (if crosses k then bil - col k else plen k) /\
  pk_retransmit (txp k) = false /\ has_flag (line1_length (txp k)) ST20_LEN_USER_META = false /\
  rv_payload_length (txp k) = plen k.
Proof.
  intros Hk. pose proof (plen_range k Hk) as [Hplr HpF]. destruct (lk_len _ _ _ _ Hlk) as [HL _].
  destruct (rx_offset k Hk) as [_ Hcont].
  set (l := if crosses k then bil - col k else plen k).
  assert (Hl : 0 <= l < 16384).
  { unfold l. destruct (crosses k) eqn:Hx; [|lia]. destruct (pkt_line_lengths k Hk Hx). lia. }
  assert (Hrt : pk_retransmit (txp k) = false).
  { unfold pk_retransmit. rewrite (txp_fields k Hk). cbn [pk_row_length].
    apply flag_clear; [lia|]. change (2 ^ 14) with 16384. exact Hl. }
  assert (Hl1 : line1_length (txp k) = l).
  { unfold line1_length. rewrite Hrt. by rewrite (txp_fields k Hk). }
  split_and!; [done|done| |].
  - rewrite Hl1. apply flag_clear; [lia|]. change (2 ^ 15) with 32768. lia.
  - unfold rv_payload_length. rewrite Hcont, Hl1. unfold l.
    rewrite (txp_fields k Hk). cbn [pk_extra_row_length].
    destruct (crosses k) eqn:Hx; [|lia]. destruct (cross k Hk Hx). lia.
Qed.

Lemma rx_pkt_offset k :
  0 <= k < tv_total_pkts tc -> rv_pkt_offset rc (txp k) = row k * lr + col k.
Proof.
  intros Hk. pose proof (row_range k Hk). pose proof (col_range k Hk). destruct (rx_row k Hk) as [Hr _], (rx_offset k Hk) as [Ho _].
  destruct (col_groups k Hk) as (q & Hq & Hq0 & _). destruct (lk_pg _ _ _ _ Hlk) as (Hp & Hc & Hps & Hpc).
  destruct (lk_small _ _ _ _ Hlk) as (_ & Hs & _), (lk_lines _ _ _ _ Hlk) as [_ Hl].
  unfold rv_pkt_offset. rewrite Hr, Ho, Hps, Hpc, Z.div_mul by lia.
  rewrite Hq, Z.div_mul by lia. rewrite <- Hq.
  rewrite (u32_id lr) by (unfold is_u32; nia). rewrite (u32_id (row k * lr)) by (unfold is_u32; nia).
  apply u32_id. unfold is_u32. nia.
Qed.

Lemma rx_seq k : rfc4175_rtp_seq_id (txp k) = u32 (seq0 + k).
Proof.
  unfold txp, tv_build_st20, tv_headers. cbn [st20_pkt_idx st20_seq_id].
  destruct (tv_pkt_start tc k) as [[[? ?] ?] ?]. unfold rfc4175_rtp_seq_id.
  cbn [fst wr_pkt pk_seq_number pk_seq_number_ext].
  pose proof (u32_range (seq0 + k)) as Hu. set (x := u32 (seq0 + k)) in *. unfold is_u32 in Hu.
  rewrite Z.shiftr_div_pow2 by lia. change (2 ^ 16) with 65536.
  rewrite (u16_id (x / 65536)) by (unfold is_u16; mlia).
  rewrite Z.shiftl_mul_pow2 by lia. change (2 ^ 16) with 65536. unfold u16.
  change 65536 with (2 ^ 16). apply Z.bits_inj'. intros n Hn. rewrite Z.lor_spec.
  rewrite Z.mul_pow2_bits by lia. destruct (Z.ltb_spec n 16).
  - rewrite Z.mod_pow2_bits_low, (Z.testbit_neg_r _ (n - 16)) by lia. apply orb_false_r.
  - rewrite Z.mod_pow2_bits_high, Z.div_pow2_bits by lia. cbn [orb]. f_equal. lia.
Qed.

Lemma rx_filter k : 0 <= k < tv_total_pkts tc -> rv_pkt_filter rc (txp k) = None.
Proof.
  intros Hk. destruct (rx_row k Hk) as [_ Hsf]. unfold rv_pkt_filter. rewrite Hsf.
  rewrite (txp_fields k Hk). cbn [pk_payload_type pk_ssrc pk_next_data_len].
  assert (c_true (ops_payload_type rc) && negb (tv_payload_type tc =? ops_payload_type rc) = false) as ->.
  { destruct (lk_pt _ _ _ _ Hlk) as [->| ->]; [done|]. by rewrite Z.eqb_refl, andb_false_r. }
  assert (c_true (ops_ssrc rc) && negb (tv_ssrc tc =? ops_ssrc rc) = false) as ->.
  { destruct (lk_ssrc _ _ _ _ Hlk) as [->| ->]; [done|]. by rewrite Z.eqb_refl, andb_false_r. }
  pose proof (lk_field _ _ _ _ Hlk) as Hf. destruct sf; [by rewrite Hf|].
  by rewrite andb_false_r.
Qed.

Lemma rx_bounds k : 0 <= k < tv_total_pkts tc -> rv_pkt_bounds rc (txp k) = None.
Proof.
  intros Hk. pose proof (row_range k Hk). pose proof (col_range k Hk). pose proof (plen_range k Hk) as [Hplr HpF].
  destruct (rx_row k Hk) as [Hr _], (rx_offset k Hk) as [_ Hc], (rx_length k Hk) as (Hl1 & _ & _ & Hpl).
  destruct (lk_small _ _ _ _ Hlk) as (_ & Hs & _), (lk_lines _ _ _ _ Hlk) as [_ Hl].
  destruct (lk_frame _ _ _ _ Hlk) as (_ & _ & Hfbs), (lk_bil _ _ _ _ Hlk) as (Hb & Hrb & _).
  destruct (lk_len _ _ _ _ Hlk) as (HL & _ & HLb), (lk_height _ _ _ _ Hlk) as [_ HH].
  unfold rv_pkt_bounds, rv_crosses_padding.
  rewrite (rx_pkt_offset k Hk), Hpl, Hc, Hr, Hl1, Hfbs, Hrb.
  assert (Hend : row k * lr + col k + plen k <= lr * H + bil - lr).
  { destruct (crosses k) eqn:Hx; [destruct (cross k Hk Hx) as (_ & -> & ? & ? & ?)|pose proof (no_cross k Hk Hx)];
      nia. }
  rewrite (u64_id (_ + plen k)) by (unfold is_u64; nia).
  rewrite (u64_id (lr * H + bil - lr)) by (unfold is_u64; nia).
  rewrite Z.gtb_ltb, (proj2 (Z.ltb_ge _ _) Hend).
  assert (crosses k && (lr >? bil) &&
    ((row k + 1 >=? ops_height rc)
     || (plen k - (if crosses k then bil - col k else plen k) >? u64 (lr * H - (row k + 1) * lr))) = false)
    as ->.
  { destruct (crosses k) eqn:Hx; [|done]. destruct (cross k Hk Hx) as (Hsg & -> & Hx1 & Hx2 & Hrow).
    assert (Hroom : bil <= lr * H - (row k + 1) * lr < 4294967296) by nia.
    rewrite (u64_id (lr * H - _)) by (unfold is_u64; lia). rewrite Z.geb_leb, (Z.gtb_ltb (L - _)).
    rewrite (proj2 (Z.leb_gt _ _)) by lia. rewrite (proj2 (Z.ltb_ge _ _)) by lia.
    apply andb_false_r. }
  rewrite (txp_fields k Hk). cbn [pk_pkt_len].
  replace (SIZEOF_RFC4175_VIDEO_HDR + plen k + (if crosses k then SIZEOF_RFC4175_EXTRA_HDR else 0)
           - SIZEOF_RFC4175_VIDEO_HDR - (if crosses k then SIZEOF_RFC4175_EXTRA_HDR else 0))
    with (plen k) by lia.
  rewrite u64_id by (unfold is_u64; lia). rewrite Z.eqb_refl, (proj2 (Z.eqb_neq _ _)) by lia. done.
Qed.

Lemma rx_copies k :
  0 <= k < tv_total_pkts tc ->
  rv_pkt_copies rc (txp k) =
    if crosses k && (lr >? bil) then
      [(row k * lr + col k, take (Z.to_nat (bil - col k)) (payload k));
       ((row k + 1) * lr, drop (Z.to_nat (bil - col k)) (payload k))]
    else [(row k * lr + col k, payload k)].
Proof.
  intros Hk. destruct (payload_spec k Hk) as [Hlen _]. pose proof (plen_range k Hk) as [Hplr HpF].
  destruct (rx_row k Hk) as [Hr _], (rx_offset k Hk) as [_ Hc], (rx_length k Hk) as (Hl1 & _ & _ & Hpl).
  destruct (lk_bil _ _ _ _ Hlk) as (Hb & Hrb & _). unfold arr_len in Hlen.
  unfold rv_pkt_copies, rv_crosses_padding. rewrite (rx_pkt_offset k Hk), Hpl, Hc, Hr, Hl1, Hrb.
  assert (pk_payload (txp k) = payload k) as -> by (by rewrite (txp_fields k Hk)).
  destruct (crosses k) eqn:Hx; cbn [andb].
  - pose proof (pkt_line_lengths k Hk Hx). destruct (cross k Hk Hx) as (_ & HpL & _).
    case_if; [|by rewrite take_ge by lia]. f_equal. f_equal. f_equal.
    apply take_ge. rewrite length_drop. lia.
  - by rewrite take_ge by lia.
Qed.

(** ** The frame in the layout of the receiver *)

Definition rx_image : list Z :=
  (fun y => default 0 (fb !! Z.to_nat (y / lr * lt + y mod lr))) <$> seqZ 0 (lr * H).

Lemma rx_image_len : arr_len rx_image = lr * H.
Proof.
  destruct (lk_lines _ _ _ _ Hlk) as [_ Hl], (lk_bil _ _ _ _ Hlk) as [Hb _], (lk_height _ _ _ _ Hlk) as [Hh _].
  unfold arr_len, rx_image. rewrite length_fmap, length_seqZ. nia.
Qed.

Lemma rx_image_at i j :
  0 <= i < H -> 0 <= j < bil -> rx_image !! Z.to_nat (i * lr + j) = fb !! Z.to_nat (i * lt + j).
Proof.
  intros Hi Hj. destruct (lk_lines _ _ _ _ Hlk) as [Hl1 Hl2]. unfold rx_image.
  rewrite list_lookup_fmap, lookup_seqZ_lt by nia. cbn [fmap option_fmap option_map].
  rewrite Z.add_0_l, Z2Nat.id by nia. replace (i * lr + j) with (j + i * lr) by ring.
  rewrite Z.mod_add, Z.div_add, Z.mod_small, Z.div_small by lia. rewrite Z.add_0_l.
  destruct (lookup_lt_is_Some_2 fb (Z.to_nat (i * lt + j))) as [x ->]; [|done].
  unfold arr_len in Hfb. nia.
Qed.

Lemma rx_image_img i j :
  0 <= i < H -> 0 <= j < bil -> rx_image !! Z.to_nat (i * lr + j) = img (i * bil + j).
Proof. intros Hi Hj. rewrite rx_image_at, img_at by lia. done. Qed.

Lemma rx_image_flat y : lr = bil -> 0 <= y < F -> rx_image !! Z.to_nat y = img y.
Proof.
  intros Hl Hy. destruct (lk_bil _ _ _ _ Hlk) as [Hb _]. pose proof (Z.div_mod y bil ltac:(lia)) as Hd.
  pose proof (Z.mod_pos_bound y bil Hb). assert (0 <= y / bil < H).
  { split; [apply Z.div_pos; lia|apply Z.div_lt_upper_bound; lia]. }
  rewrite Hd at 1. replace (bil * (y / bil) + y mod bil) with (y / bil * lr + y mod bil) by (rewrite Hl; ring).
  rewrite rx_image_img by lia. f_equal. lia.
Qed.

(** A copy of a packet writes what the image has there. *)
Lemma piece_of_image off (bytes : list Z) x0 :
  0 <= off -> 0 < arr_len bytes ->
  (forall j, 0 <= j < arr_len bytes -> bytes !! Z.to_nat j = img (x0 + j)) ->
  (forall j, 0 <= j < arr_len bytes -> rx_image !! Z.to_nat (off + j) = img (x0 + j)) ->
  off + arr_len bytes <= arr_len rx_image /\
  bytes = take (length bytes) (drop (Z.to_nat off) rx_image).
Proof.
  intros Ho Hlen Hb Hi. unfold arr_len in *. assert (Hin : off + Z.of_nat (length bytes) <= Z.of_nat (length rx_image)).
  { specialize (Hi (Z.of_nat (length bytes) - 1) ltac:(lia)).
    rewrite <- Hb in Hi by lia.
    destruct (lookup_lt_is_Some_2 bytes (Z.to_nat (Z.of_nat (length bytes) - 1))) as [x Hx]; [lia|].
    rewrite Hx in Hi. apply lookup_lt_Some in Hi. lia. }
  split; [done|]. apply list_eq. intros n. destruct (decide (n < length bytes)%nat).
  - rewrite lookup_take_lt, lookup_drop by done.
    specialize (Hb (Z.of_nat n) ltac:(lia)). specialize (Hi (Z.of_nat n) ltac:(lia)).
    rewrite Nat2Z.id in Hb. rewrite Hb, <- Hi. f_equal. lia.
  - rewrite lookup_ge_None_2 by lia. symmetry. apply lookup_ge_None_2. rewrite length_take. lia.
Qed.

(** ** The packets of the frame as the receiver's theorem wants them *)

Definition npkts : nat := Z.to_nat (tv_total_pkts tc).
Definition pkt_bytes (k : nat) : Z := plen (Z.of_nat k).
Definition pkt_region (k : nat) : list (Z * Z) :=
  (fun c => (c.1, arr_len c.2)) <$> rv_pkt_copies rc (txp (Z.of_nat k)).

Lemma npkts_range k : (k < npkts)%nat -> 0 <= Z.of_nat k < tv_total_pkts tc.
Proof. unfold npkts. lia. Qed.

Lemma copies_of_image k :
  0 <= k < tv_total_pkts tc ->
  Forall (fun c => 0 <= c.1 /\ c.1 + arr_len c.2 <= arr_len rx_image /\
    c.2 = take (length c.2) (drop (Z.to_nat c.1) rx_image)) (rv_pkt_copies rc (txp k)).
Proof.
  intros Hk. pose proof (row_range k Hk) as Hr. pose proof (col_range k Hk) as Hc.
  pose proof (plen_range k Hk) as [Hp HpF]. assert (Hst : pos k = row k * bil + col k) by done.
  destruct (payload_spec k Hk) as [Hlen Hpay]. destruct (lk_lines _ _ _ _ Hlk) as [_ Hl].
  rewrite (rx_copies k Hk).
  destruct (crosses k) eqn:Hx; cbn [andb].
  - destruct (cross k Hk Hx) as (Hsg & HpL & Hx1 & Hx2 & Hrow). destruct (pkt_line_lengths k Hk Hx) as (_ & Hl1 & _).
    rewrite Z.gtb_ltb. destruct (Z.ltb_spec bil lr) as [Hpad|Hnp].
    + assert (H1 : arr_len (take (Z.to_nat (bil - col k)) (payload k)) = bil - col k)
        by (unfold arr_len in *; rewrite length_take; lia).
      assert (H2 : arr_len (drop (Z.to_nat (bil - col k)) (payload k)) = L - (bil - col k))
        by (unfold arr_len in *; rewrite length_drop; lia).
      repeat apply Forall_cons_2; [| |apply Forall_nil_2]; cbn [fst snd]; (split; [nia|]).
      * apply (piece_of_image _ _ (pos k)); [nia|lia| |]; rewrite H1; intros j Hj.
        -- rewrite lookup_take_lt by lia. apply Hpay. lia.
        -- replace (row k * lr + col k + j) with (row k * lr + (col k + j)) by lia.
           rewrite rx_image_img by lia. f_equal. lia.
      * apply (piece_of_image _ _ ((row k + 1) * bil)); [nia|lia| |]; rewrite H2; intros j Hj.
        -- rewrite lookup_drop. replace (Z.to_nat (bil - col k) + Z.to_nat j)%nat with (Z.to_nat (bil - col k + j)) by lia.
           rewrite Hpay by lia. f_equal. lia.
        -- apply rx_image_img; lia.
    + apply Forall_cons_2; [|apply Forall_nil_2]. cbn [fst snd]. split; [nia|].
      apply (piece_of_image _ _ (pos k)); [nia|lia| |]; rewrite Hlen; intros j Hj; [by apply Hpay|].
      replace (row k * lr + col k + j) with (pos k + j) by nia.
      apply rx_image_flat; [lia|]. unfold plen in *. nia.
  - pose proof (no_cross k Hk Hx). apply Forall_cons_2; [|apply Forall_nil_2]. cbn [fst snd].
    split; [nia|]. apply (piece_of_image _ _ (pos k)); [nia|lia| |]; rewrite Hlen; intros j Hj; [by apply Hpay|].
    replace (row k * lr + col k + j) with (row k * lr + (col k + j)) by lia.
    rewrite rx_image_img by lia. f_equal. lia.
Qed.

Lemma txp_carries k :
  (k < npkts)%nat ->
  carries rc npkts seq0 ts rx_image pkt_bytes pkt_region k (txp (Z.of_nat k)).
Proof.
  intros HkN. pose proof (npkts_range k HkN) as Hk. destruct (rx_length _ Hk) as (_ & _ & Hm & Hpl).
  split; [done|by apply rx_filter| |done|by apply rx_bounds|by rewrite rx_seq|done|done|
         by apply copies_of_image].
  by rewrite (txp_fields _ Hk).
Qed.

(** The packets follow each other without gap or overlap. *)
Lemma pos_0 : pos 0 = 0.
Proof.
  destruct (lk_bil _ _ _ _ Hlk) as [Hb _]. pose proof (lk_total _ _ _ _ Hlk) as Ht.
  unfold pos, row, col. destruct single; [rewrite Z.div_0_l, Z.mod_0_l by lia; done|].
  change (0 * L) with 0. rewrite Z.div_0_l, Z.mod_0_l by lia. done.
Qed.

Lemma contiguous k :
  0 <= k < tv_total_pkts tc ->
  pos k + plen k = if k + 1 <? tv_total_pkts tc then pos (k + 1) else F.
Proof.
  intros Hk. destruct (lk_len _ _ _ _ Hlk) as [HL _]. destruct single eqn:Hsg.
  - destruct (single_idx k Hsg Hk) as (Hkk & Hm & Hr & Hcol & Hc). pose proof (lk_total _ _ _ _ Hlk) as Ht.
    rewrite Hsg in Ht. destruct Ht as (Hn & Ht & Hl & _).
    assert (Hnext : forall r m, 0 <= m < n_line -> k + 1 = r * n_line + m -> pos (k + 1) = r * bil + m * L).
    { intros r m Hm' E. unfold pos, row, col. rewrite Hsg, E.
      rewrite (Z.add_comm (r * n_line) m), Z.div_add, Z.mod_add, Z.div_small, Z.mod_small by lia. done. }
    unfold plen. rewrite Hsg, Hcol. unfold pos at 1. rewrite Hcol.
    destruct (Z.lt_ge_cases (k mod n_line + 1) n_line) as [Hin|Hend].
    + rewrite (proj2 (Z.ltb_lt _ _)) by nia. rewrite (Hnext (row k) (k mod n_line + 1)) by lia. nia.
    + assert (Hm1 : k mod n_line = n_line - 1) by lia. rewrite Hm1 in *. rewrite Z.min_r by nia.
      destruct (Z.ltb_spec (k + 1) (tv_total_pkts tc)); [rewrite (Hnext (row k + 1) 0) by nia; nia|].
      assert (row k = H - 1) as -> by nia. nia.
  - pose proof (proj1 (block_in_frame k Hsg) (proj2 Hk)). unfold plen. rewrite Hsg, !pos_block by done.
    destruct (Z.ltb_spec (k + 1) (tv_total_pkts tc)) as [Hn|Hn].
    + apply block_in_frame in Hn; [|done]. lia.
    + assert (~ k + 1 < tv_total_pkts tc) as Hge by lia. rewrite block_in_frame in Hge by done. lia.
Qed.

Definition reached (n : nat) : Z := if Z.of_nat n <? tv_total_pkts tc then pos (Z.of_nat n) else F.

Lemma reached_S n :
  (n < npkts)%nat -> reached n = pos (Z.of_nat n) /\ reached (S n) = reached n + pkt_bytes n.
Proof.
  intros Hn. pose proof (npkts_range n Hn) as Hk. unfold reached, pkt_bytes.
  rewrite (proj2 (Z.ltb_lt (Z.of_nat n) _)) by lia. rewrite (contiguous _ Hk).
  split; [done|]. by replace (Z.of_nat (S n)) with (Z.of_nat n + 1) by lia.
Qed.

Lemma total_pos : 0 < tv_total_pkts tc.
Proof.
  destruct (lk_height _ _ _ _ Hlk) as [Hh _]. pose proof frame_small as [HF _].
  destruct single eqn:Hsg; [|apply block_in_frame; [done|lia]].
  pose proof (lk_total _ _ _ _ Hlk) as Ht. rewrite Hsg in Ht. nia.
Qed.

Lemma sum_pkts n : (n <= npkts)%nat -> sum_len pkt_bytes (seq 0 n) = reached n.
Proof.
  induction n as [|n IH]; intros Hn.
  - unfold reached. pose proof total_pos. rewrite (proj2 (Z.ltb_lt _ _)) by lia.
    change (0 = pos 0). by rewrite pos_0.
  - destruct (reached_S n) as [_ ->]; [lia|]. rewrite seq_S, sum_len_app, IH by lia.
    unfold sum_len. cbn [foldr Nat.add]. lia.
Qed.

Lemma pos_cover n x :
  (n <= npkts)%nat -> 0 <= x < reached n ->
  exists k, 0 <= k < tv_total_pkts tc /\ pos k <= x < pos k + plen k.
Proof.
  induction n as [|n IH]; intros Hn Hx.
  - unfold reached in Hx. pose proof total_pos. rewrite (proj2 (Z.ltb_lt _ _)) in Hx by lia.
    change (Z.of_nat 0) with 0 in Hx. rewrite pos_0 in Hx. lia.
  - destruct (reached_S n ltac:(lia)) as [Hp HS]. destruct (Z.lt_ge_cases x (reached n)); [apply IH; lia|].
    exists (Z.of_nat n). split; [by apply npkts_range|]. unfold pkt_bytes in HS. lia.
Qed.

Lemma reached_all : reached npkts = F.
Proof. pose proof total_pos. unfold reached, npkts. rewrite (proj2 (Z.ltb_ge _ _)) by lia. done. Qed.

Lemma link_stream : stream_ok rc npkts pkt_bytes.
Proof.
  destruct (lk_frame _ _ _ _ Hlk) as (_ & Hfr & _), (lk_bitmap _ _ _ _ Hlk) as [_ HN].
  pose proof frame_small as [HF0 HF]. destruct (lk_len _ _ _ _ Hlk) as [HL _]. split.
  - intros k HkN. apply plen_range, npkts_range, HkN.
  - by rewrite sum_pkts, reached_all, Hfr by lia.
  - rewrite Hfr. lia.
  - unfold npkts. lia.
Qed.

(** Every byte of every line is in the region of a packet. *)
Lemma line_covered i j :
  0 <= i < H -> 0 <= j < bil ->
  exists k o n, (k < npkts)%nat /\ (o, n) ∈ pkt_region k /\ o <= i * lr + j < o + n.
Proof.
  intros Hi Hj. destruct (lk_len _ _ _ _ Hlk) as (HL & _ & HLb), (lk_lines _ _ _ _ Hlk) as [_ Hl].
  destruct (pos_cover npkts (i * bil + j)) as (k & Hk & Hpos & Hn); [done|rewrite reached_all; nia|].
  pose proof (row_range k Hk) as Hr. pose proof (col_range k Hk) as Hc. unfold pos in Hpos, Hn.
  destruct (payload_spec k Hk) as [Hlen _].
  exists (Z.to_nat k). unfold pkt_region. rewrite Z2Nat.id, (rx_copies k Hk) by lia.
  destruct (crosses k) eqn:Hx; cbn [andb].
  - destruct (cross k Hk Hx) as (Hsg & HpL & Hx1 & Hx2 & Hrow). destruct (pkt_line_lengths k Hk Hx) as (_ & Hl1 & _).
    assert (Hij : (i = row k /\ col k <= j) \/ (i = row k + 1 /\ j < L - (bil - col k))).
    { assert (i = row k \/ i = row k + 1) as [->| ->] by nia; [left|right]; nia. }
    rewrite Z.gtb_ltb. destruct (Z.ltb_spec bil lr).
    + destruct Hij as [[-> Hj1]|[-> Hj1]].
      * exists (row k * lr + col k), (bil - col k). split; [unfold npkts; lia|]. split; [|lia].
        cbn. apply elem_of_cons. left. unfold arr_len in *. rewrite length_take. f_equal. lia.
      * exists ((row k + 1) * lr), (L - (bil - col k)). split; [unfold npkts; lia|]. split; [|lia].
        cbn. apply elem_of_cons. right. apply elem_of_cons. left. unfold arr_len in *.
        rewrite length_drop. f_equal. lia.
    + exists (row k * lr + col k), (plen k). split; [unfold npkts; lia|]. rewrite <- Hlen.
      split; [cbn; apply elem_of_cons; by left|]. nia.
  - pose proof (no_cross k Hk Hx) as Hnc. exists (row k * lr + col k), (plen k).
    split; [unfold npkts; lia|]. rewrite <- Hlen. split; [cbn; apply elem_of_cons; by left|].
    assert (i = row k) as -> by nia. lia.
Qed.

(** The index the receiver gives the first packet of a frame it sees: right for
    packet 0 and, without padding and cut without regard to lines, for every full
    packet. *)
Lemma first_idx k :
  0 <= k < tv_total_pkts tc -> (k = 0 \/ (single = false /\ lr = bil /\ k + 1 < tv_total_pkts tc)) ->
  rv_first_pkt_idx rc (txp k) = k.
Proof.
  intros Hk Hfirst. destruct (rx_length k Hk) as (_ & _ & _ & Hpl). pose proof (plen_range k Hk) as [Hp HpF].
  destruct (lk_bitmap _ _ _ _ Hlk) as [_ HN], (lk_bil _ _ _ _ Hlk) as [Hb _].
  unfold rv_first_pkt_idx. rewrite (rx_pkt_offset k Hk), Hpl.
  assert (Hdiv : row k * lr + col k = k * plen k).
  { destruct Hfirst as [->|(Hsg & Hl & Hlast)].
    - pose proof pos_0 as H0. unfold pos in H0. pose proof (col_range 0 Hk). pose proof (row_range 0 Hk).
      assert (row 0 = 0) as -> by nia. lia.
    - rewrite Hl. change (row k * bil + col k) with (pos k). rewrite pos_block by done.
      apply block_in_frame in Hlast; [|done]. unfold plen. rewrite Hsg, Z.min_l by lia. done. }
  rewrite Hdiv, Z.mod_mul by lia. cbn [c_true negb Z.eqb]. rewrite Z.div_mul by lia.
  unfold i32. rewrite Z.mod_small by lia. lia.
Qed.

(** The receiver's theorem for this frame. *)
Lemma link_delivers port_is_down notify_ret miss_estimate s s1 slot (a : arrival) rest :
  rx_ready rc rx_image s ->
  rv_slot_by_tmstamp rc port_is_down notify_ret miss_estimate ts s = (Some slot, false, s1) ->
  Forall (fun a => (ar_k a < npkts)%nat /\ ar_pkt a = txp (Z.of_nat (ar_k a))) (a :: rest) ->
  ar_ctrl a = true ->
  (ar_k a = 0%nat \/ (single = false /\ lr = bil /\ (ar_k a + 1 < npkts)%nat)) ->
  (forall k, (k < npkts)%nat -> k ∈ ar_k <$> (a :: rest)) ->
  exists f meta d,
    notified (foldl (receive rc port_is_down notify_ret miss_estimate) s (a :: rest))
      = notified s1 ++ [FrameReady f meta d] /\
    me_status meta <> ST_FRAME_STATUS_CORRUPTED /\ me_timestamp meta = ts /\
    forall i j, 0 <= i < H -> 0 <= j < bil ->
      d !! Z.to_nat (i * lr + j) = fb !! Z.to_nat (i * lt + j).
Proof.
  intros Hready Hopen HF Hct Hfirst Hall. destruct (lk_bitmap _ _ _ _ Hlk) as [HN8 HN31].
  inversion HF as [|? ? [Hka Hpa] HFr]; subst. pose proof (npkts_range _ Hka) as Hk.
  destruct (rx_length _ Hk) as (_ & Hrt & _).
  destruct (reassembly rc port_is_down notify_ret miss_estimate npkts seq0 ts rx_image pkt_bytes
    pkt_region link_stream 0 ltac:(unfold npkts; lia) s s1 slot a rest) as (f & Hdel); try done.
  - rewrite Hpa. by apply txp_carries.
  - by rewrite Hpa.
  - rewrite Hpa, Z.add_0_r. apply first_idx; [done|]. unfold npkts in *.
    destruct Hfirst as [->|(? & ? & ?)]; [by left|right]. split_and!; [done|done|lia].
  - eapply Forall_impl; [exact HFr|]. intros b [Hkb Hpb]. rewrite Hpb. by apply txp_carries.
  - destruct Hdel as [_ _ (meta & d & Hn & Hst & Hts & _ & _ & Hag)]. exists f, meta, d.
    split_and!; try done. intros i j Hi Hj. rewrite <- rx_image_at by done.
    destruct (line_covered i j Hi Hj) as (k & o & n & HkN & Hreg & Hin).
    apply (Hag k o n); [apply elem_of_seq; lia|done|done].
Qed.
End Link.

(** ** The bulk loop *)

Lemma tv_next_idx c sf ts fb st : (tv_build_st20 c sf ts fb st).2 = tv_next st.
Proof. unfold tv_build_st20. by destruct (tv_pkt_start c (st20_pkt_idx st)) as [[[? ?] ?] ?]. Qed.

Lemma tv_build_bulk_length c sf ts fb n : forall st,
  length (tv_build_bulk c n sf ts fb st).1 = n.
Proof.
  induction n as [|n IH]; intros st; [done|]. cbn [tv_build_bulk].
  destruct (_ >=? _); [|destruct (tv_build_st20 c sf ts fb st)];
    match goal with |- context [tv_build_bulk c n sf ts fb ?x] => specialize (IH x) end;
    destruct (tv_build_bulk c n sf ts fb _); cbn in *; lia.
Qed.

(** Bulks of any size build packet after packet, then dummies. *)
Lemma tv_build_bulk_lookup c sf ts fb n : forall i q k,
  is_u32 q -> (k < n)%nat ->
  (tv_build_bulk c n sf ts fb (mk_tv_state i q)).1 !! k =
    Some (if i + Z.of_nat k <? tv_total_pkts c
          then Some (tv_build_st20 c sf ts fb (mk_tv_state (i + Z.of_nat k) (u32 (q + Z.of_nat k)))).1
          else None).
Proof.
  induction n as [|n IH]; intros i q k Hq Hk; [lia|]. cbn [tv_build_bulk st20_pkt_idx].
  rewrite Z.geb_leb. destruct (Z.leb_spec (tv_total_pkts c) i) as [Hge|Hlt].
  - cbn [st20_pkt_idx st20_seq_id]. destruct (tv_build_bulk c n sf ts fb (mk_tv_state (i + 1) q)) as [pkts st] eqn:E.
    destruct k as [|k]; cbn [fst lookup list_lookup].
    + rewrite (proj2 (Z.ltb_ge _ _)) by lia. done.
    + replace pkts with (tv_build_bulk c n sf ts fb (mk_tv_state (i + 1) q)).1 by (by rewrite E).
      change ((tv_build_bulk c n sf ts fb (mk_tv_state (i + 1) q)).1 !! k = Some
        (if i + Z.of_nat (S k) <? tv_total_pkts c
         then Some (tv_build_st20 c sf ts fb (mk_tv_state (i + Z.of_nat (S k)) (u32 (q + Z.of_nat (S k))))).1
         else None)).
      rewrite IH by (done || lia). rewrite !(proj2 (Z.ltb_ge _ _)) by lia. done.
  - pose proof (tv_next_idx c sf ts fb (mk_tv_state i q)) as Hnx.
    destruct (tv_build_st20 c sf ts fb (mk_tv_state i q)) as [w st1] eqn:Ew. cbn [snd] in Hnx. subst st1.
    unfold tv_next. cbn [st20_pkt_idx st20_seq_id].
    destruct (tv_build_bulk c n sf ts fb (mk_tv_state (i + 1) (u32 (q + 1)))) as [pkts st] eqn:E.
    destruct k as [|k].
    + cbn [fst]. change (Some (Some w) = Some (if i + 0 <? tv_total_pkts c
        then Some (tv_build_st20 c sf ts fb (mk_tv_state (i + 0) (u32 (q + 0)))).1 else None)).
      rewrite !Z.add_0_r, (u32_id q) by done. rewrite (proj2 (Z.ltb_lt _ _)) by lia. by rewrite Ew.
    + cbn [fst]. change (pkts !! k = Some
        (if i + Z.of_nat (S k) <? tv_total_pkts c
         then Some (tv_build_st20 c sf ts fb (mk_tv_state (i + Z.of_nat (S k)) (u32 (q + Z.of_nat (S k))))).1
         else None)).
      replace pkts with (tv_build_bulk c n sf ts fb (mk_tv_state (i + 1) (u32 (q + 1)))).1 by (by rewrite E).
      rewrite IH; [|apply u32_range|lia].
      replace (i + 1 + Z.of_nat k) with (i + Z.of_nat (S k)) by lia.
      replace (u32 (u32 (q + 1) + Z.of_nat k)) with (u32 (q + Z.of_nat (S k))); [done|].
      unfold u32. rewrite Zplus_mod_idemp_l. f_equal. lia.
Qed.

(** ** Sessions created from matching ops *)

(** Both sides have the same picture format; lines are whole pixel groups that fit the
    15-bit row fields, a packet is not longer than a line (with the single-line packing
    the last packet of a line is not empty), and the frame fits the 32-bit sizes and the
    receiver's bitmap. The line sizes of the two sides are independent. *)
Record ops_fit (max_size : Z) (tops : st20_tx_ops) (rops : st20_rx_ops) (tc : tv_config)
    (rc : rv_config) (second_field : bool) : Prop := {
  of_width : to_width tops = op_width rops /\ 0 < to_width tops < 32768 /\
    to_width tops mod tv_pg_coverage tc = 0;
  of_height : to_height tops = op_height rops /\ 1 < to_height tops < 32768;
  of_fmt : to_fmt tops = op_fmt rops;
  of_scan : to_interlaced tops = op_interlaced rops /\
    (to_interlaced tops = true -> to_height tops mod 2 = 0);
  of_packing : to_packing tops = ST20_PACKING_GPM_SL ->
    (tv_pkts_in_line tc - 1) * tv_pkt_len tc < tv_bytes_in_line tc;
  of_max_size : 26 <= max_size < 65000;
  of_linesize : is_u32 (to_linesize tops) /\ is_u32 (op_linesize rops);
  of_small : to_width tops * to_height tops * tv_pg_size tc < 4294967296 /\
    tv_linesize tc * to_height tops + 65536 < 4294967296 /\
    st20_linesize rc * to_height tops + 65536 < 4294967296;
  of_len : 0 < tv_pkt_len tc <= tv_bytes_in_line tc;
  of_bitmap : tv_total_pkts tc <= 8 * st20_frame_bitmap_size rc /\ tv_total_pkts tc < 2147483648;
  of_filter : (op_payload_type rops = 0 \/ op_payload_type rops = tv_payload_type tc) /\
    (op_ssrc rops = 0 \/ op_ssrc rops = tv_ssrc tc);
  of_field : second_field = true -> to_interlaced tops = true;
}.

Lemma ceil_div_scale a b c : 0 < b -> 0 < c -> ceil_div (a * c) (b * c) = ceil_div a b.
Proof.
  intros Hb Hc. assert (Hiff : forall k, k < ceil_div (a * c) (b * c) <-> k < ceil_div a b).
  { intros k. rewrite !ceil_div_spec by nia. split; nia. }
  pose proof (Hiff (ceil_div a b)). pose proof (Hiff (ceil_div (a * c) (b * c))). lia.
Qed.

(** The lines of a frame or of a field. *)
Definition field_height (tops : st20_tx_ops) : Z :=
  if to_interlaced tops then Z.shiftr (to_height tops) 1 else to_height tops.

(** The sizes of a line and of a frame whose lines are [a] pixel groups. *)
Lemma line_bytes a cov pgs :
  0 < cov -> 0 <= a -> 0 < pgs -> a * cov * pgs + cov < 18446744073709551616 ->
  u64 (u64 (a * cov * pgs) + cov - 1) / cov = a * pgs.
Proof.
  intros Hc Ha Hp Hs. rewrite (u64_id (a * cov * pgs)) by (unfold is_u64; nia).
  rewrite u64_id by (unfold is_u64; nia).
  replace (a * cov * pgs + cov - 1) with (cov - 1 + a * pgs * cov) by ring.
  rewrite Z.div_add, Z.div_small by lia. lia.
Qed.
Lemma frame_bytes a cov pgs h :
  0 < cov -> 0 <= a -> 0 < pgs -> 0 <= h -> a * cov * h * pgs < 4294967296 ->
  u32 (u32 (a * cov * h) * pgs) / cov = a * pgs * h.
Proof.
  intros Hc Ha Hp Hh Hs. assert (0 <= a * cov * h) by nia.
  rewrite (u32_id (a * cov * h)) by (unfold is_u32; nia). rewrite u32_id by (unfold is_u32; nia).
  replace (a * cov * h * pgs) with (a * pgs * h * cov) by ring. apply Z.div_mul. lia.
Qed.

(** The sender's set-up. *)
Record tx_sizes (tops : st20_tx_ops) (tc : tv_config) (pg : st20_pgroup) (a : Z) : Prop := {
  ts_pg : tv_pg_size tc = pg_size pg /\ tv_pg_coverage tc = pg_coverage pg;
  ts_bil : tv_bytes_in_line tc = a * pg_size pg;
  ts_line : tv_bytes_in_line tc <= tv_linesize tc;
  ts_frame : tv_frame_size tc = a * pg_size pg * field_height tops;
  ts_fb : tv_fb_size tc = u64 (tv_linesize tc * field_height tops);
  ts_len : tv_pkt_len tc < 16384 /\ tv_pkt_len tc mod pg_size pg = 0;
  ts_total : 0 < tv_pkt_len tc ->
    if tv_single_line tc then
      to_packing tops = ST20_PACKING_GPM_SL /\ 0 < tv_pkts_in_line tc /\
      tv_total_pkts tc = field_height tops * tv_pkts_in_line tc /\
      a * pg_size pg <= tv_pkts_in_line tc * tv_pkt_len tc /\ tv_width tc = a * pg_coverage pg
    else tv_total_pkts tc = ceil_div (a * pg_size pg * field_height tops) (tv_pkt_len tc);
}.

Lemma len_checked l : 0 <= l < 65474 -> (u16 (l + SIZEOF_RFC4175_VIDEO_HDR) >? ST_PKT_MAX_ETHER_BYTES) = false -> l < 16384.
Proof.
  intros Hl. rewrite Z.gtb_ltb. intros H%Z.ltb_ge. unfold SIZEOF_RFC4175_VIDEO_HDR, ST_PKT_MAX_ETHER_BYTES in H.
  rewrite u16_id in H by (unfold is_u16; lia). lia.
Qed.

(** The packets of a line when they end with it: [n] of [q] pixel groups. *)
Lemma single_line_len a cov pgs n p q :
  0 < cov -> 0 < pgs -> 0 < a -> n = a * pgs / 1432 + 1 -> p = (a * cov + n - 1) / n ->
  q = (p + cov - 1) / cov -> 0 < n /\ 0 <= q * pgs < 1432 + pgs /\ a * pgs <= n * (q * pgs).
Proof.
  intros Hc Hp Ha Hn Hpp Hq.
  pose proof (Z.div_mod (a * pgs) 1432 ltac:(lia)) as Hd1. pose proof (Z.mod_pos_bound (a * pgs) 1432 ltac:(lia)) as Hm1.
  assert (Hn0 : 0 < n) by (assert (0 <= a * pgs / 1432) by (apply Z.div_pos; nia); lia).
  pose proof (Z.div_mod (a * cov + n - 1) n ltac:(lia)) as He1.
  pose proof (Z.mod_pos_bound (a * cov + n - 1) n Hn0). rewrite <- Hpp in He1.
  pose proof (Z.div_mod (p + cov - 1) cov ltac:(lia)) as He2.
  pose proof (Z.mod_pos_bound (p + cov - 1) cov Hc). rewrite <- Hq in He2.
  assert (Hn1432 : a * pgs < n * 1432) by lia.
  assert (Hlow : a * cov <= n * p) by lia. assert (Hp0 : 0 <= p) by nia.
  assert (Hq0 : p <= q * cov) by lia. assert (0 <= q) by nia.
  assert (Hup : n * (q * cov) <= a * cov + n - 1 + n * (cov - 1)) by nia.
  split; [done|]. split; [split; [nia|]|].
  - assert (n * cov * (q * pgs) < n * cov * (1432 + pgs)); [|nia].
    replace (n * cov * (q * pgs)) with (n * (q * cov) * pgs) by ring.
    assert (n * (q * cov) * pgs <= (a * cov + n - 1 + n * (cov - 1)) * pgs) by nia. nia.
  - assert (a <= n * q) by nia. nia.
Qed.

Lemma tx_attach_sizes max_size idx tops tc pg a :
  tv_attach_config max_size idx tops = inr tc -> st20_get_pgroup (to_fmt tops) = inr pg ->
  26 <= max_size < 65000 ->
  to_width tops = a * pg_coverage pg -> 0 < a < 32768 -> 0 <= field_height tops ->
  a * pg_coverage pg * field_height tops * pg_size pg < 4294967296 ->
  tx_sizes tops tc pg a.
Proof.
  intros Hc Hpg Hmax Hw Ha Hh Hs. pose proof (pgroup_sane _ _ Hpg) as [Hps Hpc]. revert Hc.
  assert (0 < a * pg_coverage pg <= 262136) by nia.
  assert (0 < a * pg_coverage pg * pg_size pg <= 3932040) by nia.
  unfold tv_attach_config. rewrite Hpg. destruct (st_get_fps_timing (to_fps tops)) as [|tm]; [done|].
  rewrite Hw, line_bytes by lia.
  change (if to_interlaced tops then Z.shiftr (to_height tops) 1 else to_height tops)
    with (field_height tops).
  rewrite frame_bytes by lia. case_if; [done|].
  set (line := if to_linesize tops >? a * pg_size pg then to_linesize tops else a * pg_size pg).
  assert (Hline : a * pg_size pg <= line).
  { unfold line. rewrite Z.gtb_ltb. destruct (Z.ltb_spec (a * pg_size pg) (to_linesize tops)); lia. }
  unfold tv_init_pkt.
  change (if to_interlaced tops then Z.shiftr (to_height tops) 1 else to_height tops)
    with (field_height tops).
  rewrite Hw, line_bytes by lia.
  destruct (to_packing tops) eqn:Hpack; try done.
  - case_if; [done|]. case_if; [done|]. intros [= <-].
    apply negb_false_iff, Z.eqb_eq in E0. split; cbn; done.
  - set (mdl := (max_size - SIZEOF_RFC4175_RTP_HDR - SIZEOF_RFC4175_EXTRA_HDR)
                  / (pg_size pg * 2) * (pg_size pg * 2)).
    set (ppp := mdl / pg_size pg).
    assert (Hppp : ppp * pg_size pg = mdl).
    { unfold ppp. unfold mdl. rewrite (Z.mul_assoc _ (pg_size pg) 2), (Z.mul_comm (_ * pg_size pg) 2).
      rewrite Z.mul_assoc, Z.div_mul by lia. ring. }
    assert (Hmdl : 0 <= mdl <= 65000).
    { unfold mdl, SIZEOF_RFC4175_RTP_HDR, SIZEOF_RFC4175_EXTRA_HDR.
      pose proof (Z.div_mod (max_size - 20 - 6) (pg_size pg * 2) ltac:(lia)).
      pose proof (Z.mod_pos_bound (max_size - 20 - 6) (pg_size pg * 2) ltac:(lia)).
      assert (0 <= (max_size - 20 - 6) / (pg_size pg * 2)) by (apply Z.div_pos; lia). nia. }
    rewrite Hppp, (u16_id mdl) by (unfold is_u16; lia). case_if; [done|]. intros [= <-].
    split; cbn; try done.
    + split; [apply len_checked; [lia|done]|]. rewrite <- Hppp. apply Z.mod_mul. lia.
    + intros Hpos. rewrite <- Hppp in *. assert (0 < ppp) by nia.
      replace (a * pg_coverage pg * field_height tops) with (a * field_height tops * pg_coverage pg) by ring.
      replace (pg_coverage pg * ppp) with (ppp * pg_coverage pg) by ring.
      rewrite ceil_div_scale by lia.
      replace (a * pg_size pg * field_height tops) with (a * field_height tops * pg_size pg) by ring.
      by rewrite ceil_div_scale by lia.
  - change (ST_PKT_MAX_ETHER_BYTES - SIZEOF_RFC4175_VIDEO_HDR) with 1432.
    set (n := a * pg_size pg / 1432 + 1). set (p := (a * pg_coverage pg + n - 1) / n).
    set (q := (p + pg_coverage pg - 1) / pg_coverage pg).
    destruct (single_line_len a (pg_coverage pg) (pg_size pg) n p q) as (Hn & HL & Hcov); [lia..|done|done|done|].
    rewrite (u16_id (q * pg_size pg)) by (unfold is_u16; lia). case_if; [done|]. intros [= <-].
    split; cbn; try done. split; [lia|]. apply Z.mod_mul. lia.
Qed.

(** The receiver's. *)
Record rx_sizes (rops : st20_rx_ops) (rc : rv_config) (pg : st20_pgroup) (a H : Z) : Prop := {
  rs_pg : st20_pg_size rc = pg_size pg /\ st20_pg_coverage rc = pg_coverage pg;
  rs_bil : st20_bytes_in_line rc = a * pg_size pg;
  rs_line : st20_bytes_in_line rc <= st20_linesize rc;
  rs_frame : st20_frame_size rc = a * pg_size pg * H;
  rs_fb : 0 < st20_linesize rc * op_height rops < 4294967296 -> st20_fb_size rc = st20_linesize rc * H;
  rs_ops : ops_height rc = op_height rops /\ ops_interlaced rc = op_interlaced rops /\
    ops_payload_type rc = op_payload_type rops /\ ops_ssrc rc = op_ssrc rops;
}.

Lemma shiftr_half x h : x = 2 * h -> Z.shiftr x 1 = h.
Proof. intros ->. rewrite Z.shiftr_div_pow2 by lia. change (2 ^ 1) with 2. mlia. Qed.

Lemma rx_attach_sizes rops rc pg a H :
  rv_attach_config rops = inr rc -> st20_get_pgroup (op_fmt rops) = inr pg ->
  op_width rops = a * pg_coverage pg -> 0 < a < 32768 -> 0 < H ->
  op_height rops = (if op_interlaced rops then 2 * H else H) ->
  a * pg_coverage pg * op_height rops * pg_size pg < 4294967296 ->
  rx_sizes rops rc pg a H.
Proof.
  intros Hc Hpg Hw Ha HH Hh Hs. pose proof (pgroup_sane _ _ Hpg) as [Hps Hpc]. revert Hc.
  assert (0 < a * pg_coverage pg <= 262136) by nia.
  assert (0 < a * pg_coverage pg * pg_size pg <= 3932040) by nia.
  assert (0 < op_height rops) by (rewrite Hh; case_if; lia).
  unfold rv_attach_config. rewrite Hpg. destruct (st_get_fps_timing (op_fps rops)) as [|tm]; [done|].
  rewrite Hw, line_bytes by lia. rewrite frame_bytes by lia. case_if; [done|]. intros [= <-].
  split; cbn; try done.
  - rewrite Z.gtb_ltb. destruct (Z.ltb_spec (a * pg_size pg) (op_linesize rops)); lia.
  - rewrite Hh. destruct (op_interlaced rops); [|done]. apply shiftr_half. ring.
  - generalize (if op_linesize rops >? a * pg_size pg then op_linesize rops else a * pg_size pg).
    intros line Hl. rewrite u64_id by (unfold is_u64; lia). rewrite Hh.
    destruct (op_interlaced rops); [|done]. apply shiftr_half. ring.
Qed.

Lemma link_of_ops max_size idx tops rops tc rc sf :
  tv_attach_config max_size idx tops = inr tc -> rv_attach_config rops = inr rc ->
  ops_fit max_size tops rops tc rc sf -> link tc rc (field_height tops) sf.
Proof.
  intros Ht Hr [[Hw [Hw1 Hwm]] [Hh Hh1] Hfmt [Hsc Hev] Hpk Hmax [Hl1 Hl2] (Hs1 & Hs2 & Hs3) Hlen Hbm [Hpt Hss] Hsf].
  assert (exists pg, st20_get_pgroup (to_fmt tops) = inr pg) as [pg Hpg].
  { revert Ht. unfold tv_attach_config. destruct (st20_get_pgroup (to_fmt tops)); [done|eauto]. }
  pose proof (pgroup_sane _ _ Hpg) as [Hps Hpc].
  assert (Htp : tv_pg_size tc = pg_size pg /\ tv_pg_coverage tc = pg_coverage pg).
  { revert Ht. unfold tv_attach_config. rewrite Hpg. destruct (st_get_fps_timing _); [done|].
    case_if; [done|]. destruct (tv_init_pkt _ _ _ _) as [|[[[? ?] ?] ?]]; [done|]. by intros [= <-]. }
  destruct Htp as [Htp1 Htp2]. rewrite Htp1, Htp2 in *.
  apply Z.mod_divide in Hwm as [a Ha]; [|lia]. assert (Ha0 : 0 < a < 32768) by nia.
  set (H := field_height tops) in *.
  assert (HH : 0 < H < 32768 /\ to_height tops = if to_interlaced tops then 2 * H else H).
  { unfold H, field_height. destruct (to_interlaced tops); [|lia]. specialize (Hev eq_refl).
    rewrite Z.shiftr_div_pow2 by lia. change (2 ^ 1) with 2. clear - Hev Hh1. mlia. }
  destruct HH as [HH Hhh]. assert (HHle : H <= to_height tops) by (rewrite Hhh; case_if; lia).
  assert (Hsm : a * pg_coverage pg * to_height tops * pg_size pg < 4294967296) by (rewrite <- Ha; nia).
  assert (Hsm2 : a * pg_coverage pg * H * pg_size pg < 4294967296) by nia.
  destruct (tx_attach_sizes max_size idx tops tc pg a Ht Hpg Hmax Ha Ha0 ltac:(lia) Hsm2) as
    [_ Hbil Hline Hfr _ [HL HLm] Htot].
  destruct (rx_attach_sizes rops rc pg a H Hr ltac:(by rewrite <- Hfmt) ltac:(by rewrite <- Hw) Ha0 ltac:(lia)
    ltac:(by rewrite <- Hh, <- Hsc) ltac:(by rewrite <- Hh)) as [[Hrp1 Hrp2] Rbil Rline Rfr Rfb (Rh & Ri & Rpt & Rss)].
  rewrite <- Hh in *. fold H in Hfr, Htot.
  assert (Hb0 : 0 < a * pg_size pg) by nia.
  assert (st20_linesize rc * H <= st20_linesize rc * to_height tops) by nia.
  assert (tv_linesize tc * H <= tv_linesize tc * to_height tops) by nia.
  split; rewrite ?Htp1, ?Htp2, ?Rpt, ?Rss, ?Rh, ?Ri, ?Hbil; try done.
  - lia.
  - rewrite Rbil. split_and!; [done|done|apply Z.mod_mul; lia|]. rewrite Z.div_mul by lia. lia.
  - rewrite <- Hbil at 1. rewrite <- Rbil. lia.
  - split_and!; [done|done|]. apply Rfb. nia.
  - split_and!; [lia|lia|]. nia.
  - split_and!; lia.
  - specialize (Htot ltac:(lia)). destruct (tv_single_line tc); [|done].
    destruct Htot as (Hsl & Hn & Ht' & Hge & Hwd). split_and!; try done.
    + rewrite <- Hbil. by apply Hpk.
    + rewrite Hwd, Z.div_mul by lia. done.
  - intros Hs'. rewrite <- Hsc. by apply Hsf.
Qed.

(** ** The property *)

(** C1: A frame sent by an ST 2110-20 sender arrives. For sessions created from
    matching ops, the packets that the bulk loop builds from the frame buffer are
    received in any order, any number of times and on either port, packet 0 first
    (or, when packets are cut without regard to lines and the receiver's lines have
    no padding, any packet but the last); the packing is any of the three; the
    receiver had a free frame for the new timestamp. Then the application of the
    receiver is told of exactly one frame, with that timestamp and not corrupted,
    and every line of it is the sender's line, whatever the padding on each side. *)
Theorem st20_end_to_end max_size idx tops rops tc rc sf ts seq0 fb bulk
    port_is_down notify_ret miss_estimate s s1 slot a rest :
  tv_attach_config max_size idx tops = inr tc -> rv_attach_config rops = inr rc ->
  ops_fit max_size tops rops tc rc sf -> is_u32 seq0 ->
  arr_len fb = tv_linesize tc * field_height tops ->
  rx_ready rc (replicate (Z.to_nat (st20_fb_size rc)) 0) s ->
  rv_slot_by_tmstamp rc port_is_down notify_ret miss_estimate ts s = (Some slot, false, s1) ->
  tv_total_pkts tc <= Z.of_nat bulk ->
  let sent := (tv_build_bulk tc bulk sf ts fb (mk_tv_state 0 seq0)).1 in
  Forall (fun a => exists w, sent !! ar_k a = Some (Some w) /\ ar_pkt a = wr_pkt w) (a :: rest) ->
  ar_ctrl a = true ->
  (ar_k a = 0%nat \/
   (tv_single_line tc = false /\ st20_linesize rc = tv_bytes_in_line tc /\ Z.of_nat (ar_k a) + 1 < tv_total_pkts tc)) ->
  (forall k, (Z.of_nat k < tv_total_pkts tc) -> k ∈ ar_k <$> (a :: rest)) ->
  exists f meta d,
    notified (foldl (receive rc port_is_down notify_ret miss_estimate) s (a :: rest))
      = notified s1 ++ [FrameReady f meta d] /\
    me_status meta <> ST_FRAME_STATUS_CORRUPTED /\ me_timestamp meta = ts /\
    forall i j, 0 <= i < field_height tops -> 0 <= j < tv_bytes_in_line tc ->
      d !! Z.to_nat (i * st20_linesize rc + j) = fb !! Z.to_nat (i * tv_linesize tc + j).
Proof.
  intros Ht Hr Hfit Hseq Hfb Hready Hopen Hbulk sent HF Hct Hfirst Hall.
  pose proof (link_of_ops _ _ _ _ _ _ _ Ht Hr Hfit) as Hlk.
  eapply (link_delivers tc rc _ sf ts fb seq0 Hlk Hfb); try done.
  - destruct Hready as [H1 H2 H3]. split; [done|done|]. eapply Forall_impl; [exact H3|].
    cbn. intros fr ->. rewrite length_replicate. destruct (lk_frame _ _ _ _ Hlk) as (_ & _ & ->).
    pose proof (rx_image_len tc rc _ sf fb Hlk) as Hlen. unfold arr_len in Hlen. lia.
  - eapply Forall_impl; [exact HF|]. cbn beta. intros b (w & Hs & Hb).
    assert (Hlt : (ar_k b < bulk)%nat).
    { apply lookup_lt_Some in Hs. unfold sent in Hs. by rewrite tv_build_bulk_length in Hs. }
    unfold sent in Hs. rewrite tv_build_bulk_lookup in Hs by done. case_if_in Hs; [|done].
    injection Hs as Hs. rewrite Hb, <- Hs. unfold npkts, txp. apply Z.ltb_lt in E. split; [lia|done].
  - unfold npkts. destruct Hfirst as [->|(? & ? & ?)]; [by left|right]. split_and!; [done|done|lia].
  - intros k Hk. apply Hall. unfold npkts in Hk. lia.
Qed.

(** A frame of 16 by 4 pixels, 4:2:2 at 10 bit: lines of 40 bytes, padded to 50 by
    the sender and to 60 by the receiver, in six packets of which two cross a line. *)
Definition demo_tx_ops : st20_tx_ops :=
  mk_tx_ops false 16 4 ST_FPS_P59_94 ST20_FMT_YUV_422_10BIT ST20_PACKING_GPM 50 96 0.
Definition demo_rx_ops : st20_rx_ops :=
  mk_rx_ops 2 96 0 false 16 4 ST_FPS_P59_94 ST20_FMT_YUV_422_10BIT 60 0 false false.
Definition demo_tc : tv_config :=
  mk_tv_config 16 false 5 2 50 40 160 200 30 0 6
    (mk_info (mk_group 92 3) (mk_group 98 2) (mk_group 72 1) group_zero) 96 0x123450.
Definition demo_rc : rv_config := mk_rv_config 2 96 0 false 16 4 false 60 40 240 160 1 5 2 0 0 2.
Definition demo_fb : list Z := seqZ 0 200.
Definition demo_rx_session : rv_session :=
  mk_rv_session (replicate 2 (mk_frame_trans 0 (replicate 240 0) [] 0 0))
    (replicate 2 (slot_zero <| sl_bitmap := Some (bm_zero 1) |>)) (-1) [0; 0] 0 (fun _ => 0) [].
Definition demo_recv (k : nat) (port : Z) : arrival :=
  mk_arrival k (wr_pkt (tv_build_st20 demo_tc false 7 demo_fb
    (mk_tv_state (Z.of_nat k) (u32 (4294967293 + Z.of_nat k)))).1) port true.
Definition demo_rest : list arrival :=
  [demo_recv 5 1; demo_recv 2 0; demo_recv 2 1; demo_recv 4 1; demo_recv 1 0; demo_recv 3 0; demo_recv 0 1].
Definition demo_rx_opened : rv_session :=
  (rv_slot_by_tmstamp demo_rc (fun _ => false) (fun _ => 0) (fun _ _ => 0) 7 demo_rx_session).2.

Lemma demo_fit : ops_fit 56 demo_tx_ops demo_rx_ops demo_tc demo_rc false.
Proof. split; try (vm_compute; repeat split; congruence). vm_compute. split; by left + right. Qed.

Lemma st20_end_to_end_witness :
  exists f meta d,
    notified (foldl (receive demo_rc (fun _ => false) (fun _ => 0) (fun _ _ => 0)) demo_rx_session
      (demo_recv 0 0 :: demo_rest)) = notified demo_rx_opened ++ [FrameReady f meta d] /\
    me_status meta <> ST_FRAME_STATUS_CORRUPTED /\ me_timestamp meta = 7 /\
    forall i j, 0 <= i < field_height demo_tx_ops -> 0 <= j < tv_bytes_in_line demo_tc ->
      d !! Z.to_nat (i * st20_linesize demo_rc + j) = demo_fb !! Z.to_nat (i * tv_linesize demo_tc + j).
Proof.
  apply (st20_end_to_end 56 0 demo_tx_ops demo_rx_ops demo_tc demo_rc false 7 4294967293 demo_fb 8
    (fun _ => false) (fun _ => 0) (fun _ _ => 0) demo_rx_session demo_rx_opened 0
    (demo_recv 0 0) demo_rest).
  - reflexivity.
  - reflexivity.
  - apply demo_fit.
  - split; reflexivity || discriminate.
  - reflexivity.
  - split; [split; vm_compute; congruence|repeat constructor; discriminate|repeat constructor].
  - reflexivity.
  - vm_compute. discriminate.
  - repeat apply Forall_cons_2; try apply Forall_nil_2; eexists; (split; [vm_compute; reflexivity|reflexivity]).
  - reflexivity.
  - by left.
  - intros k Hk. cbn in Hk. assert (k < 6)%nat by lia.
    do 6 (destruct k as [|k]; [cbn; rewrite !elem_of_cons; tauto|]). lia.
Defined.
